(* ===== verification/_CoqProject ===== *)
-Q . S2P
Prelude.v
Orders.v
OrderedSet.v
PTime.v
TimeText.v
DataFlag.v
ControlInfo.v
UseInfo.v
KvData.v
KvDataOps.v
SortedData.v
KvalobsData.v
KvDataContainer.v
Sql.v
Database.v
Observation.v
DataUpdateTransaction.v
Codes.v
Rows.v
ObsPgm.v
Conf.v
StationFilter.v
Scanning.v
Text.v
CommaString.v
CronString.v
Signature.v
ParamList.v
ResultFilter.v
KlData.v
Xml.v
Serial.v
Formatter.v
ScriptResult.v
DatabaseAccess.v
DelayedSave.v
CachedAccess.v
DataStore.v
CheckScript.v
CheckRunner.v
KvalobsDb.v
ConnectionPool.v
PgConnection.v
Gate.v
Decoder.v
Saving.v
KlDecoder.v
Kv2kv.v
Lexer.v
SynopLexer.v
Synop.v
SynopReport.v
MiTime.v
Station.v
SynopDecoder.v
SynopExecute.v
ManagerDb.v
ManagerFill.v
Manager.v
ConfTree.v
ConfParser.v
ConfRoundtrip.v
BlockingQueue.v
KafkaThread.v
DataInput.v
DataInputHttp.v
DataInputThreads.v
Base64.v
