(* ===== verification/Prelude.v ===== *)
(** * kvalobs: a verification development

    kvalobs is the quality control system for meteorological observations of
    MET Norway. This library models, as pure functions and steps over explicit
    state, the path of an observation from a message to the database, through the
    quality control and back, with the data types of that path, and proves what
    the parts promise. Names of definitions are those of the C++ code; paths below
    are relative to src/src/lib, unless they begin with src.

    ** The program and the files of this library

    A decoder turns a message into values. The decoder of kl data
    ([KlDecoder.v], [KlData.v]) splits a message into observations, reads its
    header and its lines, and hands the values to the base of the decoders
    ([Decoder.v]). There the station filters ([StationFilter.v]) decide what is
    saved, queued and published, and a [DataUpdateTransaction] writes the
    observation: it reads the stored one with [Observation.v] from the tables of
    [Database.v], decides whether the new one is a duplicate, a replacement or an
    update, writes it and places it in the work queue. The transaction runs on a
    connection that retries it ([PgConnection.v]). What is published is a
    [KvalobsData], built on the sorted containers of [SortedData.v]; between
    installations it travels as a document ([Serial.v], over the tree and the
    events of [Xml.v]), which the decoder of [Kv2kv.v] reads, compares with what
    is stored, and saves. Synoptic messages are scanned and parsed ([Synop.v]),
    get their time and station ([SynopDecoder.v]) and are saved in the same way
    ([SynopExecute.v]).

    Messages reach the decoders through the server kvDataInputd
    ([DataInputHttp.v], [DataInput.v]): a client posts a message, the server takes
    a connection to the database, finds the decoder of the type, lets a thread of
    its pool ([BlockingQueue.v]) run it, follows redirections, gives what is
    published to the thread for Kafka ([KafkaThread.v]) and answers. What several
    requests do to each other is in [DataInputThreads.v].

    kvManagerd (src/src/kvManagerd; [ManagerDb.v], [ManagerFill.v], [Manager.v])
    adds the observations and values that were expected and did not come, and
    moves finished work out of the work queue.

    The quality control (src/src/kvQabased) takes observations from the work queue
    ([KvalobsDb.v]) and runs the checks of each ([CheckRunner.v]): a check's
    signature ([Signature.v]) says which data it needs, [DataStore.v] reads it
    through the layers of the database interface, [CheckScript.v] makes the script
    of it, runs it and applies the results to the control flags of the values.
    Every value carries two flags of sixteen nibbles, the control flags, which the
    checks write, and the use flags, which are computed from them.

    Shared parts:
    - [Prelude.v]: machine integers, characters, [atoi], doubles, generic lemmas
      on lists, tactics.
    - [Orders.v], [OrderedSet.v]: strict weak orders built key by key,
      [std::list::sort], and [std::set] over such an order.
    - [PTime.v]: the interface [PTime] to boost::posix_time with its laws and an
      implementation, [stamp], for concrete instances.
    - [TimeText.v]: [time_from_string_nothrow] (miutil/timeconvert.h).
    - [Scanning.v], [Text.v], [CommaString.v]: texts as lists of characters,
      trimming, lines, reading numbers, and miutil/commastring.cc.
    - [Conf.v]: the configuration tree of miconfparser (valelement.cc,
      confsection.cc) as its readers see it; [ConfTree.v]: the same tree with its
      marks, as it is built, changed and written; [ConfParser.v]: the reading of a
      text, confparser.cc and ConfParserLexer.ll; [ConfRoundtrip.v]: the text of a
      written tree is read as that tree.
    - [Base64.v]: miutil/base64.cc. [BlockingQueue.v]: miutil/blockingqueue.h and
      threadpool.cc, the pool as a step relation.

    Values and observations:
    - [DataFlag.v], [ControlInfo.v], [UseInfo.v]: kvalobs/flag/kvDataFlag.cc,
      kvControlInfo.cc and kvUseInfo.cc. A flag is the list of its sixteen
      characters.
    - [KvData.v]: kvalobs/kvData.cc and kvTextData.cc, the records and writers.
    - [KvDataOps.v]: kvalobs/kvDataOperations.cc: valid, missing, rejected and
      corrected values, the operators' functions, and the comparison of values.
    - [SortedData.v], [KvalobsData.v]: decodeutility/sorteddata.h and
      kvalobsdata.cc. A container is the list of its keys and elements in the
      order of iteration; a reference that is then modified is an update function.
    - [KvDataContainer.v]: decodeutility/KvDataContainer.cc.
    - [Xml.v], [Serial.v]: the exchange format, kvalobsdataserializer.cc and
      kvalobsdataparser.cc of decodeutility. A document is a tree; the parser runs
      on the events a library delivers for it. [Formatter.v]: kvDataFormatter.cc,
      the older format of lines.
    - [Codes.v]: decodeutility/decodeutility.cc, code tables of synop messages.
    - [Rows.v], [ObsPgm.v]: rows of a result (kvdb/kvdb.cc), the reading of kvData,
      kvTextData, kvTypes and kvObsPgm from them, [std::stod], and
      decodeutility/getUseInfo7.cc.
    - [ParamList.v]: kvalobs/paramlist.cc and decodeutility/isTextParam.cc.

    The database:
    - [Sql.v]: the quoting of kvalobs/kvDbBase.cc and of kvalobs/observation.cc,
      with the way a server reads a literal.
    - [Database.v]: the tables of src/src/kvalobs_database/kvalobs_schema.sql
      that observations live in, their keys and cascades, and the statements of
      the decoders as programs of a state and error monad [M].
    - [Observation.v], [DataUpdateTransaction.v]: kvalobs/observation.cc and
      decoder/decoderbase/DataUpdateTransaction.cc on these tables.
    - [ConnectionPool.v]: kvdb/ConnectionPool.cc, a step relation on its state.
    - [PgConnection.v]: dbdrivers/pgsqldb.cc and kvdb/kvdb.cc: statements,
      reconnecting, and the performing of a transaction with retries.
    - [Gate.v]: kvalobs/kvDbGate.cc and DataInsertTransaction.cc on a connection.
    - [Station.v]: kvalobs/kvStation.cc.

    The decoders:
    - [StationFilter.v], [Decoder.v]: decoder/decoderbase/StationFilter.cc and
      decoder.cc.
    - [Saving.v]: what a sequence of transactions of a decoder does to the tables,
      the specification of the decoders below.
    - [KlData.v], [KlDecoder.v]: decoder/kldecoder/DataDecode.cc and kldecoder.cc.
    - [Kv2kv.v]: decoder/kv2kvdecoder/kv2kvDecoder.cc, with the queries of
      kvalobs/kvQueries.cc and the views of the schema that it reads.
    - [Lexer.v]: regular expressions and the scanning that flex makes of a list of
      rules; [SynopLexer.v]: the rules of decoder/synopdecoder/synopLexer.ll.
    - [Synop.v]: decoder/synopdecoder/synop.cc, synop.h and synopElements.h;
      [SynopReport.v]: reports on land as data with their text and their values,
      the specification of the parser.
    - [MiTime.v]: the time class of puTools as an interface with its laws, and the
      calendar. [SynopDecoder.v], [SynopExecute.v]: decoder/synopdecoder/
      kvSynopDecoder.cc and synopdecoder.cc.

    The servers:
    - [DataInput.v]: src/src/kvDataInputd/DataSrcApp.cc, ConnectionCache.cc and
      DecodeCommand.cc, and decoder/decoderbase/decodermgr.cc: one request, as a
      program of a state monad with the outcomes done, exception, waiting and
      undefined. [DataInputHttp.v]: ObservationHandler.cc, and the client,
      kvsubscribe/HttpSendData.cc and SendDataJsonResult.cc. [DataInputThreads.v]:
      the requests of several threads as a step relation. [KafkaThread.v]:
      kvsubscribe/KafkaProducerThread.cc as a step relation.
    - [ManagerDb.v], [ManagerFill.v], [Manager.v]: src/src/kvManagerd: its
      statements and tables, finding and adding missing data and cleaning the
      work queue, and the loops of its tasks.

    The quality control (paths relative to src/src/kvQabased/src):
    - [CronString.v], [Signature.v], [ResultFilter.v]: db/returntypes and
      db/databaseResultFilter.cpp.
    - [DatabaseAccess.v]: db/DatabaseAccess.h as a type class, and the layer that
      forwards; [DelayedSave.v], [CachedAccess.v]: the layers that delay writes
      and keep what was read; [KvalobsDb.v]: db/KvalobsDatabaseAccess.cpp, the
      implementation on tables, as an instance of the class. The clients are
      proved against the class and its laws.
    - [ScriptResult.v], [DataStore.v], [CheckScript.v]: scriptcreate/ and
      scriptrunner/.
    - [CheckRunner.v]: CheckRunner.cpp.

    ** What is proved

    - Flags: a write lands on exactly one nibble or changes nothing; texts and
      flags are inverse; the use flags are legal, idempotent, keep what they do
      not own, and encode without loss which controls were done.
    - Values: rejecting, correcting and the operators' functions on every state
      of a value; the comparison is a strict weak order (for real times and
      sensors below 96, and a counterexample beyond).
    - KvalobsData: the containers stay well formed; an object refines the
      specification "the last value per parameter and observation"; listing it
      is sorted and complete; the effect of inserting a text, which loses values.
    - SQL: escaping gives one literal whatever the text.
    - Observations: what is written is read back, nothing else changes, a second
      observation with the same key is an error.
    - The transaction, as refinements on the map from observations to values: an
      insertion adds, a duplicate changes nothing, a replacement assigns, an
      update overrides key by key; processed work is kept in the statistics, and
      unprocessed work in the queue when the caller uses the queue.
    - Connections: while the connection is not lost, performing a transaction
      commits the attempt that answered true, as a whole, or leaves the committed
      state as it was; it ends when the serialization errors do; a list inserted
      through the gate is all or none; the pool never hands out a connection twice.
      What a lost connection does is [reconnect_breaks_transaction].
    - Messages: the texts of the decoder of kl data are read back as the values
      they describe; executing a message ends, and saves its data time by time,
      all of it or a proper prefix, while the connection is not lost.
    - Exchange: an object that the format can hold ([writable]), written as a
      document and read back in any layout, is the same but for the texts that the
      writer loses; a message from another installation is saved as far as it was
      accepted, group by group, or not at all, and an exception that leaves the
      decoder saves some of the first groups.
    - Synoptic messages: the text of a report is scanned and parsed to its values;
      its day and hour become the time it was made at, within a window around the
      present; the registers of stations are what the table says; executing a
      message, however it ends, saves its values by one transaction or nothing, and
      loses them, with the same answer, after a failure of the database that may go
      away.
    - Filters and files: what a configuration or a parameter file describes is
      what is used.
    - The quality control: a check's writes are one transaction; only control
      flags of the values the check named change; the layers of the interface
      refine direct access; only the columns of the control change, and a history
      of them grows; what is selected is not selected again for ten minutes, unless
      its start is taken back, and every selection makes progress; the check of an observation ends, and fails only
      in the ways the code means to.
    - The configuration: a tree that is written is read back as it was, whatever
      is read ends, lookups find the first section or value that the path names,
      and sections that are marked are gone after they are deleted.
    - The server of messages: with two connections free every message is answered
      with the verdict of the decoder that ran on it, after at most six
      redirections, and connections and decoders are given back, but for the message
      that is redirected once more; client and server agree on data and answers;
      which posts get which response; the threads can stop for two reasons, all
      connections lost by exceptions or a check of the parameters that waits for one,
      and stop for the second in a run with the numbers of the program; the pool
      runs each task once and comes to its end; no command for Kafka is forgotten or
      told twice.
    - The manager: on a server that refuses nothing and with a configuration that
      [config_ok] describes, missing data are added up to the present, for whole hours
      each value that is expected and not there and no other, and the queue of
      unfinished observations drains; serialization failures that end change
      nothing; on a connection that is not made anew finished work is moved to the
      statistics.
    - Rows, times, code tables, observation programs, signatures, cron strings:
      the round trips and the functional behaviour on every branch.

    Theorems whose statement shows a defect of the code say so in their comment.

    ** Conventions, bounds and parameters

    An [int] is a [Z]; conversions that narrow are [to_char] and [to_int], and
    hypotheses give the range where a theorem needs it. A [double] is a
    [spec_float] of the Standard Library. An exception is [None], a constructor
    of a result type, or the [inr] of the monad; a step that the language leaves
    undefined is the error [undefined_behaviour] or [Undefined]. Recursion is
    structural where the code's is. The loops with fuel are:
    - [sensor_loop] of [KvDataOps.v], which subtracts the character 0 from a
      sensor; its fuel is the quotient, the number of rounds, and
      [sensor_loop_mod] shows that it gives the remainder;
    - [splitString_] and [split_text], which consume the text; their fuel is its
      length;
    - [perform_loop] of [PgConnection.v]: a round for each attempt that counts, 20 for
      a decoder, and one for each serialization error, which counts as no attempt.
      [SerializationBudget] says that their number is bounded;
      [pg_perform_terminates] gives a number of rounds that is enough then, and
      [pg_perform_livelock] shows that the condition is needed. What runs
      transactions takes the fuel for them as an argument, and [execute_terminates]
      and the lemmas [synop_execute_settles] and [kv2kv_execute_settles] show that
      from some fuel on nothing changes;
    - [execute_loop] of [KlDecoder.v], with the lines of the message as fuel;
    - [scan] of [Lexer.v], with the length of the text; [scan_fuel] shows that more
      makes no difference;
    - [scan_conf] of [ConfParser.v], with more than the length of the text;
      [parse_total] shows that every text is read to its end. [expand], the names
      of the environment in the name of a file, needs a round for each of them
      and [expand_for_ever] shows a name for which no number is enough;
    - [decode_loop] of [Base64.v], with the length of the text;
      [decode_loop_fuel] shows that more makes no difference;
    - the loops of [Manager.v], which the code leaves only at its end: their fuel
      is the number of rounds, and [run_catches_up] gives a number that is enough;
    - [redirect_loop] of [DataInput.v] counts down the redirections as in the code;
    - [rule_star] of [Signature.v], the repetition of a parser, with the length of
      the text;
    - the retries of [CheckRunner.v] count down as in the code.

    Code outside the repository is a parameter, with its documented behaviour in
    a class of laws of its own and an instance that shows that the laws can hold:
    [PTime], [PCalendar], [PTimeText], [PMinutes] and [PDbTime] for
    Boost.Date_Time; [BoostText], [BoostTrimIf], [BoostSplit] and [BoostFloat]
    for the text functions of Boost; [SpiritInt] for its parsers; [DbText] for the
    text form of numbers and times in a statement and the escape of the client
    library; [Libpq] for the client library, with any answers; [PgServer] for a server that
    keeps the rules of transactions, and loses the connection when it likes: what it
    promises holds up to there; [DbServer] for the
    server, which runs the statements of a transaction on the tables it sees,
    with [SeparateTables] for statements that leave the observations alone;
    [PTimeShow], [BoostShow] and [StreamDouble] for the printing of times and
    numbers; [XmlReader] for the reading of a document; [MiTime] for the time
    class of puTools and [LibM] for the exponential function, of which no law is
    used; [SeparateStations] for the table of stations;
    [Perl] for the interpreter; [StationParamSet] for a set over an operator that
    is no order; [ShowDouble] for the printing of doubles. Faults of the database
    under the quality control come from an oracle that may fail any statement.

    For the servers: [BoostRegex] for a match of an expression, [JsonText] for the
    reading and writing of JSON by the vendored library, [Surroundings] for the
    clock, files and signals, [Plugins] for the decoders that the server loads;
    the transport of HTTP and the reports of the Kafka library are arguments.

    ** What is not modelled

    - The tables data_history and text_data_history, which only the triggers of the
      schema write and no program here reads. [KvalobsDb.v] has the first, as far as
      the updates of the quality control add to it.
    - The calls that wait without a limit to add to the pool
      ([ThreadPool::execute] without a time) and [KafkaProducerThread::send], which
      passes over a suspended queue: no modelled code makes them. The shutdown of
      the server, and exceptions for want of memory, in [DataInputThreads.v].
    - Log output, the parsing of options, signals, sockets, processes, files and
      directories, the loading of shared objects, and the start of the programs
      around it: services of the operating system without a state of their own
      that the modelled code reads.
    - CORBA (lib/kvskel, lib/corbahelper) and kvServiced and kvServiced2, which
      are not built any more; JSON, which is third-party code; the consumers of
      Kafka and the client library kvcpp, which hand data on to their callers.
    - decoderbase/metadata.cc, which reads a text that no decoder looks at;
      miTimeParse.cc, which only its tests call; splitstr, cmprspace and replace
      of miutil.
    - The decoders of other formats. bufr and kltext end in the same [addDataToDb]
      as the modelled ones; bufr needs tables and a library that are not in the
      repository; exec runs a program and redirects what it writes; autoobs is not
      built any more; comobs has a format of its own.
    - The other table classes, which differ from the modelled ones in their
      columns; the drivers of other databases; programs and scripts for export,
      import and administration. *)

From stdpp Require Export base numbers gmap strings list.
From Stdlib Require Export ZArith.
From Stdlib Require Export SpecFloat.
From Stdlib Require Export Lia.
From Stdlib Require Export Ascii.

#[global] Open Scope Z_scope.

(** ** Machine integers

    An [int] of the program is a [Z]; where a conversion narrows a value the
    wrap-around is written with one of the two functions below. The platform is
    the one the program is built for (x86-64 Linux): [char] is signed, two's
    complement. *)

Definition wrap_signed (w z : Z) : Z := (z + 2 ^ (w - 1)) mod 2 ^ w - 2 ^ (w - 1).

(** The implicit conversion of an [int] argument to a [const char] parameter. *)
Definition to_char (z : Z) : Z := wrap_signed 8 z.

(** The conversion of a wider integer to [int]. *)
Definition to_int (z : Z) : Z := wrap_signed 32 z.

Definition INT_MAX : Z := 2147483647.
Definition INT_MIN : Z := -2147483648.
Definition LONG_MAX : Z := 9223372036854775807.
Definition LONG_MIN : Z := -9223372036854775808.

Lemma wrap_signed_small w z :
  0 < w -> - 2 ^ (w - 1) <= z < 2 ^ (w - 1) -> wrap_signed w z = z.
Proof.
  intros Hw Hz. unfold wrap_signed.
  assert (2 ^ w = 2 * 2 ^ (w - 1)) as E.
  { rewrite <- Z.pow_succ_r by lia. f_equal. lia. }
  rewrite Z.mod_small by lia. lia.
Qed.

Lemma wrap_signed_range w z :
  0 < w -> - 2 ^ (w - 1) <= wrap_signed w z < 2 ^ (w - 1).
Proof.
  intros Hw. unfold wrap_signed.
  assert (2 ^ w = 2 * 2 ^ (w - 1)) as E.
  { rewrite <- Z.pow_succ_r by lia. f_equal. lia. }
  pose proof (Z.pow_pos_nonneg 2 (w - 1) ltac:(lia) ltac:(lia)).
  pose proof (Z.mod_pos_bound (z + 2 ^ (w - 1)) (2 ^ w) ltac:(lia)). lia.
Qed.

Lemma to_char_small z : -128 <= z < 128 -> to_char z = z.
Proof. intros. apply wrap_signed_small; lia. Qed.

Lemma to_char_range z : -128 <= to_char z < 128.
Proof. apply (wrap_signed_range 8). lia. Qed.

Lemma to_int_small z : INT_MIN <= z <= INT_MAX -> to_int z = z.
Proof. unfold INT_MIN, INT_MAX. intros. apply wrap_signed_small; lia. Qed.

(** ** Characters and strings

    A [std::string] is a [string] when it is data and a [list ascii] when an
    algorithm indexes or rebuilds it; [to_bytes] and [of_bytes] convert. *)

Abbreviation bytes := (list ascii).

Definition to_bytes (s : string) : bytes := String.list_ascii_of_string s.
Definition of_bytes (b : bytes) : string := String.string_of_list_ascii b.

#[export] Instance ascii_inhabited : Inhabited ascii := populate "0"%char.

Lemma to_of_bytes b : to_bytes (of_bytes b) = b.
Proof. apply String.list_ascii_of_string_of_list_ascii. Qed.

Lemma of_to_bytes s : of_bytes (to_bytes s) = s.
Proof. apply String.string_of_list_ascii_of_string. Qed.

Lemma to_bytes_inj s t : to_bytes s = to_bytes t -> s = t.
Proof. intros E. rewrite <- (of_to_bytes s), E. apply of_to_bytes. Qed.

Lemma of_bytes_inj a b : of_bytes a = of_bytes b -> a = b.
Proof. intros E. rewrite <- (to_of_bytes a), E. apply to_of_bytes. Qed.

Lemma length_to_bytes s : length (to_bytes s) = String.length s.
Proof. unfold to_bytes. induction s; simpl; congruence. Qed.

(** The value of a character, as [unsigned char] and as [char]. *)
Definition uchar_val (c : ascii) : Z := Z.of_N (Ascii.N_of_ascii c).
Definition char_val (c : ascii) : Z := to_char (uchar_val c).

(** The character with a given value: [char(z)]. *)
Definition char_of (z : Z) : ascii := Ascii.ascii_of_N (Z.to_N (z mod 256)).

Lemma uchar_val_range c : 0 <= uchar_val c < 256.
Proof.
  unfold uchar_val. pose proof (Ascii.N_ascii_bounded c). lia.
Qed.

Lemma uchar_val_char_of z : uchar_val (char_of z) = z mod 256.
Proof.
  unfold uchar_val, char_of.
  pose proof (Z.mod_pos_bound z 256 ltac:(lia)).
  rewrite Ascii.N_ascii_embedding; lia.
Qed.

Lemma char_of_uchar_val c : char_of (uchar_val c) = c.
Proof.
  unfold uchar_val, char_of.
  pose proof (uchar_val_range c) as H. unfold uchar_val in H.
  rewrite Z.mod_small by lia. rewrite N2Z.id. apply Ascii.ascii_N_embedding.
Qed.

Lemma uchar_val_inj c d : uchar_val c = uchar_val d -> c = d.
Proof. intros E. rewrite <- (char_of_uchar_val c), E. apply char_of_uchar_val. Qed.

#[export] Instance uchar_val_Inj : Inj (=) (=) uchar_val.
Proof. exact uchar_val_inj. Qed.

(** [isdigit] and [isspace] in the C locale. *)
Definition is_digit (c : ascii) : bool :=
  (uchar_val "0" <=? uchar_val c) && (uchar_val c <=? uchar_val "9").

Definition is_space (c : ascii) : bool :=
  (uchar_val c =? 32) || ((9 <=? uchar_val c) && (uchar_val c <=? 13)).

(** The value of the decimal digit string [b], continuing from [acc]. *)
Fixpoint digits_val (acc : Z) (b : bytes) : Z :=
  match b with
  | c :: r => if is_digit c then digits_val (acc * 10 + (uchar_val c - 48)) r else acc
  | [] => acc
  end.

Fixpoint skip_space (b : bytes) : bytes :=
  match b with
  | c :: r => if is_space c then skip_space r else b
  | [] => []
  end.

(** [strtol(s, 0, 10)] clamped to [long], and [atoi], its conversion to [int]. *)
Definition strtol (b : bytes) : Z :=
  match skip_space b with
  | "-"%char :: r => Z.max LONG_MIN (- digits_val 0 r)
  | "+"%char :: r => Z.min LONG_MAX (digits_val 0 r)
  | r => Z.min LONG_MAX (digits_val 0 r)
  end.

Definition atoi (s : string) : Z := to_int (strtol (to_bytes s)).

(** ** Doubles

    A [double] is an IEEE-754 binary64 value of the Standard Library's
    [SpecFloat]; the operations are its rounded operations. *)

Module Dbl.
Definition prec : Z := 53.
Definition emax : Z := 1024.
Definition of_Z (z : Z) : spec_float := binary_normalize prec emax z 0 false.
(** A decimal literal [n / d], correctly rounded. *)
Definition lit (n d : Z) : spec_float := SFdiv prec emax (of_Z n) (of_Z d).
Definition add := SFadd prec emax.
Definition sub := SFsub prec emax.
Definition mul := SFmul prec emax.
Definition abs := SFabs.
Definition ltb := SFltb.
Definition eqb := SFeqb.
(** [static_cast<int>]: truncation; [None] where the standard leaves the
    conversion undefined (not finite, or out of the range of [int]). *)
Definition to_int (f : spec_float) : option Z :=
  match f with
  | S754_zero _ => Some 0
  | S754_finite s m e =>
      let a := if 0 <=? e then Z.pos m * 2 ^ e else Z.pos m / 2 ^ (- e) in
      let v := if s then - a else a in
      if (INT_MIN <=? v) && (v <=? INT_MAX) then Some v else None
  | S754_infinity _ | S754_nan => None
  end.
End Dbl.

#[export] Instance spec_float_eq_dec : EqDecision spec_float.
Proof. solve_decision. Defined.

(** ** Shared list facts *)

Lemma lookup_map_seq {A} (g : nat -> A) n i :
  (i < n)%nat -> (g <$> seq 0 n) !! i = Some (g i).
Proof. intros H. rewrite list_lookup_fmap, lookup_seq_lt by done. done. Qed.

(** Lists of equal length agree when their in-range elements do. *)
Lemma list_eq_range {A} (l k : list A) n :
  length l = n -> length k = n ->
  (forall i, (i < n)%nat -> l !! i = k !! i) -> l = k.
Proof.
  intros Hl Hk H. apply list_eq. intros i.
  destruct (decide (i < n)%nat) as [Hi|Hi]; [by apply H|].
  rewrite !lookup_ge_None_2 by lia. done.
Qed.

(** A goal quantified over a small integer range is split into its instances. *)
Lemma Z_range_ind (P : Z -> Prop) (n : nat) :
  Forall P (Z.of_nat <$> seq 0 n) -> forall z, 0 <= z < Z.of_nat n -> P z.
Proof.
  intros H z Hz. rewrite Forall_forall in H. apply H.
  apply list_elem_of_fmap. exists (Z.to_nat z). split; [lia|].
  apply elem_of_seq. lia.
Qed.

(** ** Hint databases and tactics *)

(** Range and well-formedness facts of the flags. *)
Create HintDb kvflag.


(** Case analysis on every boolean test of the goal. *)
Ltac case_tests :=
  repeat match goal with
         | |- context [if ?b then _ else _] => destruct b eqn:?
         end.

(** Turn boolean comparisons in the context into propositions. *)
Ltac bool_to_prop :=
  repeat match goal with
         | H : andb _ _ = true |- _ => apply andb_prop in H; destruct H
         | H : orb _ _ = false |- _ => apply orb_false_elim in H; destruct H
         | H : (_ =? _) = true |- _ => apply Z.eqb_eq in H
         | H : (_ =? _) = false |- _ => apply Z.eqb_neq in H
         | H : (_ <? _) = true |- _ => apply Z.ltb_lt in H
         | H : (_ <? _) = false |- _ => apply Z.ltb_ge in H
         | H : (_ <=? _) = true |- _ => apply Z.leb_le in H
         | H : (_ <=? _) = false |- _ => apply Z.leb_gt in H
         | H : (_ >? _) = _ |- _ => rewrite Z.gtb_ltb in H
         | H : (_ >=? _) = _ |- _ => rewrite Z.geb_leb in H
         | H : negb _ = true |- _ => apply negb_true_iff in H
         | H : negb _ = false |- _ => apply negb_false_iff in H
         end.

(** Evaluate the decision procedure of the goal. *)
Ltac by_decision := refine (bool_decide_unpack _ _); vm_compute; exact I.
