(* ===== verification/Orders.v ===== *)
(** * Orders built by comparing one key after the other

    The comparison functors of the program are chains of
    [if (a.k != b.k) return a.k < b.k;]. [strict_weak ok e l] says that, on the
    values that satisfy [ok], [l] is a strict weak order whose equivalence is
    [e], which is what [std::list::sort] and [std::set] require; [sw_lex] adds
    one key in front of a chain. *)

From Stdlib Require Export Sorted.
From S2P Require Import Prelude.

Record strict_weak {A : Type} (ok : A -> Prop) (e l : A -> A -> bool) : Prop := {
  sw_refl a : ok a -> e a a = true;
  sw_sym a b : ok a -> ok b -> e a b = true -> e b a = true;
  sw_etrans a b c : ok a -> ok b -> ok c -> e a b = true -> e b c = true -> e a c = true;
  sw_irrefl a b : ok a -> ok b -> e a b = true -> l a b = false;
  sw_trans a b c : ok a -> ok b -> ok c -> l a b = true -> l b c = true -> l a c = true;
  sw_compat_l a b c : ok a -> ok b -> ok c -> e a b = true -> l b c = true -> l a c = true;
  sw_compat_r a b c : ok a -> ok b -> ok c -> l a b = true -> e b c = true -> l a c = true;
  sw_total a b : ok a -> ok b -> e a b = false -> l a b = true \/ l b a = true
}.

Arguments sw_refl {_ _ _ _}.
Arguments sw_sym {_ _ _ _}.
Arguments sw_etrans {_ _ _ _}.
Arguments sw_irrefl {_ _ _ _}.
Arguments sw_trans {_ _ _ _}.
Arguments sw_compat_l {_ _ _ _}.
Arguments sw_compat_r {_ _ _ _}.
Arguments sw_total {_ _ _ _}.

(** One more key in front. *)
Definition lex_eq {A} (e1 e2 : A -> A -> bool) (a b : A) : bool := e1 a b && e2 a b.
Definition lex_lt {A} (e1 l1 l2 : A -> A -> bool) (a b : A) : bool :=
  if negb (e1 a b) then l1 a b else l2 a b.

Section strict_weak.
Context {A : Type} {ok : A -> Prop} {e l : A -> A -> bool} (S : strict_weak ok e l).

Lemma sw_asym a b : ok a -> ok b -> l a b = true -> l b a = false.
Proof.
  intros Ha Hb H. destruct (l b a) eqn:E; [|done].
  pose proof (sw_trans S a b a Ha Hb Ha H E) as X.
  rewrite (sw_irrefl S a a Ha Ha (sw_refl S a Ha)) in X. done.
Qed.

(** Incomparability is exactly the equivalence. *)
Lemma sw_incomparable a b :
  ok a -> ok b -> (l a b = false /\ l b a = false) <-> e a b = true.
Proof.
  intros Ha Hb. split.
  - intros [H1 H2]. destruct (e a b) eqn:E; [done|].
    destruct (sw_total S a b Ha Hb E); congruence.
  - intros E. split; [by apply (sw_irrefl S)|].
    apply (sw_irrefl S); [done..|]. by apply (sw_sym S).
Qed.

Lemma sw_lt_not_eq a b : ok a -> ok b -> l a b = true -> e a b = false.
Proof.
  intros Ha Hb H. destruct (e a b) eqn:E; [|done].
  rewrite (sw_irrefl S a b) in H by done. done.
Qed.

Lemma sw_weaken (ok' : A -> Prop) :
  (forall a, ok' a -> ok a) -> strict_weak ok' e l.
Proof. intros H. destruct S. split; eauto. Qed.
End strict_weak.

Lemma sw_lex {A} (ok : A -> Prop) (e1 l1 e2 l2 : A -> A -> bool) :
  strict_weak ok e1 l1 -> strict_weak ok e2 l2 ->
  strict_weak ok (lex_eq e1 e2) (lex_lt e1 l1 l2).
Proof.
  intros S1 S2. unfold lex_eq, lex_lt. split.
  - intros a Ha. by rewrite (sw_refl S1 a Ha), (sw_refl S2 a Ha).
  - intros a b Ha Hb [H1 H2]%andb_true_iff.
    by rewrite (sw_sym S1 a b Ha Hb H1), (sw_sym S2 a b Ha Hb H2).
  - intros a b c Ha Hb Hc [H1 H2]%andb_true_iff [H3 H4]%andb_true_iff.
    by rewrite (sw_etrans S1 a b c Ha Hb Hc H1 H3), (sw_etrans S2 a b c Ha Hb Hc H2 H4).
  - intros a b Ha Hb [H1 H2]%andb_true_iff. rewrite H1. simpl. by apply (sw_irrefl S2).
  - intros a b c Ha Hb Hc.
    destruct (e1 a b) eqn:Eab, (e1 b c) eqn:Ebc; simpl; intros H H'.
    + rewrite (sw_etrans S1 a b c) by done. simpl. by apply (sw_trans S2 a b c).
    + pose proof (sw_compat_l S1 a b c Ha Hb Hc Eab H') as X.
      by rewrite (sw_lt_not_eq S1 a c).
    + pose proof (sw_compat_r S1 a b c Ha Hb Hc H Ebc) as X.
      by rewrite (sw_lt_not_eq S1 a c).
    + pose proof (sw_trans S1 a b c Ha Hb Hc H H') as X.
      by rewrite (sw_lt_not_eq S1 a c).
  - intros a b c Ha Hb Hc [H1 H2]%andb_true_iff.
    destruct (e1 b c) eqn:Ebc; simpl; intros H.
    + rewrite (sw_etrans S1 a b c) by done. simpl. by apply (sw_compat_l S2 a b c).
    + pose proof (sw_compat_l S1 a b c Ha Hb Hc H1 H) as X.
      by rewrite (sw_lt_not_eq S1 a c).
  - intros a b c Ha Hb Hc H [H1 H2]%andb_true_iff.
    destruct (e1 a b) eqn:Eab; simpl in H.
    + rewrite (sw_etrans S1 a b c) by done. simpl. by apply (sw_compat_r S2 a b c).
    + pose proof (sw_compat_r S1 a b c Ha Hb Hc H H1) as X.
      by rewrite (sw_lt_not_eq S1 a c).
  - intros a b Ha Hb. destruct (e1 a b) eqn:E; simpl.
    + rewrite (sw_sym S1 a b) by done. simpl. by apply (sw_total S2).
    + intros _. destruct (e1 b a) eqn:E'; simpl.
      * apply (sw_sym S1) in E'; [congruence|done..].
      * by apply (sw_total S1).
Qed.

(** Keys compared as integers. *)
Lemma sw_Z {A} (ok : A -> Prop) (f : A -> Z) :
  strict_weak ok (fun a b => f a =? f b) (fun a b => f a <? f b).
Proof. split; intros; lia. Qed.

(** The same functions written differently. *)
Lemma sw_ext {A} (ok : A -> Prop) (e l e' l' : A -> A -> bool) :
  (forall a b, ok a -> ok b -> e a b = e' a b) ->
  (forall a b, ok a -> ok b -> l a b = l' a b) ->
  strict_weak ok e l -> strict_weak ok e' l'.
Proof.
  intros He Hl [H1 H2 H3 H4 H5 H6 H7 H8].
  split; intros *; intros; rewrite <- ?He, <- ?Hl by done;
    repeat match goal with
           | H : e' _ _ = _ |- _ => rewrite <- He in H by done
           | H : l' _ _ = _ |- _ => rewrite <- Hl in H by done
           end; eauto.
Qed.

(** ** Sorting: [std::list::sort]

    A stable insertion sort with respect to a comparison function; for a strict
    weak order every correct stable sort gives this list. *)

Fixpoint sort_insert {A} (l : A -> A -> bool) (x : A) (xs : list A) : list A :=
  match xs with
  | [] => [x]
  | y :: ys => if l y x then y :: sort_insert l x ys else x :: xs
  end.

Definition list_sort {A} (l : A -> A -> bool) (xs : list A) : list A :=
  foldr (sort_insert l) [] xs.

Lemma sort_insert_perm {A} (l : A -> A -> bool) x xs : sort_insert l x xs ≡ₚ x :: xs.
Proof.
  induction xs as [|y ys IH]; simpl; [done|].
  destruct (l y x); [|done]. rewrite IH. apply Permutation_swap.
Qed.

Lemma list_sort_perm {A} (l : A -> A -> bool) xs : list_sort l xs ≡ₚ xs.
Proof.
  induction xs as [|x xs IH]; simpl; [done|]. rewrite sort_insert_perm. by rewrite IH.
Qed.

(** No element of the sorted list is smaller than one before it. *)
Lemma sw_not_less_trans {A} {ok : A -> Prop} {e l : A -> A -> bool} (S : strict_weak ok e l) x y z :
  ok x -> ok y -> ok z -> l y x = false -> l z y = false -> l z x = false.
Proof.
  intros Hx Hy Hz H1 H2. destruct (l z x) eqn:E; [|done].
  destruct (e x y) eqn:Exy.
  - pose proof (sw_compat_r S z x y Hz Hx Hy E Exy). congruence.
  - destruct (sw_total S x y Hx Hy Exy) as [H|H]; [|congruence].
    pose proof (sw_trans S z x y Hz Hx Hy E H). congruence.
Qed.

Lemma sort_insert_sorted {A} {ok : A -> Prop} {e l : A -> A -> bool} (S : strict_weak ok e l) x ys :
  ok x -> Forall ok ys -> StronglySorted (fun a b => l b a = false) ys ->
  StronglySorted (fun a b => l b a = false) (sort_insert l x ys).
Proof.
  intros Hx Hok HS. induction HS as [|y ys HS IH HF]; simpl; [repeat constructor|].
  apply Forall_cons in Hok as [Hy Hok]. destruct (l y x) eqn:E.
  - constructor; [by apply IH|]. rewrite Forall_forall in *. intros z.
    rewrite sort_insert_perm, elem_of_cons. intros [->|Hz]; [|by apply HF].
    by apply (sw_asym S).
  - constructor; [by constructor|]. constructor; [done|].
    rewrite Forall_forall in *. intros z Hz. apply (sw_not_less_trans S x y z); auto.
Qed.

Lemma list_sort_sorted {A} {ok : A -> Prop} {e l : A -> A -> bool} (S : strict_weak ok e l) xs :
  Forall ok xs -> StronglySorted (fun a b => l b a = false) (list_sort l xs).
Proof.
  intros H. induction H as [|x xs Hx Hxs IH]; simpl; [constructor|].
  apply (sort_insert_sorted S); [done| |done].
  rewrite Forall_forall in *. intros z. rewrite list_sort_perm. apply Hxs.
Qed.
