(* ===== verification/OrderedSet.v ===== *)
(** * [std::set] with a comparison of its own

    A set whose elements are compared by a strict weak order, such as the sets of
    values compared by [lt_kvData], as the list of its elements in their order.
    Two elements that are equivalent are one element to the set, also when they
    differ elsewhere. [std::map] is such a set of pairs compared by their keys. *)

From S2P Require Import Prelude Orders.

Section set.
  Context {A : Type} (lt : A -> A -> bool).

(** [find(x)]. *)
Fixpoint set_find (x : A) (s : list A) : option A :=
  match s with
  | [] => None
  | y :: r => if lt y x then set_find x r else if lt x y then None else Some y
  end.

(** [insert(x)]: nothing happens when an equivalent element is there. *)
Fixpoint set_insert (x : A) (s : list A) : list A :=
  match s with
  | [] => [x]
  | y :: r => if lt y x then y :: set_insert x r else if lt x y then x :: y :: r else y :: r
  end.

(** [erase(x)]. *)
Fixpoint set_erase (x : A) (s : list A) : list A :=
  match s with
  | [] => []
  | y :: r => if lt y x then y :: set_erase x r else if lt x y then y :: r else r
  end.

(** Erasing and inserting, which assigns. *)
Definition set_put (x : A) (s : list A) : list A := set_insert x (set_erase x s).

(** The invariant: strictly increasing elements. *)
Definition oset_wf (ok : A -> Prop) (s : list A) : Prop :=
  StronglySorted (fun a b => lt a b = true) s /\ Forall ok s.

End set.

Section laws.
  Context {A : Type} {ok : A -> Prop} {e lt : A -> A -> bool} (S : strict_weak ok e lt).

Lemma oset_wf_cons x s : oset_wf lt ok (x :: s) <->
  ok x /\ Forall (fun y => lt x y = true) s /\ oset_wf lt ok s.
Proof.
  unfold oset_wf. split.
  - intros [HS HF]. inversion HS; inversion HF; subst. done.
  - intros (Hx & HF & HS & HO). split; by constructor.
Qed.

(** One of three ways in which two elements compare. *)
Lemma set_cases a b : ok a -> ok b ->
  (e a b = true /\ lt a b = false /\ lt b a = false) \/
  (e a b = false /\ lt a b = true /\ lt b a = false) \/
  (e a b = false /\ lt a b = false /\ lt b a = true).
Proof.
  intros Ha Hb. destruct (e a b) eqn:E.
  - left. split; [done|]. by apply (sw_incomparable S).
  - right. destruct (sw_total S a b Ha Hb E) as [H|H];
      [pose proof (sw_asym S a b Ha Hb H)|pose proof (sw_asym S b a Hb Ha H)]; tauto.
Qed.

Lemma set_erase_forall (P : A -> Prop) x s : Forall P s -> Forall P (set_erase lt x s).
Proof.
  intros H. induction H as [|y s Hy Hs IH]; simpl; [constructor|].
  case_match; [by constructor|]. case_match; [by constructor|done].
Qed.

Lemma set_insert_forall (P : A -> Prop) x s : P x -> Forall P s -> Forall P (set_insert lt x s).
Proof.
  intros Hx H. induction H as [|y s Hy Hs IH]; simpl; [by constructor|].
  case_match; [by constructor|]. case_match; by repeat constructor.
Qed.

Lemma set_erase_wf x s : oset_wf lt ok s -> oset_wf lt ok (set_erase lt x s).
Proof.
  induction s as [|y s IH]; simpl; [done|]. intros H. pose proof H as (Hy & HF & HS)%oset_wf_cons.
  case_match; [|by case_match]. apply oset_wf_cons. split; [done|]. split; [by apply set_erase_forall|auto].
Qed.

Lemma set_insert_wf x s : ok x -> oset_wf lt ok s -> oset_wf lt ok (set_insert lt x s).
Proof.
  intros Hx. induction s as [|y s IH]; simpl; intros H; [by repeat constructor|].
  pose proof H as (Hy & HF & HS)%oset_wf_cons.
  destruct (lt y x) eqn:E1; [|destruct (lt x y) eqn:E2; [|done]].
  - apply oset_wf_cons. split; [done|]. split; [by apply set_insert_forall|auto].
  - apply oset_wf_cons. split; [done|]. split; [|done]. constructor; [done|].
    destruct HS as [_ HO]. rewrite Forall_forall in *. intros z Hz.
    apply (sw_trans S x y z); auto.
Qed.

Lemma set_find_below x s : ok x -> Forall ok s -> Forall (fun y => lt x y = true) s -> set_find lt x s = None.
Proof.
  intros Hx Hok H. destruct H as [|y s Hy Hs]; [done|]. apply Forall_cons in Hok as [Hoy _]. simpl.
  rewrite (sw_asym S x y Hx Hoy Hy). by rewrite Hy.
Qed.

(** What [find] finds is equivalent, and everything in the set is found. *)
Lemma set_find_Some x y s : ok x -> oset_wf lt ok s -> set_find lt x s = Some y <-> y ∈ s /\ e x y = true.
Proof.
  intros Hx. induction s as [|z s IH]; intros H; simpl.
  { split; [done|]. intros [Hy _]. by apply elem_of_nil in Hy. }
  apply oset_wf_cons in H as (Hz & HF & HS). rewrite elem_of_cons.
  assert (Hok : forall w, w ∈ s -> ok w) by (intros w Hw; destruct HS as [_ HS]; rewrite Forall_forall in HS; auto).
  rewrite Forall_forall in HF.
  destruct (set_cases x z Hx Hz) as [(E & E1 & E2)|[(E & E1 & E2)|(E & E1 & E2)]]; rewrite E2, ?E1.
  - split; [intros [= <-]; by split; [left|]|]. intros [[->|Hy] Ey]; [done|]. exfalso.
    pose proof (HF y Hy) as Hl. apply (sw_sym S) in E; [|done..].
    pose proof (sw_etrans S z x y Hz Hx (Hok y Hy) E Ey) as Ezy.
    rewrite (sw_irrefl S z y) in Hl by auto. done.
  - split; [done|]. intros [[->|Hy] Ey]; [congruence|]. exfalso.
    pose proof (sw_trans S x z y Hx Hz (Hok y Hy) E1 (HF y Hy)) as Hl.
    rewrite (sw_irrefl S x y) in Hl by auto. done.
  - rewrite IH by done. split; [intros []; split; auto|]. intros [[->|Hy] Ey]; [congruence|done].
Qed.

Lemma set_find_None x s : ok x -> oset_wf lt ok s -> set_find lt x s = None <-> forall y, y ∈ s -> e x y = false.
Proof.
  intros Hx Hs. split.
  - intros E y Hy. destruct (e x y) eqn:Exy; [|done].
    assert (set_find lt x s = Some y) by (by apply set_find_Some). congruence.
  - intros H. destruct (set_find lt x s) as [y|] eqn:E; [|done].
    apply set_find_Some in E as [Hy Ey]; [|done..]. rewrite H in Ey by done. done.
Qed.

Lemma elem_of_set_erase x y s : ok x -> oset_wf lt ok s ->
  y ∈ set_erase lt x s <-> y ∈ s /\ e x y = false.
Proof.
  intros Hx. induction s as [|z s IH]; intros H; simpl.
  { split; [intros Hy; by apply elem_of_nil in Hy|by intros [? _]]. }
  apply oset_wf_cons in H as (Hz & HF & HS). rewrite Forall_forall in HF.
  assert (Hok : forall w, w ∈ s -> ok w) by (intros w Hw; destruct HS as [_ HS]; rewrite Forall_forall in HS; auto).
  destruct (set_cases x z Hx Hz) as [(E & E1 & E2)|[(E & E1 & E2)|(E & E1 & E2)]]; rewrite E2, ?E1, ?elem_of_cons.
  - split.
    + intros Hy. split; [by right|]. destruct (e x y) eqn:Exy; [|done].
      apply (sw_sym S) in E; [|done..]. pose proof (sw_etrans S z x y Hz Hx (Hok y Hy) E Exy) as Ezy.
      pose proof (HF y Hy) as Hl. rewrite (sw_irrefl S z y) in Hl by auto. done.
    + intros [[->|Hy] Ey]; [congruence|done].
  - split.
    + intros [->|Hy]; [by split; [left|]|]. split; [by right|]. apply (sw_lt_not_eq S); [done|auto|].
      apply (sw_trans S x z y); auto.
    + by intros [? _].
  - rewrite IH by done. split.
    + intros [->|[Hy Ey]]; [by split; [left|]|]. by split; [right|].
    + intros [[->|Hy] Ey]; [by left|by right].
Qed.

Lemma elem_of_set_insert x y s : ok x -> oset_wf lt ok s ->
  y ∈ set_insert lt x s <-> (y = x /\ set_find lt x s = None) \/ y ∈ s.
Proof.
  intros Hx. induction s as [|z s IH]; intros H; simpl.
  { rewrite list_elem_of_singleton, elem_of_nil. tauto. }
  apply oset_wf_cons in H as (Hz & HF & HS).
  destruct (set_cases x z Hx Hz) as [(E & E1 & E2)|[(E & E1 & E2)|(E & E1 & E2)]]; rewrite E2, ?E1, ?elem_of_cons.
  - split; [by right|]. by intros [[_ ?]|?].
  - tauto.
  - rewrite IH by done. tauto.
Qed.

Lemma set_put_wf x s : ok x -> oset_wf lt ok s -> oset_wf lt ok (set_put lt x s).
Proof. intros. apply set_insert_wf; [done|]. by apply set_erase_wf. Qed.

Lemma elem_of_set_put x y s : ok x -> oset_wf lt ok s ->
  y ∈ set_put lt x s <-> y = x \/ (y ∈ s /\ e x y = false).
Proof.
  intros Hx Hs. unfold set_put. pose proof (set_erase_wf x s Hs) as Hs'.
  rewrite elem_of_set_insert, elem_of_set_erase by done.
  assert (set_find lt x (set_erase lt x s) = None) as ->; [|tauto].
  apply set_find_None; [done..|]. intros z Hz. by apply elem_of_set_erase in Hz as [_ ?].
Qed.

Lemma set_find_put x y s : ok x -> ok y -> oset_wf lt ok s ->
  set_find lt y (set_put lt x s) = if e y x then Some x else set_find lt y s.
Proof.
  intros Hx Hy Hs. pose proof (set_put_wf x s Hx Hs) as Hp.
  assert (Hok : forall w, w ∈ s -> ok w) by (intros w Hw; destruct Hs as [_ Hs]; rewrite Forall_forall in Hs; auto).
  destruct (e y x) eqn:E.
  - apply set_find_Some; [done..|]. split; [|done]. apply elem_of_set_put; [done..|]. by left.
  - destruct (set_find lt y s) as [z|] eqn:Ez.
    + apply set_find_Some in Ez as [Hz Eyz]; [|done..]. apply set_find_Some; [done..|]. split; [|done].
      apply elem_of_set_put; [done..|]. right. split; [done|]. destruct (e x z) eqn:Exz; [|done].
      apply (sw_sym S) in Exz; [|auto..]. rewrite (sw_etrans S y z x) in E by auto. done.
    + apply set_find_None; [done..|]. intros z [->|[Hz _]]%elem_of_set_put; [done| |done..].
      by apply (proj1 (set_find_None y s Hy Hs) Ez).
Qed.

End laws.
