(* ===== verification/PTime.v ===== *)
(** * Time points: the interface to [boost::posix_time::ptime]

    The library is not part of the repository. [PTime] lists the operations the
    modelled code calls, [PTimeLaws] the documented facts about them that the
    theorems use, and [stamp] is an implementation (seconds since an epoch and
    the special values) for the concrete instances. *)

From S2P Require Import Prelude Orders.

Class PTime := {
  ptime : Type;
  ptime_eq_dec :: EqDecision ptime;
  (** [operator<]. *)
  ptime_lt : ptime -> ptime -> bool;
  (** [ptime()], the value "not a date time". *)
  not_a_date_time : ptime;
  (** [ptime(neg_infin)]. *)
  neg_infin : ptime;
  is_special : ptime -> bool;
  is_not_a_date_time : ptime -> bool
}.

Arguments ptime : clear implicits.

Class PTimeLaws (PT : PTime) := {
  ptime_lt_irrefl t : ptime_lt t t = false;
  ptime_lt_trans t u v : ptime_lt t u = true -> ptime_lt u v = true -> ptime_lt t v = true;
  ptime_lt_total t u :
    is_not_a_date_time t = false -> is_not_a_date_time u = false -> t <> u ->
    ptime_lt t u = true \/ ptime_lt u t = true;
  is_not_a_date_time_spec t : is_not_a_date_time t = true <-> t = not_a_date_time;
  not_a_date_time_special : is_special not_a_date_time = true;
  neg_infin_special : is_special neg_infin = true;
  neg_infin_is_time : is_not_a_date_time neg_infin = false
}.

(** Calendar fields of a time point and the arithmetic on it. *)
Class PCalendar (PT : PTime) := {
  pt_year : ptime PT -> Z;
  pt_month : ptime PT -> Z;
  pt_day : ptime PT -> Z;
  pt_hours : ptime PT -> Z;
  pt_minutes : ptime PT -> Z;
  pt_seconds : ptime PT -> Z;
  (** [days_before_weekday(t.date(), Sunday).days()]. *)
  pt_days_before_sunday : ptime PT -> Z;
  (** [(t - u).total_seconds()]. *)
  pt_diff_seconds : ptime PT -> ptime PT -> Z;
  (** [t - hours(h)]. *)
  pt_sub_hours : ptime PT -> Z -> ptime PT
}.

(** Ordering a structure by a time point in it. *)
Lemma sw_ptime {PT : PTime} {PL : PTimeLaws PT} {A} (ok : A -> Prop) (f : A -> ptime PT) :
  (forall a, ok a -> is_not_a_date_time (f a) = false) ->
  strict_weak ok (fun a b => bool_decide (f a = f b)) (fun a b => ptime_lt (f a) (f b)).
Proof.
  intros Hok. split; intros *; rewrite ?bool_decide_eq_true, ?bool_decide_eq_false.
  - done.
  - congruence.
  - congruence.
  - intros _ _ ->. apply ptime_lt_irrefl.
  - intros _ _ _. apply ptime_lt_trans.
  - by intros _ _ _ ->.
  - by intros _ _ _ ? <-.
  - intros Ha Hb Hne. by apply ptime_lt_total; auto.
Qed.

(** ** An implementation *)

Inductive stamp := NaDT | NegInf | PosInf | At (secs : Z).

#[export] Instance stamp_eq_dec : EqDecision stamp.
Proof. solve_decision. Defined.

Definition stamp_lt (t u : stamp) : bool :=
  match t, u with
  | NaDT, _ | _, NaDT => false
  | NegInf, NegInf => false
  | NegInf, _ => true
  | _, NegInf => false
  | At a, At b => a <? b
  | At _, PosInf => true
  | PosInf, _ => false
  end.

#[export] Instance stamp_time : PTime := {|
  ptime := stamp;
  ptime_lt := stamp_lt;
  not_a_date_time := NaDT;
  neg_infin := NegInf;
  is_special t := match t with At _ => false | _ => true end;
  is_not_a_date_time t := match t with NaDT => true | _ => false end
|}.

#[export] Instance stamp_laws : PTimeLaws stamp_time.
Proof.
  split; simpl.
  - intros []; simpl; try done. lia.
  - intros [] [] []; simpl; try done. lia.
  - intros [] []; simpl; try done; try tauto. intros _ _ Hne.
    destruct (Z.lt_trichotomy secs secs0) as [?|[?|?]]; [left; lia|congruence|right; lia].
  - intros []; split; congruence.
  - done.
  - done.
  - done.
Qed.

(** The days since 1970-01-01 of a civil date, and back (proleptic Gregorian). *)
Definition days_from_civil (y m d : Z) : Z :=
  let y := if m <=? 2 then y - 1 else y in
  let era := y / 400 in
  let yoe := y - era * 400 in
  let doy := (153 * (if m >? 2 then m - 3 else m + 9) + 2) / 5 + d - 1 in
  let doe := yoe * 365 + yoe / 4 - yoe / 100 + doy in
  era * 146097 + doe - 719468.

Definition civil_from_days (z : Z) : Z * Z * Z :=
  let z := z + 719468 in
  let era := z / 146097 in
  let doe := z - era * 146097 in
  let yoe := (doe - doe / 1460 + doe / 36524 - doe / 146096) / 365 in
  let doy := doe - (365 * yoe + yoe / 4 - yoe / 100) in
  let mp := (5 * doy + 2) / 153 in
  let d := doy - (153 * mp + 2) / 5 + 1 in
  let m := if mp <? 10 then mp + 3 else mp - 9 in
  (if m <=? 2 then yoe + era * 400 + 1 else yoe + era * 400, m, d).

Definition stamp_secs (t : stamp) : Z := match t with At s => s | _ => 0 end.

Definition stamp_of (y m d h mi s : Z) : stamp :=
  At (days_from_civil y m d * 86400 + h * 3600 + mi * 60 + s).

#[export] Instance stamp_calendar : PCalendar stamp_time := {|
  pt_year t := (civil_from_days (stamp_secs t / 86400)).1.1;
  pt_month t := (civil_from_days (stamp_secs t / 86400)).1.2;
  pt_day t := (civil_from_days (stamp_secs t / 86400)).2;
  pt_hours t := (stamp_secs t mod 86400) / 3600;
  pt_minutes t := (stamp_secs t mod 3600) / 60;
  pt_seconds t := stamp_secs t mod 60;
  (* 1970-01-01 is a Thursday *)
  pt_days_before_sunday t := (stamp_secs t / 86400 + 4) mod 7;
  pt_diff_seconds t u := stamp_secs t - stamp_secs u;
  pt_sub_hours t h := match t with At s => At (s - h * 3600) | _ => t end
|}.

Example civil_roundtrip_leap : civil_from_days (days_from_civil 2024 2 29) = (2024, 2, 29).
Proof. reflexivity. Qed.
