(* ===== verification/TimeText.v ===== *)
(** * Times as text: [time_from_string_nothrow] (src/src/lib/miutil/timeconvert.h)

    The functions of Boost that the conversion calls are the operations of
    [BoostText] and [PTimeText]; [boost_text] and [stamp_time_text] implement
    them for the concrete instances. *)

From S2P Require Import Prelude Orders PTime.

(** [boost::trim_copy], [replace_first_copy] and [lexical_cast] to the integer
    types; [None] is the exception [bad_lexical_cast]. *)
Class BoostText := {
  trim_copy : bytes -> bytes;
  replace_first_copy : bytes -> bytes -> bytes -> bytes;
  lexical_cast_int : bytes -> option Z;
  lexical_cast_long : bytes -> option Z
}.

(** [ptime(date(y, m, d), time_duration(h, mi, s))], [None] when a constructor
    throws; [time_from_string], [None] when it throws; [t - d], [d] in seconds. *)
Class PTimeText (PT : PTime) := {
  pt_make : Z -> Z -> Z -> Z -> Z -> Z -> option (ptime PT);
  time_from_string : bytes -> option (ptime PT);
  pt_sub_seconds : ptime PT -> Z -> ptime PT
}.

(** [s.find_last_of(set)]. *)
Fixpoint find_last_of (set s : bytes) : option nat :=
  match s with
  | [] => None
  | c :: r =>
      match find_last_of set r with
      | Some i => Some (S i)
      | None => if bool_decide (c ∈ set) then Some 0%nat else None
      end
  end.

(** One conversion [%<w>d] of [sscanf]: white space, a sign, then digits, [w]
    characters at most after the white space. *)
Definition scan_int (w : nat) (s : bytes) : option (Z * bytes) :=
  let s := skip_space s in
  let f := take w s in
  let '(neg, d) := match f with
                   | "-"%char :: d => (true, d)
                   | "+"%char :: d => (false, d)
                   | _ => (false, f)
                   end in
  let digits := (fix span b := match b with
                 | c :: r => if is_digit c then c :: span r else []
                 | [] => [] end) d in
  if bool_decide (digits = []) then None
  else
    let v := digits_val 0 digits in
    Some (if neg then - v else v, drop (length f - length d + length digits) s).

(** [sscanf] with the conversions [ws]: the values, when all are read. *)
Fixpoint scan_ints (ws : list nat) (s : bytes) : option (list Z) :=
  match ws with
  | [] => Some []
  | w :: ws =>
      '(v, r) ← scan_int w s;
      vs ← scan_ints ws r;
      Some (v :: vs)
  end.

Section TimeText.
  Context {PT : PTime} {BT : BoostText} {TT : PTimeText PT}.

(** The result of the function, or the exception that leaves it. *)
Inductive tfs_result := Time (t : ptime PT) | Escapes.

(** The [catch] block: the formats without separators. *)
Definition compact_time (s : bytes) : tfs_result :=
  let fmt := match length s with
             | 14%nat => Some [4; 2; 2; 2; 2; 2]%nat
             | 12%nat => Some [4; 2; 2; 2; 2]%nat
             | 10%nat => Some [4; 2; 2; 2]%nat
             | 8%nat => Some [4; 2; 2]%nat
             | _ => None
             end in
  match fmt with
  | None => Time not_a_date_time
  | Some ws =>
      match scan_ints ws s with
      | None => Time not_a_date_time
      | Some vs =>
          match pt_make (nth 0 vs 0) (nth 1 vs 0) (nth 2 vs 0) (nth 3 vs 0) (nth 4 vs 0) (nth 5 vs 0) with
          | Some t => Time t
          | None => Escapes
          end
      end
  end.

(** The offset in seconds that follows the time: [Some None] is the early return
    of an unknown length, [None] the exception of [lexical_cast]. A duration of
    hours and minutes of different signs, such as (-1, 30), is the negative one
    of both, as [time_duration] has it. *)
Definition zone_offset (so : bytes) : option (option Z) :=
  match length so with
  | 3%nat => h ← lexical_cast_int so; Some (Some (h * 3600))
  | 5%nat =>
      h ← lexical_cast_int (take 3 so); m ← lexical_cast_int (drop 3 so);
      Some (Some (if (h <? 0) || (m <? 0) then - (Z.abs h * 3600 + Z.abs m * 60)
                  else h * 3600 + m * 60))
  | _ => Some None
  end.

Definition time_from_string_nothrow (s_ : bytes) : tfs_result :=
  if bool_decide (trim_copy s_ = []) then Time not_a_date_time
  else
    let s := replace_first_copy s_ (to_bytes "T") (to_bytes " ") in
    let at_zone := match find_last_of (to_bytes "+-Z") s with
                   | Some pos => if bool_decide (s !! pos = Some "-"%char) && (pos <? 10)%nat
                                 then None else Some pos
                   | None => None
                   end in
    match at_zone with
    | Some pos =>
        let off := if bool_decide (s !! pos = Some "Z"%char) then Some (Some 0)
                   else zone_offset (trim_copy (drop pos s)) in
        match off with
        | None => compact_time s
        | Some None => Time not_a_date_time
        | Some (Some o) =>
            match time_from_string (trim_copy (take pos s)) with
            | Some t => Time (pt_sub_seconds t o)
            | None => compact_time s
            end
        end
    | None =>
        match time_from_string s with
        | Some t => Time t
        | None => compact_time s
        end
    end.

End TimeText.

Arguments tfs_result : clear implicits.

(** ** Properties *)

(** What Boost documents of the functions. *)
Class BoostTextLaws (BT : BoostText) := {
  trim_copy_blank s : Forall (fun c => is_space c = true) s <-> trim_copy s = [];
  trim_copy_id c s d : is_space c = false -> is_space d = false ->
    trim_copy (c :: s ++ [d]) = c :: s ++ [d];
  trim_copy_one c : is_space c = false -> trim_copy [c] = [c];
  replace_first_absent s a b : a ∉ s -> replace_first_copy s [a] b = s;
  lexical_cast_int_digits d : d <> [] -> Forall (fun c => is_digit c = true) d ->
    digits_val 0 d <= INT_MAX ->
    lexical_cast_int d = Some (digits_val 0 d) /\
    lexical_cast_int ("+"%char :: d) = Some (digits_val 0 d) /\
    lexical_cast_int ("-"%char :: d) = Some (- digits_val 0 d)
}.

(** The digit with value [z], and [z] with two of them. *)
Definition digit (z : Z) : ascii := char_of (48 + z).
Definition two_digits (z : Z) : bytes := [digit (z / 10); digit (z mod 10)].

Lemma digit_uchar z : 0 <= z < 10 -> uchar_val (digit z) = 48 + z.
Proof. intros H. unfold digit. rewrite uchar_val_char_of, Z.mod_small; lia. Qed.

Lemma digit_is_digit z : 0 <= z < 10 -> is_digit (digit z) = true.
Proof.
  intros H. unfold is_digit. rewrite digit_uchar by done.
  change (uchar_val "0") with 48. change (uchar_val "9") with 57. lia.
Qed.

Lemma two_digits_is_digit z : 0 <= z < 100 -> Forall (fun c => is_digit c = true) (two_digits z).
Proof.
  intros H. unfold two_digits.
  repeat constructor; apply digit_is_digit; Z.to_euclidean_division_equations; lia.
Qed.

Lemma digits_val_step acc z r : 0 <= z < 10 -> digits_val acc (digit z :: r) = digits_val (acc * 10 + z) r.
Proof.
  intros H. simpl. rewrite digit_is_digit, digit_uchar by done. f_equal. lia.
Qed.

Lemma two_digits_val z : 0 <= z < 100 -> digits_val 0 (two_digits z) = z.
Proof.
  intros H. unfold two_digits.
  rewrite !digits_val_step by (Z.to_euclidean_division_equations; lia). simpl.
  Z.to_euclidean_division_equations; lia.
Qed.

(** A digit is no space and none of the characters that matter. *)
Lemma digit_plain c : is_digit c = true ->
  is_space c = false /\ (c ∉ to_bytes "+-Z") /\ c <> "T"%char.
Proof.
  unfold is_digit, is_space. change (uchar_val "0") with 48. change (uchar_val "9") with 57.
  intros H. split; [lia|]. split.
  - intros Hin. assert (Forall (fun c => ~ (48 <= uchar_val c <= 57)) (to_bytes "+-Z")) as HF
      by by_decision.
    rewrite Forall_forall in HF. apply (HF c Hin). lia.
  - intros ->. vm_compute in H. done.
Qed.

Lemma find_last_of_none set s : Forall (fun c => c ∉ set) s -> find_last_of set s = None.
Proof.
  intros H. induction H as [|c s Hc Hs IH]; simpl; [done|]. rewrite IH.
  by rewrite bool_decide_false.
Qed.

Lemma find_last_of_app set s c r :
  c ∈ set -> Forall (fun c => c ∉ set) r -> find_last_of set (s ++ c :: r) = Some (length s).
Proof.
  intros Hc Hr. induction s as [|x s IH]; simpl.
  - rewrite (find_last_of_none _ r Hr). by rewrite bool_decide_true.
  - by rewrite IH.
Qed.

Section zone.
  Context {PT : PTime} {BT : BoostText} {BL : BoostTextLaws BT} {TT : PTimeText PT}.

(** A date and a time of day without a zone: the last sign in it is the one of
    the date. *)
Definition plain_time (t : bytes) : Prop :=
  ("T"%char ∉ t) /\ trim_copy t = t /\ (10 <= length t)%nat /\
  exists i, find_last_of (to_bytes "+-Z") t = Some i /\ (i < 10)%nat /\ t !! i = Some "-"%char.

Lemma trim_not_blank s c : c ∈ s -> is_space c = false -> trim_copy s <> [].
Proof.
  intros Hc H E. apply trim_copy_blank in E. rewrite Forall_forall in E.
  specialize (E c Hc). congruence.
Qed.

(** The time and the sign that starts its zone are found. *)
Lemma tfs_zone t p c r o :
  plain_time t -> time_from_string t = Some p -> c ∈ to_bytes "+-Z" ->
  Forall (fun c => is_digit c = true) r ->
  (if bool_decide (c = "Z"%char) then Some (Some 0) else zone_offset (trim_copy (c :: r))) = Some (Some o) ->
  time_from_string_nothrow (t ++ c :: r) = Time (pt_sub_seconds p o).
Proof.
  intros (HT & Htrim & Hlen & i & _) Hp Hc Hr Ho. unfold time_from_string_nothrow.
  assert (Hcs : is_space c = false /\ c <> "T"%char).
  { clear -Hc. cbn in Hc. rewrite !elem_of_cons in Hc. by destruct Hc as [->|[->|[->|[]%elem_of_nil]]]. }
  rewrite bool_decide_false by (apply (trim_not_blank _ c); [apply elem_of_app; right; left|tauto]).
  change (to_bytes "T") with ["T"%char]. rewrite replace_first_absent.
  2:{ rewrite elem_of_app, elem_of_cons. intros [?|[E|Hin]]; [done|by destruct Hcs|].
      rewrite Forall_forall in Hr. by destruct (digit_plain _ (Hr _ Hin)) as (_ & _ & []). }
  rewrite find_last_of_app; [|done|eapply Forall_impl; [exact Hr|];
    intros x Hx; by destruct (digit_plain x Hx) as (_ & ? & _)].
  assert (E : (t ++ c :: r) !! length t = Some c) by (by rewrite list_lookup_middle).
  rewrite E. rewrite (proj2 (Nat.ltb_ge (length t) 10)) by lia. rewrite andb_false_r, E.
  rewrite take_app_length, drop_app_length, Htrim, Hp.
  replace (bool_decide (Some c = Some "Z"%char)) with (bool_decide (c = "Z"%char))
    by (apply bool_decide_ext; split; congruence).
  by rewrite Ho.
Qed.

(** A sign and two or four digits are such a zone. *)
Lemma zone_offset_digits c h m :
  c = "+"%char \/ c = "-"%char -> 0 <= h < 100 -> 0 <= m < 100 ->
  let sg := if bool_decide (c = "-"%char) then - h else h in
  zone_offset (trim_copy (c :: two_digits h)) = Some (Some (sg * 3600)) /\
  zone_offset (trim_copy (c :: two_digits h ++ two_digits m)) =
    Some (Some (if sg <? 0 then - (h * 3600 + m * 60) else h * 3600 + m * 60)).
Proof.
  intros Hc Hh Hm sg.
  assert (Hd : forall z, 0 <= z < 100 -> is_space (digit (z mod 10)) = false).
  { intros z Hz. apply digit_plain, digit_is_digit. Z.to_euclidean_division_equations; lia. }
  assert (Hs : is_space c = false) by (by destruct Hc as [->| ->]).
  assert (Hl : lexical_cast_int (c :: two_digits h) = Some sg).
  { destruct (lexical_cast_int_digits (two_digits h)) as (_ & Hp & Hn);
      [done|by apply two_digits_is_digit|rewrite two_digits_val by done; unfold INT_MAX; lia|].
    rewrite two_digits_val in Hp, Hn by done. unfold sg. destruct Hc as [->| ->]; by simpl. }
  assert (Hlm : lexical_cast_int (two_digits m) = Some m).
  { destruct (lexical_cast_int_digits (two_digits m)) as (H & _ & _);
      [done|by apply two_digits_is_digit|rewrite two_digits_val by done; unfold INT_MAX; lia|].
    by rewrite two_digits_val in H. }
  assert (T1 : trim_copy (c :: two_digits h) = c :: two_digits h)
    by (apply (trim_copy_id c [digit (h / 10)] (digit (h mod 10))); auto).
  assert (T2 : trim_copy (c :: two_digits h ++ two_digits m) = c :: two_digits h ++ two_digits m)
    by (apply (trim_copy_id c [digit (h / 10); digit (h mod 10); digit (m / 10)] (digit (m mod 10))); auto).
  rewrite T1, T2. split.
  - change (zone_offset (c :: two_digits h)) with
      (h ← lexical_cast_int (c :: two_digits h); Some (Some (h * 3600))). by rewrite Hl.
  - change (zone_offset (c :: two_digits h ++ two_digits m)) with
      (h ← lexical_cast_int (c :: two_digits h); m ← lexical_cast_int (two_digits m);
       Some (Some (if (h <? 0) || (m <? 0) then - (Z.abs h * 3600 + Z.abs m * 60)
                   else h * 3600 + m * 60))).
    rewrite Hl. simpl. rewrite Hlm. simpl. rewrite (proj2 (Z.ltb_ge m 0)), orb_false_r by lia.
    unfold sg. destruct Hc as [->| ->]; simpl; [by rewrite (proj2 (Z.ltb_ge h 0)) by lia|].
    destruct (Z.ltb_spec (- h) 0); f_equal; f_equal; lia.
Qed.

(** time zones. A time that the library reads is taken as it is, and one that
    a zone follows is moved to UTC: by nothing for Z, by the hours, and by the
    hours and the minutes. The sign of a zone of minutes alone, -0030, is lost. *)
Theorem time_zone_spec (t : bytes) (p : ptime PT) (h m : Z) :
  plain_time t -> time_from_string t = Some p -> 0 <= h < 100 -> 0 <= m < 100 ->
  time_from_string_nothrow t = Time p /\
  time_from_string_nothrow (t ++ to_bytes "Z") = Time (pt_sub_seconds p 0) /\
  time_from_string_nothrow (t ++ "+"%char :: two_digits h) = Time (pt_sub_seconds p (h * 3600)) /\
  time_from_string_nothrow (t ++ "-"%char :: two_digits h) = Time (pt_sub_seconds p (- h * 3600)) /\
  time_from_string_nothrow (t ++ "+"%char :: two_digits h ++ two_digits m) =
    Time (pt_sub_seconds p (h * 3600 + m * 60)) /\
  time_from_string_nothrow (t ++ "-"%char :: two_digits h ++ two_digits m) =
    Time (pt_sub_seconds p (if h =? 0 then m * 60 else - (h * 3600 + m * 60))).
Proof.
  intros Ht Hp Hh Hm.
  destruct (zone_offset_digits "+" h m ltac:(by left) Hh Hm) as [P1 P2].
  destruct (zone_offset_digits "-" h m ltac:(by right) Hh Hm) as [N1 N2].
  pose proof (two_digits_is_digit h Hh) as Dh. pose proof (two_digits_is_digit m Hm) as Dm.
  split; [|split; [|split; [|split; [|split]]]].
  - destruct Ht as (HT & Htrim & Hlen & i & Hi & Hi10 & Hat). unfold time_from_string_nothrow.
    rewrite Htrim, bool_decide_false by (intros ->; simpl in Hlen; lia).
    change (to_bytes "T") with ["T"%char]. rewrite replace_first_absent by done.
    rewrite Hi, Hat, bool_decide_true by done. rewrite (proj2 (Nat.ltb_lt i 10)) by lia. simpl.
    by rewrite Hp.
  - by apply tfs_zone; [..|by_decision|constructor|].
  - apply tfs_zone; [done|done|by_decision|done|exact P1].
  - apply tfs_zone; [done|done|by_decision|done|exact N1].
  - apply tfs_zone; [done|done|by_decision|by apply Forall_app|]. simpl. simpl in P2. rewrite P2.
    by rewrite (proj2 (Z.ltb_ge h 0)) by lia.
  - apply tfs_zone; [done|done|by_decision|by apply Forall_app|]. simpl. simpl in N2. rewrite N2.
    f_equal. f_equal. destruct (Z.ltb_spec (- h) 0), (Z.eqb_spec h 0); lia.
Qed.

(** A field of digits, all of it read. *)
Lemma scan_int_field f r :
  f <> [] -> Forall (fun c => is_digit c = true) f ->
  scan_int (length f) (f ++ r) = Some (digits_val 0 f, r).
Proof.
  intros Hne Hf. destruct f as [|c f]; [done|]. unfold scan_int.
  apply Forall_cons in Hf as [Hc Hf]. destruct (digit_plain c Hc) as (Hs & Hz & _).
  assert (Hsk : skip_space ((c :: f) ++ r) = (c :: f) ++ r) by (simpl; by rewrite Hs).
  rewrite Hsk, take_app_length.
  assert (Hspan : (fix span b := match b with
                 | c :: r => if is_digit c then c :: span r else []
                 | [] => [] end) (c :: f) = c :: f).
  { simpl. rewrite Hc. f_equal. clear -Hf. by induction Hf as [|x f Hx Hf IH]; [|rewrite Hx, IH]. }
  assert (Hm : match c :: f with
                   | "-"%char :: d => (true, d)
                   | "+"%char :: d => (false, d)
                   | _ => (false, c :: f)
                   end = (false, c :: f)).
  { by destruct c as [[] [] [] [] [] [] [] []]. }
  rewrite Hm, Hspan, bool_decide_false by done. by rewrite Nat.sub_diag, Nat.add_0_l, drop_app_length.
Qed.

Lemma scan_ints_fields fs :
  Forall (fun f => f <> [] /\ Forall (fun c => is_digit c = true) f) fs ->
  scan_ints (length <$> fs) (concat fs) = Some (digits_val 0 <$> fs).
Proof.
  intros H. induction H as [|f fs [Hne Hf] _ IH]; [done|].
  cbn [fmap list_fmap scan_ints concat]. rewrite scan_int_field by done. simpl. by rewrite IH.
Qed.

(** times without separators. Eight, ten, twelve or fourteen digits that the
    library does not read are taken as the date and the parts of the time, with
    0 for those that are missing; the exception of a day that does not exist
    leaves the function, whose name promises the contrary, and only these
    lengths let one through. *)
Theorem compact_time_spec (y mo d h mi s : Z) (n : nat) (b : bytes) :
  0 <= y < 10000 -> 0 <= mo < 100 -> 0 <= d < 100 -> 0 <= h < 100 -> 0 <= mi < 100 -> 0 <= s < 100 ->
  (n <= 3)%nat ->
  let parts := [two_digits mo; two_digits d] ++ take n [two_digits h; two_digits mi; two_digits s] in
  let text := concat ((two_digits (y / 100) ++ two_digits (y mod 100)) :: parts) in
  (time_from_string text = None ->
   time_from_string_nothrow text =
     match pt_make y mo d (if (0 <? n)%nat then h else 0) (if (1 <? n)%nat then mi else 0)
             (if (2 <? n)%nat then s else 0) with
     | Some t => Time t
     | None => Escapes
     end) /\
  (time_from_string_nothrow b = Escapes ->
   length (replace_first_copy b (to_bytes "T") (to_bytes " ")) ∈ [8; 10; 12; 14]%nat).
Proof.
  intros Hy Hmo Hd Hh Hmi Hs Hn parts text. split.
  - intros Hb.
    assert (Hfs : Forall (fun f => f <> [] /\ Forall (fun c => is_digit c = true) f)
      ((two_digits (y / 100) ++ two_digits (y mod 100)) :: parts)).
    { subst parts. assert (0 <= y / 100 < 100 /\ 0 <= y mod 100 < 100) as [? ?]
        by (Z.to_euclidean_division_equations; lia).
      assert (H2 : forall z, 0 <= z < 100 -> two_digits z <> [] /\
        Forall (fun c => is_digit c = true) (two_digits z))
        by (intros z Hz; split; [done|by apply two_digits_is_digit]).
      constructor; [split; [done|apply Forall_app; split; by apply two_digits_is_digit]|].
      apply Forall_app. split; [|apply Forall_take];
        repeat (apply Forall_cons_2; [by apply H2|]); apply Forall_nil_2. }
    pose proof (scan_ints_fields _ Hfs) as Hsc. fold text in Hsc.
    assert (Hdig : Forall (fun c => is_digit c = true) text).
    { apply Forall_concat. eapply Forall_impl; [exact Hfs|]. by intros f [_ ?]. }
    assert (Hy4 : digits_val 0 (two_digits (y / 100) ++ two_digits (y mod 100)) = y).
    { unfold two_digits. simpl app.
      rewrite !digits_val_step by (Z.to_euclidean_division_equations; lia). simpl.
      Z.to_euclidean_division_equations; lia. }
    unfold time_from_string_nothrow. rewrite bool_decide_false.
    2:{ destruct text as [|c0 r] eqn:E; [done|]. apply (trim_not_blank _ c0); [left|].
        apply Forall_cons in Hdig as [Hc _]. by destruct (digit_plain _ Hc). }
    change (to_bytes "T") with ["T"%char]. rewrite replace_first_absent.
    2:{ intros Hin. rewrite Forall_forall in Hdig. by destruct (digit_plain _ (Hdig _ Hin)) as (_ & _ & []). }
    rewrite find_last_of_none by (eapply Forall_impl; [exact Hdig|]; intros x Hx;
      by destruct (digit_plain x Hx) as (_ & ? & _)).
    rewrite Hb. unfold compact_time.
    assert (Hlen : length text = (8 + 2 * n)%nat)
      by (subst text parts; by destruct n as [|[|[|[|n]]]]; [..|lia]).
    rewrite Hlen. destruct n as [|[|[|[|n]]]]; [..|lia]; subst parts;
      cbn [fmap list_fmap take app] in Hsc; rewrite Hy4, !two_digits_val in Hsc by done;
      match type of Hsc with scan_ints ?ws _ = _ => let v := eval vm_compute in ws in
        change ws with v in Hsc end; clearbody text; cbn -[scan_ints]; by rewrite Hsc.
  - unfold time_from_string_nothrow. case_bool_decide; [done|].
    set (q := replace_first_copy _ _ _).
    assert (X : compact_time q = Escapes -> length q ∈ [8; 10; 12; 14]%nat).
    { unfold compact_time. destruct (length q) as [|n0]; [done|].
      do 14 (destruct n0 as [|n0]; [intros HX; first [by_decision|discriminate HX]|]). done. }
    repeat case_match; try done; intros HX; by apply X.
Qed.

End zone.

(** ** An implementation *)

Definition trim_front (s : bytes) : bytes := skip_space s.
Definition trim_both (s : bytes) : bytes := reverse (trim_front (reverse (trim_front s))).

(** A digit string with an optional sign, within bounds. *)
Definition cast_digits (lo hi : Z) (s : bytes) : option Z :=
  let '(neg, d) := match s with
                   | "-"%char :: d => (true, d)
                   | "+"%char :: d => (false, d)
                   | _ => (false, s)
                   end in
  let v := if (neg : bool) then - digits_val 0 d else digits_val 0 d in
  if bool_decide (d <> []) && forallb is_digit d && (lo <=? v) && (v <=? hi) then Some v else None.

(** [a] is a single character in every call of the program. *)
Definition replace_first (s a b : bytes) : bytes :=
  match a with
  | [x] => match list_find (fun c => c = x) s with
           | Some (i, _) => take i s ++ b ++ drop (S i) s
           | None => s
           end
  | _ => s
  end.

#[export] Instance boost_text : BoostText := {|
  trim_copy := trim_both;
  replace_first_copy := replace_first;
  lexical_cast_int := cast_digits INT_MIN INT_MAX;
  lexical_cast_long := cast_digits LONG_MIN LONG_MAX
|}.

Lemma skip_space_nil s : Forall (fun c => is_space c = true) s <-> skip_space s = [].
Proof.
  induction s as [|c s IH]; simpl; [done|]. destruct (is_space c) eqn:E.
  - rewrite <- IH, Forall_cons. tauto.
  - rewrite Forall_cons. split; [intros [? _]; congruence|done].
Qed.

#[export] Instance boost_text_laws : BoostTextLaws boost_text.
Proof.
  split; simpl.
  - intros s. unfold trim_both, trim_front.
    assert (R : forall l : bytes, reverse l = [] <-> l = [])
      by (intros l; split; [intros E; by apply (inj reverse)|by intros ->]).
    rewrite R, <- skip_space_nil, Forall_reverse.
    induction s as [|c s IH]; simpl; [done|]. destruct (is_space c) eqn:E; [rewrite Forall_cons; tauto|done].
  - intros c s d Hc Hd. unfold trim_both, trim_front. simpl. rewrite Hc.
    rewrite reverse_cons, reverse_snoc. simpl. rewrite Hd.
    by rewrite reverse_cons, reverse_snoc, reverse_involutive.
  - intros c Hc. unfold trim_both, trim_front. simpl. rewrite Hc. simpl. by rewrite Hc.
  - intros s a b Ha. destruct (list_find (fun c => c = a) s) as [[i x]|] eqn:E; [|done].
    apply list_find_Some in E as (Hi & -> & _). by apply list_elem_of_lookup_2 in Hi.
  - intros d Hne Hd Hv.
    assert (Hb : forallb is_digit d = true) by (apply forallb_forall; intros x Hx;
      rewrite Forall_forall in Hd; apply Hd; by apply list_elem_of_In).
    assert (H0 : 0 <= digits_val 0 d).
    { assert (H : forall r acc, 0 <= acc -> 0 <= digits_val acc r).
      { induction r as [|c r IH]; simpl; intros acc Ha; [done|].
        destruct (is_digit c) eqn:E; [|done]. apply IH. unfold is_digit in E.
        change (uchar_val "0") with 48 in E. lia. }
      by apply H. }
    destruct d as [|c d]; [done|]. apply Forall_cons in Hd as [Hc _].
    unfold cast_digits. rewrite bool_decide_true, Hb by done.
    assert (E1 : (INT_MIN <=? digits_val 0 (c :: d)) && (digits_val 0 (c :: d) <=? INT_MAX) = true)
      by (unfold INT_MIN; lia).
    assert (E2 : (INT_MIN <=? - digits_val 0 (c :: d)) && (- digits_val 0 (c :: d) <=? INT_MAX) = true)
      by (unfold INT_MIN, INT_MAX in *; lia).
    split; [|split].
    + destruct c as [[] [] [] [] [] [] [] []]; try (vm_compute in Hc; discriminate Hc);
        rewrite bool_decide_true, Hb by done; cbn -[digits_val INT_MIN INT_MAX]; by rewrite E1.
    + cbn -[digits_val INT_MIN INT_MAX]; by rewrite E1.
    + cbn -[digits_val INT_MIN INT_MAX]; by rewrite E2.
Qed.

Definition stamp_make (y mo d h mi s : Z) : option stamp :=
  if (1400 <=? y) && (y <=? 9999) && bool_decide (civil_from_days (days_from_civil y mo d) = (y, mo, d))
  then Some (stamp_of y mo d h mi s) else None.

(** "YYYY-MM-DD hh:mm:ss". *)
Definition stamp_from_string (s : bytes) : option stamp :=
  let f i n := digits_val 0 (take n (drop i s)) in
  if bool_decide (length s = 19%nat) && bool_decide (s !! 4%nat = Some "-"%char)
     && bool_decide (s !! 7%nat = Some "-"%char) && bool_decide (s !! 10%nat = Some " "%char)
     && bool_decide (s !! 13%nat = Some ":"%char) && bool_decide (s !! 16%nat = Some ":"%char)
  then stamp_make (f 0%nat 4%nat) (f 5%nat 2%nat) (f 8%nat 2%nat) (f 11%nat 2%nat) (f 14%nat 2%nat) (f 17%nat 2%nat)
  else None.

#[export] Instance stamp_time_text : PTimeText stamp_time := {|
  pt_make := stamp_make : Z -> Z -> Z -> Z -> Z -> Z -> option (ptime stamp_time);
  time_from_string := stamp_from_string : bytes -> option (ptime stamp_time);
  pt_sub_seconds := fun (t : ptime stamp_time) d =>
    match t with At s => At (s - d) | _ => t end : ptime stamp_time
|}.

Lemma time_zone_spec_witness :
  time_from_string_nothrow (to_bytes "2006-02-06 10:00:00-0030") =
    Time (stamp_of 2006 2 6 9 30 0 : ptime stamp_time) /\
  time_from_string_nothrow (to_bytes "2006-02-06 10:00:00-0130") =
    Time (stamp_of 2006 2 6 11 30 0 : ptime stamp_time).
Proof.
  assert (H : plain_time (to_bytes "2006-02-06 10:00:00")).
  { split; [refine (bool_decide_unpack _ _); vm_compute; exact I|].
    split; [vm_compute; reflexivity|]. split; [simpl; lia|]. exists 7%nat.
    split; [vm_compute; reflexivity|]. split; [lia|reflexivity]. }
  pose proof (time_zone_spec (PT := stamp_time) (BT := boost_text) (TT := stamp_time_text) (to_bytes "2006-02-06 10:00:00")
    (stamp_of 2006 2 6 10 0 0 : ptime stamp_time) 0 30 H ltac:(vm_compute; reflexivity)
    ltac:(lia) ltac:(lia)) as (_ & _ & _ & _ & _ & H1).
  pose proof (time_zone_spec (PT := stamp_time) (BT := boost_text) (TT := stamp_time_text) (to_bytes "2006-02-06 10:00:00")
    (stamp_of 2006 2 6 10 0 0 : ptime stamp_time) 1 30 H ltac:(vm_compute; reflexivity)
    ltac:(lia) ltac:(lia)) as (_ & _ & _ & _ & _ & H2).
  split; [exact H1|exact H2].
Defined.

(** The name says "nothrow", but a date that does not exist throws. *)
Lemma compact_time_spec_witness :
  time_from_string_nothrow (to_bytes "2006020610") = Time (stamp_of 2006 2 6 10 0 0 : ptime stamp_time) /\
  time_from_string_nothrow (PT := stamp_time) (to_bytes "20061340") = Escapes.
Proof.
  pose proof (compact_time_spec (PT := stamp_time) (BT := boost_text) (TT := stamp_time_text) 2006 2 6 10 0 0 1 [] ltac:(lia) ltac:(lia)
    ltac:(lia) ltac:(lia) ltac:(lia) ltac:(lia) ltac:(lia)) as [H1 _].
  pose proof (compact_time_spec (PT := stamp_time) (BT := boost_text) (TT := stamp_time_text) 2006 13 40 0 0 0 0 [] ltac:(lia) ltac:(lia)
    ltac:(lia) ltac:(lia) ltac:(lia) ltac:(lia) ltac:(lia)) as [H2 _].
  split; [exact (H1 ltac:(vm_compute; reflexivity))|exact (H2 ltac:(vm_compute; reflexivity))].
Defined.
