(* ===== verification/DataFlag.v ===== *)
(** * [kvDataFlag]: sixteen hexadecimal characters (src/src/lib/kvalobs/flag)

    The base class of the control and use flags: the array [flag_], its
    constructors, the reader and the writer of one nibble, the textual form
    that is stored in the database, and the two character conversions. *)

From S2P Require Import Prelude.

(** [kvDataFlag::size]. *)
Definition flag_size : nat := 16.

Record kvDataFlag := { flag_ : bytes }.

#[export] Instance kvDataFlag_eq_dec : EqDecision kvDataFlag.
Proof. solve_decision. Defined.

(** The loop [for (i = 0; i < size; i++) flag_[i] = g(i)] of the constructors
    and of the assignments: it writes every element. *)
Definition fill (g : nat -> ascii) : kvDataFlag := {| flag_ := g <$> seq 0 flag_size |}.

Definition legal_ (i : Z) : bool := (0 <=? i) && (i <? 16).

Definition chartoint_ (c : ascii) : Z :=
  let v := char_val c in
  if (48 <=? v) && (v <=? 57) then v - 48
  else if (65 <=? v) && (v <=? 70) then v - 65 + 10
  else 0.

Definition inttochar_ (i : Z) : ascii :=
  if (0 <=? i) && (i <=? 9) then char_of (48 + i)
  else if (10 <=? i) && (i <=? 15) then char_of (65 + i - 10)
  else "0"%char.

Definition kvDataFlag_clear : kvDataFlag := fill (fun _ => "0"%char).

(** [kvDataFlag::kvDataFlag()]. *)
Definition kvDataFlag_new : kvDataFlag := kvDataFlag_clear.

(** [kvDataFlag::kvDataFlag(const unsigned char f[size])]. *)
Definition kvDataFlag_of_array (f : bytes) : kvDataFlag := fill (fun i => f !!! i).

(** [kvDataFlag::kvDataFlag(const std::string &)]: a string shorter than the
    flag leaves it cleared, a longer one is cut. *)
Definition kvDataFlag_of_string (s : string) : kvDataFlag :=
  let b := to_bytes s in
  if (flag_size <=? length b)%nat then fill (fun i => b !!! i) else kvDataFlag_clear.

(** [kvDataFlag::kvDataFlag(const kvDataFlag &)] and [operator=(const kvDataFlag &)]. *)
Definition kvDataFlag_copy (df : kvDataFlag) : kvDataFlag := fill (fun i => flag_ df !!! i).

Definition flagstring (f : kvDataFlag) : string :=
  of_bytes ((fun i => flag_ f !!! i) <$> seq 0 flag_size).

Definition index_ok (index : Z) : bool := (0 <=? index) && (index <? Z.of_nat flag_size).

(** [unsigned char cflag(const char index) const]. *)
Definition cflag (f : kvDataFlag) (index : Z) : ascii :=
  let index := to_char index in
  if index_ok index then flag_ f !!! Z.to_nat index else "-"%char.

(** [int flag(const char index) const]. *)
Definition flag (f : kvDataFlag) (index : Z) : Z :=
  let index := to_char index in
  if index_ok index then chartoint_ (flag_ f !!! Z.to_nat index) else 0.

(** [void set(const char index, const int c)]. *)
Definition kvDataFlag_set (f : kvDataFlag) (index c : Z) : kvDataFlag :=
  let index := to_char index in
  if index_ok index && legal_ c
  then {| flag_ := <[Z.to_nat index := inttochar_ c]> (flag_ f) |}
  else f.

(** [bool operator==(const kvDataFlag &) const]. *)
Definition kvDataFlag_eqb (f g : kvDataFlag) : bool :=
  forallb (fun i => bool_decide (flag_ f !!! i = flag_ g !!! i)) (seq 0 flag_size).

(** The loop [for (i = 0; i < size; i++) set(i, g(i))] that the assignments
    from the base class and [setUseFlags] run. *)
Definition set_all (f : kvDataFlag) (g : Z -> Z) : kvDataFlag :=
  fold_left (fun f i => kvDataFlag_set f (Z.of_nat i) (g (Z.of_nat i))) (seq 0 flag_size) f.

(** [operator<<]: the characters between bars. *)
Definition kvDataFlag_print (f : kvDataFlag) : string :=
  "[" +:+ String.concat ""
        ((fun i => String (cflag f (Z.of_nat i)) "|") <$> seq 0 (flag_size - 1))
  +:+ String (cflag f (Z.of_nat flag_size - 1)) "]".

(** ** Well-formed and legal flags *)

(** Every object of the class has sixteen characters ... *)
Definition flag_wf (f : kvDataFlag) : Prop := length (flag_ f) = flag_size.

(** ... which are the hexadecimal digits when only [set] and the literal
    constructors made it. *)
Definition hex_char (c : ascii) : bool :=
  let v := char_val c in ((48 <=? v) && (v <=? 57)) || ((65 <=? v) && (v <=? 70)).

Definition flag_legal (f : kvDataFlag) : Prop :=
  flag_wf f /\ Forall (fun c => hex_char c = true) (flag_ f).

#[export] Instance flag_wf_dec f : Decision (flag_wf f).
Proof. unfold flag_wf. apply _. Defined.

#[export] Instance flag_legal_dec f : Decision (flag_legal f).
Proof. unfold flag_legal. apply _. Defined.

(** ** Characters *)

Lemma ascii_forall (P : ascii -> Prop) :
  Forall P ((fun n => Ascii.ascii_of_nat n) <$> seq 0 256) -> forall c, P c.
Proof.
  intros H c. rewrite Forall_forall in H. apply H.
  apply list_elem_of_fmap. exists (Ascii.nat_of_ascii c).
  split; [symmetry; apply Ascii.ascii_nat_embedding|].
  apply elem_of_seq. pose proof (Ascii.nat_ascii_bounded c). lia.
Qed.

(** A decidable fact about all characters is checked by computation. *)
Ltac by_all_chars :=
  apply ascii_forall; refine (bool_decide_unpack _ _); vm_compute; exact I.

Ltac by_range n :=
  match goal with
  | |- 0 <= ?z < _ -> _ =>
      revert z; apply (Z_range_ind _ n); refine (bool_decide_unpack _ _); vm_compute; exact I
  end.

Lemma chartoint_range c : 0 <= chartoint_ c < 16.
Proof. revert c. by_all_chars. Qed.

Lemma chartoint_inttochar i : 0 <= i < 16 -> chartoint_ (inttochar_ i) = i.
Proof. by_range 16%nat. Qed.

Lemma inttochar_hex i : hex_char (inttochar_ i) = true.
Proof.
  destruct (decide (0 <= i < 16)) as [H|H]; [revert H; by_range 16%nat|].
  unfold inttochar_. case_tests; bool_to_prop; try lia; reflexivity.
Qed.

Lemma inttochar_chartoint c : hex_char c = true <-> inttochar_ (chartoint_ c) = c.
Proof. revert c. by_all_chars. Qed.

(** ** Elements of a filled flag *)

Lemma fill_wf g : flag_wf (fill g).
Proof. unfold flag_wf, fill; simpl. reflexivity. Qed.

Lemma fill_lookup g i : (i < flag_size)%nat -> flag_ (fill g) !!! i = g i.
Proof.
  intros H. apply list_lookup_total_correct. by apply lookup_map_seq.
Qed.

Lemma flag_ext f g :
  flag_wf f -> flag_wf g ->
  (forall i, (i < flag_size)%nat -> flag_ f !!! i = flag_ g !!! i) -> f = g.
Proof.
  destruct f as [f], g as [g]; unfold flag_wf; simpl. intros Hf Hg H. f_equal.
  apply (list_eq_range _ _ flag_size); [done..|]. intros i Hi.
  rewrite !list_lookup_lookup_total_lt by lia. by rewrite H.
Qed.

Lemma index_ok_true index : index_ok index = true <-> 0 <= index < 16.
Proof. unfold index_ok, flag_size. rewrite andb_true_iff, Z.leb_le, Z.ltb_lt. lia. Qed.

Lemma legal_true c : legal_ c = true <-> 0 <= c < 16.
Proof. unfold legal_. rewrite andb_true_iff, Z.leb_le, Z.ltb_lt. lia. Qed.

Lemma flag_in f i : 0 <= i < 16 -> flag f i = chartoint_ (flag_ f !!! Z.to_nat i).
Proof.
  intros H. unfold flag. rewrite to_char_small by lia.
  by rewrite (proj2 (index_ok_true i)).
Qed.

Lemma flag_range f i : 0 <= flag f i < 16.
Proof. unfold flag. case_match; [apply chartoint_range|lia]. Qed.

Lemma set_in f i c :
  0 <= i < 16 -> 0 <= c < 16 ->
  kvDataFlag_set f i c = {| flag_ := <[Z.to_nat i := inttochar_ c]> (flag_ f) |}.
Proof.
  intros Hi Hc. unfold kvDataFlag_set. rewrite to_char_small by lia.
  by rewrite (proj2 (index_ok_true i)), (proj2 (legal_true c)).
Qed.

Lemma set_wf f i c : flag_wf f -> flag_wf (kvDataFlag_set f i c).
Proof.
  unfold kvDataFlag_set, flag_wf. intros. case_match; simpl; [by rewrite length_insert|done].
Qed.

Lemma flag_set_eq f i c :
  flag_wf f -> 0 <= i < 16 -> 0 <= c < 16 -> flag (kvDataFlag_set f i c) i = c.
Proof.
  intros Hf Hi Hc. rewrite set_in, flag_in by done. simpl.
  unfold flag_wf, flag_size in Hf.
  rewrite list_lookup_total_insert_eq by lia. by apply chartoint_inttochar.
Qed.

Lemma flag_set_ne f i j c :
  0 <= i < 16 -> 0 <= j < 16 -> i <> j -> flag (kvDataFlag_set f i c) j = flag f j.
Proof.
  intros Hi Hj Hne. rewrite !flag_in by done. unfold kvDataFlag_set.
  case_match; [|done]. simpl. rewrite to_char_small by lia.
  rewrite list_lookup_total_insert_ne by lia. done.
Qed.

(** The last of two writes to a nibble counts. *)
Lemma set_set_eq f i c c' :
  0 <= i < 16 -> 0 <= c < 16 -> 0 <= c' < 16 ->
  kvDataFlag_set (kvDataFlag_set f i c) i c' = kvDataFlag_set f i c'.
Proof. intros Hi Hc Hc'. rewrite !set_in by done. simpl. by rewrite list_insert_insert_eq. Qed.

(** The complete behaviour of a write followed by a read, over all [int]s. *)
Lemma flag_set_spec f index c j :
  flag_wf f ->
  flag (kvDataFlag_set f index c) j =
    if index_ok (to_char index) && legal_ c && (to_char index =? to_char j)
    then c else flag f j.
Proof.
  intros Hf.
  destruct (index_ok (to_char index) && legal_ c) eqn:E; cycle 1.
  { unfold kvDataFlag_set. by rewrite E. }
  apply andb_true_iff in E as [Hi Hc].
  apply index_ok_true in Hi. apply legal_true in Hc. simpl.
  assert (kvDataFlag_set f index c = kvDataFlag_set f (to_char index) c) as ->.
  { unfold kvDataFlag_set. by rewrite (to_char_small (to_char index)) by apply to_char_range. }
  assert (forall h, flag h j = flag h (to_char j)) as Ef.
  { intros h. unfold flag. by rewrite (to_char_small (to_char j)) by apply to_char_range. }
  rewrite !Ef.
  destruct (Z.eqb_spec (to_char index) (to_char j)) as [E'|E'].
  - rewrite <- E'. by apply flag_set_eq.
  - destruct (decide (0 <= to_char j < 16)) as [Hj|Hj]; [by apply flag_set_ne|].
    unfold flag. rewrite (to_char_small (to_char j)) by apply to_char_range.
    destruct (index_ok (to_char j)) eqn:Ej; [|done]. apply index_ok_true in Ej. lia.
Qed.

(** The characters of [set_all f g], element by element. *)
Lemma set_all_lookup f g i :
  flag_wf f -> (i < flag_size)%nat -> 0 <= g (Z.of_nat i) < 16 ->
  flag_ (set_all f g) !!! i = inttochar_ (g (Z.of_nat i)).
Proof.
  intros Hf Hi Hg. unfold set_all.
  assert (forall k, (k <= flag_size)%nat -> forall h,
    h = fold_left (fun f i => kvDataFlag_set f (Z.of_nat i) (g (Z.of_nat i))) (seq 0 k) f ->
    flag_wf h /\ ((i < k)%nat -> flag_ h !!! i = inttochar_ (g (Z.of_nat i)))) as H.
  { induction k as [|k IH]; intros Hk h ->.
    - split; [exact Hf|lia].
    - rewrite seq_S, fold_left_app. simpl.
      destruct (IH ltac:(lia) _ eq_refl) as [Hwf Hlt].
      split; [by apply set_wf|]. intros Hik.
      destruct (decide (i = k)) as [->|Hne].
      + rewrite set_in by (unfold flag_size in *; lia). simpl.
        unfold flag_wf, flag_size in *. rewrite Nat2Z.id.
        by rewrite list_lookup_total_insert_eq by lia.
      + unfold kvDataFlag_set at 1. case_match; [|apply Hlt; lia].
        simpl. unfold flag_size in *. rewrite to_char_small, Nat2Z.id by lia.
        rewrite list_lookup_total_insert_ne by lia. apply Hlt. lia. }
  by apply (H flag_size).
Qed.

Lemma set_all_wf f g : flag_wf f -> flag_wf (set_all f g).
Proof.
  unfold set_all. generalize (seq 0 flag_size) as l. intros l. revert f.
  induction l as [|i l IH]; simpl; intros f Hf; [done|].
  apply IH. by apply set_wf.
Qed.

(** When every value is legal, [set_all] does not depend on the old flag. *)
Lemma set_all_fill f g :
  flag_wf f -> (forall i, 0 <= i < 16 -> 0 <= g i < 16) ->
  set_all f g = fill (fun i => inttochar_ (g (Z.of_nat i))).
Proof.
  intros Hf Hg. apply flag_ext; [by apply set_all_wf|apply fill_wf|].
  intros i Hi. rewrite fill_lookup by done.
  apply set_all_lookup; [done..|]. apply Hg. unfold flag_size in *. lia.
Qed.

Lemma fill_flag g i :
  0 <= i < 16 -> flag (fill g) i = chartoint_ (g (Z.to_nat i)).
Proof. intros H. rewrite flag_in by done. rewrite fill_lookup by (unfold flag_size; lia). done. Qed.

Lemma fill_legal g : (forall i, hex_char (g i) = true) -> flag_legal (fill g).
Proof.
  intros H. split; [apply fill_wf|]. unfold fill; simpl.
  repeat constructor; apply H.
Qed.

(** Two legal flags with the same nibbles are equal. *)
Lemma flag_legal_ext f g :
  flag_legal f -> flag_legal g ->
  (forall i, 0 <= i < 16 -> flag f i = flag g i) -> f = g.
Proof.
  intros [Hf Lf] [Hg Lg] H. apply flag_ext; [done..|]. intros i Hi.
  unfold flag_wf, flag_size in *.
  rewrite Forall_forall in Lf, Lg.
  specialize (Lf _ (list_elem_of_lookup_total_2 (flag_ f) i ltac:(lia))).
  specialize (Lg _ (list_elem_of_lookup_total_2 (flag_ g) i ltac:(lia))).
  apply inttochar_chartoint in Lf, Lg. rewrite <- Lf, <- Lg.
  specialize (H (Z.of_nat i) ltac:(lia)). rewrite !flag_in in H by lia.
  rewrite !Nat2Z.id in H. by rewrite H.
Qed.

Lemma set_legal f i c : flag_legal f -> flag_legal (kvDataFlag_set f i c).
Proof.
  intros [Hf L]. split; [by apply set_wf|]. unfold kvDataFlag_set. case_match; [|done].
  simpl. apply Forall_insert; [done|]. apply inttochar_hex.
Qed.

Lemma clear_legal : flag_legal kvDataFlag_clear.
Proof. refine (bool_decide_unpack _ _). vm_compute. exact I. Qed.

(** The characters of a flag and its text are the same. *)
Lemma flagstring_bytes f : flag_wf f -> to_bytes (flagstring f) = flag_ f.
Proof.
  intros Hf. unfold flagstring. rewrite to_of_bytes. apply (list_eq_range _ _ flag_size).
  - by rewrite length_fmap, length_seq.
  - exact Hf.
  - intros i Hi. rewrite lookup_map_seq by done. symmetry.
    apply list_lookup_lookup_total_lt. by rewrite Hf.
Qed.

Lemma of_string_flagstring f : flag_wf f -> kvDataFlag_of_string (flagstring f) = f.
Proof.
  intros Hf. unfold kvDataFlag_of_string. rewrite flagstring_bytes by done.
  rewrite Hf, Nat.leb_refl. apply flag_ext; [apply fill_wf|done|]. intros i Hi.
  exact (fill_lookup (fun i => flag_ f !!! i) i Hi).
Qed.

#[export] Hint Resolve fill_wf set_wf set_all_wf set_legal clear_legal chartoint_range
  flag_range : kvflag.

(** ** Properties *)

(** reading a nibble back. After [set(index, c)] every read [flag(j)] gives
    [c] exactly when the value is legal, the index (as the [char] it is passed
    as) is inside the array and is the one read; every other read, and every
    read after a refused write, is unchanged. Both indices range over all
    [int]s, so the narrowing to [char] is part of the statement. *)
Theorem kvDataFlag_set_flag (f : kvDataFlag) (index c j : Z) :
  flag_wf f ->
  flag_wf (kvDataFlag_set f index c) /\
  flag (kvDataFlag_set f index c) j =
    if index_ok (to_char index) && legal_ c && (to_char index =? to_char j)
    then c else flag f j.
Proof. intros Hf. split; [by apply set_wf|by apply flag_set_spec]. Qed.

Lemma kvDataFlag_set_flag_witness :
  flag_wf kvDataFlag_new /\
  flag (kvDataFlag_set kvDataFlag_new 266 11) 10 = 11.
Proof.
  split; [reflexivity|].
  destruct (kvDataFlag_set_flag kvDataFlag_new 266 11 10 eq_refl) as [_ H].
  vm_compute in H. exact H.
Defined.

(** the database form of a flag. Reading the sixteen characters that
    [flagstring] wrote gives the same flag back, whatever the characters are;
    and a string read into a flag is written back cut to sixteen characters, or
    as sixteen zeros when it was too short. *)
Theorem kvDataFlag_flagstring_roundtrip (f : kvDataFlag) (s : string) :
  flag_wf f ->
  kvDataFlag_of_string (flagstring f) = f /\
  flagstring (kvDataFlag_of_string s) =
    if (flag_size <=? String.length s)%nat then of_bytes (take flag_size (to_bytes s))
    else "0000000000000000".
Proof.
  intros Hf. split.
  - by apply of_string_flagstring.
  - unfold kvDataFlag_of_string. rewrite length_to_bytes.
    destruct (Nat.leb_spec flag_size (String.length s)) as [Hs|Hs]; [|reflexivity].
    unfold flagstring. f_equal. apply (list_eq_range _ _ flag_size).
    + reflexivity.
    + rewrite length_take, length_to_bytes. lia.
    + intros i Hi. rewrite lookup_map_seq by done. rewrite fill_lookup by done.
      rewrite lookup_take_lt by done. symmetry. apply list_lookup_lookup_total_lt.
      rewrite length_to_bytes. lia.
Qed.

Lemma kvDataFlag_flagstring_roundtrip_witness :
  kvDataFlag_of_string (flagstring (kvDataFlag_set kvDataFlag_new 15 7))
  = kvDataFlag_set kvDataFlag_new 15 7.
Proof.
  apply (kvDataFlag_flagstring_roundtrip (kvDataFlag_set kvDataFlag_new 15 7) "00").
  reflexivity.
Defined.
