(* ===== verification/ControlInfo.v ===== *)
(** * [kvControlInfo]: the control flag and its tables (src/src/lib/kvalobs/flag)

    The control flags of each check ([c_flags]), the main levels, the static
    tables that [setQcxInfo] loads from the database, access to the flag by
    check name, and the predicates that say which quality controls were run. *)

From S2P Require Import Prelude DataFlag.

(** ** The enumerations of kvQCFlagTypes.h *)

Inductive main_qc := main_qc1 | main_qc2d | main_qc2m | main_hqc.

Inductive c_flags :=
  | f_fagg | f_fr | f_fcc | f_fs | f_fnum | f_fpos | f_fmis | f_ftime
  | f_fw | f_fstat | f_fcp | f_fclim | f_fd | f_fpre | f_fcombi | f_fhqc.

#[export] Instance main_qc_eq_dec : EqDecision main_qc.
Proof. solve_decision. Defined.

#[export] Instance c_flags_eq_dec : EqDecision c_flags.
Proof. solve_decision. Defined.

(** The value of the enumerator, as C++ converts it to [int]. *)
Definition c_flags_int (c : c_flags) : Z :=
  match c with
  | f_fagg => 0 | f_fr => 1 | f_fcc => 2 | f_fs => 3 | f_fnum => 4
  | f_fpos => 5 | f_fmis => 6 | f_ftime => 7 | f_fw => 8 | f_fstat => 9
  | f_fcp => 10 | f_fclim => 11 | f_fd => 12 | f_fpre => 13 | f_fcombi => 14
  | f_fhqc => 15
  end.
Coercion c_flags_int : c_flags >-> Z.

(** [missing_status]. *)
Definition status_ok : Z := 0.
Definition status_original_missing : Z := 1.
Definition status_corrected_missing : Z := 2.
Definition status_orig_and_corr_missing : Z := 3.

Lemma c_flags_int_range (c : c_flags) : 0 <= c < 16.
Proof. by destruct c. Qed.

#[export] Instance c_flags_int_inj : Inj (=) (=) c_flags_int.
Proof. intros [] []; simpl; intros; by try lia. Qed.

(** ** The class: a [kvDataFlag] without further members *)

Record kvControlInfo := { ci_base : kvDataFlag }.
Coercion ci_base : kvControlInfo >-> kvDataFlag.

#[export] Instance kvControlInfo_eq_dec : EqDecision kvControlInfo.
Proof. solve_decision. Defined.

Definition kvControlInfo_new : kvControlInfo := {| ci_base := kvDataFlag_new |}.
Definition kvControlInfo_of_array (f : bytes) : kvControlInfo :=
  {| ci_base := kvDataFlag_of_array f |}.
Definition kvControlInfo_of_string (s : string) : kvControlInfo :=
  {| ci_base := kvDataFlag_of_string s |}.
(** The copy constructor and the explicit conversion from the base class. *)
Definition kvControlInfo_of_flag (df : kvDataFlag) : kvControlInfo :=
  {| ci_base := kvDataFlag_copy df |}.

(** The inherited [set]. *)
Definition ci_set (ci : kvControlInfo) (index c : Z) : kvControlInfo :=
  {| ci_base := kvDataFlag_set ci index c |}.

(** [operator=(const kvControlInfo &)]. *)
Definition kvControlInfo_assign (this rhs : kvControlInfo) : kvControlInfo :=
  {| ci_base := kvDataFlag_copy rhs |}.

(** [operator=(const kvDataFlag &)]: nibble by nibble, through [set]. *)
Definition kvControlInfo_assign_flag (this : kvControlInfo) (rhs : kvDataFlag) : kvControlInfo :=
  {| ci_base := set_all this (flag rhs) |}.

Definition kvControlInfo_eqb (a b : kvControlInfo) : bool :=
  forallb (fun i => bool_decide (flag_ a !!! i = flag_ b !!! i)) (seq 0 flag_size).

(** [operator<<]. *)
Definition kvControlInfo_print (kd : kvControlInfo) : string :=
  "[" +:+ String.concat ""
        ((fun i => String (cflag kd (Z.of_nat i)) "|") <$> seq 0 (flag_size - 1))
  +:+ String (cflag kd (Z.of_nat flag_size - 1)) "]".

(** ** The static tables *)

(** A row of the table qcx_info. *)
Record kvQcxInfo := {
  medium_qcx : string;
  main_qcx : string;
  controlpart : Z;
  qcx_comment : string
}.

Record Statics := {
  lockedControlFlags_ : gmap Z c_flags;
  mainQCXint_ : gmap string main_qc;
  qcxinfolist_ : list kvQcxInfo;
  mainQCX_ : gmap string main_qc;
  controlPart_ : gmap string Z
}.

(** The static members before the first object is made. *)
Definition statics0 : Statics :=
  {| lockedControlFlags_ := ∅; mainQCXint_ := ∅; qcxinfolist_ := [];
     mainQCX_ := ∅; controlPart_ := ∅ |}.

(** [init_], which every constructor runs. *)
Definition init_ (st : Statics) : Statics :=
  {| lockedControlFlags_ :=
       if decide (size (lockedControlFlags_ st) = 0%nat) then
         <[f_fhqc:Z := f_fhqc]> (<[f_fcombi:Z := f_fcombi]> (<[f_fpre:Z := f_fpre]>
         (<[f_fd:Z := f_fd]> (<[f_fclim:Z := f_fclim]> (<[f_fcp:Z := f_fcp]>
         (<[f_fstat:Z := f_fstat]> (<[f_fw:Z := f_fw]> (<[f_ftime:Z := f_ftime]>
         (<[f_fmis:Z := f_fmis]> (<[f_fpos:Z := f_fpos]> (<[f_fnum:Z := f_fnum]>
         (<[f_fs:Z := f_fs]> (<[f_fcc:Z := f_fcc]> (<[f_fr:Z := f_fr]>
         (lockedControlFlags_ st)))))))))))))))
       else lockedControlFlags_ st;
     mainQCXint_ :=
       if decide (size (mainQCXint_ st) = 0%nat) then
         <["HQC" := main_hqc]> (<["QC2m" := main_qc2m]>
         (<["QC2d" := main_qc2d]> (<["QC1" := main_qc1]> (mainQCXint_ st))))
       else mainQCXint_ st;
     qcxinfolist_ := qcxinfolist_ st;
     mainQCX_ := mainQCX_ st;
     controlPart_ := controlPart_ st |}.

(** One turn of the loop of [setQcxInfo]. *)
Definition setQcxInfo_step (st : Statics) (q : kvQcxInfo) : Statics :=
  {| lockedControlFlags_ := lockedControlFlags_ st;
     mainQCXint_ := mainQCXint_ st;
     qcxinfolist_ := qcxinfolist_ st;
     mainQCX_ :=
       match mainQCXint_ st !! main_qcx q with
       | None => mainQCX_ st (* logged: unknown main_qcx *)
       | Some m => <[medium_qcx q := m]> (mainQCX_ st)
       end;
     controlPart_ := <[medium_qcx q := controlpart q]> (controlPart_ st) |}.

Definition setQcxInfo (st : Statics) (qcxi : list kvQcxInfo) : Statics :=
  fold_left setQcxInfo_step qcxi
    {| lockedControlFlags_ := lockedControlFlags_ st;
       mainQCXint_ := mainQCXint_ st;
       qcxinfolist_ := qcxi;
       mainQCX_ := ∅;
       controlPart_ := ∅ |}.

(** [getControlFlag]: the value, or [None] for an unknown check (the code
    returns [false] and leaves its output argument alone). *)
Definition getControlFlag (st : Statics) (ci : kvControlInfo) (medium : string) : option Z :=
  match controlPart_ st !! medium with
  | Some part => Some (flag ci part)
  | None => None
  end.

(** [setControlFlag(medium_qcx, control)]: the flag and the returned value. *)
Definition setControlFlag (st : Statics) (ci : kvControlInfo) (medium : string) (control : Z)
  : kvControlInfo * bool :=
  match controlPart_ st !! medium with
  | Some nibble => (ci_set ci nibble control, true)
  | None => (ci, false)
  end.

(** [setControlFlag(c_flags, control)]. *)
Definition setControlFlag_part (ci : kvControlInfo) (cf : c_flags) (control : Z)
  : kvControlInfo * bool := (ci_set ci cf control, true).

(** ** Which controls were run *)

Definition nz (z : Z) : bool := negb (z =? 0).

Definition qc1Done (ci : kvControlInfo) : bool :=
  nz (flag ci f_fr) || nz (flag ci f_fcc) || nz (flag ci f_fs) || nz (flag ci f_fnum)
  || nz (flag ci f_fpos) || nz (flag ci f_fcp) || nz (flag ci f_fd) || nz (flag ci f_fpre)
  || nz (flag ci f_fcombi).

Definition qc2dDone (ci : kvControlInfo) : bool :=
  (flag ci f_fs >? 3) || nz (flag ci f_ftime) || nz (flag ci f_fw) || nz (flag ci f_fstat).

Definition qc2mDone (ci : kvControlInfo) : bool :=
  nz (flag ci f_fclim) || (flag ci f_fd >? 6).

Definition qc2Done (ci : kvControlInfo) : bool := qc2dDone ci || qc2mDone ci.

Definition hqcDone (ci : kvControlInfo) : bool := nz (flag ci f_fhqc).

(** [MissingFlag(v)], the writer, and [MissingFlag()], the reader. *)
Definition set_MissingFlag (ci : kvControlInfo) (v : Z) : kvControlInfo :=
  if (status_ok <=? v) && (v <=? status_orig_and_corr_missing)
  then ci_set ci f_fmis v else ci.

Definition MissingFlag (ci : kvControlInfo) : Z := flag ci f_fmis.

(** ** Lemmas *)

Definition ci_wf (ci : kvControlInfo) : Prop := flag_wf ci.
Definition ci_legal (ci : kvControlInfo) : Prop := flag_legal ci.

Lemma ci_set_legal ci i c : ci_legal ci -> ci_legal (ci_set ci i c).
Proof. apply set_legal. Qed.

Lemma ci_legal_wf ci : ci_legal ci -> ci_wf ci.
Proof. by intros []. Qed.

Lemma ci_new_legal : ci_legal kvControlInfo_new.
Proof. apply clear_legal. Qed.

(** Reading the part that was written, and any other part. *)
Lemma ci_set_eq ci (p : c_flags) c :
  ci_wf ci -> 0 <= c < 16 -> flag (ci_set ci p c) p = c.
Proof. intros. apply flag_set_eq; [done|apply c_flags_int_range|done]. Qed.

Lemma ci_set_ne ci (p q : c_flags) c : p <> q -> flag (ci_set ci p c) q = flag ci q.
Proof.
  intros. apply flag_set_ne; [apply c_flags_int_range..|].
  by intros ?%c_flags_int_inj.
Qed.

Lemma ci_new_flag i : flag kvControlInfo_new i = 0.
Proof.
  unfold flag. destruct (index_ok (to_char i)) eqn:E; [|done].
  apply index_ok_true in E.
  change (flag_ kvControlInfo_new) with (flag_ (fill (fun _ => "0"%char))).
  rewrite fill_lookup by (unfold flag_size; lia). reflexivity.
Qed.

(** The tables after the loop, by induction on the list read backwards. *)
Lemma setQcxInfo_snoc st l q :
  setQcxInfo st (l ++ [q]) =
  let st' := setQcxInfo_step (setQcxInfo st l) q in
  {| lockedControlFlags_ := lockedControlFlags_ st';
     mainQCXint_ := mainQCXint_ st';
     qcxinfolist_ := l ++ [q];
     mainQCX_ := mainQCX_ st';
     controlPart_ := controlPart_ st' |}.
Proof.
  unfold setQcxInfo. rewrite fold_left_app. simpl.
  assert (forall k a b x,
    fold_left setQcxInfo_step k
      {| lockedControlFlags_ := lockedControlFlags_ x; mainQCXint_ := mainQCXint_ x;
         qcxinfolist_ := a; mainQCX_ := mainQCX_ x; controlPart_ := controlPart_ x |} =
    let y := fold_left setQcxInfo_step k
      {| lockedControlFlags_ := lockedControlFlags_ x; mainQCXint_ := mainQCXint_ x;
         qcxinfolist_ := b; mainQCX_ := mainQCX_ x; controlPart_ := controlPart_ x |} in
      {| lockedControlFlags_ := lockedControlFlags_ y; mainQCXint_ := mainQCXint_ y;
         qcxinfolist_ := a; mainQCX_ := mainQCX_ y; controlPart_ := controlPart_ y |}) as H.
  { intros k a b. induction k as [|z k IH]; intros x; [done|]. simpl.
    exact (IH (setQcxInfo_step
      {| lockedControlFlags_ := lockedControlFlags_ x; mainQCXint_ := mainQCXint_ x;
         qcxinfolist_ := a; mainQCX_ := mainQCX_ x; controlPart_ := controlPart_ x |} z)). }
  pose proof (H l (l ++ [q]) l
    {| lockedControlFlags_ := lockedControlFlags_ st; mainQCXint_ := mainQCXint_ st;
       qcxinfolist_ := l; mainQCX_ := ∅; controlPart_ := ∅ |}) as E.
  cbn in E. rewrite E. reflexivity.
Qed.

Lemma setQcxInfo_int st l : mainQCXint_ (setQcxInfo st l) = mainQCXint_ st.
Proof.
  induction l as [|q l IH] using rev_ind; [done|]. rewrite setQcxInfo_snoc. done.
Qed.

(** The last element of [l] that satisfies [P], through [f]. *)
Fixpoint last_with {A B} (P : A -> bool) (f : A -> B) (l : list A) : option B :=
  match l with
  | [] => None
  | x :: r => match last_with P f r with
              | Some b => Some b
              | None => if P x then Some (f x) else None
              end
  end.

Lemma last_with_snoc {A B} (P : A -> bool) (f : A -> B) l x :
  last_with P f (l ++ [x]) = if P x then Some (f x) else last_with P f l.
Proof.
  induction l as [|y l IH]; simpl; [by destruct (P x)|].
  rewrite IH. by destruct (P x).
Qed.

Lemma setQcxInfo_controlPart st l m :
  controlPart_ (setQcxInfo st l) !! m =
  last_with (fun q => bool_decide (medium_qcx q = m)) controlpart l.
Proof.
  induction l as [|q l IH] using rev_ind; [apply lookup_empty|].
  rewrite setQcxInfo_snoc, last_with_snoc. simpl.
  case_bool_decide as E; [subst; apply lookup_insert_eq|].
  by rewrite lookup_insert_ne.
Qed.

(** The static tables are initialised once: a second constructor changes nothing. *)
Lemma init_idemp st : init_ (init_ st) = init_ st.
Proof.
  destruct st as [lk mi ql mq cp]. unfold init_; simpl.
  destruct (decide (size lk = 0%nat)) as [E|E];
    [apply map_size_empty_iff in E as ->|rewrite (decide_False (P := size lk = 0%nat)) by done];
  (destruct (decide (size mi = 0%nat)) as [E'|E'];
    [apply map_size_empty_iff in E' as ->|rewrite (decide_False (P := size mi = 0%nat)) by done]);
  reflexivity.
Qed.

(** ** Properties *)

(** flags by check name. Once the table qcx_info is loaded, a check whose
    name is in no row is refused and nothing changes. Otherwise the write goes
    to the control part of the last row with that name, and afterwards every
    check, the written one and any other, reads back the new value exactly when
    its own part is the same nibble; all other checks read what they read
    before. Parts outside the flag are refused by the write although the
    function returns [true]. *)
Theorem setControlFlag_getControlFlag (st : Statics) (rows : list kvQcxInfo)
    (ci : kvControlInfo) (m : string) (c : Z) :
  ci_wf ci ->
  let st' := setQcxInfo st rows in
  let part k := last_with (fun q => bool_decide (medium_qcx q = k)) controlpart rows in
  match part m with
  | None => setControlFlag st' ci m c = (ci, false) /\ getControlFlag st' ci m = None
  | Some p =>
      (setControlFlag st' ci m c).2 = true /\
      forall m', getControlFlag st' (setControlFlag st' ci m c).1 m' =
        (fun p' => if index_ok (to_char p) && legal_ c && (to_char p =? to_char p')
                   then c else flag ci p') <$> part m'
  end.
Proof.
  intros Hwf st' part.
  assert (forall k, controlPart_ st' !! k = part k) as Hp
    by (intros k; apply setQcxInfo_controlPart).
  unfold setControlFlag, getControlFlag. rewrite Hp.
  destruct (part m) as [p|]; [|done]. split; [done|]. intros m'. rewrite Hp. simpl.
  destruct (part m') as [p'|]; [|done]. simpl. f_equal. by apply flag_set_spec.
Qed.

Lemma setControlFlag_getControlFlag_witness :
  let rows := [{| medium_qcx := "QC1-1"; main_qcx := "QC1"; controlpart := 1; qcx_comment := "" |}] in
  let st := setQcxInfo (init_ statics0) rows in
  getControlFlag st (setControlFlag st kvControlInfo_new "QC1-1" 4).1 "QC1-1" = Some 4.
Proof.
  intros rows st.
  pose proof (setControlFlag_getControlFlag (init_ statics0) rows kvControlInfo_new "QC1-1" 4
    eq_refl) as H.
  destruct H as [_ H]. exact (H "QC1-1").
Defined.
