(* ===== verification/UseInfo.v ===== *)
(** * [kvUseInfo]: the use flag (src/src/lib/kvalobs/flag/kvUseInfo.cc)

    The use flag summarises the control flag for the users of the data.
    [setUseFlags] computes it; the confidence, the operator's id and the error
    count are two-nibble and one-nibble fields inside it. *)

From S2P Require Import Prelude DataFlag ControlInfo.

Record kvUseInfo := { ui_base : kvDataFlag }.
Coercion ui_base : kvUseInfo >-> kvDataFlag.

#[export] Instance kvUseInfo_eq_dec : EqDecision kvUseInfo.
Proof. solve_decision. Defined.

(** [kvUseInfo::clear]: nines in front, zeros behind. *)
Definition kvUseInfo_clear : kvUseInfo :=
  {| ui_base := fill (fun i => if (i <? 5)%nat then "9"%char else "0"%char) |}.

Definition kvUseInfo_new : kvUseInfo := kvUseInfo_clear.
Definition kvUseInfo_of_array (f : bytes) : kvUseInfo := {| ui_base := kvDataFlag_of_array f |}.
Definition kvUseInfo_of_string (s : string) : kvUseInfo := {| ui_base := kvDataFlag_of_string s |}.
(** The copy constructor and the explicit conversion from the base class. *)
Definition kvUseInfo_of_flag (df : kvDataFlag) : kvUseInfo := {| ui_base := kvDataFlag_copy df |}.

(** The inherited [set]. *)
Definition ui_set (ui : kvUseInfo) (index c : Z) : kvUseInfo :=
  {| ui_base := kvDataFlag_set ui index c |}.

Definition kvUseInfo_assign (this rhs : kvUseInfo) : kvUseInfo :=
  {| ui_base := kvDataFlag_copy rhs |}.

(** [operator=(const kvDataFlag &)]: nibble by nibble, through [set]. *)
Definition kvUseInfo_assign_flag (this : kvUseInfo) (rhs : kvDataFlag) : kvUseInfo :=
  {| ui_base := set_all this (flag rhs) |}.

Definition kvUseInfo_eqb (a b : kvUseInfo) : bool :=
  forallb (fun i => bool_decide (flag_ a !!! i = flag_ b !!! i)) (seq 0 flag_size).

(** [operator<<]. *)
Definition kvUseInfo_print (kd : kvUseInfo) : string :=
  "[" +:+ String.concat ""
        ((fun i => String (cflag kd (Z.of_nat i)) "|") <$> seq 0 (flag_size - 1))
  +:+ String (cflag kd (Z.of_nat flag_size - 1)) "]".

(** ** [setUseFlags]

    One definition per nibble it computes, each the chain of tests of the code;
    the [let]s name the control nibbles as the code does. *)

(** useinfo(0): which control levels were passed. *)
Definition use_ui0 (cinfo : kvControlInfo) : Z :=
  if qc1Done cinfo && qc2Done cinfo && hqcDone cinfo then 1
  else if negb (qc1Done cinfo) && qc2Done cinfo && hqcDone cinfo then 2
  else if qc1Done cinfo && negb (qc2Done cinfo) && hqcDone cinfo then 3
  else if negb (qc1Done cinfo) && negb (qc2Done cinfo) && hqcDone cinfo then 4
  else if qc1Done cinfo && qc2Done cinfo && negb (hqcDone cinfo) then 5
  else if negb (qc1Done cinfo) && qc2Done cinfo && negb (hqcDone cinfo) then 6
  else if qc1Done cinfo && negb (qc2Done cinfo) && negb (hqcDone cinfo) then 7
  else 9.

(** useinfo(1): deviation from the normal observation procedure; it reads the
    delay nibble [ui7] of the flag being updated. *)
Definition use_ui1 (cinfo : kvControlInfo) (ui7 : Z) : Z :=
  let fmis := flag cinfo f_fmis in
  let fd := flag cinfo f_fd in
  let fd_rest := (fd =? 2) || (fd =? 4) || (fd =? 7) || (fd =? 8) || (fd =? 9) || (fd =? 0xA) in
  if (fmis =? 1) || (fmis =? 3) then 8
  else if ((fd =? 0) || (fd =? 1)) && (ui7 =? 0) then 0
  else if ((fd =? 0) || (fd =? 1)) && (ui7 >? 0) then 1
  else if (fd =? 3) && (ui7 =? 0) then 2
  else if fd_rest && (ui7 =? 0) then 3
  else if (fd =? 3) && (ui7 >? 0) then 4
  else if fd_rest && (ui7 >? 0) then 5
  else 9.

(** useinfo(2): quality level of the original value. *)
Definition use_ui2 (cinfo : kvControlInfo) : Z :=
  let fagg := flag cinfo f_fagg in let fr := flag cinfo f_fr in
  let fcc := flag cinfo f_fcc in let fs := flag cinfo f_fs in
  let fnum := flag cinfo f_fnum in let fpos := flag cinfo f_fpos in
  let fmis := flag cinfo f_fmis in let ftime := flag cinfo f_ftime in
  let fw := flag cinfo f_fw in let fstat := flag cinfo f_fstat in
  let fcp := flag cinfo f_fcp in let fclim := flag cinfo f_fclim in
  let fd := flag cinfo f_fd in let fpre := flag cinfo f_fpre in
  let fcombi := flag cinfo f_fcombi in let fhqc := flag cinfo f_fhqc in
  if (fmis =? 1) || (fmis =? 3) then 9
  else if (fhqc =? 1) || (fhqc =? 2) then 0
  else if (fagg >? 4) || (fr =? 6) || (fr =? 0xA) || (fcc >=? 0xA) || (fcp >=? 0xA)
       || (fs >=? 8) || (ftime =? 1) || (ftime =? 2) || (fnum =? 6) || (fw =? 0xA)
       || (fpos >=? 4) || (fd =? 2) || (fd =? 4) || (fd >=? 7) || (fpre >=? 4) || (fclim =? 3)
       || (fcombi >=? 9) || (fhqc =? 4) || (fhqc >=? 6)
  then 3
  else if (fagg =? 3) || (((fr =? 4) || (fr =? 5)) && negb (fcombi =? 2) && negb (fcombi =? 1))
       || (fcc =? 3) || (fcc =? 4) || (fcc =? 6) || (fcc =? 7) || (fcp =? 3) || (fcp =? 4)
       || (fcp =? 6) || (fcp =? 7) || (fs =? 3) || (fw =? 3) || (fpos =? 3) || (fstat =? 2)
       || (fd =? 3)
  then 2
  else if (fagg =? 2) || (fr =? 2) || (fr =? 3) || (fcc =? 2) || (fcp =? 2) || (fs =? 2)
       || (fs =? 7) || (fw =? 2) || (fclim =? 2) || (fcombi =? 2)
  then 1
  else if (fagg =? 1) || (fr =? 1) || (fcc =? 1) || (fcp =? 1) || (fs =? 1) || (fs =? 4)
       || (fw =? 1) || (fpos =? 1) || (fstat =? 1) || (fclim =? 1) || (fd =? 1)
       || (fcombi =? 1)
  then 0
  else 9.

(** useinfo(3): how the original value was corrected. *)
Definition use_ui3 (cinfo : kvControlInfo) : Z :=
  let fagg := flag cinfo f_fagg in let fr := flag cinfo f_fr in
  let fcc := flag cinfo f_fcc in let fs := flag cinfo f_fs in
  let fnum := flag cinfo f_fnum in let fpos := flag cinfo f_fpos in
  let fmis := flag cinfo f_fmis in let ftime := flag cinfo f_ftime in
  let fcp := flag cinfo f_fcp in let fclim := flag cinfo f_fclim in
  let fd := flag cinfo f_fd in let fpre := flag cinfo f_fpre in
  let fhqc := flag cinfo f_fhqc in
  if fmis =? 3 then 9
  else if (fd =? 9) || (fd =? 0xA) || (fagg =? 8) then 5
  else if (fd =? 7) || (fd =? 8) || (fagg =? 9) then 6
  else if (fhqc =? 5) || (fagg =? 5) || ((ftime =? 1) && (fmis =? 1)) then 2
  else if (fhqc =? 7) || (fagg =? 4) || (fr =? 0xA) || (fs =? 9) || (fpre =? 4)
       || ((ftime =? 1) && (fmis =? 4)) then 1
  else if (fhqc =? 1) || (fhqc =? 2) then 0
  else if fmis =? 2 then 8
  else if fmis =? 1 then 4
  else if (fagg =? 6) || (fcc =? 0xA) || (fcc =? 0xB) || (fcp =? 0xA) || (fcp =? 0xB)
       || (fs =? 0xA) || (fpos =? 4) || (fpre =? 4) || (fclim =? 3)
       || (((fnum =? 6) || (ftime =? 2)) && (fmis =? 4)) then 3
  else 0.

(** useinfo(4): the most important control method; it reads the new
    [useinfo(2)]. *)
Definition use_ui4 (cinfo : kvControlInfo) (ui2 : Z) : Z :=
  let fr := flag cinfo f_fr in
  let fcc := flag cinfo f_fcc in let fs := flag cinfo f_fs in
  let fnum := flag cinfo f_fnum in let fpos := flag cinfo f_fpos in
  let ftime := flag cinfo f_ftime in
  let fw := flag cinfo f_fw in let fstat := flag cinfo f_fstat in
  let fcp := flag cinfo f_fcp in let fclim := flag cinfo f_fclim in
  let fd := flag cinfo f_fd in let fhqc := flag cinfo f_fhqc in
  if ui2 =? 0 then 0
  else if fhqc >=? 4 then 9
  else if (fd =? 2) || (fd =? 4) || (fd >=? 7) || (fr =? 7) then 9
  else if ((fr =? 0xA) || ((7 >? fr) && (fr >? 1))) && (fcc <=? 1) && (fcp <=? 1)
       && (fs <=? 1) && (fnum <=? 5) && (fpos <=? 1) && (ftime <=? 1) && (fw <=? 1)
       && (fstat <=? 1) && (fclim <=? 1) then 1
  else if ((fcc =? 2) || (fcc =? 3) || (fcc =? 6) || (fcc =? 9) || (fcc =? 0xA)
       || (fcc =? 0xD) || (fcp =? 2) || (fcp =? 3) || (fcp =? 0xA)) && (fs <=? 1)
       && (fnum <=? 5) && (fpos <=? 1) && (ftime <=? 1) && (fw <=? 1) && (fstat <=? 1)
       && (fclim <=? 1) then 2
  else if ((fs >? 1) || (fpos >? 1)) && (fnum <=? 5) && (ftime <=? 1) && (fw <=? 1)
       && (fstat <=? 1) && (fclim <=? 1) then 3
  else if ((fcc =? 4) || (fcc =? 7) || (fcc =? 0xB) || (fcp =? 4) || (fcp =? 7)
       || (fcp =? 0xB)) && (fnum <=? 5) && (ftime <=? 1) && (fw <=? 1) && (fstat <=? 1)
       && (fclim <=? 1) then 4
  else if ((fw >? 1) || (fclim >? 1)) && (fnum <=? 5) && (ftime <=? 1) && (fstat <=? 1) then 5
  else if (ftime >? 1) && (fnum <=? 5) && (fstat <=? 1) then 6
  else if (fnum >? 5) && (fstat <=? 1) then 7
  else if fstat >? 1 then 8
  else 9.

(** useinfo(15): the number of tests that gave a remark, incremented once per
    test in the order of the code. *)
Definition use_ui15 (cinfo : kvControlInfo) : Z :=
  let incr (b : bool) (n : Z) := if b then n + 1 else n in
  let n := 0 in
  let n := incr (flag cinfo f_fhqc >? 0) n in
  let n := incr (flag cinfo f_fr >? 1) n in
  let n := incr (flag cinfo f_fcc >? 1) n in
  let n := incr (flag cinfo f_fcp >? 1) n in
  let n := incr (flag cinfo f_fs >? 1) n in
  let n := incr (flag cinfo f_fnum >? 1) n in
  let n := incr (flag cinfo f_fpos >? 1) n in
  let n := incr (flag cinfo f_ftime >? 1) n in
  let n := incr (flag cinfo f_fw >? 1) n in
  let n := incr (flag cinfo f_fstat >? 1) n in
  let n := incr (flag cinfo f_fclim >? 1) n in
  incr (flag cinfo f_fpre >? 1) n.

(** The array [ui] at the end of the function. *)
Definition use_array (this : kvUseInfo) (cinfo : kvControlInfo) (i : Z) : Z :=
  let ui7 := flag this 7 in
  let ui2 := use_ui2 cinfo in
  if i =? 0 then use_ui0 cinfo
  else if i =? 1 then use_ui1 cinfo ui7
  else if i =? 2 then ui2
  else if i =? 3 then use_ui3 cinfo
  else if i =? 4 then use_ui4 cinfo ui2
  else if i =? 15 then use_ui15 cinfo
  else flag this i.

Definition setUseFlags (this : kvUseInfo) (cinfo : kvControlInfo) : kvUseInfo :=
  {| ui_base := set_all this (use_array this cinfo) |}.

(** ** The other fields *)

Definition addToErrorCount (ui : kvUseInfo) : kvUseInfo :=
  let c := flag ui 15 + 1 in
  let c := if c >? 15 then 15 else c in
  ui_set ui 15 c.

Definition ErrorCount (ui : kvUseInfo) : Z := flag ui 15.

(** [Confidence(c)], the writer: 0 to 100, refused otherwise. The division and
    the remainder are C++'s, which truncate; the operands are not negative. *)
Definition set_Confidence (ui : kvUseInfo) (c : Z) : kvUseInfo :=
  if (c <? 0) || (c >? 100) then ui
  else
    let i1 := Z.quot c 16 in
    let i2 := Z.rem c 16 in
    ui_set (ui_set ui 8 i1) 9 i2.

Definition Confidence (ui : kvUseInfo) : Z :=
  let i1 := flag ui 8 in
  let i2 := flag ui 9 in
  i1 * 16 + i2.

(** [HQCid(c)], the writer: 0 to 255, refused otherwise. *)
Definition set_HQCid (ui : kvUseInfo) (c : Z) : kvUseInfo :=
  if (c <? 0) || (c >? 255) then ui
  else
    let i1 := Z.quot c 16 in
    let i2 := Z.rem c 16 in
    ui_set (ui_set ui 13 i1) 14 i2.

Definition HQCid (ui : kvUseInfo) : Z :=
  let i1 := flag ui 13 in
  let i2 := flag ui 14 in
  i1 * 16 + i2.

(** ** Lemmas *)

Definition ui_wf (ui : kvUseInfo) : Prop := flag_wf ui.
Definition ui_legal (ui : kvUseInfo) : Prop := flag_legal ui.

(** Reduce a chain of tests to its branches without looking at the tests. *)
Ltac branches :=
  repeat match goal with |- context [if ?b then _ else _] => destruct b end; lia.

Lemma use_ui0_range c : 1 <= use_ui0 c <= 9 /\ use_ui0 c <> 8.
Proof. unfold use_ui0. branches. Qed.

Lemma use_ui1_range c u : 0 <= use_ui1 c u <= 9.
Proof. unfold use_ui1. cbv zeta. branches. Qed.

Lemma use_ui2_range c : 0 <= use_ui2 c <= 9.
Proof. unfold use_ui2. cbv zeta. branches. Qed.

Lemma use_ui3_range c : 0 <= use_ui3 c <= 9.
Proof. unfold use_ui3. cbv zeta. branches. Qed.

Lemma use_ui4_range c u : 0 <= use_ui4 c u <= 9.
Proof. unfold use_ui4. cbv zeta. branches. Qed.

(** The twelve tests of [use_ui15] as a table, and the count over it. *)
Definition remark_table : list (c_flags * Z) :=
  [(f_fhqc, 0); (f_fr, 1); (f_fcc, 1); (f_fcp, 1); (f_fs, 1); (f_fnum, 1); (f_fpos, 1);
   (f_ftime, 1); (f_fw, 1); (f_fstat, 1); (f_fclim, 1); (f_fpre, 1)].

Definition remarks (c : kvControlInfo) : list (c_flags * Z) :=
  filter (fun p : c_flags * Z => p.2 < flag c p.1) remark_table.

Lemma use_ui15_count c : use_ui15 c = Z.of_nat (length (remarks c)).
Proof.
  assert (forall (l : list (c_flags * Z)) n,
    fold_left (fun n (p : c_flags * Z) => if flag c p.1 >? p.2 then n + 1 else n) l n
    = n + Z.of_nat (length (filter (fun p : c_flags * Z => p.2 < flag c p.1) l)))
    as H.
  { induction l as [|p l IH]; intros n; simpl; [lia|].
    rewrite IH, filter_cons. rewrite Z.gtb_ltb.
    destruct (Z.ltb_spec p.2 (flag c p.1)).
    - rewrite decide_True by done. simpl. lia.
    - rewrite decide_False by lia. lia. }
  exact (H remark_table 0).
Qed.

Lemma use_ui15_range c : 0 <= use_ui15 c <= 12.
Proof.
  rewrite use_ui15_count. unfold remarks.
  pose proof (length_filter (fun p : c_flags * Z => p.2 < flag c p.1) remark_table)
    as H. simpl in H. lia.
Qed.

Lemma use_array_range (u : kvUseInfo) c i : 0 <= use_array u c i < 16.
Proof.
  unfold use_array. cbv zeta.
  pose proof (use_ui0_range c). pose proof (use_ui1_range c (flag u 7)).
  pose proof (use_ui2_range c). pose proof (use_ui3_range c).
  pose proof (use_ui4_range c (use_ui2 c)). pose proof (use_ui15_range c).
  pose proof (flag_range u i). branches.
Qed.

Lemma setUseFlags_fill (u : kvUseInfo) c :
  ui_wf u ->
  ui_base (setUseFlags u c) = fill (fun i => inttochar_ (use_array u c (Z.of_nat i))).
Proof. intros Hu. apply set_all_fill; [done|]. intros. apply use_array_range. Qed.

Lemma setUseFlags_legal (u : kvUseInfo) c : ui_wf u -> ui_legal (setUseFlags u c).
Proof.
  intros Hu. unfold ui_legal. rewrite setUseFlags_fill by done.
  apply fill_legal. intros. apply inttochar_hex.
Qed.

Lemma setUseFlags_flag (u : kvUseInfo) c i :
  ui_wf u -> 0 <= i < 16 -> flag (setUseFlags u c) i = use_array u c i.
Proof.
  intros Hu Hi. rewrite setUseFlags_fill by done. rewrite fill_flag by done.
  rewrite Z2Nat.id by lia. apply chartoint_inttochar, use_array_range.
Qed.

(** The kept nibbles: 5 to 14. *)
Lemma use_array_keep (u : kvUseInfo) c i : 5 <= i < 15 -> use_array u c i = flag u i.
Proof. intros Hi. unfold use_array. cbv zeta. repeat case_match; bool_to_prop; lia. Qed.

(** The array depends on the old flag through the kept nibbles only. *)
Lemma use_array_ext (u v : kvUseInfo) c i :
  (forall j, 5 <= j < 15 -> flag u j = flag v j) -> 0 <= i < 16 ->
  use_array u c i = use_array v c i.
Proof.
  intros H Hi. unfold use_array. cbv zeta. rewrite (H 7) by lia.
  repeat case_match; bool_to_prop; try done. apply H. lia.
Qed.

Lemma setUseFlags_ext (u v : kvUseInfo) c :
  ui_wf u -> ui_wf v -> (forall j, 5 <= j < 15 -> flag u j = flag v j) ->
  setUseFlags u c = setUseFlags v c.
Proof.
  intros Hu Hv H.
  assert (ui_base (setUseFlags u c) = ui_base (setUseFlags v c)) as E.
  { apply flag_legal_ext; [by apply setUseFlags_legal..|]. intros i Hi.
    rewrite !setUseFlags_flag by done. by apply use_array_ext. }
  destruct (setUseFlags u c), (setUseFlags v c). simpl in E. congruence.
Qed.

(** A number below 256 written in two adjacent nibbles. *)
Lemma two_nibbles (ui : kvUseInfo) i c :
  ui_wf ui -> 0 <= i < 15 -> 0 <= c < 256 ->
  let ui' := ui_set (ui_set ui i (Z.quot c 16)) (i + 1) (Z.rem c 16) in
  ui_wf ui' /\ flag ui' i * 16 + flag ui' (i + 1) = c /\
  (forall j, 0 <= j < 16 -> j <> i -> j <> i + 1 -> flag ui' j = flag ui j).
Proof.
  intros Hu Hi Hc. cbv zeta.
  rewrite Z.quot_div_nonneg, Z.rem_mod_nonneg by lia.
  assert (0 <= c / 16 < 16) as Hq by (split; [apply Z.div_pos|apply Z.div_lt_upper_bound]; lia).
  pose proof (Z.mod_pos_bound c 16 ltac:(lia)) as Hr.
  unfold ui_set, ui_wf; simpl. repeat split.
  - by do 2 apply set_wf.
  - rewrite (flag_set_eq _ (i + 1)) by (try apply set_wf; done || lia).
    rewrite flag_set_ne by lia. rewrite flag_set_eq by (done || lia).
    pose proof (Z.div_mod c 16). lia.
  - intros j Hj Hne Hne'. by rewrite !flag_set_ne by lia.
Qed.

(** ** Properties *)

(** [setUseFlags] is a projection of the control flag. The result is always
    sixteen hexadecimal digits; the nibbles 5 to 14 (delay, confidence, operator
    id) are kept; nothing else of the old flag matters; so applying it twice is
    applying it once. *)
Theorem setUseFlags_idempotent_frame (u : kvUseInfo) (c : kvControlInfo) :
  ui_wf u ->
  ui_legal (setUseFlags u c) /\
  (forall i, 5 <= i < 15 -> flag (setUseFlags u c) i = flag u i) /\
  (forall v : kvUseInfo, ui_wf v -> (forall i, 5 <= i < 15 -> flag v i = flag u i) ->
     setUseFlags v c = setUseFlags u c) /\
  setUseFlags (setUseFlags u c) c = setUseFlags u c.
Proof.
  intros Hu.
  assert (forall i, 5 <= i < 15 -> flag (setUseFlags u c) i = flag u i) as Hkeep.
  { intros i Hi. rewrite setUseFlags_flag by (done || lia). by apply use_array_keep. }
  assert (ui_legal (setUseFlags u c)) as HL by (by apply setUseFlags_legal).
  repeat split; [apply HL|apply HL|done| |].
  - intros v Hv H. by apply setUseFlags_ext.
  - apply setUseFlags_ext; [apply HL|done|done].
Qed.

Lemma setUseFlags_idempotent_frame_witness :
  setUseFlags (setUseFlags kvUseInfo_new kvControlInfo_new) kvControlInfo_new
  = setUseFlags kvUseInfo_new kvControlInfo_new.
Proof.
  destruct (setUseFlags_idempotent_frame kvUseInfo_new kvControlInfo_new eq_refl)
    as (_ & _ & _ & H). exact H.
Defined.

(** the control level, nibble 0, encodes the three stages without loss:
    from the digit alone one reads whether QC1, QC2 and HQC were done. *)
Theorem setUseFlags_control_level (u : kvUseInfo) (c : kvControlInfo) :
  ui_wf u ->
  let n := flag (setUseFlags u c) 0 in
  qc1Done c = bool_decide (n ∈ [1; 3; 5; 7]) /\
  qc2Done c = bool_decide (n ∈ [1; 2; 5; 6]) /\
  hqcDone c = bool_decide (n ∈ [1; 2; 3; 4]) /\
  n ∈ [1; 2; 3; 4; 5; 6; 7; 9].
Proof.
  intros Hu n. unfold n. rewrite setUseFlags_flag by (done || lia).
  change (use_array u c 0) with (use_ui0 c). unfold use_ui0.
  destruct (qc1Done c), (qc2Done c), (hqcDone c); simpl;
    (repeat split; [vm_compute; reflexivity..|]); set_solver.
Qed.

Lemma setUseFlags_control_level_witness :
  qc1Done kvControlInfo_new =
  bool_decide (flag (setUseFlags kvUseInfo_new kvControlInfo_new) 0 ∈ [1; 3; 5; 7]).
Proof.
  destruct (setUseFlags_control_level kvUseInfo_new kvControlInfo_new eq_refl) as [H _].
  exact H.
Defined.

(** C33: the error count, nibble 15, is the number of checks with a remark. The
    twelve checks cannot overflow the digit, so nothing is cut; the later
    [addToErrorCount] adds one per call and stops at fifteen. *)
Theorem setUseFlags_error_count (u : kvUseInfo) (c : kvControlInfo) (n : nat) :
  ui_wf u ->
  ErrorCount (setUseFlags u c) = Z.of_nat (length (remarks c)) /\
  (length (remarks c) <= 12)%nat /\
  ErrorCount (Nat.iter n addToErrorCount (setUseFlags u c))
    = Z.min 15 (Z.of_nat (length (remarks c) + n)).
Proof.
  intros Hu.
  assert (ErrorCount (setUseFlags u c) = Z.of_nat (length (remarks c))) as E.
  { unfold ErrorCount. rewrite setUseFlags_flag by (done || lia). apply use_ui15_count. }
  pose proof (use_ui15_range c) as Hr. rewrite use_ui15_count in Hr.
  split; [done|]. split; [lia|].
  assert (ui_wf (Nat.iter n addToErrorCount (setUseFlags u c)) /\
    ErrorCount (Nat.iter n addToErrorCount (setUseFlags u c))
    = Z.min 15 (Z.of_nat (length (remarks c) + n))) as [_ H]; [|done].
  induction n as [|n [Hwf IH]].
  - change (Nat.iter 0 addToErrorCount (setUseFlags u c)) with (setUseFlags u c). split; [by apply setUseFlags_legal|]. rewrite E. lia.
  - change (Nat.iter (S n) addToErrorCount (setUseFlags u c))
      with (addToErrorCount (Nat.iter n addToErrorCount (setUseFlags u c))).
    split; [by apply set_wf|]. unfold addToErrorCount at 1, ErrorCount at 1. simpl.
    unfold ErrorCount in IH. rewrite IH. rewrite flag_set_eq.
    + case_match; bool_to_prop; lia.
    + done.
    + lia.
    + case_match; bool_to_prop; lia.
Qed.

Lemma setUseFlags_error_count_witness :
  let c := ci_set (ci_set kvControlInfo_new f_fr 2) f_fs 3 in
  ErrorCount (Nat.iter 20 addToErrorCount (setUseFlags kvUseInfo_new c)) = 15.
Proof.
  intros c.
  destruct (setUseFlags_error_count kvUseInfo_new c 20 eq_refl) as (_ & _ & H).
  exact H.
Defined.

(** the two numbers inside the flag. A confidence from 0 to 100 and an
    operator id from 0 to 255 read back as written, do not disturb each other
    or any other nibble, and every other value is refused without effect. *)
Theorem confidence_hqcid_roundtrip (u : kvUseInfo) (c h : Z) :
  ui_wf u ->
  Confidence (set_HQCid (set_Confidence u c) h)
    = (if (0 <=? c) && (c <=? 100) then c else Confidence u) /\
  HQCid (set_HQCid (set_Confidence u c) h)
    = (if (0 <=? h) && (h <=? 255) then h else HQCid u) /\
  (forall j, 0 <= j < 16 -> j <> 8 -> j <> 9 -> j <> 13 -> j <> 14 ->
     flag (set_HQCid (set_Confidence u c) h) j = flag u j).
Proof.
  intros Hu.
  set (v := set_Confidence u c).
  assert (ui_wf v /\ Confidence v = (if (0 <=? c) && (c <=? 100) then c else Confidence u) /\
    forall j, 0 <= j < 16 -> j <> 8 -> j <> 9 -> flag v j = flag u j) as (Hv & Hc & Hfv).
  { unfold v, set_Confidence. destruct (decide (0 <= c <= 100)) as [Hc|Hc].
    - replace ((c <? 0) || (c >? 100)) with false by lia.
      replace ((0 <=? c) && (c <=? 100)) with true by lia.
      exact (two_nibbles u 8 c Hu ltac:(lia) ltac:(lia)).
    - replace ((c <? 0) || (c >? 100)) with true by lia.
      replace ((0 <=? c) && (c <=? 100)) with false by lia. done. }
  unfold set_HQCid. destruct (decide (0 <= h <= 255)) as [Hh|Hh].
  - replace ((h <? 0) || (h >? 255)) with false by lia.
    replace ((0 <=? h) && (h <=? 255)) with true by lia.
    destruct (two_nibbles v 13 h Hv ltac:(lia) ltac:(lia)) as (_ & Eh & Hfw).
    repeat split.
    + rewrite <- Hc. unfold Confidence. rewrite !Hfw by lia. done.
    + exact Eh.
    + intros j Hj ????. rewrite Hfw by lia. by apply Hfv.
  - replace ((h <? 0) || (h >? 255)) with true by lia.
    replace ((0 <=? h) && (h <=? 255)) with false by lia.
    repeat split; [done|unfold HQCid; by rewrite !Hfv by lia|].
    intros j Hj ????. by apply Hfv.
Qed.

Lemma confidence_hqcid_roundtrip_witness :
  Confidence (set_HQCid (set_Confidence kvUseInfo_new 77) 200) = 77 /\
  HQCid (set_HQCid (set_Confidence kvUseInfo_new 77) 200) = 200.
Proof.
  destruct (confidence_hqcid_roundtrip kvUseInfo_new 77 200 eq_refl) as (H1 & H2 & _).
  split; [exact H1|exact H2].
Defined.

(** what a user may conclude from the quality digits. A missing original
    (fmis 1 or 3) is always reported as such (ui1 = 8) and never given a
    quality level; an original that an operator accepted is of the best level
    and has no blamed method; and the most important method (ui4 = 1 to 8) is
    named only for a value that is not of the best level, that no operator
    corrected and that was not collected or distributed. *)
Theorem setUseFlags_quality (u : kvUseInfo) (c : kvControlInfo) :
  ui_wf u ->
  let r := setUseFlags u c in
  let missing := (flag c f_fmis =? 1) || (flag c f_fmis =? 3) in
  (missing = true <-> flag r 1 = 8) /\
  (missing = true -> flag r 2 = 9) /\
  (missing = false -> flag c f_fhqc = 1 \/ flag c f_fhqc = 2 ->
     flag r 2 = 0 /\ flag r 4 = 0) /\
  (flag r 4 = 0 <-> flag r 2 = 0) /\
  (1 <= flag r 4 <= 8 ->
     flag r 2 <> 0 /\ flag c f_fhqc < 4 /\ flag c f_fd < 7
     /\ flag c f_fd <> 2 /\ flag c f_fd <> 4 /\ flag c f_fr <> 7).
Proof.
  intros Hu r missing. unfold r, missing. clear r missing.
  rewrite !setUseFlags_flag by (done || lia).
  change (use_array u c 1) with (use_ui1 c (flag u 7)).
  change (use_array u c 2) with (use_ui2 c).
  change (use_array u c 4) with (use_ui4 c (use_ui2 c)).
  set (m := (flag c f_fmis =? 1) || (flag c f_fmis =? 3)).
  assert (m = true <-> use_ui1 c (flag u 7) = 8) as H1.
  { unfold use_ui1. cbv zeta. fold m. destruct m; [done|]. split; [done|]. branches. }
  assert (m = true -> use_ui2 c = 9) as H2.
  { unfold use_ui2. cbv zeta. fold m. by intros ->. }
  assert (use_ui4 c (use_ui2 c) = 0 <-> use_ui2 c = 0) as H4.
  { unfold use_ui4. cbv zeta. destruct (Z.eqb_spec (use_ui2 c) 0) as [E|E]; [tauto|].
    split; [|tauto]. branches. }
  split; [done|]. split; [done|]. split; [|split; [done|]].
  - intros Hm Hh. rewrite H4. cut (use_ui2 c = 0); [tauto|].
    unfold use_ui2. cbv zeta. fold m. rewrite Hm.
    by destruct Hh as [-> | ->].
  - unfold use_ui4. cbv zeta. intros Hr.
    destruct (use_ui2 c =? 0) eqn:E; [lia|]. bool_to_prop.
    destruct (flag c f_fhqc >=? 4) eqn:E1; [lia|].
    destruct ((flag c f_fd =? 2) || (flag c f_fd =? 4) || (flag c f_fd >=? 7)
      || (flag c f_fr =? 7)) eqn:E2; [lia|].
    clear Hr. bool_to_prop. lia.
Qed.

Lemma setUseFlags_quality_witness :
  let c := ci_set (ci_set kvControlInfo_new f_fr 4) f_fhqc 1 in
  flag (setUseFlags kvUseInfo_new c) 2 = 0 /\ flag (setUseFlags kvUseInfo_new c) 4 = 0.
Proof.
  intros c.
  destruct (setUseFlags_quality kvUseInfo_new c eq_refl) as (_ & _ & H & _).
  apply H; [reflexivity|left; reflexivity].
Defined.
