(* ===== verification/KvData.v ===== *)
(** * [kvData] and [kvTextData]: one value of an observation (src/src/lib/kvalobs)

    The records of the tables data and text_data with the operations of the
    classes that assign their members. The sort index of the base class, a
    printed copy of some members, is not part of the records. *)

From S2P Require Import Prelude Orders PTime DataFlag ControlInfo UseInfo.

Section kvData.
  Context {PT : PTime}.

Record kvData := {
  stationid_ : Z;
  obstime_ : ptime PT;
  original_ : spec_float;
  paramid_ : Z;
  tbtime_ : ptime PT;
  typeid_ : Z;
  sensor_ : Z;
  level_ : Z;
  corrected_ : spec_float;
  controlinfo_ : kvControlInfo;
  useinfo_ : kvUseInfo;
  cfailed_ : string
}.

Record kvTextData := {
  tx_stationid_ : Z;
  tx_obstime_ : ptime PT;
  tx_original_ : string;
  tx_paramid_ : Z;
  tx_tbtime_ : ptime PT;
  tx_typeid_ : Z
}.

#[export] Instance kvData_eq_dec : EqDecision kvData.
Proof. solve_decision. Defined.

#[export] Instance kvTextData_eq_dec : EqDecision kvTextData.
Proof. solve_decision. Defined.

(** [set(pos, obt, org, par, tbt, typ, sen, lvl, cor, cin, uin, fai)], also the
    constructor with these arguments. *)
Definition kvData_set (pos : Z) (obt : ptime PT) (org : spec_float) (par : Z) (tbt : ptime PT)
    (typ sen lvl : Z) (cor : spec_float) (cin : kvControlInfo) (uin : kvUseInfo)
    (fai : string) : kvData :=
  {| stationid_ := pos; obstime_ := obt; original_ := org; paramid_ := par; tbtime_ := tbt;
     typeid_ := typ; sensor_ := sen; level_ := lvl; corrected_ := cor; controlinfo_ := cin;
     useinfo_ := uin; cfailed_ := fai |}.

(** [set(pos, obt, org, par, tbt, typ, lvl)]: the sensor, the flags and cfailed
    keep their values, the corrected value becomes the original one. *)
Definition kvData_set_original (d : kvData) (pos : Z) (obt : ptime PT) (org : spec_float)
    (par : Z) (tbt : ptime PT) (typ lvl : Z) : kvData :=
  {| stationid_ := pos; obstime_ := obt; original_ := org; paramid_ := par; tbtime_ := tbt;
     typeid_ := typ; sensor_ := sensor_ d; level_ := lvl; corrected_ := org;
     controlinfo_ := controlinfo_ d; useinfo_ := useinfo_ d; cfailed_ := cfailed_ d |}.

(** [clean()], which the default constructor runs; [now] is the clock. *)
Definition kvData_clean (now : ptime PT) : kvData :=
  {| stationid_ := 0; obstime_ := now; original_ := Dbl.of_Z 0; paramid_ := 0; tbtime_ := now;
     typeid_ := 0; sensor_ := 0; level_ := 0; corrected_ := Dbl.of_Z 0;
     controlinfo_ := {| ci_base := kvDataFlag_clear |}; useinfo_ := kvUseInfo_clear;
     cfailed_ := "" |}.

(** The writers of single members. *)
Definition with_corrected (d : kvData) (c : spec_float) : kvData :=
  {| stationid_ := stationid_ d; obstime_ := obstime_ d; original_ := original_ d;
     paramid_ := paramid_ d; tbtime_ := tbtime_ d; typeid_ := typeid_ d; sensor_ := sensor_ d;
     level_ := level_ d; corrected_ := c; controlinfo_ := controlinfo_ d;
     useinfo_ := useinfo_ d; cfailed_ := cfailed_ d |}.

Definition with_controlinfo (d : kvData) (f : kvControlInfo) : kvData :=
  {| stationid_ := stationid_ d; obstime_ := obstime_ d; original_ := original_ d;
     paramid_ := paramid_ d; tbtime_ := tbtime_ d; typeid_ := typeid_ d; sensor_ := sensor_ d;
     level_ := level_ d; corrected_ := corrected_ d; controlinfo_ := f;
     useinfo_ := useinfo_ d; cfailed_ := cfailed_ d |}.

Definition with_useinfo (d : kvData) (f : kvUseInfo) : kvData :=
  {| stationid_ := stationid_ d; obstime_ := obstime_ d; original_ := original_ d;
     paramid_ := paramid_ d; tbtime_ := tbtime_ d; typeid_ := typeid_ d; sensor_ := sensor_ d;
     level_ := level_ d; corrected_ := corrected_ d; controlinfo_ := controlinfo_ d;
     useinfo_ := f; cfailed_ := cfailed_ d |}.

Definition with_cfailed (d : kvData) (cf : string) : kvData :=
  {| stationid_ := stationid_ d; obstime_ := obstime_ d; original_ := original_ d;
     paramid_ := paramid_ d; tbtime_ := tbtime_ d; typeid_ := typeid_ d; sensor_ := sensor_ d;
     level_ := level_ d; corrected_ := corrected_ d; controlinfo_ := controlinfo_ d;
     useinfo_ := useinfo_ d; cfailed_ := cf |}.

Definition with_tbtime (d : kvData) (t : ptime PT) : kvData :=
  {| stationid_ := stationid_ d; obstime_ := obstime_ d; original_ := original_ d;
     paramid_ := paramid_ d; tbtime_ := t; typeid_ := typeid_ d; sensor_ := sensor_ d;
     level_ := level_ d; corrected_ := corrected_ d; controlinfo_ := controlinfo_ d;
     useinfo_ := useinfo_ d; cfailed_ := cfailed_ d |}.

Definition with_typeid (d : kvData) (t : Z) : kvData :=
  {| stationid_ := stationid_ d; obstime_ := obstime_ d; original_ := original_ d;
     paramid_ := paramid_ d; tbtime_ := tbtime_ d; typeid_ := t; sensor_ := sensor_ d;
     level_ := level_ d; corrected_ := corrected_ d; controlinfo_ := controlinfo_ d;
     useinfo_ := useinfo_ d; cfailed_ := cfailed_ d |}.

(** [useinfo(int flag, char newVal)]: one nibble, through [kvDataFlag::set]. *)
Definition kvData_useinfo_nibble (d : kvData) (fl : Z) (newVal : ascii) : kvData :=
  with_useinfo d (ui_set (useinfo_ d) fl (char_val newVal)).

(** [kvTextData::set(sta, obt, org, pid, tbt, typ)], also the constructor. *)
Definition kvTextData_set (sta : Z) (obt : ptime PT) (org : string) (pid : Z) (tbt : ptime PT)
    (typ : Z) : kvTextData :=
  {| tx_stationid_ := sta; tx_obstime_ := obt; tx_original_ := org; tx_paramid_ := pid;
     tx_tbtime_ := tbt; tx_typeid_ := typ |}.

(** ** Well-formed values *)

(** Every object holds two flags of sixteen characters. *)
Definition kvData_wf (d : kvData) : Prop := ci_wf (controlinfo_ d) /\ ui_wf (useinfo_ d).

(** What identifies a value: all but the values, flags and times of arrival. *)
Definition same_identity (a b : kvData) : Prop :=
  stationid_ a = stationid_ b /\ obstime_ a = obstime_ b /\ original_ a = original_ b /\
  paramid_ a = paramid_ b /\ tbtime_ a = tbtime_ b /\ typeid_ a = typeid_ b /\
  sensor_ a = sensor_ b /\ level_ a = level_ b /\ cfailed_ a = cfailed_ b.

Lemma kvData_eta d :
  {| stationid_ := stationid_ d; obstime_ := obstime_ d; original_ := original_ d;
     paramid_ := paramid_ d; tbtime_ := tbtime_ d; typeid_ := typeid_ d; sensor_ := sensor_ d;
     level_ := level_ d; corrected_ := corrected_ d; controlinfo_ := controlinfo_ d;
     useinfo_ := useinfo_ d; cfailed_ := cfailed_ d |} = d.
Proof. by destruct d. Qed.

End kvData.

Arguments kvData : clear implicits.
Arguments kvTextData : clear implicits.
