(* ===== verification/KvDataOps.v ===== *)
(** * kvDataOperations: the life of a value (src/src/lib/kvalobs/kvDataOperations.cc)

    The state of a value is in the nibble fmis of its control flag: 0 untouched,
    1 original missing, 2 rejected, 3 missing, 4 corrected. [reject] and
    [correct] are its transitions, the functions of namespace [hqc] are those of
    the operators; the namespace [compare] orders and compares values. *)

From S2P Require Import Prelude Orders PTime DataFlag ControlInfo UseInfo KvData.

Section KvDataOps.
  Context {PT : PTime}.

(** The constants, [float]s converted to [double]: both are exact. *)
Definition rejectedValue_ : spec_float := Dbl.of_Z (-32766).
Definition missingValue_ : spec_float := Dbl.of_Z (-32767).

(** The enumerators of kvDataOperations.h that the file uses. *)
Definition fnum : Z := 4.
Definition fmis : Z := 6.
Definition fd : Z := 12.
Definition fhqc : Z := 15.

Definition missing (d : kvData PT) : bool := flag (controlinfo_ d) fmis =? 3.

Definition original_missing (d : kvData PT) : bool :=
  negb (Z.land (flag (controlinfo_ d) fmis) 1 =? 0).

Definition rejected (d : kvData PT) : bool := flag (controlinfo_ d) fmis =? 2.

Definition valid (d : kvData PT) : bool := negb (missing d) && negb (rejected d).

Definition corrected (d : kvData PT) : bool :=
  let m := flag (controlinfo_ d) fmis in
  negb (m =? 0) && negb (m =? 3).

Definition hqc_touched (d : kvData PT) : bool := negb (flag (controlinfo_ d) fhqc =? 0).

Definition has_model_value (d : kvData PT) : bool :=
  (flag (controlinfo_ d) fnum =? 6) && negb (hqc_touched d).

Definition reject (d : kvData PT) : kvData PT :=
  if valid d then
    let ci := controlinfo_ d in
    let old_fmis := flag ci fmis in
    let new_fmis := Z.lor old_fmis 2 in
    let new_fmis := Z.land new_fmis 3 in
    let ci := ci_set ci fmis new_fmis in
    let d := with_controlinfo d ci in
    with_corrected d (if original_missing d then missingValue_ else rejectedValue_)
  else d.

Definition correct (d : kvData PT) (new_val : spec_float) : kvData PT :=
  let ci := controlinfo_ d in
  let old_fmis := flag ci fmis in
  let new_fmis := if negb (Z.land old_fmis 1 =? 0) then 1 else 4 in
  let ci := ci_set ci fmis new_fmis in
  with_corrected (with_controlinfo d ci) new_val.

(** ** Making values for an observation *)

Record kvDataFactory := {
  f_stationID_ : Z;
  f_typeID_ : Z;
  f_obstime_ : ptime PT;
  f_sensor_ : Z;
  f_level_ : Z
}.

(** [kvDataFactory(const kvData &)]. *)
Definition kvDataFactory_of (d : kvData PT) : kvDataFactory :=
  {| f_stationID_ := stationid_ d; f_typeID_ := typeid_ d; f_obstime_ := obstime_ d;
     f_sensor_ := sensor_ d; f_level_ := level_ d |}.

(** [getData(val, paramID, obstime)]; [now] is the clock. *)
Definition getData (f : kvDataFactory) (now : ptime PT) (val : spec_float) (paramID : Z)
    (obstime : ptime PT) : kvData PT :=
  kvData_set (f_stationID_ f)
    (if is_not_a_date_time obstime then f_obstime_ f else obstime) val paramID now
    (f_typeID_ f) (f_sensor_ f) (f_level_ f) val kvControlInfo_new kvUseInfo_new "".

Definition getMissing (f : kvDataFactory) (now : ptime PT) (paramID : Z) (obstime : ptime PT)
  : kvData PT :=
  let ret := getData f now missingValue_ paramID obstime in
  let ci := ci_set (controlinfo_ ret) fmis 3 in
  with_controlinfo ret ci.

Definition getMissingKvData (now : ptime PT) (stationID : Z) (obsTime : ptime PT)
    (paramID typeID sensor level : Z) : kvData PT :=
  getMissing {| f_stationID_ := stationID; f_typeID_ := typeID; f_obstime_ := obsTime;
                f_sensor_ := sensor; f_level_ := level |} now paramID not_a_date_time.

(** ** namespace hqc *)

Definition setFhqc_ (d : kvData PT) (val : Z) : kvData PT :=
  with_controlinfo d (ci_set (controlinfo_ d) fhqc val).

Definition hqc_accept (d : kvData PT) : kvData PT := setFhqc_ d 1.

Definition hqc_reject (d : kvData PT) : kvData PT := setFhqc_ (reject d) 0xA.

Definition hqc_correct (d : kvData PT) (new_val : spec_float) : kvData PT :=
  setFhqc_ (correct d new_val) 7.

Definition hqc_interpol (d : kvData PT) (new_val : spec_float) : kvData PT :=
  setFhqc_ (correct d new_val) 5.

Definition hqc_distribute (d : kvData PT) (new_val : spec_float) : kvData PT :=
  let d := correct d new_val in
  let old_fd := flag (controlinfo_ d) fd in
  let new_fd := if (old_fd =? 4) || (old_fd =? 8) || (old_fd =? 0xA) then 0xA else 9 in
  let ci := ci_set (controlinfo_ d) fd new_fd in
  let ci := ci_set ci fhqc 6 in
  with_controlinfo d ci.

Definition hqc_auto_correct (d : kvData PT) (new_val : spec_float) : kvData PT :=
  if (flag (controlinfo_ d) fd <? 2) || (flag (controlinfo_ d) fd =? 3) then
    if original_missing d then hqc_interpol d new_val else hqc_correct d new_val
  else hqc_distribute d new_val.

Definition hqc_corrected (d : kvData PT) : bool :=
  let f := flag (controlinfo_ d) fhqc in (f >=? 5) && (f <=? 7).

Definition hqc_accepted (d : kvData PT) : bool := flag (controlinfo_ d) fhqc =? 1.

Definition hqc_rejected (d : kvData PT) : bool := flag (controlinfo_ d) fhqc =? 0xA.

(** ** namespace compare *)

(** The character ['0'] as a number: a sensor may be given either way. *)
Definition char_0 : Z := 48.

Definition eq_sensor (sA sB : Z) : bool := (sA =? sB) || (Z.abs (sA - sB) =? char_0).

(** The loop [while (s >= '0') s -= '0';], with the number of turns it can make
    as fuel. *)
Fixpoint sensor_loop (fuel : nat) (s : Z) : Z :=
  match fuel with
  | O => s
  | S fuel => if s >=? char_0 then sensor_loop fuel (s - char_0) else s
  end.

Definition sensor_index (s : Z) : Z := sensor_loop (Z.to_nat (s / char_0)) s.

Definition lt_sensor (sA sB : Z) : bool := sensor_index sA <? sensor_index sB.

Definition lt_kvData (a b : kvData PT) : bool :=
  if negb (stationid_ a =? stationid_ b) then stationid_ a <? stationid_ b
  else if negb (typeid_ a =? typeid_ b) then typeid_ a <? typeid_ b
  else if negb (level_ a =? level_ b) then level_ a <? level_ b
  else if negb (eq_sensor (sensor_ a) (sensor_ b)) then lt_sensor (sensor_ a) (sensor_ b)
  else if negb (bool_decide (obstime_ a = obstime_ b)) then ptime_lt (obstime_ a) (obstime_ b)
  else paramid_ a <? paramid_ b.

Definition same_kvData (a b : kvData PT) : bool :=
  (stationid_ a =? stationid_ b) && (typeid_ a =? typeid_ b) && (level_ a =? level_ b)
  && eq_sensor (sensor_ a) (sensor_ b) && bool_decide (obstime_ a = obstime_ b)
  && (paramid_ a =? paramid_ b).

Definition lt_kvData_without_paramID (a b : kvData PT) : bool :=
  if negb (stationid_ a =? stationid_ b) then stationid_ a <? stationid_ b
  else if negb (bool_decide (obstime_ a = obstime_ b)) then ptime_lt (obstime_ a) (obstime_ b)
  else if negb (typeid_ a =? typeid_ b) then typeid_ a <? typeid_ b
  else if negb (level_ a =? level_ b) then level_ a <? level_ b
  else lt_sensor (sensor_ a) (sensor_ b).

Definition same_obs_and_parameter (a b : kvData PT) : bool :=
  (stationid_ a =? stationid_ b) && (paramid_ a =? paramid_ b)
  && bool_decide (obstime_ a = obstime_ b) && (typeid_ a =? typeid_ b)
  && eq_sensor (sensor_ a) (sensor_ b) && (level_ a =? level_ b).

(** [std::abs(x - y) < 0.01]. *)
Definition near (x y : spec_float) : bool := Dbl.ltb (Dbl.abs (Dbl.sub x y)) (Dbl.lit 1 100).

Definition exactly_equal_ex_tbtime (a b : kvData PT) : bool :=
  same_obs_and_parameter a b
  && near (original_ a) (original_ b) && near (corrected_ a) (corrected_ b)
  && kvControlInfo_eqb (controlinfo_ a) (controlinfo_ b)
  && kvUseInfo_eqb (useinfo_ a) (useinfo_ b)
  && bool_decide (cfailed_ a = cfailed_ b).

Definition exactly_equal (a b : kvData PT) : bool :=
  exactly_equal_ex_tbtime a b && bool_decide (tbtime_ a = tbtime_ b).

(** The text values (kvTextDataOperations.cc). *)
Definition lt_kvTextData (a b : kvTextData PT) : bool :=
  if negb (tx_stationid_ a =? tx_stationid_ b) then tx_stationid_ a <? tx_stationid_ b
  else if negb (tx_typeid_ a =? tx_typeid_ b) then tx_typeid_ a <? tx_typeid_ b
  else if negb (bool_decide (tx_obstime_ a = tx_obstime_ b))
       then ptime_lt (tx_obstime_ a) (tx_obstime_ b)
  else tx_paramid_ a <? tx_paramid_ b.

Definition kvTextData_same_obs_and_parameter (a b : kvTextData PT) : bool :=
  (tx_stationid_ a =? tx_stationid_ b) && (tx_paramid_ a =? tx_paramid_ b)
  && bool_decide (tx_obstime_ a = tx_obstime_ b) && (tx_typeid_ a =? tx_typeid_ b).

Definition kvTextData_exactly_equal_ex_tbtime (a b : kvTextData PT) : bool :=
  kvTextData_same_obs_and_parameter a b && bool_decide (tx_original_ a = tx_original_ b).

End KvDataOps.

Arguments kvDataFactory : clear implicits.

(** ** Lemmas: the state nibble *)

Section state.
  Context {PT : PTime}.

(** What [reject] and [correct] write into fmis. *)
Definition rejected_fmis (v : Z) : Z := Z.land (Z.lor v 2) 3.
Definition corrected_fmis (v : Z) : Z := if negb (Z.land v 1 =? 0) then 1 else 4.

Lemma rejected_fmis_odd v : 0 <= v < 16 -> rejected_fmis v = if Z.odd v then 3 else 2.
Proof. by_range 16%nat. Qed.

Lemma corrected_fmis_odd v : 0 <= v < 16 -> corrected_fmis v = if Z.odd v then 1 else 4.
Proof. by_range 16%nat. Qed.

Lemma original_missing_odd (d : kvData PT) :
  original_missing d = Z.odd (flag (controlinfo_ d) fmis).
Proof.
  unfold original_missing. pose proof (flag_range (controlinfo_ d) fmis) as H.
  revert H. generalize (flag (controlinfo_ d) fmis). intros v. by_range 16%nat.
Qed.

(** A nibble of the control flag after a write to a nibble. *)
Lemma ci_flag_set (ci : kvControlInfo) i j c :
  ci_wf ci -> 0 <= i < 16 -> 0 <= j < 16 -> 0 <= c < 16 ->
  flag (ci_set ci i c) j = if i =? j then c else flag ci j.
Proof.
  intros Hci Hi Hj Hc. simpl. destruct (Z.eqb_spec i j) as [->|Hne].
  - by apply flag_set_eq.
  - by apply flag_set_ne.
Qed.

Lemma ci_set_wf (ci : kvControlInfo) i c : ci_wf ci -> ci_wf (ci_set ci i c).
Proof. apply set_wf. Qed.

(** [reject] and [correct] as one write each. *)
Lemma reject_valid (d : kvData PT) :
  ci_wf (controlinfo_ d) -> valid d = true ->
  reject d = with_corrected
    (with_controlinfo d (ci_set (controlinfo_ d) fmis (rejected_fmis (flag (controlinfo_ d) fmis))))
    (if original_missing d then missingValue_ else rejectedValue_).
Proof.
  intros Hwf Hv. unfold reject. rewrite Hv. fold (rejected_fmis (flag (controlinfo_ d) fmis)).
  pose proof (flag_range (controlinfo_ d) fmis) as Hr.
  rewrite (original_missing_odd d), original_missing_odd. simpl.
  rewrite flag_set_eq; [|done|done|rewrite rejected_fmis_odd by done; by case_match].
  f_equal. rewrite rejected_fmis_odd by done.
  by destruct (Z.odd (flag (controlinfo_ d) fmis)).
Qed.

Lemma correct_unfold (d : kvData PT) v :
  correct d v = with_corrected
    (with_controlinfo d (ci_set (controlinfo_ d) fmis (corrected_fmis (flag (controlinfo_ d) fmis)))) v.
Proof. done. Qed.

(** The state nibble alone decides the four predicates. *)
Definition fmis_valid (v : Z) : bool := negb (v =? 3) && negb (v =? 2).

Lemma valid_fmis (d : kvData PT) : valid d = fmis_valid (flag (controlinfo_ d) fmis).
Proof. done. Qed.

End state.

#[export] Hint Resolve ci_set_wf : kvflag.

(** ** Lemmas: sensors and orders *)

Lemma sensor_loop_mod fuel s :
  0 <= s -> s / char_0 <= Z.of_nat fuel -> sensor_loop fuel s = s mod char_0.
Proof.
  unfold char_0. revert s. induction fuel as [|fuel IH]; intros s Hs Hf; simpl; rewrite ?Z.geb_leb.
  - symmetry. apply Z.mod_small. pose proof (Z.div_pos s 48). pose proof (Z.div_mod s 48).
    pose proof (Z.mod_pos_bound s 48). lia.
  - unfold char_0. destruct (Z.leb_spec 48 s).
    + replace (s mod 48) with ((s - 48) mod 48).
      * apply IH; [lia|]. replace (s - 48) with (s + (-1) * 48) by lia.
        rewrite Z.div_add by lia. lia.
      * replace (s - 48) with (s + (-1) * 48) by lia. apply Z.mod_add. lia.
    + symmetry. apply Z.mod_small. lia.
Qed.

Lemma sensor_loop_neg fuel s : s < char_0 -> sensor_loop fuel s = s.
Proof.
  destruct fuel; simpl; [done|]. intros. rewrite Z.geb_leb.
  destruct (Z.leb_spec char_0 s); [lia|done].
Qed.

Lemma sensor_index_mod s : 0 <= s -> sensor_index s = s mod char_0.
Proof.
  intros Hs. apply sensor_loop_mod; [done|].
  pose proof (Z.div_pos s char_0 Hs ltac:(done)). lia.
Qed.

(** A sensor number, or the character of one. *)
Definition sensor_ok (s : Z) : Prop := 0 <= s < 96.

Lemma eq_sensor_mod a b :
  sensor_ok a -> sensor_ok b -> eq_sensor a b = (a mod char_0 =? b mod char_0).
Proof.
  unfold sensor_ok, eq_sensor, char_0. intros Ha Hb.
  destruct (Z.eqb_spec a b), (Z.eqb_spec (Z.abs (a - b)) 48), (Z.eqb_spec (a mod 48) (b mod 48));
    simpl; try done; Z.to_euclidean_division_equations; lia.
Qed.

Lemma sw_sensor {A} (ok : A -> Prop) (f : A -> Z) :
  (forall a, ok a -> sensor_ok (f a)) ->
  strict_weak ok (fun a b => eq_sensor (f a) (f b)) (fun a b => lt_sensor (f a) (f b)).
Proof.
  intros Hok. eapply sw_ext; [| |exact (sw_Z ok (fun a => f a mod char_0))].
  - intros a b Ha Hb. symmetry. apply eq_sensor_mod; auto.
  - intros a b Ha Hb. unfold lt_sensor.
    apply Hok in Ha, Hb. unfold sensor_ok in *. by rewrite !sensor_index_mod by lia.
Qed.

Section orders.
  Context {PT : PTime} {PL : PTimeLaws PT}.

(** Values as the system stores them: a sensor from 0 to 47, or given as the
    character of one, and a real observation time. *)
Definition kvData_ordered (d : kvData PT) : Prop :=
  sensor_ok (sensor_ d) /\ is_not_a_date_time (obstime_ d) = false.

Lemma lt_kvData_strict_weak : strict_weak kvData_ordered same_kvData lt_kvData.
Proof.
  eapply sw_ext; cycle 2.
  - apply sw_lex; [exact (sw_Z _ stationid_)|].
    apply sw_lex; [exact (sw_Z _ typeid_)|].
    apply sw_lex; [exact (sw_Z _ level_)|].
    apply sw_lex; [apply (sw_sensor _ sensor_); by intros a []|].
    apply sw_lex; [apply (sw_ptime _ obstime_); by intros a []|].
    exact (sw_Z _ paramid_).
  - intros a b _ _. unfold lex_eq, same_kvData. by rewrite !andb_assoc.
  - done.
Qed.

Lemma lt_kvTextData_strict_weak :
  strict_weak (fun d : kvTextData PT => is_not_a_date_time (tx_obstime_ d) = false)
    (fun a b => (tx_stationid_ a =? tx_stationid_ b) && ((tx_typeid_ a =? tx_typeid_ b)
       && (bool_decide (tx_obstime_ a = tx_obstime_ b) && (tx_paramid_ a =? tx_paramid_ b))))
    lt_kvTextData.
Proof.
  apply sw_lex; [exact (sw_Z _ tx_stationid_)|].
  apply sw_lex; [exact (sw_Z _ tx_typeid_)|].
  apply sw_lex; [apply (sw_ptime _ tx_obstime_); done|].
  exact (sw_Z _ tx_paramid_).
Qed.
End orders.

(** ** Properties *)

Section properties.
  Context {PT : PTime}.

(** Rejecting a value. A value that is already rejected or missing is not
    touched. Any other becomes missing when its original was missing and
    rejected when it was not, with the corrected value set to the constant that
    says so; whether the original was missing is remembered, everything but
    fmis and the corrected value is kept, and rejecting again has no effect. *)
Theorem reject_spec (d : kvData PT) :
  ci_wf (controlinfo_ d) ->
  let r := reject d in
  (valid d = false -> r = d) /\
  (valid d = true ->
     valid r = false /\ missing r = original_missing d /\
     rejected r = negb (original_missing d) /\
     corrected_ r = (if original_missing d then missingValue_ else rejectedValue_)) /\
  original_missing r = original_missing d /\
  same_identity r d /\ useinfo_ r = useinfo_ d /\
  (forall j, 0 <= j < 16 -> j <> fmis -> flag (controlinfo_ r) j = flag (controlinfo_ d) j) /\
  reject r = r.
Proof.
  intros Hwf r. pose proof (flag_range (controlinfo_ d) fmis) as Hr.
  destruct (valid d) eqn:Hv; cycle 1.
  { assert (r = d) as -> by (unfold r, reject; by rewrite Hv). repeat split; try done.
    unfold reject. by rewrite Hv. }
  pose proof (reject_valid d Hwf Hv) as E. fold r in E.
  rewrite rejected_fmis_odd, original_missing_odd in E by done.
  set (v := if Z.odd (flag (controlinfo_ d) fmis) then 3 else 2) in E.
  assert (0 <= v < 16) as Hvr by (unfold v; by case_match).
  assert (flag (controlinfo_ r) fmis = v) as Ef
    by (rewrite E; cbn [controlinfo_ with_corrected with_controlinfo]; by apply flag_set_eq).
  assert (valid r = false) as Hvf
    by (rewrite valid_fmis, Ef; unfold v; by destruct (Z.odd _)).
  assert (original_missing r = original_missing d) as Hom
    by (rewrite !original_missing_odd, Ef; unfold v; by destruct (Z.odd _)).
  split; [done|]. split.
  { intros _. unfold missing, rejected. rewrite Ef, original_missing_odd. unfold v.
    repeat split; [done|by destruct (Z.odd _)..|]. by rewrite E. }
  split; [done|]. split; [rewrite E; repeat split|]. split; [by rewrite E|]. split.
  - intros j Hj Hne. rewrite E. simpl. apply flag_set_ne; done || congruence.
  - unfold reject. by rewrite Hvf.
Qed.

(** correcting a value. From every state the value becomes valid and
    corrected with the given number; the memory of a missing original is kept,
    so rejecting the corrected value later ends in the state that a rejection
    of the uncorrected value ends in, and nothing but fmis and the corrected
    value changes. *)
Theorem correct_spec (d : kvData PT) (v : spec_float) :
  ci_wf (controlinfo_ d) ->
  let r := correct d v in
  valid r = true /\ corrected r = true /\ corrected_ r = v /\
  original_missing r = original_missing d /\
  same_identity r d /\ useinfo_ r = useinfo_ d /\
  (forall j, 0 <= j < 16 -> j <> fmis -> flag (controlinfo_ r) j = flag (controlinfo_ d) j) /\
  (valid d = true -> reject r = reject d).
Proof.
  intros Hwf r. pose proof (flag_range (controlinfo_ d) fmis) as Hr.
  pose proof (correct_unfold d v) as E. fold r in E.
  rewrite corrected_fmis_odd in E by done.
  set (w := if Z.odd (flag (controlinfo_ d) fmis) then 1 else 4) in E.
  assert (0 <= w < 16) as Hwr by (unfold w; by case_match).
  assert (flag (controlinfo_ r) fmis = w) as Ef
    by (rewrite E; cbn [controlinfo_ with_corrected with_controlinfo]; by apply flag_set_eq).
  assert (original_missing r = original_missing d) as Hom
    by (rewrite !original_missing_odd, Ef; unfold w; by destruct (Z.odd _)).
  assert (valid r = true) as Hvr
    by (rewrite valid_fmis, Ef; unfold w; by destruct (Z.odd _)).
  split; [done|]. split; [unfold corrected; rewrite Ef; unfold w; by destruct (Z.odd _)|].
  split; [by rewrite E|]. split; [done|]. split; [rewrite E; repeat split|].
  split; [by rewrite E|]. split.
  - intros j Hj Hne. rewrite E. simpl. apply flag_set_ne; done || congruence.
  - intros Hv. rewrite (reject_valid r), (reject_valid d), Hom by
      (done || by rewrite E; apply ci_set_wf).
    rewrite Ef, !rejected_fmis_odd by done.
    assert (Z.odd w = Z.odd (flag (controlinfo_ d) fmis)) as ->
      by (unfold w; by destruct (Z.odd _)).
    rewrite E. unfold with_corrected, with_controlinfo; simpl. f_equal.
    unfold ci_set; simpl. f_equal. apply set_set_eq; [done| |]; done || by case_match.
Qed.

(** The number of the new distribution flag, and of the operator's flag. *)
Definition new_fd (old_fd : Z) : Z := if bool_decide (old_fd ∈ [4; 8; 10]) then 10 else 9.

Lemma new_fd_test old_fd :
  (if (old_fd =? 4) || (old_fd =? 8) || (old_fd =? 10) then 10 else 9) = new_fd old_fd.
Proof.
  unfold new_fd. case_bool_decide as E; rewrite !elem_of_cons, elem_of_nil in E.
  - by destruct E as [->|[->|[->|[]]]].
  - destruct (Z.eqb_spec old_fd 4), (Z.eqb_spec old_fd 8), (Z.eqb_spec old_fd 10);
      simpl; tauto.
Qed.

(** [hqc_auto_correct] as the writes it makes to the control flag. *)
Lemma hqc_auto_correct_writes (d : kvData PT) v :
  ci_wf (controlinfo_ d) ->
  let old_fd := flag (controlinfo_ d) fd in
  let collected := negb ((old_fd <? 2) || (old_fd =? 3)) in
  let ci1 := ci_set (controlinfo_ d) fmis (corrected_fmis (flag (controlinfo_ d) fmis)) in
  let ci2 := if collected then ci_set ci1 fd (new_fd old_fd) else ci1 in
  hqc_auto_correct d v =
    with_controlinfo (with_corrected d v)
      (ci_set ci2 fhqc (if collected then 6 else if original_missing d then 5 else 7)).
Proof.
  intros Hwf old_fd collected ci1 ci2.
  unfold hqc_auto_correct, ci2. fold old_fd. unfold collected.
  destruct ((old_fd <? 2) || (old_fd =? 3)); simpl.
  - unfold hqc_interpol, hqc_correct, setFhqc_.
    rewrite correct_unfold. by destruct (original_missing d).
  - unfold hqc_distribute. rewrite correct_unfold. cbv zeta.
    cbn [controlinfo_ with_corrected with_controlinfo]. fold ci1.
    assert (flag ci1 fd = old_fd) as -> by (apply flag_set_ne; [done..|discriminate]).
    by rewrite new_fd_test.
Qed.

(** the operators' correction. [hqc_auto_correct] always ends in a valid
    value with the operator's number, marked as corrected by an operator. How is
    decided by the distribution flag and the original: a value that was not
    collected is corrected (fhqc 7), or interpolated when its original was
    missing (fhqc 5), and its distribution flag is kept; a collected value is
    redistributed by hand (fhqc 6), and its distribution flag says whether it was
    the end point of the collection. Nothing else changes. *)
Theorem hqc_auto_correct_spec (d : kvData PT) (v : spec_float) :
  ci_wf (controlinfo_ d) ->
  let r := hqc_auto_correct d v in
  let old_fd := flag (controlinfo_ d) fd in
  let collected := negb ((old_fd <? 2) || (old_fd =? 3)) in
  valid r = true /\ corrected_ r = v /\ hqc_corrected r = true /\
  original_missing r = original_missing d /\
  flag (controlinfo_ r) fhqc =
    (if collected then 6 else if original_missing d then 5 else 7) /\
  flag (controlinfo_ r) fd =
    (if collected then if bool_decide (old_fd ∈ [4; 8; 10]) then 10 else 9 else old_fd) /\
  (forall j, 0 <= j < 16 -> j <> fmis -> j <> fd -> j <> fhqc ->
     flag (controlinfo_ r) j = flag (controlinfo_ d) j) /\
  same_identity r d /\ useinfo_ r = useinfo_ d.
Proof.
  intros Hwf r old_fd collected.
  pose proof (hqc_auto_correct_writes d v Hwf) as Er. cbv zeta in Er.
  fold r old_fd collected in Er.
  pose proof (corrected_fmis_odd (flag (controlinfo_ d) fmis) (flag_range _ _)) as Hodd.
  set (w := corrected_fmis (flag (controlinfo_ d) fmis)) in *.
  set (h := if collected then 6 else if original_missing d then 5 else 7) in *.
  assert (0 <= w < 16) as Hw by (rewrite Hodd; by case_match).
  assert (0 <= new_fd old_fd < 16) as Hnfd by (unfold new_fd; case_bool_decide; lia).
  assert (0 <= h < 16) as Hh by (unfold h; destruct collected, (original_missing d); lia).
  assert (ci_wf (ci_set (controlinfo_ d) fmis w)) as Hwf1 by (by apply ci_set_wf).
  assert (forall j, 0 <= j < 16 -> flag (controlinfo_ r) j =
    if 15 =? j then h else if collected && (12 =? j) then new_fd old_fd
    else if 6 =? j then w else flag (controlinfo_ d) j) as Hf.
  { intros j Hj. rewrite Er. cbn [controlinfo_ with_controlinfo].
    destruct collected; cbn [andb]; rewrite !ci_flag_set by (try apply ci_set_wf; done);
      done. }
  assert (flag (controlinfo_ r) fmis = w) as Ef by (rewrite Hf by done; by rewrite andb_false_r).
  rewrite original_missing_odd in *.
  split; [by rewrite valid_fmis, Ef, Hodd; case_match|].
  split; [by rewrite Er|].
  split; [unfold hqc_corrected; rewrite Hf by done; unfold h; by repeat case_match|].
  split; [rewrite original_missing_odd, Ef, Hodd; by destruct (Z.odd _)|].
  split; [by rewrite Hf|].
  split; [rewrite Hf by done; simpl; by destruct collected|].
  split; [|rewrite Er; by repeat split].
  intros j Hj Hn1 Hn2 Hn3. rewrite Hf by done. unfold fmis, fd, fhqc in *.
  destruct (Z.eqb_spec 15 j), (Z.eqb_spec 12 j), (Z.eqb_spec 6 j); try congruence.
  by rewrite andb_false_r.
Qed.

(** The order of the values. On values with a real observation time whose
    sensor is a number from 0 to 47 or the character of one, [lt_kvData] is a
    strict weak order, as sorting and sets require, and its equivalence is
    [same_kvData]: two values are incomparable exactly when they are the same
    parameter of the same observation, a sensor and its character being equal. *)
Theorem lt_kvData_order {PL : PTimeLaws PT} (a b c : kvData PT) :
  kvData_ordered a -> kvData_ordered b -> kvData_ordered c ->
  lt_kvData a a = false /\
  (lt_kvData a b = true -> lt_kvData b c = true -> lt_kvData a c = true) /\
  (lt_kvData a b = true -> lt_kvData b a = false) /\
  (lt_kvData a b = false /\ lt_kvData b a = false <-> same_kvData a b = true) /\
  (same_kvData a b = true -> same_kvData b c = true -> same_kvData a c = true).
Proof.
  intros Ha Hb Hc. pose proof lt_kvData_strict_weak as S.
  split; [by apply (sw_irrefl S), (sw_refl S)|].
  split; [by apply (sw_trans S)|]. split; [by apply (sw_asym S)|].
  split; [by apply (sw_incomparable S)|by apply (sw_etrans S)].
Qed.
End properties.

(** A value at the concrete clock, for the instances. *)
Definition sample_data (sensor m h f : Z) : kvData stamp_time :=
  with_controlinfo (kvData_set 18700 (stamp_of 2024 1 1 6 0 0) (Dbl.lit 42 10) 211
    (stamp_of 2024 1 1 6 5 0) 501 sensor 0 (Dbl.lit 42 10) kvControlInfo_new kvUseInfo_new "")
    (ci_set (ci_set (ci_set kvControlInfo_new fmis m) fhqc h) fd f).

Lemma reject_spec_witness :
  valid (sample_data 0 4 0 0) = true /\ corrected_ (reject (sample_data 0 4 0 0)) = rejectedValue_.
Proof.
  split; [reflexivity|].
  destruct (reject_spec (sample_data 0 4 0 0) eq_refl) as (_ & H & _).
  destruct (H eq_refl) as (_ & _ & _ & H'). exact H'.
Defined.

Lemma correct_spec_witness :
  let d := sample_data 0 1 0 0 in
  reject (correct d (Dbl.of_Z 5)) = reject d.
Proof.
  intros d. destruct (correct_spec d (Dbl.of_Z 5) eq_refl) as (_ & _ & _ & _ & _ & _ & _ & H).
  exact (H eq_refl).
Defined.

Lemma hqc_auto_correct_spec_witness :
  flag (controlinfo_ (hqc_auto_correct (sample_data 0 0 0 8) (Dbl.of_Z 5))) fhqc = 6.
Proof.
  destruct (hqc_auto_correct_spec (sample_data 0 0 0 8) (Dbl.of_Z 5) eq_refl)
    as (_ & _ & _ & _ & H & _). exact H.
Defined.

Lemma lt_kvData_order_witness :
  lt_kvData (sample_data 1 0 0 0) (sample_data 50 0 0 0) = true /\
  lt_kvData (sample_data 50 0 0 0) (sample_data 1 0 0 0) = false.
Proof.
  split; [reflexivity|].
  refine (proj1 (proj2 (proj2 (lt_kvData_order (sample_data 1 0 0 0) (sample_data 50 0 0 0)
    (sample_data 2 0 0 0) _ _ _))) eq_refl); split; vm_compute; split; congruence.
Defined.

(** ** What the comments say otherwise *)

(** kvDataOperations.h documents [reject] as "has no effect if original already
    was missing"; an interpolated value (fmis 1) is changed. *)
Lemma reject_interpolated_changes :
  let d := sample_data 0 1 0 0 in
  original_missing d = true /\ reject d <> d /\ missing (reject d) = true.
Proof.
  split; [reflexivity|]. split; [|reflexivity].
  intros E. apply (f_equal (fun d => flag (controlinfo_ d) fmis)) in E. vm_compute in E.
  discriminate.
Qed.

(** Outside the range of the sensors the equality is not transitive. *)
Lemma eq_sensor_not_transitive :
  eq_sensor 0 48 = true /\ eq_sensor 48 96 = true /\ eq_sensor 0 96 = false /\
  lt_sensor 0 96 = false /\ lt_sensor 96 0 = false.
Proof. repeat split. Qed.
