(* ===== verification/SortedData.v ===== *)
(** * sorteddata.h: sorted containers addressed by key (src/src/lib/decodeutility)

    [Container<Next>] is a [std::set] of elements ordered by a key, with
    [operator[]] inserting a missing element. It is modelled as the list of its
    key/element pairs in iteration order; a reference obtained by [operator[]]
    and then modified is an update function. *)

From S2P Require Import Prelude Orders PTime.

(** Keys: a strict order, total on the keys that may occur. *)
Class KeyOrder (K : Type) (kok : K -> Prop) (klt : K -> K -> bool) := {
  ko_irrefl k : klt k k = false;
  ko_trans a b c : klt a b = true -> klt b c = true -> klt a c = true;
  ko_total a b : kok a -> kok b -> a <> b -> klt a b = true \/ klt b a = true
}.

#[export] Instance Z_key : KeyOrder Z (fun _ => True) Z.ltb.
Proof. split; intros; lia. Qed.

(** Times that are not "not a date time". *)
Definition time_key {PT : PTime} (t : ptime PT) : Prop := is_not_a_date_time t = false.

#[export] Instance ptime_key {PT : PTime} {PL : PTimeLaws PT} :
  KeyOrder (ptime PT) time_key ptime_lt.
Proof.
  split; [apply ptime_lt_irrefl|intros ???; apply ptime_lt_trans|].
  intros a b Ha Hb. by apply ptime_lt_total.
Qed.

Section container.
  Context {K V : Type} (klt : K -> K -> bool).

(** [c[k]] used as a reference: the element with key [k], inserted as [v0] when
    it is missing, is replaced by [f] of it. *)
Fixpoint c_update (k : K) (v0 : V) (f : V -> V) (c : list (K * V)) : list (K * V) :=
  match c with
  | [] => [(k, f v0)]
  | (k', v) :: r =>
      if klt k' k then (k', v) :: c_update k v0 f r
      else if klt k k' then (k, f v0) :: (k', v) :: r
      else (k', f v) :: r
  end.

(** [find(k)]. *)
Fixpoint c_find (k : K) (c : list (K * V)) : option V :=
  match c with
  | [] => None
  | (k', v) :: r =>
      if klt k' k then c_find k r else if klt k k' then None else Some v
  end.

(** [erase(k)]. *)
Fixpoint c_erase (k : K) (c : list (K * V)) : list (K * V) :=
  match c with
  | [] => []
  | (k', v) :: r =>
      if klt k' k then (k', v) :: c_erase k r
      else if klt k k' then (k', v) :: r
      else r
  end.

(** [count()]: the sum over the elements. *)
Definition c_count (cnt : V -> nat) (c : list (K * V)) : nat :=
  foldr (fun kv n => (cnt kv.2 + n)%nat) 0%nat c.

(** The invariant of the set: strictly increasing keys, all of them proper. *)
Definition c_sorted (kok : K -> Prop) (c : list (K * V)) : Prop :=
  StronglySorted (fun a b => klt a.1 b.1 = true) c /\ Forall (fun kv => kok kv.1) c.

End container.

Section lemmas.
  Context {K V : Type} {kok : K -> Prop} {klt : K -> K -> bool} {KO : KeyOrder K kok klt}.
  Context `{!EqDecision K}.
  Implicit Types c : list (K * V).

Lemma klt_asym a b : klt a b = true -> klt b a = false.
Proof.
  intros H. destruct (klt b a) eqn:E; [|done].
  pose proof (ko_trans a b a H E) as X. by rewrite ko_irrefl in X.
Qed.

Lemma klt_cases a b :
  kok a -> kok b ->
  (a = b /\ klt a b = false /\ klt b a = false) \/
  (a <> b /\ klt a b = true /\ klt b a = false) \/
  (a <> b /\ klt a b = false /\ klt b a = true).
Proof.
  intros Ha Hb. destruct (decide (a = b)) as [->|Hne].
  - left. by rewrite ko_irrefl.
  - right. destruct (ko_total a b Ha Hb Hne) as [H|H]; pose proof (klt_asym _ _ H); tauto.
Qed.

Lemma c_sorted_nil : c_sorted (V := V) klt kok [].
Proof. split; constructor. Qed.

Lemma c_sorted_cons k v c :
  c_sorted klt kok ((k, v) :: c) <->
  kok k /\ Forall (fun kv => klt k kv.1 = true) c /\ c_sorted klt kok c.
Proof.
  unfold c_sorted. split.
  - intros [HS HF]. inversion HS; inversion HF; subst. done.
  - intros (Hk & HF & HS & HO). split; by constructor.
Qed.

Lemma c_update_forall (P : K * V -> Prop) k v0 (f : V -> V) c :
  P (k, f v0) -> (forall k' v, P (k', v) -> P (k', f v)) -> Forall P c ->
  Forall P (c_update klt k v0 f c).
Proof.
  intros H0 Hf H. induction H as [|[k' v] c Hx Hc IH]; simpl; [by constructor|].
  case_match; [by constructor|]. case_match; constructor; auto.
Qed.

Lemma c_update_sorted k v0 (f : V -> V) c :
  kok k -> c_sorted klt kok c -> c_sorted klt kok (c_update klt k v0 f c).
Proof.
  intros Hk. induction c as [|[k' v] c IH]; simpl; intros H.
  { apply c_sorted_cons. repeat split; try done; constructor. }
  apply c_sorted_cons in H as (Hk' & HF & HS).
  destruct (klt k' k) eqn:E1; [|destruct (klt k k') eqn:E2].
  - apply c_sorted_cons. split; [done|]. split; [|by apply IH].
    apply c_update_forall; [done|done|done].
  - apply c_sorted_cons. split; [done|]. split.
    + constructor; [done|]. eapply Forall_impl; [exact HF|]. intros x Hx. by eapply ko_trans.
    + by apply c_sorted_cons.
  - apply c_sorted_cons. done.
Qed.

Lemma c_find_below k c :
  Forall (fun kv => klt k kv.1 = true) c -> c_find klt k c = None.
Proof.
  intros H. destruct H as [|[k' v] c Hx Hc]; [done|]. simpl in *.
  by rewrite (klt_asym _ _ Hx), Hx.
Qed.

Lemma c_find_update k v0 (f : V -> V) k' c :
  kok k -> kok k' -> c_sorted klt kok c ->
  c_find klt k' (c_update klt k v0 f c) =
    if decide (k = k') then Some (f (default v0 (c_find klt k c))) else c_find klt k' c.
Proof.
  intros Hk Hk'. induction c as [|[k1 v1] c IH]; intros H.
  { simpl. destruct (klt_cases k k' Hk Hk') as [(-> & E1 & E2)|[(Hn & E1 & E2)|(Hn & E1 & E2)]];
      [by rewrite E1, decide_True|by rewrite E1, decide_False|by rewrite E1, E2, decide_False]. }
  apply c_sorted_cons in H as (Hk1 & HF & HS). specialize (IH HS). simpl.
  destruct (klt_cases k1 k Hk1 Hk) as [(-> & E1 & E2)|[(Hn & E1 & E2)|(Hn & E1 & E2)]];
    rewrite ?E1, ?E2; simpl.
  - destruct (klt_cases k k' Hk Hk') as [(-> & E3 & E4)|[(Hn & E3 & E4)|(Hn & E3 & E4)]];
      rewrite ?E3, ?E4; [by rewrite decide_True|by rewrite decide_False|by rewrite decide_False].
  - destruct (klt k1 k') eqn:E3; [exact IH|].
    rewrite decide_False; [done|]. intros ->. congruence.
  - destruct (klt_cases k k' Hk Hk') as [(-> & E3 & E4)|[(Hn' & E3 & E4)|(Hn' & E3 & E4)]];
      rewrite ?E3, ?E4; [by rewrite decide_True|by rewrite decide_False|].
    rewrite decide_False by done.
    assert (klt k' k1 = true) as X by (by eapply ko_trans).
    by rewrite (klt_asym _ _ X), X.
Qed.

Lemma c_erase_forall (P : K * V -> Prop) k c : Forall P c -> Forall P (c_erase klt k c).
Proof.
  intros H. induction H as [|[k' v] c Hx Hc IH]; simpl; [constructor|].
  case_match; [by constructor|]. case_match; [by constructor|done].
Qed.

Lemma c_erase_sorted k c : c_sorted klt kok c -> c_sorted klt kok (c_erase klt k c).
Proof.
  induction c as [|[k' v] c IH]; simpl; intros H; [done|].
  pose proof H as H'. apply c_sorted_cons in H' as (Hk' & HF & HS).
  case_match; [|case_match; done].
  apply c_sorted_cons. split; [done|]. split; [by apply c_erase_forall|auto].
Qed.

Lemma c_find_erase k k' c :
  kok k -> kok k' -> c_sorted klt kok c ->
  c_find klt k' (c_erase klt k c) = if decide (k = k') then None else c_find klt k' c.
Proof.
  intros Hk Hk'. induction c as [|[k1 v1] c IH]; intros H; simpl; [by case_decide|].
  apply c_sorted_cons in H as (Hk1 & HF & HS). specialize (IH HS).
  destruct (klt_cases k1 k Hk1 Hk) as [(-> & E1 & E2)|[(Hn & E1 & E2)|(Hn & E1 & E2)]];
    rewrite ?E1, ?E2; simpl.
  - destruct (klt_cases k k' Hk Hk') as [(-> & E3 & E4)|[(Hn & E3 & E4)|(Hn & E3 & E4)]];
      rewrite ?E3, ?E4.
    + rewrite decide_True by done. by apply c_find_below.
    + by rewrite decide_False.
    + rewrite decide_False by done. apply c_find_below.
      eapply Forall_impl; [exact HF|]. intros x Hx. by eapply ko_trans.
  - destruct (klt k1 k') eqn:E3; [exact IH|].
    rewrite decide_False; [done|]. intros ->. congruence.
  - case_decide as E; [|done]. subst. by rewrite E1, E2.
Qed.

(** The elements of a set are what [find] finds. *)
Lemma c_find_elem k v c :
  c_sorted klt kok c -> (k, v) ∈ c <-> kok k /\ c_find klt k c = Some v.
Proof.
  induction c as [|[k1 v1] c IH]; intros H; simpl.
  { rewrite elem_of_nil. split; [done|]. by intros []. }
  apply c_sorted_cons in H as (Hk1 & HF & HS). rewrite elem_of_cons, IH by done. split.
  - intros [E|[Hk Hf]].
    + injection E as -> ->. by rewrite ko_irrefl.
    + split; [done|]. apply IH in HS as HI.
      assert ((k, v) ∈ c) as Hin by (by apply HI).
      rewrite Forall_forall in HF. specialize (HF _ Hin). simpl in HF. by rewrite HF.
  - intros [Hk Hf].
    destruct (klt_cases k1 k Hk1 Hk) as [(-> & E1 & E2)|[(Hn & E1 & E2)|(Hn & E1 & E2)]];
      rewrite ?E1, ?E2 in Hf; [left; congruence|by right|done].
Qed.

(** Changing every element by the same function. *)
Lemma c_find_map (g : V -> V) k c :
  c_find klt k ((fun kv => (kv.1, g kv.2)) <$> c) = g <$> c_find klt k c.
Proof.
  induction c as [|[k' v] c IH]; simpl; [done|].
  case_match; [exact IH|]. by case_match.
Qed.

Lemma c_map_sorted (g : V -> V) c :
  c_sorted klt kok c -> c_sorted klt kok ((fun kv => (kv.1, g kv.2)) <$> c).
Proof.
  induction c as [|[k' v] c IH]; simpl; intros H; [done|].
  apply c_sorted_cons in H as (Hk' & HF & HS). apply c_sorted_cons.
  split; [done|]. split; [|auto]. apply Forall_fmap.
  eapply Forall_impl; [exact HF|]. by intros [].
Qed.
End lemmas.

(** ** Nested containers

    [c[k1][k2]] used as a reference, and the corresponding search. *)

Section nested.
  Context {K1 K2 V : Type} (klt1 : K1 -> K1 -> bool) (klt2 : K2 -> K2 -> bool).

Definition c_update2 (k1 : K1) (k2 : K2) (v0 : V) (f : V -> V)
    (c : list (K1 * list (K2 * V))) : list (K1 * list (K2 * V)) :=
  c_update klt1 k1 [] (c_update klt2 k2 v0 f) c.

Definition c_find2 (k1 : K1) (k2 : K2) (c : list (K1 * list (K2 * V))) : option V :=
  c_find klt1 k1 c ≫= c_find klt2 k2.

End nested.

(** The invariant with a property of the contents. *)
Definition c_wf {K V : Type} (kok : K -> Prop) (klt : K -> K -> bool) (P : V -> Prop)
    (c : list (K * V)) : Prop :=
  c_sorted klt kok c /\ Forall (fun kv => P kv.2) c.

Section wf_lemmas.
  Context {K V : Type} {kok : K -> Prop} {klt : K -> K -> bool} {KO : KeyOrder K kok klt}.
  Context `{!EqDecision K} {P : V -> Prop}.
  Implicit Types c : list (K * V).

Lemma c_wf_nil : c_wf kok klt P [].
Proof. split; [apply c_sorted_nil|constructor]. Qed.

Lemma c_wf_update k v0 (f : V -> V) c :
  kok k -> P (f v0) -> (forall v, P v -> P (f v)) -> c_wf kok klt P c ->
  c_wf kok klt P (c_update klt k v0 f c).
Proof.
  intros Hk H0 Hf [HS HF]. split; [by apply c_update_sorted|].
  apply c_update_forall; [done| |done]. intros ? v. apply (Hf v).
Qed.

Lemma c_wf_erase k c : c_wf kok klt P c -> c_wf kok klt P (c_erase klt k c).
Proof. intros [HS HF]. split; [by apply c_erase_sorted|by apply c_erase_forall]. Qed.

Lemma c_wf_map (g : V -> V) c :
  (forall v, P v -> P (g v)) -> c_wf kok klt P c ->
  c_wf kok klt P ((fun kv => (kv.1, g kv.2)) <$> c).
Proof.
  intros Hg [HS HF]. split; [by apply c_map_sorted|]. apply Forall_fmap.
  eapply Forall_impl; [exact HF|]. intros [k v] Hv. apply Hg, Hv.
Qed.

Lemma c_wf_find k v c : c_wf kok klt P c -> kok k -> c_find klt k c = Some v -> P v.
Proof.
  intros [HS HF] Hk Hf. assert ((k, v) ∈ c) as Hin by (by apply c_find_elem).
  rewrite Forall_forall in HF. apply (HF _ Hin).
Qed.

Lemma c_wf_elem k v c : c_wf kok klt P c -> (k, v) ∈ c -> kok k /\ c_find klt k c = Some v /\ P v.
Proof.
  intros [HS HF] Hin. rewrite Forall_forall in HF. pose proof (HF _ Hin).
  apply c_find_elem in Hin; tauto.
Qed.

Lemma c_sorted_NoDup c : c_sorted klt kok c -> NoDup c.*1.
Proof.
  induction c as [|[k v] c IH]; intros H; simpl; [constructor|].
  apply c_sorted_cons in H as (Hk & HF & HS). constructor; [|auto].
  rewrite list_elem_of_fmap. intros ([k' v'] & -> & Hin).
  rewrite Forall_forall in HF. specialize (HF _ Hin). simpl in HF. by rewrite ko_irrefl in HF.
Qed.

Lemma c_wf_key_unique k v w c :
  c_wf kok klt P c -> (k, v) ∈ c -> (k, w) ∈ c -> v = w.
Proof.
  intros HW H1 H2. destruct (c_wf_elem _ _ _ HW H1) as (? & E1 & _).
  destruct (c_wf_elem _ _ _ HW H2) as (? & E2 & _). congruence.
Qed.

Lemma c_wf_NoDup c : c_wf kok klt P c -> NoDup c.
Proof. intros [HS _]. apply c_sorted_NoDup in HS. by eapply NoDup_fmap_1. Qed.
End wf_lemmas.

Section nested_lemmas.
  Context {K1 K2 V : Type} {kok1 : K1 -> Prop} {kok2 : K2 -> Prop}.
  Context {klt1 : K1 -> K1 -> bool} {klt2 : K2 -> K2 -> bool}.
  Context {KO1 : KeyOrder K1 kok1 klt1} {KO2 : KeyOrder K2 kok2 klt2}.
  Context `{!EqDecision K1, !EqDecision K2} {P : V -> Prop}.
  Implicit Types c : list (K1 * list (K2 * V)).

Definition c_wf2 c : Prop := c_wf kok1 klt1 (c_wf kok2 klt2 P) c.

Lemma c_wf2_update k1 k2 v0 (f : V -> V) c :
  kok1 k1 -> kok2 k2 -> P (f v0) -> (forall v, P v -> P (f v)) -> c_wf2 c ->
  c_wf2 (c_update2 klt1 klt2 k1 k2 v0 f c).
Proof.
  intros H1 H2 H0 Hf HW. apply c_wf_update; [done| | |done].
  - apply c_wf_update; auto using c_wf_nil.
  - intros v Hv. by apply c_wf_update.
Qed.

Lemma c_find2_wf k1 k2 v c :
  kok1 k1 -> kok2 k2 -> c_wf2 c -> c_find2 klt1 klt2 k1 k2 c = Some v -> P v.
Proof.
  unfold c_find2. intros H1 H2 HW E. destruct (c_find klt1 k1 c) as [r|] eqn:Er; [|done].
  apply (c_wf_find _ _ _ HW) in Er; [|done]. by apply (c_wf_find _ _ _ Er) in E.
Qed.

Lemma c_find2_update k1 k2 v0 (f : V -> V) k1' k2' c :
  kok1 k1 -> kok2 k2 -> kok1 k1' -> kok2 k2' -> c_wf2 c ->
  c_find2 klt1 klt2 k1' k2' (c_update2 klt1 klt2 k1 k2 v0 f c) =
    if decide (k1 = k1' /\ k2 = k2')
    then Some (f (default v0 (c_find2 klt1 klt2 k1 k2 c))) else c_find2 klt1 klt2 k1' k2' c.
Proof.
  intros H1 H2 H1' H2' HW. unfold c_find2, c_update2. pose proof HW as [HS _].
  rewrite c_find_update by done. destruct (decide (k1 = k1')) as [->|Hn]; simpl.
  2: { rewrite decide_False; [done|]. by intros []. }
  rewrite c_find_update; [|done|done|].
  2: { destruct (c_find klt1 k1' c) eqn:E; [|apply c_sorted_nil].
       by apply (c_wf_find _ _ _ HW H1') in E as [? _]. }
  destruct (decide (k2 = k2')) as [->|Hn].
  - rewrite decide_True by done. by destruct (c_find klt1 k1' c).
  - rewrite decide_False by (by intros []). by destruct (c_find klt1 k1' c).
Qed.
End nested_lemmas.

(** ** Visiting all elements *)

Section visit.
  Context {K V B : Type} {kok : K -> Prop} {klt : K -> K -> bool} {KO : KeyOrder K kok klt}.
  Context `{!EqDecision K} (f : K * V -> list B) (key : B -> K).
  Context (Hkey : forall kv y, y ∈ f kv -> key y = kv.1).

(** A visit of all elements whose results tell the key finds what [find] finds. *)
Lemma c_bind_elem (c : list (K * V)) y :
  c_sorted klt kok c ->
  y ∈ (c ≫= f) <->
  kok (key y) /\ exists v, c_find klt (key y) c = Some v /\ y ∈ f (key y, v).
Proof.
  intros HS. rewrite list_elem_of_bind. split.
  - intros ([k v] & Hy & Hin). rewrite (Hkey _ _ Hy). simpl.
    apply c_find_elem in Hin as [Hk Hf]; [|done]. eauto.
  - intros (Hk & v & Hf & Hy). exists (key y, v). split; [done|]. by apply c_find_elem.
Qed.

Lemma c_bind_NoDup (c : list (K * V)) :
  c_sorted klt kok c -> (forall kv, kv ∈ c -> NoDup (f kv)) -> NoDup (c ≫= f).
Proof.
  intros HS Hf. apply NoDup_bind; [|done|].
  - intros [k1 v1] [k2 v2] y H1 H2 E1 E2. apply Hkey in E1, E2. simpl in *.
    apply c_find_elem in H1 as [_ H1]; [|done]. apply c_find_elem in H2 as [_ H2]; [|done].
    congruence.
  - apply c_sorted_NoDup in HS. by eapply NoDup_fmap_1.
Qed.
End visit.

Lemma length_bind_sum {A B} (f : A -> list B) (l : list A) :
  length (l ≫= f) = foldr (fun x n => (length (f x) + n)%nat) 0%nat l.
Proof.
  induction l as [|x l IH]; [done|]. rewrite bind_cons, length_app, IH. done.
Qed.

Lemma c_count_bind {K V B} (cnt : V -> nat) (f : K * V -> list B) (c : list (K * V)) :
  (forall kv, length (f kv) = cnt kv.2) -> length (c ≫= f) = c_count cnt c.
Proof.
  intros H. rewrite length_bind_sum. induction c as [|kv c IH]; simpl; [done|]. by rewrite H, IH.
Qed.

Lemma c_count_plus {K V} (a b : V -> nat) (c : list (K * V)) :
  c_count (fun v => (a v + b v)%nat) c = (c_count a c + c_count b c)%nat.
Proof. induction c as [|kv c IH]; simpl; [done|]. rewrite IH. lia. Qed.

Lemma c_count_ext {K V} (a b : V -> nat) (c : list (K * V)) :
  (forall v, a v = b v) -> c_count a c = c_count b c.
Proof. intros H. induction c as [|kv c IH]; simpl; [done|]. by rewrite H, IH. Qed.
