(* ===== verification/KvalobsData.v ===== *)
(** * [KvalobsData]: the content of a message (src/src/lib/decodeutility)

    The values of one message, ordered by station, type, observation time, time
    of arrival, sensor, level and parameter (sorteddata.h), with the operations
    of kvalobsdata.cc: insertion, extraction, invalidation and the summary. *)

From S2P Require Import Prelude Orders PTime DataFlag ControlInfo.
From S2P Require Import UseInfo KvData KvDataOps SortedData.

Section KvalobsData.
  Context {PT : PTime}.

(** ** Data *)

(** What a value holds besides its key. *)
Record DataContent := {
  dc_original : spec_float;
  dc_corrected : spec_float;
  dc_controlinfo : kvControlInfo;
  dc_useinfo : kvUseInfo;
  dc_cfailed : string
}.

(** [std::numeric_limits<double>::max()]. *)
Definition double_max : spec_float := S754_finite false 9007199254740991 971.

(** [DataContent()] and [DataContent(const kvData &)]. *)
Definition DataContent_new : DataContent :=
  {| dc_original := double_max; dc_corrected := double_max;
     dc_controlinfo := kvControlInfo_new; dc_useinfo := kvUseInfo_new; dc_cfailed := "" |}.

Definition DataContent_of (d : kvData PT) : DataContent :=
  {| dc_original := original_ d; dc_corrected := corrected_ d;
     dc_controlinfo := controlinfo_ d; dc_useinfo := useinfo_ d; dc_cfailed := cfailed_ d |}.

Abbreviation Level := (list (Z * DataContent)).
Abbreviation Sensor := (list (Z * Level)).

(** The data and the text data with one time of arrival. *)
Record TbTime := { tb_sensors : list (Z * Sensor); textData : list (Z * string) }.

(** An observation; [invalidate_] asks for the rejection of what is stored. *)
Record ObsTime := { invalidate_ : bool; ot_tbtimes : list (ptime PT * TbTime) }.

Abbreviation TypeID := (list (ptime PT * ObsTime)).
Abbreviation StationID := (list (Z * TypeID)).
Definition Observations : Type := list (Z * StationID).

Definition TbTime_new : TbTime := {| tb_sensors := []; textData := [] |}.
Definition ObsTime_new : ObsTime := {| invalidate_ := false; ot_tbtimes := [] |}.

(** The number of values in an element. *)
Definition Level_count (l : Level) : nat := c_count (fun _ => 1%nat) l.
Definition Sensor_count (s : Sensor) : nat := c_count Level_count s.
Definition TbTime_count (t : TbTime) : nat :=
  (c_count Sensor_count (tb_sensors t) + c_count (fun _ => 1%nat) (textData t))%nat.
Definition ObsTime_count (o : ObsTime) : nat := c_count TbTime_count (ot_tbtimes o).
Definition Observations_count (obs : Observations) : nat :=
  c_count (c_count (c_count ObsTime_count)) obs.

(** [obs[station][typeID][obstime]] used as a reference. *)
Definition obs_update (station typeID : Z) (obstime : ptime PT) (f : ObsTime -> ObsTime)
    (obs : Observations) : Observations :=
  c_update Z.ltb station [] (c_update2 Z.ltb ptime_lt typeID obstime ObsTime_new f) obs.

(** [o[tbtime]] used as a reference. *)
Definition tb_update (tbtime : ptime PT) (f : TbTime -> TbTime) (o : ObsTime) : ObsTime :=
  {| invalidate_ := invalidate_ o;
     ot_tbtimes := c_update ptime_lt tbtime TbTime_new f (ot_tbtimes o) |}.

(** [for (auto & tb : o)] with a body that changes [tb]. *)
Definition for_each_tb (f : TbTime -> TbTime) (o : ObsTime) : ObsTime :=
  {| invalidate_ := invalidate_ o;
     ot_tbtimes := (fun kv => (kv.1, f kv.2)) <$> ot_tbtimes o |}.

(** [tb[sensor][level]] used as a reference. *)
Definition level_update (sensor level : Z) (f : Level -> Level) (t : TbTime) : TbTime :=
  {| tb_sensors := c_update2 Z.ltb Z.ltb sensor level [] f (tb_sensors t);
     textData := textData t |}.

(** [tb.erase(id)]: the whole sensor with this number. *)
Definition sensor_erase (id : Z) (t : TbTime) : TbTime :=
  {| tb_sensors := c_erase Z.ltb id (tb_sensors t); textData := textData t |}.

(** [tb.textData[paramID].content() = original]. *)
Definition text_update (paramID : Z) (original : string) (t : TbTime) : TbTime :=
  {| tb_sensors := tb_sensors t;
     textData := c_update Z.ltb paramID "" (fun _ => original) (textData t) |}.

(** ** Operations on the observations *)

(** A sensor character becomes its number. *)
Definition plain_sensor (sensor : Z) : Z :=
  if char_0 <=? sensor then sensor - char_0 else sensor.

Definition key_tbtime (t : ptime PT) : ptime PT := if is_special t then neg_infin else t.

Definition removeExisting (d : kvData PT) (obs : Observations) : Observations :=
  obs_update (stationid_ d) (typeid_ d) (obstime_ d)
    (for_each_tb (level_update (plain_sensor (sensor_ d)) (level_ d)
                    (c_erase Z.ltb (paramid_ d)))) obs.

Definition removeExistingText (d : kvTextData PT) (obs : Observations) : Observations :=
  obs_update (tx_stationid_ d) (tx_typeid_ d) (tx_obstime_ d)
    (for_each_tb (sensor_erase (tx_paramid_ d))) obs.

Definition obs_insert (d : kvData PT) (obs : Observations) : Observations :=
  obs_update (stationid_ d) (typeid_ d) (obstime_ d)
    (tb_update (key_tbtime (tbtime_ d))
       (level_update (plain_sensor (sensor_ d)) (level_ d)
          (c_update Z.ltb (paramid_ d) DataContent_new (fun _ => DataContent_of d))))
    (removeExisting d obs).

Definition obs_insertText (d : kvTextData PT) (obs : Observations) : Observations :=
  obs_update (tx_stationid_ d) (tx_typeid_ d) (tx_obstime_ d)
    (tb_update (key_tbtime (tx_tbtime_ d)) (text_update (tx_paramid_ d) (tx_original_ d)))
    (removeExistingText d obs).

(** The values in the order of the nested loops of [data]; [tb], when given, is
    the time of arrival to report. *)
Definition level_items (st ty : Z) (ot tb : ptime PT) (sensor : Z) (kv : Z * Level)
  : list (kvData PT) :=
  (fun p => kvData_set st ot (dc_original p.2) p.1 tb ty sensor kv.1 (dc_corrected p.2)
              (dc_controlinfo p.2) (dc_useinfo p.2) (dc_cfailed p.2)) <$> kv.2.

Definition sensor_items (st ty : Z) (ot tb : ptime PT) (sensor : Z * Sensor) : list (kvData PT) :=
  sensor.2 ≫= level_items st ty ot tb sensor.1.

Definition tb_items (st ty : Z) (ot tb : ptime PT) (t : TbTime) : list (kvData PT) :=
  tb_sensors t ≫= sensor_items st ty ot tb.

(** The four outer loops; [tbtime], when it is set, is reported for every time of
    arrival. *)
Definition for_each_obs {B} (f : Z -> Z -> ptime PT -> ptime PT -> TbTime -> list B)
    (setTbtime : bool) (tbtime : ptime PT) (obs : Observations) : list B :=
  obs ≫= fun s => s.2 ≫= fun t => t.2 ≫= fun o => ot_tbtimes o.2 ≫= fun tbt =>
    f s.1 t.1 o.1 (if setTbtime then tbtime else tbt.1) tbt.2.

Definition obs_items := for_each_obs tb_items.

Definition tb_text_items (st ty : Z) (ot tb : ptime PT) (t : TbTime) : list (kvTextData PT) :=
  (fun p => kvTextData_set st ot p.2 p.1 tb ty) <$> textData t.

Definition obs_text_items := for_each_obs tb_text_items.

(** ** The class *)

(** A rejected message that this message corrects (kvRejectdecode.h). *)
Record kvRejectdecode := {
  rd_message : string;
  rd_tbtime : ptime PT;
  rd_decoder : string;
  rd_comment : string;
  rd_fixed : bool
}.

Record KvalobsData := {
  overwrite_ : bool;
  obs_ : Observations;
  correctedMessages_ : list kvRejectdecode;
  created_ : ptime PT;
  kd_producer : string;
  kd_msgid : string
}.

Definition KvalobsData_new : KvalobsData :=
  {| overwrite_ := false; obs_ := []; correctedMessages_ := []; created_ := not_a_date_time;
     kd_producer := ""; kd_msgid := "" |}.

Definition with_obs (k : KvalobsData) (obs : Observations) : KvalobsData :=
  {| overwrite_ := overwrite_ k; obs_ := obs; correctedMessages_ := correctedMessages_ k;
     created_ := created_ k; kd_producer := kd_producer k; kd_msgid := kd_msgid k |}.

Definition insert (d : kvData PT) (k : KvalobsData) : KvalobsData :=
  with_obs k (obs_insert d (obs_ k)).

Definition insertText (d : kvTextData PT) (k : KvalobsData) : KvalobsData :=
  with_obs k (obs_insertText d (obs_ k)).

(** [KvalobsData(data, tdata)]. *)
Definition KvalobsData_of (data : list (kvData PT)) (tdata : list (kvTextData PT)) : KvalobsData :=
  foldl (fun k d => insertText d k) (foldl (fun k d => insert d k) KvalobsData_new data) tdata.

Definition size (k : KvalobsData) : nat := Observations_count (obs_ k).
Definition empty (k : KvalobsData) : bool := (size k =? 0)%nat.

(** [data(out, setTbtime, tbtime)]: the values are added to [out], then all of
    [out] is sorted. *)
Definition data (k : KvalobsData) (out : list (kvData PT)) (setTbtime : bool) (tbtime : ptime PT)
  : list (kvData PT) :=
  list_sort lt_kvData (out ++ obs_items setTbtime tbtime (obs_ k)).

Definition text_data (k : KvalobsData) (out : list (kvTextData PT)) (setTbtime : bool)
    (tbtime : ptime PT) : list (kvTextData PT) :=
  list_sort lt_kvTextData (out ++ obs_text_items setTbtime tbtime (obs_ k)).

Definition kd_getData (k : KvalobsData) (out : list (kvData PT)) (tbtime : ptime PT) :=
  data k out true tbtime.

Definition setMessageCorrectsThisRejection (r : kvRejectdecode) (k : KvalobsData) : KvalobsData :=
  {| overwrite_ := overwrite_ k; obs_ := obs_ k;
     correctedMessages_ := correctedMessages_ k ++ [r];
     created_ := created_ k; kd_producer := kd_producer k; kd_msgid := kd_msgid k |}.

Definition set_overwrite (doit : bool) (k : KvalobsData) : KvalobsData :=
  {| overwrite_ := doit; obs_ := obs_ k; correctedMessages_ := correctedMessages_ k;
     created_ := created_ k; kd_producer := kd_producer k; kd_msgid := kd_msgid k |}.

(** [clear()]: the corrected messages and the names stay. *)
Definition clear (k : KvalobsData) : KvalobsData :=
  {| overwrite_ := false; obs_ := []; correctedMessages_ := correctedMessages_ k;
     created_ := created_ k; kd_producer := kd_producer k; kd_msgid := kd_msgid k |}.

Definition set_invalidate (doit : bool) (o : ObsTime) : ObsTime :=
  {| invalidate_ := doit; ot_tbtimes := ot_tbtimes o |}.

Definition invalidate (doit : bool) (station typeID : Z) (obstime : ptime PT) (k : KvalobsData)
  : KvalobsData :=
  with_obs k (obs_update station typeID obstime (set_invalidate doit) (obs_ k)).

(** [isInvalidate(...)]: the const [operator[]] also inserts what is missing, so
    the object changes. *)
Definition obs_at (station typeID : Z) (obstime : ptime PT) (obs : Observations)
  : option ObsTime :=
  c_find Z.ltb station obs ≫= c_find2 Z.ltb ptime_lt typeID obstime.

Definition isInvalidate (station typeID : Z) (obstime : ptime PT) (k : KvalobsData)
  : bool * KvalobsData :=
  (from_option invalidate_ false (obs_at station typeID obstime (obs_ k)),
   with_obs k (obs_update station typeID obstime (fun o => o) (obs_ k))).

(** [getInvalidate]: station, typeID and obstime of what is to be rejected. *)
Definition getInvalidate (k : KvalobsData) : list (Z * Z * ptime PT) :=
  obs_ k ≫= fun s => s.2 ≫= fun t => t.2 ≫= fun o =>
    if invalidate_ o.2 then [(s.1, t.1, o.1)] else [].

(** [summary()]: the observations in the object, as the elements of the set. *)
Definition summary (k : KvalobsData) : list (Z * ptime PT * Z) :=
  obs_ k ≫= fun s => s.2 ≫= fun t => (fun o => (s.1, o.1, t.1)) <$> t.2.

(** ** What the object holds *)

(** The value with a key, as the search through the containers finds it. *)
Definition value_at (station typeID : Z) (obstime tbtime : ptime PT) (sensor level param : Z)
    (obs : Observations) : option DataContent :=
  obs_at station typeID obstime obs ≫= fun o =>
    c_find ptime_lt tbtime (ot_tbtimes o) ≫= fun t =>
      c_find2 Z.ltb Z.ltb sensor level (tb_sensors t) ≫= c_find Z.ltb param.

Definition text_at (station typeID : Z) (obstime tbtime : ptime PT) (param : Z)
    (obs : Observations) : option string :=
  obs_at station typeID obstime obs ≫= fun o =>
    c_find ptime_lt tbtime (ot_tbtimes o) ≫= fun t => c_find Z.ltb param (textData t).

End KvalobsData.

Arguments KvalobsData : clear implicits.
Arguments Observations : clear implicits.
Arguments kvRejectdecode : clear implicits.
Arguments ObsTime : clear implicits.

(** ** Lemmas: the containers *)

Section lemmas.
  Context {PT : PTime} {PL : PTimeLaws PT}.
  Local Abbreviation any := (fun _ => True).

Definition level_wf (l : list (Z * DataContent)) : Prop := c_wf any Z.ltb any l.
Definition tb_wf (t : TbTime) : Prop :=
  c_wf2 (kok1 := any) (kok2 := any) (klt1 := Z.ltb) (klt2 := Z.ltb) (P := level_wf) (tb_sensors t)
  /\ c_wf any Z.ltb any (textData t).
Definition ot_wf (o : ObsTime PT) : Prop := c_wf time_key ptime_lt tb_wf (ot_tbtimes o).

(** The invariant: every container is sorted by its key, without duplicates. *)
Definition obs_wf (obs : Observations PT) : Prop :=
  c_wf any Z.ltb
    (c_wf2 (kok1 := any) (kok2 := time_key) (klt1 := Z.ltb) (klt2 := ptime_lt) (P := ot_wf)) obs.

Definition tb_value (sensor level param : Z) (t : TbTime) : option DataContent :=
  c_find2 Z.ltb Z.ltb sensor level (tb_sensors t) ≫= c_find Z.ltb param.

Lemma tb_new_wf : tb_wf TbTime_new.
Proof. split; apply c_wf_nil. Qed.

Lemma ot_new_wf : ot_wf ObsTime_new.
Proof. apply c_wf_nil. Qed.

Lemma key_tbtime_ok t : time_key (key_tbtime t).
Proof.
  unfold key_tbtime, time_key. destruct (is_special t) eqn:E; [apply neg_infin_is_time|].
  destruct (is_not_a_date_time t) eqn:E2; [|done].
  apply is_not_a_date_time_spec in E2 as ->. by rewrite not_a_date_time_special in E.
Qed.

Lemma obs_update_wf st ty ot f (obs : Observations PT) :
  time_key ot -> (forall o, ot_wf o -> ot_wf (f o)) -> obs_wf obs ->
  obs_wf (obs_update st ty ot f obs).
Proof.
  intros Hot Hf HW. apply c_wf_update; [done| | |done].
  - apply c_wf2_update; try done; [apply Hf, ot_new_wf|apply c_wf_nil].
  - intros v Hv. apply c_wf2_update; try done. apply Hf, ot_new_wf.
Qed.

Lemma tb_update_wf tb f (o : ObsTime PT) :
  time_key tb -> (forall t, tb_wf t -> tb_wf (f t)) -> ot_wf o -> ot_wf (tb_update tb f o).
Proof. intros Htb Hf HW. apply c_wf_update; auto using tb_new_wf. Qed.

Lemma for_each_tb_wf f (o : ObsTime PT) :
  (forall t, tb_wf t -> tb_wf (f t)) -> ot_wf o -> ot_wf (for_each_tb f o).
Proof. intros Hf HW. by apply c_wf_map. Qed.

Lemma level_update_wf s l f t :
  (forall v, level_wf v -> level_wf (f v)) -> tb_wf t -> tb_wf (level_update s l f t).
Proof.
  intros Hf [H1 H2]. split; [|done]. apply c_wf2_update; try done. apply Hf, c_wf_nil.
Qed.

Lemma sensor_erase_wf id t : tb_wf t -> tb_wf (sensor_erase id t).
Proof. intros [H1 H2]. split; [by apply c_wf_erase|done]. Qed.

Lemma text_update_wf p x t : tb_wf t -> tb_wf (text_update p x t).
Proof. intros [H1 H2]. split; [done|]. by apply c_wf_update. Qed.

Lemma c_erase_level_wf p l : level_wf l -> level_wf (c_erase Z.ltb p l).
Proof. apply c_wf_erase. Qed.

Lemma c_update_level_wf p c l : level_wf l -> level_wf (c_update Z.ltb p DataContent_new (fun _ => c) l).
Proof. intros H. by apply c_wf_update. Qed.

Lemma removeExisting_wf d (obs : Observations PT) :
  time_key (obstime_ d) -> obs_wf obs -> obs_wf (removeExisting d obs).
Proof.
  intros Hk. apply obs_update_wf; [done|]. intros o. apply for_each_tb_wf.
  intros t. apply level_update_wf, c_erase_level_wf.
Qed.

Lemma obs_insert_wf d (obs : Observations PT) :
  time_key (obstime_ d) -> obs_wf obs -> obs_wf (obs_insert d obs).
Proof.
  intros Hk HW. apply obs_update_wf; [done| |by apply removeExisting_wf].
  intros o. apply tb_update_wf; [apply key_tbtime_ok|].
  intros t. apply level_update_wf. intros v. apply c_update_level_wf.
Qed.

Lemma removeExistingText_wf d (obs : Observations PT) :
  time_key (tx_obstime_ d) -> obs_wf obs -> obs_wf (removeExistingText d obs).
Proof.
  intros Hk. apply obs_update_wf; [done|]. intros o. apply for_each_tb_wf.
  intros t. apply sensor_erase_wf.
Qed.

Lemma obs_insertText_wf d (obs : Observations PT) :
  time_key (tx_obstime_ d) -> obs_wf obs -> obs_wf (obs_insertText d obs).
Proof.
  intros Hk HW. apply obs_update_wf; [done| |by apply removeExistingText_wf].
  intros o. apply tb_update_wf; [apply key_tbtime_ok|]. intros t. apply text_update_wf.
Qed.

(** ** Lemmas: searching after an update *)

Lemma obs_at_update st ty ot f st' ty' ot' (obs : Observations PT) :
  time_key ot -> time_key ot' -> obs_wf obs ->
  obs_at st' ty' ot' (obs_update st ty ot f obs) =
    if decide (st = st' /\ ty = ty' /\ ot = ot')
    then Some (f (default ObsTime_new (obs_at st ty ot obs))) else obs_at st' ty' ot' obs.
Proof.
  intros Hk Hk' HW. unfold obs_at, obs_update. pose proof HW as [HS _].
  rewrite (c_find_update (kok := any)) by done.
  destruct (decide (st = st')) as [->|Hn]; simpl.
  2: { rewrite decide_False; [done|]. by intros []. }
  rewrite (c_find2_update (kok1 := any) (kok2 := time_key) (P := ot_wf)); try done.
  2: { destruct (c_find Z.ltb st' obs) eqn:E; [|apply c_wf_nil].
       by apply (c_wf_find (kok := any) _ _ _ HW) in E. }
  destruct (decide (ty = ty' /\ ot = ot')) as [[-> ->]|Hn].
  - rewrite decide_True by done. by destruct (c_find Z.ltb st' obs).
  - rewrite decide_False by tauto. by destruct (c_find Z.ltb st' obs).
Qed.

Lemma obs_at_wf st ty ot (obs : Observations PT) o :
  time_key ot -> obs_wf obs -> obs_at st ty ot obs = Some o -> ot_wf o.
Proof.
  unfold obs_at. intros Hk HW E. destruct (c_find Z.ltb st obs) as [s|] eqn:E1; [|done].
  apply (c_wf_find (kok := any) _ _ _ HW) in E1; [|done].
  by apply (c_find2_wf (kok1 := any) (kok2 := time_key) (P := ot_wf) ty ot o s).
Qed.

Lemma default_obs_wf st ty ot (obs : Observations PT) :
  time_key ot -> obs_wf obs -> ot_wf (default ObsTime_new (obs_at st ty ot obs)).
Proof.
  intros Hk HW. destruct (obs_at st ty ot obs) eqn:E; [by eapply obs_at_wf|apply ot_new_wf].
Qed.

Lemma tb_value_level_update s l f t s' l' p' :
  tb_wf t ->
  tb_value s' l' p' (level_update s l f t) =
    if decide (s = s' /\ l = l')
    then c_find Z.ltb p' (f (default [] (c_find2 Z.ltb Z.ltb s l (tb_sensors t))))
    else tb_value s' l' p' t.
Proof.
  intros [HW _]. unfold tb_value, level_update. simpl.
  rewrite (c_find2_update (kok1 := any) (kok2 := any) (P := level_wf)) by done.
  by case_decide.
Qed.

Lemma default_level_wf s l t :
  tb_wf t -> level_wf (default [] (c_find2 Z.ltb Z.ltb s l (tb_sensors t))).
Proof.
  intros [HW _]. destruct (c_find2 Z.ltb Z.ltb s l (tb_sensors t)) as [v|] eqn:E; [|apply c_wf_nil].
  by apply (c_find2_wf (kok1 := any) (kok2 := any) (P := level_wf) s l v (tb_sensors t)).
Qed.

Lemma tb_value_default s l p t :
  c_find Z.ltb p (default [] (c_find2 Z.ltb Z.ltb s l (tb_sensors t))) = tb_value s l p t.
Proof. unfold tb_value. by destruct (c_find2 Z.ltb Z.ltb s l (tb_sensors t)). Qed.

(** Erasing and storing one value of a time of arrival. *)
Lemma tb_value_erase s l p s' l' p' t :
  tb_wf t ->
  tb_value s' l' p' (level_update s l (c_erase Z.ltb p) t) =
    if decide (s = s' /\ l = l' /\ p = p') then None else tb_value s' l' p' t.
Proof.
  intros HW. rewrite tb_value_level_update by done.
  destruct (decide (s = s' /\ l = l')) as [[-> ->]|Hn]; [|by rewrite decide_False by tauto].
  rewrite (c_find_erase (kok := any)); [|done|done|by apply default_level_wf].
  rewrite tb_value_default. do 2 case_decide; (done || tauto).
Qed.

Lemma tb_value_store s l p c s' l' p' t :
  tb_wf t ->
  tb_value s' l' p' (level_update s l (c_update Z.ltb p DataContent_new (fun _ => c)) t) =
    if decide (s = s' /\ l = l' /\ p = p') then Some c else tb_value s' l' p' t.
Proof.
  intros HW. rewrite tb_value_level_update by done.
  destruct (decide (s = s' /\ l = l')) as [[-> ->]|Hn]; [|by rewrite decide_False by tauto].
  rewrite (c_find_update (kok := any)); [|done|done|by apply default_level_wf].
  rewrite tb_value_default. do 2 case_decide; (done || tauto).
Qed.

(** ** Lemmas: the values after an insertion *)

Definition ot_value (tb : ptime PT) (s l p : Z) (o : ObsTime PT) : option DataContent :=
  c_find ptime_lt tb (ot_tbtimes o) ≫= tb_value s l p.

Definition ot_text (tb : ptime PT) (p : Z) (o : ObsTime PT) : option string :=
  c_find ptime_lt tb (ot_tbtimes o) ≫= fun t => c_find Z.ltb p (textData t).

Lemma ot_tb_wf tb t (o : ObsTime PT) :
  time_key tb -> ot_wf o -> c_find ptime_lt tb (ot_tbtimes o) = Some t -> tb_wf t.
Proof. intros Hk HW E. by apply (c_wf_find _ _ _ HW) in E. Qed.

Lemma default_tb_wf tb (o : ObsTime PT) :
  time_key tb -> ot_wf o -> tb_wf (default TbTime_new (c_find ptime_lt tb (ot_tbtimes o))).
Proof.
  intros Hk HW. destruct (c_find ptime_lt tb (ot_tbtimes o)) eqn:E; [by eapply ot_tb_wf|].
  apply tb_new_wf.
Qed.

Lemma ot_value_for_each tb f s l p (o : ObsTime PT) :
  ot_value tb s l p (for_each_tb f o) =
    c_find ptime_lt tb (ot_tbtimes o) ≫= fun t => tb_value s l p (f t).
Proof.
  unfold ot_value, for_each_tb. simpl. rewrite c_find_map.
  by destruct (c_find ptime_lt tb (ot_tbtimes o)).
Qed.

Lemma ot_text_for_each tb f p (o : ObsTime PT) :
  (forall t, textData (f t) = textData t) -> ot_text tb p (for_each_tb f o) = ot_text tb p o.
Proof.
  intros Hf. unfold ot_text, for_each_tb. simpl. rewrite c_find_map.
  destruct (c_find ptime_lt tb (ot_tbtimes o)); [|done]. simpl. by rewrite Hf.
Qed.

Lemma ot_value_remove tb s l p s' l' p' (o : ObsTime PT) :
  time_key tb -> ot_wf o ->
  ot_value tb s' l' p' (for_each_tb (level_update s l (c_erase Z.ltb p)) o) =
    if decide (s = s' /\ l = l' /\ p = p') then None else ot_value tb s' l' p' o.
Proof.
  intros Hk HW. rewrite ot_value_for_each. unfold ot_value.
  destruct (c_find ptime_lt tb (ot_tbtimes o)) as [t|] eqn:E; simpl; [|by case_decide].
  apply tb_value_erase. by eapply ot_tb_wf.
Qed.

Lemma ot_value_remove_text tb id s' l' p' (o : ObsTime PT) :
  time_key tb -> ot_wf o ->
  ot_value tb s' l' p' (for_each_tb (sensor_erase id) o) =
    if decide (id = s') then None else ot_value tb s' l' p' o.
Proof.
  intros Hk HW. rewrite ot_value_for_each. unfold ot_value.
  destruct (c_find ptime_lt tb (ot_tbtimes o)) as [t|] eqn:E; simpl; [|by case_decide].
  destruct (ot_tb_wf _ _ _ Hk HW E) as [[HS _] _]. unfold tb_value, c_find2, sensor_erase. simpl.
  rewrite (c_find_erase (kok := any)) by done. by case_decide.
Qed.

Lemma ot_value_store tb s l p c tb' s' l' p' (o : ObsTime PT) :
  time_key tb -> time_key tb' -> ot_wf o ->
  ot_value tb' s' l' p' (tb_update tb (level_update s l (c_update Z.ltb p DataContent_new
      (fun _ => c))) o) =
    if decide (tb = tb' /\ s = s' /\ l = l' /\ p = p') then Some c else ot_value tb' s' l' p' o.
Proof.
  intros Hk Hk' HW. unfold ot_value, tb_update. simpl. pose proof HW as [HS _].
  rewrite c_find_update by done.
  destruct (decide (tb = tb')) as [->|Hn]; [|by rewrite decide_False by (by intros [])]. simpl.
  rewrite tb_value_store by (by apply default_tb_wf).
  destruct (decide (s = s' /\ l = l' /\ p = p')); [by rewrite decide_True|].
  rewrite decide_False by tauto. by destruct (c_find ptime_lt tb' (ot_tbtimes o)).
Qed.

Lemma ot_value_store_text tb p x tb' s' l' p' (o : ObsTime PT) :
  time_key tb -> time_key tb' -> ot_wf o ->
  ot_value tb' s' l' p' (tb_update tb (text_update p x) o) = ot_value tb' s' l' p' o.
Proof.
  intros Hk Hk' [HS _]. unfold ot_value, tb_update. simpl. rewrite c_find_update by done.
  destruct (decide (tb = tb')) as [->|Hn]; [|done]. simpl.
  by destruct (c_find ptime_lt tb' (ot_tbtimes o)).
Qed.

Lemma ot_text_store_text tb p x tb' p' (o : ObsTime PT) :
  time_key tb -> time_key tb' -> ot_wf o ->
  ot_text tb' p' (tb_update tb (text_update p x) o) =
    if decide (tb = tb' /\ p = p') then Some x else ot_text tb' p' o.
Proof.
  intros Hk Hk' HW. unfold ot_text, tb_update. simpl. pose proof HW as [HS _].
  rewrite c_find_update by done.
  destruct (decide (tb = tb')) as [->|Hn]; [|by rewrite decide_False by (by intros [])]. simpl.
  pose proof (default_tb_wf _ _ Hk' HW) as [_ [HT _]].
  rewrite (c_find_update (kok := any)) by done.
  destruct (decide (p = p')); [by rewrite decide_True|]. rewrite decide_False by tauto.
  by destruct (c_find ptime_lt tb' (ot_tbtimes o)).
Qed.

Lemma ot_text_store tb f tb' p' (o : ObsTime PT) :
  time_key tb -> time_key tb' -> ot_wf o -> (forall t, textData (f t) = textData t) ->
  ot_text tb' p' (tb_update tb f o) = ot_text tb' p' o.
Proof.
  intros Hk Hk' [HS _] Hf. unfold ot_text, tb_update. simpl. rewrite c_find_update by done.
  destruct (decide (tb = tb')) as [->|Hn]; [|done]. simpl. rewrite Hf.
  by destruct (c_find ptime_lt tb' (ot_tbtimes o)).
Qed.

Lemma value_at_ot st ty ot tb s l p (obs : Observations PT) :
  value_at st ty ot tb s l p obs = obs_at st ty ot obs ≫= ot_value tb s l p.
Proof. done. Qed.

Lemma ot_value_default st ty ot tb s l p (obs : Observations PT) :
  ot_value tb s l p (default ObsTime_new (obs_at st ty ot obs)) = value_at st ty ot tb s l p obs.
Proof. rewrite value_at_ot. by destruct (obs_at st ty ot obs). Qed.

Lemma ot_text_default st ty ot tb p (obs : Observations PT) :
  ot_text tb p (default ObsTime_new (obs_at st ty ot obs)) = text_at st ty ot tb p obs.
Proof. unfold text_at. by destruct (obs_at st ty ot obs). Qed.

(** One change of an observation, seen by a search. *)
Lemma value_at_update st ty ot f st' ty' ot' tb s l p (obs : Observations PT) :
  time_key ot -> time_key ot' -> obs_wf obs ->
  value_at st' ty' ot' tb s l p (obs_update st ty ot f obs) =
    if decide (st = st' /\ ty = ty' /\ ot = ot')
    then ot_value tb s l p (f (default ObsTime_new (obs_at st ty ot obs)))
    else value_at st' ty' ot' tb s l p obs.
Proof. intros. rewrite value_at_ot, obs_at_update by done. by case_decide. Qed.

Lemma text_at_update st ty ot f st' ty' ot' tb p (obs : Observations PT) :
  time_key ot -> time_key ot' -> obs_wf obs ->
  text_at st' ty' ot' tb p (obs_update st ty ot f obs) =
    if decide (st = st' /\ ty = ty' /\ ot = ot')
    then ot_text tb p (f (default ObsTime_new (obs_at st ty ot obs)))
    else text_at st' ty' ot' tb p obs.
Proof. intros. unfold text_at. rewrite obs_at_update by done. by case_decide. Qed.

(** ** Lemmas: visiting the values *)

(** Membership in nested visits, taken apart. *)
Ltac visit := repeat match goal with
  | H : _ ∈ _ ≫= _ |- _ => apply list_elem_of_bind in H as (? & ? & ?)
  | H : _ ∈ _ <$> _ |- _ => apply list_elem_of_fmap in H as (? & ? & ?)
  | _ => progress simplify_eq/=
  end.

Lemma level_items_elem st ty ot tb sensor l v (d : kvData PT) :
  level_wf v ->
  d ∈ level_items st ty ot tb sensor (l, v) <->
    stationid_ d = st /\ typeid_ d = ty /\ obstime_ d = ot /\ tbtime_ d = tb /\
    sensor_ d = sensor /\ level_ d = l /\ c_find Z.ltb (paramid_ d) v = Some (DataContent_of d).
Proof.
  intros HW. unfold level_items. rewrite list_elem_of_fmap. simpl. split.
  - intros ([p c] & -> & Hin). apply (c_wf_elem _ _ _ HW) in Hin as (_ & Hf & _).
    simpl. repeat (split; [done|]). rewrite Hf. by destruct c.
  - intros (<- & <- & <- & <- & <- & <- & Hf). exists (paramid_ d, DataContent_of d).
    split; [by destruct d|]. by apply (c_find_elem (kok := any) _ _ _ (proj1 HW)).
Qed.

Lemma level_items_keys st ty ot tb sensor kv (d : kvData PT) :
  d ∈ level_items st ty ot tb sensor kv ->
  stationid_ d = st /\ typeid_ d = ty /\ obstime_ d = ot /\ tbtime_ d = tb /\
  sensor_ d = sensor /\ level_ d = kv.1.
Proof. unfold level_items. intros H. by visit. Qed.

Lemma sensor_items_keys st ty ot tb kv (d : kvData PT) :
  d ∈ sensor_items st ty ot tb kv -> sensor_ d = kv.1.
Proof. unfold sensor_items, level_items. intros H. by visit. Qed.

Lemma tb_items_keys st ty ot tb t (d : kvData PT) :
  d ∈ tb_items st ty ot tb t ->
  stationid_ d = st /\ typeid_ d = ty /\ obstime_ d = ot /\ tbtime_ d = tb.
Proof. unfold tb_items, sensor_items, level_items. intros H. by visit. Qed.

Lemma tb_items_elem st ty ot tb t (d : kvData PT) :
  tb_wf t ->
  d ∈ tb_items st ty ot tb t <->
    stationid_ d = st /\ typeid_ d = ty /\ obstime_ d = ot /\ tbtime_ d = tb /\
    tb_value (sensor_ d) (level_ d) (paramid_ d) t = Some (DataContent_of d).
Proof.
  intros [HW _]. unfold tb_items, tb_value, c_find2.
  rewrite (c_bind_elem (kok := any) _ sensor_); [|intros ??; apply sensor_items_keys|apply HW].
  split.
  - intros (_ & v & Hs & Hd). rewrite Hs. unfold sensor_items in Hd. simpl in *.
    apply (c_wf_find (kok := any) _ _ _ HW) in Hs; [|done].
    rewrite (c_bind_elem (kok := any) _ level_) in Hd;
      [|by intros ?? (?&?&?&?&?&?)%level_items_keys|apply Hs].
    destruct Hd as (_ & v' & Hl & Hd). rewrite Hl. simpl.
    apply (c_wf_find (kok := any) _ _ _ Hs) in Hl; [|done].
    apply level_items_elem in Hd; tauto.
  - intros (<- & <- & <- & <- & Hv). split; [done|].
    destruct (c_find Z.ltb (sensor_ d) (tb_sensors t)) as [v|] eqn:Hs; [|done]. simpl in Hv.
    exists v. split; [done|]. unfold sensor_items. simpl.
    apply (c_wf_find (kok := any) _ _ _ HW) in Hs; [|done].
    apply (c_bind_elem (kok := any) _ level_);
      [by intros ?? (?&?&?&?&?&?)%level_items_keys|apply Hs|].
    split; [done|]. destruct (c_find Z.ltb (level_ d) v) as [v'|] eqn:Hl; [|done].
    exists v'. split; [done|]. apply (c_wf_find (kok := any) _ _ _ Hs) in Hl; [|done].
    by apply level_items_elem.
Qed.

Lemma tb_items_NoDup st ty ot tb t : tb_wf t -> NoDup (tb_items st ty ot tb t).
Proof.
  intros [HW _]. apply (c_bind_NoDup (kok := any) _ sensor_);
    [intros ??; apply sensor_items_keys|apply HW|].
  intros [s v] Hin. apply (c_wf_elem (kok := any) _ _ _ HW) in Hin as (_ & _ & Hv).
  apply (c_bind_NoDup (kok := any) _ level_);
    [by intros ?? (?&?&?&?&?&?)%level_items_keys|apply Hv|].
  intros [l w] Hin. apply (c_wf_elem (kok := any) _ _ _ Hv) in Hin as (_ & _ & Hw).
  apply (NoDup_fmap_1 paramid_). unfold level_items. rewrite <- list_fmap_compose.
  apply (c_sorted_NoDup (kok := any)), Hw.
Qed.

Lemma tb_text_items_elem st ty ot tb t (d : kvTextData PT) :
  tb_wf t ->
  d ∈ tb_text_items st ty ot tb t <->
    tx_stationid_ d = st /\ tx_typeid_ d = ty /\ tx_obstime_ d = ot /\ tx_tbtime_ d = tb /\
    c_find Z.ltb (tx_paramid_ d) (textData t) = Some (tx_original_ d).
Proof.
  intros [_ HW]. unfold tb_text_items. rewrite list_elem_of_fmap. split.
  - intros ([p c] & -> & Hin). apply (c_wf_elem _ _ _ HW) in Hin as (_ & Hf & _). done.
  - intros (<- & <- & <- & <- & Hf). exists (tx_paramid_ d, tx_original_ d).
    split; [by destruct d|]. by apply (c_find_elem (kok := any) _ _ _ (proj1 HW)).
Qed.

Lemma tb_text_items_NoDup st ty ot tb t : tb_wf t -> NoDup (tb_text_items st ty ot tb t).
Proof.
  intros [_ HW]. apply (NoDup_fmap_1 tx_paramid_). unfold tb_text_items.
  rewrite <- list_fmap_compose. apply (c_sorted_NoDup (kok := any)), HW.
Qed.

Section visit.
  Context {B : Type} (f : Z -> Z -> ptime PT -> ptime PT -> TbTime -> list B).
  Context (kst kty : B -> Z) (kot ktb : B -> ptime PT).
  Context (Hkey : forall st ty ot tb t y, y ∈ f st ty ot tb t ->
             kst y = st /\ kty y = ty /\ kot y = ot /\ ktb y = tb).

Ltac visit_keys := intros ?? Hvk; simpl in Hvk; visit;
  match goal with H : _ ∈ f _ _ _ _ _ |- _ => apply Hkey in H as (?&?&?&?) end; congruence.

Lemma for_each_obs_elem (obs : Observations PT) x y :
  obs_wf obs ->
  y ∈ for_each_obs f false x obs <->
  time_key (kot y) /\ time_key (ktb y) /\
  exists o t, obs_at (kst y) (kty y) (kot y) obs = Some o /\
    c_find ptime_lt (ktb y) (ot_tbtimes o) = Some t /\
    y ∈ f (kst y) (kty y) (kot y) (ktb y) t.
Proof.
  intros HW. unfold for_each_obs, obs_at, c_find2.
  rewrite (c_bind_elem (kok := any) _ kst); [|visit_keys|apply HW]. split.
  - intros (_ & s & Hs & Hd). rewrite Hs. simpl in *.
    apply (c_wf_find (kok := any) _ _ _ HW) in Hs; [|done].
    apply (c_bind_elem (kok := any) _ kty) in Hd as (_ & t & Ht & Hd); [|visit_keys|apply Hs].
    rewrite Ht. apply (c_wf_find (kok := any) _ _ _ Hs) in Ht; [|done]. simpl in *.
    apply (c_bind_elem (kok := time_key) _ kot) in Hd as (Hk & o & Ho & Hd);
      [|visit_keys|apply Ht].
    apply (c_wf_find (kok := time_key) _ _ _ Ht) in Ho as Ho'; [|done]. simpl in *.
    apply (c_bind_elem (kok := time_key) _ ktb) in Hd as (Hk' & tt & Htt & Hd);
      [|visit_keys|apply Ho']. eauto 10.
  - intros (Hk & Hk' & o & tt & Ho & Htt & Hd). split; [done|].
    destruct (c_find Z.ltb (kst y) obs) as [s|] eqn:Hs; [|done]. simpl in Ho.
    exists s. split; [done|]. apply (c_wf_find (kok := any) _ _ _ HW) in Hs; [|done].
    apply (c_bind_elem (kok := any) _ kty); [visit_keys|apply Hs|]. split; [done|].
    destruct (c_find Z.ltb (kty y) s) as [t|] eqn:Ht; [|done]. simpl in Ho.
    exists t. split; [done|]. apply (c_wf_find (kok := any) _ _ _ Hs) in Ht; [|done].
    apply (c_bind_elem (kok := time_key) _ kot); [visit_keys|apply Ht|]. split; [done|].
    exists o. split; [done|]. apply (c_wf_find (kok := time_key) _ _ _ Ht) in Ho; [|done].
    apply (c_bind_elem (kok := time_key) _ ktb); [visit_keys|apply Ho|]. eauto.
Qed.

Lemma for_each_obs_NoDup (obs : Observations PT) x :
  (forall st ty ot tb t, tb_wf t -> NoDup (f st ty ot tb t)) ->
  obs_wf obs -> NoDup (for_each_obs f false x obs).
Proof.
  intros Hf HW. apply (c_bind_NoDup (kok := any) _ kst); [visit_keys|apply HW|].
  intros [st s] Hin. apply (c_wf_elem (kok := any) _ _ _ HW) in Hin as (_ & _ & Hs).
  apply (c_bind_NoDup (kok := any) _ kty); [visit_keys|apply Hs|].
  intros [ty t] Hin. apply (c_wf_elem (kok := any) _ _ _ Hs) in Hin as (_ & _ & Ht).
  apply (c_bind_NoDup (kok := time_key) _ kot); [visit_keys|apply Ht|].
  intros [ot o] Hin. apply (c_wf_elem (kok := time_key) _ _ _ Ht) in Hin as (_ & _ & Ho).
  apply (c_bind_NoDup (kok := time_key) _ ktb); [visit_keys|apply Ho|].
  intros [tb tt] Hin. apply (c_wf_elem (kok := time_key) _ _ _ Ho) in Hin as (_ & _ & Htt).
  by apply Hf.
Qed.
End visit.

Lemma obs_items_elem (obs : Observations PT) x d :
  obs_wf obs ->
  d ∈ obs_items false x obs <->
  time_key (obstime_ d) /\ time_key (tbtime_ d) /\
  value_at (stationid_ d) (typeid_ d) (obstime_ d) (tbtime_ d) (sensor_ d) (level_ d) (paramid_ d)
    obs = Some (DataContent_of d).
Proof.
  intros HW. unfold obs_items.
  rewrite (for_each_obs_elem _ stationid_ typeid_ obstime_ tbtime_);
    [|by intros ??????; apply tb_items_keys|done].
  rewrite value_at_ot. unfold ot_value. split.
  - intros (Hk & Hk' & o & t & Ho & Ht & Hd). rewrite Ho. simpl. rewrite Ht.
    apply tb_items_elem in Hd; [tauto|]. apply (ot_tb_wf (tbtime_ d) _ o); [done| |done].
    by apply (obs_at_wf _ _ _ _ _ Hk HW Ho).
  - intros (Hk & Hk' & Hv). split; [done|]. split; [done|].
    destruct (obs_at (stationid_ d) (typeid_ d) (obstime_ d) obs) as [o|] eqn:Ho; [|done].
    simpl in Hv. destruct (c_find ptime_lt (tbtime_ d) (ot_tbtimes o)) as [t|] eqn:Ht; [|done].
    exists o, t. repeat (split; [done|]). apply tb_items_elem; [|tauto].
    apply (ot_tb_wf (tbtime_ d) _ o); [done| |done]. by apply (obs_at_wf _ _ _ _ _ Hk HW Ho).
Qed.

Lemma obs_text_items_elem (obs : Observations PT) x d :
  obs_wf obs ->
  d ∈ obs_text_items false x obs <->
  time_key (tx_obstime_ d) /\ time_key (tx_tbtime_ d) /\
  text_at (tx_stationid_ d) (tx_typeid_ d) (tx_obstime_ d) (tx_tbtime_ d) (tx_paramid_ d) obs =
    Some (tx_original_ d).
Proof.
  intros HW. unfold obs_text_items.
  rewrite (for_each_obs_elem _ tx_stationid_ tx_typeid_ tx_obstime_ tx_tbtime_);
    [|by unfold tb_text_items; intros; visit|done].
  unfold text_at. split.
  - intros (Hk & Hk' & o & t & Ho & Ht & Hd). rewrite Ho. simpl. rewrite Ht.
    apply tb_text_items_elem in Hd; [tauto|]. apply (ot_tb_wf (tx_tbtime_ d) _ o); [done| |done].
    by apply (obs_at_wf _ _ _ _ _ Hk HW Ho).
  - intros (Hk & Hk' & Hv). split; [done|]. split; [done|].
    destruct (obs_at (tx_stationid_ d) (tx_typeid_ d) (tx_obstime_ d) obs) as [o|] eqn:Ho; [|done].
    simpl in Hv. destruct (c_find ptime_lt (tx_tbtime_ d) (ot_tbtimes o)) as [t|] eqn:Ht; [|done].
    exists o, t. repeat (split; [done|]). apply tb_text_items_elem; [|tauto].
    apply (ot_tb_wf (tx_tbtime_ d) _ o); [done| |done]. by apply (obs_at_wf _ _ _ _ _ Hk HW Ho).
Qed.

Lemma for_each_obs_length {B} (f : Z -> Z -> ptime PT -> ptime PT -> TbTime -> list B)
    (n : TbTime -> nat) b x (obs : Observations PT) :
  (forall st ty ot tb t, length (f st ty ot tb t) = n t) ->
  length (for_each_obs f b x obs) =
    c_count (c_count (c_count (fun o => c_count n (ot_tbtimes o)))) obs.
Proof.
  intros Hf. unfold for_each_obs. apply c_count_bind. intros s. apply c_count_bind. intros t.
  apply c_count_bind. intros o. apply c_count_bind. intros tb. apply Hf.
Qed.

Lemma Observations_count_items (obs : Observations PT) b x :
  Observations_count obs =
    (length (obs_items b x obs) + length (obs_text_items b x obs))%nat.
Proof.
  unfold obs_items, obs_text_items.
  rewrite (for_each_obs_length _ (fun t => c_count Sensor_count (tb_sensors t))).
  2: { intros. unfold tb_items. apply c_count_bind. intros s. unfold sensor_items.
       apply c_count_bind. intros l. unfold level_items, Level_count.
       rewrite length_fmap. generalize (l.2). intros l'.
       induction l'; simpl; [done|]. by f_equal. }
  rewrite (for_each_obs_length _ (fun t => c_count (fun _ => 1%nat) (textData t))).
  2: { intros. unfold tb_text_items. rewrite length_fmap. generalize (textData t). intros l'.
       induction l'; simpl; [done|]. by f_equal. }
  rewrite <- c_count_plus. unfold Observations_count.
  apply c_count_ext. intros s. rewrite <- c_count_plus. apply c_count_ext. intros t.
  rewrite <- c_count_plus. apply c_count_ext. intros o. unfold ObsTime_count, TbTime_count.
  apply c_count_plus.
Qed.

Lemma removeExisting_values d st ty ot tb s l p (obs : Observations PT) :
  obs_wf obs -> time_key (obstime_ d) -> time_key ot -> time_key tb ->
  value_at st ty ot tb s l p (removeExisting d obs) =
    if decide ((stationid_ d = st /\ typeid_ d = ty /\ obstime_ d = ot) /\
               plain_sensor (sensor_ d) = s /\ level_ d = l /\ paramid_ d = p)
    then None else value_at st ty ot tb s l p obs.
Proof.
  intros HW Hk Hk' Htb. unfold removeExisting. rewrite value_at_update by done.
  destruct (decide (stationid_ d = st /\ typeid_ d = ty /\ obstime_ d = ot)) as [(<- & <- & <-)|Hn].
  2: { by rewrite decide_False by tauto. }
  rewrite ot_value_remove by (done || by apply default_obs_wf).
  rewrite ot_value_default. do 2 case_decide; (done || tauto).
Qed.

Lemma insert_values d st ty ot tb s l p (obs : Observations PT) :
  obs_wf obs -> time_key (obstime_ d) -> time_key ot -> time_key tb ->
  value_at st ty ot tb s l p (obs_insert d obs) =
    if decide ((stationid_ d = st /\ typeid_ d = ty /\ obstime_ d = ot) /\
               plain_sensor (sensor_ d) = s /\ level_ d = l /\ paramid_ d = p)
    then (if decide (key_tbtime (tbtime_ d) = tb) then Some (DataContent_of d) else None)
    else value_at st ty ot tb s l p obs.
Proof.
  intros HW Hk Hk' Htb. unfold obs_insert.
  pose proof (removeExisting_wf _ _ Hk HW) as HW'.
  rewrite value_at_update by done. rewrite removeExisting_values by done.
  destruct (decide (stationid_ d = st /\ typeid_ d = ty /\ obstime_ d = ot)) as [(<- & <- & <-)|Hn].
  2: { by rewrite !decide_False by tauto. }
  rewrite ot_value_store by (done || apply key_tbtime_ok || by apply default_obs_wf).
  rewrite ot_value_default, removeExisting_values by done.
  repeat case_decide; (done || tauto).
Qed.

Lemma insert_texts d st ty ot tb p (obs : Observations PT) :
  obs_wf obs -> time_key (obstime_ d) -> time_key ot -> time_key tb ->
  text_at st ty ot tb p (obs_insert d obs) = text_at st ty ot tb p obs.
Proof.
  intros HW Hk Hk' Htb. unfold obs_insert.
  pose proof (removeExisting_wf _ _ Hk HW) as HW'.
  assert (text_at st ty ot tb p (removeExisting d obs) = text_at st ty ot tb p obs) as E.
  { unfold removeExisting. rewrite text_at_update by done. case_decide as H; [|done].
    destruct H as (<- & <- & <-). rewrite ot_text_for_each by done. apply ot_text_default. }
  rewrite text_at_update by done. case_decide as H; [|done]. destruct H as (<- & <- & <-).
  rewrite ot_text_store by (done || apply key_tbtime_ok || by apply default_obs_wf).
  by rewrite ot_text_default.
Qed.

Lemma removeExistingText_texts d st ty ot tb p (obs : Observations PT) :
  obs_wf obs -> time_key (tx_obstime_ d) -> time_key ot ->
  text_at st ty ot tb p (removeExistingText d obs) = text_at st ty ot tb p obs.
Proof.
  intros HW Hk Hk'. unfold removeExistingText. rewrite text_at_update by done.
  case_decide as H; [|done]. destruct H as (<- & <- & <-).
  rewrite ot_text_for_each by done. apply ot_text_default.
Qed.

Lemma removeExistingText_values d st ty ot tb s l p (obs : Observations PT) :
  obs_wf obs -> time_key (tx_obstime_ d) -> time_key ot -> time_key tb ->
  value_at st ty ot tb s l p (removeExistingText d obs) =
    if decide ((tx_stationid_ d = st /\ tx_typeid_ d = ty /\ tx_obstime_ d = ot) /\
               tx_paramid_ d = s)
    then None else value_at st ty ot tb s l p obs.
Proof.
  intros HW Hk Hk' Htb. unfold removeExistingText. rewrite value_at_update by done.
  case_decide as H; [destruct H as (<- & <- & <-)|by rewrite decide_False by tauto].
  rewrite ot_value_remove_text, ot_value_default by (done || by apply default_obs_wf).
  do 2 case_decide; (done || tauto).
Qed.

(** The observations met by the loops are those the search finds. *)
Lemma obs_at_elem st ty ot o (obs : Observations PT) :
  obs_wf obs ->
  (exists s t, (st, s) ∈ obs /\ (ty, t) ∈ s /\ (ot, o) ∈ t) <->
  time_key ot /\ obs_at st ty ot obs = Some o.
Proof.
  intros HW. unfold obs_at, c_find2. split.
  - intros (s & t & H1 & H2 & H3).
    apply (c_wf_elem (kok := any) _ _ _ HW) in H1 as (_ & -> & Hs).
    apply (c_wf_elem (kok := any) _ _ _ Hs) in H2 as (_ & E2 & Ht). simpl. rewrite E2.
    by apply (c_wf_elem (kok := time_key) _ _ _ Ht) in H3 as (? & ? & _).
  - intros (Hk & H). destruct (c_find Z.ltb st obs) as [s|] eqn:E1; [|done]. simpl in H.
    destruct (c_find Z.ltb ty s) as [t|] eqn:E2; [|done]. simpl in H. exists s, t.
    apply (c_wf_find (kok := any) _ _ _ HW) in E1 as Hs; [|done].
    apply (c_wf_find (kok := any) _ _ _ Hs) in E2 as Ht; [|done].
    split; [by apply (c_find_elem (kok := any)); [apply HW|]|].
    split; [by apply (c_find_elem (kok := any)); [apply Hs|]|].
    by apply (c_find_elem (kok := time_key)); [apply Ht|].
Qed.

Lemma obs_update_inv st ty ot f st' ty' ot' (obs : Observations PT) :
  time_key ot -> time_key ot' -> obs_wf obs ->
  from_option invalidate_ false (obs_at st' ty' ot' (obs_update st ty ot f obs)) =
    if decide (st = st' /\ ty = ty' /\ ot = ot')
    then invalidate_ (f (default ObsTime_new (obs_at st ty ot obs)))
    else from_option invalidate_ false (obs_at st' ty' ot' obs).
Proof. intros. rewrite obs_at_update by done. by case_decide. Qed.

(** A change that leaves the marks leaves all of them. *)
Lemma obs_update_same_inv st ty ot f st' ty' ot' (obs : Observations PT) :
  time_key ot -> time_key ot' -> obs_wf obs -> (forall o, invalidate_ (f o) = invalidate_ o) ->
  from_option invalidate_ false (obs_at st' ty' ot' (obs_update st ty ot f obs)) =
    from_option invalidate_ false (obs_at st' ty' ot' obs).
Proof.
  intros Hk Hk' HW Hf. rewrite obs_update_inv by done. case_decide as H; [|done].
  destruct H as (<- & <- & <-). rewrite Hf. by destruct (obs_at st ty ot obs).
Qed.

Lemma getInvalidate_elem (k : KvalobsData PT) st ty ot :
  obs_wf (obs_ k) ->
  (st, ty, ot) ∈ getInvalidate k <->
  time_key ot /\ from_option invalidate_ false (obs_at st ty ot (obs_ k)) = true.
Proof.
  intros HW. unfold getInvalidate. split.
  - intros H. visit. destruct (invalidate_ _) eqn:E; [|by apply not_elem_of_nil in H].
    apply list_elem_of_singleton in H. simplify_eq/=.
    match goal with H1 : ?s ∈ obs_ k, H2 : ?t ∈ ?s.2, H3 : ?o ∈ ?t.2 |- _ =>
      destruct s as [s1 s2], t as [t1 t2], o as [o1 o2]; simpl in *;
      destruct (proj1 (obs_at_elem s1 t1 o1 o2 _ HW)) as [Hk ->]; eauto 10 end.
  - intros (Hk & H). destruct (obs_at st ty ot (obs_ k)) as [o|] eqn:E; [|done]. simpl in H.
    destruct (proj2 (obs_at_elem st ty ot o _ HW) (conj Hk E)) as (s & t & H1 & H2 & H3).
    apply list_elem_of_bind. exists (st, s). split; [|done].
    apply list_elem_of_bind. exists (ty, t). split; [|done].
    apply list_elem_of_bind. exists (ot, o). split; [|done]. simpl. rewrite H.
    by apply list_elem_of_singleton.
Qed.

Lemma summary_elem (k : KvalobsData PT) st ty ot :
  obs_wf (obs_ k) ->
  (st, ot, ty) ∈ summary k <-> time_key ot /\ exists o, obs_at st ty ot (obs_ k) = Some o.
Proof.
  intros HW. unfold summary. split.
  - intros H. visit.
    match goal with H1 : ?s ∈ obs_ k, H2 : ?t ∈ ?s.2, H3 : ?o ∈ ?t.2 |- _ =>
      destruct s as [s1 s2], t as [t1 t2], o as [o1 o2]; simpl in *;
      destruct (proj1 (obs_at_elem s1 t1 o1 o2 _ HW)) as [Hk ->]; eauto 10 end.
  - intros (Hk & o & E).
    destruct (proj2 (obs_at_elem st ty ot o _ HW) (conj Hk E)) as (s & t & H1 & H2 & H3).
    apply list_elem_of_bind. exists (st, s). split; [|done].
    apply list_elem_of_bind. exists (ty, t). split; [|done].
    apply list_elem_of_fmap. by exists (ot, o).
Qed.

(** ** Lemmas: an object built from a list *)

(** The value as the object reports it. *)
Definition normalise (d : kvData PT) : kvData PT :=
  kvData_set (stationid_ d) (obstime_ d) (original_ d) (paramid_ d) (key_tbtime (tbtime_ d))
    (typeid_ d) (plain_sensor (sensor_ d)) (level_ d) (corrected_ d) (controlinfo_ d)
    (useinfo_ d) (cfailed_ d).

Definition obs_of (l : list (kvData PT)) : Observations PT :=
  foldl (fun obs d => obs_insert d obs) [] l.

Lemma KvalobsData_of_obs (l : list (kvData PT)) : obs_ (KvalobsData_of l []) = obs_of l.
Proof.
  unfold KvalobsData_of, obs_of. simpl. change (@nil (Z * list (Z * list (ptime PT * ObsTime PT))))
    with (obs_ (PT := PT) KvalobsData_new).
  generalize (KvalobsData_new (PT := PT)). induction l as [|d l IH]; simpl; intros k; [done|].
  by rewrite IH.
Qed.

Lemma obs_of_snoc l d : obs_of (l ++ [d]) = obs_insert d (obs_of l).
Proof. unfold obs_of. by rewrite foldl_app. Qed.

Lemma obs_of_wf l : Forall (fun d => time_key (obstime_ d)) l -> obs_wf (obs_of l).
Proof.
  induction l as [|d l IH] using rev_ind; [intros _; apply c_wf_nil|].
  rewrite obs_of_snoc, Forall_app, Forall_singleton. intros [H Hd].
  apply obs_insert_wf; auto.
Qed.

Definition has_key (st ty : Z) (ot : ptime PT) (s l p : Z) (d : kvData PT) : Prop :=
  (stationid_ d = st /\ typeid_ d = ty /\ obstime_ d = ot) /\
  plain_sensor (sensor_ d) = s /\ level_ d = l /\ paramid_ d = p.

#[export] Instance has_key_dec st ty ot s l p d : Decision (has_key st ty ot s l p d).
Proof. solve_decision. Defined.

(** The last value inserted with an identity is the one that is stored. *)
Lemma obs_of_values l st ty ot tb s le p :
  Forall (fun d => time_key (obstime_ d)) l -> time_key ot -> time_key tb ->
  value_at st ty ot tb s le p (obs_of l) =
    last (filter (has_key st ty ot s le p) l) ≫= fun d =>
      if decide (key_tbtime (tbtime_ d) = tb) then Some (DataContent_of d) else None.
Proof.
  intros H Hk Htb. induction l as [|d l IH] using rev_ind; [done|].
  rewrite Forall_app, Forall_singleton in H. destruct H as [Hl Hd].
  rewrite obs_of_snoc, insert_values by (done || by apply obs_of_wf).
  rewrite filter_app, filter_cons, filter_nil, IH by done.
  destruct (decide (has_key st ty ot s le p d)) as [Hh|Hh]; unfold has_key in Hh.
  - rewrite decide_True, last_snoc by done. done.
  - rewrite decide_False, app_nil_r by done. done.
Qed.

Lemma obs_of_texts l st ty ot tb p :
  Forall (fun d => time_key (obstime_ d)) l -> time_key ot -> time_key tb ->
  text_at st ty ot tb p (obs_of l) = None.
Proof.
  intros H Hk Htb. induction l as [|d l IH] using rev_ind; [done|].
  rewrite Forall_app, Forall_singleton in H. destruct H as [Hl Hd].
  rewrite obs_of_snoc, insert_texts by (done || by apply obs_of_wf). auto.
Qed.

Lemma plain_sensor_mod s : sensor_ok s -> plain_sensor s = s mod char_0.
Proof.
  unfold sensor_ok, plain_sensor, char_0. intros. case_match; Z.to_euclidean_division_equations; lia.
Qed.

Lemma same_kvData_key d e :
  sensor_ok (sensor_ d) -> sensor_ok (sensor_ e) ->
  same_kvData e d = true <->
  has_key (stationid_ d) (typeid_ d) (obstime_ d) (plain_sensor (sensor_ d)) (level_ d)
    (paramid_ d) e.
Proof.
  intros Hd He. unfold same_kvData, has_key. rewrite !andb_true_iff, bool_decide_eq_true, !Z.eqb_eq.
  rewrite eq_sensor_mod, Z.eqb_eq, !plain_sensor_mod by done. tauto.
Qed.

Lemma filter_Forall_ext {A} (P Q : A -> Prop) `{!forall x, Decision (P x), !forall x, Decision (Q x)} l :
  Forall (fun x => P x <-> Q x) l -> filter P l = filter Q l.
Proof.
  intros HF. induction HF as [|x l Hx Hl IH]; [done|]. rewrite !filter_cons, IH.
  do 2 case_decide; (done || tauto).
Qed.

Lemma last_filter_Some {A} (P : A -> Prop) `{!forall x, Decision (P x)} l x :
  last (filter P l) = Some x -> P x /\ x ∈ l.
Proof.
  intros HL. apply last_Some in HL as [l' HL]. apply (list_elem_of_filter P). rewrite HL.
  apply elem_of_app. right. by apply list_elem_of_singleton.
Qed.

Lemma plain_sensor_idem s : sensor_ok s -> plain_sensor (plain_sensor s) = plain_sensor s.
Proof. unfold plain_sensor, sensor_ok, char_0. intros. repeat case_match; lia. Qed.

Lemma plain_sensor_ok s : sensor_ok s -> sensor_ok (plain_sensor s).
Proof. unfold plain_sensor, sensor_ok, char_0. intros. repeat case_match; lia. Qed.

Lemma same_key_filter l d :
  Forall kvData_ordered l -> sensor_ok (sensor_ d) ->
  filter (fun e => same_kvData e d = true) l =
    filter (has_key (stationid_ d) (typeid_ d) (obstime_ d) (plain_sensor (sensor_ d)) (level_ d)
      (paramid_ d)) l.
Proof.
  intros Hl Hd. apply filter_Forall_ext. eapply Forall_impl; [exact Hl|].
  intros e [He _]. by apply same_kvData_key.
Qed.

Lemma ordered_times l : Forall kvData_ordered l -> Forall (fun d => time_key (obstime_ d)) l.
Proof. intros H. eapply Forall_impl; [exact H|]. by intros d []. Qed.

(** The values of an object built from a list. *)
Lemma obs_of_items l d x :
  Forall kvData_ordered l ->
  d ∈ obs_items false x (obs_of l) <->
  exists e, last (filter (fun e => same_kvData e d = true) l) = Some e /\ d = normalise e.
Proof.
  intros Hl. pose proof (ordered_times _ Hl) as Ht.
  rewrite obs_items_elem by (by apply obs_of_wf). split.
  - intros (Hk & Hk' & Hv). rewrite obs_of_values in Hv by done.
    destruct (last _) as [e|] eqn:E in Hv; [|done]. simpl in Hv.
    case_decide as Htb; [|done].
    destruct (last_filter_Some _ _ _ E) as [((E1 & E2 & E3) & E4 & E5 & E6) Hin].
    rewrite Forall_forall in Hl. destruct (Hl _ Hin) as [He _].
    exists e. rewrite same_key_filter; [|by apply Forall_forall|by rewrite <- E4; apply plain_sensor_ok].
    assert (plain_sensor (sensor_ d) = sensor_ d) as Es by (rewrite <- E4; by apply plain_sensor_idem).
    rewrite Es, E. split; [done|]. unfold normalise, kvData_set, DataContent_of in *. destruct d.
    simpl in *. congruence.
  - intros (e & E & ->). apply last_filter_Some in E as E'. destruct E' as [_ Hin].
    pose proof Hl as Hl'. rewrite Forall_forall in Hl'. destruct (Hl' _ Hin) as [He Hke].
    split; [done|]. split; [apply key_tbtime_ok|].
    rewrite obs_of_values by (done || apply key_tbtime_ok).
    rewrite same_key_filter in E by (done || by apply plain_sensor_ok).
    simpl in *. rewrite plain_sensor_idem in E by done. rewrite E. simpl. by rewrite decide_True.
Qed.
End lemmas.

(** ** Properties *)

Section properties.
  Context {PT : PTime} {PL : PTimeLaws PT}.

(** Insertion of a value. The containers stay sorted and free of duplicates;
    afterwards the key of the value (its sensor as a number, a special time of
    arrival as minus infinity) holds exactly its content, the same parameter of
    the same observation is gone from every other time of arrival, and nothing
    else changes, the text data least of all. *)
Theorem obs_insert_spec (d : kvData PT) (obs : Observations PT) :
  obs_wf obs -> is_not_a_date_time (obstime_ d) = false ->
  obs_wf (obs_insert d obs) /\
  (forall st ty ot tb s l p,
     is_not_a_date_time ot = false -> is_not_a_date_time tb = false ->
     value_at st ty ot tb s l p (obs_insert d obs) =
       if decide (has_key st ty ot s l p d)
       then (if decide (key_tbtime (tbtime_ d) = tb) then Some (DataContent_of d) else None)
       else value_at st ty ot tb s l p obs) /\
  (forall st ty ot tb p,
     is_not_a_date_time ot = false -> is_not_a_date_time tb = false ->
     text_at st ty ot tb p (obs_insert d obs) = text_at st ty ot tb p obs).
Proof.
  intros HW Hk. split; [by apply obs_insert_wf|]. split.
  - intros * Hot Htb. rewrite insert_values by done.
    destruct (decide (has_key st ty ot s l p d)) as [Hh|Hh]; unfold has_key in Hh;
      [by rewrite decide_True|by rewrite decide_False].
  - intros * Hot Htb. by apply insert_texts.
Qed.

(** insertion of a text. Its key holds the text afterwards and every other
    text stays, also the same parameter of the same observation with another
    time of arrival; and every value of that observation whose sensor number
    equals the text's parameter is lost, since the removal of the old text
    erases a sensor. *)
Theorem obs_insertText_spec (d : kvTextData PT) (obs : Observations PT) :
  obs_wf obs -> is_not_a_date_time (tx_obstime_ d) = false ->
  obs_wf (obs_insertText d obs) /\
  (forall st ty ot tb p,
     is_not_a_date_time ot = false -> is_not_a_date_time tb = false ->
     text_at st ty ot tb p (obs_insertText d obs) =
       if decide (tx_stationid_ d = st /\ tx_typeid_ d = ty /\ tx_obstime_ d = ot /\
                  key_tbtime (tx_tbtime_ d) = tb /\ tx_paramid_ d = p)
       then Some (tx_original_ d) else text_at st ty ot tb p obs) /\
  (forall st ty ot tb s l p,
     is_not_a_date_time ot = false -> is_not_a_date_time tb = false ->
     value_at st ty ot tb s l p (obs_insertText d obs) =
       if decide (tx_stationid_ d = st /\ tx_typeid_ d = ty /\ tx_obstime_ d = ot /\
                  tx_paramid_ d = s)
       then None else value_at st ty ot tb s l p obs).
Proof.
  intros HW Hk. split; [by apply obs_insertText_wf|].
  pose proof (removeExistingText_wf _ _ Hk HW) as HW'. unfold obs_insertText. split.
  - intros * Hot Htb. rewrite text_at_update by done.
    destruct (decide (tx_stationid_ d = st /\ tx_typeid_ d = ty /\ tx_obstime_ d = ot))
      as [(<- & <- & <-)|Hn].
    2: { rewrite decide_False by tauto. by apply removeExistingText_texts. }
    rewrite ot_text_store_text by (done || apply key_tbtime_ok || by apply default_obs_wf).
    rewrite ot_text_default, removeExistingText_texts by done.
    do 2 case_decide; (done || tauto).
  - intros * Hot Htb. rewrite value_at_update by done.
    destruct (decide (tx_stationid_ d = st /\ tx_typeid_ d = ty /\ tx_obstime_ d = ot))
      as [(<- & <- & <-)|Hn].
    2: { rewrite removeExistingText_values by done. by rewrite !decide_False by tauto. }
    rewrite ot_value_store_text by (done || apply key_tbtime_ok || by apply default_obs_wf).
    rewrite ot_value_default, removeExistingText_values by done.
    do 2 case_decide; (done || tauto).
Qed.

(** extraction. [data] returns, sorted by [lt_kvData], exactly the stored
    values, each one once, and the texts likewise; [size] is the number of both
    and [empty] tells when there are none. *)
Theorem data_spec (k : KvalobsData PT) (x : ptime PT) :
  obs_wf (obs_ k) ->
  (forall d, d ∈ data k [] false x <->
     is_not_a_date_time (obstime_ d) = false /\ is_not_a_date_time (tbtime_ d) = false /\
     value_at (stationid_ d) (typeid_ d) (obstime_ d) (tbtime_ d) (sensor_ d) (level_ d)
       (paramid_ d) (obs_ k) = Some (DataContent_of d)) /\
  (forall d, d ∈ text_data k [] false x <->
     is_not_a_date_time (tx_obstime_ d) = false /\ is_not_a_date_time (tx_tbtime_ d) = false /\
     text_at (tx_stationid_ d) (tx_typeid_ d) (tx_obstime_ d) (tx_tbtime_ d) (tx_paramid_ d)
       (obs_ k) = Some (tx_original_ d)) /\
  NoDup (data k [] false x) /\ NoDup (text_data k [] false x) /\
  StronglySorted (fun a b => lt_kvTextData b a = false) (text_data k [] false x) /\
  size k = (length (data k [] false x) + length (text_data k [] false x))%nat /\
  (empty k = true <-> data k [] false x = [] /\ text_data k [] false x = []).
Proof.
  intros HW. unfold data, text_data. rewrite !app_nil_l.
  assert (Hlen : size k = (length (list_sort lt_kvData (obs_items false x (obs_ k))) +
             length (list_sort lt_kvTextData (obs_text_items false x (obs_ k))))%nat).
  { rewrite !list_sort_perm. apply Observations_count_items. }
  split; [|split; [|split; [|split; [|split; [|split]]]]].
  - intros d. rewrite list_sort_perm. by apply obs_items_elem.
  - intros d. rewrite list_sort_perm. by apply obs_text_items_elem.
  - rewrite list_sort_perm.
    apply (for_each_obs_NoDup _ stationid_ typeid_ obstime_ tbtime_); [|exact tb_items_NoDup|done].
    intros ??????. apply tb_items_keys.
  - rewrite list_sort_perm.
    apply (for_each_obs_NoDup _ tx_stationid_ tx_typeid_ tx_obstime_ tx_tbtime_);
      [|exact tb_text_items_NoDup|done].
    unfold tb_text_items. intros ?????? (? & ? & ?)%list_elem_of_fmap. by simplify_eq/=.
  - apply (list_sort_sorted lt_kvTextData_strict_weak).
    rewrite Forall_forall. intros d Hd. by apply obs_text_items_elem in Hd as [? _].
  - exact Hlen.
  - unfold empty. rewrite Hlen, Nat.eqb_eq. rewrite <- !length_zero_iff_nil. lia.
Qed.

(** An object built from values holds, for every parameter of every
    observation, the last value given for it (a sensor and its character being
    the same), with its sensor as a number, and returns these sorted. *)
Theorem KvalobsData_of_data (l : list (kvData PT)) (x : ptime PT) :
  Forall kvData_ordered l ->
  (forall d, d ∈ data (KvalobsData_of l []) [] false x <->
     exists e, last (filter (fun e => same_kvData e d = true) l) = Some e /\ d = normalise e) /\
  NoDup (data (KvalobsData_of l []) [] false x) /\
  StronglySorted (fun a b => lt_kvData b a = false) (data (KvalobsData_of l []) [] false x) /\
  text_data (KvalobsData_of l []) [] false x = [].
Proof.
  intros Hl. pose proof (obs_of_wf _ (ordered_times _ Hl)) as HW. unfold data, text_data.
  rewrite !app_nil_l, KvalobsData_of_obs. split; [|split; [|split]].
  - intros d. rewrite list_sort_perm. by apply obs_of_items.
  - rewrite list_sort_perm.
    apply (for_each_obs_NoDup _ stationid_ typeid_ obstime_ tbtime_); [|exact tb_items_NoDup|done].
    intros ??????. apply tb_items_keys.
  - apply (list_sort_sorted lt_kvData_strict_weak). rewrite Forall_forall. intros d Hd.
    apply obs_of_items in Hd as (e & He & ->); [|done].
    apply last_filter_Some in He as [_ He]. rewrite Forall_forall in Hl.
    destruct (Hl _ He) as [H1 H2]. split; [by apply plain_sensor_ok|done].
  - destruct (obs_text_items false x (obs_of l)) as [|d r] eqn:E; [done|exfalso].
    assert (d ∈ obs_text_items false x (obs_of l)) as Hd by (rewrite E; left).
    apply obs_text_items_elem in Hd as (Hk & Hk' & Hd); [|done].
    rewrite obs_of_texts in Hd; [done|by apply ordered_times|done|done].
Qed.

(** marks for rejection. [invalidate] sets the mark of one observation and
    changes no other mark, value or text; insertions keep the marks;
    [getInvalidate] lists exactly the marked observations. Asking with
    [isInvalidate] changes no mark, but what is asked for is part of the summary
    afterwards, even when it was not in the object. *)
Theorem invalidate_spec (doit : bool) (st ty : Z) (ot : ptime PT) (k : KvalobsData PT)
    (d : kvData PT) :
  obs_wf (obs_ k) -> is_not_a_date_time ot = false -> is_not_a_date_time (obstime_ d) = false ->
  (forall st' ty' ot', is_not_a_date_time ot' = false ->
     fst (isInvalidate st' ty' ot' (invalidate doit st ty ot k)) =
       (if decide (st = st' /\ ty = ty' /\ ot = ot') then doit
        else fst (isInvalidate st' ty' ot' k)) /\
     fst (isInvalidate st' ty' ot' (snd (isInvalidate st ty ot k))) =
       fst (isInvalidate st' ty' ot' k) /\
     fst (isInvalidate st' ty' ot' (insert d k)) = fst (isInvalidate st' ty' ot' k)) /\
  (forall st' ty' ot' tb s l p, is_not_a_date_time ot' = false ->
     value_at st' ty' ot' tb s l p (obs_ (invalidate doit st ty ot k)) =
       value_at st' ty' ot' tb s l p (obs_ k) /\
     text_at st' ty' ot' tb p (obs_ (invalidate doit st ty ot k)) =
       text_at st' ty' ot' tb p (obs_ k)) /\
  (forall st' ty' ot', (st', ty', ot') ∈ getInvalidate k <->
     is_not_a_date_time ot' = false /\ fst (isInvalidate st' ty' ot' k) = true) /\
  (forall st' ty' ot', (st', ot', ty') ∈ summary (snd (isInvalidate st ty ot k)) <->
     (st', ot', ty') = (st, ot, ty) \/ (st', ot', ty') ∈ summary k).
Proof.
  intros HW Hk Hd. split; [|split; [|split]].
  - intros * Hk'. simpl. split; [|split].
    + rewrite obs_update_inv by done. by case_decide.
    + by apply obs_update_same_inv.
    + unfold obs_insert. rewrite obs_update_same_inv by (done || by apply removeExisting_wf).
      unfold removeExisting. by rewrite obs_update_same_inv.
  - intros * Hk'. simpl. rewrite value_at_update, text_at_update by done.
    case_decide as H; [|done]. destruct H as (<- & <- & <-).
    rewrite <- ot_value_default, <- ot_text_default. by destruct (obs_at st ty ot (obs_ k)).
  - intros *. apply getInvalidate_elem, HW.
  - intros *. simpl. rewrite !summary_elem by (done || by apply obs_update_wf). simpl. split.
    + intros (Hk' & o & H). rewrite obs_at_update in H by done.
      case_decide as E; [left; destruct E as (-> & -> & ->); done|right; eauto].
    + intros [[= -> -> ->]|(Hk' & o & H)]; (split; [done|]); rewrite obs_at_update by done;
        [rewrite decide_True by done|case_decide]; eauto.
Qed.
End properties.

(** ** Instances *)

Definition sample_text (p : Z) (x : string) : kvTextData stamp_time :=
  kvTextData_set 18700 (stamp_of 2024 1 1 6 0 0) x p (stamp_of 2024 1 1 6 5 0) 501.

Definition t6 : ptime stamp_time := stamp_of 2024 1 1 6 0 0.
Definition t605 : ptime stamp_time := stamp_of 2024 1 1 6 5 0.

Lemma obs_insert_spec_witness :
  value_at 18700 501 t6 t605 2 0 211 (obs_insert (PT := stamp_time) (sample_data 50 0 0 0) []) =
    Some (DataContent_of (sample_data 50 0 0 0)).
Proof.
  destruct (obs_insert_spec (sample_data 50 0 0 0) [] c_wf_nil eq_refl) as (_ & H & _).
  refine (eq_trans (H 18700 501 t6 t605 2 0 211 eq_refl eq_refl) _). reflexivity.
Defined.

Lemma obs_insertText_spec_witness :
  let obs := obs_insert (sample_data 2 0 0 0) [] in
  value_at 18700 501 t6 t605 2 0 211 obs <> None /\
  value_at 18700 501 t6 t605 2 0 211 (obs_insertText (sample_text 2 "x") obs) = None.
Proof.
  intros obs. split; [by vm_compute|].
  assert (obs_wf obs) as HW by (by apply obs_insert_wf; [|apply c_wf_nil]).
  destruct (obs_insertText_spec (sample_text 2 "x") obs HW eq_refl) as (_ & _ & H).
  refine (eq_trans (H 18700 501 t6 t605 2 0 211 eq_refl eq_refl) _). reflexivity.
Defined.

Lemma data_spec_witness :
  let k := insert (sample_data 50 0 0 0) KvalobsData_new in
  size k = 1%nat /\ data k [] false t6 = [sample_data 2 0 0 0].
Proof.
  intros k. assert (obs_wf (obs_ k)) as HW by (by apply obs_insert_wf; [|apply c_wf_nil]).
  pose proof (data_spec k t6 HW) as (_ & _ & _ & _ & _ & H & _).
  split; [rewrite H; vm_compute|]; reflexivity.
Defined.

Lemma KvalobsData_of_data_witness :
  let l := [sample_data 2 0 0 0; sample_data 50 3 0 0] in
  sample_data 2 3 0 0 ∈ data (KvalobsData_of l []) [] false t6.
Proof.
  intros l. apply (KvalobsData_of_data l t6).
  - repeat constructor; vm_compute; congruence.
  - exists (sample_data 50 3 0 0). split; reflexivity.
Defined.

Lemma invalidate_spec_witness :
  fst (isInvalidate 18700 501 t6 (invalidate true 18700 501 t6 KvalobsData_new)) = true /\
  (18700, t6, 501) ∈ summary (snd (isInvalidate 18700 501 t6 KvalobsData_new)).
Proof.
  destruct (invalidate_spec true 18700 501 t6 KvalobsData_new (sample_data 0 0 0 0) c_wf_nil
    eq_refl eq_refl) as (H1 & _ & _ & H2).
  split; [refine (eq_trans (proj1 (H1 18700 501 t6 eq_refl)) _); reflexivity|].
  apply H2. by left.
Defined.

(** ** What the code loses *)

(** A text data value removes the values of a sensor from its observation. *)
Lemma insertText_loses_values :
  let k := insert (sample_data 2 0 0 0) KvalobsData_new in
  size k = 1%nat /\ data (insertText (sample_text 2 "x") k) [] false t6 = [].
Proof. split; vm_compute; reflexivity. Qed.
