(* ===== verification/KvDataContainer.v ===== *)
(** * [KvDataContainer]: the values of a message by observation
      (src/src/lib/decodeutility/KvDataContainer.cc)

    The container asks a [KvalobsData] for its sorted values and groups them in
    maps by station, type and observation time. The pointer it owns is the
    object itself here; a container without an object, on which every operation
    dereferences a null pointer, is not modelled. *)

From S2P Require Import Prelude Orders PTime DataFlag ControlInfo UseInfo.
From S2P Require Import KvData KvDataOps SortedData KvalobsData.

Section container.
  Context {PT : PTime}.

Definition DataByObstime : Type := list (ptime PT * list (kvData PT)).
Definition TextDataByObstime : Type := list (ptime PT * list (kvTextData PT)).
Definition Data : Type := list (Z * list (Z * DataByObstime)).
Definition TextData : Type := list (Z * list (Z * TextDataByObstime)).

(** [m[time].push_back(elem)]. *)
Definition push_back {B} (time : ptime PT) (elem : B) (m : list (ptime PT * list B))
  : list (ptime PT * list B) :=
  c_update ptime_lt time [] (fun l => l ++ [elem]) m.

(** [getData(Data &, tbtime)]: the number of values and the map. *)
Definition getDataAll (k : KvalobsData PT) (tbtime : ptime PT) : nat * Data :=
  foldl (fun '(n, m) elem =>
           (S n, c_update Z.ltb (stationid_ elem) []
                   (c_update Z.ltb (typeid_ elem) [] (push_back (obstime_ elem) elem)) m))
    (0%nat, []) (data k [] true tbtime).

Definition getTextDataAll (k : KvalobsData PT) (tbtime : ptime PT) : nat * TextData :=
  foldl (fun '(n, m) elem =>
           (S n, c_update Z.ltb (tx_stationid_ elem) []
                   (c_update Z.ltb (tx_typeid_ elem) [] (push_back (tx_obstime_ elem) elem)) m))
    (0%nat, []) (text_data k [] true tbtime).

(** [get(TextData &, Data &, tbtime)]. *)
Definition getAll (k : KvalobsData PT) (tbtime : ptime PT) : nat * (TextData * Data) :=
  let '(n, td) := getTextDataAll k tbtime in
  let '(m, d) := getDataAll k tbtime in
  ((n + m)%nat, (td, d)).

(** [getData(DataByObstime &, stationid, typeId, tbtime, setTbTime)]. *)
Definition getDataBy (k : KvalobsData PT) (stationid typeId : Z) (tbtime : ptime PT)
    (setTbTime : bool) : nat * DataByObstime :=
  foldl (fun '(n, m) elem =>
           if negb (stationid_ elem =? stationid) || negb (typeid_ elem =? typeId) then (n, m)
           else (S n, push_back (obstime_ elem) elem m))
    (0%nat, []) (data k [] setTbTime tbtime).

Definition getTextDataBy (k : KvalobsData PT) (stationid typeId : Z) (tbtime : ptime PT)
    (setTbTime : bool) : nat * TextDataByObstime :=
  foldl (fun '(n, m) elem =>
           if negb (tx_stationid_ elem =? stationid) || negb (tx_typeid_ elem =? typeId)
           then (n, m)
           else (S n, push_back (tx_obstime_ elem) elem m))
    (0%nat, []) (text_data k [] setTbTime tbtime).

Definition getBy (k : KvalobsData PT) (stationid typeId : Z) (tbtime : ptime PT)
    (setTbTime : bool) : nat * (DataByObstime * TextDataByObstime) :=
  let '(n, td) := getTextDataBy k stationid typeId tbtime setTbTime in
  let '(m, d) := getDataBy k stationid typeId tbtime setTbTime in
  ((n + m)%nat, (d, td)).

(** [getData(data, stationid, typeId, paramid, obstime, sensor, level)]: the first
    value that matches; [tmpData[obstime]] is empty when there is no such time. *)
Definition getData1 (k : KvalobsData PT) (stationid typeId paramid : Z) (obstime : ptime PT)
    (sensor : ascii) (level : Z) : option (kvData PT) :=
  let '(n, tmpData) := getDataBy k stationid typeId not_a_date_time true in
  if (n =? 0)%nat then None
  else List.find (fun d => (paramid_ d =? paramid) && (sensor_ d =? char_val sensor)
                           && (level_ d =? level))
         (default [] (c_find ptime_lt obstime tmpData)).

Definition getTextData1 (k : KvalobsData PT) (stationid typeId paramid : Z)
    (obstime : ptime PT) : option (kvTextData PT) :=
  let '(n, tmpData) := getTextDataBy k stationid typeId not_a_date_time true in
  if (n =? 0)%nat then None
  else List.find (fun d => tx_paramid_ d =? paramid)
         (default [] (c_find ptime_lt obstime tmpData)).

Definition count (k : KvalobsData PT) : nat :=
  ((getDataAll k not_a_date_time).1 + (getTextDataAll k not_a_date_time).1)%nat.

Definition countBy (k : KvalobsData PT) (stationid typeId : Z) (obstime : ptime PT) : nat :=
  let '(n, d) := getDataBy k stationid typeId not_a_date_time true in
  let '(m, td) := getTextDataBy k stationid typeId not_a_date_time true in
  if is_special obstime then (n + m)%nat
  else (length (default [] (c_find ptime_lt obstime d))
        + length (default [] (c_find ptime_lt obstime td)))%nat.

(** [stationInfos()]: station and type of every value, last first. *)
Definition stationInfos (k : KvalobsData PT) : list (Z * Z) :=
  let stInfo := foldl (fun m elem =>
      c_update Z.ltb (stationid_ elem) [] (c_update Z.ltb (typeid_ elem) 0%nat S) m)
    [] (data k [] false not_a_date_time) in
  rev (stInfo ≫= fun sid => (fun tid => (sid.1, tid.1)) <$> sid.2).

End container.

(** ** Lemmas *)

Section lemmas.
  Context {PT : PTime} {PL : PTimeLaws PT}.

(** A run of [push_back] groups a list by its times, in the order of the list. *)
Lemma push_back_groups {B} (time : B -> ptime PT) (l : list B) t :
  Forall (fun e => time_key (time e)) l -> time_key t ->
  let m := foldl (fun m e => push_back (time e) e m) [] l in
  c_wf time_key ptime_lt (fun _ => True) m /\
  default [] (c_find ptime_lt t m) = filter (fun e => time e = t) l.
Proof.
  intros Hl Ht. induction l as [|e l IH] using rev_ind; [split; [apply c_wf_nil|done]|].
  rewrite Forall_app, Forall_singleton in Hl. destruct Hl as [Hl He].
  specialize (IH Hl). rewrite foldl_app. simpl in *. destruct IH as [HW IH]. split.
  { by apply c_wf_update. }
  unfold push_back at 1. rewrite c_find_update by (done || apply HW).
  rewrite filter_app, filter_cons, filter_nil, <- IH.
  destruct (decide (time e = t)) as [<-|Hn]; simpl; [done|by rewrite app_nil_r].
Qed.

(** Counting while selecting. *)
Lemma foldl_select {B M} (p : B -> bool) (f : M -> B -> M) l n m :
  foldl (fun '(n, m) e => if p e then (n, m) else (S n, f m e)) (n, m) l =
    ((n + length (filter (fun e => p e = false) l))%nat,
     foldl f m (filter (fun e => p e = false) l)).
Proof.
  revert n m. induction l as [|e l IH]; intros n m; simpl; [by rewrite Nat.add_0_r|].
  rewrite filter_cons. destruct (p e) eqn:E.
  - rewrite decide_False by congruence. by rewrite IH.
  - rewrite decide_True by done. rewrite IH. simpl. f_equal. lia.
Qed.

Lemma foldl_count {B M} (f : M -> B -> M) l n m :
  foldl (fun '(n, m) e => (S n, f m e)) (n, m) l = ((n + length l)%nat, foldl f m l).
Proof.
  revert n m. induction l as [|e l IH]; intros n m; simpl; [by rewrite Nat.add_0_r|].
  rewrite IH. f_equal. lia.
Qed.

Lemma fmap_bind {A B C} (g : B -> C) (f : A -> list B) l :
  g <$> (l ≫= f) = l ≫= fun x => g <$> f x.
Proof.
  induction l as [|x l IH]; [done|]. by rewrite !bind_cons, fmap_app, IH.
Qed.

(** A fixed time of arrival replaces the stored one and nothing else. *)
Lemma obs_items_set (obs : Observations PT) tb x :
  obs_items true tb obs = (fun d => with_tbtime d tb) <$> obs_items false x obs.
Proof.
  unfold obs_items, for_each_obs. rewrite fmap_bind. apply list_bind_ext; [|done]. intros s.
  rewrite fmap_bind. apply list_bind_ext; [|done]. intros t.
  rewrite fmap_bind. apply list_bind_ext; [|done]. intros o.
  rewrite fmap_bind. apply list_bind_ext; [|done]. intros tbt. unfold tb_items, sensor_items.
  rewrite fmap_bind. apply list_bind_ext; [|done]. intros sn.
  rewrite fmap_bind. apply list_bind_ext; [|done]. intros lv. unfold level_items.
  by rewrite <- list_fmap_compose.
Qed.

Lemma obs_text_items_set (obs : Observations PT) tb x :
  obs_text_items true tb obs =
    (fun d => kvTextData_set (tx_stationid_ d) (tx_obstime_ d) (tx_original_ d) (tx_paramid_ d) tb
                (tx_typeid_ d)) <$> obs_text_items false x obs.
Proof.
  unfold obs_text_items, for_each_obs. rewrite fmap_bind. apply list_bind_ext; [|done]. intros s.
  rewrite fmap_bind. apply list_bind_ext; [|done]. intros t.
  rewrite fmap_bind. apply list_bind_ext; [|done]. intros o.
  rewrite fmap_bind. apply list_bind_ext; [|done]. intros tbt. unfold tb_text_items.
  by rewrite <- list_fmap_compose.
Qed.

Lemma data_obstimes (k : KvalobsData PT) b tb :
  obs_wf (obs_ k) -> Forall (fun d => time_key (obstime_ d)) (data k [] b tb).
Proof.
  intros HW. unfold data. rewrite app_nil_l, Forall_forall. intros d. rewrite list_sort_perm.
  destruct b; [rewrite (obs_items_set _ _ tb), list_elem_of_fmap; intros (e & -> & He)|intros He];
    by apply obs_items_elem in He as [? _].
Qed.

Lemma text_data_obstimes (k : KvalobsData PT) b tb :
  obs_wf (obs_ k) -> Forall (fun d => time_key (tx_obstime_ d)) (text_data k [] b tb).
Proof.
  intros HW. unfold text_data. rewrite app_nil_l, Forall_forall. intros d. rewrite list_sort_perm.
  destruct b; [rewrite (obs_text_items_set _ _ tb), list_elem_of_fmap; intros (e & -> & He)
              |intros He];
    by apply obs_text_items_elem in He as [? _].
Qed.

Lemma other_obs_false (a b c d : Z) :
  negb (a =? b) || negb (c =? d) = false <-> a = b /\ c = d.
Proof. lia. Qed.

Definition of_obs (st ty : Z) (d : kvData PT) : Prop := stationid_ d = st /\ typeid_ d = ty.
Definition text_of_obs (st ty : Z) (d : kvTextData PT) : Prop :=
  tx_stationid_ d = st /\ tx_typeid_ d = ty.

#[export] Instance of_obs_dec st ty d : Decision (of_obs st ty d).
Proof. solve_decision. Defined.
#[export] Instance text_of_obs_dec st ty d : Decision (text_of_obs st ty d).
Proof. solve_decision. Defined.

Lemma getDataBy_eq (k : KvalobsData PT) st ty tb b :
  let l := filter (of_obs st ty) (data k [] b tb) in
  getDataBy k st ty tb b = (length l, foldl (fun m e => push_back (obstime_ e) e m) [] l).
Proof.
  unfold getDataBy. rewrite (foldl_select (fun e => negb (stationid_ e =? st) || negb (typeid_ e =? ty))
    (fun m e => push_back (obstime_ e) e m)). simpl.
  by rewrite (list_filter_iff _ (of_obs st ty)) by (intros; apply other_obs_false).
Qed.

Lemma getTextDataBy_eq (k : KvalobsData PT) st ty tb b :
  let l := filter (text_of_obs st ty) (text_data k [] b tb) in
  getTextDataBy k st ty tb b =
    (length l, foldl (fun m e => push_back (tx_obstime_ e) e m) [] l).
Proof.
  unfold getTextDataBy.
  rewrite (foldl_select (fun e => negb (tx_stationid_ e =? st) || negb (tx_typeid_ e =? ty))
    (fun m e => push_back (tx_obstime_ e) e m)). simpl.
  by rewrite (list_filter_iff _ (text_of_obs st ty)) by (intros; apply other_obs_false).
Qed.

Lemma Forall_filtered {A} (Q P : A -> Prop) {dec : forall x, Decision (P x)} l :
  Forall Q l -> Forall Q (filter P l).
Proof.
  rewrite !Forall_forall. intros H x. rewrite list_elem_of_filter. intros [_ Hx]. auto.
Qed.

Lemma getDataBy_find (k : KvalobsData PT) st ty tb b ot :
  obs_wf (obs_ k) -> time_key ot ->
  default [] (c_find ptime_lt ot (getDataBy k st ty tb b).2) =
    filter (fun d => obstime_ d = ot) (filter (of_obs st ty) (data k [] b tb)).
Proof.
  intros HW Hk. rewrite getDataBy_eq. apply push_back_groups; [|done].
  apply Forall_filtered, data_obstimes, HW.
Qed.

Lemma getTextDataBy_find (k : KvalobsData PT) st ty tb b ot :
  obs_wf (obs_ k) -> time_key ot ->
  default [] (c_find ptime_lt ot (getTextDataBy k st ty tb b).2) =
    filter (fun d => tx_obstime_ d = ot) (filter (text_of_obs st ty) (text_data k [] b tb)).
Proof.
  intros HW Hk. rewrite getTextDataBy_eq. apply push_back_groups; [|done].
  apply Forall_filtered, text_data_obstimes, HW.
Qed.
End lemmas.

(** ** Properties *)

Section properties.
  Context {PT : PTime} {PL : PTimeLaws PT}.

(** grouping. For one station and type the container returns, under every
    observation time, exactly the values of that observation in the order of
    [data], with how many there are in all; a fixed time of arrival replaces the
    stored ones and nothing else. The counts agree with the object's size. *)
Theorem getDataBy_spec (k : KvalobsData PT) (st ty : Z) (tb : ptime PT) (b : bool) (ot : ptime PT) :
  obs_wf (obs_ k) -> is_not_a_date_time ot = false ->
  default [] (c_find ptime_lt ot (getDataBy k st ty tb b).2) =
    filter (fun d => obstime_ d = ot) (filter (of_obs st ty) (data k [] b tb)) /\
  (getDataBy k st ty tb b).1 = length (filter (of_obs st ty) (data k [] b tb)) /\
  default [] (c_find ptime_lt ot (getTextDataBy k st ty tb b).2) =
    filter (fun d => tx_obstime_ d = ot) (filter (text_of_obs st ty) (text_data k [] b tb)) /\
  (getTextDataBy k st ty tb b).1 = length (filter (text_of_obs st ty) (text_data k [] b tb)) /\
  (forall d, d ∈ data k [] true tb <->
     exists e, e ∈ data k [] false tb /\ d = with_tbtime e tb) /\
  count k = size k.
Proof.
  intros HW Hk. split; [by apply getDataBy_find|]. split; [by rewrite getDataBy_eq|].
  split; [by apply getTextDataBy_find|]. split; [by rewrite getTextDataBy_eq|]. split.
  - intros d. unfold data. rewrite !app_nil_l, list_sort_perm, (obs_items_set _ _ tb),
      list_elem_of_fmap. split; intros (e & H1 & H2).
    + exists e. by rewrite list_sort_perm.
    + exists e. by rewrite list_sort_perm in H1.
  - unfold count, getDataAll, getTextDataAll. rewrite !foldl_count. simpl.
    unfold data, text_data. rewrite !list_sort_perm. symmetry. apply Observations_count_items.
Qed.

(** the search for one value. It finds the first value of the observation
    with this parameter, level and sensor, and only such values; the sensor is
    compared with the character itself, so in a container filled from values
    with the usual sensors no search with a digit for the sensor - the default
    ['0'] - finds anything. *)
Theorem getData1_spec (k : KvalobsData PT) (st ty p : Z) (ot : ptime PT) (s : ascii) (l : Z) :
  obs_wf (obs_ k) -> is_not_a_date_time ot = false ->
  getData1 k st ty p ot s l =
    List.find (fun d => (paramid_ d =? p) && (sensor_ d =? char_val s) && (level_ d =? l))
      (filter (fun d => obstime_ d = ot) (filter (of_obs st ty) (data k [] true not_a_date_time))) /\
  (forall d, getData1 k st ty p ot s l = Some d ->
     stationid_ d = st /\ typeid_ d = ty /\ obstime_ d = ot /\ paramid_ d = p /\
     sensor_ d = char_val s /\ level_ d = l) /\
  (forall data, k = KvalobsData_of data [] -> Forall kvData_ordered data ->
     char_0 <= char_val s -> getData1 k st ty p ot s l = None).
Proof.
  intros HW Hk.
  assert (E : getData1 k st ty p ot s l =
    List.find (fun d => (paramid_ d =? p) && (sensor_ d =? char_val s) && (level_ d =? l))
      (filter (fun d => obstime_ d = ot) (filter (of_obs st ty) (data k [] true not_a_date_time)))).
  { unfold getData1. rewrite <- (getDataBy_find k st ty _ true ot HW Hk), getDataBy_eq. simpl.
    destruct (filter (of_obs st ty) (data k [] true not_a_date_time)); done. }
  assert (Hall : forall d, getData1 k st ty p ot s l = Some d ->
     (stationid_ d = st /\ typeid_ d = ty /\ obstime_ d = ot /\ paramid_ d = p /\
     sensor_ d = char_val s /\ level_ d = l) /\ d ∈ data k [] true not_a_date_time).
  { rewrite E. intros d Hd. apply find_some in Hd as [Hd Hb].
    apply list_elem_of_In, list_elem_of_filter in Hd as [Hot Hd].
    apply list_elem_of_filter in Hd as [[Hs Ht] Hd]. split; [|done]. repeat (split; [done|]). lia. }
  split; [done|]. split; [by intros d [? _]%Hall|]. intros l0 -> Hl Hs.
  destruct (getData1 _ _ _ _ _ _ _) as [d|] eqn:Ed; [exfalso|done].
  destruct (Hall d eq_refl) as [(_ & _ & _ & _ & Hsn & _) Hd]. unfold data in Hd.
  rewrite app_nil_l, list_sort_perm, (obs_items_set _ _ not_a_date_time), KvalobsData_of_obs,
    list_elem_of_fmap in Hd. destruct Hd as (e & -> & He).
  apply obs_of_items in He as (e' & He & ->); [|done]. apply last_filter_Some in He as [_ He].
  rewrite Forall_forall in Hl. destruct (Hl _ He) as [Hok _].
  unfold sensor_ok, plain_sensor, char_0 in *. simpl in Hsn. unfold plain_sensor, char_0 in Hsn.
  case_match; lia.
Qed.
End properties.

(** ** Instances *)

Lemma getDataBy_spec_witness :
  let k := KvalobsData_of [sample_data 2 0 0 0; sample_data 3 0 0 0] [] in
  (getDataBy k 18700 501 t605 false).1 = 2%nat /\ count k = 2%nat.
Proof.
  intros k. assert (obs_wf (obs_ k)) as HW
    by (unfold k; rewrite KvalobsData_of_obs; apply obs_of_wf; repeat constructor).
  destruct (getDataBy_spec k 18700 501 t605 false t6 HW eq_refl) as (_ & H1 & _ & _ & _ & H2).
  rewrite H1, H2. split; vm_compute; reflexivity.
Defined.

Lemma getData1_spec_witness :
  let k := KvalobsData_of [sample_data 48 0 0 0] [] in
  size k = 1%nat /\ getData1 k 18700 501 211 t6 "0" 0 = None.
Proof.
  intros k. assert (obs_wf (obs_ k)) as HW
    by (unfold k; rewrite KvalobsData_of_obs; apply obs_of_wf; repeat constructor).
  split; [vm_compute; reflexivity|].
  destruct (getData1_spec k 18700 501 211 t6 "0" 0 HW eq_refl) as (_ & _ & H).
  refine (H [sample_data 48 0 0 0] eq_refl _ _); [|vm_compute; congruence].
  repeat constructor; vm_compute; congruence.
Defined.
