(* ===== verification/Sql.v ===== *)
(** * SQL literals: [kvDbBase] and [Observation] (src/src/lib/kvalobs)

    How strings, numbers and times become part of a statement
    ([kvDbBase::quoted], and [Q] of observation.cc), and how a server reads a
    quoted literal: with backslash escapes, or without (the setting
    standard_conforming_strings). *)

From stdpp Require Import pretty.
From S2P Require Import Prelude Orders PTime.

#[local] Open Scope Z_scope.

Definition squote : ascii := char_of 39.
Definition dquote : ascii := char_of 34.
Definition backslash : ascii := char_of 92.

(** A C string ends at its first NUL. *)
Fixpoint c_str (b : bytes) : bytes :=
  match b with
  | [] => []
  | c :: r => if bool_decide (c = zero) then [] else c :: c_str r
  end.

(** The switch of [spc_escape_sql]. *)
Definition esc_char (quote : ascii) (wildcards : bool) (c : ascii) : bytes :=
  if bool_decide (c = squote) || bool_decide (c = dquote) then
    (if bool_decide (quote = c) then [c] else []) ++ [c]
  else if bool_decide (c ∈ ["%"; "_"; "["; "]"]%char) then
    (if wildcards then [backslash] else []) ++ [c]
  else if bool_decide (c = backslash) then [backslash; backslash]
  else if uchar_val c =? 8 then [backslash; "b"%char]
  else if uchar_val c =? 10 then [backslash; "n"%char]
  else if uchar_val c =? 13 then [backslash; "r"%char]
  else if uchar_val c =? 9 then [backslash; "t"%char]
  else [c].

Definition spc_escape_sql (input : bytes) (quote : ascii) (wildcards : bool) : bytes :=
  if negb (bool_decide (quote = squote)) && negb (bool_decide (quote = dquote)) then []
  else if INT_MAX - 3 <? Z.of_nat (length (c_str input)) then []
  else quote :: (c_str input ≫= esc_char quote wildcards) ++ [quote].

Definition escapeSql (toEsc : bytes) : bytes := spc_escape_sql toEsc squote false.

(** [quoted(const int &)]; [pretty] writes a number in decimal. *)
Definition quoted_int (i : Z) : bytes := [squote] ++ to_bytes (pretty i) ++ [squote].

Definition quoted (s : bytes) : bytes := escapeSql s.

(** [quoted(const ptime &)]; the text of the time is a parameter. *)
Definition quoted_time {PT : PTime} (to_kvalobs_string : ptime PT -> bytes) (t : ptime PT) : bytes :=
  if is_not_a_date_time t then to_bytes "NULL"
  else [squote] ++ to_kvalobs_string t ++ [squote].

(** [Q] of observation.cc: a string that is in quotes already is left alone. *)
Definition Q (s : bytes) : bytes :=
  if (2 <=? length s)%nat && bool_decide (s !! 0%nat = Some squote)
     && bool_decide (s !! (length s - 1)%nat = Some squote)
  then s else [squote] ++ s ++ [squote].

(** ** Reading a literal

    The rest of a literal after its opening quote [q]: the value and what follows
    the closing quote, or [None] when the literal does not end. [escapes] tells
    whether a backslash is special. *)
Definition unescape (c : ascii) : ascii :=
  if bool_decide (c = "b"%char) then char_of 8
  else if bool_decide (c = "n"%char) then char_of 10
  else if bool_decide (c = "r"%char) then char_of 13
  else if bool_decide (c = "t"%char) then char_of 9
  else c.

Fixpoint read_literal (escapes : bool) (q : ascii) (b : bytes) : option (bytes * bytes) :=
  match b with
  | [] => None
  | c :: r =>
      if bool_decide (c = q) then
        match r with
        | c' :: r' =>
            if bool_decide (c' = q)
            then (fun p => (q :: p.1, p.2)) <$> read_literal escapes q r'
            else Some ([], r)
        | [] => Some ([], [])
        end
      else if escapes && bool_decide (c = backslash) then
        match r with
        | [] => None
        | c' :: r' => (fun p => (unescape c' :: p.1, p.2)) <$> read_literal escapes q r'
        end
      else (fun p => (c :: p.1, p.2)) <$> read_literal escapes q r
  end.

(** The value of a text that is one literal in single quotes. *)
Definition literal_value (escapes : bool) (b : bytes) : option bytes :=
  match b with
  | c :: r =>
      if bool_decide (c = squote) then
        match read_literal escapes squote r with
        | Some (v, []) => Some v
        | _ => None
        end
      else None
  | [] => None
  end.

(** ** Lemmas *)

Lemma c_str_no_nul b : Forall (fun c => c <> zero) (c_str b).
Proof. induction b as [|c b IH]; simpl; [constructor|]. case_bool_decide; by constructor. Qed.

Lemma c_str_id b : Forall (fun c => c <> zero) b -> c_str b = b.
Proof.
  intros H. induction H as [|c b Hc Hb IH]; simpl; [done|].
  rewrite bool_decide_false by done. by rewrite IH.
Qed.

(** The escape of one character is a doubled quote, a backslash and a letter, or
    the plain character. *)
Lemma esc_char_cases (q : ascii) c :
  q = squote \/ q = dquote ->
  (esc_char q false c = [q; q] /\ c = q) \/
  (exists d, esc_char q false c = [backslash; d] /\ unescape d = c /\ d <> q /\ c <> q) \/
  (esc_char q false c = [c] /\ c <> q /\ c <> backslash).
Proof.
  intros Hq. assert (Hall : forall c : ascii,
    (esc_char q false c = [q; q] /\ c = q) \/
    (esc_char q false c = [backslash; nth 1 (esc_char q false c) zero] /\
     unescape (nth 1 (esc_char q false c) zero) = c /\
     nth 1 (esc_char q false c) zero <> q /\ c <> q) \/
    (esc_char q false c = [c] /\ c <> q /\ c <> backslash)).
  2: { destruct (Hall c) as [?|[(?&?&?&?)|?]]; eauto 8. }
  clear c. destruct Hq as [-> | ->]; intros [[|] [|] [|] [|] [|] [|] [|] [|]];
    refine (bool_decide_unpack _ _); vm_compute; exact I.
Qed.

Lemma quote_not_backslash q : q = squote \/ q = dquote -> q <> backslash.
Proof. by intros [-> | ->]. Qed.

Lemma read_esc_char (q : ascii) c r :
  q = squote \/ q = dquote ->
  read_literal true q (esc_char q false c ++ r) =
    (fun p => (c :: p.1, p.2)) <$> read_literal true q r.
Proof.
  intros Hq. pose proof (quote_not_backslash q Hq).
  destruct (esc_char_cases q c Hq) as [[-> ->]|[(d & -> & <- & _ & _)|(-> & H1 & H2)]]; simpl.
  - by rewrite !bool_decide_true.
  - rewrite bool_decide_false by done. done.
  - by rewrite !bool_decide_false.
Qed.

(** The value when backslashes are not special. *)
Definition std_char (q c : ascii) : bytes :=
  if bool_decide (c = q) then [c] else esc_char q false c.

Lemma read_std_char (q : ascii) c r :
  q = squote \/ q = dquote ->
  read_literal false q (esc_char q false c ++ r) =
    (fun p => (std_char q c ++ p.1, p.2)) <$> read_literal false q r.
Proof.
  intros Hq. pose proof (quote_not_backslash q Hq). unfold std_char.
  destruct (esc_char_cases q c Hq) as [[-> ->]|[(d & -> & Hc & Hd & Hn)|(-> & H1 & H2)]]; simpl.
  - by rewrite !bool_decide_true.
  - rewrite (bool_decide_false (c = q)), (bool_decide_false (backslash = q)) by done. simpl.
    rewrite (bool_decide_false (d = q)) by done. by destruct (read_literal false q r) as [[]|].
  - rewrite !bool_decide_false by done. done.
Qed.

Lemma read_escaped (q : ascii) b r :
  q = squote \/ q = dquote -> (forall r', r <> q :: r') ->
  read_literal true q ((b ≫= esc_char q false) ++ q :: r) = Some (b, r) /\
  read_literal false q ((b ≫= esc_char q false) ++ q :: r) = Some (b ≫= std_char q, r).
Proof.
  intros Hq Hr. induction b as [|c b [IH1 IH2]].
  - simpl. rewrite !bool_decide_true by done. destruct r as [|c r]; [done|].
    rewrite !bool_decide_false by (intros ->; by apply (Hr r)). done.
  - rewrite !bind_cons, <- !app_assoc, read_esc_char, read_std_char, IH1, IH2 by done. done.
Qed.

Lemma std_char_plain (q c : ascii) :
  q = squote \/ q = dquote ->
  std_char q c = [c] <-> c = q \/ esc_char q false c = [c].
Proof.
  intros Hq. unfold std_char. case_bool_decide; [tauto|]. split; [by right|].
  by intros [?|?].
Qed.

(** ** Properties *)

(** escaping is safe and, for a server that reads backslash escapes, exact.
    A string within the length limit becomes one literal, whatever follows it in
    the statement: reading it back gives the string up to its first NUL and the
    rest of the statement untouched. For a server that does not read backslash
    escapes it is one literal as well, with the same value when the string has
    no backslash, backspace, newline, carriage return or tab. *)
Theorem escapeSql_literal (s rest : bytes) :
  Z.of_nat (length (c_str s)) <= INT_MAX - 3 -> (forall r, rest <> squote :: r) ->
  (exists body, escapeSql s ++ rest = squote :: body /\
    read_literal true squote body = Some (c_str s, rest) /\
    (exists v, read_literal false squote body = Some (v, rest) /\
       (Forall (fun c => c <> backslash /\ ~ (uchar_val c ∈ [8; 10; 13; 9])) (c_str s) ->
        v = c_str s))) /\
  (Forall (fun c => c <> zero) s -> literal_value true (escapeSql s) = Some s).
Proof.
  intros Hlen Hrest.
  assert (E : escapeSql s = squote :: (c_str s ≫= esc_char squote false) ++ [squote]).
  { unfold escapeSql, spc_escape_sql. rewrite bool_decide_true by done. simpl.
    by destruct (Z.ltb_spec (INT_MAX - 3) (Z.of_nat (length (c_str s)))); [lia|]. }
  split.
  - eexists. rewrite E. split; [simpl; rewrite <- app_assoc; reflexivity|].
    destruct (read_escaped squote (c_str s) rest (or_introl eq_refl) Hrest) as [H1 H2].
    split; [exact H1|]. eexists. split; [exact H2|].
    intros H. clear -H. induction H as [|c b [Hb Hc] H IH]; [done|].
    rewrite bind_cons, IH. assert (std_char squote c = [c]) as ->; [|done].
    apply std_char_plain; [by left|].
    destruct (esc_char_cases squote c (or_introl eq_refl)) as [[_ ->]|[(d & Hd & He & _)|(? & _)]];
      [by left|exfalso|by right].
    clear H IH. destruct c as [[|] [|] [|] [|] [|] [|] [|] [|]]; vm_compute in Hd; try discriminate;
      first [by apply Hb|apply Hc; vm_compute; set_solver].
  - intros Hs. rewrite E, c_str_id by done. unfold literal_value. rewrite bool_decide_true by done.
    destruct (read_escaped squote s [] (or_introl eq_refl) ltac:(done)) as [H1 _].
    by rewrite H1.
Qed.

Lemma escapeSql_literal_witness :
  let s := to_bytes "O'Neill \ 5%" in
  literal_value true (escapeSql s) = Some s /\
  read_literal false squote (drop 1 (escapeSql s ++ to_bytes ", 1)")) =
    Some (to_bytes "O'Neill \\ 5%", to_bytes ", 1)").
Proof.
  intros s. split; [|vm_compute; reflexivity].
  apply (escapeSql_literal s []); [vm_compute; congruence|done|].
  unfold s. simpl. repeat (constructor; [discriminate|]). constructor.
Defined.

(** ** Strings that [Q] puts in quotes *)

Lemma read_literal_plain s r :
  squote ∉ s -> (forall r', r <> squote :: r') ->
  read_literal false squote (s ++ squote :: r) = Some (s, r).
Proof.
  intros Hs Hr. induction s as [|c s IH]; simpl.
  - destruct r as [|c r]; [done|]. rewrite bool_decide_false by (intros ->; by apply (Hr r)). done.
  - apply not_elem_of_cons in Hs as [Hc Hs]. rewrite bool_decide_false by congruence.
    by rewrite (IH Hs).
Qed.

Lemma literal_value_plain s :
  squote ∉ s -> literal_value false ([squote] ++ s ++ [squote]) = Some s.
Proof.
  intros Hs. unfold literal_value. simpl.
  by rewrite read_literal_plain.
Qed.

Lemma Q_plain s : squote ∉ s -> Q s = [squote] ++ s ++ [squote].
Proof.
  intros Hs. unfold Q. rewrite (bool_decide_false (s !! 0%nat = Some squote)).
  2: { intros H. apply Hs. by apply list_elem_of_lookup_2 in H. }
  by rewrite andb_false_r.
Qed.

(** A quote inside the string ends the literal early. *)
Lemma Q_does_not_escape :
  literal_value false (Q (to_bytes "it's")) = None /\
  read_literal false squote (drop 1 (Q (to_bytes "it's"))) =
    Some (to_bytes "it", to_bytes "s'").
Proof. split; vm_compute; reflexivity. Qed.
