(* ===== verification/Database.v ===== *)
(** * The tables and the statements on them

    The tables of kvalobs_schema.sql that the decoders write, and the SQL
    statements of observation.cc and DataUpdateTransaction.cc as functions on
    them: the unique and foreign keys raise an error, deleting an observation
    deletes what refers to it. A statement runs inside the caller's transaction,
    so an error leaves no state behind. The histories of values and texts, which only
    triggers write and no program here reads, are left out; [KvalobsDb.v] keeps the
    one that the updates of the quality control add to.

    What the server and its client library do with a value on its way to a column
    and back is not part of the repository: [DbText] names it. *)

From S2P Require Import Prelude Orders PTime Sql.

(** The exceptions of the C++ code, and its steps without a defined meaning. *)
Inductive db_error := SQLException | logic_error | undefined_behaviour.

#[export] Instance db_error_eq_dec : EqDecision db_error.
Proof. solve_decision. Defined.

Class DbText (PT : PTime) := {
  (** a number written to a statement, stored as FLOAT and read with "%f" *)
  db_number : spec_float -> spec_float;
  (** a time written with [to_kvalobs_string], stored and read back *)
  db_time : ptime PT -> ptime PT;
  (** [Connection::esc] *)
  db_esc : bytes -> bytes
}.

(** Documented behaviour: the client library's escape is the inverse of the
    server's reading of a literal, and a time point is stored as a time point. *)
Class DbTextLaws {PT : PTime} (DT : DbText PT) := {
  db_esc_literal s : literal_value false ([squote] ++ db_esc s ++ [squote]) = Some s;
  db_time_special t : is_special t = false -> is_special (db_time t) = false;
  db_time_idem t : db_time (db_time t) = db_time t
}.

Section Database.
  Context {PT : PTime}.

(** ** Tables *)

Record ObsRow := {
  o_observationid : Z; o_stationid : Z; o_typeid : Z; o_obstime : ptime PT; o_tbtime : ptime PT
}.

Record DataRow := {
  d_observationid : Z; d_original : spec_float; d_paramid : Z; d_sensor : Z; d_level : Z;
  d_corrected : spec_float; d_controlinfo : string; d_useinfo : string; d_cfailed : string
}.

Record TextRow := { t_observationid : Z; t_original : string; t_paramid : Z }.

Record WorkRow := {
  w_observationid : Z; w_priority : Z; w_process_start : option (ptime PT);
  w_qa_start : option (ptime PT); w_qa_stop : option (ptime PT);
  w_service_start : option (ptime PT); w_service_stop : option (ptime PT); w_qa_id : option Z
}.

(** workstatistik: the columns of observations and of workque. *)
Record StatRow := { s_obs : ObsRow; s_work : WorkRow }.

Record PriorityRow := {
  p_stationid : Z; p_typeid : Z; p_priority : Z; p_hour : option Z; p_pri_after_hour : option Z
}.

Record tables := {
  observations : list ObsRow;
  obsdata : list DataRow;
  obstextdata : list TextRow;
  workque : list WorkRow;
  workstatistik : list StatRow;
  priority : list PriorityRow;
  observationid_seq : Z
}.

(** ** Programs on the tables *)

Definition M (A : Type) : Type := tables -> A * tables + db_error.

Definition ret {A} (x : A) : M A := fun t => inl (x, t).
Definition throw {A} (e : db_error) : M A := fun _ => inr e.
Definition bind {A B} (m : M A) (k : A -> M B) : M B :=
  fun t => match m t with inl (x, t') => k x t' | inr e => inr e end.
Definition query {A} (q : tables -> A) : M A := fun t => inl (q t, t).

(** ** Statements *)

Definition with_work (t : tables) (w : list WorkRow) (s : list StatRow) : tables :=
  {| observations := observations t; obsdata := obsdata t; obstextdata := obstextdata t;
     workque := w; workstatistik := s; priority := priority t;
     observationid_seq := observationid_seq t |}.

(** INSERT INTO observations: the sequence gives the id; it is also the answer of
    SELECT currval('observations_observationid_seq'). *)
Definition insert_observations (st ty : Z) (ot tb : ptime PT) : M Z := fun t =>
  if existsb (fun o => (o_stationid o =? st) && (o_typeid o =? ty) && bool_decide (o_obstime o = ot))
       (observations t)
  then inr SQLException
  else
    let id := observationid_seq t + 1 in
    inl (id, {| observations := observations t ++
                  [{| o_observationid := id; o_stationid := st; o_typeid := ty;
                      o_obstime := ot; o_tbtime := tb |}];
                obsdata := obsdata t; obstextdata := obstextdata t; workque := workque t;
                workstatistik := workstatistik t; priority := priority t;
                observationid_seq := id |}).

Definition has_observation (id : Z) (t : tables) : bool :=
  existsb (fun o => o_observationid o =? id) (observations t).

(** INSERT INTO obsdata. The sensor is CHAR(1). *)
Definition insert_obsdata (r : DataRow) : M unit := fun t =>
  if negb (has_observation (d_observationid r) t)
     || negb ((0 <=? d_sensor r) && (d_sensor r <=? 9))
     || existsb (fun d => (d_observationid d =? d_observationid r) && (d_paramid d =? d_paramid r)
                          && (d_level d =? d_level r) && (d_sensor d =? d_sensor r)) (obsdata t)
  then inr SQLException
  else inl (tt, {| observations := observations t; obsdata := obsdata t ++ [r];
                   obstextdata := obstextdata t; workque := workque t;
                   workstatistik := workstatistik t; priority := priority t;
                   observationid_seq := observationid_seq t |}).

(** INSERT INTO obstextdata. *)
Definition insert_obstextdata (r : TextRow) : M unit := fun t =>
  if negb (has_observation (t_observationid r) t)
     || existsb (fun d => (t_observationid d =? t_observationid r) && (t_paramid d =? t_paramid r))
          (obstextdata t)
  then inr SQLException
  else inl (tt, {| observations := observations t; obsdata := obsdata t;
                   obstextdata := obstextdata t ++ [r]; workque := workque t;
                   workstatistik := workstatistik t; priority := priority t;
                   observationid_seq := observationid_seq t |}).

(** DELETE FROM observations WHERE observationid=id, with the cascades. *)
Definition delete_observations (id : Z) : M unit := fun t =>
  inl (tt, {| observations := filter (fun o => o_observationid o <> id) (observations t);
              obsdata := filter (fun d => d_observationid d <> id) (obsdata t);
              obstextdata := filter (fun d => t_observationid d <> id) (obstextdata t);
              workque := filter (fun w => w_observationid w <> id) (workque t);
              workstatistik := workstatistik t; priority := priority t;
              observationid_seq := observationid_seq t |}).

(** INSERT INTO workque. *)
Definition insert_workque (r : WorkRow) : M unit := fun t =>
  if negb (has_observation (w_observationid r) t)
     || existsb (fun w => w_observationid w =? w_observationid r) (workque t)
  then inr SQLException
  else inl (tt, with_work t (workque t ++ [r]) (workstatistik t)).

(** SELECT ... FROM observations o RIGHT JOIN obsdata d ... WHERE o.stationid=..:
    the data of the observation with this station, type and time. *)
Definition obs_match (st ty : Z) (ot : ptime PT) (o : ObsRow) : Prop :=
  o_stationid o = st /\ o_typeid o = ty /\ o_obstime o = ot.

#[export] Instance obs_match_dec st ty ot o : Decision (obs_match st ty ot o).
Proof. solve_decision. Defined.

Definition select_data (P : ObsRow -> Prop) `{!forall o, Decision (P o)} (t : tables)
  : list (ObsRow * DataRow) :=
  obsdata t ≫= fun d =>
    (fun o => (o, d)) <$> filter (fun o => o_observationid o = d_observationid d /\ P o)
                            (observations t).

Definition select_textdata (P : ObsRow -> Prop) `{!forall o, Decision (P o)} (t : tables)
  : list (ObsRow * TextRow) :=
  obstextdata t ≫= fun d =>
    (fun o => (o, d)) <$> filter (fun o => o_observationid o = t_observationid d /\ P o)
                            (observations t).

Definition select_observations (P : ObsRow -> Prop) `{!forall o, Decision (P o)} (t : tables)
  : list ObsRow := filter P (observations t).

(** SELECT observationid FROM workque WHERE observationid=id AND qa_stop IS NULL. *)
Definition select_unprocessed (id : Z) (t : tables) : list WorkRow :=
  filter (fun w => w_observationid w = id /\ w_qa_stop w = None) (workque t).

(** INSERT INTO workstatistik SELECT ... FROM workque q, observations o WHERE ...:
    the processed elements of the observation that are not there yet. *)
Definition insert_workstatistik (id : Z) : M unit := fun t =>
  inl (tt, with_work t (workque t) (workstatistik t ++
    (workque t ≫= fun q =>
      if bool_decide (w_observationid q = id /\ w_qa_stop q <> None) &&
         negb (existsb (fun s => w_observationid (s_work s) =? w_observationid q) (workstatistik t))
      then (fun o => {| s_obs := o; s_work := q |}) <$>
             filter (fun o => o_observationid o = w_observationid q) (observations t)
      else []))).

(** DELETE FROM workque WHERE observationid=id AND qa_stop IS NOT NULL. *)
Definition delete_processed (id : Z) : M unit := fun t =>
  inl (tt, with_work t
    (filter (fun w => ~ (w_observationid w = id /\ w_qa_stop w <> None)) (workque t))
    (workstatistik t)).

(** (SELECT * FROM priority WHERE stationid=.. AND typeid=abs(..) UNION SELECT *
    FROM priority WHERE stationid=0 AND typeid=abs(..)) ORDER BY stationid DESC
    LIMIT 1. *)
Definition select_priority (st ty : Z) (t : tables) : option PriorityRow :=
  foldl (fun best p =>
           match best with
           | Some b => if p_stationid b <? p_stationid p then Some p else best
           | None => Some p
           end) None
    (filter (fun p => (p_stationid p = st \/ p_stationid p = 0) /\ p_typeid p = Z.abs ty)
       (priority t)).

(** ** The constraints of the schema *)

Definition obs_key (o : ObsRow) : Z * Z * ptime PT := (o_stationid o, o_typeid o, o_obstime o).
Definition data_key (d : DataRow) : Z * Z * Z * Z :=
  (d_observationid d, d_paramid d, d_level d, d_sensor d).
Definition text_key (d : TextRow) : Z * Z := (t_observationid d, t_paramid d).

Definition obs_ids (t : tables) : list Z := o_observationid <$> observations t.

Record tables_wf (t : tables) : Prop := {
  wf_ids : NoDup (obs_ids t);
  wf_seq : Forall (fun id => 0 < id <= observationid_seq t) (obs_ids t);
  wf_seq_pos : 0 <= observationid_seq t;
  wf_keys : NoDup (obs_key <$> observations t);
  wf_data : Forall (fun d => d_observationid d ∈ obs_ids t) (obsdata t);
  wf_data_keys : NoDup (data_key <$> obsdata t);
  wf_text : Forall (fun d => t_observationid d ∈ obs_ids t) (obstextdata t);
  wf_text_keys : NoDup (text_key <$> obstextdata t);
  wf_work : Forall (fun w => w_observationid w ∈ obs_ids t) (workque t);
  wf_work_keys : NoDup (w_observationid <$> workque t)
}.

(** ** Lemmas: the statements keep the constraints *)

Lemma has_observation_elem id t : has_observation id t = true <-> id ∈ obs_ids t.
Proof.
  unfold has_observation, obs_ids. rewrite existsb_exists, list_elem_of_fmap. split.
  - intros (o & Hin & He). exists o. split; [lia|by apply list_elem_of_In].
  - intros (o & -> & Hin). exists o. split; [by apply list_elem_of_In|lia].
Qed.

Lemma existsb_false {A} (p : A -> bool) l : existsb p l = false <-> Forall (fun x => p x = false) l.
Proof.
  induction l as [|x l IH]; simpl; [by split|]. rewrite orb_false_iff, Forall_cons, IH. done.
Qed.

Lemma NoDup_snoc {A} (l : list A) x : NoDup (l ++ [x]) <-> NoDup l /\ x ∉ l.
Proof.
  rewrite NoDup_app. split.
  - intros (H1 & H2 & _). split; [done|]. intros Hx. apply (H2 x Hx). by left.
  - intros [H1 H2]. split; [done|]. split; [|repeat constructor; apply not_elem_of_nil].
    intros y Hy ->%list_elem_of_singleton. done.
Qed.

(** A key that no row has. *)
Lemma not_key {A K} (key : A -> K) l k : Forall (fun x => key x <> k) l -> k ∉ key <$> l.
Proof.
  rewrite Forall_forall. intros H (x & -> & Hx)%list_elem_of_fmap. by apply (H x).
Qed.

Lemma insert_observations_wf st ty ot tb t id t' :
  tables_wf t -> insert_observations st ty ot tb t = inl (id, t') -> tables_wf t'.
Proof.
  intros [] H. unfold insert_observations in H. destruct (existsb _ _) eqn:E; [done|].
  injection H as <- <-. apply existsb_false in E.
  split; simpl; unfold obs_ids; simpl; rewrite ?fmap_app; simpl; try done; try lia.
  - apply NoDup_snoc. split; [done|]. intros Hin. rewrite Forall_forall in wf_seq0.
    specialize (wf_seq0 _ Hin). lia.
  - apply Forall_app. split; [|repeat constructor; lia].
    eapply Forall_impl; [exact wf_seq0|]. simpl. lia.
  - apply NoDup_snoc. split; [done|]. apply not_key. eapply Forall_impl; [exact E|].
    intros o Ho He. unfold obs_key in He. simpl in *. injection He as H1 H2 H3.
    rewrite H1, H2, H3, !Z.eqb_refl, bool_decide_true in Ho by done. done.
  - eapply Forall_impl; [exact wf_data0|]. intros d Hd. apply elem_of_app. by left.
  - eapply Forall_impl; [exact wf_text0|]. intros d Hd. apply elem_of_app. by left.
  - eapply Forall_impl; [exact wf_work0|]. intros d Hd. apply elem_of_app. by left.
Qed.

Lemma insert_obsdata_wf r t u t' :
  tables_wf t -> insert_obsdata r t = inl (u, t') -> tables_wf t'.
Proof.
  intros [] H. unfold insert_obsdata in H. destruct (_ || _) eqn:E; [done|].
  injection H as <- <-. apply orb_false_iff in E as [[E1 _]%orb_false_iff E2].
  apply negb_false_iff, has_observation_elem in E1. apply existsb_false in E2.
  split; simpl; try done; rewrite ?fmap_app.
  - apply Forall_app. split; [done|]. repeat constructor. exact E1.
  - apply NoDup_snoc. split; [done|]. apply not_key. eapply Forall_impl; [exact E2|].
    intros d Hd He. unfold data_key in He. injection He as H1 H2 H3 H4. simpl in *. lia.
Qed.

Lemma insert_obstextdata_wf r t u t' :
  tables_wf t -> insert_obstextdata r t = inl (u, t') -> tables_wf t'.
Proof.
  intros [] H. unfold insert_obstextdata in H. destruct (_ || _) eqn:E; [done|].
  injection H as <- <-. apply orb_false_iff in E as [E1 E2].
  apply negb_false_iff, has_observation_elem in E1. apply existsb_false in E2.
  split; simpl; try done; rewrite ?fmap_app.
  - apply Forall_app. split; [done|]. repeat constructor. exact E1.
  - apply NoDup_snoc. split; [done|]. apply not_key. eapply Forall_impl; [exact E2|].
    intros d Hd He. unfold text_key in He. injection He as H1 H2. simpl in *. lia.
Qed.

Lemma insert_workque_wf r t u t' :
  tables_wf t -> insert_workque r t = inl (u, t') -> tables_wf t'.
Proof.
  intros [] H. unfold insert_workque in H. destruct (_ || _) eqn:E; [done|].
  injection H as <- <-. apply orb_false_iff in E as [E1 E2].
  apply negb_false_iff, has_observation_elem in E1. apply existsb_false in E2.
  split; simpl; try done; rewrite ?fmap_app.
  - apply Forall_app. split; [done|]. repeat constructor. exact E1.
  - apply NoDup_snoc. split; [done|]. apply not_key. eapply Forall_impl; [exact E2|].
    intros d Hd He. simpl in *. lia.
Qed.

(** Selecting rows keeps keys unique. *)
Lemma NoDup_filter_key {A K} (key : A -> K) (P : A -> Prop) {dec : forall x, Decision (P x)} l :
  NoDup (key <$> l) -> NoDup (key <$> filter P l).
Proof.
  induction l as [|x l IH]; simpl; [done|]. rewrite NoDup_cons. intros [H1 H2].
  rewrite filter_cons. case_decide; [|by apply IH]. simpl. apply NoDup_cons. split; [|by apply IH].
  intros (y & Hy & Hin)%list_elem_of_fmap. apply H1. rewrite Hy.
  apply list_elem_of_fmap_2. by apply list_elem_of_filter in Hin as [_ ?].
Qed.

Lemma delete_cascade {A} (key : A -> Z) id (l : list A) (ids ids' : list Z) :
  (forall x, x ∈ ids -> x <> id -> x ∈ ids') ->
  Forall (fun x => key x ∈ ids) l -> Forall (fun x => key x ∈ ids') (filter (fun x => key x <> id) l).
Proof.
  rewrite !Forall_forall. intros H HF x [Hx Hin]%list_elem_of_filter. auto.
Qed.

Lemma delete_observations_wf id t u t' :
  tables_wf t -> delete_observations id t = inl (u, t') -> tables_wf t'.
Proof.
  intros [] [= <- <-]. split; simpl; try done; try (by apply NoDup_filter_key).
  - rewrite Forall_forall in *. intros x (o & -> & [_ Ho]%list_elem_of_filter)%list_elem_of_fmap.
    apply wf_seq0. by apply list_elem_of_fmap_2.
  - eapply delete_cascade; [|exact wf_data0]. unfold obs_ids. simpl.
    intros x (o & -> & Ho)%list_elem_of_fmap Hn. apply list_elem_of_fmap_2.
    by apply list_elem_of_filter.
  - eapply delete_cascade; [|exact wf_text0]. unfold obs_ids. simpl.
    intros x (o & -> & Ho)%list_elem_of_fmap Hn. apply list_elem_of_fmap_2.
    by apply list_elem_of_filter.
  - eapply delete_cascade; [|exact wf_work0]. unfold obs_ids. simpl.
    intros x (o & -> & Ho)%list_elem_of_fmap Hn. apply list_elem_of_fmap_2.
    by apply list_elem_of_filter.
Qed.

Lemma insert_workstatistik_wf id t u t' :
  tables_wf t -> insert_workstatistik id t = inl (u, t') -> tables_wf t'.
Proof. intros [] [= <- <-]. by split. Qed.

Lemma delete_processed_wf id t u t' :
  tables_wf t -> delete_processed id t = inl (u, t') -> tables_wf t'.
Proof.
  intros [] [= <- <-]. split; simpl; try done; [|by apply NoDup_filter_key].
  rewrite Forall_forall in *. intros w [_ Hw]%list_elem_of_filter. by apply wf_work0.
Qed.

End Database.

Arguments tables : clear implicits.
Arguments M : clear implicits.
Arguments M {PT} A.

Declare Scope db_scope.
Delimit Scope db_scope with db.
Notation "'let*' x := m 'in' k" := (bind m (fun x => k))
  (at level 10, x pattern, m at level 100, k at level 200) : db_scope.
Notation "m ;;; k" := (bind m (fun _ => k)) (at level 100, right associativity) : db_scope.

(** ** An instance: quotes are doubled, numbers and times are kept *)

Definition double_quotes (s : bytes) : bytes :=
  s ≫= fun c => if bool_decide (c = squote) then [c; c] else [c].

Lemma double_quotes_literal s :
  literal_value false ([squote] ++ double_quotes s ++ [squote]) = Some s.
Proof.
  unfold literal_value. simpl. assert (read_literal false squote (double_quotes s ++ [squote]) =
    Some (s, [])) as ->; [|done].
  induction s as [|c s IH]; [done|]. unfold double_quotes in *. rewrite bind_cons.
  case_bool_decide as E; [subst c|]; simpl in *.
  - by rewrite IH.
  - by rewrite bool_decide_false, IH.
Qed.

#[export] Instance stamp_text : DbText stamp_time :=
  {| db_number := fun v => v; db_time := fun t : ptime stamp_time => t; db_esc := double_quotes |}.

#[export] Instance stamp_text_laws : DbTextLaws stamp_text.
Proof. split; [apply double_quotes_literal|done|done]. Qed.

Definition empty_tables : tables stamp_time :=
  {| observations := []; obsdata := []; obstextdata := []; workque := []; workstatistik := [];
     priority := []; observationid_seq := 0 |}.

Lemma empty_tables_wf : tables_wf empty_tables.
Proof. split; simpl; (done || constructor). Qed.
