(* ===== verification/Observation.v ===== *)
(** * [Observation]: the values of one observation in the database
      (src/src/lib/kvalobs/observation.cc)

    Reading an observation from the tables and writing it to them. The rows of a
    query are records; what the text of a column loses on the way is in [DbText].
    The clock is an argument. *)

From S2P Require Import Prelude Orders PTime DataFlag ControlInfo UseInfo KvData Sql Database.

#[local] Open Scope db_scope.
#[local] Open Scope Z_scope.

Section Observation.
  Context {PT : PTime} {DT : DbText PT}.

Record Observation := {
  hasObservationid_ : bool;
  observationid_ : Z;
  ob_stationid : Z;
  ob_typeid : Z;
  ob_obstime : ptime PT;
  ob_tbtime : ptime PT;
  data_ : list (kvData PT);
  textData_ : list (kvTextData PT)
}.

Definition Observation_new : Observation :=
  {| hasObservationid_ := false; observationid_ := 0; ob_stationid := 0; ob_typeid := 0;
     ob_obstime := not_a_date_time; ob_tbtime := not_a_date_time; data_ := []; textData_ := [] |}.

(** [set(stationId, typeId, obt, tbt, data, textData)], also the constructor. *)
Definition Observation_set (st ty : Z) (obt tbt : ptime PT) (d : list (kvData PT))
    (td : list (kvTextData PT)) : Observation :=
  {| hasObservationid_ := false; observationid_ := 0; ob_stationid := st; ob_typeid := ty;
     ob_obstime := obt; ob_tbtime := tbt; data_ := d; textData_ := td |}.

Definition totSize (o : Observation) : nat := (length (data_ o) + length (textData_ o))%nat.

(** ** Reading *)

(** The members that the first row with a column fills in. *)
Definition fill_obs (r : ObsRow) (o : Observation) : Observation :=
  {| hasObservationid_ := true;
     observationid_ := if hasObservationid_ o then observationid_ o else o_observationid r;
     ob_stationid := if ob_stationid o =? 0 then o_stationid r else ob_stationid o;
     ob_typeid := if ob_typeid o =? 0 then o_typeid r else ob_typeid o;
     ob_obstime := if is_special (ob_obstime o) then o_obstime r else ob_obstime o;
     ob_tbtime := if is_special (ob_tbtime o) then o_tbtime r else ob_tbtime o;
     data_ := data_ o; textData_ := textData_ o |}.

Definition getKvData (r : ObsRow * DataRow) : kvData PT :=
  kvData_set (o_stationid r.1) (o_obstime r.1) (d_original r.2) (d_paramid r.2) (o_tbtime r.1)
    (o_typeid r.1) (d_sensor r.2) (d_level r.2) (d_corrected r.2)
    (kvControlInfo_of_string (d_controlinfo r.2)) (kvUseInfo_of_string (d_useinfo r.2))
    (d_cfailed r.2).

(** A special time in the row is replaced by the time of the object. *)
Definition getKvTextData (o : Observation) (r : ObsRow * TextRow) : kvTextData PT :=
  kvTextData_set (o_stationid r.1)
    (if is_special (o_obstime r.1) then ob_obstime o else o_obstime r.1)
    (t_original r.2) (t_paramid r.2) (o_tbtime r.1) (o_typeid r.1).

(** [setData]: every row fills in the object; rows of another observation are
    dropped. *)
Definition add_data (o : Observation) (r : ObsRow * DataRow) : Observation :=
  let o := fill_obs r.1 o in
  if observationid_ o =? o_observationid r.1 then
    {| hasObservationid_ := hasObservationid_ o; observationid_ := observationid_ o;
       ob_stationid := ob_stationid o; ob_typeid := ob_typeid o; ob_obstime := ob_obstime o;
       ob_tbtime := ob_tbtime o; data_ := data_ o ++ [getKvData r]; textData_ := textData_ o |}
  else o.

Definition setData (rows : list (ObsRow * DataRow)) (o : Observation) : Observation :=
  foldl add_data o rows.

Definition add_textdata (o : Observation) (r : ObsRow * TextRow) : Observation :=
  let o := fill_obs r.1 o in
  if observationid_ o =? o_observationid r.1 then
    {| hasObservationid_ := hasObservationid_ o; observationid_ := observationid_ o;
       ob_stationid := ob_stationid o; ob_typeid := ob_typeid o; ob_obstime := ob_obstime o;
       ob_tbtime := ob_tbtime o; data_ := data_ o;
       textData_ := textData_ o ++ [getKvTextData o r] |}
  else o.

Definition setTextData (rows : list (ObsRow * TextRow)) (o : Observation) : Observation :=
  foldl add_textdata o rows.

(** [set(const Result &)] and whether it found an observation. *)
Definition set_row (rows : list ObsRow) (o : Observation) : option Observation :=
  match rows with
  | [] => None
  | r :: _ =>
      if negb (o_stationid r =? 0) && negb (o_typeid r =? 0) && negb (is_special (o_obstime r))
         && negb (is_special (o_tbtime r))
      then Some {| hasObservationid_ := true; observationid_ := o_observationid r;
                   ob_stationid := o_stationid r; ob_typeid := o_typeid r;
                   ob_obstime := o_obstime r; ob_tbtime := o_tbtime r;
                   data_ := data_ o; textData_ := textData_ o |}
      else None
  end.

(** [getObservationid]: id and time of arrival, when there is such an observation. *)
Definition getObservationid (now : ptime PT) (st ty : Z) (ot : ptime PT)
  : M (option (Z * ptime PT)) :=
  query (fun t =>
    match select_observations (obs_match st ty (db_time ot)) t with
    | [] => None
    | r :: _ => Some (o_observationid r,
                      if is_not_a_date_time (o_tbtime r) then now else o_tbtime r)
    end).

(** [getFromDb(con, stationID, typeID, obsTime)]. *)
Definition getFromDb (now : ptime PT) (st ty : Z) (ot : ptime PT) : M (option Observation) :=
  let* rows := query (select_data (obs_match st ty (db_time ot))) in
  match rows with
  | [] =>
      let* trows := query (select_textdata (obs_match st ty (db_time ot))) in
      match trows with
      | [] =>
          let* id := getObservationid now st ty ot in
          ret (match id with
               | Some (id, tbt) =>
                   Some {| hasObservationid_ := true; observationid_ := id; ob_stationid := st;
                           ob_typeid := ty; ob_obstime := ot; ob_tbtime := tbt;
                           data_ := []; textData_ := [] |}
               | None => None
               end)
      | _ => ret (Some (setTextData trows Observation_new))
      end
  | _ =>
      let o := setData rows Observation_new in
      if observationid_ o =? 0 then throw logic_error
      else
        let* trows := query (select_textdata (fun r => o_observationid r = observationid_ o)) in
        match trows with
        | [] => ret (Some o)
        | _ => ret (Some (setTextData trows o))
        end
  end.

(** [getFromDb(con, observationid)]. *)
Definition getFromDbById (id : Z) : M (option Observation) :=
  let* rows := query (select_data (fun r => o_observationid r = id)) in
  let* o := match rows with
            | [] =>
                let* orows := query (select_observations (fun r => o_observationid r = id)) in
                ret (set_row orows Observation_new)
            | _ => ret (Some (setData rows Observation_new))
            end in
  match o with
  | None => ret None
  | Some o =>
      let* trows := query (select_textdata (fun r => o_observationid r = id)) in
      match trows with
      | [] => ret (Some o)
      | _ => ret (Some (setTextData trows o))
      end
  end.

(** ** Writing *)

(** One value as a row. The flags are written with [flagstring]; the flags and
    cfailed become literals through [Q], which does not escape, so the statement
    is in error when the result is not one literal. *)
Definition literal (s : bytes) : M string :=
  match literal_value false s with
  | Some v => ret (of_bytes v)
  | None => throw SQLException
  end.

Definition insert_value (id : Z) (d : kvData PT) : M unit :=
  let* ci := literal (Q (to_bytes (flagstring (controlinfo_ d)))) in
  let* ui := literal (Q (to_bytes (flagstring (useinfo_ d)))) in
  let* cf := literal (Q (to_bytes (cfailed_ d))) in
  insert_obsdata
    {| d_observationid := id; d_original := db_number (original_ d); d_paramid := paramid_ d;
       d_sensor := sensor_ d; d_level := level_ d; d_corrected := db_number (corrected_ d);
       d_controlinfo := ci; d_useinfo := ui; d_cfailed := cf |}.

Definition insert_text (id : Z) (d : kvTextData PT) : M unit :=
  let* x := literal ([squote] ++ db_esc (to_bytes (tx_original_ d)) ++ [squote]) in
  insert_obstextdata
    {| t_observationid := id; t_original := x; t_paramid := tx_paramid_ d |}.

Fixpoint for_each {A} (f : A -> M (PT := PT) unit) (l : list A) : M unit :=
  match l with
  | [] => ret tt
  | x :: r => f x ;;; for_each f r
  end.

(** [insertIntoDb]: the object with the new id. *)
Definition insertIntoDb (now : ptime PT) (o : Observation) : M Observation :=
  let tbtime := if is_special (ob_tbtime o) then now else ob_tbtime o in
  let* id := insert_observations (ob_stationid o) (ob_typeid o) (db_time (ob_obstime o))
               (db_time tbtime) in
  for_each (insert_value id) (data_ o) ;;;
  for_each (insert_text id) (textData_ o) ;;;
  ret {| hasObservationid_ := hasObservationid_ o; observationid_ := id;
         ob_stationid := ob_stationid o; ob_typeid := ob_typeid o; ob_obstime := ob_obstime o;
         ob_tbtime := ob_tbtime o; data_ := data_ o; textData_ := textData_ o |}.

End Observation.

Arguments Observation : clear implicits.

(** ** Lemmas: reading *)

Section reading.
  Context {PT : PTime} {DT : DbText PT}.

(** The object for an observation's row and its rows of data and text. *)
Definition loaded (r : ObsRow) (ds : list (kvData PT)) (ts : list (kvTextData PT))
  : Observation PT :=
  {| hasObservationid_ := true; observationid_ := o_observationid r;
     ob_stationid := o_stationid r; ob_typeid := o_typeid r; ob_obstime := o_obstime r;
     ob_tbtime := o_tbtime r; data_ := ds; textData_ := ts |}.

Lemma fill_obs_loaded r ds ts : fill_obs r (loaded r ds ts) = loaded r ds ts.
Proof.
  unfold fill_obs, loaded. simpl. f_equal;
    repeat match goal with |- (if ?b then _ else _) = _ => destruct b; try done end.
Qed.

Lemma fill_obs_new r : is_special (not_a_date_time (PTime := PT)) = true ->
  fill_obs r Observation_new = loaded r [] [].
Proof. intros H. unfold fill_obs, loaded. simpl. by rewrite H. Qed.

Lemma add_data_loaded r d ds ts :
  add_data (loaded r ds ts) (r, d) = loaded r (ds ++ [getKvData (r, d)]) ts.
Proof. unfold add_data. simpl fst. rewrite fill_obs_loaded. simpl. by rewrite Z.eqb_refl. Qed.

Lemma setData_loaded r l ds ts :
  setData ((fun d => (r, d)) <$> l) (loaded r ds ts) =
    loaded r (ds ++ ((fun d => getKvData (r, d)) <$> l)) ts.
Proof.
  unfold setData. revert ds. induction l as [|d l IH]; intros ds; [by rewrite app_nil_r|].
  rewrite !fmap_cons. cbn [foldl]. by rewrite add_data_loaded, IH, <- app_assoc.
Qed.

(** A text row, when its time is a real one or the object's. *)
Definition textOf (r : ObsRow) (d : TextRow) : kvTextData PT :=
  kvTextData_set (o_stationid r) (o_obstime r) (t_original d) (t_paramid d) (o_tbtime r)
    (o_typeid r).

Lemma getKvTextData_loaded r d ds ts : getKvTextData (loaded r ds ts) (r, d) = textOf r d.
Proof. unfold getKvTextData, textOf. simpl. by destruct (is_special (o_obstime r)). Qed.

Lemma add_textdata_loaded r d ds ts :
  add_textdata (loaded r ds ts) (r, d) = loaded r ds (ts ++ [textOf r d]).
Proof.
  unfold add_textdata. simpl fst. rewrite fill_obs_loaded, getKvTextData_loaded. simpl.
  by rewrite Z.eqb_refl.
Qed.

Lemma setTextData_loaded r l ds ts :
  setTextData ((fun d => (r, d)) <$> l) (loaded r ds ts) = loaded r ds (ts ++ (textOf r <$> l)).
Proof.
  unfold setTextData. revert ts. induction l as [|d l IH]; intros ts; [by rewrite app_nil_r|].
  rewrite !fmap_cons. cbn [foldl]. by rewrite add_textdata_loaded, IH, <- app_assoc.
Qed.

Lemma setData_new {PL : PTimeLaws PT} r l :
  l <> [] ->
  setData ((fun d => (r, d)) <$> l) Observation_new =
    loaded r ((fun d => getKvData (r, d)) <$> l) [].
Proof.
  intros Hl. transitivity (setData ((fun d => (r, d)) <$> l) (loaded r [] []));
    [|by rewrite setData_loaded]. destruct l as [|d l]; [done|].
  unfold setData. rewrite !fmap_cons. cbn [foldl]. unfold add_data. simpl fst.
  by rewrite fill_obs_new, fill_obs_loaded by apply not_a_date_time_special.
Qed.

Lemma setTextData_new {PL : PTimeLaws PT} r l :
  l <> [] ->
  setTextData ((fun d => (r, d)) <$> l) Observation_new = loaded r [] (textOf r <$> l).
Proof.
  intros Hl. transitivity (setTextData ((fun d => (r, d)) <$> l) (loaded r [] []));
    [|by rewrite setTextData_loaded]. destruct l as [|d l]; [done|].
  unfold setTextData. rewrite !fmap_cons. cbn [foldl]. unfold add_textdata. simpl fst.
  by rewrite fill_obs_new, fill_obs_loaded by apply not_a_date_time_special.
Qed.

(** Joining with the only row that fits. *)
Lemma filter_unique (P : ObsRow -> Prop) {dec : forall o, Decision (P o)} (l : list (ObsRow (PT := PT))) r :
  NoDup l -> r ∈ l -> (forall o, o ∈ l -> P o <-> o = r) -> filter P l = [r].
Proof.
  intros HN Hr H. induction l as [|o l IH]; [by apply not_elem_of_nil in Hr|].
  apply NoDup_cons in HN as [Ho HN]. rewrite filter_cons.
  destruct (decide (P o)) as [Hp|Hp].
  - apply (H o (list_elem_of_here _ _)) in Hp as ->. f_equal.
    destruct (filter P l) as [|x k] eqn:E; [done|exfalso].
    assert (x ∈ filter P l) as [Hx Hin]%list_elem_of_filter by (rewrite E; left).
    apply H in Hx as ->; [done|by right].
  - apply elem_of_cons in Hr as [->|Hr]; [exfalso; apply Hp, H; [left|done]|].
    apply IH; [done|done|]. intros o' Ho'. apply H. by right.
Qed.

Lemma filter_none {A} (P : A -> Prop) {dec : forall o, Decision (P o)} (l : list A) :
  (forall o, o ∈ l -> ~ P o) -> filter P l = [].
Proof.
  intros H. destruct (filter P l) as [|x k] eqn:E; [done|exfalso].
  assert (x ∈ filter P l) as [Hx Hin]%list_elem_of_filter by (rewrite E; left).
  by apply (H x).
Qed.

Lemma list_filter_iff' {A} (P Q : A -> Prop) {dP : forall o, Decision (P o)}
    {dQ : forall o, Decision (Q o)} (l : list A) :
  (forall x, x ∈ l -> P x <-> Q x) -> filter P l = filter Q l.
Proof.
  intros H. induction l as [|x l IH]; [done|]. rewrite !filter_cons, IH.
  - pose proof (H x (list_elem_of_here _ _)). do 2 case_decide; (done || tauto).
  - intros y Hy. apply H. by right.
Qed.

Lemma ids_NoDup (t : tables PT) : tables_wf t -> NoDup (observations t).
Proof. intros []. by eapply NoDup_fmap_1. Qed.

Lemma ids_inj (t : tables PT) a b :
  tables_wf t -> a ∈ observations t -> b ∈ observations t ->
  o_observationid a = o_observationid b -> a = b.
Proof.
  intros [H] Ha Hb E. apply list_elem_of_lookup in Ha as [i Hi], Hb as [j Hj].
  assert (i = j) as <-; [|congruence]. eapply (NoDup_lookup _ _ _ _ H);
    unfold obs_ids; rewrite list_lookup_fmap; [by rewrite Hi|by rewrite Hj, E].
Qed.

Lemma keys_inj (t : tables PT) a b :
  tables_wf t -> a ∈ observations t -> b ∈ observations t -> obs_key a = obs_key b -> a = b.
Proof.
  intros [_ _ _ H] Ha Hb E. apply list_elem_of_lookup in Ha as [i Hi], Hb as [j Hj].
  assert (i = j) as <-; [|congruence]. eapply (NoDup_lookup _ _ _ _ H);
    rewrite list_lookup_fmap; [by rewrite Hi|by rewrite Hj, E].
Qed.

(** The join, when one observation is selected and when none is. *)
Lemma select_data_one (t : tables PT) (P : ObsRow -> Prop) {dec : forall o, Decision (P o)} r :
  tables_wf t -> r ∈ observations t -> (forall o, o ∈ observations t -> P o <-> o = r) ->
  select_data P t =
    (fun d => (r, d)) <$> filter (fun d => d_observationid d = o_observationid r) (obsdata t).
Proof.
  intros HW Hr HP. unfold select_data. induction (obsdata t) as [|d l IH]; [done|].
  rewrite bind_cons, IH, filter_cons.
  destruct (decide (d_observationid d = o_observationid r)) as [E|E].
  - rewrite (filter_unique _ _ r); [done|by apply ids_NoDup|done|].
    intros o Ho. rewrite E, HP by done. split; [tauto|]. by intros ->.
  - rewrite filter_none; [done|]. intros o Ho [E1 Hp]. apply HP in Hp as ->; [|done]. congruence.
Qed.

Lemma select_textdata_one (t : tables PT) (P : ObsRow -> Prop) {dec : forall o, Decision (P o)} r :
  tables_wf t -> r ∈ observations t -> (forall o, o ∈ observations t -> P o <-> o = r) ->
  select_textdata P t =
    (fun d => (r, d)) <$> filter (fun d => t_observationid d = o_observationid r) (obstextdata t).
Proof.
  intros HW Hr HP. unfold select_textdata. induction (obstextdata t) as [|d l IH]; [done|].
  rewrite bind_cons, IH, filter_cons.
  destruct (decide (t_observationid d = o_observationid r)) as [E|E].
  - rewrite (filter_unique _ _ r); [done|by apply ids_NoDup|done|].
    intros o Ho. rewrite E, HP by done. split; [tauto|]. by intros ->.
  - rewrite filter_none; [done|]. intros o Ho [E1 Hp]. apply HP in Hp as ->; [|done]. congruence.
Qed.

Lemma select_none (t : tables PT) (P : ObsRow -> Prop) {dec : forall o, Decision (P o)} :
  (forall o, o ∈ observations t -> ~ P o) ->
  select_data P t = [] /\ select_textdata P t = [] /\ select_observations P t = [].
Proof.
  intros H. split; [|split; [|by apply filter_none]].
  - unfold select_data. induction (obsdata t) as [|d l IH]; [done|].
    rewrite bind_cons, IH, filter_none; [done|]. intros o Ho [_ Hp]. by apply (H o).
  - unfold select_textdata. induction (obstextdata t) as [|d l IH]; [done|].
    rewrite bind_cons, IH, filter_none; [done|]. intros o Ho [_ Hp]. by apply (H o).
Qed.

(** ** Lemmas: what [getFromDb] returns *)

Definition row_data (r : ObsRow) (t : tables PT) : list (kvData PT) :=
  (fun d => getKvData (r, d)) <$> filter (fun d => d_observationid d = o_observationid r) (obsdata t).

Definition row_texts (r : ObsRow) (t : tables PT) : list (kvTextData PT) :=
  textOf r <$> filter (fun d => t_observationid d = o_observationid r) (obstextdata t).

Lemma getFromDb_none now st ty ot (t : tables PT) :
  (forall o, o ∈ observations t -> ~ obs_match st ty (db_time ot) o) ->
  getFromDb now st ty ot t = inl (None, t).
Proof.
  intros H. destruct (select_none t _ H) as (E1 & E2 & E3).
  unfold getFromDb, bind, query. rewrite E1, E2. unfold getObservationid, query. by rewrite E3.
Qed.

Lemma match_unique st ty ot r (t : tables PT) :
  tables_wf t -> r ∈ observations t -> obs_match st ty ot r ->
  forall o, o ∈ observations t -> obs_match st ty ot o <-> o = r.
Proof.
  intros HW Hr Hm o Ho. split; [|by intros ->]. intros Hm'. apply (keys_inj t); try done.
  destruct Hm as (E1 & E2 & E3), Hm' as (F1 & F2 & F3). unfold obs_key. congruence.
Qed.

Lemma id_unique r (t : tables PT) :
  tables_wf t -> r ∈ observations t ->
  forall o, o ∈ observations t -> o_observationid o = o_observationid r <-> o = r.
Proof. intros HW Hr o Ho. split; [|by intros ->]. by apply (ids_inj t). Qed.

Lemma id_positive r (t : tables PT) :
  tables_wf t -> r ∈ observations t -> 0 < o_observationid r <= observationid_seq t.
Proof.
  intros [_ H] Hr. rewrite Forall_forall in H. apply H. by apply list_elem_of_fmap_2.
Qed.

(** The object without any value takes the time that was asked for. *)
Definition read_result (now : ptime PT) (ot : ptime PT) (r : ObsRow) (t : tables PT)
  : Observation PT :=
  match row_data r t, row_texts r t with
  | [], [] =>
      {| hasObservationid_ := true; observationid_ := o_observationid r;
         ob_stationid := o_stationid r; ob_typeid := o_typeid r; ob_obstime := ot;
         ob_tbtime := if is_not_a_date_time (o_tbtime r) then now else o_tbtime r;
         data_ := []; textData_ := [] |}
  | ds, ts => loaded r ds ts
  end.

Lemma getFromDb_one {PL : PTimeLaws PT} now st ty ot r (t : tables PT) :
  tables_wf t -> r ∈ observations t -> obs_match st ty (db_time ot) r ->
  getFromDb now st ty ot t = inl (Some (read_result now ot r t), t).
Proof.
  intros HW Hr Hm. pose proof (match_unique _ _ _ _ _ HW Hr Hm) as Hu.
  pose proof (select_data_one t _ r HW Hr Hu) as E1.
  pose proof (select_textdata_one t _ r HW Hr Hu) as E2.
  unfold getFromDb, bind, query, read_result, row_data, row_texts. rewrite E1.
  destruct (filter _ (obsdata t)) as [|d l].
  - rewrite !fmap_nil, E2. destruct (filter _ (obstextdata t)) as [|x k].
    + simpl. unfold getObservationid, query, select_observations.
      rewrite (filter_unique _ _ r) by (done || by apply ids_NoDup).
      destruct Hm as (<- & <- & _). reflexivity.
    + rewrite !fmap_cons. unfold ret. do 3 f_equal. rewrite <- !fmap_cons.
      by apply setTextData_new.
  - rewrite fmap_cons. cbv iota beta. rewrite <- fmap_cons, setData_new by done.
    cbn [observationid_ loaded]. pose proof (id_positive _ _ HW Hr).
    destruct (Z.eqb_spec (o_observationid r) 0) as [Hz|Hz]; [lia|].
    rewrite (select_textdata_one t _ r HW Hr (id_unique _ _ HW Hr)).
    rewrite (fmap_cons (fun d => getKvData (r, d))).
    destruct (filter _ (obstextdata t)) as [|x k]; [done|].
    rewrite (fmap_cons (fun d => (r, d))). unfold ret. do 3 f_equal.
    rewrite <- (fmap_cons (fun d => (r, d))). by rewrite setTextData_loaded.
Qed.

(** ** Lemmas: writing *)

(** Values that the schema accepts: legal flags, no quote in cfailed (nothing
    escapes it) and a sensor of one digit. *)
Definition value_ok (d : kvData PT) : Prop :=
  flag_legal (controlinfo_ d) /\ flag_legal (useinfo_ d) /\ (squote ∉ to_bytes (cfailed_ d)) /\
  0 <= sensor_ d <= 9.

Definition value_row (id : Z) (d : kvData PT) : DataRow :=
  {| d_observationid := id; d_original := db_number (original_ d); d_paramid := paramid_ d;
     d_sensor := sensor_ d; d_level := level_ d; d_corrected := db_number (corrected_ d);
     d_controlinfo := flagstring (controlinfo_ d); d_useinfo := flagstring (useinfo_ d);
     d_cfailed := cfailed_ d |}.

Definition text_row (id : Z) (d : kvTextData PT) : TextRow :=
  {| t_observationid := id; t_original := tx_original_ d; t_paramid := tx_paramid_ d |}.

Definition value_key (d : kvData PT) : Z * Z * Z := (paramid_ d, level_ d, sensor_ d).

Lemma literal_plain (s : bytes) (t : tables PT) :
  squote ∉ s -> literal (Q s) t = inl (of_bytes s, t).
Proof.
  intros Hs. unfold literal. rewrite Q_plain by done. by rewrite literal_value_plain.
Qed.

Lemma hex_not_quote l : Forall (fun c => hex_char c = true) l -> squote ∉ l.
Proof. rewrite Forall_forall. intros H Hin. apply H in Hin. by vm_compute in Hin. Qed.

Lemma literal_flag f (t : tables PT) :
  flag_legal f -> literal (Q (to_bytes (flagstring f))) t = inl (flagstring f, t).
Proof.
  intros [Hw Hl]. rewrite literal_plain; [by rewrite of_to_bytes|].
  rewrite flagstring_bytes by done. by apply hex_not_quote.
Qed.

Lemma insert_value_row id d (t : tables PT) :
  value_ok d -> insert_value id d t = insert_obsdata (value_row id d) t.
Proof.
  intros (H1 & H2 & H3 & _). unfold insert_value, bind.
  rewrite !literal_flag, literal_plain, of_to_bytes by done. done.
Qed.

Definition with_rows (t : tables PT) (ds : list DataRow) (ts : list TextRow) : tables PT :=
  {| observations := observations t; obsdata := obsdata t ++ ds;
     obstextdata := obstextdata t ++ ts; workque := workque t;
     workstatistik := workstatistik t; priority := priority t;
     observationid_seq := observationid_seq t |}.

Lemma insert_obsdata_ok id d (t : tables PT) :
  value_ok d -> has_observation id t = true ->
  Forall (fun r => data_key r <> data_key (value_row id d)) (obsdata t) ->
  insert_obsdata (value_row id d) t = inl (tt, with_rows t [value_row id d] []).
Proof.
  intros (_ & _ & _ & Hs) Hid Hk. unfold insert_obsdata. simpl. rewrite Hid.
  assert (existsb (fun r => (d_observationid r =? id) && (d_paramid r =? paramid_ d) &&
    (d_level r =? level_ d) && (d_sensor r =? sensor_ d)) (obsdata t) = false) as ->.
  { apply existsb_false. eapply Forall_impl; [exact Hk|]. intros r Hr.
    apply not_true_iff_false. intros H. apply Hr. unfold data_key. simpl. f_equal; [f_equal|]; [f_equal|..]; lia. }
  assert (((0 <=? sensor_ d) && (sensor_ d <=? 9)) = true) as -> by lia. simpl.
  unfold with_rows. by rewrite app_nil_r.
Qed.

Lemma for_each_values id ds (t : tables PT) :
  Forall value_ok ds -> NoDup (value_key <$> ds) -> has_observation id t = true ->
  Forall (fun d => Forall (fun r => data_key r <> data_key (value_row id d)) (obsdata t)) ds ->
  for_each (insert_value id) ds t = inl (tt, with_rows t (value_row id <$> ds) []).
Proof.
  revert t. induction ds as [|d ds IH]; intros t Hok HN Hid Hf.
  { unfold with_rows. rewrite !app_nil_r. by destruct t. }
  apply Forall_cons in Hok as [Hd Hok], Hf as [Hfd Hf]. rewrite fmap_cons in HN.
  apply NoDup_cons in HN as [Hn HN]. cbn [for_each]. unfold bind.
  rewrite insert_value_row, insert_obsdata_ok by done. rewrite IH; [|done|done|done|].
  - unfold with_rows. simpl. by rewrite !app_nil_r, <- app_assoc.
  - rewrite Forall_forall in *. intros d' Hd'. simpl. apply Forall_app. split; [by apply Hf|].
    repeat constructor. intros E. apply Hn. apply list_elem_of_fmap. exists d'. split; [|done].
    unfold data_key in E. simpl in E. unfold value_key. congruence.
Qed.

Lemma insert_text_row {DL : DbTextLaws DT}
    id d (t : tables PT) :
  insert_text id d t = insert_obstextdata (text_row id d) t.
Proof.
  unfold insert_text, bind, literal. rewrite db_esc_literal. unfold ret. by rewrite of_to_bytes.
Qed.

Lemma for_each_texts {DL : DbTextLaws DT}
    id ds (t : tables PT) :
  NoDup (tx_paramid_ <$> ds) -> has_observation id t = true ->
  Forall (fun d => Forall (fun r => text_key r <> text_key (text_row id d)) (obstextdata t)) ds ->
  for_each (insert_text id) ds t = inl (tt, with_rows t [] (text_row id <$> ds)).
Proof.
  revert t. induction ds as [|d ds IH]; intros t HN Hid Hf.
  { unfold with_rows. rewrite !app_nil_r. by destruct t. }
  apply Forall_cons in Hf as [Hfd Hf]. rewrite fmap_cons in HN.
  apply NoDup_cons in HN as [Hn HN]. cbn [for_each]. unfold bind.
  rewrite insert_text_row. unfold insert_obstextdata. simpl. rewrite Hid.
  assert (existsb (fun r => (t_observationid r =? id) && (t_paramid r =? tx_paramid_ d))
    (obstextdata t) = false) as ->.
  { apply existsb_false. eapply Forall_impl; [exact Hfd|]. intros r Hr.
    apply not_true_iff_false. intros H. apply Hr. unfold text_key. simpl. f_equal; lia. }
  simpl. rewrite IH; [|done|done|].
  - unfold with_rows. simpl. by rewrite !app_nil_r, <- app_assoc.
  - rewrite Forall_forall in *. intros d' Hd'. simpl. apply Forall_app. split; [by apply Hf|].
    repeat constructor. intros E. apply Hn. apply list_elem_of_fmap. exists d'. split; [|done].
    unfold text_key in E. simpl in E. congruence.
Qed.

(** The row of an observation. *)
Definition obs_row (now : ptime PT) (id : Z) (o : Observation PT) : ObsRow :=
  {| o_observationid := id; o_stationid := ob_stationid o; o_typeid := ob_typeid o;
     o_obstime := db_time (ob_obstime o);
     o_tbtime := db_time (if is_special (ob_tbtime o) then now else ob_tbtime o) |}.

(** The tables with a new observation. *)
Definition with_observation (now : ptime PT) (o : Observation PT) (t : tables PT) : tables PT :=
  let id := observationid_seq t + 1 in
  {| observations := observations t ++ [obs_row now id o];
     obsdata := obsdata t ++ (value_row id <$> data_ o);
     obstextdata := obstextdata t ++ (text_row id <$> textData_ o); workque := workque t;
     workstatistik := workstatistik t; priority := priority t; observationid_seq := id |}.

Definition with_id (o : Observation PT) (id : Z) : Observation PT :=
  {| hasObservationid_ := hasObservationid_ o; observationid_ := id;
     ob_stationid := ob_stationid o; ob_typeid := ob_typeid o; ob_obstime := ob_obstime o;
     ob_tbtime := ob_tbtime o; data_ := data_ o; textData_ := textData_ o |}.

(** An observation that the schema accepts. *)
Definition obs_ok (o : Observation PT) : Prop :=
  Forall value_ok (data_ o) /\ NoDup (value_key <$> data_ o) /\ NoDup (tx_paramid_ <$> textData_ o).

Definition no_such_obs (st ty : Z) (ot : ptime PT) (t : tables PT) : Prop :=
  forall o, o ∈ observations t -> ~ obs_match st ty ot o.

Lemma fresh_key {A} (key : A -> Z) (t : tables PT) (l : list A) :
  tables_wf t -> Forall (fun x => key x ∈ obs_ids t) l ->
  Forall (fun x => key x <> observationid_seq t + 1) l.
Proof.
  intros [_ Hs _] H. eapply Forall_impl; [exact H|]. intros x Hx E. simpl in Hx, E. rewrite E in Hx.
  rewrite Forall_forall in Hs. apply Hs in Hx. lia.
Qed.

Lemma insert_observations_ok st ty ot (t : tables PT) :
  no_such_obs st ty ot t ->
  existsb (fun o => (o_stationid o =? st) && (o_typeid o =? ty) && bool_decide (o_obstime o = ot))
    (observations t) = false.
Proof.
  intros H. apply existsb_false, Forall_forall. intros o Ho. apply not_true_iff_false. intros E.
  apply andb_true_iff in E as [E Et%bool_decide_eq_true]. apply (H o Ho). unfold obs_match.
  apply andb_true_iff in E as [E1%Z.eqb_eq E2%Z.eqb_eq]. done.
Qed.

Lemma insertIntoDb_ok {DL : DbTextLaws DT} now o (t : tables PT) :
  tables_wf t -> obs_ok o ->
  no_such_obs (ob_stationid o) (ob_typeid o) (db_time (ob_obstime o)) t ->
  insertIntoDb now o t = inl (with_id o (observationid_seq t + 1), with_observation now o t).
Proof.
  intros HW (H1 & H2 & H3) Hno. unfold insertIntoDb, bind, insert_observations.
  rewrite insert_observations_ok by done.
  rewrite for_each_values; [|done|done| |].
  - rewrite for_each_texts; [|done| |].
    + unfold ret, with_id, with_rows, with_observation. simpl. by rewrite !app_nil_r.
    + apply has_observation_elem. unfold obs_ids. simpl. rewrite fmap_app, elem_of_app. right. left.
    + apply Forall_forall. intros d _. simpl. rewrite app_nil_r.
      eapply Forall_impl; [exact (fresh_key t_observationid _ _ HW (wf_text _ HW))|].
      intros r Hr E. apply Hr. unfold text_key in E. simpl in E. congruence.
  - apply has_observation_elem. unfold obs_ids. simpl. rewrite fmap_app, elem_of_app. right. left.
  - apply Forall_forall. intros d _. simpl.
    eapply Forall_impl; [exact (fresh_key d_observationid _ _ HW (wf_data _ HW))|].
    intros r Hr E. apply Hr. unfold data_key in E. simpl in E. congruence.
Qed.

(** Every successful write keeps the constraints. *)
Lemma for_each_wf {A} (f : A -> M unit) (l : list A) (t t' : tables PT) u :
  (forall x t t' u, tables_wf t -> f x t = inl (u, t') -> tables_wf t') ->
  tables_wf t -> for_each f l t = inl (u, t') -> tables_wf t'.
Proof.
  intros Hf. revert t. induction l as [|x l IH]; intros t HW E; simpl in E; [by injection E as <- <-|].
  unfold bind in E. destruct (f x t) as [[[] t1]|] eqn:E1; [|done].
  apply Hf in E1; [|done]. by apply IH in E.
Qed.

Lemma literal_state s (t t' : tables PT) v : literal s t = inl (v, t') -> t' = t.
Proof. unfold literal. destruct (literal_value false s); intros [=]. done. Qed.

Lemma insert_value_wf id d (t t' : tables PT) u :
  tables_wf t -> insert_value id d t = inl (u, t') -> tables_wf t'.
Proof.
  intros HW E. unfold insert_value, bind in E.
  destruct (literal _ t) as [[ci t1]|] eqn:E1; [|done]. apply literal_state in E1 as ->.
  destruct (literal _ t) as [[ui t1]|] eqn:E1; [|done]. apply literal_state in E1 as ->.
  destruct (literal _ t) as [[cf t1]|] eqn:E1; [|done]. apply literal_state in E1 as ->.
  by apply insert_obsdata_wf in E.
Qed.

Lemma insert_text_wf id d (t t' : tables PT) u :
  tables_wf t -> insert_text id d t = inl (u, t') -> tables_wf t'.
Proof.
  intros HW E. unfold insert_text, bind in E.
  destruct (literal _ t) as [[x t1]|] eqn:E1; [|done]. apply literal_state in E1 as ->.
  by apply insert_obstextdata_wf in E.
Qed.

Lemma insertIntoDb_wf now o o' (t t' : tables PT) :
  tables_wf t -> insertIntoDb now o t = inl (o', t') -> tables_wf t'.
Proof.
  intros HW E. unfold insertIntoDb, bind in E.
  destruct (insert_observations _ _ _ _ t) as [[id t1]|] eqn:E1; [|done].
  apply insert_observations_wf in E1; [|done].
  destruct (for_each (insert_value id) _ t1) as [[u t2]|] eqn:E2; [|done].
  apply for_each_wf in E2; [|intros ????; apply insert_value_wf|done].
  destruct (for_each (insert_text id) _ t2) as [[u' t3]|] eqn:E3; [|done].
  apply for_each_wf in E3; [|intros ????; apply insert_text_wf|done].
  by injection E as <- <-.
Qed.

(** ** The tables as a map from observations to their values *)

Definition stored (st ty : Z) (ot : ptime PT) (t : tables PT)
  : option (ObsRow * list (kvData PT) * list (kvTextData PT)) :=
  match filter (obs_match st ty ot) (observations t) with
  | r :: _ => Some (r, row_data r t, row_texts r t)
  | [] => None
  end.

(** What becomes of a value, and of a text, with the row of its observation. *)
Definition stored_value (r : ObsRow) (d : kvData PT) : kvData PT :=
  kvData_set (o_stationid r) (o_obstime r) (db_number (original_ d)) (paramid_ d) (o_tbtime r)
    (o_typeid r) (sensor_ d) (level_ d) (db_number (corrected_ d)) (controlinfo_ d) (useinfo_ d)
    (cfailed_ d).

Definition stored_text (r : ObsRow) (d : kvTextData PT) : kvTextData PT :=
  kvTextData_set (o_stationid r) (o_obstime r) (tx_original_ d) (tx_paramid_ d) (o_tbtime r)
    (o_typeid r).

Lemma getKvData_row r id d : value_ok d -> getKvData (r, value_row id d) = stored_value r d.
Proof.
  intros ([H1 _] & [H2 _] & _). unfold getKvData, stored_value. simpl.
  unfold kvControlInfo_of_string, kvUseInfo_of_string. rewrite !of_string_flagstring by done.
  by destruct (controlinfo_ d), (useinfo_ d).
Qed.

Lemma stored_none st ty ot (t : tables PT) : no_such_obs st ty ot t <-> stored st ty ot t = None.
Proof.
  unfold stored, no_such_obs. split.
  - intros H. by rewrite filter_none.
  - intros H o Ho Hm. destruct (filter _ _) eqn:E; [|done].
    assert (o ∈ filter (obs_match st ty ot) (observations t)) as Hin by (by apply list_elem_of_filter).
    rewrite E in Hin. by apply not_elem_of_nil in Hin.
Qed.

Lemma stored_elem st ty ot (t : tables PT) r :
  tables_wf t -> r ∈ observations t -> obs_match st ty ot r ->
  stored st ty ot t = Some (r, row_data r t, row_texts r t).
Proof.
  intros HW Hr Hm. unfold stored.
  by rewrite (filter_unique _ _ r (ids_NoDup _ HW) Hr (match_unique _ _ _ _ _ HW Hr Hm)).
Qed.

Lemma stored_some st ty ot (t : tables PT) r ds ts :
  stored st ty ot t = Some (r, ds, ts) ->
  r ∈ observations t /\ obs_match st ty ot r /\ ds = row_data r t /\ ts = row_texts r t.
Proof.
  unfold stored. destruct (filter _ _) as [|r' l] eqn:E; intros [=]; subst.
  assert (r ∈ filter (obs_match st ty ot) (observations t)) as [Hm Hin]%list_elem_of_filter
    by (rewrite E; left). done.
Qed.

(** [getFromDb] is a function of this map. *)
Lemma getFromDb_stored {PL : PTimeLaws PT} now st ty ot (t : tables PT) :
  tables_wf t ->
  getFromDb now st ty ot t =
    inl ((fun x => read_result now ot x.1.1 t) <$> stored st ty (db_time ot) t, t).
Proof.
  intros HW. destruct (stored st ty (db_time ot) t) as [[[r ds] ts]|] eqn:E.
  - apply stored_some in E as (Hr & Hm & _). by apply getFromDb_one.
  - apply stored_none in E. by apply getFromDb_none.
Qed.

Lemma read_result_values now ot r (t : tables PT) :
  data_ (read_result now ot r t) = row_data r t /\
  textData_ (read_result now ot r t) = row_texts r t /\
  observationid_ (read_result now ot r t) = o_observationid r /\
  ob_stationid (read_result now ot r t) = o_stationid r /\
  ob_typeid (read_result now ot r t) = o_typeid r.
Proof. unfold read_result. by destruct (row_data r t), (row_texts r t). Qed.

(** Rows of other observations do not count. *)
Lemma row_data_app r (t : tables PT) ds :
  Forall (fun d => d_observationid d <> o_observationid r) ds ->
  filter (fun d => d_observationid d = o_observationid r) (obsdata t ++ ds) =
  filter (fun d => d_observationid d = o_observationid r) (obsdata t).
Proof.
  intros H. rewrite filter_app, (filter_none _ ds), app_nil_r; [done|].
  rewrite Forall_forall in H. intros d Hd. by apply H.
Qed.

Lemma row_texts_app r (t : tables PT) ds :
  Forall (fun d => t_observationid d <> o_observationid r) ds ->
  filter (fun d => t_observationid d = o_observationid r) (obstextdata t ++ ds) =
  filter (fun d => t_observationid d = o_observationid r) (obstextdata t).
Proof.
  intros H. rewrite filter_app, (filter_none _ ds), app_nil_r; [done|].
  rewrite Forall_forall in H. intros d Hd. by apply H.
Qed.

Lemma filter_all {A} (P : A -> Prop) {dec : forall o, Decision (P o)} (l : list A) :
  Forall P l -> filter P l = l.
Proof.
  intros H. induction H as [|x l Hx Hl IH]; [done|]. rewrite filter_cons, IH.
  by case_decide.
Qed.

Lemma new_row_data now o (t : tables PT) :
  tables_wf t -> Forall value_ok (data_ o) ->
  let r := obs_row now (observationid_seq t + 1) o in
  row_data r (with_observation now o t) = stored_value r <$> data_ o.
Proof.
  intros HW Hok r. unfold row_data. simpl.
  rewrite filter_app, (filter_none _ (obsdata t)), filter_all; simpl.
  - rewrite <- list_fmap_compose. apply list_fmap_ext. intros i d Hd. simpl.
    apply getKvData_row. rewrite Forall_forall in Hok. apply Hok. by apply list_elem_of_lookup_2 in Hd.
  - apply Forall_fmap. by apply Forall_forall.
  - pose proof (fresh_key d_observationid _ _ HW (wf_data _ HW)) as H.
    rewrite Forall_forall in H. intros d Hd E. by apply (H _ Hd).
Qed.

Lemma new_row_texts now o (t : tables PT) :
  tables_wf t ->
  let r := obs_row now (observationid_seq t + 1) o in
  row_texts r (with_observation now o t) = stored_text r <$> textData_ o.
Proof.
  intros HW r. unfold row_texts. simpl.
  rewrite filter_app, (filter_none _ (obstextdata t)), filter_all; simpl.
  - by rewrite <- list_fmap_compose.
  - apply Forall_fmap. by apply Forall_forall.
  - pose proof (fresh_key t_observationid _ _ HW (wf_text _ HW)) as H.
    rewrite Forall_forall in H. intros d Hd E. by apply (H _ Hd).
Qed.

Lemma stored_with_observation now o st ty ot (t : tables PT) :
  tables_wf t -> Forall value_ok (data_ o) ->
  no_such_obs (ob_stationid o) (ob_typeid o) (db_time (ob_obstime o)) t ->
  let r := obs_row now (observationid_seq t + 1) o in
  stored st ty ot (with_observation now o t) =
    if decide (obs_match st ty ot r)
    then Some (r, stored_value r <$> data_ o, stored_text r <$> textData_ o)
    else stored st ty ot t.
Proof.
  intros HW Hok Hno r. unfold stored. simpl. rewrite filter_app, filter_cons, filter_nil. fold r.
  destruct (decide (obs_match st ty ot r)) as [Hm|Hm].
  - rewrite (filter_none _ (observations t)).
    2: { intros o' Ho' Hm'. apply (Hno o' Ho').
         destruct Hm as (E1 & E2 & E3), Hm' as (F1 & F2 & F3). simpl in *.
         unfold obs_match. simpl in *. repeat split; congruence. }
    simpl. unfold r. by rewrite new_row_data, new_row_texts.
  - rewrite app_nil_r. destruct (filter _ _) as [|r' l] eqn:E; [done|].
    assert (r' ∈ filter (obs_match st ty ot) (observations t)) as [_ Hin]%list_elem_of_filter
      by (rewrite E; left).
    pose proof (id_positive _ _ HW Hin) as Hid.
    unfold row_data, row_texts. simpl. rewrite row_data_app, row_texts_app; [done| |];
      apply Forall_fmap, Forall_forall; intros d _; simpl; lia.
Qed.

(** Deleting an observation removes it from the map. *)
Lemma stored_delete r st ty ot (t t' : tables PT) :
  tables_wf t -> r ∈ observations t -> delete_observations (o_observationid r) t = inl (tt, t') ->
  stored st ty ot t' = if decide (obs_match st ty ot r) then None else stored st ty ot t.
Proof.
  intros HW Hr [= <-]. case_decide as Hm.
  - apply stored_none. intros o [Hn Ho]%list_elem_of_filter Hm'.
    apply Hn. by apply (match_unique _ _ _ _ _ HW Hr Hm) in Hm' as ->.
  - unfold stored. simpl. rewrite list_filter_filter.
    rewrite (list_filter_iff' _ (obs_match st ty ot)).
    2: { intros o Ho. split; [tauto|]. intros Ho'. split; [done|]. intros E.
         apply (ids_inj t) in E as ->; done. }
    destruct (filter _ _) as [|r' l] eqn:E; [done|].
    assert (r' ∈ filter (obs_match st ty ot) (observations t)) as [Hm' Hin]%list_elem_of_filter
      by (rewrite E; left).
    assert (o_observationid r' <> o_observationid r) as Hn.
    { intros Ei. apply (ids_inj t) in Ei as ->; done. }
    unfold row_data, row_texts. simpl. do 2 f_equal; [f_equal|].
    + f_equal. rewrite list_filter_filter. apply list_filter_iff. intros d. simpl. split; [tauto|].
      intros Ed. split; [done|]. congruence.
    + f_equal. rewrite list_filter_filter. apply list_filter_iff. intros d. simpl. split; [tauto|].
      intros Ed. split; [done|]. congruence.
Qed.
End reading.

(** ** Properties *)

Section properties.
  Context {PT : PTime} {PL : PTimeLaws PT} {DT : DbText PT} {DL : DbTextLaws DT}.

(** An observation written is the observation read. In tables that satisfy
    the schema, an observation whose values fit their columns is stored when
    there is none with its station, type and time: the constraints still hold,
    [getFromDb] returns its values and texts under its time and time of arrival
    (the clock's when it had none), every other observation reads as before and
    the other tables are untouched. When there is one already, the write is an
    error. *)
Theorem insertIntoDb_getFromDb (now : ptime PT) (o : Observation PT) (t : tables PT) :
  tables_wf t -> obs_ok o ->
  let id := observationid_seq t + 1 in
  let r := obs_row now id o in
  (no_such_obs (ob_stationid o) (ob_typeid o) (db_time (ob_obstime o)) t ->
   exists o' t', insertIntoDb now o t = inl (o', t') /\ tables_wf t' /\ observationid_ o' = id /\
     (exists o'', getFromDb now (ob_stationid o) (ob_typeid o) (ob_obstime o) t' =
        inl (Some o'', t') /\ observationid_ o'' = id /\
        data_ o'' = stored_value r <$> data_ o /\ textData_ o'' = stored_text r <$> textData_ o) /\
     (forall st ty ot, ~ obs_match st ty ot r -> stored st ty ot t' = stored st ty ot t) /\
     workque t' = workque t /\ workstatistik t' = workstatistik t) /\
  (~ no_such_obs (ob_stationid o) (ob_typeid o) (db_time (ob_obstime o)) t ->
   insertIntoDb now o t = inr SQLException).
Proof.
  intros HW Hok id r. split.
  - intros Hno. exists (with_id o id), (with_observation now o t).
    pose proof (insertIntoDb_ok now o t HW Hok Hno) as E.
    pose proof (insertIntoDb_wf _ _ _ _ _ HW E) as HW'. destruct Hok as [Hv _].
    repeat (split; [done|]). split.
    + exists (read_result now (ob_obstime o) r (with_observation now o t)).
      assert (r ∈ observations (with_observation now o t)) as Hr
        by (simpl; apply elem_of_app; right; left).
      destruct (read_result_values now (ob_obstime o) r (with_observation now o t))
        as (E1 & E2 & E3 & _).
      split; [by apply getFromDb_one|]. split; [done|].
      rewrite E1, E2. unfold r, id. by rewrite new_row_data, new_row_texts.
    + split; [|done]. intros st ty ot Hn. rewrite stored_with_observation by done.
      by apply decide_False.
  - intros Hno. unfold insertIntoDb, bind, insert_observations.
    destruct (existsb _ _) eqn:E; [done|exfalso]. apply Hno. apply existsb_false in E.
    rewrite Forall_forall in E. intros o' Ho' (E1 & E2 & E3). specialize (E o' Ho'). simpl in E.
    rewrite E1, E2, E3, !Z.eqb_refl, bool_decide_true in E by done. done.
Qed.

(** the two ways to read agree. For a stored observation with values, reading
    by its key and reading by its id give the same object; the tables do not
    change; and for a key or an id that is not there both give nothing. *)
Theorem getFromDb_by_id (now : ptime PT) (st ty : Z) (ot : ptime PT) (r : ObsRow) (t : tables PT) :
  tables_wf t ->
  (r ∈ observations t -> obs_match st ty (db_time ot) r -> row_data r t <> [] ->
   exists o, getFromDb now st ty ot t = inl (Some o, t) /\
     getFromDbById (o_observationid r) t = inl (Some o, t) /\
     data_ o = row_data r t /\ textData_ o = row_texts r t) /\
  (no_such_obs st ty (db_time ot) t -> getFromDb now st ty ot t = inl (None, t)) /\
  (forall id, id ∉ obs_ids t -> getFromDbById id t = inl (None, t)).
Proof.
  intros HW. split; [|split; [apply getFromDb_none|]].
  - intros Hr Hm Hne. exists (loaded r (row_data r t) (row_texts r t)).
    rewrite (getFromDb_one now _ _ _ r t HW Hr Hm).
    split. { unfold read_result. by destruct (row_data r t). }
    split; [|done]. unfold getFromDbById, bind, query.
    rewrite (select_data_one t _ r HW Hr (id_unique _ _ HW Hr)).
    unfold row_data, row_texts in *.
    destruct (filter _ (obsdata t)) as [|d l]; [done|].
    rewrite fmap_cons. cbv iota beta. rewrite <- fmap_cons, setData_new by done. unfold ret.
    rewrite (select_textdata_one t _ r HW Hr (id_unique _ _ HW Hr)).
    destruct (filter _ (obstextdata t)) as [|x k]; [done|].
    rewrite (fmap_cons (fun d => (r, d)) x k), <- (fmap_cons (fun d => (r, d)) x k).
    by rewrite setTextData_loaded.
  - intros id Hid.
    assert (H : forall o, o ∈ observations t -> o_observationid o <> id).
    { intros o Ho <-. apply Hid. by apply list_elem_of_fmap_2. }
    destruct (select_none t (fun r => o_observationid r = id) H) as (E1 & _ & E3).
    unfold getFromDbById, bind, query. by rewrite E1, E3.
Qed.
End properties.

(** ** Instances *)

Definition sample_value (p s : Z) : kvData stamp_time :=
  kvData_set 18700 (stamp_of 2024 1 1 6 0 0) (Dbl.lit 42 10) p (stamp_of 2024 1 1 6 5 0) 501 s 0
    (Dbl.lit 42 10) kvControlInfo_new kvUseInfo_new "QC1".

Definition sample_now : ptime stamp_time := stamp_of 2024 1 1 7 0 0.

Definition sample_obs : Observation stamp_time :=
  Observation_set 18700 501 (stamp_of 2024 1 1 6 0 0) (stamp_of 2024 1 1 6 5 0)
    [sample_value 211 0; sample_value 211 1]
    [kvTextData_set 18700 (stamp_of 2024 1 1 6 0 0) "it's" 1000 (stamp_of 2024 1 1 6 5 0) 501].

Lemma sample_value_ok p s : 0 <= s <= 9 -> value_ok (sample_value p s).
Proof.
  intros H. split; [apply clear_legal|]. split; [|split; [|exact H]].
  - apply (bool_decide_unpack (flag_legal kvUseInfo_new)). vm_compute. exact I.
  - apply (bool_decide_unpack (squote ∉ to_bytes "QC1")). vm_compute. exact I.
Qed.

Lemma sample_obs_ok : obs_ok sample_obs.
Proof.
  split; [repeat constructor; apply sample_value_ok; lia|].
  split; refine (bool_decide_unpack _ _); vm_compute; exact I.
Qed.

Lemma insertIntoDb_getFromDb_witness :
  exists o' t', insertIntoDb (DT := stamp_text) sample_now sample_obs empty_tables = inl (o', t') /\
    observationid_ o' = 1.
Proof.
  destruct (insertIntoDb_getFromDb sample_now sample_obs empty_tables empty_tables_wf sample_obs_ok)
    as [H _].
  destruct H as (o' & t' & H1 & _ & H2 & _); [intros o Ho; by apply not_elem_of_nil in Ho|].
  by exists o', t'.
Defined.

Lemma getFromDb_by_id_witness :
  let t := with_observation (DT := stamp_text) sample_now sample_obs empty_tables in
  exists o, getFromDbById 1 t = inl (Some o, t) /\ length (data_ o) = 2%nat.
Proof.
  intros t. pose proof (insertIntoDb_wf _ _ _ _ _ empty_tables_wf
    (insertIntoDb_ok (DT := stamp_text) sample_now sample_obs empty_tables empty_tables_wf sample_obs_ok
       (fun o Ho => match not_elem_of_nil _ Ho with end))) as HW.
  destruct (getFromDb_by_id sample_now 18700 501 (stamp_of 2024 1 1 6 0 0) (obs_row sample_now 1 sample_obs) t HW)
    as [H _].
  destruct H as (o & _ & H & E & _); [left|done|by vm_compute|].
  exists o. split; [exact H|]. rewrite E. vm_compute. reflexivity.
Defined.

(** ** What the statement does not escape *)

(** A quote in cfailed makes the statement an error. *)
Lemma insert_value_quote :
  insert_value (DT := stamp_text) 1 (with_cfailed (sample_value 211 0) "it's") empty_tables =
    inr SQLException.
Proof. vm_compute. reflexivity. Qed.
