(* ===== verification/DataUpdateTransaction.v ===== *)
(** * [DataUpdateTransaction]: saving the values of one observation
      (src/src/lib/decoder/decoderbase/DataUpdateTransaction.cc)

    The transaction compares the new values with what is stored and inserts,
    replaces, updates or leaves the observation, and puts it in the work queue of
    the quality control. Logging and the duration are left out; the clock is read
    once, as an argument. *)

From S2P Require Import Prelude Orders PTime DataFlag ControlInfo UseInfo KvData.
From S2P Require Import SortedData KvalobsData Sql Database Observation.

#[local] Open Scope db_scope.
#[local] Open Scope Z_scope.

Inductive DBAddType := DbInsert | DbUpdate.
Inductive DuplicateTestType := Partial | Complete.

#[export] Instance DBAddType_eq_dec : EqDecision DBAddType.
Proof. solve_decision. Defined.

Section transaction.
  Context {PT : PTime} {PC : PCalendar PT} {DT : DbText PT}.

Record DataUpdateTransaction := {
  newData : list (kvData PT);
  newTextData : list (kvTextData PT);
  dut_obstime : ptime PT;
  dut_stationid : Z;
  dut_typeid : Z;
  dut_observationid : Z;
  dataToPublish_ : KvalobsData PT;
  logid_set : bool;
  insertType : string;
  insertOrUpdate : DBAddType;
  addToWorkQueue : bool;
  tryToUseDataTbTime : bool;
  duplicateTestType : DuplicateTestType;
  onlyHqcData : bool;
  qaId : Z
}.

Definition DataUpdateTransaction_new (obstime : ptime PT) (st ty : Z) (d : list (kvData PT))
    (td : list (kvTextData PT)) (logid : string) (iou : DBAddType) (awq tbt : bool)
    (dtt : DuplicateTestType) (qa : Z) : DataUpdateTransaction :=
  {| newData := d; newTextData := td; dut_obstime := obstime; dut_stationid := st;
     dut_typeid := ty; dut_observationid := 0; dataToPublish_ := KvalobsData_new;
     logid_set := negb (bool_decide (logid = ""%string)); insertType := ""; insertOrUpdate := iou;
     addToWorkQueue := awq; tryToUseDataTbTime := tbt; duplicateTestType := dtt;
     onlyHqcData := false; qaId := qa |}.

(** The members that the transaction changes. *)
Definition upd (x : DataUpdateTransaction) (id : Z) (pub : KvalobsData PT) (it : string)
    (hqc : bool) : DataUpdateTransaction :=
  {| newData := newData x; newTextData := newTextData x; dut_obstime := dut_obstime x;
     dut_stationid := dut_stationid x; dut_typeid := dut_typeid x; dut_observationid := id;
     dataToPublish_ := pub; logid_set := logid_set x; insertType := it;
     insertOrUpdate := insertOrUpdate x; addToWorkQueue := addToWorkQueue x;
     tryToUseDataTbTime := tryToUseDataTbTime x; duplicateTestType := duplicateTestType x;
     onlyHqcData := hqc; qaId := qaId x |}.

Definition set_observationid (x : DataUpdateTransaction) (id : Z) :=
  upd x id (dataToPublish_ x) (insertType x) (onlyHqcData x).
Definition set_insertType (x : DataUpdateTransaction) (it : string) :=
  upd x (dut_observationid x) (dataToPublish_ x) it (onlyHqcData x).
Definition set_publish (x : DataUpdateTransaction) (pub : KvalobsData PT) (hqc : bool) :=
  upd x (dut_observationid x) pub (insertType x) hqc.

(** ** Comparing with the stored values *)

(** The elements that [findElem] and the comparisons treat as the same. *)
Definition same_elem (a b : kvData PT) : bool :=
  bool_decide (obstime_ a = obstime_ b) && (stationid_ a =? stationid_ b)
  && (typeid_ a =? typeid_ b) && (paramid_ a =? paramid_ b) && (sensor_ a =? sensor_ b)
  && (level_ a =? level_ b).

Definition same_text_elem (a b : kvTextData PT) : bool :=
  bool_decide (tx_obstime_ a = tx_obstime_ b) && (tx_stationid_ a =? tx_stationid_ b)
  && (tx_typeid_ a =? tx_typeid_ b) && (tx_paramid_ a =? tx_paramid_ b).

(** [static_cast<int>((v + 0.005) * 100)]; a value that is no [int] gives the
    smallest one, as the processor's conversion does. *)
Definition hundredths (v : spec_float) : Z :=
  default INT_MIN (Dbl.to_int (Dbl.mul (Dbl.add v (Dbl.lit 5 1000)) (Dbl.of_Z 100))).

Definition partial_same (o n : kvData PT) : bool :=
  same_elem o n && (hundredths (original_ n) =? hundredths (original_ o)).

Definition complete_same (o n : kvData PT) : bool :=
  same_elem o n && (hundredths (original_ n) =? hundredths (original_ o))
  && (hundredths (corrected_ n) =? hundredths (corrected_ o))
  && kvControlInfo_eqb (controlinfo_ n) (controlinfo_ o)
  && kvUseInfo_eqb (useinfo_ n) (useinfo_ o) && bool_decide (cfailed_ n = cfailed_ o).

Definition text_same (o n : kvTextData PT) : bool :=
  same_text_elem o n && bool_decide (tx_original_ o = tx_original_ n).

(** One of the two loops of the comparisons: every new element has a match; the
    value of [found] after the last one, and [false] as soon as one has none. *)
Definition all_found {A} (same : A -> A -> bool) (old : list A) (new : list A) (found : bool)
  : option bool :=
  foldl (fun r n => if r is Some _ then
                      (if existsb (fun o => same o n) old then Some true else None)
                    else None) (Some found) new.

Definition lists_equal (same : kvData PT -> kvData PT -> bool) (x : DataUpdateTransaction)
    (oldData : list (kvData PT)) (oldTextData : list (kvTextData PT)) (replace : bool) : bool :=
  if replace && (negb (length (newData x) =? length oldData)%nat
                 || negb (length (newTextData x) =? length oldTextData)%nat)
  then false
  else match all_found same oldData (newData x) false with
       | None => false
       | Some found => default false (all_found text_same oldTextData (newTextData x) found)
       end.

Definition partialIsEqual := lists_equal partial_same.
Definition completeIsEqual := lists_equal complete_same.

Definition is_missing_original (d : kvData PT) : bool :=
  Dbl.eqb (original_ d) (Dbl.of_Z (-32767)).

(** The loop that removes missing values: [erase] returns the next element, which
    the loop's [++it] then steps over; past the last element that step is
    undefined. *)
Fixpoint remove_missing (l : list (kvData PT)) : option (list (kvData PT)) :=
  match l with
  | [] => Some []
  | d :: r =>
      if is_missing_original d then
        match r with
        | [] => None
        | d' :: r' => cons d' <$> remove_missing r'
        end
      else cons d <$> remove_missing r
  end.

Definition is_insert (x : DataUpdateTransaction) : bool := bool_decide (insertOrUpdate x = DbInsert).

Definition isEqual (x : DataUpdateTransaction) (oldData_ : list (kvData PT))
    (oldTextData : list (kvTextData PT)) : M bool :=
  match duplicateTestType x with
  | Complete => ret (completeIsEqual x oldData_ oldTextData (is_insert x))
  | Partial =>
      if partialIsEqual x oldData_ oldTextData (is_insert x) then ret true
      else match remove_missing oldData_ with
           | Some oldData => ret (partialIsEqual x oldData oldTextData (is_insert x))
           | None => throw undefined_behaviour
           end
  end.

(** ** The work queue *)

(** [onlyHqcDataCheck]. *)
Definition onlyHqcDataCheck (x : DataUpdateTransaction) : DataUpdateTransaction :=
  let pub := clear (dataToPublish_ x) in
  if forallb (fun d => hqcDone (controlinfo_ d)) (newData x)
  then set_publish x (foldl (fun k d => insertText d k)
                        (foldl (fun k d => insert d k) pub (newData x)) (newTextData x)) true
  else set_publish x pub false.

Definition worqueToWorkStatistik (id : Z) : M unit :=
  insert_workstatistik id ;;; delete_processed id.

Definition checkWorkQue (x : DataUpdateTransaction) (id : Z) : M DataUpdateTransaction :=
  let* res := query (select_unprocessed id) in
  if (0 <? length res)%nat then ret (set_publish x (clear (dataToPublish_ x)) false)
  else worqueToWorkStatistik id ;;; ret x.

Definition new_work (x : DataUpdateTransaction) (id pri : Z) : WorkRow :=
  {| w_observationid := id; w_priority := pri; w_process_start := None; w_qa_start := None;
     w_qa_stop := None; w_service_start := None; w_service_stop := None;
     w_qa_id := if qaId x <? 0 then None else Some (qaId x) |}.

Definition updateWorkQue (x : DataUpdateTransaction) (id pri : Z) : M DataUpdateTransaction :=
  if negb (addToWorkQueue x) || onlyHqcData x then ret (set_observationid x (- id))
  else insert_workque (new_work x id pri) ;;; ret (set_observationid x id).

(** [getPriority]: a NULL column is the empty string, which [atoi] reads as 0. *)
Definition priority_of (now : ptime PT) (st ty : Z) (obstime : ptime PT) (t : tables PT) : Z :=
  match select_priority st ty t with
  | None => 4
  | Some p =>
      if p_priority p =? INT_MAX then 4
      else if ptime_lt obstime (pt_sub_hours now (default 0 (p_hour p)))
           then default 0 (p_pri_after_hour p) else p_priority p
  end.

Definition getPriority (now : ptime PT) (st ty : Z) (obstime : ptime PT) : M Z :=
  query (priority_of now st ty obstime).

(** ** The time of arrival *)

Definition earliest (t : ptime PT) (u : ptime PT) : ptime PT :=
  if is_special t then u
  else if negb (is_special u) && ptime_lt u t then u else t.

Definition useTbTime (x : DataUpdateTransaction) (now : ptime PT) (d : list (kvData PT))
    (td : list (kvTextData PT)) (defaultTbTime : ptime PT) : ptime PT :=
  if negb (tryToUseDataTbTime x) then defaultTbTime
  else
    let t := foldl earliest (foldl earliest not_a_date_time (tbtime_ <$> d)) (tx_tbtime_ <$> td) in
    if negb (is_special t) then t else now.

(** ** The transaction *)

(** Insert an observation and queue it: the common end of all the branches. *)
Definition insert_and_queue (x : DataUpdateTransaction) (now : ptime PT) (o : Observation PT)
  : M (bool * DataUpdateTransaction) :=
  let* newObs := insertIntoDb now o in
  let* pri := getPriority now (dut_stationid x) (dut_typeid x) (dut_obstime x) in
  let* x := updateWorkQue x (observationid_ newObs) pri in
  ret (true, x).

(** The old elements that the new ones do not replace are added to them. *)
Definition merge {A} (same : A -> A -> bool) (new old : list A) : list A :=
  foldl (fun l e => if existsb (fun n => same e n) l then l else l ++ [e]) new old.

Definition updateObservation (x : DataUpdateTransaction) (now : ptime PT) (obs : Observation PT)
  : M (bool * DataUpdateTransaction) :=
  let toUpdateData := merge same_elem (newData x) (data_ obs) in
  let toUpdateTextData := merge same_text_elem (newTextData x) (textData_ obs) in
  match toUpdateData, toUpdateTextData with
  | [], [] => ret (true, x)
  | _, _ =>
      let* x := checkWorkQue x (observationid_ obs) in
      delete_observations (observationid_ obs) ;;;
      let tbTime := useTbTime x now toUpdateData toUpdateTextData (ob_tbtime obs) in
      insert_and_queue x now
        (Observation_set (ob_stationid obs) (ob_typeid obs) (ob_obstime obs) tbTime
           toUpdateData toUpdateTextData)
  end.

Definition newObservation (x : DataUpdateTransaction) (now : ptime PT) : Observation PT :=
  Observation_set (dut_stationid x) (dut_typeid x) (dut_obstime x)
    (useTbTime x now (newData x) (newTextData x) now) (newData x) (newTextData x).

Definition replaceObservation (x : DataUpdateTransaction) (now : ptime PT) (id : Z)
  : M (bool * DataUpdateTransaction) :=
  let* x := checkWorkQue x id in
  delete_observations id ;;;
  insert_and_queue x now (newObservation x now).

(** With a log, the values are written to it and one without a proper time ends
    the transaction. *)
Definition log_error (x : DataUpdateTransaction) : bool :=
  logid_set x &&
  (existsb (fun d => is_not_a_date_time (obstime_ d)) (newData x)
   || existsb (fun d => is_not_a_date_time (tx_obstime_ d)) (newTextData x)).

Definition perform (x : DataUpdateTransaction) (now : ptime PT)
  : M (bool * DataUpdateTransaction) :=
  if is_not_a_date_time (dut_obstime x) then ret (false, x)
  else match newData x, newTextData x with
  | [], [] => ret (true, set_insertType x "NO DATA")
  | _, _ =>
      let x := onlyHqcDataCheck x in
      if log_error x then ret (false, x)
      else
        let* oldObs := getFromDb now (dut_stationid x) (dut_typeid x) (dut_obstime x) in
        match oldObs with
        | None => insert_and_queue (set_insertType x "INSERT") now (newObservation x now)
        | Some old =>
            let* eq := isEqual x (data_ old) (textData_ old) in
            if eq then
              ret (true, set_observationid
                           (set_insertType (set_publish x (clear (dataToPublish_ x)) (onlyHqcData x))
                              "DUPLICATE") (observationid_ old))
            else if is_insert x
            then replaceObservation (set_insertType x "REPLACE") now (observationid_ old)
            else updateObservation (set_insertType x "UPDATE") now old
        end
  end.

End transaction.

Arguments DataUpdateTransaction : clear implicits.

(** ** Lemmas: the comparison *)

Section comparison.
  Context {PT : PTime}.

Lemma all_found_none {A} (same : A -> A -> bool) old new :
  foldl (fun r n => if r is Some _ then
           (if existsb (fun o => same o n) old then Some true else None) else None)
    (None : option bool) new = None.
Proof. induction new as [|n new IH]; simpl; [done|exact IH]. Qed.

Lemma all_found_spec {A} (same : A -> A -> bool) old new found :
  all_found same old new found =
    if forallb (fun n => existsb (fun o => same o n) old) new
    then Some (if new is [] then found else true) else None.
Proof.
  unfold all_found. revert found. induction new as [|n new IH]; intros found; simpl; [done|].
  destruct (existsb (fun o => same o n) old); simpl; [|apply all_found_none].
  rewrite IH. by destruct new.
Qed.

(** The outcome of a comparison: there is a new element, each has its match, and
    when the observation is to be replaced there are as many old ones. *)
Lemma lists_equal_spec same (x : DataUpdateTransaction PT) od ot replace :
  lists_equal same x od ot replace = true <->
  (replace = true -> length (newData x) = length od /\ length (newTextData x) = length ot) /\
  (newData x <> [] \/ newTextData x <> []) /\
  (forall n, n ∈ newData x -> exists o, o ∈ od /\ same o n = true) /\
  (forall n, n ∈ newTextData x -> exists o, o ∈ ot /\ text_same o n = true).
Proof.
  assert (Hall : forall A (p : A -> A -> bool) (old new : list A),
    forallb (fun n => existsb (fun o => p o n) old) new = true <->
    forall n, n ∈ new -> exists o, o ∈ old /\ p o n = true).
  { intros A p old new. rewrite forallb_forall. split; intros H n Hn.
    - specialize (H n (proj1 (list_elem_of_In _ _) Hn)). apply existsb_exists in H as (o & Ho & E).
      exists o. by rewrite list_elem_of_In.
    - destruct (H n (proj2 (list_elem_of_In _ _) Hn)) as (o & Ho & E). apply existsb_exists.
      exists o. by rewrite <- list_elem_of_In. }
  unfold lists_equal. rewrite !all_found_spec, <- !Hall.
  assert (Hc : replace && (negb (length (newData x) =? length od)%nat
      || negb (length (newTextData x) =? length ot)%nat) = false <->
    (replace = true -> length (newData x) = length od /\ length (newTextData x) = length ot)).
  { destruct replace; simpl; [|split; done].
    rewrite orb_false_iff, !negb_false_iff, !Nat.eqb_eq. tauto. }
  rewrite <- Hc. destruct (replace && _); [split; [done|intros [? _]; done]|].
  destruct (forallb (fun n => existsb (fun o => same o n) od) (newData x)) eqn:E1;
    [|split; [done|intros (_ & _ & ? & _); done]].
  rewrite all_found_spec.
  destruct (forallb (fun n => existsb (fun o => text_same o n) ot) (newTextData x)) eqn:E2; simpl;
    [|split; [done|intros (_ & _ & _ & ?); done]].
  destruct (newData x), (newTextData x); simpl; split; try done; try (intros (_ & [?|?] & _); done);
    intros _; repeat split; auto.
Qed.

Lemma remove_missing_none (l : list (kvData PT)) :
  Forall (fun d => is_missing_original d = false) l -> remove_missing l = Some l.
Proof.
  intros H. induction H as [|d l Hd Hl IH]; simpl; [done|]. by rewrite Hd, IH.
Qed.
End comparison.

(** ** Lemmas: merging *)

Lemma merge_spec {A} (same : A -> A -> bool) (new old : list A) :
  (forall i j a b, old !! i = Some a -> old !! j = Some b -> (i < j)%nat -> same b a = false) ->
  merge same new old = new ++ filter (fun e => existsb (fun n => same e n) new = false) old.
Proof.
  unfold merge. intros H. assert (G : forall acc,
    (forall e a, e ∈ old -> a ∈ acc -> same e a = false) ->
    foldl (fun l e => if existsb (fun n => same e n) l then l else l ++ [e]) (new ++ acc) old =
      new ++ acc ++ filter (fun e => existsb (fun n => same e n) new = false) old).
  { induction old as [|e old IH]; intros acc Hacc; simpl; [by rewrite app_nil_r|].
    assert (Hn : existsb (fun n => same e n) (new ++ acc) = existsb (fun n => same e n) new).
    { rewrite existsb_app. assert (existsb (fun n => same e n) acc = false) as ->.
      { apply existsb_false, Forall_forall. intros a Ha. apply Hacc; [left|done]. }
      by rewrite orb_false_r. }
    rewrite Hn, filter_cons.
    assert (H' : forall i j a b, old !! i = Some a -> old !! j = Some b -> (i < j)%nat -> same b a = false).
    { intros i j a b Hi Hj Hij. apply (H (S i) (S j) a b); [done..|lia]. }
    destruct (existsb (fun n => same e n) new) eqn:E.
    - rewrite decide_False by done. apply IH; [done|]. intros e' a He' Ha.
      apply Hacc; [by right|done].
    - rewrite decide_True, <- app_assoc, IH; [by rewrite <- app_assoc|done| |done].
      intros e' a He' [Ha| ->%list_elem_of_singleton]%elem_of_app; [apply Hacc; [by right|done]|].
      apply list_elem_of_lookup in He' as [j Hj]. apply (H 0%nat (S j) e e'); [done|done|lia]. }
  specialize (G []). rewrite app_nil_r in G. apply G. intros e a _ Ha. by apply not_elem_of_nil in Ha.
Qed.

(** ** Lemmas: the work queue *)

Section queue.
  Context {PT : PTime} {PC : PCalendar PT} {DT : DbText PT}.

Lemma checkWorkQue_ok (x : DataUpdateTransaction PT) id (t : tables PT) :
  tables_wf t ->
  exists x' t', checkWorkQue x id t = inl (x', t') /\ tables_wf t' /\
    observations t' = observations t /\ obsdata t' = obsdata t /\ obstextdata t' = obstextdata t /\
    priority t' = priority t /\ observationid_seq t' = observationid_seq t /\
    (if (0 <? length (select_unprocessed id t))%nat
     then x' = set_publish x (clear (dataToPublish_ x)) false /\ t' = t
     else x' = x /\
       (forall w, w ∈ workque t' <-> w ∈ workque t /\ (w_observationid w = id -> w_qa_stop w = None)) /\
       (forall w, w ∈ workque t -> w_observationid w = id -> w_qa_stop w <> None ->
          id ∈ obs_ids t ->
          exists s, s ∈ workstatistik t' /\ w_observationid (s_work s) = id)).
Proof.
  intros HW. unfold checkWorkQue, bind, query.
  destruct (Nat.ltb_spec 0 (length (select_unprocessed id t))) as [Hl|Hl].
  { eexists _, t. repeat (split; [done|]). done. }
  unfold worqueToWorkStatistik, bind.
  destruct (insert_workstatistik id t) as [[u t1]|] eqn:E1; [|done].
  pose proof (insert_workstatistik_wf _ _ _ _ HW E1) as HW1.
  destruct (delete_processed id t1) as [[u2 t2]|] eqn:E2; [|done].
  pose proof (delete_processed_wf _ _ _ _ HW1 E2) as HW2.
  exists x, t2. split; [done|]. split; [done|]. injection E1 as <- <-. injection E2 as <- <-.
  simpl. repeat (split; [done|]). split.
  - intros w. rewrite list_elem_of_filter. split.
    + intros [Hn Hw]. split; [done|]. intros E. destruct (decide (w_qa_stop w = None)); tauto.
    + intros [Hw Hn]. split; [|done]. intros [E1 E2]. auto.
  - intros w Hw Hid Hq Hin. destruct (existsb (fun s => w_observationid (s_work s) =? id)
      (workstatistik t)) eqn:Es.
    + apply existsb_exists in Es as (s & Hs & E). exists s. split; [|lia].
      apply elem_of_app. left. by apply list_elem_of_In.
    + apply list_elem_of_fmap in Hin as (o & Eo & Ho).
      exists {| s_obs := o; s_work := w |}. split; [|done]. apply elem_of_app. right.
      apply list_elem_of_bind. exists w. split; [|done]. rewrite bool_decide_true by done.
      rewrite Hid, Es. simpl. apply list_elem_of_fmap. exists o. split; [done|].
      by apply list_elem_of_filter.
Qed.

Lemma with_work_same (t : tables PT) : with_work t (workque t) (workstatistik t) = t.
Proof. by destruct t. Qed.

(** Whether an element of the work queue is made. *)
Definition queued (x : DataUpdateTransaction PT) : bool := addToWorkQueue x && negb (onlyHqcData x).

Lemma updateWorkQue_ok (x : DataUpdateTransaction PT) id pri (t : tables PT) :
  tables_wf t -> id ∈ obs_ids t -> Forall (fun w => w_observationid w <> id) (workque t) ->
  updateWorkQue x id pri t =
    if queued x
    then inl (set_observationid x id, with_work t (workque t ++ [new_work x id pri]) (workstatistik t))
    else inl (set_observationid x (- id), t).
Proof.
  intros HW Hid Hw. unfold updateWorkQue, queued.
  destruct (addToWorkQueue x), (onlyHqcData x); simpl; try done.
  unfold bind, insert_workque. simpl. rewrite (proj2 (has_observation_elem id t) Hid).
  assert (existsb (fun w => w_observationid w =? id) (workque t) = false) as ->; [|done].
  apply existsb_false. eapply Forall_impl; [exact Hw|]. intros w. simpl. lia.
Qed.

Lemma new_id_elem now o (t : tables PT) :
  observationid_seq t + 1 ∈ obs_ids (with_observation now o t).
Proof. unfold obs_ids. simpl. rewrite fmap_app, elem_of_app. right. left. Qed.

(** The common end of the branches. *)
Definition queue_row (x : DataUpdateTransaction PT) (now : ptime PT) (t : tables PT) : list WorkRow :=
  if queued x
  then [new_work x (observationid_seq t + 1)
          (priority_of now (dut_stationid x) (dut_typeid x) (dut_obstime x) t)]
  else [].

Lemma insert_and_queue_ok {DL : DbTextLaws DT} (x : DataUpdateTransaction PT) now o (t : tables PT) :
  tables_wf t -> obs_ok o ->
  no_such_obs (ob_stationid o) (ob_typeid o) (db_time (ob_obstime o)) t ->
  let id := observationid_seq t + 1 in
  let t1 := with_observation now o t in
  let t2 := with_work t1 (workque t ++ queue_row x now t) (workstatistik t) in
  insert_and_queue x now o t = inl ((true, set_observationid x (if queued x then id else - id)), t2) /\
  tables_wf t2.
Proof.
  intros HW Hok Hno id t1 t2. pose proof (insertIntoDb_ok now o t HW Hok Hno) as E1.
  pose proof (insertIntoDb_wf _ _ _ _ _ HW E1) as HW1. fold id in E1, HW1. fold t1 in E1, HW1.
  unfold insert_and_queue, getPriority, query, bind. rewrite E1. cbn [observationid_ with_id].
  set (pri := priority_of _ _ _ _ _).
  assert (Hu : updateWorkQue x id pri t1 =
    inl (set_observationid x (if queued x then id else - id), t2)).
  { rewrite updateWorkQue_ok; [|done|apply new_id_elem|].
    2: { exact (fresh_key w_observationid _ _ HW (wf_work _ HW)). }
    unfold t2, queue_row. destruct (queued x); [done|]. rewrite app_nil_r.
    change (with_work t1 (workque t) (workstatistik t))
      with (with_work t1 (workque t1) (workstatistik t1)). by rewrite with_work_same. }
  rewrite Hu. split; [done|]. clearbody t2. unfold updateWorkQue in Hu.
  destruct (negb (addToWorkQueue x) || onlyHqcData x); [by injection Hu as _ <-|].
  unfold bind in Hu. destruct (insert_workque _ t1) as [[u t3]|] eqn:E2; [|done].
  apply insert_workque_wf in E2; [|done]. by injection Hu as _ <-.
Qed.

(** The end of a replacement and of an update: the old observation is deleted and
    the new one stored and queued. *)
Definition delete_and_insert (x : DataUpdateTransaction PT) now id o
  : M (bool * DataUpdateTransaction PT) :=
  let* x := checkWorkQue x id in
  delete_observations id ;;;
  insert_and_queue x now o.

Definition has_unprocessed (id : Z) (t : tables PT) : bool :=
  (0 <? length (select_unprocessed id t))%nat.

Lemma work_unique (t : tables PT) w w' :
  tables_wf t -> w ∈ workque t -> w' ∈ workque t -> w_observationid w = w_observationid w' -> w = w'.
Proof.
  intros HW Hw Hw' E. pose proof (wf_work_keys _ HW) as HN.
  apply list_elem_of_lookup in Hw as [i Hi], Hw' as [j Hj].
  assert (i = j) as <-; [|congruence]. apply (NoDup_lookup _ _ _ (w_observationid w) HN);
    rewrite list_lookup_fmap; [by rewrite Hi|by rewrite Hj, E].
Qed.

Lemma unprocessed_elem id (t : tables PT) :
  has_unprocessed id t = true <->
  exists w, w ∈ workque t /\ w_observationid w = id /\ w_qa_stop w = None.
Proof.
  unfold has_unprocessed. rewrite Nat.ltb_lt. split.
  - destruct (select_unprocessed id t) as [|w l] eqn:E; simpl; [lia|]. intros _. exists w.
    assert (w ∈ select_unprocessed id t) as [? ?]%list_elem_of_filter by (rewrite E; left). tauto.
  - intros (w & Hw & H1 & H2).
    assert (w ∈ select_unprocessed id t) as Hin by (by apply list_elem_of_filter).
    destruct (select_unprocessed id t); [by apply not_elem_of_nil in Hin|simpl; lia].
Qed.

(** Taking an observation out of the tables and of the queue. *)
Lemma check_and_delete_ok (x : DataUpdateTransaction PT) r (t : tables PT) :
  tables_wf t -> r ∈ observations t ->
  let oid := o_observationid r in
  exists x2 t2 t3, checkWorkQue x oid t = inl (x2, t2) /\ delete_observations oid t2 = inl (tt, t3) /\
    x2 = (if has_unprocessed oid t then set_publish x (clear (dataToPublish_ x)) false else x) /\
    tables_wf t3 /\
    (forall st ty ot, stored st ty ot t3 =
       if decide (obs_match st ty ot r) then None else stored st ty ot t) /\
    observationid_seq t3 = observationid_seq t /\ priority t3 = priority t /\
    (forall w, w ∈ workque t3 <-> w ∈ workque t /\ w_observationid w <> oid) /\
    (forall w, w ∈ workque t -> w_observationid w = oid -> w_qa_stop w <> None ->
       exists s, s ∈ workstatistik t3 /\ w_observationid (s_work s) = oid).
Proof.
  intros HW Hr oid.
  destruct (checkWorkQue_ok x oid t HW) as (x2 & t2 & E2 & HW2 & O1 & O2 & O3 & O4 & O5 & Hq).
  destruct (delete_observations oid t2) as [[[] t3]|] eqn:E3; [|done].
  exists x2, t2, t3. fold (has_unprocessed oid t) in Hq. split; [done|]. split; [done|].
  split; [destruct (has_unprocessed oid t); apply Hq|].
  split; [by apply (delete_observations_wf _ _ _ _ HW2 E3)|]. split.
  { intros *. rewrite (stored_delete r st ty ot t2 t3 HW2 (eq_ind_r _ Hr O1) E3).
    unfold stored, row_data, row_texts. by rewrite O1, O2, O3. }
  injection E3 as <-. simpl. split; [done|]. split; [done|]. split.
  - intros w. rewrite list_elem_of_filter.
    destruct (has_unprocessed oid t); destruct Hq as [_ Hq]; [rewrite Hq; tauto|].
    rewrite (proj1 Hq w). tauto.
  - intros w Hw Hid Hst. destruct (has_unprocessed oid t) eqn:Eu.
    + apply unprocessed_elem in Eu as (w' & Hw' & H1 & H2).
      by rewrite (work_unique t w w' HW Hw Hw' (eq_trans Hid (eq_sym H1))) in Hst.
    + destruct Hq as (_ & _ & Hq). apply (Hq w); [done..|]. by apply list_elem_of_fmap_2.
Qed.

Lemma delete_and_insert_ok {DL : DbTextLaws DT} (x : DataUpdateTransaction PT) now r o (t : tables PT) :
  tables_wf t -> obs_ok o -> r ∈ observations t ->
  obs_match (ob_stationid o) (ob_typeid o) (db_time (ob_obstime o)) r ->
  let oid := o_observationid r in
  let id := observationid_seq t + 1 in
  let r' := obs_row now id o in
  let q := addToWorkQueue x && (has_unprocessed oid t || negb (onlyHqcData x)) in
  exists x' t', delete_and_insert x now oid o t = inl ((true, x'), t') /\ tables_wf t' /\
    (forall st ty ot, stored st ty ot t' =
       if decide (obs_match st ty ot r')
       then Some (r', stored_value r' <$> data_ o, stored_text r' <$> textData_ o)
       else stored st ty ot t) /\
    (forall w, w ∈ workque t' <->
       (w ∈ workque t /\ w_observationid w <> oid) \/
       (q = true /\ w = new_work x id (priority_of now (dut_stationid x) (dut_typeid x)
                                        (dut_obstime x) t))) /\
    (forall w, w ∈ workque t -> w_observationid w = oid -> w_qa_stop w <> None ->
       exists s, s ∈ workstatistik t' /\ w_observationid (s_work s) = oid) /\
    dut_observationid x' = (if q then id else - id) /\ insertType x' = insertType x.
Proof.
  intros HW Hok Hr Hm oid id r' q.
  destruct (check_and_delete_ok x r t HW Hr) as (x2 & t2 & t3 & E2 & E3 & Hx2 & HW3 & Hs3 & S1 & S2 & S3 & S4).
  fold oid in E2, E3, Hx2, S3, S4.
  assert (Hno : no_such_obs (ob_stationid o) (ob_typeid o) (db_time (ob_obstime o)) t3)
    by (apply stored_none; by rewrite Hs3, decide_True).
  destruct (insert_and_queue_ok x2 now o t3 HW3 Hok Hno) as [E4 HW4].
  eexists _, _. split; [unfold delete_and_insert, bind; rewrite E2, E3; exact E4|].
  split; [exact HW4|].
  assert (Q : queued x2 = q) by (unfold q, queued; subst x2; fold oid; by destruct (has_unprocessed oid t)).
  assert (Hrow : queue_row x2 now t3 = if q then [new_work x id (priority_of now (dut_stationid x)
    (dut_typeid x) (dut_obstime x) t)] else []).
  { unfold queue_row, priority_of, select_priority. rewrite Q, S1, S2. subst x2.
    by destruct (has_unprocessed oid t). }
  split; [|split; [|split; [exact S4|split; simpl; [by rewrite Q, S1|]]]].
  - intros st ty ot. transitivity (stored st ty ot (with_observation now o t3)); [done|].
    rewrite stored_with_observation by (done || apply Hok). rewrite S1. fold id. fold r'.
    destruct (decide (obs_match st ty ot r')) as [Hm'|Hm']; [done|].
    rewrite Hs3, decide_False; [done|]. intros (N1 & N2 & N3). apply Hm'.
    destruct Hm as (M1 & M2 & M3). unfold obs_match. simpl. by rewrite <- M1, <- M2, <- M3.
  - intros w. simpl. rewrite Hrow, elem_of_app, S3.
    destruct q; [rewrite list_elem_of_singleton; tauto|].
    split; [intros [?|[]%not_elem_of_nil]; tauto|intros [?|[? _]]; [by left|done]].
  - subst x2. by destruct (has_unprocessed oid t).
Qed.
End queue.

(** ** Lemmas: merging with stored values *)

Section merging.
  Context {PT : PTime} {DT : DbText PT}.

Lemma NoDup_fmap_via {A B C} (f : A -> B) (g : A -> C) (l : list A) :
  (forall x y, x ∈ l -> y ∈ l -> g x = g y -> f x = f y) -> NoDup (f <$> l) -> NoDup (g <$> l).
Proof.
  intros H HN. induction l as [|x l IH]; [constructor|]. rewrite fmap_cons in *.
  apply NoDup_cons in HN as [Hx HN]. apply NoDup_cons. split.
  - intros (y & E & Hy)%list_elem_of_fmap. apply Hx. apply list_elem_of_fmap.
    exists y. split; [|done]. apply H; [left|by right|done].
  - apply IH; [|done]. intros y z Hy Hz. apply H; by right.
Qed.

Lemma row_data_keys r (t : tables PT) : tables_wf t -> NoDup (value_key <$> row_data r t).
Proof.
  intros HW. unfold row_data. rewrite <- list_fmap_compose.
  apply (NoDup_fmap_via data_key); [|by apply NoDup_filter_key, wf_data_keys].
  intros d e [Hd _]%list_elem_of_filter [He _]%list_elem_of_filter [= E1 E2 E3].
  unfold data_key. congruence.
Qed.

Lemma row_texts_keys r (t : tables PT) : tables_wf t -> NoDup (tx_paramid_ <$> row_texts r t).
Proof.
  intros HW. unfold row_texts. rewrite <- list_fmap_compose.
  apply (NoDup_fmap_via text_key); [|by apply NoDup_filter_key, wf_text_keys].
  intros d e [Hd _]%list_elem_of_filter [He _]%list_elem_of_filter E. simpl in E.
  unfold text_key. congruence.
Qed.

(** The values, and the texts, of one observation. *)
Definition all_of (st ty : Z) (ot : ptime PT) (l : list (kvData PT)) : Prop :=
  Forall (fun d => stationid_ d = st /\ typeid_ d = ty /\ obstime_ d = ot) l.
Definition all_texts_of (st ty : Z) (ot : ptime PT) (l : list (kvTextData PT)) : Prop :=
  Forall (fun d => tx_stationid_ d = st /\ tx_typeid_ d = ty /\ tx_obstime_ d = ot) l.

Lemma row_data_of r (t : tables PT) : all_of (o_stationid r) (o_typeid r) (o_obstime r) (row_data r t).
Proof. apply Forall_fmap. by apply Forall_forall. Qed.

Lemma row_texts_of r (t : tables PT) :
  all_texts_of (o_stationid r) (o_typeid r) (o_obstime r) (row_texts r t).
Proof. apply Forall_fmap. by apply Forall_forall. Qed.

(** A merge over one observation is decided by the keys within it. *)
Lemma merge_keys {A K} `{!EqDecision K} (same : A -> A -> bool) (key : A -> K) (new old : list A) :
  (forall a b, a ∈ old -> b ∈ new ++ old -> same a b = true <-> key a = key b) ->
  NoDup (key <$> new) -> NoDup (key <$> old) ->
  merge same new old = new ++ filter (fun e => key e ∉ key <$> new) old /\
  NoDup (key <$> merge same new old).
Proof.
  intros Hs HN HO.
  assert (E : merge same new old = new ++ filter (fun e => key e ∉ key <$> new) old).
  { rewrite merge_spec.
    - f_equal. apply list_filter_iff'. intros e He. rewrite existsb_false, Forall_forall. split.
      + intros H (n & En & Hn)%list_elem_of_fmap. specialize (H n Hn). simpl in H.
        apply not_true_iff_false in H. apply H, Hs; [done| |done]. apply elem_of_app. by left.
      + intros H n Hn. simpl. apply not_true_iff_false. intros Hsn. apply H.
        apply list_elem_of_fmap. exists n. split; [|done]. apply Hs; [done| |done].
        apply elem_of_app. by left.
    - intros i j a b Hi Hj Hij. apply not_true_iff_false. intros H.
      apply list_elem_of_lookup_2 in Hi as Ha, Hj as Hb.
      apply Hs in H; [|done|by apply elem_of_app; right].
      assert (i = j); [|lia]. apply (NoDup_lookup _ _ _ (key a) HO);
        rewrite list_lookup_fmap; [by rewrite Hi|by rewrite Hj, <- H]. }
  split; [done|]. rewrite E, fmap_app. apply NoDup_app. split; [done|]. split.
  - intros k Hk (e & -> & [He _]%list_elem_of_filter)%list_elem_of_fmap. done.
  - by apply NoDup_filter_key.
Qed.

Lemma same_elem_key st ty ot (l1 l2 : list (kvData PT)) a b :
  all_of st ty ot l1 -> all_of st ty ot l2 -> a ∈ l2 -> b ∈ l1 ++ l2 ->
  same_elem a b = true <-> value_key a = value_key b.
Proof.
  unfold all_of. rewrite !Forall_forall. intros H1 H2 Ha Hb. destruct (H2 a Ha) as (A1 & A2 & A3).
  assert (stationid_ b = st /\ typeid_ b = ty /\ obstime_ b = ot) as (B1 & B2 & B3)
    by (apply elem_of_app in Hb as [Hb|Hb]; auto).
  unfold same_elem, value_key. rewrite A1, A2, A3, B1, B2, B3, !Z.eqb_refl, bool_decide_true by done.
  simpl. rewrite !andb_true_iff, !Z.eqb_eq. split; [intros [[-> ->] ->]; done|intros [= -> -> ->]; done].
Qed.

Lemma same_text_elem_key st ty ot (l1 l2 : list (kvTextData PT)) a b :
  all_texts_of st ty ot l1 -> all_texts_of st ty ot l2 -> a ∈ l2 -> b ∈ l1 ++ l2 ->
  same_text_elem a b = true <-> tx_paramid_ a = tx_paramid_ b.
Proof.
  unfold all_texts_of. rewrite !Forall_forall. intros H1 H2 Ha Hb.
  destruct (H2 a Ha) as (A1 & A2 & A3).
  assert (tx_stationid_ b = st /\ tx_typeid_ b = ty /\ tx_obstime_ b = ot) as (B1 & B2 & B3)
    by (apply elem_of_app in Hb as [Hb|Hb]; auto).
  unfold same_text_elem. rewrite A1, A2, A3, B1, B2, B3, !Z.eqb_refl, bool_decide_true by done.
  simpl. by rewrite Z.eqb_eq.
Qed.
End merging.

(** ** Properties *)

Section properties.
  Context {PT : PTime} {PL : PTimeLaws PT} {PC : PCalendar PT} {DT : DbText PT}.
  Context {DL : DbTextLaws DT}.

(** A transaction with something to save and a proper time, that no log refuses. *)
Definition ready (x : DataUpdateTransaction PT) : Prop :=
  is_not_a_date_time (dut_obstime x) = false /\ (newData x <> [] \/ newTextData x <> []) /\
  log_error x = false.

Lemma onlyHqcDataCheck_fields (x : DataUpdateTransaction PT) :
  newData (onlyHqcDataCheck x) = newData x /\ newTextData (onlyHqcDataCheck x) = newTextData x /\
  onlyHqcData (onlyHqcDataCheck x) = forallb (fun d => hqcDone (controlinfo_ d)) (newData x).
Proof. unfold onlyHqcDataCheck. by destruct (forallb _ _). Qed.

Lemma perform_start (x : DataUpdateTransaction PT) now (t : tables PT) :
  tables_wf t -> ready x ->
  let x1 := onlyHqcDataCheck x in
  perform x now t =
    match stored (dut_stationid x) (dut_typeid x) (db_time (dut_obstime x)) t with
    | None => insert_and_queue (set_insertType x1 "INSERT") now (newObservation x1 now) t
    | Some (r, ds, ts) =>
        let old := read_result now (dut_obstime x) r t in
        match isEqual x1 ds ts t with
        | inl (true, t') =>
            inl ((true, set_observationid
                     (set_insertType (set_publish x1 (clear (dataToPublish_ x1)) (onlyHqcData x1))
                        "DUPLICATE") (o_observationid r)), t')
        | inl (false, t') =>
            (if is_insert x1
             then replaceObservation (set_insertType x1 "REPLACE") now (o_observationid r)
             else updateObservation (set_insertType x1 "UPDATE") now old) t'
        | inr e => inr e
        end
    end.
Proof.
  intros HW (H1 & H2 & H3) x1.
  assert (E : perform x now t =
    (let* oldObs := getFromDb now (dut_stationid x1) (dut_typeid x1) (dut_obstime x1) in
        match oldObs with
        | None => insert_and_queue (set_insertType x1 "INSERT") now (newObservation x1 now)
        | Some old =>
            let* eq := isEqual x1 (data_ old) (textData_ old) in
            if eq then
              ret (true, set_observationid
                           (set_insertType (set_publish x1 (clear (dataToPublish_ x1)) (onlyHqcData x1))
                              "DUPLICATE") (observationid_ old))
            else if is_insert x1
            then replaceObservation (set_insertType x1 "REPLACE") now (observationid_ old)
            else updateObservation (set_insertType x1 "UPDATE") now old
        end) t).
  { unfold perform. rewrite H1.
    assert (log_error x1 = false) as Hl.
    { rewrite <- H3. unfold log_error, x1, onlyHqcDataCheck. by destruct (forallb _ _). }
    fold x1. rewrite Hl. destruct (newData x), (newTextData x); try done. by destruct H2. }
  rewrite E. unfold bind at 1.
  assert (dut_stationid x1 = dut_stationid x /\ dut_typeid x1 = dut_typeid x /\
          dut_obstime x1 = dut_obstime x) as (-> & -> & ->)
    by (unfold x1, onlyHqcDataCheck; by destruct (forallb _ _)).
  rewrite getFromDb_stored by done.
  destruct (stored _ _ _ t) as [[[r ds] ts]|] eqn:Es; [|done]. simpl.
  destruct (read_result_values now (dut_obstime x) r t) as (V1 & V2 & V3 & _).
  apply stored_some in Es as (_ & _ & -> & ->). rewrite V1, V2, V3.
  unfold bind. destruct (isEqual x1 _ _ t) as [[[] t']|]; [done| |done]. by destruct (is_insert x1).
Qed.

Definition all_hqc (x : DataUpdateTransaction PT) : bool :=
  forallb (fun d => hqcDone (controlinfo_ d)) (newData x).

Lemma newObservation_check (x : DataUpdateTransaction PT) now :
  newObservation (onlyHqcDataCheck x) now = newObservation x now.
Proof. unfold onlyHqcDataCheck. by destruct (forallb _ _). Qed.

Lemma new_work_check (x : DataUpdateTransaction PT) it :
  new_work (set_insertType (onlyHqcDataCheck x) it) = new_work x /\
  addToWorkQueue (set_insertType (onlyHqcDataCheck x) it) = addToWorkQueue x /\
  onlyHqcData (set_insertType (onlyHqcDataCheck x) it) = all_hqc x /\
  dut_stationid (set_insertType (onlyHqcDataCheck x) it) = dut_stationid x /\
  dut_typeid (set_insertType (onlyHqcDataCheck x) it) = dut_typeid x /\
  dut_obstime (set_insertType (onlyHqcDataCheck x) it) = dut_obstime x.
Proof. unfold onlyHqcDataCheck, all_hqc. by destruct (forallb _ _). Qed.

(** a new observation. When none is stored for the station, type and time,
    the values are stored under a new id, nothing else changes, and exactly one
    element is added to the work queue, unless that was not asked for or every
    value has been through the operators' control already. *)
Theorem perform_insert (x : DataUpdateTransaction PT) (now : ptime PT) (t : tables PT) :
  tables_wf t -> ready x -> obs_ok (newObservation x now) ->
  stored (dut_stationid x) (dut_typeid x) (db_time (dut_obstime x)) t = None ->
  let id := observationid_seq t + 1 in
  let r := obs_row now id (newObservation x now) in
  exists x' t', perform x now t = inl ((true, x'), t') /\ tables_wf t' /\
    insertType x' = "INSERT"%string /\
    (forall st ty ot, stored st ty ot t' =
       if decide (obs_match st ty ot r)
       then Some (r, stored_value r <$> newData x, stored_text r <$> newTextData x)
       else stored st ty ot t) /\
    workque t' = workque t ++
      (if addToWorkQueue x && negb (all_hqc x)
       then [new_work x id (priority_of now (dut_stationid x) (dut_typeid x) (dut_obstime x) t)]
       else []) /\
    workstatistik t' = workstatistik t.
Proof.
  intros HW Hr Hok Hno id r. rewrite perform_start, Hno by done. rewrite newObservation_check.
  apply stored_none in Hno.
  destruct (insert_and_queue_ok (set_insertType (onlyHqcDataCheck x) "INSERT") now
    (newObservation x now) t HW Hok Hno) as [E HW'].
  eexists _, _. split; [exact E|]. split; [exact HW'|]. split; [done|]. split; [|split; [|done]].
  - intros st ty ot. transitivity (stored st ty ot (with_observation now (newObservation x now) t));
      [done|]. by rewrite stored_with_observation by (done || apply Hok).
  - simpl. unfold queue_row, queued.
    by destruct (new_work_check x "INSERT") as (-> & -> & -> & -> & -> & ->).
Qed.

(** C19: a duplicate. When the comparison says that the new values are stored
    already, the tables stay exactly as they are, nothing is published and the
    transaction succeeds with the id of the stored observation. *)
Theorem perform_duplicate (x : DataUpdateTransaction PT) (now : ptime PT) (t : tables PT) r ds ts :
  tables_wf t -> ready x ->
  stored (dut_stationid x) (dut_typeid x) (db_time (dut_obstime x)) t = Some (r, ds, ts) ->
  isEqual (onlyHqcDataCheck x) ds ts t = inl (true, t) ->
  exists x', perform x now t = inl ((true, x'), t) /\ insertType x' = "DUPLICATE"%string /\
    empty (dataToPublish_ x') = true /\ dut_observationid x' = o_observationid r.
Proof.
  intros HW Hr Hs Heq. rewrite perform_start, Hs, Heq by done. by eexists.
Qed.

Lemma checkWorkQue_kept (x x2 : DataUpdateTransaction PT) id (t t2 : tables PT) :
  checkWorkQue x id t = inl (x2, t2) ->
  tryToUseDataTbTime x2 = tryToUseDataTbTime x /\
  (forall now, newObservation x2 now = newObservation x now).
Proof.
  unfold checkWorkQue, bind, query. case_match; [by intros [= <- _]|].
  destruct (worqueToWorkStatistik id t) as [[u t1]|]; [by intros [= <- _]|done].
Qed.

Lemma replace_as_delete (x : DataUpdateTransaction PT) now id (t : tables PT) :
  replaceObservation (set_insertType (onlyHqcDataCheck x) "REPLACE") now id t =
  delete_and_insert (set_insertType (onlyHqcDataCheck x) "REPLACE") now id (newObservation x now) t.
Proof.
  unfold replaceObservation, delete_and_insert. unfold bind at 1 3.
  destruct (checkWorkQue _ id t) as [[x2 t2]|] eqn:E; [|done].
  apply checkWorkQue_kept in E as [_ E]. rewrite E. unfold bind.
  destruct (delete_observations id t2) as [[u t3]|]; [|done].
  by rewrite <- (newObservation_check x now).
Qed.

(** C13: Replacement, of an observation whose stored values differ, by a transaction
    that inserts, on tables that keep the constraints; it has a time and values or
    texts, these have times and different keys, and the values have sensors from 0 to
    9, legal flags and no quote in their lists of failed checks. The observation holds
    exactly the new values afterwards, under a new id; every other observation is
    untouched. The element of the work queue of the old observation is gone. When it
    had been processed it is in the statistics. When it had not been, the new
    observation is queued in its place if the caller wants the work queue to be used,
    even if all its values come from the operators; if the caller does not, the
    unprocessed element is deleted and the new observation is not queued. *)
Theorem perform_replace (x : DataUpdateTransaction PT) (now : ptime PT) (t : tables PT) r ds ts :
  tables_wf t -> ready x -> obs_ok (newObservation x now) -> insertOrUpdate x = DbInsert ->
  stored (dut_stationid x) (dut_typeid x) (db_time (dut_obstime x)) t = Some (r, ds, ts) ->
  isEqual (onlyHqcDataCheck x) ds ts t = inl (false, t) ->
  let oid := o_observationid r in
  let id := observationid_seq t + 1 in
  let r' := obs_row now id (newObservation x now) in
  let q := addToWorkQueue x && (has_unprocessed oid t || negb (all_hqc x)) in
  exists x' t', perform x now t = inl ((true, x'), t') /\ tables_wf t' /\
    insertType x' = "REPLACE"%string /\
    (forall st ty ot, stored st ty ot t' =
       if decide (obs_match st ty ot r')
       then Some (r', stored_value r' <$> newData x, stored_text r' <$> newTextData x)
       else stored st ty ot t) /\
    (forall w, w ∈ workque t' <->
       (w ∈ workque t /\ w_observationid w <> oid) \/
       (q = true /\ w = new_work x id (priority_of now (dut_stationid x) (dut_typeid x)
                                        (dut_obstime x) t))) /\
    (forall w, w ∈ workque t -> w_observationid w = oid -> w_qa_stop w <> None ->
       exists s, s ∈ workstatistik t' /\ w_observationid (s_work s) = oid).
Proof.
  intros HW Hr Hok Hi Hs Heq oid id r' q. rewrite perform_start, Hs, Heq by done.
  assert (is_insert (onlyHqcDataCheck x) = true) as ->
    by (unfold is_insert, onlyHqcDataCheck; destruct (forallb _ _); by apply bool_decide_true).
  apply stored_some in Hs as (Hin & Hm & _).
  destruct (delete_and_insert_ok (set_insertType (onlyHqcDataCheck x) "REPLACE") now r
    (newObservation x now) t HW Hok Hin Hm) as (x' & t' & E & HW' & H1 & H2 & H3 & _ & H4).
  destruct (new_work_check x "REPLACE") as (E1 & E2 & E3 & E4 & E5 & E6).
  rewrite E1, E2, E3, E4, E5, E6 in H2. exists x', t'. split; [|by rewrite H4].
  by rewrite replace_as_delete.
Qed.

(** The observation that an update writes. *)
Definition updatedObservation (x : DataUpdateTransaction PT) now ot r ds ts : Observation PT :=
  let d := newData x ++ filter (fun e => value_key e ∉ value_key <$> newData x) ds in
  let td := newTextData x ++
            filter (fun e => tx_paramid_ e ∉ tx_paramid_ <$> newTextData x) ts in
  Observation_set (o_stationid r) (o_typeid r) ot
    (useTbTime x now d td (ob_tbtime (loaded r ds ts))) d td.

Lemma merge_update_ok (x : DataUpdateTransaction PT) r (t : tables PT) :
  tables_wf t ->
  Forall value_ok (newData x) -> NoDup (value_key <$> newData x) ->
  NoDup (tx_paramid_ <$> newTextData x) -> Forall value_ok (row_data r t) ->
  all_of (o_stationid r) (o_typeid r) (o_obstime r) (newData x) ->
  all_texts_of (o_stationid r) (o_typeid r) (o_obstime r) (newTextData x) ->
  (forall now, obs_ok (updatedObservation x now (o_obstime r) r (row_data r t) (row_texts r t))) /\
  merge same_elem (newData x) (row_data r t) =
    newData x ++ filter (fun e => value_key e ∉ value_key <$> newData x) (row_data r t) /\
  merge same_text_elem (newTextData x) (row_texts r t) =
    newTextData x ++ filter (fun e => tx_paramid_ e ∉ tx_paramid_ <$> newTextData x) (row_texts r t).
Proof.
  intros HW Hok HN HNt Hds Ha Hta.
  destruct (merge_keys same_elem value_key (newData x) (row_data r t)) as [E1 N1];
    [intros a b Hia Hib; by apply (same_elem_key _ _ _ _ _ _ _ Ha (row_data_of r t))|done
    |by apply row_data_keys|].
  destruct (merge_keys same_text_elem tx_paramid_ (newTextData x) (row_texts r t)) as [E2 N2];
    [intros a b Hia Hib; by apply (same_text_elem_key _ _ _ _ _ _ _ Hta (row_texts_of r t))|done
    |by apply row_texts_keys|].
  split; [|done]. intros now. rewrite E1 in N1. rewrite E2 in N2. split; [|done]. simpl.
  apply Forall_app. split; [done|]. rewrite Forall_forall in *.
  intros d [_ Hd]%list_elem_of_filter. auto.
Qed.

(** An update of an observation with values is a deletion and an insertion. *)
Lemma update_as_delete (x : DataUpdateTransaction PT) now ot r (t t0 : tables PT) :
  row_data r t <> [] \/ row_texts r t <> [] ->
  merge same_elem (newData x) (row_data r t) =
    newData x ++ filter (fun e => value_key e ∉ value_key <$> newData x) (row_data r t) ->
  merge same_text_elem (newTextData x) (row_texts r t) =
    newTextData x ++ filter (fun e => tx_paramid_ e ∉ tx_paramid_ <$> newTextData x) (row_texts r t) ->
  newData x <> [] \/ newTextData x <> [] ->
  updateObservation (set_insertType (onlyHqcDataCheck x) "UPDATE") now (read_result now ot r t) t0 =
  delete_and_insert (set_insertType (onlyHqcDataCheck x) "UPDATE") now (o_observationid r)
    (updatedObservation x now (o_obstime r) r (row_data r t) (row_texts r t)) t0.
Proof.
  intros Hne M1 M2 Hnew.
  assert (E : read_result now ot r t = loaded r (row_data r t) (row_texts r t)).
  { unfold read_result. destruct (row_data r t), (row_texts r t); try done. by destruct Hne. }
  rewrite E. unfold updateObservation.
  cbn [data_ textData_ observationid_ ob_stationid ob_typeid ob_obstime ob_tbtime loaded].
  set (y := set_insertType (onlyHqcDataCheck x) "UPDATE").
  assert (Hy : newData y = newData x /\ newTextData y = newTextData x /\
               tryToUseDataTbTime y = tryToUseDataTbTime x)
    by (unfold y, onlyHqcDataCheck; by destruct (forallb _ _)).
  destruct Hy as (-> & -> & Hy). rewrite M1, M2. unfold delete_and_insert, updatedObservation.
  set (d := newData x ++ _). set (td := newTextData x ++ _).
  assert (H : forall m : M (bool * DataUpdateTransaction PT),
    match d, td with [], [] => ret (true, y) | _, _ => m end = m).
  { intros m. unfold d, td. destruct (newData x), (newTextData x); try done; [by destruct Hnew|].
    simpl. by destruct (filter _ (row_data r t)). }
  rewrite H. unfold bind at 1 3.
  destruct (checkWorkQue y (o_observationid r) t0) as [[x2 t2]|] eqn:Ec; [|done].
  apply checkWorkQue_kept in Ec as [Ec _]. unfold useTbTime. by rewrite Ec, Hy.
Qed.

(** C15: update. When the stored values differ and the transaction updates an
    observation that has values, the new values take the place of the stored
    ones with the same parameter, level and sensor, all other stored values and
    texts stay, and every other observation is untouched; the queue is treated as
    in a replacement. *)
Theorem perform_update (x : DataUpdateTransaction PT) (now : ptime PT) (t : tables PT) r ds ts :
  tables_wf t -> ready x -> insertOrUpdate x = DbUpdate ->
  stored (dut_stationid x) (dut_typeid x) (db_time (dut_obstime x)) t = Some (r, ds, ts) ->
  isEqual (onlyHqcDataCheck x) ds ts t = inl (false, t) ->
  (ds <> [] \/ ts <> []) -> obs_ok (newObservation x now) -> Forall value_ok ds ->
  all_of (o_stationid r) (o_typeid r) (o_obstime r) (newData x) ->
  all_texts_of (o_stationid r) (o_typeid r) (o_obstime r) (newTextData x) ->
  let oid := o_observationid r in
  let id := observationid_seq t + 1 in
  let o := updatedObservation x now (o_obstime r) r ds ts in
  let r' := obs_row now id o in
  let q := addToWorkQueue x && (has_unprocessed oid t || negb (all_hqc x)) in
  exists x' t', perform x now t = inl ((true, x'), t') /\ tables_wf t' /\
    insertType x' = "UPDATE"%string /\
    (forall st ty ot, stored st ty ot t' =
       if decide (obs_match st ty ot r')
       then Some (r', stored_value r' <$> data_ o, stored_text r' <$> textData_ o)
       else stored st ty ot t) /\
    (forall w, w ∈ workque t' <->
       (w ∈ workque t /\ w_observationid w <> oid) \/
       (q = true /\ w = new_work x id (priority_of now (dut_stationid x) (dut_typeid x)
                                        (dut_obstime x) t))) /\
    (forall w, w ∈ workque t -> w_observationid w = oid -> w_qa_stop w <> None ->
       exists s, s ∈ workstatistik t' /\ w_observationid (s_work s) = oid).
Proof.
  intros HW Hr Hi Hs Heq Hne (Hok & HN & HNt) Hds Ha Hta oid id o r' q.
  rewrite perform_start, Hs, Heq by done. cbv zeta.
  assert (is_insert (onlyHqcDataCheck x) = false) as ->
    by (unfold is_insert, onlyHqcDataCheck; destruct (forallb _ _); apply bool_decide_false; simpl; congruence).
  apply stored_some in Hs as (Hin & Hm & -> & ->).
  destruct (merge_update_ok x r t HW Hok HN HNt Hds Ha Hta) as (Ho & M1 & M2).
  assert (db_time (o_obstime r) = o_obstime r) as Ht
    by (destruct Hm as (_ & _ & ->); apply db_time_idem).
  destruct (delete_and_insert_ok (set_insertType (onlyHqcDataCheck x) "UPDATE") now r o t HW (Ho now) Hin)
    as (x' & t' & E & HW' & H1 & H2 & H3 & _ & H4); [by unfold obs_match; simpl; rewrite Ht|].
  destruct (new_work_check x "UPDATE") as (E1 & E2 & E3 & E4 & E5 & E6).
  rewrite E1, E2, E3, E4, E5, E6 in H2. exists x', t'. split; [|by rewrite H4].
  rewrite <- E. apply update_as_delete; [done..|apply Hr].
Qed.

(** What makes a new value the same as a stored one in each kind of test. *)
Definition value_same (k : DuplicateTestType) : kvData PT -> kvData PT -> bool :=
  match k with Partial => partial_same | Complete => complete_same end.

(** The comparison. In a complete test, and in a partial one when no stored
    original is missing, it has a result and leaves the tables alone; the result
    is that every new value and text has an equal stored one (values to the
    hundredth; flags and cfailed only in the complete test) and, when the
    observation is to be replaced, that there are as many new as stored ones. *)
Theorem isEqual_spec (x : DataUpdateTransaction PT) (od : list (kvData PT))
    (ot : list (kvTextData PT)) (t : tables PT) :
  duplicateTestType x = Complete \/ Forall (fun d => is_missing_original d = false) od ->
  exists b, isEqual x od ot t = inl (b, t) /\
    (b = true <->
       (insertOrUpdate x = DbInsert ->
        length (newData x) = length od /\ length (newTextData x) = length ot) /\
       (newData x <> [] \/ newTextData x <> []) /\
       (forall n, n ∈ newData x ->
          exists o, o ∈ od /\ value_same (duplicateTestType x) o n = true) /\
       (forall n, n ∈ newTextData x -> exists o, o ∈ ot /\ text_same o n = true)).
Proof.
  intros H. assert (Hins : is_insert x = true <-> insertOrUpdate x = DbInsert)
    by apply bool_decide_eq_true.
  unfold isEqual. destruct (duplicateTestType x) eqn:Ek; simpl value_same.
  - destruct H as [?|H]; [done|]. rewrite remove_missing_none by done.
    assert (E : (if partialIsEqual x od ot (is_insert x) then ret true
       else ret (partialIsEqual x od ot (is_insert x))) = ret (PT := PT) (partialIsEqual x od ot (is_insert x)))
      by (by destruct (partialIsEqual x od ot (is_insert x))).
    rewrite E. eexists. split; [reflexivity|]. unfold partialIsEqual.
    rewrite lists_equal_spec, Hins. done.
  - eexists. split; [reflexivity|]. unfold completeIsEqual. rewrite lists_equal_spec, Hins. done.
Qed.
End properties.

(** ** Instances *)

Definition sample_txn (iou : DBAddType) (d : list (kvData stamp_time)) : DataUpdateTransaction stamp_time :=
  DataUpdateTransaction_new (stamp_of 2024 1 1 6 0 0) 18700 501 d [] "log" iou true false Partial (-1).

Lemma sample_txn_ready iou p s : ready (sample_txn iou [sample_value p s]).
Proof. split; [done|]. split; [by left|done]. Qed.

Lemma sample_txn_ok iou p s : 0 <= s <= 9 ->
  obs_ok (newObservation (sample_txn iou [sample_value p s]) sample_now).
Proof.
  intros Hs. split; [constructor; [by apply sample_value_ok|constructor]|].
  split; [apply NoDup_singleton|constructor].
Qed.

(** The tables with the first of the sample values. *)
Definition one_tables : tables stamp_time :=
  with_observation (DT := stamp_text) sample_now
    (newObservation (sample_txn DbInsert [sample_value 211 0]) sample_now) empty_tables.

Lemma one_tables_wf : tables_wf one_tables.
Proof.
  refine (insertIntoDb_wf _ _ _ _ _ empty_tables_wf (insertIntoDb_ok (DT := stamp_text) sample_now _ _
    empty_tables_wf (sample_txn_ok DbInsert 211 0 ltac:(lia)) _)).
  intros o Ho. by apply not_elem_of_nil in Ho.
Qed.

Definition one_row : ObsRow := obs_row (DT := stamp_text) sample_now 1
  (newObservation (sample_txn DbInsert [sample_value 211 0]) sample_now).

Lemma perform_insert_witness :
  exists x' t', perform (DT := stamp_text) (sample_txn DbInsert [sample_value 211 0]) sample_now
    empty_tables = inl ((true, x'), t') /\ length (workque t') = 1%nat.
Proof.
  destruct (perform_insert (DT := stamp_text) (sample_txn DbInsert [sample_value 211 0]) sample_now
    empty_tables empty_tables_wf (sample_txn_ready _ _ _) (sample_txn_ok _ 211 0 ltac:(lia)) eq_refl)
    as (x' & t' & H1 & _ & _ & _ & H2 & _).
  exists x', t'. split; [exact H1|]. rewrite H2. vm_compute. reflexivity.
Defined.

Lemma perform_duplicate_witness :
  exists x', perform (DT := stamp_text) (sample_txn DbInsert [sample_value 211 0]) sample_now
    one_tables = inl ((true, x'), one_tables) /\ dut_observationid x' = 1.
Proof.
  destruct (perform_duplicate (DT := stamp_text) (sample_txn DbInsert [sample_value 211 0]) sample_now
    one_tables one_row [stored_value (DT := stamp_text) one_row (sample_value 211 0)] []
    one_tables_wf (sample_txn_ready _ _ _)) as (x' & H1 & _ & _ & H2);
    [vm_compute; reflexivity|vm_compute; reflexivity|].
  exists x'. split; [exact H1|exact H2].
Defined.

Lemma perform_replace_witness :
  exists x' t', perform (DT := stamp_text) (sample_txn DbInsert [sample_value 212 0]) sample_now
    one_tables = inl ((true, x'), t') /\ insertType x' = "REPLACE"%string.
Proof.
  destruct (perform_replace (DT := stamp_text) (sample_txn DbInsert [sample_value 212 0]) sample_now
    one_tables one_row [stored_value (DT := stamp_text) one_row (sample_value 211 0)] []
    one_tables_wf (sample_txn_ready _ _ _) (sample_txn_ok _ 212 0 ltac:(lia)) eq_refl)
    as (x' & t' & H1 & _ & H2 & _); [vm_compute; reflexivity|vm_compute; reflexivity|].
  exists x', t'. split; [exact H1|exact H2].
Defined.

Lemma perform_update_witness :
  exists x' t', perform (DT := stamp_text) (sample_txn DbUpdate [sample_value 212 0]) sample_now
    one_tables = inl ((true, x'), t') /\ insertType x' = "UPDATE"%string.
Proof.
  destruct (perform_update (DT := stamp_text) (sample_txn DbUpdate [sample_value 212 0]) sample_now
    one_tables one_row [stored_value (DT := stamp_text) one_row (sample_value 211 0)] []
    one_tables_wf (sample_txn_ready _ _ _) eq_refl)
    as (x' & t' & H1 & _ & H2 & _);
    [vm_compute; reflexivity|vm_compute; reflexivity|by left|apply sample_txn_ok; lia| | | |].
  - constructor; [|constructor]. apply (sample_value_ok 211 0). lia.
  - repeat constructor.
  - constructor.
  - exists x', t'. split; [exact H1|exact H2].
Defined.

Lemma isEqual_spec_witness :
  isEqual (sample_txn DbInsert [sample_value 211 0]) [sample_value 211 0] [] one_tables =
    inl (true, one_tables).
Proof.
  destruct (isEqual_spec (sample_txn DbInsert [sample_value 211 0]) [sample_value 211 0] [] one_tables)
    as (b & H & Hb); [right; constructor; [vm_compute; reflexivity|constructor]|].
  rewrite H. f_equal. f_equal. apply Hb. clear H Hb. split; [intros _; split; reflexivity|].
  split; [left; discriminate|]. split.
  - intros n ->%list_elem_of_singleton. exists (sample_value 211 0).
    split; [left|vm_compute; reflexivity].
  - intros n Hn. apply not_elem_of_nil in Hn. destruct Hn.
Defined.

(** ** What the code leaves undefined *)

Definition missing_value (p : Z) : kvData stamp_time :=
  kvData_set 18700 (stamp_of 2024 1 1 6 0 0) (Dbl.of_Z (-32767)) p (stamp_of 2024 1 1 6 5 0) 501 0 0
    (Dbl.of_Z (-32767)) kvControlInfo_new kvUseInfo_new "".

(** A stored observation whose last value is missing, and new values that differ:
    the loop that removes missing values steps past the end of the list. *)
Lemma isEqual_undefined :
  isEqual (sample_txn DbInsert [sample_value 211 0; sample_value 212 0])
    [sample_value 213 0; missing_value 211] [] one_tables = inr undefined_behaviour.
Proof. vm_compute. reflexivity. Qed.

(** Text data alone counts as values from the operators: it is not queued. *)
Lemma text_only_not_queued (x : DataUpdateTransaction stamp_time) :
  newData x = [] -> onlyHqcData (onlyHqcDataCheck x) = true.
Proof. intros H. unfold onlyHqcDataCheck. by rewrite H. Qed.
