(* ===== verification/Codes.v ===== *)
(** * Code tables of the synoptic messages
      (src/src/lib/decodeutility/decodeutility.cc)

    Visibility (VV), cloud height (HL and hs) and weather codes to and from
    metres. A [float] argument is a [spec_float]; [round] and the conversion to
    [int] are exact, a value that is no [int] gives the smallest one. *)

From stdpp Require Import pretty.
From S2P Require Import Prelude.

#[local] Open Scope Z_scope.

(** [static_cast<int>(round(m))]: to the nearest, halves away from zero. *)
Definition round_to_int (m : spec_float) : Z :=
  match m with
  | S754_zero _ => 0
  | S754_finite s p e =>
      let a := if 0 <=? e then Z.pos p * 2 ^ e
               else (2 * Z.pos p + 2 ^ (- e)) / (2 * 2 ^ (- e)) in
      let v := if s then - a else a in
      if (INT_MIN <=? v) && (v <=? INT_MAX) then v else INT_MIN
  | _ => INT_MIN
  end.

(** [sprintf("%d")] and [sprintf("%02d")]. *)
Definition sprintf_d (z : Z) : string := pretty z.
Definition sprintf_02d (z : Z) : string :=
  if (0 <=? z) && (z <? 10) then String "0"%char (pretty z) else pretty z.

Definition VV (spVal : string) : string :=
  if bool_decide (spVal = ""%string) then ""
  else
    let iVV := atoi spVal in
    if iVV =? 0 then "0"
    else if (0 <? iVV) && (iVV <=? 50) then sprintf_d (iVV * 100)
    else if (50 <? iVV) && (iVV <? 56) then sprintf_d (- iVV)
    else if (56 <=? iVV) && (iVV <=? 80) then sprintf_d ((iVV - 50) * 1000)
    else if (80 <? iVV) && (iVV <? 89) then sprintf_d (((iVV - 81) * 5 + 35) * 1000)
    else if iVV =? 89 then "75000"
    else "".

(** The divisions are on positive numbers. *)
Definition VVKode_of (im : Z) : string :=
  if im <? 0 then ""
  else if im =? 0 then "00"
  else if (0 <? im) && (im <=? 5000) then sprintf_02d (im / 100)
  else if im <? 6000 then "50"
  else if (6000 <=? im) && (im <=? 30000) then sprintf_02d (im / 1000 + 50)
  else if im <? 35000 then "80"
  else if im <? 40000 then "81"
  else if im <? 45000 then "82"
  else if im <? 50000 then "83"
  else if im <? 55000 then "84"
  else if im <? 60000 then "85"
  else if im <? 65000 then "86"
  else if im <? 70000 then "87"
  else if im =? 70000 then "88"
  else "89".

Definition VVKode (m : spec_float) : string := VVKode_of (round_to_int m).

Definition HL (spVal : string) : string :=
  match spVal with
  | String c EmptyString =>
      match c with
      | "0"%char => "0" | "1"%char => "50" | "2"%char => "100" | "3"%char => "200"
      | "4"%char => "300" | "5"%char => "600" | "6"%char => "1000" | "7"%char => "1500"
      | "8"%char => "2000" | "9"%char => "2500"
      | "X"%char | "x"%char => "-3"
      | _ => ""
      end
  | _ => ""
  end.

Definition HLKode_of (im : Z) : ascii :=
  if im <? 0 then "X"%char
  else if (0 <=? im) && (im <? 50) then "0"%char
  else if (50 <=? im) && (im <? 100) then "1"%char
  else if (100 <=? im) && (im <? 200) then "2"%char
  else if (200 <=? im) && (im <? 300) then "3"%char
  else if (300 <=? im) && (im <? 600) then "4"%char
  else if (600 <=? im) && (im <? 1000) then "5"%char
  else if (1000 <=? im) && (im <? 1500) then "6"%char
  else if (1500 <=? im) && (im <? 2000) then "7"%char
  else if (2000 <=? im) && (im <? 2500) then "8"%char
  else "9"%char.

Definition HLKode (m : spec_float) : ascii := HLKode_of (round_to_int m).

Definition V456 (val : Z) : Z :=
  match val with
  | 12 => 1 | 11 => 2 | 10 => 3 | 16 => 4 | 15 => 5 | 14 => 7 | 13 => 8 | 17 => 10
  | 18 => 12 | 19 => 17 | 20 => 20 | 21 => 29
  | _ => -1
  end.

Definition hsCode2m (code : Z) : Z :=
  if (code <? 0) || (99 <? code) || ((50 <? code) && (code <? 56)) then INT_MAX
  else if code <=? 50 then code * 30
  else if code <=? 80 then (code - 56) * 300 + 1800
  else if code <? 89 then (code - 81) * 1500 + 10500
  else if code =? 89 then 21000
  else if code =? 90 then 0
  else if code =? 91 then 50
  else if code =? 92 then 100
  else if code =? 93 then 200
  else if code =? 94 then 300
  else if code =? 95 then 600
  else if code =? 96 then 1000
  else if code =? 97 then 1500
  else if code =? 98 then 2000
  else if code =? 99 then 2500
  else INT_MAX.

Definition hs2Code_of (hs : Z) : Z :=
  if hs <=? 1500 then hs / 30
  else if hs <? 1800 then 50
  else if hs <=? 9000 then (hs - 1800) / 300 + 56
  else if hs <? 10500 then 80
  else if hs <=? 21000 then (hs - 10500) / 1500 + 81
  else 89.

Definition hs2Code (hs : Z) : string := if hs <? 0 then "" else sprintf_02d (hs2Code_of hs).

(** ** Properties *)

(** The codes in use: 51 to 55 are not. *)
Definition VV_codes : list Z := seqZ 0 51 ++ seqZ 56 34.

(** The metres of a code, as the code table has them. *)
Definition VV_metres (code : Z) : Z :=
  if code <=? 50 then code * 100
  else if code <=? 80 then (code - 50) * 1000
  else 35000 + (code - 81) * 5000.

(** The number of the code that [VVKode] gives. *)
Definition VV_step (im : Z) : Z :=
  if im <=? 5000 then im / 100
  else if im <? 6000 then 50
  else if im <=? 30000 then im / 1000 + 50
  else if im <? 35000 then 80
  else if im <=? 70000 then (im - 35000) / 5000 + 81
  else 89.

(** Turn the tests of a chain into bounds and close by arithmetic. *)
Ltac chain := repeat (match goal with
  | |- context [if ?a <? ?b then _ else _] => destruct (Z.ltb_spec a b)
  | |- context [if ?a <=? ?b then _ else _] => destruct (Z.leb_spec a b)
  | |- context [if ?a =? ?b then _ else _] => destruct (Z.eqb_spec a b)
  | |- context [if (?a <? ?b) && _ then _ else _] => destruct (Z.ltb_spec a b); simpl
  | |- context [if (?a <=? ?b) && _ then _ else _] => destruct (Z.leb_spec a b); simpl
  end; try (exfalso; lia)).

Lemma VVKode_step im : 0 <= im -> VVKode_of im = sprintf_02d (VV_step im).
Proof.
  intros H0. unfold VVKode_of, VV_step. chain; try lia; try reflexivity; subst; try reflexivity;
    match goal with |- _ = sprintf_02d (?e + 81) =>
      first [replace e with 0 by (Z.to_euclidean_division_equations; lia); reflexivity
            |replace e with 1 by (Z.to_euclidean_division_equations; lia); reflexivity
            |replace e with 2 by (Z.to_euclidean_division_equations; lia); reflexivity
            |replace e with 3 by (Z.to_euclidean_division_equations; lia); reflexivity
            |replace e with 4 by (Z.to_euclidean_division_equations; lia); reflexivity
            |replace e with 5 by (Z.to_euclidean_division_equations; lia); reflexivity
            |replace e with 6 by (Z.to_euclidean_division_equations; lia); reflexivity] end.
Qed.

Lemma VV_codes_elem c : c ∈ VV_codes <-> 0 <= c < 51 \/ 56 <= c < 90.
Proof. unfold VV_codes. rewrite elem_of_app, !elem_of_seqZ. lia. Qed.

(** the visibility codes. Every code in use decodes to its metres, and the
    code of these metres is the code; a distance is coded with the largest step
    of the table that it reaches, up to 70 km, and with 89 beyond. *)
Theorem VV_roundtrip (code im : Z) :
  (code ∈ VV_codes ->
   VV (sprintf_02d code) = sprintf_d (VV_metres code) /\
   VVKode (Dbl.of_Z (atoi (VV (sprintf_02d code)))) = sprintf_02d code) /\
  (0 <= im -> exists c, c ∈ VV_codes /\ VVKode_of im = sprintf_02d c /\
     (im <= 70000 -> VV_metres c <= im /\
        forall c', c' ∈ VV_codes -> c < c' -> im < VV_metres c') /\
     (70000 < im -> c = 89)).
Proof.
  split.
  - intros H. assert (Forall (fun c => VV (sprintf_02d c) = sprintf_d (VV_metres c) /\
      VVKode (Dbl.of_Z (atoi (VV (sprintf_02d c)))) = sprintf_02d c) VV_codes) as HF
      by (refine (bool_decide_unpack _ _); vm_compute; exact I).
    rewrite Forall_forall in HF. by apply HF.
  - intros H0. exists (VV_step im).
    split; [apply VV_codes_elem; unfold VV_step; chain; Z.to_euclidean_division_equations; lia|].
    split; [by apply VVKode_step|]. unfold VV_step, VV_metres. split.
    + intros Hm. split; [|intros c' Hc'%VV_codes_elem]; chain;
        Z.to_euclidean_division_equations; lia.
    + intros Hm. chain; lia.
Qed.

Lemma VV_roundtrip_witness :
  VVKode (Dbl.of_Z (atoi (VV "82"))) = "82"%string /\ VVKode_of 12345 = "62"%string.
Proof.
  split.
  - apply (proj1 (VV_roundtrip 82 0)). apply VV_codes_elem. lia.
  - vm_compute. reflexivity.
Defined.

(** the cloud heights. The code characters 0 to 9 and X decode to a height
    that is coded back to the same character, every height is coded with the
    largest step it reaches, negative ones with X, and the coding is monotone. *)
Theorem HL_roundtrip (c : ascii) (im im' : Z) :
  (c ∈ ["0"; "1"; "2"; "3"; "4"; "5"; "6"; "7"; "8"; "9"; "X"]%char ->
   HLKode (Dbl.of_Z (atoi (HL (String c EmptyString)))) = c) /\
  (im < 0 -> HLKode_of im = "X"%char) /\
  (0 <= im ->
   let h := atoi (HL (String (HLKode_of im) EmptyString)) in
   0 <= h <= im /\ (im <= im' -> h <= atoi (HL (String (HLKode_of im') EmptyString)) <= im')).
Proof.
  split; [|split].
  - intros H. assert (Forall (fun c => HLKode (Dbl.of_Z (atoi (HL (String c EmptyString)))) = c)
      ["0"; "1"; "2"; "3"; "4"; "5"; "6"; "7"; "8"; "9"; "X"]%char) as HF
      by (refine (bool_decide_unpack _ _); vm_compute; exact I).
    rewrite Forall_forall in HF. by apply HF.
  - intros H. unfold HLKode_of. by chain.
  - intros H0 h.
    assert (E : forall i, 0 <= i -> atoi (HL (String (HLKode_of i) EmptyString)) =
      if i <? 50 then 0 else if i <? 100 then 50 else if i <? 200 then 100
      else if i <? 300 then 200 else if i <? 600 then 300 else if i <? 1000 then 600
      else if i <? 1500 then 1000 else if i <? 2000 then 1500 else if i <? 2500 then 2000
      else 2500).
    { intros i Hi. unfold HLKode_of. chain; reflexivity. }
    unfold h. rewrite E by done. split; [chain; lia|]. intros Hle. rewrite E by lia.
    chain; lia.
Qed.

Lemma HL_roundtrip_witness : HLKode (Dbl.of_Z (atoi (HL "X"))) = "X"%char.
Proof. apply (HL_roundtrip "X" 0 0). do 10 right. left. Defined.

(** The test of [hsCode2m] on the codes that the table has. *)
Lemma hs_refused code :
  (code <? 0) || (99 <? code) || ((50 <? code) && (code <? 56)) =
  negb (bool_decide (0 <= code <= 50 \/ 56 <= code <= 99)).
Proof. case_bool_decide; destruct (Z.ltb_spec code 0), (Z.ltb_spec 99 code),
  (Z.ltb_spec 50 code), (Z.ltb_spec code 56); simpl; lia. Qed.

(** code table 1677. Decoding a code in use below 89 to metres and coding
    these gives the code, 89 shares its height with 88, the cloud heights 90 to 99
    are only decoded, every other number is refused, and a height up to 21 000 m
    is coded with the largest step that it reaches. *)
Theorem hs_roundtrip (code hs : Z) :
  (0 <= code <= 50 \/ 56 <= code <= 88 -> hs2Code (hsCode2m code) = sprintf_02d code) /\
  hsCode2m 89 = hsCode2m 88 /\
  (hsCode2m code = INT_MAX <-> ~ (0 <= code <= 50 \/ 56 <= code <= 99)) /\
  (0 <= hs <= 21000 ->
   let c := hs2Code_of hs in
   hs2Code hs = sprintf_02d c /\ (0 <= c <= 50 \/ 56 <= c <= 88) /\ hsCode2m c <= hs /\
   forall c', c < c' -> c' <= 50 \/ 56 <= c' <= 88 -> hs < hsCode2m c').
Proof.
  split; [|split; [done|split]].
  - intros H. unfold hs2Code.
    assert (0 <= hsCode2m code /\ hs2Code_of (hsCode2m code) = code) as [E1 E2].
    { unfold hsCode2m. rewrite hs_refused, bool_decide_true by lia. simpl.
      chain; split; try lia; unfold hs2Code_of; chain; Z.to_euclidean_division_equations; lia. }
    rewrite (proj2 (Z.ltb_ge (hsCode2m code) 0)), E2 by lia. done.
  - unfold hsCode2m, INT_MAX. rewrite hs_refused. case_bool_decide; simpl; [|split; [lia|done]].
    chain; lia.
  - intros H c. unfold hs2Code. rewrite (proj2 (Z.ltb_ge hs 0)) by lia. split; [done|].
    assert (Hc : 0 <= c <= 50 \/ 56 <= c <= 88).
    { unfold c, hs2Code_of. chain; Z.to_euclidean_division_equations; lia. }
    assert (E : forall k, 0 <= k <= 50 \/ 56 <= k <= 88 -> hsCode2m k =
      if k <=? 50 then k * 30 else if k <=? 80 then (k - 56) * 300 + 1800
      else (k - 81) * 1500 + 10500).
    { intros k Hk. unfold hsCode2m.
      rewrite hs_refused, bool_decide_true by lia. simpl.
      chain; lia. }
    split; [done|]. rewrite E by done. split.
    + unfold c, hs2Code_of. chain; Z.to_euclidean_division_equations; lia.
    + intros c' Hlt Hc'. rewrite E by lia. revert Hlt. unfold c, hs2Code_of.
      chain; Z.to_euclidean_division_equations; lia.
Qed.

Lemma hs_roundtrip_witness : hs2Code (hsCode2m 63) = "63"%string.
Proof. apply (hs_roundtrip 63 0). lia. Defined.
