(* ===== verification/Rows.v ===== *)
(** * Rows of the database (src/src/lib/kvdb, src/src/lib/kvalobs)

    A row of a result as the table classes read it, column by column, and the
    [set(const DRow &)] of kvData, kvTextData and kvTypes. An exception that
    assigning one column throws leaves that member as it was. *)

From stdpp Require Import pretty.
From S2P Require Import Prelude Orders PTime TimeText DataFlag ControlInfo UseInfo KvData.

#[local] Open Scope Z_scope.

(** The columns of a row, in their order, with their text. *)
Definition DRow := list (string * string).

Definition getFieldNames (r : DRow) : list string := r.*1.

(** [r[name]]: the first column with the name. *)
Definition row_get (r : DRow) (name : string) : option string :=
  snd ∘ snd <$> list_find (fun nv => nv.1 = name) r.

(** The loop over the columns; [step] assigns the member of one of them. *)
Definition row_set {S} (step : string -> string -> S -> S) (r : DRow) (s : S) : S :=
  foldl (fun s name => match row_get r name with Some buf => step name buf s | None => s end)
    s (getFieldNames r).

(** ** [std::stod]

    The digits of a decimal number with an optional fraction and exponent, or the
    names of the special values; hexadecimal numbers are left out. [None] is the
    exception: no number, or one out of the range of [double]. *)
Fixpoint span_digits (b : bytes) : bytes * bytes :=
  match b with
  | c :: r => if is_digit c then let '(d, r') := span_digits r in (c :: d, r') else ([], b)
  | [] => ([], [])
  end.

(** The double nearest to [n * 10^e], ties to even; [None] on overflow, and on
    a result that is not exact and below the normal numbers. *)
Definition decimal_to_double (s : bool) (n e : Z) : option spec_float :=
  let sg f := if s then SFopp f else f in
  if n =? 0 then Some (S754_zero s)
  else if 400 <? e then None
  else
    let num := if 0 <=? e then n * 10 ^ e else n in
    let den := if 0 <=? e then 1 else 10 ^ (- e) in
    let k := Z.max 0 (60 + Z.log2 den - Z.log2 num) in
    let q := num * 2 ^ k / den in
    let sticky := if (num * 2 ^ k) mod den =? 0 then 0 else 1 in
    match binary_normalize Dbl.prec Dbl.emax (2 * q + sticky) (- k - 1) false with
    | S754_finite sf m ex =>
        let exact := if 0 <=? ex then Z.pos m * 2 ^ ex * den =? num
                     else Z.pos m * den =? num * 2 ^ (- ex) in
        if (Z.pos m <? 2 ^ 52) && negb exact then None else Some (sg (S754_finite sf m ex))
    | _ => None
    end.

Definition lower (c : ascii) : ascii :=
  if (65 <=? uchar_val c) && (uchar_val c <=? 90) then char_of (uchar_val c + 32) else c.

(** The exponent that may follow: 0 when there is none. *)
Definition read_exponent (b : bytes) : Z :=
  match b with
  | c :: r =>
      if bool_decide (lower c = "e"%char) then
        let '(neg, d) := match r with
                         | "-"%char :: d => (true, d)
                         | "+"%char :: d => (false, d)
                         | _ => (false, r)
                         end in
        let v := digits_val 0 (span_digits d).1 in if (neg : bool) then - v else v
      else 0
  | [] => 0
  end.

Definition stod (b : bytes) : option spec_float :=
  let b := skip_space b in
  let '(neg, u) := match b with
                   | "-"%char :: u => (true, u)
                   | "+"%char :: u => (false, u)
                   | _ => (false, b)
                   end in
  let low := lower <$> u in
  if bool_decide (take 3 low = to_bytes "inf") then Some (S754_infinity neg)
  else if bool_decide (take 3 low = to_bytes "nan") then Some S754_nan
  else
    let '(ip, r) := span_digits u in
    let '(fp, r) := match r with
                    | "."%char :: r' => span_digits r'
                    | _ => ([], r)
                    end in
    if bool_decide (ip ++ fp = []) then None
    else decimal_to_double neg (digits_val 0 (ip ++ fp)) (read_exponent r - Z.of_nat (length fp)).

Example stod_examples :
  stod (to_bytes "-12.5 C") = Some (SFopp (Dbl.lit 25 2)) /\ stod (to_bytes " 1e-1") = Some (Dbl.lit 1 10) /\
  stod (to_bytes "1e400") = None /\ stod (to_bytes "") = None /\ stod (to_bytes "1e-320") = None /\
  stod (to_bytes "NaN") = Some S754_nan.
Proof. repeat split; vm_compute; reflexivity. Qed.

(** ** Reading what was printed *)

Lemma digits_val_app acc a b :
  Forall (fun c => is_digit c = true) a -> digits_val acc (a ++ b) = digits_val (digits_val acc a) b.
Proof.
  intros H. revert acc. induction H as [|c a Hc Ha IH]; intros acc; simpl; [done|]. by rewrite Hc.
Qed.

Lemma to_bytes_app a b : to_bytes (a +:+ b) = to_bytes a ++ to_bytes b.
Proof. induction a as [|c a IH]; simpl; [done|]. unfold to_bytes in *. simpl. by rewrite IH. Qed.

Lemma pretty_N_char_digit x : (x < 10)%N -> pretty_N_char x = digit (Z.of_N x).
Proof.
  intros H. assert (Forall (fun x => pretty_N_char x = digit (Z.of_N x)) [0; 1; 2; 3; 4; 5; 6; 7; 8; 9]%N) as HF
    by by_decision.
  rewrite Forall_forall in HF. apply HF. rewrite !elem_of_cons. lia.
Qed.

Lemma pretty_N_go_digits x s : exists d, to_bytes (pretty_N_go x s) = d ++ to_bytes s /\
  Forall (fun c => is_digit c = true) d /\ digits_val 0 d = Z.of_N x /\ ((0 < x)%N -> d <> []).
Proof.
  revert s. induction (N.lt_wf_0 x) as [x _ IH]. intros s. destruct (decide (0 < x)%N) as [Hx|Hx].
  - rewrite pretty_N_go_step by done.
    destruct (IH (x `div` 10)%N ltac:(apply N.div_lt; lia) (String (pretty_N_char (x mod 10)) s))
      as (d & Hd & Hall & Hv & _).
    pose proof (N.mod_lt x 10 ltac:(lia)).
    assert (0 <= Z.of_N (x mod 10) < 10) by (split; [apply N2Z.is_nonneg|by apply (N2Z.inj_lt _ 10)]).
    exists (d ++ [digit (Z.of_N (x mod 10))]). rewrite Hd, pretty_N_char_digit by done.
    split; [by rewrite <- app_assoc|]. split; [|split].
    + apply Forall_app. split; [done|]. constructor; [by apply digit_is_digit|constructor].
    + rewrite digits_val_app, Hv by done. rewrite digits_val_step by done. simpl.
      rewrite (N.div_mod x 10) at 3 by done. rewrite N2Z.inj_add, N2Z.inj_mul. lia.
    + intros _ E. by apply app_nil in E as [_ ?].
  - exists []. replace x with 0%N by lia. split; [done|]. split; [constructor|]. split; [done|lia].
Qed.

Lemma pretty_N_digits x : exists d, to_bytes (pretty x) = d /\
  Forall (fun c => is_digit c = true) d /\ digits_val 0 d = Z.of_N x /\ d <> [].
Proof.
  destruct (decide (x = 0%N)) as [->|Hx].
  - exists ["0"%char]. split; [done|]. split; [by repeat constructor|done].
  - destruct (pretty_N_go_digits x "") as (d & Hd & Hall & Hv & Hne).
    exists d. split; [|split; [done|split; [done|apply Hne; lia]]].
    rewrite app_nil_r in Hd. rewrite <- Hd. unfold pretty, pretty_N.
    by rewrite decide_False.
Qed.

(** The digits after an optional sign are read back. *)
Lemma strtol_pretty z : LONG_MIN <= z <= LONG_MAX -> strtol (to_bytes (pretty z)) = z.
Proof.
  intros Hz. unfold strtol. destruct z as [|p|p]; [done| |].
  - change (pretty (Z.pos p)) with (pretty (N.pos p)).
    destruct (pretty_N_digits (N.pos p)) as (d & -> & Hd & Hv & Hne). destruct d as [|c d]; [done|].
    apply Forall_cons in Hd as Hd'. destruct Hd' as [Hc _].
    destruct (digit_plain c Hc) as (Hs & _). simpl skip_space. rewrite Hs.
    destruct c as [[] [] [] [] [] [] [] []]; try (vm_compute in Hc; discriminate Hc); rewrite Hv; lia.
  - change (pretty (Z.neg p)) with ("-" +:+ pretty (N.pos p)). rewrite to_bytes_app.
    destruct (pretty_N_digits (N.pos p)) as (d & -> & Hd & Hv & Hne).
    change (to_bytes "-" ++ d) with ("-"%char :: d). simpl. rewrite Hv. lia.
Qed.

Lemma atoi_pretty z : INT_MIN <= z <= INT_MAX -> atoi (pretty z) = z.
Proof.
  intros Hz. unfold atoi. rewrite strtol_pretty by (unfold LONG_MIN, LONG_MAX, INT_MIN, INT_MAX in *; lia).
  by apply to_int_small.
Qed.

(** ** The rows of the table classes *)

Section rows.
  Context {PT : PTime} {BT : BoostText} {TT : PTimeText PT}.

(** A time point assigned from the text of a column; an exception keeps [old]. *)
Definition col_time (buf : string) (old : ptime PT) : ptime PT :=
  match time_from_string_nothrow (to_bytes buf) with Time t => t | Escapes => old end.

Definition col_double (buf : string) (old : spec_float) : spec_float :=
  default old (stod (to_bytes buf)).

(** Every column assigns the member of its name and no other. *)
Definition kvData_column (name buf : string) (d : kvData PT) : kvData PT :=
  let col n := bool_decide (name = n) in
  {| stationid_ := if col "stationid" then atoi buf else stationid_ d;
     obstime_ := if col "obstime" then col_time buf (obstime_ d) else obstime_ d;
     original_ := if col "original" then col_double buf (original_ d) else original_ d;
     paramid_ := if col "paramid" then atoi buf else paramid_ d;
     tbtime_ := if col "tbtime" then col_time buf (tbtime_ d) else tbtime_ d;
     typeid_ := if col "typeid" then atoi buf else typeid_ d;
     sensor_ := if col "sensor" then atoi buf else sensor_ d;
     level_ := if col "level" then atoi buf else level_ d;
     corrected_ := if col "corrected" then col_double buf (corrected_ d) else corrected_ d;
     controlinfo_ := if col "controlinfo" then kvControlInfo_of_string buf else controlinfo_ d;
     useinfo_ := if col "useinfo" then kvUseInfo_of_string buf else useinfo_ d;
     cfailed_ := if col "cfailed" then buf else cfailed_ d |}.

Definition kvData_set_row (r : DRow) (d : kvData PT) : kvData PT := row_set kvData_column r d.

Definition kvTextData_column (name buf : string) (d : kvTextData PT) : kvTextData PT :=
  let col n := bool_decide (name = n) in
  {| tx_stationid_ := if col "stationid" then atoi buf else tx_stationid_ d;
     tx_obstime_ := if col "obstime" then col_time buf (tx_obstime_ d) else tx_obstime_ d;
     tx_original_ := if col "original" then buf else tx_original_ d;
     tx_paramid_ := if col "paramid" then atoi buf else tx_paramid_ d;
     tx_tbtime_ := if col "tbtime" then col_time buf (tx_tbtime_ d) else tx_tbtime_ d;
     tx_typeid_ := if col "typeid" then atoi buf else tx_typeid_ d |}.

Definition kvTextData_set_row (r : DRow) (d : kvTextData PT) : kvTextData PT :=
  row_set kvTextData_column r d.

End rows.

(** ** kvTypes *)

Record kvTypes := {
  ty_typeid_ : Z; ty_format_ : string; ty_earlyobs_ : Z; ty_lateobs_ : Z; ty_read_ : string;
  ty_obspgm_ : string; ty_comment_ : string
}.

(** [set(typeid, format, earlyobs, lateobs, read, obspgm, comment)]. *)
Definition kvTypes_set (ty : Z) (format : string) (earlyobs lateobs : Z)
    (read obspgm comment : string) : kvTypes :=
  {| ty_typeid_ := ty; ty_format_ := format; ty_earlyobs_ := earlyobs; ty_lateobs_ := lateobs;
     ty_read_ := read; ty_obspgm_ := obspgm; ty_comment_ := comment |}.

(** The column obspgm is assigned to the member [read_]. *)
Definition kvTypes_column (name buf : string) (t : kvTypes) : kvTypes :=
  let col n := bool_decide (name = n) in
  {| ty_typeid_ := if col "typeid" then atoi buf else ty_typeid_ t;
     ty_format_ := if col "format" then buf else ty_format_ t;
     ty_earlyobs_ := if col "earlyobs" then atoi buf else ty_earlyobs_ t;
     ty_lateobs_ := if col "lateobs" then atoi buf else ty_lateobs_ t;
     ty_read_ := if col "read" then buf else if col "obspgm" then buf else ty_read_ t;
     ty_obspgm_ := ty_obspgm_ t;
     ty_comment_ := if col "comment" then buf else ty_comment_ t |}.

Definition kvTypes_set_row (r : DRow) (t : kvTypes) : kvTypes := row_set kvTypes_column r t.

(** [getUseinfo7Code]: is the observation early or late for its type? Division
    truncates, as in C++. *)
Definition getUseinfo7Code {PT : PTime} {PC : PCalendar PT} (typeId : Z) (now obt : ptime PT)
    (typeList : list kvTypes) : Z :=
  match list_find (fun t => ty_typeid_ t = typeId) typeList with
  | None => -1
  | Some (_, it) =>
      let diff := to_int (Z.quot (pt_diff_seconds now obt) 60) in
      if ty_lateobs_ it <? diff then 4
      else if diff <? -1 * ty_earlyobs_ it then 3
      else 0
  end.

(** ** Properties *)

Lemma row_get_elem r n v : NoDup (getFieldNames r) -> (n, v) ∈ r -> row_get r n = Some v.
Proof.
  unfold getFieldNames, row_get. intros Hnd Hin. induction r as [|[n' v'] r IH]; [by apply elem_of_nil in Hin|].
  apply NoDup_cons in Hnd as [Hni Hnd]. simpl. apply elem_of_cons in Hin as [[= <- <-]|Hin].
  - by rewrite decide_True.
  - rewrite decide_False.
    + specialize (IH Hnd Hin). destruct (list_find _ r) as [[i x]|]; [exact IH|discriminate IH].
    + simpl. intros ->. apply Hni. apply list_elem_of_fmap. by exists (n, v).
Qed.

(** A member that only the column [name] assigns. *)
Lemma row_set_member {S A} (step : string -> string -> S -> S) (g : S -> A) (name : string)
    (f : string -> A -> A) r s :
  NoDup (getFieldNames r) ->
  (forall n b s, g (step n b s) = if bool_decide (n = name) then f b (g s) else g s) ->
  g (row_set step r s) = match row_get r name with Some b => f b (g s) | None => g s end.
Proof.
  intros Hnd Hstep. unfold row_set.
  assert (H : forall l s, NoDup l -> g (foldl (fun s name =>
      match row_get r name with Some buf => step name buf s | None => s end) s l) =
    if bool_decide (name ∈ l) then
      match row_get r name with Some b => f b (g s) | None => g s end else g s).
  { induction l as [|n l IH]; intros s' Hl; [done|]. apply NoDup_cons in Hl as [Hn Hl]. simpl.
    rewrite IH by done. destruct (decide (n = name)) as [->|Hne].
    - rewrite bool_decide_false by done. rewrite bool_decide_true by left.
      destruct (row_get r name); [|done]. by rewrite Hstep, bool_decide_true.
    - assert (E : g (match row_get r n with Some buf => step n buf s' | None => s' end) = g s')
        by (destruct (row_get r n); [by rewrite Hstep, bool_decide_false|done]).
      rewrite E. replace (bool_decide (name ∈ n :: l)) with (bool_decide (name ∈ l)); [done|].
      apply bool_decide_ext. rewrite elem_of_cons.
      split; [by right|by intros [->|?]]. }
  rewrite H by done. case_bool_decide as Hin; [done|].
  destruct (row_get r name) eqn:E; [|done]. exfalso. apply Hin. unfold row_get in E.
  destruct (list_find _ r) as [[i [n v]]|] eqn:El; [|done].
  apply list_find_Some in El as (Hi & Hn & _). simpl in Hn. subst n.
  apply list_elem_of_fmap. exists (name, v). split; [done|]. by apply list_elem_of_lookup_2 in Hi.
Qed.

Section row_theorems.
  Context {PT : PTime} {BT : BoostText} {TT : PTimeText PT}.

(** The columns in which the server gives a value: numbers in decimal, flags as
    flag strings, times and doubles as some text that reads back. *)
Definition kvData_columns (d : kvData PT) (obst tbt orig corr : string) : DRow :=
  [("stationid", pretty (stationid_ d)); ("obstime", obst); ("original", orig);
   ("paramid", pretty (paramid_ d)); ("tbtime", tbt); ("typeid", pretty (typeid_ d));
   ("sensor", pretty (sensor_ d)); ("level", pretty (level_ d)); ("corrected", corr);
   ("controlinfo", flagstring (ci_base (controlinfo_ d))); ("useinfo", flagstring (ui_base (useinfo_ d)));
   ("cfailed", cfailed_ d)]%string.

Definition is_int (z : Z) : Prop := INT_MIN <= z <= INT_MAX.

Lemma row_Z r (n : string) z : is_int z -> NoDup (getFieldNames r) -> (n, pretty z) ∈ r ->
  exists b, row_get r n = Some b /\ atoi b = z.
Proof. intros Hz Hnd Hin. exists (pretty z). split; [by apply row_get_elem|by apply atoi_pretty]. Qed.

(** reading a row of the table data. Whatever the order of the columns and
    whatever other columns there are, every member gets the value that its column
    shows, all at once; a column that does not show a number keeps the old value. *)
Theorem kvData_row_roundtrip (r : DRow) (d d0 : kvData PT) (obst tbt orig corr : string) :
  NoDup (getFieldNames r) ->
  (kvData_wf d -> is_int (stationid_ d) -> is_int (paramid_ d) -> is_int (typeid_ d) ->
   is_int (sensor_ d) -> is_int (level_ d) ->
   time_from_string_nothrow (to_bytes obst) = Time (obstime_ d) ->
   time_from_string_nothrow (to_bytes tbt) = Time (tbtime_ d) ->
   stod (to_bytes orig) = Some (original_ d) -> stod (to_bytes corr) = Some (corrected_ d) ->
   kvData_columns d obst tbt orig corr ⊆ r -> kvData_set_row r d0 = d) /\
  (forall b, row_get r "original" = Some b -> stod (to_bytes b) = None ->
   original_ (kvData_set_row r d0) = original_ d0).
Proof.
  intros Hnd.
  pose proof (fun A g n f H => row_set_member (A := A) kvData_column g n f r d0 Hnd H) as M.
  pose proof (M _ original_ "original"%string col_double ltac:(done)) as M3.
  split; [|intros b Hb Hs; unfold kvData_set_row; rewrite M3, Hb; unfold col_double; by rewrite Hs].
  intros [Wc Wu] I1 I2 I3 I4 I5 T1 T2 S1 S2 Hsub.
  pose proof (M _ stationid_ "stationid"%string (fun b _ => atoi b) ltac:(done)) as M1.
  pose proof (M _ obstime_ "obstime"%string col_time ltac:(done)) as M2.
  pose proof (M _ paramid_ "paramid"%string (fun b _ => atoi b) ltac:(done)) as M4.
  pose proof (M _ tbtime_ "tbtime"%string col_time ltac:(done)) as M5.
  pose proof (M _ typeid_ "typeid"%string (fun b _ => atoi b) ltac:(done)) as M6.
  pose proof (M _ sensor_ "sensor"%string (fun b _ => atoi b) ltac:(done)) as M7.
  pose proof (M _ level_ "level"%string (fun b _ => atoi b) ltac:(done)) as M8.
  pose proof (M _ corrected_ "corrected"%string col_double ltac:(done)) as M9.
  pose proof (M _ controlinfo_ "controlinfo"%string (fun b _ => kvControlInfo_of_string b) ltac:(done)) as M10.
  pose proof (M _ useinfo_ "useinfo"%string (fun b _ => kvUseInfo_of_string b) ltac:(done)) as M11.
  pose proof (M _ cfailed_ "cfailed"%string (fun b _ => b) ltac:(done)) as M12.
  clear M.
  assert (G : forall nv, nv ∈ kvData_columns d obst tbt orig corr -> row_get r nv.1 = Some nv.2)
    by (intros [n v] Hin; apply row_get_elem; auto).
  unfold kvData_columns in G. rewrite <- Forall_forall in G.
  repeat (apply Forall_cons in G as [?G0 G]; cbn [fst snd] in *).
  repeat match goal with Hg : row_get r _ = _, Hm : _ = match row_get r _ with _ => _ end |- _ =>
    rewrite Hg in Hm; clear Hg end.
  unfold col_time in *. rewrite T1 in M2. rewrite T2 in M5.
  unfold col_double in *. rewrite S1 in M3. rewrite S2 in M9.
  rewrite !atoi_pretty in * by done.
  unfold kvData_set_row. rewrite <- (kvData_eta (row_set _ _ _)), <- (kvData_eta d).
  unfold kvControlInfo_of_string in M10. unfold kvUseInfo_of_string in M11.
  rewrite of_string_flagstring in M10, M11 by done.
  destruct (controlinfo_ d), (useinfo_ d). simpl in *. by f_equal.
Qed.

End row_theorems.

(** A value of station 18700: its row, the columns in another order, with one more. *)
Definition sample_kvData : kvData stamp_time :=
  kvData_set (PT := stamp_time) 18700 (stamp_of 2006 2 6 10 0 0) (Dbl.lit (-25) 2) 211
    (stamp_of 2006 2 6 10 5 0) 302 0 0 (Dbl.lit (-25) 2) {| ci_base := kvDataFlag_clear |}
    kvUseInfo_clear "".

Definition sample_row : DRow :=
  reverse (kvData_columns sample_kvData "2006-02-06 10:00:00" "2006-02-06 10:05:00" "-12.5" "-12.5")
    ++ [("observationid", "7")]%string.

Lemma kvData_row_roundtrip_witness :
  kvData_set_row sample_row (kvData_clean (NaDT : ptime stamp_time)) = sample_kvData.
Proof.
  apply (proj1 (kvData_row_roundtrip sample_row sample_kvData (kvData_clean (NaDT : ptime stamp_time))
    "2006-02-06 10:00:00" "2006-02-06 10:05:00" "-12.5" "-12.5"
    ltac:(by_decision)));
    try (unfold is_int, INT_MIN, INT_MAX; simpl; lia); try (vm_compute; reflexivity).
  - split; split; vm_compute; repeat constructor; try (intros HX; discriminate HX).
  - intros x Hx. apply elem_of_app. left. by apply elem_of_reverse.
Defined.

(** reading a row of the table types, whose columns are in the order of the
    table. All members get the value of their column, but read gets the one of
    obspgm and obspgm none. *)
Theorem kvTypes_row_spec (t t0 : kvTypes) :
  is_int (ty_typeid_ t) -> is_int (ty_earlyobs_ t) -> is_int (ty_lateobs_ t) ->
  kvTypes_set_row
    [("typeid", pretty (ty_typeid_ t)); ("format", ty_format_ t);
     ("earlyobs", pretty (ty_earlyobs_ t)); ("lateobs", pretty (ty_lateobs_ t));
     ("read", ty_read_ t); ("obspgm", ty_obspgm_ t); ("comment", ty_comment_ t)]%string t0 =
  kvTypes_set (ty_typeid_ t) (ty_format_ t) (ty_earlyobs_ t) (ty_lateobs_ t)
    (ty_obspgm_ t) (ty_obspgm_ t0) (ty_comment_ t).
Proof.
  intros H1 H2 H3. unfold kvTypes_set_row, row_set. simpl. unfold kvTypes_column. simpl.
  by rewrite !atoi_pretty.
Qed.

Lemma kvTypes_row_spec_witness :
  let t := kvTypes_set 302 "SYNOP" 10 60 "read" "obspgm" "" in
  ty_read_ (kvTypes_set_row [("typeid", pretty 302); ("format", "SYNOP"); ("earlyobs", pretty 10);
    ("lateobs", pretty 60); ("read", "read"); ("obspgm", "obspgm"); ("comment", "")]%string
    (kvTypes_set 0 "" 0 0 "" "" "")) = "obspgm"%string.
Proof.
  cbv zeta. refine (eq_trans (f_equal ty_read_ (kvTypes_row_spec
    (kvTypes_set 302 "SYNOP" 10 60 "read" "obspgm" "") (kvTypes_set 0 "" 0 0 "" "" "") _ _ _)) eq_refl);
    unfold is_int, INT_MIN, INT_MAX; simpl; lia.
Defined.

(** the code of an early or late observation. -1 says that the type is not
    known; otherwise the first entry of the type decides: 4 from one minute after
    the last allowed one on, 3 from one minute before the first one, else 0. The
    two limits are inclusive by 59 seconds, because the minutes are truncated. *)
Theorem getUseinfo7Code_spec {PT : PTime} {PC : PCalendar PT} (typeId : Z) (now obt : ptime PT)
    (pre post : list kvTypes) (t : kvTypes) :
  ty_typeid_ t = typeId -> Forall (fun u => ty_typeid_ u <> typeId) pre ->
  0 <= ty_earlyobs_ t -> 0 <= ty_lateobs_ t ->
  let secs := pt_diff_seconds now obt in
  Z.abs secs <= INT_MAX * 60 ->
  getUseinfo7Code typeId now obt pre = -1 /\
  (getUseinfo7Code typeId now obt (pre ++ t :: post) = 4 <-> (ty_lateobs_ t + 1) * 60 <= secs) /\
  (getUseinfo7Code typeId now obt (pre ++ t :: post) = 3 <-> secs <= - (ty_earlyobs_ t + 1) * 60) /\
  getUseinfo7Code typeId now obt (pre ++ t :: post) ∈ [0; 3; 4].
Proof.
  intros Ht Hpre He Hl secs Hs.
  assert (Hq : INT_MIN <= Z.quot secs 60 <= INT_MAX).
  { unfold INT_MIN, INT_MAX in *. Z.to_euclidean_division_equations; lia. }
  split; [|unfold getUseinfo7Code; fold secs; rewrite (proj2 (list_find_Some _ _ (length pre) t));
    [rewrite to_int_small by done|]].
  - unfold getUseinfo7Code. rewrite (proj2 (list_find_None _ _)); [done|].
    eapply Forall_impl; [exact Hpre|done].
  - split; [|split].
    + destruct (Z.ltb_spec (ty_lateobs_ t) (Z.quot secs 60)) as [H|H];
        [|destruct (Z.ltb_spec (Z.quot secs 60) (-1 * ty_earlyobs_ t))];
        (split; [intros HX; try discriminate HX|intros HX; try done; exfalso]);
        Z.to_euclidean_division_equations; lia.
    + destruct (Z.ltb_spec (ty_lateobs_ t) (Z.quot secs 60)) as [H|H];
        [|destruct (Z.ltb_spec (Z.quot secs 60) (-1 * ty_earlyobs_ t))];
        (split; [intros HX; try discriminate HX|intros HX; try done; exfalso]);
        Z.to_euclidean_division_equations; lia.
    + repeat case_match; by_decision.
  - split; [by apply list_lookup_middle|]. split; [done|]. intros j y Hj Hlt.
    rewrite lookup_app_l in Hj by done. rewrite Forall_lookup in Hpre. by eapply Hpre.
Qed.

Lemma getUseinfo7Code_spec_witness :
  getUseinfo7Code 302 (stamp_of 2006 2 6 11 0 59 : ptime stamp_time) (stamp_of 2006 2 6 10 0 0)
    [kvTypes_set 302 "SYNOP" 10 60 "" "" ""] <> 4.
Proof.
  intros H. apply (proj1 (proj2 (getUseinfo7Code_spec (PT := stamp_time) 302 (stamp_of 2006 2 6 11 0 59)
    (stamp_of 2006 2 6 10 0 0) [] [] (kvTypes_set 302 "SYNOP" 10 60 "" "" "") ltac:(reflexivity)
    ltac:(constructor) ltac:(simpl; lia) ltac:(simpl; lia) ltac:(vm_compute; intros HX; discriminate HX)))) in H.
  vm_compute in H. exact (H eq_refl).
Defined.
