(* ===== verification/ObsPgm.v ===== *)
(** * kvObsPgm: the observation program (src/src/lib/kvalobs/kvObsPgm.cc)

    A row of the table obs_pgm: which parameter a station observes, on which days
    of the week and at which hours. *)

From stdpp Require Import pretty.
From S2P Require Import Prelude Orders PTime TimeText Rows.

#[local] Open Scope Z_scope.

Section kvObsPgm.
  Context {PT : PTime}.

Record kvObsPgm := {
  op_stationid_ : Z; op_paramid_ : Z; op_level_ : Z; op_nr_sensor_ : Z; op_typeid_ : Z;
  op_collector_ : bool; op_kl00_ : bool; op_kl01_ : bool; op_kl02_ : bool; op_kl03_ : bool;
  op_kl04_ : bool; op_kl05_ : bool; op_kl06_ : bool; op_kl07_ : bool; op_kl08_ : bool;
  op_kl09_ : bool; op_kl10_ : bool; op_kl11_ : bool; op_kl12_ : bool; op_kl13_ : bool;
  op_kl14_ : bool; op_kl15_ : bool; op_kl16_ : bool; op_kl17_ : bool; op_kl18_ : bool;
  op_kl19_ : bool; op_kl20_ : bool; op_kl21_ : bool; op_kl22_ : bool; op_kl23_ : bool;
  op_mon_ : bool; op_tue_ : bool; op_wed_ : bool; op_thu_ : bool; op_fri_ : bool;
  op_sat_ : bool; op_sun_ : bool;
  op_fromtime_ : ptime PT; op_totime_ : ptime PT
}.

(** [set(stationid, ..., totime)], also the constructor with these arguments. *)
Definition kvObsPgm_set (stationid paramid level nr_sensor typ : Z)
    (collector kl00 kl01 kl02 kl03 kl04 kl05 kl06 kl07 kl08 kl09 kl10 kl11 kl12 kl13 kl14 kl15
     kl16 kl17 kl18 kl19 kl20 kl21 kl22 kl23 mon tue wed thu fri sat sun : bool)
    (fromtime totime : ptime PT) : kvObsPgm :=
  {| op_stationid_ := stationid; op_paramid_ := paramid; op_level_ := level;
     op_nr_sensor_ := nr_sensor; op_typeid_ := typ; op_collector_ := collector;
     op_kl00_ := kl00; op_kl01_ := kl01; op_kl02_ := kl02; op_kl03_ := kl03; op_kl04_ := kl04;
     op_kl05_ := kl05; op_kl06_ := kl06; op_kl07_ := kl07; op_kl08_ := kl08; op_kl09_ := kl09;
     op_kl10_ := kl10; op_kl11_ := kl11; op_kl12_ := kl12; op_kl13_ := kl13; op_kl14_ := kl14;
     op_kl15_ := kl15; op_kl16_ := kl16; op_kl17_ := kl17; op_kl18_ := kl18; op_kl19_ := kl19;
     op_kl20_ := kl20; op_kl21_ := kl21; op_kl22_ := kl22; op_kl23_ := kl23; op_mon_ := mon;
     op_tue_ := tue; op_wed_ := wed; op_thu_ := thu; op_fri_ := fri; op_sat_ := sat;
     op_sun_ := sun; op_fromtime_ := fromtime; op_totime_ := totime |}.

(** The text of a boolean column. *)
Definition is_t (buf : string) : bool := bool_decide (buf = "t"%string).

Section row.
  Context {BT : BoostText} {TT : PTimeText PT}.

(** The times: an empty column is no time. *)
Definition col_time_or_none (buf : string) (old : ptime PT) : ptime PT :=
  if bool_decide (buf = ""%string) then not_a_date_time else col_time buf old.

(** Every column assigns the member of its name and no other. *)
Definition kvObsPgm_column (name buf : string) (o : kvObsPgm) : kvObsPgm :=
  let col n := bool_decide (name = n) in
  {| op_stationid_ := if col "stationid" then atoi buf else op_stationid_ o;
     op_paramid_ := if col "paramid" then atoi buf else op_paramid_ o;
     op_level_ := if col "level" then atoi buf else op_level_ o;
     op_nr_sensor_ := if col "nr_sensor" then atoi buf else op_nr_sensor_ o;
     op_typeid_ := if col "typeid" then atoi buf else op_typeid_ o;
     op_collector_ := if col "collector" then is_t buf else op_collector_ o;
     op_kl00_ := if col "kl00" then is_t buf else op_kl00_ o;
     op_kl01_ := if col "kl01" then is_t buf else op_kl01_ o;
     op_kl02_ := if col "kl02" then is_t buf else op_kl02_ o;
     op_kl03_ := if col "kl03" then is_t buf else op_kl03_ o;
     op_kl04_ := if col "kl04" then is_t buf else op_kl04_ o;
     op_kl05_ := if col "kl05" then is_t buf else op_kl05_ o;
     op_kl06_ := if col "kl06" then is_t buf else op_kl06_ o;
     op_kl07_ := if col "kl07" then is_t buf else op_kl07_ o;
     op_kl08_ := if col "kl08" then is_t buf else op_kl08_ o;
     op_kl09_ := if col "kl09" then is_t buf else op_kl09_ o;
     op_kl10_ := if col "kl10" then is_t buf else op_kl10_ o;
     op_kl11_ := if col "kl11" then is_t buf else op_kl11_ o;
     op_kl12_ := if col "kl12" then is_t buf else op_kl12_ o;
     op_kl13_ := if col "kl13" then is_t buf else op_kl13_ o;
     op_kl14_ := if col "kl14" then is_t buf else op_kl14_ o;
     op_kl15_ := if col "kl15" then is_t buf else op_kl15_ o;
     op_kl16_ := if col "kl16" then is_t buf else op_kl16_ o;
     op_kl17_ := if col "kl17" then is_t buf else op_kl17_ o;
     op_kl18_ := if col "kl18" then is_t buf else op_kl18_ o;
     op_kl19_ := if col "kl19" then is_t buf else op_kl19_ o;
     op_kl20_ := if col "kl20" then is_t buf else op_kl20_ o;
     op_kl21_ := if col "kl21" then is_t buf else op_kl21_ o;
     op_kl22_ := if col "kl22" then is_t buf else op_kl22_ o;
     op_kl23_ := if col "kl23" then is_t buf else op_kl23_ o;
     op_mon_ := if col "mon" then is_t buf else op_mon_ o;
     op_tue_ := if col "tue" then is_t buf else op_tue_ o;
     op_wed_ := if col "wed" then is_t buf else op_wed_ o;
     op_thu_ := if col "thu" then is_t buf else op_thu_ o;
     op_fri_ := if col "fri" then is_t buf else op_fri_ o;
     op_sat_ := if col "sat" then is_t buf else op_sat_ o;
     op_sun_ := if col "sun" then is_t buf else op_sun_ o;
     op_fromtime_ := if col "fromtime" then col_time_or_none buf (op_fromtime_ o) else op_fromtime_ o;
     op_totime_ := if col "totime" then col_time_or_none buf (op_totime_ o) else op_totime_ o |}.

Definition kvObsPgm_set_row (r : DRow) (o : kvObsPgm) : kvObsPgm := row_set kvObsPgm_column r o.

End row.

(** Is an observation expected at [t]? The chains of the code, first the day of
    the week, then the hour. *)
Definition isOn {PC : PCalendar PT} (o : kvObsPgm) (t : ptime PT) : bool :=
  let dayW := pt_days_before_sunday t in
  let hour := pt_hours t in
  if negb (pt_minutes t =? 0) || negb (pt_seconds t =? 0) then false
  else if (dayW =? 0) && negb (op_sun_ o) then false
  else if (dayW =? 1) && negb (op_mon_ o) then false
  else if (dayW =? 2) && negb (op_tue_ o) then false
  else if (dayW =? 3) && negb (op_wed_ o) then false
  else if (dayW =? 4) && negb (op_thu_ o) then false
  else if (dayW =? 5) && negb (op_fri_ o) then false
  else if (dayW =? 6) && negb (op_sat_ o) then false
  else if (hour =? 0) && negb (op_kl00_ o) then false
  else if (hour =? 1) && negb (op_kl01_ o) then false
  else if (hour =? 2) && negb (op_kl02_ o) then false
  else if (hour =? 3) && negb (op_kl03_ o) then false
  else if (hour =? 4) && negb (op_kl04_ o) then false
  else if (hour =? 5) && negb (op_kl05_ o) then false
  else if (hour =? 6) && negb (op_kl06_ o) then false
  else if (hour =? 7) && negb (op_kl07_ o) then false
  else if (hour =? 8) && negb (op_kl08_ o) then false
  else if (hour =? 9) && negb (op_kl09_ o) then false
  else if (hour =? 10) && negb (op_kl10_ o) then false
  else if (hour =? 11) && negb (op_kl11_ o) then false
  else if (hour =? 12) && negb (op_kl12_ o) then false
  else if (hour =? 13) && negb (op_kl13_ o) then false
  else if (hour =? 14) && negb (op_kl14_ o) then false
  else if (hour =? 15) && negb (op_kl15_ o) then false
  else if (hour =? 16) && negb (op_kl16_ o) then false
  else if (hour =? 17) && negb (op_kl17_ o) then false
  else if (hour =? 18) && negb (op_kl18_ o) then false
  else if (hour =? 19) && negb (op_kl19_ o) then false
  else if (hour =? 20) && negb (op_kl20_ o) then false
  else if (hour =? 21) && negb (op_kl21_ o) then false
  else if (hour =? 22) && negb (op_kl22_ o) then false
  else if (hour =? 23) && negb (op_kl23_ o) then false
  else true.

(** ** Properties *)

(** The flags of the week, from Sunday, and of the hours. *)
Definition week_flags (o : kvObsPgm) : list bool :=
  [op_sun_ o; op_mon_ o; op_tue_ o; op_wed_ o; op_thu_ o; op_fri_ o; op_sat_ o].
Definition hour_flags (o : kvObsPgm) : list bool :=
  [op_kl00_ o; op_kl01_ o; op_kl02_ o; op_kl03_ o; op_kl04_ o; op_kl05_ o; op_kl06_ o;
   op_kl07_ o; op_kl08_ o; op_kl09_ o; op_kl10_ o; op_kl11_ o; op_kl12_ o; op_kl13_ o;
   op_kl14_ o; op_kl15_ o; op_kl16_ o; op_kl17_ o; op_kl18_ o; op_kl19_ o; op_kl20_ o;
   op_kl21_ o; op_kl22_ o; op_kl23_ o].

(** What the server shows of a program: numbers in decimal, t and f for booleans. *)
Definition show_bool (b : bool) : string := if b then "t" else "f".
Definition kvObsPgm_columns (o : kvObsPgm) (from to : string) : DRow :=
  [("stationid", pretty (op_stationid_ o)); ("paramid", pretty (op_paramid_ o));
   ("level", pretty (op_level_ o)); ("nr_sensor", pretty (op_nr_sensor_ o));
   ("typeid", pretty (op_typeid_ o)); ("collector", show_bool (op_collector_ o));
   ("kl00", show_bool (op_kl00_ o)); ("kl01", show_bool (op_kl01_ o));
   ("kl02", show_bool (op_kl02_ o)); ("kl03", show_bool (op_kl03_ o));
   ("kl04", show_bool (op_kl04_ o)); ("kl05", show_bool (op_kl05_ o));
   ("kl06", show_bool (op_kl06_ o)); ("kl07", show_bool (op_kl07_ o));
   ("kl08", show_bool (op_kl08_ o)); ("kl09", show_bool (op_kl09_ o));
   ("kl10", show_bool (op_kl10_ o)); ("kl11", show_bool (op_kl11_ o));
   ("kl12", show_bool (op_kl12_ o)); ("kl13", show_bool (op_kl13_ o));
   ("kl14", show_bool (op_kl14_ o)); ("kl15", show_bool (op_kl15_ o));
   ("kl16", show_bool (op_kl16_ o)); ("kl17", show_bool (op_kl17_ o));
   ("kl18", show_bool (op_kl18_ o)); ("kl19", show_bool (op_kl19_ o));
   ("kl20", show_bool (op_kl20_ o)); ("kl21", show_bool (op_kl21_ o));
   ("kl22", show_bool (op_kl22_ o)); ("kl23", show_bool (op_kl23_ o));
   ("mon", show_bool (op_mon_ o)); ("tue", show_bool (op_tue_ o));
   ("wed", show_bool (op_wed_ o)); ("thu", show_bool (op_thu_ o));
   ("fri", show_bool (op_fri_ o)); ("sat", show_bool (op_sat_ o));
   ("sun", show_bool (op_sun_ o)); ("fromtime", from); ("totime", to)]%string.

Lemma kvObsPgm_ext (a b : kvObsPgm) :
  op_stationid_ a = op_stationid_ b -> op_paramid_ a = op_paramid_ b ->
  op_level_ a = op_level_ b -> op_nr_sensor_ a = op_nr_sensor_ b ->
  op_typeid_ a = op_typeid_ b -> op_collector_ a = op_collector_ b ->
  op_kl00_ a = op_kl00_ b -> op_kl01_ a = op_kl01_ b -> op_kl02_ a = op_kl02_ b ->
  op_kl03_ a = op_kl03_ b -> op_kl04_ a = op_kl04_ b -> op_kl05_ a = op_kl05_ b ->
  op_kl06_ a = op_kl06_ b -> op_kl07_ a = op_kl07_ b -> op_kl08_ a = op_kl08_ b ->
  op_kl09_ a = op_kl09_ b -> op_kl10_ a = op_kl10_ b -> op_kl11_ a = op_kl11_ b ->
  op_kl12_ a = op_kl12_ b -> op_kl13_ a = op_kl13_ b -> op_kl14_ a = op_kl14_ b ->
  op_kl15_ a = op_kl15_ b -> op_kl16_ a = op_kl16_ b -> op_kl17_ a = op_kl17_ b ->
  op_kl18_ a = op_kl18_ b -> op_kl19_ a = op_kl19_ b -> op_kl20_ a = op_kl20_ b ->
  op_kl21_ a = op_kl21_ b -> op_kl22_ a = op_kl22_ b -> op_kl23_ a = op_kl23_ b ->
  op_mon_ a = op_mon_ b -> op_tue_ a = op_tue_ b -> op_wed_ a = op_wed_ b ->
  op_thu_ a = op_thu_ b -> op_fri_ a = op_fri_ b -> op_sat_ a = op_sat_ b ->
  op_sun_ a = op_sun_ b -> op_fromtime_ a = op_fromtime_ b -> op_totime_ a = op_totime_ b ->
  a = b.
Proof. destruct a, b. simpl. intros. by subst. Qed.

Lemma default_true (m : option bool) : default false m = true <-> m = Some true.
Proof. destruct m as [[]|]; simpl; split; congruence. Qed.

(** One of the tests of a chain. *)
Lemma chain_test (n k : Z) (b : bool) (x : bool) :
  (if (n =? k) && negb b then false else x) = (negb (n =? k) || b) && x.
Proof. by destruct (n =? k), b. Qed.

Lemma hour_chain o h :
  0 <= h < 24 ->
  default false (hour_flags o !! Z.to_nat h) =
  (negb (h =? 0) || op_kl00_ o) && (
  (negb (h =? 1) || op_kl01_ o) && (
  (negb (h =? 2) || op_kl02_ o) && (
  (negb (h =? 3) || op_kl03_ o) && (
  (negb (h =? 4) || op_kl04_ o) && (
  (negb (h =? 5) || op_kl05_ o) && (
  (negb (h =? 6) || op_kl06_ o) && (
  (negb (h =? 7) || op_kl07_ o) && (
  (negb (h =? 8) || op_kl08_ o) && (
  (negb (h =? 9) || op_kl09_ o) && (
  (negb (h =? 10) || op_kl10_ o) && (
  (negb (h =? 11) || op_kl11_ o) && (
  (negb (h =? 12) || op_kl12_ o) && (
  (negb (h =? 13) || op_kl13_ o) && (
  (negb (h =? 14) || op_kl14_ o) && (
  (negb (h =? 15) || op_kl15_ o) && (
  (negb (h =? 16) || op_kl16_ o) && (
  (negb (h =? 17) || op_kl17_ o) && (
  (negb (h =? 18) || op_kl18_ o) && (
  (negb (h =? 19) || op_kl19_ o) && (
  (negb (h =? 20) || op_kl20_ o) && (
  (negb (h =? 21) || op_kl21_ o) && (
  (negb (h =? 22) || op_kl22_ o) && (
  (negb (h =? 23) || op_kl23_ o) && (true)))))))))))))))))))))))).
Proof.
  revert h. apply (Z_range_ind _ 24). cbn [seq fmap list_fmap]. rewrite !Forall_cons.
  repeat split; simpl; first [by rewrite andb_true_r|constructor].
Qed.

(** an observation is expected exactly at full hours for which both the flag
    of the day of the week and the flag of the hour are set. *)
Theorem isOn_spec {PC : PCalendar PT} (o : kvObsPgm) (t : ptime PT) :
  0 <= pt_days_before_sunday t < 7 -> 0 <= pt_hours t < 24 ->
  isOn o t = true <->
  pt_minutes t = 0 /\ pt_seconds t = 0 /\
  week_flags o !! Z.to_nat (pt_days_before_sunday t) = Some true /\
  hour_flags o !! Z.to_nat (pt_hours t) = Some true.
Proof.
  unfold isOn. generalize (pt_days_before_sunday t) (pt_hours t). intros d h Hd Hh.
  destruct (Z.eqb_spec (pt_minutes t) 0) as [->|], (Z.eqb_spec (pt_seconds t) 0) as [->|];
    simpl; [|split; [done|by intros (? & ? & _)]..].
  rewrite !chain_test.
  match goal with |- ?c = true <-> _ =>
    replace c with (default false (week_flags o !! Z.to_nat d) && default false (hour_flags o !! Z.to_nat h))
  end.
  2:{ revert d Hd. apply (Z_range_ind _ 7). cbn [seq fmap list_fmap]. rewrite !Forall_cons.
      pose proof (hour_chain o h Hh) as ->. repeat split; simpl; first [done|constructor]. }
  rewrite andb_true_iff, !default_true. tauto.
Qed.

Section row_theorem.
  Context {BT : BoostText} {TT : PTimeText PT}.

Lemma bool_member (g : kvObsPgm -> bool) (name : string) r o o0 :
  NoDup (getFieldNames r) ->
  (forall n b s, g (kvObsPgm_column n b s) = if bool_decide (n = name) then is_t b else g s) ->
  row_get r name = Some (show_bool (g o)) ->
  g (kvObsPgm_set_row r o0) = g o.
Proof.
  intros Hnd Hg Hr. unfold kvObsPgm_set_row.
  rewrite (row_set_member kvObsPgm_column g name (fun b _ => is_t b)) by done.
  rewrite Hr. by destruct (g o).
Qed.

Lemma int_member (g : kvObsPgm -> Z) (name : string) r o o0 :
  NoDup (getFieldNames r) -> is_int (g o) ->
  (forall n b s, g (kvObsPgm_column n b s) = if bool_decide (n = name) then atoi b else g s) ->
  row_get r name = Some (pretty (g o)) ->
  g (kvObsPgm_set_row r o0) = g o.
Proof.
  intros Hnd Hi Hg Hr. unfold kvObsPgm_set_row.
  rewrite (row_set_member kvObsPgm_column g name (fun b _ => atoi b)) by done.
  rewrite Hr. by apply atoi_pretty.
Qed.

Lemma time_member (g : kvObsPgm -> ptime PT) (name txt : string) r o o0 :
  NoDup (getFieldNames r) -> col_time_or_none txt (g o0) = g o ->
  (forall n b s, g (kvObsPgm_column n b s) = if bool_decide (n = name) then col_time_or_none b (g s) else g s) ->
  row_get r name = Some txt ->
  g (kvObsPgm_set_row r o0) = g o.
Proof.
  intros Hnd Ht Hg Hr. unfold kvObsPgm_set_row.
  rewrite (row_set_member kvObsPgm_column g name col_time_or_none) by done. by rewrite Hr.
Qed.

(** reading a row of the table obs_pgm gives the program it shows, whatever
    the order of the columns and whatever other columns there are. *)
Theorem kvObsPgm_row_roundtrip (r : DRow) (o o0 : kvObsPgm) (from to : string) :
  NoDup (getFieldNames r) ->
  is_int (op_stationid_ o) -> is_int (op_paramid_ o) -> is_int (op_level_ o) ->
  is_int (op_nr_sensor_ o) -> is_int (op_typeid_ o) ->
  col_time_or_none from (op_fromtime_ o0) = op_fromtime_ o ->
  col_time_or_none to (op_totime_ o0) = op_totime_ o ->
  kvObsPgm_columns o from to ⊆ r ->
  kvObsPgm_set_row r o0 = o.
Proof.
  intros Hnd I1 I2 I3 I4 I5 T1 T2 Hsub.
  assert (G : forall nv, nv ∈ kvObsPgm_columns o from to -> row_get r nv.1 = Some nv.2)
    by (intros [n v] Hin; apply row_get_elem; auto).
  unfold kvObsPgm_columns in G. rewrite <- Forall_forall in G.
  repeat (apply Forall_cons in G as [?G0 G]; cbn [fst snd] in * ).
  apply kvObsPgm_ext;
    first [by eapply bool_member | by eapply int_member | by eapply time_member].
Qed.

End row_theorem.
End kvObsPgm.

Arguments kvObsPgm : clear implicits.

(** Every day but Saturday, at 6, 12 and 18 hours. *)
Definition sample_pgm : kvObsPgm stamp_time :=
  kvObsPgm_set 18700 211 0 1 302 false
    false false false false false false true false false false false false
    true false false false false false true false false false false false
    true true true true true false true (stamp_of 2006 1 1 0 0 0) NaDT.

(** 2006-02-06 was a Monday. *)
Lemma isOn_spec_witness :
  isOn sample_pgm (stamp_of 2006 2 6 12 0 0) = true /\ isOn sample_pgm (stamp_of 2006 2 4 12 0 0) = false.
Proof.
  split.
  - apply (isOn_spec sample_pgm (stamp_of 2006 2 6 12 0 0)); [vm_compute; split; congruence..|].
    repeat split; vm_compute; reflexivity.
  - apply not_true_is_false. intros H.
    apply (isOn_spec sample_pgm (stamp_of 2006 2 4 12 0 0)) in H; [|vm_compute; split; congruence..].
    destruct H as (_ & _ & H & _). vm_compute in H. discriminate H.
Defined.

Lemma kvObsPgm_row_roundtrip_witness :
  kvObsPgm_set_row (reverse (kvObsPgm_columns sample_pgm "2006-01-01 00:00:00" "")) sample_pgm = sample_pgm.
Proof.
  apply (kvObsPgm_row_roundtrip (reverse (kvObsPgm_columns sample_pgm "2006-01-01 00:00:00" ""))
    sample_pgm sample_pgm "2006-01-01 00:00:00" "" ltac:(by_decision));
    try (unfold is_int, INT_MIN, INT_MAX; simpl; lia); try (vm_compute; reflexivity).
  intros x Hx. by apply elem_of_reverse.
Defined.
