(* ===== verification/Conf.v ===== *)
(** * The configuration tree (src/src/lib/miconfparser)

    Values, lists of values and sections as the parser leaves them
    (valelement.cc, confsection.cc), and how a program reads them. The flags of a
    list and what is kept of a section for messages are not part of the model. *)

From S2P Require Import Prelude Orders PTime TimeText Rows.

Inductive ValType := UNDEF | ID | INT | FLOAT | STRING | NIL.

#[export] Instance ValType_eq_dec : EqDecision ValType.
Proof. solve_decision. Defined.

Record ValElement := { valType_ : ValType; val_ : bytes }.

Abbreviation ValElementList := (list ValElement).

(** The sections by name, several with one name in their order, and the values;
    both lists are in the order of the keys of the maps. *)
Inductive ConfSection :=
  Section_ (sectionList : list (bytes * list ConfSection)) (valueList : list (bytes * ValElementList)).

Definition sectionList (c : ConfSection) := match c with Section_ s _ => s end.
Definition valueList (c : ConfSection) := match c with Section_ _ v => v end.

(** [sscanf("%ld")]: a number, or nothing at all. *)
Definition scan_long (b : bytes) : option Z :=
  let d := match skip_space b with
           | "-"%char :: d => d
           | "+"%char :: d => d
           | d => d
           end in
  if bool_decide ((span_digits d).1 = []) then None else Some (strtol b).

(** [static_cast<long>(floor(d))]; on the platform a value that is no [long]
    gives the smallest one. *)
Definition floor_long (f : spec_float) : Z :=
  match f with
  | S754_zero _ => 0
  | S754_finite s m e =>
      let v := if (s : bool) then - Z.pos m else Z.pos m in
      let r := if 0 <=? e then v * 2 ^ e else v / 2 ^ (- e) in
      if (LONG_MIN <=? r) && (r <=? LONG_MAX) then r else LONG_MIN
  | _ => LONG_MIN
  end.

Section values.
  Context {BT : BoostText}.

Definition valAsString (e : ValElement) : bytes := val_ e.

(** [valAsInt()], [None] when it throws InvalidTypeEx. A FLOAT is the text of a
    decimal number. *)
Definition valAsInt (e : ValElement) : option Z :=
  match valType_ e with
  | INT => scan_long (val_ e)
  | FLOAT => Some (floor_long (Dbl.add (default (Dbl.of_Z 0) (stod (val_ e))) (Dbl.lit 1 2)))
  | _ => lexical_cast_long (val_ e)
  end.

Definition valAsBool (e : ValElement) : option bool :=
  match valType_ e, val_ e with
  | ID, c :: _ | STRING, c :: _ =>
      if bool_decide (c = "t"%char) || bool_decide (c = "T"%char) then Some true
      else if bool_decide (c = "f"%char) || bool_decide (c = "F"%char) then Some false
      else None
  | _, _ => None
  end.

Definition valAsInt_or (e : ValElement) (defaultValue : Z) : Z := default defaultValue (valAsInt e).
Definition valAsBool_or (e : ValElement) (defaultValue : bool) : bool := default defaultValue (valAsBool e).

(** [operator[]] of a list, [None] when it throws out_of_range. *)
Definition list_at (l : ValElementList) (index : Z) : option ValElement :=
  if (index <? 0) || (Z.of_nat (length l) <=? index) then None else l !! Z.to_nat index.

Definition list_valAsInt (l : ValElementList) (defaultValue index : Z) : Z :=
  match list_at l index with Some e => valAsInt_or e defaultValue | None => defaultValue end.

Definition list_valAsBool (l : ValElementList) (defaultValue : bool) (index : Z) : bool :=
  match list_at l index with Some e => valAsBool_or e defaultValue | None => defaultValue end.

End values.

(** [trimstr(s, trimset)]. *)
Fixpoint drop_set (set s : bytes) : bytes :=
  match s with
  | c :: r => if bool_decide (c ∈ set) then drop_set set r else s
  | [] => []
  end.
Definition conf_trimstr (s trimset : bytes) : bytes :=
  reverse (drop_set trimset (reverse (drop_set trimset s))).

(** " \n\r\t.", the set that the lookups trim. *)
Definition key_trimset : bytes := [" "%char; char_of 10; char_of 13; char_of 9; "."%char].

(** The names of a path between its dots. *)
Fixpoint split_dots (s : bytes) : list bytes :=
  match s with
  | [] => [[]]
  | c :: r =>
      if bool_decide (c = "."%char) then [] :: split_dots r
      else match split_dots r with
           | w :: ws => (c :: w) :: ws
           | [] => [[c]]
           end
  end.

(** [find] in a map of the tree. *)
Definition map_find {A} (k : bytes) (m : list (bytes * A)) : option A :=
  snd ∘ snd <$> list_find (fun kv => kv.1 = k) m.

(** The loop of [getSection]: [at_top] tells that [section == this]. *)
Fixpoint walk (at_top : bool) (section : ConfSection) (names : list bytes) : option ConfSection :=
  match names with
  | [] => Some section
  | name :: rest =>
      if bool_decide (name = []) then (if at_top then None else Some section)
      else match map_find name (sectionList section) with
           | None => None
           | Some l =>
               match l with
               | s :: _ => walk false s rest
               | [] => walk at_top section rest
               end
           end
  end.

Definition getSection (c : ConfSection) (cs_ : bytes) : option ConfSection :=
  let cs := conf_trimstr cs_ key_trimset in
  if bool_decide (cs = []) then Some c else walk true c (split_dots cs).

(** [getValue]: the empty list when there is no such section or key. *)
Definition getValue (c : ConfSection) (key_ : bytes) : ValElementList :=
  let key := conf_trimstr key_ key_trimset in
  if bool_decide (key = []) then []
  else
    let '(keyPart, sectionPart) := match find_last_of ["."%char] key with
                                   | Some i => (drop (S i) key, take i key)
                                   | None => (key, [])
                                   end in
    match getSection c sectionPart with
    | None => []
    | Some section => default [] (map_find keyPart (valueList section))
    end.

Definition getSubSections (c : ConfSection) : list bytes := (sectionList c).*1.

(** ** Lemmas *)

Lemma drop_set_id (set s : bytes) : (forall c, head s = Some c -> c ∉ set) -> drop_set set s = s.
Proof. destruct s as [|c s]; [done|]. intros H. simpl. by rewrite bool_decide_false by (by apply H). Qed.

Lemma conf_trimstr_plain key : Forall (fun x => x ∉ key_trimset) key -> conf_trimstr key key_trimset = key.
Proof.
  intros Hk. unfold conf_trimstr.
  assert (Hd : forall k, Forall (fun x => x ∉ key_trimset) k -> drop_set key_trimset k = k).
  { intros k H. apply drop_set_id. destruct k; [done|]. intros ? [= <-]. by apply Forall_cons in H as [? _]. }
  rewrite (Hd key Hk), Hd by (by apply Forall_reverse). apply reverse_involutive.
Qed.

Lemma plain_no_dot key : Forall (fun x => x ∉ key_trimset) key -> Forall (fun x => x <> "."%char) key.
Proof. intros H. eapply Forall_impl; [exact H|]. intros x Hx ->. apply Hx. by_decision. Qed.

Lemma split_dots_plain key : key <> [] -> Forall (fun x => x <> "."%char) key -> split_dots key = [key].
Proof.
  intros Hne H. induction H as [|c key Hc H IH]; [done|]. simpl. rewrite bool_decide_false by done.
  destruct key as [|c' key]; [done|]. by rewrite IH.
Qed.

(** A name without anything to trim and without dots is one step down. *)
Lemma getSection_plain c name s l :
  name <> [] -> Forall (fun x => x ∉ key_trimset) name ->
  map_find name (sectionList c) = Some (s :: l) -> getSection c name = Some s.
Proof.
  intros Hne Hn Hf. unfold getSection. rewrite conf_trimstr_plain by done.
  rewrite bool_decide_false by done. rewrite split_dots_plain by (done || by apply plain_no_dot).
  simpl. rewrite bool_decide_false by done. by rewrite Hf.
Qed.

Lemma map_find_elem {A} (m : list (bytes * A)) k v : NoDup m.*1 -> (k, v) ∈ m -> map_find k m = Some v.
Proof.
  unfold map_find. intros Hnd Hin. induction m as [|[k' v'] m IH]; [by apply elem_of_nil in Hin|].
  simpl in Hnd. apply NoDup_cons in Hnd as [Hni Hnd]. simpl.
  apply elem_of_cons in Hin as [[= <- <-]|Hin]; [by rewrite decide_True|].
  rewrite decide_False.
  - specialize (IH Hnd Hin). destruct (list_find _ m) as [[i x]|]; [exact IH|discriminate IH].
  - simpl. intros ->. apply Hni. apply list_elem_of_fmap. by exists (k, v).
Qed.

(** A key without anything to trim and without dots is looked up in the section
    itself. *)
Lemma getValue_plain c key :
  key <> [] -> Forall (fun x => x ∉ key_trimset) key ->
  getValue c key = default [] (map_find key (valueList c)).
Proof.
  intros Hne Hk. unfold getValue. rewrite conf_trimstr_plain by done.
  rewrite bool_decide_false by done. rewrite find_last_of_none; [done|].
  eapply Forall_impl; [by apply plain_no_dot|]. intros x Hx Hin. by apply list_elem_of_singleton in Hin.
Qed.
