(* ===== verification/StationFilter.v ===== *)
(** * StationFilter: what happens to an observation
      (src/src/lib/decoder/decoderbase/StationFilter.cc)

    Filters, configured in the section kvDataInputd.filters, decide for every
    station and type whether data is saved, published and queued. Output to the
    log is left out. *)

From S2P Require Import Prelude Orders PTime TimeText Rows KvData KvalobsData Conf.

(** A [std::set<long>]: the elements in increasing order. *)
Fixpoint set_insert (v : Z) (s : list Z) : list Z :=
  match s with
  | [] => [v]
  | x :: r => if x <? v then x :: set_insert v r else if v <? x then v :: s else s
  end.

Record StationFilterElement := {
  stationIdRangeFrom_ : Z; stationIdRangeTo_ : Z;
  stationIdList_ : list Z; typeids_ : list Z;
  name_ : bytes; addToWokque_ : bool; publish_ : bool; saveToDb_ : bool
}.

(** The two constructors. *)
Definition default_element : StationFilterElement :=
  {| stationIdRangeFrom_ := -1; stationIdRangeTo_ := -1; stationIdList_ := []; typeids_ := [];
     name_ := to_bytes "__default__"; addToWokque_ := true; publish_ := true; saveToDb_ := true |}.

Definition named_element (filterName : bytes) : StationFilterElement :=
  {| stationIdRangeFrom_ := -1; stationIdRangeTo_ := -1; stationIdList_ := []; typeids_ := [];
     name_ := filterName; addToWokque_ := true; publish_ := false; saveToDb_ := true |}.

Definition with_range (e : StationFilterElement) (from to : Z) : StationFilterElement :=
  {| stationIdRangeFrom_ := from; stationIdRangeTo_ := to; stationIdList_ := stationIdList_ e;
     typeids_ := typeids_ e; name_ := name_ e; addToWokque_ := addToWokque_ e;
     publish_ := publish_ e; saveToDb_ := saveToDb_ e |}.

Definition with_stations (e : StationFilterElement) (l : list Z) : StationFilterElement :=
  {| stationIdRangeFrom_ := stationIdRangeFrom_ e; stationIdRangeTo_ := stationIdRangeTo_ e;
     stationIdList_ := l; typeids_ := typeids_ e; name_ := name_ e;
     addToWokque_ := addToWokque_ e; publish_ := publish_ e; saveToDb_ := saveToDb_ e |}.

Definition with_typeids (e : StationFilterElement) (l : list Z) : StationFilterElement :=
  {| stationIdRangeFrom_ := stationIdRangeFrom_ e; stationIdRangeTo_ := stationIdRangeTo_ e;
     stationIdList_ := stationIdList_ e; typeids_ := l; name_ := name_ e;
     addToWokque_ := addToWokque_ e; publish_ := publish_ e; saveToDb_ := saveToDb_ e |}.

(** [saveToDb(save)], [publish(pub)] and [setAddToWorkQueue(f)]. *)
Definition with_flags (e : StationFilterElement) (save pub queue : bool) : StationFilterElement :=
  {| stationIdRangeFrom_ := stationIdRangeFrom_ e; stationIdRangeTo_ := stationIdRangeTo_ e;
     stationIdList_ := stationIdList_ e; typeids_ := typeids_ e; name_ := name_ e;
     addToWokque_ := queue; publish_ := pub; saveToDb_ := save |}.

(** Station 0 stands for all stations and is then the only element. *)
Definition addStation (e : StationFilterElement) (stationId : Z) : StationFilterElement :=
  if stationId =? 0 then with_stations e [0]
  else match stationIdList_ e with
       | 0 :: _ => e
       | l => with_stations e (set_insert stationId l)
       end.

Definition setStationRange (e : StationFilterElement) (stationIdFrom stationIdTo : Z) : StationFilterElement :=
  if stationIdFrom =? stationIdTo then addStation (with_range e (-1) (-1)) stationIdFrom
  else if stationIdFrom <? stationIdTo then with_range e stationIdFrom stationIdTo
  else with_range e stationIdTo stationIdFrom.

Definition stationDefined (e : StationFilterElement) (stationId : Z) : bool :=
  if (-1 <? stationIdRangeFrom_ e) && (-1 <? stationIdRangeTo_ e)
     && (stationIdRangeFrom_ e <=? stationId) && (stationId <=? stationIdRangeTo_ e) then true
  else existsb (fun sid => (sid =? 0) || (sid =? stationId)) (stationIdList_ e).

Definition typeDefined (e : StationFilterElement) (typeId : Z) : bool :=
  match typeids_ e with
  | b :: _ =>
      if (typeId <? 0) && (b =? LONG_MIN) then true
      else if (0 <? typeId) && (b =? LONG_MAX) then true
      else bool_decide (typeId ∈ typeids_ e)
  | [] => false
  end.

Definition element_filter (e : StationFilterElement) (stationId typeId : Z) : bool :=
  if negb (stationDefined e stationId) then false
  else bool_decide (typeids_ e = []) || typeDefined e typeId.

(** ** The configuration of an element *)

Section config.
  Context {BT : BoostText}.

(** [setVals]: [None] when it throws. *)
Fixpoint setVals (vals : ValElementList) (dst : list Z) : option (list Z) :=
  match vals with
  | [] => Some dst
  | e :: vals =>
      if bool_decide (valAsString e = to_bytes "neg") then Some [LONG_MIN]
      else if bool_decide (valAsString e = to_bytes "pos") then Some [LONG_MAX]
      else
        let v := valAsInt_or e LONG_MIN in
        if v =? LONG_MIN then None else setVals vals (set_insert v dst)
  end.

(** The key station_range, when it is there. *)
Definition readRange (e : StationFilterElement) (val : ValElementList) : option StationFilterElement :=
  if (0 <? Z.of_nat (length val)) then
    let v1 := list_valAsInt val (-1) 0 in
    let v2 := list_valAsInt val (-1) 1 in
    let v2 := if (v2 <? 0) && (Z.of_nat (length val) =? 1) then LONG_MAX else v2 in
    if (v1 <? 0) || (v2 <? 0) then None else Some (setStationRange e v1 v2)
  else Some e.

(** [StationFilterElement::readConfig], [None] when it throws. *)
Definition element_readConfig (conf : ConfSection) (name : bytes) (isDefault : bool) :
    option StationFilterElement :=
  let e := if isDefault then default_element else named_element name in
  let save := list_valAsBool (getValue conf (to_bytes "save_to_db")) (saveToDb_ e) 0 in
  let pub := list_valAsBool (getValue conf (to_bytes "publish")) (publish_ e) 0 in
  let queue := list_valAsBool (getValue conf (to_bytes "add_to_work_queue")) (addToWokque_ e) 0 in
  let e := with_flags e save pub (if negb save then false else queue) in
  if isDefault then Some e
  else
    e ← readRange e (getValue conf (to_bytes "station_range"));
    stations ← setVals (getValue conf (to_bytes "station_list")) (stationIdList_ e);
    let e := with_stations e stations in
    types ← setVals (getValue conf (to_bytes "typeid_list")) (typeids_ e);
    Some (with_typeids e types).

End config.

(** ** The filters *)

Record StationFilters := { defaultFilter_ : StationFilterElement; filters_ : list StationFilterElement }.

Definition StationFilters_new : StationFilters := {| defaultFilter_ := default_element; filters_ := [] |}.

Definition filterNames (fs : StationFilters) : list bytes := name_ <$> filters_ fs.

(** [None] when it throws. *)
Definition getFilterByName (fs : StationFilters) (name : bytes) : option StationFilterElement :=
  snd <$> list_find (fun f => name_ f = name) (filters_ fs).

Definition filters_filter (fs : StationFilters) (stationId typeId : Z) : StationFilterElement :=
  match list_find (fun f => element_filter f stationId typeId = true) (filters_ fs) with
  | Some (_, f) => f
  | None => defaultFilter_ fs
  end.

(** The loop of [publishOrSaveData] and of its copy for texts: the filter is
    looked up when the station or the type changes. *)
Definition publishOrSave {A} (stationID typeID : A -> Z) (fs : StationFilters) (saveData : bool)
    (sd : list A) : list A :=
  (foldl (fun '(sid, tid, f, data) d =>
     let '(sid, tid, f) :=
       if negb (sid =? stationID d) || negb (tid =? typeID d)
       then (stationID d, typeID d, filters_filter fs (stationID d) (typeID d))
       else (sid, tid, f) in
     let keep := if (saveData : bool) then saveToDb_ f else publish_ f in
     (sid, tid, f, if (keep : bool) then data ++ [d] else data))
   (LONG_MAX, LONG_MAX, default_element, []) sd).2.

Section data.
  Context {PT : PTime}.

Definition publishOrSaveData (fs : StationFilters) (sd : list (kvData PT)) (saveData : bool) :
    list (kvData PT) := publishOrSave stationid_ typeid_ fs saveData sd.

Definition publishOrSaveTextData (fs : StationFilters) (td : list (kvTextData PT)) (saveData : bool) :
    list (kvTextData PT) := publishOrSave tx_stationid_ tx_typeid_ fs saveData td.

Definition saveDataToDb (fs : StationFilters) (sd : list (kvData PT)) (td : list (kvTextData PT)) :
    list (kvData PT) * list (kvTextData PT) :=
  (publishOrSaveData fs sd true, publishOrSaveTextData fs td true).

Definition publishData (fs : StationFilters) (sd : list (kvData PT)) (td : list (kvTextData PT)) :
    KvalobsData PT :=
  KvalobsData_of (publishOrSaveData fs sd false) (publishOrSaveTextData fs td false).

End data.

(** One subsection: a filter that throws is reported and left out. *)
Definition add_filter {BT : BoostText} (fconf : ConfSection) (filters : StationFilters)
    (filterName : bytes) : StationFilters :=
  match getSection fconf filterName with
  | None => filters
  | Some filter =>
      if bool_decide (filterName = to_bytes "default") then
        match element_readConfig filter filterName true with
        | Some e => {| defaultFilter_ := e; filters_ := filters_ filters |}
        | None => filters
        end
      else
        match element_readConfig filter filterName false with
        | Some e => {| defaultFilter_ := defaultFilter_ filters; filters_ := filters_ filters ++ [e] |}
        | None => filters
        end
  end.

(** [StationFilters::readConfig]. *)
Definition filters_readConfig {BT : BoostText} (conf : ConfSection) : StationFilters :=
  match getSection conf (to_bytes "kvDataInputd.filters") with
  | None => StationFilters_new
  | Some fconf => foldl (add_filter fconf) StationFilters_new (getSubSections fconf)
  end.

(** ** Lemmas *)

Lemma set_insert_elem v s x : x ∈ set_insert v s <-> x = v \/ x ∈ s.
Proof.
  induction s as [|y s IH]; simpl; [by rewrite list_elem_of_singleton, elem_of_nil; tauto|].
  destruct (Z.ltb_spec y v), (Z.ltb_spec v y); rewrite ?elem_of_cons, ?IH, ?elem_of_cons; try tauto.
  assert (y = v) as -> by lia. tauto.
Qed.

Section spec.
  Context {BT : BoostText}.

(** The numbers of a list, and the two words that stand for sets of types. *)
Definition ints (vals : ValElementList) : list Z := (fun e => valAsInt_or e LONG_MIN) <$> vals.
Definition is_word (e : ValElement) : Prop := val_ e = to_bytes "neg" \/ val_ e = to_bytes "pos".

#[export] Instance is_word_dec e : Decision (is_word e).
Proof. unfold is_word. apply _. Defined.

(** The stations of a range. *)
Definition in_range (rg : ValElementList) (sid : Z) : Prop :=
  match ints rg with
  | [] => False
  | [f] => f <= sid
  | f :: t :: _ => if f =? t then f = 0 \/ sid = f else Z.min f t <= sid <= Z.max f t
  end.

(** The types of a list. *)
Definition type_ok (tl : ValElementList) (tid : Z) : Prop :=
  match list_find is_word tl with
  | None => tl = [] \/ tid ∈ ints tl
  | Some (_, e) => if bool_decide (val_ e = to_bytes "neg") then tid < 0 else 0 < tid
  end.

Lemma setVals_numbers vals dst s :
  Forall (fun e => ~ is_word e) vals -> setVals vals dst = Some s ->
  (forall x, x ∈ s <-> x ∈ dst \/ x ∈ ints vals) /\ LONG_MIN ∉ ints vals.
Proof.
  intros Hw. revert dst. induction Hw as [|e vals He Hw IH]; intros dst; simpl.
  - intros [= <-]. split; [intros x; rewrite elem_of_nil; tauto|apply not_elem_of_nil].
  - unfold valAsString. rewrite !bool_decide_false by (unfold is_word in He; tauto).
    destruct (Z.eqb_spec (valAsInt_or e LONG_MIN) LONG_MIN) as [|Hv]; [done|]. intros H.
    destruct (IH _ H) as [IH1 IH2]. split.
    + intros x. rewrite IH1, set_insert_elem, elem_of_cons. tauto.
    + apply not_elem_of_cons. by split.
Qed.

Lemma setVals_word vals dst s i e :
  list_find is_word vals = Some (i, e) -> setVals vals dst = Some s ->
  s = [if bool_decide (val_ e = to_bytes "neg") then LONG_MIN else LONG_MAX].
Proof.
  revert dst i. induction vals as [|v vals IH]; intros dst i; simpl; [done|].
  unfold valAsString. destruct (decide (is_word v)) as [Hw|Hw].
  - intros [= <- <-]. destruct (decide (val_ v = to_bytes "neg")) as [Hn|Hn].
    + rewrite bool_decide_true by done. congruence.
    + rewrite bool_decide_false, bool_decide_true by (done || by destruct Hw). congruence.
  - rewrite !bool_decide_false by (unfold is_word in Hw; tauto).
    destruct (list_find is_word vals) as [[j u]|] eqn:E; [|done]. intros [= _ <-].
    destruct (valAsInt_or v LONG_MIN =? LONG_MIN); [discriminate|]. by eapply IH.
Qed.

(** The range and the list of stations together. *)
Lemma readRange_stations e e' rg sid :
  stationIdList_ e = [] -> stationIdRangeFrom_ e = -1 -> stationIdRangeTo_ e = -1 ->
  Forall (fun v => v <= LONG_MAX) (ints rg) ->
  readRange e rg = Some e' -> sid <= LONG_MAX ->
  typeids_ e' = typeids_ e /\ name_ e' = name_ e /\ saveToDb_ e' = saveToDb_ e /\
  publish_ e' = publish_ e /\ addToWokque_ e' = addToWokque_ e /\
  (in_range rg sid <->
   (-1 < stationIdRangeFrom_ e' /\ -1 < stationIdRangeTo_ e' /\
    stationIdRangeFrom_ e' <= sid <= stationIdRangeTo_ e') \/
   0 ∈ stationIdList_ e' \/ sid ∈ stationIdList_ e').
Proof.
  intros Hl Hf Ht. unfold readRange, in_range, ints. intros Hrg.
  destruct rg as [|a rg]; simpl length.
  { simpl. intros [= <-] _. rewrite Hl, Hf, Ht, !elem_of_nil. repeat split; try done; lia. }
  rewrite (proj2 (Z.ltb_lt 0 _)) by lia.
  change (list_valAsInt (a :: rg) (-1) 0) with (default (-1) (valAsInt a)).
  set (v1 := default (-1) (valAsInt a)).
  assert (E1 : 0 <= v1 -> valAsInt_or a LONG_MIN = v1)
    by (unfold v1, valAsInt_or; by destruct (valAsInt a)).
  assert (E : forall v2, (if (v1 <? 0) || (v2 <? 0) then None else Some (setStationRange e v1 v2)) = Some e' ->
    sid <= LONG_MAX -> 0 <= v1 /\ 0 <= v2 /\
    typeids_ e' = typeids_ e /\ name_ e' = name_ e /\ saveToDb_ e' = saveToDb_ e /\
    publish_ e' = publish_ e /\ addToWokque_ e' = addToWokque_ e /\
    ((if v1 =? v2 then v1 = 0 \/ sid = v1 else Z.min v1 v2 <= sid <= Z.max v1 v2) <->
     (-1 < stationIdRangeFrom_ e' /\ -1 < stationIdRangeTo_ e' /\
      stationIdRangeFrom_ e' <= sid <= stationIdRangeTo_ e') \/
     0 ∈ stationIdList_ e' \/ sid ∈ stationIdList_ e')).
  { intros v2. destruct (Z.ltb_spec v1 0); [done|]. destruct (Z.ltb_spec v2 0); [done|]. simpl.
    intros [= <-] Hsid. unfold setStationRange, addStation.
    destruct (Z.eqb_spec v1 v2) as [<-|Hne].
    - destruct (Z.eqb_spec v1 0) as [->|]; simpl; rewrite ?Hl; simpl;
        rewrite !list_elem_of_singleton; repeat split; try lia; done.
    - destruct (Z.ltb_spec v1 v2); simpl; rewrite Hl, !elem_of_nil; repeat split; try lia; done. }
  destruct rg as [|b rg].
  - change (list_valAsInt [a] (-1) 1) with (-1). simpl. intros H Hsid.
    destruct (E _ H Hsid) as (P1 & _ & X1 & X2 & X3 & X4 & X5 & X6).
    repeat (split; [done|]). apply Forall_cons in Hrg as [Ha _].
    rewrite E1 in Ha |- * by done. rewrite <- X6. case_match; unfold LONG_MAX in *; lia.
  - assert (list_valAsInt (a :: b :: rg) (-1) 1 = default (-1) (valAsInt b)) as ->.
    { unfold list_valAsInt, list_at.
      by rewrite (proj2 (Z.leb_gt (Z.of_nat (length (a :: b :: rg))) 1)) by (simpl length; lia). }
    rewrite (proj2 (Z.eqb_neq (Z.of_nat (S (length (b :: rg)))) 1)) by (simpl length; lia).
    rewrite andb_false_r. intros H Hsid.
    destruct (E _ H Hsid) as (P1 & P2 & X1 & X2 & X3 & X4 & X5 & X6).
    repeat (split; [done|]). rewrite <- X6. simpl. rewrite E1 by done.
    replace (valAsInt_or b LONG_MIN) with (default (-1) (valAsInt b)); [done|].
    unfold valAsInt_or. by destruct (valAsInt b).
Qed.

Lemma stationDefined_spec e sid :
  stationDefined e sid = true <->
  (-1 < stationIdRangeFrom_ e /\ -1 < stationIdRangeTo_ e /\
   stationIdRangeFrom_ e <= sid <= stationIdRangeTo_ e) \/
  0 ∈ stationIdList_ e \/ sid ∈ stationIdList_ e.
Proof.
  unfold stationDefined.
  assert (Hx : existsb (fun s => (s =? 0) || (s =? sid)) (stationIdList_ e) = true <->
    0 ∈ stationIdList_ e \/ sid ∈ stationIdList_ e).
  { rewrite existsb_exists. split.
    - intros (x & Hx%list_elem_of_In & [?%Z.eqb_eq|?%Z.eqb_eq]%orb_true_iff); subst; tauto.
    - intros [H|H]; [exists 0|exists sid]; (split; [by apply list_elem_of_In|]); lia. }
  destruct ((-1 <? stationIdRangeFrom_ e) && (-1 <? stationIdRangeTo_ e) &&
    (stationIdRangeFrom_ e <=? sid) && (sid <=? stationIdRangeTo_ e)) eqn:E.
  - split; [intros _; left; lia|done].
  - rewrite Hx. split; [tauto|]. intros [?|?]; [lia|done].
Qed.

(** The test of the types, for the two forms that a list may have. *)
Lemma type_test_numbers e tl tid :
  (forall x, x ∈ typeids_ e <-> x ∈ ints tl) -> LONG_MIN ∉ ints tl -> LONG_MAX ∉ ints tl ->
  (bool_decide (typeids_ e = []) || typeDefined e tid = true <-> tl = [] \/ tid ∈ ints tl).
Proof.
  intros He Hmin Hmax. unfold typeDefined. destruct (typeids_ e) as [|b l] eqn:El.
  - simpl. assert (tl = []); [|tauto]. destruct tl as [|v tl]; [done|].
    pose proof (proj2 (He (valAsInt_or v LONG_MIN)) ltac:(left)) as Hv. by apply elem_of_nil in Hv.
  - assert (Hb : b ∈ ints tl) by (apply He; left).
    assert (b <> LONG_MIN /\ b <> LONG_MAX) as [H1 H2] by (split; congruence).
    rewrite (proj2 (Z.eqb_neq _ _) H1), (proj2 (Z.eqb_neq _ _) H2), !andb_false_r. simpl.
    rewrite bool_decide_eq_true, He. split; [tauto|]. intros [->|]; [|done].
    by apply elem_of_nil in Hb.
Qed.

Lemma type_test_word e (neg : bool) tid :
  typeids_ e = [if neg then LONG_MIN else LONG_MAX] -> LONG_MIN < tid < LONG_MAX ->
  (bool_decide (typeids_ e = []) || typeDefined e tid = true <-> if neg then tid < 0 else 0 < tid).
Proof.
  intros El Ht. unfold typeDefined. rewrite El, bool_decide_false by done. cbv [orb].
  rewrite bool_decide_false by (rewrite list_elem_of_singleton; destruct neg; lia).
  destruct neg; unfold LONG_MIN, LONG_MAX in *;
    destruct (Z.ltb_spec tid 0), (Z.ltb_spec 0 tid); simpl; split; try done; lia.
Qed.

(** the configuration of a filter. Its switches are those of the section or
    the defaults, data that is not saved is not queued either. It applies to the
    stations of the range and of the list, where 0 stands for all of them, and,
    of these, to the types of the list, to all types without one, and to the
    negative or positive ones where the list has the word neg or pos. *)
Theorem element_readConfig_spec (c : ConfSection) (name : bytes) (e : StationFilterElement) (sid tid : Z) :
  let sl := getValue c (to_bytes "station_list") in
  let tl := getValue c (to_bytes "typeid_list") in
  let rg := getValue c (to_bytes "station_range") in
  element_readConfig c name false = Some e ->
  Forall (fun v => ~ is_word v) sl -> Forall (fun v => v <= LONG_MAX) (ints rg) ->
  LONG_MAX ∉ ints tl -> LONG_MIN < sid <= LONG_MAX -> LONG_MIN < tid < LONG_MAX ->
  name_ e = name /\
  saveToDb_ e = list_valAsBool (getValue c (to_bytes "save_to_db")) true 0 /\
  publish_ e = list_valAsBool (getValue c (to_bytes "publish")) false 0 /\
  addToWokque_ e = saveToDb_ e && list_valAsBool (getValue c (to_bytes "add_to_work_queue")) true 0 /\
  (element_filter e sid tid = true <->
   (in_range rg sid \/ 0 ∈ ints sl \/ sid ∈ ints sl) /\ type_ok tl tid).
Proof.
  intros sl tl rg. unfold element_readConfig. cbv zeta.
  cbn [named_element saveToDb_ publish_ addToWokque_]. fold sl tl rg.
  set (sv := list_valAsBool (getValue c (to_bytes "save_to_db")) true 0).
  set (pb := list_valAsBool (getValue c (to_bytes "publish")) false 0).
  set (qu := list_valAsBool (getValue c (to_bytes "add_to_work_queue")) true 0).
  intros He Hsl Hrg Hmax Hsid Htid.
  destruct (readRange (with_flags (named_element name) sv pb (if negb sv then false else qu)) rg)
    as [e1|] eqn:Er; [|discriminate He]. simpl in He.
  destruct (setVals sl (stationIdList_ e1)) as [st|] eqn:Es; [|discriminate He]. simpl in He.
  destruct (setVals tl (typeids_ e1)) as [ty|] eqn:Et; [|discriminate He]. simpl in He.
  injection He as <-.
  destruct (readRange_stations (with_flags (named_element name) sv pb (if negb sv then false else qu))
    e1 rg sid eq_refl eq_refl eq_refl Hrg Er ltac:(lia))
    as (X1 & X2 & X3 & X4 & X5 & X6).
  simpl in X1, X2, X3, X4, X5. simpl. rewrite X2, X3, X4, X5.
  repeat (split; [done|]). split; [by destruct sv|].
  destruct (setVals_numbers _ _ _ Hsl Es) as [Y1 _].
  unfold element_filter. rewrite X1 in Et.
  transitivity (stationDefined (with_typeids (with_stations e1 st) ty) sid = true /\
    bool_decide (ty = []) || typeDefined (with_typeids (with_stations e1 st) ty) tid = true).
  { simpl. destruct (stationDefined _ _); simpl; intuition congruence. }
  rewrite stationDefined_spec. simpl. rewrite !Y1, X6.
  assert (T : bool_decide (ty = []) || typeDefined (with_typeids (with_stations e1 st) ty) tid = true
    <-> type_ok tl tid); [|rewrite T; tauto].
  unfold type_ok. destruct (list_find is_word tl) as [[i w]|] eqn:Ew.
  - pose proof (setVals_word _ _ _ _ _ Ew Et) as ->.
    pose proof (type_test_word (with_typeids (with_stations e1
      [if bool_decide (val_ w = to_bytes "neg") then LONG_MIN else LONG_MAX])
      [if bool_decide (val_ w = to_bytes "neg") then LONG_MIN else LONG_MAX])
      (bool_decide (val_ w = to_bytes "neg")) tid eq_refl Htid) as H.
    exact H.
  - apply list_find_None in Ew. destruct (setVals_numbers _ _ _ Ew Et) as [Z1 Z2].
    apply (type_test_numbers (with_typeids (with_stations e1 st) ty) tl tid); [|done|done].
    intros x. simpl. rewrite Z1, elem_of_nil. tauto.
Qed.

End spec.

(** ** Properties of the filters *)

Section keep.
  Context {A : Type} (stationID typeID : A -> Z) (fs : StationFilters).

(** The switch of the filter of a value. *)
Definition keeps (saveData : bool) (d : A) : Prop :=
  (if saveData then saveToDb_ else publish_) (filters_filter fs (stationID d) (typeID d)) = true.

#[export] Instance keeps_dec b d : Decision (keeps b d).
Proof. unfold keeps. apply _. Defined.

(** The filter that the loop remembers is the one it would look up. *)
Lemma publishOrSave_filter (saveData : bool) (sd : list A) :
  Forall (fun d => stationID d < LONG_MAX) sd ->
  publishOrSave stationID typeID fs saveData sd = filter (keeps saveData) sd.
Proof.
  intros Hsd. unfold publishOrSave.
  assert (H : forall sid tid f data, sid = LONG_MAX \/ f = filters_filter fs sid tid ->
    (foldl (fun '(sid, tid, f, data) d =>
     let '(sid, tid, f) :=
       if negb (sid =? stationID d) || negb (tid =? typeID d)
       then (stationID d, typeID d, filters_filter fs (stationID d) (typeID d))
       else (sid, tid, f) in
     let keep := if (saveData : bool) then saveToDb_ f else publish_ f in
     (sid, tid, f, if (keep : bool) then data ++ [d] else data))
    (sid, tid, f, data) sd).2 = data ++ filter (keeps saveData) sd).
  { induction Hsd as [|d sd Hd Hsd IH]; intros sid tid f data Hf; [by rewrite filter_nil, app_nil_r|].
    cbn [foldl].
    assert (E : (if negb (sid =? stationID d) || negb (tid =? typeID d)
       then (stationID d, typeID d, filters_filter fs (stationID d) (typeID d))
       else (sid, tid, f)) = (stationID d, typeID d, filters_filter fs (stationID d) (typeID d))).
    { destruct (Z.eqb_spec sid (stationID d)) as [->|], (Z.eqb_spec tid (typeID d)) as [->|]; simpl; try done.
      destruct Hf as [Hf|Hf]; [lia|by rewrite Hf]. }
    rewrite E, IH by (by right). clear E IH. rewrite filter_cons.
    destruct (decide (keeps saveData d)) as [Hk|Hk]; unfold keeps in Hk.
    - destruct saveData; rewrite Hk; by rewrite <- app_assoc.
    - destruct saveData; apply not_true_is_false in Hk; by rewrite Hk. }
  rewrite H by (by left). done.
Qed.

End keep.

(** what is saved and what is published. Every value and every text is kept,
    in its order, exactly when the filter of its own station and type says so. *)
Theorem filter_data_spec {PT : PTime} (fs : StationFilters) (sd : list (kvData PT)) (td : list (kvTextData PT)) :
  Forall (fun d => stationid_ d < LONG_MAX) sd -> Forall (fun d => tx_stationid_ d < LONG_MAX) td ->
  saveDataToDb fs sd td =
    (filter (keeps stationid_ typeid_ fs true) sd, filter (keeps tx_stationid_ tx_typeid_ fs true) td) /\
  publishData fs sd td =
    KvalobsData_of (filter (keeps stationid_ typeid_ fs false) sd) (filter (keeps tx_stationid_ tx_typeid_ fs false) td).
Proof.
  intros Hsd Htd. unfold saveDataToDb, publishData, publishOrSaveData, publishOrSaveTextData.
  by rewrite !publishOrSave_filter.
Qed.

(** The filters that a list of subsections adds. *)
Lemma add_filters {BT : BoostText} fc (L : list (bytes * list ConfSection)) F :
  Forall (fun kv => getSection fc kv.1 = head kv.2) L -> NoDup L.*1 ->
  foldl (add_filter fc) F L.*1 =
  {| defaultFilter_ := default (defaultFilter_ F) (l ← map_find (to_bytes "default") L; s ← head l;
       element_readConfig s (to_bytes "default") true);
     filters_ := filters_ F ++ omap (fun kv => if bool_decide (kv.1 = to_bytes "default") then None
                                 else s ← head kv.2; element_readConfig s kv.1 false) L |}.
Proof.
  intros HL. revert F. induction HL as [|[n l] L Hn HL IH]; intros F Hnd;
    [simpl; rewrite app_nil_r; by destruct F|].
  cbn [fmap list_fmap fst] in *. apply NoDup_cons in Hnd as [Hni Hnd]. cbn [foldl].
  rewrite IH by done. clear IH. unfold add_filter. cbn [snd] in Hn. rewrite Hn.
  unfold map_find. cbn [list_find fst]. cbn [omap list_omap fst snd].
  destruct (decide (n = to_bytes "default")) as [->|Hd].
  - rewrite bool_decide_true by done.
    assert (E : list_find (fun kv => kv.1 = to_bytes "default") L = None).
    { apply list_find_None. rewrite Forall_forall. intros kv Hkv Heq. apply Hni. rewrite <- Heq.
      apply list_elem_of_fmap. by exists kv. }
    rewrite E. destruct l as [|s l]; [done|].
    cbn [head fmap option_fmap option_map compose snd mbind option_bind].
    by destruct (element_readConfig s _ true).
  - rewrite bool_decide_false by done.
    assert (E : forall o : option (nat * (bytes * list ConfSection)),
      (snd ∘ snd <$> (prod_map S id <$> o)) = (snd ∘ snd <$> o)) by (by intros [[]|]).
    rewrite E. destruct l as [|s l]; [done|]. cbn [head mbind option_bind].
    destruct (element_readConfig s n false); [|done]. cbn [filters_ defaultFilter_]. by rewrite <- app_assoc.
Qed.

(** the filters of a configuration. Without the section there is the default
    filter, which saves, queues and publishes everything. Otherwise the filters
    are those of the subsections, in the order of their names, that can be read,
    apart from the one named default; an observation gets the first filter that
    applies to it, and the default filter when none does. *)
Theorem filters_readConfig_spec {BT : BoostText} (c : ConfSection) (sid tid : Z) :
  let fs := filters_readConfig c in
  (getSection c (to_bytes "kvDataInputd.filters") = None -> filters_filter fs sid tid = default_element) /\
  (forall fc, getSection c (to_bytes "kvDataInputd.filters") = Some fc ->
   NoDup (getSubSections fc) ->
   Forall (fun kv => kv.1 <> [] /\ Forall (fun x => x ∉ key_trimset) kv.1 /\ kv.2 <> []) (sectionList fc) ->
   filters_ fs = omap (fun kv => if bool_decide (kv.1 = to_bytes "default") then None
                                 else s ← head kv.2; element_readConfig s kv.1 false) (sectionList fc) /\
   defaultFilter_ fs = default default_element
     (l ← map_find (to_bytes "default") (sectionList fc); s ← head l;
      element_readConfig s (to_bytes "default") true)) /\
  (forall f, filters_filter fs sid tid = f ->
   (exists i, filters_ fs !! i = Some f /\ element_filter f sid tid = true /\
      forall j g, (j < i)%nat -> filters_ fs !! j = Some g -> element_filter g sid tid = false) \/
   (f = defaultFilter_ fs /\ Forall (fun g => element_filter g sid tid = false) (filters_ fs))).
Proof.
  intros fs. split; [|split].
  - unfold fs, filters_readConfig. by intros ->.
  - intros fc Hfc Hnd Hplain. unfold fs, filters_readConfig. rewrite Hfc. unfold getSubSections in *.
    rewrite add_filters; [done| |done]. rewrite Forall_forall in Hplain |- *. intros [n l] Hin.
    destruct (Hplain _ Hin) as (Hn & Hk & Hl). cbn [fst snd] in *. destruct l as [|s l]; [done|].
    apply (getSection_plain fc n s l); [done|done|]. by apply map_find_elem.
  - intros f <-. unfold filters_filter. destruct (list_find _ (filters_ fs)) as [[i g]|] eqn:E.
    + left. apply list_find_Some in E as (Hi & Hg & Hlt). exists i. split; [done|split; [done|]].
      intros j g' Hj Hlk. apply not_true_is_false. by eapply Hlt.
    + right. split; [done|]. apply list_find_None in E. eapply Forall_impl; [exact E|].
      intros g Hg. by apply not_true_is_false.
Qed.

(** ** A configuration *)

Definition int_val (s : string) : ValElement := {| valType_ := INT; val_ := to_bytes s |}.
Definition id_val (s : string) : ValElement := {| valType_ := ID; val_ := to_bytes s |}.

Definition sample_filter1 : ConfSection :=
  Section_ [] [(to_bytes "add_to_work_queue", [id_val "true"]); (to_bytes "save_to_db", [id_val "false"]);
    (to_bytes "station_list", [int_val "20"]); (to_bytes "station_range", [int_val "10"; int_val "1"]);
    (to_bytes "typeid_list", [int_val "300"; int_val "302"])].

Definition sample_filter2 : ConfSection :=
  Section_ [] [(to_bytes "publish", [id_val "true"]); (to_bytes "station_range", [int_val "10"; int_val "-1"])].

Definition sample_default : ConfSection := Section_ [] [(to_bytes "publish", [id_val "false"])].

Definition sample_filters : ConfSection :=
  Section_ [(to_bytes "default", [sample_default]); (to_bytes "filter1", [sample_filter1]);
            (to_bytes "filter2", [sample_filter2])] [].

Definition sample_conf : ConfSection :=
  Section_ [(to_bytes "kvDataInputd", [Section_ [(to_bytes "filters", [sample_filters])] []])] [].

Definition sample_element : StationFilterElement :=
  {| stationIdRangeFrom_ := 1; stationIdRangeTo_ := 10; stationIdList_ := [20]; typeids_ := [300; 302];
     name_ := to_bytes "filter1"; addToWokque_ := false; publish_ := false; saveToDb_ := false |}.

(** Station 5 with type 302; the data is not saved, so it is not queued. *)
Lemma element_readConfig_spec_witness :
  element_filter sample_element 5 302 = true /\ addToWokque_ sample_element = false.
Proof.
  pose proof (element_readConfig_spec (BT := boost_text) sample_filter1 (to_bytes "filter1") sample_element 5 302
    ltac:(vm_compute; reflexivity) ltac:(by_decision) ltac:(by_decision) ltac:(by_decision)
    ltac:(by_decision) ltac:(by_decision)) as (_ & _ & _ & Hq & Hf).
  split; [|rewrite Hq; reflexivity]. apply Hf. split.
  - left. vm_compute. split; intros HX; discriminate HX.
  - right. vm_compute. right. left.
Defined.

(** filter2 is left out: a range up to -1 is refused, although the documentation
    describes it. *)
Lemma filters_readConfig_spec_witness :
  filters_ (filters_readConfig (BT := boost_text) sample_conf) = [sample_element] /\
  publish_ (filters_filter (filters_readConfig (BT := boost_text) sample_conf) 5 1) = false /\
  publish_ (filters_filter (filters_readConfig (BT := boost_text) (Section_ [] [])) 5 1) = true.
Proof.
  destruct (filters_readConfig_spec (BT := boost_text) sample_conf 5 1) as (_ & H & _).
  destruct (H sample_filters ltac:(vm_compute; reflexivity) ltac:(by_decision)) as [H1 _].
  { repeat constructor; cbn [fst snd]; try (intros HX; discriminate HX); by_decision. }
  split; [rewrite H1; vm_compute; reflexivity|]. split; [vm_compute; reflexivity|].
  destruct (filters_readConfig_spec (BT := boost_text) (Section_ [] []) 5 1) as (H0 & _).
  rewrite (H0 ltac:(vm_compute; reflexivity)). reflexivity.
Defined.

Lemma filter_data_spec_witness :
  (saveDataToDb (PT := stamp_time) {| defaultFilter_ := default_element; filters_ := [sample_element] |}
     [with_typeid sample_kvData 302; with_typeid sample_kvData 300] []).1 =
  [with_typeid sample_kvData 302; with_typeid sample_kvData 300].
Proof.
  rewrite (proj1 (filter_data_spec (PT := stamp_time)
    {| defaultFilter_ := default_element; filters_ := [sample_element] |}
    [with_typeid sample_kvData 302; with_typeid sample_kvData 300] []
    ltac:(by_decision) ltac:(constructor))).
  vm_compute. reflexivity.
Defined.
