(* ===== verification/Scanning.v ===== *)
(** * Splitting and scanning text

    The functions of Boost that the quality control program reads its
    configuration texts with: [boost::algorithm::split] and the parser [int_p] of
    Boost.Spirit, as operations with their documented laws and an instance. The
    character classes are those of the C locale. The rules of a Spirit grammar
    are written as functions from the input to the value and the rest of the
    input; [rule_seq], [rule_opt] and [rule_star] are its [>>], [!] and [*]. *)

From stdpp Require Import pretty.
From S2P Require Import Prelude Orders PTime TimeText DataFlag ControlInfo UseInfo KvData Rows.

#[local] Open Scope Z_scope.

(** ** Character classes *)

Definition is_alpha (c : ascii) : bool :=
  ((65 <=? uchar_val c) && (uchar_val c <=? 90)) || ((97 <=? uchar_val c) && (uchar_val c <=? 122)).

Definition is_alnum (c : ascii) : bool := is_alpha c || is_digit c.

Definition is_any_of (set : bytes) (c : ascii) : bool := bool_decide (c ∈ set).

(** The longest prefix of characters that satisfy [p]. *)
Fixpoint span (p : ascii -> bool) (b : bytes) : bytes * bytes :=
  match b with
  | c :: r => if p c then let '(d, r') := span p r in (c :: d, r') else ([], b)
  | [] => ([], [])
  end.

(** ** The operations of Boost *)

(** [split p compress s]: the tokens of [s] between the characters that satisfy
    [p]; with [compress], neighbouring delimiters count as one. *)
Class BoostSplit := { split : (ascii -> bool) -> bool -> bytes -> list bytes }.

(** Tokens put together with a separator. *)
Fixpoint join (sep : bytes) (l : list bytes) : bytes :=
  match l with
  | [] => []
  | [x] => x
  | x :: r => x ++ sep ++ join sep r
  end.

Lemma join_cons sep x y l : join sep (x :: y :: l) = x ++ sep ++ join sep (y :: l).
Proof. done. Qed.

Definition no_char (p : ascii -> bool) (f : bytes) : Prop := Forall (fun c => p c = false) f.

Class BoostSplitLaws (BS : BoostSplit) := {
  split_fields p b f l :
    no_char p f -> Forall (fun cf => p cf.1 = true /\ no_char p cf.2) l ->
    (b = true -> f <> [] /\ Forall (fun cf => cf.2 <> []) l) ->
    split p b (f ++ concat ((fun cf => cf.1 :: cf.2) <$> l)) = f :: l.*2;
  split_nil p b : split p b [] = [[]]
}.

(** [int_p]: an optional sign and digits, as many as there are; no match without
    digits or when the number is no [int]. *)
Class SpiritInt := { int_p : bytes -> option (Z * bytes) }.

Class SpiritIntLaws (SI : SpiritInt) := {
  int_p_digits d r :
    d <> [] -> Forall (fun c => is_digit c = true) d -> digits_val 0 d <= INT_MAX ->
    from_option (fun c => is_digit c = false) True (head r) ->
    int_p (d ++ r) = Some (digits_val 0 d, r);
  int_p_negative d r :
    d <> [] -> Forall (fun c => is_digit c = true) d -> digits_val 0 d <= - INT_MIN ->
    from_option (fun c => is_digit c = false) True (head r) ->
    int_p ("-"%char :: d ++ r) = Some (- digits_val 0 d, r);
  int_p_none s :
    from_option (fun c => is_digit c = false /\ c <> "-"%char /\ c <> "+"%char) True (head s) ->
    int_p s = None
}.

(** ** The rules of a grammar *)

Definition rule (A : Type) : Type := bytes -> option (A * bytes).

(** A single character [c]. *)
Definition rule_ch (c : ascii) : rule unit := fun s =>
  match s with
  | x :: r => if bool_decide (x = c) then Some (tt, r) else None
  | [] => None
  end.

Definition rule_seq {A B} (p : rule A) (q : rule B) : rule (A * B) := fun s =>
  '(a, s) ← p s; '(b, s) ← q s; Some ((a, b), s).

Definition rule_opt {A} (p : rule A) : rule (option A) := fun s =>
  match p s with
  | Some (a, s) => Some (Some a, s)
  | None => Some (None, s)
  end.

(** Matches as often as [p] does; [fuel] bounds the number of matches, every one
    of which consumes a character. *)
Fixpoint rule_star_ {A} (fuel : nat) (p : rule A) : rule (list A) := fun s =>
  match fuel with
  | O => Some ([], s)
  | S fuel =>
      match p s with
      | Some (a, s') =>
          '(l, s'') ← rule_star_ fuel p s'; Some (a :: l, s'')
      | None => Some ([], s)
      end
  end.

Definition rule_star {A} (p : rule A) : rule (list A) := fun s => rule_star_ (length s) p s.

(** [+class]: one or more characters of the class. *)
Definition rule_plus_chars (p : ascii -> bool) : rule bytes := fun s =>
  let '(a, r) := span p s in if bool_decide (a = []) then None else Some (a, r).

(** [p % ch], written out in the program as [p >> *(ch >> p)]. *)
Definition rule_list {A} (p : rule A) (ch : ascii) : rule (list A) := fun s =>
  '((a, l), s) ← rule_seq p (rule_star (rule_seq (rule_ch ch) p)) s;
  Some (a :: (snd <$> l), s).

(** [parse(s, p).full]. *)
Definition rule_full {A} (p : rule A) (s : bytes) : option A :=
  match p s with
  | Some (a, []) => Some a
  | _ => None
  end.

(** ** Lemmas *)

Lemma join_concat ch (f : bytes) fs : join [ch] (f :: fs) = f ++ concat ((cons ch) <$> fs).
Proof.
  revert f. induction fs as [|g fs IH]; intros f; simpl; [by rewrite app_nil_r|].
  f_equal. f_equal. apply IH.
Qed.

(** Tokens joined with one delimiter are split again. *)
Lemma split_join {BS : BoostSplit} {BSL : BoostSplitLaws BS} p b c fs :
  p c = true -> fs <> [] -> Forall (no_char p) fs ->
  (b = true -> Forall (fun f => f <> []) fs) ->
  split p b (join [c] fs) = fs.
Proof.
  intros Hc Hne Hfs Hb. destruct fs as [|f fs]; [done|]. apply Forall_cons in Hfs as [Hf Hfs].
  rewrite join_concat. replace (cons c <$> fs) with ((fun cf : ascii * bytes => cf.1 :: cf.2) <$> (pair c <$> fs))
    by (by rewrite <- list_fmap_compose).
  rewrite split_fields; [by rewrite <- list_fmap_compose, list_fmap_id|done|..].
  - apply Forall_fmap. eapply Forall_impl; [exact Hfs|]. done.
  - intros E. specialize (Hb E) as [? Hb]%Forall_cons. split; [done|]. by apply Forall_fmap.
Qed.

Lemma span_app p a r :
  Forall (fun c => p c = true) a -> from_option (fun c => p c = false) True (head r) ->
  span p (a ++ r) = (a, r).
Proof.
  intros Ha Hr. induction Ha as [|c a Hc Ha IH]; simpl.
  - destruct r as [|c r]; simpl in *; [done|]. by rewrite Hr.
  - by rewrite Hc, IH.
Qed.

Lemma rule_plus_chars_app p a r :
  a <> [] -> Forall (fun c => p c = true) a -> from_option (fun c => p c = false) True (head r) ->
  rule_plus_chars p (a ++ r) = Some (a, r).
Proof. intros Hne Ha Hr. unfold rule_plus_chars. by rewrite span_app, bool_decide_false. Qed.

(** A decimal number that was printed is read back. *)
Lemma int_p_pretty {SI : SpiritInt} {SIL : SpiritIntLaws SI} (z : Z) r :
  INT_MIN <= z <= INT_MAX -> from_option (fun c => is_digit c = false) True (head r) ->
  int_p (to_bytes (pretty z) ++ r) = Some (z, r).
Proof.
  unfold INT_MIN, INT_MAX. intros Hz Hr. destruct z as [|p|p].
  - apply (int_p_digits ["0"%char] r); [done|by repeat constructor|vm_compute; congruence|done].
  - change (pretty (Z.pos p)) with (pretty (N.pos p)).
    destruct (pretty_N_digits (N.pos p)) as (d & -> & Hd & Hv & Hne).
    rewrite int_p_digits; [by rewrite Hv|done..| |done]. rewrite Hv. unfold INT_MAX. lia.
  - change (pretty (Z.neg p)) with ("-" +:+ pretty (N.pos p)). rewrite to_bytes_app.
    destruct (pretty_N_digits (N.pos p)) as (d & -> & Hd & Hv & Hne).
    change (to_bytes "-" ++ d) with ("-"%char :: d). simpl.
    rewrite int_p_negative; [by rewrite Hv|done..| |done]. rewrite Hv. unfold INT_MIN. lia.
Qed.

(** The characters of a printed number. *)
Lemma pretty_chars (z : Z) : Forall (fun c => is_digit c = true \/ c = "-"%char) (to_bytes (pretty z)).
Proof.
  destruct z as [|p|p].
  - by repeat constructor.
  - change (pretty (Z.pos p)) with (pretty (N.pos p)).
    destruct (pretty_N_digits (N.pos p)) as (d & -> & Hd & _). eapply Forall_impl; [exact Hd|tauto].
  - change (pretty (Z.neg p)) with ("-" +:+ pretty (N.pos p)). rewrite to_bytes_app.
    destruct (pretty_N_digits (N.pos p)) as (d & -> & Hd & _).
    change (to_bytes "-" ++ d) with ("-"%char :: d).
    constructor; [tauto|]. eapply Forall_impl; [exact Hd|tauto].
Qed.

Lemma pretty_not_nil (z : Z) : to_bytes (pretty z) <> [].
Proof.
  destruct z as [|p|p]; [done| |].
  - change (pretty (Z.pos p)) with (pretty (N.pos p)). by destruct (pretty_N_digits (N.pos p)) as (d & -> & _ & _ & ?).
  - change (pretty (Z.neg p)) with ("-" +:+ pretty (N.pos p)). by rewrite to_bytes_app.
Qed.

(** The list of a grammar reads back what was joined with its separator. *)
Lemma rule_star_fuel {A} (p : rule A) n m s l :
  rule_star_ n p s = Some (l, []) -> (n <= m)%nat -> p [] = None -> rule_star_ m p s = Some (l, []).
Proof.
  revert m s l. induction n as [|n IH]; intros m s l E Hm H0; simpl in E.
  - injection E as <- ->. destruct m; simpl; [done|]. by rewrite H0.
  - destruct m as [|m]; [lia|]. simpl. destruct (p s) as [[a s']|]; [|done].
    destruct (rule_star_ n p s') as [[l' s'']|] eqn:E'; [|done]. simpl in E. injection E as <- ->.
    erewrite IH; [done|exact E'|lia|done].
Qed.

(** ** An implementation *)

Fixpoint split_go (p : ascii -> bool) (b prev : bool) (s : bytes) : list bytes :=
  match s with
  | [] => [[]]
  | c :: r =>
      if p c then if b && prev then split_go p b true r else [] :: split_go p b true r
      else match split_go p b false r with
           | f :: fs => (c :: f) :: fs
           | [] => [[c]]
           end
  end.

#[export] Instance boost_split : BoostSplit := {| split p b s := split_go p b false s |}.

Lemma split_go_app p b f r :
  no_char p f -> f <> [] -> forall prev,
  split_go p b prev (f ++ r) =
    match split_go p b false r with g :: gs => (f ++ g) :: gs | [] => [f] end.
Proof.
  intros Hf Hne. destruct Hf as [|c f Hc Hf]; [done|]. intros prev. simpl. rewrite Hc. clear Hne Hc prev.
  revert c. induction Hf as [|d f Hd Hf IH]; intros c; simpl; [by destruct (split_go p b false r)|].
  rewrite Hd. rewrite (IH d). by destruct (split_go p b false r).
Qed.

Lemma split_go_nonempty p b prev s : split_go p b prev s <> [].
Proof.
  revert prev. induction s as [|c s IH]; intros prev; simpl; [done|].
  case_match; [case_match; [apply IH|done]|]. by destruct (split_go p b false s).
Qed.

#[export] Instance boost_split_laws : BoostSplitLaws boost_split.
Proof.
  split; simpl; [|done]. intros p b f l Hf Hl Hb.
  cut (forall prev, (prev = true -> b = true -> f <> []) ->
    split_go p b prev (f ++ concat ((fun cf : ascii * bytes => cf.1 :: cf.2) <$> l)) = f :: l.*2);
    [intros H; by apply H|].
  revert f Hf Hb. induction Hl as [|[c g] l [Hc Hg] Hl IH]; intros f Hf Hb prev Hprev.
  - simpl. destruct (decide (f = [])) as [->|Hf0]; [done|].
    rewrite split_go_app by done. simpl. by rewrite app_nil_r.
  - assert (Hr : split_go p b true (g ++ concat ((fun cf : ascii * bytes => cf.1 :: cf.2) <$> l)) = g :: l.*2).
    { apply IH; [done| |]; [intros E|intros _ E]; destruct (Hb E) as [_ [? ?]%Forall_cons]; done. }
    cbn [fmap list_fmap concat fst snd app]. destruct (decide (f = [])) as [->|Hf0].
    + cbn [app split_go]. simpl in Hc. rewrite Hc. destruct b; [by destruct (Hb eq_refl)|].
      cbn [andb]. by rewrite Hr.
    + rewrite split_go_app by done. cbn [split_go]. simpl in Hc. rewrite Hc, andb_false_r, Hr. by rewrite app_nil_r.
Qed.

#[export] Instance spirit_int : SpiritInt := {|
  int_p s :=
    let '(neg, t) := match s with
                     | "-"%char :: t => (true, t)
                     | "+"%char :: t => (false, t)
                     | _ => (false, s)
                     end in
    let '(d, r) := span is_digit t in
    let v := if (neg : bool) then - digits_val 0 d else digits_val 0 d in
    if bool_decide (d <> []) && (INT_MIN <=? v) && (v <=? INT_MAX) then Some (v, r) else None
|}.

Lemma digits_val_nonneg d : forall acc, 0 <= acc -> 0 <= digits_val acc d.
Proof.
  induction d as [|c d IH]; simpl; intros acc Ha; [done|].
  destruct (is_digit c) eqn:E; [|done]. apply IH. unfold is_digit in E.
  change (uchar_val "0") with 48 in E. lia.
Qed.

#[export] Instance spirit_int_laws : SpiritIntLaws spirit_int.
Proof.
  split; simpl.
  - intros d r Hne Hd Hv Hr. pose proof (digits_val_nonneg d 0 ltac:(lia)) as H0.
    pose proof (span_app is_digit d r Hd Hr) as Es.
    destruct d as [|c d]; [done|]. apply Forall_cons in Hd as [Hc _].
    destruct c as [[] [] [] [] [] [] [] []]; try (vm_compute in Hc; discriminate Hc);
      cbn -[span digits_val INT_MIN INT_MAX bool_decide] in *; rewrite Es, bool_decide_true by done;
      (match goal with |- (if ?b then _ else _) = _ =>
         assert (b = true) as -> by (unfold INT_MIN, INT_MAX in *; lia) end); done.
  - intros d r Hne Hd Hv Hr. pose proof (digits_val_nonneg d 0 ltac:(lia)) as H0.
    rewrite (span_app is_digit d r Hd Hr), bool_decide_true by done.
    match goal with |- (if ?b then _ else _) = _ =>
           assert (b = true) as -> by (unfold INT_MIN, INT_MAX in *; lia) end. done.
  - intros s Hs. destruct s as [|c s]; [done|]. simpl in Hs. destruct Hs as (Hd & Hm & Hp).
    assert (E : span is_digit (c :: s) = ([], c :: s)) by (simpl; by rewrite Hd).
    destruct c as [[] [] [] [] [] [] [] []]; try done; by rewrite E.
Qed.
