(* ===== verification/Text.v ===== *)
(** * Texts: the operations of [std::string] and miutil that the decoders share
      (src/src/lib/miutil/trimstr.cc, trimstr.h)

    Texts are lists of characters. A position is given by what stands before and
    after it: [break p s] splits [s] at the first character that satisfies [p],
    which is [find_first_of] followed by [substr]. *)

From S2P Require Import Prelude TimeText Rows Conf Scanning.

#[local] Open Scope Z_scope.

(** [find_first_of]: what stands before the first character of the class, that
    character and what follows; [None] is [npos]. *)
Fixpoint break (p : ascii -> bool) (s : bytes) : option (bytes * ascii * bytes) :=
  match s with
  | [] => None
  | c :: r =>
      if p c then Some ([], c, r)
      else match break p r with Some (a, d, b) => Some (c :: a, d, b) | None => None end
  end.

Definition is_char (c d : ascii) : bool := bool_decide (d = c).

(** [trimstr(s)], with the default set. *)
Definition default_trimset : bytes := [" "%char; char_of 9; char_of 13; char_of 10].
Definition trimstr (s : bytes) : bytes := conf_trimstr s default_trimset.

(** [while (getline(stream, line))]: a last line without a newline counts, an
    empty rest does not. *)
Fixpoint getlines (s : bytes) : list bytes :=
  match s with
  | [] => []
  | c :: r =>
      if bool_decide (c = char_of 10) then [] :: getlines r
      else match getlines r with l :: ls => (c :: l) :: ls | [] => [[c]] end
  end.

(** [strcasecmp(a.c_str(), b) == 0]: up to the first null character. *)
Definition before_nul (s : bytes) : bytes := (span (fun c => negb (is_char (char_of 0) c)) s).1.
Definition strcasecmp_eq (a b : bytes) : bool := bool_decide (lower <$> before_nul a = lower <$> before_nul b).

(** [s.find(t) != npos]. *)
Fixpoint is_prefix_of (t s : bytes) : bool :=
  match t, s with
  | [], _ => true
  | c :: t, d :: s => is_char c d && is_prefix_of t s
  | _ :: _, [] => false
  end.

(** [find(t)]: what stands before the first occurrence and what begins with it. *)
Fixpoint find_text (t s : bytes) : option (bytes * bytes) :=
  if is_prefix_of t s then Some ([], s)
  else match s with
       | [] => None
       | c :: r => match find_text t r with Some (a, b) => Some (c :: a, b) | None => None end
       end.

(** ** Lemmas *)

Lemma break_app p a c r : no_char p a -> p c = true -> break p (a ++ c :: r) = Some (a, c, r).
Proof.
  intros Ha Hc. induction Ha as [|d a Hd Ha IH]; simpl; [by rewrite Hc|]. by rewrite Hd, IH.
Qed.

Lemma break_none p a : no_char p a -> break p a = None.
Proof. induction 1 as [|d a Hd Ha IH]; simpl; [done|]. by rewrite Hd, IH. Qed.

Lemma break_some p s a c r : break p s = Some (a, c, r) -> s = a ++ c :: r /\ no_char p a /\ p c = true.
Proof.
  revert a. induction s as [|d s IH]; intros a; simpl; [done|]. destruct (p d) eqn:E.
  - intros [= <- <- <-]. by split_and!; try constructor.
  - destruct (break p s) as [[[a' c'] r']|]; [|done]. intros [= <- <- <-].
    destruct (IH a' eq_refl) as (-> & ? & ?). by split_and!; try constructor.
Qed.

Lemma getlines_app l r :
  Forall (fun c => c <> char_of 10) l -> getlines (l ++ char_of 10 :: r) = l :: getlines r.
Proof.
  induction 1 as [|c l Hc Hl IH]; [by cbn [app getlines]; rewrite bool_decide_true|].
  cbn [app getlines]. by rewrite bool_decide_false, IH.
Qed.

Lemma getlines_joined ls :
  Forall (Forall (fun c => c <> char_of 10)) ls -> getlines (concat ((fun l => l ++ [char_of 10]) <$> ls)) = ls.
Proof.
  induction 1 as [|l ls Hl Hls IH]; [done|]. cbn [fmap list_fmap concat].
  rewrite <- app_assoc. cbn [app]. by rewrite getlines_app, IH.
Qed.

(** A text that does not begin or end with a blank is left alone. *)
Definition not_blank (c : ascii) : Prop := c ∉ default_trimset.
Definition unpadded (s : bytes) : Prop := from_option not_blank True (head s) /\ from_option not_blank True (last s).

#[export] Instance not_blank_dec c : Decision (not_blank c).
Proof. unfold not_blank. apply _. Defined.
#[export] Instance unpadded_dec s : Decision (unpadded s).
Proof.
  assert (H : forall o : option ascii, Decision (from_option not_blank True o)) by (intros [c|]; simpl; apply _).
  unfold unpadded. apply _.
Defined.

Lemma trimstr_unpadded s : unpadded s -> trimstr s = s.
Proof.
  intros [Hh Hl]. unfold trimstr, conf_trimstr.
  rewrite (drop_set_id _ s) by (intros c E; by rewrite E in Hh).
  rewrite drop_set_id; [by rewrite reverse_involutive|]. intros c. rewrite head_reverse. intros E. by rewrite E in Hl.
Qed.

Lemma digit_not_blank c : is_digit c = true -> not_blank c.
Proof.
  intros Hc H. unfold default_trimset in H. rewrite !elem_of_cons, elem_of_nil in H.
  repeat destruct H as [->|H]; by vm_compute in Hc.
Qed.

Lemma unpadded_all s : Forall not_blank s -> unpadded s.
Proof.
  intros Hs. rewrite Forall_forall in Hs. split.
  - destruct (head s) as [c|] eqn:E; [|done]. by apply Hs, head_Some_elem_of.
  - destruct (last s) as [c|] eqn:E; [|done]. by apply Hs, last_Some_elem_of.
Qed.

Lemma digits_unpadded d : Forall (fun c => is_digit c = true) d -> unpadded d.
Proof. intros Hd. apply unpadded_all. eapply Forall_impl; [exact Hd|exact digit_not_blank]. Qed.

Lemma last_app_ne {A} (x y : list A) : y <> [] -> last (x ++ y) = last y.
Proof. intros Hy. rewrite last_app. destruct (last y) eqn:E; [done|]. by apply last_None in E. Qed.

Lemma join_nil sep l : Forall (fun x => x <> []) l -> join [sep] l = [] -> l = [].
Proof. intros H. destruct H as [|x l Hx Hl]; [done|]. destruct l; [done|]. rewrite join_cons. by destruct x. Qed.

(** A list of texts without blanks at their ends: the separator is no blank, or no
    text is empty. *)
Lemma join_unpadded sep l : Forall unpadded l -> not_blank sep \/ Forall (fun x => x <> []) l -> unpadded (join [sep] l).
Proof.
  intros H. induction H as [|x l [Hh Hl] Hls IH]; intros Hs; [done|]. destruct l as [|y l]; [done|].
  assert (Hs' : not_blank sep \/ Forall (fun x => x <> []) (y :: l)).
  { destruct Hs as [Hs|Hs]; [by left|right]. by apply Forall_cons in Hs as [_ Hs]. }
  destruct (IH Hs') as [Hh2 Hl2]. rewrite join_cons. split.
  - destruct x as [|c x]; [|exact Hh]. destruct Hs as [Hs|Hs]; [exact Hs|]. by apply Forall_cons in Hs as [Hs _].
  - cbn [app]. destruct (join [sep] (y :: l)) as [|c r] eqn:E.
    + destruct Hs as [Hs|Hs]; [by rewrite last_snoc|].
      apply Forall_cons in Hs as [_ Hs]. by apply join_nil in E.
    + by rewrite last_app_ne.
Qed.
