(* ===== verification/CommaString.v ===== *)
(** * Lists in a text: [CommaString] (src/src/lib/miutil/commastring.cc, .h)

    A list of elements between separators, where quotation marks protect a
    separator. [CommaString_of] is the constructor from a text and one separator
    character, [CommaString_of_string] the one with a separator text, of one
    character or more. Both count the elements in a first pass and store them in
    a second one, so that a second pass that finds more separators writes past
    the end of its vector: [None]. *)

From S2P Require Import Prelude Conf Scanning Text.

#[local] Open Scope Z_scope.

Definition quotation_mark : ascii := "034"%char.
Definition backslash : ascii := "092"%char.

(** [CommaString::Elem] and its constructor. *)
Record Elem := { el_text : bytes; isString : bool }.

#[export] Instance Elem_eq_dec : EqDecision Elem.
Proof. solve_decision. Defined.

Definition Elem_new (d : bytes) (b : bool) : Elem :=
  if (2 <=? length d)%nat && bool_decide (head d = Some quotation_mark) && bool_decide (last d = Some quotation_mark)
  then {| el_text := take (length d - 2) (drop 1 d); isString := true |}
  else {| el_text := d; isString := b |}.

Record CommaString := { cs_data : list Elem; separator : bytes }.

(** [CommaString(antElement, sep)]. *)
Definition CommaString_sized (antElement : nat) (sep : bytes) : CommaString :=
  {| cs_data := replicate antElement (Elem_new [] false); separator := sep |}.

(** [count(str, sep)] for a character: [ch] is the character before. *)
Fixpoint cs_count (sep : ascii) (ch : ascii) (inString : bool) (str : bytes) : nat :=
  match str with
  | [] => 0
  | c :: r =>
      if bool_decide (c = quotation_mark) && negb (bool_decide (ch = backslash))
      then cs_count sep c (negb inString) r
      else if bool_decide (c = sep) && negb inString then S (cs_count sep c inString r)
      else cs_count sep c inString r
  end.

(** The second pass, in [init]: [ch] is only ever a quotation mark here. The
    elements are kept in the order in which they are stored. *)
Fixpoint cs_init (sep : ascii) (ch : ascii) (inString isStr : bool) (ost : bytes) (str : bytes) : list Elem :=
  match str with
  | [] => let e := Elem_new ost isStr in [{| el_text := trimstr (el_text e); isString := isString e |}]
  | c :: r =>
      if bool_decide (c = quotation_mark) && negb (bool_decide (ch = backslash))
      then cs_init sep c (negb inString) true ost r
      else if inString then cs_init sep ch inString isStr (ost ++ [c]) r
      else if bool_decide (c = sep) then Elem_new (trimstr ost) false :: cs_init sep ch inString false [] r
      else cs_init sep ch inString isStr (ost ++ [c]) r
  end.

(** [data] after the assignments [data[0]], [data[1]], ... of [l]. *)
Definition assign_elems (n : nat) (l : list Elem) : option (list Elem) :=
  if (length l <=? n)%nat then Some (l ++ replicate (n - length l) (Elem_new [] false)) else None.

Definition CommaString_of (str : bytes) (sep : ascii) : option CommaString :=
  data ← assign_elems (S (cs_count sep (char_of 0) false str)) (cs_init sep (char_of 0) false false [] str);
  Some {| cs_data := data; separator := [sep] |}.

(** [count(str, sep)] and [init(str, sep)] for a text [sep] that is not empty;
    [fuel] is the length of [str]. *)
Fixpoint split_text (fuel : nat) (sep str : bytes) : list bytes :=
  match fuel with
  | O => [str]
  | S fuel =>
      match find_text sep str with
      | None => [str]
      | Some (a, b) => a :: split_text fuel sep (drop (length sep) b)
      end
  end.

Definition cs_count_text (sep str : bytes) : nat :=
  match sep with
  | [c] => cs_count c (char_of 0) false str
  | _ => pred (length (split_text (length str) sep str))
  end.

Definition CommaString_of_string (str sep : bytes) : option CommaString :=
  data ← assign_elems (S (cs_count_text sep str)) ((fun t => Elem_new t false) <$> split_text (length str) sep str);
  Some {| cs_data := data; separator := sep |}.

(** [size()]. *)
Definition cs_size (s : CommaString) : nat := length (cs_data s).

(** [get(index, str)]: the value left in [str] and the result. *)
Definition cs_value (s : CommaString) (index : nat) : bytes * bool :=
  match cs_data s !! index with
  | Some e => (el_text e, true)
  | None => ([], false)
  end.

(** [operator[]]; [None] is the exception [range_error]. *)
Definition cs_at (s : CommaString) (index : nat) : option Elem := cs_data s !! index.

Definition set_elem (index : nat) (e : Elem) (s : CommaString) : CommaString :=
  {| cs_data := <[index := e]> (cs_data s); separator := separator s |}.

(** [insert(index, val)]. *)
Definition cs_insert (index : nat) (val_ : bytes) (s : CommaString) : bool * CommaString :=
  if (length (cs_data s) <=? index)%nat then (false, s)
  else if bool_decide (separator s = []) then (false, s)
  else
    let val := trimstr val_ in
    if (1 <? length val)%nat && bool_decide (head val = Some quotation_mark)
       && bool_decide (last val = Some quotation_mark)
    then
      let val := take (length val - 2) (drop 1 val) in
      (true, set_elem index (Elem_new val (length (separator s) =? 1)%nat) s)
    else if (1 <? length (separator s))%nat then (true, set_elem index (Elem_new val false) s)
    else
      (true, set_elem index (Elem_new val (existsb (fun c => bool_decide (head (separator s) = Some c)) val)) s).

(** One element in [copy] and [print], and the whole list. *)
Definition elem_text (e : Elem) : bytes :=
  if isString e then [quotation_mark] ++ el_text e ++ [quotation_mark] else el_text e.

Definition cs_copy (s : CommaString) : bytes := join (separator s) (elem_text <$> cs_data s).

(** [length()]. *)
Definition cs_length (s : CommaString) : Z :=
  match cs_data s with
  | [] => 0
  | _ =>
      if bool_decide (separator s = []) then -1
      else (Z.of_nat (length (cs_data s)) - 1) * Z.of_nat (length (separator s))
           + foldr Z.add 0 ((fun e => Z.of_nat (length (el_text e)) + if isString e then 2 else 0) <$> cs_data s)
  end.

(** ** Properties *)

(** A field of a list: text without separators and quotation marks, or any text
    without quotation marks between two of them. *)
Inductive field := Plain (t : bytes) | Quoted (t : bytes).

Definition field_source (f : field) : bytes :=
  match f with Plain t => t | Quoted t => [quotation_mark] ++ t ++ [quotation_mark] end.

Definition field_value (f : field) : bytes := match f with Plain t | Quoted t => trimstr t end.

Definition field_quoted (f : field) : bool := match f with Plain _ => false | Quoted _ => true end.

Definition field_ok (sep : ascii) (f : field) : Prop :=
  match f with
  | Plain t => Forall (fun c => c <> sep /\ c <> quotation_mark) t
  | Quoted t => Forall (fun c => c <> quotation_mark) t /\ last t <> Some backslash
  end.

(** The elements that the second pass makes of fields: only the last one still
    tells whether it was quoted. *)
Fixpoint field_elems (fs : list field) : list Elem :=
  match fs with
  | [] => []
  | [f] => [{| el_text := field_value f; isString := field_quoted f |}]
  | f :: fs => {| el_text := field_value f; isString := false |} :: field_elems fs
  end.

(** Every text without a backslash is read within bounds. *)
Lemma cs_init_length sep str : backslash ∉ str -> forall ch ch' b i ost,
  ch <> backslash -> ch' <> backslash ->
  length (cs_init sep ch b i ost str) = S (cs_count sep ch' b str).
Proof.
  induction str as [|c r IH]; intros Hb ch ch' b i ost Hc Hc'; [done|].
  apply not_elem_of_cons in Hb as [Hcb Hr]. cbn [cs_init cs_count].
  rewrite !(bool_decide_false (_ = backslash)) by done. cbn [negb]. rewrite !andb_true_r.
  case_bool_decide as Hq; [by apply IH|]. destruct b; cbn [negb]; [rewrite andb_false_r; by apply IH|].
  rewrite andb_true_r. case_bool_decide; simpl; [f_equal|]; by apply IH.
Qed.

Lemma CommaString_of_defined str sep : backslash ∉ str -> is_Some (CommaString_of str sep).
Proof.
  intros Hb. unfold CommaString_of, assign_elems.
  rewrite (cs_init_length _ _ Hb _ (char_of 0)) by done. by rewrite Nat.leb_refl.
Qed.

Section fields.
  Context (sep : ascii) (sep_ok : sep <> quotation_mark /\ sep <> backslash).

Lemma count_plain t r : Forall (fun c => c <> sep /\ c <> quotation_mark) t -> forall ch,
  exists ch', cs_count sep ch false (t ++ r) = cs_count sep ch' false r.
Proof.
  induction 1 as [|c t [Hs Hq] Ht IH]; intros ch; [by exists ch|]. cbn [app cs_count].
  rewrite (bool_decide_false (c = quotation_mark)), (bool_decide_false (c = sep)) by done. exact (IH c).
Qed.

Lemma count_quoted t r : Forall (fun c => c <> quotation_mark) t -> forall ch,
  last (ch :: t) <> Some backslash -> cs_count sep ch true (t ++ quotation_mark :: r) = cs_count sep quotation_mark false r.
Proof.
  induction 1 as [|c t Hc Ht IH]; intros ch Hl.
  - cbn [app cs_count]. rewrite bool_decide_true, bool_decide_false by (try done; intros ->; by apply Hl). done.
  - cbn [app cs_count]. rewrite (bool_decide_false (c = quotation_mark)) by done. cbn [andb negb].
    rewrite andb_false_r. apply IH. by rewrite last_cons_cons in Hl.
Qed.

Lemma count_field f r ch : ch <> backslash -> field_ok sep f ->
  exists ch', cs_count sep ch false (field_source f ++ r) = cs_count sep ch' false r.
Proof.
  intros Hch. destruct f as [t|t]; cbn [field_source field_ok app]; [intros Ht; by apply count_plain|].
  intros [Ht Hl]. exists quotation_mark. cbn [cs_count]. rewrite bool_decide_true by done.
  rewrite bool_decide_false by done. cbn [andb negb]. rewrite <- app_assoc. apply count_quoted; [done|].
  destruct t; [done|]. by rewrite last_cons_cons.
Qed.

Lemma count_sep ch r : cs_count sep ch false (sep :: r) = S (cs_count sep sep false r).
Proof.
  cbn [cs_count]. rewrite (bool_decide_false (sep = quotation_mark)) by apply (proj1 sep_ok).
  cbn [andb negb]. by rewrite bool_decide_true.
Qed.

Lemma count_fields fs ch : ch <> backslash -> fs <> [] -> Forall (field_ok sep) fs ->
  S (cs_count sep ch false (join [sep] (field_source <$> fs))) = length fs.
Proof.
  intros Hch Hne Hfs. destruct Hfs as [|f fs Hf Hfs]; [done|]. clear Hne. revert f Hf ch Hch.
  induction Hfs as [|g fs Hg Hfs IH]; intros f Hf ch Hch.
  - simpl. rewrite <- (app_nil_r (field_source f)). by destruct (count_field f [] ch Hch Hf) as [? ->].
  - change (join [sep] (field_source <$> f :: g :: fs)) with (field_source f ++ sep :: join [sep] (field_source <$> g :: fs)).
    destruct (count_field f (sep :: join [sep] (field_source <$> g :: fs)) ch Hch Hf) as [ch' ->].
    rewrite count_sep. cbn [length]. f_equal. apply IH; [done|]. apply (proj2 sep_ok).
Qed.

Lemma init_plain t r ch i : Forall (fun c => c <> sep /\ c <> quotation_mark) t -> forall ost,
  cs_init sep ch false i ost (t ++ r) = cs_init sep ch false i (ost ++ t) r.
Proof.
  induction 1 as [|c t [Hs Hq] Ht IH]; intros ost; [by rewrite app_nil_r|]. cbn [app cs_init].
  rewrite (bool_decide_false (c = quotation_mark)), (bool_decide_false (c = sep)) by done. cbn [andb]. rewrite IH. by rewrite <- app_assoc.
Qed.

Lemma init_quoted t r ch : Forall (fun c => c <> quotation_mark) t -> ch <> backslash -> forall ost,
  cs_init sep ch true true ost (t ++ quotation_mark :: r) = cs_init sep quotation_mark false true (ost ++ t) r.
Proof.
  intros Ht Hch. induction Ht as [|c t Hc Ht IH]; intros ost.
  - cbn [app cs_init]. rewrite bool_decide_true, bool_decide_false by done. by rewrite app_nil_r.
  - cbn [app cs_init]. rewrite (bool_decide_false (c = quotation_mark)) by done. cbn [andb].
    rewrite IH. by rewrite <- app_assoc.
Qed.

Definition field_inner (f : field) : bytes := match f with Plain t | Quoted t => t end.

Lemma init_field f r ch : ch <> backslash -> field_ok sep f -> exists ch', ch' <> backslash /\
  cs_init sep ch false false [] (field_source f ++ r) = cs_init sep ch' false (field_quoted f) (field_inner f) r.
Proof.
  intros Hch. destruct f as [t|t]; cbn [field_source field_ok field_quoted field_inner app].
  - intros Ht. exists ch. split; [done|]. by rewrite init_plain.
  - intros [Ht Hl]. exists quotation_mark. split; [done|]. cbn [cs_init].
    rewrite (bool_decide_true (quotation_mark = _)), (bool_decide_false (ch = _)) by done. cbn [andb negb].
    rewrite <- app_assoc. by rewrite (init_quoted t r).
Qed.

Lemma drop_set_sub set s c : c ∈ drop_set set s -> c ∈ s.
Proof.
  induction s as [|d s IH]; simpl; [done|]. case_bool_decide; [|done]. rewrite elem_of_cons. auto.
Qed.

Lemma trimstr_sub s c : c ∈ trimstr s -> c ∈ s.
Proof.
  unfold trimstr, conf_trimstr. rewrite elem_of_reverse. intros H%drop_set_sub. rewrite elem_of_reverse in H.
  by apply drop_set_sub in H.
Qed.

Lemma Elem_new_plain d b : quotation_mark ∉ d -> Elem_new d b = {| el_text := d; isString := b |}.
Proof.
  intros H. unfold Elem_new. rewrite (bool_decide_false (head d = _)); [by rewrite andb_false_r|].
  destruct d; [done|]. intros [= ->]. apply H. apply elem_of_cons. by left.
Qed.

Lemma field_no_quote f : field_ok sep f -> quotation_mark ∉ field_inner f.
Proof.
  destruct f as [t|t]; simpl; [intros Ht|intros [Ht _]]; rewrite Forall_forall in Ht;
    intros Hq; destruct (Ht _ Hq); done.
Qed.

Lemma field_value_inner f : field_value f = trimstr (field_inner f).
Proof. by destruct f. Qed.

Lemma init_fields fs ch : ch <> backslash -> fs <> [] -> Forall (field_ok sep) fs ->
  cs_init sep ch false false [] (join [sep] (field_source <$> fs)) = field_elems fs.
Proof.
  intros Hch Hne Hfs. destruct Hfs as [|f fs Hf Hfs]; [done|]. clear Hne. revert f Hf ch Hch.
  induction Hfs as [|g fs Hg Hfs IH]; intros f Hf ch Hch.
  - cbn [fmap list_fmap join field_elems]. rewrite <- (app_nil_r (field_source f)).
    destruct (init_field f [] ch Hch Hf) as (ch' & _ & ->). cbn [cs_init].
    rewrite Elem_new_plain by (by apply field_no_quote). cbn [el_text isString]. by rewrite field_value_inner.
  - change (join [sep] (field_source <$> f :: g :: fs)) with (field_source f ++ sep :: join [sep] (field_source <$> g :: fs)).
    destruct (init_field f (sep :: join [sep] (field_source <$> g :: fs)) ch Hch Hf) as (ch' & Hch' & ->).
    cbn [cs_init]. rewrite (bool_decide_false (sep = quotation_mark)) by apply (proj1 sep_ok). cbn [andb]. rewrite bool_decide_true by done.
    rewrite Elem_new_plain by (intros H%trimstr_sub; by apply (field_no_quote f)).
    rewrite IH by done. by rewrite <- field_value_inner.
Qed.

(** A list of fields is read as their values without the blanks around them; a
    separator between quotation marks separates nothing. *)
Theorem CommaString_fields (fs : list field) :
  fs <> [] -> Forall (field_ok sep) fs ->
  CommaString_of (join [sep] (field_source <$> fs)) sep = Some {| cs_data := field_elems fs; separator := [sep] |}.
Proof.
  intros Hne Hfs. unfold CommaString_of, assign_elems. rewrite init_fields, count_fields by done.
  assert (length (field_elems fs) = length fs) as ->.
  { clear. induction fs as [|f [|g fs] IH]; [done..|]. simpl in *. by rewrite IH. }
  rewrite Nat.leb_refl. simpl. by rewrite Nat.sub_diag, app_nil_r.
Qed.

Lemma field_elems_text fs : el_text <$> field_elems fs = field_value <$> fs.
Proof. induction fs as [|f [|g fs] IH]; [done..|]. cbn [field_elems fmap list_fmap] in *. by rewrite <- IH. Qed.

End fields.

(** An escaped quotation mark ends the protection for the second pass only: it
    finds a separator that the first one did not count and writes past the end. *)
Lemma CommaString_overrun :
  CommaString_of [quotation_mark; backslash; quotation_mark; ","%char] ","%char = None.
Proof. reflexivity. Qed.

(** So does a separator between quotation marks, when it is given as a text. *)
Lemma CommaString_of_string_overrun :
  CommaString_of_string [quotation_mark; ","%char; quotation_mark] [","%char] = None.
Proof. reflexivity. Qed.

(** A list that is printed and read back gets a new element from a quoted one. *)
Lemma cs_copy_loses_quotes :
  let s := CommaString_of (field_source (Quoted (to_bytes "3,14")) ++ to_bytes ",x") ","%char in
  cs_size <$> s = Some 2%nat /\ (s ≫= fun s => cs_size <$> CommaString_of (cs_copy s) ","%char) = Some 3%nat.
Proof. by vm_compute. Qed.
