(* ===== verification/CronString.v ===== *)
(** * CronString: when a check is active (src/src/kvQabased/src/db/returntypes/kvCronString.cc)

    A cron string has five fields, for minutes, hours, days, months and years;
    each is a star or a list of numbers. [numbers] has one list per field. *)

From stdpp Require Import pretty.
From S2P Require Import Prelude Orders PTime TimeText DataFlag ControlInfo UseInfo KvData Rows Scanning.

#[local] Open Scope Z_scope.

Section CronString.
  Context {PT : PTime} {PC : PCalendar PT} {BT : BoostText} {BS : BoostSplit}.

Definition NT : nat := 5.

Record CronString := {
  str_ : bytes;
  isempty : bool;
  numbers : list (list Z)
}.

(** The default constructor. *)
Definition CronString_new : CronString :=
  {| str_ := []; isempty := true; numbers := replicate NT [] |}.

Definition isNumber (s : bytes) : bool := bool_decide (is_Some (lexical_cast_int (trim_copy s))).

(** One pass of the loop of [unpackString]: the numbers of a field. *)
Definition cron_field (v : bytes) : list Z :=
  if bool_decide (v = to_bytes "*") then []
  else omap (fun s => if isNumber s then Some (atoi (of_bytes s)) else None)
         (split (is_any_of (to_bytes ",")) true v).

Definition unpackString (str : bytes) : CronString :=
  let str := trim_copy str in
  let v := split is_space true str in
  if bool_decide (length v < NT)%nat then
    {| str_ := str; isempty := true; numbers := replicate NT [] |}
  else
    {| str_ := str;
       isempty := forallb (fun f => bool_decide (f = to_bytes "*")) (take NT v);
       numbers := cron_field <$> take NT v |}.

(** The constructor and the setter [str]. *)
Definition CronString_of (str : bytes) : CronString := unpackString str.
Definition CronString_str (str : bytes) (c : CronString) : CronString := unpackString str.

(** The fields of a time, in the order of [numbers]. *)
Definition thistime (t : ptime PT) : list Z :=
  [pt_minutes t; pt_hours t; pt_day t; pt_month t; pt_year t].

(** The loop of [active], from field [i] down. *)
Fixpoint active_from (c : CronString) (t : ptime PT) (i : nat) : bool :=
  let n := nth i (numbers c) [] in
  if negb (bool_decide (n = [])) && negb (existsb (Z.eqb (nth i (thistime t) 0)) n) then false
  else match i with
       | O => true
       | S i => active_from c t i
       end.

Definition active (c : CronString) (t : ptime PT) : bool :=
  if isempty c then true else active_from c t (NT - 1).

(** ** What a cron string means *)

(** A field as the documentation describes it: any value, or one of a list. *)
Definition cron_spec : Type := list (option (list Z)).

Definition field_text (f : option (list Z)) : bytes :=
  match f with
  | None => to_bytes "*"
  | Some l => join (to_bytes ",") ((fun z => to_bytes (pretty z)) <$> l)
  end.

Definition cron_text (fs : cron_spec) : bytes := join (to_bytes " ") (field_text <$> fs).

Definition field_matches (f : option (list Z)) (z : Z) : bool :=
  match f with None => true | Some l => bool_decide (z ∈ l) end.

Definition field_ok (f : option (list Z)) : Prop :=
  match f with None => True | Some l => l <> [] /\ Forall (fun z => 0 <= z <= INT_MAX) l end.

(** The specification of [active]: every field admits the value of the time. *)
Definition cron_matches (fs : cron_spec) (t : ptime PT) : bool :=
  forallb (fun fz => field_matches fz.1 fz.2) (zip fs (thistime t)).

End CronString.

(** ** Properties *)

Section props.
  Context {PT : PTime} {PC : PCalendar PT} {BT : BoostText} {BTL : BoostTextLaws BT}
          {BS : BoostSplit} {BSL : BoostSplitLaws BS}.

(** The ends of joined non-empty fields are ends of fields. *)
Lemma join_ends (P : ascii -> Prop) sep l :
  Forall (fun f => f <> [] /\ Forall P f) l ->
  from_option P True (head (join sep l)) /\ from_option P True (last (join sep l)).
Proof.
  intros Hl. induction Hl as [|f l [Hne Hf] Hl [_ IH]]; [done|].
  assert (Hh : forall r, from_option P True (head (f ++ r)))
    by (intros r; destruct Hf; [done|by simpl]).
  destruct l as [|g l].
  - split; [rewrite <- (app_nil_r (join _ _)); apply Hh|].
    simpl. destruct (last f) eqn:E; [|done]. simpl. rewrite Forall_forall in Hf. apply Hf.
    by apply last_Some_elem_of.
  - rewrite join_cons. split; [apply Hh|].
    assert (join sep (g :: l) <> []) as Hj.
    { apply Forall_cons in Hl as [[Hg _] _]. destruct l; [done|]. rewrite join_cons. by destruct g. }
    rewrite app_assoc, last_app. destruct (last (join sep (g :: l))) eqn:E; [done|].
    by apply last_None in E.
Qed.

(** Text that neither begins nor ends with white space is not trimmed. *)
Lemma trim_copy_ends s :
  from_option (fun c => is_space c = false) True (head s) ->
  from_option (fun c => is_space c = false) True (last s) -> trim_copy s = s.
Proof.
  destruct s as [|c s]; [intros _ _; by apply trim_copy_blank|]. simpl. intros Hc.
  destruct s as [|d s _] using rev_ind; [intros _; by apply trim_copy_one|].
  change (c :: s ++ [d]) with ((c :: s) ++ [d]). rewrite last_snoc. by apply trim_copy_id.
Qed.

Lemma digit_char_plain c : is_digit c = true ->
  is_any_of (to_bytes ",") c = false /\ is_space c = false /\ c <> "*"%char.
Proof.
  intros H. destruct c as [[] [] [] [] [] [] [] []]; try (vm_compute in H; discriminate H);
    split_and!; by vm_compute.
Qed.

Lemma pretty_nonneg z : 0 <= z -> exists d, to_bytes (pretty z) = d /\ d <> [] /\
  Forall (fun c => is_digit c = true) d /\ digits_val 0 d = z.
Proof.
  intros Hz. destruct z as [|p|p]; [by exists ["0"%char]; repeat constructor| |lia].
  change (pretty (Z.pos p)) with (pretty (N.pos p)).
  destruct (pretty_N_digits (N.pos p)) as (d & -> & ? & ? & ?). by exists d.
Qed.

Lemma isNumber_pretty z : 0 <= z <= INT_MAX -> isNumber (to_bytes (pretty z)) = true.
Proof.
  intros Hz. destruct (pretty_nonneg z ltac:(lia)) as (d & -> & Hne & Hd & Hv).
  unfold isNumber. rewrite bool_decide_eq_true.
  assert (Hs : Forall (fun c => is_space c = false) d)
    by (eapply Forall_impl; [exact Hd|intros c; apply digit_char_plain]).
  assert (from_option (fun c => is_space c = false) True (head d) /\
          from_option (fun c => is_space c = false) True (last d)) as [H1 H2].
  { apply (join_ends (fun c => is_space c = false) [] [d]). by repeat constructor. }
  rewrite trim_copy_ends by done.
  destruct (lexical_cast_int_digits d Hne Hd ltac:(lia)) as [-> _]. done.
Qed.

Lemma field_text_ok f : field_ok f ->
  field_text f <> [] /\ Forall (fun c => is_space c = false) (field_text f) /\
  (field_text f = to_bytes "*" <-> f = None).
Proof.
  destruct f as [l|]; cbn [field_text field_ok]; [|intros _; split; [done|split; [by repeat constructor|done]]].
  intros [Hne Hl]. destruct l as [|z l]; [done|].
  set (P c := is_space c = false /\ c <> "*"%char).
  assert (HF : Forall (fun f => f <> [] /\ Forall P f) ((fun z => to_bytes (pretty z)) <$> z :: l)).
  { apply Forall_fmap. eapply Forall_impl; [exact Hl|]. intros y Hy; simpl in *.
    destruct (pretty_nonneg y ltac:(lia)) as (d & -> & Hd0 & Hd & _). split; [done|].
    eapply Forall_impl; [exact Hd|]. intros c Hc. by destruct (digit_char_plain c Hc) as (? & ? & ?). }
  destruct (join_ends P (to_bytes ",") _ HF) as [Hh _].
  assert (Hj : join (to_bytes ",") ((fun z => to_bytes (pretty z)) <$> z :: l) <> []).
  { intros E. destruct (to_bytes (pretty z)) as [|c d] eqn:Ez; [by apply pretty_not_nil in Ez|].
    simpl in E. rewrite Ez in E. by destruct l. }
  split; [done|]. split.
  - clear Hh Hj Hne. induction HF as [|f [|g fs] [_ Hf] HF IH]; [constructor| |].
    + eapply Forall_impl; [exact Hf|]. by intros c [? _].
    + rewrite join_cons, !Forall_app. split; [eapply Forall_impl; [exact Hf|]; by intros c [? _]|].
      split; [by repeat constructor|exact IH].
  - split; [|done]. intros E. rewrite E in Hh. by destruct Hh.
Qed.

Lemma cron_field_text f : field_ok f -> cron_field (field_text f) = default [] f.
Proof.
  intros Hf. destruct (field_text_ok f Hf) as (_ & _ & Hs). unfold cron_field.
  destruct f as [l|]; [|by rewrite bool_decide_true by by apply Hs].
  rewrite bool_decide_false by (intros E; by apply Hs in E). simpl. destruct Hf as [Hne Hl].
  rewrite (split_join _ _ ","%char); [|done|by destruct l|..].
  - clear Hne Hs. induction Hl as [|z l Hz Hl IH]; [done|]. simpl in Hz, IH |- *. rewrite isNumber_pretty by done.
    rewrite of_to_bytes. rewrite atoi_pretty by (unfold INT_MIN; lia). f_equal. exact IH.
  - apply Forall_fmap. eapply Forall_impl; [exact Hl|]. intros z Hz; simpl in *.
    destruct (pretty_nonneg z ltac:(lia)) as (d & -> & _ & Hd & _).
    eapply Forall_impl; [exact Hd|]. intros c Hc. by apply digit_char_plain.
  - intros _. apply Forall_fmap, Forall_true. intros z. apply pretty_not_nil.
Qed.

Lemma field_test f z : field_ok f ->
  negb (bool_decide (default [] f = [])) && negb (existsb (Z.eqb z) (default [] f)) =
  negb (field_matches f z).
Proof.
  destruct f as [l|]; [|done]. intros [Hne _]. simpl. rewrite bool_decide_false by done. simpl. f_equal.
  apply eq_bool_prop_intro. rewrite bool_decide_spec, Is_true_true, existsb_exists. split.
  - intros (x & Hx & E). apply Z.eqb_eq in E as ->. by apply list_elem_of_In.
  - intros Hz. exists z. split; [by apply list_elem_of_In|apply Z.eqb_refl].
Qed.

(** A cron string that follows the documented format, with its fields
    separated by blanks, is active exactly at the times that all of its first
    five fields admit. With fewer than five fields it is always active. *)
Theorem cron_active_spec (fs : cron_spec) (t : ptime PT) :
  Forall field_ok fs ->
  active (CronString_of (cron_text fs)) t = (length fs <? 5)%nat || cron_matches fs t.
Proof.
  intros Hok. unfold CronString_of, unpackString.
  assert (HF : Forall (fun f => f <> [] /\ Forall (fun c => is_space c = false) f) (field_text <$> fs)).
  { apply Forall_fmap. eapply Forall_impl; [exact Hok|]. intros f Hf. by apply field_text_ok in Hf as (? & ? & _). }
  destruct (join_ends _ (to_bytes " ") _ HF). rewrite trim_copy_ends by done.
  assert (Es : split is_space true (cron_text fs) = if bool_decide (fs = []) then [[]] else field_text <$> fs).
  { case_bool_decide as E; [subst; apply split_nil|]. apply split_join; [done|by destruct fs|..].
    - eapply Forall_impl; [exact HF|]. by intros f [_ ?].
    - intros _. eapply Forall_impl; [exact HF|]. by intros f [? _]. }
  rewrite Es. clear HF Es. destruct (Nat.ltb_spec (length fs) 5) as [Hl|Hl].
  { rewrite bool_decide_true; [done|]. case_bool_decide; simpl; [unfold NT; lia|].
    by rewrite length_fmap. }
  rewrite !bool_decide_false; [|destruct fs; simpl in *; [lia|done]|].
  2:{ rewrite bool_decide_false by (intros ->; simpl in Hl; lia). rewrite length_fmap. unfold NT. lia. }
  do 5 (destruct fs as [|? fs]; [simpl in Hl; lia|]).
  do 5 (apply Forall_cons in Hok as [? Hok]). unfold active. cbn [fmap list_fmap take forallb isempty numbers NT].
  rewrite !cron_field_text by done.
  assert (Hm : forall f, field_ok f -> bool_decide (field_text f = to_bytes "*") = true -> forall z, field_matches f z = true).
  { intros f Hf E z. apply bool_decide_eq_true in E. apply field_text_ok in Hf as (_ & _ & Hf).
    by apply Hf in E as ->. }
  unfold cron_matches. cbn [zip zip_with thistime forallb fst snd].
  match goal with |- (if ?b then _ else _) = _ => destruct b eqn:Eb end.
  - repeat match type of Eb with _ && _ = true => apply andb_true_iff in Eb as [? Eb] end.
    rewrite !Hm by done. by destruct fs.
  - unfold active_from. simpl Nat.sub. cbn [nth numbers thistime].
    rewrite !field_test by done. assert (zip fs (@nil Z) = []) as -> by by destruct fs.
    repeat match goal with |- context [field_matches ?f ?z] => destruct (field_matches f z); simpl; try done end.
Qed.

End props.

(** The documentation's third example, and one that is not a cron string. *)
Lemma cron_active_spec_witness :
  active (PT := stamp_time)
    (CronString_of (BT := boost_text) (BS := boost_split) (cron_text [Some [0]; Some [3; 15]; None; None; Some [2004]]))
    (stamp_of 2004 6 15 15 0 0) = true /\
  active (PT := stamp_time) (CronString_of (BT := boost_text) (BS := boost_split) (to_bytes "0 3 15"))
    (stamp_of 2005 6 15 15 0 0) = true.
Proof.
  split; [|by vm_compute].
  rewrite (cron_active_spec (PT := stamp_time) (BT := boost_text)); [by vm_compute|].
  repeat constructor; done.
Defined.
