(* ===== verification/Signature.v ===== *)
(** * Check signatures (src/src/kvQabased/src/db/returntypes)

    What data a check needs: DataRequirement.cpp, with its parameters, and
    CheckSignature.cpp. The grammars are written with the rules of [Scanning.v].
    An exception of the quality control program is a value of [exn]. *)

From stdpp Require Import pretty.
From Stdlib Require OrderedTypeEx.
From S2P Require Import Prelude Orders PTime TimeText DataFlag ControlInfo UseInfo KvData Rows SortedData Scanning.

#[local] Open Scope Z_scope.

(** ** Exceptions

    The classes of exceptions that the program throws itself or expects from the
    database; [std_exception] is any other one derived from [std::exception], and
    [undefined_behaviour] a step that the language leaves undefined. *)
Inductive exn :=
  | Invalid | SignatureError | NonmatchingDataRequirements
  | NoMatch | MultipleMatch
  | UnableToGetData | InvalidParameter | NoSuchData | NoMetadata | MissingModelData
  | SyntaxError | UndefinedCorrectionType | bad_lexical_cast
  | runtime_error | bad_alloc
  | SQLSerializeError | SQLAborted | SQLOther
  | std_exception | foreign_exception | undefined_behaviour.

#[export] Instance exn_eq_dec : EqDecision exn.
Proof. solve_decision. Defined.

(** The [catch] clauses by base class. *)
Definition is_NoErrorLog (e : exn) : bool := bool_decide (e = MissingModelData).
Definition is_SQLException (e : exn) : bool :=
  match e with SQLSerializeError | SQLAborted | SQLOther => true | _ => false end.
Definition is_std_exception (e : exn) : bool :=
  match e with foreign_exception | undefined_behaviour => false | _ => true end.

Definition res (A : Type) : Type := (A + exn)%type.

#[export] Instance res_ret : MRet res := fun _ a => inl a.
#[export] Instance res_bind : MBind res := fun _ _ f m =>
  match m with inl a => f a | inr e => inr e end.

Definition throw {A} (e : exn) : res A := inr e.
Definition of_option {A} (e : exn) (o : option A) : res A :=
  match o with Some a => inl a | None => inr e end.

(** ** Ordering of texts *)

(** [operator<] of [std::string]: characters as [unsigned char]. *)
Definition string_lt (a b : string) : bool :=
  match String.compare a b with Lt => true | _ => false end.

#[export] Instance string_key : KeyOrder string (fun _ => True) string_lt.
Proof.
  assert (H : forall a b, string_lt a b = true <-> OrderedTypeEx.String_as_OT.lt a b).
  { intros a b. rewrite <- OrderedTypeEx.String_as_OT.cmp_lt. unfold string_lt.
    unfold OrderedTypeEx.String_as_OT.cmp. by destruct (String.compare a b). }
  split.
  - intros k. apply not_true_is_false. rewrite H. intros E.
    by apply OrderedTypeEx.String_as_OT.lt_not_eq in E.
  - intros a b c. rewrite !H. apply OrderedTypeEx.String_as_OT.lt_trans.
  - intros a b _ _ Hne. unfold string_lt. rewrite (String.compare_antisym b a).
    destruct (String.compare a b) eqn:E; simpl; [|by left|by right].
    by apply String.compare_eq_iff in E.
Qed.

Section Signature.
  Context {SI : SpiritInt} {BS : BoostSplit}.

(** ** [DataRequirement::Parameter] *)

Definition NULL_PARAMETER_ : Z := INT_MIN.

Record parameter := {
  name_ : string;
  pa_level : Z;
  pa_sensor : Z;
  pa_typeid : Z;
  metaDataParamName_ : string;
  metaDataType_ : string
}.

Definition haveLevel (p : parameter) : bool := negb (pa_level p =? NULL_PARAMETER_).
Definition haveSensor (p : parameter) : bool := negb (pa_sensor p =? NULL_PARAMETER_).
Definition haveType (p : parameter) : bool := negb (pa_typeid p =? NULL_PARAMETER_).
Definition hasMetaData (p : parameter) : bool := negb (bool_decide (metaDataParamName_ p = EmptyString)).

(** The default constructor. *)
Definition parameter_new : parameter :=
  {| name_ := ""; pa_level := NULL_PARAMETER_; pa_sensor := NULL_PARAMETER_;
     pa_typeid := NULL_PARAMETER_; metaDataParamName_ := ""; metaDataType_ := "" |}.

Definition Parameter_str (p : parameter) : string :=
  if haveLevel p || haveSensor p || haveType p then
    name_ p +:+ "&" +:+ (if haveLevel p then pretty (pa_level p) else "")
            +:+ "&" +:+ (if haveSensor p then pretty (pa_sensor p) else "")
            +:+ "&" +:+ (if haveType p then pretty (pa_typeid p) else "")
  else name_ p.

Definition Parameter_eq (a b : parameter) : bool := bool_decide (Parameter_str a = Parameter_str b).
Definition Parameter_lt (a b : parameter) : bool := string_lt (Parameter_str a) (Parameter_str b).

(** [alnum_p | '_']. *)
Definition name_char (c : ascii) : bool := is_alnum c || bool_decide (c = "_"%char).

(** [!('&' >> !int_p >> '&' >> !int_p >> '&' >> !int_p)]. *)
Definition restriction_rule : rule (option (option Z * option Z * option Z)) :=
  rule_opt (fun s =>
    '(_, s) ← rule_ch "&" s; '(l, s) ← rule_opt int_p s;
    '(_, s) ← rule_ch "&" s; '(n, s) ← rule_opt int_p s;
    '(_, s) ← rule_ch "&" s; '(t, s) ← rule_opt int_p s;
    Some ((l, n, t), s)).

Definition parameter_rule : rule (bytes * option (option Z * option Z * option Z)) :=
  rule_seq (rule_plus_chars name_char) restriction_rule.

(** [parse_], which the constructors call; [None] throws [Invalid]. *)
Definition Parameter_of (parameterString : bytes) : option parameter :=
  '(name, r) ← rule_full parameter_rule parameterString;
  let '(l, n, t) := default (None, None, None) r in
  Some {| name_ := of_bytes name; pa_level := default NULL_PARAMETER_ l;
          pa_sensor := default NULL_PARAMETER_ n; pa_typeid := default NULL_PARAMETER_ t;
          metaDataParamName_ := ""; metaDataType_ := "" |}.

(** The parameter with its metadata members set; [None] is the result [false]. *)
Definition parseAsConcreteMetaParameter (p : parameter) : option parameter :=
  let name := to_bytes (name_ p) in
  i ← find_last_of (to_bytes "_") name;
  Some {| name_ := name_ p; pa_level := pa_level p; pa_sensor := pa_sensor p; pa_typeid := pa_typeid p;
          metaDataParamName_ := of_bytes (take i name); metaDataType_ := of_bytes (drop (S i) name) |}.

(** ** [DataRequirement] *)

Record DataRequirement := {
  requirementType_ : string;
  parameter_ : list parameter;
  station_ : list Z;
  firstTime_ : Z;
  lastTime_ : Z;
  isConcrete_ : bool
}.

(** The default constructor. *)
Definition DataRequirement_new : DataRequirement :=
  {| requirementType_ := ""; parameter_ := []; station_ := []; firstTime_ := 0; lastTime_ := 0;
     isConcrete_ := false |}.

(** A rule with the action [push_back_a(parameter_)]: the text that it matches. *)
Definition rule_text {A} (p : rule A) : rule bytes := fun s =>
  '(_, r) ← p s; Some (take (length s - length r) s, r).

Definition parameters_rule : rule (option (list bytes)) :=
  rule_opt (rule_list (rule_text parameter_rule) ",").

Definition stations_rule : rule (option (list Z)) := rule_opt (rule_list int_p ",").

Definition times_rule : rule (option (Z * option (unit * Z))) :=
  rule_opt (rule_seq int_p (rule_opt (rule_seq (rule_ch ",") int_p))).

Definition requirement_rule : rule (bytes * list bytes * list Z * option (Z * option (unit * Z))) := fun s =>
  '(ty, s) ← rule_plus_chars is_alpha s; '(_, s) ← rule_ch ";" s;
  '(ps, s) ← parameters_rule s; '(_, s) ← rule_ch ";" s;
  '(st, s) ← stations_rule s; '(_, s) ← rule_ch ";" s;
  '(ti, s) ← times_rule s;
  Some ((ty, default [] ps, default [] st, ti), s).

(** The constructor; a text that ends at a NUL character is not covered. *)
Definition DataRequirement_of (signature : bytes) (stationid : Z) (concrete : bool)
    : res DataRequirement :=
  match signature with
  | [] => mret {| requirementType_ := ""; parameter_ := []; station_ := []; firstTime_ := 0;
                  lastTime_ := 0; isConcrete_ := concrete |}
  | _ =>
      '(ty, ps, st, ti) ← of_option Invalid (rule_full requirement_rule signature);
      params ← of_option Invalid (mapM Parameter_of ps);
      let station := if bool_decide (stationid ∈ st) then st else st ++ [stationid] in
      let last := from_option fst 0 ti in
      let first := from_option (fun t => from_option snd 0 t.2) 0 ti in
      let '(last, first) := if last <? first then (first, last) else (last, first) in
      params ← (if concrete && bool_decide (of_bytes ty = "meta"%string)
                then of_option Invalid (mapM parseAsConcreteMetaParameter params)
                else mret params);
      mret {| requirementType_ := of_bytes ty; parameter_ := params; station_ := station;
              firstTime_ := first; lastTime_ := last; isConcrete_ := concrete |}
  end.

Definition dr_empty (r : DataRequirement) : bool :=
  bool_decide (parameter_ r = []) && bool_decide (station_ r = []).

Definition haveParameter (r : DataRequirement) (baseParameter : string) : bool :=
  existsb (fun p => bool_decide (name_ p = baseParameter)) (parameter_ r).

Definition haveStation (r : DataRequirement) (what : Z) : bool := bool_decide (what ∈ station_ r).

(** [std::map<Parameter, Parameter>]: in the order of the keys' texts, which its
    comparison goes by, each with the key and the value. *)
Definition ParameterTranslation := list (string * (parameter * parameter)).

(** [ret[p] = q]: the key stays when it is there already. *)
Definition tr_set (p q : parameter) (ret : ParameterTranslation) : ParameterTranslation :=
  c_update string_lt (Parameter_str p) (p, parameter_new) (fun e => (e.1, q)) ret.

Definition tr_find (p : parameter) (t : ParameterTranslation) : option (parameter * parameter) :=
  c_find string_lt (Parameter_str p) t.

Definition getTranslation (from to : DataRequirement) : res ParameterTranslation :=
  if bool_decide (length (parameter_ from) = length (parameter_ to)) then
    mret (foldl (fun ret ft => tr_set ft.1 ft.2 ret) [] (zip (parameter_ from) (parameter_ to)))
  else throw NonmatchingDataRequirements.

(** ** [CheckSignature] *)

End Signature.

Abbreviation CheckSignature := (gmap string DataRequirement).

Section CheckSignature.
  Context {SI : SpiritInt} {BS : BoostSplit}.

(** One pass of the loop of [parse_]. *)
Definition add_requirement (stationid : Z) (concrete : bool) (s : CheckSignature) (text : bytes)
    : res CheckSignature :=
  justParsed ← DataRequirement_of text stationid concrete;
  let inMemory := default DataRequirement_new (s !! requirementType_ justParsed) in
  if dr_empty inMemory then mret (<[requirementType_ justParsed := justParsed]> s)
  else throw SignatureError.

Fixpoint add_requirements (stationid : Z) (concrete : bool) (s : CheckSignature) (l : list bytes)
    : res CheckSignature :=
  match l with
  | [] => mret s
  | t :: l => s ← add_requirement stationid concrete s t; add_requirements stationid concrete s l
  end.

Definition CheckSignature_of (signature : bytes) (stationid : Z) (concrete : bool)
    : res CheckSignature :=
  add_requirements stationid concrete ∅ (split (is_any_of (to_bytes "|")) false signature).

Definition cs_get (s : CheckSignature) (name : string) : option DataRequirement := s !! name.
Definition cs_obs (s : CheckSignature) := cs_get s "obs".
Definition cs_refobs (s : CheckSignature) := cs_get s "refobs".
Definition cs_model (s : CheckSignature) := cs_get s "model".
Definition cs_meta (s : CheckSignature) := cs_get s "meta".

End CheckSignature.

(** The examples of the documentation: a signature without the last fields is not
    accepted. *)
Example requirement_examples :
  let parse s := DataRequirement_of (SI := spirit_int) (to_bytes s) 42 false in
  from_option (fun r => (length (parameter_ r), station_ r, firstTime_ r, lastTime_ r)) (0%nat, [], 1, 1)
    (match parse "obs;TA;;0,-180"%string with inl r => Some r | inr _ => None end) = (1%nat, [42], -180, 0) /\
  parse "meta;X_MIN,X_MAX"%string = inr Invalid /\
  (exists r, parse "meta;X_MIN,X_MAX;;"%string = inl r /\ haveParameter r "X_MAX" = true).
Proof. split_and!; [by vm_compute|by vm_compute|]. eexists. by vm_compute. Qed.

(** ** Properties *)

(** Parameters as the constructors make them. *)
Definition parameter_wf (p : parameter) : Prop :=
  name_ p <> EmptyString /\ Forall (fun c => name_char c = true) (to_bytes (name_ p)) /\
  is_int (pa_level p) /\ is_int (pa_sensor p) /\ is_int (pa_typeid p) /\
  metaDataParamName_ p = EmptyString /\ metaDataType_ p = EmptyString.

(** A requirement as the documentation describes it, and its text. *)
Record requirement := {
  rq_type : string;
  rq_params : list parameter;
  rq_stations : list Z;
  rq_times : option (Z * option Z)
}.

Definition requirement_text (q : requirement) : bytes :=
  to_bytes (rq_type q) ++
  ";"%char :: join [","%char] ((fun p => to_bytes (Parameter_str p)) <$> rq_params q) ++
  ";"%char :: join [","%char] ((fun z => to_bytes (pretty z)) <$> rq_stations q) ++
  ";"%char :: match rq_times q with
              | None => []
              | Some (a, b) => to_bytes (pretty a) ++
                               match b with None => [] | Some b => ","%char :: to_bytes (pretty b) end
              end.

Definition time_ends (ti : option (Z * option Z)) : Z * Z :=
  match ti with None => (0, 0) | Some (a, b) => (a, default 0 b) end.

Definition times_ok (ti : option (Z * option Z)) : Prop :=
  match ti with None => True | Some (a, b) => is_int a /\ from_option is_int True b end.

Definition requirement_ok (q : requirement) : Prop :=
  rq_type q <> EmptyString /\ Forall (fun c => is_alpha c = true) (to_bytes (rq_type q)) /\
  Forall parameter_wf (rq_params q) /\ Forall is_int (rq_stations q) /\ times_ok (rq_times q).

(** What a requirement asks for: its own station among the others, and the times
    from the earlier to the later end. Concrete metadata are split at the last
    underscore of their names. *)
Definition requirement_meaning (q : requirement) (stationid : Z) (concrete : bool) : DataRequirement :=
  {| requirementType_ := rq_type q;
     parameter_ := if concrete && bool_decide (rq_type q = "meta"%string)
                   then default [] (mapM parseAsConcreteMetaParameter (rq_params q)) else rq_params q;
     station_ := if bool_decide (stationid ∈ rq_stations q) then rq_stations q
                 else rq_stations q ++ [stationid];
     firstTime_ := Z.min (time_ends (rq_times q)).1 (time_ends (rq_times q)).2;
     lastTime_ := Z.max (time_ends (rq_times q)).1 (time_ends (rq_times q)).2;
     isConcrete_ := concrete |}.

(** Concrete metadata without an underscore in a name are refused. *)
Definition meta_named (q : requirement) (concrete : bool) : bool :=
  negb (concrete && bool_decide (rq_type q = "meta"%string)) ||
  forallb (fun p => bool_decide ("_"%char ∈ to_bytes (name_ p))) (rq_params q).

(** A signature: its parts, some of which are empty. *)
Definition part_text (q : option requirement) : bytes := from_option requirement_text [] q.
Definition signature_text (l : list (option requirement)) : bytes := join [("|")%char] (part_text <$> l).
Definition part_types (l : list (option requirement)) : list string := rq_type <$> omap id l.

(** The part of a signature with a given type. *)
Fixpoint part_named (n : string) (l : list (option requirement)) : option requirement :=
  match l with
  | [] => None
  | Some q :: l => if bool_decide (rq_type q = n) then Some q else part_named n l
  | None :: l => part_named n l
  end.

Section props.
  Context {SI : SpiritInt} {SIL : SpiritIntLaws SI} {BS : BoostSplit} {BSL : BoostSplitLaws BS}.

(** The characters that end a number or a name in the grammar. *)
Definition sep_char (c : ascii) : Prop := c = "&"%char \/ c = ","%char \/ c = ";"%char.
Definition at_end (r : bytes) : Prop := from_option (fun c => c = ","%char \/ c = ";"%char) True (head r).

Lemma sep_char_facts c : sep_char c ->
  is_digit c = false /\ c <> "-"%char /\ c <> "+"%char /\ name_char c = false.
Proof. intros [->|[->| ->]]; split_and!; by vm_compute. Qed.

Lemma at_end_sep r : at_end r -> from_option sep_char True (head r).
Proof. unfold at_end, sep_char. destruct (head r); simpl; tauto. Qed.

Lemma opt_int_text z r : is_int z -> from_option sep_char True (head r) ->
  rule_opt int_p (to_bytes (if negb (z =? NULL_PARAMETER_) then pretty z else "") ++ r) =
    Some (if negb (z =? NULL_PARAMETER_) then Some z else None, r).
Proof.
  intros Hz Hr. unfold rule_opt. destruct (negb _).
    rewrite int_p_pretty; [done|done|]. destruct r as [|c r]; [done|]. simpl in *.
    by apply sep_char_facts in Hr as (? & _).
  - simpl. rewrite int_p_none; [done|]. destruct r as [|c r]; [done|]. simpl in *.
    by apply sep_char_facts in Hr as (? & ? & ? & _).
Qed.

Lemma null_default z : default NULL_PARAMETER_ (if negb (z =? NULL_PARAMETER_) then Some z else None) = z.
Proof. destruct (Z.eqb_spec z NULL_PARAMETER_); simpl; congruence. Qed.

Definition restrictions (p : parameter) : option (option Z * option Z * option Z) :=
  if haveLevel p || haveSensor p || haveType p then
    Some (if haveLevel p then Some (pa_level p) else None,
          if haveSensor p then Some (pa_sensor p) else None,
          if haveType p then Some (pa_typeid p) else None)
  else None.

Lemma rule_ch_hit c r : rule_ch c (c :: r) = Some (tt, r).
Proof. simpl. by rewrite bool_decide_true. Qed.

Lemma parameter_rule_str p r : parameter_wf p -> at_end r ->
  parameter_rule (to_bytes (Parameter_str p) ++ r) = Some ((to_bytes (name_ p), restrictions p), r).
Proof.
  intros (Hne & Hname & Hl & Hs & Ht & _ & _) Hr. unfold parameter_rule, rule_seq, Parameter_str, restrictions.
  assert (Hb : to_bytes (name_ p) <> []) by (by destruct (name_ p)).
  destruct (haveLevel p || haveSensor p || haveType p) eqn:E.
  - rewrite !to_bytes_app, <- !app_assoc.
    rewrite rule_plus_chars_app; [|done|done|by vm_compute]. change (to_bytes "&") with ["&"%char].
    unfold restriction_rule. unfold rule_opt at 1. cbn [app mbind option_bind]. rewrite rule_ch_hit. simpl.
    unfold haveLevel, haveSensor, haveType.
    rewrite opt_int_text by (done || by left). cbn [mbind option_bind]. rewrite rule_ch_hit. simpl.
    rewrite opt_int_text by (done || by left). cbn [mbind option_bind]. rewrite rule_ch_hit. simpl.
    rewrite opt_int_text by (done || by apply at_end_sep). done.
  - rewrite rule_plus_chars_app; [|done|done|].
    + simpl. unfold restriction_rule, rule_opt. destruct r as [|c r]; [done|].
      simpl in *. by destruct Hr as [-> | ->].
    + destruct r as [|c r]; [done|]. by apply at_end_sep, sep_char_facts in Hr as (_ & _ & _ & ?).
Qed.

Lemma Parameter_of_str p : parameter_wf p -> Parameter_of (to_bytes (Parameter_str p)) = Some p.
Proof.
  intros Hp. unfold Parameter_of, rule_full. rewrite <- (app_nil_r (to_bytes (Parameter_str p))).
  rewrite parameter_rule_str by done. simpl. destruct Hp as (_ & _ & _ & _ & _ & E1 & E2).
  unfold restrictions. destruct (haveLevel p || haveSensor p || haveType p) eqn:E; simpl.
  - unfold haveLevel, haveSensor, haveType. rewrite !null_default, of_to_bytes. f_equal.
    destruct p; simpl in *; congruence.
  - apply orb_false_elim in E as [E Et]. apply orb_false_elim in E as [El Es].
    rewrite of_to_bytes. f_equal. destruct p; unfold haveLevel, haveSensor, haveType in *; simpl in *.
    apply negb_false_iff, Z.eqb_eq in El, Es, Et. congruence.
Qed.

(** The text of a parameter of a requirement is read back as that parameter,
    whatever level, sensor and type it names; so parameters that the program
    takes as equal, by their texts, are equal. *)
Theorem parameter_str_roundtrip (p q : parameter) :
  parameter_wf p -> parameter_wf q ->
  Parameter_of (to_bytes (Parameter_str p)) = Some p /\
  (Parameter_eq p q = true <-> p = q).
Proof.
  intros Hp Hq. split; [by apply Parameter_of_str|]. unfold Parameter_eq. rewrite bool_decide_eq_true.
  split; [|by intros ->]. intros E. apply Parameter_of_str in Hp. rewrite E, Parameter_of_str in Hp by done.
  congruence.
Qed.

(** ** Lists of a grammar *)

Lemma rule_star_text {A B} (p : rule B) ch (tx : A -> bytes) (v : A -> B) (ok : bytes -> Prop) l r n :
  (forall x r, x ∈ l -> ok r -> p (tx x ++ r) = Some (v x, r)) ->
  (forall s, ok (ch :: s)) -> ok r -> head r <> Some ch -> (length l <= n)%nat ->
  rule_star_ n (rule_seq (rule_ch ch) p) (concat ((cons ch) <$> (tx <$> l)) ++ r) =
    Some ((fun x => (tt, v x)) <$> l, r).
Proof.
  intros Hp Hch Hr Hne. revert n. induction l as [|x l IH]; intros n Hn.
  - simpl. destruct n; simpl; [done|]. unfold rule_seq. destruct r as [|c r]; [done|].
    simpl. rewrite bool_decide_false; [done|]. intros ->. done.
  - destruct n as [|n]; [simpl in Hn; lia|]. cbn [fmap list_fmap concat].
    rewrite <- app_assoc. cbn [rule_star_ app]. unfold rule_seq at 1. rewrite rule_ch_hit.
    cbn [mbind option_bind]. rewrite Hp; [|by left|].
    + cbn [mbind option_bind]. rewrite IH; [done| |simpl in Hn; lia].
      intros y s Hy. apply Hp. by right.
    + destruct l; [done|]. apply Hch.
Qed.

Lemma length_joined {A} (ch : ascii) (tx : A -> bytes) l :
  (length l <= length (concat ((cons ch) <$> (tx <$> l))))%nat.
Proof.
  induction l as [|x l IH]; [done|]. cbn [fmap list_fmap concat length app]. rewrite length_app.
  cbn [fmap] in IH. lia.
Qed.

Lemma rule_list_text {A B} (p : rule B) ch (tx : A -> bytes) (v : A -> B) (ok : bytes -> Prop) a l r :
  (forall x r, x ∈ a :: l -> ok r -> p (tx x ++ r) = Some (v x, r)) ->
  (forall s, ok (ch :: s)) -> ok r -> head r <> Some ch ->
  rule_list p ch (join [ch] (tx <$> a :: l) ++ r) = Some (v <$> a :: l, r).
Proof.
  intros Hp Hch Hr Hne. unfold rule_list. cbn [fmap list_fmap]. rewrite join_concat, <- app_assoc.
  unfold rule_seq at 1. rewrite Hp; [|by left|destruct l; [done|apply Hch]].
  cbn [mbind option_bind]. unfold rule_star. rewrite (rule_star_text p ch tx v ok); [|by intros; apply Hp; [right|]|done..|].
  - cbn [mbind option_bind]. by rewrite <- list_fmap_compose.
  - rewrite length_app. pose proof (length_joined ch tx l). lia.
Qed.

Lemma rule_opt_list_text {A B} (p : rule B) (tx : A -> bytes) (v : A -> B) l r :
  (forall x r, x ∈ l -> at_end r -> p (tx x ++ r) = Some (v x, r)) ->
  p (";"%char :: r) = None ->
  exists o, rule_opt (rule_list p ",") (join [","%char] (tx <$> l) ++ ";"%char :: r) = Some (o, ";"%char :: r) /\
    default [] o = v <$> l.
Proof.
  intros Hp Hn. destruct l as [|a l].
  - exists None. unfold rule_opt, rule_list, rule_seq. simpl. by rewrite Hn.
  - exists (Some (v <$> a :: l)). unfold rule_opt. rewrite (rule_list_text p "," tx v at_end).
    + done.
    + done.
    + intros s. by left.
    + by right.
    + done.
Qed.

Lemma parameters_text ps r : Forall parameter_wf ps ->
  exists o, parameters_rule (join [","%char] ((fun p => to_bytes (Parameter_str p)) <$> ps) ++ ";"%char :: r) =
              Some (o, ";"%char :: r) /\
    default [] o = (fun p => to_bytes (Parameter_str p)) <$> ps.
Proof.
  intros Hps. apply rule_opt_list_text; [|done]. intros p r' Hp Hr. rewrite Forall_forall in Hps.
  unfold rule_text. rewrite parameter_rule_str; [|by apply Hps|done]. cbn [mbind option_bind].
  rewrite length_app, Nat.add_sub. by rewrite take_app_length.
Qed.

Lemma int_p_end z r : is_int z -> at_end r -> int_p (to_bytes (pretty z) ++ r) = Some (z, r).
Proof.
  intros Hz Hr. apply int_p_pretty; [done|]. destruct r as [|c r]; [done|].
  by apply at_end_sep, sep_char_facts in Hr as (? & _).
Qed.

Lemma stations_text st r : Forall is_int st ->
  exists o, stations_rule (join [","%char] ((fun z => to_bytes (pretty z)) <$> st) ++ ";"%char :: r) =
              Some (o, ";"%char :: r) /\ default [] o = st.
Proof.
  intros Hst. destruct (rule_opt_list_text int_p (fun z => to_bytes (pretty z)) id st r) as (o & E & D).
  - intros z r' Hz Hr. rewrite Forall_forall in Hst. by apply int_p_end; [apply Hst|].
  - by apply int_p_none.
  - exists o. by rewrite list_fmap_id in D.
Qed.

Lemma times_text ti : times_ok ti ->
  exists o, times_rule (match ti with
              | None => []
              | Some (a, b) => to_bytes (pretty a) ++
                               match b with None => [] | Some b => ","%char :: to_bytes (pretty b) end
              end) = Some (o, []) /\
    from_option fst 0 o = (time_ends ti).1 /\
    from_option (fun t => from_option snd 0 t.2) 0 o = (time_ends ti).2.
Proof.
  intros Hti. destruct ti as [[a b]|]; simpl in *.
  2:{ exists None. split; [|done]. unfold times_rule, rule_opt, rule_seq. by rewrite int_p_none. }
  destruct Hti as [Ha Hb]. unfold times_rule, rule_opt at 1, rule_seq at 1.
  rewrite int_p_end; [|done|by destruct b; [left|]]. cbn [mbind option_bind].
  destruct b as [b|].
  - exists (Some (a, Some (tt, b))). unfold rule_opt, rule_seq. rewrite rule_ch_hit. cbn [mbind option_bind].
    rewrite <- (app_nil_r (to_bytes (pretty b))), int_p_end by done. done.
  - by exists (Some (a, None)).
Qed.

Lemma requirement_rule_text q : requirement_ok q ->
  exists o, rule_full requirement_rule (requirement_text q) =
      Some (to_bytes (rq_type q), (fun p => to_bytes (Parameter_str p)) <$> rq_params q, rq_stations q, o) /\
    from_option fst 0 o = (time_ends (rq_times q)).1 /\
    from_option (fun t => from_option snd 0 t.2) 0 o = (time_ends (rq_times q)).2.
Proof.
  intros (Hne & Hty & Hps & Hst & Hti). unfold requirement_text, rule_full, requirement_rule.
  assert (to_bytes (rq_type q) <> []) by (by destruct (rq_type q)).
  rewrite rule_plus_chars_app by done. cbn [mbind option_bind]. rewrite rule_ch_hit. cbn [mbind option_bind].
  match goal with |- context [parameters_rule (_ ++ _ :: ?r)] =>
    destruct (parameters_text (rq_params q) r Hps) as (o1 & -> & E1) end.
  cbn [mbind option_bind]. rewrite rule_ch_hit. cbn [mbind option_bind].
  match goal with |- context [stations_rule (_ ++ _ :: ?r)] =>
    destruct (stations_text (rq_stations q) r Hst) as (o2 & -> & E2) end.
  cbn [mbind option_bind]. rewrite rule_ch_hit. cbn [mbind option_bind].
  destruct (times_text (rq_times q) Hti) as (o3 & -> & E3 & E4). exists o3. cbn [mbind option_bind].
  by rewrite E1, E2.
Qed.

Lemma mapM_Parameter_of ps : Forall parameter_wf ps ->
  mapM Parameter_of ((fun p => to_bytes (Parameter_str p)) <$> ps) = Some ps.
Proof.
  intros H. apply mapM_Some. induction H as [|p ps Hp Hps IH]; simpl; [constructor|].
  constructor; [by apply Parameter_of_str|done].
Qed.

Lemma find_last_of_some set s : (exists c, c ∈ s /\ c ∈ set) <-> is_Some (find_last_of set s).
Proof.
  induction s as [|c s IH]; simpl.
  - split; [intros (c & H & _); by apply elem_of_nil in H|by intros [? ?]].
  - destruct (find_last_of set s) as [i|].
    + split; [by eexists|]. intros _. destruct IH as [_ IH]. destruct IH as (x & ? & ?); [by eexists|].
      exists x. split; [by right|done].
    + case_bool_decide as Hc; [split; [by eexists|]; intros _; exists c; split; [by left|done]|].
      split; [|by intros [? ?]]. intros (x & Hx & Hs). apply elem_of_cons in Hx as [->|Hx]; [done|].
      destruct IH as [IH _]. destruct IH; [by exists x|done].
Qed.

Lemma meta_mapM ps :
  if forallb (fun p => bool_decide ("_"%char ∈ to_bytes (name_ p))) ps
  then is_Some (mapM parseAsConcreteMetaParameter ps)
  else mapM parseAsConcreteMetaParameter ps = None.
Proof.
  induction ps as [|p ps IH]; [by eexists|]. simpl.
  assert (Hf : "_"%char ∈ to_bytes (name_ p) <-> is_Some (parseAsConcreteMetaParameter p)).
  { unfold parseAsConcreteMetaParameter.
    trans (is_Some (find_last_of (to_bytes "_") (to_bytes (name_ p)))).
    - rewrite <- find_last_of_some. split; [intros H; exists "_"%char; split; [done|by left]|].
      intros (c & Hc & Hs). by apply list_elem_of_singleton in Hs as ->.
    - destruct (find_last_of _ _); simpl; [|done]. by split; eexists. }
  case_bool_decide as E.
  - destruct (proj1 Hf E) as [y ->]. simpl.
    destruct (forallb _ ps); [destruct IH as [? ->]; by eexists|by rewrite IH].
  - destruct (parseAsConcreteMetaParameter p) as [y|]; [|done]. destruct E. apply Hf. by eexists.
Qed.

Lemma DataRequirement_of_text q sid concrete : requirement_ok q ->
  DataRequirement_of (requirement_text q) sid concrete =
    if meta_named q concrete then inl (requirement_meaning q sid concrete) else inr Invalid.
Proof.
  intros Hq. destruct (requirement_rule_text q Hq) as (o & Eo & E1 & E2).
  destruct Hq as (Hne & Hty & Hps & Hst & Hti). unfold DataRequirement_of.
  destruct (requirement_text q) as [|c t] eqn:Et.
  { unfold requirement_text in Et. by destruct (rq_type q). }
  rewrite Eo. simpl. rewrite mapM_Parameter_of by done. simpl. rewrite E1, E2, of_to_bytes.
  unfold meta_named, requirement_meaning.
  destruct (time_ends (rq_times q)) as [a b]; simpl.
  assert (Hm : (if a <? b then (b, a) else (a, b)) = (Z.max a b, Z.min a b))
    by (destruct (Z.ltb_spec a b); f_equal; lia).
  rewrite Hm. destruct (concrete && _); simpl; [|done].
  pose proof (meta_mapM (rq_params q)) as HM.
  destruct (forallb _ (rq_params q)); [destruct HM as [ps' ->]|rewrite HM]; done.
Qed.

(** A requirement in the documented format is read as what it means: its
    parameters, the stations with the observation's own added once, and the time
    interval from its earlier to its later end, zero when left out. Concrete
    metadata are split at the last underscore, and refused without one. *)
Theorem requirement_spec (q : requirement) (stationid : Z) (concrete : bool) :
  requirement_ok q ->
  DataRequirement_of (requirement_text q) stationid concrete =
    (if meta_named q concrete then inl (requirement_meaning q stationid concrete) else inr Invalid) /\
  stationid ∈ station_ (requirement_meaning q stationid concrete) /\
  dr_empty (requirement_meaning q stationid concrete) = false.
Proof.
  intros Hq. split; [by apply DataRequirement_of_text|].
  assert (H : stationid ∈ station_ (requirement_meaning q stationid concrete)).
  { simpl. case_bool_decide; [done|apply elem_of_app; right; by left]. }
  split; [done|]. unfold dr_empty. apply andb_false_iff. right. rewrite bool_decide_eq_false.
  intros E. rewrite E in H. by apply elem_of_nil in H.
Qed.

(** ** Signatures *)

Definition part_ok (concrete : bool) (q : option requirement) : Prop :=
  match q with None => True | Some q => requirement_ok q /\ meta_named q concrete = true end.

Lemma join_Forall (P : ascii -> Prop) sep l :
  Forall P sep -> Forall (Forall P) l -> Forall P (join sep l).
Proof.
  intros Hs Hl. induction Hl as [|f [|g l] Hf Hl IH]; [constructor|done|].
  change (join sep (f :: g :: l)) with (f ++ sep ++ join sep (g :: l)). by rewrite !Forall_app.
Qed.

Definition no_bar (c : ascii) : Prop := is_any_of (to_bytes "|") c = false.

Lemma name_char_no_bar c : name_char c = true -> no_bar c.
Proof.
  intros H. destruct c as [[] [] [] [] [] [] [] []]; try (vm_compute in H; discriminate H); by vm_compute.
Qed.

Lemma alpha_no_bar c : is_alpha c = true -> no_bar c.
Proof. intros H. apply name_char_no_bar. unfold name_char, is_alnum. by rewrite H. Qed.

Lemma pretty_no_bar (z : Z) : Forall no_bar (to_bytes (pretty z)).
Proof.
  eapply Forall_impl; [apply pretty_chars|]. intros c [H| ->]; [|by vm_compute].
  apply name_char_no_bar. unfold name_char, is_alnum. rewrite H. by rewrite orb_true_r.
Qed.

Lemma parameter_no_bar p : parameter_wf p -> Forall no_bar (to_bytes (Parameter_str p)).
Proof.
  intros (_ & Hn & _). assert (Forall no_bar (to_bytes (name_ p)))
    by (eapply Forall_impl; [exact Hn|exact name_char_no_bar]).
  unfold Parameter_str. destruct (_ || _ || _); [|done]. rewrite !to_bytes_app, !Forall_app.
  split_and!; try done; try (by repeat constructor); case_match; try apply pretty_no_bar; constructor.
Qed.

Lemma part_no_bar concrete q : part_ok concrete q -> no_char (is_any_of (to_bytes "|")) (part_text q).
Proof.
  destruct q as [q|]; [|intros _; constructor]. intros [(_ & Hty & Hps & Hst & _) _].
  unfold no_char. simpl. unfold requirement_text.
  assert (Hsep : forall c, sep_char c -> no_bar c) by (intros c [->|[->| ->]]; by vm_compute).
  repeat rewrite ?Forall_app, ?Forall_cons. split_and!.
  - eapply Forall_impl; [exact Hty|exact alpha_no_bar].
  - by apply Hsep; right; right.
  - apply join_Forall; [repeat constructor; by apply Hsep; right; left|].
    apply Forall_fmap. eapply Forall_impl; [exact Hps|exact parameter_no_bar].
  - by apply Hsep; right; right.
  - apply join_Forall; [repeat constructor; by apply Hsep; right; left|].
    apply Forall_fmap, Forall_true. intros z. apply pretty_no_bar.
  - by apply Hsep; right; right.
  - destruct (rq_times q) as [[a b]|]; [|constructor]. rewrite Forall_app.
    split; [apply pretty_no_bar|]. destruct b as [b|]; [|constructor].
    constructor; [by apply Hsep; right; left|apply pretty_no_bar].
Qed.

Lemma add_requirement_part sid concrete s q : part_ok concrete q ->
  add_requirement sid concrete s (part_text q) =
    match q with
    | None => if dr_empty (default DataRequirement_new (s !! EmptyString))
              then inl (<[EmptyString := {| requirementType_ := ""; parameter_ := []; station_ := [];
                          firstTime_ := 0; lastTime_ := 0; isConcrete_ := concrete |}]> s)
              else inr SignatureError
    | Some q => if dr_empty (default DataRequirement_new (s !! rq_type q))
                then inl (<[rq_type q := requirement_meaning q sid concrete]> s) else inr SignatureError
    end.
Proof.
  intros Hq. destruct q as [q|]; [|done]. destruct Hq as [Hq Hm]. simpl. unfold add_requirement.
  by rewrite DataRequirement_of_text, Hm by done.
Qed.

Lemma part_named_type n l q : part_named n l = Some q -> n ∈ part_types l.
Proof.
  induction l as [|[p|] l IH]; simpl; [done| |exact IH].
  case_bool_decide as E; [intros _; rewrite <- E; by left|]. intros H. right. by apply IH.
Qed.

(** What the signature read so far holds. *)
Definition sig_inv (s : CheckSignature) : Prop :=
  dr_empty (default DataRequirement_new (s !! EmptyString)) = true /\
  forall n r, n <> EmptyString -> s !! n = Some r -> dr_empty r = false.

Lemma requirement_meaning_not_empty q sid concrete : dr_empty (requirement_meaning q sid concrete) = false.
Proof.
  unfold dr_empty. apply andb_false_iff. right. rewrite bool_decide_eq_false. simpl.
  case_bool_decide as E; [intros E'; rewrite E' in E; by apply elem_of_nil in E|]. by destruct (rq_stations q).
Qed.

Lemma add_requirements_parts sid concrete l s :
  Forall (part_ok concrete) l -> sig_inv s ->
  if bool_decide (NoDup (part_types l) /\ Forall (fun n => s !! n = None) (part_types l))
  then exists s', add_requirements sid concrete s (part_text <$> l) = inl s' /\
    forall n, n <> EmptyString ->
      s' !! n = match part_named n l with
                | Some q => Some (requirement_meaning q sid concrete) | None => s !! n end
  else add_requirements sid concrete s (part_text <$> l) = inr SignatureError.
Proof.
  intros Hl. revert s. induction Hl as [|q l Hq Hl IH]; intros s [Hs0 Hs].
  { rewrite bool_decide_true by (split; constructor). by exists s. }
  cbn [fmap list_fmap add_requirements]. rewrite add_requirement_part by done.
  destruct q as [q|].
  - destruct Hq as [(Hne & _) Hm]. change (part_types (Some q :: l)) with (rq_type q :: part_types l).
    cbn [part_named].
    destruct (s !! rq_type q) as [r|] eqn:Er.
    + simpl. rewrite (Hs _ _ Hne Er).
      rewrite bool_decide_false; [done|]. intros [_ HF]. apply Forall_cons in HF as [HF _]. congruence.
    + simpl. set (s1 := <[rq_type q := requirement_meaning q sid concrete]> s).
      assert (Hi : sig_inv s1).
      { split; [unfold s1; by rewrite lookup_insert_ne|]. intros n r Hn. unfold s1.
        rewrite lookup_insert. case_decide; [|by apply Hs].
        intros [= <-]. apply requirement_meaning_not_empty. }
      specialize (IH s1 Hi).
      assert (Hd : (NoDup (part_types l) /\ Forall (fun n => s1 !! n = None) (part_types l)) <->
                   (NoDup (rq_type q :: part_types l) /\
                    Forall (fun n => s !! n = None) (rq_type q :: part_types l))).
      { rewrite NoDup_cons, Forall_cons, !Forall_forall. unfold s1. split.
        - intros [Hnd Hn]. split_and!; try done.
          + intros H. specialize (Hn _ H). by rewrite lookup_insert_eq in Hn.
          + intros n H. specialize (Hn _ H). rewrite lookup_insert in Hn. by case_decide.
        - intros [[Hni Hnd] [_ Hn]]. split; [done|]. intros n H. rewrite lookup_insert.
          case_decide; [by subst|by apply Hn]. }
      rewrite <- (bool_decide_ext _ _ Hd). case_bool_decide as Hcase; [|exact IH].
      destruct IH as (s' & -> & Hs'). exists s'. split; [done|]. intros n Hn. rewrite Hs' by done.
      unfold s1. rewrite lookup_insert. case_bool_decide as E1.
      * rewrite decide_True by done. subst n. destruct (part_named (rq_type q) l) as [q'|] eqn:Ep; [|done].
        apply part_named_type in Ep. destruct Hcase as [_ Hf]. rewrite Forall_forall in Hf.
        apply Hf in Ep. unfold s1 in Ep. by rewrite lookup_insert_eq in Ep.
      * by rewrite decide_False.
  - rewrite Hs0. cbn [mbind res_bind]. set (s1 := <[EmptyString := _]> s).
    assert (Hne : forall n, n <> EmptyString -> s1 !! n = s !! n) by (intros; by apply lookup_insert_ne).
    assert (Hi : sig_inv s1).
    { split; [unfold s1; by rewrite lookup_insert_eq|]. intros n r Hn. rewrite Hne by done. by apply Hs. }
    specialize (IH s1 Hi). change (part_types (None :: l)) with (part_types l).
    assert (Hd : (NoDup (part_types l) /\ Forall (fun n => s1 !! n = None) (part_types l)) <->
                 (NoDup (part_types l) /\ Forall (fun n => s !! n = None) (part_types l))).
    { rewrite !Forall_forall.
      assert (forall n, n ∈ part_types l -> n <> EmptyString) as Ht.
      { intros n Hn. unfold part_types in Hn. apply list_elem_of_fmap in Hn as (q & -> & Hq').
        apply list_elem_of_omap in Hq' as (q' & Hq' & E). unfold id in E. subst q'.
        rewrite Forall_forall in Hl. by destruct (Hl _ Hq') as [[? _] _]. }
      split; intros [? Hn]; (split; [done|]); intros n Hn'; [rewrite <- Hne by auto|rewrite Hne by auto]; auto. }
    rewrite <- (bool_decide_ext _ _ Hd). case_bool_decide; [|exact IH].
    destruct IH as (s' & -> & Hs'). exists s'. split; [done|]. intros n Hn. rewrite Hs' by done.
    change (part_named n (None :: l)) with (part_named n l). destruct (part_named n l); [done|by apply Hne].
Qed.

(** A signature whose parts have different types gives each type the meaning
    of its part, and nothing for the types it does not mention; a type that
    occurs twice is an error. Parts may be empty. *)
Theorem CheckSignature_spec (l : list (option requirement)) (stationid : Z) (concrete : bool) :
  Forall (part_ok concrete) l ->
  (NoDup (part_types l) ->
   exists s, CheckSignature_of (signature_text l) stationid concrete = inl s /\
     forall n, n <> EmptyString ->
       cs_get s n = (fun q => requirement_meaning q stationid concrete) <$> part_named n l) /\
  (~ NoDup (part_types l) ->
   CheckSignature_of (signature_text l) stationid concrete = inr SignatureError).
Proof.
  intros Hl. unfold CheckSignature_of, signature_text.
  assert (Es : exists l', split (is_any_of (to_bytes "|")) false (join ["|"%char] (part_text <$> l)) =
               part_text <$> l' /\ Forall (part_ok concrete) l' /\ part_types l' = part_types l /\
               forall n, part_named n l' = part_named n l).
  { destruct l as [|q l]; [exists [None]; by rewrite split_nil; repeat constructor|].
    exists (q :: l). split; [|done]. apply split_join; [done|done| |done].
    apply Forall_fmap. eapply Forall_impl; [exact Hl|]. intros q'. apply part_no_bar. }
  destruct Es as (l' & -> & Hl' & <- & Hn).
  pose proof (add_requirements_parts stationid concrete l' ∅ Hl') as H.
  assert (Hi : sig_inv ∅) by (split; [done|]; intros n r _ E; by rewrite lookup_empty in E).
  specialize (H Hi).
  assert (He : Forall (fun n => (∅ : CheckSignature) !! n = None) (part_types l'))
    by (apply Forall_true; intros; apply lookup_empty).
  split; intros Hnd.
  - rewrite bool_decide_true in H by done. destruct H as (s & -> & Hs). exists s. split; [done|].
    intros n Hne. unfold cs_get. rewrite Hs, Hn by done. by destruct (part_named n l).
  - by rewrite bool_decide_false in H by (by intros [? _]).
Qed.

(** ** Translations *)

Lemma tr_fold_spec l : forall t, c_sorted string_lt (fun _ => True) t -> NoDup (Parameter_str <$> l.*1) ->
  Forall (fun ft => c_find string_lt (Parameter_str ft.1) t = None) l ->
  let t' := foldl (fun ret ft => tr_set ft.1 ft.2 ret) t l in
  c_sorted string_lt (fun _ => True) t' /\
  (forall n, n ∉ Parameter_str <$> l.*1 -> c_find string_lt n t' = c_find string_lt n t) /\
  (forall p q, (p, q) ∈ l -> tr_find p t' = Some (p, q)).
Proof.
  induction l as [|[p q] l IH]; intros t Ht Hnd Hn; simpl.
  { split; [done|split; [done|]]. intros p q H. by apply elem_of_nil in H. }
  apply NoDup_cons in Hnd as [Hp Hnd]. apply Forall_cons in Hn as [Hpn Hn]. simpl in *.
  assert (Hf : forall n, c_find string_lt n (tr_set p q t) =
               if decide (Parameter_str p = n) then Some (p, q) else c_find string_lt n t).
  { intros n. unfold tr_set. rewrite (c_find_update (kok := fun _ => True)) by done.
    by rewrite Hpn. }
  destruct (IH (tr_set p q t)) as (H1 & H2 & H3).
  - unfold tr_set. by apply c_update_sorted.
  - done.
  - rewrite Forall_forall in Hn |- *. intros [p' q'] Hin. simpl. rewrite Hf, decide_False; [by apply (Hn (p', q'))|].
    intros E. apply Hp. rewrite E. apply list_elem_of_fmap. exists p'. split; [done|].
    apply list_elem_of_fmap. by exists (p', q').
  - split; [done|]. split.
    + intros n Hnn. rewrite not_elem_of_cons in Hnn. destruct Hnn as [Hne Hnn].
      rewrite H2, Hf, decide_False by (done || congruence). done.
    + intros p' q' Hin. apply elem_of_cons in Hin as [[= -> ->]|Hin]; [|by apply H3].
      unfold tr_find. rewrite H2, Hf by done. by rewrite decide_True.
Qed.

(** Between requirements of the same length, whose parameters have different
    texts, the translation takes each parameter to the one at the same place and
    finds nothing else; otherwise there is none. *)
Theorem getTranslation_spec (from to : DataRequirement) :
  NoDup (Parameter_str <$> parameter_ from) ->
  if bool_decide (length (parameter_ from) = length (parameter_ to)) then
    exists t, getTranslation from to = inl t /\
      (forall i p q, parameter_ from !! i = Some p -> parameter_ to !! i = Some q ->
         tr_find p t = Some (p, q)) /\
      (forall p, Parameter_str p ∉ Parameter_str <$> parameter_ from -> tr_find p t = None)
  else getTranslation from to = inr NonmatchingDataRequirements.
Proof.
  intros Hnd. unfold getTranslation. case_bool_decide as Hl; [|done].
  assert (Hz : (zip (parameter_ from) (parameter_ to)).*1 = parameter_ from) by (apply fst_zip; lia).
  eexists. split; [done|].
  destruct (tr_fold_spec (zip (parameter_ from) (parameter_ to)) []) as (_ & H2 & H3).
  - apply c_sorted_nil.
  - by rewrite Hz.
  - by apply Forall_true.
  - split.
    + intros i p q Hp Hq. apply H3. apply list_elem_of_lookup. exists i. rewrite lookup_zip_with, Hp. simpl. by rewrite Hq.
    + intros p Hp. unfold tr_find. rewrite H2; [done|]. by rewrite Hz.
Qed.

End props.

(** ** Instances *)

Definition sample_parameter (n : string) (l s t : Z) : parameter :=
  {| name_ := n; pa_level := l; pa_sensor := s; pa_typeid := t; metaDataParamName_ := ""; metaDataType_ := "" |}.

Definition sample_obs : requirement :=
  {| rq_type := "obs"; rq_params := [sample_parameter "TA" INT_MIN INT_MIN INT_MIN; sample_parameter "RR_24" 10 (-1) INT_MIN];
     rq_stations := [18700; 180]; rq_times := Some (-180, None) |}.

Definition sample_meta : requirement :=
  {| rq_type := "meta"; rq_params := [sample_parameter "TA_low" INT_MIN INT_MIN INT_MIN];
     rq_stations := []; rq_times := None |}.

#[export] Instance parameter_wf_dec p : Decision (parameter_wf p).
Proof. unfold parameter_wf, is_int. apply _. Defined.

#[export] Instance requirement_ok_dec q : Decision (requirement_ok q).
Proof.
  unfold requirement_ok, is_int, times_ok. destruct (rq_times q) as [[a [b|]]|]; simpl; unfold is_int; apply _.
Defined.

Lemma parameter_str_roundtrip_witness :
  Parameter_str (sample_parameter "RR_24" 10 (-1) INT_MIN) = "RR_24&10&-1&"%string /\
  Parameter_of (SI := spirit_int) (to_bytes "RR_24&10&-1&") = Some (sample_parameter "RR_24" 10 (-1) INT_MIN).
Proof.
  split; [by vm_compute|].
  apply (parameter_str_roundtrip (SI := spirit_int) (sample_parameter "RR_24" 10 (-1) INT_MIN)
           (sample_parameter "RR_24" 10 (-1) INT_MIN)); by_decision.
Defined.

Lemma requirement_spec_witness :
  requirement_text sample_obs = to_bytes "obs;TA,RR_24&10&-1&;18700,180;-180" /\
  DataRequirement_of (SI := spirit_int) (requirement_text sample_obs) 180 true =
    inl (requirement_meaning sample_obs 180 true) /\
  lastTime_ (requirement_meaning sample_obs 180 true) = 0.
Proof.
  split; [by vm_compute|]. split; [|done].
  apply (requirement_spec (SI := spirit_int) sample_obs 180 true ltac:(by_decision)).
Defined.

Lemma CheckSignature_spec_witness :
  exists s, CheckSignature_of (SI := spirit_int) (BS := boost_split)
      (to_bytes "obs;TA,RR_24&10&-1&;18700,180;-180||meta;TA_low;;") 180 true = inl s /\
    cs_meta s = Some (requirement_meaning sample_meta 180 true) /\ cs_model s = None.
Proof.
  destruct (proj1 (CheckSignature_spec (SI := spirit_int) (BS := boost_split)
    [Some sample_obs; None; Some sample_meta] 180 true
    ltac:(repeat (constructor; [try (split; [by_decision|done])|]); constructor)))
    as (s & Es & Hs).
  - by_decision.
  - exists s. split; [exact Es|]. unfold cs_meta, cs_model. split; rewrite Hs; done.
Defined.

Lemma getTranslation_spec_witness :
  exists t, getTranslation (requirement_meaning sample_obs 180 true) (requirement_meaning sample_obs 1 false) = inl t /\
    option_map (fun e => name_ e.2) (tr_find (sample_parameter "TA" INT_MIN INT_MIN INT_MIN) t) = Some "TA"%string.
Proof.
  destruct (getTranslation_spec (requirement_meaning sample_obs 180 true) (requirement_meaning sample_obs 1 false)
    ltac:(by_decision)) as (t & Et & Ht & _).
  exists t. split; [exact Et|]. by rewrite (Ht 0%nat _ _ eq_refl eq_refl).
Defined.
