(* ===== verification/ParamList.v ===== *)
(** * Parameters (src/src/lib/kvalobs/paramlist.cc, paramlist.h,
      src/src/lib/decodeutility/isTextParam.cc)

    [ParamList] is a [std::set] ordered by the names of the parameters. The file
    of parameters is given by its content, which is missing when it cannot be
    opened. *)

From stdpp Require Import pretty.
From S2P Require Import Prelude Orders OrderedSet PTime TimeText SortedData Scanning Text CommaString CronString Signature.

#[local] Open Scope Z_scope.

Record Param := Param_new { kode : string; id : Z; isScalar : bool }.

#[export] Instance Param_eq_dec : EqDecision Param.
Proof. solve_decision. Defined.

Definition Param_default : Param := Param_new "" (-1) false.

(** [Param::valid]. *)
Definition valid_param (p : Param) : bool := id p >=? 0.

(** [ParamPredicate]. *)
Definition ParamPredicate (a b : Param) : bool := string_lt (kode a) (kode b).

Definition ParamList : Type := list Param.

(** The name of an id; empty when it is not there. *)
Definition findParamIdInList (pl : ParamList) (i : Z) : string :=
  match List.find (fun p => id p =? i) pl with Some p => kode p | None => "" end.

(** The parameter of a name. *)
Definition findParamInList (pl : ParamList) (name : string) : option Param :=
  set_find ParamPredicate (Param_new name (-1) false) pl.

(** [isTextParam] of a name and of an id. *)
Definition isTextParam_name (paramName : string) (params : ParamList) : bool :=
  match findParamInList params paramName with Some p => negb (isScalar p) | None => false end.

Definition isTextParam (paramid : Z) (params : ParamList) : bool :=
  match List.find (fun p => id p =? paramid) params with Some p => negb (isScalar p) | None => false end.

Section file.
  Context {BT : BoostText}.

(** One line of the file: [None] is the early return of the function. *)
Definition read_param_line (buf : bytes) (paramList : ParamList) : res (option ParamList) :=
  let buf := trimstr buf in
  if bool_decide (buf = []) || bool_decide (head buf = Some "#"%char) then mret (Some paramList)
  else
    cStr ← of_option undefined_behaviour (CommaString_of buf ","%char);
    if (cs_size cStr <? 3)%nat then mret None
    else
      let at_ i := (cs_value cStr i).1 in
      let isScalar := negb (bool_decide (at_ 2%nat = ["f"%char]) || bool_decide (at_ 2%nat = ["F"%char])) in
      i ← of_option bad_lexical_cast (lexical_cast_int (at_ 0%nat));
      mret (Some (set_insert ParamPredicate (Param_new (of_bytes (at_ 1%nat)) i isScalar) paramList)).

(** The loop over the lines: the result and the list. *)
Fixpoint read_param_lines (lines : list bytes) (paramList : ParamList) : res (bool * ParamList) :=
  match lines with
  | [] => mret (true, paramList)
  | buf :: lines =>
      r ← read_param_line buf paramList;
      match r with
      | Some paramList => read_param_lines lines paramList
      | None => mret (false, paramList)
      end
  end.

Definition readParamsFromFile (content : option bytes) : res (bool * ParamList) :=
  match content with
  | None => mret (false, [])
  | Some s => read_param_lines (getlines s) []
  end.

End file.

Definition isParamListsEqual (oldList newList : ParamList) : bool :=
  (length oldList =? length newList)%nat && forallb (fun ab : Param * Param => bool_decide (ab.1 = ab.2)) (zip newList oldList).

(** ** Properties *)

Definition same_kode (a b : Param) : bool := bool_decide (kode a = kode b).

Lemma param_order : strict_weak (fun _ => True) same_kode ParamPredicate.
Proof.
  unfold same_kode, ParamPredicate.
  split; intros *; rewrite ?bool_decide_eq_true, ?bool_decide_eq_false.
  - done.
  - congruence.
  - congruence.
  - intros _ _ ->. apply (ko_irrefl (kok := fun _ : string => True)).
  - intros _ _ _. apply (ko_trans (kok := fun _ : string => True)).
  - intros _ _ _ ->. done.
  - intros _ _ _ H <-. done.
  - intros _ _ H. by apply (ko_total (kok := fun _ : string => True)).
Qed.

(** A line of the file that is skipped, or one that defines a parameter. *)
Inductive file_line := Comment (t : bytes) | Entry (p : Param).

Definition line_text (l : file_line) : bytes :=
  match l with
  | Comment t => t
  | Entry p => to_bytes (pretty (id p)) ++ ","%char :: to_bytes (kode p) ++ ","%char :: [if isScalar p then "t"%char else "f"%char]
  end.

Definition line_ok (l : file_line) : Prop :=
  match l with
  | Comment t => trimstr t = [] \/ head (trimstr t) = Some "#"%char
  | Entry p =>
      0 <= id p <= INT_MAX /\ unpadded (to_bytes (kode p)) /\
      Forall (fun c => c <> ","%char /\ c <> quotation_mark) (to_bytes (kode p))
  end.

#[export] Instance line_ok_dec l : Decision (line_ok l).
Proof. destruct l; simpl; apply _. Defined.

Definition line_param (l : file_line) : option Param := match l with Comment _ => None | Entry p => Some p end.

Section read.
  Context {BT : BoostText} {BTL : BoostTextLaws BT}.

(** [insert] does nothing when the name is there. *)
Lemma param_find_insert (x p : Param) pl : oset_wf ParamPredicate (fun _ => True) pl ->
  set_find ParamPredicate x (set_insert ParamPredicate p pl) =
    match set_find ParamPredicate x pl with Some q => Some q | None => if same_kode x p then Some p else None end.
Proof.
  intros Hpl. pose proof (set_insert_wf param_order p pl I Hpl) as Hpl'.
  destruct (set_find ParamPredicate x pl) as [q|] eqn:E.
  - apply (set_find_Some param_order) in E as [Hq Eq]; [|done..]. apply (set_find_Some param_order); [done..|].
    split; [|done]. apply (elem_of_set_insert param_order); [done..|]. by right.
  - pose proof (proj1 (set_find_None param_order x pl I Hpl) E) as E'. destruct (same_kode x p) eqn:Ep.
    + apply (set_find_Some param_order); [done..|]. split; [|done]. apply (elem_of_set_insert param_order); [done..|].
      left. split; [done|]. apply (set_find_None param_order); [done..|]. intros y Hy.
      destruct (same_kode p y) eqn:Epy; [|done].
      rewrite <- (E' y Hy). symmetry. by apply (sw_etrans param_order x p y).
    + apply (set_find_None param_order); [done..|]. intros y. rewrite (elem_of_set_insert param_order) by done.
      intros [[-> _]|Hy]; [done|by apply E'].
Qed.

Lemma digits_plain (z : Z) : 0 <= z <= INT_MAX ->
  lexical_cast_int (to_bytes (pretty z)) = Some z /\
  Forall (fun c => is_digit c = true) (to_bytes (pretty z)) /\ to_bytes (pretty z) <> [].
Proof.
  intros Hz. destruct (pretty_nonneg z ltac:(lia)) as (d & -> & Hne & Hd & Hv).
  by destruct (lexical_cast_int_digits d Hne Hd ltac:(lia)) as [-> _]; rewrite Hv.
Qed.

Lemma digit_not c d : is_digit c = true -> is_digit d = false -> c <> d.
Proof. congruence. Qed.

Definition flag_char (b : bool) : ascii := if b then "t"%char else "f"%char.

Lemma entry_fields (p : Param) : line_text (Entry p) =
  join [","%char] (field_source <$> [Plain (to_bytes (pretty (id p))); Plain (to_bytes (kode p)); Plain [flag_char (isScalar p)]]).
Proof. simpl. by destruct (isScalar p). Qed.

Lemma entry_unpadded (p : Param) : 0 <= id p <= INT_MAX -> unpadded (line_text (Entry p)).
Proof.
  intros Hi. destruct (digits_plain (id p) Hi) as (_ & Hd & Hne). simpl. split.
  - destruct (to_bytes (pretty (id p))) as [|c d]; [done|]. apply digit_not_blank. by inversion Hd.
  - rewrite last_app_cons, app_comm_cons, last_app_cons. destruct (isScalar p); by_decision.
Qed.

Lemma read_line (l : file_line) pl : line_ok l ->
  read_param_line (line_text l) pl =
    inl (Some (match line_param l with Some p => set_insert ParamPredicate p pl | None => pl end)).
Proof.
  destruct l as [t|p]; cbn [line_ok line_param].
  { unfold read_param_line. cbn [line_text]. intros [->|E]; [by rewrite bool_decide_true|].
    rewrite (bool_decide_true (head _ = _)) by done. by rewrite orb_true_r. }
  intros (Hi & Hu & Hk). destruct (digits_plain (id p) Hi) as (Hint & Hd & Hne).
  unfold read_param_line. rewrite trimstr_unpadded by (by apply entry_unpadded).
  assert (exists c r, line_text (Entry p) = c :: r /\ is_digit c = true) as (c & r & E & Hc).
  { simpl. destruct (to_bytes (pretty (id p))) as [|c r]; [done|]. inversion Hd. by eexists _, _. }
  rewrite (bool_decide_false (line_text _ = [])), (bool_decide_false (head _ = _)); [|rewrite E..].
  2:{ intros [= ->]. by vm_compute in Hc. }
  2:{ done. }
  cbn [orb]. rewrite entry_fields, CommaString_fields; [|by split|done|].
  - destruct p as [k i b]; cbn [id kode isScalar] in *. unfold cs_size, cs_value. simpl.
    unfold mbind, res_bind. simpl.
    rewrite (trimstr_unpadded (to_bytes (pretty i))), (trimstr_unpadded (to_bytes k)), (trimstr_unpadded [flag_char b]).
    { rewrite Hint, of_to_bytes. by destruct b. }
    + destruct b; by_decision.
    + done.
    + by apply digits_unpadded.
  - rewrite !Forall_cons, Forall_nil. cbn [field_ok]. split_and!; [|done| |done].
    + eapply Forall_impl; [exact Hd|]. intros d Hdd. split; by apply (digit_not d).
    + constructor; [|constructor]. by destruct (isScalar p).
Qed.

(** The file of parameters: each line that is neither empty nor a comment
    defines a parameter, a name stands for its first definition, and the set
    holds nothing else. A file that is not there gives no parameters. *)
Theorem readParamsFromFile_spec (ls : list file_line) :
  Forall line_ok ls -> Forall (fun l => Forall (fun c => c <> char_of 10) (line_text l)) ls ->
  let entries := omap line_param ls in
  exists pl,
    readParamsFromFile (Some (concat ((fun l => line_text l ++ [char_of 10]) <$> ls))) = inl (true, pl) /\
    oset_wf ParamPredicate (fun _ => True) pl /\ (forall p, p ∈ pl -> p ∈ entries) /\
    forall name, findParamInList pl name = List.find (fun p => bool_decide (name = kode p)) entries.
Proof.
  intros Hok Hnl entries. unfold readParamsFromFile.
  replace (concat ((fun l => line_text l ++ [char_of 10]) <$> ls))
    with (concat ((fun l => l ++ [char_of 10]) <$> (line_text <$> ls))) by (by rewrite <- list_fmap_compose).
  rewrite getlines_joined by (by apply Forall_fmap).
  assert (H : forall ls pl, Forall line_ok ls -> oset_wf ParamPredicate (fun _ => True) pl -> exists pl',
    read_param_lines (line_text <$> ls) pl = inl (true, pl') /\ oset_wf ParamPredicate (fun _ => True) pl' /\
    (forall p, p ∈ pl' -> p ∈ pl \/ p ∈ omap line_param ls) /\
    forall name, findParamInList pl' name =
      match findParamInList pl name with
      | Some q => Some q
      | None => List.find (fun p => bool_decide (name = kode p)) (omap line_param ls)
      end).
  { clear -BTL. intros ls. induction ls as [|l ls IH]; intros pl Hok Hpl.
    { exists pl. split_and!; [done..|by left|]. intros name. by destruct (findParamInList pl name). }
    apply Forall_cons in Hok as [Hl Hok]. cbn [fmap list_fmap read_param_lines]. rewrite read_line by done.
    unfold mbind, res_bind. destruct l as [t|p]; cbn [line_param omap list_omap] in *; [by apply IH|].
    destruct (IH (set_insert ParamPredicate p pl) Hok ltac:(by apply (set_insert_wf param_order))) as (pl' & E & Hwf & Hin & Hf).
    exists pl'. split_and!; [done..| |].
    - intros q Hq. apply Hin in Hq as [Hq|Hq]; [|right; by right].
      apply (elem_of_set_insert param_order) in Hq as [[-> _]|Hq]; [right; left|by left|done..].
    - intros name. rewrite Hf. unfold findParamInList. rewrite param_find_insert by done.
      destruct (set_find _ _ pl); [done|]. cbn [List.find]. unfold same_kode. cbn [kode].
      by case_bool_decide. }
  destruct (H ls [] Hok ltac:(repeat constructor)) as (pl & E & Hwf & Hin & Hf).
  exists pl. split_and!; [done..| |exact Hf]. intros p [Hp|Hp]%Hin; [by apply elem_of_nil in Hp|done].
Qed.

End read.

(** ** Instances *)

Definition sample_params : ParamList := [Param_new "RR" 110 true; Param_new "TA" 211 true; Param_new "TEXT" 1001 false].

Definition sample_param_file : list file_line :=
  [Comment (to_bytes " # parameters"); Entry (Param_new "TEXT" 1001 false); Entry (Param_new "TA" 211 true);
   Comment []; Entry (Param_new "RR" 110 true); Entry (Param_new "TA" 212 true)].

Lemma readParamsFromFile_spec_witness :
  exists pl, findParamInList pl "TA" = Some (Param_new "TA" 211 true) /\
  readParamsFromFile (BT := boost_text)
    (Some (concat ((fun l => line_text l ++ [char_of 10]) <$> sample_param_file))) = inl (true, pl).
Proof.
  destruct (readParamsFromFile_spec (BT := boost_text) sample_param_file) as (pl & E & _ & _ & Hf).
  - by_decision.
  - by_decision.
  - exists pl. split; [by rewrite Hf|exact E].
Defined.
