(* ===== verification/ResultFilter.v ===== *)
(** * Selecting results of the database (src/src/kvQabased/src/db)

    databaseResultFilter.cpp, which picks one type, level and sensor among the
    values read for a parameter and reads a number out of the metadata of a
    station, and the list of metadata of returntypes/StationParam.cc. *)

From S2P Require Import Prelude Orders PTime TimeText DataFlag ControlInfo UseInfo KvData Rows SortedData Scanning Signature.

#[local] Open Scope Z_scope.

(** [boost::lexical_cast<float>]; [None] is the exception. *)
Class BoostFloat := { lexical_cast_float : bytes -> option spec_float }.

(** ** [filter] *)

Section filter.
  Context {A : Type}.

(** The map from type ids to values that [filterTypeId_] builds. *)
Definition typeSortedData (ty : A -> Z) (data : list A) : list (Z * list A) :=
  foldl (fun m d => c_update Z.ltb (ty d) [] (fun l => l ++ [d]) m) [] data.

Definition filterTypeId_ (ty : A -> Z) (data : list A) (preferredTypeId : Z) : list A :=
  let m := typeSortedData ty data in
  if (1 <? length m)%nat then
    match c_find Z.ltb preferredTypeId m with
    | Some l => l
    | None => from_option snd [] (last m)
    end
  else data.

(** The set of values that [filter_] builds. *)
Definition filter_values (f : A -> Z) (data : list A) : list (Z * unit) :=
  foldl (fun m d => c_update Z.ltb (f d) tt id m) [] data.

Definition filter_ (f : A -> Z) (data : list A) : list A :=
  let values := filter_values f data in
  if (1 <? length values)%nat then
    match values with
    | (wantedValue, _) :: _ => List.filter (fun d => f d =? wantedValue) data
    | [] => data
    end
  else data.

End filter.

Section ResultFilter.
  Context {PT : PTime}.

(** The sensor as the [char] that the second [filter_] compares. *)
Definition char_sensor (d : kvData PT) : Z := to_char (sensor_ d).

Definition result_filter (data : list (kvData PT)) (preferredTypeId : Z) : list (kvData PT) :=
  filter_ char_sensor (filter_ (@level_ PT) (filterTypeId_ (@typeid_ PT) data preferredTypeId)).

Definition result_filter_text (data : list (kvTextData PT)) (preferredTypeId : Z) : list (kvTextData PT) :=
  filterTypeId_ (@tx_typeid_ PT) data preferredTypeId.

End ResultFilter.

(** ** [parseStationParam] *)

Section parseStationParam.
  Context {BS : BoostSplit} {BF : BoostFloat}.

Definition to_lower_copy (s : bytes) : bytes := lower <$> s.

Definition caseInsensitiveEq (wanted s : bytes) : bool :=
  bool_decide (s = to_lower_copy wanted) || bool_decide (to_lower_copy s = to_lower_copy wanted).

Definition parseStationParam (metadataToParse wanted : bytes) : res spec_float :=
  let params := split (is_any_of [";"%char; "010"%char]) false metadataToParse in
  if negb (length params mod 2 =? 0)%nat then throw runtime_error
  else match list_find (fun s => caseInsensitiveEq wanted s = true) params with
       | None => throw runtime_error
       | Some (i, _) =>
           match params !! (i + length params / 2)%nat with
           | Some v => of_option bad_lexical_cast (lexical_cast_float v)
           | None => throw undefined_behaviour
           end
       end.

End parseStationParam.

(** ** StationParam.cc *)

Record StationParam := {
  sp_stationid : Z;
  sp_paramid : string;
  sp_sensor : Z;
  sp_level : Z;
  sp_qcx : string;
  sp_metadata : string
}.

(** [operator<]. *)
Definition StationParam_lt (a b : StationParam) : bool :=
  string_lt (sp_qcx a) (sp_qcx b) || (sp_stationid a <? sp_stationid b) ||
  string_lt (sp_paramid a) (sp_paramid b) ||
  (sp_sensor a <? sp_sensor b) || (sp_level a <? sp_level b).

(** The loop of [StationParamList::find]: an exact match, or the number of
    entries with the level and the last one of them. *)
Fixpoint sp_scan (level sensor : Z) (l : list StationParam) (levels : nat) (levelMatch : Z * Z * string)
    : (Z * Z * string) + (nat * (Z * Z * string)) :=
  match l with
  | [] => inr (levels, levelMatch)
  | p :: l =>
      if (sp_level p =? level) && (sp_sensor p =? sensor) then inl (level, sensor, sp_metadata p)
      else if sp_level p =? level then sp_scan level sensor l (S levels) (level, sp_sensor p, sp_metadata p)
      else sp_scan level sensor l levels levelMatch
  end.

Definition sp_find (l : list StationParam) (level sensor : Z) : res (Z * Z * string) :=
  match sp_scan level sensor l 0 (0, 0, ""%string) with
  | inl m => mret m
  | inr (levels, levelMatch) =>
      if (levels =? 1)%nat then mret levelMatch
      else if (levels =? 0)%nat then throw NoMatch
      else throw MultipleMatch
  end.

(** The set is given as the list of its elements in their order. *)
Definition filterStationParam (s : list StationParam) (qcx : string) (stationid : Z) (paramid : string)
    : list StationParam :=
  List.filter (fun e => (sp_stationid e =? stationid) && bool_decide (sp_paramid e = paramid) &&
                   bool_decide (sp_qcx e = qcx)) s.

(** ** Properties *)

(** The smallest and the largest value of [f] on a list. *)
Definition is_min {A} (f : A -> Z) (l : list A) (m : Z) : Prop :=
  (exists d, d ∈ l /\ f d = m) /\ forall d, d ∈ l -> m <= f d.
Definition is_max {A} (f : A -> Z) (l : list A) (m : Z) : Prop :=
  (exists d, d ∈ l /\ f d = m) /\ forall d, d ∈ l -> f d <= m.

Definition keep {A} (f : A -> Z) (v : Z) (l : list A) : list A := List.filter (fun d => f d =? v) l.

Section filter_props.
  Context {A : Type}.
  Implicit Types (f : A -> Z) (l : list A).

Lemma elem_of_keep f v l d : d ∈ keep f v l <-> d ∈ l /\ f d = v.
Proof.
  unfold keep. rewrite list_elem_of_In, filter_In, <- list_elem_of_In, Z.eqb_eq. done.
Qed.

Lemma keep_snoc f v l d : keep f v (l ++ [d]) = keep f v l ++ (if f d =? v then [d] else []).
Proof. unfold keep. rewrite List.filter_app. simpl. by destruct (f d =? v). Qed.

Lemma keep_all f v l : (forall d, d ∈ l -> f d = v) -> keep f v l = l.
Proof.
  unfold keep. induction l as [|d l IH]; intros H; [done|]. simpl.
  rewrite (H d) by left. rewrite Z.eqb_refl. f_equal. apply IH. intros x Hx. apply H. by right.
Qed.

(** The grouping maps every value that occurs to its elements, in order. *)
Lemma typeSortedData_spec ty l :
  c_sorted Z.ltb (fun _ => True) (typeSortedData ty l) /\
  forall v, c_find Z.ltb v (typeSortedData ty l) =
    if bool_decide (keep ty v l = []) then None else Some (keep ty v l).
Proof.
  induction l as [|d l [IHs IHf]] using rev_ind; [split; [apply c_sorted_nil|done]|].
  unfold typeSortedData. rewrite foldl_app. cbn [foldl]. fold (typeSortedData ty l). split; [by apply c_update_sorted|].
  intros v. rewrite (c_find_update (kok := fun _ => True)) by done. rewrite !IHf, keep_snoc.
  destruct (decide (ty d = v)) as [<-|Hv].
  - rewrite Z.eqb_refl. rewrite (bool_decide_false (_ ++ [d] = [])) by (by destruct (keep ty (ty d) l)).
    case_bool_decide as E; simpl; [by rewrite E|done].
  - rewrite (proj2 (Z.eqb_neq _ _)) by done. by rewrite app_nil_r.
Qed.

Lemma sorted_last_max {V} (c : list (Z * V)) kv :
  c_sorted Z.ltb (fun _ => True) c -> last c = Some kv -> forall k v, (k, v) ∈ c -> k <= kv.1.
Proof.
  induction c as [|[k1 v1] c IH]; [done|]. intros Hs Hl k v Hin.
  apply c_sorted_cons in Hs as (_ & HF & Hs). destruct c as [|kv2 c].
  { injection Hl as <-. apply list_elem_of_singleton in Hin as [= -> ->]. simpl. lia. }
  change (last ((k1, v1) :: kv2 :: c)) with (last (kv2 :: c)) in Hl.
  apply elem_of_cons in Hin as [[= -> ->]|Hin]; [|by eapply IH].
  rewrite Forall_forall in HF. apply last_Some_elem_of in Hl as Hin. apply HF in Hin. lia.
Qed.

Lemma sorted_find_elem {V} (c : list (Z * V)) k v :
  c_sorted Z.ltb (fun _ => True) c -> (k, v) ∈ c -> c_find Z.ltb k c = Some v.
Proof. intros Hs Hin. by apply (c_find_elem (kok := fun _ => True)) in Hin as [_ ?]. Qed.

(** One group is all there is. *)
Lemma few_groups {V} (c : list (Z * V)) k v k' :
  (length c <= 1)%nat -> c_find Z.ltb k c = Some v -> c_find Z.ltb k' c <> None -> k = k'.
Proof.
  destruct c as [|[k1 v1] [|]]; simpl; try done; [|lia]. intros _.
  destruct (Z.ltb_spec k1 k); [done|]. destruct (Z.ltb_spec k k1); [done|]. intros _.
  destruct (Z.ltb_spec k1 k'); [done|]. destruct (Z.ltb_spec k' k1); [done|]. lia.
Qed.

Lemma keep_not_nil f v l : keep f v l <> [] <-> v ∈ f <$> l.
Proof.
  rewrite list_elem_of_fmap. split.
  - destruct (keep f v l) as [|d r] eqn:E; [done|]. intros _. exists d.
    assert (d ∈ keep f v l) as [? ?]%elem_of_keep by (rewrite E; left). done.
  - intros (d & -> & Hd) E. assert (d ∈ keep f (f d) l) as H by (by apply elem_of_keep).
    rewrite E in H. by apply elem_of_nil in H.
Qed.

Lemma filterTypeId_spec ty l pref : l <> [] ->
  exists T, (if bool_decide (pref ∈ ty <$> l) then T = pref else is_max ty l T) /\
    filterTypeId_ ty l pref = keep ty T l /\ keep ty T l <> [].
Proof.
  intros Hne. destruct (typeSortedData_spec ty l) as [Hs Hf].
  pose proof (fun v => keep_not_nil ty v l) as Hk.
  unfold filterTypeId_. destruct (Nat.ltb_spec 1 (length (typeSortedData ty l))) as [Hn|Hn].
  - rewrite Hf. case_bool_decide as Ep.
    { exists pref. rewrite bool_decide_false by (by apply Hk). split_and!; [done|done|by apply Hk]. }
    rewrite bool_decide_true by (apply dec_stable; intros H; by apply Hk in H).
    destruct (last (typeSortedData ty l)) as [[T g]|] eqn:El; [|apply last_None in El; by rewrite El in Hn; simpl in Hn; lia].
    pose proof (last_Some_elem_of _ _ El) as Hin. apply sorted_find_elem in Hin as Eg; [|done].
    rewrite Hf in Eg. case_bool_decide as ET; [done|]. injection Eg as <-. exists T. split; [|done]. split.
    + apply Hk in ET. apply list_elem_of_fmap in ET as (d & -> & Hd). by exists d.
    + intros d Hd. assert (Hd' : keep ty (ty d) l <> []) by (apply Hk, list_elem_of_fmap; by exists d).
        assert (E : c_find Z.ltb (ty d) (typeSortedData ty l) = Some (keep ty (ty d) l))
          by (by rewrite Hf, bool_decide_false).
        assert (Hin' : (ty d, keep ty (ty d) l) ∈ typeSortedData ty l) by (by apply (c_find_elem (kok := fun _ => True))).
        by apply (sorted_last_max _ _ Hs El) in Hin'.
  - destruct l as [|d l]; [done|].
    assert (Hall : forall x, x ∈ d :: l -> ty x = ty d).
    { intros x Hx. apply (few_groups (typeSortedData ty (d :: l)) _ (keep ty (ty x) (d :: l))); [done| |].
      - rewrite Hf, bool_decide_false; [done|]. apply Hk, list_elem_of_fmap. by exists x.
      - rewrite Hf, bool_decide_false; [done|]. apply Hk, list_elem_of_fmap. exists d. split; [done|by left]. }
    exists (ty d). rewrite keep_all by done. split_and!; [|done|done]. case_bool_decide as Ep.
    + apply list_elem_of_fmap in Ep as (x & -> & Hx). symmetry. by apply Hall.
    + split; [exists d; split; [by left|done]|]. intros x Hx. by rewrite (Hall x Hx).
Qed.

Lemma filter_values_spec f l :
  c_sorted Z.ltb (fun _ => True) (filter_values f l) /\
  forall v, (v, tt) ∈ filter_values f l <-> v ∈ f <$> l.
Proof.
  induction l as [|d l [IHs IHf]] using rev_ind.
  { split; [apply c_sorted_nil|]. intros v. split; intros H; by apply elem_of_nil in H. }
  unfold filter_values. rewrite foldl_app. cbn [foldl]. fold (filter_values f l).
  assert (Hs : c_sorted Z.ltb (fun _ => True) (c_update Z.ltb (f d) tt id (filter_values f l)))
    by (by apply c_update_sorted).
  split; [done|]. intros v. rewrite (c_find_elem (kok := fun _ => True)) by done.
  rewrite (c_find_update (kok := fun _ => True)) by done. rewrite fmap_app, elem_of_app, <- IHf.
  rewrite (c_find_elem (kok := fun _ => True)) by done.
  cbn [fmap list_fmap]. rewrite list_elem_of_singleton.
  destruct (decide (f d = v)) as [<-|Hv]; [|by intuition congruence].
  split; [by right|]. intros _. split; [done|]. by destruct (default _ _).
Qed.

Lemma filter_spec f l : l <> [] ->
  exists m, is_min f l m /\ filter_ f l = keep f m l /\ keep f m l <> [].
Proof.
  intros Hne. destruct (filter_values_spec f l) as [Hs Hv].
  assert (He : filter_values f l <> []).
  { destruct l as [|d l]; [done|]. intros E. specialize (Hv (f d)). rewrite E in Hv.
    destruct Hv as [_ Hv]. assert (H : f d ∈ f <$> d :: l) by (by left). apply Hv in H. by apply elem_of_nil in H. }
  destruct (filter_values f l) as [|[m []] c] eqn:E; [done|].
  assert (Hm : is_min f l m).
  { apply c_sorted_cons in Hs as (_ & HF & Hs). rewrite Forall_forall in HF. split.
    - assert (H : (m, tt) ∈ (m, tt) :: c) by left. apply Hv, list_elem_of_fmap in H as (d & -> & Hd). by exists d.
    - intros d Hd. assert (H : (f d, tt) ∈ (m, tt) :: c) by (apply Hv, list_elem_of_fmap; by exists d).
      apply elem_of_cons in H as [[= ->]|H]; [done|]. apply HF in H. simpl in H. lia. }
  exists m. split; [done|]. assert (Hk : keep f m l <> []).
  { apply keep_not_nil, list_elem_of_fmap. destruct Hm as [(d & Hd & <-) _]. by exists d. }
  split; [|done]. unfold filter_. rewrite E. destruct c as [|kv c]; simpl; [|done].
  symmetry. apply keep_all. intros d Hd.
  assert (H : (f d, tt) ∈ [(m, tt)]) by (apply Hv, list_elem_of_fmap; by exists d).
  by apply list_elem_of_singleton in H as [= ->].
Qed.

End filter_props.

Lemma keep_keep {A} (f g : A -> Z) v w l :
  keep f v (keep g w l) = List.filter (fun d => (g d =? w) && (f d =? v)) l.
Proof.
  unfold keep. induction l as [|d l IH]; [done|]. simpl. destruct (g d =? w); simpl; [|done].
  destruct (f d =? v); by rewrite IH.
Qed.

Section ResultFilter_props.
  Context {PT : PTime}.

(** Among the values read for a parameter, [filter] keeps, in order, exactly
    those of one type, level and sensor: the preferred type when any value has it
    and the highest otherwise, then the lowest level of that type, then the
    lowest sensor of that level. The choice is made once for the whole list, not
    per observation time. Texts are chosen by type only. *)
Theorem result_filter_spec (data : list (kvData PT)) (pref : Z) :
  data <> [] ->
  exists T L S,
    (if bool_decide (pref ∈ (@typeid_ PT) <$> data) then T = pref else is_max (@typeid_ PT) data T) /\
    is_min (@level_ PT) (keep (@typeid_ PT) T data) L /\
    is_min char_sensor (keep (@level_ PT) L (keep (@typeid_ PT) T data)) S /\
    result_filter data pref =
      List.filter (fun d => (typeid_ d =? T) && ((level_ d =? L) && (char_sensor d =? S))) data /\
    result_filter data pref <> [].
Proof.
  intros Hne. unfold result_filter.
  destruct (filterTypeId_spec (@typeid_ PT) data pref Hne) as (T & HT & -> & H1).
  destruct (filter_spec (@level_ PT) _ H1) as (L & HL & -> & H2).
  destruct (filter_spec char_sensor _ H2) as (S & HS & -> & H3).
  exists T, L, S. split_and!; try done. rewrite keep_keep. unfold keep at 1.
  clear. induction data as [|d l IH]; [done|]. simpl. destruct (typeid_ d =? T); simpl; by rewrite ?IH.
Qed.

Theorem result_filter_text_spec (data : list (kvTextData PT)) (pref : Z) :
  data <> [] ->
  exists T, (if bool_decide (pref ∈ (@tx_typeid_ PT) <$> data) then T = pref else is_max (@tx_typeid_ PT) data T) /\
    result_filter_text data pref = keep (@tx_typeid_ PT) T data.
Proof.
  intros Hne. destruct (filterTypeId_spec (@tx_typeid_ PT) data pref Hne) as (T & HT & E & _). by exists T.
Qed.

End ResultFilter_props.

Section metadata_props.
  Context {BS : BoostSplit} {BSL : BoostSplitLaws BS} {BF : BoostFloat}.

(** Metadata as station_param has them: a line of names and a line of values. *)
Definition metadata_text (names values : list bytes) : bytes :=
  join [";"%char] names ++ "010"%char :: join [";"%char] values.

Definition meta_word (w : bytes) : Prop := no_char (is_any_of [";"%char; "010"%char]) w.

Lemma metadata_split names values :
  names <> [] -> values <> [] -> Forall meta_word names -> Forall meta_word values ->
  split (is_any_of [";"%char; "010"%char]) false (metadata_text names values) = names ++ values.
Proof.
  intros Hn Hv Hns Hvs. destruct names as [|n names]; [done|]. destruct values as [|v values]; [done|].
  unfold metadata_text. rewrite !join_concat, <- app_assoc.
  set (l := (pair ";"%char <$> names) ++ ("010"%char, v) :: (pair ";"%char <$> values)).
  assert (E : concat (cons ";"%char <$> names) ++ "010"%char :: v ++ concat (cons ";"%char <$> values) =
              concat ((fun cf : ascii * bytes => cf.1 :: cf.2) <$> l)).
  { unfold l. rewrite fmap_app, concat_app, <- list_fmap_compose. f_equal. cbn [fmap list_fmap concat fst snd].
    by rewrite <- list_fmap_compose. }
  rewrite E. apply Forall_cons in Hns as [Hn' Hns]. apply Forall_cons in Hvs as [Hv' Hvs].
  rewrite split_fields; [|done| |done].
  - unfold l. rewrite fmap_app. cbn [fmap list_fmap snd]. by rewrite <- !list_fmap_compose, !list_fmap_id.
  - unfold l. apply Forall_app. split; [apply Forall_fmap; eapply Forall_impl; [exact Hns|]; done|].
    constructor; [done|]. apply Forall_fmap. eapply Forall_impl; [exact Hvs|]. done.
Qed.

(** Metadata with as many names as values give the number at the place of the
    first name that the wanted one equals up to case, or the exception of its
    conversion. A wanted name that is not there is an error, unless a value looks
    like it, where the program reads past the end of its list. A text with an odd
    number of names and values is an error. *)
Theorem parseStationParam_spec (names values : list bytes) (wanted : bytes) :
  names <> [] -> values <> [] -> Forall meta_word names -> Forall meta_word values ->
  (length names = length values ->
   parseStationParam (metadata_text names values) wanted =
     match list_find (fun s => caseInsensitiveEq wanted s = true) names with
     | Some (i, _) => of_option bad_lexical_cast (v ← values !! i; lexical_cast_float v)
     | None => if existsb (caseInsensitiveEq wanted) values then inr undefined_behaviour
               else inr runtime_error
     end) /\
  (Nat.odd (length names + length values) = true ->
   parseStationParam (metadata_text names values) wanted = inr runtime_error).
Proof.
  intros Hn Hv Hns Hvs. unfold parseStationParam. rewrite metadata_split, length_app by done. split.
  - intros E. rewrite <- E. replace (length names + length names)%nat with (length names * 2)%nat by lia.
    rewrite Nat.Div0.mod_mul, Nat.div_mul by done. simpl.
    destruct (list_find _ names) as [[i s]|] eqn:Ei.
    + rewrite (list_find_app_l _ _ _ _ _ Ei). apply list_find_Some in Ei as (Hi & _). apply lookup_lt_Some in Hi.
      rewrite lookup_app_r by lia. replace (i + length names - length names)%nat with i by lia.
      destruct (values !! i) as [v|] eqn:Ev; [done|]. apply lookup_ge_None in Ev. lia.
    + rewrite (list_find_app_r _ _ _ Ei). destruct (list_find _ values) as [[i s]|] eqn:Ei'; simpl.
      * apply list_find_Some in Ei' as (Hi & Hs & _). rewrite lookup_ge_None_2 by (rewrite length_app; lia).
        assert (existsb (caseInsensitiveEq wanted) values = true) as ->; [|done].
        apply existsb_exists. exists s. split; [by apply list_elem_of_In, (list_elem_of_lookup_2 _ i)|done].
      * apply list_find_None in Ei'. assert (existsb (caseInsensitiveEq wanted) values = false) as ->; [|done].
        apply not_true_is_false. intros H. apply existsb_exists in H as (s & Hs & Hm).
        rewrite Forall_forall in Ei'. by apply (Ei' s); [apply list_elem_of_In|].
  - intros Ho. assert (((length names + length values) mod 2 =? 0)%nat = false) as ->; [|done].
    apply Nat.eqb_neq. intros H. apply Nat.Div0.mod_divides in H as [k Hk]. rewrite Hk in Ho.
    by rewrite Nat.odd_mul in Ho.
Qed.

End metadata_props.

(** ** Metadata lists *)

(** The metadata for a level and sensor are those of the first entry with
    both; without one, of the only entry with the level, given with its own
    sensor; an error tells whether there is no entry with the level or more than
    one. *)
Theorem sp_find_spec (l : list StationParam) (level sensor : Z) :
  let exact := List.filter (fun p => (sp_level p =? level) && (sp_sensor p =? sensor)) l in
  let same_level := keep sp_level level l in
  sp_find l level sensor =
    match exact, same_level with
    | p :: _, _ => inl (level, sensor, sp_metadata p)
    | [], [p] => inl (level, sp_sensor p, sp_metadata p)
    | [], [] => inr NoMatch
    | [], _ => inr MultipleMatch
    end.
Proof.
  unfold sp_find.
  assert (H : forall l n m, sp_scan level sensor l n m =
    match List.filter (fun p => (sp_level p =? level) && (sp_sensor p =? sensor)) l with
    | p :: _ => inl (level, sensor, sp_metadata p)
    | [] => inr ((length (keep sp_level level l) + n)%nat,
                 match last (keep sp_level level l) with
                 | Some p => (level, sp_sensor p, sp_metadata p) | None => m end)
    end).
  { clear. unfold keep. induction l as [|p l IH]; intros n m; [done|]. simpl.
    destruct (sp_level p =? level) eqn:E1; simpl; [|apply IH].
    destruct (sp_sensor p =? sensor) eqn:E2; simpl; [done|]. rewrite IH.
    destruct (List.filter _ l) eqn:Ef; [|done]. f_equal. f_equal; [lia|].
    rewrite last_cons. by destruct (last _). }
  rewrite H. simpl. destruct (List.filter _ l); [|done].
  destruct (keep sp_level level l) as [|p [|q r]]; done.
Qed.

(** The order of station parameters, which [std::set] relies on, is no order:
    two entries can each be less than the other. *)
Theorem StationParam_lt_not_asymmetric :
  exists a b, StationParam_lt a b = true /\ StationParam_lt b a = true.
Proof.
  exists {| sp_stationid := 1; sp_paramid := "TA"; sp_sensor := 0; sp_level := 2; sp_qcx := "QC1"; sp_metadata := "" |},
         {| sp_stationid := 2; sp_paramid := "TA"; sp_sensor := 0; sp_level := 1; sp_qcx := "QC1"; sp_metadata := "" |}.
  done.
Qed.

(** ** Instances *)

Definition with_key (d : kvData stamp_time) (t l s : Z) : kvData stamp_time :=
  {| stationid_ := stationid_ d; obstime_ := obstime_ d; original_ := original_ d; paramid_ := paramid_ d;
     tbtime_ := tbtime_ d; typeid_ := t; sensor_ := s; level_ := l; corrected_ := corrected_ d;
     controlinfo_ := controlinfo_ d; useinfo_ := useinfo_ d; cfailed_ := cfailed_ d |}.

Lemma result_filter_spec_witness :
  let d t l s := with_key sample_kvData t l s in
  result_filter [d 302 0 0; d 501 0 48; d 501 2 48; d 501 0 49] 7 = [d 501 0 48] /\
  exists T, is_max (@typeid_ stamp_time) [d 302 0 0; d 501 0 48; d 501 2 48; d 501 0 49] T.
Proof.
  simpl. split; [by vm_compute|].
  destruct (result_filter_spec [with_key sample_kvData 302 0 0; with_key sample_kvData 501 0 48;
    with_key sample_kvData 501 2 48; with_key sample_kvData 501 0 49] 7 ltac:(done)) as (T & L & S & HT & _).
  exists T. exact HT.
Defined.

Lemma result_filter_text_spec_witness :
  let d t := {| tx_stationid_ := 1; tx_obstime_ := At 0; tx_original_ := "x"; tx_paramid_ := 1000;
                tx_tbtime_ := At 0; tx_typeid_ := t |} : kvTextData stamp_time in
  exists T, result_filter_text [d 1; d 2] 1 = keep (@tx_typeid_ stamp_time) T [d 1; d 2].
Proof.
  simpl. match goal with |- exists T, result_filter_text ?l _ = _ =>
    destruct (result_filter_text_spec l 1 ltac:(done)) as (T & _ & E) end.
  exists T. exact E.
Defined.

(** A conversion that knows single digits. *)
Definition digit_float : BoostFloat :=
  {| lexical_cast_float s := match s with [c] => if is_digit c then Some (Dbl.of_Z (uchar_val c - 48)) else None
                             | _ => None end |}.

Lemma parseStationParam_spec_witness :
  parseStationParam (BS := boost_split) (BF := digit_float) (metadata_text [to_bytes "low"; to_bytes "High"]
    [to_bytes "1"; to_bytes "7"]) (to_bytes "HIGH") = inl (Dbl.of_Z 7).
Proof.
  rewrite (proj1 (parseStationParam_spec (BS := boost_split) (BF := digit_float)
    [to_bytes "low"; to_bytes "High"] [to_bytes "1"; to_bytes "7"] (to_bytes "HIGH")
    ltac:(done) ltac:(done) ltac:(by repeat constructor) ltac:(by repeat constructor)) eq_refl).
  by vm_compute.
Defined.
