(* ===== verification/KlData.v ===== *)
(** * The data lines of kl messages (src/src/lib/decoder/kldecoder/DataDecode.cc,
      paramdef.cc, kldata.h)

    The first line of a message names parameters, each with a sensor and a level
    in parentheses, and every other line holds a time and a value for each of
    them, with control and use flags in parentheses. A function that returns
    [false] with a message gives [Bad] with the reason in place of the text, and
    an exception that leaves a function, or undefined behaviour, is [Raise]. Log
    output and the report for the sender are left out. *)

From stdpp Require Import pretty.
From S2P Require Import Prelude Orders PTime TimeText DataFlag ControlInfo UseInfo KvData SortedData KvalobsData Codes Rows Conf Scanning Text CommaString OrderedSet Signature ParamList ResultFilter.

#[local] Open Scope Z_scope.

Inductive reason :=
  | NoOptionalPart | MissingParenthesis | TooManyOptional
  | NoParameterData | WrongNumberOfElements | InvalidObstime | WrongOptionalPart
  | SensorRange | EmptyName | DuplicateParameter
  | NoData | InvalidHeader | NoParameters.

Inductive outcome (A : Type) := Good (a : A) | Bad (r : reason) | Raise (e : exn).
Arguments Good {A} _. Arguments Bad {A} _. Arguments Raise {A} _.

#[export] Instance outcome_ret : MRet outcome := fun _ => Good.
#[export] Instance outcome_bind : MBind outcome := fun _ _ f m =>
  match m with Good a => f a | Bad r => Bad r | Raise e => Raise e end.

Definition comma : ascii := ","%char.
Definition open_par : ascii := "("%char.
Definition close_par : ascii := ")"%char.

(** ** [splitString] *)

(** From behind a parenthesis to the first closing one, with the number of commas
    on the way. [None] is the access [header[npos]] of the loop. *)
Fixpoint to_closing (n : nat) (s : bytes) : option (nat * bytes * bytes) :=
  match s with
  | [] => None
  | c :: r =>
      if bool_decide (c = close_par) then Some (n, [c], r)
      else match to_closing (if bool_decide (c = comma) then S n else n) r with
           | Some (m, a, b) => Some (m, c :: a, b)
           | None => None
           end
  end.

(** The loop, on the rest of the text that begins at [i]; every pass uses at least
    one character. *)
Fixpoint splitString_ (fuel : nat) (maxNumberOfOtionalElements : Z) (s : bytes) : outcome (list bytes) :=
  match fuel with
  | O => Good []
  | S fuel =>
      match break (fun c => bool_decide (c = comma) || bool_decide (c = open_par)) s with
      | None => Good [trimstr s]
      | Some (a, c, r) =>
          if bool_decide (c = comma) then
            params ← splitString_ fuel maxNumberOfOtionalElements r; mret (trimstr a :: params)
          else if maxNumberOfOtionalElements =? 0 then Bad NoOptionalPart
          else
            match to_closing 0 r with
            | None => Raise undefined_behaviour
            | Some (n, o, r) =>
                if Z.of_nat n >? maxNumberOfOtionalElements - 1 then Bad TooManyOptional
                else
                  match break (is_char comma) r with
                  | None => Good [trimstr s]
                  | Some (b, _, r) =>
                      params ← splitString_ fuel maxNumberOfOtionalElements r;
                      mret (trimstr (a ++ c :: o ++ b) :: params)
                  end
            end
      end
  end.

Definition splitString (header : bytes) (maxNumberOfOtionalElements : Z) : outcome (list bytes) :=
  splitString_ (S (length header)) maxNumberOfOtionalElements header.

(** [splitData] and [splitParams]. *)
Definition splitData (data : bytes) := splitString data 2.
Definition splitParams (header : bytes) := splitString header 2.

(** ** [ParamDef] *)

Record ParamDef := ParamDef_new { pd_name : string; pd_id : Z; pd_sensor : Z; pd_level : Z; pd_code : bool }.

#[export] Instance ParamDef_eq_dec : EqDecision ParamDef.
Proof. solve_decision. Defined.

(** [updateParamList]. *)
Definition updateParamList (paramsList : list ParamDef) (param : ParamDef) : outcome (list ParamDef) :=
  if bool_decide (param ∈ paramsList) then Bad DuplicateParameter else mret (paramsList ++ [param]).

(** ** [decodeHeader] *)

Section header.
  Context (params : ParamList).

(** The name, the sensor and the level that one element of the header gives. *)
Definition header_element (param : bytes) : outcome (bytes * Z * Z) :=
  match break (is_char open_par) param with
  | None => mret (param, 0, 0)
  | Some (name, _, r) =>
      match break (is_char close_par) r with
      | None => Bad MissingParenthesis
      | Some (param, _, _) =>
          match CommaString_of param comma with
          | None => Raise undefined_behaviour
          | Some cs =>
              if (2 <? cs_size cs)%nat then Bad WrongOptionalPart
              else
                let sensor := atoi (of_bytes (cs_value cs 0).1) in
                if sensor >? 9 then Bad SensorRange
                else mret (trimstr name, sensor, atoi (of_bytes (cs_value cs 1).1))
          end
      end
  end.

(** The parameter that an element stands for, and whether that gives a warning. *)
Definition header_param (name : bytes) (sensor level : Z) : outcome (ParamDef * bool) :=
  match name with
  | [] => Bad EmptyName
  | c :: r =>
      let isCode := bool_decide (c = "_"%char) in
      let name := if isCode then r else name in
      if bool_decide (name = []) then Bad EmptyName
      else
        let name := of_bytes name in
        match findParamInList params name with
        | None => mret (ParamDef_new name (-1) sensor level isCode, true)
        | Some p =>
            if isTextParam (id p) params && ((sensor >? 0) || (level >? 0))
            then mret (ParamDef_new name (-2) sensor level isCode, true)
            else mret (ParamDef_new name (id p) sensor level isCode, false)
        end
  end.

Fixpoint header_params (paramStrings : list bytes) (paramsList : list ParamDef) (warnings : bool)
    : outcome (list ParamDef * bool) :=
  match paramStrings with
  | [] => mret (paramsList, warnings)
  | param :: paramStrings =>
      '(name, sensor, level) ← header_element param;
      '(pd, w) ← header_param name sensor level;
      paramsList ← updateParamList paramsList pd;
      header_params paramStrings paramsList (warnings || w)
  end.

Definition decodeHeader (header : bytes) : outcome (list ParamDef * bool) :=
  paramStrings ← splitParams header; header_params paramStrings [] false.

End header.

(** ** Data lines *)

(** [hexCharToInt]. *)
Definition hexCharToInt (c : ascii) : Z :=
  let v := uchar_val c in
  let v := if (97 <=? v) && (v <=? 122) then v - 32 else v in
  if (48 <=? v) && (v <=? 57) then v - 48
  else if (65 <=? v) && (v <=? 70) then v - 65 + 10
  else 0.

(** The loop of [setUseinfo] and [setControlInfo]: [set] is the one of the class. *)
Fixpoint set_nibbles {F} (set : F -> Z -> Z -> F) (i : Z) (flags : bytes) (f : F) : F :=
  match flags with
  | [] => f
  | c :: r =>
      let skip := bool_decide (c = "x"%char) || bool_decide (c = "X"%char) in
      set_nibbles set (i + 1) r (if skip then f else set f i (hexCharToInt c))
  end.

Definition setUseinfo (flags : bytes) : kvUseInfo :=
  if (length flags =? 16)%nat then set_nibbles ui_set 0 flags kvUseInfo_new else kvUseInfo_new.

Definition setControlInfo (flags : bytes) : kvControlInfo :=
  if (length flags =? 16)%nat then set_nibbles ci_set 0 flags kvControlInfo_new else kvControlInfo_new.

(** [KlData]. *)
Record KlData := { val_ : bytes; cinfo_ : kvControlInfo; uinfo_ : kvUseInfo }.
Definition KlData_new : KlData := {| val_ := []; cinfo_ := kvControlInfo_new; uinfo_ := kvUseInfo_new |}.

Definition checkNaN (val : bytes) : bytes :=
  if strcasecmp_eq val (to_bytes "nan") || strcasecmp_eq val (to_bytes "inf") then [] else val.

(** The value and the flags of one element; the last component is a warning. A
    list in parentheses has always an element, so the test for none is left out. *)
Definition data_element (elem : bytes) : outcome (bytes * kvControlInfo * kvUseInfo * bool) :=
  let buf := trimstr elem in
  match break (is_char open_par) buf with
  | None => mret (checkNaN buf, kvControlInfo_new, kvUseInfo_new, false)
  | Some (val, _, r) =>
      let val := checkNaN (trimstr val) in
      match break (is_char close_par) r with
      | None => Bad MissingParenthesis
      | Some (buf, _, _) =>
          match CommaString_of buf comma with
          | None => Raise undefined_behaviour
          | Some cs =>
              if (2 <? cs_size cs)%nat then Bad WrongOptionalPart
              else
                let c := (cs_value cs 0).1 in
                let u := if (cs_size cs =? 2)%nat then (cs_value cs 1).1 else [] in
                let wrong f := negb (length f =? 16)%nat && (0 <? length f)%nat in
                mret (val, setControlInfo c, setUseinfo u, wrong c || wrong u)
          end
      end
  end.

Section DataDecode.
  Context {PT : PTime} {PC : PCalendar PT} {BT : BoostText} {TT : PTimeText PT} {BF : BoostFloat}.
  Context (params : ParamList) (types : list kvTypes).

(** The flag for early and late observations. *)
Definition set_received (typeId : Z) (receivedTime obstime : ptime PT) (u : kvUseInfo) : kvUseInfo :=
  if is_special receivedTime then u
  else
    let f := getUseinfo7Code typeId receivedTime obstime types in
    ui_set u 7 (if f <? 0 then 0 else f).

Definition store_element (typeId : Z) (receivedTime obstime : ptime PT)
    (v : bytes * kvControlInfo * kvUseInfo * bool) : KlData :=
  let '(val, c, u, _) := v in
  if bool_decide (val = []) then KlData_new
  else {| val_ := val; cinfo_ := c; uinfo_ := set_received typeId receivedTime obstime u |}.

(** [decodeData] of one line: the time, the values and the warnings. *)
Definition decodeLine (daSize : nat) (receivedTime : ptime PT) (typeId : Z) (sdata : bytes)
    : outcome (ptime PT * list KlData * bool) :=
  dtmp ← splitData sdata;
  match dtmp with
  | [] | [_] => Bad NoParameterData
  | t :: elems =>
      if negb (daSize =? length elems)%nat then Bad WrongNumberOfElements
      else
        match time_from_string_nothrow t with
        | Escapes => Raise std_exception
        | Time obstime =>
            if is_special obstime then Bad InvalidObstime
            else
              vs ← mapM data_element elems;
              mret (obstime, store_element typeId receivedTime obstime <$> vs, existsb snd vs)
        end
  end.

(** What one value adds to the data: a number, a text or nothing; and a warning. *)
Inductive added := Number (d : kvData PT) | Words (d : kvTextData PT) | Nothing.

Definition code_value (pd : ParamDef) (val : bytes) : option bytes :=
  if pd_code pd then
    if bool_decide (pd_name pd = "VV"%string) then Some (to_bytes (VV (of_bytes val)))
    else if bool_decide (pd_name pd = "HL"%string) then Some (to_bytes (HL (of_bytes val)))
    else None
  else Some val.

Definition value_added (stationid typeId : Z) (obstime : ptime PT) (pd : ParamDef) (d : KlData) : added * bool :=
  if bool_decide (val_ d = []) then (Nothing, false)
  else if pd_id pd <? 0 then (Nothing, false)
  else if isTextParam (pd_id pd) params then
    (Words (kvTextData_set stationid obstime (of_bytes (val_ d)) (pd_id pd) not_a_date_time typeId), false)
  else
    match code_value pd (val_ d) with
    | None => (Nothing, true)
    | Some val =>
        match lexical_cast_float val with
        | None => (Nothing, false)
        | Some fval =>
            (Number (kvData_set stationid obstime fval (pd_id pd) not_a_date_time typeId (pd_sensor pd) (pd_level pd)
                                fval (cinfo_ d) (uinfo_ d) ""), false)
        end
    end.

Definition add_value (k : KvalobsData PT) (a : added) : KvalobsData PT :=
  match a with Number d => insert d k | Words d => insertText d k | Nothing => k end.

(** The values of a line. *)
Definition line_added (stationid typeId : Z) (paramsList : list ParamDef) (obstime : ptime PT) (klData : list KlData)
    : list (added * bool) :=
  zip_with (value_added stationid typeId obstime) paramsList klData.

Fixpoint decode_lines (lines : list bytes) (stationid typeId : Z) (receivedTime : ptime PT) (paramsList : list ParamDef)
    (kvData : KvalobsData PT) (warnings : bool) : outcome (KvalobsData PT * bool) :=
  match lines with
  | [] => mret (kvData, warnings)
  | tmp :: lines =>
      '(obstime, klData, w) ← decodeLine (length paramsList) receivedTime typeId tmp;
      let l := line_added stationid typeId paramsList obstime klData in
      decode_lines lines stationid typeId receivedTime paramsList (foldl add_value kvData (fst <$> l))
                   (warnings || w || existsb snd l)
  end.

(** [decodeData] of a message: the data and whether there were warnings. *)
Definition decodeData (obsData : bytes) (stationid typeId : Z) (receivedTime : ptime PT)
    : outcome (KvalobsData PT * bool) :=
  match getlines obsData with
  | [] => Bad NoData
  | header :: lines =>
      match decodeHeader params header with
      | Raise e => Raise e
      | Bad _ => Bad InvalidHeader
      | Good (paramsList, warnings) =>
          if (length paramsList <? 1)%nat then Bad NoParameters
          else decode_lines lines stationid typeId receivedTime paramsList KvalobsData_new warnings
      end
  end.

End DataDecode.

Arguments added : clear implicits.

(** ** Elements and lists of them *)

(** What may stand between the separators. *)
Definition special_chars : bytes := [comma; open_par; close_par; quotation_mark; char_of 10].
Definition plain_char (c : ascii) : Prop := c ∉ special_chars.
Definition plain (t : bytes) : Prop := Forall plain_char t.

#[export] Instance plain_char_dec c : Decision (plain_char c).
Proof. unfold plain_char. apply _. Defined.
#[export] Instance plain_dec t : Decision (plain t).
Proof. unfold plain. apply _. Defined.

(** An element: a text, with a list of one or two texts in parentheses or not. *)
Record element := { el_head : bytes; el_opt : option (bytes * option bytes) }.

Definition optional_text (o : bytes * option bytes) : bytes :=
  join [comma] (o.1 :: match o.2 with Some b => [b] | None => [] end).

Definition element_text (e : element) : bytes :=
  el_head e ++ match el_opt e with Some o => open_par :: optional_text o ++ [close_par] | None => [] end.

Definition element_ok (e : element) : Prop :=
  plain (el_head e) /\ unpadded (el_head e) /\
  match el_opt e with
  | Some (a, Some b) => (plain a /\ unpadded a) /\ plain b /\ unpadded b
  | Some (a, None) => plain a /\ unpadded a
  | None => True
  end.

#[export] Instance element_ok_dec e : Decision (element_ok e).
Proof. unfold element_ok. destruct (el_opt e) as [[a [b|]]|]; apply _. Defined.

Lemma plain_facts c : plain_char c ->
  c <> comma /\ c <> open_par /\ c <> close_par /\ c <> quotation_mark /\ c <> char_of 10.
Proof. unfold plain_char, special_chars. rewrite !not_elem_of_cons. tauto. Qed.

Lemma plain_no_char (p : ascii -> bool) t :
  plain t -> (forall c, plain_char c -> p c = false) -> no_char p t.
Proof. intros Ht Hp. eapply Forall_impl; [exact Ht|]. intros c. apply Hp. Qed.

Ltac plain_test := let c := fresh in let H := fresh in intros c H;
  destruct (plain_facts c H) as (? & ? & ? & ? & ?); unfold is_char; rewrite ?bool_decide_false by congruence; done.

Lemma to_closing_plain t r n : plain t -> to_closing n (t ++ close_par :: r) = Some (n, t ++ [close_par], r).
Proof.
  intros Ht. induction Ht as [|c t Hc Ht IH]; cbn [app to_closing]; [by rewrite bool_decide_true|].
  destruct (plain_facts c Hc) as (? & ? & ? & ? & ?). rewrite !bool_decide_false by done. by rewrite IH.
Qed.

Lemma to_closing_comma t s n m o r : plain t ->
  to_closing (S n) s = Some (m, o, r) -> to_closing n (t ++ comma :: s) = Some (m, t ++ comma :: o, r).
Proof.
  intros Ht E. induction Ht as [|c t Hc Ht IH]; cbn [app to_closing].
  - rewrite bool_decide_false by done. rewrite bool_decide_true by done. by rewrite E.
  - destruct (plain_facts c Hc) as (? & ? & ? & ? & ?). rewrite !bool_decide_false by done. by rewrite IH.
Qed.

(** The optional part of an element, up to its end. *)
Lemma to_closing_optional e o r : element_ok e -> el_opt e = Some o ->
  exists n, to_closing 0 (optional_text o ++ close_par :: r) = Some (n, optional_text o ++ [close_par], r) /\
            Z.of_nat n <= 1.
Proof.
  intros (_ & _ & H) E. rewrite E in H. destruct o as [a [b|]]; unfold optional_text; cbn [fst snd join].
  - destruct H as ((Ha & _) & Hb & _). exists 1%nat. split; [|done]. rewrite <- !app_assoc. cbn [app].
    erewrite to_closing_comma; [|done|by apply to_closing_plain]. done.
  - exists 0%nat. split; [|done]. by apply to_closing_plain, H.
Qed.

(** One step of the loop uses one element. *)
Lemma split_step fuel e rest : element_ok e ->
  splitString_ (S fuel) 2 (element_text e ++ comma :: rest) =
    (params ← splitString_ fuel 2 rest; mret (trimstr (element_text e) :: params)).
Proof.
  intros He. pose proof He as (Hh & _ & _). unfold element_text. destruct (el_opt e) as [o|] eqn:Eo.
  - rewrite <- app_assoc. cbn [app]. rewrite <- app_assoc. cbn [app splitString_].
    rewrite break_app; [|apply (plain_no_char _ _ Hh); plain_test|done]. rewrite bool_decide_false by done. cbn [Z.eqb].
    destruct (to_closing_optional e o (comma :: rest) He Eo) as (n & -> & Hn).
    destruct (Z.gtb_spec (Z.of_nat n) (2 - 1)) as [?|_]; [lia|]. rewrite (break_app _ [] comma rest) by (constructor || done).
    by rewrite app_nil_r.
  - rewrite !app_nil_r. cbn [splitString_].
    rewrite break_app; [|apply (plain_no_char _ _ Hh); plain_test|done]. by rewrite bool_decide_true.
Qed.

Lemma split_last_step fuel e : element_ok e ->
  splitString_ (S fuel) 2 (element_text e) = Good [trimstr (element_text e)].
Proof.
  intros He. pose proof He as (Hh & _ & _). unfold element_text. destruct (el_opt e) as [o|] eqn:Eo.
  - cbn [splitString_].
    rewrite break_app; [|apply (plain_no_char _ _ Hh); plain_test|done]. rewrite bool_decide_false by done. cbn [Z.eqb].
    destruct (to_closing_optional e o [] He Eo) as (n & -> & Hn).
    destruct (Z.gtb_spec (Z.of_nat n) (2 - 1)) as [?|_]; [lia|]. done.
  - rewrite app_nil_r. cbn [splitString_].
    by rewrite break_none by (apply (plain_no_char _ _ Hh); plain_test).
Qed.

Lemma element_text_unpadded e : element_ok e -> unpadded (element_text e).
Proof.
  intros (Hp & Hu & Ho). unfold element_text. destruct (el_opt e) as [o|]; [|by rewrite app_nil_r]. split.
  - destruct (el_head e); [by_decision|]. apply Hu.
  - rewrite app_comm_cons, app_assoc, last_snoc. simpl. by_decision.
Qed.

Lemma split_elements e es fuel : (length es < fuel)%nat -> Forall element_ok (e :: es) ->
  splitString_ fuel 2 (join [comma] (element_text <$> e :: es)) = Good (trimstr ∘ element_text <$> e :: es).
Proof.
  revert e fuel. induction es as [|g es IH]; intros e fuel Hf [He Hes]%Forall_cons; (destruct fuel as [|fuel]; [lia|]).
  - by apply split_last_step.
  - change (join [comma] (element_text <$> e :: g :: es)) with
      (element_text e ++ comma :: join [comma] (element_text <$> g :: es)).
    rewrite split_step by done. rewrite IH by (simpl in *; auto with lia). done.
Qed.

Lemma join_length l : (length l <= S (length (join [comma] l)))%nat.
Proof.
  induction l as [|x [|y l] IH]; [simpl; lia..|].
  change (join [comma] (x :: y :: l)) with (x ++ comma :: join [comma] (y :: l)).
  rewrite length_app. cbn [length] in *. lia.
Qed.

(** A list of elements is split into them. *)
Lemma splitString_elements es : es <> [] -> Forall element_ok es ->
  splitString (join [comma] (element_text <$> es)) 2 = Good (element_text <$> es).
Proof.
  intros Hne Hes. destruct es as [|e es]; [done|]. unfold splitString. rewrite split_elements; [|..|done].
  - f_equal. apply list_fmap_ext. intros i x Hx. simpl. apply trimstr_unpadded, element_text_unpadded.
    rewrite Forall_lookup in Hes. by eapply Hes.
  - pose proof (join_length (element_text <$> e :: es)) as H. rewrite length_fmap in H. cbn [length] in *. lia.
Qed.

(** The list in the parentheses of an element. *)
Lemma optional_values e o : element_ok e -> el_opt e = Some o ->
  no_char (is_char close_par) (optional_text o) /\
  exists cs, CommaString_of (optional_text o) comma = Some cs /\
    cs_size cs = (match o.2 with Some _ => 2 | None => 1 end)%nat /\
    (cs_value cs 0).1 = o.1 /\ (cs_value cs 1).1 = default [] o.2.
Proof.
  intros (_ & _ & H) E. rewrite E in H. destruct o as [a ob].
  assert (Hf : forall t, plain t -> Forall (fun c => c <> comma /\ c <> quotation_mark) t).
  { intros t Ht. eapply Forall_impl; [exact Ht|]. intros c (?&?&?&?&?)%plain_facts. done. }
  destruct ob as [b|].
  - destruct H as ((Ha & Hua) & Hb & Hub). unfold optional_text. cbn [fst snd]. split.
    { apply Forall_app. split; [by apply (plain_no_char _ _ Ha); plain_test|]. constructor; [done|].
      by apply (plain_no_char _ _ Hb); plain_test. }
    eexists. split; [apply (CommaString_fields comma ltac:(by split) [Plain a; Plain b]); [done|]|].
    + repeat constructor; by apply Hf.
    + unfold cs_size, cs_value. simpl. by rewrite !trimstr_unpadded.
  - destruct H as (Ha & Hua). unfold optional_text. cbn [fst snd]. split.
    { by apply (plain_no_char _ _ Ha); plain_test. }
    eexists. split; [apply (CommaString_fields comma ltac:(by split) [Plain a]); [done|]|].
    + repeat constructor; by apply Hf.
    + unfold cs_size, cs_value. simpl. by rewrite !trimstr_unpadded.
Qed.

Lemma header_element_text e : element_ok e ->
  let sensor := match el_opt e with Some (s, _) => atoi (of_bytes s) | None => 0 end in
  let level := match el_opt e with Some (_, Some l) => atoi (of_bytes l) | _ => 0 end in
  header_element (element_text e) =
    if (sensor >? 9) then Bad SensorRange else Good (el_head e, sensor, level).
Proof.
  intros He. pose proof He as (Hh & Hu & _). unfold header_element, element_text.
  destruct (el_opt e) as [o|] eqn:Eo; cbn [from_option].
  - destruct (optional_values e o He Eo) as (Hc & cs & E & Hsz & H0 & H1).
    rewrite break_app; [|by apply (plain_no_char _ _ Hh); plain_test|by apply bool_decide_true].
    rewrite break_app; [|done|by apply bool_decide_true]. rewrite E, H0, H1, Hsz.
    destruct o as [s [l|]]; cbv zeta; cbn [fst snd default Nat.ltb Nat.leb from_option];
      rewrite trimstr_unpadded by done; by case_match.
  - rewrite app_nil_r, break_none by (apply (plain_no_char _ _ Hh); plain_test). done.
Qed.

Lemma data_element_text e : element_ok e ->
  let c := match el_opt e with Some (c, _) => c | None => [] end in
  let u := match el_opt e with Some (_, Some u) => u | _ => [] end in
  let wrong f := negb (length f =? 16)%nat && (0 <? length f)%nat in
  data_element (element_text e) = Good (checkNaN (el_head e), setControlInfo c, setUseinfo u, wrong c || wrong u).
Proof.
  intros He. pose proof He as (Hh & Hu & _). unfold data_element.
  rewrite trimstr_unpadded by (by apply element_text_unpadded). unfold element_text.
  destruct (el_opt e) as [o|] eqn:Eo.
  - destruct (optional_values e o He Eo) as (Hc & cs & E & Hsz & H0 & H1).
    rewrite break_app; [|by apply (plain_no_char _ _ Hh); plain_test|by apply bool_decide_true].
    rewrite break_app; [|done|by apply bool_decide_true]. rewrite E, H0, H1, Hsz, trimstr_unpadded by done.
    by destruct o as [s [l|]].
  - rewrite app_nil_r, break_none by (apply (plain_no_char _ _ Hh); plain_test). done.
Qed.

(** ** Messages and what they mean *)

(** A column of the header: the sensor and the level may be left out. *)
Record column := { co_name : bytes; co_code : bool; co_place : option (Z * option Z) }.

Definition co_sensor (c : column) : Z := match co_place c with Some (s, _) => s | None => 0 end.
Definition co_level (c : column) : Z := match co_place c with Some (_, Some l) => l | _ => 0 end.

Definition column_element (c : column) : element :=
  {| el_head := (if co_code c then ["_"%char] else []) ++ co_name c;
     el_opt := match co_place c with
               | Some (s, l) => Some (to_bytes (pretty s), (fun l => to_bytes (pretty l)) <$> l)
               | None => None
               end |}.

Definition column_ok (c : column) : Prop :=
  plain (co_name c) /\ unpadded (co_name c) /\ co_name c <> [] /\
  (co_code c = false -> head (co_name c) <> Some "_"%char) /\
  INT_MIN <= co_sensor c <= 9 /\ INT_MIN <= co_level c <= INT_MAX.

#[export] Instance column_ok_dec c : Decision (column_ok c).
Proof. unfold column_ok. apply _. Defined.

(** A line: a time and one element for every column. *)
Record data_line := { li_time : bytes; li_cells : list element }.

Definition time_element (t : bytes) : element := {| el_head := t; el_opt := None |}.
Definition line_elements (l : data_line) : list element := time_element (li_time l) :: li_cells l.
Definition data_line_text (l : data_line) : bytes := join [comma] (element_text <$> line_elements l).
Definition header_text (cols : list column) : bytes := join [comma] (element_text ∘ column_element <$> cols).

Definition message_text (cols : list column) (ls : list data_line) : bytes :=
  concat ((fun l => l ++ [char_of 10]) <$> header_text cols :: (data_line_text <$> ls)).

Definition cell_flags (e : element) : bytes * bytes :=
  match el_opt e with Some (c, Some u) => (c, u) | Some (c, None) => (c, []) | None => ([], []) end.

Section meaning.
  Context {PT : PTime} {PC : PCalendar PT} {BT : BoostText} {TT : PTimeText PT} {BF : BoostFloat}.
  Context (params : ParamList) (types : list kvTypes) (stationid typeId : Z) (receivedTime : ptime PT).

Definition column_def (c : column) : ParamDef :=
  let name := of_bytes (co_name c) in
  let pid := match findParamInList params name with
             | None => -1
             | Some p => if isTextParam (id p) params && ((co_sensor c >? 0) || (co_level c >? 0)) then -2 else id p
             end in
  ParamDef_new name pid (co_sensor c) (co_level c) (co_code c).

Definition column_warns (c : column) : bool :=
  match findParamInList params (of_bytes (co_name c)) with
  | None => true
  | Some p => isTextParam (id p) params && ((co_sensor c >? 0) || (co_level c >? 0))
  end.

(** The value in a cell: a number with its flags, a text, or nothing. *)
Definition cell_data (t : ptime PT) (c : column) (e : element) : added PT :=
  let val := checkNaN (el_head e) in
  match findParamInList params (of_bytes (co_name c)) with
  | Some p =>
      if bool_decide (val = []) || (id p <? 0) then Nothing
      else if isTextParam (id p) params then
        if (co_sensor c >? 0) || (co_level c >? 0) then Nothing
        else Words (kvTextData_set stationid t (of_bytes val) (id p) not_a_date_time typeId)
      else
        match code_value (column_def c) val ≫= lexical_cast_float with
        | Some x =>
            Number (kvData_set stationid t x (id p) not_a_date_time typeId (co_sensor c) (co_level c) x
                      (setControlInfo (cell_flags e).1)
                      (set_received types typeId receivedTime t (setUseinfo (cell_flags e).2)) "")
        | None => Nothing
        end
  | None => Nothing
  end.

Definition line_data (cols : list column) (tl : ptime PT * data_line) : list (added PT) :=
  zip_with (cell_data tl.1) cols (li_cells tl.2).

(** Warnings: flags of a wrong length, and a code table that is not known. *)
Definition flags_wrong (e : element) : bool :=
  let wrong f := negb (length f =? 16)%nat && (0 <? length f)%nat in
  wrong (cell_flags e).1 || wrong (cell_flags e).2.

Definition code_unknown (c : column) (e : element) : bool :=
  let pd := column_def c in
  negb (bool_decide (checkNaN (el_head e) = [])) && negb (pd_id pd <? 0) && negb (isTextParam (pd_id pd) params) &&
  co_code c && negb (bool_decide (of_bytes (co_name c) ∈ ["VV"; "HL"]%string)).

Definition line_warns (cols : list column) (tl : ptime PT * data_line) : bool :=
  existsb flags_wrong (li_cells tl.2) || existsb (fun b : bool => b) (zip_with code_unknown cols (li_cells tl.2)).

Definition line_ok (tl : ptime PT * data_line) : Prop :=
  time_from_string_nothrow (li_time tl.2) = Time tl.1 /\ is_special tl.1 = false /\
  Forall element_ok (line_elements tl.2) /\ li_cells tl.2 <> [].

End meaning.

(** ** What is decoded *)

Lemma column_element_ok c : column_ok c -> element_ok (column_element c).
Proof.
  intros (Hp & Hu & Hne & _ & _ & _).
  assert (Hd : forall z : Z, plain (to_bytes (pretty z)) /\ unpadded (to_bytes (pretty z))).
  { intros z. assert (H : Forall (fun c => plain_char c /\ not_blank c) (to_bytes (pretty z))).
    { eapply Forall_impl; [apply pretty_chars|]. intros d [Hd| ->]; [|split; by_decision]. split; [|by apply digit_not_blank].
      unfold plain_char, special_chars. rewrite !elem_of_cons, elem_of_nil.
      intros E. repeat destruct E as [->|E]; by vm_compute in Hd. }
    split; [|apply unpadded_all]; (eapply Forall_impl; [exact H|]); by intros ? []. }
  unfold element_ok, column_element. cbn [el_head el_opt]. split; [|split].
  - apply Forall_app. split; [destruct (co_code c); [constructor; [by_decision|constructor]|constructor]|done].
  - destruct (co_code c); [|done]. split; [by_decision|]. cbn [app].
    destruct (co_name c) as [|d r]; [done|]. rewrite last_cons_cons. apply Hu.
  - destruct (co_place c) as [[s [l|]]|]; simpl; [|by apply Hd|done]. by split; apply Hd.
Qed.

Section decode.
  Context (params : ParamList).

Lemma header_param_column c : column_ok c ->
  header_param params (el_head (column_element c)) (co_sensor c) (co_level c) =
    Good (column_def params c, column_warns params c).
Proof.
  intros (Hp & Hu & Hne & Hc & _ & _). unfold header_param, column_def, column_warns. cbn [column_element el_head].
  assert (Hh : exists d r, (if co_code c then ["_"%char] else []) ++ co_name c = d :: r /\
    (if bool_decide (d = "_"%char) then r else d :: r) = co_name c /\ bool_decide (d = "_"%char) = co_code c).
  { destruct (co_code c); [by exists "_"%char, (co_name c)|]. specialize (Hc eq_refl).
    destruct (co_name c) as [|d r]; [done|]. exists d, r. rewrite bool_decide_false; [done|].
    intros ->. by apply Hc. }
  destruct Hh as (d & r & -> & -> & ->). rewrite bool_decide_false by done.
  destruct (findParamInList params _) as [p|]; [|done]. by case_match.
Qed.

Lemma header_params_columns cols acc w : Forall column_ok cols -> NoDup acc ->
  header_params params (element_text ∘ column_element <$> cols) acc w =
    if bool_decide (NoDup (acc ++ (column_def params <$> cols)))
    then Good (acc ++ (column_def params <$> cols), w || existsb (column_warns params) cols)
    else Bad DuplicateParameter.
Proof.
  intros Hcols. revert acc w. induction Hcols as [|c cols Hc Hcols IH]; intros acc w Hacc; cbn [fmap list_fmap header_params].
  { rewrite app_nil_r, bool_decide_true by done. cbn [existsb]. by rewrite orb_false_r. }
  assert (E : header_element ((element_text ∘ column_element) c) = Good (el_head (column_element c), co_sensor c, co_level c)).
  { pose proof (header_element_text _ (column_element_ok c Hc)) as H. cbv zeta in H. unfold compose.
    destruct Hc as (_ & _ & _ & _ & Hs & Hl). revert H Hs Hl. unfold column_element, co_sensor, co_level. cbn [el_opt el_head].
    destruct (co_place c) as [[s [l|]]|]; cbn [fmap option_fmap option_map]; rewrite ?of_to_bytes; intros -> Hs Hl;
      [rewrite !atoi_pretty by (unfold INT_MAX, INT_MIN in *; lia)..|done]; (case_match; [lia|done]). }
  unfold mbind at 1. unfold outcome_bind at 1. rewrite E. unfold mbind at 1, outcome_bind at 1. rewrite header_param_column by done.
  unfold mbind, outcome_bind, updateParamList. case_bool_decide as Hin.
  - rewrite bool_decide_false; [done|]. rewrite NoDup_app. intros (_ & Hd & _). apply (Hd _ Hin). by left.
  - cbn [mret outcome_ret]. unfold mret, outcome_ret. rewrite IH.
    + rewrite <- app_assoc. cbn [app existsb]. by rewrite orb_assoc.
    + apply NoDup_app. split_and!; [done| |by apply NoDup_singleton]. intros x Hx. rewrite list_elem_of_singleton. by intros ->.
Qed.

(** The header: its columns in their order, unless two are the same. *)
Lemma decodeHeader_columns cols : cols <> [] -> Forall column_ok cols ->
  decodeHeader params (header_text cols) =
    if bool_decide (NoDup (column_def params <$> cols))
    then Good (column_def params <$> cols, existsb (column_warns params) cols) else Bad DuplicateParameter.
Proof.
  intros Hne Hcols. unfold decodeHeader, splitParams, header_text.
  replace (element_text ∘ column_element <$> cols) with (element_text <$> (column_element <$> cols))
    by (by rewrite <- list_fmap_compose).
  rewrite splitString_elements; [|by destruct cols|].
  - unfold mbind, outcome_bind. rewrite <- list_fmap_compose. by rewrite header_params_columns by (done || constructor).
  - apply Forall_fmap. eapply Forall_impl; [exact Hcols|]. apply column_element_ok.
Qed.

End decode.

(** ** Lines *)

Section lines.
  Context {PT : PTime} {PC : PCalendar PT} {BT : BoostText} {TT : PTimeText PT} {BF : BoostFloat}.
  Context (params : ParamList) (types : list kvTypes) (stationid typeId : Z) (receivedTime : ptime PT).

(** What [data_element] gives for a cell. *)
Definition cell_element (e : element) : bytes * kvControlInfo * kvUseInfo * bool :=
  (checkNaN (el_head e), setControlInfo (cell_flags e).1, setUseinfo (cell_flags e).2, flags_wrong e).

Lemma data_elements es : Forall element_ok es -> mapM data_element (element_text <$> es) = Good (cell_element <$> es).
Proof.
  induction 1 as [|e es He Hes IH]; [done|].
  change (mapM data_element (element_text <$> e :: es)) with
    (y ← data_element (element_text e); k ← mapM data_element (element_text <$> es); mret (y :: k)).
  rewrite (data_element_text e He), IH. unfold mbind, outcome_bind.
  unfold cell_element, flags_wrong, cell_flags. simpl. by destruct (el_opt e) as [[c [u|]]|].
Qed.

Lemma decodeLine_line n tl : line_ok tl ->
  decodeLine types n receivedTime typeId (data_line_text tl.2) =
    if (length (li_cells tl.2) =? n)%nat
    then Good (tl.1, store_element types typeId receivedTime tl.1 <$> (cell_element <$> li_cells tl.2),
               existsb flags_wrong (li_cells tl.2))
    else Bad WrongNumberOfElements.
Proof.
  intros (Ht & Hs & He & Hne). destruct tl as [t [tt cells]]. cbn [fst snd li_time li_cells] in *.
  unfold decodeLine, splitData, data_line_text. rewrite splitString_elements by done.
  change (element_text <$> line_elements {| li_time := tt; li_cells := cells |})
    with (element_text (time_element tt) :: (element_text <$> cells)). unfold mbind at 1, outcome_bind at 1.
  destruct (element_text <$> cells) as [|x xs] eqn:E; [by destruct cells|]. rewrite <- E, length_fmap, Nat.eqb_sym.
  destruct (Nat.eqb_spec (length cells) n) as [_|_]; [|done]. cbn [negb].
  replace (element_text (time_element tt)) with tt by (unfold element_text; simpl; by rewrite app_nil_r).
  rewrite Ht, Hs. apply Forall_cons in He as [_ He]. rewrite data_elements by done.
  unfold mbind, outcome_bind. f_equal. f_equal. clear. by induction cells as [|a l IHl]; [|simpl; rewrite <- IHl].
Qed.

Lemma value_added_cell t c e :
  value_added params stationid typeId t (column_def params c) (store_element types typeId receivedTime t (cell_element e)) =
    (cell_data params types stationid typeId receivedTime t c e, code_unknown params c e).
Proof.
  unfold value_added, store_element, cell_element, cell_data, code_unknown.
  destruct (decide (checkNaN (el_head e) = [])) as [E|E].
  { rewrite (bool_decide_true (checkNaN _ = [])) by done. cbn [KlData_new val_ negb andb].
    rewrite (bool_decide_true ([] = [])) by done. by destruct (findParamInList params _). }
  rewrite (bool_decide_false (checkNaN _ = [])) by done. cbn [val_ cinfo_ uinfo_ negb andb].
  rewrite (bool_decide_false (checkNaN _ = [])) by done.
  unfold code_value. cbn [column_def pd_id pd_code pd_name pd_sensor pd_level].
  destruct (findParamInList params (of_bytes (co_name c))) as [p|]; [|done]. cbn [orb].
  destruct (isTextParam (id p) params) eqn:Et; cbn [andb].
  { destruct ((co_sensor c >? 0) || (co_level c >? 0)); cbn; [by destruct (id p <? 0)|].
    destruct (id p <? 0); [done|]. by rewrite Et. }
  destruct (id p <? 0); [done|]. rewrite Et. cbn [negb andb].
  destruct (co_code c); cbn [andb mbind option_bind].
  2:{ by case_match. }
  destruct (decide (of_bytes (co_name c) = "VV"%string)) as [->|H1].
  { rewrite (bool_decide_true ("VV" = "VV")%string), (bool_decide_true (_ ∈ _)) by (by_decision || done).
    cbn [mbind option_bind]. by case_match. }
  rewrite (bool_decide_false (_ = "VV"%string)) by done.
  destruct (decide (of_bytes (co_name c) = "HL"%string)) as [->|H2].
  { rewrite (bool_decide_true ("HL" = "HL")%string), (bool_decide_true (_ ∈ _)) by (by_decision || done).
    cbn [mbind option_bind]. by case_match. }
  rewrite (bool_decide_false (_ = "HL"%string)), bool_decide_false; [done| |done].
  rewrite !elem_of_cons, elem_of_nil. tauto.
Qed.

Lemma line_added_cells t cols cells :
  line_added params stationid typeId (column_def params <$> cols) t
    (store_element types typeId receivedTime t <$> (cell_element <$> cells)) =
  zip_with (fun c e => (cell_data params types stationid typeId receivedTime t c e, code_unknown params c e)) cols cells.
Proof.
  unfold line_added. revert cells. induction cols as [|c cols IH]; intros [|e cells]; try done.
  cbn [fmap list_fmap zip_with]. by rewrite value_added_cell, <- IH.
Qed.

End lines.

Definition no_newline (s : bytes) : Prop := Forall (fun c => c <> char_of 10) s.

Lemma plain_no_newline t : plain t -> no_newline t.
Proof. intros Ht. eapply Forall_impl; [exact Ht|]. by intros c (_ & _ & _ & _ & H)%plain_facts. Qed.

Lemma join_no_newline ls : Forall no_newline ls -> no_newline (join [comma] ls).
Proof.
  intros H. induction H as [|x l Hx Hl IH]; [constructor|]. destruct l as [|y l]; [done|].
  change (join [comma] (x :: y :: l)) with (x ++ comma :: join [comma] (y :: l)).
  apply Forall_app. split; [done|]. by constructor.
Qed.

Lemma element_no_newline e : element_ok e -> no_newline (element_text e).
Proof.
  intros (Hp & _ & Ho). unfold element_text. apply Forall_app. split; [by apply plain_no_newline|].
  destruct (el_opt e) as [[a b]|]; [|constructor]. constructor; [done|]. apply Forall_app. split; [|by repeat constructor].
  apply join_no_newline. destruct b as [b|]; repeat constructor; apply plain_no_newline; tauto.
Qed.

Lemma elements_no_newline es : Forall element_ok es -> no_newline (join [comma] (element_text <$> es)).
Proof. intros H. apply join_no_newline, Forall_fmap. eapply Forall_impl; [exact H|]. apply element_no_newline. Qed.

Section decode_spec.
  Context {PT : PTime} {PC : PCalendar PT} {BT : BoostText} {TT : PTimeText PT} {BF : BoostFloat}.
  Context (params : ParamList) (types : list kvTypes) (stationid typeId : Z) (receivedTime : ptime PT).

Lemma message_lines cols (tls : list (ptime PT * data_line)) : Forall column_ok cols -> Forall line_ok tls ->
  getlines (message_text cols (snd <$> tls)) = header_text cols :: (data_line_text ∘ snd <$> tls).
Proof.
  intros Hc Ht. unfold message_text. rewrite getlines_joined; [by rewrite <- list_fmap_compose|]. constructor.
  - unfold header_text. rewrite list_fmap_compose. apply elements_no_newline, Forall_fmap.
    eapply Forall_impl; [exact Hc|]. apply column_element_ok.
  - rewrite <- list_fmap_compose. apply Forall_fmap. eapply Forall_impl; [exact Ht|].
    intros tl (_ & _ & He & _). by apply elements_no_newline.
Qed.

Lemma decode_lines_spec cols tls k w : Forall line_ok tls ->
  decode_lines params types (data_line_text ∘ snd <$> tls) stationid typeId receivedTime (column_def params <$> cols) k w =
    if forallb (fun tl => length (li_cells tl.2) =? length cols)%nat tls
    then Good (foldl add_value k (concat (line_data params types stationid typeId receivedTime cols <$> tls)),
               w || existsb (line_warns params cols) tls)
    else Bad WrongNumberOfElements.
Proof.
  intros Htls. revert k w. induction Htls as [|tl tls Htl Htls IH]; intros k w.
  { cbn. by rewrite orb_false_r. }
  cbn [fmap list_fmap decode_lines forallb existsb concat]. unfold mbind, outcome_bind. cbn [compose].
  rewrite decodeLine_line by done. rewrite length_fmap. destruct (Nat.eqb_spec (length (li_cells tl.2)) (length cols)) as [_|_]; [|done].
  cbn [andb]. rewrite line_added_cells, IH. destruct (forallb _ tls); [|done]. do 2 f_equal.
  - rewrite foldl_app. do 2 f_equal. unfold line_data. generalize (li_cells tl.2). clear. intros cells.
    revert cells. induction cols as [|c cols IHc]; intros [|e cells]; try done. simpl. by rewrite IHc.
  - unfold line_warns. rewrite !orb_assoc. do 2 f_equal. generalize (li_cells tl.2). clear. intros cells.
    revert cells. induction cols as [|c cols IHc]; intros [|e cells]; try done. simpl. by rewrite IHc.
Qed.

(** C14: A message of columns and lines: its values are those of the cells, line by
    line, each at the time of its line and with the parameter, the sensor and the
    level of its column; a value without a parameter, or that is not a number
    where one is needed, is left out. Two columns for the same values, or a line
    with another number of values, make the whole message invalid. *)
Theorem decodeData_spec cols tls : cols <> [] -> Forall column_ok cols -> Forall line_ok tls ->
  decodeData params types (message_text cols (snd <$> tls)) stationid typeId receivedTime =
    if negb (bool_decide (NoDup (column_def params <$> cols))) then Bad InvalidHeader
    else if forallb (fun tl => length (li_cells tl.2) =? length cols)%nat tls
    then Good (foldl add_value KvalobsData_new (concat (line_data params types stationid typeId receivedTime cols <$> tls)),
               existsb (column_warns params) cols || existsb (line_warns params cols) tls)
    else Bad WrongNumberOfElements.
Proof.
  intros Hne Hc Ht. unfold decodeData. rewrite message_lines, decodeHeader_columns by done.
  destruct (bool_decide (NoDup _)); [|done]. cbn [negb]. rewrite length_fmap.
  destruct (Nat.ltb_spec (length cols) 1) as [Hl|_]; [destruct cols; simpl in Hl; [done|lia]|].
  by apply decode_lines_spec.
Qed.

End decode_spec.

(** A parenthesis that is not closed is no format error: the search runs past the
    end of the text ([header[npos]]). *)
Lemma splitString_unclosed a r : plain a -> plain r ->
  splitString (a ++ open_par :: r) 2 = Raise undefined_behaviour.
Proof.
  intros Ha Hr. unfold splitString. cbn [splitString_].
  rewrite break_app; [|apply (plain_no_char _ _ Ha); plain_test|done]. rewrite bool_decide_false by done. cbn [Z.eqb].
  assert (E : forall n, to_closing n r = None); [|by rewrite E].
  induction Hr as [|c r Hc Hr IH]; intros n; [done|]. destruct (plain_facts c Hc) as (? & ? & ? & ? & ?).
  cbn [to_closing]. rewrite !bool_decide_false by done. by rewrite IH.
Qed.

(** ** Instances *)

Definition sample_columns : list column :=
  [{| co_name := to_bytes "TA"; co_code := false; co_place := None |};
   {| co_name := to_bytes "RR"; co_code := false; co_place := Some (1, None) |};
   {| co_name := to_bytes "TEXT"; co_code := false; co_place := None |};
   {| co_name := to_bytes "XX"; co_code := false; co_place := Some (0, Some 2) |}].

Definition sample_cell (s : string) : element := {| el_head := to_bytes s; el_opt := None |}.
Definition sample_flagged : element := {| el_head := to_bytes "7"; el_opt := Some (to_bytes "0000000000000001", None) |}.

Definition sample_lines : list (ptime stamp_time * data_line) :=
  [(stamp_of 2006 2 6 10 0 0 : ptime stamp_time,
    {| li_time := to_bytes "2006-02-06 10:00:00";
       li_cells := [sample_cell "5"; sample_flagged; sample_cell "x"; sample_cell "1"] |});
   (stamp_of 2006 2 6 11 0 0 : ptime stamp_time,
    {| li_time := to_bytes "2006-02-06 11:00:00";
       li_cells := [sample_cell "nan"; sample_cell ""; sample_cell "y"; sample_cell ""] |})].

Lemma decodeData_spec_witness :
  Forall column_ok sample_columns /\ Forall (line_ok (BT := boost_text)) sample_lines /\
  exists k, decodeData (PT := stamp_time) (BT := boost_text) (BF := digit_float) sample_params []
    (message_text sample_columns (snd <$> sample_lines)) 18700 501 not_a_date_time = Good (k, true) /\
    size k = 4%nat.
Proof.
  assert (Hc : Forall column_ok sample_columns) by by_decision.
  assert (Hl : Forall (line_ok (BT := boost_text)) sample_lines).
  { repeat constructor; try (by vm_compute); by_decision. }
  split; [exact Hc|]. split; [exact Hl|].
  pose proof (decodeData_spec (PT := stamp_time) (BT := boost_text) (BF := digit_float) sample_params [] 18700 501
    not_a_date_time sample_columns sample_lines ltac:(done) Hc Hl) as H.
  eexists. split; [exact H|]. by vm_compute.
Defined.
