(* ===== verification/Xml.v ===== *)
(** * Documents and the events of their reading

    The exchange format is written as a tree of elements by one class of libxml++
    and read as a sequence of events by another. [node] is the tree, [event] a call
    of the reader's handlers, and [sax] relates a tree to the sequences that
    reading its formatted text may give: blanks stand between elements, and the
    characters of a text come in one call or more, in one when there is nothing in
    the text that the format escapes or encodes. *)

From S2P Require Import Prelude Text.

Inductive node :=
  | Element (name : string) (attributes : list (string * bytes)) (children : list node)
  | Characters_of (t : bytes).

Inductive event :=
  | Start (name : string) (attributes : list (string * bytes))
  | End_ (name : string)
  | Characters (t : bytes).

(** Printable characters of ASCII without the three that are escaped. *)
Definition plain_text_char (c : ascii) : bool :=
  (32 <=? uchar_val c) && (uchar_val c <=? 126) && negb (bool_decide (c ∈ ["&"%char; "<"%char; ">"%char])).
Definition plain_text (t : bytes) : Prop := Forall (fun c => plain_text_char c = true) t.

#[export] Instance plain_text_dec t : Decision (plain_text t).
Proof. unfold plain_text. apply _. Defined.

Definition is_element (n : node) : bool := match n with Element _ _ _ => true | Characters_of _ => false end.

(** White space that the writer puts between elements. *)
Definition blank_chunk (e : event) : Prop :=
  exists t, e = Characters t /\ Forall (fun c => c ∈ default_trimset) t.

Inductive sax : node -> list event -> Prop :=
  | sax_element name attributes children evs :
      sax_list (forallb is_element children) children evs ->
      sax (Element name attributes children) (Start name attributes :: evs ++ [End_ name])
  | sax_text t chunks :
      concat chunks = t -> Forall (fun c => c <> []) chunks -> (plain_text t -> (length chunks <= 1)%nat) ->
      sax (Characters_of t) (Characters <$> chunks)
with sax_list : bool -> list node -> list event -> Prop :=
  | sax_nil b blanks : Forall blank_chunk blanks -> (b = false -> blanks = []) -> sax_list b [] blanks
  | sax_cons b n ns blanks evs evs' :
      Forall blank_chunk blanks -> (b = false -> blanks = []) -> sax n evs -> sax_list b ns evs' ->
      sax_list b (n :: ns) (blanks ++ evs ++ evs').

(** Trees whose texts are plain. *)
Inductive plain_node : node -> Prop :=
  | plain_element name attributes children :
      Forall plain_node children -> plain_node (Element name attributes children)
  | plain_characters t : plain_text t -> plain_node (Characters_of t).

Section node_ind.
  Context (P : node -> Prop).
  Hypothesis P_element : forall name attributes children, Forall P children -> P (Element name attributes children).
  Hypothesis P_text : forall t, P (Characters_of t).

(** Induction on a tree, with the hypothesis for all children. *)
Fixpoint node_induction (n : node) : P n :=
  match n with
  | Element name attributes children =>
      P_element name attributes children
        ((fix all (l : list node) : Forall P l :=
            match l with
            | [] => @List.Forall_nil node P
            | n :: l => @List.Forall_cons node P n l (node_induction n) (all l)
            end) children)
  | Characters_of t => P_text t
  end.
End node_ind.

(** ** Reading *)

(** A reader: what its handlers do with a state; [inr] is an exception. *)
Record Handlers (S E : Type) := {
  on_start_element : string -> list (string * bytes) -> S -> S + E;
  on_end_element : string -> S -> S + E;
  on_characters : bytes -> S -> S + E
}.
Arguments on_start_element {S E}.
Arguments on_end_element {S E}.
Arguments on_characters {S E}.

Section reading.
  Context {S E : Type} (h : Handlers S E).

Definition bind_sum {A B} (r : A + E) (f : A -> B + E) : B + E :=
  match r with inl a => f a | inr e => inr e end.

Definition handle_event (e : event) (s : S) : S + E :=
  match e with
  | Start name attributes => on_start_element h name attributes s
  | End_ name => on_end_element h name s
  | Characters t => on_characters h t s
  end.

Fixpoint run_events (evs : list event) (s : S) : S + E :=
  match evs with
  | [] => inl s
  | e :: evs => bind_sum (handle_event e s) (run_events evs)
  end.

(** The effect of a tree whose texts come in one call each. *)
Fixpoint run_node (n : node) (s : S) : S + E :=
  match n with
  | Element name attributes children =>
      bind_sum (on_start_element h name attributes s) (fun s =>
      bind_sum ((fix go (l : list node) (s : S) : S + E :=
                   match l with [] => inl s | n :: l => bind_sum (run_node n s) (go l) end) children s)
               (on_end_element h name))
  | Characters_of t => if bool_decide (t = []) then inl s else on_characters h t s
  end.

Fixpoint run_nodes (l : list node) (s : S) : S + E :=
  match l with [] => inl s | n :: l => bind_sum (run_node n s) (run_nodes l) end.

Lemma run_element name attributes children s :
  run_node (Element name attributes children) s =
    bind_sum (on_start_element h name attributes s) (fun s =>
      bind_sum (run_nodes children s) (on_end_element h name)).
Proof. done. Qed.

Lemma run_events_app e1 e2 s : run_events (e1 ++ e2) s = bind_sum (run_events e1 s) (run_events e2).
Proof.
  revert s. induction e1 as [|e e1 IH]; intros s; [done|]. cbn [app run_events].
  destruct (handle_event e s) as [s'|x]; cbn [bind_sum]; [apply IH|done].
Qed.

Lemma run_nodes_app l1 l2 s : run_nodes (l1 ++ l2) s = bind_sum (run_nodes l1 s) (run_nodes l2).
Proof.
  revert s. induction l1 as [|n l1 IH]; intros s; [done|]. cbn [app run_nodes].
  destruct (run_node n s) as [s'|x]; cbn [bind_sum]; [apply IH|done].
Qed.

Context (ignores_blanks : forall t s, Forall (fun c => c ∈ default_trimset) t -> on_characters h t s = inl s).

Lemma run_blanks blanks s : Forall blank_chunk blanks -> run_events blanks s = inl s.
Proof.
  induction 1 as [|e l (t & -> & Ht) Hl IH]; [done|]. cbn [run_events handle_event].
  rewrite ignores_blanks by done. exact IH.
Qed.

(** Any reading of a tree with plain texts has the effect of the tree. *)
Lemma run_sax n : plain_node n -> forall evs s, sax n evs -> run_events evs s = run_node n s.
Proof.
  induction n as [name attributes children IH|t] using node_induction; intros Hp evs s Hs;
    inversion Hp as [? ? ? Hc|? Ht]; inversion Hs as [? ? ? evs' Hl|? chunks Et Hne Hone]; subst.
  - rewrite run_element. cbn [run_events handle_event].
    destruct (on_start_element h name attributes s) as [s1|x]; [|done]. cbn [bind_sum].
    rewrite run_events_app.
    assert (Er : run_events evs' s1 = run_nodes children s1).
    { clear Hp Hs s. revert Hl. generalize (forallb is_element children) as b. intros b Hl.
      revert evs' s1 Hl. induction children as [|n ns IHn]; intros evs' s1 Hl; inversion Hl; subst.
      - by apply run_blanks.
      - apply Forall_cons in IH as [IH1 IH2]. apply Forall_cons in Hc as [Hc1 Hc2].
        rewrite run_events_app, run_blanks by done. cbn [bind_sum run_nodes]. rewrite run_events_app.
        match goal with Hs : sax n _ |- _ => rewrite (IH1 Hc1 _ s1 Hs) end. destruct (run_node n s1); [|done]. cbn [bind_sum]. by apply IHn. }
    rewrite Er. destruct (run_nodes children s1) as [s2|]; [|done]. cbn [bind_sum run_events handle_event].
    by destruct (on_end_element h name s2).
  - specialize (Hone Ht). destruct chunks as [|c [|d chunks]]; [reflexivity| |simpl in Hone; lia].
    cbn [concat fmap list_fmap run_events run_node handle_event]. rewrite app_nil_r.
    apply Forall_cons in Hne as [Hne _]. rewrite bool_decide_false by done.
    by destruct (on_characters h c s).
Qed.

End reading.
