(* ===== verification/Serial.v ===== *)
(** * The exchange format of observations (src/src/lib/decodeutility/
      kvalobsdataserializer.cc, kvalobsdataparser.cc)

    A [KvalobsData] is written as a tree of elements and read back by the handlers
    of a parser that keeps, for each name, the last text it met. Printing the tree
    and turning text into events are the library's: [Xml.v]. The table that keeps
    the producer and the message id of a serializer by its address is a member. *)

From stdpp Require Import pretty.
From S2P Require Import Prelude Orders PTime TimeText DataFlag ControlInfo UseInfo KvData SortedData KvalobsData KvDataContainer Scanning CronString Signature Conf Text ResultFilter Xml.

#[local] Open Scope Z_scope.

(** ** Times and numbers as text *)

(** [to_simple_string(t.time_of_day())] and [lexical_cast<std::string>] of a
    [double]. *)
Class PTimeShow (PT : PTime) := { time_of_day_string : ptime PT -> bytes }.
Class BoostShow := { lexical_show_double : spec_float -> bytes }.

Section to_kvalobs_string.
  Context {PT : PTime} {PC : PCalendar PT} {PS : PTimeShow PT}.

(** A number with [setfill('0')] and [setw(2)]. *)
Definition setw2 (z : Z) : bytes :=
  let d := to_bytes (pretty z) in replicate (2 - length d) "0"%char ++ d.

Definition date_string (t : ptime PT) : bytes :=
  to_bytes (pretty (pt_year t)) ++ "-"%char :: setw2 (pt_month t) ++ "-"%char :: setw2 (pt_day t).

(** [to_kvalobs_string] (miutil/timeconvert.h): the year of a special value is an
    exception. *)
Definition kvalobs_text (t : ptime PT) : bytes := date_string t ++ " "%char :: time_of_day_string t.
Definition to_kvalobs_string (t : ptime PT) : option bytes :=
  if is_special t then None else Some (kvalobs_text t).

End to_kvalobs_string.

Definition show_int (z : Z) : bytes := to_bytes (pretty z).

(** ** [KvalobsDataSerializer] *)

Section serializer.
  Context {PT : PTime} {PC : PCalendar PT} {PS : PTimeShow PT} {SD : BoostShow} (defaultProducer : string).

Definition set_ (name : string) (val : bytes) (children : list node) : node :=
  Element name [("val", val)] children.
Definition text_child (name : string) (t : bytes) : node := Element name [] [Characters_of t].

Definition kvdata_node (rest : Z * DataContent) : node :=
  let '(paramID, content) := rest in
  Element "kvdata" [("paramid", show_int paramID)]
    [text_child "original" (lexical_show_double (dc_original content));
     text_child "corrected" (lexical_show_double (dc_corrected content));
     text_child "controlinfo" (to_bytes (flagstring (dc_controlinfo content)));
     text_child "useinfo" (to_bytes (flagstring (dc_useinfo content)));
     text_child "cfailed" (to_bytes (dc_cfailed content))].

Definition level_node (level : Z * list (Z * DataContent)) : node :=
  set_ "level" (show_int level.1) (kvdata_node <$> level.2).
Definition sensor_node (sensor : Z * list (Z * list (Z * DataContent))) : node :=
  set_ "sensor" (show_int sensor.1) (level_node <$> sensor.2).
Definition kvtextdata_node (rest : Z * string) : node :=
  Element "kvtextdata" [("paramid", show_int rest.1)] [text_child "original" (to_bytes rest.2)].

Definition tbtime_text (tb : ptime PT) : bytes := if is_special tb then [] else kvalobs_text tb.

(** The loop over the texts stands in the loop over the sensors. *)
Definition tbtime_node (tbt : ptime PT * TbTime) : node :=
  set_ "tbtime" (tbtime_text tbt.1)
    (tb_sensors tbt.2 ≫= fun sensor => sensor_node sensor :: (kvtextdata_node <$> textData tbt.2)).

Definition obstime_node (obstime : ptime PT * ObsTime PT) : option node :=
  t ← to_kvalobs_string obstime.1;
  Some (Element "obstime" (("val", t) :: if invalidate_ obstime.2 then [("invalidate", to_bytes "1")] else [])
          (tbtime_node <$> ot_tbtimes obstime.2)).
Definition type_node (type : Z * list (ptime PT * ObsTime PT)) : option node :=
  set_ "typeid" (show_int type.1) <$> mapM obstime_node type.2.
Definition station_node (station : Z * list (Z * list (ptime PT * ObsTime PT))) : option node :=
  set_ "station" (show_int station.1) <$> mapM type_node station.2.

(** The rejected messages by decoder. *)
Definition decoderSortedRejectList (l : list (kvRejectdecode PT)) : list (string * list (kvRejectdecode PT)) :=
  foldl (fun m r => c_update string_lt (rd_decoder r) [] (fun l => l ++ [r]) m) [] l.

Definition message_node (r : kvRejectdecode PT) : option node :=
  t ← to_kvalobs_string (rd_tbtime r);
  Some (Element "message" [("tbtime", t)] [Characters_of (to_bytes (rd_message r))]).
Definition decoder_node (decoder : string * list (kvRejectdecode PT)) : option node :=
  set_ "decoder" (to_bytes decoder.1) <$> mapM message_node decoder.2.

Definition rejected_nodes (l : list (kvRejectdecode PT)) : option (list node) :=
  if bool_decide (l = []) then Some []
  else ns ← mapM decoder_node (decoderSortedRejectList l); Some [Element "fixed_rejected_messages" [] ns].

(** The object: the data, and the producer and the message id when it has them. *)
Record KvalobsDataSerializer := { data_ : KvalobsData PT; bci : option (string * string) }.

Definition set_producer (p : string) (k : KvalobsData PT) : KvalobsData PT :=
  {| overwrite_ := overwrite_ k; obs_ := obs_ k; correctedMessages_ := correctedMessages_ k;
     created_ := created_ k; kd_producer := p; kd_msgid := kd_msgid k |}.
Definition set_msgid (i : string) (k : KvalobsData PT) : KvalobsData PT :=
  {| overwrite_ := overwrite_ k; obs_ := obs_ k; correctedMessages_ := correctedMessages_ k;
     created_ := created_ k; kd_producer := kd_producer k; kd_msgid := i |}.
Definition set_created (t : ptime PT) (k : KvalobsData PT) : KvalobsData PT :=
  {| overwrite_ := overwrite_ k; obs_ := obs_ k; correctedMessages_ := correctedMessages_ k;
     created_ := t; kd_producer := kd_producer k; kd_msgid := kd_msgid k |}.

(** The constructors with a [KvalobsData]. *)
Definition Serializer_of_producer (d : KvalobsData PT) (producer : string) : KvalobsDataSerializer :=
  {| data_ := set_producer producer d; bci := Some (producer, kd_msgid d) |}.
Definition Serializer_of (d : KvalobsData PT) : KvalobsDataSerializer :=
  {| data_ := d; bci := Some (kd_producer d, kd_msgid d) |}.
Definition Serializer_of_msgid (d : KvalobsData PT) (producer msgid : string) : KvalobsDataSerializer :=
  {| data_ := set_msgid msgid (set_producer producer d); bci := Some (producer, msgid) |}.

Definition ser_producer (s : KvalobsDataSerializer) : string :=
  match bci s with Some p => p.1 | None => defaultProducer end.
Definition ser_msgid (s : KvalobsDataSerializer) : string :=
  match bci s with Some p => p.2 | None => "" end.

Definition attribute_unless_empty (name : string) (v : string) : list (string * bytes) :=
  if bool_decide (v = ""%string) then [] else [(name, to_bytes v)].

(** [toString(created)], up to the printing of the tree; [None] is the exception of
    a time that has no text. *)
Definition toString (created : ptime PT) (s : KvalobsDataSerializer) : option node :=
  let d := data_ s in
  let myProducer := if bool_decide (ser_producer s = ""%string) then kd_producer d else ser_producer s in
  let msgId := if bool_decide (ser_msgid s = ""%string) then kd_msgid d else ser_msgid s in
  stations ← mapM station_node (obs_ d);
  rejects ← rejected_nodes (correctedMessages_ d);
  Some (Element "KvalobsData"
          ((if overwrite_ d then [("overwrite", to_bytes "1")] else [])
           ++ attribute_unless_empty "producer" myProducer
           ++ (if is_special created then [] else [("created", kvalobs_text created)])
           ++ attribute_unless_empty "msgid" msgId)
          (stations ++ rejects)).

(** [serialize]; [now] is the clock. *)
Definition serialize_with (now : ptime PT) (d : KvalobsData PT) (s : KvalobsDataSerializer) : option node :=
  toString (if is_special (created_ d) then now else created_ d) s.
Definition serialize (now : ptime PT) (d : KvalobsData PT) := serialize_with now d (Serializer_of d).
Definition serialize_producer (now : ptime PT) (d : KvalobsData PT) (producer : string) :=
  serialize_with now d (Serializer_of_producer d producer).
Definition serialize_msgid (now : ptime PT) (d : KvalobsData PT) (producer msgid : string) :=
  serialize_with now d (Serializer_of_msgid d producer msgid).

End serializer.

(** ** [KvalobsDataParser] *)

Inductive parser_error := parse_error | escaped | stack_underflow.

Abbreviation Context_ := (gmap string bytes).
Definition ctx_get (key : string) (c : Context_) : bytes := default [] (c !! key).

(** [has_attr] and [get_attr]. *)
Definition find_attr (key : string) (attr : list (string * bytes)) : option bytes :=
  snd <$> List.find (fun a => String.eqb a.1 key) attr.
Definition has_attr (attr : list (string * bytes)) (key : string) : bool := bool_decide (is_Some (find_attr key attr)).
Definition get_attr (attr : list (string * bytes)) (key : string) : bytes := default [] (find_attr key attr).

Section parser.
  Context {PT : PTime} {BT : BoostText} {TT : PTimeText PT} {BF : BoostFloat}.

Record ParserState := { p_data : KvalobsData PT; context_ : Context_; currentContext_ : list string }.

Definition step A : Type := (A + parser_error)%type.
Definition with_data (d : KvalobsData PT) (s : ParserState) : ParserState :=
  {| p_data := d; context_ := context_ s; currentContext_ := currentContext_ s |}.
Definition with_context (c : Context_) (s : ParserState) : ParserState :=
  {| p_data := p_data s; context_ := c; currentContext_ := currentContext_ s |}.
Definition with_stack (l : list string) (s : ParserState) : ParserState :=
  {| p_data := p_data s; context_ := context_ s; currentContext_ := l |}.

(** A time that may be empty; an exception of the conversion. *)
Definition read_time (b : bytes) : option (ptime PT) :=
  if bool_decide (b = []) then Some not_a_date_time
  else match time_from_string_nothrow b with Time t => Some t | Escapes => None end.

(** [KvalobsDataHandler]. *)
Definition on_KvalobsData (attr : list (string * bytes)) (s : ParserState) : step ParserState :=
  match read_time (get_attr attr "created") with
  | None => inr escaped
  | Some t =>
      inl (with_data (set_msgid (of_bytes (get_attr attr "msgid"))
                       (set_producer (of_bytes (get_attr attr "producer"))
                          (set_created t (set_overwrite (has_attr attr "overwrite") (p_data s))))) s)
  end.

(** [ValHandler]. *)
Definition on_val (tag : string) (attr : list (string * bytes)) (s : ParserState) : ParserState :=
  with_context (<[tag := get_attr attr "val"]> (context_ s)) s.

(** [ObstimeHandler]. *)
Definition on_obstime (attr : list (string * bytes)) (s : ParserState) : step ParserState :=
  let s := on_val "obstime" attr s in
  if has_attr attr "invalidate" then
    match lexical_cast_int (ctx_get "station" (context_ s)), lexical_cast_int (ctx_get "typeid" (context_ s)) with
    | Some st, Some ty =>
        match read_time (get_attr attr "val") with
        | None => inr escaped
        | Some t => inl (with_data (invalidate true st ty t (p_data s)) s)
        end
    | _, _ => inr parse_error
    end
  else inl s.

Definition start_element (name : string) (attr : list (string * bytes)) (s : ParserState) : step ParserState :=
  let s := with_stack (name :: currentContext_ s) s in
  if bool_decide (name = "KvalobsData"%string) then on_KvalobsData attr s
  else if bool_decide (name = "obstime"%string) then on_obstime attr s
  else if bool_decide (name = "message"%string) then
    inl (with_context (<["message/tbtime" := get_attr attr "tbtime"]> (context_ s)) s)
  else if bool_decide (name ∈ ["station"; "typeid"; "tbtime"; "sensor"; "level"; "decoder"]) then
    inl (on_val name attr s)
  else if bool_decide (name ∈ ["kvdata"; "kvtextdata"]) then
    match find_attr "paramid" attr with
    | None => inr parse_error
    | Some p => inl (with_context (<["paramid" := p]> (context_ s)) s)
    end
  else inl s.

(** The values of the context; a number that may be missing is 0. *)
Definition get_or_0 (b : bytes) : option Z := if bool_decide (b = []) then Some 0 else lexical_cast_int b.

(** [insertData] and [insertTextData]: any exception is a [parse_error]. *)
Definition context_value (c : Context_) : option (kvData PT) :=
  station ← lexical_cast_int (ctx_get "station" c);
  type ← lexical_cast_int (ctx_get "typeid" c);
  obstime ← read_time (ctx_get "obstime" c);
  tbtime ← read_time (ctx_get "tbtime" c);
  sensor ← get_or_0 (ctx_get "sensor" c);
  level ← get_or_0 (ctx_get "level" c);
  paramid ← lexical_cast_int (ctx_get "paramid" c);
  original ← lexical_cast_float (ctx_get "original" c);
  corrected ← (if bool_decide (ctx_get "corrected" c = []) then Some original
               else lexical_cast_float (ctx_get "corrected" c));
  Some (kvData_set station obstime original paramid tbtime type sensor level corrected
          (kvControlInfo_of_string (of_bytes (ctx_get "controlinfo" c)))
          (kvUseInfo_of_string (of_bytes (ctx_get "useinfo" c))) (of_bytes (ctx_get "cfailed" c))).

Definition context_text (c : Context_) : option (kvTextData PT) :=
  station ← lexical_cast_int (ctx_get "station" c);
  type ← lexical_cast_int (ctx_get "typeid" c);
  obstime ← read_time (ctx_get "obstime" c);
  tbtime ← read_time (ctx_get "tbtime" c);
  paramid ← lexical_cast_int (ctx_get "paramid" c);
  Some (kvTextData_set station obstime (of_bytes (ctx_get "original" c)) paramid tbtime type).

Definition erase_value (c : Context_) : Context_ :=
  foldr delete c ["cfailed"; "useinfo"; "controlinfo"; "corrected"; "original"; "paramid"].

Definition end_element (name : string) (s : ParserState) : step ParserState :=
  match currentContext_ s with
  | [] => inr stack_underflow
  | _ :: stack =>
      let s := with_stack stack s in
      let c := context_ s in
      if bool_decide (name = "kvdata"%string) then
        match context_value c with
        | None => inr parse_error
        | Some d => inl (with_context (erase_value c) (with_data (insert d (p_data s)) s))
        end
      else if bool_decide (name = "kvtextdata"%string) then
        match context_text c with
        | None => inr parse_error
        | Some d => inl (with_context (erase_value c) (with_data (insertText d (p_data s)) s))
        end
      else if bool_decide (name = "message"%string) then
        match time_from_string_nothrow (ctx_get "message/tbtime" c) with
        | Escapes => inr escaped
        | Time t =>
            let reject := {| rd_message := of_bytes (ctx_get "message" c); rd_tbtime := t;
                             rd_decoder := of_bytes (ctx_get "decoder" c); rd_comment := ""; rd_fixed := false |} in
            inl (with_context (delete "message/tbtime" (delete "message" c))
                   (with_data (setMessageCorrectsThisRejection reject (p_data s)) s))
        end
      else if bool_decide (name ∈ ["tbtime"; "level"; "sensor"; "decoder"; "fixed_rejected_message"]) then
        inl (with_context (delete name c) s)
      else inl s
  end.

Definition characters (t : bytes) (s : ParserState) : step ParserState :=
  let t := trimstr t in
  match currentContext_ s with
  | name :: _ => if bool_decide (t = []) then inl s else inl (with_context (<[name := t]> (context_ s)) s)
  | [] => inl s
  end.

Definition KvalobsDataParser : Handlers ParserState parser_error :=
  {| on_start_element := start_element; on_end_element := end_element; on_characters := characters |}.

(** [parse], from the events of the text, and the constructor with a text. *)
Definition parse (evs : list event) (d : KvalobsData PT) : step (KvalobsData PT) :=
  match run_events KvalobsDataParser evs {| p_data := d; context_ := ∅; currentContext_ := [] |} with
  | inl s => inl (p_data s)
  | inr e => inr e
  end.

Definition Serializer_of_string (evs : list event) : step KvalobsDataSerializer :=
  match parse evs KvalobsData_new with inl d => inl {| data_ := d; bci := None |} | inr e => inr e end.

End parser.

Arguments ParserState : clear implicits.

(** ** Properties: reading a tree *)

Section effect.
  Context {PT : PTime} {PL : PTimeLaws PT} {BT : BoostText} {TT : PTimeText PT} {BF : BoostFloat}.
  Local Abbreviation H := KvalobsDataParser.

Definition St (d : KvalobsData PT) (c : Context_) (stack : list string) : ParserState PT :=
  {| p_data := d; context_ := c; currentContext_ := stack |}.

Lemma blank_trimmed t : Forall (fun c => c ∈ default_trimset) t -> trimstr t = [].
Proof.
  intros Ht. unfold trimstr, conf_trimstr.
  assert (E : drop_set default_trimset t = []).
  { induction Ht as [|c t Hc Ht IH]; [done|]. cbn [drop_set]. by rewrite bool_decide_true. }
  by rewrite E.
Qed.

Lemma parser_ignores_blanks t s : Forall (fun c => c ∈ default_trimset) t -> on_characters H t s = inl s.
Proof.
  intros Ht. cbn [on_characters KvalobsDataParser]. unfold characters. rewrite blank_trimmed by done.
  by destruct (currentContext_ s).
Qed.

(** The names with a meaning. *)
Definition special_names : list string :=
  ["KvalobsData"; "obstime"; "message"; "station"; "typeid"; "tbtime"; "sensor"; "level"; "decoder"; "kvdata"; "kvtextdata";
   "fixed_rejected_message"].

Definition put (name : string) (t : bytes) (c : Context_) : Context_ :=
  if bool_decide (t = []) then c else <[name := t]> c.

Lemma lookup_put_ne name t c k : k <> name -> put name t c !! k = c !! k.
Proof. intros Hk. unfold put. case_bool_decide; [done|]. by rewrite lookup_insert_ne. Qed.

Lemma ctx_get_put name t c : ctx_get name c = [] -> ctx_get name (put name t c) = t.
Proof.
  unfold put, ctx_get. intros Hc. case_bool_decide as E; [by subst|]. by rewrite lookup_insert_eq.
Qed.

Lemma ctx_get_put_ne k name t c : k <> name -> ctx_get k (put name t c) = ctx_get k c.
Proof. intros Hk. unfold ctx_get. by rewrite lookup_put_ne. Qed.

Lemma ctx_get_insert k v c : ctx_get k (<[k := v]> c) = v.
Proof. unfold ctx_get. by rewrite lookup_insert_eq. Qed.
Lemma ctx_get_insert_ne k k' v c : k <> k' -> ctx_get k (<[k' := v]> c) = ctx_get k c.
Proof. intros Hk. unfold ctx_get. by rewrite lookup_insert_ne. Qed.

Lemma characters_top t d c name stk : trimstr t = t ->
  run_node H (Characters_of t) (St d c (name :: stk)) = inl (St d (put name t c) (name :: stk)).
Proof.
  intros Ht. cbn [run_node on_characters KvalobsDataParser]. unfold characters, put. rewrite Ht. cbn. by case_bool_decide.
Qed.

(** An element that holds a text puts it in the context. *)
Lemma run_leaf name t d c stk : name ∉ special_names -> trimstr t = t ->
  run_node H (text_child name t) (St d c stk) = inl (St d (put name t c) stk).
Proof.
  intros Hn Ht. unfold text_child. rewrite run_element. cbn [on_start_element KvalobsDataParser]. unfold start_element.
  assert (Hs : forall l : list string, (forall x, x ∈ l -> x ∈ special_names) -> bool_decide (name ∈ l) = false).
  { intros l Hl. apply bool_decide_eq_false. intros Hin. by apply Hn, Hl. }
  assert (He : forall s, s ∈ special_names -> bool_decide (name = s) = false).
  { intros s Hin. apply bool_decide_eq_false. intros ->. done. }
  rewrite !He, !Hs by (by_decision || (intros x Hx; by repeat (apply elem_of_cons in Hx as [->|Hx]; [by_decision|]); inversion Hx)).
  cbn [bind_sum run_nodes]. change (with_stack (name :: currentContext_ (St d c stk)) (St d c stk)) with (St d c (name :: stk)).
  rewrite characters_top by done. cbn [bind_sum on_end_element KvalobsDataParser]. unfold end_element.
  cbn [currentContext_ St]. rewrite !He, !Hs; [done|..];
    (by_decision || (intros x Hx; by repeat (apply elem_of_cons in Hx as [->|Hx]; [by_decision|]); inversion Hx)).
Qed.

Lemma run_leaves l d c stk :
  Forall (fun nt => nt.1 ∉ special_names /\ trimstr nt.2 = nt.2) l ->
  run_nodes H ((fun nt => text_child nt.1 nt.2) <$> l) (St d c stk) =
    inl (St d (foldl (fun c nt => put nt.1 nt.2 c) c l) stk).
Proof.
  intros Hl. revert c. induction Hl as [|[n t] l [Hn Ht] Hl IH]; intros c; [done|].
  cbn [fmap list_fmap run_nodes fst snd foldl]. rewrite run_leaf by done. cbn [bind_sum]. apply IH.
Qed.

(** Running the trees of a list, when each keeps an invariant of the context. *)
Lemma run_nodes_fold {A} (f : A -> node) (g : A -> KvalobsData PT -> KvalobsData PT) (I : Context_ -> Prop) stk (l : list A) :
  (forall a d c, a ∈ l -> I c -> exists c', run_node H (f a) (St d c stk) = inl (St (g a d) c' stk) /\ I c') ->
  forall d c, I c -> exists c', run_nodes H (f <$> l) (St d c stk) = inl (St (foldl (fun d a => g a d) d l) c' stk) /\ I c'.
Proof.
  induction l as [|a l IH]; intros Hf d c Hc; [by exists c|].
  cbn [fmap list_fmap run_nodes foldl]. destruct (Hf a d c ltac:(left) Hc) as (c1 & -> & Hc1). cbn [bind_sum].
  apply IH; [|done]. intros b d' c' Hb. apply Hf. by right.
Qed.

(** ... and when each leaves the context as it was. *)
Lemma run_nodes_same {A} (f : A -> node) (g : A -> KvalobsData PT -> KvalobsData PT) c stk (l : list A) :
  (forall a d, a ∈ l -> run_node H (f a) (St d c stk) = inl (St (g a d) c stk)) ->
  forall d, run_nodes H (f <$> l) (St d c stk) = inl (St (foldl (fun d a => g a d) d l) c stk).
Proof.
  intros Hf d. destruct (run_nodes_fold f g (fun c' => c' = c) stk l) with (d := d) (c := c) as (c' & E & ->); [|done|done].
  intros a d' c' Ha ->. exists c. split; [by apply Hf|done].
Qed.

Lemma run_nodes_bind {A} (f : A -> list node) (g : A -> KvalobsData PT -> KvalobsData PT) c stk (l : list A) :
  (forall a d, a ∈ l -> run_nodes H (f a) (St d c stk) = inl (St (g a d) c stk)) ->
  forall d, run_nodes H (l ≫= f) (St d c stk) = inl (St (foldl (fun d a => g a d) d l) c stk).
Proof.
  induction l as [|a l IH]; intros Hf d; [done|]. rewrite bind_cons, run_nodes_app, Hf by left. cbn [bind_sum foldl].
  apply IH. intros b d' Hb. apply Hf. by right.
Qed.

(** ** The elements of the format *)

Context {PC : PCalendar PT} {PS : PTimeShow PT} {SD : BoostShow} {BTL : BoostTextLaws BT}.

Definition int_ok (z : Z) : Prop := - INT_MAX <= z <= INT_MAX.
Definition show_ok (x : spec_float) : Prop :=
  lexical_cast_float (lexical_show_double x) = Some x /\ lexical_show_double x <> [] /\
  plain_text (lexical_show_double x) /\ unpadded (lexical_show_double x).
Definition words_ok (s : string) : Prop := plain_text (to_bytes s) /\ unpadded (to_bytes s).
Definition content_ok (c : DataContent) : Prop :=
  show_ok (dc_original c) /\ show_ok (dc_corrected c) /\ flag_legal (dc_controlinfo c) /\ flag_legal (dc_useinfo c) /\
  words_ok (dc_cfailed c).

Lemma show_int_cast z : int_ok z -> lexical_cast_int (show_int z) = Some z /\ show_int z <> [].
Proof.
  intros [H1 H2]. unfold show_int. destruct z as [|p|p].
  - destruct (pretty_nonneg 0 ltac:(done)) as (d & E & Hne & Hd & Hv). rewrite E. split; [|done].
    destruct (lexical_cast_int_digits d Hne Hd) as [-> _]; [rewrite Hv; lia|by rewrite Hv].
  - destruct (pretty_nonneg (Z.pos p) ltac:(lia)) as (d & E & Hne & Hd & Hv). rewrite E. split; [|done].
    destruct (lexical_cast_int_digits d Hne Hd) as [-> _]; [rewrite Hv; lia|by rewrite Hv].
  - destruct (pretty_nonneg (Z.pos p) ltac:(lia)) as (d & E & Hne & Hd & Hv).
    assert (En : to_bytes (pretty (Z.neg p)) = "-"%char :: d) by (by rewrite <- E).
    rewrite En. split; [|done].
    destruct (lexical_cast_int_digits d Hne Hd) as (_ & _ & ->); [rewrite Hv; lia|by rewrite Hv].
Qed.

Lemma flagstring_plain f : flag_legal f -> unpadded (to_bytes (flagstring f)) /\ plain_text (to_bytes (flagstring f)).
Proof.
  intros [Hw Hl]. rewrite flagstring_bytes by done. split.
  - apply unpadded_all. eapply Forall_impl; [exact Hl|]. apply (ascii_forall (fun c => hex_char c = true -> not_blank c)). by_decision.
  - eapply Forall_impl; [exact Hl|]. apply (ascii_forall (fun c => hex_char c = true -> plain_text_char c = true)). by_decision.
Qed.

(** What the context says of the place of a value. *)
Definition place_obs (c : Context_) (st ty : Z) (ot : ptime PT) : Prop :=
  lexical_cast_int (ctx_get "station" c) = Some st /\ lexical_cast_int (ctx_get "typeid" c) = Some ty /\
  read_time (ctx_get "obstime" c) = Some ot.

Definition value_names : list string := ["cfailed"; "useinfo"; "controlinfo"; "corrected"; "original"; "paramid"].
Definition inner_names : list string :=
  ["level"; "sensor"; "tbtime"; "decoder"; "message"; "message/tbtime"] ++ value_names.
Definition absent (names : list string) (c : Context_) : Prop := Forall (fun k => c !! k = None) names.

Lemma absent_get names c k : absent names c -> k ∈ names -> ctx_get k c = [].
Proof. unfold absent, ctx_get. rewrite Forall_forall. intros Hc Hk. by rewrite (Hc _ Hk). Qed.

Lemma lookup_foldr_delete (l : list string) (c : Context_) k :
  foldr delete c l !! k = if decide (k ∈ l) then None else c !! k.
Proof.
  induction l as [|x l IH]; cbn [foldr]; [by rewrite decide_False by (by intros ?%elem_of_nil)|].
  destruct (decide (x = k)) as [->|Hx].
  - rewrite lookup_delete_eq, decide_True; [done|by left].
  - rewrite lookup_delete_ne, IH by done. apply decide_ext. rewrite elem_of_cons. naive_solver.
Qed.

Lemma delete_insert_absent (c : Context_) k v : c !! k = None -> delete k (<[k := v]> c) = c.
Proof. intros Hc. rewrite delete_insert_eq. by apply delete_id. Qed.

Lemma put_all_lookup l c k : k ∉ l.*1 -> foldl (fun c (nt : string * bytes) => put nt.1 nt.2 c) c l !! k = c !! k.
Proof.
  revert c. induction l as [|[n t] l IH]; intros c Hk; [done|]. cbn [foldl fst snd].
  cbn [fmap list_fmap] in Hk. apply not_elem_of_cons in Hk as [Hk1 Hk2]. rewrite IH by done. by apply lookup_put_ne.
Qed.

Lemma erase_put_all (l : list (string * bytes)) (c : Context_) p : absent value_names c -> (forall k, k ∈ l.*1 -> k ∈ value_names) ->
  erase_value (foldl (fun c nt => put nt.1 nt.2 c) (<["paramid" := p]> c) l) = c.
Proof.
  intros Hc Hl. apply map_eq. intros k. unfold erase_value. rewrite lookup_foldr_delete.
  destruct (decide (k ∈ _)) as [Hk|Hk].
  - unfold absent in Hc. rewrite Forall_forall in Hc. by rewrite (Hc k).
  - rewrite put_all_lookup by (intros Hin; by apply Hk, Hl). rewrite lookup_insert_ne; [done|]. intros <-. apply Hk. by_decision.
Qed.

Definition data_leaves (c : DataContent) : list (string * bytes) :=
  [("original", lexical_show_double (dc_original c)); ("corrected", lexical_show_double (dc_corrected c));
   ("controlinfo", to_bytes (flagstring (dc_controlinfo c))); ("useinfo", to_bytes (flagstring (dc_useinfo c)));
   ("cfailed", to_bytes (dc_cfailed c))].

Lemma run_kvdata d c stk p content st ty ot tb sensor level :
  absent value_names c -> place_obs c st ty ot -> read_time (ctx_get "tbtime" c) = Some tb ->
  get_or_0 (ctx_get "sensor" c) = Some sensor -> get_or_0 (ctx_get "level" c) = Some level ->
  int_ok p -> content_ok content ->
  run_node H (kvdata_node (p, content)) (St d c stk) =
    inl (St (insert (kvData_set st ot (dc_original content) p tb ty sensor level (dc_corrected content)
                       (dc_controlinfo content) (dc_useinfo content) (dc_cfailed content)) d) c stk).
Proof.
  intros Hc (H1 & H2 & H3) H4 H5 H6 Hp (Ho & Hco & Hci & Hui & Hcf). unfold kvdata_node.
  change [text_child _ _; _; _; _; _] with ((fun nt => text_child nt.1 nt.2) <$> data_leaves content).
  rewrite run_element.
  change (on_start_element H "kvdata" [("paramid", show_int p)] (St d c stk)) with
    (@inl _ parser_error (St d (<["paramid" := show_int p]> c) ("kvdata" :: stk))). cbn [bind_sum].
  rewrite run_leaves.
  2:{ destruct Ho as (? & ? & ? & ?), Hco as (? & ? & ? & ?), Hcf as [? ?].
      destruct (flagstring_plain _ Hci), (flagstring_plain _ Hui).
      unfold data_leaves. repeat (apply Forall_cons; split; [split; [by_decision|by apply trimstr_unpadded]|]). constructor. }
  set (c' := foldl _ _ _). cbn [bind_sum].
  change (on_end_element H "kvdata" (St d c' ("kvdata" :: stk))) with
    (match context_value c' with
     | None => inr parse_error
     | Some x => inl (St (insert x d) (erase_value c') stk) end).
  assert (Ev : context_value c' = Some (kvData_set st ot (dc_original content) p tb ty sensor level (dc_corrected content)
                       (dc_controlinfo content) (dc_useinfo content) (dc_cfailed content))).
  { assert (G : forall k, k ∉ "paramid" :: (data_leaves content).*1 -> ctx_get k c' = ctx_get k c).
    { intros k Hk. apply not_elem_of_cons in Hk as [Hk1 Hk2]. unfold c', ctx_get. rewrite put_all_lookup by done.
      by rewrite lookup_insert_ne. }
    assert (L : forall k, k ∈ value_names -> ctx_get k c = []) by (intros k Hk; by eapply absent_get).
    assert (E1 : ctx_get "paramid" c' = show_int p).
    { unfold c', ctx_get. rewrite put_all_lookup by by_decision. by rewrite lookup_insert_eq. }
    assert (E2 : Forall (fun nt => ctx_get nt.1 c' = nt.2) (data_leaves content)).
    { unfold c', data_leaves. cbn [foldl fst snd].
      repeat (apply Forall_cons; split; [cbn [fst snd]; rewrite ?ctx_get_put_ne by done; apply ctx_get_put;
        rewrite ?ctx_get_put_ne, ctx_get_insert_ne by done; apply L; by_decision|]). constructor. }
    unfold data_leaves in E2. repeat (apply Forall_cons in E2 as [? E2]). cbn [fst snd] in *.
    unfold context_value. rewrite (G "station"), (G "typeid"), (G "obstime"), (G "tbtime"), (G "sensor"), (G "level") by by_decision.
    rewrite H1, H2, H3, H4, H5, H6, E1. cbn [mbind option_bind].
    destruct (show_int_cast p Hp) as [-> _]. cbn [mbind option_bind].
    repeat match goal with E : ctx_get _ c' = _ |- _ => rewrite E; clear E end.
    destruct Ho as (-> & _ & _), Hco as (-> & Hne & _). cbn [mbind option_bind]. rewrite bool_decide_false by done. cbn [mbind option_bind].
    rewrite !of_to_bytes. unfold kvControlInfo_of_string, kvUseInfo_of_string.
    destruct Hci as [Hci _], Hui as [Hui _]. rewrite !of_string_flagstring by done.
    by destruct (dc_controlinfo content), (dc_useinfo content). }
  rewrite Ev. unfold c'. rewrite erase_put_all; [done|done|]. intros k Hk.
  by repeat (apply elem_of_cons in Hk as [->|Hk]; [by_decision|]); apply elem_of_nil in Hk.
Qed.

Lemma run_kvtextdata d c stk p x st ty ot tb :
  absent value_names c -> place_obs c st ty ot -> read_time (ctx_get "tbtime" c) = Some tb ->
  int_ok p -> words_ok x ->
  run_node H (kvtextdata_node (p, x)) (St d c stk) = inl (St (insertText (kvTextData_set st ot x p tb ty) d) c stk).
Proof.
  intros Hc (H1 & H2 & H3) H4 Hp [Hx1 Hx2]. unfold kvtextdata_node. cbn [fst snd].
  change [text_child "original" (to_bytes x)] with ((fun nt => text_child nt.1 nt.2) <$> [("original", to_bytes x)]).
  rewrite run_element.
  change (on_start_element H "kvtextdata" [("paramid", show_int p)] (St d c stk)) with
    (@inl _ parser_error (St d (<["paramid" := show_int p]> c) ("kvtextdata" :: stk))). cbn [bind_sum].
  rewrite run_leaves by (apply Forall_singleton; split; [by_decision|by apply trimstr_unpadded]).
  set (c' := foldl _ _ _). cbn [bind_sum].
  change (on_end_element H "kvtextdata" (St d c' ("kvtextdata" :: stk))) with
    (match context_text c' with
     | None => inr parse_error
     | Some x => inl (St (insertText x d) (erase_value c') stk) end).
  assert (Ev : context_text c' = Some (kvTextData_set st ot x p tb ty)).
  { assert (L : ctx_get "original" c = []) by (eapply absent_get; [done|by_decision]).
    unfold context_text, c'. cbn [foldl fst snd].
    rewrite !(ctx_get_put_ne "station"), !(ctx_get_put_ne "typeid"), !(ctx_get_put_ne "obstime"),
      !(ctx_get_put_ne "tbtime"), !(ctx_get_put_ne "paramid") by done.
    rewrite !(ctx_get_insert_ne "station"), !(ctx_get_insert_ne "typeid"), !(ctx_get_insert_ne "obstime"),
      !(ctx_get_insert_ne "tbtime"), ctx_get_insert by done.
    rewrite H1, H2, H3, H4. cbn [mbind option_bind]. destruct (show_int_cast p Hp) as [-> _]. cbn [mbind option_bind].
    rewrite ctx_get_put by (by rewrite ctx_get_insert_ne). by rewrite of_to_bytes. }
  rewrite Ev. unfold c'. rewrite erase_put_all; [done|done|]. intros k Hk. cbn in Hk. set_solver.
Qed.

(** What a document adds to an object. *)
Inductive item := Inval (st ty : Z) (ot : ptime PT) | Val (x : kvData PT) | Txt (x : kvTextData PT).

#[local] Instance item_eq_dec : EqDecision item.
Proof. solve_decision. Defined.

Definition add_item (k : KvalobsData PT) (i : item) : KvalobsData PT :=
  match i with Inval st ty ot => invalidate true st ty ot k | Val x => insert x k | Txt x => insertText x k end.

Lemma foldl_bind {A B C} (f : C -> B -> C) (g : A -> list B) (l : list A) c :
  foldl f c (l ≫= g) = foldl (fun c a => foldl f c (g a)) c l.
Proof. revert c. induction l as [|a l IH]; intros c; [done|]. cbn. by rewrite foldl_app, IH. Qed.

Lemma foldl_ext_in {A C} (f g : C -> A -> C) (l : list A) c : (forall c a, a ∈ l -> f c a = g c a) -> foldl f c l = foldl g c l.
Proof.
  revert c. induction l as [|a l IH]; intros c Hfg; [done|]. cbn [foldl]. rewrite Hfg by left. apply IH.
  intros c' b Hb. apply Hfg. by right.
Qed.

(** The time of arrival that is read back: a special one is read as no time. *)
Definition read_tb (tb : ptime PT) : ptime PT := if is_special tb then not_a_date_time else tb.
Definition time_text_ok (t : ptime PT) : Prop := is_special t = false /\ read_time (kvalobs_text t) = Some t /\ kvalobs_text t <> [].
Definition tb_key_ok (tb : ptime PT) : Prop := if is_special tb then tb = neg_infin else time_text_ok tb.

Definition level_ok (l : Z * list (Z * DataContent)) : Prop := int_ok l.1 /\ Forall (fun r => int_ok r.1 /\ content_ok r.2) l.2.
Definition sensor_elems_ok (s : Z * list (Z * list (Z * DataContent))) : Prop :=
  int_ok s.1 /\ plain_sensor s.1 = s.1 /\ Forall level_ok s.2.
Definition tb_ok (t : ptime PT * TbTime) : Prop :=
  tb_key_ok t.1 /\ Forall sensor_elems_ok (tb_sensors t.2) /\ Forall (fun r => int_ok r.1 /\ words_ok r.2) (textData t.2).
Definition obstime_ok (o : ptime PT * ObsTime PT) : Prop := time_text_ok o.1 /\ Forall tb_ok (ot_tbtimes o.2).
Definition type_ok (t : Z * list (ptime PT * ObsTime PT)) : Prop := int_ok t.1 /\ Forall obstime_ok t.2.
Definition station_ok (s : Z * list (Z * list (ptime PT * ObsTime PT))) : Prop := int_ok s.1 /\ Forall type_ok s.2.

Lemma get_or_0_show z : int_ok z -> get_or_0 (show_int z) = Some z.
Proof. intros Hz. destruct (show_int_cast z Hz) as [E Hne]. unfold get_or_0. by rewrite bool_decide_false. Qed.

(** An element that keeps a number while its children are read. *)
Lemma run_val_erased name v children d c stk d' :
  name ∈ ["tbtime"; "level"; "sensor"; "decoder"] -> c !! name = None ->
  run_nodes H children (St d (<[name := v]> c) (name :: stk)) = inl (St d' (<[name := v]> c) (name :: stk)) ->
  run_node H (set_ name v children) (St d c stk) = inl (St d' c stk).
Proof.
  intros Hn Hc Hr. unfold set_. rewrite run_element.
  assert (E : on_start_element H name [("val", v)] (St d c stk) = inl (St d (<[name := v]> c) (name :: stk)) /\
              on_end_element H name (St d' (<[name := v]> c) (name :: stk)) = inl (St d' (delete name (<[name := v]> c)) stk)).
  { repeat (apply elem_of_cons in Hn as [->|Hn]; [split; reflexivity|]). by apply elem_of_nil in Hn. }
  destruct E as [-> E]. cbn [bind_sum]. rewrite Hr. cbn [bind_sum]. by rewrite E, delete_insert_absent.
Qed.

Lemma absent_insert names k v c : k ∉ names -> absent names c -> absent names (<[k := v]> c).
Proof.
  unfold absent. rewrite !Forall_forall. intros Hk Hc x Hx. rewrite lookup_insert_ne; [by apply Hc|]. by intros ->.
Qed.

Lemma place_insert k v c st ty ot : k ∉ ["station"; "typeid"; "obstime"] -> place_obs c st ty ot -> place_obs (<[k := v]> c) st ty ot.
Proof. intros Hk. unfold place_obs. rewrite !ctx_get_insert_ne by set_solver. done. Qed.

Lemma run_level d c stk l st ty ot tb sensor :
  absent ("level" :: value_names) c -> place_obs c st ty ot -> read_time (ctx_get "tbtime" c) = Some tb ->
  get_or_0 (ctx_get "sensor" c) = Some sensor -> level_ok l ->
  run_node H (level_node l) (St d c stk) = inl (St (foldl add_item d (Val <$> level_items st ty ot tb sensor l)) c stk).
Proof.
  intros Hc Hp Htb Hs [Hl Hr]. apply Forall_cons in Hc as [Hc1 Hc2]. unfold level_node.
  apply run_val_erased; [by_decision|done|].
  rewrite (run_nodes_same kvdata_node (fun r d => insert (kvData_set st ot (dc_original r.2) r.1 tb ty sensor l.1
             (dc_corrected r.2) (dc_controlinfo r.2) (dc_useinfo r.2) (dc_cfailed r.2)) d)).
  - f_equal. f_equal. unfold level_items. by rewrite !foldl_fmap.
  - intros [p content] d' Hin. rewrite Forall_forall in Hr. destruct (Hr _ Hin) as [Hp1 Hp2].
    eapply run_kvdata; try done.
    + apply absent_insert; [by_decision|done].
    + by apply place_insert; [by_decision|].
    + by rewrite ctx_get_insert_ne.
    + by rewrite ctx_get_insert_ne.
    + rewrite ctx_get_insert. by apply get_or_0_show.
Qed.

Lemma run_sensor d c stk s st ty ot tb :
  absent ("level" :: "sensor" :: value_names) c -> place_obs c st ty ot -> read_time (ctx_get "tbtime" c) = Some tb ->
  sensor_elems_ok s ->
  run_node H (sensor_node s) (St d c stk) = inl (St (foldl add_item d (Val <$> sensor_items st ty ot tb s)) c stk).
Proof.
  intros Hc Hp Htb (Hs & _ & Hl). apply Forall_cons in Hc as [Hc0 Hc]. pose proof Hc as [Hc1 Hc2]%Forall_cons. unfold sensor_node.
  apply run_val_erased; [by_decision|done|].
  rewrite (run_nodes_same level_node (fun l d => foldl add_item d (Val <$> level_items st ty ot tb s.1 l))).
  - f_equal. f_equal. unfold sensor_items. by rewrite fmap_bind, foldl_bind.
  - intros l d' Hin. rewrite Forall_forall in Hl. apply run_level; [..|by apply Hl].
    + apply absent_insert; [by_decision|]. by apply Forall_cons.
    + by apply place_insert; [by_decision|].
    + by rewrite ctx_get_insert_ne.
    + rewrite ctx_get_insert. by apply get_or_0_show.
Qed.

Definition tb_all (st ty : Z) (ot : ptime PT) (t : ptime PT * TbTime) : list item :=
  tb_sensors t.2 ≫= fun s => (Val <$> sensor_items st ty ot (read_tb t.1) s) ++ (Txt <$> tb_text_items st ty ot (read_tb t.1) t.2).
Definition ot_all (st ty : Z) (o : ptime PT * ObsTime PT) : list item :=
  (if invalidate_ o.2 then [Inval st ty o.1] else []) ++ (ot_tbtimes o.2 ≫= tb_all st ty o.1).
Definition type_all (st : Z) (t : Z * list (ptime PT * ObsTime PT)) : list item := t.2 ≫= ot_all st t.1.
Definition station_all (s : Z * list (Z * list (ptime PT * ObsTime PT))) : list item := s.2 ≫= type_all s.1.
Definition obs_all (obs : Observations PT) : list item := obs ≫= station_all.

Lemma read_tb_text tb : tb_key_ok tb -> read_time (tbtime_text tb) = Some (read_tb tb).
Proof. unfold tb_key_ok, tbtime_text, read_tb. destruct (is_special tb); [done|]. by intros (_ & ? & _). Qed.

Lemma run_tbtime d c stk t st ty ot :
  absent inner_names c -> place_obs c st ty ot -> tb_ok t ->
  run_node H (tbtime_node t) (St d c stk) = inl (St (foldl add_item d (tb_all st ty ot t)) c stk).
Proof.
  intros Hc Hp (Ht & Hs & Hx). unfold tbtime_node.
  assert (Hin : forall names, (forall k, k ∈ names -> k ∈ inner_names) -> absent names c).
  { intros names Hn. unfold absent in *. rewrite Forall_forall in Hc. apply Forall_forall. auto. }
  apply run_val_erased; [by_decision|unfold absent in Hc; rewrite Forall_forall in Hc; apply Hc; by_decision|].
  set (c' := <[_ := _]> c).
  assert (Hp' : place_obs c' st ty ot) by (by apply place_insert; [by_decision|]).
  assert (Ht' : read_time (ctx_get "tbtime" c') = Some (read_tb t.1)) by (unfold c'; rewrite ctx_get_insert; by apply read_tb_text).
  assert (Hc' : absent ("level" :: "sensor" :: value_names) c').
  { apply absent_insert; [by_decision|]. apply Hin. intros k Hk. unfold inner_names. set_solver. }
  unfold tb_all. rewrite foldl_bind.
  apply (run_nodes_bind _ (fun s d => foldl add_item d
    ((Val <$> sensor_items st ty ot (read_tb t.1) s) ++ (Txt <$> tb_text_items st ty ot (read_tb t.1) t.2)))).
  intros s d' Hs'. rewrite Forall_forall in Hs. cbn [run_nodes].
  rewrite (run_sensor _ _ _ _ st ty ot (read_tb t.1)) by auto. cbn [bind_sum].
  rewrite (run_nodes_same kvtextdata_node (fun r d => insertText (kvTextData_set st ot r.2 r.1 (read_tb t.1) ty) d)).
  2:{ intros [p x] d2 Hx'. rewrite Forall_forall in Hx. destruct (Hx _ Hx') as [Hp1 Hx1].
      apply Forall_cons in Hc' as [_ Hc']. apply Forall_cons in Hc' as [_ Hc']. by apply run_kvtextdata. }
  f_equal. f_equal. rewrite foldl_app. unfold tb_text_items. by rewrite !foldl_fmap.
Qed.

Lemma obstime_node_ok o : obstime_ok o ->
  obstime_node o = Some (Element "obstime" (("val", kvalobs_text o.1) :: if invalidate_ o.2 then [("invalidate", to_bytes "1")] else [])
                          (tbtime_node <$> ot_tbtimes o.2)).
Proof. intros [(Hs & _) _]. unfold obstime_node, to_kvalobs_string. by rewrite Hs. Qed.

(** Outside the time of an observation the context has no value of the inner
    elements. *)
Lemma run_obstime d c stk o n st ty :
  absent inner_names c -> lexical_cast_int (ctx_get "station" c) = Some st -> lexical_cast_int (ctx_get "typeid" c) = Some ty ->
  obstime_ok o -> obstime_node o = Some n ->
  run_node H n (St d c stk) = inl (St (foldl add_item d (ot_all st ty o)) (<["obstime" := kvalobs_text o.1]> c) stk).
Proof.
  intros Hc Hst Hty Ho. rewrite obstime_node_ok by done. intros <-%Some_inj. destruct Ho as [(Hs & Hr & Hne) Ht]. rewrite run_element.
  set (c' := <["obstime" := _]> c).
  assert (E : on_start_element H "obstime" (("val", kvalobs_text o.1) :: if invalidate_ o.2 then [("invalidate", to_bytes "1")] else [])
                (St d c stk) =
              inl (St (if invalidate_ o.2 then invalidate true st ty o.1 d else d) c' ("obstime" :: stk))).
  { assert (G1 : lexical_cast_int (ctx_get "station" c') = Some st) by (unfold c'; by rewrite ctx_get_insert_ne).
    assert (G2 : lexical_cast_int (ctx_get "typeid" c') = Some ty) by (unfold c'; by rewrite ctx_get_insert_ne).
    destruct (invalidate_ o.2).
    - change (on_start_element H _ _ _) with
        (match lexical_cast_int (ctx_get "station" c'), lexical_cast_int (ctx_get "typeid" c') with
         | Some st, Some ty =>
             match read_time (kvalobs_text o.1) with
             | None => inr escaped
             | Some t => inl (St (invalidate true st ty t d) c' ("obstime" :: stk))
             end
         | _, _ => inr parse_error
         end). by rewrite G1, G2, Hr.
    - done. }
  rewrite E. cbn [bind_sum].
  rewrite (run_nodes_same tbtime_node (fun t d => foldl add_item d (tb_all st ty o.1 t))).
  2:{ intros t d' Hin. rewrite Forall_forall in Ht. apply run_tbtime; [by apply absent_insert; [by_decision|]| |by apply Ht].
      unfold place_obs, c'. by rewrite ctx_get_insert, !ctx_get_insert_ne. }
  cbn [bind_sum]. change (on_end_element H "obstime" (St ?x c' ("obstime" :: stk))) with (@inl _ parser_error (St x c' stk)).
  f_equal. f_equal. unfold ot_all. rewrite foldl_app, foldl_bind. by destruct (invalidate_ o.2).
Qed.

(** The trees of a list that may fail, when each keeps an invariant of the
    context. *)
Lemma run_mapM {A} (f : A -> option node) (g : A -> list item) (I : Context_ -> Prop) stk (l : list A) ns :
  mapM f l = Some ns ->
  (forall a n d c, a ∈ l -> f a = Some n -> I c ->
     exists c', run_node H n (St d c stk) = inl (St (foldl add_item d (g a)) c' stk) /\ I c') ->
  forall d c, I c -> exists c', run_nodes H ns (St d c stk) = inl (St (foldl add_item d (l ≫= g)) c' stk) /\ I c'.
Proof.
  revert ns. induction l as [|a l IH]; intros ns E Hf d c Hc.
  { injection E as <-. by exists c. }
  cbn [mapM] in E. destruct (f a) as [n|] eqn:En; [|done]. cbn [mbind option_bind] in E.
  destruct (mapM f l) as [ns'|] eqn:Ens; [|done]. injection E as <-.
  cbn [run_nodes]. destruct (Hf a n d c ltac:(left) En Hc) as (c1 & -> & Hc1). cbn [bind_sum].
  rewrite bind_cons, foldl_app. apply IH; [done| |done]. intros b n' d' c' Hb. apply Hf. by right.
Qed.

Lemma run_type d c stk t n st :
  absent inner_names c -> lexical_cast_int (ctx_get "station" c) = Some st -> type_ok t -> type_node t = Some n ->
  exists c', run_node H n (St d c stk) = inl (St (foldl add_item d (type_all st t)) c' stk) /\
    absent inner_names c' /\ lexical_cast_int (ctx_get "station" c') = Some st.
Proof.
  intros Hc Hst [Ht Ho]. unfold type_node. destruct (mapM obstime_node t.2) as [ns|] eqn:E; [|done]. intros [= <-].
  unfold set_. rewrite run_element.
  change (on_start_element H "typeid" [("val", show_int t.1)] (St d c stk)) with
    (@inl _ parser_error (St d (<["typeid" := show_int t.1]> c) ("typeid" :: stk))). cbn [bind_sum].
  destruct (run_mapM obstime_node (ot_all st t.1) (fun c => absent inner_names c /\
     lexical_cast_int (ctx_get "station" c) = Some st /\ lexical_cast_int (ctx_get "typeid" c) = Some t.1)
     ("typeid" :: stk) t.2 ns E) with (d := d) (c := <["typeid" := show_int t.1]> c) as (c' & -> & H1 & H2 & H3).
  - intros o n d' c' Hin En (H1 & H2 & H3). rewrite Forall_forall in Ho.
    exists (<["obstime" := kvalobs_text o.1]> c'). split; [by apply run_obstime; auto|].
    rewrite !ctx_get_insert_ne by done. split; [|done]. by apply absent_insert; [by_decision|].
  - rewrite ctx_get_insert, ctx_get_insert_ne by done. split; [by apply absent_insert; [by_decision|]|]. split; [done|].
    by apply show_int_cast.
  - cbn [bind_sum]. exists c'. done.
Qed.

Lemma run_station d c stk s n :
  absent inner_names c -> station_ok s -> station_node s = Some n ->
  exists c', run_node H n (St d c stk) = inl (St (foldl add_item d (station_all s)) c' stk) /\ absent inner_names c'.
Proof.
  intros Hc [Hs Ht]. unfold station_node. destruct (mapM type_node s.2) as [ns|] eqn:E; [|done]. intros [= <-].
  unfold set_. rewrite run_element.
  change (on_start_element H "station" [("val", show_int s.1)] (St d c stk)) with
    (@inl _ parser_error (St d (<["station" := show_int s.1]> c) ("station" :: stk))). cbn [bind_sum].
  destruct (run_mapM type_node (type_all s.1) (fun c => absent inner_names c /\
     lexical_cast_int (ctx_get "station" c) = Some s.1)
     ("station" :: stk) s.2 ns E) with (d := d) (c := <["station" := show_int s.1]> c) as (c' & -> & H1 & H2).
  - intros t n d' c' Hin En (H1 & H2). rewrite Forall_forall in Ht.
    destruct (run_type d' c' ("station" :: stk) t n s.1 H1 H2 (Ht _ Hin) En) as (c2 & -> & H3 & H4). by exists c2.
  - rewrite ctx_get_insert. split; [by apply absent_insert; [by_decision|]|]. by apply show_int_cast.
  - cbn [bind_sum]. by exists c'.
Qed.

Lemma mapM_total {A B} (f : A -> option B) (l : list A) : Forall (fun a => is_Some (f a)) l -> is_Some (mapM f l).
Proof.
  induction 1 as [|a l [b Ha] Hl [bs IH]]; [by eexists|]. cbn [mapM]. rewrite Ha. cbn. rewrite IH. by eexists.
Qed.

Lemma station_node_total s : station_ok s -> is_Some (station_node s).
Proof.
  intros [_ Hs]. unfold station_node. apply fmap_is_Some, mapM_total. eapply Forall_impl; [exact Hs|].
  intros t [_ Ht]. unfold type_node. apply fmap_is_Some, mapM_total. eapply Forall_impl; [exact Ht|].
  intros o Ho. rewrite obstime_node_ok by done. by eexists.
Qed.

(** ** Rejected messages *)

(** What is read back of a message: its comment and its state are not written. *)
Definition read_reject (decoder : string) (r : kvRejectdecode PT) : kvRejectdecode PT :=
  {| rd_message := rd_message r; rd_tbtime := rd_tbtime r; rd_decoder := decoder; rd_comment := ""; rd_fixed := false |}.
Definition reject_ok (r : kvRejectdecode PT) : Prop :=
  is_special (rd_tbtime r) = false /\ time_from_string_nothrow (kvalobs_text (rd_tbtime r)) = Time (rd_tbtime r) /\
  words_ok (rd_message r).

Definition add_rejects (k : KvalobsData PT) (l : list (kvRejectdecode PT)) : KvalobsData PT :=
  foldl (fun k r => setMessageCorrectsThisRejection r k) k l.

Lemma add_rejects_messages k l :
  add_rejects k l = {| overwrite_ := overwrite_ k; obs_ := obs_ k; correctedMessages_ := correctedMessages_ k ++ l;
                       created_ := created_ k; kd_producer := kd_producer k; kd_msgid := kd_msgid k |}.
Proof.
  revert k. induction l as [|r l IH]; intros k; [rewrite app_nil_r; by destruct k|]. cbn [add_rejects foldl].
  unfold add_rejects in IH. rewrite IH. cbn. by rewrite <- app_assoc.
Qed.

Lemma run_message d c stk r n decoder :
  ctx_get "decoder" c = to_bytes decoder -> c !! "message"%string = None -> c !! "message/tbtime"%string = None ->
  reject_ok r -> message_node r = Some n ->
  run_node H n (St d c stk) = inl (St (setMessageCorrectsThisRejection (read_reject decoder r) d) c stk).
Proof.
  intros Hd Hm Hmt (Hs & Ht & Hw & Hu). unfold message_node, to_kvalobs_string. rewrite Hs. cbn [mbind option_bind].
  intros <-%Some_inj. rewrite run_element.
  change (on_start_element H "message" [("tbtime", kvalobs_text (rd_tbtime r))] (St d c stk)) with
    (@inl _ parser_error (St d (<["message/tbtime" := kvalobs_text (rd_tbtime r)]> c) ("message" :: stk))).
  cbn [bind_sum run_nodes]. set (c1 := <["message/tbtime" := _]> c).
  rewrite characters_top by (by apply trimstr_unpadded). cbn [bind_sum]. set (c2 := put "message" _ c1).
  change (on_end_element H "message" (St d c2 ("message" :: stk))) with
    (match time_from_string_nothrow (ctx_get "message/tbtime" c2) with
     | Escapes => inr escaped
     | Time t => inl (St (setMessageCorrectsThisRejection
         {| rd_message := of_bytes (ctx_get "message" c2); rd_tbtime := t; rd_decoder := of_bytes (ctx_get "decoder" c2);
            rd_comment := ""; rd_fixed := false |} d)
         (delete "message/tbtime" (delete "message" c2)) stk)
     end).
  assert (E1 : ctx_get "message/tbtime" c2 = kvalobs_text (rd_tbtime r)).
  { unfold c2, c1. by rewrite ctx_get_put_ne, ctx_get_insert. }
  assert (E2 : ctx_get "message" c2 = to_bytes (rd_message r)).
  { unfold c2, c1. rewrite ctx_get_put; [done|]. rewrite ctx_get_insert_ne by done. unfold ctx_get. by rewrite Hm. }
  assert (E3 : ctx_get "decoder" c2 = to_bytes decoder).
  { unfold c2, c1. by rewrite ctx_get_put_ne, ctx_get_insert_ne. }
  rewrite E1, E2, E3, Ht, !of_to_bytes. f_equal. unfold St, read_reject. f_equal.
  apply map_eq. intros k. destruct (decide (k = "message/tbtime"%string)) as [->|Hk1]; [by rewrite lookup_delete_eq|].
  rewrite lookup_delete_ne by done. destruct (decide (k = "message"%string)) as [->|Hk2]; [by rewrite lookup_delete_eq|].
  rewrite lookup_delete_ne by done. unfold c2, c1. by rewrite lookup_put_ne, lookup_insert_ne.
Qed.

Lemma run_decoder d c stk g n :
  absent inner_names c -> Forall reject_ok g.2 -> decoder_node g = Some n ->
  run_node H n (St d c stk) = inl (St (add_rejects d (read_reject g.1 <$> g.2)) c stk).
Proof.
  intros Hc Hg. unfold decoder_node. destruct (mapM message_node g.2) as [ns|] eqn:E; [|done]. intros <-%Some_inj.
  assert (Hab : forall k, k ∈ inner_names -> c !! k = None) by (unfold absent in Hc; by rewrite Forall_forall in Hc).
  apply run_val_erased; [by_decision|apply Hab; by_decision|].
  set (c' := <["decoder" := _]> c). revert d ns E. induction Hg as [|r l Hr Hl IH]; intros d ns E.
  { injection E as <-. done. }
  cbn [mapM] in E. destruct (message_node r) as [n1|] eqn:En; [|done]. cbn [mbind option_bind] in E.
  destruct (mapM message_node l) as [ns'|] eqn:Ens; [|done]. injection E as <-. cbn [run_nodes].
  rewrite (run_message d c' ("decoder" :: stk) r n1 g.1) by
    (done || (unfold c'; rewrite ctx_get_insert; done) || (unfold c'; rewrite lookup_insert_ne by done; apply Hab; by_decision)).
  cbn [bind_sum]. rewrite (IH _ _ eq_refl). done.
Qed.

Definition reject_groups (l : list (kvRejectdecode PT)) : list (kvRejectdecode PT) :=
  decoderSortedRejectList l ≫= fun g => read_reject g.1 <$> g.2.

Lemma sorted_rejects_forall (P : kvRejectdecode PT -> Prop) l :
  Forall P l -> Forall (fun g => Forall (fun r => P r /\ rd_decoder r = g.1) g.2) (decoderSortedRejectList l).
Proof.
  unfold decoderSortedRejectList. intros HP.
  assert (G : forall m, Forall (fun g => Forall (fun r => P r /\ rd_decoder r = g.1) g.2) m ->
    Forall (fun g => Forall (fun r => P r /\ rd_decoder r = g.1) g.2)
      (foldl (fun m r => c_update string_lt (rd_decoder r) [] (fun l => l ++ [r]) m) m l)).
  { induction HP as [|r l Hr Hl IH]; intros m Hm; [done|]. cbn [foldl]. apply IH. clear IH Hl.
    induction Hm as [|[k v] m Hx Hm IHm]; cbn [c_update]; [by repeat constructor|].
    destruct (string_lt k (rd_decoder r)) eqn:E1; [by constructor|].
    destruct (string_lt (rd_decoder r) k) eqn:E2; [by repeat constructor|].
    constructor; [|done]. cbn [snd fst] in *. apply Forall_app. split; [done|]. apply Forall_singleton. split; [done|].
    destruct (decide (rd_decoder r = k)) as [|Hne]; [done|].
    destruct (ko_total (KeyOrder := string_key) (rd_decoder r) k I I Hne); congruence. }
  apply G. constructor.
Qed.

Lemma run_rejected d c stk l ns :
  absent inner_names c -> Forall reject_ok l -> rejected_nodes l = Some ns ->
  run_nodes H ns (St d c stk) = inl (St (add_rejects d (reject_groups l)) c stk).
Proof.
  intros Hc Hl. unfold rejected_nodes. case_bool_decide as El; [intros <-%Some_inj; by subst|].
  destruct (mapM decoder_node (decoderSortedRejectList l)) as [gs|] eqn:E; [|done]. intros <-%Some_inj.
  cbn [run_nodes]. rewrite run_element.
  change (on_start_element H "fixed_rejected_messages" [] (St d c stk)) with
    (@inl _ parser_error (St d c ("fixed_rejected_messages" :: stk))). cbn [bind_sum].
  assert (G : run_nodes H gs (St d c ("fixed_rejected_messages" :: stk)) =
              inl (St (add_rejects d (reject_groups l)) c ("fixed_rejected_messages" :: stk))).
  { unfold reject_groups. pose proof (sorted_rejects_forall _ _ Hl) as Hg.
    revert d gs E. induction Hg as [|g m Hg Hm IH]; intros d gs E; [by injection E as <-|].
    cbn [mapM] in E. destruct (decoder_node g) as [n1|] eqn:En; [|done]. cbn [mbind option_bind] in E.
    destruct (mapM decoder_node m) as [ns'|] eqn:Ens; [|done]. injection E as <-. cbn [run_nodes].
    rewrite (run_decoder d c _ g n1) by (done || (eapply Forall_impl; [exact Hg|by intros ? []])). cbn [bind_sum].
    rewrite (IH _ _ eq_refl), bind_cons. unfold add_rejects. by rewrite foldl_app. }
  rewrite G. cbn [bind_sum]. done.
Qed.

Lemma rejected_nodes_total l : Forall reject_ok l -> is_Some (rejected_nodes l).
Proof.
  intros Hl. unfold rejected_nodes. case_bool_decide; [by eexists|].
  destruct (mapM_total decoder_node (decoderSortedRejectList l)) as [gs ->]; [|by eexists].
  eapply Forall_impl; [exact (sorted_rejects_forall _ _ Hl)|]. intros g Hg. unfold decoder_node.
  apply fmap_is_Some, mapM_total. eapply Forall_impl; [exact Hg|]. intros r [(Hs & _) _].
  unfold message_node, to_kvalobs_string. rewrite Hs. by eexists.
Qed.

(** ** What the items make of an object *)

Definition item_time (i : item) : Prop :=
  match i with Inval _ _ ot => time_key ot | Val x => time_key (obstime_ x) | Txt x => time_key (tx_obstime_ x) end.
Definition get_val (i : item) : option (kvData PT) := match i with Val x => Some x | _ => None end.
Definition get_txt (i : item) : option (kvTextData PT) := match i with Txt x => Some x | _ => None end.
Definition text_key (st ty : Z) (ot tb : ptime PT) (p : Z) (x : kvTextData PT) : Prop :=
  tx_stationid_ x = st /\ tx_typeid_ x = ty /\ tx_obstime_ x = ot /\ key_tbtime (tx_tbtime_ x) = tb /\ tx_paramid_ x = p.
Definition clash (st ty : Z) (ot : ptime PT) (s : Z) (x : kvTextData PT) : Prop :=
  tx_stationid_ x = st /\ tx_typeid_ x = ty /\ tx_obstime_ x = ot /\ tx_paramid_ x = s.

#[local] Instance text_key_dec st ty ot tb p x : Decision (text_key st ty ot tb p x).
Proof. unfold text_key. apply _. Defined.

Definition inval_at (st ty : Z) (ot : ptime PT) (obs : Observations PT) : bool :=
  from_option invalidate_ false (obs_at st ty ot obs).

Lemma set_invalidate_value b tb s l p (o : ObsTime PT) : ot_value tb s l p (set_invalidate b o) = ot_value tb s l p o.
Proof. done. Qed.

Lemma add_item_wf k i : item_time i -> obs_wf (obs_ k) -> obs_wf (obs_ (add_item k i)).
Proof.
  intros Hi Hk. destruct i as [st ty ot|x|x]; cbn [add_item insert insertText invalidate with_obs obs_] in *.
  - apply obs_update_wf; [done| |done]. intros o Ho. exact Ho.
  - by apply obs_insert_wf.
  - by apply obs_insertText_wf.
Qed.

Lemma add_items_wf l k : Forall item_time l -> obs_wf (obs_ k) -> obs_wf (obs_ (foldl add_item k l)).
Proof. intros Hl. revert k. induction Hl as [|i l Hi Hl IH]; intros k Hk; [done|]. by apply IH, add_item_wf. Qed.

Lemma insertText_values x st ty ot tb s l p (obs : Observations PT) :
  obs_wf obs -> time_key (tx_obstime_ x) -> time_key ot -> time_key tb ->
  value_at st ty ot tb s l p (obs_insertText x obs) =
    if decide (clash st ty ot s x) then None else value_at st ty ot tb s l p obs.
Proof.
  intros HW Hk Hot Htb. unfold obs_insertText. pose proof (removeExistingText_wf _ _ Hk HW) as HW'.
  assert (E : value_at st ty ot tb s l p (removeExistingText x obs) =
              if decide (clash st ty ot s x) then None else value_at st ty ot tb s l p obs).
  { rewrite removeExistingText_values by done. unfold clash. do 2 case_decide; (done || tauto). }
  rewrite value_at_update by done.
  destruct (decide (tx_stationid_ x = st /\ tx_typeid_ x = ty /\ tx_obstime_ x = ot)) as [(<- & <- & <-)|_]; [|exact E].
  rewrite ot_value_store_text by (done || apply key_tbtime_ok || by apply default_obs_wf). by rewrite ot_value_default.
Qed.

Lemma insertText_texts x st ty ot tb p (obs : Observations PT) :
  obs_wf obs -> time_key (tx_obstime_ x) -> time_key ot -> time_key tb ->
  text_at st ty ot tb p (obs_insertText x obs) =
    if decide (text_key st ty ot tb p x) then Some (tx_original_ x) else text_at st ty ot tb p obs.
Proof.
  intros HW Hk Hot Htb. unfold obs_insertText. pose proof (removeExistingText_wf _ _ Hk HW) as HW'.
  rewrite text_at_update by done.
  destruct (decide (tx_stationid_ x = st /\ tx_typeid_ x = ty /\ tx_obstime_ x = ot)) as [(<- & <- & <-)|Hd].
  - rewrite ot_text_store_text by (done || apply key_tbtime_ok || by apply default_obs_wf).
    rewrite ot_text_default, removeExistingText_texts by done. unfold text_key. do 2 case_decide; (done || tauto).
  - rewrite removeExistingText_texts by done. rewrite decide_False; [done|]. unfold text_key. tauto.
Qed.

Lemma add_items_values l k st ty ot tb s le p :
  obs_ k = [] -> Forall item_time l -> time_key ot -> time_key tb ->
  (forall x, Txt x ∈ l -> clash st ty ot s x -> filter (has_key st ty ot s le p) (omap get_val l) = []) ->
  value_at st ty ot tb s le p (obs_ (foldl add_item k l)) =
    last (filter (has_key st ty ot s le p) (omap get_val l)) ≫= fun d =>
      if decide (key_tbtime (tbtime_ d) = tb) then Some (DataContent_of d) else None.
Proof.
  intros Hk Hl Hot Htb. assert (Hw0 : obs_wf (obs_ k)) by (rewrite Hk; apply c_wf_nil).
  induction l as [|i l IH] using rev_ind; intros Hc; [by cbn; rewrite Hk|].
  rewrite Forall_app, Forall_singleton in Hl. destruct Hl as [Hl Hi].
  pose proof (add_items_wf l k Hl Hw0) as HW.
  assert (Hc' : forall x, Txt x ∈ l -> clash st ty ot s x -> filter (has_key st ty ot s le p) (omap get_val l) = []).
  { intros x Hx Hcl. assert (E : filter (has_key st ty ot s le p) (omap get_val (l ++ [i])) = [])
      by (apply (Hc x); [apply elem_of_app; by left|done]).
    rewrite omap_app, filter_app in E. by apply app_nil in E as [? _]. }
  rewrite foldl_snoc, omap_app, filter_app. specialize (IH Hl Hc').
  destruct i as [st' ty' ot'|x|x]; cbn [add_item insert insertText invalidate with_obs obs_ omap list_omap get_val item_time] in *.
  - rewrite filter_nil, app_nil_r, <- IH. rewrite value_at_update by done. case_decide as Hd; [|done].
    destruct Hd as (<- & <- & <-). by rewrite set_invalidate_value, ot_value_default.
  - rewrite insert_values, filter_cons, filter_nil by done.
    destruct (decide (has_key st ty ot s le p x)) as [Hh|Hh]; unfold has_key in Hh.
    + rewrite decide_True, last_snoc by done. done.
    + rewrite decide_False, app_nil_r by done. exact IH.
  - rewrite filter_nil, app_nil_r. rewrite insertText_values by done. case_decide as Hd; [|exact IH].
    assert (E : filter (has_key st ty ot s le p) (omap get_val (l ++ [Txt x])) = [])
      by (apply (Hc x); [apply elem_of_app; right; by left|done]).
    rewrite omap_app, filter_app in E. apply app_nil in E as [-> _]. done.
Qed.

Lemma add_items_texts l k st ty ot tb p :
  obs_ k = [] -> Forall item_time l -> time_key ot -> time_key tb ->
  text_at st ty ot tb p (obs_ (foldl add_item k l)) = tx_original_ <$> last (filter (text_key st ty ot tb p) (omap get_txt l)).
Proof.
  intros Hk Hl Hot Htb. assert (Hw0 : obs_wf (obs_ k)) by (rewrite Hk; apply c_wf_nil).
  induction l as [|i l IH] using rev_ind; [by cbn; rewrite Hk|].
  rewrite Forall_app, Forall_singleton in Hl. destruct Hl as [Hl Hi].
  pose proof (add_items_wf l k Hl Hw0) as HW. rewrite foldl_snoc, omap_app, filter_app. specialize (IH Hl).
  destruct i as [st' ty' ot'|x|x]; cbn [add_item insert insertText invalidate with_obs obs_ omap list_omap get_txt item_time] in *.
  - rewrite filter_nil, app_nil_r, <- IH. rewrite text_at_update by done. case_decide as Hd; [|done].
    destruct Hd as (<- & <- & <-). change (ot_text tb p (set_invalidate true ?o)) with (ot_text tb p o). by rewrite ot_text_default.
  - rewrite filter_nil, app_nil_r, <- IH. by rewrite insert_texts.
  - rewrite insertText_texts, filter_cons, filter_nil by done. case_decide; [by rewrite last_snoc|]. by rewrite app_nil_r.
Qed.

Lemma inval_update st ty ot f st' ty' ot' (obs : Observations PT) :
  obs_wf obs -> time_key ot -> time_key ot' -> (forall o, invalidate_ (f o) = invalidate_ o) ->
  inval_at st' ty' ot' (obs_update st ty ot f obs) = inval_at st' ty' ot' obs.
Proof.
  intros HW Hk Hk' Hf. unfold inval_at. rewrite obs_at_update by done. case_decide as Hd; [|done].
  destruct Hd as (<- & <- & <-). cbn [from_option]. rewrite Hf. by destruct (obs_at st ty ot obs).
Qed.

Lemma add_items_inval l k st ty ot :
  obs_ k = [] -> Forall item_time l -> time_key ot ->
  inval_at st ty ot (obs_ (foldl add_item k l)) = bool_decide (Inval st ty ot ∈ l).
Proof.
  intros Hk Hl Hot. assert (Hw0 : obs_wf (obs_ k)) by (rewrite Hk; apply c_wf_nil).
  induction l as [|i l IH] using rev_ind.
  { unfold inval_at. cbn [foldl]. rewrite Hk. symmetry. apply bool_decide_eq_false. by intros ?%elem_of_nil. }
  rewrite Forall_app, Forall_singleton in Hl. destruct Hl as [Hl Hi].
  pose proof (add_items_wf l k Hl Hw0) as HW. rewrite foldl_snoc. specialize (IH Hl).
  assert (E : bool_decide (Inval st ty ot ∈ l ++ [i]) = bool_decide (Inval st ty ot ∈ l) || bool_decide (i = Inval st ty ot)).
  { rewrite <- bool_decide_or. apply bool_decide_ext. rewrite elem_of_app, list_elem_of_singleton. naive_solver. }
  rewrite E, <- IH. clear E IH.
  destruct i as [st' ty' ot'|x|x]; cbn [add_item insert insertText invalidate with_obs obs_ item_time] in *.
  - unfold inval_at. rewrite obs_at_update by done. destruct (decide (st' = st /\ ty' = ty /\ ot' = ot)) as [(-> & -> & ->)|Hd].
    + cbn. by rewrite bool_decide_true, orb_true_r.
    + rewrite bool_decide_false, orb_false_r; [done|]. intros [= -> -> ->]. tauto.
  - rewrite bool_decide_false, orb_false_r by done. unfold obs_insert. pose proof (removeExisting_wf _ _ Hi HW).
    rewrite inval_update by done. unfold removeExisting. by rewrite inval_update.
  - rewrite bool_decide_false, orb_false_r by done. unfold obs_insertText. pose proof (removeExistingText_wf _ _ Hi HW).
    rewrite inval_update by done. unfold removeExistingText. by rewrite inval_update.
Qed.

(** ** The items of an object *)

Definition retag (d : kvData PT) : kvData PT :=
  kvData_set (stationid_ d) (obstime_ d) (original_ d) (paramid_ d) (read_tb (tbtime_ d)) (typeid_ d) (sensor_ d)
    (level_ d) (corrected_ d) (controlinfo_ d) (useinfo_ d) (cfailed_ d).
Definition retag_text (x : kvTextData PT) : kvTextData PT :=
  kvTextData_set (tx_stationid_ x) (tx_obstime_ x) (tx_original_ x) (tx_paramid_ x) (read_tb (tx_tbtime_ x)) (tx_typeid_ x).

Lemma omap_bind {A B C} (f : B -> option C) (g : A -> list B) l : omap f (l ≫= g) = l ≫= fun a => omap f (g a).
Proof. induction l as [|a l IH]; [done|]. by rewrite !bind_cons, omap_app, IH. Qed.

Lemma bind_ext_all {A B} (f g : A -> list B) l : (forall a, f a = g a) -> l ≫= f = l ≫= g.
Proof. intros E. induction l as [|a l IH]; [done|]. by rewrite !bind_cons, E, IH. Qed.

Lemma omap_map {A B C} (f : B -> option C) (g : A -> B) (h : A -> C) (l : list A) : (forall a, f (g a) = Some (h a)) -> omap f (g <$> l) = h <$> l.
Proof. intros E. induction l as [|a l IH]; [done|]. cbn. rewrite E. by f_equal. Qed.
Lemma omap_nothing {A B C} (f : B -> option C) (g : A -> B) (l : list A) : (forall a, f (g a) = None) -> omap f (g <$> l) = [].
Proof. intros E. induction l as [|a l IH]; [done|]. cbn. by rewrite E. Qed.

Lemma tb_items_retag st ty ot tb t : tb_items st ty ot (read_tb tb) t = retag <$> tb_items st ty ot tb t.
Proof.
  unfold tb_items. rewrite fmap_bind. apply bind_ext_all. intros s. unfold sensor_items. rewrite fmap_bind.
  apply bind_ext_all. intros l. unfold level_items. rewrite <- list_fmap_compose. by apply list_fmap_ext.
Qed.
Lemma tb_text_items_retag st ty ot tb t : tb_text_items st ty ot (read_tb tb) t = retag_text <$> tb_text_items st ty ot tb t.
Proof. unfold tb_text_items. rewrite <- list_fmap_compose. by apply list_fmap_ext. Qed.

Lemma obs_all_map {C} (f : item -> option C) (g : Z -> Z -> ptime PT -> ptime PT -> TbTime -> list C) x obs :
  (forall st ty ot, f (Inval st ty ot) = None) ->
  (forall st ty ot t, omap f (tb_all st ty ot t) = g st ty ot t.1 t.2) ->
  omap f (obs_all obs) = for_each_obs g false x obs.
Proof.
  intros Hi Ht. unfold obs_all, for_each_obs. rewrite omap_bind. apply bind_ext_all. intros s. unfold station_all.
  rewrite omap_bind. apply bind_ext_all. intros t. unfold type_all. rewrite omap_bind. apply bind_ext_all. intros o.
  unfold ot_all. rewrite omap_app, omap_bind.
  replace (omap f (if invalidate_ o.2 then _ else _)) with (@nil C) by (destruct (invalidate_ o.2); cbn; by rewrite ?Hi).
  apply bind_ext_all. intros tb. apply Ht.
Qed.

Lemma for_each_fmap {B C} (h : B -> C) f x (obs : Observations PT) :
  for_each_obs (fun st ty ot tb t => h <$> f st ty ot tb t) false x obs = h <$> for_each_obs f false x obs.
Proof.
  unfold for_each_obs. rewrite fmap_bind. apply bind_ext_all. intros s. rewrite fmap_bind. apply bind_ext_all. intros t.
  rewrite fmap_bind. apply bind_ext_all. intros o. by rewrite fmap_bind.
Qed.

Lemma obs_all_values x obs : omap get_val (obs_all obs) = retag <$> obs_items false x obs.
Proof.
  unfold obs_items. rewrite <- for_each_fmap. apply obs_all_map; [done|]. intros st ty ot t. unfold tb_all.
  rewrite <- tb_items_retag, omap_bind. apply bind_ext_all. intros s.
  rewrite omap_app, (omap_nothing get_val Txt), app_nil_r by done. by rewrite (omap_map _ _ id), list_fmap_id by done.
Qed.

(** The texts of a time of arrival, as often as it has sensors. *)
Definition tb_text_copies (st ty : Z) (ot tb : ptime PT) (t : TbTime) : list (kvTextData PT) :=
  tb_sensors t ≫= fun _ => tb_text_items st ty ot tb t.
Definition has_values (st ty : Z) (ot tb : ptime PT) (obs : Observations PT) : bool :=
  match obs_at st ty ot obs ≫= fun o => c_find ptime_lt tb (ot_tbtimes o) with
  | Some t => match tb_sensors t with [] => false | _ :: _ => true end
  | None => false
  end.

Lemma obs_all_texts x obs : omap get_txt (obs_all obs) = retag_text <$> for_each_obs tb_text_copies false x obs.
Proof.
  rewrite <- for_each_fmap. apply obs_all_map; [done|]. intros st ty ot t. unfold tb_all, tb_text_copies.
  rewrite omap_bind, fmap_bind. apply bind_ext_all. intros s.
  rewrite omap_app, (omap_nothing get_txt Val) by done. rewrite (omap_map _ _ id), list_fmap_id by done.
  apply tb_text_items_retag.
Qed.

Lemma text_copies_elem x y obs : obs_wf obs ->
  y ∈ for_each_obs tb_text_copies false x obs <->
  y ∈ obs_text_items false x obs /\ has_values (tx_stationid_ y) (tx_typeid_ y) (tx_obstime_ y) (tx_tbtime_ y) obs = true.
Proof.
  intros HW. unfold obs_text_items.
  assert (Hk : forall st ty ot tb t y, y ∈ tb_text_items st ty ot tb t ->
    tx_stationid_ y = st /\ tx_typeid_ y = ty /\ tx_obstime_ y = ot /\ tx_tbtime_ y = tb).
  { intros st ty ot tb t z Hz. unfold tb_text_items in Hz. by apply list_elem_of_fmap in Hz as (r & -> & _). }
  rewrite (for_each_obs_elem _ _ _ _ _ Hk _ x y HW).
  rewrite (for_each_obs_elem tb_text_copies tx_stationid_ tx_typeid_ tx_obstime_ tx_tbtime_); [| |exact HW].
  2:{ intros st ty ot tb t z Hz. apply list_elem_of_bind in Hz as (? & Hz & _). by eapply Hk. }
  unfold has_values, tb_text_copies. split.
  - intros (H1 & H2 & o & t & H3 & H4 & H5). apply list_elem_of_bind in H5 as (s & H5 & Hs).
    rewrite H3. cbn [mbind option_bind]. rewrite H4. split; [|by destruct (tb_sensors t); [apply elem_of_nil in Hs|]]. eauto 8.
  - intros [(H1 & H2 & o & t & H3 & H4 & H5) Hv]. rewrite H3 in Hv. cbn [mbind option_bind] in Hv. rewrite H4 in Hv.
    split; [done|]. split; [done|]. exists o, t. split; [done|]. split; [done|]. apply list_elem_of_bind.
    destruct (tb_sensors t) as [|s l]; [done|]. exists s. split; [done|left].
Qed.

Lemma obs_all_inval st ty ot obs : obs_wf obs -> time_key ot -> Inval st ty ot ∈ obs_all obs <-> inval_at st ty ot obs = true.
Proof.
  intros HW Hk. unfold inval_at. split.
  - unfold obs_all, station_all, type_all, ot_all. intros Hin.
    apply list_elem_of_bind in Hin as ([st' s] & Hin & Hs). apply list_elem_of_bind in Hin as ([ty' t] & Hin & Ht).
    apply list_elem_of_bind in Hin as ([ot' o] & Hin & Ho). cbn [fst snd] in *. apply elem_of_app in Hin as [Hin|Hin].
    + destruct (invalidate_ o) eqn:Ei; [|by apply elem_of_nil in Hin]. apply list_elem_of_singleton in Hin as [= -> -> ->].
      destruct (proj1 (obs_at_elem st' ty' ot' o _ HW)) as [_ ->]; eauto 10.
    + apply list_elem_of_bind in Hin as (tb & Hin & _). unfold tb_all in Hin.
      apply list_elem_of_bind in Hin as (? & Hin & _). apply elem_of_app in Hin as [Hin|Hin]; by apply list_elem_of_fmap in Hin as (? & ? & _).
  - destruct (obs_at st ty ot obs) as [o|] eqn:E; [|done]. cbn. intros Ei.
    destruct (proj2 (obs_at_elem st ty ot o _ HW) (conj Hk E)) as (s & t & H1 & H2 & H3).
    unfold obs_all. apply list_elem_of_bind. exists (st, s). split; [|done]. apply list_elem_of_bind. exists (ty, t). split; [|done].
    apply list_elem_of_bind. exists (ot, o). split; [|done]. unfold ot_all. cbn [fst snd]. rewrite Ei. left.
Qed.

Lemma time_text_key t : time_text_ok t -> time_key t.
Proof.
  intros (Hs & _). unfold time_key. destruct (is_not_a_date_time t) eqn:E; [|done].
  apply is_not_a_date_time_spec in E as ->. by rewrite not_a_date_time_special in Hs.
Qed.

Lemma read_tb_key tb : tb_key_ok tb -> key_tbtime (read_tb tb) = tb.
Proof.
  unfold tb_key_ok, read_tb, key_tbtime. destruct (is_special tb) eqn:E.
  - intros ->. by rewrite not_a_date_time_special.
  - by rewrite E.
Qed.

Lemma obs_all_times obs : Forall station_ok obs -> Forall item_time (obs_all obs).
Proof.
  intros Hobs. unfold obs_all. apply Forall_bind. eapply Forall_impl; [exact Hobs|]. intros s [_ Hs].
  apply Forall_bind. eapply Forall_impl; [exact Hs|]. intros t [_ Ht].
  apply Forall_bind. eapply Forall_impl; [exact Ht|]. intros o [Ho _]. apply time_text_key in Ho.
  unfold ot_all. apply Forall_app. split; [destruct (invalidate_ o.2); by repeat constructor|].
  apply Forall_forall. intros i Hi. apply list_elem_of_bind in Hi as (tb & Hi & _). unfold tb_all in Hi.
  apply list_elem_of_bind in Hi as (s' & Hi & Hs'). apply elem_of_app in Hi as [Hi|Hi]; apply list_elem_of_fmap in Hi as (y & -> & Hy).
  - assert (Hy' : y ∈ tb_items s.1 t.1 o.1 (read_tb tb.1) tb.2) by (apply list_elem_of_bind; eauto).
    apply tb_items_keys in Hy' as (_ & _ & Hy' & _). cbn. by rewrite Hy'.
  - unfold tb_text_items in Hy. by apply list_elem_of_fmap in Hy as (z & -> & _).
Qed.

Lemma obs_items_ok obs x : Forall station_ok obs ->
  Forall (fun d => tb_key_ok (tbtime_ d) /\ plain_sensor (sensor_ d) = sensor_ d) (obs_items false x obs) /\
  Forall (fun d => tb_key_ok (tx_tbtime_ d)) (obs_text_items false x obs).
Proof.
  intros Hobs. unfold obs_items, obs_text_items, for_each_obs.
  split; (apply Forall_bind; eapply Forall_impl; [exact Hobs|]; intros s [_ Hs];
    apply Forall_bind; eapply Forall_impl; [exact Hs|]; intros t [_ Ht];
    apply Forall_bind; eapply Forall_impl; [exact Ht|]; intros o [_ Ho];
    apply Forall_bind; eapply Forall_impl; [exact Ho|]; intros tb (Htb & Hse & Htx)).
  - unfold tb_items. apply Forall_bind. eapply Forall_impl; [exact Hse|]. intros se (_ & Hp & _). unfold sensor_items.
    apply Forall_bind, Forall_true. intros l. unfold level_items. apply Forall_fmap, Forall_true. intros r. by split.
  - unfold tb_text_items. apply Forall_fmap, Forall_true. intros r. done.
Qed.

(** ** The document and the object *)

(** A value is stored for one time of arrival, and no text has a parameter that is
    the sensor of a value of its observation. *)
Definition one_arrival (obs : Observations PT) : Prop :=
  forall st ty ot tb tb' s l p c c', time_key ot -> time_key tb -> time_key tb' ->
    value_at st ty ot tb s l p obs = Some c -> value_at st ty ot tb' s l p obs = Some c' -> tb = tb'.
Definition no_clash (obs : Observations PT) : Prop :=
  forall st ty ot tb tb' p x l q c, time_key ot -> time_key tb -> time_key tb' ->
    text_at st ty ot tb p obs = Some x -> value_at st ty ot tb' p l q obs <> Some c.

Record writable (d : KvalobsData PT) : Prop := {
  writable_wf : obs_wf (obs_ d);
  writable_values : Forall station_ok (obs_ d);
  writable_arrival : one_arrival (obs_ d);
  writable_texts : no_clash (obs_ d);
  writable_rejects : Forall reject_ok (correctedMessages_ d)
}.

Definition all_items (d : KvalobsData PT) (x : ptime PT) := obs_items false x (obs_ d).

Lemma has_key_retag st ty (ot : ptime PT) s l p (d : kvData PT) : has_key st ty ot s l p (retag d) <-> has_key st ty ot s l p d.
Proof. done. Qed.

Lemma filter_fmap {A B} (f : A -> B) (P : B -> Prop) (Q : A -> Prop) `{!forall x, Decision (P x), !forall x, Decision (Q x)} (l : list A) :
  Forall (fun a => P (f a) <-> Q a) l -> filter P (f <$> l) = f <$> filter Q l.
Proof.
  induction 1 as [|a l Ha Hl IH]; [done|]. cbn [fmap list_fmap]. rewrite !filter_cons, IH.
  do 2 case_decide; (done || tauto).
Qed.

Lemma filter_retag st ty (ot : ptime PT) s l p (ds : list (kvData PT)) :
  filter (has_key st ty ot s l p) (retag <$> ds) = retag <$> filter (has_key st ty ot s l p) ds.
Proof. by apply filter_fmap, Forall_true. Qed.

Lemma filter_retag_text st ty ot tb p (ds : list (kvTextData PT)) :
  Forall (fun x => tb_key_ok (tx_tbtime_ x)) ds ->
  filter (text_key st ty ot tb p) (retag_text <$> ds) =
    retag_text <$> filter (fun x => tx_stationid_ x = st /\ tx_typeid_ x = ty /\ tx_obstime_ x = ot /\ tx_tbtime_ x = tb /\ tx_paramid_ x = p) ds.
Proof.
  intros Hds. apply filter_fmap. eapply Forall_impl; [exact Hds|]. intros x Hx. unfold text_key. cbn. by rewrite read_tb_key.
Qed.

Lemma item_value d x e : writable d -> e ∈ all_items d x ->
  time_key (obstime_ e) /\ time_key (tbtime_ e) /\ key_tbtime (read_tb (tbtime_ e)) = tbtime_ e /\
  plain_sensor (sensor_ e) = sensor_ e /\
  value_at (stationid_ e) (typeid_ e) (obstime_ e) (tbtime_ e) (sensor_ e) (level_ e) (paramid_ e) (obs_ d) = Some (DataContent_of e).
Proof.
  intros HW Hin. destruct (obs_items_ok (obs_ d) x (writable_values _ HW)) as [Hi _].
  rewrite Forall_forall in Hi. destruct (Hi _ Hin) as [Htb Hs]. apply obs_items_elem in Hin as (H1 & H2 & H3); [|apply HW].
  split; [done|]. split; [done|]. split; [by apply read_tb_key|]. done.
Qed.

Lemma item_of_value d x st ty ot tb s l p c : writable d -> time_key ot -> time_key tb ->
  value_at st ty ot tb s l p (obs_ d) = Some c ->
  exists e, e ∈ all_items d x /\ has_key st ty ot s l p e /\ tbtime_ e = tb /\ DataContent_of e = c.
Proof.
  intros HW Hot Htb Hv.
  set (e := kvData_set st ot (dc_original c) p tb ty s l (dc_corrected c) (dc_controlinfo c) (dc_useinfo c) (dc_cfailed c)).
  assert (Ec : DataContent_of e = c) by (by destruct c).
  assert (Hin : e ∈ all_items d x).
  { apply obs_items_elem; [apply HW|]. rewrite Ec. by subst e. }
  exists e. split; [done|]. apply (item_value d x) in Hin as (_ & _ & _ & Hs & _); [|done]. by subst e.
Qed.

(** The values that the items store again are the values of the object. *)
Lemma items_values d k st ty ot tb s l p : writable d -> obs_ k = [] -> time_key ot -> time_key tb ->
  value_at st ty ot tb s l p (obs_ (foldl add_item k (obs_all (obs_ d)))) = value_at st ty ot tb s l p (obs_ d).
Proof.
  intros HW Hk Hot Htb. pose proof (obs_all_times _ (writable_values _ HW)) as Ht.
  rewrite add_items_values; [|done..|].
  2:{ intros y Hy (E1 & E2 & E3 & E4). destruct (filter _ _) as [|e F] eqn:EF; [done|exfalso].
      assert (He : e ∈ e :: F) by left. rewrite <- EF, (obs_all_values ot), filter_retag in He.
      apply list_elem_of_fmap in He as (e' & -> & He'). apply list_elem_of_filter in He' as [((K1 & K2 & K3) & K4 & K5 & K6) He'].
      apply (item_value d ot) in He' as (G1 & G2 & _ & G3 & G4); [|done]. rewrite G3 in K4.
      assert (Hy' : y ∈ omap get_txt (obs_all (obs_ d))) by (apply list_elem_of_omap; by exists (Txt y)).
      rewrite (obs_all_texts ot) in Hy'. apply list_elem_of_fmap in Hy' as (y' & -> & Hy').
      apply text_copies_elem in Hy' as [Hy' _]; [|apply HW].
      apply obs_text_items_elem in Hy' as (T1 & T2 & T3); [|apply HW]. cbn in E1, E2, E3, E4.
      rewrite E1, E2, E3, E4 in T3. rewrite K1, K2, K3, K4 in G4.
      eapply (writable_texts _ HW); [exact Hot|exact T2|exact G2|exact T3|exact G4]. }
  rewrite (obs_all_values ot), filter_retag, fmap_last.
  destruct (last _) as [e|] eqn:E; cbn [fmap option_fmap option_map mbind option_bind].
  - apply last_filter_Some in E as [((K1 & K2 & K3) & K4 & K5 & K6) He].
    apply (item_value d ot) in He as (G1 & G2 & G3 & G4 & G5); [|done]. rewrite G4 in K4. subst.
    change (tbtime_ (retag e)) with (read_tb (tbtime_ e)). rewrite G3. change (DataContent_of (retag e)) with (DataContent_of e).
    case_decide as Hd; [by subst|]. destruct (value_at _ _ _ tb _ _ _ _) as [c|] eqn:Ec; [|done].
    exfalso. apply Hd. eapply (writable_arrival _ HW); [..|exact G5|exact Ec]; done.
  - destruct (value_at _ _ _ tb _ _ _ _) as [c|] eqn:Ec; [|done]. exfalso.
    apply (item_of_value d ot) in Ec as (e & He & Hk' & _); [|done..]. apply last_None in E.
    assert (Hin : e ∈ filter (has_key st ty ot s l p) (all_items d ot)) by (by apply list_elem_of_filter).
    unfold all_items in Hin. rewrite E in Hin. by apply elem_of_nil in Hin.
Qed.

(** The texts that are stored again are those of the times of arrival with values. *)
Lemma items_texts d k st ty ot tb p : writable d -> obs_ k = [] -> time_key ot -> time_key tb ->
  text_at st ty ot tb p (obs_ (foldl add_item k (obs_all (obs_ d)))) =
    if has_values st ty ot tb (obs_ d) then text_at st ty ot tb p (obs_ d) else None.
Proof.
  intros HW Hk Hot Htb. pose proof (obs_all_times _ (writable_values _ HW)) as Ht. pose proof (writable_wf _ HW) as Hwf.
  destruct (obs_items_ok (obs_ d) ot (writable_values _ HW)) as [_ Hi].
  assert (Hc : Forall (fun x => tb_key_ok (tx_tbtime_ x)) (for_each_obs tb_text_copies false ot (obs_ d))).
  { apply Forall_forall. intros y Hy. apply text_copies_elem in Hy as [Hy _]; [|done]. rewrite Forall_forall in Hi. by apply Hi. }
  rewrite add_items_texts, (obs_all_texts ot), filter_retag_text, fmap_last by done.
  destruct (last _) as [e|] eqn:E; cbn [fmap option_fmap option_map].
  - apply last_filter_Some in E as [(<- & <- & <- & <- & <-) He]. apply text_copies_elem in He as [He ->]; [|done].
    by apply obs_text_items_elem in He as (_ & _ & ->).
  - destruct (has_values _ _ _ _ _) eqn:Hv; [|done].
    destruct (text_at _ _ _ tb _ _) as [c|] eqn:Ec; [|done]. exfalso. apply last_None in E.
    set (e := kvTextData_set st ot c p tb ty).
    assert (Hin : e ∈ for_each_obs tb_text_copies false ot (obs_ d)).
    { apply text_copies_elem; [done|]. split; [by apply obs_text_items_elem|done]. }
    assert (Hin' : e ∈ @nil (kvTextData PT)) by (rewrite <- E; by apply list_elem_of_filter). by apply elem_of_nil in Hin'.
Qed.

Lemma items_inval d k st ty ot : writable d -> obs_ k = [] -> time_key ot ->
  inval_at st ty ot (obs_ (foldl add_item k (obs_all (obs_ d)))) = inval_at st ty ot (obs_ d).
Proof.
  intros HW Hk Hot. rewrite add_items_inval by (done || apply obs_all_times, HW).
  pose proof (obs_all_inval st ty ot _ (writable_wf _ HW) Hot) as E. case_bool_decide as Hi; [by rewrite (proj1 E)|].
  destruct (inval_at st ty ot (obs_ d)); [exfalso; by apply Hi, E|done].
Qed.

(** The texts of the document are plain. *)
Lemma plain_leaf name t : plain_text t -> plain_node (text_child name t).
Proof. intros Ht. constructor. repeat constructor. exact Ht. Qed.

Lemma mapM_plain {A} (f : A -> option node) (l : list A) ns :
  mapM f l = Some ns -> Forall (fun a => forall n, f a = Some n -> plain_node n) l -> Forall plain_node ns.
Proof.
  intros E Hl. revert ns E. induction Hl as [|a l Ha Hl IH]; intros ns E; [by injection E as <-|].
  cbn [mapM] in E. destruct (f a) as [n|] eqn:En; [|done]. cbn [mbind option_bind] in E.
  destruct (mapM f l) as [ns'|]; [|done]. injection E as <-. constructor; auto.
Qed.

Lemma plain_kvdata r : content_ok r.2 -> plain_node (kvdata_node r).
Proof.
  destruct r as [p c]. intros ((_ & _ & H1 & _) & (_ & _ & H2 & _) & [_ H3]%flagstring_plain & [_ H4]%flagstring_plain & [H5 _]).
  constructor. repeat (apply Forall_cons; split; [by apply plain_leaf|]). constructor.
Qed.

Lemma plain_tbtime t : tb_ok t -> plain_node (tbtime_node t).
Proof.
  intros (_ & Hs & Hx). constructor. apply Forall_bind. eapply Forall_impl; [exact Hs|]. intros s (_ & _ & Hl). constructor.
  - constructor. apply Forall_fmap.
    eapply Forall_impl; [exact Hl|]. intros l [_ Hr]. constructor. apply Forall_fmap.
    eapply Forall_impl; [exact Hr|]. intros r [_ Hc]. by apply plain_kvdata.
  - apply Forall_fmap. eapply Forall_impl; [exact Hx|]. intros r (_ & Hw & _). constructor. repeat constructor. exact Hw.
Qed.

Lemma plain_station s n : station_ok s -> station_node s = Some n -> plain_node n.
Proof.
  intros [_ Ht]. unfold station_node. destruct (mapM type_node s.2) as [ns|] eqn:E; [|done]. intros <-%Some_inj.
  constructor. apply (mapM_plain _ _ _ E). eapply Forall_impl; [exact Ht|]. clear E ns Ht s. intros t [_ Ho] n.
  unfold type_node. destruct (mapM obstime_node t.2) as [ns|] eqn:E; [|done]. intros <-%Some_inj.
  constructor. apply (mapM_plain _ _ _ E). eapply Forall_impl; [exact Ho|]. intros o Hok n.
  rewrite obstime_node_ok by done. intros <-%Some_inj. constructor. apply Forall_fmap.
  destruct Hok as [_ Hok]. eapply Forall_impl; [exact Hok|]. apply plain_tbtime.
Qed.

Lemma plain_rejected l ns : Forall reject_ok l -> rejected_nodes l = Some ns -> Forall plain_node ns.
Proof.
  intros Hl. unfold rejected_nodes. case_bool_decide as El; [by intros <-%Some_inj|].
  destruct (mapM decoder_node _) as [gs|] eqn:E; [|done]. intros <-%Some_inj. apply Forall_singleton. constructor.
  apply (mapM_plain _ _ _ E). eapply Forall_impl; [exact (sorted_rejects_forall _ _ Hl)|]. intros g Hg n.
  unfold decoder_node. destruct (mapM message_node g.2) as [ms|] eqn:E'; [|done]. intros <-%Some_inj. constructor.
  apply (mapM_plain _ _ _ E'). eapply Forall_impl; [exact Hg|]. intros r [(Hs & _ & Hw & _) _] m.
  unfold message_node, to_kvalobs_string. rewrite Hs. intros <-%Some_inj. constructor. apply Forall_singleton. by constructor.
Qed.

(** ** The whole document *)

Definition created_of (now : ptime PT) (d : KvalobsData PT) : ptime PT := if is_special (created_ d) then now else created_ d.

(** The object after the first element of a document. *)
Definition head_of (now : ptime PT) (d : KvalobsData PT) : KvalobsData PT :=
  {| overwrite_ := overwrite_ d; obs_ := []; correctedMessages_ := []; created_ := created_of now d;
     kd_producer := kd_producer d; kd_msgid := kd_msgid d |}.

Lemma of_bytes_default s : of_bytes (default [] (if bool_decide (s = ""%string) then None else Some (to_bytes s))) = s.
Proof. case_bool_decide as E; [by subst|]. cbn. by rewrite of_to_bytes. Qed.

Lemma root_start now d defaultProducer : time_text_ok (created_of now d) ->
  exists attributes, (forall stations rejects,
    mapM station_node (obs_ d) = Some stations -> rejected_nodes (correctedMessages_ d) = Some rejects ->
    serialize defaultProducer now d = Some (Element "KvalobsData" attributes (stations ++ rejects))) /\
  on_start_element H "KvalobsData" attributes (St KvalobsData_new ∅ []) = inl (St (head_of now d) ∅ ["KvalobsData"%string]).
Proof.
  intros (Hs & Hr & Hne). eexists. split.
  - intros stations rejects E1 E2. unfold serialize, serialize_with, toString. cbn [data_ Serializer_of]. rewrite E1, E2.
    cbn [mbind option_bind]. fold (created_of now d). reflexivity.
  - rewrite Hs. unfold ser_producer, ser_msgid. cbn [bci Serializer_of fst snd].
    replace (if bool_decide (kd_producer d = ""%string) then kd_producer d else kd_producer d) with (kd_producer d) by (by case_match).
    replace (if bool_decide (kd_msgid d = ""%string) then kd_msgid d else kd_msgid d) with (kd_msgid d) by (by case_match).
    set (attrs := _ ++ _).
    change (on_start_element H "KvalobsData" attrs (St KvalobsData_new ∅ [])) with
      (on_KvalobsData attrs (St KvalobsData_new ∅ ["KvalobsData"%string])).
    assert (E : find_attr "created" attrs = Some (kvalobs_text (created_of now d)) /\
       find_attr "producer" attrs = (if bool_decide (kd_producer d = ""%string) then None else Some (to_bytes (kd_producer d))) /\
       find_attr "msgid" attrs = (if bool_decide (kd_msgid d = ""%string) then None else Some (to_bytes (kd_msgid d))) /\
       find_attr "overwrite" attrs = (if overwrite_ d then Some (to_bytes "1") else None)).
    { subst attrs. unfold attribute_unless_empty. by destruct (overwrite_ d), (bool_decide (kd_producer d = _)), (bool_decide (kd_msgid d = _)). }
    destruct E as (E1 & E2 & E3 & E4). unfold on_KvalobsData, get_attr, has_attr. rewrite E1, E2, E3, E4. change (default [] (Some (kvalobs_text (created_of now d)))) with (kvalobs_text (created_of now d)). rewrite Hr.
    unfold set_msgid, set_producer, set_created, set_overwrite, with_data, St, head_of. cbn. rewrite !of_bytes_default.
    by destruct (overwrite_ d).
Qed.

Lemma add_item_rest k i : add_item k i = with_obs k (obs_ (add_item k i)).
Proof. by destruct i. Qed.
Lemma add_items_rest k l : foldl add_item k l = with_obs k (obs_ (foldl add_item k l)).
Proof.
  revert k. induction l as [|i l IH]; intros k; [by destruct k|]. cbn [foldl]. rewrite IH, add_item_rest. by destruct i.
Qed.

(** What any reading of the document of an object gives. *)
Definition same_object (now : ptime PT) (d d' : KvalobsData PT) : Prop :=
  overwrite_ d' = overwrite_ d /\ created_ d' = created_of now d /\ kd_producer d' = kd_producer d /\ kd_msgid d' = kd_msgid d /\
  correctedMessages_ d' = reject_groups (correctedMessages_ d) /\ obs_wf (obs_ d') /\
  (forall st ty ot tb s l p, time_key ot -> time_key tb ->
     value_at st ty ot tb s l p (obs_ d') = value_at st ty ot tb s l p (obs_ d)) /\
  (forall st ty ot tb p, time_key ot -> time_key tb ->
     text_at st ty ot tb p (obs_ d') = if has_values st ty ot tb (obs_ d) then text_at st ty ot tb p (obs_ d) else None) /\
  (forall st ty ot, time_key ot -> inval_at st ty ot (obs_ d') = inval_at st ty ot (obs_ d)).

Lemma read_document now d n defaultProducer : writable d -> time_text_ok (created_of now d) ->
  serialize defaultProducer now d = Some n -> forall evs, sax n evs ->
  exists d', parse evs KvalobsData_new = inl d' /\ same_object now d d'.
Proof.
  intros HW Hc Hn evs Hev. pose proof (writable_values _ HW) as Hv. pose proof (writable_rejects _ HW) as Hr.
  destruct (mapM_total station_node (obs_ d)) as [ns Ens];
    [eapply Forall_impl; [exact Hv|apply station_node_total]|].
  destruct (rejected_nodes_total _ Hr) as [rs Ers].
  destruct (root_start now d defaultProducer Hc) as (attrs & Edoc & Est). rewrite (Edoc _ _ Ens Ers) in Hn.
  apply Some_inj in Hn. subst n.
  assert (Hplain : plain_node (Element "KvalobsData" attrs (ns ++ rs))).
  { constructor. apply Forall_app. split; [|by eapply plain_rejected]. apply (mapM_plain _ _ _ Ens).
    eapply Forall_impl; [exact Hv|]. intros s Hs n. by apply plain_station. }
  destruct (run_mapM station_node station_all (absent inner_names) ["KvalobsData"%string] (obs_ d) ns Ens)
    with (d := head_of now d) (c := (∅ : Context_)) as (c & Er & Hab).
  { intros s n k c Hs En Hab. rewrite Forall_forall in Hv. apply (run_station _ _ _ s); auto. }
  { unfold absent. apply Forall_true. intros k. apply lookup_empty. }
  set (k1 := foldl add_item (head_of now d) (obs_ d ≫= station_all)) in Er.
  exists (add_rejects k1 (reject_groups (correctedMessages_ d))). split.
  - unfold parse. change {| p_data := _; context_ := _; currentContext_ := _ |} with (St KvalobsData_new (∅ : Context_) []).
    rewrite (run_sax H parser_ignores_blanks _ Hplain _ _ Hev), run_element, Est. cbn [bind_sum].
    rewrite run_nodes_app, Er. cbn [bind_sum]. rewrite (run_rejected _ _ _ _ _ Hab Hr Ers). done.
  - rewrite add_rejects_messages. unfold same_object. cbn [overwrite_ created_ kd_producer kd_msgid correctedMessages_ obs_].
    unfold k1. rewrite add_items_rest. cbn [overwrite_ created_ kd_producer kd_msgid correctedMessages_ obs_ with_obs head_of app].
    repeat (split; [done|]). split; [apply add_items_wf; [by apply obs_all_times|apply c_wf_nil]|].
    split; [intros; by apply items_values|]. split; [intros; by apply items_texts|intros; by apply items_inval].
Qed.


(** Objects that insertions build, when no text has a parameter that is the sensor
    of a value, keep one value of a key and no clash. *)
Definition apart (l : list item) : Prop :=
  forall v x, Val v ∈ l -> Txt x ∈ l -> stationid_ v = tx_stationid_ x -> typeid_ v = tx_typeid_ x ->
    obstime_ v = tx_obstime_ x -> plain_sensor (sensor_ v) <> tx_paramid_ x.

Lemma apart_values l : apart l -> forall st ty ot s le p x, Txt x ∈ l -> clash st ty ot s x ->
  filter (has_key st ty ot s le p) (omap get_val l) = [].
Proof.
  intros Ha st ty ot s le p x Hx (C1 & C2 & C3 & C4). apply elem_of_nil_inv. intros v Hv.
  apply list_elem_of_filter in Hv as [((K1 & K2 & K3) & K4 & _) Hv]. apply list_elem_of_omap in Hv as ([|v'|] & Hv & E); try done.
  injection E as ->. apply (Ha v x Hv Hx); congruence.
Qed.

Lemma built_writable k l : obs_ k = [] -> Forall item_time l -> apart l ->
  let obs := obs_ (foldl add_item k l) in obs_wf obs /\ one_arrival obs /\ no_clash obs.
Proof.
  intros Hk Hl Ha obs. assert (Hw0 : obs_wf (obs_ k)) by (rewrite Hk; apply c_wf_nil).
  split; [by apply add_items_wf|]. split.
  - intros st ty ot tb tb' s le p c c' Hot Htb Htb'. unfold obs.
    rewrite !add_items_values by (done || intros x Hx Hc; by eapply apart_values).
    destruct (last _) as [d|]; cbn [mbind option_bind]; [|done]. do 2 case_decide; congruence.
  - intros st ty ot tb tb' p x le q c Hot Htb Htb'. unfold obs.
    rewrite add_items_texts, add_items_values by (done || intros y Hy Hc; by eapply apart_values).
    destruct (last (filter (text_key _ _ _ _ _) _)) as [y|] eqn:E1; [|done]. intros _.
    destruct (last (filter (has_key _ _ _ _ _ _) _)) as [v|] eqn:E2; [|done].
    apply last_filter_Some in E1 as [(T1 & T2 & T3 & T4 & T5) Hy]. apply last_filter_Some in E2 as [((K1 & K2 & K3) & K4 & _) Hv].
    apply list_elem_of_omap in Hy as ([| |y'] & Hy & Ey); try done. injection Ey as ->.
    apply list_elem_of_omap in Hv as ([|v'|] & Hv & Ev); try done. injection Ev as ->.
    exfalso. apply (Ha v y Hv Hy); congruence.
Qed.

#[export] Instance content_ok_dec c : Decision (content_ok c).
Proof. unfold content_ok, show_ok, words_ok. apply _. Defined.
#[export] Instance int_ok_dec z : Decision (int_ok z).
Proof. unfold int_ok. apply _. Defined.
#[export] Instance level_ok_dec l : Decision (level_ok l).
Proof. unfold level_ok. apply _. Defined.
#[export] Instance sensor_elems_ok_dec s : Decision (sensor_elems_ok s).
Proof. unfold sensor_elems_ok. apply _. Defined.
#[export] Instance time_text_ok_dec t : Decision (time_text_ok t).
Proof. unfold time_text_ok. apply _. Defined.
#[export] Instance tb_ok_dec t : Decision (tb_ok t).
Proof.
  assert (forall tb, Decision (tb_key_ok tb)) by (intros tb; unfold tb_key_ok; destruct (is_special tb); apply _).
  unfold tb_ok, words_ok. apply _.
Defined.
#[export] Instance obstime_ok_dec o : Decision (obstime_ok o).
Proof. unfold obstime_ok. apply _. Defined.
#[export] Instance type_ok_dec t : Decision (type_ok t).
Proof. unfold type_ok. apply _. Defined.
#[export] Instance station_ok_dec s : Decision (station_ok s).
Proof. unfold station_ok. apply _. Defined.
#[export] Instance reject_ok_dec r : Decision (reject_ok r).
Proof.
  unfold reject_ok, words_ok.
  assert (Decision (time_from_string_nothrow (kvalobs_text (rd_tbtime r)) = Time (rd_tbtime r))) by
    (destruct (time_from_string_nothrow _) as [t|]; [destruct (decide (t = rd_tbtime r)) as [->|]; [by left|right; congruence]|by right]).
  apply _.
Defined.

End effect.

(** ** Concrete instances *)

(** Times of day of [stamp]: "hh:mm:ss". *)
#[export] Instance stamp_show : PTimeShow stamp_time :=
  {| time_of_day_string t := setw2 (pt_hours t) ++ ":"%char :: setw2 (pt_minutes t) ++ ":"%char :: setw2 (pt_seconds t) |}.

(** Whole numbers as text. *)
Definition whole_show : BoostShow :=
  {| lexical_show_double f := match Dbl.to_int f with Some z => show_int z | None => to_bytes "nan" end |}.
Definition whole_float : BoostFloat := {| lexical_cast_float s := Dbl.of_Z <$> lexical_cast_int (BoostText := boost_text) s |}.

Definition legal_flags : kvDataFlag := {| flag_ := replicate 16 "1"%char |}.
Definition sample_value (ty s p v : Z) (ot tb : stamp) : kvData stamp_time :=
  kvData_set (PT := stamp_time) 18700 ot (Dbl.of_Z v) p tb ty s 0 (Dbl.of_Z v) {| ci_base := legal_flags |} {| ui_base := legal_flags |} "QC1".
Definition sample_items : list (item (PT := stamp_time)) :=
  [Val (sample_value 501 0 211 (-7) (At 3600) (At 3660)); Val (sample_value 501 0 211 12 (At 3600) (At 3720));
   Val (sample_value 501 1 211 13 (At 3600) (At 3720)); Txt (kvTextData_set (PT := stamp_time) 18700 (At 3600) "a b" 1000 (At 3720) 501);
   Inval (PT := stamp_time) 18700 502 (At 7200); Val (sample_value 503 0 110 3 (At 7200) NaDT)].
Definition sample_object : KvalobsData stamp_time :=
  add_rejects (foldl add_item KvalobsData_new sample_items)
    [{| rd_message := "x=1"; rd_tbtime := At 0 : ptime stamp_time; rd_decoder := "kldata"; rd_comment := "c"; rd_fixed := true |}].

Lemma sample_apart : apart sample_items.
Proof.
  intros v x Hv Hx _ _ _. assert (plain_sensor (sensor_ v) < 10).
  { unfold sample_items in Hv. rewrite !elem_of_cons in Hv.
    destruct Hv as [[= ->]|[[= ->]|[[= ->]|[?|[?|[[= ->]|Hv]]]]]]; try done; try (by vm_compute). by apply elem_of_nil in Hv. }
  assert (tx_paramid_ x = 1000).
  { unfold sample_items in Hx. rewrite !elem_of_cons in Hx.
    destruct Hx as [?|[?|[?|[[= ->]|[?|[?|Hx]]]]]]; try done. by apply elem_of_nil in Hx. }
  lia.
Qed.

Lemma sample_writable :
  writable (BF := whole_float) (SD := whole_show) (BT := boost_text) sample_object.
Proof.
  assert (Ht : Forall item_time sample_items) by (repeat constructor).
  unfold sample_object. rewrite add_rejects_messages.
  destruct (built_writable KvalobsData_new sample_items eq_refl Ht sample_apart) as (H1 & H2 & H3).
  split; cbn [obs_ correctedMessages_]; [done| |done|done|].
  - by_decision.
  - by_decision.
Qed.


(** A text whose characters come in two calls: what the first call gave is lost. *)
Lemma characters_overwrites :
  run_events (KvalobsDataParser (BF := whole_float) (BT := boost_text) (PT := stamp_time))
    [Start "original" []; Characters (to_bytes "rain "); Characters (to_bytes "& snow"); End_ "original"]
    (St KvalobsData_new ∅ []) =
  inl (St KvalobsData_new {["original" := to_bytes "& snow"]} []).
Proof. by vm_compute. Qed.

(** The text of the element [Characters_of "rain & snow"] may be read in that way. *)
Lemma two_chunks :
  sax (text_child "original" (to_bytes "rain & snow"))
    [Start "original" []; Characters (to_bytes "rain "); Characters (to_bytes "& snow"); End_ "original"].
Proof.
  unfold text_child.
  apply (sax_element "original" [] [Characters_of (to_bytes "rain & snow")] [Characters (to_bytes "rain "); Characters (to_bytes "& snow")]).
  apply (sax_cons false (Characters_of (to_bytes "rain & snow")) [] [] [Characters (to_bytes "rain "); Characters (to_bytes "& snow")] []);
    [constructor|done| |by constructor].
  apply (sax_text _ [to_bytes "rain "; to_bytes "& snow"]); [done|by repeat constructor|].
  intros Hp. exfalso. revert Hp. change (~ plain_text (to_bytes "rain & snow")). by_decision.
Qed.

(** A text of a time of arrival without values is not written. *)
Lemma text_not_written :
  let d := foldl add_item KvalobsData_new [Txt (kvTextData_set (PT := stamp_time) 18700 (At 3600) "fog" 1000 (At 3720) 501)] in
  text_at (PT := stamp_time) 18700 501 (At 3600) (At 3720) 1000 (obs_ d) = Some "fog"%string /\
  serialize (SD := whole_show) "" (At 86400 : ptime stamp_time) d =
    Some (Element "KvalobsData" [("created", to_bytes "1970-01-02 00:00:00")]
      [set_ "station" (to_bytes "18700") [set_ "typeid" (to_bytes "501") [set_ "obstime" (to_bytes "1970-01-01 01:00:00")
        [set_ "tbtime" (to_bytes "1970-01-01 01:02:00") []]]]]).
Proof. by vm_compute. Qed.
