(* ===== verification/Formatter.v ===== *)
(** * Values as lines of text (src/src/lib/decodeutility/kvDataFormatter.cc, .h)

    A list of values is written with a line for each value and fields between bars,
    and read with [CommaString]. *)

From stdpp Require Import pretty.
From S2P Require Import Prelude Orders PTime TimeText DataFlag ControlInfo UseInfo KvData KvDataOps KvalobsData Scanning CronString Conf Text CommaString Xml Serial.

#[local] Open Scope Z_scope.

(** A [double] in a stream, and read with [lexical_cast<double>]. *)
Class StreamDouble := {
  stream_double : spec_float -> bytes;
  lexical_cast_double : bytes -> option spec_float
}.

Definition mainSeparator : ascii := char_of 10.
Definition internSeparator : ascii := "|"%char.

Section Formatter.
  Context {PT : PTime} {PC : PCalendar PT} {PS : PTimeShow PT} {BT : BoostText} {TT : PTimeText PT} {SD : StreamDouble}.

(** The fields of a value, and its line; [None] is the exception of a special
    time. *)
Definition shown_sensor (d : kvData PT) : Z := if 9 <? sensor_ d then sensor_ d - char_0 else sensor_ d.

Definition createFields (d : kvData PT) : option (list bytes) :=
  obt ← to_kvalobs_string (obstime_ d);
  tbt ← to_kvalobs_string (tbtime_ d);
  Some [show_int (stationid_ d); obt; stream_double (original_ d); show_int (paramid_ d); tbt; show_int (typeid_ d);
        show_int (shown_sensor d); show_int (level_ d); stream_double (corrected_ d);
        to_bytes (flagstring (controlinfo_ d)); to_bytes (flagstring (useinfo_ d)); to_bytes (cfailed_ d)].

Definition createString (d : kvData PT) : option bytes := join [internSeparator] <$> createFields d.

Definition createString_list (dl : list (kvData PT)) : option bytes := join [mainSeparator] <$> mapM createString dl.

(** [createString(first, last)]. *)
Definition createString_range (dl : list (kvData PT)) : option bytes :=
  (fun ls => concat ((fun l => l ++ [mainSeparator]) <$> ls)) <$> mapM createString dl.

(** One line: [None] when the list of fields is read past its end, [inr] for the
    exceptions that become [InvalidInput]. *)
Inductive parse_failure := InvalidInput.

Definition cs_time (cs : CommaString) (x : nat) : option (ptime PT) :=
  e ← cs_at cs x; match time_from_string_nothrow (el_text e) with Time t => Some t | Escapes => None end.
Definition cs_int (cs : CommaString) (x : nat) : option Z := e ← cs_at cs x; lexical_cast_int (el_text e).
Definition cs_double (cs : CommaString) (x : nat) : option spec_float := e ← cs_at cs x; lexical_cast_double (el_text e).
Definition cs_string (cs : CommaString) (x : nat) : option string := e ← cs_at cs x; Some (of_bytes (el_text e)).

Definition parse_values (internCS : CommaString) : option (kvData PT) :=
  pos ← cs_int internCS 0;
  obt ← cs_time internCS 1;
  org ← cs_double internCS 2;
  par ← cs_int internCS 3;
  tbt ← cs_time internCS 4;
  typ ← cs_int internCS 5;
  sen ← cs_int internCS 6;
  lvl ← cs_int internCS 7;
  cor ← cs_double internCS 8;
  cIn ← cs_string internCS 9;
  uin ← cs_string internCS 10;
  fai ← cs_string internCS 11;
  Some (kvData_set pos obt org par tbt typ sen lvl cor (kvControlInfo_of_string cIn) (kvUseInfo_of_string uin) fai).

Definition parse_line (current : bytes) : option (kvData PT + parse_failure) :=
  internCS ← CommaString_of current internSeparator;
  Some (match parse_values internCS with Some d => inl d | None => inr InvalidInput end).

Fixpoint parse_lines (l : list Elem) : option (list (kvData PT) + parse_failure) :=
  match l with
  | [] => Some (inl [])
  | e :: l =>
      if bool_decide (el_text e = []) then parse_lines l
      else
        r ← parse_line (el_text e);
        match r with
        | inr f => Some (inr f)
        | inl d => r ← parse_lines l; Some (match r with inl ds => inl (d :: ds) | inr f => inr f end)
        end
  end.

(** [getKvData]. *)
Definition getKvData (s : bytes) : option (list (kvData PT) + parse_failure) :=
  mainCS ← CommaString_of s mainSeparator; parse_lines (cs_data mainCS).

(** ** Properties *)

Context {BTL : BoostTextLaws BT}.

(** Text that is a field of a line as it stands. *)
Definition field_char (c : ascii) : Prop := c ∉ [mainSeparator; internSeparator; quotation_mark].
Definition field_text (t : bytes) : Prop := Forall field_char t /\ unpadded t.
#[export] Instance field_text_dec t : Decision (field_text t).
Proof. unfold field_text, field_char. apply _. Defined.

Definition time_field (t : ptime PT) : Prop :=
  is_special t = false /\ field_text (kvalobs_text t) /\ time_from_string_nothrow (kvalobs_text t) = Time t.
Definition double_field (x : spec_float) : Prop :=
  field_text (stream_double x) /\ lexical_cast_double (stream_double x) = Some x.

Record printable (d : kvData PT) : Prop := {
  printable_ints : Forall int_ok [stationid_ d; paramid_ d; typeid_ d; shown_sensor d; level_ d];
  printable_times : time_field (obstime_ d) /\ time_field (tbtime_ d);
  printable_doubles : double_field (original_ d) /\ double_field (corrected_ d);
  printable_flags : flag_legal (controlinfo_ d) /\ flag_legal (useinfo_ d);
  printable_cfailed : field_text (to_bytes (cfailed_ d))
}.

(** The value with the sensor as a number. *)
Definition shown (d : kvData PT) : kvData PT :=
  kvData_set (stationid_ d) (obstime_ d) (original_ d) (paramid_ d) (tbtime_ d) (typeid_ d) (shown_sensor d) (level_ d)
    (corrected_ d) (controlinfo_ d) (useinfo_ d) (cfailed_ d).

Lemma chars_field (p : ascii -> bool) t :
  (forall c, p c = true -> field_char c /\ not_blank c) -> Forall (fun c => p c = true) t -> field_text t.
Proof.
  intros Hp Ht. split; [|apply unpadded_all]; (eapply Forall_impl; [exact Ht|]; intros c Hc; by apply Hp).
Qed.

Definition int_char (c : ascii) : bool := is_digit c || bool_decide (c = "-"%char).

Lemma int_char_field c : int_char c = true -> field_char c /\ not_blank c.
Proof. revert c. apply (ascii_forall (fun c => int_char c = true -> field_char c /\ not_blank c)). by_decision. Qed.
Lemma hex_char_field c : hex_char c = true -> field_char c /\ not_blank c.
Proof. revert c. apply (ascii_forall (fun c => hex_char c = true -> field_char c /\ not_blank c)). by_decision. Qed.

Lemma show_int_chars z : Forall (fun c => int_char c = true) (show_int z).
Proof.
  assert (Hd : forall d, Forall (fun c => is_digit c = true) d -> Forall (fun c => int_char c = true) d).
  { intros d Hd. eapply Forall_impl; [exact Hd|]. intros c Hc. unfold int_char. by rewrite Hc. }
  unfold show_int. destruct z as [|p|p].
  - destruct (pretty_nonneg 0 ltac:(done)) as (d & -> & _ & H & _). by apply Hd.
  - destruct (pretty_nonneg (Z.pos p) ltac:(lia)) as (d & -> & _ & H & _). by apply Hd.
  - destruct (pretty_nonneg (Z.pos p) ltac:(lia)) as (d & E & _ & H & _).
    assert (En : to_bytes (pretty (Z.neg p)) = "-"%char :: d) by (by rewrite <- E). rewrite En.
    constructor; [done|by apply Hd].
Qed.

Lemma show_int_field z : field_text (show_int z).
Proof. eapply chars_field; [apply int_char_field|apply show_int_chars]. Qed.

Lemma flag_field f : flag_legal f -> field_text (to_bytes (flagstring f)).
Proof. intros [Hw Hl]. rewrite flagstring_bytes by done. eapply chars_field; [apply hex_char_field|exact Hl]. Qed.

Lemma createFields_spec d : printable d -> exists fs, createFields d = Some fs /\ Forall field_text fs /\
  head fs = Some (show_int (stationid_ d)) /\ length fs = 12%nat /\
  forall cs, el_text <$> cs_data cs = fs -> parse_values cs = Some (shown d).
Proof.
  intros [Hi [(S1 & F1 & R1) (S2 & F2 & R2)] [(D1 & C1) (D2 & C2)] [L1 L2] Hc].
  unfold createFields, to_kvalobs_string. rewrite S1, S2. cbn [mbind option_bind]. eexists. split; [done|].
  split; [repeat (apply Forall_cons; split); auto using show_int_field, flag_field, Forall_nil|]. split; [done|]. split; [done|].
  intros cs Hcs.
  assert (G : forall i t, (el_text <$> cs_data cs) !! i = Some t -> exists e, cs_at cs i = Some e /\ el_text e = t).
  { intros i t. rewrite list_lookup_fmap. unfold cs_at. destruct (cs_data cs !! i) as [e|]; [|done]. intros [= <-]. eauto. }
  rewrite Hcs in G. rewrite !Forall_cons in Hi. destruct Hi as (I1 & I2 & I3 & I4 & I5 & _).
  unfold parse_values, cs_int, cs_time, cs_double, cs_string.
  destruct (G 0%nat _ eq_refl) as (e0 & -> & E0), (G 1%nat _ eq_refl) as (e1 & -> & E1), (G 2%nat _ eq_refl) as (e2 & -> & E2),
    (G 3%nat _ eq_refl) as (e3 & -> & E3), (G 4%nat _ eq_refl) as (e4 & -> & E4), (G 5%nat _ eq_refl) as (e5 & -> & E5),
    (G 6%nat _ eq_refl) as (e6 & -> & E6), (G 7%nat _ eq_refl) as (e7 & -> & E7), (G 8%nat _ eq_refl) as (e8 & -> & E8),
    (G 9%nat _ eq_refl) as (e9 & -> & E9), (G 10%nat _ eq_refl) as (e10 & -> & E10), (G 11%nat _ eq_refl) as (e11 & -> & E11).
  cbn [mbind option_bind]. rewrite E0, E1, E2, E3, E4, E5, E6, E7, E8, E9, E10, E11, !of_to_bytes.
  rewrite (proj1 (show_int_cast _ I1)), (proj1 (show_int_cast _ I2)), (proj1 (show_int_cast _ I3)), (proj1 (show_int_cast _ I4)),
    (proj1 (show_int_cast _ I5)), R1, R2, C1, C2. cbn [mbind option_bind].
  unfold kvControlInfo_of_string, kvUseInfo_of_string. destruct L1 as [L1 _], L2 as [L2 _].
  rewrite !of_string_flagstring by done. unfold shown. by destruct (controlinfo_ d), (useinfo_ d).
Qed.

Lemma fields_plain sep (fs : list bytes) : Forall field_text fs -> sep ∈ [mainSeparator; internSeparator] -> Forall (fun t => field_ok sep (Plain t)) fs.
Proof.
  intros Hf Hs. eapply Forall_impl; [exact Hf|]. intros t [Ht _]. cbn [field_ok].
  eapply Forall_impl; [exact Ht|]. intros c Hc. unfold field_char in Hc. rewrite !not_elem_of_cons in Hc.
  rewrite !elem_of_cons in Hs. destruct Hc as (? & ? & ? & _), Hs as [->|[->|Hs]]; [done|done|by apply elem_of_nil in Hs].
Qed.

Lemma plain_sources (fs : list bytes) : field_source <$> (Plain <$> fs) = fs.
Proof. rewrite <- list_fmap_compose. apply list_fmap_id. Qed.

Lemma plain_values (fs : list bytes) : Forall unpadded fs -> field_value <$> (Plain <$> fs) = fs.
Proof.
  induction 1 as [|t fs Ht Hfs IH]; [done|]. cbn [fmap list_fmap field_value] in *. by rewrite trimstr_unpadded, IH.
Qed.

(** A list of plain fields is read back. *)
Lemma read_fields sep (fs : list bytes) : sep <> quotation_mark /\ sep <> backslash -> fs <> [] ->
  Forall (fun t => field_ok sep (Plain t)) fs -> Forall unpadded fs ->
  exists cs, CommaString_of (join [sep] fs) sep = Some cs /\ el_text <$> cs_data cs = fs.
Proof.
  intros Hsep Hne Hf Hu. pose proof (CommaString_fields sep Hsep (Plain <$> fs)) as H.
  rewrite plain_sources in H. rewrite H; [|by destruct fs|by apply Forall_fmap].
  eexists. split; [done|]. cbn [cs_data]. rewrite field_elems_text. by apply plain_values.
Qed.

Lemma join_forall (P : ascii -> Prop) sep l : Forall P sep -> Forall (Forall P) l -> Forall P (join sep l).
Proof.
  intros Hs. induction 1 as [|f l Hf Hl IH]; [constructor|]. destruct l as [|g l]; [done|].
  rewrite join_cons. by repeat (apply Forall_app; split).
Qed.

(** The line of a value, and its reading. *)
Lemma createString_spec d : printable d -> exists l, createString d = Some l /\ l <> [] /\ unpadded l /\
  field_ok mainSeparator (Plain l) /\ parse_line l = Some (inl (shown d)).
Proof.
  intros Hd. destruct (createFields_spec d Hd) as (fs & E & Hf & Hh & Hlen & Hp). unfold createString. rewrite E.
  exists (join [internSeparator] fs). split; [done|].
  assert (Hu : Forall unpadded fs) by (eapply Forall_impl; [exact Hf|by intros ? []]).
  assert (Hm : Forall (fun c => c <> mainSeparator /\ c <> quotation_mark) (join [internSeparator] fs)).
  { apply join_forall; [by repeat constructor|]. eapply Forall_impl; [exact Hf|]. intros t [Ht _].
    eapply Forall_impl; [exact Ht|]. intros c Hc. unfold field_char in Hc. rewrite !not_elem_of_cons in Hc. tauto. }
  assert (Hline : join [internSeparator] fs <> [] /\ unpadded (join [internSeparator] fs)).
  { split; [|apply join_unpadded; [done|left; by_decision]]. destruct fs as [|f fs]; [done|]. injection Hh as ->.
    destruct (show_int_cast _ (Forall_inv (printable_ints _ Hd))) as [_ Hne]. rewrite join_concat. by destruct (show_int (stationid_ d)). }
  split_and!; [apply Hline|apply Hline|exact Hm|]. unfold parse_line.
  destruct (read_fields internSeparator fs) as (cs & -> & Ecs); [done|by destruct fs| |done|].
  { apply fields_plain; [done|by right; left]. }
  cbn [mbind option_bind]. by rewrite (Hp cs Ecs).
Qed.

Lemma createString_all dl : Forall printable dl -> exists ls, mapM createString dl = Some ls /\
  Forall (fun l => l <> [] /\ unpadded l /\ field_ok mainSeparator (Plain l)) ls /\
  Forall2 (fun l d => parse_line l = Some (inl (shown d))) ls dl.
Proof.
  induction 1 as [|d dl Hd Hdl (ls & E & Hls & Hp)]; [by exists []|].
  destruct (createString_spec d Hd) as (l & E1 & H1 & H2 & H3 & H4). exists (l :: ls). cbn [mapM]. rewrite E1. cbn [mbind option_bind].
  rewrite E. split; [done|]. split; by constructor.
Qed.

(** Lines with empty ones among them. *)
Lemma parse_lines_spec (es : list Elem) ls dl : filter (fun t => t <> []) (el_text <$> es) = ls ->
  Forall2 (fun l d => parse_line l = Some (inl (shown d))) ls dl -> parse_lines es = Some (inl (shown <$> dl)).
Proof.
  revert ls dl. induction es as [|e es IH]; intros ls dl E Hp; cbn [fmap list_fmap] in E; [by subst; inversion Hp|].
  rewrite filter_cons in E. cbn [parse_lines]. case_bool_decide as He.
  - rewrite decide_False in E by auto. by eapply IH.
  - rewrite decide_True in E by auto. subst ls. inversion Hp as [|? d ? dl' Hd Hdl]; subst. rewrite Hd. cbn [mbind option_bind].
    by rewrite (IH _ dl' eq_refl Hdl).
Qed.

Lemma filter_nonempty (ls : list bytes) : Forall (fun l => l <> []) ls -> filter (fun t : bytes => t <> []) ls = ls.
Proof. induction 1 as [|l ls Hl Hls IH]; [done|]. rewrite filter_cons, decide_True by done. by rewrite IH. Qed.

(** What is written as a text with one line for each value can be read. *)
Lemma getKvData_lines ls dl :
  Forall (fun l => l <> [] /\ unpadded l /\ field_ok mainSeparator (Plain l)) ls ->
  Forall2 (fun l d => parse_line l = Some (inl (shown d))) ls dl ->
  getKvData (join [mainSeparator] ls) = Some (inl (shown <$> dl)) /\
  getKvData (join [mainSeparator] (ls ++ [[]])) = Some (inl (shown <$> dl)).
Proof.
  intros Hls Hp. unfold getKvData.
  assert (Hne : filter (fun t : bytes => t <> []) ls = ls) by (apply filter_nonempty; eapply Forall_impl; [exact Hls|by intros ? []]).
  assert (Hn : unpadded [] /\ field_ok mainSeparator (Plain [])) by (split; [by split|constructor]).
  assert (R : forall ls' : list bytes, ls' <> [] -> Forall (fun l => unpadded l /\ field_ok mainSeparator (Plain l)) ls' ->
    filter (fun t : bytes => t <> []) ls' = ls ->
    (mainCS ← CommaString_of (join [mainSeparator] ls') mainSeparator; parse_lines (cs_data mainCS)) = Some (inl (shown <$> dl))).
  { intros ls' H1 H2 H3. destruct (read_fields mainSeparator ls') as (cs & -> & Ecs); [done|done|..].
    - eapply Forall_impl; [exact H2|by intros ? []].
    - eapply Forall_impl; [exact H2|by intros ? []].
    - cbn [mbind option_bind]. eapply parse_lines_spec; [by rewrite Ecs|done]. }
  assert (Hl : Forall (fun l => unpadded l /\ field_ok mainSeparator (Plain l)) ls) by (eapply Forall_impl; [exact Hls|by intros ? (_ & ? & ?)]).
  split.
  - destruct ls as [|l ls]; [|by apply R]. change (join [mainSeparator] []) with (join [mainSeparator] [@nil ascii]).
    apply R; [done|by apply Forall_singleton|done].
  - apply R; [by destruct ls|by apply Forall_app; split; [|apply Forall_singleton]|]. rewrite filter_app, Hne. apply app_nil_r.
Qed.

(** A list of values whose fields hold no separator and no quotation mark is
    written, with either of the two functions, and read back as the same values,
    with the sensors as numbers. *)
Theorem getKvData_createString (dl : list (kvData PT)) : Forall printable dl ->
  exists s s', createString_list dl = Some s /\ createString_range dl = Some s' /\
    getKvData s = Some (inl (shown <$> dl)) /\ getKvData s' = Some (inl (shown <$> dl)).
Proof.
  intros Hdl. destruct (createString_all dl Hdl) as (ls & E & Hls & Hp). destruct (getKvData_lines ls dl Hls Hp) as [H1 H2].
  unfold createString_list, createString_range. rewrite E. do 2 eexists. split; [done|]. split; [done|]. split; [done|].
  assert (Ej : concat ((fun l => l ++ [mainSeparator]) <$> ls) = join [mainSeparator] (ls ++ [[]])).
  { clear. induction ls as [|l ls IH]; [done|]. cbn [fmap list_fmap concat app]. rewrite IH, <- app_assoc. by destruct ls. }
  by rewrite Ej.
Qed.

(** A line with fewer than twelve fields, or with a field that is no number, is
    refused, and so is the whole text. *)
Lemma getKvData_short fs : fs <> [] -> Forall field_text fs -> (length fs < 12)%nat ->
  parse_line (join [internSeparator] fs) = Some (inr InvalidInput).
Proof.
  intros Hne Hf Hlen. unfold parse_line. destruct (read_fields internSeparator fs) as (cs & -> & Ecs); [done|done|..].
  - apply fields_plain; [done|by right; left].
  - eapply Forall_impl; [exact Hf|by intros ? []].
  - cbn [mbind option_bind]. assert (E : cs_string cs 11 = None).
    { unfold cs_string, cs_at. replace (cs_data cs !! 11%nat) with (@None Elem); [done|]. symmetry. apply lookup_ge_None.
      rewrite <- (length_fmap el_text), Ecs. lia. }
    unfold parse_values. rewrite E.
    repeat match goal with |- context [mbind (fun x => _) ?o] => destruct o; cbn [mbind option_bind]; [|done] end. done.
Qed.

End Formatter.

(** ** A concrete instance *)

Definition whole_stream : StreamDouble := {|
  stream_double f := match Dbl.to_int f with Some z => show_int z | None => to_bytes "nan" end;
  lexical_cast_double s := Dbl.of_Z <$> lexical_cast_int (BoostText := boost_text) s
|}.

Definition sample_values : list (kvData stamp_time) :=
  [sample_value 501 48 211 (-7) (At 3600) (At 3660); sample_value 501 1 110 3 (At 3600) (At 3660)].

Lemma getKvData_createString_witness :
  exists s, createString_list (SD := whole_stream) sample_values = Some s /\
    getKvData (BT := boost_text) (SD := whole_stream) s =
      Some (inl [sample_value 501 0 211 (-7) (At 3600) (At 3660); sample_value 501 1 110 3 (At 3600) (At 3660)]).
Proof.
  destruct (getKvData_createString (BT := boost_text) (SD := whole_stream) sample_values) as (s & _ & H1 & _ & H2 & _).
  - repeat (apply Forall_cons; split); [..|constructor]; (split;
      [by_decision
      |split; (split; [reflexivity|split; [by_decision|vm_compute; reflexivity]])
      |split; (split; [by_decision|vm_compute; reflexivity])
      |split; by_decision
      |by_decision]).
  - exists s. split; [exact H1|]. rewrite H2. vm_compute. reflexivity.
Defined.

(** A check whose name holds the separator is not read: the value is. *)
Lemma cfailed_bar :
  let d := with_cfailed (sample_value 501 0 211 1 (At 3600) (At 3660)) "QC1|2" in
  createString (SD := whole_stream) d ≫= parse_line (BT := boost_text) (SD := whole_stream) = Some (inl (with_cfailed d "QC1")).
Proof. vm_compute. reflexivity. Qed.
