(* ===== verification/ScriptResult.v ===== *)
(** * Results of a check script (src/src/kvQabased/src/scriptcreate/ScriptResultIdentifier.cpp)

    The names under which a script returns what it wants changed, such as
    [X_1_0_corrected]. *)

From stdpp Require Import pretty.
From S2P Require Import Prelude Orders PTime TimeText DataFlag ControlInfo UseInfo KvData Rows SortedData Scanning Signature.

#[local] Open Scope Z_scope.

Inductive CorrectionType := Undefined | Flag | Corrected | Missing.

#[export] Instance CorrectionType_eq_dec : EqDecision CorrectionType.
Proof. solve_decision. Defined.

Record ScriptResultIdentifier := {
  sri_parameter : string;
  sri_timeIndex : Z;
  sri_stationIndex : Z;
  sri_correctionType : CorrectionType
}.

Definition split_last (s : bytes) : option (bytes * bytes) :=
  i ← find_last_of (to_bytes "_") s; Some (take i s, drop (S i) s).

Definition class_plus (p : ascii -> bool) (s : bytes) : bool := bool_decide (s <> []) && forallb p s.

(** [regex_match] with the expression of a parameter name of word characters, two
    numbers and letters, separated by underscores. Only the first group may hold
    underscores, so the last three separate; [regex_match_spec] states that these
    are the groups of the expression. *)
Definition regex_match (identifier : bytes) : option (bytes * bytes * bytes * bytes) :=
  '(s, c) ← split_last identifier;
  '(s, st) ← split_last s;
  '(p, t) ← split_last s;
  if class_plus name_char p && class_plus is_digit t && class_plus is_digit st && class_plus is_alpha c
  then Some (p, t, st, c) else None.

Section ScriptResultIdentifier.
  Context {BT : BoostText}.

(** The constructor from a name. *)
Definition ScriptResultIdentifier_of (identifier : string) : res ScriptResultIdentifier :=
  '(p, t, st, c) ← of_option SyntaxError (regex_match (to_bytes identifier));
  timeIndex ← of_option bad_lexical_cast (lexical_cast_int t);
  stationIndex ← of_option bad_lexical_cast (lexical_cast_int st);
  correctionType ← (if bool_decide (of_bytes c = "flag"%string) then mret Flag
                    else if bool_decide (of_bytes c = "corrected"%string) then mret Corrected
                    else if bool_decide (of_bytes c = "missing"%string) then mret Missing
                    else throw UndefinedCorrectionType);
  mret {| sri_parameter := of_bytes p; sri_timeIndex := timeIndex; sri_stationIndex := stationIndex;
          sri_correctionType := correctionType |}.

End ScriptResultIdentifier.

Definition show_correctionType (c : CorrectionType) : string :=
  match c with
  | Flag => "flag" | Corrected => "corrected" | Missing => "missing" | Undefined => "undefined"
  end.

(** [operator<<]. *)
Definition show_ScriptResultIdentifier (i : ScriptResultIdentifier) : string :=
  sri_parameter i +:+ "_" +:+ pretty (sri_timeIndex i) +:+ "_" +:+ pretty (sri_stationIndex i) +:+ "_" +:+
  show_correctionType (sri_correctionType i).

(** ** Properties *)

Definition is_class (p : ascii -> bool) (s : bytes) : Prop := s <> [] /\ Forall (fun c => p c = true) s.

Lemma class_plus_spec p s : class_plus p s = true <-> is_class p s.
Proof.
  unfold class_plus, is_class. rewrite andb_true_iff, bool_decide_eq_true, forallb_forall, Forall_forall.
  split; intros [? H]; (split; [done|]); intros x Hx; apply H; by apply list_elem_of_In.
Qed.

Lemma split_last_spec s a b : split_last s = Some (a, b) <-> s = a ++ "_"%char :: b /\ "_"%char ∉ b.
Proof.
  unfold split_last. split.
  - revert a b. induction s as [|c s IH]; intros a b; [done|]. cbn [find_last_of].
    destruct (find_last_of (to_bytes "_") s) as [i|] eqn:E; simpl.
    + intros [= <- <-]. destruct (IH (take i s) (drop (S i) s) eq_refl) as [Hs ?]. split; [|done].
      simpl. by rewrite <- Hs.
    + case_bool_decide as Hc; simpl; [|done]. intros [= <- <-]. apply list_elem_of_singleton in Hc as ->.
      rewrite drop_0. split; [done|]. intros Hin.
      assert (exists c, c ∈ s /\ c ∈ to_bytes "_") as H by (exists "_"%char; split; [done|by left]).
      clear IH. induction s as [|d s IHs]; [by apply elem_of_nil in Hin|]. cbn [find_last_of] in E.
      destruct (find_last_of (to_bytes "_") s); [done|]. case_bool_decide as Hd; [done|].
      apply elem_of_cons in Hin as [<-|Hin]; [by destruct Hd; left|]. apply IHs; [done|done|].
      exists "_"%char. split; [done|by left].
  - intros [-> Hb]. rewrite (find_last_of_app (to_bytes "_") a "_" b).
    + simpl. rewrite take_app_length. f_equal. f_equal. rewrite drop_app_ge by lia.
      replace (S (length a) - length a)%nat with 1%nat by lia. done.
    + by left.
    + apply Forall_forall. intros c Hc Hs. apply list_elem_of_singleton in Hs as ->. done.
Qed.

Lemma no_underscore p s : p "_"%char = false -> is_class p s -> "_"%char ∉ s.
Proof. intros Hp [_ H] Hin. rewrite Forall_forall in H. specialize (H _ Hin). congruence. Qed.

Lemma regex_match_groups s p t st c :
  regex_match s = Some (p, t, st, c) <->
  s = p ++ "_"%char :: t ++ "_"%char :: st ++ "_"%char :: c /\
  is_class name_char p /\ is_class is_digit t /\ is_class is_digit st /\ is_class is_alpha c.
Proof.
  unfold regex_match. split.
  - destruct (split_last s) as [[s1 c']|] eqn:E1; [|done]. simpl.
    destruct (split_last s1) as [[s2 st']|] eqn:E2; [|done]. simpl.
    destruct (split_last s2) as [[p' t']|] eqn:E3; [|done]. simpl.
    destruct (class_plus name_char p' && _ && _ && _) eqn:E; [|done]. intros [= -> -> -> ->].
    apply split_last_spec in E1 as [-> _], E2 as [-> _], E3 as [-> _].
    rewrite !andb_true_iff, !class_plus_spec in E. split; [|tauto].
    by repeat (rewrite <- app_assoc; simpl).
  - intros (-> & Hp & Ht & Hst & Hc).
    assert (E1 : split_last (p ++ "_"%char :: t ++ "_"%char :: st ++ "_"%char :: c) =
                 Some (p ++ "_"%char :: t ++ "_"%char :: st, c)).
    { apply split_last_spec. split; [|by apply (no_underscore is_alpha)].
      by repeat (rewrite <- app_assoc; simpl). }
    assert (E2 : split_last (p ++ "_"%char :: t ++ "_"%char :: st) = Some (p ++ "_"%char :: t, st)).
    { apply split_last_spec. split; [by rewrite <- app_assoc|by apply (no_underscore is_digit)]. }
    assert (E3 : split_last (p ++ "_"%char :: t) = Some (p, t))
      by (apply split_last_spec; split; [done|by apply (no_underscore is_digit)]).
    rewrite E1. simpl. rewrite E2. simpl. rewrite E3. simpl.
    apply class_plus_spec in Hp, Ht, Hst, Hc. by rewrite Hp, Ht, Hst, Hc.
Qed.

(** The match of a name is the decomposition that the expression describes:
    there is at most one, and it is found whenever there is one. *)
Theorem regex_match_spec (s p t st c : bytes) :
  regex_match s = Some (p, t, st, c) <->
  s = p ++ "_"%char :: t ++ "_"%char :: st ++ "_"%char :: c /\
  is_class name_char p /\ is_class is_digit t /\ is_class is_digit st /\ is_class is_alpha c.
Proof. apply regex_match_groups. Qed.

Section props.
  Context {BT : BoostText} {BTL : BoostTextLaws BT}.

Lemma pretty_class z : 0 <= z <= INT_MAX ->
  is_class is_digit (to_bytes (pretty z)) /\ lexical_cast_int (to_bytes (pretty z)) = Some z.
Proof.
  intros Hz. assert (H : exists d, to_bytes (pretty z) = d /\ d <> [] /\
    Forall (fun c => is_digit c = true) d /\ digits_val 0 d = z).
  { destruct z as [|p|p]; [by exists ["0"%char]; repeat constructor| |lia].
    change (pretty (Z.pos p)) with (pretty (N.pos p)).
    destruct (pretty_N_digits (N.pos p)) as (d & -> & ? & ? & ?). by exists d. }
  destruct H as (d & -> & Hne & Hd & Hv). split; [done|].
  destruct (lexical_cast_int_digits d Hne Hd ltac:(lia)) as [-> _]. by rewrite Hv.
Qed.

(** An identifier that is printed and read back is the same, for every word
    as parameter and every pair of indices; an undefined correction type is
    printed but refused when it is read. *)
Theorem ScriptResultIdentifier_roundtrip (i : ScriptResultIdentifier) :
  is_class name_char (to_bytes (sri_parameter i)) ->
  0 <= sri_timeIndex i <= INT_MAX -> 0 <= sri_stationIndex i <= INT_MAX ->
  ScriptResultIdentifier_of (show_ScriptResultIdentifier i) =
    if bool_decide (sri_correctionType i = Undefined) then inr UndefinedCorrectionType else inl i.
Proof.
  intros Hp Ht Hst. destruct (pretty_class _ Ht) as [Ct Et]. destruct (pretty_class _ Hst) as [Cst Est].
  unfold ScriptResultIdentifier_of, show_ScriptResultIdentifier.
  assert (Em : regex_match (to_bytes (sri_parameter i +:+ "_" +:+ pretty (sri_timeIndex i) +:+ "_" +:+
                 pretty (sri_stationIndex i) +:+ "_" +:+ show_correctionType (sri_correctionType i))) =
               Some (to_bytes (sri_parameter i), to_bytes (pretty (sri_timeIndex i)),
                     to_bytes (pretty (sri_stationIndex i)), to_bytes (show_correctionType (sri_correctionType i)))).
  { apply regex_match_groups. rewrite !to_bytes_app. split; [done|]. split; [done|]. split; [done|]. split; [done|].
    destruct (sri_correctionType i); (split; [done|by repeat constructor]). }
  rewrite Em. simpl. rewrite Et. simpl. rewrite Est. simpl. rewrite !of_to_bytes.
  destruct i as [p t st []]; done.
Qed.

End props.

Lemma ScriptResultIdentifier_roundtrip_witness :
  ScriptResultIdentifier_of (BT := boost_text) "RR_24_0_1_corrected"%string =
    inl {| sri_parameter := "RR_24"; sri_timeIndex := 0; sri_stationIndex := 1; sri_correctionType := Corrected |}.
Proof.
  apply (ScriptResultIdentifier_roundtrip (BT := boost_text)
    {| sri_parameter := "RR_24"; sri_timeIndex := 0; sri_stationIndex := 1; sri_correctionType := Corrected |}).
  - split; [done|by repeat constructor].
  - done.
  - done.
Defined.
