(* ===== verification/DatabaseAccess.v ===== *)
(** * What the quality control asks of the database (src/src/kvQabased/src/db)

    DatabaseAccess.h is the class [DatabaseAccess] of operations on a state [D],
    each a program that returns a value or throws, and leaves a new state. The
    table classes that its operations return are records. The layers that the
    quality control puts between itself and the database are instances in
    [DelayedSave.v] and [CachedAccess.v]. *)

From S2P Require Import Prelude Orders OrderedSet PTime TimeText DataFlag ControlInfo UseInfo KvData KvDataOps Rows SortedData KvalobsData Scanning Signature ResultFilter.

#[local] Open Scope Z_scope.

(** ** Programs over a state *)

Definition DbM (D A : Type) : Type := D -> res A * D.

Section DbM.
  Context {D : Type}.

Definition db_ret {A} (a : A) : DbM D A := fun d => (inl a, d).
Definition db_bind {A B} (m : DbM D A) (f : A -> DbM D B) : DbM D B := fun d =>
  match m d with
  | (inl a, d) => f a d
  | (inr e, d) => (inr e, d)
  end.
Definition db_throw {A} (e : exn) : DbM D A := fun d => (inr e, d).
(** A result that needs no database. *)
Definition db_res {A} (r : res A) : DbM D A := fun d => (r, d).
(** [try { m } catch (e) { h }], [h] for the exceptions it lists. *)
Definition db_catch {A} (m : DbM D A) (h : exn -> option (DbM D A)) : DbM D A := fun d =>
  match m d with
  | (inl a, d) => (inl a, d)
  | (inr e, d) => match h e with Some m' => m' d | None => (inr e, d) end
  end.

(** [for (a : l) m(a)]. *)
Fixpoint db_for {A} (l : list A) (m : A -> DbM D unit) : DbM D unit :=
  match l with
  | [] => db_ret tt
  | a :: l => db_bind (m a) (fun _ => db_for l m)
  end.

(** The same with a local state that the loop changes. *)
Fixpoint db_fold {A S} (l : list A) (m : S -> A -> DbM D S) (s : S) : DbM D S :=
  match l with
  | [] => db_ret s
  | a :: l => db_bind (m s a) (db_fold l m)
  end.

End DbM.

Declare Scope db_scope.
Delimit Scope db_scope with db.
Notation "x <- m ;; n" := (db_bind m (fun x => n)) (at level 100, m at next level, right associativity) : db_scope.
Notation "m ;; n" := (db_bind m (fun _ => n)) (at level 100, right associativity) : db_scope.

(** ** Data *)

(** Arithmetic on times: [t + minutes(m)], and its documented laws. *)
Class PMinutes (PT : PTime) := { pt_add_minutes : ptime PT -> Z -> ptime PT }.
Class PMinutesLaws (PT : PTime) (PM : PMinutes PT) := {
  pt_add_minutes_0 t : pt_add_minutes t 0 = t;
  pt_add_minutes_is_time t m : is_not_a_date_time (pt_add_minutes t m) = is_not_a_date_time t;
  pt_add_minutes_mono t m n : m <= n -> ptime_lt (pt_add_minutes t n) (pt_add_minutes t m) = false
}.

#[export] Instance stamp_minutes : PMinutes stamp_time :=
  {| pt_add_minutes t m := match t with At s => At (s + m * 60) | _ => t end |}.
#[export] Instance stamp_minutes_laws : PMinutesLaws stamp_time stamp_minutes.
Proof.
  split; simpl; intros [| | |s]; simpl; intros; try done; [f_equal; lia|lia].
Qed.

Section data.
  Context {PT : PTime}.

Record kvStationInfo := { si_stationid : Z; si_obstime : ptime PT; si_typeid : Z }.

(** [qabase::Observation]. *)
Record Observation := {
  o_id : Z;
  o_stationid : Z;
  o_type : Z;
  o_obstime : ptime PT;
  o_tbtime : ptime PT
}.

Definition stationInfo (o : Observation) : kvStationInfo :=
  {| si_stationid := o_stationid o; si_obstime := o_obstime o; si_typeid := o_type o |}.

Record kvChecks := {
  ck_stationid : Z;
  ck_qcx : string;
  ck_medium_qcx : string;
  ck_language : Z;
  ck_checkname : string;
  ck_checksignature : string;
  ck_active : string;
  ck_fromtime : ptime PT
}.

Record kvAlgorithms := {
  al_language : Z;
  al_checkname : string;
  al_signature : string;
  al_script : string
}.

Record kvModelData := {
  md_stationid : Z;
  md_obstime : ptime PT;
  md_paramid : Z;
  md_level : Z;
  md_modelid : Z;
  md_original : spec_float
}.

Record kvStation := {
  st_stationid : Z;
  st_lat : spec_float;
  st_lon : spec_float;
  st_height : spec_float;
  st_maxspeed : spec_float;
  st_name : string;
  st_wmonr : Z;
  st_nationalnr : Z;
  st_ICAOid : string;
  st_call_sign : string;
  st_stationstr : string;
  st_environmentid : Z;
  st_static : bool;
  st_fromtime : ptime PT
}.

#[export] Instance kvStationInfo_eq_dec : EqDecision kvStationInfo.
Proof. solve_decision. Defined.

End data.

Arguments kvStationInfo : clear implicits.
Arguments Observation : clear implicits.
Arguments kvChecks : clear implicits.
Arguments kvModelData : clear implicits.
Arguments kvStation : clear implicits.

(** ** [DatabaseAccess]

    The reading operations fill a container that their callers pass empty; here
    they return it. A [std::set<std::string>] is the list of its elements in
    order. *)
Class DatabaseAccess (PT : PTime) (D : Type) := {
  beginTransaction : DbM D unit;
  commit : DbM D unit;
  rollback : DbM D unit;
  getChecks : Observation PT -> DbM D (list (kvChecks PT));
  getQcxFlagPosition : string -> DbM D Z;
  getParametersToCheck : Observation PT -> DbM D (list string);
  getAlgorithm : string -> DbM D kvAlgorithms;
  getStationParam : kvStationInfo PT -> string -> Z -> Z -> string -> DbM D string;
  getStationParamAll : kvStationInfo PT -> string -> string -> DbM D (list StationParam);
  getStation : Z -> DbM D (kvStation PT);
  getObservation : kvStationInfo PT -> DbM D (Observation PT);
  getModelData : kvStationInfo PT -> parameter -> Z -> DbM D (list (kvModelData PT));
  getData : Observation PT -> parameter -> Z -> DbM D (list (kvData PT));
  pin : Observation PT -> DbM D bool;
  getTextData : Observation PT -> parameter -> Z -> DbM D (list (kvTextData PT));
  complete : Observation PT -> list (kvData PT) -> list (kvTextData PT) -> DbM D (KvalobsData PT);
  write : list (kvData PT) -> DbM D unit;
  selectDataForControl : Z -> DbM D (list (Observation PT));
  markProcessDone : Observation PT -> DbM D unit
}.

(** ** [FilteredDatabaseAccess]

    A layer with a state [L] of its own over a database: what it does not
    redefine is passed on. *)
Definition lift {L D A} (m : DbM D A) : DbM (L * D) A := fun ld =>
  let '(r, d) := m ld.2 in (r, (ld.1, d)).

Definition FilteredDatabaseAccess {PT D} (L : Type) (B : DatabaseAccess PT D) : DatabaseAccess PT (L * D) := {|
  beginTransaction := lift beginTransaction;
  commit := lift commit;
  rollback := lift rollback;
  getChecks o := lift (getChecks o);
  getQcxFlagPosition q := lift (getQcxFlagPosition q);
  getParametersToCheck o := lift (getParametersToCheck o);
  getAlgorithm n := lift (getAlgorithm n);
  getStationParam si p s l q := lift (getStationParam si p s l q);
  getStationParamAll si p q := lift (getStationParamAll si p q);
  getStation i := lift (getStation i);
  getObservation si := lift (getObservation si);
  getModelData si p m := lift (getModelData si p m);
  getData o p m := lift (getData o p m);
  pin o := lift (pin o);
  getTextData o p m := lift (getTextData o p m);
  complete o d td := lift (complete o d td);
  write d := lift (write d);
  selectDataForControl n := lift (selectDataForControl n);
  markProcessDone o := lift (markProcessDone o)
|}.

(** An observation for the concrete instances. *)
Definition sample_Observation : Observation stamp_time :=
  {| o_id := 1; o_stationid := 18700; o_type := 501; o_obstime := stamp_of 2024 1 15 12 0 0;
     o_tbtime := stamp_of 2024 1 15 12 3 0 |}.
