(* ===== verification/DelayedSave.v ===== *)
(** * DelayedSaveDatabaseAccess: writes that wait for the commit
    (src/src/kvQabased/src/db/DelayedSaveDatabaseAccess.cpp)

    The state of the layer is the set of the values written and not committed. *)

From S2P Require Import Prelude Orders OrderedSet PTime TimeText DataFlag ControlInfo UseInfo KvData KvDataOps Rows SortedData KvalobsData Scanning Signature ResultFilter DatabaseAccess.

#[local] Open Scope Z_scope.

Section DelayedSave.
  Context {PT : PTime} {D : Type} (B : DatabaseAccess PT D).

(** [savedData_], a [std::set] compared by [lt_kvData]. *)
Definition SavedData : Type := list (kvData PT).

(** What a read sees of a value of the database. *)
Definition overlay (savedData : SavedData) (d : kvData PT) : kvData PT :=
  default d (set_find lt_kvData d savedData).

Definition ds_getData (o : Observation PT) (p : parameter) (minuteOffset : Z)
    : DbM (SavedData * D) (list (kvData PT)) := fun s =>
  match getData o p minuteOffset s.2 with
  | (inl fromDb, d) => (inl (overlay s.1 <$> fromDb), (s.1, d))
  | (inr e, d) => (inr e, (s.1, d))
  end.

Definition ds_save (data : list (kvData PT)) (savedData : SavedData) : SavedData :=
  foldl (fun s d => set_put lt_kvData d s) savedData data.

Definition ds_write (data : list (kvData PT)) : DbM (SavedData * D) unit := fun s =>
  (inl tt, (ds_save data s.1, s.2)).

Definition ds_clear : DbM (SavedData * D) unit := fun s => (inl tt, ([], s.2)).

Definition ds_commit : DbM (SavedData * D) unit := fun s =>
  match s.1 with
  | [] => lift commit s
  | saveData => (lift (write saveData) ;; lift commit ;; ds_clear)%db s
  end.

Definition ds_rollback : DbM (SavedData * D) unit := (ds_clear ;; lift rollback)%db.

(** [uncommitted()]. *)
Definition uncommitted (s : SavedData * D) : list (kvData PT) := s.1.

#[export] Instance DelayedSaveDatabaseAccess : DatabaseAccess PT (SavedData * D) :=
  let F := FilteredDatabaseAccess SavedData B in {|
  beginTransaction := @beginTransaction _ _ F;
  commit := ds_commit;
  rollback := ds_rollback;
  getChecks := @getChecks _ _ F;
  getQcxFlagPosition := @getQcxFlagPosition _ _ F;
  getParametersToCheck := @getParametersToCheck _ _ F;
  getAlgorithm := @getAlgorithm _ _ F;
  getStationParam := @getStationParam _ _ F;
  getStationParamAll := @getStationParamAll _ _ F;
  getStation := @getStation _ _ F;
  getObservation := @getObservation _ _ F;
  getModelData := @getModelData _ _ F;
  getData := ds_getData;
  pin := @pin _ _ F;
  getTextData := @getTextData _ _ F;
  complete := @complete _ _ F;
  write := ds_write;
  selectDataForControl := @selectDataForControl _ _ F;
  markProcessDone := @markProcessDone _ _ F
|}.

End DelayedSave.

Arguments SavedData : clear implicits.

(** ** The contract of the layer *)

(** What a client does between two commits. *)
Inductive ds_cmd {PT : PTime} :=
  | Read (o : Observation PT) (p : parameter) (minuteOffset : Z)
  | Write (data : list (kvData PT)).
Arguments ds_cmd : clear implicits.

(** The values that the reads of a client return. *)
Fixpoint run_cmds {PT D} (DA : DatabaseAccess PT D) (l : list (ds_cmd PT)) : DbM D (list (list (kvData PT))) :=
  match l with
  | [] => db_ret []
  | Read o p m :: l => (x <- getData o p m ;; r <- run_cmds DA l ;; db_ret (x :: r))%db
  | Write data :: l => (write data ;; run_cmds DA l)%db
  end.

(** A database whose reads depend on its state alone and see what was written,
    with no failures: [view d] is what a read returns in the state [d]. *)
Class PlainDatabase {PT : PTime} {D : Type} (B : DatabaseAccess PT D)
    (view : D -> Observation PT -> parameter -> Z -> list (kvData PT)) := {
  plain_read o p m d : getData o p m d = (inl (view d o p m), d);
  plain_view o p m d : Forall kvData_ordered (view d o p m);
  plain_write data d : Forall kvData_ordered data ->
    exists d', write data d = (inl tt, d') /\
      forall o p m, view d' o p m = overlay (ds_save data []) <$> view d o p m;
  plain_commit d : exists d', commit d = (inl tt, d') /\ forall o p m, view d' o p m = view d o p m
}.

(** ** Properties *)

Section props.
  Context {PT : PTime} {PL : PTimeLaws PT} {D : Type} (B : DatabaseAccess PT D).

Abbreviation saved_wf := (oset_wf lt_kvData kvData_ordered).

Lemma ds_save_wf data s : Forall kvData_ordered data -> saved_wf s -> saved_wf (ds_save data s).
Proof.
  intros Hd. revert s. induction Hd as [|d data Hd Hds IH]; intros s Hs; simpl; [done|].
  apply IH. by apply (set_put_wf lt_kvData_strict_weak).
Qed.

(** Saving keeps the last value written to each key. *)
Lemma ds_save_find data s d : Forall kvData_ordered data -> kvData_ordered d -> saved_wf s ->
  set_find lt_kvData d (ds_save data s) =
    match last (List.filter (fun x => same_kvData d x) data) with
    | Some x => Some x
    | None => set_find lt_kvData d s
    end.
Proof.
  intros Hdata Hd. revert s. induction Hdata as [|x data Hx Hdata IH]; intros s Hs; simpl; [done|].
  rewrite IH by (by apply (set_put_wf lt_kvData_strict_weak)).
  rewrite (set_find_put lt_kvData_strict_weak) by done.
  destruct (same_kvData d x); [|done]. rewrite last_cons. by destruct (last _).
Qed.

(** Writing out a set finds what the set finds. *)
Lemma ds_save_self s d : saved_wf s -> kvData_ordered d ->
  set_find lt_kvData d (ds_save s []) = set_find lt_kvData d s.
Proof.
  intros Hs Hd. pose proof Hs as [_ Hok]. rewrite ds_save_find by (done || by split; constructor).
  induction s as [|x s IH]; [done|]. apply oset_wf_cons in Hs as (Hx & HF & Hs).
  apply Forall_cons in Hok as [_ Hok]. specialize (IH Hs Hok). cbn [set_find List.filter].
  destruct (set_cases lt_kvData_strict_weak d x Hd Hx) as [(E & E1 & E2)|[(E & E1 & E2)|(E & E1 & E2)]];
    rewrite E, E2, ?E1.
  - rewrite last_cons. destruct (last _) as [y|] eqn:El; [|done]. exfalso.
    apply last_Some_elem_of, list_elem_of_In, filter_In in El as [Hy Ey].
    apply list_elem_of_In in Hy. rewrite Forall_forall in HF, Hok. pose proof (HF y Hy) as Hl.
    rewrite (sw_irrefl lt_kvData_strict_weak x y) in Hl; [done|done|by apply Hok|].
    apply (sw_etrans lt_kvData_strict_weak x d y); [done|done|by apply Hok| |done].
    by apply (sw_sym lt_kvData_strict_weak).
  - destruct (last _) as [y|] eqn:El; [|done]. exfalso.
    apply last_Some_elem_of, list_elem_of_In, filter_In in El as [Hy Ey].
    apply list_elem_of_In in Hy. rewrite Forall_forall in HF, Hok.
    pose proof (sw_trans lt_kvData_strict_weak d x y Hd Hx (Hok y Hy) E1 (HF y Hy)) as Hl.
    by rewrite (sw_irrefl lt_kvData_strict_weak d y) in Hl by auto.
  - exact IH.
Qed.

Lemma overlay_ok s d : saved_wf s -> kvData_ordered d -> kvData_ordered (overlay s d) /\
  same_kvData d (overlay s d) = true.
Proof.
  intros Hs Hd. unfold overlay. destruct (set_find lt_kvData d s) as [x|] eqn:E; simpl.
  - apply (set_find_Some lt_kvData_strict_weak) in E as [Hx Ex]; [|done..].
    destruct Hs as [_ Hs]. rewrite Forall_forall in Hs. auto.
  - split; [done|]. by apply (sw_refl lt_kvData_strict_weak).
Qed.

(** Later writes win over what was saved before. *)
Lemma overlay_save data s d : Forall kvData_ordered data -> kvData_ordered d -> saved_wf s ->
  overlay (ds_save data s) d = overlay (ds_save data []) (overlay s d).
Proof.
  intros Hdata Hd Hs. destruct (overlay_ok s d Hs Hd) as [Ho Hsame].
  assert (Hnil : saved_wf []) by (by split; constructor). unfold overlay at 1 2.
  rewrite !ds_save_find by done.
  assert (E : List.filter (fun x => same_kvData d x) data =
              List.filter (fun x => same_kvData (overlay s d) x) data).
  { clear Hnil. induction Hdata as [|x data Hx Hdata IH]; [done|]. simpl. rewrite IH.
    assert (same_kvData d x = same_kvData (overlay s d) x) as ->; [|done].
    pose proof lt_kvData_strict_weak as S. apply eq_true_iff_eq. split; intros H.
    - apply (sw_etrans S _ d _); [done..| |done]. by apply (sw_sym S).
    - by apply (sw_etrans S _ (overlay s d) _). }
  rewrite <- E. destruct (last _); [done|]. simpl. unfold overlay. by destruct (set_find _ _ _).
Qed.

Lemma overlay_nil (l : list (kvData PT)) : overlay [] <$> l = l.
Proof. exact (list_fmap_id l). Qed.

Section contract.
  Context (view : D -> Observation PT -> parameter -> Z -> list (kvData PT)).
  Context {P : PlainDatabase B view}.

(** The layer over a state simulates the plain database when its reads agree. *)
Definition simulates (s : SavedData PT * D) (d : D) : Prop :=
  saved_wf s.1 /\ forall o p m, view d o p m = overlay s.1 <$> view s.2 o p m.

Definition cmd_ok (c : ds_cmd PT) : Prop :=
  match c with Read _ _ _ => True | Write data => Forall kvData_ordered data end.

Lemma simulates_write s d data d' : simulates s d -> Forall kvData_ordered data ->
  (forall o p m, view d' o p m = overlay (ds_save data []) <$> view d o p m) ->
  simulates (ds_save data s.1, s.2) d'.
Proof.
  intros [Hs Hv] Hdata Hd'. split; [by apply ds_save_wf|]. intros o p m. simpl.
  rewrite Hd', Hv, <- list_fmap_compose. apply list_fmap_ext. intros i x Hx. simpl. symmetry.
  apply overlay_save; [done| |done].
  pose proof (plain_view o p m s.2) as Ho. rewrite Forall_forall in Ho. apply Ho.
  by apply list_elem_of_lookup_2 in Hx.
Qed.

Lemma simulation l : forall s d, Forall cmd_ok l -> simulates s d ->
  exists out s' d', run_cmds (DelayedSaveDatabaseAccess B) l s = (inl out, s') /\
    run_cmds B l d = (inl out, d') /\ simulates s' d' /\ s'.2 = s.2.
Proof.
  induction l as [|c l IH]; intros s d Hl Hsd; [by exists [], s, d|].
  apply Forall_cons in Hl as [Hc Hl]. destruct c as [o p m|data].
  - destruct (IH s d Hl Hsd) as (out & s' & d' & E1 & E2 & Hs').
    destruct Hsd as [Hs Hv]. cbn [run_cmds]. unfold db_bind. cbn [getData DelayedSaveDatabaseAccess].
    unfold ds_getData. rewrite !plain_read.
    replace (s.1, s.2) with s by (by destruct s). rewrite E1, E2, Hv. by exists ((overlay s.1 <$> view s.2 o p m) :: out), s', d'.
  - simpl in Hc. destruct (plain_write data d Hc) as (d1 & Ew & Hd1).
    destruct (IH (ds_save data s.1, s.2) d1 Hl) as (out & s' & d' & E1 & E2 & Hs');
      [by eapply simulates_write|].
    exists out, s', d'. cbn [run_cmds]. unfold db_bind. rewrite Ew. cbn [write DelayedSaveDatabaseAccess].
    unfold ds_write. by rewrite E1, E2.
Qed.

(** C29: Over a database that reads back what is written, a client cannot tell
    the delayed writes from immediate ones: all its reads return the same, and
    after the commit the database holds what immediate writes would have left.
    A rollback leaves the database as it was before the writes. *)
Theorem delayed_save_refines (l : list (ds_cmd PT)) (d : D) :
  Forall cmd_ok l ->
  exists out s d',
    run_cmds (DelayedSaveDatabaseAccess B) l ([], d) = (inl out, s) /\
    run_cmds B l d = (inl out, d') /\
    (exists s2, ds_commit B s = (inl tt, ([], s2)) /\ forall o p m, view s2 o p m = view d' o p m) /\
    s.2 = d /\ ds_rollback B s = lift rollback ([], d).
Proof.
  intros Hl. destruct (simulation l ([], d) d Hl) as (out & s & d' & E1 & E2 & [Hs Hv] & Hbase).
  { split; [by split; constructor|]. intros o p m. simpl. by rewrite overlay_nil. }
  exists out, s, d'. split; [done|]. split; [done|]. split.
  - destruct s as [sv sd]. simpl in *. unfold ds_commit. simpl. destruct sv as [|x sv].
    + destruct (plain_commit sd) as (d2 & Ec & Hd2). unfold lift. simpl. rewrite Ec. exists d2. split; [done|].
      intros o p m. rewrite Hd2, Hv. symmetry. apply overlay_nil.
    + destruct (plain_write (x :: sv) sd) as (d1 & Ew & Hd1); [by destruct Hs|].
      destruct (plain_commit d1) as (d2 & Ec & Hd2). unfold db_bind, lift. simpl. rewrite Ew. simpl. rewrite Ec.
      exists d2. split; [done|]. intros o p m. rewrite Hd2, Hd1, Hv. apply list_fmap_ext. intros i y Hy.
      unfold overlay. f_equal. pose proof (plain_view o p m sd) as Ho. rewrite Forall_forall in Ho.
      apply list_elem_of_lookup_2, Ho in Hy. by apply ds_save_self.
  - simpl in Hbase. split; [done|]. unfold ds_rollback, db_bind, ds_clear. by rewrite Hbase.
Qed.
End contract.
End props.

(** ** An instance: a table of values that a read lists and a write overrides *)

Definition orderedb (x : kvData stamp_time) : bool :=
  (0 <=? sensor_ x) && (sensor_ x <? 96) && negb (is_not_a_date_time (obstime_ x)).

Definition table_database : DatabaseAccess stamp_time (list (kvData stamp_time)) := {|
  beginTransaction := db_ret tt;
  commit := db_ret tt;
  rollback := db_ret tt;
  getChecks o := db_ret [];
  getQcxFlagPosition q := db_throw runtime_error;
  getParametersToCheck o := db_ret [];
  getAlgorithm n := db_throw runtime_error;
  getStationParam si p s l q := db_throw runtime_error;
  getStationParamAll si p q := db_throw runtime_error;
  getStation i := db_throw runtime_error;
  getObservation si := db_throw runtime_error;
  getModelData si p m := db_ret [];
  getData o p m := fun d => (inl (List.filter orderedb d), d);
  pin o := db_ret true;
  getTextData o p m := db_ret [];
  complete o d td := db_ret (KvalobsData_of d td);
  write data := fun d => (inl tt, overlay (ds_save data []) <$> List.filter orderedb d);
  selectDataForControl n := db_ret [];
  markProcessDone o := db_ret tt
|}.

Lemma orderedb_spec x : orderedb x = true <-> kvData_ordered x.
Proof. unfold orderedb, kvData_ordered, sensor_ok. rewrite !andb_true_iff, negb_true_iff. intuition lia. Qed.

Lemma table_ordered l : Forall kvData_ordered (List.filter orderedb l).
Proof.
  apply Forall_forall. intros x Hx. apply list_elem_of_In, filter_In in Hx as [_ Hx]. by apply orderedb_spec.
Qed.

Lemma orderedb_id l : Forall kvData_ordered l -> List.filter orderedb l = l.
Proof.
  intros H. induction H as [|x l Hx Hl IH]; [done|]. simpl. apply orderedb_spec in Hx. by rewrite Hx, IH.
Qed.

#[export] Instance table_plain : PlainDatabase table_database (fun d _ _ _ => List.filter orderedb d).
Proof.
  split; simpl.
  - done.
  - intros. apply table_ordered.
  - intros data d Hd. eexists. split; [done|]. intros _ _ _. apply orderedb_id.
    apply Forall_fmap. eapply Forall_impl; [apply table_ordered|]. intros x Hx. simpl.
    apply overlay_ok; [|done]. apply ds_save_wf; [done|by split; constructor].
  - intros d. by exists d.
Qed.

Lemma delayed_save_refines_witness :
  exists out s d', run_cmds (DelayedSaveDatabaseAccess table_database)
      [Write [sample_kvData]; Read sample_Observation
        parameter_new 0] ([], [sample_kvData]) = (inl out, s) /\
    s.2 = d'.
Proof.
  destruct (delayed_save_refines table_database (fun d _ _ _ => List.filter orderedb d)
    [Write [sample_kvData]; Read sample_Observation
        parameter_new 0] [sample_kvData]) as (out & s & d' & E & _ & _ & Hs & _).
  - constructor; [|by repeat constructor]. constructor; [|constructor]. apply orderedb_spec. by vm_compute.
  - exists out, s, [sample_kvData]. by split.
Defined.
