(* ===== verification/CachedAccess.v ===== *)
(** * CachedDatabaseAccess: remembering what the database returned
    (src/src/kvQabased/src/db/CachedDatabaseAccess.cpp and cache/DataCache.h)

    The state of the layer has the caches of one observation and the two that are
    static members of the class, which live as long as the program. *)

From S2P Require Import Prelude Orders OrderedSet PTime TimeText DataFlag ControlInfo UseInfo KvData KvDataOps Rows SortedData KvalobsData Scanning Signature ResultFilter DatabaseAccess DelayedSave.

#[local] Open Scope Z_scope.

(** [std::set<StationParam>]. Its comparison is not an order (see
    [StationParam_lt_not_asymmetric]), so the language does not say which elements
    such a set holds: the set is a parameter. *)
Class StationParamSet := {
  sp_set : Type;
  sp_empty : sp_set;
  insertOrReplace : StationParam -> sp_set -> sp_set;
  sp_elements : sp_set -> list StationParam
}.

(** ** [DataCache] *)

Section DataCache.
  Context {PT : PTime} {PM : PMinutes PT} {A : Type} (obstime : A -> ptime PT).

(** The parameters are compared by their texts. *)
Record DataCache := {
  dc_si : kvStationInfo PT;
  dc_cache : gmap string (Z * list A)
}.

Definition DataCache_new (si : kvStationInfo PT) : DataCache := {| dc_si := si; dc_cache := ∅ |}.

(** The values that are not older than [minuteOffset] asks for. *)
Definition window (si : kvStationInfo PT) (minuteOffset : Z) (l : list A) : list A :=
  List.filter (fun x => negb (ptime_lt (obstime x) (pt_add_minutes (si_obstime si) minuteOffset))) l.

(** [getData]; [None] is the result [false]. *)
Definition dc_getData (c : DataCache) (si : kvStationInfo PT) (p : parameter) (minuteOffset : Z)
    : option (list A) :=
  if bool_decide (si = dc_si c) then
    match dc_cache c !! Parameter_str p with
    | None => None
    | Some (timeOffset, data) =>
        if timeOffset >? minuteOffset then None else Some (window (dc_si c) minuteOffset data)
    end
  else None.

Definition dc_setData (toSet : list A) (si : kvStationInfo PT) (p : parameter) (minuteOffset : Z)
    (c : DataCache) : DataCache :=
  if bool_decide (si = dc_si c) then
    {| dc_si := dc_si c; dc_cache := <[Parameter_str p := (minuteOffset, toSet)]> (dc_cache c) |}
  else c.

End DataCache.

Arguments DataCache {PT} A.

(** ** [CachedDatabaseAccess] *)

Section CachedDatabaseAccess.
  Context {PT : PTime} {PM : PMinutes PT} {SP : StationParamSet} {D : Type} (B : DatabaseAccess PT D).

(** The static members. *)
Record CacheStatics := {
  qcxFlagPositions_ : gmap string Z;
  algorithms_ : gmap string kvAlgorithms
}.

Record StationParamSpec := {
  sps_si : kvStationInfo PT;
  sps_parameter : string;
  sps_sensor : Z;
  sps_level : Z;
  sps_qcx : string;
  sps_result : string
}.

(** [lastStationParamQuery_] is [None] before the first query. *)
Record Cache := {
  ca_static : CacheStatics;
  lastStationParamQuery_ : option StationParamSpec;
  stations_ : gmap Z (option (kvStation PT));
  modelDataCache_ : DataCache (kvModelData PT);
  dataCache_ : DataCache (kvData PT);
  textDataCache_ : DataCache (kvTextData PT);
  stationParams_ : sp_set
}.

(** The constructor, with the static members as they are. *)
Definition Cache_new (statics : CacheStatics) (o : Observation PT) : Cache :=
  {| ca_static := statics; lastStationParamQuery_ := None; stations_ := ∅;
     modelDataCache_ := DataCache_new (stationInfo o); dataCache_ := DataCache_new (stationInfo o);
     textDataCache_ := DataCache_new (stationInfo o); stationParams_ := sp_empty |}.

Definition set_statics (f : CacheStatics -> CacheStatics) (c : Cache) : Cache :=
  {| ca_static := f (ca_static c); lastStationParamQuery_ := lastStationParamQuery_ c; stations_ := stations_ c;
     modelDataCache_ := modelDataCache_ c; dataCache_ := dataCache_ c; textDataCache_ := textDataCache_ c;
     stationParams_ := stationParams_ c |}.
Definition set_query (q : StationParamSpec) (c : Cache) : Cache :=
  {| ca_static := ca_static c; lastStationParamQuery_ := Some q; stations_ := stations_ c;
     modelDataCache_ := modelDataCache_ c; dataCache_ := dataCache_ c; textDataCache_ := textDataCache_ c;
     stationParams_ := stationParams_ c |}.
Definition set_stations (f : gmap Z (option (kvStation PT)) -> gmap Z (option (kvStation PT))) (c : Cache) : Cache :=
  {| ca_static := ca_static c; lastStationParamQuery_ := lastStationParamQuery_ c; stations_ := f (stations_ c);
     modelDataCache_ := modelDataCache_ c; dataCache_ := dataCache_ c; textDataCache_ := textDataCache_ c;
     stationParams_ := stationParams_ c |}.
Definition set_data (m : DataCache (kvModelData PT)) (d : DataCache (kvData PT)) (t : DataCache (kvTextData PT))
    (c : Cache) : Cache :=
  {| ca_static := ca_static c; lastStationParamQuery_ := lastStationParamQuery_ c; stations_ := stations_ c;
     modelDataCache_ := m; dataCache_ := d; textDataCache_ := t; stationParams_ := stationParams_ c |}.
Definition set_stationParams (s : sp_set) (c : Cache) : Cache :=
  {| ca_static := ca_static c; lastStationParamQuery_ := lastStationParamQuery_ c; stations_ := stations_ c;
     modelDataCache_ := modelDataCache_ c; dataCache_ := dataCache_ c; textDataCache_ := textDataCache_ c;
     stationParams_ := s |}.

Abbreviation CM := (DbM (Cache * D)).

Definition get_cache : CM Cache := fun s => (inl s.1, s).
Definition mod_cache (f : Cache -> Cache) : CM unit := fun s => (inl tt, (f s.1, s.2)).

(** [catch (std::exception &)] that turns the failure into a value. *)
Definition or_else {A} (m : CM A) (a : A) : CM A :=
  db_catch m (fun e => if is_std_exception e then Some (db_ret a) else None).

Local Open Scope db_scope.

Definition ca_getQcxFlagPosition (qcx : string) : CM Z :=
  c <- get_cache ;;
  val <- (match qcxFlagPositions_ (ca_static c) !! qcx with
          | Some val => db_ret val
          | None =>
              val <- or_else (lift (getQcxFlagPosition qcx)) (-32767) ;;
              mod_cache (set_statics (fun s =>
                {| qcxFlagPositions_ := <[qcx := val]> (qcxFlagPositions_ s); algorithms_ := algorithms_ s |})) ;;
              db_ret val
          end) ;;
  if val <? 0 then db_throw runtime_error else db_ret val.

Definition ca_getAlgorithm (algorithmName : string) : CM kvAlgorithms :=
  c <- get_cache ;;
  match algorithms_ (ca_static c) !! algorithmName with
  | Some algorithm => db_ret algorithm
  | None =>
      algorithm <- lift (getAlgorithm algorithmName) ;;
      mod_cache (set_statics (fun s =>
        {| qcxFlagPositions_ := qcxFlagPositions_ s;
           algorithms_ := <[algorithmName := algorithm]> (algorithms_ s) |})) ;;
      db_ret algorithm
  end.

Definition ca_getStationParam (si : kvStationInfo PT) (p : string) (sensor level : Z) (qcx : string) : CM string :=
  c <- get_cache ;;
  let hit := match lastStationParamQuery_ c with
             | Some q =>
                 if bool_decide (si = sps_si q) && bool_decide (p = sps_parameter q) && (sensor =? sps_sensor q) &&
                    (level =? sps_level q) && bool_decide (qcx = sps_qcx q)
                 then Some (sps_result q) else None
             | None => None
             end in
  match hit with
  | Some result => db_ret result
  | None =>
      result <- lift (getStationParam si p sensor level qcx) ;;
      mod_cache (set_query {| sps_si := si; sps_parameter := p; sps_sensor := sensor; sps_level := level;
                              sps_qcx := qcx; sps_result := result |}) ;;
      db_ret result
  end.

Definition ca_getStationParamAll (si : kvStationInfo PT) (p : string) (qcx : string) : CM (list StationParam) :=
  c <- get_cache ;;
  match filterStationParam (sp_elements (stationParams_ c)) qcx (si_stationid si) p with
  | [] =>
      result <- lift (getStationParamAll si p qcx) ;;
      mod_cache (fun c => set_stationParams (foldl (fun s e => insertOrReplace e s) (stationParams_ c) result) c) ;;
      db_ret result
  | result => db_ret result
  end.

Definition ca_getStation (stationid : Z) : CM (kvStation PT) :=
  c <- get_cache ;;
  station <- (match stations_ c !! stationid with
              | Some station => db_ret station
              | None =>
                  station <- or_else (s <- lift (getStation stationid) ;; db_ret (Some s)) None ;;
                  mod_cache (set_stations (fun m => <[stationid := station]> m)) ;;
                  db_ret station
              end) ;;
  match station with
  | None => db_throw runtime_error
  | Some s => db_ret s
  end.

Definition ca_getModelData (si : kvStationInfo PT) (p : parameter) (minuteOffset : Z) : CM (list (kvModelData PT)) :=
  c <- get_cache ;;
  match dc_getData md_obstime (modelDataCache_ c) si p minuteOffset with
  | Some out => db_ret out
  | None =>
      out <- lift (getModelData si p minuteOffset) ;;
      mod_cache (fun c => set_data (dc_setData out si p minuteOffset (modelDataCache_ c)) (dataCache_ c)
                                   (textDataCache_ c) c) ;;
      db_ret out
  end.

Definition ca_getData (o : Observation PT) (p : parameter) (minuteOffset : Z) : CM (list (kvData PT)) :=
  c <- get_cache ;;
  match dc_getData (@obstime_ PT) (dataCache_ c) (stationInfo o) p minuteOffset with
  | Some out => db_ret out
  | None =>
      out <- lift (getData o p minuteOffset) ;;
      mod_cache (fun c => set_data (modelDataCache_ c) (dc_setData out (stationInfo o) p minuteOffset (dataCache_ c))
                                   (textDataCache_ c) c) ;;
      db_ret out
  end.

Definition ca_getTextData (o : Observation PT) (p : parameter) (minuteOffset : Z) : CM (list (kvTextData PT)) :=
  c <- get_cache ;;
  match dc_getData (@tx_obstime_ PT) (textDataCache_ c) (stationInfo o) p minuteOffset with
  | Some out => db_ret out
  | None =>
      out <- lift (getTextData o p minuteOffset) ;;
      mod_cache (fun c => set_data (modelDataCache_ c) (dataCache_ c)
                                   (dc_setData out (stationInfo o) p minuteOffset (textDataCache_ c)) c) ;;
      db_ret out
  end.

#[export] Instance CachedDatabaseAccess : DatabaseAccess PT (Cache * D) :=
  let F := FilteredDatabaseAccess Cache B in {|
  beginTransaction := @beginTransaction _ _ F;
  commit := @commit _ _ F;
  rollback := @rollback _ _ F;
  getChecks := @getChecks _ _ F;
  getQcxFlagPosition := ca_getQcxFlagPosition;
  getParametersToCheck := @getParametersToCheck _ _ F;
  getAlgorithm := ca_getAlgorithm;
  getStationParam := ca_getStationParam;
  getStationParamAll := ca_getStationParamAll;
  getStation := ca_getStation;
  getObservation := @getObservation _ _ F;
  getModelData := ca_getModelData;
  getData := ca_getData;
  pin := @pin _ _ F;
  getTextData := ca_getTextData;
  complete := @complete _ _ F;
  write := @write _ _ F;
  selectDataForControl := @selectDataForControl _ _ F;
  markProcessDone := @markProcessDone _ _ F
|}.

End CachedDatabaseAccess.

Arguments Cache PT {SP}.

(** ** Properties *)

(** A database whose reads depend on its state alone, and for which an offset
    further back only adds older values: [full d si p] is all it has. *)
Class WindowedDatabase {PT : PTime} {PM : PMinutes PT} {D : Type} (B : DatabaseAccess PT D)
    (full : D -> kvStationInfo PT -> string -> list (kvData PT)) := {
  windowed_read o p m d :
    getData o p m d = (inl (window (@obstime_ PT) (stationInfo o) m (full d (stationInfo o) (Parameter_str p))), d)
}.

Definition is_read {PT : PTime} (c : ds_cmd PT) : Prop :=
  match c with Read _ _ _ => True | Write _ => False end.

Section props.
  Context {PT : PTime} {PL : PTimeLaws PT} {PM : PMinutes PT} {PML : PMinutesLaws PT PM}
          {SP : StationParamSet} {D : Type} (B : DatabaseAccess PT D).

Lemma not_before_mono (t x : ptime PT) m n :
  is_not_a_date_time t = false -> m <= n ->
  ptime_lt x (pt_add_minutes t n) = false -> ptime_lt x (pt_add_minutes t m) = false.
Proof.
  intros Ht Hmn Hx. destruct (ptime_lt x (pt_add_minutes t m)) eqn:E; [|done].
  destruct (decide (pt_add_minutes t m = pt_add_minutes t n)) as [Eq|Hne]; [by rewrite <- Hx, <- Eq|].
  destruct (ptime_lt_total (pt_add_minutes t m) (pt_add_minutes t n)) as [Hl|Hl];
    rewrite ?pt_add_minutes_is_time; try done.
  - by rewrite (ptime_lt_trans _ _ _ E Hl) in Hx.
  - by rewrite pt_add_minutes_mono in Hl.
Qed.

Lemma window_window {A} (obstime : A -> ptime PT) si m n l :
  is_not_a_date_time (si_obstime si) = false -> m <= n ->
  window obstime si n (window obstime si m l) = window obstime si n l.
Proof.
  intros Ht Hmn. unfold window. induction l as [|x l IH]; [done|]. simpl.
  destruct (ptime_lt (obstime x) (pt_add_minutes (si_obstime si) m)) eqn:Em; simpl.
  - destruct (ptime_lt (obstime x) (pt_add_minutes (si_obstime si) n)) eqn:En; simpl; [exact IH|].
    by rewrite (not_before_mono _ _ m n Ht Hmn En) in Em.
  - destruct (ptime_lt (obstime x) (pt_add_minutes (si_obstime si) n)); simpl; [exact IH|by rewrite IH].
Qed.

Section transparency.
  Context (full : D -> kvStationInfo PT -> string -> list (kvData PT)) {W : WindowedDatabase B full}.

(** What the cache holds is what the database has. *)
Definition cache_ok (c : Cache PT) (d : D) : Prop :=
  forall str off data, dc_cache (dataCache_ c) !! str = Some (off, data) ->
    data = window (@obstime_ PT) (dc_si (dataCache_ c)) off (full d (dc_si (dataCache_ c)) str).

Lemma cached_read c d o p m :
  is_not_a_date_time (si_obstime (dc_si (dataCache_ c))) = false -> cache_ok c d ->
  exists c', ca_getData B o p m (c, d) =
      (inl (window (@obstime_ PT) (stationInfo o) m (full d (stationInfo o) (Parameter_str p))), (c', d)) /\
    dc_si (dataCache_ c') = dc_si (dataCache_ c) /\ cache_ok c' d.
Proof.
  intros Ht Hc. unfold ca_getData, db_bind, get_cache. simpl.
  destruct (dc_getData (@obstime_ PT) (dataCache_ c) (stationInfo o) p m) as [out|] eqn:E.
  - exists c. split; [|done]. unfold dc_getData in E. case_bool_decide as Esi; [|done].
    destruct (dc_cache (dataCache_ c) !! Parameter_str p) as [[off data]|] eqn:El; [|done].
    destruct (off >? m) eqn:Eo; [done|]. injection E as <-. rewrite (Hc _ _ _ El), Esi.
    rewrite window_window; [done|done|lia].
  - unfold lift. simpl. rewrite windowed_read. simpl. eexists. split; [done|].
    unfold set_data, dc_setData. simpl. case_bool_decide as Esi; [|done]. split; [done|].
    intros str off data. simpl. rewrite lookup_insert. case_decide as Es; [|apply Hc].
    intros [= <- <-]. by rewrite <- Es, Esi.
Qed.

(** C30: When reading further back only adds older values, the cache cannot be
    noticed: whatever parameters, offsets and observations are asked for, in
    whatever order, every answer is the database's own. *)
Theorem cache_transparent (l : list (ds_cmd PT)) (st : CacheStatics) (o : Observation PT) (d : D) :
  is_not_a_date_time (o_obstime o) = false -> Forall is_read l ->
  exists out c, run_cmds (CachedDatabaseAccess B) l (Cache_new st o, d) = (inl out, (c, d)) /\
    run_cmds B l d = (inl out, d).
Proof.
  intros Ht Hl.
  assert (H : forall c, is_not_a_date_time (si_obstime (dc_si (dataCache_ c))) = false -> cache_ok c d ->
    exists out c', run_cmds (CachedDatabaseAccess B) l (c, d) = (inl out, (c', d)) /\ run_cmds B l d = (inl out, d)).
  { clear Ht. induction Hl as [|x l Hx Hl IH]; intros c Ht Hc; [by exists [], c|].
    destruct x as [o' p m|]; [|done]. destruct (cached_read c d o' p m Ht Hc) as (c1 & E & Es & Hc1).
    destruct (IH c1) as (out & c' & E1 & E2); [by rewrite Es|done|].
    eexists _, c'. cbn [run_cmds]. unfold db_bind. cbn [getData CachedDatabaseAccess].
    rewrite E, E1, windowed_read, E2. done. }
  apply H; [done|]. intros str off data. simpl. by rewrite lookup_empty.
Qed.
End transparency.

(** One failure is remembered for good: when the database cannot be asked for
    the flag position of a check, because of a serialization error or any other
    exception of the standard library, the answer is that there is no such check,
    then and in every later run of the program, whatever the database says. *)
Theorem flag_position_failure_sticks (qcx : string) (e : exn) (c : Cache PT) (d d' : D) (o : Observation PT) (d2 : D) :
  qcxFlagPositions_ (ca_static c) !! qcx = None ->
  getQcxFlagPosition qcx d = (inr e, d') -> is_std_exception e = true ->
  exists c', @getQcxFlagPosition _ _ (CachedDatabaseAccess B) qcx (c, d) = (inr runtime_error, (c', d')) /\
    @getQcxFlagPosition _ _ (CachedDatabaseAccess B) qcx (Cache_new (ca_static c') o, d2) =
      (inr runtime_error, (Cache_new (ca_static c') o, d2)).
Proof.
  intros Hn E He. simpl. unfold ca_getQcxFlagPosition, db_bind, get_cache, or_else, db_catch, lift. simpl.
  rewrite Hn. simpl. rewrite E, He. simpl. eexists. split; [done|]. simpl. by rewrite lookup_insert_eq.
Qed.

End props.

(** ** Instances *)

#[export] Instance list_set : StationParamSet := {|
  sp_set := list StationParam; sp_empty := []; insertOrReplace e s := s ++ [e]; sp_elements s := s |}.

(** A table that a read lists from the asked time on, and whose flag positions
    cannot be read. *)
Definition window_database : DatabaseAccess stamp_time (list (kvData stamp_time)) := {|
  beginTransaction := db_ret tt;
  commit := db_ret tt;
  rollback := db_ret tt;
  getChecks o := db_ret [];
  getQcxFlagPosition q := db_throw SQLSerializeError;
  getParametersToCheck o := db_ret [];
  getAlgorithm n := db_throw runtime_error;
  getStationParam si p s l q := db_throw runtime_error;
  getStationParamAll si p q := db_throw runtime_error;
  getStation i := db_throw runtime_error;
  getObservation si := db_throw runtime_error;
  getModelData si p m := db_ret [];
  getData o p m := fun d => (inl (window (@obstime_ stamp_time) (stationInfo o) m d), d);
  pin o := db_ret true;
  getTextData o p m := db_ret [];
  complete o d td := db_ret (KvalobsData_of d td);
  write data := db_ret tt;
  selectDataForControl n := db_ret [];
  markProcessDone o := db_ret tt
|}.

#[export] Instance window_windowed : WindowedDatabase window_database (fun d _ _ => d).
Proof. by split. Qed.

Definition no_statics : CacheStatics := {| qcxFlagPositions_ := ∅; algorithms_ := ∅ |}.

Lemma cache_transparent_witness :
  exists out c, run_cmds (CachedDatabaseAccess window_database)
    [Read sample_Observation parameter_new (-60); Read sample_Observation parameter_new 0]
    (Cache_new no_statics sample_Observation, [sample_kvData]) = (inl out, (c, [sample_kvData])) /\
  length out = 2%nat.
Proof.
  destruct (cache_transparent window_database (fun d _ _ => d)
    [Read sample_Observation parameter_new (-60); Read sample_Observation parameter_new 0]
    no_statics sample_Observation [sample_kvData] ltac:(done) ltac:(by repeat constructor)) as (out & c & E1 & E2).
  exists out, c. split; [exact E1|]. cbn [run_cmds] in E2. unfold db_bind, db_ret in E2. simpl in E2.
  injection E2 as <-. done.
Defined.

Lemma flag_position_failure_sticks_witness :
  exists c', @getQcxFlagPosition _ _ (CachedDatabaseAccess window_database) "QC1-1-1"%string
    (Cache_new no_statics sample_Observation, []) = (inr runtime_error, (c', [])).
Proof.
  destruct (flag_position_failure_sticks window_database "QC1-1-1"%string SQLSerializeError
    (Cache_new no_statics sample_Observation) [] [] sample_Observation [] eq_refl eq_refl eq_refl) as (c' & E & _).
  by exists c'.
Defined.
