(* ===== verification/DataStore.v ===== *)
(** * DataStore: the data of one check and what its script changes
    (src/src/kvQabased/src/scriptcreate/DataStore.cpp)

    Maps by parameter are lists in the order of the parameters' texts, each entry
    with its parameter. The set [modified_] holds pointers into the map of values;
    a pointer is the text of a parameter and an index. Log output is left out, and
    the clock, which dates the values that are filled in, is the variable [now]. *)

From S2P Require Import Prelude Orders OrderedSet PTime TimeText DataFlag ControlInfo UseInfo KvData KvDataOps Rows SortedData KvalobsData Scanning Signature ResultFilter ScriptResult DatabaseAccess.

#[local] Open Scope Z_scope.

Abbreviation ParameterSorted A := (list (string * (parameter * list A))).

(** [m[p].assign(l)] and [m[p].push_back(x)] for every [x] of [l]. *)
Definition pm_assign {A} (p : parameter) (l : list A) (m : ParameterSorted A) : ParameterSorted A :=
  c_update string_lt (Parameter_str p) (p, []) (fun e => (e.1, l)) m.
Definition pm_append {A} (p : parameter) (l : list A) (m : ParameterSorted A) : ParameterSorted A :=
  c_update string_lt (Parameter_str p) (p, []) (fun e => (e.1, e.2 ++ l)) m.

(** ** [fillMissing] *)

Section fillMissing.
  Context {PT : PTime} {A : Type} (obstime : A -> ptime PT) (factory : A -> ptime PT -> A).

(** All observation times, in order. *)
Definition obsTimes (m : ParameterSorted A) : list (ptime PT) :=
  foldl (fun s e => foldl (fun s x => set_insert ptime_lt (obstime x) s) s e.2.2) [] m.

(** One time of one parameter: a missing value where there is none. *)
Fixpoint fill_time (first : A) (t : ptime PT) (l : list A) : list A :=
  match l with
  | [] => [factory first t]
  | x :: r =>
      if ptime_lt t (obstime x) then x :: fill_time first t r
      else if bool_decide (obstime x = t) then x :: r else factory first t :: x :: r
  end.

(** The times are visited from the latest to the earliest. *)
Definition fill_list (times : list (ptime PT)) (l : list A) : res (list A) :=
  match l with
  | [] => throw runtime_error
  | first :: _ => mret (foldl (fun l t => fill_time first t l) l (reverse times))
  end.

Fixpoint fill_entries (times : list (ptime PT)) (m : ParameterSorted A) : res (ParameterSorted A) :=
  match m with
  | [] => mret []
  | (str, (p, l)) :: m =>
      l ← fill_list times l; m ← fill_entries times m; mret ((str, (p, l)) :: m)
  end.

Definition fillMissing (m : ParameterSorted A) : res (ParameterSorted A) := fill_entries (obsTimes m) m.

End fillMissing.

Section DataStore.
  Context {PT : PTime} {PM : PMinutes PT} {TT : PTimeText PT} {BT : BoostText} {BS : BoostSplit} {SI : SpiritInt}
          {BF : BoostFloat}.
  Context (now : ptime PT).

(** The two factories of values that are filled in. *)
Definition data_factory (d : kvData PT) (t : ptime PT) : kvData PT := getMissing (kvDataFactory_of d) now 0 t.

Definition text_data_factory (d : kvTextData PT) (t : ptime PT) : kvTextData PT :=
  kvTextData_set (tx_stationid_ d) t "-32767" 0 (tx_tbtime_ d) (tx_typeid_ d).

Definition fillMissing_data := fillMissing (@obstime_ PT) data_factory.
Definition fillMissing_text := fillMissing (@tx_obstime_ PT) text_data_factory.

Record DataStore := {
  data_ : ParameterSorted (kvData PT);
  refData_ : ParameterSorted (kvTextData PT);
  modelData_ : ParameterSorted (kvModelData PT);
  metaData_ : ParameterSorted spec_float;
  observation_ : Observation PT;
  station_store : kvStation PT;
  qcx_ : string;
  flagPosition_ : Z;
  modified_ : list (string * nat)
}.

(** ** Reading the data of a check *)

Section populate.
  Context {D : Type} {DA : DatabaseAccess PT D}.

Local Open Scope db_scope.

Definition translated (tr : ParameterTranslation) (p : parameter) : DbM D parameter :=
  match tr_find p tr with
  | Some (_, a) => db_ret a
  | None => db_throw UnableToGetData
  end.

(** The value that stands for a parameter without any. *)
Definition missing_value (obs : Observation PT) (p : parameter) : kvData PT :=
  getMissing {| f_stationID_ := o_stationid obs;
                f_typeID_ := if haveType p then pa_typeid p else o_type obs;
                f_obstime_ := o_obstime obs;
                f_sensor_ := if haveSensor p then pa_sensor p else 0;
                f_level_ := if haveLevel p then pa_level p else 0 |} now 0 not_a_date_time.

Definition populateObs_ (obs : Observation PT) (abstract concrete : DataRequirement)
    : DbM D (ParameterSorted (kvData PT)) :=
  translation <- db_res (getTranslation concrete abstract) ;;
  data <- db_fold (parameter_ concrete) (fun data p =>
    a <- translated translation p ;;
    dbdata <- DatabaseAccess.getData obs p (firstTime_ concrete) ;;
    let dbdata := match dbdata with [] => [missing_value obs p] | _ => dbdata end in
    db_ret (pm_assign a dbdata data)) [] ;;
  db_res (fillMissing_data data).

Definition populateRefObs_ (obs : Observation PT) (abstract concrete : DataRequirement)
    : DbM D (ParameterSorted (kvTextData PT)) :=
  translation <- db_res (getTranslation concrete abstract) ;;
  refData <- db_fold (parameter_ concrete) (fun refData p =>
    a <- translated translation p ;;
    textData <- getTextData obs p (firstTime_ concrete) ;;
    let textData := match textData with
                    | [] => [kvTextData_set (o_stationid obs) (o_obstime obs) "" 0 not_a_date_time (o_type obs)]
                    | _ => textData
                    end in
    db_ret (pm_append a textData refData)) [] ;;
  db_res (fillMissing_text refData).

Definition populateModel_ (obs : Observation PT) (abstract concrete : DataRequirement)
    : DbM D (ParameterSorted (kvModelData PT)) :=
  translation <- db_res (getTranslation concrete abstract) ;;
  db_fold (parameter_ concrete) (fun modelData p =>
    a <- translated translation p ;;
    modelDataList <- getModelData (stationInfo obs) p (firstTime_ concrete) ;;
    match modelDataList with
    | [] => db_throw MissingModelData
    | _ => db_ret (pm_assign a modelDataList modelData)
    end) [].

(** The concrete and the abstract parameter of metadata. *)
Definition findMetaParameter (tr : ParameterTranslation) (p : parameter) : res (parameter * parameter) :=
  match tr_find p tr with
  | None => throw UnableToGetData
  | Some (concrete, abstract) => if hasMetaData concrete then mret (concrete, abstract) else throw UnableToGetData
  end.

(** The loop of [findMetadata] over the parameters of the observation: the number
    of matches, the last exact one and the last one of the level only. *)
Fixpoint count_metadata (metaParam : string) (ps : list parameter) (l : list StationParam)
    (nMatch : Z) (exactMatch levelMatch : Z * Z * string) : Z * (Z * Z * string) * (Z * Z * string) :=
  match ps with
  | [] => (nMatch, exactMatch, levelMatch)
  | p :: ps =>
      if bool_decide (name_ p = metaParam) then
        let sensor := if haveSensor p then pa_sensor p else 0 in
        let level := if haveLevel p then pa_level p else 0 in
        match sp_find l level sensor with
        | inl metadata =>
            if negb (metadata.1.2 =? sensor) then count_metadata metaParam ps l (nMatch + 1) exactMatch metadata
            else count_metadata metaParam ps l (nMatch + 1) metadata levelMatch
        | inr MultipleMatch => count_metadata metaParam ps l (nMatch + 2) exactMatch levelMatch
        | inr _ => count_metadata metaParam ps l nMatch exactMatch levelMatch
        end
      else count_metadata metaParam ps l nMatch exactMatch levelMatch
  end.

Definition findMetadata (metaParam : string) (concreteObs : DataRequirement) (l : list StationParam) : res string :=
  let '(nMatch, exactMatch, levelMatch) :=
    count_metadata metaParam (parameter_ concreteObs) l 0 (-1, -1, ""%string) (-1, -1, ""%string) in
  if nMatch =? 0 then throw NoMetadata
  else if nMatch >? 1 then throw NoMetadata
  else if negb (bool_decide (exactMatch.2 = EmptyString)) then mret exactMatch.2
  else mret levelMatch.2.

Definition populateMeta_ (obs : Observation PT) (qcx : string)
    (concreteObs : option DataRequirement) (abstract concrete : DataRequirement) : DbM D (ParameterSorted spec_float) :=
  match concreteObs with
  | None => db_throw undefined_behaviour (* a reference is bound to a null pointer *)
  | Some concreteObs =>
      translation <- db_res (getTranslation concrete abstract) ;;
      db_fold (parameter_ concrete) (fun metaData p =>
        ca <- db_res (findMetaParameter translation p) ;;
        l <- getStationParamAll (stationInfo obs) (metaDataParamName_ ca.1) qcx ;;
        metadata <- db_res (findMetadata (metaDataParamName_ ca.1) concreteObs l) ;;
        val <- db_res (parseStationParam (to_bytes metadata) (to_bytes (metaDataType_ ca.1))) ;;
        db_ret (pm_append ca.2 [val] metaData)) []
  end.

Definition unknown_station (stationid : Z) : kvStation PT :=
  {| st_stationid := stationid; st_lat := Dbl.of_Z (-1); st_lon := Dbl.of_Z (-1); st_height := Dbl.of_Z (-1);
     st_maxspeed := Dbl.of_Z 0; st_name := "unknown station"; st_wmonr := -1; st_nationalnr := -1;
     st_ICAOid := ""; st_call_sign := ""; st_stationstr := ""; st_environmentid := 0; st_static := true;
     st_fromtime := default not_a_date_time (pt_make 1900 1 1 0 0 0) |}.

Definition populateStation_ (obs : Observation PT) : DbM D (kvStation PT) :=
  db_catch (getStation (o_stationid obs))
    (fun e => if is_std_exception e then Some (db_ret (unknown_station (o_stationid obs))) else None).

(** The data of one kind: nothing when neither signature asks for it. *)
Definition populate {A} (abstract concrete : option DataRequirement)
    (f : DataRequirement -> DataRequirement -> DbM D (ParameterSorted A)) : DbM D (ParameterSorted A) :=
  match abstract, concrete with
  | None, None => db_ret []
  | Some a, Some c => f a c
  | _, _ => db_throw UnableToGetData
  end.

(** The constructor. *)
Definition DataStore_new (obs : Observation PT) (qcx : string) (abstract concrete : CheckSignature)
    : DbM D DataStore :=
  data <- populate (cs_obs abstract) (cs_obs concrete) (populateObs_ obs) ;;
  refData <- populate (cs_refobs abstract) (cs_refobs concrete) (populateRefObs_ obs) ;;
  modelData <- populate (cs_model abstract) (cs_model concrete) (populateModel_ obs) ;;
  metaData <- populate (cs_meta abstract) (cs_meta concrete) (populateMeta_ obs qcx (cs_obs concrete)) ;;
  station <- populateStation_ obs ;;
  flagPosition <- getQcxFlagPosition qcx ;;
  db_ret {| data_ := data; refData_ := refData; modelData_ := modelData; metaData_ := metaData;
            observation_ := obs; station_store := station; qcx_ := qcx; flagPosition_ := flagPosition;
            modified_ := [] |}.

End populate.

(** ** Applying the results of the script *)

(** The value that a pointer points to, and a write through it. *)
Definition deref (m : ParameterSorted (kvData PT)) (ptr : string * nat) : option (kvData PT) :=
  e ← c_find string_lt ptr.1 m; e.2 !! ptr.2.

Definition assign_at (ptr : string * nat) (d : kvData PT) (m : ParameterSorted (kvData PT))
    : ParameterSorted (kvData PT) :=
  (fun e : string * (parameter * list (kvData PT)) =>
     if bool_decide (e.1 = ptr.1) then (e.1, (e.2.1, <[ptr.2 := d]> e.2.2)) else e) <$> m.

(** [setFlag]: the value, and whether it was changed. *)
Definition setFlag (d : kvData PT) (flagIndex newValue : Z) (regardlessOfOldValue : bool) : kvData PT * bool :=
  if (flag (controlinfo_ d) flagIndex <? newValue) || regardlessOfOldValue
  then (with_controlinfo d (ci_set (controlinfo_ d) flagIndex newValue), true)
  else (d, false).

Definition updateCfailed (d : kvData PT) (qcx : string) (newValue : Z) : kvData PT * bool :=
  if newValue >? 1
  then (with_cfailed d ((if bool_decide (cfailed_ d = EmptyString) then "" else cfailed_ d +:+ ",") +:+ qcx), true)
  else (d, false).

(** What a result does to the value it refers to. *)
Definition apply_value (ds : DataStore) (d : kvData PT) (c : CorrectionType) (value : spec_float)
    : res (kvData PT * bool) :=
  match c with
  | Flag =>
      v ← of_option undefined_behaviour (Dbl.to_int value);
      let '(d, changed1) := setFlag d (flagPosition_ ds) v false in
      let '(d, changed2) := updateCfailed d (qcx_ ds) v in
      mret (d, changed1 || changed2)
  | Corrected => mret (with_corrected d value, true)
  | Missing =>
      v ← of_option undefined_behaviour (Dbl.to_int value);
      let '(d, _) := setFlag d 6 v true in
      let d := if Dbl.eqb value (Dbl.of_Z 2) then with_corrected d (Dbl.of_Z (-32766))
               else if Dbl.eqb value (Dbl.of_Z 3) then with_corrected d (Dbl.of_Z (-32767)) else d in
      mret (d, true)
  | Undefined => throw runtime_error
  end.

(** The comparison of [modified_]: of what the pointers point to. *)
Definition ptr_lt (m : ParameterSorted (kvData PT)) (a b : string * nat) : bool :=
  match deref m a, deref m b with
  | Some x, Some y => lt_kvData x y
  | _, _ => false
  end.

Definition apply (r : ScriptResultIdentifier) (value : spec_float) (ds : DataStore) : res DataStore :=
  p ← of_option Invalid (Parameter_of (to_bytes (sri_parameter r)));
  match c_find string_lt (Parameter_str p) (data_ ds) with
  | None => throw InvalidParameter
  | Some (_, l) =>
      (* [size_t idx] of an [int]: a negative one is beyond every list *)
      if (sri_timeIndex r <? 0) || (Z.of_nat (length l) <=? sri_timeIndex r) then throw NoSuchData
      else
        let ptr := (Parameter_str p, Z.to_nat (sri_timeIndex r)) in
        d ← of_option undefined_behaviour (deref (data_ ds) ptr);
        '(d, changed) ← apply_value ds d (sri_correctionType r) value;
        let data := assign_at ptr d (data_ ds) in
        mret {| data_ := data; refData_ := refData_ ds; modelData_ := modelData_ ds; metaData_ := metaData_ ds;
                observation_ := observation_ ds; station_store := station_store ds; qcx_ := qcx_ ds;
                flagPosition_ := flagPosition_ ds;
                modified_ := if changed : bool then set_insert (ptr_lt data) ptr (modified_ ds) else modified_ ds |}
  end.

Definition getModified (ds : DataStore) : list (kvData PT) := omap (deref (data_ ds)) (modified_ ds).

End DataStore.

Arguments DataStore PT : clear implicits.

(** ** Properties: filling in *)

Section fill_props.
  Context {PT : PTime} {PL : PTimeLaws PT} {A : Type} (obstime : A -> ptime PT) (factory : A -> ptime PT -> A).

Definition real_time (t : ptime PT) : Prop := is_not_a_date_time t = false.

(** The factory makes a value of the time it is asked for. *)
Context (Hfactory : forall d t, real_time t -> obstime (factory d t) = t).

Lemma sw_time : strict_weak real_time (fun t u => bool_decide (t = u)) ptime_lt.
Proof. apply (sw_ptime real_time id). done. Qed.

(** Strictly from the latest to the earliest. *)
Definition descending (ts : list (ptime PT)) : Prop :=
  StronglySorted (fun a b => ptime_lt b a = true) ts /\ Forall real_time ts.

Lemma descending_cons t ts : descending (t :: ts) <->
  real_time t /\ Forall (fun u => ptime_lt u t = true) ts /\ descending ts.
Proof.
  unfold descending. split.
  - intros [HS HF]. inversion HS; inversion HF; subst. done.
  - intros (? & ? & ? & ?). split; by constructor.
Qed.

Lemma obsTimes_inner l s : Forall real_time (obstime <$> l) -> oset_wf ptime_lt real_time s ->
  let s' := foldl (fun s x => set_insert ptime_lt (obstime x) s) s l in
  oset_wf ptime_lt real_time s' /\ forall t, t ∈ s' <-> t ∈ s \/ t ∈ obstime <$> l.
Proof.
  revert s. induction l as [|x l IH]; intros s Hl Hs; simpl.
  { split; [done|]. intros t. rewrite elem_of_nil. tauto. }
  apply Forall_cons in Hl as [Hx Hl]. destruct (IH (set_insert ptime_lt (obstime x) s) Hl) as [H1 H2].
  { by apply (set_insert_wf sw_time). }
  split; [done|]. intros t. rewrite H2, (elem_of_set_insert sw_time), elem_of_cons by done.
  split; [tauto|]. intros [Ht|[->|Ht]]; [tauto| |tauto].
  destruct (set_find ptime_lt (obstime x) s) as [y|] eqn:E; [|tauto].
  apply (set_find_Some sw_time) in E as [Hy Ey]; [|done..]. apply bool_decide_eq_true in Ey as ->. tauto.
Qed.

Lemma obsTimes_spec (m : ParameterSorted A) : Forall (fun e => Forall real_time (obstime <$> e.2.2)) m ->
  oset_wf ptime_lt real_time (obsTimes obstime m) /\
  forall t, t ∈ obsTimes obstime m <-> exists e, e ∈ m /\ t ∈ obstime <$> e.2.2.
Proof.
  intros Hm. unfold obsTimes.
  cut (forall s, oset_wf ptime_lt real_time s ->
    let s' := foldl (fun s (e : string * (parameter * list A)) => foldl (fun s x => set_insert ptime_lt (obstime x) s) s e.2.2) s m in
    oset_wf ptime_lt real_time s' /\ forall t, t ∈ s' <-> t ∈ s \/ exists e, e ∈ m /\ t ∈ obstime <$> e.2.2).
  { intros H. destruct (H []) as [H1 H2]; [by split; constructor|]. split; [done|]. intros t. rewrite H2, elem_of_nil. tauto. }
  induction Hm as [|e m He Hm IH]; intros s Hs; simpl.
  { split; [done|]. intros t. split; [tauto|]. intros [|(e & H & _)]; [done|by apply elem_of_nil in H]. }
  destruct (obsTimes_inner e.2.2 s He Hs) as [H1 H2]. destruct (IH _ H1) as [H3 H4]. split; [done|].
  intros t. rewrite H4, H2. split.
  - intros [[Ht|Ht]|(e' & He' & Ht)]; [by left|right; exists e; split; [by left|done]|].
    right. exists e'. split; [by right|done].
  - intros [Ht|(e' & He' & Ht)]; [by left; left|]. apply elem_of_cons in He' as [->|He']; [by left; right|].
    right. by exists e'.
Qed.

Lemma StronglySorted_snoc {B} (R : B -> B -> Prop) l x :
  StronglySorted R l -> Forall (fun y => R y x) l -> StronglySorted R (l ++ [x]).
Proof.
  intros H. induction H as [|y l Hl IH Hy]; intros HF; simpl; [by repeat constructor|].
  apply Forall_cons in HF as [Hyx HF]. constructor; [by apply IH|]. apply Forall_app. split; [done|by constructor].
Qed.

Lemma sorted_descending s : oset_wf ptime_lt real_time s -> descending (reverse s).
Proof.
  induction s as [|t s IH]; [by split; constructor|]. intros (Ht & HF & Hs)%oset_wf_cons.
  destruct (IH Hs) as [H1 H2]. rewrite reverse_cons. split.
  - apply StronglySorted_snoc; [done|]. by apply Forall_reverse.
  - apply Forall_app. split; [done|by constructor].
Qed.

(** The value of a parameter at a time. *)
Definition value_at (first : A) (l : list A) (t : ptime PT) : A :=
  default (factory first t) (snd <$> list_find (fun x => obstime x = t) l).

Lemma fill_time_skip first t a l : Forall (fun x => ptime_lt t (obstime x) = true) a ->
  fill_time obstime factory first t (a ++ l) = a ++ fill_time obstime factory first t l.
Proof. intros H. induction H as [|x a Hx Ha IH]; simpl; [done|]. by rewrite Hx, IH. Qed.

Lemma list_find_later (t : ptime PT) (x : A) l : obstime x <> t ->
  snd <$> list_find (fun x => obstime x = t) (x :: l) = snd <$> list_find (fun x => obstime x = t) l.
Proof. intros H. simpl. rewrite decide_False by done. by destruct (list_find _ l) as [[]|]. Qed.

Lemma fill_times first ts : forall a l,
  descending ts -> descending (obstime <$> l) -> (forall t, t ∈ obstime <$> l -> t ∈ ts) ->
  Forall (fun x => Forall (fun t => ptime_lt t (obstime x) = true) ts) a ->
  foldl (fun l t => fill_time obstime factory first t l) (a ++ l) ts = a ++ (value_at first l <$> ts).
Proof.
  induction ts as [|t ts IH]; intros a l Hts Hl Hin Ha; simpl.
  { destruct l as [|x l]; [done|]. exfalso. assert (H : obstime x ∈ []) by (apply Hin; by left).
    by apply elem_of_nil in H. }
  apply descending_cons in Hts as (Ht & Hlt & Hts).
  assert (Hat : Forall (fun x => ptime_lt t (obstime x) = true) a).
  { eapply Forall_impl; [exact Ha|]. intros x Hx. by apply Forall_cons in Hx as [? _]. }
  rewrite fill_time_skip by done.
  assert (Ha' : Forall (fun x => Forall (fun t => ptime_lt t (obstime x) = true) ts) a).
  { eapply Forall_impl; [exact Ha|]. intros x Hx. by apply Forall_cons in Hx as [_ ?]. }
  assert (Hself : ptime_lt t t = false) by apply ptime_lt_irrefl.
  destruct (decide (t ∈ obstime <$> l)) as [Htl|Htl].
  - (* the parameter has a value of this time, its latest *)
    destruct l as [|x l]; [by apply elem_of_nil in Htl|]. simpl in Hl.
    apply descending_cons in Hl as (Hx & HF & Hl). assert (Ext : obstime x = t).
    { apply elem_of_cons in Htl as [Htl|Htl]; [done|]. exfalso. rewrite Forall_forall in HF, Hlt.
      pose proof (HF t Htl) as H1. assert (Hxin : obstime x ∈ t :: ts) by (apply Hin; by left).
      apply elem_of_cons in Hxin as [E|Hxin]; [rewrite E in H1; congruence|].
      pose proof (ptime_lt_trans _ _ _ H1 (Hlt _ Hxin)) as H2. congruence. }
    simpl fill_time. rewrite Ext, Hself, bool_decide_true by done.
    replace (a ++ x :: l) with ((a ++ [x]) ++ l) by (by rewrite <- app_assoc).
    rewrite IH; [|done|done| |].
    + rewrite <- app_assoc. f_equal. simpl. f_equal.
      * unfold value_at. simpl. by rewrite decide_True.
      * apply list_fmap_ext. intros i u Hu. unfold value_at. f_equal. rewrite list_find_later; [done|].
        rewrite Ext. intros <-. apply list_elem_of_lookup_2 in Hu. rewrite Forall_forall in Hlt. specialize (Hlt _ Hu). congruence.
    + intros u Hu. assert (Hu' : u ∈ t :: ts) by (apply Hin; by right). apply elem_of_cons in Hu' as [->|?]; [|done].
      rewrite Forall_forall in HF. specialize (HF _ Hu). rewrite Ext in HF. congruence.
    + apply Forall_app. split; [done|]. constructor; [|constructor]. by rewrite Ext.
  - assert (Ef : fill_time obstime factory first t l = factory first t :: l).
    { destruct l as [|x l]; [done|]. simpl. assert (Hxin : obstime x ∈ t :: ts) by (apply Hin; by left).
      assert (obstime x <> t) by (intros <-; apply Htl; by left).
      apply elem_of_cons in Hxin as [?|Hxin]; [done|]. rewrite Forall_forall in Hlt.
      rewrite bool_decide_false by done. destruct (ptime_lt t (obstime x)) eqn:E; [|done].
      pose proof (ptime_lt_trans _ _ _ E (Hlt _ Hxin)). congruence. }
    rewrite Ef. replace (a ++ factory first t :: l) with ((a ++ [factory first t]) ++ l) by (by rewrite <- app_assoc).
    rewrite IH; [|done|done| |].
    + rewrite <- app_assoc. f_equal. simpl. f_equal. unfold value_at.
      destruct (list_find (fun x => obstime x = t) l) as [[i x]|] eqn:E; [|done].
      apply list_find_Some in E as (Hi & <- & _). exfalso. apply Htl, list_elem_of_fmap. exists x.
      split; [done|]. by apply list_elem_of_lookup_2 in Hi.
    + intros u Hu. pose proof (Hin u Hu) as Hu'. apply elem_of_cons in Hu' as [->|?]; done.
    + apply Forall_app. split; [done|]. constructor; [|constructor]. by rewrite Hfactory.
Qed.

(** What a parameter's list becomes. *)
Definition aligned (times : list (ptime PT)) (e : string * (parameter * list A)) : string * (parameter * list A) :=
  match e.2.2 with
  | [] => e
  | first :: _ => (e.1, (e.2.1, value_at first e.2.2 <$> reverse times))
  end.

Definition fillable (m : ParameterSorted A) : Prop :=
  Forall (fun e => e.2.2 <> [] /\ descending (obstime <$> e.2.2)) m.

Lemma fillMissing_aligned m : fillable m ->
  fillMissing obstime factory m = inl (aligned (obsTimes obstime m) <$> m).
Proof.
  intros Hm. assert (Hr : Forall (fun e => Forall real_time (obstime <$> e.2.2)) m).
  { eapply Forall_impl; [exact Hm|]. by intros e [_ [_ ?]]. }
  destruct (obsTimes_spec m Hr) as [Hwf Hin]. unfold fillMissing.
  assert (H : forall m', (forall e, e ∈ m' -> e ∈ m) -> fillable m' ->
    fill_entries obstime factory (obsTimes obstime m) m' = inl (aligned (obsTimes obstime m) <$> m')).
  { clear Hm Hr. induction m' as [|[str [p l]] m' IH]; intros Hsub Hm'; [done|].
    apply Forall_cons in Hm' as [[Hne Hd] Hm']. simpl in *. destruct l as [|first l]; [done|].
    pose proof (fill_times first (reverse (obsTimes obstime m)) [] (first :: l)) as Hf. cbn [app] in Hf.
    unfold aligned. cbn [fill_entries fill_list mbind res_bind fmap list_fmap fst snd]. unfold mret, res_ret. rewrite Hf.
    - cbn [mbind res_bind]. rewrite IH; [done| |done]. intros e He. apply Hsub. by right.
    - by apply sorted_descending.
    - done.
    - intros t Ht. apply elem_of_reverse, Hin. exists (str, (p, first :: l)). split; [apply Hsub; by left|done].
    - constructor. }
  by apply H.
Qed.

End fill_props.

Section fillMissing_theorem.
  Context {PT : PTime} {PL : PTimeLaws PT} (now : ptime PT).

Lemma data_factory_time (d : kvData PT) t : real_time t -> obstime_ (data_factory now d t) = t.
Proof. unfold real_time, data_factory. intros Ht. simpl. by rewrite Ht. Qed.

Lemma data_factory_missing (d : kvData PT) t :
  missing (data_factory now d t) = true /\ original_ (data_factory now d t) = missingValue_.
Proof. by split. Qed.

Lemma value_at_time (first : kvData PT) l t : real_time t ->
  obstime_ (value_at (@obstime_ PT) (data_factory now) first l t) = t.
Proof.
  intros Ht. unfold value_at. destruct (list_find (fun x => obstime_ x = t) l) as [[i x]|] eqn:E; simpl.
  - by apply list_find_Some in E as (_ & -> & _).
  - by rewrite Ht.
Qed.

Lemma descending_unique (l : list (kvData PT)) x y :
  descending ((@obstime_ PT) <$> l) -> x ∈ l -> y ∈ l -> obstime_ x = obstime_ y -> x = y.
Proof.
  induction l as [|z l IH]; intros Hd Hx Hy E; [by apply elem_of_nil in Hx|]. simpl in Hd.
  apply descending_cons in Hd as (_ & HF & Hd). rewrite Forall_fmap, Forall_forall in HF.
  apply elem_of_cons in Hx as [->|Hx], Hy as [->|Hy]; [done| | |by apply IH].
  - specialize (HF y Hy). simpl in HF. rewrite E, ptime_lt_irrefl in HF. done.
  - specialize (HF x Hx). simpl in HF. rewrite E, ptime_lt_irrefl in HF. done.
Qed.

(** When every parameter has values, each from its latest time to its
    earliest, filling in gives every parameter values at the same times: all times
    that occur, from the latest to the earliest. No value is lost, and a value
    that was not there before is a missing one. A parameter without any value is
    an error. *)
Theorem fillMissing_spec (m : ParameterSorted (kvData PT)) :
  (fillable (@obstime_ PT) m ->
   exists m', fillMissing_data now m = inl m' /\
     descending (reverse (obsTimes (@obstime_ PT) m)) /\
     Forall (fun e => (@obstime_ PT) <$> e.2.2 = reverse (obsTimes (@obstime_ PT) m)) m' /\
     (fun e => (e.1, e.2.1)) <$> m' = (fun e => (e.1, e.2.1)) <$> m /\
     forall i e, m !! i = Some e -> exists e', m' !! i = Some e' /\
       (forall x, x ∈ e.2.2 -> x ∈ e'.2.2) /\
       (forall y, y ∈ e'.2.2 -> y ∈ e.2.2 \/ missing y = true /\ original_ y = missingValue_)) /\
  ((exists e, e ∈ m /\ e.2.2 = []) -> fillMissing_data now m = inr runtime_error).
Proof.
  split.
  - intros Hm. assert (Hr : Forall (fun e => Forall real_time ((@obstime_ PT) <$> e.2.2)) m).
    { eapply Forall_impl; [exact Hm|]. by intros e [_ [_ ?]]. }
    destruct (obsTimes_spec (@obstime_ PT) m Hr) as [Hwf Hin]. pose proof (sorted_descending _ Hwf) as Hd.
    unfold fillMissing_data. rewrite fillMissing_aligned by (done || exact data_factory_time).
    eexists. split; [done|]. split; [done|]. split; [|split].
    + apply Forall_fmap. eapply Forall_impl; [exact Hm|]. intros [str [p l]] [Hne _]. simpl in *.
      unfold aligned. simpl. destruct l as [|first l]; [done|]. simpl. rewrite <- list_fmap_compose.
      rewrite <- (list_fmap_id (reverse _)) at 2. apply list_fmap_ext. intros i t Ht. simpl.
      apply value_at_time. destruct Hd as [_ Hd]. rewrite Forall_forall in Hd. apply Hd.
      by apply list_elem_of_lookup_2 in Ht.
    + rewrite <- list_fmap_compose. apply list_fmap_ext. intros i [str [p l]] _. unfold aligned. simpl. by destruct l.
    + intros i [str [p l]] Hi. rewrite list_lookup_fmap, Hi. simpl. eexists. split; [done|]. unfold aligned. simpl.
      unfold fillable in Hm. rewrite Forall_forall in Hm. destruct (Hm _ (list_elem_of_lookup_2 _ _ _ Hi)) as [Hne Hdl]. simpl in *.
      destruct l as [|first l]; [done|]. simpl. split.
      * intros x Hx. apply list_elem_of_fmap. exists (obstime_ x). split.
        -- unfold value_at. destruct (list_find (fun y => obstime_ y = obstime_ x) (first :: l)) as [[j y]|] eqn:E.
           ++ simpl. apply list_find_Some in E as (Hj & E & _).
              apply (descending_unique (first :: l)); [done|done|by apply list_elem_of_lookup_2 in Hj|done].
           ++ exfalso. apply list_find_None in E. rewrite Forall_forall in E. by apply (E x).
        -- apply elem_of_reverse, Hin. exists (str, (p, first :: l)).
           split; [by apply list_elem_of_lookup_2 in Hi|]. cbn [fst snd]. apply list_elem_of_fmap. by exists x.
      * intros y Hy. apply list_elem_of_fmap in Hy as (t & -> & _). unfold value_at.
        destruct (list_find (fun y => obstime_ y = t) (first :: l)) as [[j y]|] eqn:E; simpl.
        -- left. apply list_find_Some in E as (Hj & _). by apply list_elem_of_lookup_2 in Hj.
        -- right. apply data_factory_missing.
  - intros (e & He & Hnil). unfold fillMissing_data, fillMissing.
    generalize (obsTimes (@obstime_ PT) m). intros ts. induction m as [|[str [p l]] m IH]; [by apply elem_of_nil in He|].
    simpl. destruct l as [|first l]; [done|]. apply elem_of_cons in He as [->|He]; [done|]. simpl. by rewrite IH.
Qed.

End fillMissing_theorem.

(** ** Properties: applying results *)

(** The loop of [KvalobsCheckScript::run] over the returned values. *)
Fixpoint apply_results {PT : PTime} {SI : SpiritInt} (rs : list (ScriptResultIdentifier * spec_float)) (ds : DataStore PT)
    : res (DataStore PT) :=
  match rs with
  | [] => mret ds
  | (r, v) :: rs => ds ← apply r v ds; apply_results rs ds
  end.

(** Results change neither what a value is about nor what was observed. *)
Definition same_observed {PT : PTime} (x y : kvData PT) : Prop :=
  stationid_ x = stationid_ y /\ obstime_ x = obstime_ y /\ original_ x = original_ y /\
  paramid_ x = paramid_ y /\ tbtime_ x = tbtime_ y /\ typeid_ x = typeid_ y /\ sensor_ x = sensor_ y /\
  level_ x = level_ y /\ useinfo_ x = useinfo_ y.

(** All values of a check have keys of their own. *)
Definition distinct_keys {PT : PTime} (m : ParameterSorted (kvData PT)) : Prop :=
  forall p q x y, deref m p = Some x -> deref m q = Some y -> same_kvData x y = true -> p = q.

Section apply_props.
  Context {PT : PTime} {PL : PTimeLaws PT} {SI : SpiritInt}.
  Implicit Types m : ParameterSorted (kvData PT).

Lemma same_observed_refl (x : kvData PT) : same_observed x x.
Proof. by split_and!. Qed.

Lemma same_observed_trans (x y z : kvData PT) : same_observed x y -> same_observed y z -> same_observed x z.
Proof. unfold same_observed. intuition congruence. Qed.

Lemma same_observed_sym (x y : kvData PT) : same_observed x y -> same_observed y x.
Proof. unfold same_observed. intuition congruence. Qed.

Lemma lt_kvData_observed (x x' y y' : kvData PT) : same_observed x x' -> same_observed y y' ->
  lt_kvData x y = lt_kvData x' y' /\ same_kvData x y = same_kvData x' y'.
Proof.
  intros (E1 & E2 & _ & E4 & _ & E6 & E7 & E8 & _) (F1 & F2 & _ & F4 & _ & F6 & F7 & F8 & _).
  unfold lt_kvData, same_kvData. by rewrite E1, E2, E4, E6, E7, E8, F1, F2, F4, F6, F7, F8.
Qed.

Lemma ordered_observed (x y : kvData PT) : same_observed x y -> kvData_ordered x -> kvData_ordered y.
Proof. intros (_ & E2 & _ & _ & _ & _ & E7 & _) [H1 H2]. split; congruence. Qed.

(** *** Writing through a pointer *)

Lemma c_find_assign ptr d m k :
  c_find string_lt k (assign_at ptr d m) =
    (fun e : parameter * list (kvData PT) => if bool_decide (k = ptr.1) then (e.1, <[ptr.2 := d]> e.2) else e) <$>
      c_find string_lt k m.
Proof.
  induction m as [|[k' e] m IH]; [done|]. unfold assign_at. cbn [fmap list_fmap fst snd].
  fold (assign_at ptr d m). destruct (bool_decide (k' = ptr.1)) eqn:Ek; cbn [c_find fst snd];
    (destruct (string_lt k' k) eqn:E1; [exact IH|]; destruct (string_lt k k') eqn:E2; [done|]).
  - assert (k = k') as ->.
    { destruct (decide (k = k')) as [|Hne]; [done|]. destruct (ko_total k k' I I Hne); congruence. }
    simpl. by rewrite Ek.
  - assert (k = k') as ->.
    { destruct (decide (k = k')) as [|Hne]; [done|]. destruct (ko_total k k' I I Hne); congruence. }
    simpl. by rewrite Ek.
Qed.

Lemma deref_assign ptr d m q x : deref m ptr = Some x ->
  deref (assign_at ptr d m) q = if decide (q = ptr) then Some d else deref m q.
Proof.
  unfold deref. intros Hx. rewrite c_find_assign. destruct ptr as [s i], q as [t j]. simpl in *.
  destruct (c_find string_lt t m) as [[p l]|] eqn:Et; simpl.
  - case_bool_decide as Es; simpl.
    + subst t. rewrite Et in Hx. simpl in Hx. rewrite list_lookup_insert.
      apply lookup_lt_Some in Hx. destruct (decide (j = i)) as [->|Hj].
      * rewrite !decide_True by done. done.
      * rewrite !decide_False; [done|congruence|]. intros [? _]. congruence.
    + rewrite decide_False; [done|congruence].
  - rewrite decide_False; [done|]. intros [= -> ->]. by rewrite Et in Hx.
Qed.

(** *** The order of pointers *)

Definition ptr_ok m (p : string * nat) : Prop := exists x, deref m p = Some x /\ kvData_ordered x.
Definition ptr_same m (a b : string * nat) : bool :=
  match deref m a, deref m b with Some x, Some y => same_kvData x y | _, _ => false end.

Lemma ptr_strict_weak m : strict_weak (ptr_ok m) (ptr_same m) (ptr_lt m).
Proof.
  pose proof (lt_kvData_strict_weak (PT := PT)) as S. unfold ptr_same, ptr_lt. split.
  - intros a (x & -> & Hx). by apply (sw_refl S).
  - intros a b (x & -> & Hx) (y & -> & Hy). by apply (sw_sym S).
  - intros a b c (x & -> & Hx) (y & -> & Hy) (z & -> & Hz). by apply (sw_etrans S).
  - intros a b (x & -> & Hx) (y & -> & Hy). by apply (sw_irrefl S).
  - intros a b c (x & -> & Hx) (y & -> & Hy) (z & -> & Hz). by apply (sw_trans S).
  - intros a b c (x & -> & Hx) (y & -> & Hy) (z & -> & Hz). by apply (sw_compat_l S).
  - intros a b c (x & -> & Hx) (y & -> & Hy) (z & -> & Hz). by apply (sw_compat_r S).
  - intros a b (x & -> & Hx) (y & -> & Hy). by apply (sw_total S).
Qed.

(** Two maps with the same pointers to values of the same keys. *)
Definition same_shape m m' : Prop :=
  forall p, match deref m p, deref m' p with
            | Some x, Some y => same_observed x y
            | None, None => True
            | _, _ => False
            end.

Lemma same_shape_refl m : same_shape m m.
Proof. intros p. destruct (deref m p); [apply same_observed_refl|done]. Qed.

Lemma same_shape_trans m1 m2 m3 : same_shape m1 m2 -> same_shape m2 m3 -> same_shape m1 m3.
Proof.
  intros H1 H2 p. specialize (H1 p). specialize (H2 p).
  destruct (deref m1 p), (deref m2 p), (deref m3 p); try done. by eapply same_observed_trans.
Qed.

Lemma shape_ok m m' p : same_shape m m' -> ptr_ok m p -> ptr_ok m' p.
Proof.
  intros H (x & Ex & Hx). specialize (H p). rewrite Ex in H. destruct (deref m' p) as [y|] eqn:Ey; [|done].
  exists y. split; [done|]. by eapply ordered_observed.
Qed.

Lemma shape_wf m m' s : same_shape m m' -> oset_wf (ptr_lt m) (ptr_ok m) s -> oset_wf (ptr_lt m') (ptr_ok m') s.
Proof.
  intros H. induction s as [|p s IH]; [by split; constructor|]. rewrite !oset_wf_cons. intros (Hp & HF & Hs).
  split; [by eapply shape_ok|]. split; [|by apply IH]. eapply Forall_impl; [exact HF|]. intros q. unfold ptr_lt.
  pose proof (H p) as H1. pose proof (H q) as H2.
  destruct (deref m p) as [x|], (deref m' p) as [x'|]; try done.
  destruct (deref m q) as [y|], (deref m' q) as [y'|]; try done.
  by destruct (lt_kvData_observed x x' y y' H1 H2) as [-> _].
Qed.

Lemma shape_distinct m m' : same_shape m m' -> distinct_keys m -> distinct_keys m'.
Proof.
  intros H Hd p q x' y' Ex Ey E. pose proof (H p) as H1. pose proof (H q) as H2. rewrite Ex in H1. rewrite Ey in H2.
  destruct (deref m p) as [x|] eqn:Ep; [|done]. destruct (deref m q) as [y|] eqn:Eq; [|done].
  apply (Hd p q x y Ep Eq). by destruct (lt_kvData_observed x x' y y' H1 H2) as [_ ->].
Qed.

(** *** One result *)

Lemma apply_value_same ds d c v d' b : apply_value ds d c v = inl (d', b) ->
  same_observed d d' /\ (b = false -> d' = d).
Proof.
  destruct c; simpl.
  - done.
  - destruct (Dbl.to_int v) as [z|]; [|done]. simpl. unfold setFlag, updateCfailed.
    destruct (_ || _); destruct (z >? 1); intros [= <- <-]; (split; [unfold same_observed; by split_and!|done]).
  - intros [= <- <-]. split; [unfold same_observed; by split_and!|done].
  - destruct (Dbl.to_int v) as [z|]; [|done]. simpl. unfold setFlag. rewrite orb_true_r.
    intros [= <- <-]. split; [|done]. repeat case_match; unfold same_observed; by split_and!.
Qed.

(** The pointer of a result. *)
Definition result_ptr (r : ScriptResultIdentifier) (p : string * nat) : Prop :=
  exists q, Parameter_of (to_bytes (sri_parameter r)) = Some q /\
    p = (Parameter_str q, Z.to_nat (sri_timeIndex r)).

Lemma apply_inv r v ds ds' : apply r v ds = inl ds' ->
  exists ptr d d' b, result_ptr r ptr /\ deref (data_ ds) ptr = Some d /\
    apply_value ds d (sri_correctionType r) v = inl (d', b) /\
    data_ ds' = assign_at ptr d' (data_ ds) /\
    modified_ ds' = (if b then set_insert (ptr_lt (data_ ds')) ptr (modified_ ds) else modified_ ds).
Proof.
  unfold apply. destruct (Parameter_of _) as [p|] eqn:Ep; [|done]. simpl.
  destruct (c_find string_lt (Parameter_str p) (data_ ds)) as [[p' l]|] eqn:Ef; [|done].
  destruct (_ || _) eqn:Eb; [done|].
  destruct (deref (data_ ds) (Parameter_str p, Z.to_nat (sri_timeIndex r))) as [d|] eqn:Ed; [|done]. simpl.
  destruct (apply_value ds d (sri_correctionType r) v) as [[d' b]|e] eqn:Ea; [|done]. simpl. intros [= <-].
  exists (Parameter_str p, Z.to_nat (sri_timeIndex r)), d, d', b. simpl. split; [by exists p|done].
Qed.

(** What is known after some results, [m0] being the values before them. *)
Record applied m0 (rs : list (ScriptResultIdentifier * spec_float)) (ds : DataStore PT) : Prop := {
  ap_shape : same_shape m0 (data_ ds);
  ap_wf : oset_wf (ptr_lt (data_ ds)) (ptr_ok (data_ ds)) (modified_ ds);
  ap_changed p x y : deref m0 p = Some x -> deref (data_ ds) p = Some y -> x <> y -> p ∈ modified_ ds;
  ap_cause p : p ∈ modified_ ds -> exists r v, (r, v) ∈ rs /\ result_ptr r p
}.

Lemma apply_applied m0 rs r v ds ds' :
  distinct_keys m0 -> (forall p x, deref m0 p = Some x -> kvData_ordered x) ->
  applied m0 rs ds -> apply r v ds = inl ds' -> applied m0 (rs ++ [(r, v)]) ds'.
Proof.
  intros Hdist Hord [Hsh Hwf Hch Hca] Ha.
  destruct (apply_inv r v ds ds' Ha) as (ptr & d & d' & b & Hr & Hd & Hv & Edata & Emod).
  destruct (apply_value_same _ _ _ _ _ _ Hv) as [Hobs Hb].
  assert (Hsh1 : same_shape (data_ ds) (data_ ds')).
  { intros q. rewrite Edata, (deref_assign _ _ _ q d Hd). destruct (decide (q = ptr)) as [->|Hq].
    - by rewrite Hd.
    - destruct (deref (data_ ds) q); [apply same_observed_refl|done]. }
  pose proof (same_shape_trans _ _ _ Hsh Hsh1) as Hsh2.
  pose proof (shape_wf _ _ _ Hsh1 Hwf) as Hwf1.
  assert (Hok : ptr_ok (data_ ds') ptr).
  { apply (shape_ok (data_ ds)); [done|]. exists d. split; [done|]. pose proof (Hsh ptr) as H. rewrite Hd in H.
    destruct (deref m0 ptr) as [x|] eqn:Ex; [|done]. eapply ordered_observed; [exact H|]. by eapply Hord. }
  assert (Hin : b = true -> forall p, p ∈ modified_ ds' <-> p = ptr \/ p ∈ modified_ ds).
  { intros -> p. rewrite Emod. rewrite (elem_of_set_insert (ptr_strict_weak (data_ ds'))) by done.
    split; [tauto|]. intros [->|]; [|tauto].
    destruct (set_find (ptr_lt (data_ ds')) ptr (modified_ ds)) as [q|] eqn:Ef; [|tauto]. right.
    apply (set_find_Some (ptr_strict_weak (data_ ds'))) in Ef as [Hq Eq]; [|done..].
    unfold ptr_same in Eq. destruct (deref (data_ ds') ptr) as [x|] eqn:E1; [|done].
    destruct (deref (data_ ds') q) as [y|] eqn:E2; [|done].
    by rewrite (shape_distinct _ _ Hsh2 Hdist ptr q x y E1 E2 Eq). }
  split.
  - done.
  - rewrite Emod. destruct b; [|done]. by apply (set_insert_wf (ptr_strict_weak (data_ ds'))).
  - intros p x y Ex Ey Hne. rewrite Edata, (deref_assign _ _ _ p d Hd) in Ey. destruct b.
    + apply Hin; [done|]. destruct (decide (p = ptr)) as [->|Hp]; [by left|]. right. by eapply Hch.
    + rewrite Emod. destruct (decide (p = ptr)) as [->|Hp]; [|by eapply Hch].
      injection Ey as <-. rewrite Hb in Hne by done. by eapply Hch.
  - intros p Hp. destruct b.
    + apply Hin in Hp as [->|Hp]; [|destruct (Hca p Hp) as (r' & v' & ? & ?)|done].
      * exists r, v. split; [apply elem_of_app; right; by left|done].
      * exists r', v'. split; [apply elem_of_app; by left|done].
    + rewrite Emod in Hp. destruct (Hca p Hp) as (r' & v' & ? & ?). exists r', v'.
      split; [apply elem_of_app; by left|done].
Qed.

Lemma apply_results_applied m0 rs : forall rs0 ds ds',
  distinct_keys m0 -> (forall p x, deref m0 p = Some x -> kvData_ordered x) ->
  applied m0 rs0 ds -> apply_results rs ds = inl ds' -> applied m0 (rs0 ++ rs) ds'.
Proof.
  induction rs as [|[r v] rs IH]; intros rs0 ds ds' Hd Ho Ha E; simpl in E.
  { injection E as <-. by rewrite app_nil_r. }
  destruct (apply r v ds) as [ds1|e] eqn:E1; [|done]. simpl in E.
  replace (rs0 ++ (r, v) :: rs) with ((rs0 ++ [(r, v)]) ++ rs) by (by rewrite <- app_assoc).
  eapply IH; [done|done| |exact E]. by eapply apply_applied.
Qed.

Lemma elem_of_getModified (ds : DataStore PT) x :
  x ∈ getModified ds <-> exists p, p ∈ modified_ ds /\ deref (data_ ds) p = Some x.
Proof. unfold getModified. rewrite list_elem_of_omap. done. Qed.

(** The results of a script reach exactly what they name. Where the values of
    a check have keys of their own, every value that ends up changed is reported
    as modified, in its final form, every reported value was named by a result,
    and no result changes what a value is about, what was observed, or its use
    flags. *)
Theorem apply_results_spec (rs : list (ScriptResultIdentifier * spec_float)) (ds ds' : DataStore PT) :
  modified_ ds = [] -> distinct_keys (data_ ds) ->
  (forall p x, deref (data_ ds) p = Some x -> kvData_ordered x) ->
  apply_results rs ds = inl ds' ->
  same_shape (data_ ds) (data_ ds') /\
  (forall p x y, deref (data_ ds) p = Some x -> deref (data_ ds') p = Some y -> x <> y -> y ∈ getModified ds') /\
  (forall y, y ∈ getModified ds' -> exists p r v, deref (data_ ds') p = Some y /\ (r, v) ∈ rs /\ result_ptr r p) /\
  NoDup (modified_ ds').
Proof.
  intros Hm Hd Ho E. destruct (apply_results_applied (data_ ds) rs [] ds ds' Hd Ho) as [Hsh Hwf Hch Hca]; [|done|].
  { split; [apply same_shape_refl|rewrite Hm; by split; constructor| |].
    - intros p x y Ex Ey Hne. rewrite Ex in Ey. congruence.
    - intros p. rewrite Hm. intros H. by apply elem_of_nil in H. }
  split; [done|]. split; [|split].
  - intros p x y Ex Ey Hne. apply elem_of_getModified. exists p. split; [by eapply Hch|done].
  - intros y Hy. apply elem_of_getModified in Hy as (p & Hp & Ey).
    destruct (Hca p Hp) as (r & v & Hr & Hptr). by exists p, r, v.
  - destruct Hwf as [Hs Hok]. clear -Hs Hok PL. induction Hs as [|p s Hs IH HF]; [constructor|].
    apply Forall_cons in Hok as [Hp Hok]. constructor; [|by apply IH]. intros Hin. rewrite Forall_forall in HF.
    specialize (HF p Hin). rewrite (sw_irrefl (ptr_strict_weak (data_ ds'))) in HF; [done|done..|].
    by apply (sw_refl (ptr_strict_weak (data_ ds'))).
Qed.

End apply_props.

Section results.
  Context {PT : PTime} {SI : SpiritInt}.

Lemma to_int_of_Z n : 0 <= n < 16 -> Dbl.to_int (Dbl.of_Z n) = Some n.
Proof.
  intros H. revert n H. apply (Z_range_ind (fun n => Dbl.to_int (Dbl.of_Z n) = Some n) 16). by_decision.
Qed.

Lemma eqb_of_Z n k : 0 <= n < 16 -> 0 <= k < 16 -> Dbl.eqb (Dbl.of_Z n) (Dbl.of_Z k) = (n =? k).
Proof.
  intros Hn. revert k. revert n Hn.
  apply (Z_range_ind (fun n => forall k, 0 <= k < 16 -> Dbl.eqb (Dbl.of_Z n) (Dbl.of_Z k) = (n =? k)) 16).
  repeat (constructor; [apply (Z_range_ind (fun k => Dbl.eqb (Dbl.of_Z _) (Dbl.of_Z k) = (_ =? k)) 16); by_decision|]).
  constructor.
Qed.

(** What one result does to its value. A flag can only be raised: the nibble
    of the check becomes the larger of the old and the new one, every other nibble
    stays, and the check is added to the failed ones when the flag is above one. A
    new missing flag is written whatever the old one was, and marks the corrected
    value as rejected or missing for the values two and three. A correction sets
    the corrected value alone. *)
Theorem apply_value_spec (ds : DataStore PT) (d : kvData PT) (n : Z) (v : spec_float) :
  ci_wf (controlinfo_ d) -> 0 <= n < 16 -> 0 <= flagPosition_ ds < 16 ->
  (exists d', apply_value ds d Flag (Dbl.of_Z n) = inl (d', (flag (controlinfo_ d) (flagPosition_ ds) <? n) || (1 <? n)) /\
     (forall j, 0 <= j < 16 -> flag (controlinfo_ d') j =
        if j =? flagPosition_ ds then Z.max (flag (controlinfo_ d) j) n else flag (controlinfo_ d) j) /\
     corrected_ d' = corrected_ d /\
     cfailed_ d' = (if 1 <? n then (if bool_decide (cfailed_ d = EmptyString) then qcx_ ds
                                    else (cfailed_ d +:+ ",") +:+ qcx_ ds) else cfailed_ d)) /\
  (exists d', apply_value ds d Missing (Dbl.of_Z n) = inl (d', true) /\
     (forall j, 0 <= j < 16 -> flag (controlinfo_ d') j = if j =? fmis then n else flag (controlinfo_ d) j) /\
     corrected_ d' = (if n =? 2 then rejectedValue_ else if n =? 3 then missingValue_ else corrected_ d) /\
     cfailed_ d' = cfailed_ d) /\
  apply_value ds d Corrected v = inl (with_corrected d v, true) /\
  apply_value ds d Undefined v = inr runtime_error.
Proof.
  intros Hwf Hn Hp. split; [|split; [|done]].
  - unfold apply_value. rewrite to_int_of_Z by done. simpl. unfold setFlag, updateCfailed. rewrite orb_false_r.
    rewrite Z.gtb_ltb. destruct (flag (controlinfo_ d) (flagPosition_ ds) <? n) eqn:E1, (1 <? n) eqn:E2;
      eexists; (split; [done|]); (split; [|split; [done|by repeat case_bool_decide]]);
      intros j Hj; cbn [controlinfo_ with_controlinfo with_cfailed]; rewrite ?ci_flag_set by (done || lia);
      destruct (Z.eqb_spec j (flagPosition_ ds)) as [->|]; rewrite ?Z.eqb_refl, ?(proj2 (Z.eqb_neq (flagPosition_ ds) j)) by done; lia.
  - unfold apply_value. rewrite to_int_of_Z by done. cbn [of_option mbind res_bind]. unfold setFlag. rewrite orb_true_r.
    rewrite !eqb_of_Z by lia.
    destruct (n =? 2); [|destruct (n =? 3)];
      eexists; (split; [done|]); (split; [|by split]);
      intros j Hj; cbn [controlinfo_ with_controlinfo with_corrected]; rewrite ci_flag_set by (done || lia);
      unfold fmis; by rewrite (Z.eqb_sym 6 j).
Qed.

(** A result that names a parameter the check did not ask for, or a time that
    it has no value for, is an error. *)
Theorem apply_errors (r : ScriptResultIdentifier) (v : spec_float) (ds : DataStore PT) (p : parameter) :
  Parameter_of (to_bytes (sri_parameter r)) = Some p ->
  match c_find string_lt (Parameter_str p) (data_ ds) with
  | None => apply r v ds = inr InvalidParameter
  | Some (_, l) =>
      (sri_timeIndex r < 0 \/ Z.of_nat (length l) <= sri_timeIndex r -> apply r v ds = inr NoSuchData) /\
      (0 <= sri_timeIndex r < Z.of_nat (length l) -> sri_correctionType r = Corrected -> is_Some (match apply r v ds with inl x => Some x | inr _ => None end))
  end.
Proof.
  intros Hp. unfold apply. rewrite Hp. simpl.
  destruct (c_find string_lt (Parameter_str p) (data_ ds)) as [[q l]|] eqn:E; [|done]. split.
  - intros H. assert ((sri_timeIndex r <? 0) || (Z.of_nat (length l) <=? sri_timeIndex r) = true) as -> by lia. done.
  - intros H Hc. assert ((sri_timeIndex r <? 0) || (Z.of_nat (length l) <=? sri_timeIndex r) = false) as -> by lia.
    unfold deref at 1. simpl. rewrite E. simpl.
    destruct (l !! Z.to_nat (sri_timeIndex r)) as [d|] eqn:El; [|apply lookup_ge_None in El; lia]. simpl.
    rewrite Hc. simpl. by eexists.
Qed.

End results.

(** ** Instances *)

Definition param_named (n : string) : parameter :=
  {| name_ := n; pa_level := INT_MIN; pa_sensor := INT_MIN; pa_typeid := INT_MIN; metaDataParamName_ := "";
     metaDataType_ := "" |}.

Definition sample_store (m : ParameterSorted (kvData stamp_time)) : DataStore stamp_time :=
  {| data_ := m; refData_ := []; modelData_ := []; metaData_ := []; observation_ := sample_Observation;
     station_store := unknown_station (TT := stamp_time_text) 18700; qcx_ := "QC1-1-100"; flagPosition_ := 1;
     modified_ := [] |}.

Definition at_time (t : Z) (d : kvData stamp_time) : kvData stamp_time :=
  kvData_set (stationid_ d) (At t) (original_ d) (paramid_ d) (tbtime_ d) (typeid_ d) (sensor_ d) (level_ d)
    (corrected_ d) (controlinfo_ d) (useinfo_ d) (cfailed_ d).

Definition sample_result (n : string) (i : Z) (c : CorrectionType) : ScriptResultIdentifier :=
  {| sri_parameter := n; sri_timeIndex := i; sri_stationIndex := 0; sri_correctionType := c |}.

Lemma fillMissing_spec_witness :
  exists m', fillMissing_data (At 0) [("RR"%string, (param_named "RR", [at_time 60 sample_kvData]));
    ("TA"%string, (param_named "TA", [at_time 120 sample_kvData; at_time 60 sample_kvData]))] = inl m' /\
    Forall (fun e : string * (parameter * list (kvData stamp_time)) =>
      (@obstime_ stamp_time) <$> e.2.2 = [At 120; At 60]) m'.
Proof.
  destruct (proj1 (fillMissing_spec (PT := stamp_time) (At 0) [("RR"%string, (param_named "RR", [at_time 60 sample_kvData]));
    ("TA"%string, (param_named "TA", [at_time 120 sample_kvData; at_time 60 sample_kvData]))])) as (m' & E & _ & H & _).
  - repeat (constructor; [split; [done|split; repeat constructor]|]). constructor.
  - exists m'. split; [exact E|exact H].
Defined.

Lemma sample_distinct (d : kvData stamp_time) : forall p x,
  deref [("TA"%string, (param_named "TA", [d]))] p = Some x -> p = ("TA"%string, 0%nat) /\ x = d.
Proof.
  intros [s i] x. unfold deref. simpl.
  destruct (string_lt "TA" s) eqn:E1; [done|]. destruct (string_lt s "TA") eqn:E2; [done|]. simpl.
  destruct i; simpl; [|done]. intros [= <-]. split; [|done]. f_equal.
  destruct (decide (s = "TA"%string)) as [|Hne]; [done|]. destruct (ko_total s "TA"%string I I Hne); congruence.
Qed.

Lemma apply_results_spec_witness :
  exists ds', apply_results (SI := spirit_int) [(sample_result "TA" 0 Flag, Dbl.of_Z 2)]
      (sample_store [("TA"%string, (param_named "TA", [sample_kvData]))]) = inl ds' /\
    length (getModified ds') = 1%nat /\ NoDup (modified_ ds').
Proof.
  eexists. split; [by vm_compute|]. split; [by vm_compute|].
  eapply (apply_results_spec (SI := spirit_int) [(sample_result "TA" 0 Flag, Dbl.of_Z 2)]
    (sample_store [("TA"%string, (param_named "TA", [sample_kvData]))])).
  - done.
  - intros p q x y Hp Hq _. apply sample_distinct in Hp as [-> _], Hq as [-> _]. done.
  - intros p x Hp. apply sample_distinct in Hp as [_ ->]. split; [unfold sensor_ok; simpl; lia|done].
  - by vm_compute.
Defined.

Lemma apply_value_spec_witness :
  exists d', apply_value (sample_store []) sample_kvData Flag (Dbl.of_Z 3) = inl (d', true) /\
    cfailed_ d' = "QC1-1-100"%string.
Proof.
  destruct (apply_value_spec (sample_store []) sample_kvData 3 (Dbl.of_Z 0) ltac:(by vm_compute) ltac:(lia)
    ltac:(simpl; lia)) as [(d' & E & _ & _ & H) _].
  exists d'. split; [by rewrite E|]. rewrite H. by vm_compute.
Defined.

Lemma apply_errors_witness :
  apply (SI := spirit_int) (sample_result "TA" 1 Flag) (Dbl.of_Z 1)
    (sample_store [("TA"%string, (param_named "TA", [sample_kvData]))]) = inr NoSuchData.
Proof.
  apply (apply_errors (SI := spirit_int) (sample_result "TA" 1 Flag) (Dbl.of_Z 1)
    (sample_store [("TA"%string, (param_named "TA", [sample_kvData]))]) (param_named "TA") eq_refl).
  right. simpl. lia.
Defined.

(** Two parameters without values in the database get values that stand for them,
    with the same key: of the two changes only one is reported. *)
Theorem apply_results_same_key :
  exists ds', apply_results (SI := spirit_int) [(sample_result "X" 0 Missing, Dbl.of_Z 2); (sample_result "Y" 0 Missing, Dbl.of_Z 2)]
      (sample_store [("X"%string, (param_named "X", [missing_value (At 0) sample_Observation (param_named "X")]));
                     ("Y"%string, (param_named "Y", [missing_value (At 0) sample_Observation (param_named "Y")]))]) = inl ds' /\
    modified_ ds' = [("X"%string, 0%nat)].
Proof. eexists. split; by vm_compute. Qed.
