(* ===== verification/CheckScript.v ===== *)
(** * Running the script of a check (src/src/kvQabased/src/scriptcreate, scriptrunner)

    populateScript.cpp, which gives the data of a check to its script, the text of
    the script that PerlInterpreter.cpp makes, and KvalobsCheckScript.cpp. The
    Perl interpreter itself is a parameter. A [std::map<std::string, A>] is the
    list of its entries in the order of the keys. *)

From stdpp Require Import pretty.
From S2P Require Import Prelude Orders OrderedSet PTime TimeText DataFlag ControlInfo UseInfo KvData KvDataOps Rows SortedData KvalobsData Scanning Signature ResultFilter ScriptResult DatabaseAccess DataStore.

#[local] Open Scope Z_scope.

(** [params[name] = value]. *)
Definition smap (A : Type) : Type := list (string * A).
Definition smap_set {A} (name : string) (value : A) (m : smap A) : smap A :=
  c_update string_lt name value (fun _ => value) m.

(** ** [ScriptInput] *)

Record ScriptInput := {
  in_name : string;
  numeric_ : smap spec_float;
  strings_ : smap string;
  numericList_ : smap (list spec_float);
  stringList_ : smap (list string)
}.

Definition ScriptInput_new (name : string) : ScriptInput :=
  {| in_name := name; numeric_ := []; strings_ := []; numericList_ := []; stringList_ := [] |}.

(** The overloads of [add], and [adds]. *)
Definition add_number (name : string) (v : spec_float) (i : ScriptInput) : ScriptInput :=
  {| in_name := in_name i; numeric_ := smap_set name v (numeric_ i); strings_ := strings_ i;
     numericList_ := numericList_ i; stringList_ := stringList_ i |}.
Definition add_string (name : string) (v : string) (i : ScriptInput) : ScriptInput :=
  {| in_name := in_name i; numeric_ := numeric_ i; strings_ := smap_set name v (strings_ i);
     numericList_ := numericList_ i; stringList_ := stringList_ i |}.
Definition add_numbers (name : string) (v : list spec_float) (i : ScriptInput) : ScriptInput :=
  {| in_name := in_name i; numeric_ := numeric_ i; strings_ := strings_ i;
     numericList_ := smap_set name v (numericList_ i); stringList_ := stringList_ i |}.
Definition adds (name : string) (v : list string) (i : ScriptInput) : ScriptInput :=
  {| in_name := in_name i; numeric_ := numeric_ i; strings_ := strings_ i;
     numericList_ := numericList_ i; stringList_ := smap_set name v (stringList_ i) |}.

(** The conversion of an integer to [float], which its reader sees as a [double]. *)
Definition float_of_Z (z : Z) : spec_float := binary_normalize 24 128 z 0 false.

(** ** populateScript.cpp *)

Section populateScript.
  Context {PT : PTime} {PC : PCalendar PT}.

Definition have_missing_value (missingFlag : Z) : bool := negb (Z.land missingFlag 1 =? 0).

(** [(t - first).total_seconds() / 60] as a [float]. *)
Definition timeoffset {A} (obstime : A -> ptime PT) (l : list A) : list spec_float :=
  match l with
  | [] => []
  | first :: _ => (fun x => float_of_Z (Z.quot (pt_diff_seconds (obstime x) (obstime first)) 60)) <$> l
  end.

(** The sixteen flags of a value. *)
Definition all_flags (d : kvData PT) : list spec_float :=
  (fun i => Dbl.of_Z (flag (controlinfo_ d) (Z.of_nat i))) <$> seq 0 16.

(** One pass of the loop over the parameters. *)
Definition add_obs_parameter (e : string * (parameter * list (kvData PT))) (input : ScriptInput) : ScriptInput :=
  let base := name_ e.2.1 in
  let l := e.2.2 in
  let input := add_numbers base ((@original_ PT) <$> l) input in
  let input := add_numbers (base +:+ "_missing") ((fun d => Dbl.of_Z (flag (controlinfo_ d) 6)) <$> l) input in
  let input := add_numbers (base +:+ "_controlinfo") (concat (all_flags <$> l)) input in
  match l with
  | [] => input
  | d :: _ =>
      let input := add_number (base +:+ "_typeid") (Dbl.of_Z (typeid_ d)) input in
      let input := add_number (base +:+ "_sensor") (Dbl.of_Z (sensor_ d)) input in
      add_number (base +:+ "_level") (Dbl.of_Z (level_ d)) input
  end.

Definition missingCount (m : ParameterSorted (kvData PT)) : Z :=
  Z.of_nat (length (List.filter (fun d => have_missing_value (flag (controlinfo_ d) 6)) (concat ((fun e => e.2.2) <$> m)))).

(** Without any parameter [obsdata.begin()->second] is undefined. *)
Definition addObsDataToScript (obsdata : ParameterSorted (kvData PT)) : res ScriptInput :=
  match obsdata with
  | [] => throw undefined_behaviour
  | (_, (_, dl)) :: _ =>
      let offsets := timeoffset (@obstime_ PT) dl in
      let input := foldl (fun i e => add_obs_parameter e i) (ScriptInput_new "obs") obsdata in
      let input := add_number "obs_numtimes" (Dbl.of_Z (Z.of_nat (length offsets))) input in
      let input := add_number "obs_missing" (Dbl.of_Z (missingCount obsdata)) input in
      mret (add_numbers "obs_timeoffset" offsets input)
  end.

Definition text_missing (d : kvTextData PT) : bool :=
  bool_decide (tx_original_ d = EmptyString) || bool_decide (tx_original_ d = "-32767"%string).

Definition missing_marks {A} (missing : A -> bool) (l : list A) : list spec_float :=
  (fun x => if missing x then float_of_Z 3 else float_of_Z 0) <$> l.

Definition count_missing {A} (missing : A -> bool) (m : ParameterSorted A) : Z :=
  Z.of_nat (length (List.filter missing (concat ((fun e => e.2.2) <$> m)))).

Definition addRefObsDataToScript (refobsdata : ParameterSorted (kvTextData PT)) : list ScriptInput :=
  match refobsdata with
  | [] => []
  | (_, (_, dl)) :: _ =>
      let offsets := timeoffset (@tx_obstime_ PT) dl in
      let input := foldl (fun i e =>
        add_numbers (name_ e.2.1 +:+ "_missing") (missing_marks text_missing e.2.2)
          (adds (name_ e.2.1) ((@tx_original_ PT) <$> e.2.2) i)) (ScriptInput_new "refobs") refobsdata in
      let input := add_number "refobs_numtimes" (Dbl.of_Z (Z.of_nat (length offsets))) input in
      let input := add_number "refobs_missing" (Dbl.of_Z (count_missing text_missing refobsdata)) input in
      [add_numbers "refobs_timeoffset" offsets input]
  end.

Definition model_missing (d : kvModelData PT) : bool := Dbl.eqb (md_original d) (Dbl.of_Z (-32767)).

Definition addModelDataToScript (modeldata : ParameterSorted (kvModelData PT)) : list ScriptInput :=
  match modeldata with
  | [] => []
  | (_, (_, dl)) :: _ =>
      let offsets := timeoffset md_obstime dl in
      let input := foldl (fun i e =>
        add_numbers (name_ e.2.1 +:+ "_missing") (missing_marks model_missing e.2.2)
          (add_numbers (name_ e.2.1) ((@md_original PT) <$> e.2.2) i)) (ScriptInput_new "model") modeldata in
      let input := add_number "model_numtimes" (Dbl.of_Z (Z.of_nat (length offsets))) input in
      let input := add_number "model_missing" (Dbl.of_Z (count_missing model_missing modeldata)) input in
      [add_numbers "model_timeoffset" offsets input]
  end.

Definition addMetaDataToScript (metadata : ParameterSorted spec_float) : list ScriptInput :=
  match metadata with
  | [] => []
  | _ =>
      let input := foldl (fun i e => add_numbers (name_ e.2.1) e.2.2 i) (ScriptInput_new "meta") metadata in
      let input := add_number "meta_numtimes" (Dbl.of_Z 1) input in
      let input := add_numbers "meta_timeoffset" [float_of_Z 0] input in
      [add_number "meta_missing" (Dbl.of_Z 0) input]
  end.

Definition general_input (ds : DataStore PT) : ScriptInput :=
  let t := o_obstime (observation_ ds) in
  let input := ScriptInput_new "general" in
  let input := add_number "observation_stationid" (Dbl.of_Z (o_stationid (observation_ ds))) input in
  let input := add_number "observation_typeid" (Dbl.of_Z (o_type (observation_ ds))) input in
  let input := add_number "station_latitude" (st_lat (station_store ds)) input in
  let input := add_number "station_longitude" (st_lon (station_store ds)) input in
  add_numbers "obstime" (float_of_Z <$> [pt_year t; pt_month t; pt_day t; pt_hours t; pt_minutes t; pt_seconds t]) input.

(** The inputs of the script, in the order they are added. *)
Definition addDataToScript (ds : DataStore PT) : res (list ScriptInput) :=
  obs ← addObsDataToScript (data_ ds);
  mret (general_input ds :: obs :: addRefObsDataToScript (refData_ ds) ++ addModelDataToScript (modelData_ ds) ++
        addMetaDataToScript (metaData_ ds)).

End populateScript.

(** ** PerlInterpreter.cpp: the text of the script *)

(** [operator<<] of a [double]. *)
Class ShowDouble := { show_double : spec_float -> string }.

Definition quote (s : string) : string := String "034" s +:+ String "034" "".

Fixpoint string_join (sep : string) (l : list string) : string :=
  match l with
  | [] => ""
  | [x] => x
  | x :: l => x +:+ sep +:+ string_join sep l
  end.

Definition string_concat (l : list string) : string := foldr String.app "" l.

Definition newline : string := String "010" "".

Section PerlInterpreter.
  Context {SD : ShowDouble}.

Definition numericDeclarations (i : ScriptInput) : string :=
  string_concat ((fun e => "my $" +:+ e.1 +:+ " = " +:+ show_double e.2 +:+ ";" +:+ newline) <$> numeric_ i).

Definition stringDeclarations (i : ScriptInput) : string :=
  string_concat ((fun e => "my $" +:+ e.1 +:+ " = " +:+ quote e.2 +:+ ";" +:+ newline) <$> strings_ i).

Definition numericListDeclarations (i : ScriptInput) : string :=
  string_concat ((fun e => "my @" +:+ e.1 +:+ " = (" +:+ string_join ", " (show_double <$> e.2) +:+ ");" +:+ newline)
    <$> numericList_ i).

Definition stringListDeclarations (i : ScriptInput) : string :=
  string_concat ((fun e => "my @" +:+ e.1 +:+ " = (" +:+ string_join ", " (quote <$> e.2) +:+ ");" +:+ newline)
    <$> stringList_ i).

Definition fullScript (input : list ScriptInput) (baseScript : string) : string :=
  "use strict;" +:+ newline +:+ newline +:+
  string_concat ((fun i => "# " +:+ in_name i +:+ newline +:+ numericDeclarations i +:+ stringDeclarations i +:+
    numericListDeclarations i +:+ stringListDeclarations i +:+ newline) <$> input) +:+
  newline +:+ baseScript +:+ newline.

End PerlInterpreter.

(** ** KvalobsCheckScript.cpp *)

(** The Perl interpreter: the pairs that the function [check] of a script returns,
    in the order they are taken from the stack, or a failure. *)
Class Perl := { perl_check : string -> option (list (string * spec_float)) }.

Section KvalobsCheckScript.
  Context {PT : PTime} {PM : PMinutes PT} {TT : PTimeText PT} {PC : PCalendar PT} {BT : BoostText} {BS : BoostSplit}
          {SI : SpiritInt} {BF : BoostFloat} {SD : ShowDouble} {PE : Perl}.
  Context (now : ptime PT).

(** [RunResult], with [runScript], which fills the map, and [PerlInterpreter::run]. *)
Record RunResult := { exitCode_ : Z; returnValues_ : smap spec_float }.

Definition perl_run (script : string) : RunResult :=
  match perl_check script with
  | Some pairs => {| exitCode_ := 0; returnValues_ := foldl (fun m nv => smap_set nv.1 nv.2 m) [] pairs |}
  | None => {| exitCode_ := 1; returnValues_ := [] |}
  end.

(** The object: its store and its script, of which the language is known. *)
Record KvalobsCheckScript := {
  store_ : DataStore PT;
  script_input : list ScriptInput;
  baseScript_ : string
}.

(** [getInterpreter]: the language 1 is Perl; [Script] refuses to be made without
    an interpreter. *)
Definition getInterpreter (kvalobsCode : Z) : res unit :=
  if kvalobsCode =? 1 then mret tt else throw std_exception.

Definition KvalobsCheckScript_new {D} {DA : DatabaseAccess PT D} (obs : Observation PT) (check : kvChecks PT)
    : DbM D KvalobsCheckScript :=
  (algorithm <- getAlgorithm (ck_checkname check) ;;
   abstractSignature <- db_res (CheckSignature_of (to_bytes (al_signature algorithm)) (o_stationid obs) false) ;;
   concreteSignature <- db_res (CheckSignature_of (to_bytes (ck_checksignature check)) (o_stationid obs) true) ;;
   store <- DataStore_new now obs (ck_qcx check) abstractSignature concreteSignature ;;
   db_res (getInterpreter (al_language algorithm)) ;;
   input <- db_res (addDataToScript store) ;;
   db_ret {| store_ := store; script_input := input; baseScript_ := al_script algorithm |})%db.

(** The loop over the returned values. *)
Fixpoint apply_returned (ret : smap spec_float) (ds : DataStore PT) : res (DataStore PT) :=
  match ret with
  | [] => mret ds
  | (name, value) :: ret =>
      result ← ScriptResultIdentifier_of name;
      ds ← apply result value ds;
      apply_returned ret ds
  end.

(** [run]: the modifications. *)
Definition script_run (s : KvalobsCheckScript) : res (list (kvData PT)) :=
  let result := perl_run (fullScript (script_input s) (baseScript_ s)) in
  if negb (exitCode_ result =? 0) then throw runtime_error
  else ds ← apply_returned (returnValues_ result) (store_ s); mret (getModified ds).

End KvalobsCheckScript.

(** ** Properties: the arrays of the script *)

Definition smap_find {A} (name : string) (m : smap A) : option A := c_find string_lt name m.
Definition smap_sorted {A} (m : smap A) : Prop := c_sorted string_lt (fun _ => True) m.

Lemma smap_set_sorted {A} name (v : A) m : smap_sorted m -> smap_sorted (smap_set name v m).
Proof. by apply c_update_sorted. Qed.

Lemma smap_find_set {A} name (v : A) name' m :
  smap_sorted m -> smap_find name' (smap_set name v m) = if decide (name = name') then Some v else smap_find name' m.
Proof. intros H. unfold smap_find, smap_set. by rewrite (c_find_update (kok := fun _ => True)). Qed.

Section arrays.
  Context {PT : PTime} {PC : PCalendar PT}.

Abbreviation obs_entry := (string * (parameter * list (kvData PT)))%type.

(** The names of the arrays of one parameter. *)
Definition obs_names (e : obs_entry) : list string :=
  [name_ e.2.1; name_ e.2.1 +:+ "_missing"; name_ e.2.1 +:+ "_controlinfo"].

Definition obs_arrays (e : obs_entry) : list (list spec_float) :=
  [(@original_ PT) <$> e.2.2; (fun d => Dbl.of_Z (flag (controlinfo_ d) 6)) <$> e.2.2; concat (all_flags <$> e.2.2)].

Lemma add_obs_parameter_lists e i :
  numericList_ (add_obs_parameter e i) =
    foldl (fun m nv => smap_set nv.1 nv.2 m) (numericList_ i) (zip (obs_names e) (obs_arrays e)).
Proof. destruct e as [s [p [|d l]]]; reflexivity. Qed.

Lemma smap_fold_find {A} (nvs : list (string * A)) : forall m, smap_sorted m -> NoDup nvs.*1 ->
  smap_sorted (foldl (fun m nv => smap_set nv.1 nv.2 m) m nvs) /\
  forall name, smap_find name (foldl (fun m nv => smap_set nv.1 nv.2 m) m nvs) =
    match list_find (fun nv => nv.1 = name) nvs with Some (_, nv) => Some nv.2 | None => smap_find name m end.
Proof.
  induction nvs as [|[n v] nvs IH]; intros m Hm Hnd; [by split|]. apply NoDup_cons in Hnd as [Hn Hnd]. simpl in *.
  destruct (IH (smap_set n v m)) as [Hs IHf]; [exact (smap_set_sorted n v m Hm)|done|]. split; [done|].
  intros name. rewrite IHf, smap_find_set by done. case_decide as E.
  - subst n. rewrite (proj2 (list_find_None _ _)); [done|]. apply Forall_forall. intros x Hx E. apply Hn.
    rewrite <- E. by apply list_elem_of_fmap_2.
  - by destruct (list_find (fun nv : string * A => nv.1 = name) nvs) as [[]|].
Qed.

(** The arrays of all parameters, as one list of assignments. *)
Definition obs_assignments (m : ParameterSorted (kvData PT)) : list (string * list spec_float) :=
  concat ((fun e => zip (obs_names e) (obs_arrays e)) <$> m).

Lemma obs_fold_lists m : forall i,
  numericList_ (foldl (fun i e => add_obs_parameter e i) i m) =
    foldl (fun m nv => smap_set nv.1 nv.2 m) (numericList_ i) (obs_assignments m).
Proof.
  induction m as [|e m IH]; intros i; [done|]. unfold obs_assignments. cbn [foldl fmap list_fmap concat].
  rewrite IH, add_obs_parameter_lists, foldl_app. done.
Qed.

Lemma assignment_names m : (obs_assignments m).*1 = concat (obs_names <$> m).
Proof.
  induction m as [|e m IH]; [done|]. unfold obs_assignments in *. cbn [fmap list_fmap concat].
  rewrite fmap_app, IH. done.
Qed.

Lemma all_flags_lookup d i : 0 <= i < 16 -> all_flags d !! Z.to_nat i = Some (Dbl.of_Z (flag (controlinfo_ d) i)).
Proof.
  intros Hi. unfold all_flags. rewrite list_lookup_fmap, lookup_seq_lt by lia. simpl. do 3 f_equal. lia.
Qed.

Lemma all_flags_length (l : list (kvData PT)) : length (concat (all_flags <$> l)) = (16 * length l)%nat.
Proof. induction l as [|d l IH]; [done|]. cbn [fmap list_fmap concat]. rewrite length_app, IH. simpl. lia. Qed.

Lemma concat_flags_lookup (l : list (kvData PT)) : forall k d i,
  l !! k = Some d -> 0 <= i < 16 ->
  concat (all_flags <$> l) !! (16 * k + Z.to_nat i)%nat = Some (Dbl.of_Z (flag (controlinfo_ d) i)).
Proof.
  induction l as [|d0 l IH]; intros k d i Hk Hi; [done|]. cbn [fmap list_fmap concat]. destruct k as [|k].
  - injection Hk as ->. rewrite lookup_app_l by (unfold all_flags; rewrite length_fmap, length_seq; lia).
    by rewrite <- all_flags_lookup.
  - rewrite lookup_app_r by (unfold all_flags; rewrite length_fmap, length_seq; lia).
    rewrite <- (IH k d i Hk Hi). f_equal. unfold all_flags. rewrite length_fmap, length_seq. lia.
Qed.

(** The times of the first parameter. *)
Definition obs_offsets (m : ParameterSorted (kvData PT)) : list spec_float :=
  match m with [] => [] | (_, (_, dl)) :: _ => timeoffset (@obstime_ PT) dl end.

Lemma obs_fold_numeric m : forall i, smap_sorted (numeric_ i) ->
  smap_sorted (numeric_ (foldl (fun i e => add_obs_parameter e i) i m)).
Proof.
  induction m as [|e m IH]; intros i Hi; [done|]. apply IH. unfold add_obs_parameter.
  destruct e.2.2; [done|]. by repeat apply smap_set_sorted.
Qed.

Lemma obs_input m : m <> [] -> exists input, addObsDataToScript m = inl input /\
  numericList_ input = smap_set "obs_timeoffset" (obs_offsets m)
    (foldl (fun m nv => smap_set nv.1 nv.2 m) [] (obs_assignments m)) /\
  smap_find "obs_numtimes" (numeric_ input) = Some (Dbl.of_Z (Z.of_nat (length (obs_offsets m)))) /\
  smap_find "obs_missing" (numeric_ input) = Some (Dbl.of_Z (missingCount m)).
Proof.
  destruct m as [|[s [p dl]] m]; [done|]. intros _. eexists. split; [done|]. split.
  - unfold add_numbers at 1. cbn [numericList_]. cbv [add_number]. cbn [numericList_ numeric_].
    by rewrite obs_fold_lists.
  - split; unfold add_numbers at 1; cbv [add_number]; cbn [numeric_];
    by rewrite !smap_find_set by (repeat apply smap_set_sorted; apply obs_fold_numeric; by split; constructor).
Qed.

Lemma smap_set_forall {A} (P : A -> Prop) name (v : A) (m : smap A) :
  P v -> Forall (fun a => P a.2) m -> Forall (fun a => P a.2) (smap_set name v m).
Proof. intros Hv Hm. by apply c_update_forall. Qed.

Lemma smap_fold_forall {A} (P : A -> Prop) (nvs : list (string * A)) : forall m,
  Forall (fun a => P a.2) nvs -> Forall (fun a => P a.2) m ->
  Forall (fun a => P a.2) (foldl (fun m nv => smap_set nv.1 nv.2 m) m nvs).
Proof.
  induction nvs as [|[n v] nvs IH]; intros m Hn Hm; [done|]. apply Forall_cons in Hn as [Hv Hn].
  apply IH; [done|]. by apply smap_set_forall.
Qed.

Lemma assignment_find m e name arr :
  NoDup (concat (obs_names <$> m)) -> e ∈ m -> (name, arr) ∈ zip (obs_names e) (obs_arrays e) ->
  smap_find name (foldl (fun m nv => smap_set nv.1 nv.2 m) [] (obs_assignments m)) = Some arr.
Proof.
  intros Hnd He Hin. rewrite (proj2 (smap_fold_find (obs_assignments m) [] ltac:(by split; constructor)
    ltac:(by rewrite assignment_names)) name).
  assert (Hin' : (name, arr) ∈ obs_assignments m).
  { unfold obs_assignments. apply list_elem_of_In, in_concat. eexists. split; [|by apply list_elem_of_In].
    apply list_elem_of_In, list_elem_of_fmap. by exists e. }
  rewrite <- assignment_names in Hnd.
  destruct (list_find (fun nv => nv.1 = name) (obs_assignments m)) as [[j [n' a']]|] eqn:E.
  - apply list_find_Some in E as (Hj & Hn & _). simpl in *. subst n'.
    apply list_elem_of_lookup in Hin' as [i Hi].
    assert (i = j) as ->; [|congruence].
    eapply (NoDup_lookup _ i j name Hnd); rewrite list_lookup_fmap; [by rewrite Hi|by rewrite Hj].
  - apply list_find_None in E. rewrite Forall_forall in E. by destruct (E _ Hin').
Qed.

(** C31: The data of the observation reach a script aligned. When every parameter
    has a value at each of the n times, as it has after filling in, every array
    has n elements, or sixteen times as many for the flags, [obs_numtimes] is n,
    the array of a parameter holds its original values in order, and element
    16 k + i of its flags is the nibble i of its value k. *)
Theorem addObsDataToScript_spec (m : ParameterSorted (kvData PT)) (n : nat) :
  m <> [] -> NoDup (concat (obs_names <$> m)) -> ("obs_timeoffset" ∉ concat (obs_names <$> m))%string ->
  (forall e, e ∈ m -> length e.2.2 = n) ->
  exists input, addObsDataToScript m = inl input /\
    smap_find "obs_numtimes" (numeric_ input) = Some (Dbl.of_Z (Z.of_nat n)) /\
    Forall (fun a => length a.2 = n \/ length a.2 = (16 * n)%nat) (numericList_ input) /\
    forall e, e ∈ m ->
      smap_find (name_ e.2.1) (numericList_ input) = Some ((@original_ PT) <$> e.2.2) /\
      exists c, smap_find (name_ e.2.1 +:+ "_controlinfo") (numericList_ input) = Some c /\
        forall k d i, e.2.2 !! k = Some d -> 0 <= i < 16 ->
          c !! (16 * k + Z.to_nat i)%nat = Some (Dbl.of_Z (flag (controlinfo_ d) i)).
Proof.
  intros Hm Hnd Hfresh Hlen. destruct (obs_input m Hm) as (input & E & El & En & _).
  assert (Hoff : length (obs_offsets m) = n).
  { destruct m as [|[s [p dl]] m]; [done|]. rewrite <- (Hlen (s, (p, dl))) by (by left). simpl.
    unfold timeoffset. by destruct dl; rewrite ?length_fmap. }
  exists input. split; [done|]. split; [by rewrite En, Hoff|]. rewrite El. split.
  - apply (smap_set_forall (fun a => length a = n \/ length a = (16 * n)%nat)); [by left|].
    apply (smap_fold_forall (fun a => length a = n \/ length a = (16 * n)%nat)); [|constructor]. unfold obs_assignments. apply Forall_concat, Forall_fmap, Forall_forall.
    intros e He. specialize (Hlen e He). simpl. repeat constructor; simpl; rewrite ?length_fmap, ?all_flags_length; lia.
  - intros e He.
    assert (Hfind : forall name arr, (name, arr) ∈ zip (obs_names e) (obs_arrays e) ->
      smap_find name (smap_set "obs_timeoffset" (obs_offsets m)
        (foldl (fun m nv => smap_set nv.1 nv.2 m) [] (obs_assignments m))) = Some arr).
    { intros name arr Hin. rewrite smap_find_set.
      - rewrite decide_False; [by eapply assignment_find|]. intros <-. apply Hfresh.
        apply list_elem_of_In, in_concat. exists (obs_names e). split.
        + apply list_elem_of_In, list_elem_of_fmap. by exists e.
        + apply list_elem_of_In. by apply elem_of_zip_l in Hin.
      - apply smap_fold_find; [by split; constructor|by rewrite assignment_names]. }
    split; [apply Hfind; by left|]. eexists. split; [apply Hfind; right; right; by left|].
    intros k d i Hk Hi. by apply concat_flags_lookup.
Qed.

End arrays.

(** ** Properties: running the script *)

Section run.
  Context {PT : PTime} {PL : PTimeLaws PT} {SI : SpiritInt} {BT : BoostText} {SD : ShowDouble} {PE : Perl}.

Lemma apply_returned_results (ret : smap spec_float) : forall (ds ds' : DataStore PT),
  apply_returned ret ds = inl ds' ->
  exists rs, Forall2 (fun nv rv => ScriptResultIdentifier_of nv.1 = inl rv.1 /\ nv.2 = rv.2) ret rs /\
    apply_results rs ds = inl ds'.
Proof.
  induction ret as [|[n v] ret IH]; intros ds ds' E; simpl in E.
  { exists []. split; [constructor|done]. }
  destruct (ScriptResultIdentifier_of n) as [r|] eqn:Er; [|done]. simpl in E.
  destruct (apply r v ds) as [ds1|] eqn:Ea; [|done]. simpl in E.
  destruct (IH ds1 ds' E) as (rs & HF & Hr). exists ((r, v) :: rs). split; [by constructor|]. simpl. by rewrite Ea.
Qed.

Lemma smap_set_elem {A} n (v : A) (m : smap A) nv : nv ∈ smap_set n v m -> nv = (n, v) \/ nv ∈ m.
Proof.
  unfold smap_set. induction m as [|[n' v'] m IH]; simpl.
  { rewrite list_elem_of_singleton. by left. }
  destruct (string_lt n' n) eqn:E1; [|destruct (string_lt n n') eqn:E2]; rewrite ?elem_of_cons; intros [->|H].
  - by right; left.
  - destruct (IH H); [by left|by right; right].
  - by left.
  - by right.
  - left. f_equal. destruct (decide (n' = n)) as [|Hne]; [done|]. destruct (ko_total n' n I I Hne); congruence.
  - by right; right.
Qed.

Lemma smap_fold_elem {A} (nvs : list (string * A)) : forall m nv,
  nv ∈ foldl (fun m nv => smap_set nv.1 nv.2 m) m nvs -> nv ∈ nvs \/ nv ∈ m.
Proof.
  induction nvs as [|[n v] nvs IH]; intros m nv H; [by right|].
  destruct (IH _ _ H) as [H1|H1]; [by left; right|]. apply smap_set_elem in H1 as [->|H1]; [by left; left|by right].
Qed.

Lemma Forall2_elem_r {A B} (P : A -> B -> Prop) l k y : Forall2 P l k -> y ∈ k -> exists x, x ∈ l /\ P x y.
Proof.
  induction 1 as [|x z l k Hxz HF IH]; [by intros ?%elem_of_nil|]. intros [->|H]%elem_of_cons.
  - exists x. split; [by left|done].
  - destruct (IH H) as (x' & ? & ?). exists x'. split; [by right|done].
Qed.

(** C21: Only what a script names is changed by running it, when no two values of the
    check have the same station, type, parameter, level, sensor and time, none was
    changed before, and their sensors are characters and their times defined. When a
    run succeeds, the Perl function returned, and every value handed back is one of
    the values of the check, named by a result that the script returned, with what it
    is about, the observed value and the use flags as they were; the values that the
    script changed are all handed back. *)
Theorem script_run_spec (s : KvalobsCheckScript) (mods : list (kvData PT)) :
  modified_ (store_ s) = [] -> distinct_keys (data_ (store_ s)) ->
  (forall p x, deref (data_ (store_ s)) p = Some x -> kvData_ordered x) ->
  script_run s = inl mods ->
  exists pairs ds', perl_check (fullScript (script_input s) (baseScript_ s)) = Some pairs /\
    same_shape (data_ (store_ s)) (data_ ds') /\
    (forall p x y, deref (data_ (store_ s)) p = Some x -> deref (data_ ds') p = Some y -> x <> y -> y ∈ mods) /\
    (forall y, y ∈ mods -> exists p x n v r, deref (data_ (store_ s)) p = Some x /\ deref (data_ ds') p = Some y /\
       same_observed x y /\ (n, v) ∈ pairs /\ ScriptResultIdentifier_of n = inl r /\ result_ptr r p).
Proof.
  intros Hm Hd Ho E. unfold script_run, perl_run in E.
  destruct (perl_check _) as [pairs|] eqn:Ep; [|done]. cbn [exitCode_ returnValues_ negb Z.eqb] in E.
  destruct (apply_returned _ (store_ s)) as [ds'|] eqn:Ea; [|done]. injection E as <-.
  destruct (apply_returned_results _ _ _ Ea) as (rs & HF & Hr).
  destruct (apply_results_applied (data_ (store_ s)) rs [] (store_ s) ds' Hd Ho) as [Hsh Hwf Hch Hca]; [|done|].
  { split; [apply same_shape_refl|rewrite Hm; by split; constructor| |].
    - intros p x y Ex Ey Hne. rewrite Ex in Ey. congruence.
    - intros p. rewrite Hm. intros H. by apply elem_of_nil in H. }
  exists pairs, ds'. split; [done|]. split; [done|]. split.
  - intros p x y Ex Ey Hne. apply elem_of_getModified. exists p. split; [by eapply Hch|done].
  - intros y Hy. apply elem_of_getModified in Hy as (p & Hp & Ey).
    destruct (Hca p Hp) as (r & v & Hin & Hptr). rewrite app_nil_l in Hin.
    pose proof (Hsh p) as Hxy. rewrite Ey in Hxy. destruct (deref (data_ (store_ s)) p) as [x|] eqn:Ex; [|done].
    destruct (Forall2_elem_r _ _ _ _ HF Hin) as ([n v'] & Hret & Hn & Hv). simpl in Hn, Hv. subst v'.
    assert (Hp' : (n, v) ∈ pairs).
    { destruct (smap_fold_elem pairs [] (n, v) Hret) as [H|H]; [done|]. by apply elem_of_nil in H. }
    by exists p, x, n, v, r.
Qed.

End run.

(** ** What a text can do to the script *)

Definition text_input (name : string) (texts : list string) : ScriptInput :=
  adds name texts (ScriptInput_new "refobs").

Lemma string_app_nil_r (s : string) : s +:+ "" = s.
Proof. induction s as [|c s IH]; [done|]. change (String c (s +:+ "") = String c s). by rewrite IH. Qed.

Lemma string_app_assoc (a b c : string) : (a +:+ b) +:+ c = a +:+ b +:+ c.
Proof. induction a as [|x a IH]; [done|]. change (String x ((a +:+ b) +:+ c) = String x (a +:+ b +:+ c)). by rewrite IH. Qed.

Lemma string_app_cons c (a b : string) : String c a +:+ b = String c (a +:+ b).
Proof. done. Qed.

(** Texts reach the script between quotation marks without being escaped: a
    text that holds a quotation mark ends its literal, and the rest of it runs as
    a part of the script. *)
Theorem stringListDeclarations_injection (name x code y : string) :
  stringListDeclarations (text_input name
      [x +:+ String "034" (");" +:+ newline +:+ code +:+ "my @z = (" +:+ String "034" y)]) =
    stringListDeclarations (text_input name [x]) +:+ code +:+ stringListDeclarations (text_input "z" [y]).
Proof.
  unfold stringListDeclarations, text_input, adds, smap_set. cbn -[String.append].
  unfold quote. rewrite !string_app_nil_r.
  change "my @z = ("%string with ("my @" +:+ "z" +:+ " = (").
  repeat rewrite ?string_app_assoc, ?string_app_cons. done.
Qed.

(** ** Instances *)

Definition int_show : ShowDouble :=
  {| show_double f := match Dbl.to_int f with Some n => pretty n | None => "nan"%string end |}.

(** An interpreter of one script, whose function returns one pair. *)
Definition one_pair_perl (name : string) (v : spec_float) : Perl := {| perl_check _ := Some [(name, v)] |}.

Lemma addObsDataToScript_spec_witness :
  exists input, addObsDataToScript
      [("RR"%string, (param_named "RR", [at_time 120 sample_kvData; at_time 60 sample_kvData]));
       ("TA"%string, (param_named "TA", [at_time 120 sample_kvData; at_time 60 sample_kvData]))] = inl input /\
    exists c, smap_find "RR_controlinfo" (numericList_ input) = Some c /\
      c !! 17%nat = Some (Dbl.of_Z (flag (controlinfo_ sample_kvData) 1)).
Proof.
  destruct (addObsDataToScript_spec
      [("RR"%string, (param_named "RR", [at_time 120 sample_kvData; at_time 60 sample_kvData]));
       ("TA"%string, (param_named "TA", [at_time 120 sample_kvData; at_time 60 sample_kvData]))] 2)
    as (input & E & _ & _ & H).
  - done.
  - by_decision.
  - by_decision.
  - intros e [->|[->|[]%elem_of_nil]%elem_of_cons]%elem_of_cons; done.
  - exists input. split; [exact E|].
    destruct (H ("RR"%string, (param_named "RR", [at_time 120 sample_kvData; at_time 60 sample_kvData])))
      as [_ (c & Ec & Hc)]; [by left|].
    exists c. split; [exact Ec|]. exact (Hc 1%nat (at_time 60 sample_kvData) 1 eq_refl ltac:(lia)).
Defined.

Definition sample_script : KvalobsCheckScript :=
  {| store_ := sample_store [("TA"%string, (param_named "TA", [sample_kvData]))];
     script_input := []; baseScript_ := "sub check { }" |}.

Lemma script_run_spec_witness :
  exists mods, script_run (BT := boost_text) (SI := spirit_int) (SD := int_show) (PE := one_pair_perl "TA_0_0_flag" (Dbl.of_Z 2))
      sample_script = inl mods /\
    forall y, y ∈ mods -> same_observed sample_kvData y.
Proof.
  destruct (script_run (BT := boost_text) (SI := spirit_int) (SD := int_show)
    (PE := one_pair_perl "TA_0_0_flag" (Dbl.of_Z 2)) sample_script) as [mods|] eqn:E; [|vm_compute in E; discriminate].
  exists mods. split; [done|].
  destruct (script_run_spec (BT := boost_text) (SI := spirit_int) (SD := int_show)
    (PE := one_pair_perl "TA_0_0_flag" (Dbl.of_Z 2)) sample_script mods eq_refl)
    as (pairs & ds' & _ & _ & _ & H); [| |exact E|].
  - intros p q x y Hp Hq _. apply sample_distinct in Hp as [-> _], Hq as [-> _]. done.
  - intros p x Hp. apply sample_distinct in Hp as [_ ->]. split; [unfold sensor_ok; simpl; lia|done].
  - intros y Hy. destruct (H y Hy) as (p & x & n & v & r & Hp & _ & Ho & _).
    apply sample_distinct in Hp as [_ ->]. exact Ho.
Defined.
