(* ===== verification/CheckRunner.v ===== *)
(** * CheckRunner: running the checks on an observation (src/src/kvQabased/src/CheckRunner.cpp)

    The runner works on the state [CacheStatics * D]: the static members of the
    cache, which outlive a run, and the database. A run puts the two layers of
    [CachedAccess.v] and [DelayedSave.v] on the database. Logging and the sleeps
    between attempts are left out, and the choice of checks, [qcxFilter_], is a
    variable. *)

From S2P Require Import Prelude Orders OrderedSet PTime TimeText DataFlag ControlInfo UseInfo KvData KvDataOps Rows SortedData KvalobsData Scanning CronString Signature ResultFilter ScriptResult DatabaseAccess DelayedSave CachedAccess DataStore CheckScript.

#[local] Open Scope Z_scope.

Section CheckRunner.
  Context {PT : PTime} {PM : PMinutes PT} {TT : PTimeText PT} {PC : PCalendar PT} {BT : BoostText} {BS : BoostSplit}
          {SI : SpiritInt} {BF : BoostFloat} {SD : ShowDouble} {PE : Perl} {SP : StationParamSet}.
  Context (now : ptime PT).

(** ** Transactions *)

(** [AutoRollbackTransaction]: the object is made, [body] runs, which says whether
    it has committed, and the object is destroyed. A destructor that lets an
    exception out ends the program. *)
Definition auto_rollback {E} {DA : DatabaseAccess PT E} : DbM E unit :=
  db_catch rollback (fun e => if is_std_exception e then Some (db_ret tt) else Some (db_throw undefined_behaviour)).

Definition AutoRollbackTransaction {E} {DA : DatabaseAccess PT E} {A} (body : DbM E (A * bool)) : DbM E A := fun s =>
  match beginTransaction s with
  | (inr e, s) => (inr e, s)
  | (inl _, s) =>
      match body s with
      | (inl (a, true), s) => (inl a, s)
      | (inl (a, false), s) => (auto_rollback ;; db_ret a)%db s
      | (inr e, s) => (auto_rollback ;; db_throw e)%db s
      end
  end.

(** ** Which checks run *)

Definition isShip (obs : kvStationInfo PT) : bool := si_stationid obs >? 10000000.

Definition signatureMatchesExpectedParameters (concreteSignature : CheckSignature) (expectedParameters : list string)
    : bool :=
  match cs_obs concreteSignature with
  | Some obsReq => existsb (fun param => bool_decide (name_ param ∈ expectedParameters)) (parameter_ obsReq)
  | None => true
  end.

Definition checkShouldRunAtThisHour (checkActive : string) (obs : kvStationInfo PT) : bool :=
  active (CronString_of (to_bytes checkActive)) (si_obstime obs).

Definition shouldRunAnyChecks (obs : Observation PT) : bool := o_type obs >? 0.

(** The characters before the first NUL. *)
Definition c_str (s : bytes) : bytes := (span (fun c => bool_decide (c <> "000"%char)) s).1.

(** ** Flags *)

(** One pass of the loop of [resetObservationDataFlags]. *)
Definition reset_flags (d : kvData PT) : kvData PT :=
  let oldCi := controlinfo_ d in
  let newCi := kvControlInfo_new in
  let newCi := ci_set newCi f_fagg (flag oldCi f_fagg) in
  let newCi := ci_set newCi f_fmis (flag oldCi f_fmis) in
  let newCi := ci_set newCi f_fd (flag oldCi f_fd) in
  let newCi := if flag oldCi f_fpre =? 7 then ci_set newCi f_fpre 7 else newCi in
  let d := with_controlinfo d newCi in
  with_useinfo d (setUseFlags (useinfo_ d) newCi).

Definition resetObservationDataFlags (observationData : list (kvData PT)) : list (kvData PT) :=
  reset_flags <$> observationData.

Definition resetCFailed (observationData : list (kvData PT)) : list (kvData PT) :=
  (fun d => with_cfailed d "") <$> observationData.

Definition haveAnyHqcCorrectedElements (observationData : list (kvData PT)) : bool := existsb hqc_touched observationData.

(** The new use flags of a modification. *)
Definition set_use_flags (d : kvData PT) : kvData PT := with_useinfo d (setUseFlags (useinfo_ d) (controlinfo_ d)).

Section runner.
  Context {D : Type} {B : DatabaseAccess PT D}.
  Context (qcxFilter_ : list string).

Definition shouldRunCheck (obs : kvStationInfo PT) (check : kvChecks PT) (expectedParameters : list string) : res bool :=
  if negb (bool_decide (qcxFilter_ = [])) && negb (bool_decide (ck_qcx check ∈ qcxFilter_)) then mret false
  else if negb (checkShouldRunAtThisHour (ck_active check) obs) then mret false
  else if isShip obs then mret true
  else
    signature ← CheckSignature_of (to_bytes (ck_checksignature check)) (si_stationid obs) true;
    mret (signatureMatchesExpectedParameters signature expectedParameters).

(** The two layers, on the database. *)
Definition Layers : Type := SavedData PT * (Cache PT * D).

#[local] Instance layers : DatabaseAccess PT Layers := DelayedSaveDatabaseAccess (CachedDatabaseAccess B).

Local Open Scope db_scope.

Definition get_uncommitted : DbM Layers (list (kvData PT)) := fun s => (inl (uncommitted s), s).

(** The parameters that have values of the observation's type, and the values. *)
Definition fetch_data (obs : Observation PT) (expectedParameters : list string)
    : DbM Layers (list string * list (kvData PT)) :=
  db_fold expectedParameters (fun acc it =>
    parameter <- db_res (of_option Invalid (Parameter_of (to_bytes it))) ;;
    d <- getData obs parameter 0 ;;
    let d := List.filter (fun x => typeid_ x =? o_type obs) d in
    match d with
    | [] => db_ret acc
    | _ => db_ret (acc.1 ++ [it], acc.2 ++ d)
    end) ([], []).

Definition hasAnyParametersRequired (signature : CheckSignature) (parametersInData : list string) : bool :=
  match cs_obs signature with
  | Some obsRequirement => existsb (haveParameter obsRequirement) parametersInData
  | None => true
  end.

(** The body of the [try] of one check. *)
Definition try_check (obs : Observation PT) (expectedParameters parametersInData : list string) (check : kvChecks PT)
    : DbM Layers unit :=
  signature <- db_res (CheckSignature_of (c_str (to_bytes (ck_checksignature check))) (o_stationid obs) true) ;;
  should <- (if hasAnyParametersRequired signature parametersInData
             then db_res (shouldRunCheck (stationInfo obs) check expectedParameters) else db_ret false) ;;
  if should : bool then
    script <- KvalobsCheckScript_new now obs check ;;
    modifications <- db_res (script_run script) ;;
    write (set_use_flags <$> modifications)
  else db_ret tt.

(** The [catch] clauses: [None] where the exception goes on. *)
Definition check_failed (e : exn) : option (DbM Layers unit) :=
  if bool_decide (e = bad_alloc) then None
  else if is_NoErrorLog e then Some (db_ret tt)
  else if is_SQLException e then None
  else if is_std_exception e then Some (db_ret tt)
  else None.

Definition run_check (obs : Observation PT) (expectedParameters parametersInData : list string) (check : kvChecks PT)
    : DbM Layers unit :=
  db_catch (try_check obs expectedParameters parametersInData check) check_failed.

(** The body of [checkObservation], in its transaction. *)
Definition check_body (obs : Observation PT) : DbM Layers (option (KvalobsData PT) * bool) :=
  pinned <- pin obs ;;
  if negb pinned then db_ret (None, false)
  else
    checkList <- getChecks obs ;;
    expectedParameters <- getParametersToCheck obs ;;
    fetched <- fetch_data obs expectedParameters ;;
    let '(parametersInData, observationData) := fetched in
    if haveAnyHqcCorrectedElements observationData then
      ret <- complete obs observationData [] ;;
      db_ret (Some ret, false)
    else
      (if bool_decide (qcxFilter_ = []) then write (resetCFailed (resetObservationDataFlags observationData))
       else db_ret tt) ;;
      db_for checkList (run_check obs expectedParameters parametersInData) ;;
      dl <- get_uncommitted ;;
      ret <- complete obs dl [] ;;
      commit ;;
      db_ret (Some ret, true).

(** The state of a runner: the layers are made for one observation, and only the
    static members of the cache outlive them. *)
Definition checkObservation (obs : Observation PT) : DbM (CacheStatics * D) (option (KvalobsData PT)) := fun s =>
  let '(r, (_, (cache, d))) := AutoRollbackTransaction (check_body obs) ([], (Cache_new s.1 obs, s.2)) in
  (r, (ca_static cache, d)).

(** ** Attempts *)

Section attempts.
  Context {S A : Type} (check : DbM S A).

(** The loop over serialization errors. *)
Fixpoint serialize_tries (n : nat) : DbM S A :=
  match n with
  | O => db_throw runtime_error
  | Datatypes.S n => db_catch check (fun e => if bool_decide (e = SQLSerializeError) then Some (serialize_tries n) else None)
  end.

(** [for (int i = 0; i < nRetry; ++i)], with what follows the loop. *)
Fixpoint short_retries (n : nat) (next : DbM S A) : DbM S A :=
  match n with
  | O => next
  | Datatypes.S n =>
      db_catch (serialize_tries 256) (fun e => if bool_decide (e = SQLAborted) then Some (short_retries n next) else None)
  end.

(** [for (int k = 0; k < nRetry; ++k)], then the final attempt. *)
Fixpoint long_retries (n : nat) : DbM S A :=
  match n with
  | O => check
  | Datatypes.S n => short_retries 3 (long_retries n)
  end.

End attempts.

(** [newObservation]. *)
Definition newObservation (obs : Observation PT) : DbM (CacheStatics * D) (option (KvalobsData PT)) :=
  if negb (shouldRunAnyChecks obs) then
    lift (AutoRollbackTransaction (ret <- complete obs [] [] ;; db_ret (Some ret, false)))
  else long_retries (checkObservation obs) 3.

(** [newObservation] of a station, a time and a type. *)
Definition newObservation_of (st : kvStationInfo PT) : DbM (CacheStatics * D) (option (KvalobsData PT)) :=
  obs <- lift (beginTransaction ;; obs <- getObservation st ;; rollback ;; db_ret obs) ;;
  newObservation obs.

End runner.

End CheckRunner.

(** ** Properties: attempts *)

Section attempt_props.
  Context {S A : Type} (check : DbM S A).

(** The state after [n] attempts, and what attempt [n] does, the first being 0. *)
Fixpoint after (n : nat) (s : S) : S :=
  match n with O => s | Datatypes.S n => after n (check s).2 end.
Definition attempt (n : nat) (s : S) : res A * S := check (after n s).

Definition transient (e : exn) : Prop := e = SQLSerializeError \/ e = SQLAborted.

Definition fails_with (P : exn -> Prop) (r : res A) : Prop := exists e, r = inr e /\ P e.

Lemma after_plus n m s : after (n + m) s = after m (after n s).
Proof. revert s. induction n as [|n IH]; intros s; [done|]. apply IH. Qed.

Lemma attempt_plus n m s : attempt (n + m) s = attempt m (after n s).
Proof. unfold attempt. by rewrite after_plus. Qed.

Lemma after_S n s : after (Datatypes.S n) s = (attempt n s).2.
Proof. rewrite <- Nat.add_1_r, after_plus. done. Qed.

(** The loop over serialization errors ends with the first attempt that does not
    fail with one, or with none left. *)
Lemma serialize_tries_spec k : forall s,
  (exists n, (n < k)%nat /\ (forall i, (i < n)%nat -> (attempt i s).1 = inr SQLSerializeError) /\
     (attempt n s).1 <> inr SQLSerializeError /\ serialize_tries check k s = attempt n s) \/
  ((forall i, (i < k)%nat -> (attempt i s).1 = inr SQLSerializeError) /\
     serialize_tries check k s = (inr runtime_error, after k s)).
Proof.
  induction k as [|k IH]; intros s.
  { right. split; [lia|done]. }
  cbn [serialize_tries]. unfold db_catch. destruct (check s) as [r s'] eqn:E.
  assert (Hd : r = inr SQLSerializeError \/ r <> inr SQLSerializeError).
  { destruct r as [a|e]; [by right|]. destruct (decide (e = SQLSerializeError)) as [->|]; [by left|right; congruence]. }
  destruct Hd as [->|Hr].
  - destruct (IH s') as [(n & Hn & Hb & Hne & En)|[Hb En]].
    + left. exists (Datatypes.S n). split; [lia|].
      assert (Hs : forall i, attempt (Datatypes.S i) s = attempt i s')
        by (intros i; unfold attempt; simpl; by rewrite E).
      rewrite Hs. split; [|done]. intros [|i] Hi; [unfold attempt; simpl; by rewrite E|]. rewrite Hs. apply Hb. lia.
    + right. simpl. rewrite E. split; [|done]. intros [|i] Hi; unfold attempt; simpl; rewrite E; [done|].
      apply Hb. lia.
  - left. exists O. split; [lia|]. split; [lia|]. unfold attempt. simpl. rewrite E. split; [done|].
    destruct r as [a|e]; [done|]. rewrite bool_decide_eq_false_2 by congruence. done.
Qed.

(** The end of a loop: the result of an attempt after attempts that failed with
    transient errors, or the error of 256 serialization errors in a row. *)
Definition conclusion (s : S) (r : res A * S) (n : nat) : Prop :=
  (forall i, (i < n)%nat -> fails_with transient (attempt i s).1) /\
  (r = attempt n s \/
   r = (inr runtime_error, after (Datatypes.S n) s) /\ (255 <= n)%nat /\
     forall i, (n - 255 <= i <= n)%nat -> (attempt i s).1 = inr SQLSerializeError).

Definition concludes (m : DbM S A) (bound : nat) : Prop := forall s, exists n, (n <= bound)%nat /\ conclusion s (m s) n.

Lemma conclusion_later s k r n :
  (forall i, (i < k)%nat -> fails_with transient (attempt i s).1) -> conclusion (after k s) r n ->
  conclusion s r (k + n).
Proof.
  intros Hk [Hn Hr]. split.
  - intros i Hi. destruct (decide (i < k)%nat) as [H|H]; [by apply Hk|].
    replace i with (k + (i - k))%nat by lia. rewrite attempt_plus. apply Hn. lia.
  - rewrite attempt_plus. destruct Hr as [->|(-> & Hl & Hr)]; [by left|]. right. split; [|split].
    + by rewrite <- Nat.add_succ_r, after_plus.
    + lia.
    + intros i Hi. replace i with (k + (i - k))%nat by lia. rewrite attempt_plus. apply Hr. lia.
Qed.

Lemma short_retries_concludes next b : concludes next b -> forall k, concludes (short_retries check k next) (k * 256 + b).
Proof.
  intros Hnext. induction k as [|k IH]; intros s; [destruct (Hnext s) as (n & ? & ?); exists n; split; [lia|done]|].
  cbn [short_retries]. unfold db_catch.
  destruct (serialize_tries_spec 256 s) as [(n & Hn & Hb & Hne & E)|[Hb E]]; rewrite E.
  - destruct (attempt n s) as [r s'] eqn:Ea. destruct r as [a|e].
    + exists n. split; [lia|]. split; [intros i Hi; exists SQLSerializeError; split; [by apply Hb|by left]|]. left. by rewrite Ea.
    + case_bool_decide as He; [subst e|].
      * destruct (IH s') as (m & Hm & Hc). exists (Datatypes.S n + m)%nat. split; [lia|].
        apply conclusion_later; [|by rewrite after_S, Ea].
        intros i Hi. destruct (decide (i = n)) as [->|Hin].
        -- rewrite Ea. exists SQLAborted. split; [done|by right].
        -- exists SQLSerializeError. split; [apply Hb; lia|by left].
      * exists n. split; [lia|]. split; [intros i Hi; exists SQLSerializeError; split; [by apply Hb|by left]|].
        left. by rewrite Ea.
  - exists 255%nat. split; [lia|]. split; [intros i Hi; exists SQLSerializeError; split; [apply Hb; lia|by left]|].
    right. split; [done|]. split; [lia|]. intros i Hi. apply Hb. lia.
Qed.

Lemma long_retries_concludes k : concludes (long_retries check k) (k * 768).
Proof.
  induction k as [|k IH].
  - intros s. exists O. split; [lia|]. split; [lia|by left].
  - intros s. destruct (short_retries_concludes _ _ IH 3 s) as (n & Hn & Hc). exists n. split; [lia|done].
Qed.

(** The number of aborted attempts before attempt [n]. *)
Fixpoint aborts (n : nat) (s : S) : nat :=
  match n with
  | O => O
  | Datatypes.S n => (match (check s).1 with inr SQLAborted => 1 | _ => 0 end + aborts n (check s).2)%nat
  end.

(** Fewer than 256 transient failures, of which at most eight are aborts, are
    survived by any number of loops that is left. *)
Lemma serialize_tries_survive n : forall k s, (n < k)%nat ->
  (forall i, (i < n)%nat -> (attempt i s).1 = inr SQLSerializeError) -> (attempt n s).1 <> inr SQLSerializeError ->
  serialize_tries check k s = attempt n s.
Proof.
  intros k s Hn Hb Hne. destruct (serialize_tries_spec k s) as [(m & Hm & Hb' & Hne' & E)|[Hb' _]].
  - assert (m = n) as ->; [|done]. destruct (Nat.lt_trichotomy m n) as [H|[H|H]]; [|done|].
    + by rewrite Hb in Hne'.
    + by rewrite Hb' in Hne.
  - by rewrite Hb' in Hne.
Qed.

(** The first attempt that does not fail with a serialization error. *)
Lemma first_other n : forall s, (forall i, (i < n)%nat -> fails_with transient (attempt i s).1) ->
  (attempt n s).1 <> inr SQLSerializeError ->
  exists m, (m <= n)%nat /\ (forall i, (i < m)%nat -> (attempt i s).1 = inr SQLSerializeError) /\
    (attempt m s).1 <> inr SQLSerializeError.
Proof.
  induction n as [|n IH]; intros s Hn He; [exists O; split; [lia|]; split; [lia|done]|].
  destruct (Hn O ltac:(lia)) as (e & E0 & He0). destruct (decide (e = SQLSerializeError)) as [->|Hne].
  - destruct (IH (check s).2) as (m & Hm & Hb & Hx).
    + intros i Hi. exact (Hn (Datatypes.S i) ltac:(lia)).
    + exact He.
    + exists (Datatypes.S m). split; [lia|]. split; [|exact Hx]. intros [|i] Hi; [done|]. apply (Hb i). lia.
  - exists O. split; [lia|]. split; [lia|]. rewrite E0. congruence.
Qed.

Lemma aborts_plus m n s : aborts (m + n) s = (aborts m s + aborts n (after m s))%nat.
Proof. revert s. induction m as [|m IH]; intros s; simpl; [done|]. rewrite IH. lia. Qed.

Lemma short_retries_survive n next (a : nat) :
  (forall m s, (m < n)%nat -> (forall i, (i < m)%nat -> fails_with transient (attempt i s).1) ->
     ~ fails_with transient (attempt m s).1 -> (aborts m s < a)%nat -> next s = attempt m s) ->
  forall k m s, (m < n)%nat -> (n <= 256)%nat ->
    (forall i, (i < m)%nat -> fails_with transient (attempt i s).1) -> ~ fails_with transient (attempt m s).1 ->
    (aborts m s < k + a)%nat -> short_retries check k next s = attempt m s.
Proof.
  intros Hnext. induction k as [|k IH]; intros m s Hm Hn Hb Hc Ha; [by apply Hnext|].
  cbn [short_retries]. unfold db_catch.
  destruct (first_other m s Hb) as (j & Hj & Hjb & Hjo).
  { intros E. apply Hc. exists SQLSerializeError. split; [done|by left]. }
  rewrite (serialize_tries_survive j) by (done || lia).
  destruct (attempt j s) as [r s'] eqn:Ea. destruct (decide (j = m)) as [->|Hne].
  - rewrite Ea in Hc |- *. simpl in Hc. destruct r as [x|e]; [done|]. rewrite bool_decide_eq_false_2; [done|].
    intros ->. apply Hc. exists SQLAborted. split; [done|by right].
  - destruct (Hb j ltac:(lia)) as (e & Er & Ht). rewrite Ea in Er. simpl in Er, Hjo. subst r.
    destruct Ht as [->| ->]; [done|]. rewrite bool_decide_eq_true_2 by done.
    assert (Hs' : after (Datatypes.S j) s = s') by (by rewrite after_S, Ea).
    replace m with (Datatypes.S j + (m - Datatypes.S j))%nat in * by lia.
    rewrite attempt_plus, Hs' in Hc |- *. rewrite aborts_plus, Hs' in Ha.
    apply IH; [lia|done| |done|].
    + intros i Hi. rewrite <- Hs', <- attempt_plus. apply Hb. lia.
    + enough (1 <= aborts (Datatypes.S j) s)%nat by lia.
      rewrite <- (Nat.add_1_r j), aborts_plus. simpl. unfold attempt in Ea. rewrite Ea. simpl. lia.
Qed.

Lemma long_retries_survive n : (n <= 256)%nat -> forall k m s, (m < n)%nat ->
  (forall i, (i < m)%nat -> fails_with transient (attempt i s).1) -> ~ fails_with transient (attempt m s).1 ->
  (aborts m s < k * 3)%nat -> long_retries check k s = attempt m s.
Proof.
  intros Hn. induction k as [|k IH]; intros m s Hm Hb Hc Ha; [lia|].
  cbn [long_retries]. apply (short_retries_survive n (long_retries check k) (k * 3) IH 3 m s); [done..|lia].
Qed.

End attempt_props.

(** ** What programs leave alone

    [keeps R m]: the state after [m] is related by [R] to the one before, [R] being
    a preorder such as having the same value of a function. *)

Definition keeps {S A} (R : relation S) (m : DbM S A) : Prop := forall s, R s (m s).2.

Definition same_of {S X} (f : S -> X) : relation S := fun s s' => f s' = f s.
Definition on_snd {L S} (R : relation S) : relation (L * S) := fun s s' => R s.2 s'.2.

#[export] Instance same_of_preorder {S X} (f : S -> X) : PreOrder (same_of f).
Proof. split; [done|]. intros a b c H1 H2. unfold same_of in *. congruence. Qed.
#[export] Instance on_snd_preorder {L S} (R : relation S) : PreOrder R -> PreOrder (on_snd (L := L) R).
Proof. intros [Hr Ht]. split; [intros a; apply Hr|intros a b c; apply Ht]. Qed.

Section keeps.
  Context {S : Type} (R : relation S) {P : PreOrder R}.

Lemma keeps_ret {A} (a : A) : keeps R (db_ret a).
Proof. intros s. apply P. Qed.
Lemma keeps_throw {A} e : keeps R (db_throw (A := A) e).
Proof. intros s. apply P. Qed.
Lemma keeps_res {A} (r : res A) : keeps R (db_res r).
Proof. intros s. apply P. Qed.

Lemma keeps_bind {A C} (m : DbM S A) (g : A -> DbM S C) :
  keeps R m -> (forall a, keeps R (g a)) -> keeps R (db_bind m g).
Proof.
  intros Hm Hg s. unfold db_bind. specialize (Hm s). destruct (m s) as [[a|e] s']; [|done].
  etrans; [exact Hm|apply (Hg a s')].
Qed.

Lemma keeps_catch {A} (m : DbM S A) h :
  keeps R m -> (forall e m', h e = Some m' -> keeps R m') -> keeps R (db_catch m h).
Proof.
  intros Hm Hh s. unfold db_catch. specialize (Hm s). destruct (m s) as [[a|e] s']; [done|].
  destruct (h e) as [m'|] eqn:E; [|done]. etrans; [exact Hm|apply (Hh e m' E s')].
Qed.

Lemma keeps_for {A} (l : list A) (m : A -> DbM S unit) : (forall a, keeps R (m a)) -> keeps R (db_for l m).
Proof. intros Hm. induction l as [|a l IH]; [apply keeps_ret|]. by apply keeps_bind. Qed.

Lemma keeps_fold {A T} (l : list A) (m : T -> A -> DbM S T) : (forall t a, keeps R (m t a)) ->
  forall t, keeps R (db_fold l m t).
Proof. intros Hm. induction l as [|a l IH]; intros t; [apply keeps_ret|]. by apply keeps_bind. Qed.

Lemma keeps_lift {L A} (m : DbM S A) : keeps R m -> keeps (on_snd (L := L) R) (lift m).
Proof. intros Hm [l s]. unfold lift, on_snd. simpl. specialize (Hm s). by destruct (m s). Qed.

Lemma keeps_catch_std {A} (m : DbM S A) m' : keeps R m -> keeps R m' ->
  keeps R (db_catch m (fun e => if is_std_exception e then Some m' else None)).
Proof. intros Hm Hm'. apply keeps_catch; [done|]. intros e m1. by destruct (is_std_exception e) as [|]; [intros [= <-]|]. Qed.

End keeps.

Lemma keeps_lift_fst {L D A} (m : DbM D A) : keeps (same_of (@fst L D)) (lift m).
Proof. intros [l d]. unfold lift, same_of. simpl. by destruct (m d). Qed.

Create HintDb keeps.
#[export] Hint Resolve keeps_ret keeps_throw keeps_res keeps_lift keeps_lift_fst keeps_catch_std : keeps.
#[export] Hint Extern 2 (PreOrder _) => typeclasses eauto : keeps.

(** Goes through a program. *)
Ltac keeps :=
  repeat first
    [ solve [eauto with keeps]
    | apply keeps_bind; [typeclasses eauto| |intros ?]
    | apply keeps_fold; [typeclasses eauto|intros ? ?]
    | apply keeps_for; [typeclasses eauto|intros ?]
    | apply keeps_catch_std
    | match goal with
      | |- keeps _ (match ?x with _ => _ end) => destruct x
      | |- keeps _ (let _ := _ in _) => cbv zeta
      end ].

(** The reading operations of a database keep [R]. *)
Class Reads {PT D} (DA : DatabaseAccess PT D) (R : relation D) := {
  rd_getChecks o : keeps R (getChecks o);
  rd_getQcxFlagPosition q : keeps R (getQcxFlagPosition q);
  rd_getParametersToCheck o : keeps R (getParametersToCheck o);
  rd_getAlgorithm n : keeps R (getAlgorithm n);
  rd_getStationParam si p s l q : keeps R (getStationParam si p s l q);
  rd_getStationParamAll si p q : keeps R (getStationParamAll si p q);
  rd_getStation i : keeps R (getStation i);
  rd_getObservation si : keeps R (getObservation si);
  rd_getModelData si p m : keeps R (getModelData si p m);
  rd_getData o p m : keeps R (getData o p m);
  rd_pin o : keeps R (pin o);
  rd_getTextData o p m : keeps R (getTextData o p m);
  rd_complete o d td : keeps R (complete o d td)
}.
#[export] Hint Resolve rd_getChecks rd_getQcxFlagPosition rd_getParametersToCheck rd_getAlgorithm rd_getStationParam
  rd_getStationParamAll rd_getStation rd_getObservation rd_getModelData rd_getData rd_pin rd_getTextData rd_complete : keeps.
#[export] Hint Extern 2 (Reads _ _) => typeclasses eauto : keeps.

Section layers_keep.
  Context {PT : PTime} {PM : PMinutes PT} {SP : StationParamSet} {D : Type} (B : DatabaseAccess PT D) (R : relation D) {P : PreOrder R}.

Lemma keeps_get_cache : keeps (on_snd (L := Cache PT) R) get_cache.
Proof. intros s. apply P. Qed.
Lemma keeps_mod_cache g : keeps (on_snd (L := Cache PT) R) (mod_cache g).
Proof. intros s. apply P. Qed.
#[local] Hint Resolve keeps_get_cache keeps_mod_cache : keeps.

#[export] Instance cached_reads : Reads B R -> Reads (CachedDatabaseAccess B) (on_snd R).
Proof.
  intros HB. split; intros; cbn [getChecks getQcxFlagPosition getParametersToCheck getAlgorithm getStationParam
    getStationParamAll getStation getObservation getModelData getData pin getTextData complete CachedDatabaseAccess
    FilteredDatabaseAccess]; try solve [eauto with keeps].
  all: unfold ca_getQcxFlagPosition, ca_getAlgorithm, ca_getStationParam, ca_getStationParamAll, ca_getStation,
    ca_getModelData, ca_getData, ca_getTextData, or_else; keeps.
Qed.

Lemma ds_getData_keeps o p m : Reads B R -> keeps (on_snd (L := SavedData PT) R) (ds_getData B o p m).
Proof.
  intros HB [l d]. unfold ds_getData, on_snd. simpl. pose proof (rd_getData o p m d) as H.
  by destruct (getData o p m d) as [[x|e] d'].
Qed.

Lemma ds_getData_keeps_saved o p m : keeps (same_of (@fst (SavedData PT) D)) (ds_getData B o p m).
Proof. intros [l d]. unfold ds_getData. simpl. by destruct (getData o p m d) as [[x|e] d']. Qed.
#[local] Hint Resolve ds_getData_keeps ds_getData_keeps_saved : keeps.

#[export] Instance delayed_reads : Reads B R -> Reads (DelayedSaveDatabaseAccess B) (on_snd R).
Proof.
  intros HB. split; intros; cbn [getChecks getQcxFlagPosition getParametersToCheck getAlgorithm getStationParam
    getStationParamAll getStation getObservation getModelData getData pin getTextData complete
    DelayedSaveDatabaseAccess FilteredDatabaseAccess]; eauto with keeps.
Qed.

(** No read touches what is saved. *)
#[export] Instance delayed_reads_saved : Reads (DelayedSaveDatabaseAccess B) (same_of (@fst (SavedData PT) D)).
Proof.
  split; intros; cbn [getChecks getQcxFlagPosition getParametersToCheck getAlgorithm getStationParam
    getStationParamAll getStation getObservation getModelData getData pin getTextData complete
    DelayedSaveDatabaseAccess FilteredDatabaseAccess]; eauto with keeps.
Qed.

End layers_keep.

(** Making the script of a check only reads. *)
Section script_keeps.
  Context {PT : PTime} {PM : PMinutes PT} {TT : PTimeText PT} {PC : PCalendar PT} {BT : BoostText} {BS : BoostSplit}
          {SI : SpiritInt} {BF : BoostFloat}.
  Context (now : ptime PT).
  Context {D : Type} {DA : DatabaseAccess PT D} (R : relation D) {P : PreOrder R} {RD : Reads DA R}.

Lemma populateObs_keeps obs a c : keeps R (populateObs_ now obs a c).
Proof. unfold populateObs_, translated. keeps. Qed.
Lemma populateRefObs_keeps obs a c : keeps R (populateRefObs_ obs a c).
Proof. unfold populateRefObs_, translated. keeps. Qed.
Lemma populateModel_keeps obs a c : keeps R (populateModel_ obs a c).
Proof. unfold populateModel_, translated. keeps. Qed.
Lemma populateMeta_keeps obs q o a c : keeps R (populateMeta_ obs q o a c).
Proof. unfold populateMeta_. keeps. Qed.
Lemma populateStation_keeps obs : keeps R (populateStation_ obs).
Proof. unfold populateStation_. keeps. Qed.
#[local] Hint Resolve populateObs_keeps populateRefObs_keeps populateModel_keeps populateMeta_keeps populateStation_keeps : keeps.

Lemma DataStore_new_keeps obs q a c : keeps R (DataStore_new now obs q a c).
Proof. unfold DataStore_new, populate. keeps. Qed.
#[local] Hint Resolve DataStore_new_keeps : keeps.

Lemma KvalobsCheckScript_new_keeps obs check : keeps R (KvalobsCheckScript_new now obs check).
Proof. unfold KvalobsCheckScript_new. keeps. Qed.

End script_keeps.
#[export] Hint Resolve KvalobsCheckScript_new_keeps : keeps.

(** A database with transactions: [committed] is what other connections see, and
    only a commit that succeeds changes it. *)
Class Transactional {PT D X} (B : DatabaseAccess PT D) (committed : D -> X) := {
  tr_reads :: Reads B (same_of committed);
  tr_begin : keeps (same_of committed) beginTransaction;
  tr_rollback : keeps (same_of committed) rollback;
  tr_write data : keeps (same_of committed) (write data);
  tr_commit_fails d e d' : commit d = (inr e, d') -> committed d' = committed d
}.
#[export] Hint Resolve tr_begin tr_rollback tr_write : keeps.
#[export] Hint Extern 2 (Transactional _ _) => typeclasses eauto : keeps.

(** ** Properties: one run *)

Section run_props.
  Context {PT : PTime} {PM : PMinutes PT} {TT : PTimeText PT} {PC : PCalendar PT} {BT : BoostText} {BS : BoostSplit}
          {SI : SpiritInt} {BF : BoostFloat} {SD : ShowDouble} {PE : Perl} {SP : StationParamSet}.
  Context (now : ptime PT) {D : Type} (B : DatabaseAccess PT D) (qcxFilter_ : list string).

#[local] Existing Instance layers.

(** The program of a check that runs. *)
Definition run_script (obs : Observation PT) (check : kvChecks PT) : DbM (Layers (D := D)) unit :=
  (script <- KvalobsCheckScript_new now obs check ;;
   modifications <- db_res (script_run script) ;;
   write (set_use_flags <$> modifications))%db.

Definition wrote (s s' : Layers (D := D)) (r : res unit) : Prop :=
  uncommitted s' = uncommitted s \/
  exists script mods, script_run script = inl mods /\
    uncommitted s' = ds_save (set_use_flags <$> mods) (uncommitted s) /\ r = inl tt.

Lemma run_script_wrote obs check s : wrote s (run_script obs check s).2 (run_script obs check s).1.
Proof.
  unfold run_script, wrote, uncommitted. unfold db_bind at 1 2 3 4 5.
  assert (Hs : fst (KvalobsCheckScript_new now obs check s).2 = fst s)
    by exact (KvalobsCheckScript_new_keeps now (same_of (@fst _ _)) obs check s).
  destruct (KvalobsCheckScript_new now obs check s) as [[script|e1] s3]; [|by left].
  unfold db_bind, db_res. destruct (script_run script) as [mods|e1] eqn:Em; [|by left].
  right. exists script, mods. split; [done|]. simpl in *. by rewrite Hs.
Qed.

Lemma wrote_keeps (m : DbM Layers unit) s : keeps (same_of fst) m -> wrote s (m s).2 (m s).1.
Proof. intros H. left. apply H. Qed.

Lemma wrote_bind {A} (m : DbM Layers A) (g : A -> DbM Layers unit) s :
  keeps (same_of fst) m -> (forall a s', wrote s' (g a s').2 (g a s').1) -> wrote s (db_bind m g s).2 (db_bind m g s).1.
Proof.
  intros Hm Hg. unfold db_bind. specialize (Hm s). destruct (m s) as [[a|e] s']; [|by left].
  specialize (Hg a s'). unfold wrote, uncommitted in *. simpl in Hm. by rewrite <- Hm.
Qed.

Lemma try_check_wrote obs expected inData check s :
  wrote s (try_check now qcxFilter_ obs expected inData check s).2 (try_check now qcxFilter_ obs expected inData check s).1.
Proof.
  unfold try_check. fold (run_script obs check). apply wrote_bind; [keeps|]. intros sg s1.
  apply wrote_bind; [keeps|]. intros [] s2; [apply run_script_wrote|by left].
Qed.

(** What one check can do. It ends normally unless memory ran out, the
    database failed or the exception is not a standard one; whatever happened,
    the values waiting to be saved are as they were, or the script of the check
    ran to its end and its modifications, with their new use flags, were put on
    top of them. *)
Theorem run_check_spec (obs : Observation PT) (expected inData : list string) (check : kvChecks PT)
    (s : Layers (D := D)) :
  let '(r, s') := run_check now qcxFilter_ obs expected inData check s in
  (forall e, r = inr e -> e = bad_alloc \/ is_SQLException e = true \/ is_std_exception e = false) /\
  (uncommitted s' = uncommitted s \/
   exists script mods, script_run script = inl mods /\
     uncommitted s' = ds_save (set_use_flags <$> mods) (uncommitted s) /\ r = inl tt).
Proof.
  unfold run_check, db_catch. pose proof (try_check_wrote obs expected inData check s) as H.
  destruct (try_check _ _ _ _ _ _ s) as [[[]|e] s1]; [done|]. simpl in H.
  assert (Hs : uncommitted s1 = uncommitted s) by (by destruct H as [|(? & ? & _ & _ & ?)]).
  unfold check_failed. case_bool_decide; [split; [intros ? [= <-]; by left|by left]|].
  destruct (is_NoErrorLog e); [by split; [|left]|].
  destruct (is_SQLException e) eqn:Eq; [split; [intros ? [= <-]; by right; left|by left]|].
  destruct (is_std_exception e) eqn:Ed; [by split; [|left]|]. split; [intros ? [= <-]; by right; right|by left].
Qed.

(** ** Properties: transactions *)

Context {X : Type} (committed : D -> X) {T : Transactional B committed}.

Definition base_committed (s : Layers (D := D)) : X := committed s.2.2.

#[local] Instance layers_reads : Reads layers (same_of base_committed).
Proof. apply (delayed_reads _ (on_snd (same_of committed))), cached_reads; [typeclasses eauto|apply tr_reads]. Qed.

Lemma layers_write_keeps data : keeps (same_of base_committed) (write data).
Proof. by intros [l [c d]]. Qed.
Lemma layers_begin_keeps : keeps (same_of base_committed) beginTransaction.
Proof. intros [l [c d]]. pose proof (tr_begin d) as H. simpl. unfold lift. simpl. by destruct (beginTransaction d). Qed.
Lemma layers_rollback_keeps : keeps (same_of base_committed) rollback.
Proof.
  intros [l [c d]]. pose proof (tr_rollback d) as H. simpl. unfold ds_rollback, db_bind, ds_clear, lift. simpl.
  unfold lift. simpl. by destruct (rollback d).
Qed.
#[local] Hint Resolve layers_write_keeps layers_begin_keeps layers_rollback_keeps : keeps.

Lemma auto_rollback_keeps : keeps (same_of base_committed) auto_rollback.
Proof. unfold auto_rollback. apply keeps_catch; [typeclasses eauto|keeps|]. intros e m. destruct (is_std_exception e); intros [= <-]; keeps. Qed.
#[local] Hint Resolve auto_rollback_keeps : keeps.

Lemma run_check_keeps obs expected inData check : keeps (same_of base_committed) (run_check now qcxFilter_ obs expected inData check).
Proof.
  unfold run_check. apply keeps_catch; [typeclasses eauto|unfold try_check; keeps|]. intros e m H.
  enough (m = db_ret tt) as -> by keeps. unfold check_failed in H. repeat case_match; congruence.
Qed.
#[local] Hint Resolve run_check_keeps : keeps.

(** What a commit that succeeds has done to the database [d]: one write of the
    values that waited, when there were any, and one commit. *)
Definition saved_and_committed (saved : list (kvData PT)) (d d' : D) : Prop :=
  exists d1, (saved = [] /\ d1 = d \/ write saved d = (inl tt, d1)) /\ commit d1 = (inl tt, d').

Lemma layers_commit (s : Layers (D := D)) : let '(r, s') := commit s in
  match r with
  | inl _ => saved_and_committed s.1 s.2.2 s'.2.2
  | inr _ => base_committed s' = base_committed s
  end.
Proof.
  destruct s as [saved [c d]]. simpl. unfold ds_commit, base_committed, saved_and_committed. cbn [fst snd].
  destruct saved as [|x saved].
  - unfold lift. simpl. unfold lift. simpl. destruct (commit d) as [[[]|e] d'] eqn:E.
    + exists d. split; [by left|done].
    + by apply (tr_commit_fails d e d').
  - unfold db_bind, lift, ds_clear. simpl. unfold lift. simpl.
    pose proof (tr_write (x :: saved) d) as Hw. destruct (write (x :: saved) d) as [[[]|e] d1] eqn:Ew; [|done].
    simpl in *. destruct (commit d1) as [[[]|e] d'] eqn:E.
    + exists d1. split; [by right|done].
    + rewrite <- Hw. by apply (tr_commit_fails d1 e d').
Qed.

Lemma txn_keeps {S A} {DA : DatabaseAccess PT S} (R : relation S) {P : PreOrder R} (body : DbM S (A * bool)) :
  keeps R beginTransaction -> keeps R rollback -> keeps R body -> keeps R (AutoRollbackTransaction body).
Proof.
  intros Hb Hr Hm s. unfold AutoRollbackTransaction.
  assert (Ha : keeps R auto_rollback).
  { unfold auto_rollback. apply keeps_catch; [done..|]. intros e m. destruct (is_std_exception e); intros [= <-]; keeps. }
  specialize (Hb s). destruct (beginTransaction s) as [[u|e] s1]; cbn [snd] in Hb; [|done].
  specialize (Hm s1). destruct (body s1) as [[[a []]|e] s2]; cbn [snd] in Hm |- *; [by etrans| |].
  - etrans; [exact Hb|]. etrans; [exact Hm|]. apply (keeps_bind R auto_rollback (fun _ => db_ret a)); keeps.
  - etrans; [exact Hb|]. etrans; [exact Hm|]. apply (keeps_bind R auto_rollback (fun _ => db_throw e)); keeps.
Qed.

(** An attempt that saves: in the transaction that it begins the observation is
    there, its checks are found, its values are read and no operator has touched one
    of them; the flags are reset unless some checks are filtered out, every check is
    run, and the observation is completed with the values that then wait to be
    saved. Those values are saved by one write, and committed. *)
Definition saving_attempt (obs : Observation PT) (st : CacheStatics) (d : D) (ret : KvalobsData PT) (d' : D) : Prop :=
  exists (s1 s2 s3 s4 s5 s6 s7 s8 : Layers (D := D)) checks expected inData data,
    beginTransaction ([], (Cache_new st obs, d)) = (inl tt, s1) /\ pin obs s1 = (inl true, s2) /\
    getChecks obs s2 = (inl checks, s3) /\ getParametersToCheck obs s3 = (inl expected, s4) /\
    fetch_data obs expected s4 = (inl (inData, data), s5) /\ Forall (fun x => hqc_touched x = false) data /\
    (if bool_decide (qcxFilter_ = []) then write (resetCFailed (resetObservationDataFlags data)) else db_ret tt) s5 = (inl tt, s6) /\
    db_for checks (run_check now qcxFilter_ obs expected inData) s6 = (inl tt, s7) /\
    complete obs (uncommitted s7) [] s7 = (inl ret, s8) /\ uncommitted s8 = uncommitted s7 /\
    base_committed s8 = committed d /\ saved_and_committed (uncommitted s7) s8.2.2 d'.

Lemma db_bind_inl {S A C} (m : DbM S A) (g : A -> DbM S C) s c s' :
  db_bind m g s = (inl c, s') -> exists a s1, m s = (inl a, s1) /\ g a s1 = (inl c, s').
Proof. unfold db_bind. destruct (m s) as [[a|e] s1]; [|done]. eauto. Qed.

Lemma complete_uncommitted obs dl (s : Layers (D := D)) : uncommitted (complete obs dl [] s).2 = uncommitted s.
Proof. destruct s as [l [c d]]. cbn. unfold lift. cbn. unfold lift. cbn. by destruct (complete obs dl [] d). Qed.

(** A body that ends with a commit. *)
Lemma check_body_saves obs (s : Layers (D := D)) ret s' : check_body now qcxFilter_ obs s = (inl (ret, true), s') ->
  exists s2 s3 s4 s5 s6 s7 s8 checks expected inData data kd,
    pin obs s = (inl true, s2) /\ getChecks obs s2 = (inl checks, s3) /\ getParametersToCheck obs s3 = (inl expected, s4) /\
    fetch_data obs expected s4 = (inl (inData, data), s5) /\ haveAnyHqcCorrectedElements data = false /\
    (if bool_decide (qcxFilter_ = []) then write (resetCFailed (resetObservationDataFlags data)) else db_ret tt) s5 = (inl tt, s6) /\
    db_for checks (run_check now qcxFilter_ obs expected inData) s6 = (inl tt, s7) /\
    complete obs (uncommitted s7) [] s7 = (inl kd, s8) /\ commit s8 = (inl tt, s') /\ ret = Some kd.
Proof.
  unfold check_body. intros E. apply db_bind_inl in E as ([] & s2 & E1 & E); [|done]. cbn [negb] in E.
  apply db_bind_inl in E as (checks & s3 & E2 & E). apply db_bind_inl in E as (expected & s4 & E3 & E).
  apply db_bind_inl in E as ([inData data] & s5 & E4 & E). destruct (haveAnyHqcCorrectedElements data) eqn:Eh.
  { apply db_bind_inl in E as (? & ? & _ & [=]). }
  apply db_bind_inl in E as ([] & s6 & E5 & E). apply db_bind_inl in E as ([] & s7 & E6 & E).
  apply db_bind_inl in E as (dl & s7' & [= <- <-] & E). apply db_bind_inl in E as (kd & s8 & E7 & E).
  apply db_bind_inl in E as ([] & s9 & E8 & [= <- <-]).
  by exists s2, s3, s4, s5, s6, s7, s8, checks, expected, inData, data, kd.
Qed.

Lemma fetch_data_keeps obs expected : keeps (same_of base_committed) (fetch_data obs expected).
Proof. unfold fetch_data. keeps. Qed.
#[local] Hint Resolve fetch_data_keeps : keeps.

(** Any other body commits nothing. *)
Lemma check_body_other obs (s : Layers (D := D)) : match check_body now qcxFilter_ obs s with
  | (inl (_, true), _) => True
  | (_, s') => base_committed s' = base_committed s
  end.
Proof.
  pose (keeping := fun (s : Layers (D := D)) (rs : res (option (KvalobsData PT) * bool) * Layers) =>
    match rs with (inl (_, true), _) => True | (_, s') => base_committed s' = base_committed s end).
  assert (Hbind : forall A (m : DbM Layers A) g s, keeps (same_of base_committed) m ->
    (forall a s', keeping s' (g a s')) -> keeping s (db_bind m g s)).
  { intros A m g s0 Hm Hg. unfold db_bind. specialize (Hm s0). destruct (m s0) as [[a|e] s'] eqn:E; [|done].
    specialize (Hg a s'). unfold keeping in *. simpl in Hm. by rewrite <- Hm. }
  change (keeping s (check_body now qcxFilter_ obs s)). unfold check_body.
  apply Hbind; [keeps|]. intros [] s1; [|done]. cbn [negb]. apply Hbind; [keeps|]. intros checks s2.
  apply Hbind; [keeps|]. intros expected s3. apply Hbind; [keeps|]. intros [inData data] s4.
  destruct (haveAnyHqcCorrectedElements data); [apply Hbind; [keeps|]; by intros kd s5|].
  apply Hbind; [keeps|]. intros _ s5. apply Hbind; [keeps|]. intros _ s6. apply Hbind; [done|]. intros dl s7.
  apply Hbind; [keeps|]. intros kd s8. pose proof (layers_commit s8) as H. unfold db_bind, keeping.
  by destruct (commit s8) as [[[]|e] s9].
Qed.

(** An attempt that fails, finds no data or finds the hand of an operator leaves
    what is committed as it was; any other one saves. *)
Definition attempt_ends (obs : Observation PT) (st : CacheStatics) (d : D) (r : res (option (KvalobsData PT))) (d' : D) : Prop :=
  committed d' = committed d \/ exists ret, r = inl (Some ret) /\ saving_attempt obs st d ret d'.

Lemma checkObservation_ends obs st d :
  let '(r, (st', d')) := checkObservation now qcxFilter_ obs (st, d) in attempt_ends obs st d r d'.
Proof.
  unfold checkObservation, AutoRollbackTransaction. cbn [fst snd].
  set (s0 := ([], (Cache_new st obs, d)) : Layers).
  pose proof (layers_begin_keeps s0) as H0. destruct (beginTransaction s0) as [[[]|e] s1] eqn:E0; cbn [snd] in H0;
    [|destruct s1 as [l [c d1]]; by left].
  pose proof (check_body_other obs s1) as H1. destruct (check_body now qcxFilter_ obs s1) as [[[ret []]|e] s2] eqn:Eb.
  - destruct s2 as [l [c d2]].
    apply check_body_saves in Eb as (s2 & s3 & s4 & s5 & s6 & s7 & s8 & checks & expected & inData & data & kd
      & E1 & E2 & E3 & E4 & Eh & E5 & E6 & E7 & E8 & ->).
    right. exists kd. split; [done|]. exists s1, s2, s3, s4, s5, s6, s7, s8, checks, expected, inData, data.
    assert (Hu : uncommitted s8 = uncommitted s7) by (pose proof (complete_uncommitted obs (uncommitted s7) s7) as H; by rewrite E7 in H).
    assert (Hk : forall A (m : DbM Layers A) s a s', keeps (same_of base_committed) m -> m s = (inl a, s') -> base_committed s' = base_committed s)
      by (intros A m s a s' Hm Em; specialize (Hm s); by rewrite Em in Hm).
    assert (Hb : base_committed s8 = base_committed s0).
    { transitivity (base_committed s7); [eapply Hk, E7; keeps|]. transitivity (base_committed s6); [eapply Hk, E6; keeps|].
      transitivity (base_committed s5); [eapply Hk, E5; keeps|]. transitivity (base_committed s4); [eapply Hk, E4; keeps|].
      transitivity (base_committed s3); [eapply Hk, E3; keeps|]. transitivity (base_committed s2); [eapply Hk, E2; keeps|].
      transitivity (base_committed s1); [eapply Hk, E1; keeps|exact H0]. }
    pose proof (layers_commit s8) as Hc. rewrite E8 in Hc. split_and!; try done.
    + apply Forall_forall. intros x Hx. unfold haveAnyHqcCorrectedElements in Eh. apply not_true_iff_false. intros Hx'.
      rewrite <- not_true_iff_false in Eh. apply Eh, existsb_exists. exists x. split; [by apply list_elem_of_In|done].
    + unfold uncommitted in *. rewrite <- Hu. exact Hc.
  - assert (Hk : keeps (same_of base_committed) (auto_rollback ;; db_ret ret)%db) by keeps.
    specialize (Hk s2). destruct ((auto_rollback ;; db_ret ret)%db s2) as [r s3]. cbn [snd] in Hk.
    destruct s3 as [l [c d3]]. left. change (base_committed (l, (c, d3)) = base_committed s0). congruence.
  - assert (Hk : keeps (same_of base_committed) (auto_rollback ;; db_throw (A := option (KvalobsData PT)) e)%db) by keeps.
    specialize (Hk s2). destruct ((auto_rollback ;; db_throw e)%db s2) as [r s3]. cbn [snd] in Hk.
    destruct s3 as [l [c d3]]. left. change (base_committed (l, (c, d3)) = base_committed s0). congruence.
Qed.

Lemma failed_attempt_keeps obs : forall n s,
  (forall i, (i < n)%nat -> fails_with transient (attempt (checkObservation now qcxFilter_ obs) i s).1) ->
  committed (after (checkObservation now qcxFilter_ obs) n s).2 = committed s.2.
Proof.
  induction n as [|n IH]; intros [st d] Hf; [done|]. cbn [after].
  destruct (Hf O ltac:(lia)) as (e & E & _). unfold attempt in E. cbn [after] in E.
  rewrite IH by (intros i Hi; exact (Hf (S i) ltac:(lia))).
  pose proof (checkObservation_ends obs st d) as H. destruct (checkObservation now qcxFilter_ obs (st, d)) as [r [st' d']].
  cbn in E |- *. subst r. destruct H as [H|(? & ? & _)]; [exact H|done].
Qed.

(** C11: The check of an observation is saved at most once and completely, however
    many attempts it takes. Nothing is committed by the call, or the call succeeded
    and its last attempt saved: every attempt before it failed with a transient
    error and committed nothing; the last one read the values of the observation, in
    its transaction, and no operator had touched one of them; and it saved what its
    checks left, by one write and one commit. *)
Theorem newObservation_atomic (obs : Observation PT) (st st' : CacheStatics) (d d' : D)
    (r : res (option (KvalobsData PT))) :
  newObservation now qcxFilter_ obs (st, d) = (r, (st', d')) ->
  committed d' = committed d \/
  exists n ret, r = inl (Some ret) /\
    (forall i, (i < n)%nat -> fails_with transient (attempt (checkObservation now qcxFilter_ obs) i (st, d)).1) /\
    attempt (checkObservation now qcxFilter_ obs) n (st, d) = (r, (st', d')) /\
    let '(st1, d1) := after (checkObservation now qcxFilter_ obs) n (st, d) in
    committed d1 = committed d /\ saving_attempt obs st1 d1 ret d'.
Proof.
  unfold newObservation. destruct (shouldRunAnyChecks obs); cbn [negb]; intros E.
  - destruct (long_retries_concludes (checkObservation now qcxFilter_ obs) 3 (st, d)) as (n & _ & Hf & Hr).
    pose proof (failed_attempt_keeps obs n (st, d) Hf) as Hk. rewrite E in Hr.
    destruct Hr as [Hr|(Hr & Hn & Hs)].
    + pose proof Hr as Hr'. unfold attempt in Hr. destruct (after _ n (st, d)) as [st1 d1] eqn:Ea.
      pose proof (checkObservation_ends obs st1 d1) as H. rewrite <- Hr in H. cbn [snd] in Hk.
      destruct H as [H|(ret & -> & H)]; [left; congruence|]. right. exists n, ret. split; [done|]. split; [done|]. split; [done|].
      rewrite Ea. by split.
    + left. enough (H : committed (after (checkObservation now qcxFilter_ obs) (S n) (st, d)).2 = committed (st, d).2)
        by (destruct (after _ (S n) _) as [st1 d1] in Hr, H; by injection Hr as _ _ ->).
      apply failed_attempt_keeps. intros i Hi. destruct (decide (i = n)) as [->|]; [|apply Hf; lia].
      exists SQLSerializeError. split; [apply Hs; lia|by left].
  - left. assert (Hk : keeps (on_snd (L := CacheStatics) (same_of committed))
      (lift (AutoRollbackTransaction (ret <- complete obs [] [] ;; db_ret (Some ret, false))%db))).
    { apply keeps_lift, txn_keeps; keeps. }
    specialize (Hk (st, d)). by rewrite E in Hk.
Qed.

End run_props.

(** ** What no run of the quality control can break

    A relation that every operation of the database keeps, writes and commits
    included, is kept by running the checks of an observation, whatever the scripts
    do. *)

Class Safe {PT D} (B : DatabaseAccess PT D) (R : relation D) := {
  sf_reads :: Reads B R;
  sf_begin : keeps R beginTransaction;
  sf_rollback : keeps R rollback;
  sf_commit : keeps R commit;
  sf_write data : keeps R (write data)
}.
#[export] Hint Resolve sf_begin sf_rollback sf_commit sf_write : keeps.
#[export] Hint Extern 2 (Safe _ _) => typeclasses eauto : keeps.

(** A predicate that stays true. *)
Definition stays {S} (I : S -> Prop) : relation S := fun s s' => I s -> I s'.
#[export] Instance stays_preorder {S} (I : S -> Prop) : PreOrder (stays I).
Proof. split; unfold stays; repeat intro; auto. Qed.

Section safe_props.
  Context {PT : PTime} {PM : PMinutes PT} {TT : PTimeText PT} {PC : PCalendar PT} {BT : BoostText} {BS : BoostSplit}
          {SI : SpiritInt} {BF : BoostFloat} {SD : ShowDouble} {PE : Perl} {SP : StationParamSet}.
  Context (now : ptime PT) {D : Type} (B : DatabaseAccess PT D) (qcxFilter_ : list string).
  Context (R : relation D) {P : PreOrder R} {SF : Safe B R}.

#[local] Existing Instance layers.

Abbreviation RL := (on_snd (L := SavedData PT) (on_snd (L := Cache PT) R)).

#[local] Instance layers_safe_reads : Reads layers RL.
Proof. apply (delayed_reads _ (on_snd R)), cached_reads; [typeclasses eauto|apply sf_reads]. Qed.

Lemma layers_write_safe data : keeps RL (write data).
Proof. intros [l [c d]]. apply P. Qed.
Lemma layers_begin_safe : keeps RL beginTransaction.
Proof. apply (keeps_lift (on_snd R)), keeps_lift. apply sf_begin. Qed.

Lemma base_lift {A} (m : DbM D A) (l : SavedData PT) : keeps R m -> keeps RL (lift (lift m)).
Proof. intros Hm. by apply (keeps_lift (on_snd R)), keeps_lift. Qed.

Lemma layers_commit_safe : keeps RL commit.
Proof.
  intros [l [c d]]. cbn [commit layers DelayedSaveDatabaseAccess]. unfold ds_commit. cbn [fst].
  destruct l as [|x l].
  - apply (base_lift commit []). apply sf_commit.
  - apply (keeps_bind RL (lift (lift (write (x :: l)))) (fun _ => (lift (lift commit) ;; ds_clear)%db)).
    + apply (base_lift (write (x :: l)) []), sf_write.
    + intros _. apply keeps_bind; [typeclasses eauto|apply (base_lift commit []), sf_commit|].
      intros _ [l' [c' d']]. apply P.
Qed.

Lemma layers_rollback_safe : keeps RL rollback.
Proof.
  apply (keeps_bind RL ds_clear (fun _ => lift (lift rollback))).
  - intros [l' [c' d']]. apply P.
  - intros _. apply (base_lift rollback []), sf_rollback.
Qed.
#[local] Hint Resolve layers_write_safe layers_begin_safe layers_commit_safe layers_rollback_safe : keeps.

Lemma get_uncommitted_safe : keeps RL get_uncommitted.
Proof. intros s. by apply on_snd_preorder, on_snd_preorder. Qed.

Lemma run_check_safe obs expected inData check : keeps RL (run_check now qcxFilter_ obs expected inData check).
Proof.
  unfold run_check. apply keeps_catch; [typeclasses eauto|unfold try_check; keeps|]. intros e m H.
  enough (m = db_ret tt) as -> by keeps. unfold check_failed in H. repeat case_match. all: try congruence. all: injection H as <-; done.
Qed.
#[local] Hint Resolve get_uncommitted_safe run_check_safe : keeps.

Lemma check_body_safe obs : keeps RL (check_body now qcxFilter_ obs).
Proof. unfold check_body, fetch_data. keeps. Qed.

Lemma checkObservation_safe obs : keeps (on_snd (L := CacheStatics) R) (checkObservation now qcxFilter_ obs).
Proof.
  intros [st d]. unfold checkObservation. cbn [fst snd].
  assert (H : RL ([], (Cache_new st obs, d))
    (AutoRollbackTransaction (check_body now qcxFilter_ obs) ([], (Cache_new st obs, d))).2).
  { apply (txn_keeps RL); [apply layers_begin_safe|apply layers_rollback_safe|apply check_body_safe]. }
  destruct (AutoRollbackTransaction (check_body now qcxFilter_ obs) ([], (Cache_new st obs, d))) as [r [l [c d']]].
  exact H.
Qed.

Lemma serialize_tries_safe {S A} (Q : relation S) {PQ : PreOrder Q} (m : DbM S A) : keeps Q m -> forall n, keeps Q (serialize_tries m n).
Proof.
  intros Hm. induction n as [|n IH]; [keeps|]. cbn [serialize_tries]. apply keeps_catch; [done..|].
  intros e m'. case_bool_decide; intros [= <-]. done.
Qed.

Lemma long_retries_safe {S A} (Q : relation S) {PQ : PreOrder Q} (m : DbM S A) : keeps Q m -> forall n, keeps Q (long_retries m n).
Proof.
  intros Hm. assert (Hs : forall next k, keeps Q next -> keeps Q (short_retries m k next)).
  { intros next k Hn. induction k as [|k IH]; [done|]. cbn [short_retries].
    apply keeps_catch; [done|by apply serialize_tries_safe|]. intros e m'. case_bool_decide; intros [= <-]. done. }
  induction n as [|n IH]; [done|]. by apply Hs.
Qed.

Lemma newObservation_safe obs : keeps (on_snd (L := CacheStatics) R) (newObservation now qcxFilter_ obs).
Proof.
  unfold newObservation. destruct (negb (shouldRunAnyChecks obs)).
  - apply keeps_lift, txn_keeps; keeps.
  - apply long_retries_safe; [typeclasses eauto|apply checkObservation_safe].
Qed.

End safe_props.

Section retry_props.
  Context {PT : PTime} {PM : PMinutes PT} {TT : PTimeText PT} {PC : PCalendar PT} {BT : BoostText} {BS : BoostSplit}
          {SI : SpiritInt} {BF : BoostFloat} {SD : ShowDouble} {PE : Perl} {SP : StationParamSet}.
  Context (now : ptime PT) {D : Type} (B : DatabaseAccess PT D) (qcxFilter_ : list string).

(** C25: The loops of [newObservation] end: there is a last attempt, one of the
    first 2305, every attempt before it failed with a serialization error or an
    abort, and the call ends as that attempt did, or with an error of its own
    when it was the last of 256 serialization errors in a row. *)
Theorem newObservation_terminates (obs : Observation PT) (s : CacheStatics * D) :
  shouldRunAnyChecks obs = true ->
  exists n, (n <= 9 * 256)%nat /\
    (forall i, (i < n)%nat -> fails_with transient (attempt (checkObservation now qcxFilter_ obs) i s).1) /\
    (newObservation now qcxFilter_ obs s = attempt (checkObservation now qcxFilter_ obs) n s \/
     (newObservation now qcxFilter_ obs s).1 = inr runtime_error /\ (255 <= n)%nat /\
     forall i, (n - 255 <= i <= n)%nat -> (attempt (checkObservation now qcxFilter_ obs) i s).1 = inr SQLSerializeError).
Proof.
  intros H. unfold newObservation. rewrite H. cbn [negb].
  destruct (long_retries_concludes (checkObservation now qcxFilter_ obs) 3 s) as (n & Hn & Hf & Hr).
  exists n. split; [lia|]. split; [done|]. destruct Hr as [->|(-> & ? & ?)]; [by left|by right].
Qed.

(** C26: Transient failures are survived: when fewer than 256 attempts fail with
    serialization errors or aborts, at most eight of them aborts, the call ends
    as the first attempt that does not. *)
Theorem newObservation_survives (obs : Observation PT) (s : CacheStatics * D) (n : nat) :
  shouldRunAnyChecks obs = true -> (n < 256)%nat ->
  (forall i, (i < n)%nat -> fails_with transient (attempt (checkObservation now qcxFilter_ obs) i s).1) ->
  (aborts (checkObservation now qcxFilter_ obs) n s < 9)%nat ->
  ~ fails_with transient (attempt (checkObservation now qcxFilter_ obs) n s).1 ->
  newObservation now qcxFilter_ obs s = attempt (checkObservation now qcxFilter_ obs) n s.
Proof.
  intros H Hn Hf Ha Hc. unfold newObservation. rewrite H. cbn [negb].
  apply (long_retries_survive (checkObservation now qcxFilter_ obs) 256); [lia|lia|done|done|lia].
Qed.

End retry_props.

Section reset_props.
  Context {PT : PTime}.

Definition reset_flag (old : Z -> Z) (j : Z) : Z :=
  if (j =? f_fagg) || (j =? f_fmis) || (j =? f_fd) || ((j =? f_fpre) && (old f_fpre =? 7)) then old j else 0.

Lemma reset_flags_flag (d : kvData PT) j : 0 <= j < 16 ->
  flag (controlinfo_ (reset_flags d)) j = reset_flag (flag (controlinfo_ d)) j.
Proof.
  intros Hj. unfold reset_flags, reset_flag. cbn [controlinfo_ with_controlinfo with_useinfo].
  pose proof (flag_range (controlinfo_ d)) as Hr.
  destruct (flag (controlinfo_ d) f_fpre =? 7) eqn:E;
    repeat rewrite ci_flag_set by
      (done || (simpl; lia) || apply Hr || (apply ci_legal_wf; repeat apply ci_set_legal; apply ci_new_legal));
    rewrite ci_new_flag; cbv [c_flags_int] in *; rewrite ?(Z.eqb_sym _ j);
    destruct (Z.eqb_spec j 0) as [E0|E0], (Z.eqb_spec j 6) as [E6|E6], (Z.eqb_spec j 12) as [E12|E12],
      (Z.eqb_spec j 13) as [E13|E13]; subst; try done; simpl; lia.
Qed.

(** What is reset before the checks run: all flags are cleared but those of
    aggregation, missing values and the normal observation procedure, which
    stay, and a flag 7 of the weather pre-check; the use flags are made anew and
    everything else about the value stays. Resetting twice changes no flag more. *)
Theorem reset_flags_spec (d : kvData PT) :
  (forall j, 0 <= j < 16 -> flag (controlinfo_ (reset_flags d)) j =
     if (j =? f_fagg) || (j =? f_fmis) || (j =? f_fd) || ((j =? f_fpre) && (flag (controlinfo_ d) f_fpre =? 7))
     then flag (controlinfo_ d) j else 0) /\
  useinfo_ (reset_flags d) = setUseFlags (useinfo_ d) (controlinfo_ (reset_flags d)) /\
  (original_ (reset_flags d), corrected_ (reset_flags d), cfailed_ (reset_flags d)) = (original_ d, corrected_ d, cfailed_ d) /\
  (forall j, 0 <= j < 16 -> flag (controlinfo_ (reset_flags (reset_flags d))) j = flag (controlinfo_ (reset_flags d)) j).
Proof.
  assert (H : forall d j, 0 <= j < 16 -> flag (controlinfo_ (reset_flags d)) j = reset_flag (flag (controlinfo_ d)) j)
    by (intros; by apply reset_flags_flag).
  split; [exact (H d)|]. split; [done|]. split; [done|]. intros j Hj. rewrite !H by done.
  unfold reset_flag at 1. rewrite !H by (done || simpl; lia). unfold reset_flag. simpl.
  destruct (j =? 0), (j =? 6), (j =? 12), (Z.eqb_spec j 13) as [->|]; try done. simpl.
  by destruct (flag (controlinfo_ d) 13 =? 7) eqn:E; rewrite ?E.
Qed.

End reset_props.

(** ** Instances *)

(** A database that fails the first calls of [pin] with the errors of a list, has
    no checks, and counts commits. *)
Definition flaky_database : DatabaseAccess stamp_time (list exn * nat) := {|
  beginTransaction := db_ret tt;
  commit := fun d => (inl tt, (d.1, S d.2));
  rollback := db_ret tt;
  getChecks _ := db_ret [];
  getQcxFlagPosition _ := db_throw runtime_error;
  getParametersToCheck _ := db_ret [];
  getAlgorithm _ := db_throw runtime_error;
  getStationParam _ _ _ _ _ := db_throw runtime_error;
  getStationParamAll _ _ _ := db_ret [];
  getStation _ := db_throw runtime_error;
  getObservation _ := db_ret sample_Observation;
  getModelData _ _ _ := db_ret [];
  getData _ _ _ := db_ret [];
  pin _ := fun d => match d.1 with e :: r => (inr e, (r, d.2)) | [] => (inl true, d) end;
  getTextData _ _ _ := db_ret [];
  complete _ d td := db_ret (KvalobsData_of d td);
  write _ := db_ret tt;
  selectDataForControl _ := db_ret [];
  markProcessDone _ := db_ret tt
|}.

#[export] Instance flaky_transactional : Transactional flaky_database snd.
Proof.
  split; [split| | | |]; intros; try (apply keeps_ret; typeclasses eauto); try (apply keeps_throw; typeclasses eauto).
  - intros [[|e l] n]; done.
  - done.
Qed.

Definition int_float : BoostFloat := {| lexical_cast_float s := None |}.

Definition no_statics : CacheStatics := {| qcxFlagPositions_ := ∅; algorithms_ := ∅ |}.

(** A run of the sample observation on that database. *)
Definition flaky_run : DbM (CacheStatics * (list exn * nat)) (option (KvalobsData stamp_time)) :=
  newObservation (PT := stamp_time) (BT := boost_text) (BS := boost_split) (SI := spirit_int) (BF := int_float) (SD := int_show)
    (PE := one_pair_perl "" (Dbl.of_Z 0)) (B := flaky_database) (At 0) [] sample_Observation.

(** The third attempt saves. *)
Lemma newObservation_atomic_witness :
  let r := flaky_run (no_statics, ([SQLAborted; SQLSerializeError], 0%nat)) in
  r.1 = inl (Some KvalobsData_new) /\ r.2.2.2 = 1%nat /\
  exists st1 d1 ret, d1.2 = 0%nat /\
    saving_attempt (BT := boost_text) (BS := boost_split) (SI := spirit_int) (BF := int_float) (SD := int_show)
      (PE := one_pair_perl "" (Dbl.of_Z 0)) (At 0) flaky_database [] snd sample_Observation st1 d1 ret r.2.2.
Proof.
  cbv zeta. split; [by vm_compute|]. split; [by vm_compute|].
  destruct (newObservation_atomic (PT := stamp_time) (BT := boost_text) (BS := boost_split) (SI := spirit_int) (BF := int_float)
    (SD := int_show) (PE := one_pair_perl "" (Dbl.of_Z 0)) (At 0) flaky_database [] snd sample_Observation
    no_statics (flaky_run (no_statics, ([SQLAborted; SQLSerializeError], 0%nat))).2.1
    ([SQLAborted; SQLSerializeError], 0%nat)
    (flaky_run (no_statics, ([SQLAborted; SQLSerializeError], 0%nat))).2.2
    (flaky_run (no_statics, ([SQLAborted; SQLSerializeError], 0%nat))).1) as [H|(n & ret & _ & _ & _ & H)].
  - fold flaky_run. by destruct (flaky_run _) as [? []].
  - by vm_compute in H.
  - destruct (after _ _ _) as [st1 d1]. destruct H as [H1 H2]. exists st1, d1, ret. split; [exact H1|exact H2].
Defined.

Lemma newObservation_terminates_witness :
  exists n, (n <= 9 * 256)%nat /\
    (flaky_run (no_statics, (repeat SQLSerializeError 256, 0%nat))).1 = inr runtime_error /\ (255 <= n)%nat.
Proof.
  destruct (newObservation_terminates (PT := stamp_time) (BT := boost_text) (BS := boost_split) (SI := spirit_int) (BF := int_float)
    (SD := int_show) (PE := one_pair_perl "" (Dbl.of_Z 0)) (At 0) flaky_database [] sample_Observation
    (no_statics, (repeat SQLSerializeError 256, 0%nat)) eq_refl) as (n & Hn & Hf & [H|(H & Hn' & _)]).
  - exists 255%nat. split; [lia|]. split; [by vm_compute|lia].
  - exists n. split; [exact Hn|]. split; [exact H|exact Hn'].
Defined.

Lemma newObservation_survives_witness :
  (flaky_run (no_statics, ([SQLAborted; SQLSerializeError], 0%nat))).2.2 = ([], 1%nat).
Proof.
  unfold flaky_run.
  rewrite (newObservation_survives (PT := stamp_time) (BT := boost_text) (BS := boost_split) (SI := spirit_int) (BF := int_float)
    (SD := int_show) (PE := one_pair_perl "" (Dbl.of_Z 0)) (At 0) flaky_database [] sample_Observation
    (no_statics, ([SQLAborted; SQLSerializeError], 0%nat)) 2).
  - by vm_compute.
  - done.
  - lia.
  - intros [|[|i]] Hi; [exists SQLAborted; split; [by vm_compute|by right]
                       |exists SQLSerializeError; split; [by vm_compute|by left]|lia].
  - vm_compute. lia.
  - intros (e & H & _). vm_compute in H. discriminate.
Defined.
