(* ===== verification/KvalobsDb.v ===== *)
(** * KvalobsDatabaseAccess: the database of the quality control
    (src/src/kvQabased/src/db/KvalobsDatabaseAccess.cpp)

    The statements of the class as functions on the tables of [Database.v] and on
    tables that it only reads. A transaction works on a copy of the tables, which
    replaces the committed ones when it commits. Any statement may fail: [fault]
    says which of them do and with what, and stands for the server and the
    connection. The history of the values, a table that only the trigger backup_data of
    kvalobs_schema.sql writes, is kept here as it is the one other thing that an
    update changes; its columns for the version and the time of the change, which the
    server fills in, are left out: the order of the list is that of the versions. An
    [ORDER BY] is a stable sort, where SQL leaves the order of equal rows open; row
    locks and log output are left out. *)

From S2P Require Import Prelude Orders OrderedSet PTime TimeText DataFlag ControlInfo UseInfo KvData KvDataOps Sql Database Observation Rows SortedData KvalobsData Scanning Signature ResultFilter DatabaseAccess DelayedSave CachedAccess DataStore CheckScript CheckRunner.

#[local] Open Scope Z_scope.

(** [(date - date(year, 1, 1)).days() + 1], and the server's [date_trunc('hour', t)]. *)
Class PDbTime (PT : PTime) := {
  pt_day_of_year : ptime PT -> Z;
  pt_trunc_hour : ptime PT -> ptime PT
}.

(** A row of station_param. *)
Record StationParamRow {PT : PTime} := {
  spr_stationid : Z; spr_paramid : Z; spr_level : Z; spr_sensor : Z; spr_fromday : Z; spr_today : Z;
  spr_qcx : string; spr_metadata : string; spr_fromtime : ptime PT
}.
Arguments StationParamRow : clear implicits.

(** The tables that are only read. *)
Record ConfigTables {PT : PTime} := {
  checks : list (kvChecks PT);
  qcx_info : list (string * Z);
  param : list (Z * string);
  obs_pgm : list Z;
  algorithms : list kvAlgorithms;
  station_param : list (StationParamRow PT);
  station : list (kvStation PT);
  model : list (Z * string);
  model_data : list (kvModelData PT)
}.
Arguments ConfigTables : clear implicits.

(** [ORDER BY] of several expressions. *)
Fixpoint order_lt {A} (ls : list (A -> A -> bool)) (a b : A) : bool :=
  match ls with
  | [] => false
  | lt :: ls => if lt a b then true else if lt b a then false else order_lt ls a b
  end.

Definition order_by {A} (ls : list (A -> A -> bool)) (l : list A) : list A := list_sort (order_lt ls) l.

(** The part of a text before its last hyphen, or all of it. *)
Definition medium_qcx (qcx : string) : string :=
  match find_last_of (to_bytes "-") (to_bytes qcx) with
  | Some i => of_bytes (take i (to_bytes qcx))
  | None => qcx
  end.

(** A text between quotation marks in a statement, which is not escaped. *)
Definition literal_text (s : string) : res string :=
  match literal_value false ([squote] ++ to_bytes s ++ [squote]) with
  | Some v => mret (of_bytes v)
  | None => throw SQLOther
  end.

Section KvalobsDb.
  Context {PT : PTime} {PC : PCalendar PT} {PM : PMinutes PT} {DT : DbText PT} {PD : PDbTime PT}
          {SP : StationParamSet}.
  Context (cfg : ConfigTables PT) (fault : nat -> option exn) (now : ptime PT) (qaId : Z) (modelDataName_ : string).

(** A row of data_history: the columns of the observation and those of the value. *)
Record HistoryRow := { h_obs : @ObsRow PT; h_data : DataRow }.

Record KvDb := {
  kd_committed : @tables PT;
  kd_work : @tables PT;
  kd_history : list HistoryRow;
  kd_work_history : list HistoryRow;
  transactionInProgress_ : bool;
  fetchedData_ : list (kvData PT * Z);
  fetchedTextData_ : list (kvTextData PT * Z);
  kd_statements : nat
}.

Definition set_kd (c w : @tables PT) (hc hw : list HistoryRow) (p : bool) (s : KvDb) : KvDb :=
  {| kd_committed := c; kd_work := w; kd_history := hc; kd_work_history := hw; transactionInProgress_ := p;
     fetchedData_ := fetchedData_ s; fetchedTextData_ := fetchedTextData_ s; kd_statements := kd_statements s |}.
Definition set_fetched (f : list (kvData PT * Z)) (ft : list (kvTextData PT * Z)) (s : KvDb) : KvDb :=
  {| kd_committed := kd_committed s; kd_work := kd_work s; kd_history := kd_history s; kd_work_history := kd_work_history s;
     transactionInProgress_ := transactionInProgress_ s;
     fetchedData_ := f; fetchedTextData_ := ft; kd_statements := kd_statements s |}.
Definition next_statement (s : KvDb) : KvDb :=
  {| kd_committed := kd_committed s; kd_work := kd_work s; kd_history := kd_history s; kd_work_history := kd_work_history s;
     transactionInProgress_ := transactionInProgress_ s;
     fetchedData_ := fetchedData_ s; fetchedTextData_ := fetchedTextData_ s; kd_statements := S (kd_statements s) |}.

Abbreviation KM := (DbM KvDb).

(** A statement sent to the server. *)
Definition statement {A} (f : KvDb -> A * KvDb) : KM A := fun s =>
  match fault (kd_statements s) with
  | Some e => (inr e, next_statement s)
  | None => let '(a, s) := f s in (inl a, next_statement s)
  end.

(** ** [TransactionEnforcingDatabaseConnection] *)

(** What is committed, before or after a transaction. *)
Definition begun (p : bool) (s : KvDb) : KvDb := set_kd (kd_committed s) (kd_committed s) (kd_history s) (kd_history s) p s.

Definition connection_beginTransaction : KM unit :=
  statement (fun s => (tt, if transactionInProgress_ s then s else begun true s)).

Definition connection_commit : KM unit :=
  statement (fun s => (tt, if transactionInProgress_ s then set_kd (kd_work s) (kd_work s) (kd_work_history s) (kd_work_history s) false s else s)).

Definition connection_rollback : KM unit := fun s =>
  if transactionInProgress_ s then statement (fun s => (tt, begun false s)) s
  else (inl tt, s).

(** [execQuery] and [exec], with what the statement computes or does, and the rows that
    its triggers add to the history. *)
Definition execQuery {A} (q : @tables PT -> A) : KM A := fun s =>
  if transactionInProgress_ s then statement (fun s => (q (kd_work s), s)) s else (inr runtime_error, s).

Definition execUpdate {A} (u : @tables PT -> A * @tables PT) (backup : @tables PT -> list HistoryRow) : KM A := fun s =>
  if transactionInProgress_ s then
    statement (fun s => let '(a, w) := u (kd_work s) in
                        (a, set_kd (kd_committed s) w (kd_history s) (kd_work_history s ++ backup (kd_work s)) true s)) s
  else (inr runtime_error, s).

Local Open Scope db_scope.

(** ** Transactions *)

Definition kv_beginTransaction : KM unit :=
  connection_beginTransaction ;; fun s => (inl tt, set_fetched [] (fetchedTextData_ s) s).

(** ** Reading *)

(** A time in a statement, compared with a column. *)
Definition at_most (t u : ptime PT) : bool := negb (ptime_lt u t).

Definition kv_getChecks (obs : Observation PT) : KM (list (kvChecks PT)) :=
  rows <- execQuery (fun _ =>
    order_by [fun a b => ck_stationid a <? ck_stationid b; fun a b => ptime_lt (ck_fromtime a) (ck_fromtime b)]
      (List.filter (fun c => ((ck_stationid c =? 0) || (ck_stationid c =? o_stationid obs)) &&
                             at_most (ck_fromtime c) (db_time (o_obstime obs))) (checks cfg))) ;;
  db_ret (snd <$> foldl (fun m check => smap_set (ck_qcx check) check m) [] rows).

Definition kv_getQcxFlagPosition (qcx : string) : KM Z :=
  name <- db_res (literal_text (medium_qcx qcx)) ;;
  result <- execQuery (fun _ => List.filter (fun r => bool_decide (r.1 = name)) (qcx_info cfg)) ;;
  match result with
  | row :: _ => db_ret row.2
  | [] => db_throw runtime_error
  end.

Definition paramids (name : string) : list Z :=
  fst <$> List.filter (fun p : Z * string => bool_decide (p.2 = name)) (param cfg).

Definition kv_getParametersToCheck (obs : Observation PT) : KM (list string) :=
  expected <- execQuery (fun _ => List.filter (fun st => st =? o_stationid obs) (obs_pgm cfg)) ;;
  match expected with
  | [] => db_ret []
  | _ =>
      names <- execQuery (fun t =>
        snd <$> List.filter (fun p : Z * string =>
          existsb (fun d => (d_observationid d =? o_id obs) && (d_paramid d =? p.1)) (obsdata t)) (param cfg)) ;;
      db_ret (fst <$> foldl (fun m name => smap_set name tt m) [] names)
  end.

Definition kv_getAlgorithm (algorithmName : string) : KM kvAlgorithms :=
  name <- db_res (literal_text algorithmName) ;;
  result <- execQuery (fun _ => List.filter (fun a => bool_decide (al_checkname a = name)) (algorithms cfg)) ;;
  match result with
  | row :: _ => db_ret row
  | [] => db_throw runtime_error
  end.

(** [paramid = (SELECT paramid FROM param WHERE name=...)]: no row is NULL, which
    equals nothing, and several rows are an error. *)
Definition scalar_paramid (name : string) : res (option Z) :=
  match paramids name with
  | [] => mret None
  | [p] => mret (Some p)
  | _ => throw SQLOther
  end.

(** The condition that both queries of station_param share. *)
Definition station_param_rows (si : kvStationInfo PT) (paramid : option Z) (qcx : string) : list (StationParamRow PT) :=
  let dayNumber := pt_day_of_year (si_obstime si) in
  List.filter (fun r =>
    ((spr_stationid r =? 0) || (spr_stationid r =? si_stationid si)) &&
    bool_decide (paramid = Some (spr_paramid r)) &&
    (spr_fromday r <=? dayNumber) && (dayNumber <=? spr_today r) &&
    bool_decide (spr_qcx r = qcx) && at_most (spr_fromtime r) (db_time (si_obstime si))) (station_param cfg).

Definition kv_getStationParam (si : kvStationInfo PT) (parameter : string) (sensor level : Z) (qcx : string)
    : KM string :=
  p <- db_res (literal_text parameter) ;;
  q <- db_res (literal_text qcx) ;;
  p <- db_res (scalar_paramid p) ;;
  result <- execQuery (fun _ =>
    order_by [fun a b => spr_stationid b <? spr_stationid a; fun a b => ptime_lt (spr_fromtime b) (spr_fromtime a)]
      (List.filter (fun r => (spr_level r =? level) && (spr_sensor r =? sensor)) (station_param_rows si p q))) ;;
  match result with
  | row :: _ => db_ret (spr_metadata row)
  | [] => db_throw runtime_error
  end.

Definition kv_getStationParamAll (si : kvStationInfo PT) (parameter qcx : string) : KM (list StationParam) :=
  p <- db_res (literal_text parameter) ;;
  q <- db_res (literal_text qcx) ;;
  p <- db_res (scalar_paramid p) ;;
  rows <- execQuery (fun _ =>
    order_by [fun a b => spr_stationid a <? spr_stationid b; fun a b => ptime_lt (spr_fromtime a) (spr_fromtime b)]
      (station_param_rows si p q)) ;;
  let myRes := foldl (fun s r => insertOrReplace
    {| sp_stationid := si_stationid si; sp_paramid := parameter; sp_level := spr_level r; sp_sensor := spr_sensor r;
       sp_qcx := qcx; sp_metadata := spr_metadata r |} s) sp_empty rows in
  match sp_elements myRes with
  | [] => db_throw runtime_error
  | l => db_ret l
  end.

(** A row of observations. *)
Definition observation_of_row (o : ObsRow) : Observation PT :=
  {| o_id := o_observationid o; o_stationid := Database.o_stationid o; o_type := o_typeid o;
     o_obstime := Database.o_obstime o; o_tbtime := Database.o_tbtime o |}.

Definition kv_getObservation (si : kvStationInfo PT) : KM (Observation PT) :=
  result <- execQuery (select_observations (obs_match (si_stationid si) (si_typeid si) (db_time (si_obstime si)))) ;;
  match result with
  | row :: _ => db_ret (observation_of_row row)
  | [] => db_throw runtime_error
  end.

Definition kv_getStation (stationid : Z) : KM (kvStation PT) :=
  result <- execQuery (fun _ =>
    order_by [fun a b => ptime_lt (st_fromtime b) (st_fromtime a)]
      (List.filter (fun r => st_stationid r =? stationid) (station cfg))) ;;
  match result with
  | row :: _ => db_ret row
  | [] => db_throw runtime_error
  end.

(** The rows of a window of time: [BETWEEN] the offset and the time itself. *)
Definition in_window (obstime : ptime PT) (minuteOffset : Z) (u : ptime PT) : bool :=
  let t := pt_add_minutes obstime minuteOffset in
  if bool_decide (t = obstime) then bool_decide (u = db_time t)
  else at_most (db_time t) u && at_most u (db_time obstime).

Definition kv_getModelData (si : kvStationInfo PT) (p : parameter) (minutesBackInTime : Z) : KM (list (kvModelData PT)) :=
  name <- db_res (literal_text (name_ p)) ;;
  paramid <- db_res (scalar_paramid name) ;;
  execQuery (fun _ =>
    order_by [fun a b => ptime_lt (md_obstime b) (md_obstime a)]
      (List.filter (fun d =>
        (md_stationid d =? si_stationid si) &&
        (bool_decide (modelDataName_ = EmptyString) ||
         existsb (fun m => (m.1 =? md_modelid d) && bool_decide (m.2 = modelDataName_)) (model cfg)) &&
        in_window (si_obstime si) minutesBackInTime (md_obstime d) &&
        bool_decide (paramid = Some (md_paramid d)) &&
        (if haveLevel p then md_level d =? pa_level p else true)) (model_data cfg))).

(** ** Values *)

Definition lt_fetched (a b : kvData PT * Z) : bool := lt_kvData a.1 b.1.
Definition lt_fetchedText (a b : kvTextData PT * Z) : bool := lt_kvTextData a.1 b.1.

(** [storeFetched]. *)
Definition storeFetched (obsid : Z) (d : kvData PT) : KM unit := fun s =>
  match set_find lt_fetched (d, obsid) (fetchedData_ s) with
  | None => (inl tt, set_fetched (set_insert lt_fetched (d, obsid) (fetchedData_ s)) (fetchedTextData_ s) s)
  | Some (_, oldId) => if obsid =? oldId then (inl tt, s) else (inr runtime_error, s)
  end.

Definition storeFetchedText (obsid : Z) (d : kvTextData PT) : KM unit := fun s =>
  match set_find lt_fetchedText (d, obsid) (fetchedTextData_ s) with
  | None => (inl tt, set_fetched (fetchedData_ s) (set_insert lt_fetchedText (d, obsid) (fetchedTextData_ s)) s)
  | Some (_, oldId) => if obsid =? oldId then (inl tt, s) else (inr runtime_error, s)
  end.

(** The value and the text of a row. *)
Definition kvDataFromRow (r : ObsRow * DataRow) : kvData PT := getKvData r.
Definition kvTextDataFromRow (r : ObsRow * TextRow) : kvTextData PT :=
  kvTextData_set (Database.o_stationid r.1) (Database.o_obstime r.1) (t_original r.2) (t_paramid r.2)
    (Database.o_tbtime r.1) (o_typeid r.1).

(** What the queries of [getData] and [getTextData] ask of an observation. *)
Definition obs_wanted (obs : Observation PT) (p : parameter) (minuteOffset : Z) (o : ObsRow) : bool :=
  (Database.o_stationid o =? o_stationid obs) &&
  (if haveType p then o_typeid o =? pa_typeid p else true) &&
  in_window (o_obstime obs) minuteOffset (Database.o_obstime o).

Definition latest_first {A} (a b : ObsRow * A) : bool := ptime_lt (Database.o_obstime b.1) (Database.o_obstime a.1).

Definition data_query (obs : Observation PT) (p : parameter) (name : string) (minuteOffset : Z) (t : @tables PT)
    : list (ObsRow * DataRow) :=
  order_by [latest_first]
    (List.filter (fun r =>
       bool_decide (d_paramid r.2 ∈ paramids name) &&
       (if haveLevel p then d_level r.2 =? pa_level p else true) &&
       (if haveSensor p then d_sensor r.2 =? pa_sensor p else true))
     (select_data (fun o => obs_wanted obs p minuteOffset o = true) t)).

Definition kv_getData (obs : Observation PT) (p : parameter) (minuteOffset : Z) : KM (list (kvData PT)) :=
  name <- db_res (literal_text (name_ p)) ;;
  rows <- execQuery (data_query obs p name minuteOffset) ;;
  db_for rows (fun r => storeFetched (o_observationid r.1) (kvDataFromRow r)) ;;
  db_ret (result_filter (kvDataFromRow <$> rows) (o_type obs)).

Definition text_query (obs : Observation PT) (p : parameter) (name : string) (minuteOffset : Z) (t : @tables PT)
    : list (ObsRow * TextRow) :=
  order_by [latest_first]
    (List.filter (fun r => bool_decide (t_paramid r.2 ∈ paramids name))
     (select_textdata (fun o => obs_wanted obs p minuteOffset o = true) t)).

Definition kv_getTextData (obs : Observation PT) (p : parameter) (minuteOffset : Z) : KM (list (kvTextData PT)) :=
  name <- db_res (literal_text (name_ p)) ;;
  rows <- execQuery (text_query obs p name minuteOffset) ;;
  db_for rows (fun r => storeFetchedText (o_observationid r.1) (kvTextDataFromRow r)) ;;
  db_ret (result_filter_text (kvTextDataFromRow <$> rows) (o_type obs)).

Definition kv_pin (obs : Observation PT) : KM bool :=
  rows <- execQuery (select_data (fun o => o_observationid o = o_id obs)) ;;
  match rows with
  | [] => db_ret false
  | _ => db_for rows (fun r => storeFetched (o_observationid r.1) (kvDataFromRow r)) ;; db_ret true
  end.

(** [complete_]. *)
Definition complete_with {A} (same : A -> A -> bool) (rows out : list A) : list A :=
  foldl (fun out d => if existsb (same d) out then out else out ++ [d]) out rows.

Definition kv_complete (obs : Observation PT) (d : list (kvData PT)) (td : list (kvTextData PT)) : KM (KvalobsData PT) :=
  rows <- execQuery (select_data (fun o => o_observationid o = o_id obs)) ;;
  let dl := complete_with same_obs_and_parameter (kvDataFromRow <$> rows) d in
  trows <- execQuery (select_textdata (fun o => o_observationid o = o_id obs)) ;;
  let tdl := complete_with kvTextData_same_obs_and_parameter (kvTextDataFromRow <$> trows) td in
  db_ret (KvalobsData_of dl tdl).

(** ** Writing *)

(** UPDATE obsdata SET ... WHERE ..., and the number of rows it changed. *)
Definition update_row (d : kvData PT) (ci ui cf : string) (r : DataRow) : DataRow :=
  {| d_observationid := d_observationid r; d_original := d_original r; d_paramid := d_paramid r;
     d_sensor := d_sensor r; d_level := d_level r; d_corrected := db_number (corrected_ d);
     d_controlinfo := ci; d_useinfo := ui; d_cfailed := cf |}.

Definition updated_row (obsid : Z) (d : kvData PT) (r : DataRow) : bool :=
  (d_observationid r =? obsid) && (d_paramid r =? paramid_ d) && (d_sensor r =? sensor_ d) && (d_level r =? level_ d).

Definition with_obsdata (l : list DataRow) (t : @tables PT) : @tables PT :=
  {| observations := observations t; obsdata := l; obstextdata := obstextdata t; workque := workque t;
     workstatistik := workstatistik t; priority := priority t; observationid_seq := observationid_seq t |}.

Definition update_obsdata (obsid : Z) (d : kvData PT) (ci ui cf : string) (t : @tables PT) : nat * @tables PT :=
  (length (List.filter (updated_row obsid d) (obsdata t)),
   with_obsdata ((fun r => if updated_row obsid d r then update_row d ci ui cf r else r) <$> obsdata t) t).

(** The trigger backup_data, for each row that was updated. By the foreign key of obsdata
    the row has an observation. *)
Definition backup_old_data (t : @tables PT) (r : DataRow) : option HistoryRow :=
  (fun o => {| h_obs := o; h_data := r |}) <$> List.find (fun o => o_observationid o =? d_observationid r) (observations t).

Definition backup_update (obsid : Z) (d : kvData PT) (ci ui cf : string) (t : @tables PT) : list HistoryRow :=
  omap (fun r => backup_old_data t (update_row d ci ui cf r)) (List.filter (updated_row obsid d) (obsdata t)).

(** One pass of the loop of [write]. *)
Definition write_one (d : kvData PT) : KM unit := fun s =>
  match set_find lt_fetched (d, 0) (fetchedData_ s) with
  | None => (inl tt, s)
  | Some (_, obsid) =>
      (ci <- db_res (literal_text (flagstring (controlinfo_ d))) ;;
       ui <- db_res (literal_text (flagstring (useinfo_ d))) ;;
       cf <- db_res (literal_text (cfailed_ d)) ;;
       size <- execUpdate (update_obsdata obsid d ci ui cf) (backup_update obsid d ci ui cf) ;;
       if (size =? 1)%nat then db_ret tt else db_throw runtime_error) s
  end.

Definition kv_write (data : list (kvData PT)) : KM unit := db_for data write_one.

(** ** Selecting observations to check *)

Definition opt_lt (a b : option Z) : bool := (* NULLS LAST *)
  match a, b with
  | Some x, Some y => x <? y
  | Some _, None => true
  | None, _ => false
  end.

(** FROM workque q, observations o WHERE q.observationid=o.observationid AND .... *)
Definition work_join (P : WorkRow -> ObsRow -> bool) (t : @tables PT) : list (WorkRow * ObsRow) :=
  workque t ≫= fun q => (fun o => (q, o)) <$>
    List.filter (fun o => (w_observationid q =? o_observationid o) && P q o) (observations t).

(** The condition and the order that the [qaId] of the process adds. *)
Definition mine (q : WorkRow) : bool :=
  if qaId >? -1 then match w_qa_id q with Some i => i =? qaId | None => true end else true.

Definition by_qa_id (a b : WorkRow * ObsRow) : bool := if qaId >? -1 then opt_lt (w_qa_id a.1) (w_qa_id b.1) else false.
Definition by_priority (a b : WorkRow * ObsRow) : bool := w_priority a.1 <? w_priority b.1.
Definition by_tbtime (a b : WorkRow * ObsRow) : bool := ptime_lt (Database.o_tbtime a.2) (Database.o_tbtime b.2).
Definition by_obstime (a b : WorkRow * ObsRow) : bool := ptime_lt (Database.o_obstime a.2) (Database.o_obstime b.2).

Definition kv_newObservation (rows : list (WorkRow * ObsRow)) : list (Observation PT) :=
  (fun r => observation_of_row r.2) <$> rows.

Definition select_work (P : WorkRow -> ObsRow -> bool) (order : WorkRow * ObsRow -> WorkRow * ObsRow -> bool) (limit : Z)
    : KM (list (Observation PT)) :=
  rows <- execQuery (fun t => take (Z.to_nat limit) (order_by [by_qa_id; by_priority; order] (work_join P t))) ;;
  db_ret (kv_newObservation rows).

Definition selectFailedDataForControl (limit : Z) : KM (list (Observation PT)) :=
  select_work (fun q _ =>
    match w_qa_start q, w_qa_stop q with
    | Some start, None => ptime_lt start (pt_add_minutes now (-10)) && mine q
    | _, _ => false
    end) by_tbtime limit.

Definition not_started (q : WorkRow) : bool :=
  match w_qa_start q, w_process_start q with None, Some _ => mine q | _, _ => false end.

Definition selectLatestDataBasedOnObstimeForControl (limit : Z) : KM (list (Observation PT)) :=
  select_work (fun q o => not_started q &&
    at_most (pt_trunc_hour (pt_add_minutes now (-180))) (Database.o_obstime o)) by_obstime limit.

Definition selectOlderDataControl (limit : Z) : KM (list (Observation PT)) :=
  select_work (fun q _ => not_started q) by_tbtime limit.

(** UPDATE workque SET qa_start=statement_timestamp() WHERE observationid=id. *)
Definition with_qa (start stop : option (ptime PT)) (q : WorkRow) : WorkRow :=
  {| w_observationid := w_observationid q; w_priority := w_priority q; w_process_start := w_process_start q;
     w_qa_start := start; w_qa_stop := stop; w_service_start := w_service_start q; w_service_stop := w_service_stop q;
     w_qa_id := w_qa_id q |}.

Definition mark_start (ids : list Z) (t : @tables PT) : unit * @tables PT :=
  (tt, with_work t ((fun q => if bool_decide (w_observationid q ∈ ids) then with_qa (Some now) (w_qa_stop q) q else q)
                      <$> workque t) (workstatistik t)).

(** The table workque has no triggers. *)
Definition no_backup (t : @tables PT) : list HistoryRow := [].

Definition mark_stop (id : Z) (t : @tables PT) : unit * @tables PT :=
  (tt, with_work t ((fun q => if w_observationid q =? id then with_qa (w_qa_start q) (Some now) q else q) <$> workque t)
                   (workstatistik t)).

Definition kv_selectDataForControl (limit : Z) : KM (list (Observation PT)) := fun s =>
  let needOwnTransaction := negb (transactionInProgress_ s) in
  ((if needOwnTransaction then connection_beginTransaction else db_ret tt) ;;
   obs <- selectFailedDataForControl 10 ;;
   obs <- (match obs with [] => selectLatestDataBasedOnObstimeForControl limit | _ => db_ret obs end) ;;
   let n := Z.quot limit 2 in
   let n := if n <=? 0 then 1 else n in
   obs <- (match obs with [] => selectOlderDataControl n | _ => db_ret obs end) ;;
   match obs with
   | [] => (if needOwnTransaction then connection_commit else db_ret tt) ;; db_ret []
   | _ =>
       execUpdate (mark_start (o_id <$> obs)) no_backup ;;
       (if needOwnTransaction then connection_commit else db_ret tt) ;;
       db_ret obs
   end) s.

Definition kv_markProcessDone (obs : Observation PT) : KM unit := execUpdate (mark_stop (o_id obs)) no_backup.

(** ** The class *)

#[export] Instance KvalobsDatabaseAccess : DatabaseAccess PT KvDb := {|
  beginTransaction := kv_beginTransaction;
  commit := connection_commit;
  rollback := connection_rollback;
  getChecks := kv_getChecks;
  getQcxFlagPosition := kv_getQcxFlagPosition;
  getParametersToCheck := kv_getParametersToCheck;
  getAlgorithm := kv_getAlgorithm;
  getStationParam := kv_getStationParam;
  getStationParamAll := kv_getStationParamAll;
  getStation := kv_getStation;
  getObservation := kv_getObservation;
  getModelData := kv_getModelData;
  getData := kv_getData;
  pin := kv_pin;
  getTextData := kv_getTextData;
  complete := kv_complete;
  write := kv_write;
  selectDataForControl := kv_selectDataForControl;
  markProcessDone := kv_markProcessDone
|}.

End KvalobsDb.

(** ** Properties: the contract of a transactional database *)

Lemma elem_of_filter_b {A} (p : A -> bool) (l : list A) x : x ∈ List.filter p l <-> x ∈ l /\ p x = true.
Proof. by rewrite list_elem_of_In, filter_In, <- list_elem_of_In. Qed.

Section contract.
  Context {PT : PTime} {PC : PCalendar PT} {PM : PMinutes PT} {DT : DbText PT} {PD : PDbTime PT}
          {SP : StationParamSet}.
  Context (cfg : ConfigTables PT) (fault : nat -> option exn) (now : ptime PT) (qaId : Z) (modelDataName_ : string).

Abbreviation KDB := (KvalobsDatabaseAccess cfg fault now qaId modelDataName_).

Section relation.
  Context (R : relation (KvDb (PT := PT))) {P : PreOrder R}.
  Context (Hnext : forall s, R s (next_statement s)) (Hfetched : forall f ft s, R s (set_fetched f ft s)).

Lemma fault_statement_keeps {A} (f : KvDb -> A * KvDb) : (forall s, R s (f s).2) -> keeps R (statement fault f).
Proof.
  intros Hf s. unfold statement. destruct (fault (kd_statements s)); [apply Hnext|].
  specialize (Hf s). destruct (f s) as [a s']. etrans; [exact Hf|apply Hnext].
Qed.

Lemma execQuery_keeps {A} (q : @tables PT -> A) : keeps R (execQuery fault q).
Proof.
  intros s. unfold execQuery. destruct (transactionInProgress_ s); [|apply P].
  apply (fault_statement_keeps (fun s => (q (kd_work s), s))). intros s'. apply P.
Qed.

Lemma storeFetched_keeps obsid d : keeps R (storeFetched obsid d).
Proof.
  intros s. unfold storeFetched. destruct (set_find _ _ _) as [[x oldId]|]; [|apply Hfetched].
  destruct (obsid =? oldId); apply P.
Qed.

Lemma storeFetchedText_keeps obsid d : keeps R (storeFetchedText obsid d).
Proof.
  intros s. unfold storeFetchedText. destruct (set_find _ _ _) as [[x oldId]|]; [|apply Hfetched].
  destruct (obsid =? oldId); apply P.
Qed.
#[local] Hint Resolve execQuery_keeps storeFetched_keeps storeFetchedText_keeps : keeps.

Lemma kvalobs_reads : Reads KDB R.
Proof.
  split; intros; cbn [getChecks getQcxFlagPosition getParametersToCheck getAlgorithm getStationParam
    getStationParamAll getStation getObservation getModelData getData pin getTextData complete KvalobsDatabaseAccess].
  all: unfold kv_getChecks, kv_getQcxFlagPosition, kv_getParametersToCheck, kv_getAlgorithm, kv_getStationParam,
    kv_getStationParamAll, kv_getStation, kv_getObservation, kv_getModelData, kv_getData, kv_pin, kv_getTextData,
    kv_complete; keeps.
Qed.

End relation.

(** Only a commit that succeeds changes the committed tables. *)
#[export] Instance kvalobs_transactional : Transactional KDB kd_committed.
Proof.
  assert (Hn : forall s, same_of kd_committed s (next_statement (PT := PT) s)) by done.
  assert (Hf : forall f ft s, same_of kd_committed s (set_fetched (PT := PT) f ft s)) by done.
  assert (Hu : forall A (u : @tables PT -> A * @tables PT) b, keeps (same_of kd_committed) (execUpdate fault u b)).
  { intros A u b s. unfold execUpdate. destruct (transactionInProgress_ s) eqn:E; [|done].
    apply (fault_statement_keeps _ Hn (fun s => let '(a, w) := u (kd_work s) in
      (a, set_kd (kd_committed s) w (kd_history s) (kd_work_history s ++ b (kd_work s)) true s))).
    intros s'. by destruct (u (kd_work s')). }
  split; cbn [beginTransaction rollback write commit KvalobsDatabaseAccess].
  - apply kvalobs_reads; [typeclasses eauto|done..].
  - unfold kv_beginTransaction. apply keeps_bind; [typeclasses eauto| |by intros _ s].
    apply (fault_statement_keeps _ Hn). intros s. by destruct (transactionInProgress_ s).
  - intros s. unfold connection_rollback. destruct (transactionInProgress_ s); [|done].
    apply (fault_statement_keeps _ Hn (fun s => (tt, begun false s))). done.
  - intros data. unfold kv_write. apply keeps_for; [typeclasses eauto|]. intros d s. unfold write_one.
    destruct (set_find _ _ _) as [[x obsid]|]; [|done].
    match goal with |- same_of _ _ (?m s).2 => assert (keeps (same_of kd_committed) m) as Hk; [|apply Hk] end.
    keeps.
  - intros s e s' E. unfold connection_commit, statement in E. destruct (fault (kd_statements s)); [|done].
    by injection E as _ <-.
Qed.

(** ** Properties: what the quality control leaves alone *)

(** Everything in the tables but the four columns that the control writes. *)
Definition data_part (d : DataRow) := (d_observationid d, d_original d, d_paramid d, d_sensor d, d_level d).
Definition frame (t : @tables PT) :=
  (observations t, data_part <$> obsdata t, obstextdata t, workque t, workstatistik t, priority t, observationid_seq t).

(** A row of the history tells of a value of the tables and its observation. *)
Definition history_of (t : @tables PT) (h : HistoryRow) : Prop :=
  h_obs h ∈ observations t /\ data_part (h_data h) ∈ data_part <$> obsdata t /\ d_observationid (h_data h) = o_observationid (h_obs h).

(** The tables [t] with the history [h] are [t0] and [h0] after changes of the control. *)
Definition controlled (t0 : @tables PT) (h0 : list HistoryRow) (t : @tables PT) (h : list HistoryRow) : Prop :=
  frame t = frame t0 /\ exists new, h = h0 ++ new /\ Forall (history_of t0) new.

Definition framed (t0 : @tables PT) (h0 : list HistoryRow) (s : KvDb (PT := PT)) : Prop :=
  controlled t0 h0 (kd_committed s) (kd_history s) /\
  (transactionInProgress_ s = true -> controlled t0 h0 (kd_work s) (kd_work_history s)).

Lemma data_part_update obsid d ci ui cf r : data_part (if updated_row obsid d r then update_row d ci ui cf r else r) = data_part r.
Proof. by destruct (updated_row obsid d r). Qed.

Lemma frame_update obsid d ci ui cf t : frame (update_obsdata obsid d ci ui cf t).2 = frame t.
Proof.
  unfold frame, update_obsdata. cbn [snd with_obsdata observations obsdata obstextdata workque workstatistik priority
    observationid_seq]. do 6 f_equal. rewrite <- list_fmap_compose. apply list_fmap_ext. intros i r _. apply data_part_update.
Qed.

Lemma history_frame t t0 h : frame t = frame t0 -> history_of t h -> history_of t0 h.
Proof. intros [= H1 H2 _ _ _ _ _]. unfold history_of. by rewrite H1, H2. Qed.

Lemma backup_update_history obsid d ci ui cf t : Forall (history_of t) (backup_update obsid d ci ui cf t).
Proof.
  apply Forall_forall. intros h Hh. unfold backup_update in Hh. apply list_elem_of_omap in Hh as (r & Hr & E).
  apply elem_of_filter_b in Hr as [Hr _]. unfold backup_old_data in E.
  destruct (List.find _ _) as [o|] eqn:Eo; [|done]. injection E as <-. apply List.find_some in Eo as [Ho Hid%Z.eqb_eq].
  split; [by apply list_elem_of_In|]. split; [|done]. by apply (list_elem_of_fmap_2 data_part _ r).
Qed.

Lemma controlled_update t0 h0 t h obsid d ci ui cf : controlled t0 h0 t h ->
  controlled t0 h0 (update_obsdata obsid d ci ui cf t).2 (h ++ backup_update obsid d ci ui cf t).
Proof.
  intros [Hf (new & -> & Hnew)]. split; [by rewrite frame_update|]. eexists. split; [by rewrite <- app_assoc|].
  apply Forall_app. split; [done|]. eapply Forall_impl; [apply backup_update_history|]. intros x. by apply history_frame.
Qed.

#[export] Instance kvalobs_framed t0 h0 : Safe KDB (stays (framed t0 h0)).
Proof.
  assert (Hn : forall s, stays (framed t0 h0) s (next_statement s)) by (by intros s H).
  assert (Hf : forall f ft s, stays (framed t0 h0) s (set_fetched f ft s)) by (by intros f ft s H).
  split; cbn [beginTransaction rollback write commit KvalobsDatabaseAccess].
  - apply kvalobs_reads; [typeclasses eauto|done..].
  - unfold kv_beginTransaction. apply keeps_bind; [typeclasses eauto| |by intros _ s H].
    apply (fault_statement_keeps _ Hn). intros s [Hc Hw]. destruct (transactionInProgress_ s) eqn:E; (split; [exact Hc|]; [intros _; first [exact (Hw eq_refl)|exact Hc]]).
  - intros s. unfold connection_rollback. destruct (transactionInProgress_ s); [|by intros H].
    apply (fault_statement_keeps _ Hn (fun s => (tt, begun false s))).
    by intros s' [Hc _].
  - apply (fault_statement_keeps _ Hn). intros s [Hc Hw]. destruct (transactionInProgress_ s) eqn:E; cbn [snd].
    + split; [exact (Hw eq_refl)|done].
    + split; [exact Hc|intros H; cbn in H; congruence].
  - intros data. unfold kv_write. apply keeps_for; [typeclasses eauto|]. intros d s. unfold write_one.
    destruct (set_find _ _ _) as [[x obsid]|]; [|by intros H].
    match goal with |- stays _ _ (?m s).2 => assert (keeps (stays (framed t0 h0)) m) as Hk; [|apply Hk] end.
    keeps. intros s' [Hc Hw]. unfold execUpdate, statement.
    destruct (transactionInProgress_ s') eqn:E; [|split; [exact Hc|cbn [snd]; rewrite E; exact Hw]].
    destruct (fault (kd_statements s')); [split; [exact Hc|intros _; exact (Hw eq_refl)]|].
    match goal with |- context [update_obsdata ?a ?b ?c ?e ?f ?t] =>
      pose proof (controlled_update _ _ _ _ a b c e f (Hw eq_refl)) as Hu end.
    destruct (update_obsdata _ _ _ _ _ _) as [n w]. split; [done|]. intros _. exact Hu.
Qed.

(** C16: The quality control of an observation, begun outside a transaction, its scripts,
    caches, retries and failures included, changes nothing in the committed tables but the corrected
    values, the control flags, the use flags and the lists of failed checks of
    rows that exist: no row of a value, an observation, a text or the work queue comes
    or goes, and no original value and no key changes. Only the history grows, behind
    what it holds: each new row in it tells of a value that exists, with its original
    and its observation. *)
Theorem quality_control_frame {TT : PTimeText PT} {BT : BoostText} {BS : BoostSplit} {SI : SpiritInt} {BF : BoostFloat}
    {SD : ShowDouble} {PE : Perl} (qcxFilter_ : list string) (obs : Observation PT) (st : CacheStatics)
    (d : KvDb (PT := PT)) :
  transactionInProgress_ d = false ->
  let d' := (newObservation (B := KDB) now qcxFilter_ obs (st, d)).2.2 in
  frame (kd_committed d') = frame (kd_committed d) /\
  exists new, kd_history d' = kd_history d ++ new /\ Forall (history_of (kd_committed d)) new.
Proof.
  intros Hd. apply (newObservation_safe now KDB qcxFilter_ (stays (framed (kd_committed d) (kd_history d))) obs (st, d)).
  split; [|intros H; cbn in H; congruence]. split; [done|]. exists []. split; [by rewrite app_nil_r|constructor].
Qed.

End contract.

(** ** Properties: ordering *)

Lemma order_lt_nil {A} (ok : A -> Prop) : strict_weak ok (fun _ _ => true) (order_lt (A := A) []).
Proof. by split. Qed.

Lemma order_lt_cons {A} (ok : A -> Prop) (e1 e2 l1 : A -> A -> bool) ls :
  strict_weak ok e1 l1 -> strict_weak ok e2 (order_lt ls) -> strict_weak ok (lex_eq e1 e2) (order_lt (l1 :: ls)).
Proof.
  intros S1 S2. eapply sw_ext; [..|exact (sw_lex ok e1 l1 e2 (order_lt ls) S1 S2)]; [done|].
  intros a b Ha Hb. unfold lex_lt. simpl. destruct (e1 a b) eqn:E; simpl.
  - rewrite (sw_irrefl S1 a b) by done. by rewrite (sw_irrefl S1 b a) by (done || by apply (sw_sym S1)).
  - destruct (l1 a b) eqn:E1; [done|]. destruct (sw_total S1 a b Ha Hb E) as [H|H]; [congruence|by rewrite H].
Qed.

Section getChecks_props.
  Context {PT : PTime} {PL : PTimeLaws PT} {DT : DbText PT}.
  Context (cfg : ConfigTables PT) (fault : nat -> option exn).

(** What applies to an observation, and what is preferred. *)
Definition applies (obs : Observation PT) (c : kvChecks PT) : Prop :=
  c ∈ checks cfg /\ (ck_stationid c = 0 \/ ck_stationid c = o_stationid obs) /\
  ptime_lt (db_time (o_obstime obs)) (ck_fromtime c) = false.

Abbreviation check_order := (order_lt [fun a b : kvChecks PT => ck_stationid a <? ck_stationid b;
                                       fun a b => ptime_lt (ck_fromtime a) (ck_fromtime b)]).

Lemma check_order_weak : exists e, strict_weak (fun c => is_not_a_date_time (ck_fromtime c) = false) e check_order.
Proof.
  eexists. apply order_lt_cons; [apply (sw_Z _ ck_stationid)|].
  apply order_lt_cons; [|apply order_lt_nil]. by apply (sw_ptime _ ck_fromtime).
Qed.

Lemma check_order_prefers c c' : check_order c c' = false ->
  ck_stationid c' <= ck_stationid c /\
  (ck_stationid c' = ck_stationid c -> ptime_lt (ck_fromtime c) (ck_fromtime c') = false).
Proof.
  simpl. destruct (Z.ltb_spec (ck_stationid c) (ck_stationid c')); [done|].
  destruct (Z.ltb_spec (ck_stationid c') (ck_stationid c)); [lia|].
  intros H'. split; [lia|]. intros _. by destruct (ptime_lt (ck_fromtime c) (ck_fromtime c')).
Qed.

(** Assigning one after the other keeps the last. *)
Lemma smap_fold_last {A} (key : A -> string) (l : list A) : forall m, smap_sorted m ->
  smap_sorted (foldl (fun m c => smap_set (key c) c m) m l) /\
  forall q, smap_find q (foldl (fun m c => smap_set (key c) c m) m l) =
    match last (List.filter (fun c => bool_decide (key c = q)) l) with Some c => Some c | None => smap_find q m end.
Proof.
  induction l as [|c l IH]; intros m Hm; [by split|]. simpl.
  destruct (IH (smap_set (key c) c m) (smap_set_sorted _ _ _ Hm)) as [Hs Hf]. split; [done|].
  intros q. rewrite Hf, smap_find_set by done. case_bool_decide as E.
  - rewrite last_cons, decide_True by done. by destruct (last _).
  - by rewrite decide_False.
Qed.

Lemma sorted_last {A} (lt : A -> A -> bool) (l : list A) (x y : A) :
  StronglySorted (fun a b => lt b a = false) l -> last l = Some y -> x ∈ l -> lt y y = false -> lt y x = false.
Proof.
  intros Hs. induction Hs as [|a l Hs IH Hf]; [done|]. rewrite last_cons. intros Hl Hx Hy.
  destruct (last l) as [z|] eqn:E.
  - injection Hl as ->. apply elem_of_cons in Hx as [->|Hx]; [|by apply IH].
    rewrite Forall_forall in Hf. apply Hf. by apply last_Some_elem_of.
  - injection Hl as ->. apply last_None in E as ->. apply elem_of_cons in Hx as [->|Hx]; [done|by apply elem_of_nil in Hx].
Qed.

Lemma filter_sorted {A} (R : A -> A -> Prop) p (l : list A) : StronglySorted R l -> StronglySorted R (List.filter p l).
Proof.
  induction 1 as [|a l Hs IH Hf]; [constructor|]. simpl. destruct (p a); [|done]. constructor; [done|].
  rewrite Forall_forall in Hf |- *. intros x Hx. apply Hf. apply list_elem_of_In, filter_In in Hx as [Hx _].
  by apply list_elem_of_In.
Qed.

Lemma last_filter_key (q : string) (l : list (kvChecks PT)) c :
  last (List.filter (fun c' => bool_decide (ck_qcx c' = q)) l) = Some c -> ck_qcx c = q /\ c ∈ l.
Proof. intros H. apply last_Some_elem_of, elem_of_filter_b in H as [? ?%bool_decide_eq_true]. done. Qed.

Definition check_rows (obs : Observation PT) : list (kvChecks PT) :=
  order_by [fun a b => ck_stationid a <? ck_stationid b; fun a b => ptime_lt (ck_fromtime a) (ck_fromtime b)]
    (List.filter (fun c => ((ck_stationid c =? 0) || (ck_stationid c =? o_stationid obs)) &&
                           at_most (ck_fromtime c) (db_time (o_obstime obs))) (checks cfg)).

Lemma elem_of_check_rows obs c : c ∈ check_rows obs <-> applies obs c.
Proof.
  unfold check_rows, order_by, applies, at_most. rewrite list_sort_perm, elem_of_filter_b.
  rewrite andb_true_iff, orb_true_iff, negb_true_iff, !Z.eqb_eq. tauto.
Qed.

(** The rows that the loop keeps. *)
Lemma check_kept obs l c : l = snd <$> foldl (fun m check => smap_set (ck_qcx check) check m) [] (check_rows obs) ->
  c ∈ l <-> last (List.filter (fun c' => bool_decide (ck_qcx c' = ck_qcx c)) (check_rows obs)) = Some c.
Proof.
  intros ->. destruct (smap_fold_last ck_qcx (check_rows obs) [] ltac:(by split; constructor)) as [Hs Hf].
  set (m := foldl (fun m c => smap_set (ck_qcx c) c m) [] (check_rows obs)) in *. rewrite list_elem_of_fmap. split.
  - intros ([q c'] & -> & Hin). apply (c_find_elem _ _ _ Hs) in Hin as [_ Hq]. fold (smap_find q m) in Hq.
    rewrite Hf in Hq. simpl. destruct (last (List.filter _ _)) as [x|] eqn:E; [|done]. injection Hq as ->.
    destruct (last_filter_key _ _ _ E) as [-> _]. exact E.
  - intros E. exists (ck_qcx c, c). split; [done|]. apply (c_find_elem _ _ _ Hs). split; [done|].
    fold (smap_find (ck_qcx c) m). by rewrite Hf, E.
Qed.

(** C20: Which checks an observation gets from the table of checks, when each entry says
    from when it is valid and the query does not fail: those that are valid at the
    time of the observation and for its station or for all stations, one entry for each
    name of a check. Of the entries of one name it is one for the station itself when
    there is one, and of those that are left one that became valid last. *)
Theorem kv_getChecks_spec (obs : Observation PT) (s s' : KvDb (PT := PT)) (l : list (kvChecks PT)) :
  Forall (fun c => is_not_a_date_time (ck_fromtime c) = false) (checks cfg) ->
  kv_getChecks cfg fault obs s = (inl l, s') ->
  NoDup (ck_qcx <$> l) /\
  (forall c, applies obs c -> exists c', c' ∈ l /\ ck_qcx c' = ck_qcx c) /\
  (forall c, c ∈ l -> applies obs c /\ forall c', applies obs c' -> ck_qcx c' = ck_qcx c ->
     ck_stationid c' <= ck_stationid c /\
     (ck_stationid c' = ck_stationid c -> ptime_lt (ck_fromtime c) (ck_fromtime c') = false)).
Proof.
  intros Htimes E. unfold kv_getChecks, db_bind, execQuery in E.
  destruct (transactionInProgress_ s); [|done]. unfold statement in E. destruct (fault (kd_statements s)); [done|].
  injection E as <- _. fold (check_rows obs).
  pose proof (fun c => check_kept obs _ c eq_refl) as Hk.
  destruct (smap_fold_last ck_qcx (check_rows obs) [] ltac:(by split; constructor)) as [Hs Hf].
  set (m := foldl (fun m c => smap_set (ck_qcx c) c m) [] (check_rows obs)) in *.
  destruct check_order_weak as [e S].
  assert (Hok : Forall (fun c => is_not_a_date_time (ck_fromtime c) = false) (check_rows obs)).
  { apply Forall_forall. intros c Hc. apply elem_of_check_rows in Hc as [Hc _]. by rewrite Forall_forall in Htimes; apply Htimes. }
  split; [|split].
  - assert (ck_qcx <$> (snd <$> m) = fst <$> m) as ->; [|by apply (c_sorted_NoDup (kok := fun _ => True))].
    rewrite <- list_fmap_compose. apply Forall_fmap_ext_1, Forall_forall. intros [q c] Hin.
    apply (c_find_elem _ _ _ Hs) in Hin as [_ Hq]. fold (smap_find q m) in Hq. rewrite Hf in Hq.
    destruct (last (List.filter _ _)) as [x|] eqn:E; [|done]. injection Hq as ->.
    by destruct (last_filter_key _ _ _ E).
  - intros c Hc. apply elem_of_check_rows in Hc.
    destruct (last (List.filter (fun c' => bool_decide (ck_qcx c' = ck_qcx c)) (check_rows obs))) as [c'|] eqn:E.
    + destruct (last_filter_key _ _ _ E) as [Eq _]. exists c'. split; [|done]. apply Hk. by rewrite Eq.
    + exfalso. apply last_None in E. assert (c ∈ List.filter (fun c' => bool_decide (ck_qcx c' = ck_qcx c)) (check_rows obs)) as H
        by (apply elem_of_filter_b; by rewrite bool_decide_eq_true).
      rewrite E in H. by apply elem_of_nil in H.
  - intros c Hc. apply Hk in Hc. assert (Hin : c ∈ check_rows obs).
    { by destruct (last_filter_key _ _ _ Hc). }
    split; [by apply elem_of_check_rows|]. intros c' Hc' Eq. apply elem_of_check_rows in Hc'. apply check_order_prefers.
    assert (Hsort : StronglySorted (fun a b => check_order b a = false) (check_rows obs)).
    { apply (list_sort_sorted S). unfold check_rows, order_by in Hok. by rewrite list_sort_perm in Hok. }
    refine (sorted_last check_order _ c' c (filter_sorted _ (fun x => bool_decide (ck_qcx x = ck_qcx c)) _ Hsort) Hc _ _).
    + apply elem_of_filter_b. by rewrite bool_decide_eq_true.
    + rewrite Forall_forall in Hok. by apply (sw_irrefl S); [apply Hok..|apply (sw_refl S); apply Hok].
Qed.

End getChecks_props.

(** ** Properties: writing *)

Section write_props.
  Context {PT : PTime} {DT : DbText PT} (fault : nat -> option exn).

Lemma literal_text_plain s : squote ∉ to_bytes s -> literal_text s = inl s.
Proof. intros H. unfold literal_text. rewrite literal_value_plain by done. by rewrite of_to_bytes. Qed.

Lemma literal_text_flag f : flag_legal f -> literal_text (flagstring f) = inl (flagstring f).
Proof. intros [Hw Hl]. apply literal_text_plain. rewrite flagstring_bytes by done. by apply hex_not_quote. Qed.

(** The row of a value. *)
Definition value_data_key (obsid : Z) (d : kvData PT) : Z * Z * Z * Z := (obsid, paramid_ d, level_ d, sensor_ d).

Lemma updated_row_key obsid (d : kvData PT) r : updated_row obsid d r = true <-> data_key r = value_data_key obsid d.
Proof.
  unfold updated_row, data_key, value_data_key. rewrite !andb_true_iff, !Z.eqb_eq. split.
  - by intros [[[-> ->] ->] ->].
  - by intros [= -> -> -> ->].
Qed.

Definition written_row (d : kvData PT) (r : DataRow) : DataRow :=
  update_row d (flagstring (controlinfo_ d)) (flagstring (useinfo_ d)) (cfailed_ d) r.

Lemma write_one_fetched (s : KvDb (PT := PT)) d x obsid :
  value_ok d -> transactionInProgress_ s = true -> fault (kd_statements s) = None ->
  set_find lt_fetched (d, 0) (fetchedData_ s) = Some (x, obsid) ->
  exists s', kv_write fault [d] s =
      ((if (length (List.filter (updated_row obsid d) (obsdata (kd_work s))) =? 1)%nat then inl tt else inr runtime_error), s') /\
    kd_work s' = with_obsdata ((fun r => if updated_row obsid d r then written_row d r else r) <$> obsdata (kd_work s)) (kd_work s).
Proof.
  intros (Hc & Hu & Hq & _) Ht Hf Hx. eexists. unfold kv_write, db_for, db_bind at 1, write_one. rewrite Hx.
  unfold db_bind at 1 2 3 4, db_res at 1 2 3. rewrite !literal_text_flag, literal_text_plain by done.
  unfold execUpdate. rewrite Ht. unfold statement. rewrite Hf. simpl.
  destruct (length _ =? 1)%nat; (split; [done|]); done.
Qed.

Lemma filter_key_one {A K} `{!EqDecision K} (key : A -> K) (p : A -> bool) (k : K) (l : list A) r :
  (forall x, p x = true <-> key x = k) -> NoDup (key <$> l) -> r ∈ l -> key r = k -> List.filter p l = [r].
Proof.
  intros Hp Hnd Hr Hk. induction l as [|x l IH]; [by apply elem_of_nil in Hr|].
  cbn in Hnd. apply NoDup_cons in Hnd as [Hx Hnd]. simpl. apply elem_of_cons in Hr as [<-|Hr].
  - rewrite (proj2 (Hp r) Hk). f_equal. destruct (List.filter p l) as [|y k'] eqn:E; [done|]. exfalso. apply Hx.
    assert (y ∈ List.filter p l) as Hy by (rewrite E; by left). apply elem_of_filter_b in Hy as [Hy Ey].
    apply Hp in Ey. rewrite Hk, <- Ey. by apply list_elem_of_fmap_2.
  - destruct (p x) eqn:Ex; [|by apply IH]. apply Hp in Ex. exfalso. apply Hx. rewrite Ex, <- Hk.
    by apply list_elem_of_fmap_2.
Qed.

(** What saving a value does. A value that was read in the transaction goes to
    its own row: the row is read back with the new corrected value, flags and
    failed checks and with its old original, and every other row is as it was. A
    value that was not read is passed over, and one whose row is gone is an
    error. *)
Theorem kv_write_spec (s : KvDb (PT := PT)) (d : kvData PT) :
  value_ok d -> transactionInProgress_ s = true -> fault (kd_statements s) = None ->
  NoDup (data_key <$> obsdata (kd_work s)) ->
  match set_find lt_fetched (d, 0) (fetchedData_ s) with
  | None => kv_write fault [d] s = (inl tt, s)
  | Some (_, obsid) =>
      (forall r, r ∈ obsdata (kd_work s) -> data_key r = value_data_key obsid d ->
         exists s', kv_write fault [d] s = (inl tt, s') /\
           (forall r', r' ∈ obsdata (kd_work s') <->
              r' = written_row d r \/ (r' ∈ obsdata (kd_work s) /\ data_key r' <> data_key r)) /\
           forall o, kvDataFromRow (o, written_row d r) =
             kvData_set (Database.o_stationid o) (Database.o_obstime o) (d_original r) (d_paramid r)
               (Database.o_tbtime o) (o_typeid o) (d_sensor r) (d_level r) (db_number (corrected_ d))
               (controlinfo_ d) (useinfo_ d) (cfailed_ d)) /\
      ((forall r, r ∈ obsdata (kd_work s) -> data_key r <> value_data_key obsid d) ->
         (kv_write fault [d] s).1 = inr runtime_error)
  end.
Proof.
  intros Hok Ht Hf Hnd. destruct (set_find _ _ _) as [[x obsid]|] eqn:E.
  - destruct (write_one_fetched s d x obsid Hok Ht Hf E) as (s' & Es & Ew). split.
    + intros r Hr Hk. exists s'. rewrite Es, Ew.
      rewrite (filter_key_one data_key _ _ _ r (updated_row_key obsid d) Hnd Hr Hk). split; [done|]. split.
      * intros r'. cbn [obsdata with_obsdata]. rewrite list_elem_of_fmap. split.
        -- intros (r1 & -> & Hr1). destruct (updated_row obsid d r1) eqn:E1.
           ++ apply updated_row_key in E1. left. rewrite <- Hk in E1. f_equal.
              apply list_elem_of_lookup in Hr as [i Hi], Hr1 as [j Hj].
              assert (i = j) as ->; [|congruence]. eapply (NoDup_lookup _ i j (data_key r) Hnd);
                rewrite list_lookup_fmap; [by rewrite Hi|by rewrite Hj, <- E1].
           ++ right. split; [done|]. rewrite Hk. intros H. apply updated_row_key in H. congruence.
        -- intros [->|[Hr' Hne]].
           ++ exists r. split; [|done]. by rewrite (proj2 (updated_row_key obsid d r) Hk).
           ++ exists r'. split; [|done]. destruct (updated_row obsid d r') eqn:E1; [|done].
              apply updated_row_key in E1. congruence.
      * intros o. destruct Hok as ([H1 _] & [H2 _] & _). unfold kvDataFromRow, getKvData. simpl.
        unfold kvControlInfo_of_string, kvUseInfo_of_string. rewrite !of_string_flagstring by done.
        by destruct (controlinfo_ d), (useinfo_ d).
    + intros Hno. rewrite Es. simpl.
      assert (List.filter (updated_row obsid d) (obsdata (kd_work s)) = []) as ->; [|done].
      destruct (List.filter _ _) as [|r l] eqn:Er; [done|]. exfalso.
      assert (r ∈ List.filter (updated_row obsid d) (obsdata (kd_work s))) as Hr by (rewrite Er; by left).
      apply elem_of_filter_b in Hr as [Hr Hk]. apply (Hno r Hr). by apply updated_row_key.
  - unfold kv_write, db_for, db_bind, write_one. by rewrite E.
Qed.

End write_props.

(** ** Properties: selecting observations to check *)

Section select_props.
  Context {PT : PTime} {PL : PTimeLaws PT} {PM : PMinutes PT} {PML : PMinutesLaws PT PM} {PD : PDbTime PT}.
  Context (fault : nat -> option exn) (Hfault : forall n, fault n = None).

Section one.
  Context (now : ptime PT) (qaId : Z).

Definition work_rows (P : WorkRow -> ObsRow -> bool) (order : WorkRow * ObsRow -> WorkRow * ObsRow -> bool) (limit : Z)
    (t : @tables PT) : list (Observation PT) :=
  kv_newObservation (take (Z.to_nat limit) (order_by [by_qa_id qaId; by_priority; order] (work_join P t))).

(** The three selections, and the one that is made. *)
Definition failed_rows (t : @tables PT) : list (Observation PT) :=
  work_rows (fun q _ => match w_qa_start q, w_qa_stop q with
                        | Some start, None => ptime_lt start (pt_add_minutes now (-10)) && mine qaId q
                        | _, _ => false
                        end) by_tbtime 10 t.
Definition latest_rows (limit : Z) (t : @tables PT) : list (Observation PT) :=
  work_rows (fun q o => not_started qaId q &&
    at_most (pt_trunc_hour (pt_add_minutes now (-180))) (Database.o_obstime o)) by_obstime limit t.
Definition older_rows (limit : Z) (t : @tables PT) : list (Observation PT) :=
  work_rows (fun q _ => not_started qaId q) by_tbtime (Z.max (Z.quot limit 2) 1) t.

Definition chosen (limit : Z) (t : @tables PT) : list (Observation PT) :=
  match failed_rows t with
  | [] => match latest_rows limit t with [] => older_rows limit t | l => l end
  | l => l
  end.

Lemma execQuery_ok {A} (q : @tables PT -> A) s : transactionInProgress_ s = true ->
  execQuery fault q s = (inl (q (kd_work s)), next_statement s).
Proof. intros H. unfold execQuery, statement. by rewrite H, Hfault. Qed.

Lemma select_work_ok P order limit s : transactionInProgress_ s = true ->
  select_work fault qaId P order limit s = (inl (work_rows P order limit (kd_work s)), next_statement s).
Proof. intros H. unfold select_work, db_bind. by rewrite execQuery_ok. Qed.

Lemma quot_half limit : (if Z.quot limit 2 <=? 0 then 1 else Z.quot limit 2) = Z.max (Z.quot limit 2) 1.
Proof. destruct (Z.leb_spec (Z.quot limit 2) 0); lia. Qed.

Lemma select_ok limit (s : KvDb (PT := PT)) : transactionInProgress_ s = false ->
  exists s', kv_selectDataForControl fault now qaId limit s = (inl (chosen limit (kd_committed s)), s') /\
    transactionInProgress_ s' = false /\
    kd_committed s' = match chosen limit (kd_committed s) with
                      | [] => kd_committed s
                      | l => (mark_start now (o_id <$> l) (kd_committed s)).2
                      end /\ kd_history s' = kd_history s.
Proof.
  intros Hp. unfold kv_selectDataForControl. rewrite Hp. cbn [negb]. rewrite quot_half.
  assert (Hb : connection_beginTransaction fault s =
    (inl tt, next_statement (begun true s))).
  { unfold connection_beginTransaction, statement. by rewrite Hfault, Hp. }
  unfold db_bind at 1. rewrite Hb. clear Hb. set (s0 := next_statement _).
  unfold chosen, failed_rows, latest_rows, older_rows.
  unfold db_bind at 1, selectFailedDataForControl. rewrite select_work_ok by done.
  change (kd_work s0) with (kd_committed s).
  destruct (work_rows _ by_tbtime 10 (kd_committed s)) as [|o1 l1].
  - unfold db_bind at 1, selectLatestDataBasedOnObstimeForControl. rewrite select_work_ok by done.
    change (kd_work (next_statement s0)) with (kd_committed s).
    destruct (work_rows _ by_obstime limit (kd_committed s)) as [|o2 l2].
    + unfold db_bind at 1, selectOlderDataControl. rewrite select_work_ok by done.
      change (kd_work (next_statement (next_statement s0))) with (kd_committed s).
      destruct (work_rows _ by_tbtime _ (kd_committed s)) as [|o3 l3];
        unfold db_bind, execUpdate, statement, connection_commit, statement; cbn; rewrite !Hfault; eexists;
        (split; [reflexivity|]); split_and!; cbn; rewrite ?app_nil_r; done.
    + unfold db_bind, execUpdate, statement, connection_commit, statement; cbn; rewrite !Hfault; cbn.
      eexists; (split; [reflexivity|]); split_and!; cbn; rewrite ?app_nil_r; done.
  - unfold db_bind, execUpdate, statement, connection_commit, statement; cbn; rewrite !Hfault; cbn.
    eexists; (split; [reflexivity|]); split_and!; cbn; rewrite ?app_nil_r; done.
Qed.

Lemma elem_of_work_join P (t : @tables PT) q r : (q, r) ∈ work_join P t <->
  q ∈ workque t /\ r ∈ observations t /\ w_observationid q = o_observationid r /\ P q r = true.
Proof.
  unfold work_join. rewrite list_elem_of_bind. split.
  - intros (q' & Hin & Hq). apply list_elem_of_fmap in Hin as (r' & [= -> ->] & Hr).
    apply elem_of_filter_b in Hr as [Hr [He HP]%andb_true_iff]. by rewrite Z.eqb_eq in He.
  - intros (Hq & Hr & He & HP). exists q. split; [|done]. apply list_elem_of_fmap. exists r. split; [done|].
    apply elem_of_filter_b. split; [done|]. by rewrite He, Z.eqb_refl, HP.
Qed.

Lemma elem_of_work_rows P order limit t o : o ∈ work_rows P order limit t ->
  exists q r, q ∈ workque t /\ r ∈ observations t /\ w_observationid q = o_id o /\ P q r = true /\ o = observation_of_row r.
Proof.
  unfold work_rows, kv_newObservation. intros ([q r] & -> & Hin)%list_elem_of_fmap.
  assert (Hin' : (q, r) ∈ order_by [by_qa_id qaId; by_priority; order] (work_join P t))
    by (rewrite <- (take_drop (Z.to_nat limit)); apply elem_of_app; by left). clear Hin. rename Hin' into Hin.
  unfold order_by in Hin. rewrite list_sort_perm in Hin. apply elem_of_work_join in Hin as (? & ? & ? & ?).
  by exists q, r.
Qed.

(** A selected element was not started, or too long ago. *)
Lemma elem_of_chosen limit t o : o ∈ chosen limit t ->
  exists q, q ∈ workque t /\ w_observationid q = o_id o /\
    (w_qa_start q = None \/ exists start, w_qa_start q = Some start /\ ptime_lt start (pt_add_minutes now (-10)) = true).
Proof.
  intros Hin. assert (Hor : o ∈ failed_rows t \/ o ∈ latest_rows limit t \/ o ∈ older_rows limit t).
  { unfold chosen in Hin. destruct (failed_rows t); [|by left]. destruct (latest_rows limit t); [by right; right|by right; left]. }
  assert (Hns : forall q, not_started qaId q = true -> w_qa_start q = None).
  { intros q. unfold not_started. by destruct (w_qa_start q). }
  destruct Hor as [H|[H|H]]; apply elem_of_work_rows in H as (q & r & Hq & _ & He & HP & _);
    exists q; (split; [done|]); (split; [done|]).
  - right. destruct (w_qa_start q) as [start|]; [|done]. exists start. split; [done|].
    destruct (w_qa_stop q); [done|]. by apply andb_true_iff in HP as [HP _].
  - left. apply andb_true_iff in HP as [HP _]. by apply Hns.
  - left. by apply Hns.
Qed.

Lemma work_rows_length P order n t : (length (work_rows P order n t) <= Z.to_nat n)%nat.
Proof. unfold work_rows, kv_newObservation. rewrite length_fmap, length_take. lia. Qed.

Lemma chosen_length limit t : (length (chosen limit t) <= Z.to_nat (Z.max 10 limit))%nat.
Proof.
  assert (Z.max (Z.quot limit 2) 1 <= Z.max 10 limit).
  { destruct (Z.le_gt_cases limit 0); [|pose proof (Z.quot_le_upper_bound limit 2 limit); lia].
    assert (Z.quot limit 2 <= 0) by (apply Z.quot_le_upper_bound; lia). lia. }
  unfold chosen. destruct (failed_rows t) as [|o l] eqn:E1; [destruct (latest_rows limit t) as [|o l] eqn:E2|].
  - etrans; [apply work_rows_length|lia].
  - rewrite <- E2. etrans; [apply work_rows_length|lia].
  - rewrite <- E1. etrans; [apply work_rows_length|lia].
Qed.

(** Something is selected whenever something waits. *)
Lemma chosen_progress limit t q r : q ∈ workque t -> r ∈ observations t -> w_observationid q = o_observationid r ->
  not_started qaId q = true -> chosen limit t <> [].
Proof.
  intros Hq Hr He Hn. unfold chosen. destruct (failed_rows t); [|done]. destruct (latest_rows limit t); [|done].
  unfold older_rows, work_rows, kv_newObservation. set (j := work_join _ t).
  assert (Hin : (q, r) ∈ order_by [by_qa_id qaId; by_priority; by_tbtime] j).
  { unfold order_by. rewrite list_sort_perm. by apply elem_of_work_join. }
  destruct (order_by _ j) as [|x l]; [by apply elem_of_nil in Hin|].
  destruct (Z.to_nat (Z.max (Z.quot limit 2) 1)) as [|n] eqn:E; [lia|done].
Qed.

End one.

(** What goes on after a selection at [now1], for ten minutes: other selections, of any
    process, the ends of checks, and whatever leaves the work queue alone, as the
    quality control of an observation does. *)
Inductive meanwhile (now1 : ptime PT) : KvDb (PT := PT) -> KvDb (PT := PT) -> Prop :=
  | meanwhile_nothing s : meanwhile now1 s s
  | meanwhile_select now qaId limit s s1 s2 obs : ptime_lt now1 (pt_add_minutes now (-10)) = false ->
      kv_selectDataForControl fault now qaId limit s = (inl obs, s1) -> meanwhile now1 s1 s2 -> meanwhile now1 s s2
  | meanwhile_done now o s s1 s2 :
      (connection_beginTransaction fault ;; kv_markProcessDone fault now o ;; connection_commit fault)%db s = (inl tt, s1) ->
      meanwhile now1 s1 s2 -> meanwhile now1 s s2
  | meanwhile_other s s1 s2 : workque (kd_committed s1) = workque (kd_committed s) -> transactionInProgress_ s1 = false ->
      meanwhile now1 s1 s2 -> meanwhile now1 s s2.

(** What was handed out is marked with its start. *)
Definition started (now1 : ptime PT) (ids : list Z) (s : KvDb (PT := PT)) : Prop :=
  transactionInProgress_ s = false /\
  forall q, q ∈ workque (kd_committed s) -> w_observationid q ∈ ids -> w_qa_start q = Some now1.

Lemma started_not_chosen now1 now2 qaId limit ids s o : started now1 ids s -> ptime_lt now1 (pt_add_minutes now2 (-10)) = false ->
  o ∈ chosen now2 qaId limit (kd_committed s) -> o_id o ∉ ids.
Proof.
  intros [_ Hs] Ht Ho Hin. apply elem_of_chosen in Ho as (q & Hq & Hid & Hstart). rewrite <- Hid in Hin.
  rewrite (Hs q Hq Hin) in Hstart. destruct Hstart as [H|(start & [= <-] & H)]; [done|congruence].
Qed.

Lemma chosen_commits now qaId limit t :
  match chosen now qaId limit t with [] => t | l => (mark_start now (o_id <$> l) t).2 end =
  (mark_start now (o_id <$> chosen now qaId limit t) t).2.
Proof.
  destruct (chosen now qaId limit t); [|done]. destruct t as [a b c w st p n]. unfold mark_start, with_work.
  cbn [snd observations obsdata obstextdata workque workstatistik priority observationid_seq fmap list_fmap]. f_equal.
  rewrite <- (list_fmap_id w) at 1. apply list_fmap_ext. intros i q _. by rewrite bool_decide_eq_false_2 by apply not_elem_of_nil.
Qed.

Lemma started_meanwhile now1 ids s s' : meanwhile now1 s s' -> started now1 ids s -> started now1 ids s'.
Proof.
  induction 1 as [s|now qaId limit s s1 s2 obs Ht E _ IH|now o s s1 s2 E _ IH|s s1 s2 Hw Hp _ IH]; intros Hs; [done| | |].
  - apply IH. destruct (select_ok now qaId limit s (proj1 Hs)) as (s1' & E1 & Hp1 & Hc1 & _). rewrite E in E1. injection E1 as -> <-.
    split; [done|]. rewrite Hc1, chosen_commits. cbn [mark_start snd with_work workque].
    intros q (q0 & -> & Hq0)%list_elem_of_fmap Hid. rewrite bool_decide_eq_false_2; [|intros Hb].
    + apply (proj2 Hs); [done|]. by destruct (bool_decide _) in Hid.
    + apply list_elem_of_fmap in Hb as (o & Ho & Hb). destruct (started_not_chosen _ _ _ _ _ _ _ Hs Ht Hb).
      rewrite <- Ho. by destruct (bool_decide _) in Hid.
  - apply IH. destruct Hs as [Hp Hs]. revert E. unfold db_bind, connection_beginTransaction, kv_markProcessDone, execUpdate,
      connection_commit, statement. rewrite !Hfault, Hp. cbn. rewrite !Hfault. cbn. intros [= <-]. split; [done|]. cbn.
    intros q (q0 & -> & Hq0)%list_elem_of_fmap Hid. destruct (w_observationid q0 =? o_id o); by apply (Hs q0).
  - apply IH. split; [done|]. rewrite Hw. apply Hs.
Qed.

(** C17: What the checking processes take from the work queue. When no statement fails, a
    selection hands out at most ten or [limit] observations; what it commits is
    the start of their elements of the work queue and nothing else, in all tables. Until
    ten minutes have passed no later selection of any process hands one of them out
    again, whatever selections, ends of checks and quality control come between; only
    what sets the start of an element anew, as the managing process does when it
    completes the observation once more, can bring it back earlier. *)
Theorem selectDataForControl_once (now1 : ptime PT) (qaId1 limit1 : Z) (s s' : KvDb (PT := PT)) (obs1 : list (Observation PT)) :
  transactionInProgress_ s = false -> kv_selectDataForControl fault now1 qaId1 limit1 s = (inl obs1, s') ->
  (length obs1 <= Z.to_nat (Z.max 10 limit1))%nat /\
  kd_committed s' = (mark_start now1 (o_id <$> obs1) (kd_committed s)).2 /\ kd_history s' = kd_history s /\
  forall now2 qaId2 limit2 s2, meanwhile now1 s' s2 -> ptime_lt now1 (pt_add_minutes now2 (-10)) = false ->
    exists obs2 s3, kv_selectDataForControl fault now2 qaId2 limit2 s2 = (inl obs2, s3) /\
      forall o1 o2, o1 ∈ obs1 -> o2 ∈ obs2 -> o_id o1 <> o_id o2.
Proof.
  intros Hp E. destruct (select_ok now1 qaId1 limit1 s Hp) as (s1 & E1 & Hp1 & Hc1 & Hh1).
  rewrite E in E1. injection E1 as -> <-. rewrite chosen_commits in Hc1. split; [apply chosen_length|]. split; [done|]. split; [done|].
  intros now2 qaId2 limit2 s2 Hm Ht. assert (Hs : started now1 (o_id <$> chosen now1 qaId1 limit1 (kd_committed s)) s2).
  { apply (started_meanwhile _ _ _ _ Hm). split; [done|]. rewrite Hc1. cbn [mark_start snd with_work workque].
    intros q (q0 & -> & Hq0)%list_elem_of_fmap. case_bool_decide; [done|]. done. }
  destruct (select_ok now2 qaId2 limit2 s2 (proj1 Hs)) as (s3 & E2 & _). eexists _, s3. split; [exact E2|].
  intros o1 o2 H1 H2 Hid. apply (started_not_chosen _ _ _ _ _ _ _ Hs Ht H2). rewrite <- Hid. by apply list_elem_of_fmap_2.
Qed.

(** Whatever waits is reached: as long as an observation waits for its checks
    and is not reserved for another process, a selection is not empty, and it
    starts elements of the queue. *)
Theorem selectDataForControl_progress (now : ptime PT) (qaId limit : Z) (s : KvDb (PT := PT)) (q : WorkRow) (r : ObsRow) :
  transactionInProgress_ s = false ->
  q ∈ workque (kd_committed s) -> r ∈ observations (kd_committed s) -> w_observationid q = o_observationid r ->
  not_started qaId q = true ->
  exists o obs s', kv_selectDataForControl fault now qaId limit s = (inl (o :: obs), s') /\
    exists q', q' ∈ workque (kd_committed s') /\ w_observationid q' = o_id o /\ w_qa_start q' = Some now.
Proof.
  intros Hp Hq Hr He Hn. destruct (select_ok now qaId limit s Hp) as (s' & E & _ & Hc & _).
  pose proof (chosen_progress now qaId limit (kd_committed s) q r Hq Hr He Hn) as Hne.
  pose proof (elem_of_chosen now qaId limit (kd_committed s)) as Hin.
  destruct (chosen now qaId limit (kd_committed s)) as [|o obs]; [done|]. exists o, obs, s'. split; [exact E|].
  destruct (Hin o ltac:(by left)) as (q0 & Hq0 & Hid & _).
  exists (with_qa (Some now) (w_qa_stop q0) q0). split; [|done]. rewrite Hc. cbn [mark_start snd workque with_work].
  apply list_elem_of_fmap. exists q0. split; [|done]. rewrite bool_decide_eq_true_2; [done|]. rewrite Hid. by left.
Qed.

End select_props.

(** ** Instances *)

#[export] Instance stamp_db_time : PDbTime stamp_time := {|
  pt_day_of_year t := stamp_secs t / 86400 - days_from_civil (civil_from_days (stamp_secs t / 86400)).1.1 1 1 + 1;
  pt_trunc_hour t := match t with At s => At (s - s mod 3600) | _ => t end
|}.

Definition no_faults : nat -> option exn := fun _ => None.

Definition sample_check (st : Z) (active : string) (t : Z) : kvChecks stamp_time :=
  {| ck_stationid := st; ck_qcx := "QC1-1-100"; ck_medium_qcx := "QC1-1"; ck_language := 1; ck_checkname := "RANGE";
     ck_checksignature := "obs;TA;;"; ck_active := active; ck_fromtime := At t |}.

Definition sample_config : ConfigTables stamp_time :=
  {| checks := [sample_check 18700 "* * * * *" 20; sample_check 0 "* 12 * * *" 30; sample_check 18700 "* 6 * * *" 10];
     qcx_info := [("QC1-1"%string, 1)]; param := [(211, "TA"%string)]; obs_pgm := [18700]; algorithms := [];
     station_param := []; station := []; model := []; model_data := [] |}.

(** A value of 12:00 that came with the type 302, and one of 11:00 with the type
    501, the type of the observation that is checked. *)
Definition sample_obs_row (id ty h : Z) : ObsRow :=
  {| o_observationid := id; Database.o_stationid := 18700; o_typeid := ty;
     Database.o_obstime := stamp_of 2024 1 15 h 0 0; Database.o_tbtime := stamp_of 2024 1 15 h 5 0 |}.

Definition sample_data_row (id : Z) : DataRow :=
  {| d_observationid := id; d_original := Dbl.of_Z 7; d_paramid := 211; d_sensor := 0; d_level := 0;
     d_corrected := Dbl.of_Z 7; d_controlinfo := "0000000000000000"; d_useinfo := "0000000000000000"; d_cfailed := "" |}.

Definition sample_work_row (id : Z) : @WorkRow stamp_time :=
  {| w_observationid := id; w_priority := 10; w_process_start := Some (At 1); w_qa_start := None; w_qa_stop := None;
     w_service_start := None; w_service_stop := None; w_qa_id := None |}.

Definition sample_tables : tables stamp_time :=
  {| observations := [sample_obs_row 1 302 12; sample_obs_row 2 501 11]; obsdata := [sample_data_row 1; sample_data_row 2];
     obstextdata := []; workque := [sample_work_row 1; sample_work_row 2]; workstatistik := []; priority := [];
     observationid_seq := 2 |}.

Definition sample_kd (p : bool) : KvDb (PT := stamp_time) :=
  {| kd_committed := sample_tables; kd_work := sample_tables; kd_history := []; kd_work_history := []; transactionInProgress_ := p; fetchedData_ := [];
     fetchedTextData_ := []; kd_statements := 0 |}.

Abbreviation sample_kdb := (KvalobsDatabaseAccess sample_config no_faults (At 1000000) (-1) "").

(** What the cache answers depends on what was asked before: a check that asks for
    the last hour makes the value of the other type invisible to the checks after
    it, which see it when they run alone. *)
Theorem cache_answer_depends_on_history :
  ((getData (DatabaseAccess := CachedDatabaseAccess sample_kdb) sample_Observation (param_named "TA") 0)
     (Cache_new no_statics sample_Observation, sample_kd true)).1
    = inl [kvDataFromRow (sample_obs_row 1 302 12, sample_data_row 1)] /\
  ((getData (DatabaseAccess := CachedDatabaseAccess sample_kdb) sample_Observation (param_named "TA") (-60) ;;
    getData (DatabaseAccess := CachedDatabaseAccess sample_kdb) sample_Observation (param_named "TA") 0)%db
     (Cache_new no_statics sample_Observation, sample_kd true)).1 = inl [].
Proof. split; by vm_compute. Qed.

Lemma quality_control_frame_witness :
  frame (kd_committed (newObservation (BT := boost_text) (BS := boost_split) (SI := spirit_int) (BF := int_float)
    (SD := int_show) (PE := one_pair_perl "" (Dbl.of_Z 0)) (B := sample_kdb) (At 1000000) [] sample_Observation
    (no_statics, sample_kd false)).2.2) = frame sample_tables.
Proof.
  exact (proj1 (quality_control_frame (BT := boost_text) (BS := boost_split) (SI := spirit_int) (BF := int_float)
    (SD := int_show) (PE := one_pair_perl "" (Dbl.of_Z 0)) sample_config no_faults (At 1000000) (-1) "" []
    sample_Observation no_statics (sample_kd false) eq_refl)).
Defined.

Lemma kv_getChecks_spec_witness :
  exists l s', kv_getChecks sample_config no_faults sample_Observation (sample_kd true) = (inl l, s') /\
    exists c, c ∈ l /\ ck_active c = "* * * * *"%string /\
      forall c', applies sample_config sample_Observation c' -> ck_qcx c' = ck_qcx c -> ck_stationid c' <= ck_stationid c.
Proof.
  eexists _, _. split; [by vm_compute|].
  exists (sample_check 18700 "* * * * *" 20). split; [by left|]. split; [done|].
  intros c' H1 H2. destruct (kv_getChecks_spec sample_config no_faults sample_Observation (sample_kd true)
    (next_statement (sample_kd true)) [sample_check 18700 "* * * * *" 20]) as (_ & _ & H).
  - by repeat constructor.
  - by vm_compute.
  - by apply (H (sample_check 18700 "* * * * *" 20) ltac:(by left)).
Defined.

Definition sample_written : kvData stamp_time :=
  with_corrected (kvDataFromRow (sample_obs_row 1 302 12, sample_data_row 1)) (Dbl.of_Z 5).

Definition fetched_kd : KvDb (PT := stamp_time) := set_fetched [(sample_written, 1)] [] (sample_kd true).

Lemma kv_write_spec_witness :
  exists s', kv_write no_faults [sample_written] fetched_kd = (inl tt, s') /\
    sample_data_row 2 ∈ obsdata (kd_work s').
Proof.
  destruct (kv_write_spec no_faults fetched_kd sample_written) as [H _].
  - by_decision.
  - done.
  - done.
  - by_decision.
  - destruct (H (sample_data_row 1) ltac:(by left) ltac:(by vm_compute)) as (s' & E & Hr & _). exists s'.
    split; [exact E|]. apply Hr. right. split; [right; by left|by vm_compute].
Defined.

(** Between two selections a check of one of the observations ends. *)
Lemma selectDataForControl_once_witness :
  exists obs1 s1 s2 obs2 s3, kv_selectDataForControl (PT := stamp_time) no_faults (At 1000) (-1) 2 (sample_kd false) = (inl obs1, s1) /\
    length obs1 = 2%nat /\ meanwhile (PT := stamp_time) no_faults (At 1000) s1 s2 /\
    kv_selectDataForControl (PT := stamp_time) no_faults (At 1500) (-1) 2 s2 = (inl obs2, s3) /\
    forall o1 o2, o1 ∈ obs1 -> o2 ∈ obs2 -> o_id o1 <> o_id o2.
Proof.
  destruct (kv_selectDataForControl (PT := stamp_time) no_faults (At 1000) (-1) 2 (sample_kd false)) as [r s1] eqn:E.
  pose proof E as E'. vm_compute in E'. injection E' as <- Es1.
  destruct ((connection_beginTransaction no_faults ;; kv_markProcessDone (PT := stamp_time) no_faults (At 1200) sample_Observation ;;
    connection_commit no_faults)%db s1) as [r2 s2] eqn:E2.
  assert (Hr2 : r2 = inl tt) by (apply (f_equal fst) in E2; rewrite <- Es1 in E2; vm_compute in E2; by rewrite <- E2). subst r2.
  assert (Hm : meanwhile (PT := stamp_time) no_faults (At 1000) s1 s2) by (by eapply meanwhile_done; [exact E2|constructor]).
  destruct (selectDataForControl_once (PT := stamp_time) no_faults (fun _ => eq_refl) (At 1000) (-1) 2 (sample_kd false) s1 _
    eq_refl E) as (_ & _ & _ & H).
  destruct (H (At 1500) (-1) 2 s2 Hm ltac:(by vm_compute)) as (obs2 & s3 & E3 & Hd).
  eexists _, s1, s2, obs2, s3. split; [reflexivity|]. split; [done|]. split; [exact Hm|]. split; [exact E3|exact Hd].
Defined.

Lemma selectDataForControl_progress_witness :
  exists o obs s', kv_selectDataForControl (PT := stamp_time) no_faults (At 1000) (-1) 0 (sample_kd false) = (inl (o :: obs), s').
Proof.
  destruct (selectDataForControl_progress (PT := stamp_time) no_faults (fun _ => eq_refl) (At 1000) (-1) 0 (sample_kd false)
    (sample_work_row 1) (sample_obs_row 1 302 12) eq_refl ltac:(by left) ltac:(by left) eq_refl eq_refl)
    as (o & obs & s' & E & _).
  by exists o, obs, s'.
Defined.
