(* ===== verification/ConnectionPool.v ===== *)
(** * ConnectionPool: connections that are used again (src/src/lib/kvdb/ConnectionPool.cc)

    The pool as a state machine. A connection is the number of the call of
    [createConnection_] that made it, which by its documentation makes a new one
    each time. Every operation holds the mutex, so the operations of several
    threads are steps one after the other. The state has what the pool holds, and
    beside it the connections that are handed out, each with the count that its
    deleter has captured, and those given to [releaseConnection_]. *)

From S2P Require Import Prelude.

#[local] Open Scope Z_scope.

Section ConnectionPool.
  Context (poolsize_ useCount_ : Z) (idleTimeout_ : Z).

(** An element of the pool: its timeout, the number of uses and the connection. *)
Record CacheElement := { ce_timeout : Z; ce_uses : Z; ce_connection : nat }.

Record ConnectionPool := {
  freeConnections_ : list CacheElement;
  handed_out : list (nat * Z);
  released : list nat;
  created : nat
}.

Definition ConnectionPool_new : ConnectionPool :=
  {| freeConnections_ := []; handed_out := []; released := []; created := 0 |}.

(** [get]: the connection and the new state. *)
Definition pool_get (s : ConnectionPool) : nat * ConnectionPool :=
  match freeConnections_ s with
  | c :: l =>
      (ce_connection c,
       {| freeConnections_ := l; handed_out := (ce_connection c, ce_uses c) :: handed_out s;
          released := released s; created := created s |})
  | [] =>
      (created s,
       {| freeConnections_ := []; handed_out := (created s, 0) :: handed_out s;
          released := released s; created := S (created s) |})
  end.

(** The deleter of the pointer that [get] returned, at the time [now]. *)
Definition pool_give_back (now : Z) (conUseCount : Z) (connection : nat) (s : ConnectionPool) : ConnectionPool :=
  let handed_out' := filter (fun h => h.1 <> connection) (handed_out s) in
  if (Z.of_nat (length (freeConnections_ s)) <? poolsize_) && (conUseCount <? useCount_)
  then {| freeConnections_ := freeConnections_ s ++
            [{| ce_timeout := now + idleTimeout_; ce_uses := conUseCount + 1; ce_connection := connection |}];
          handed_out := handed_out'; released := released s; created := created s |}
  else {| freeConnections_ := freeConnections_ s; handed_out := handed_out';
          released := released s ++ [connection]; created := created s |}.

(** The loop of [releaseIdleConnections]: what is released and what stays. *)
Fixpoint release_idle (now : Z) (l : list CacheElement) : list nat * list CacheElement :=
  match l with
  | [] => ([], [])
  | c :: l =>
      let '(r, k) := release_idle now l in
      if now <? ce_timeout c then (ce_connection c :: r, k) else (r, c :: k)
  end.

Definition releaseIdleConnections (now : Z) (s : ConnectionPool) : ConnectionPool :=
  let '(r, k) := release_idle now (freeConnections_ s) in
  {| freeConnections_ := k; handed_out := handed_out s; released := released s ++ r; created := created s |}.

(** The destructor, when nothing is handed out any more. *)
Definition pool_destroy (s : ConnectionPool) : ConnectionPool :=
  {| freeConnections_ := []; handed_out := handed_out s;
     released := released s ++ (ce_connection <$> freeConnections_ s); created := created s |}.

(** What the threads of a program can do with a pool. *)
Inductive pool_step : ConnectionPool -> ConnectionPool -> Prop :=
  | Get s : pool_step s (pool_get s).2
  | GiveBack s now c n : (c, n) ∈ handed_out s -> pool_step s (pool_give_back now n c s)
  | ReleaseIdle s now : pool_step s (releaseIdleConnections now s)
  | Destroy s : handed_out s = [] -> pool_step s (pool_destroy s).

(** ** The invariant *)

(** The connections that the pool accounts for. *)
Definition accounted (s : ConnectionPool) : list nat :=
  (ce_connection <$> freeConnections_ s) ++ (handed_out s).*1 ++ released s.

Record pool_inv (s : ConnectionPool) : Prop := {
  pi_accounted : accounted s ≡ₚ seq 0 (created s);
  pi_size : Z.of_nat (length (freeConnections_ s)) <= Z.max poolsize_ 0;
  pi_uses : Forall (fun c => 1 <= ce_uses c <= useCount_) (freeConnections_ s);
  pi_handed : Forall (fun h => 0 <= h.2 <= Z.max useCount_ 0) (handed_out s)
}.

Lemma pool_inv_new : pool_inv ConnectionPool_new.
Proof. split; [done|simpl; lia|constructor|constructor]. Qed.

Lemma accounted_nodup s : pool_inv s -> NoDup (accounted s).
Proof. intros []. rewrite pi_accounted0. apply NoDup_seq. Qed.

Lemma pool_inv_get s : pool_inv s -> pool_inv (pool_get s).2.
Proof.
  intros [Ha Hs Hu Hh]. unfold pool_get. unfold accounted in Ha.
  destruct (freeConnections_ s) as [|c l]; split; cbn [snd freeConnections_ handed_out released created accounted fst] in *;
    try done.
  - unfold accounted. cbn -[seq]. rewrite seq_S. cbn -[seq] in Ha. rewrite Ha. apply (Permutation_cons_append (seq 0 (created s)) (created s)).
  - constructor; [cbn; lia|done].
  - unfold accounted. cbn -[seq]. cbn -[seq] in Ha. rewrite <- Ha. symmetry. apply Permutation_middle.
  - simpl in Hs. lia.
  - by apply Forall_cons in Hu as [_ Hu].
  - apply Forall_cons in Hu as [Hu _]. constructor; [cbn; lia|done].
Qed.

(** Taking back one handle. *)
Lemma handed_out_split c n (l : list (nat * Z)) : (c, n) ∈ l -> NoDup l.*1 ->
  l.*1 ≡ₚ c :: (filter (fun h => h.1 <> c) l).*1.
Proof.
  induction l as [|[c' n'] l IH]; [by intros ?%elem_of_nil|]. rewrite fmap_cons. intros Hin [Hc Hnd]%NoDup_cons.
  rewrite filter_cons. cbn [fst] in *. apply elem_of_cons in Hin as [[= -> ->]|Hin].
  - rewrite decide_False by (intros H; by apply H). assert (filter (fun h : nat * Z => h.1 <> c') l = l) as ->; [|done].
    assert (Hne : Forall (fun h : nat * Z => h.1 <> c') l).
    { apply Forall_forall. intros h Hh E. apply Hc. rewrite <- E. by apply list_elem_of_fmap_2. }
    clear -Hne. induction Hne as [|h l Hh Hne IH]; [done|]. by rewrite filter_cons, decide_True, IH.
  - rewrite decide_True.
    + rewrite fmap_cons, (IH Hin Hnd). cbn [fst]. apply Permutation_swap.
    + intros ->. apply Hc. by apply (list_elem_of_fmap_2 fst) in Hin.
Qed.

Lemma pool_inv_give_back s now c n : (c, n) ∈ handed_out s -> pool_inv s -> pool_inv (pool_give_back now n c s).
Proof.
  intros Hin Hi. pose proof (accounted_nodup s Hi) as Hnd. destruct Hi as [Ha Hs Hu Hh].
  assert (Hsplit : (handed_out s).*1 ≡ₚ c :: (filter (fun h => h.1 <> c) (handed_out s)).*1).
  { apply (handed_out_split c n); [done|]. by apply NoDup_app in Hnd as (_ & _ & [Hnd _]%NoDup_app). }
  assert (Hn : 0 <= n <= Z.max useCount_ 0) by (rewrite Forall_forall in Hh; apply (Hh _ Hin)).
  assert (Hh' : Forall (fun h => 0 <= h.2 <= Z.max useCount_ 0) (filter (fun h => h.1 <> c) (handed_out s)))
    by (rewrite Forall_forall in Hh |- *; intros h [_ Hx]%list_elem_of_filter; auto).
  unfold pool_give_back. unfold accounted in Ha. rewrite Hsplit in Ha.
  destruct (_ && _) eqn:E; split; cbn [freeConnections_ handed_out released created]; try done.
  - unfold accounted. cbn [freeConnections_ handed_out released]. rewrite fmap_app, <- app_assoc. exact Ha.
  - rewrite length_app. simpl. lia.
  - apply Forall_app. split; [done|]. repeat constructor; simpl; lia.
  - unfold accounted. cbn [freeConnections_ handed_out released]. rewrite <- Ha.
    apply Permutation_app_head. rewrite app_assoc. symmetry. apply (Permutation_cons_append (_ ++ _) c).
Qed.

Lemma release_idle_spec now l :
  release_idle now l = (ce_connection <$> filter (fun c => now < ce_timeout c) l, filter (fun c => ce_timeout c <= now) l).
Proof.
  induction l as [|c l IH]; [done|]. cbn [release_idle]. rewrite IH, !filter_cons.
  destruct (Z.ltb_spec now (ce_timeout c)).
  - by rewrite decide_True, decide_False by lia.
  - by rewrite decide_False, decide_True by lia.
Qed.

Lemma filter_split_perm {A} (P Q : A -> Prop) `{!forall x, Decision (P x), !forall x, Decision (Q x)} (l : list A) :
  (forall x, Q x <-> ~ P x) -> l ≡ₚ filter P l ++ filter Q l.
Proof.
  intros HPQ. induction l as [|x l IH]; [done|]. rewrite !filter_cons. destruct (decide (P x)) as [Hp|Hp].
  - rewrite decide_False by (intros Hq; by apply HPQ in Hq). simpl. by constructor.
  - rewrite decide_True by (by apply HPQ). rewrite <- Permutation_middle. by constructor.
Qed.

Lemma pool_inv_release_idle s now : pool_inv s -> pool_inv (releaseIdleConnections now s).
Proof.
  intros [Ha Hs Hu Hh]. unfold releaseIdleConnections. rewrite release_idle_spec.
  split; cbn [freeConnections_ handed_out released created]; try done.
  - rewrite <- Ha. unfold accounted. cbn [freeConnections_ handed_out released].
    rewrite (filter_split_perm (fun c => now < ce_timeout c) (fun c => ce_timeout c <= now) (freeConnections_ s)) at 3 by (intros; lia).
    rewrite fmap_app. rewrite <- !app_assoc. rewrite (Permutation_app_comm (ce_connection <$> filter (fun c => now < ce_timeout c) _)).
    rewrite <- !app_assoc. done.
  - pose proof (length_filter (fun c => ce_timeout c <= now) (freeConnections_ s)). lia.
  - rewrite Forall_forall in Hu |- *. intros c [_ Hc]%list_elem_of_filter. auto.
Qed.

Lemma pool_inv_destroy s : handed_out s = [] -> pool_inv s -> pool_inv (pool_destroy s).
Proof.
  intros He [Ha Hs Hu Hh]. split; cbn [pool_destroy freeConnections_ handed_out released created]; try done.
  - rewrite <- Ha. unfold accounted. cbn [pool_destroy freeConnections_ handed_out released]. rewrite He. simpl.
    apply Permutation_app_comm.
  - simpl. lia.
Qed.

(** C32: Whatever threads do with a pool, it holds at most [poolsize_] connections,
    and every connection that was ever made is in exactly one place: in the pool,
    handed out once, or released once. *)
Theorem pool_invariant (s : ConnectionPool) :
  rtc pool_step ConnectionPool_new s ->
  Z.of_nat (length (freeConnections_ s)) <= Z.max poolsize_ 0 /\
  accounted s ≡ₚ seq 0 (created s) /\ NoDup (accounted s) /\
  Forall (fun h => 0 <= h.2 <= Z.max useCount_ 0) (handed_out s).
Proof.
  intros Hr. assert (Hi : pool_inv s).
  { revert s Hr. apply (rtc_ind_r (R := pool_step) (fun s => pool_inv s) ConnectionPool_new); [apply pool_inv_new|].
    intros s1 s2 _ Hstep IH. destruct Hstep;
      [by apply pool_inv_get|by apply pool_inv_give_back|by apply pool_inv_release_idle|by apply pool_inv_destroy]. }
  pose proof (accounted_nodup s Hi). by destruct Hi.
Qed.

(** Releasing idle connections does the opposite of what it is for: it releases
    the connections whose time has not come, and keeps those that have been idle
    for too long. *)
Theorem releaseIdleConnections_spec (now : Z) (s : ConnectionPool) :
  freeConnections_ (releaseIdleConnections now s) = filter (fun c => ce_timeout c <= now) (freeConnections_ s) /\
  released (releaseIdleConnections now s) =
    released s ++ (ce_connection <$> filter (fun c => now < ce_timeout c) (freeConnections_ s)).
Proof. unfold releaseIdleConnections. by rewrite release_idle_spec. Qed.

End ConnectionPool.

(** ** Instances *)

Lemma pool_invariant_witness :
  let s := pool_give_back 4 1000 60 10 0 0 (pool_get (pool_get ConnectionPool_new).2).2 in
  accounted s ≡ₚ seq 0 2.
Proof.
  cbv zeta. apply (pool_invariant 4 1000 60 (pool_give_back 4 1000 60 10 0 0 (pool_get (pool_get ConnectionPool_new).2).2)).
  eapply rtc_l; [apply Get|]. eapply rtc_l; [apply Get|]. eapply rtc_l; [apply (GiveBack 4 1000 60 _ 10 0 0)|done].
  right. by left.
Defined.

(** A connection is used once more than [useCount_] says. *)
Example used_once_more :
  let use s := pool_give_back 4 1 60 10 (from_option snd 0 (head (handed_out (pool_get s).2))) (pool_get s).1 (pool_get s).2 in
  ((pool_get ConnectionPool_new).1, (pool_get (use ConnectionPool_new)).1, released (use (use ConnectionPool_new)))
    = (0%nat, 0%nat, [0%nat]).
Proof. by vm_compute. Qed.
