(* ===== verification/PgConnection.v ===== *)
(** * Connections to PostgreSQL (src/src/lib/dbdrivers/pgsqldb.cc, src/src/lib/kvdb)

    Executing a statement, with its one attempt to reconnect and the classes of
    its errors, and performing a transaction, by the driver and by the class that
    drivers without an implementation of their own use. The client library and
    the server behind it are the class [Libpq] on a state [W], which is everything
    outside the program, the clock included. A transaction object is a record of
    its operations on a state [X]. The texts of errors are left out where they are
    only reported. *)

From S2P Require Import Prelude.

#[local] Open Scope Z_scope.

(** ** The client library *)

Inductive ExecStatusType := PGRES_COMMAND_OK | PGRES_TUPLES_OK | PGRES_EMPTY_QUERY | PGRES_FATAL_ERROR | PGRES_OTHER.

#[export] Instance ExecStatusType_eq_dec : EqDecision ExecStatusType.
Proof. solve_decision. Defined.

Record PGresult := {
  pr_status : ExecStatusType;
  pr_message : string;
  pr_sqlstate : option string;
  pr_tuples : list (list string)
}.

Class Libpq (W : Type) := {
  (** [PQstatus(con) == CONNECTION_OK] *)
  pq_connected : W -> bool;
  PQreset : W -> W;
  (** no result is the null pointer *)
  PQexec : string -> W -> option PGresult * W;
  pq_time : W -> Z
}.

(** ** kvdb.h: the classes of exceptions, with their error code *)

Inductive sql_exn :=
  | SQLNotConnected
  | SQLException_ (errorCode : string) (mayRecover : bool)
  | SQLUnrecoverable (errorCode : string)
  | SQLDuplicate (errorCode : string)
  | SQLAborted_ (errorCode : string)
  | SQLSerializeError_ (errorCode : string) (deadLockDetected : bool).

(** What a step can end with: an exception of the database, another standard
    exception, an unknown one, or undefined behaviour. *)
Inductive failure := Sql (e : sql_exn) | Std | Unknown | Undefined.

Definition contains (needle s : string) : bool := bool_decide (is_Some (String.index 0 needle s)).

Section PGConnection.
  Context {W : Type} {PQ : Libpq W}.
  (** [con]: whether the constructor got a connection. *)
  Context (con : bool).

Definition isConnected (w : W) : bool := con && pq_connected w.

Definition tryReconnect (w : W) : bool * W :=
  if con then let w := PQreset w in (pq_connected w, w) else (false, w).

(** The loop that [exec] and [execQuery] share: a statement that fails because the
    connection is lost is sent again, once, after a reconnect. *)
Fixpoint send (n : nat) (query : string) (w : W) : (option PGresult + failure) * W :=
  match n with
  | O => (inl None, w)
  | S n =>
      let '(ok, w) := if isConnected w then (true, w) else tryReconnect w in
      if negb ok then (inr (Sql SQLNotConnected), w)
      else
        let '(p, w) := PQexec query w in
        let status := match p with Some r => pr_status r | None => PGRES_FATAL_ERROR end in
        if bool_decide (status = PGRES_FATAL_ERROR) && negb (isConnected w) then send n query w
        else (inl p, w)
  end.

(** The exception for a result that is an error. A result without an error code
    gives a null pointer to the constructor of [std::string]. *)
Definition error_of (p : PGresult) : failure :=
  match pr_sqlstate p with
  | None => Undefined
  | Some errorCode =>
      if bool_decide (errorCode = "40001"%string) || bool_decide (errorCode = "40P01"%string)
      then Sql (SQLSerializeError_ errorCode (bool_decide (errorCode = "40P01"%string)))
      else if contains "duplicate" (pr_message p) && contains "key" (pr_message p) then Sql (SQLDuplicate errorCode)
      else if (2 <=? String.length errorCode)%nat then
        let errClass := String.substring 0 2 errorCode in
        if bool_decide (errClass = "22"%string) || bool_decide (errClass = "42"%string)
        then Sql (SQLUnrecoverable errorCode) else Sql (SQLAborted_ errorCode)
      else Sql (SQLAborted_ errorCode)
  end.

Definition pg_exec (query : string) (w : W) : (unit + failure) * W :=
  if negb con then (inr (Sql SQLNotConnected), w)
  else match send 2 query w with
       | (inr e, w) => (inr e, w)
       | (inl None, w) => (inr (Sql (SQLException_ "" true)), w)
       | (inl (Some p), w) =>
           match pr_status p with
           | PGRES_COMMAND_OK | PGRES_TUPLES_OK => (inl tt, w)
           | _ => (inr (error_of p), w)
           end
       end.

(** The rows, or the null pointer for a statement without any. *)
Definition pg_execQuery (query : string) (w : W) : (option (list (list string)) + failure) * W :=
  if negb con then (inr (Sql SQLNotConnected), w)
  else match send 2 query w with
       | (inr e, w) => (inr e, w)
       | (inl None, w) => (inr (Sql (SQLException_ "" true)), w)
       | (inl (Some p), w) =>
           match pr_status p with
           | PGRES_TUPLES_OK => (inl (Some (pr_tuples p)), w)
           | PGRES_COMMAND_OK | PGRES_EMPTY_QUERY => (inl None, w)
           | _ => (inr (error_of p), w)
           end
       end.

Inductive IsolationLevel := SERIALIZABLE | READ_COMMITTED | READ_UNCOMMITTED | REPEATABLE_READ.

Definition start_transaction (isolation : IsolationLevel) : string :=
  match isolation with
  | SERIALIZABLE => "START TRANSACTION ISOLATION LEVEL SERIALIZABLE"
  | READ_COMMITTED => "START TRANSACTION ISOLATION LEVEL READ COMMITTED"
  | READ_UNCOMMITTED => "START TRANSACTION ISOLATION LEVEL READ UNCOMMITTED"
  | REPEATABLE_READ => "START TRANSACTION ISOLATION LEVEL REPEATABLE READ"
  end.

Definition pg_endTransaction := pg_exec "END".
Definition pg_rollBack := pg_exec "ROLLBACK".

(** ** [Transaction] *)

Record Transaction (X : Type) := {
  t_run : X -> W -> (bool + failure) * (X * W);
  t_onSuccess : X -> X;
  t_onFailure : X -> X;
  t_onAbort : X -> X;
  t_onRetry : X -> (unit + failure) * X;
  t_onMaxRetry : string -> bool -> X -> (unit + failure) * X
}.
Arguments t_run {X}. Arguments t_onSuccess {X}. Arguments t_onFailure {X}.
Arguments t_onAbort {X}. Arguments t_onRetry {X}. Arguments t_onMaxRetry {X}.

(** [Transaction::onMaxRetry], which subclasses may redefine. *)
Definition default_onMaxRetry {X} (errorCode : string) (mayRecover : bool) (x : X) : (unit + failure) * X :=
  (inr (Sql (SQLException_ errorCode mayRecover)), x).

(** [Transaction::onRetry] does nothing. *)
Definition default_onRetry {X} (x : X) : (unit + failure) * X := (inl tt, x).

Section perform.
  Context {X : Type} (t : Transaction X).

(** The body of the [try]: the transaction and its end. *)
Definition attempt_transaction (x : X) (w : W) : (unit + failure) * (X * W) :=
  match t_run t x w with
  | (inr e, xw) => (inr e, xw)
  | (inl true, (x, w)) =>
      let x := t_onSuccess t x in
      let '(r, w) := pg_endTransaction w in (r, (x, w))
  | (inl false, (x, w)) =>
      let x := t_onFailure t x in
      let '(r, w) := pg_rollBack w in (r, (x, w))
  end.

(** ** [PGPimpel::perform] *)

Record perform_state := { retry : Z; start : Z; mayRecover : bool; errorCode_ : string }.

(** The [catch] clauses; [now] is the time when they run. *)
Definition handle (e : failure) (now : Z) (l : perform_state) (x : X) : perform_state * X :=
  match e with
  | Sql (SQLSerializeError_ _ deadLockDetected) =>
      ((if deadLockDetected && (20 <? now - start l)
        then {| retry := retry l - 1; start := now; mayRecover := mayRecover l; errorCode_ := errorCode_ l |} else l),
       t_onAbort t x)
  | Sql (SQLAborted_ _) =>
      ({| retry := retry l - 1; start := start l; mayRecover := mayRecover l; errorCode_ := errorCode_ l |}, t_onAbort t x)
  | Sql (SQLUnrecoverable code) | Sql (SQLException_ code _) | Sql (SQLDuplicate code) =>
      ({| retry := 0; start := start l; mayRecover := false; errorCode_ := code |}, x)
  | Sql SQLNotConnected => ({| retry := 0; start := start l; mayRecover := false; errorCode_ := "" |}, x)
  | _ => ({| retry := retry l - 1; start := start l; mayRecover := mayRecover l; errorCode_ := errorCode_ l |}, x)
  end.

(** The loop. [None] is the end of the fuel. *)
Fixpoint perform_loop (fuel : nat) (isolation : IsolationLevel) (l : perform_state) (x : X) (w : W)
    : option ((unit + failure) * (X * W)) :=
  match fuel with
  | O => None
  | S fuel =>
      if retry l <=? 0 then
        let '(r, x) := t_onMaxRetry t (errorCode_ l) (mayRecover l) x in Some (r, (x, w))
      else
        let l := {| retry := retry l; start := start l; mayRecover := true; errorCode_ := "" |} in
        match pg_exec (start_transaction isolation) w with
        | (inr Undefined, w) => Some (inr Undefined, (x, w))
        | (inr _, w) =>
            let '(ok, w) := tryReconnect w in
            if ok then
              perform_loop fuel isolation
                {| retry := retry l - 1; start := start l; mayRecover := true; errorCode_ := "" |} x w
            else let '(r, x) := t_onMaxRetry t (errorCode_ l) (mayRecover l) x in Some (r, (x, w))
        | (inl _, w) =>
            match attempt_transaction x w with
            | (inl _, xw) => Some (inl tt, xw)
            | (inr Undefined, xw) => Some (inr Undefined, xw)
            | (inr e, (x, w)) =>
                let '(l, x) := handle e (pq_time w) l x in
                let again l x w := match t_onRetry t x with
                                   | (inl _, x) => perform_loop fuel isolation l x w
                                   | (inr e, x) => Some (inr e, (x, w))
                                   end in
                match pg_rollBack w with
                | (inl _, w) => again l x w
                | (inr Undefined, w) => Some (inr Undefined, (x, w))
                | (inr _, w) => again l x (tryReconnect w).2
                end
            end
        end
  end.

Definition pg_perform (fuel : nat) (retry : Z) (isolation : IsolationLevel) (x : X) (w : W)
    : option ((unit + failure) * (X * W)) :=
  perform_loop fuel isolation
    {| retry := if retry <=? 0 then 1 else retry; start := pq_time w; mayRecover := true; errorCode_ := "" |} x w.

(** ** [Connection::perform], for drivers without one of their own *)

Section general.
  Context (beginTransaction endTransaction rollBack : W -> (unit + failure) * W).

Definition general_attempt (x : X) (w : W) : (unit + failure) * (X * W) :=
  match t_run t x w with
  | (inr e, xw) => (inr e, xw)
  | (inl true, (x, w)) => let x := t_onSuccess t x in let '(r, w) := endTransaction w in (r, (x, w))
  | (inl false, (x, w)) => let x := t_onFailure t x in let '(r, w) := rollBack w in (r, (x, w))
  end.

(** The number of attempts that are left, the error code and whether to recover,
    after an exception. *)
Definition general_handle (e : failure) (retry : nat) (x : X) : nat * string * bool * X :=
  match e with
  | Sql (SQLAborted_ _) => (retry, ""%string, true, t_onAbort t x)
  | Sql (SQLUnrecoverable code) => (O, code, false, x)
  | Sql (SQLException_ _ false) => (O, ""%string, true, x)
  | Sql _ => (retry, ""%string, true, t_onAbort t x)
  | _ => (retry, ""%string, true, x)
  end.

(** The loop, with [retry] attempts left. Exceptions of the beginning and of the
    roll back leave it. *)
Fixpoint general_loop (retry : nat) (code : string) (recover : bool) (x : X) (w : W) : (unit + failure) * (X * W) :=
  let gives_in code recover x w := let '(r, x) := t_onMaxRetry t code recover x in (r, (x, w)) in
  match retry with
  | O => gives_in code recover x w
  | S retry =>
      match beginTransaction w with
      | (inr Undefined, w) => (inr Undefined, (x, w))
      | (inr _, w) => gives_in ""%string true x w
      | (inl _, w) =>
          match general_attempt x w with
          | (inl _, xw) => (inl tt, xw)
          | (inr Undefined, xw) => (inr Undefined, xw)
          | (inr e, (x, w)) =>
              let '(remaining, code, recover, x) := general_handle e retry x in
              match rollBack w with
              | (inr Undefined, w) => (inr Undefined, (x, w))
              | (inr _, w) => gives_in code recover x w
              | (inl _, w) =>
                  match remaining with
                  | O => gives_in code recover x w
                  | S _ => general_loop retry code recover x w
                  end
              end
          end
      end
  end.

Definition general_perform (retry : Z) (x : X) (w : W) : (unit + failure) * (X * W) :=
  general_loop (Z.to_nat (Z.max retry 1)) ""%string true x w.

End general.
End perform.
End PGConnection.

Arguments t_run {W X}. Arguments t_onSuccess {W X}. Arguments t_onFailure {W X}.
Arguments t_onAbort {W X}. Arguments t_onRetry {W X}. Arguments t_onMaxRetry {W X}.

(** ** Properties: ending *)

(** [n] is enough fuel: with it or more the function gives one result. *)
Definition enough {B} (n : nat) (f : nat -> option B) : Prop := exists r, forall fuel, (n <= fuel)%nat -> f fuel = Some r.

Lemma enough_step {B} n (f : nat -> option B) : enough n (fun fuel => f (S fuel)) -> enough (S n) f.
Proof. intros [r H]. exists r. intros [|fuel] Hf; [lia|]. apply H. lia. Qed.

Lemma enough_some {B} n (r : B) : enough n (fun _ => Some r).
Proof. by exists r. Qed.

(** Some fuel is enough. *)
Definition settles {B} (f : nat -> option B) : Prop := exists n, enough n f.

Lemma settles_some {B} (r : B) : settles (fun _ => Some r).
Proof. exists O. apply enough_some. Qed.

(** It is enough that what follows the first [n] settles. *)
Lemma settles_after {B} n (f g : nat -> option B) : (forall fuel, (n <= fuel)%nat -> f fuel = g fuel) -> settles g -> settles f.
Proof.
  intros Hf (n' & r & Hg). exists (Nat.max n n'), r. intros fuel Hn. rewrite Hf by lia. apply Hg. lia.
Qed.

Lemma enough_more {B} n n' (f : nat -> option B) : enough n f -> (n <= n')%nat -> enough n' f.
Proof. intros [r H] Hn. exists r. intros fuel Hf. apply H. lia. Qed.

(** A call in front of what is left: [H] is that the call settles. *)
Ltac settle_call H :=
  let n := fresh "n" in let r := fresh "r" in let Hr := fresh "Hr" in
  destruct H as (n & r & Hr);
  eapply (settles_after n); [intros ? ?; rewrite Hr by assumption; reflexivity|];
  clear Hr; revert r.

Section termination.
  Context {W : Type} {PQ : Libpq W} {X : Type} (con : bool) (t : Transaction (W := W) X).

Definition serialization_failure (e : failure) : bool :=
  match e with Sql (SQLSerializeError_ _ _) => true | _ => false end.

(** What the loop needs to end: the serialization errors do not go on for ever.
    [left_] bounds those that are still to come before an attempt succeeds: what is
    done between two attempts does not raise it, and an attempt that meets one
    lowers it. *)
Class SerializationBudget (isolation : IsolationLevel) (left_ : W -> nat) := {
  sb_start w : (left_ (pg_exec con (start_transaction isolation) w).2 <= left_ w)%nat;
  sb_rollback w : (left_ (pg_rollBack con w).2 <= left_ w)%nat;
  sb_reset w : (left_ (tryReconnect con w).2 <= left_ w)%nat;
  sb_attempt x w : match attempt_transaction con t x w with
                   | (inr e, (_, w')) => (left_ w' + (if serialization_failure e then 1 else 0) <= left_ w)%nat
                   | (inl _, _) => True
                   end
}.

Context (isolation : IsolationLevel) (left_ : W -> nat) {SB : SerializationBudget isolation left_}.

Lemma handle_retry e now l x : 0 < retry l ->
  (Z.to_nat (retry (handle t e now l x).1) + 1 <= Z.to_nat (retry l) + (if serialization_failure e then 1 else 0))%nat.
Proof. destruct e as [[]| | |]; simpl; intros Hl; try lia. destruct (_ && _); simpl; lia. Qed.

Lemma perform_loop_enough n l x w : (Z.to_nat (retry l) + left_ w < n)%nat ->
  enough n (fun fuel => perform_loop con t fuel isolation l x w).
Proof.
  revert l x w. induction n as [|n IH]; intros l x w Hl; [lia|].
  apply enough_step. cbn [perform_loop]. destruct (Z.leb_spec (retry l) 0) as [H0|H0]; [destruct (t_onMaxRetry _ _ _ _); apply enough_some|].
  pose proof (sb_start w) as Hs. pose proof sb_reset as Hrec.
  destruct (pg_exec con (start_transaction isolation) w) as [[[]|e] w1]; cbn [snd] in Hs.
  - pose proof (sb_attempt x w1) as Hx. destruct (attempt_transaction con t x w1) as [[[]|e] [x2 w2]]; [apply enough_some|].
    pose proof (sb_rollback w2) as Hrb.
    assert (Hr : forall w3, (left_ w3 <= left_ w2)%nat -> enough n (fun fuel =>
      let '(l0, x0) := handle t e (pq_time w2) {| retry := retry l; start := start l; mayRecover := true; errorCode_ := "" |} x2 in
       match t_onRetry t x0 with
       | (inl _, x) => perform_loop con t fuel isolation l0 x w3
       | (inr e, x) => Some (inr e, (x, w3))
       end)).
    { intros w3 H3. pose proof (handle_retry e (pq_time w2)
        {| retry := retry l; start := start l; mayRecover := true; errorCode_ := "" |} x2 H0) as Hh. cbn [retry] in Hh.
      destruct (handle _ _ _ _ _) as [l0 x0]. cbn [fst] in Hh. destruct (t_onRetry t x0) as [[] x3]; [|apply enough_some]. apply IH. lia. }
    assert (Hr2 : forall w3, (left_ w3 <= left_ w2)%nat -> enough n (fun fuel =>
      let '(l0, x0) := handle t e (pq_time w2) {| retry := retry l; start := start l; mayRecover := true; errorCode_ := "" |} x2 in
       match t_onRetry t x0 with
       | (inl _, x) => perform_loop con t fuel isolation l0 x (tryReconnect con w3).2
       | (inr e, x) => Some (inr e, (x, (tryReconnect con w3).2))
       end)).
    { intros w3 H3. apply Hr. specialize (Hrec w3). lia. }
    destruct e as [e| | |]; [..|apply enough_some];
      destruct (handle _ _ _ _ _) as [l0 x0]; destruct (pg_rollBack con w2) as [[u|[]] w3]; cbn [snd] in Hrb;
      first [by apply Hr | by apply Hr2 | apply enough_some].
  - specialize (Hrec w1). destruct e; [..|apply enough_some];
      (destruct (tryReconnect con w1) as [[] w2]; [apply IH; simpl in *; lia|destruct (t_onMaxRetry _ _ _ _); apply enough_some]).
Qed.

(** Performing a transaction ends when it does not meet serialization errors for
    ever: as many rounds as there are attempts and such errors, and one to give up,
    are enough. *)
Theorem pg_perform_terminates (n : Z) (x : X) (w : W) :
  enough (S (Z.to_nat (Z.max n 1) + left_ w)) (fun fuel => pg_perform con t fuel n isolation x w).
Proof.
  apply (perform_loop_enough (S (Z.to_nat (Z.max n 1) + left_ w)) _ x w). cbn [retry]. destruct (Z.leb_spec n 0); lia.
Qed.

End termination.

Section livelock.
  Context {W : Type} {PQ : Libpq W} {X : Type} (con : bool) (t : Transaction (W := W) X).

(** Serialization errors that are not deadlocks do not count: a transaction
    that always meets one is attempted for ever, whatever the number of attempts
    that was asked for. *)
Theorem pg_perform_livelock (n : Z) (isolation : IsolationLevel) (x : X) (w : W) (code : string) :
  (forall w, (pg_exec con (start_transaction isolation) w).1 = inl tt) ->
  (forall w, (pg_rollBack con w).1 = inl tt) ->
  (forall x w, (attempt_transaction con t x w).1 = inr (Sql (SQLSerializeError_ code false))) ->
  (forall x, (t_onRetry t x).1 = inl tt) ->
  forall fuel, pg_perform con t fuel n isolation x w = None.
Proof.
  intros Hb Hr Ht Hy fuel. unfold pg_perform.
  assert (H : forall l, 0 < retry l -> perform_loop con t fuel isolation l x w = None).
  { revert x w. induction fuel as [|fuel IH]; intros x w l Hl; [done|]. cbn [perform_loop].
    destruct (Z.leb_spec (retry l) 0); [lia|].
    specialize (Hb w). destruct (pg_exec con _ w) as [r1 w1]. simpl in Hb. subst r1.
    specialize (Ht x w1). destruct (attempt_transaction con t x w1) as [r2 [x2 w2]]. simpl in Ht. subst r2.
    cbn [handle andb]. specialize (Hr w2). destruct (pg_rollBack con w2) as [r3 w3]. simpl in Hr. subst r3.
    specialize (Hy (t_onAbort t x2)). destruct (t_onRetry t (t_onAbort t x2)) as [r4 x4]. simpl in Hy. subst r4.
    by apply IH. }
  apply H. cbn [retry]. destruct (Z.leb_spec n 0); lia.
Qed.

End livelock.

(** ** Properties: transactions on the server *)

(** A statement without an answer, or with one that is an error. *)
Definition refused (p : option PGresult) : Prop :=
  match p with Some r => pr_status r <> PGRES_COMMAND_OK /\ pr_status r <> PGRES_TUPLES_OK | None => True end.

(** What the server documents. [committed] is what others see; only an [END] that is
    not refused changes it, and nothing does while a transaction is begun, rolled
    back or dropped with its connection. [lost] says that the connection has been
    lost at some time: a connection that is not there was lost, and what was lost
    once stays so, whatever is opened after it. *)
Class PgServer {W A : Type} (PQ : Libpq W) (committed : W -> A) (in_transaction lost : W -> Prop) := {
  ps_lost_exec query w : lost w -> lost (PQexec query w).2;
  ps_lost_reset w : lost w -> lost (PQreset w);
  ps_lost w : pq_connected w = false -> lost w;
  ps_start isolation w : committed (PQexec (start_transaction isolation) w).2 = committed w;
  ps_started isolation w : ~ refused (PQexec (start_transaction isolation) w).1 ->
    in_transaction (PQexec (start_transaction isolation) w).2;
  ps_rollback w : committed (PQexec "ROLLBACK" w).2 = committed w;
  ps_reset w : committed (PQreset w) = committed w;
  ps_end_refused w : refused (PQexec "END" w).1 ->
    lost (PQexec "END" w).2 \/ committed (PQexec "END" w).2 = committed w
}.

(** What holds after going from [w] to [w'] unless the connection is lost. *)
Definition unless_lost {W : Type} (lost : W -> Prop) (w w' : W) (P : Prop) : Prop :=
  (lost w -> lost w') /\ (lost w' \/ P).

Lemma unless_done {W} (lost : W -> Prop) w (P : Prop) : P -> unless_lost lost w w P.
Proof. intros H. split; [done|by right]. Qed.

Lemma unless_mono {W} (lost : W -> Prop) w w' (P Q : Prop) : unless_lost lost w w' P -> (P -> Q) -> unless_lost lost w w' Q.
Proof. intros [H [H2|H2]] HQ; (split; [done|]); [by left|right; by apply HQ]. Qed.

Lemma unless_trans {W} (lost : W -> Prop) w w1 w2 (P Q R : Prop) :
  unless_lost lost w w1 P -> unless_lost lost w1 w2 Q -> (P -> Q -> R) -> unless_lost lost w w2 R.
Proof. intros [H1 E1] [H2 E2] HR. split; [tauto|]. destruct E1, E2; tauto. Qed.

Lemma unless_lasts {W} (lost : W -> Prop) w w' (P : Prop) : unless_lost lost w w' P -> ~ lost w' -> P /\ ~ lost w.
Proof. intros [H [H2|H2]] Hn; [done|]. split; [done|tauto]. Qed.

(** From [w] to [w'] nothing is committed, unless the connection is lost. *)
Definition keeps {W A : Type} (committed : W -> A) (lost : W -> Prop) (w w' : W) : Prop :=
  unless_lost lost w w' (committed w' = committed w).

#[export] Instance keeps_preorder {W A} (committed : W -> A) lost : PreOrder (keeps committed lost).
Proof.
  split; [intros w; by apply unless_done|]. intros w w1 w2 H1 H2. eapply unless_trans; [exact H1|exact H2|]. congruence.
Qed.

Section server.
  Context {W A : Type} {PQ : Libpq W} (committed : W -> A) (in_transaction lost : W -> Prop)
          {PS : PgServer PQ committed in_transaction lost}.
  #[local] Abbreviation keeps := (keeps committed lost).

Lemma keeps_committed w w' : keeps w w' -> ~ lost w' -> committed w' = committed w.
Proof. intros [_ [H|H]]; [done|by intros _]. Qed.

Lemma keeps_lasts w w' : keeps w w' -> ~ lost w' -> ~ lost w.
Proof. intros [H _] Hn Hl. tauto. Qed.

Lemma keeps_lost w w' : lost w' -> keeps w w'.
Proof. intros H. split; [done|by left]. Qed.

Lemma send_lost n query w : lost w -> lost (send true n query w).2.
Proof.
  revert w. induction n as [|n IH]; intros w Hw; [done|]. cbn [send].
  assert (H : lost (if isConnected true w then (true, w) else tryReconnect true w).2)
    by (destruct (isConnected true w); [done|by apply ps_lost_reset]).
  destruct (if isConnected true w then _ else _) as [[] w1]; [|done]. cbn [negb snd] in *.
  pose proof (ps_lost_exec query w1 H) as H2. destruct (PQexec query w1) as [p w2].
  destruct (_ && _); [by apply IH|done].
Qed.

(** A statement that the connection survives is sent once. *)
Lemma send_once n query w :
  lost (send true (S n) query w).2 \/
  send true (S n) query w = (inl (PQexec query w).1, (PQexec query w).2) /\ pq_connected w = true.
Proof.
  destruct (pq_connected w) eqn:Ec; [|left; by apply send_lost, ps_lost]. cbn [send]. unfold isConnected at 1 3. rewrite Ec. cbn [andb negb].
  destruct (PQexec query w) as [p w1]. destruct (_ && _) eqn:Eb; [|by right].
  left. apply andb_prop in Eb as [_ Eb%negb_true_iff]. by apply send_lost, ps_lost.
Qed.

Lemma pg_exec_lost query w : lost w -> lost (pg_exec true query w).2.
Proof.
  intros Hw. pose proof (send_lost 2 query w Hw) as H. unfold pg_exec. cbn [negb].
  destruct (send true 2 query w) as [[[p|]|e] w1]; [by destruct (pr_status p)|done..].
Qed.

Lemma pg_execQuery_lost query w : lost w -> lost (pg_execQuery true query w).2.
Proof.
  intros Hw. pose proof (send_lost 2 query w Hw) as H. unfold pg_execQuery. cbn [negb].
  destruct (send true 2 query w) as [[[p|]|e] w1]; [by destruct (pr_status p)|done..].
Qed.

(** Executing it is then a success exactly when the server does not refuse it. *)
Lemma pg_exec_once query w :
  lost (pg_exec true query w).2 \/
  (pg_exec true query w).2 = (PQexec query w).2 /\
  match (pg_exec true query w).1 with
  | inl _ => ~ refused (PQexec query w).1
  | inr _ => refused (PQexec query w).1
  end.
Proof.
  destruct (send_once 1 query w) as [H|[H _]].
  - left. revert H. unfold pg_exec. cbn [negb].
    destruct (send true 2 query w) as [[[p|]|e] w1]; [by destruct (pr_status p)|done..].
  - right. unfold pg_exec. cbn [negb]. rewrite H. destruct (PQexec query w) as [[p|] w1]; [|done]. simpl.
    destruct (pr_status p); (split; [done|]); simpl; (by split) || (by intros [? ?]).
Qed.

Lemma pg_execQuery_once query w :
  lost (pg_execQuery true query w).2 \/ (pg_execQuery true query w).2 = (PQexec query w).2.
Proof.
  destruct (send_once 1 query w) as [H|[H _]].
  - left. revert H. unfold pg_execQuery. cbn [negb].
    destruct (send true 2 query w) as [[[p|]|e] w1]; [by destruct (pr_status p)|done..].
  - right. unfold pg_execQuery. cbn [negb]. rewrite H. destruct (PQexec query w) as [[p|] w1]; simpl; [|done]. by destruct (pr_status p).
Qed.

Lemma pg_exec_keeps query w : committed (PQexec query w).2 = committed w -> keeps w (pg_exec true query w).2.
Proof.
  intros H. split; [apply pg_exec_lost|]. destruct (pg_exec_once query w) as [?|[-> _]]; [by left|by right].
Qed.

Lemma pg_execQuery_keeps query w : committed (PQexec query w).2 = committed w -> keeps w (pg_execQuery true query w).2.
Proof.
  intros H. split; [apply pg_execQuery_lost|]. destruct (pg_execQuery_once query w) as [?| ->]; [by left|by right].
Qed.

Lemma start_keeps isolation w : keeps w (pg_exec true (start_transaction isolation) w).2.
Proof. apply pg_exec_keeps, ps_start. Qed.

Lemma rollBack_keeps w : keeps w (pg_rollBack true w).2.
Proof. apply pg_exec_keeps, ps_rollback. Qed.

Lemma reconnect_keeps w : keeps w (tryReconnect true w).2.
Proof. split; [apply ps_lost_reset|right; apply ps_reset]. Qed.

Lemma end_fails_keeps w : (pg_endTransaction true w).1 <> inl tt -> keeps w (pg_endTransaction true w).2.
Proof.
  intros H. split; [apply pg_exec_lost|]. unfold pg_endTransaction in *.
  destruct (pg_exec_once "END" w) as [?|[E Hr]]; [by left|]. rewrite E in *. destruct (pg_exec true "END" w).1 as [[]|e]; [done|].
  by apply ps_end_refused.
Qed.

(** Where a transaction may run: inside of one, or anywhere once the connection was
    lost. *)
Definition usable (w : W) : Prop := lost w \/ in_transaction w.

Lemma started_usable isolation w : (pg_exec true (start_transaction isolation) w).1 = inl tt ->
  usable (pg_exec true (start_transaction isolation) w).2.
Proof.
  intros H. destruct (pg_exec_once (start_transaction isolation) w) as [?|[E Hr]]; [by left|]. right.
  rewrite H in Hr. rewrite E. by apply ps_started.
Qed.

(** A statement that does not end the transaction that it is in. *)
Definition statement_inside (query : string) : Prop := forall w, in_transaction w ->
  committed (PQexec query w).2 = committed w /\ usable (PQexec query w).2.

Lemma statement_keeps query w : statement_inside query -> usable w ->
  keeps w (pg_exec true query w).2 /\ usable (pg_exec true query w).2.
Proof.
  intros Hq [Hw|Hw]; [split; [apply keeps_lost|left]; by apply pg_exec_lost|].
  destruct (Hq w Hw) as [Hc Hu]. split; [by apply pg_exec_keeps|].
  destruct (pg_exec_once query w) as [?|[-> _]]; [by left|done].
Qed.

Section perform.
  Context {X : Type} (t : Transaction (W := W) X).
  (** The statements of the transaction are not commits. *)
  Context (Hrun : forall x w, usable w -> keeps w (t_run t x w).2.2).

Lemma attempt_lost x w : lost w -> lost (attempt_transaction true t x w).2.2.
Proof.
  intros Hw. unfold attempt_transaction. pose proof (Hrun x w (or_introl Hw)) as [H _]. specialize (H Hw).
  destruct (t_run t x w) as [[[]|e] [x1 w1]]; simpl in H; [| |done].
  - pose proof (pg_exec_lost "END" w1 H) as H2. unfold pg_endTransaction. by destruct (pg_exec true "END" w1).
  - pose proof (pg_exec_lost "ROLLBACK" w1 H) as H2. unfold pg_rollBack. by destruct (pg_exec true "ROLLBACK" w1).
Qed.

Lemma attempt_fails_keeps x w e x' w' : usable w -> attempt_transaction true t x w = (inr e, (x', w')) -> keeps w w'.
Proof.
  intros Hw. unfold attempt_transaction. specialize (Hrun x w Hw). destruct (t_run t x w) as [[[]|e'] [x1 w1]]; simpl in Hrun.
  - pose proof (end_fails_keeps w1) as H. destruct (pg_endTransaction true w1) as [r w2]. intros [= -> <- <-].
    etransitivity; [exact Hrun|]. by apply H.
  - pose proof (rollBack_keeps w1) as H. destruct (pg_rollBack true w1) as [r w2]. intros [= -> <- <-].
    by etransitivity.
  - by intros [= -> <- <-].
Qed.

(** How performing can end, with [P] the objects that the attempts may begin with:
    without a change, with success only if [onMaxRetry] says so; or by an attempt
    that succeeds, in a transaction that begins where [w] is. *)
Section outcome.
  Context (isolation : IsolationLevel) (P : X -> Prop).
  Context (HP : forall x w, usable w -> P x -> P (attempt_transaction true t x w).2.1 \/ lost (attempt_transaction true t x w).2.2)
          (HPa : forall x, P x -> P (t_onAbort t x)) (HPr : forall x, P x -> P (t_onRetry t x).2).

Definition quiet (w : W) (r : (unit + failure) * (X * W)) : Prop :=
  keeps w r.2.2 /\ (r.1 = inl tt -> exists code b x, (t_onMaxRetry t code b x).1 = inl tt).

Definition done_by (w : W) (r : (unit + failure) * (X * W)) : Prop :=
  r.1 = inl tt /\ exists x0 w0, P x0 /\ keeps w w0 /\
    (pg_exec true (start_transaction isolation) w0).1 = inl tt /\
    attempt_transaction true t x0 (pg_exec true (start_transaction isolation) w0).2 = r.

Definition ends (w : W) (r : (unit + failure) * (X * W)) : Prop :=
  (lost w -> lost r.2.2) /\ (lost r.2.2 \/ quiet w r \/ done_by w r).

Lemma ends_after w w' r : keeps w w' -> ends w' r -> ends w r.
Proof.
  intros K [Hl H]. split; [destruct K; tauto|]. destruct H as [H|[[Hk H]|(Hr & x0 & w0 & Hx & Hk & H)]]; [by left| |].
  - right; left. split; [by etransitivity|done].
  - right; right. split; [done|]. exists x0, w0. split; [done|]. split; [by etransitivity|done].
Qed.

Lemma quiet_ends w r : quiet w r -> ends w r.
Proof. intros H. split; [apply H|]. right. by left. Qed.

Lemma gives_in_ends code b (x : X) w : ends w (let '(r, x) := t_onMaxRetry t code b x in (r, (x, w))).
Proof.
  apply quiet_ends. destruct (t_onMaxRetry t code b x) as [r x'] eqn:E. split; [done|]. simpl. intros ->.
  exists code, b, x. by rewrite E.
Qed.

Lemma fails_ends e (x : X) w : ends w (inr e, (x, w)).
Proof. by apply quiet_ends. Qed.

Lemma handle_keeps e now l x : P x -> P (handle t e now l x).2.
Proof. intros Hx. destruct e as [[]| | |]; simpl; auto. Qed.

(** What is tried again; once the connection was lost, it stays so. *)
Lemma perform_loop_lost fuel l x w r : lost w -> perform_loop true t fuel isolation l x w = Some r -> lost r.2.2.
Proof.
  revert l x w. induction fuel as [|fuel IH]; intros l x w Hw E; [done|]. cbn [perform_loop] in E.
  destruct (retry l <=? 0); [destruct (t_onMaxRetry _ _ _ _); by injection E as <-|].
  pose proof (pg_exec_lost (start_transaction isolation) w Hw) as H1.
  assert (Hrec : forall w1, lost w1 -> lost (tryReconnect true w1).2) by (intros w1 H; by apply ps_lost_reset).
  destruct (pg_exec true (start_transaction isolation) w) as [[u|e] w1]; cbn [snd] in H1.
  - pose proof (attempt_lost x w1 H1) as H2. destruct (attempt_transaction true t x w1) as [[u2|e] [x2 w2]]; [by injection E as <-|].
    cbn [snd] in H2. pose proof (pg_exec_lost "ROLLBACK" w2 H2) as H3. fold (pg_rollBack true w2) in H3.
    assert (Hag : forall l0 x0 w0, lost w0 -> match t_onRetry t x0 with
        | (inl _, x) => perform_loop true t fuel isolation l0 x w0
        | (inr e, x) => Some (inr e, (x, w0)) end = Some r -> lost r.2.2).
    { intros l0 x0 w0 H0. destruct (t_onRetry t x0) as [[] x3]; [by apply IH|by intros [= <-]]. }
    destruct e as [e| | |]; [..|by injection E as <-]; destruct (handle _ _ _ _ _) as [l0 x0];
      (destruct (pg_rollBack true w2) as [[u3|[]] w3]; cbn [snd] in H3;
       [by eapply Hag| | | |by injection E as <-]; (eapply Hag; [|exact E]; by apply Hrec)).
  - specialize (Hrec w1 H1). destruct e; [..|by injection E as <-];
      (destruct (tryReconnect true w1) as [[] w2]; [by eapply IH|]; destruct (t_onMaxRetry _ _ _ _); by injection E as <-).
Qed.

Lemma perform_loop_ends : forall fuel l x w r, P x \/ lost w -> perform_loop true t fuel isolation l x w = Some r -> ends w r.
Proof.
  induction fuel as [|fuel IH]; intros l x w r Hx E; [done|].
  pose proof (fun Hw => perform_loop_lost (S fuel) l x w r Hw E) as Hlost. destruct Hx as [Hx|Hx]; [|by split; [|left; apply Hlost]].
  cbn [perform_loop] in E. destruct (retry l <=? 0).
  { pose proof (gives_in_ends (errorCode_ l) (mayRecover l) x w) as H.
    destruct (t_onMaxRetry t (errorCode_ l) (mayRecover l) x). by injection E as <-. }
  pose proof (start_keeps isolation w) as Hk. pose proof (started_usable isolation w) as Hin.
  destruct (pg_exec true (start_transaction isolation) w) as [[[]|e] w1] eqn:Eb; cbn [fst snd] in Hk, Hin.
  - specialize (Hin eq_refl). pose proof (HP x w1 Hin Hx) as Hx2.
    destruct (attempt_transaction true t x w1) as [[[]|e] [x2 w2]] eqn:Ea.
    { injection E as <-. split; [exact Hlost|]. right; right. split; [done|]. exists x, w. by rewrite Eb. }
    pose proof (attempt_fails_keeps _ _ _ _ _ Hin Ea) as Ha. apply (ends_after w w2); [by etransitivity|]. cbn [fst snd] in Hx2.
    set (again := fun l0 x0 w => match t_onRetry t x0 with
        | (inl _, x) => perform_loop true t fuel isolation l0 x w
        | (inr e, x) => Some (inr e, (x, w))
        end).
    assert (Hag : forall l0 x0 w0, P x0 \/ lost w0 -> again l0 x0 w0 = Some r -> ends w0 r).
    { intros l0 x0 w0 Hx0. unfold again. pose proof (HPr x0) as Hx3.
      destruct (t_onRetry t x0) as [[] x3]; [apply IH; tauto|]. intros [= <-]. apply fails_ends. }
    assert (H : forall l0 x0, P x0 \/ lost w2 -> (match pg_rollBack true w2 with
        | (inl _, w) => again l0 x0 w
        | (inr Undefined, w) => Some (inr Undefined, (x0, w))
        | (inr _, w) => again l0 x0 (tryReconnect true w).2
        end) = Some r -> ends w2 r).
    { intros l0 x0 Hx0 E'. pose proof (rollBack_keeps w2) as Hk2.
      destruct (pg_rollBack true w2) as [[u3|e'] w3]; (eapply ends_after; [exact Hk2|]); destruct Hk2 as [Hl2 _]; cbn [snd] in Hl2.
      - eapply Hag; [|exact E']. tauto.
      - destruct e'; [..|injection E' as <-; apply fails_ends]; (eapply ends_after; [apply reconnect_keeps|]);
          (eapply Hag; [|exact E']); pose proof (reconnect_keeps w3) as [Hl3 _]; tauto. }
    pose proof (handle_keeps e (pq_time w2) {| retry := retry l; start := start l; mayRecover := true; errorCode_ := "" |} x2) as Hh.
    destruct e as [e| | |]; [..|injection E as <-; apply fails_ends];
      destruct (handle _ _ _ _ _) as [l0 x0] in E, Hh; eapply H; try exact E; tauto.
  - apply (ends_after w w1); [done|].
    assert (H : forall l0, (let '(ok, w) := tryReconnect true w1 in
        if ok : bool then perform_loop true t fuel isolation l0 x w
        else let '(r, x) := t_onMaxRetry t "" true x in Some (r, (x, w))) = Some r -> ends w1 r).
    { intros l0 E'. pose proof (reconnect_keeps w1) as Hr. destruct (tryReconnect true w1) as [[] w2]; cbn [snd] in Hr.
      - eapply ends_after; [exact Hr|]. eapply IH; [by left|done].
      - apply (ends_after w1 w2); [done|]. pose proof (gives_in_ends "" true x w2) as H.
        destruct (t_onMaxRetry t "" true x). by injection E' as <-. }
    destruct e; [..|injection E as <-; apply fails_ends]; by eapply H.
Qed.

Lemma pg_perform_ends fuel n x x' w w' r : P x -> pg_perform true t fuel n isolation x w = Some (r, (x', w')) ->
  unless_lost lost w w' (quiet w (r, (x', w')) \/ done_by w (r, (x', w'))).
Proof. intros Hx E. apply perform_loop_ends in E as [Hl H]; [by split|by left]. Qed.

End outcome.

(** The attempt that succeeded. *)
Lemma done_by_attempt isolation P x' w w' r : done_by isolation P w (r, (x', w')) -> ~ lost w' ->
  r = inl tt /\ exists x0 w0 w1 b x1 w2, P x0 /\ committed w0 = committed w /\
    pg_exec true (start_transaction isolation) w0 = (inl tt, w1) /\ t_run t x0 w1 = (inl b, (x1, w2)) /\
    committed w2 = committed w /\
    if b : bool then pg_exec true "END" w2 = (inl tt, w') /\ x' = t_onSuccess t x1
    else pg_exec true "ROLLBACK" w2 = (inl tt, w') /\ committed w' = committed w /\ x' = t_onFailure t x1.
Proof.
  intros (Hr & x0 & w0 & Hx & Hk & Es & Ea) Hl. cbn [fst] in Hr. subst r. split; [done|].
  pose proof (started_usable isolation w0 Es) as Hu. pose proof (start_keeps isolation w0) as Hs.
  destruct (pg_exec true (start_transaction isolation) w0) as [u w1] eqn:E1. cbn [fst snd] in *. subst u.
  unfold attempt_transaction in Ea. pose proof (Hrun x0 w1 Hu) as Hk2.
  destruct (t_run t x0 w1) as [[b|e] [x1 w2]] eqn:Er; [|done]. cbn [snd] in Hk2.
  assert (Hback : ~ lost w2 -> committed w2 = committed w /\ committed w0 = committed w).
  { intros Hn. apply unless_lasts in Hk2 as [E2 Hn1]; [|done]. apply unless_lasts in Hs as [E3 Hn0]; [|done].
    apply unless_lasts in Hk as [E4 _]; [|done]. by split; congruence. }
  destruct b.
  - pose proof (pg_exec_lost "END" w2) as Hl2. unfold pg_endTransaction in Ea. destruct (pg_exec true "END" w2) as [u w3] eqn:E3.
    injection Ea as -> <- <-. cbn [snd] in Hl2. destruct Hback as [H2 H0]; [tauto|]. by exists x0, w0, w1, true, x1, w2.
  - pose proof (rollBack_keeps w2) as Hk3. unfold pg_rollBack in Ea, Hk3. destruct (pg_exec true "ROLLBACK" w2) as [u w3] eqn:E3.
    injection Ea as -> <- <-. cbn [snd] in Hk3. apply unless_lasts in Hk3 as [H3 Hn]; [|done]. destruct (Hback Hn) as [H2 H0].
    exists x0, w0, w1, false, x1, w2. split_and!; try done. congruence.
Qed.

(** C27: A transaction is all or nothing, however many attempts it takes, when the
    connection is not lost. When performing it ends with an exception nothing is
    committed. When it ends without one, the last attempt began a transaction where
    the call began, and ran: if it answered true the transaction was ended and that
    is what was committed, if it answered false it was rolled back and nothing was
    committed. The one other end is without a change, when every attempt failed and
    [onMaxRetry] does not throw. *)
Theorem pg_perform_atomic (fuel : nat) (n : Z) (isolation : IsolationLevel) (x x' : X) (w w' : W) (r : unit + failure) :
  pg_perform true t fuel n isolation x w = Some (r, (x', w')) -> ~ lost w' ->
  match r with
  | inr _ => committed w' = committed w
  | inl _ =>
      (committed w' = committed w /\ exists code b y, (t_onMaxRetry t code b y).1 = inl tt) \/
      exists x0 w0 w1 b x1 w2, committed w0 = committed w /\
        pg_exec true (start_transaction isolation) w0 = (inl tt, w1) /\ t_run t x0 w1 = (inl b, (x1, w2)) /\
        committed w2 = committed w /\
        if b : bool then pg_exec true "END" w2 = (inl tt, w') /\ x' = t_onSuccess t x1
        else pg_exec true "ROLLBACK" w2 = (inl tt, w') /\ committed w' = committed w /\ x' = t_onFailure t x1
  end.
Proof.
  intros E Hl. apply (pg_perform_ends isolation (fun _ => True)) in E; [|by intros; left|done..].
  apply unless_lasts in E as [[[Hk Hm]|H] _]; [| |done].
  - cbn [fst snd] in Hk, Hm. apply unless_lasts in Hk as [Hc _]; [|done]. destruct r as [[]|e]; [left; split; [exact Hc|by apply Hm]|exact Hc].
  - apply done_by_attempt in H as (-> & x0 & w0 & w1 & b & x1 & w2 & _ & H); [|done]. right. by exists x0, w0, w1, b, x1, w2.
Qed.

End perform.
End server.

(** ** Instances *)

(** A server with one session: the statements of its transaction, those that are
    committed, and for the coming statements whether the connection is lost. *)
Record session := {
  ss_connected : bool;
  ss_reconnected : bool;
  ss_drops : list bool;
  ss_pending : option (list string);
  ss_committed : list string
}.

Definition pg_ok : option PGresult :=
  Some {| pr_status := PGRES_COMMAND_OK; pr_message := ""; pr_sqlstate := None; pr_tuples := [] |}.
Definition pg_lost : option PGresult :=
  Some {| pr_status := PGRES_FATAL_ERROR; pr_message := "lost"; pr_sqlstate := None; pr_tuples := [] |}.

(** What a statement does: one outside of a transaction is committed at once. *)
Definition session_step (query : string) (pending : option (list string)) (committed : list string)
    : option (list string) * list string :=
  if String.prefix "START" query then (Some (default [] pending), committed)
  else if bool_decide (query = "END"%string) then (None, committed ++ default [] pending)
  else if bool_decide (query = "ROLLBACK"%string) then (None, committed)
  else match pending with
       | Some l => (Some (l ++ [query]), committed)
       | None => (None, committed ++ [query])
       end.

Definition session_exec (query : string) (w : session) : option PGresult * session :=
  match ss_drops w with
  | true :: d => (pg_lost, {| ss_connected := false; ss_reconnected := ss_reconnected w; ss_drops := d; ss_pending := None; ss_committed := ss_committed w |})
  | _ =>
      let '(p, c) := session_step query (ss_pending w) (ss_committed w) in
      (pg_ok, {| ss_connected := ss_connected w; ss_reconnected := ss_reconnected w; ss_drops := tail (ss_drops w); ss_pending := p; ss_committed := c |})
  end.

Definition session_pq : Libpq session := {|
  pq_connected := ss_connected;
  PQreset w := {| ss_connected := true; ss_reconnected := ss_reconnected w || negb (ss_connected w); ss_drops := ss_drops w; ss_pending := None; ss_committed := ss_committed w |};
  PQexec := session_exec;
  pq_time _ := 0
|}.

Definition session_lost (w : session) : Prop := ss_connected w = false \/ ss_reconnected w = true.

#[export] Instance session_server : PgServer session_pq ss_committed (fun w => is_Some (ss_pending w)) session_lost.
Proof.
  split; unfold session_lost; simpl.
  - intros q w. unfold session_exec. destruct (ss_drops w) as [|[] d]; [|by left|];
      (destruct (session_step _ _ _) as [p c]; done).
  - intros w [->| ->]; right; [apply orb_true_r|done].
  - by left.
  - intros i w. unfold session_exec. destruct (ss_drops w) as [|[] d]; [|done|]; by destruct i.
  - intros i w. unfold session_exec. destruct (ss_drops w) as [|[] d]; [|intros H; by destruct H|]; intros _; destruct i; by eexists.
  - intros w. unfold session_exec. by destruct (ss_drops w) as [|[] d].
  - done.
  - intros w. unfold session_exec. destruct (ss_drops w) as [|[] d]; [|by intros _; left; left|]; (intros H; by destruct H).
Qed.

(** A transaction of two statements. *)
Definition two_statements {W} (PQ : Libpq W) : Transaction (W := W) unit := {|
  t_run x w :=
    match pg_exec true "INSERT 1" w with
    | (inr e, w) => (inr e, (x, w))
    | (inl _, w) => match pg_exec true "INSERT 2" w with
                    | (inr e, w) => (inr e, (x, w))
                    | (inl _, w) => (inl true, (x, w))
                    end
    end;
  t_onSuccess := id; t_onFailure := id; t_onAbort := id; t_onRetry := default_onRetry; t_onMaxRetry := default_onMaxRetry
|}.

Definition new_session (drops : list bool) : session :=
  {| ss_connected := true; ss_reconnected := false; ss_drops := drops; ss_pending := None; ss_committed := [] |}.

(** When the connection is lost inside a transaction, the statement that met
    it is sent again on a new connection, outside of any transaction: the
    statements before it are lost, this one and those after it are committed one
    by one, and the transaction is reported to have succeeded. *)
Theorem reconnect_breaks_transaction :
  option_map (fun r => (r.1, ss_committed r.2.2))
    (pg_perform (PQ := session_pq) true (two_statements session_pq) 5 1 READ_COMMITTED tt
       (new_session [false; false; true])) = Some (inl tt, ["INSERT 2"%string]) /\
  option_map (fun r => (r.1, ss_committed r.2.2))
    (pg_perform (PQ := session_pq) true (two_statements session_pq) 5 1 READ_COMMITTED tt (new_session []))
    = Some (inl tt, ["INSERT 1"; "INSERT 2"]%string).
Proof. split; by vm_compute. Qed.

(** A transaction that always fails in the same way. *)
Definition failing (e : failure) : Transaction (W := session) unit := {|
  t_run x w := (inr e, (x, w));
  t_onSuccess := id; t_onFailure := id; t_onAbort := id; t_onRetry := default_onRetry; t_onMaxRetry := default_onMaxRetry
|}.

(** The same server with a connection that is never lost. *)
Definition lasting_exec (query : string) (w : option (list string) * list string) : option PGresult * (option (list string) * list string) :=
  (pg_ok, session_step query w.1 w.2).

Definition lasting_pq : Libpq (option (list string) * list string) := {|
  pq_connected _ := true;
  PQreset w := (None, w.2);
  PQexec := lasting_exec;
  pq_time _ := 0
|}.

(** A transaction that meets serialization errors as long as there are some. *)
Definition busy : Transaction (W := nat) unit := {|
  t_run x w := match w with O => (inl true, (x, O)) | S n => (inr (Sql (SQLSerializeError_ "40001" false)), (x, n)) end;
  t_onSuccess := id; t_onFailure := id; t_onAbort := id; t_onRetry := default_onRetry; t_onMaxRetry := default_onMaxRetry
|}.

Definition busy_pq : Libpq nat := {| pq_connected _ := true; PQreset w := w; PQexec _ w := (pg_ok, w); pq_time _ := 0 |}.

Lemma pg_perform_terminates_witness :
  exists r, pg_perform (PQ := busy_pq) true busy 8 3 READ_COMMITTED tt 4%nat = Some r.
Proof.
  assert (SB : SerializationBudget (PQ := busy_pq) true busy READ_COMMITTED (fun w => w)).
  { split; [done..|]. intros x [|w]; [done|]. simpl. lia. }
  destruct (pg_perform_terminates (PQ := busy_pq) true busy READ_COMMITTED (fun w => w) 3 tt 4%nat) as [r H].
  exists r. apply H. simpl. lia.
Defined.

#[export] Instance lasting_server : PgServer lasting_pq snd (fun w => is_Some w.1) (fun _ => False).
Proof.
  split; try done; try (by intros [] w); try (by intros w []). all: intros w H; by destruct H.
Qed.

Lemma lasting_ok query w : pg_exec (PQ := lasting_pq) true query w = (inl tt, (session_step query w.1 w.2)).
Proof. by destruct w. Qed.

Lemma pg_perform_livelock_witness :
  pg_perform (PQ := lasting_pq) true
    {| t_run x w := (inr (Sql (SQLSerializeError_ "40001" false)), (x, w)); t_onSuccess := id; t_onFailure := id;
       t_onAbort := id; t_onRetry := default_onRetry; t_onMaxRetry := default_onMaxRetry |} 1000 1 SERIALIZABLE tt (None, []) = None.
Proof.
  apply (pg_perform_livelock (PQ := lasting_pq) true _ 1 SERIALIZABLE tt (None, []) "40001").
  - intros w. by rewrite lasting_ok.
  - intros w. unfold pg_rollBack. by rewrite lasting_ok.
  - done.
  - done.
Defined.

Lemma inserts_inside q : q = "INSERT 1"%string \/ q = "INSERT 2"%string ->
  statement_inside (PQ := session_pq) ss_committed (fun w => is_Some (ss_pending w)) session_lost q.
Proof.
  intros Hq w [l Hw]. cbn. unfold session_exec, usable, session_lost.
  destruct (ss_drops w) as [|[] d]; [|by split; [|left; left]|]; destruct Hq as [-> | ->]; cbn; rewrite Hw;
    (split; [done|right; by eexists]).
Qed.

Lemma two_statements_keep x w : usable (fun w => is_Some (ss_pending w)) session_lost w ->
  keeps ss_committed session_lost w (t_run (two_statements session_pq) x w).2.2.
Proof.
  intros Hw. cbn [two_statements t_run]. destruct (statement_keeps _ _ _ _ w (inserts_inside "INSERT 1" (or_introl eq_refl)) Hw) as [H1 H2].
  destruct (pg_exec _ "INSERT 1" w) as [[u|e] w1]; [|exact H1]. cbn [snd] in *.
  destruct (statement_keeps _ _ _ _ w1 (inserts_inside "INSERT 2" (or_intror eq_refl)) H2) as [H3 _].
  destruct (pg_exec _ "INSERT 2" w1) as [[u2|e] w2]; (etransitivity; [exact H1|exact H3]).
Qed.

Lemma pg_perform_atomic_witness :
  exists w', pg_perform (PQ := session_pq) true (two_statements session_pq) 5 1 READ_COMMITTED tt (new_session []) = Some (inl tt, (tt, w')) /\
    ss_committed w' = ["INSERT 1"; "INSERT 2"]%string /\
    exists w2, ss_committed w2 = [] /\ pg_exec (PQ := session_pq) true "END" w2 = (inl tt, w').
Proof.
  eexists. split; [by vm_compute|]. split; [done|].
  destruct (pg_perform_atomic (PQ := session_pq) ss_committed (fun w => is_Some (ss_pending w)) session_lost (two_statements session_pq)
    two_statements_keep 5 1 READ_COMMITTED tt tt (new_session []) _ (inl tt) ltac:(by vm_compute) ltac:(by intros [H|H]))
    as [[H _]|(x0 & w0 & w1 & b & x1 & w2 & _ & _ & _ & H & H2)]; [by vm_compute in H|].
  destruct b; [exists w2; by destruct H2|]. destruct H2 as (_ & H2 & _). by vm_compute in H2.
Defined.
