(* ===== verification/Gate.v ===== *)
(** * The gate to the database (src/src/lib/kvalobs/kvDbGate.cc, kvDbGate.h) and the
      insertion of lists (DataInsertTransaction.cc)

    Objects of table classes are records of the texts they give to statements. The
    gate turns exceptions to codes; the texts of errors are left out. The driver for
    PostgreSQL never throws [SQLBusy], so a loop that waits for the database is one
    round, and none when the time to wait is negative. *)

From S2P Require Import Prelude PgConnection.

#[local] Open Scope Z_scope.

(** What a table class gives to the statements about one of its objects. *)
Record kvDbBase := { toSend : string; toUpdate : string; uniqueKey : string; tableName : string; exists_ : bool }.

Inductive TError := NoError | Duplicate | Aborted | NotConnected | Busy | Error | InvalidObject | UnknownError.

#[export] Instance TError_eq_dec : EqDecision TError.
Proof. solve_decision. Defined.

Record kvDbGate := { err_ : TError; busytimeout_ : Z }.
Definition kvDbGate_new : kvDbGate := {| err_ := NoError; busytimeout_ := 0 |}.
Definition set_err (e : TError) (g : kvDbGate) : kvDbGate := {| err_ := e; busytimeout_ := busytimeout_ g |}.

Definition insert_text (tblName : string) (elem : kvDbBase) : string :=
  "INSERT INTO " ++ tblName ++ " VALUES" ++ toSend elem ++ ";".
Definition delete_text (tblName : string) (elem : kvDbBase) : string :=
  "DELETE FROM " ++ tblName ++ " " ++ uniqueKey elem.
Definition update_text (tblName : string) (elem : kvDbBase) : string :=
  "UPDATE " ++ tblName ++ " " ++ toUpdate elem.

(** The code for an exception; not every operation tells an abort from the rest. *)
Definition code_of (aborts : bool) (e : sql_exn) : TError :=
  match e with
  | SQLNotConnected => NotConnected
  | SQLAborted_ _ => if aborts then Aborted else Error
  | _ => Error
  end.

Section gate.
  Context {W : Type} {PQ : Libpq W} (con : bool).

Abbreviation result A := ((A + failure) * (kvDbGate * W))%type.

(** The end of a statement in a [try]; [all] when there is a [catch (...)]. *)
Definition settle (aborts all : bool) (g : kvDbGate) (r : (unit + failure) * W) : result bool :=
  match r with
  | (inl _, w) => (inl true, (g, w))
  | (inr (Sql e), w) => (inl false, (set_err (code_of aborts e) g, w))
  | (inr Undefined, w) => (inr Undefined, (g, w))
  | (inr e, w) => if (all : bool) then (inl false, (set_err UnknownError g, w)) else (inr e, (g, w))
  end.

(** One statement in a loop that waits while the database is busy. *)
Definition statement (aborts all : bool) (query : string) (g : kvDbGate) (w : W) : result bool :=
  if busytimeout_ g <? 0 then (inl false, (g, w)) else settle aborts all g (pg_exec con query w).

Definition begintransaction := statement false false "BEGIN".
Definition endtransaction := statement false false "END".
Definition rollback := statement false false "ROLLBACK".

(** [insert]: the two rounds of the outer loop. *)
Fixpoint insert_rounds (n : nat) (tblName : string) (elem : kvDbBase) (replace : bool) (g : kvDbGate) (w : W) : result bool :=
  match n with
  | O => (inl true, (g, w))
  | S n =>
      match pg_exec con (insert_text tblName elem) w with
      | (inr (Sql (SQLDuplicate _)), w) =>
          if replace then
            match settle true true g (pg_exec con (delete_text tblName elem) w) with
            | (inl true, (g, w)) => insert_rounds n tblName elem replace g w
            | r => r
            end
          else (inl false, (set_err Duplicate g, w))
      | r => settle true true g r
      end
  end.

Definition gate_insert (elem : kvDbBase) (tblName : string) (replace : bool) (g : kvDbGate) (w : W) : result bool :=
  let g := set_err NoError g in
  if negb (exists_ elem) then (inl false, (set_err InvalidObject g, w))
  else if busytimeout_ g <? 0 then (inl false, (g, w))
  else insert_rounds 2 tblName elem replace g w.

Definition gate_update (elem : kvDbBase) (tblName : string) : kvDbGate -> W -> result bool :=
  statement true true (update_text tblName elem).

Definition gate_replace (elem : kvDbBase) (tblName : string) (g : kvDbGate) (w : W) : result bool :=
  let g := set_err NoError g in
  if negb (exists_ elem) then (inl false, (set_err InvalidObject g, w))
  else
    match begintransaction g w with
    | (inl true, (g, w)) =>
        match pg_exec con (delete_text tblName elem) w with
        | (inr (Sql SQLNotConnected), w) => (inl false, (set_err NotConnected g, w))
        | (inr (Sql _), w) =>
            match endtransaction g w with
            | (inl _, (g, w)) => (inl false, (set_err Error g, w))
            | r => r
            end
        | (inr e, w) => (inr e, (g, w))
        | (inl _, w) =>
            match pg_exec con (insert_text tblName elem) w with
            | (inr (Sql SQLNotConnected), w) => (inl false, (set_err NotConnected g, w))
            | (inr (Sql _), w) =>
                match rollback g w with
                | (inl _, (g, w)) => (inl false, (set_err Error g, w))
                | r => r
                end
            | (inr e, w) => (inr e, (g, w))
            | (inl _, w) => endtransaction g w
            end
        end
    | r => r
    end.

Definition gate_remove (elem : kvDbBase) (tblName : string) (g : kvDbGate) (w : W) : result bool :=
  let g := set_err NoError g in
  if negb (exists_ elem) then (inl false, (set_err InvalidObject g, w))
  else statement false false (delete_text tblName elem) g w.

(** [remove(const std::string &)] and [exec]. *)
Definition gate_remove_query (query : string) (g : kvDbGate) : W -> result bool :=
  statement false false ("DELETE FROM " ++ query) (set_err NoError g).
Definition gate_exec (query : string) (g : kvDbGate) : W -> result bool :=
  statement false false query (set_err NoError g).

(** [select], with the rows of the answer: an answer without rows is the null
    pointer, which is used. *)
Definition gate_select (query : string) (g : kvDbGate) (w : W) : result (bool * list (list string)) :=
  if negb con then (inl (false, []), (set_err NoError g, w))
  else
    let g := set_err NoError g in
    if busytimeout_ g <? 0 then (inl (false, []), (g, w))
    else match pg_execQuery con query w with
         | (inl (Some rows), w) => (inl (true, rows), (g, w))
         | (inl None, w) => (inr Undefined, (g, w))
         | (inr (Sql e), w) => (inl (false, []), (set_err (code_of false e) g, w))
         | (inr Undefined, w) => (inr Undefined, (g, w))
         | (inr _, w) => (inl (false, []), (set_err UnknownError g, w))
         end.

(** ** [DataInsertTransaction] *)

Inductive Action := INSERTONLY | INSERT_OR_UPDATE | INSERT_OR_REPLACE.

#[export] Instance Action_eq_dec : EqDecision Action.
Proof. solve_decision. Defined.

(** [savedExcetion] with what belongs to it: it has no value before the first run. *)
Inductive saved := Uninitialised | NoException | Saved (e : failure).

Record DataInsertTransaction := { savedExcetion : saved; index : Z; fastExit : bool }.
Definition DataInsertTransaction_new : DataInsertTransaction :=
  {| savedExcetion := Uninitialised; index := 0; fastExit := false |}.

Definition set_fastExit (x : DataInsertTransaction) : DataInsertTransaction :=
  {| savedExcetion := savedExcetion x; index := index x; fastExit := true |}.

(** The exception that the [catch] clauses of [operator()] save. *)
Definition to_save (e : failure) : failure :=
  match e with
  | Sql (SQLSerializeError_ code _) => Sql (SQLException_ code true)
  | Unknown => Std
  | e => e
  end.

Definition reThrow (x : DataInsertTransaction) : failure :=
  match savedExcetion x with Uninitialised => Undefined | NoException => Std | Saved e => e end.

Definition savepoint : string := "INSERT_SAVEPOINT".

(** The statements of a list, one after another. *)
Fixpoint exec_all (queries : list string) (w : W) : (unit + failure) * W :=
  match queries with
  | [] => (inl tt, w)
  | q :: queries => match pg_exec con q w with (inl _, w) => exec_all queries w | r => r end
  end.

Section transaction.
  Context (elems : list (option kvDbBase)) (tblName : string) (action : Action).

Definition table_of (data : kvDbBase) : string := if bool_decide (tblName = ""%string) then tableName data else tblName.

(** [insert]: a failure brings the transaction back to where it was. *)
Definition dit_insert (data : kvDbBase) (x : DataInsertTransaction) (w : W)
    : (bool + failure) * (DataInsertTransaction * W) :=
  match exec_all [("SAVEPOINT " ++ savepoint)%string; insert_text (table_of data) data; ("RELEASE SAVEPOINT " ++ savepoint)%string] w with
  | (inl _, w) => (inl true, (x, w))
  | (inr Undefined, w) => (inr Undefined, (x, w))
  | (inr e, w) =>
      match pg_exec con ("ROLLBACK TO SAVEPOINT " ++ savepoint) w with
      | (inr e, w) => (inr e, (x, w))
      | (inl _, w) =>
          match e with
          | Sql (SQLDuplicate _) =>
              if bool_decide (action = INSERTONLY) then (inr Std, (set_fastExit x, w)) else (inl false, (x, w))
          | e => (inr e, (x, w))
          end
      end
  end.

(** [update] or [replace], the latter in one statement. *)
Definition dit_overwrite (data : kvDbBase) (w : W) : (unit + failure) * W :=
  if bool_decide (action = INSERT_OR_UPDATE) then pg_exec con (update_text (table_of data) data) w
  else pg_exec con (delete_text (table_of data) data ++ ";" ++ insert_text (table_of data) data) w.

Fixpoint dit_run (elems : list (option kvDbBase)) (x : DataInsertTransaction) (w : W)
    : (bool + failure) * (DataInsertTransaction * W) :=
  match elems with
  | [] => (inl true, (x, w))
  | elem :: elems =>
      match elem with
      | Some data =>
          if negb (exists_ data) then (inr Std, (set_fastExit x, w))
          else
            let next x w :=
              dit_run elems {| savedExcetion := savedExcetion x; index := index x + 1; fastExit := fastExit x |} w in
            match dit_insert data x w with
            | (inl true, (x, w)) => next x w
            | (inl false, (x, w)) =>
                match dit_overwrite data w with (inl _, w) => next x w | (inr e, w) => (inr e, (x, w)) end
            | r => r
            end
      | None => (inr Std, (set_fastExit x, w))
      end
  end.

(** [operator()]. *)
Definition dit_operator (x : DataInsertTransaction) (w : W) : (bool + failure) * (DataInsertTransaction * W) :=
  let x := {| savedExcetion := NoException; index := 0; fastExit := false |} in
  match dit_run elems x w with
  | (inr Undefined, xw) => (inr Undefined, xw)
  | (inr e, (x, w)) =>
      (inr (match e with Unknown => Std | e => e end),
       ({| savedExcetion := Saved (to_save e); index := index x; fastExit := fastExit x |}, w))
  | r => r
  end.

Definition insert_transaction : Transaction (W := W) DataInsertTransaction := {|
  t_run := dit_operator;
  t_onSuccess := fun x => x; t_onFailure := fun x => x; t_onAbort := fun x => x;
  t_onRetry := fun x => if fastExit x then (inr (reThrow x), x) else (inl tt, x);
  t_onMaxRetry := fun _ _ x => (inr (reThrow x), x)
|}.

End transaction.

(** [insertImpl] of a list: the code for what leaves [perform]. [None] is the end of
    the fuel. *)
Definition insertImpl (fuel : nat) (elems : list (option kvDbBase)) (tblName : string) (action : Action)
    (g : kvDbGate) (w : W) : option (result bool) :=
  match pg_perform con (insert_transaction elems tblName action) fuel 3 SERIALIZABLE DataInsertTransaction_new w with
  | None => None
  | Some (inl _, (_, w)) => Some (inl true, (g, w))
  | Some (inr e, (_, w)) =>
      Some match e with
           | Sql (SQLDuplicate _) => (inl false, (set_err Duplicate g, w))
           | Sql e => (inl false, (set_err (code_of true e) g, w))
           | Std => (inl false, (set_err Error g, w))
           | Unknown => (inl false, (set_err UnknownError g, w))
           | Undefined => (inr Undefined, (g, w))
           end
  end.

(** The lists of [insert] and [insertList]: the table is the first element's unless
    one is given. *)
Definition gate_insert_list (fuel : nat) (li : list kvDbBase) (action : Action) (tblName : string)
    (g : kvDbGate) (w : W) : option (result bool) :=
  match li with
  | [] => Some (inl true, (g, w))
  | d :: _ =>
      insertImpl fuel (Some <$> li) (if bool_decide (tblName = ""%string) then tableName d else tblName) action g w
  end.

End gate.

(** ** Properties: one object *)

Section insert.
  Context {W : Type} {PQ : Libpq W} (con : bool).

Lemma settle_true aborts all g (r : (unit + failure) * W) g' w' :
  settle aborts all g r = (inl true, (g', w')) -> r = (inl tt, w') /\ g' = g.
Proof. destruct r as [[[]|[]] w]; simpl; try done; [by intros [= -> ->]|by destruct all..]. Qed.

(** When an insertion succeeds, its last statement was the insertion, which the
    server accepted; or the server refused it as a duplicate twice, and the last
    statement deleted what was there: then the object is not in the table. *)
Theorem gate_insert_true elem tblName replace g w g' w' :
  gate_insert con elem tblName replace g w = (inl true, (g', w')) ->
  err_ g' = NoError /\ exists_ elem = true /\
  ((exists w1, pg_exec con (insert_text tblName elem) w1 = (inl tt, w')) \/
   replace = true /\ exists c1 c2 w1 w2 w3,
     pg_exec con (insert_text tblName elem) w = (inr (Sql (SQLDuplicate c1)), w1) /\
     pg_exec con (delete_text tblName elem) w1 = (inl tt, w2) /\
     pg_exec con (insert_text tblName elem) w2 = (inr (Sql (SQLDuplicate c2)), w3) /\
     pg_exec con (delete_text tblName elem) w3 = (inl tt, w')).
Proof.
  unfold gate_insert. destruct (exists_ elem); [|done]. cbn [negb]. destruct (_ <? 0); [done|].
  assert (Hround : forall n g w g' w', insert_rounds con (S n) tblName elem replace g w = (inl true, (g', w')) ->
    (pg_exec con (insert_text tblName elem) w = (inl tt, w') /\ g' = g) \/
    replace = true /\ exists c w1 w2, pg_exec con (insert_text tblName elem) w = (inr (Sql (SQLDuplicate c)), w1) /\
      pg_exec con (delete_text tblName elem) w1 = (inl tt, w2) /\
      insert_rounds con n tblName elem replace g w2 = (inl true, (g', w'))).
  { clear. intros n g w g' w'. cbn [insert_rounds].
    destruct (pg_exec con (insert_text tblName elem) w) as [[[]|[[]| | |]] w1] eqn:E1; try done; [by intros [= <- <-]; left|].
    destruct replace; [|done]. destruct (settle true true g _) as [[[]|e] [g2 w2]] eqn:E2; try done.
    intros E. right. split; [done|]. apply settle_true in E2 as [E2 ->]. by eexists _, w1, w2. }
  intros E. apply Hround in E as [[E ->]|(Hr & c & w1 & w2 & E1 & E2 & E)]; [by eauto|].
  apply Hround in E as [[E ->]|(_ & c2 & w3 & w4 & E3 & E4 & E)]; [by eauto|].
  cbn [insert_rounds] in E. injection E as <- <-. split; [done|]. split; [done|]. right. split; [done|].
  by eexists c, c2, w1, w2, w3.
Qed.

End insert.

(** ** Properties: lists *)

Section list.
  Context {W : Type} {PQ : Libpq W} (con : bool) (tblName : string) (action : Action).

(** How an element of a list gets into the table. *)
Inductive stored_by (data : kvDbBase) (w w' : W) : Prop :=
  | By_insert :
      exec_all con [("SAVEPOINT " ++ savepoint)%string; insert_text (table_of tblName data) data;
                    ("RELEASE SAVEPOINT " ++ savepoint)%string] w = (inl tt, w') ->
      stored_by data w w'
  | By_overwrite c w1 w2 :
      action <> INSERTONLY ->
      exec_all con [("SAVEPOINT " ++ savepoint)%string; insert_text (table_of tblName data) data;
                    ("RELEASE SAVEPOINT " ++ savepoint)%string] w = (inr (Sql (SQLDuplicate c)), w1) ->
      pg_exec con ("ROLLBACK TO SAVEPOINT " ++ savepoint) w1 = (inl tt, w2) ->
      dit_overwrite con tblName action data w2 = (inl tt, w') ->
      stored_by data w w'.

Inductive all_stored : list (option kvDbBase) -> W -> W -> Prop :=
  | stored_none w : all_stored [] w w
  | stored_more data elems w w1 w2 :
      exists_ data = true -> stored_by data w w1 -> all_stored elems w1 w2 -> all_stored (Some data :: elems) w w2.

Lemma dit_insert_cases data x w :
  match dit_insert con tblName action data x w with
  | (inl true, (_, w')) => stored_by data w w'
  | (inl false, (_, w')) => forall w2, dit_overwrite con tblName action data w' = (inl tt, w2) -> stored_by data w w2
  | _ => True
  end.
Proof.
  unfold dit_insert. destruct (exec_all con _ w) as [[[]|e] w1] eqn:E; [by apply By_insert|].
  destruct e as [[]| | |]; try done; (destruct (pg_exec con _ w1) as [[[]|e'] w2] eqn:E2; [|done]); try done.
  destruct (decide (action = INSERTONLY)) as [->|Ha]; [done|]. rewrite bool_decide_false by done.
  intros w3 E3. by eapply By_overwrite.
Qed.

Lemma dit_run_true elems x w x' w' :
  dit_run con tblName action elems x w = (inl true, (x', w')) -> all_stored elems w w'.
Proof.
  revert x w. induction elems as [|[data|] elems IH]; intros x w; cbn [dit_run]; [intros [= <- <-]; constructor| |done].
  destruct (exists_ data) eqn:Ex; [|done]. cbn [negb]. pose proof (dit_insert_cases data x w) as H.
  destruct (dit_insert con tblName action data x w) as [[[]|e] [x1 w1]]; [| |done].
  - intros E. econstructor; [done|exact H|by eapply IH].
  - destruct (dit_overwrite con tblName action data w1) as [[[]|e] w2] eqn:E2; [|done]. intros E.
    econstructor; [done|by apply H|by eapply IH].
Qed.

Lemma dit_operator_run elems x w :
  match dit_operator con elems tblName action x w with
  | (inl b, (_, w')) => b = true /\ all_stored elems w w'
  | (inr _, _) => True
  end.
Proof.
  unfold dit_operator. destruct (dit_run _ _ _ _ _ w) as [[[]|e] [x1 w1]] eqn:E.
  - split; [done|]. by eapply dit_run_true.
  - exfalso. revert E. generalize {| savedExcetion := NoException; index := 0; fastExit := false |}. revert w.
    induction elems as [|[data|] elems IH]; intros w y; cbn [dit_run]; [done| |done].
    destruct (exists_ data); [|done]. cbn [negb].
    destruct (dit_insert con tblName action data y w) as [[[]|e] [x2 w2]]; [apply IH| |done].
    destruct (dit_overwrite con tblName action data w2) as [[[]|e] w3]; [apply IH|done].
  - by destruct e.
Qed.

End list.

Section all_or_none.
  Context {W A : Type} {PQ : Libpq W} (committed : W -> A) (in_transaction lost : W -> Prop)
          {PS : PgServer PQ committed in_transaction lost}.
  Context (elems : list (option kvDbBase)) (tblName : string) (action : Action).
  #[local] Abbreviation usable := (usable in_transaction lost).

(** The statements about the elements. *)
Definition statement_of (q : string) : Prop :=
  q ∈ [("SAVEPOINT " ++ savepoint); ("RELEASE SAVEPOINT " ++ savepoint); ("ROLLBACK TO SAVEPOINT " ++ savepoint)]%string \/
  exists d, Some d ∈ elems /\ let t := table_of tblName d in
    q ∈ [insert_text t d; update_text t d; delete_text t d ++ ";" ++ insert_text t d]%string.

(** None of them ends a transaction. *)
Context (Hstmt : forall q, statement_of q -> statement_inside committed in_transaction lost q).

Definition kept (w w' : W) : Prop := keeps committed lost w w' /\ usable w'.

Lemma kept_trans w w1 w2 : kept w w1 -> kept w1 w2 -> kept w w2.
Proof. intros [H1 _] [H2 Hu]. split; [by etransitivity|done]. Qed.

Lemma kept_refl w : usable w -> kept w w.
Proof. intros H. by split. Qed.

Lemma exec_kept q w : statement_of q -> usable w -> kept w (pg_exec true q w).2.
Proof. intros Hq Hw. apply (statement_keeps committed in_transaction lost); [by apply Hstmt|done]. Qed.

Lemma exec_all_kept qs w : Forall statement_of qs -> usable w -> kept w (exec_all true qs w).2.
Proof.
  intros Hqs. revert w. induction Hqs as [|q qs Hq Hqs IH]; intros w Hw; [by apply kept_refl|]. cbn [exec_all].
  pose proof (exec_kept q w Hq Hw) as H. destruct (pg_exec true q w) as [[[]|e] w1]; [|exact H].
  apply (kept_trans w w1); [exact H|]. apply IH, H.
Qed.

Lemma element_statements d : Some d ∈ elems -> let t := table_of tblName d in
  statement_of (insert_text t d) /\ statement_of (update_text t d) /\
  statement_of (delete_text t d ++ ";" ++ insert_text t d)%string.
Proof. intros Hd t. split_and!; right; exists d; (split; [done|]); fold t; rewrite !elem_of_cons; tauto. Qed.

Lemma savepoint_statements q :
  q ∈ [("SAVEPOINT " ++ savepoint); ("RELEASE SAVEPOINT " ++ savepoint); ("ROLLBACK TO SAVEPOINT " ++ savepoint)]%string ->
  statement_of q.
Proof. by left. Qed.

Lemma dit_insert_kept d x w : Some d ∈ elems -> usable w ->
  kept w (dit_insert true tblName action d x w).2.2.
Proof.
  intros Hd Hw. destruct (element_statements d Hd) as (Hi & _ & _). unfold dit_insert.
  match goal with |- context [exec_all true ?l w] => pose proof (exec_all_kept l w) as H; set (ls := l) in * end.
  assert (Hl : Forall statement_of ls).
  { unfold ls. rewrite !Forall_cons, Forall_nil.
    split_and!; [|done| |done]; apply savepoint_statements; rewrite !elem_of_cons; tauto. }
  specialize (H Hl Hw).
  destruct (exec_all true ls w) as [[[]|e] w1]; [exact H|]. simpl in H.
  pose proof (exec_kept ("ROLLBACK TO SAVEPOINT " ++ savepoint) w1
    ltac:(apply savepoint_statements; rewrite !elem_of_cons; tauto) (proj2 H)) as H2.
  pose proof (kept_trans _ _ _ H H2) as H3.
  destruct e as [[]| | |]; [..|exact H]; destruct (pg_exec true _ w1) as [[[]|e'] w2]; try exact H3.
  by destruct (bool_decide _).
Qed.

Lemma dit_overwrite_kept d w : Some d ∈ elems -> usable w ->
  kept w (dit_overwrite true tblName action d w).2.
Proof.
  intros Hd Hw. destruct (element_statements d Hd) as (_ & Hu & Hr). unfold dit_overwrite.
  by destruct (bool_decide _); apply exec_kept.
Qed.

Lemma dit_run_kept l x w : l ⊆ elems -> usable w -> kept w (dit_run true tblName action l x w).2.2.
Proof.
  revert x w. induction l as [|[d|] l IH]; intros x w Hl Hw; [by apply kept_refl| |by apply kept_refl]. cbn [dit_run].
  assert (Hd : Some d ∈ elems) by (apply Hl; by left).
  assert (Hl' : l ⊆ elems) by (intros y Hy; apply Hl; by right).
  destruct (exists_ d); [|by apply kept_refl]. cbn [negb]. pose proof (dit_insert_kept d x w Hd Hw) as H.
  destruct (dit_insert true tblName action d x w) as [[[]|e] [x1 w1]]; [| |exact H].
  - apply (kept_trans w w1); [exact H|]. by apply IH, H.
  - pose proof (dit_overwrite_kept d w1 Hd (proj2 H)) as H2. pose proof (kept_trans _ _ _ H H2) as H3.
    destruct (dit_overwrite true tblName action d w1) as [[[]|e] w2]; [|exact H3].
    apply (kept_trans w w2); [exact H3|]. by apply IH, H3.
Qed.

Lemma dit_operator_kept x w : usable w -> keeps committed lost w (dit_operator true elems tblName action x w).2.2.
Proof.
  intros Hw. unfold dit_operator.
  destruct (dit_run_kept elems {| savedExcetion := NoException; index := 0; fastExit := false |} w ltac:(done) Hw) as [H _].
  destruct (dit_run _ _ _ _ _ w) as [[[]|[]] [x1 w1]]; exact H.
Qed.

(** C12: The insertion of a list is all or nothing when the connection is not lost and
    no statement about an element ends the transaction that it is in, on a server that
    keeps the rules of transactions. When it succeeds, a transaction that began where
    the call began inserted every element or, unless that was not allowed, wrote it
    over the one with its key, and was committed; otherwise nothing was committed. *)
Theorem insertImpl_all_or_none (fuel : nat) (g g' : kvDbGate) (w w' : W) (r : bool + failure) :
  insertImpl true fuel elems tblName action g w = Some (r, (g', w')) -> ~ lost w' ->
  match r with
  | inl true =>
      exists w0 w1 w2, committed w0 = committed w /\ pg_exec true (start_transaction SERIALIZABLE) w0 = (inl tt, w1) /\
        all_stored true tblName action elems w1 w2 /\ committed w2 = committed w /\ pg_endTransaction true w2 = (inl tt, w')
  | _ => committed w' = committed w
  end.
Proof.
  unfold insertImpl. intros E Hl.
  destruct (pg_perform _ _ _ _ _ _ _) as [[s [x1 w1]]|] eqn:Ep; [|done].
  assert (Hw : w1 = w').
  { destruct s as [[]|e]; [by injection E as <- <- <-|]. destruct e as [[]| | |]; by simplify_eq. }
  subst w1. set (Hk := fun x w => dit_operator_kept x w : usable w -> keeps committed lost w (t_run (insert_transaction true elems tblName action) x w).2.2).
  apply (pg_perform_ends committed in_transaction lost _ Hk SERIALIZABLE (fun _ => True)) in Ep; [|by intros; left|done..].
  apply unless_lasts in Ep as [[[Hc Hq]|Hd] _]; [| |done].
  - apply unless_lasts in Hc as [Hc _]; [|done]. cbn [fst snd] in *. destruct s as [[]|e]; [by destruct (Hq eq_refl) as (? & ? & ? & ?)|].
    destruct e as [[]| | |]; by simplify_eq.
  - apply (done_by_attempt committed in_transaction lost _ Hk) in Hd
      as (-> & x0 & w0 & w1' & b & x2 & w2 & _ & Hc & Eb & Er & Hc2 & H); [|done]. injection E as <- <-.
    cbn [insert_transaction t_run] in Er. pose proof (dit_operator_run true tblName action elems x0 w1') as Hs.
    rewrite Er in Hs. destruct Hs as [-> Hs]. destruct H as [H _]. by exists w0, w1', w2.
Qed.

End all_or_none.

(** Without a connection the insertion of a list is no error [NotConnected]: the
    transaction throws an exception again that it never saved. *)
Theorem insertImpl_not_connected {W} {PQ : Libpq W} (fuel : nat) elems tblName action g (w : W) :
  insertImpl false (S fuel) elems tblName action g w = Some (inr Undefined, (g, w)).
Proof. done. Qed.

(** ** Instances *)

Definition sample_elem (key : string) : kvDbBase :=
  {| toSend := "('" ++ key ++ "')"; toUpdate := " SET x='" ++ key ++ "'"; uniqueKey := "WHERE x='" ++ key ++ "'";
     tableName := "t"; exists_ := true |}.

Definition sample_elems : list (option kvDbBase) := [Some (sample_elem "a"); Some (sample_elem "b")].

Lemma gate_insert_true_witness :
  exists w', gate_insert (PQ := lasting_pq) true (sample_elem "a") "t" true kvDbGate_new (None, []) =
    (inl true, (kvDbGate_new, w')) /\ w'.2 = ["INSERT INTO t VALUES('a');"%string] /\
    exists w1, pg_exec (PQ := lasting_pq) true (insert_text "t" (sample_elem "a")) w1 = (inl tt, w').
Proof.
  eexists. split; [by vm_compute|]. split; [done|].
  destruct (gate_insert_true (PQ := lasting_pq) true (sample_elem "a") "t" true kvDbGate_new (None, []) kvDbGate_new
    (None, ["INSERT INTO t VALUES('a');"%string]) ltac:(by vm_compute)) as (_ & _ & [H|(_ & c & _ & w1 & _ & _ & H & _)]);
    [exact H|by vm_compute in H].
Defined.

(** A server that refuses every insertion as a duplicate. *)
Definition refusing_pq : Libpq (list string) := {|
  pq_connected _ := true;
  PQreset w := w;
  PQexec q w :=
    ((if String.prefix "INSERT" q
      then Some {| pr_status := PGRES_FATAL_ERROR; pr_message := "duplicate key"; pr_sqlstate := Some "23505"%string; pr_tuples := [] |}
      else pg_ok), w ++ [q]);
  pq_time _ := 0
|}.

(** Success is reported for an object that was never inserted. *)
Lemma gate_insert_lost :
  gate_insert (PQ := refusing_pq) true (sample_elem "a") "t" true kvDbGate_new [] =
    (inl true, (kvDbGate_new, ["INSERT INTO t VALUES('a');"; "DELETE FROM t WHERE x='a'";
                               "INSERT INTO t VALUES('a');"; "DELETE FROM t WHERE x='a'"]%string)).
Proof. by vm_compute. Qed.

Lemma sample_statements q : statement_of sample_elems "" q ->
  statement_inside (PQ := session_pq) ss_committed (fun w => is_Some (ss_pending w)) session_lost q.
Proof.
  intros Hq w [l E].
  assert (H : q ∈ [("SAVEPOINT " ++ savepoint); ("RELEASE SAVEPOINT " ++ savepoint); ("ROLLBACK TO SAVEPOINT " ++ savepoint)]%string ++
    (["a"; "b"]%string ≫= fun k => let d := sample_elem k in
       [insert_text "t" d; update_text "t" d; delete_text "t" d ++ ";" ++ insert_text "t" d]%string)).
  { destruct Hq as [Hq|(d & Hd & Hq)]; [by apply elem_of_app; left|]. apply elem_of_app. right. apply list_elem_of_bind.
    unfold sample_elems in Hd. rewrite !elem_of_cons, elem_of_nil in Hd. destruct Hd as [[= ->]|[[= ->]|[]]]; [exists "a"%string|exists "b"%string];
      (split; [exact Hq|]); rewrite !elem_of_cons; tauto. }
  clear Hq. simpl in H. rewrite !elem_of_cons, elem_of_nil in H.
  cbn. unfold session_exec, usable, session_lost.
  destruct (ss_drops w) as [|[] ds]; [|by split; [|left; left]|];
    repeat (destruct H as [->|H]; [simpl; rewrite E; split; [done|right; by eexists]|]); done.
Qed.

Lemma insertImpl_all_or_none_witness :
  exists w0 w1 w2 w', ss_committed w0 = [] /\ pg_exec (PQ := session_pq) true (start_transaction SERIALIZABLE) w0 = (inl tt, w1) /\
    all_stored (PQ := session_pq) true "" INSERTONLY sample_elems w1 w2 /\
    pg_endTransaction (PQ := session_pq) true w2 = (inl tt, w') /\
    insertImpl (PQ := session_pq) true 5 sample_elems "" INSERTONLY kvDbGate_new (new_session []) =
      Some (inl true, (kvDbGate_new, w')).
Proof.
  assert (exists w', insertImpl (PQ := session_pq) true 5 sample_elems "" INSERTONLY kvDbGate_new (new_session []) =
      Some (inl true, (kvDbGate_new, w')) /\ ~ session_lost w') as (w' & E & Hl)
    by (eexists; split; [by vm_compute|by intros [H|H]]).
  destruct (insertImpl_all_or_none (PQ := session_pq) ss_committed (fun w => is_Some (ss_pending w)) session_lost sample_elems "" INSERTONLY
    sample_statements 5 kvDbGate_new kvDbGate_new (new_session []) w' (inl true) E Hl) as (w0 & w1 & w2 & H).
  exists w0, w1, w2, w'. tauto.
Defined.
