(* ===== verification/Decoder.v ===== *)
(** * The base of the decoders (src/src/lib/decoder/decoderbase/decoder.cc, decoder.h,
      GenCacheElem.h)

    Which data of a message is saved, published or left out, and the transaction
    that saves it. The statements of the transaction run on the connection of
    [PgConnection.v]: the class [DbServer] names the server's part in that, and its
    laws say that it runs them on the state that the transaction sees. Files, logs
    and configured directories are left out. *)

From stdpp Require Import pretty.
From S2P Require Import Prelude Orders PTime TimeText DataFlag ControlInfo UseInfo KvData SortedData KvalobsData Sql Database Observation DataUpdateTransaction Rows ObsPgm Conf StationFilter Scanning Text CommaString OrderedSet Signature ParamList PgConnection Gate.

#[local] Open Scope Z_scope.

(** ** [QaIdInfo] *)

Record QaIdInfo := { random_ : bool; nextQaId_ : Z; qaIdTypes_ : list Z; qaMaxId_ : Z }.

(** The constructor without arguments leaves two members as they are; they are not
    used while [qaMaxId_] is negative. *)
Definition QaIdInfo_new : QaIdInfo := {| random_ := false; nextQaId_ := 0; qaIdTypes_ := []; qaMaxId_ := -1 |}.

Definition QaIdInfo_of (qaMaxId : Z) (qaIdTypes : list Z) : QaIdInfo :=
  {| random_ := negb (bool_decide (qaIdTypes = [0])); nextQaId_ := 0; qaIdTypes_ := qaIdTypes; qaMaxId_ := qaMaxId |}.

Definition isQaIdConfiguredForType (typeID : Z) (q : QaIdInfo) : bool :=
  if (qaMaxId_ q <? 0) || bool_decide (qaIdTypes_ q = []) then false
  else if bool_decide (head (qaIdTypes_ q) = Some 0) then true
  else existsb (fun t => t =? typeID) (qaIdTypes_ q).

(** [rand] is the value of [rand()]. [None] is the overflow of [qaMaxId_ + 1]. *)
Definition getQaIdToUse (rand : Z) (q : QaIdInfo) : option (Z * QaIdInfo) :=
  if (qaMaxId_ q <? 0) || bool_decide (qaIdTypes_ q = []) then Some (-1, q)
  else if qaMaxId_ q =? INT_MAX then None
  else if random_ q then Some (Z.rem rand (qaMaxId_ q + 1), q)
  else Some (nextQaId_ q, {| random_ := random_ q; nextQaId_ := Z.rem (nextQaId_ q + 1) (qaMaxId_ q + 1);
                             qaIdTypes_ := qaIdTypes_ q; qaMaxId_ := qaMaxId_ q |}).

(** ** [ObsPgmParamInfo] *)

Inductive Active := YES | NO | MAYBE.

(** [isActive]: the result and the state. *)
Fixpoint isActive {PT : PTime} {PC : PCalendar PT} (obsPgm : list (kvObsPgm PT)) (stationid typeid_ paramid sensor level : Z)
    (obstime : ptime PT) : bool * Active :=
  match obsPgm with
  | [] => (false, NO)
  | it :: obsPgm =>
      if (op_stationid_ it =? stationid) && (op_typeid_ it =? typeid_) && (op_paramid_ it =? paramid)
         && (op_level_ it =? level) && (op_nr_sensor_ it >? sensor) && isOn it obstime
      then (true, if op_collector_ it then MAYBE else YES)
      else isActive obsPgm stationid typeid_ paramid sensor level obstime
  end.

(** ** [DecoderBase] *)

(** What the decoder asks of the server beyond the client library: to run the
    statements of a program on the tables. *)
Class DbServer (PT : PTime) (W : Type) := {
  run_on : forall A : Type, M (PT := PT) A -> W -> (A + failure) * W;
  clock : W -> ptime PT
}.
Arguments run_on {PT W _} {A} m w.

Section DecoderBase.
  Context {PT : PTime} {PC : PCalendar PT} {DT : DbText PT} {BT : BoostText} {TT : PTimeText PT}.
  Context {W : Type} {PQ : Libpq W} {DS : DbServer PT W} (con : bool).

Record DecoderBase := {
  paramList : ParamList;
  typeList : list kvTypes;
  obsType : bytes;
  obs : bytes;
  theKvConf : option ConfSection;
  filters : StationFilters;
  qaIdInfo_ : option QaIdInfo;
  useQaId_ : Z;
  decodedData : list (KvalobsData PT);
  publishData_ : list (KvalobsData PT);
  genCachElem : list (Z * Z * bool)
}.

Definition DecoderBase_new (params : ParamList) (typeList_ : list kvTypes) (obsType_ obs_ : bytes) : DecoderBase :=
  {| paramList := params; typeList := typeList_; obsType := obsType_; obs := obs_; theKvConf := None;
     filters := StationFilters_new; qaIdInfo_ := None; useQaId_ := -1; decodedData := []; publishData_ := [];
     genCachElem := [] |}.

(** The members that change. *)
Definition set_message (t o : bytes) (d : DecoderBase) : DecoderBase :=
  {| paramList := paramList d; typeList := typeList d; obsType := t; obs := o; theKvConf := theKvConf d;
     filters := filters d; qaIdInfo_ := qaIdInfo_ d; useQaId_ := useQaId_ d; decodedData := decodedData d;
     publishData_ := publishData_ d; genCachElem := genCachElem d |}.
Definition add_results (dec pub : list (KvalobsData PT)) (d : DecoderBase) : DecoderBase :=
  {| paramList := paramList d; typeList := typeList d; obsType := obsType d; obs := obs d; theKvConf := theKvConf d;
     filters := filters d; qaIdInfo_ := qaIdInfo_ d; useQaId_ := useQaId_ d; decodedData := decodedData d ++ dec;
     publishData_ := publishData_ d ++ pub; genCachElem := genCachElem d |}.
Definition set_genCachElem (l : list (Z * Z * bool)) (d : DecoderBase) : DecoderBase :=
  {| paramList := paramList d; typeList := typeList d; obsType := obsType d; obs := obs d; theKvConf := theKvConf d;
     filters := filters d; qaIdInfo_ := qaIdInfo_ d; useQaId_ := useQaId_ d; decodedData := decodedData d;
     publishData_ := publishData_ d; genCachElem := l |}.
Definition setFilters (f : StationFilters) (d : DecoderBase) : DecoderBase :=
  {| paramList := paramList d; typeList := typeList d; obsType := obsType d; obs := obs d; theKvConf := theKvConf d;
     filters := f; qaIdInfo_ := qaIdInfo_ d; useQaId_ := useQaId_ d; decodedData := decodedData d;
     publishData_ := publishData_ d; genCachElem := genCachElem d |}.
Definition setKvConf (c : option ConfSection) (d : DecoderBase) : DecoderBase :=
  {| paramList := paramList d; typeList := typeList d; obsType := obsType d; obs := obs d; theKvConf := c;
     filters := filters d; qaIdInfo_ := qaIdInfo_ d; useQaId_ := useQaId_ d; decodedData := decodedData d;
     publishData_ := publishData_ d; genCachElem := genCachElem d |}.

(** [setQaIdInfo], with what becomes of the shared object. *)
Definition setQaIdInfo (rand : Z) (q : option QaIdInfo) (d : DecoderBase) : option (DecoderBase * option QaIdInfo) :=
  let set q' u := {| paramList := paramList d; typeList := typeList d; obsType := obsType d; obs := obs d;
     theKvConf := theKvConf d; filters := filters d; qaIdInfo_ := q'; useQaId_ := u; decodedData := decodedData d;
     publishData_ := publishData_ d; genCachElem := genCachElem d |} in
  match q with
  | None => Some (set None (useQaId_ d), None)
  | Some q => match getQaIdToUse rand q with
              | Some (u, q) => Some (set (Some q) u, Some q)
              | None => None
              end
  end.

Definition useQaId (typeID : Z) (d : DecoderBase) : Z :=
  match qaIdInfo_ d with
  | Some q => if isQaIdConfiguredForType typeID q then useQaId_ d else -1
  | None => -1
  end.

Definition dataToPublish (sd : list (kvData PT)) (td : list (kvTextData PT)) (d : DecoderBase) : DecoderBase :=
  let pubData := publishData (filters d) sd td in
  if negb (empty pubData) then add_results [] [pubData] d else d.

(** [getUseinfo7Code] of the decoder: an unknown type gives 0. *)
Definition base_getUseinfo7Code (typeId : Z) (now obt : ptime PT) (d : DecoderBase) : Z :=
  let flag := getUseinfo7Code typeId now obt (typeList d) in if flag <? 0 then 0 else flag.

(** [getObsTypeKey]. [None] is the overrun in [CommaString]. *)
Fixpoint find_key (keyToFind : bytes) (l : list bytes) : option bytes :=
  match l with
  | [] => Some []
  | keyval :: l =>
      match CommaString_of keyval "="%char with
      | None => None
      | Some tmp =>
          if (cs_size tmp <? 2)%nat then find_key keyToFind l
          else
            let key := trimstr (cs_value tmp 0).1 in
            if bool_decide (key = keyToFind) && (2 <=? length key)%nat then Some (cs_value tmp 1).1
            else find_key keyToFind l
      end
  end.

Definition getObsTypeKey (keyToFind_ : bytes) (d : DecoderBase) : option bytes :=
  let keyToFind := trimstr keyToFind_ in
  if bool_decide (keyToFind = []) then Some []
  else match CommaString_of (obsType d) "/"%char with
       | None => None
       | Some cstr => find_key keyToFind (el_text <$> cs_data cstr)
       end.

Definition getMetaSaSd (d : DecoderBase) : option bytes :=
  meta ← getObsTypeKey (to_bytes "meta_SaSd") d; Some (if (length meta <? 2)%nat then [] else meta).

Definition findType (typeid_ : Z) (d : DecoderBase) : option kvTypes :=
  List.find (fun ty => ty_typeid_ ty =? typeid_) (typeList d).

(** [isGenerated], with the query of [selectIsGenerated]. *)
Definition generated_query (stationid typeid_ : Z) : string :=
  "select * from generated_types  WHERE stationid=" ++ pretty stationid ++ " AND typeid=" ++ pretty (to_int typeid_).

Definition isGenerated (stationid typeid_ : Z) (d : DecoderBase) (w : W) : (bool + failure) * (DecoderBase * W) :=
  match List.find (fun e : Z * Z * bool => (e.1.1 =? stationid) && (e.1.2 =? typeid_)) (genCachElem d) with
  | Some e => (inl e.2, (d, w))
  | None =>
      match gate_select con (generated_query stationid typeid_) kvDbGate_new w with
      | (inl (true, rows), (_, w)) =>
          let g := (0 <? length rows)%nat in
          (inl g, (set_genCachElem (genCachElem d ++ [(stationid, to_int typeid_, g)]) d, w))
      | (inl (false, _), (_, w)) => (inr (Sql (SQLException_ "" true)), (d, w))
      | (inr e, (_, w)) => (inr e, (d, w))
      end
  end.

(** [getStationId]: [-1] when there is none, [-2] after a database error. *)
Definition station_query (key value : bytes) : string :=
  of_bytes (to_bytes "SELECT stationid FROM station WHERE " ++ key ++ ["="%char] ++ value).

Definition base_getStationId (key value : bytes) (w : W) : (Z + failure) * W :=
  match pg_execQuery con (station_query key value) w with
  | (inl (Some (row :: _)), w) =>
      match row with
      | col :: _ => (inl (strtol (to_bytes col)), w)
      | [] => (inr Undefined, w)
      end
  | (inl _, w) => (inl (-1), w)
  | (inr (Sql _), w) => (inl (-2), w)
  | (inr e, w) => (inr e, w)
  end.

(** ** [addDataToDb] *)

(** The transaction as an object for [Connection::perform], with its member [ok_].
    Only the other members that [perform] sets anew in every attempt change, so an
    attempt that fails leaves the object as it was. *)
Definition update_transaction : Transaction (W := W) (DataUpdateTransaction PT * bool) := {|
  t_run x w :=
    match run_on (perform x.1 (clock w)) w with
    | (inl (b, y), w) => (inl b, ((y, x.2), w))
    | (inr e, w) => (inr e, (x, w))
    end;
  t_onSuccess x := (x.1, true); t_onFailure x := x; t_onAbort x := x; t_onRetry := default_onRetry;
  t_onMaxRetry := default_onMaxRetry
|}.

(** The time of an observation, to the second; [None] when it is no time point and
    the constructor of the date throws. *)
Definition whole_seconds (t : ptime PT) : option (ptime PT) :=
  if is_special t then None else pt_make (pt_year t) (pt_month t) (pt_day t) (pt_hours t) (pt_minutes t) (pt_seconds t).

Definition addDataToDbThrow (fuel : nat) (obstime : ptime PT) (stationid typeid_ : Z) (sd : list (kvData PT))
    (textData : list (kvTextData PT)) (logid : string) (insertOrUpdate : DBAddType)
    (addToWorkQueue tryToUseDataTbTime partialDuplicateTest : bool) (d : DecoderBase) (w : W)
    : option ((bool + failure) * (DecoderBase * W)) :=
  match whole_seconds obstime with
  | None => Some (inr Std, (d, w))
  | Some pt_obstime =>
      let filter := filters_filter (filters d) stationid typeid_ in
      if negb (saveToDb_ filter || publish_ filter) then Some (inl true, (d, w))
      else if publish_ filter && negb (saveToDb_ filter)
      then Some (inl true, (dataToPublish sd textData d, w))
      else
        let '(data, tdata) := saveDataToDb (filters d) sd textData in
        if bool_decide (data = []) && bool_decide (tdata = []) then Some (inl true, (d, w))
        else
          let work := DataUpdateTransaction_new pt_obstime stationid typeid_ data tdata logid insertOrUpdate addToWorkQueue
                        tryToUseDataTbTime (if partialDuplicateTest then Partial else Complete) (useQaId typeid_ d) in
          match pg_perform con update_transaction fuel 20 REPEATABLE_READ (work, false) w with
          | None => None
          | Some (inr e, (_, w)) => Some (inr e, (d, w))
          | Some (inl _, ((work, ok), w)) =>
              let publish := dataToPublish_ work in
              let pub := if ok && negb (empty publish) && publish_ filter then [publish] else [] in
              Some (inl ok, (add_results [KvalobsData_new] pub d, w))
          end
  end.

(** [addDataToDb]: every exception is caught. *)
Definition addDataToDb (fuel : nat) (obstime : ptime PT) (stationid typeid_ : Z) (sd : list (kvData PT))
    (textData : list (kvTextData PT)) (logid : string) (insertOrUpdate : DBAddType)
    (addToWorkQueue tryToUseDataTbTime enableDuplicateTest : bool) (d : DecoderBase) (w : W)
    : option ((bool + failure) * (DecoderBase * W)) :=
  match addDataToDbThrow fuel obstime stationid typeid_ sd textData logid insertOrUpdate addToWorkQueue
          tryToUseDataTbTime enableDuplicateTest d w with
  | Some (inr Undefined, dw) => Some (inr Undefined, dw)
  | Some (inr _, dw) => Some (inl false, dw)
  | r => r
  end.

(** ** [putRejectdecodeInDb] *)

(** kvRejectdecode.cc: [toSend] and [uniqueKey]; [to_kvalobs_string] is the text of a time. *)
Section reject.
  Context (to_kvalobs_string : ptime PT -> bytes).

Definition reject_base (message decoder comment : bytes) (tbtime : ptime PT) : kvDbBase :=
  let c := [","%char] in
  {| toSend := of_bytes (["("%char] ++ quoted message ++ c ++ quoted_time to_kvalobs_string tbtime ++ c ++ quoted decoder
                         ++ c ++ quoted comment ++ [")"%char]);
     toUpdate := "";
     uniqueKey := of_bytes (to_bytes " WHERE  tbtime=" ++ quoted_time to_kvalobs_string tbtime
                            ++ to_bytes " AND         message=" ++ quoted message
                            ++ to_bytes " AND         decoder=" ++ quoted decoder);
     tableName := "rejectdecode";
     exists_ := negb (bool_decide (to_kvalobs_string tbtime = [])) |}.

(** The texts are escaped by the gate and then once more by [quoted]. *)
Definition putRejectdecodeInDb (message decoder comment : bytes) (tbtime : ptime PT) (w : W) : (bool + failure) * W :=
  let reject := reject_base (db_esc message) (db_esc decoder) (db_esc comment) tbtime in
  let '(r, (_, w)) := gate_insert con reject (tableName reject) true kvDbGate_new w in (r, w).

End reject.

End DecoderBase.

Arguments DecoderBase : clear implicits.

(** ** The server *)

(** What the server documents: a transaction begins with what is committed, its
    statements work on its own view, and its end commits that view; all of it as
    long as the connection is not lost. *)
Class DbServerLaws {PT : PTime} {W : Type} {PQ : Libpq W} (DS : DbServer PT W)
    (committed : W -> tables PT) (view : W -> option (tables PT)) (lost : W -> Prop) := {
  dl_server :: PgServer PQ committed (fun w => is_Some (view w)) lost;
  dl_start isolation w : (pg_exec true (start_transaction isolation) w).1 = inl tt ->
    lost (pg_exec true (start_transaction isolation) w).2 \/
    view (pg_exec true (start_transaction isolation) w).2 = Some (committed w);
  dl_commit w v : view w = Some v -> (pg_endTransaction true w).1 = inl tt ->
    lost (pg_endTransaction true w).2 \/ committed (pg_endTransaction true w).2 = v;
  dl_lost A (m : M A) w : lost w -> lost (run_on m w).2;
  dl_run A (m : M A) w v : view w = Some v ->
    lost (run_on m w).2 \/
    match run_on m w with
    | (inl a, w') => exists v', m v = inl (a, v') /\ view w' = Some v' /\ committed w' = committed w
    | (inr _, w') => committed w' = committed w
    end
}.

(** ** Properties: saving data *)

Section saving.
  Context {PT : PTime} {PC : PCalendar PT} {DT : DbText PT}.
  #[local] Open Scope db_scope.

(** What a transaction is about: all but the members that it changes. *)
Definition inputs (x : DataUpdateTransaction PT) : DataUpdateTransaction PT := upd x 0 KvalobsData_new "" false.

Lemma inputs_check x : inputs (onlyHqcDataCheck x) = inputs x.
Proof. unfold onlyHqcDataCheck. by destruct (forallb _ _). Qed.

(** What a program on the tables gives when it does not fail. *)
Definition yields {A} (Q : A -> Prop) (m : M A) : Prop := forall t a t', m t = inl (a, t') -> Q a.

Lemma yields_ret {A} (Q : A -> Prop) a : Q a -> yields Q (ret a).
Proof. intros H t b t' [= <- <-]. done. Qed.

Lemma yields_bind {A B} (P : A -> Prop) (Q : B -> Prop) (m : M A) (k : A -> M B) :
  yields P m -> (forall a, P a -> yields Q (k a)) -> yields Q (bind m k).
Proof.
  intros Hm H t b t'. unfold bind. destruct (m t) as [[a t1]|] eqn:E; [|done]. apply H. by eapply Hm.
Qed.

Lemma yields_any {A} (m : M A) : yields (fun _ => True) m.
Proof. done. Qed.

Definition same_inputs (x y : DataUpdateTransaction PT) : Prop := inputs y = inputs x.

(** The usual end: it succeeds, and only those members have changed. *)
Definition succeeds (x : DataUpdateTransaction PT) (r : bool * DataUpdateTransaction PT) : Prop :=
  r.1 = true /\ same_inputs x r.2.

Lemma succeeds_from x y r : same_inputs x y -> succeeds y r -> succeeds x r.
Proof. unfold succeeds, same_inputs. intros -> H. exact H. Qed.

Lemma yields_from x y (m : M _) : same_inputs x y -> yields (succeeds y) m -> yields (succeeds x) m.
Proof. intros H Hm t r t' E. eapply succeeds_from; [exact H|]. by eapply Hm. Qed.

Ltac next_step := eapply yields_bind; [apply yields_any|]; intros ? _.

Lemma checkWorkQue_inputs x id : yields (same_inputs x) (checkWorkQue x id).
Proof. unfold checkWorkQue. next_step. case_match; [by apply yields_ret|]. next_step. by apply yields_ret. Qed.

Lemma insert_and_queue_inputs x now o : yields (succeeds x) (insert_and_queue x now o).
Proof.
  unfold insert_and_queue. next_step. next_step. eapply (yields_bind (same_inputs x)).
  - unfold updateWorkQue. case_match; [by apply yields_ret|]. next_step. by apply yields_ret.
  - intros y Hy. by apply yields_ret.
Qed.

(** The replacement of an observation by any other. *)
Lemma check_and_insert_inputs x now id (o : DataUpdateTransaction PT -> Observation PT) :
  yields (succeeds x) (let* x := checkWorkQue x id in delete_observations id ;;; insert_and_queue x now (o x)).
Proof.
  eapply yields_bind; [apply checkWorkQue_inputs|]. intros y Hy. next_step.
  eapply yields_from; [exact Hy|]. apply insert_and_queue_inputs.
Qed.

Lemma updateObservation_inputs x now o : yields (succeeds x) (updateObservation x now o).
Proof.
  unfold updateObservation. destruct (merge same_elem _ _), (merge same_text_elem _ _); [by apply yields_ret|..];
    by apply (check_and_insert_inputs x now (observationid_ o) (fun x => Observation_set _ _ _ (useTbTime x now _ _ _) _ _)).
Qed.

(** A transaction that is refused, for its time or because a log shows the time of
    a value that has none. *)
Definition refused (x : DataUpdateTransaction PT) : bool :=
  is_not_a_date_time (dut_obstime x) || (negb (bool_decide (newData x = [] /\ newTextData x = [])) && log_error x).

Lemma perform_yields x now : yields (fun r => r.1 = negb (refused x) /\ same_inputs x r.2) (perform x now).
Proof.
  unfold perform, refused. destruct (is_not_a_date_time _); [by apply yields_ret|]. cbn [orb].
  pose proof (inputs_check x) as Hc. assert (Hl : log_error (onlyHqcDataCheck x) = log_error x)
    by (unfold log_error, onlyHqcDataCheck; by destruct (forallb _ _)).
  set (y := onlyHqcDataCheck x) in *.
  set (m := if log_error y then _ else _).
  assert (Hm : yields (fun r => r.1 = negb (log_error x) /\ same_inputs x r.2) m).
  { unfold m. rewrite Hl. destruct (log_error x); [by apply yields_ret|]. next_step.
    assert (Hs : forall z n, same_inputs y z -> yields (succeeds z) n -> yields (fun r => r.1 = true /\ same_inputs x r.2) n).
    { intros z n Hz. apply yields_from. unfold same_inputs in *. congruence. }
    case_match; [|by eapply Hs; [|apply insert_and_queue_inputs]]. next_step. case_match; [by apply yields_ret|].
    destruct (is_insert y); (eapply Hs; [|first [apply check_and_insert_inputs | apply updateObservation_inputs]]); done. }
  destruct (newData x), (newTextData x); [by apply yields_ret|..];
    (rewrite bool_decide_false by (intros []; done)); exact Hm.
Qed.

Lemma perform_inputs x now t b y t' : perform x now t = inl ((b, y), t') -> b = negb (refused x) /\ same_inputs x y.
Proof. intros E. by apply perform_yields in E. Qed.

End saving.

(** ** Properties: what a decoder does with data *)

Section add.
  Context {PT : PTime} {PC : PCalendar PT} {DT : DbText PT} {BT : BoostText} {TT : PTimeText PT}.
  Context {W : Type} {PQ : Libpq W} {DS : DbServer PT W} (committed : W -> tables PT) (view : W -> option (tables PT))
          (lost : W -> Prop) {DSL : DbServerLaws DS committed view lost}.
  #[local] Abbreviation in_view := (fun w => is_Some (view w)).
  #[local] Abbreviation usable := (usable in_view lost).
  #[local] Abbreviation keeps := (keeps committed lost).

Lemma run_kept x w : usable w -> keeps w (t_run update_transaction x w).2.2.
Proof.
  unfold update_transaction. cbn [t_run]. intros [Hw|[v Hv]].
  - pose proof (dl_lost _ (perform x.1 (clock w)) w Hw) as H.
    destruct (run_on _ w) as [[[b y]|e] w1]; by apply keeps_lost.
  - pose proof (dl_lost _ (perform x.1 (clock w)) w) as Hl. pose proof (dl_run _ (perform x.1 (clock w)) w v Hv) as H.
    destruct (run_on _ w) as [[[b y]|e] w1]; cbn [fst snd] in *; (split; [done|]); destruct H as [H|H]; [by left| |by left|by right].
    destruct H as (v' & _ & _ & H). by right.
Qed.

(** One attempt: the transaction is performed on what its view shows. *)
Lemma attempt_update x w v r w' : view w = Some v -> attempt_transaction true update_transaction x w = (inl tt, (r, w')) ->
  lost w' \/
  exists b y v', perform x.1 (clock w) v = inl ((b, y), v') /\ r = (y, x.2 || b) /\
    committed w' = if b then v' else committed w.
Proof.
  intros Hv. unfold attempt_transaction. cbn [update_transaction t_run t_onSuccess t_onFailure].
  pose proof (dl_run _ (perform x.1 (clock w)) w v Hv) as H.
  destruct (run_on _ w) as [[[[] y]|e] w1]; [| |done]; cbn [fst snd] in H.
  - pose proof (dl_commit w1) as Hd. pose proof (pg_exec_lost (PS := dl_server) committed in_view lost "END" w1) as Hl.
    fold (pg_endTransaction true w1) in Hl. destruct (pg_endTransaction true w1) as [[[]|e] w2]; [|done].
    intros [= <- <-]. cbn [fst snd] in *. destruct H as [H|(v' & E & Hv' & Hc)]; [left; tauto|].
    destruct (Hd v' Hv' eq_refl) as [?|Hd']; [by left|]. right. exists true, y, v'. rewrite orb_true_r. by split_and!.
  - pose proof (rollBack_keeps committed in_view lost w1) as Hk. destruct (pg_rollBack true w1) as [[[]|e] w2]; [|done].
    intros [= <- <-]. cbn [fst snd] in *. destruct Hk as [Hlk [Hk|Hk]]; [by left|].
    destruct H as [H|(v' & E & Hv' & Hc)]; [left; tauto|]. right.
    exists false, y, v'. rewrite orb_false_r. split_and!; [done..|]. congruence.
Qed.

(** The objects that the attempts for [x0] may begin with. *)
Definition attempt_of (x0 : DataUpdateTransaction PT) (x : DataUpdateTransaction PT * bool) : Prop :=
  same_inputs x0 x.1 /\ (x.2 = true -> refused x0 = false).

Lemma refused_inputs x y : same_inputs x y -> refused y = refused x.
Proof. unfold same_inputs. intros E. change (refused (inputs y) = refused (inputs x)). by rewrite E. Qed.

Lemma attempt_keeps_inputs x0 x w : usable w -> attempt_of x0 x ->
  attempt_of x0 (attempt_transaction true update_transaction x w).2.1 \/
  lost (attempt_transaction true update_transaction x w).2.2.
Proof.
  intros Hw [Hi Hr]. pose proof (attempt_lost committed in_view lost update_transaction run_kept x w) as Hlost.
  destruct Hw as [Hw|[v Hv]]; [right; by apply Hlost|]. clear Hlost.
  pose proof (pg_exec_lost (PS := dl_server) committed in_view lost "END") as Hl1.
  pose proof (pg_exec_lost (PS := dl_server) committed in_view lost "ROLLBACK") as Hl2.
  unfold attempt_transaction. cbn [update_transaction t_run t_onSuccess t_onFailure].
  pose proof (dl_run _ (perform x.1 (clock w)) w v Hv) as H.
  destruct (run_on _ w) as [[[b y]|e] w1]; [|by left]. cbn [fst snd] in H. specialize (Hl1 w1). specialize (Hl2 w1).
  destruct H as [H|(v' & E & _)].
  { right. unfold pg_endTransaction, pg_rollBack. destruct b;
      [destruct (pg_exec true "END" w1); by apply Hl1|destruct (pg_exec true "ROLLBACK" w1); by apply Hl2]. }
  left. clear Hl1 Hl2.
  apply perform_inputs in E as [-> Hy]. rewrite (refused_inputs _ _ Hi).
  assert (same_inputs x0 y) by (unfold same_inputs in *; congruence).
  destruct (refused x0) eqn:Er; cbn [negb].
  - destruct (pg_rollBack true w1) as [[[]|e] w2]; (split; [done|]; cbn; by rewrite Er).
  - destruct (pg_endTransaction true w1) as [[[]|e] w2]; (split; [done|]; done).
Qed.

Lemma pg_perform_update fuel n x0 x w' w : inputs x0 = x0 ->
  pg_perform true update_transaction fuel n REPEATABLE_READ (x0, false) w = Some (inl tt, (x, w')) ->
  unless_lost lost w w' (exists x1 now t', same_inputs x0 x1 /\ perform x1 now (committed w) = inl ((x.2, x.1), t') /\
    committed w' = if x.2 then t' else committed w).
Proof.
  intros H0 E. destruct x as [x ok].
  apply (pg_perform_ends committed in_view lost update_transaction run_kept REPEATABLE_READ (attempt_of x0)) in E as [Hl E];
    [|apply attempt_keeps_inputs|by intros y Hy|by intros y Hy|by split].
  split; [done|]. destruct E as [E|[[_ H]|(_ & x1 & w0 & [Hi Hr] & Hk & Es & Ea)]]; [by left|by destruct (H eq_refl) as (? & ? & ? & ?)|].
  pose proof (start_keeps committed in_view lost REPEATABLE_READ w0) as Hs.
  pose proof (attempt_lost committed in_view lost update_transaction run_kept x1 (pg_exec true (start_transaction REPEATABLE_READ) w0).2) as Hla.
  rewrite Ea in Hla. cbn [fst snd] in Hla. destruct Hs as [Hls Hs]. destruct Hk as [Hlk Hk].
  destruct Hk as [Hk|Hk]; [left; tauto|]. destruct Hs as [Hs|Hs]; [left; tauto|].
  destruct (dl_start _ _ Es) as [Hx|Hv]; [left; tauto|].
  apply (attempt_update _ _ (committed w0)) in Ea as [Ea|(b & y & v' & Ep & [= -> ->] & Ec)]; [by left| |done].
  right. assert (Hb : x1.2 || b = b).
  { apply perform_inputs in Ep as [-> _]. rewrite (refused_inputs _ _ Hi). destruct (x1.2); [|done]. by rewrite Hr. }
  rewrite Hk in Ep. exists x1.1, (clock (pg_exec true (start_transaction REPEATABLE_READ) w0).2), v'. cbn [fst snd].
  rewrite Hb. split_and!; [done..|]. rewrite Ec. destruct b; [done|]. congruence.
Qed.

Lemma perform_fails fuel n isolation x0 x w' w e :
  pg_perform true update_transaction fuel n isolation (x0, false) w = Some (inr e, (x, w')) -> keeps w w'.
Proof.
  intros E. apply (pg_perform_ends committed in_view lost update_transaction run_kept isolation (fun _ => True))
    in E as [Hl [E|[[[_ E] _]|[E _]]]]; [by split; [|left]|by split|done|by intros; left|done..].
Qed.

(** The transaction that saves the data that the filters let through. *)
Definition transaction_for (t0 : ptime PT) (st ty : Z) (sd : list (kvData PT)) (td : list (kvTextData PT)) (logid : string)
    (iou : DBAddType) (awq tbt pdt : bool) (d : DecoderBase PT) : DataUpdateTransaction PT :=
  let data := saveDataToDb (filters d) sd td in
  DataUpdateTransaction_new t0 st ty data.1 data.2 logid iou awq tbt (if pdt then Partial else Complete) (useQaId ty d).

(** What is done with the data of one observation. The filter of its station and
    type decides: without saving the tables stay as they are, and the data that the
    filters let through is published or not. With saving, the transaction is
    performed on the tables as a whole, once, whatever the number of attempts; what
    it has to publish is published when it succeeded. After an exception the tables
    and the decoder are as before. *)
Theorem addDataToDbThrow_spec fuel obstime st ty sd td logid iou awq tbt pdt d w r d' w' :
  addDataToDbThrow true fuel obstime st ty sd td logid iou awq tbt pdt d w = Some (r, (d', w')) ->
  let f := filters_filter (filters d) st ty in
  unless_lost lost w w'
  match r with
  | inr _ => committed w' = committed w /\ d' = d
  | inl b =>
      exists t0, whole_seconds obstime = Some t0 /\
      let x0 := transaction_for t0 st ty sd td logid iou awq tbt pdt d in
      if saveToDb_ f then
        (newData x0 = [] /\ newTextData x0 = [] /\ b = true /\ committed w' = committed w /\ d' = d) \/
        exists x now y t', same_inputs x0 x /\ perform x now (committed w) = inl ((b, y), t') /\
          committed w' = (if b then t' else committed w) /\
          d' = add_results [KvalobsData_new]
                 (if b && negb (empty (dataToPublish_ y)) && publish_ f then [dataToPublish_ y] else []) d
      else b = true /\ committed w' = committed w /\ d' = if publish_ f then dataToPublish sd td d else d
  end.
Proof.
  unfold addDataToDbThrow, transaction_for. destruct (whole_seconds obstime) as [t0|]; [|by intros [= <- <- <-]; apply unless_done].
  cbv zeta. destruct (saveDataToDb (filters d) sd td) as [ds ts]. cbn [fst snd]. set (f := filters_filter _ _ _).
  destruct (saveToDb_ f); cbn [orb negb andb].
  2:{ rewrite andb_true_r. destruct (publish_ f); intros [= <- <- <-]; apply unless_done; by exists t0. }
  rewrite andb_false_r. set (x0 := DataUpdateTransaction_new _ _ _ _ _ _ _ _ _ _ _).
  destruct (bool_decide (ds = []) && bool_decide (ts = [])) eqn:Ee.
  { apply andb_prop in Ee as [E1%bool_decide_eq_true E2%bool_decide_eq_true]. intros [= <- <- <-]. apply unless_done.
    exists t0. split; [done|]. by left. }
  destruct (pg_perform _ _ _ _ _ _ _) as [[[[]|e] [[y ok] w1]]|] eqn:Ep; [| |done]; intros [= <- <- <-].
  - apply pg_perform_update in Ep; [|done]. eapply unless_mono; [exact Ep|]. intros (x1 & now & t' & Hi & E & Ec).
    exists t0. split; [done|]. right. by exists x1, now, y, t'.
  - apply perform_fails in Ep. eapply unless_mono; [exact Ep|]. done.
Qed.

(** It ends when the serialization errors do. *)
Lemma addDataToDbThrow_settles left_ {SB : SerializationBudget true update_transaction REPEATABLE_READ left_}
    obstime st ty sd td logid iou awq tbt pdt d w :
  settles (fun fuel => addDataToDbThrow true fuel obstime st ty sd td logid iou awq tbt pdt d w).
Proof.
  unfold addDataToDbThrow. destruct (whole_seconds obstime) as [t0|]; [|apply settles_some]. cbv zeta.
  destruct (negb _); [apply settles_some|]. destruct (_ && _); [apply settles_some|]. destruct (saveDataToDb _ _ _) as [ds ts].
  destruct (_ && _); [apply settles_some|]. set (x0 := DataUpdateTransaction_new _ _ _ _ _ _ _ _ _ _ _).
  assert (H : settles (fun fuel => pg_perform true update_transaction fuel 20 REPEATABLE_READ (x0, false) w))
    by (eexists; exact (pg_perform_terminates true update_transaction REPEATABLE_READ left_ 20 (x0, false) w)).
  settle_call H. intros [[u|e] [[y ok] w1]]; apply settles_some.
Qed.

End add.

(** ** Properties: the other operations *)

(** The quality control daemons in turn: from an information that begins at
    [start], the calls give the numbers from there on, modulo their count. *)
Theorem getQaIdToUse_round_robin (q : QaIdInfo) (rands : list Z) :
  0 <= qaMaxId_ q < INT_MAX -> qaIdTypes_ q = [0] -> random_ q = false -> 0 <= nextQaId_ q <= qaMaxId_ q ->
  exists q', foldl (fun s rand => '(ids, q) ← s; '(i, q) ← getQaIdToUse rand q; Some (ids ++ [i], q)) (Some ([], q)) rands =
    Some ((fun k => (nextQaId_ q + Z.of_nat k) mod (qaMaxId_ q + 1)) <$> seq 0 (length rands), q') /\
    nextQaId_ q' = (nextQaId_ q + Z.of_nat (length rands)) mod (qaMaxId_ q + 1) /\
    random_ q' = false /\ qaIdTypes_ q' = [0] /\ qaMaxId_ q' = qaMaxId_ q.
Proof.
  intros Hm Ht Hr Hn. induction rands as [|rand rands IH] using rev_ind.
  - exists q. simpl. rewrite Z.add_0_r, Z.mod_small by lia. done.
  - destruct IH as (q1 & E & En & Er & Et & Em). rewrite foldl_app, E. cbn [foldl mbind option_bind].
    unfold getQaIdToUse. rewrite Et, Er, Em. rewrite bool_decide_false by done.
    destruct (Z.ltb_spec (qaMaxId_ q) 0); [lia|]. destruct (Z.eqb_spec (qaMaxId_ q) INT_MAX); [lia|]. cbn [orb mbind option_bind].
    eexists {| random_ := _; nextQaId_ := _; qaIdTypes_ := _; qaMaxId_ := _ |}. cbn [nextQaId_ random_ qaIdTypes_ qaMaxId_].
    split; [|split].
    + rewrite length_app, seq_app, fmap_app. cbn [length seq fmap list_fmap]. by rewrite En.
    + rewrite length_app. cbn [length].
      pose proof (Z.mod_pos_bound (nextQaId_ q + Z.of_nat (length rands)) (qaMaxId_ q + 1) ltac:(lia)).
      rewrite Z.rem_mod_nonneg by lia. rewrite Zplus_mod_idemp_l. f_equal. lia.
    + done.
Qed.

(** A rejected message is escaped twice: what the server stores is the text as the
    client library escapes it, and not the text itself. *)
Lemma reject_quote_doubled :
  literal_value true (quoted (db_esc (to_bytes "it's"))) = Some (to_bytes "it''s") /\
  literal_value false (quoted (db_esc (to_bytes "it's"))) = Some (to_bytes "it''s").
Proof. by split; vm_compute. Qed.

Section generated.
  Context {PT : PTime} {W : Type} {PQ : Libpq W} (con : bool).

(** [isGenerated] asks the database once for a station and type. *)
Theorem isGenerated_cached (st ty : Z) (d d1 : DecoderBase PT) (w w1 : W) (b : bool) :
  INT_MIN <= ty <= INT_MAX -> isGenerated con st ty d w = (inl b, (d1, w1)) ->
  forall w2, isGenerated con st ty d1 w2 = (inl b, (d1, w2)).
Proof.
  intros Hty. unfold isGenerated at 1. destruct (List.find _ (genCachElem d)) as [e|] eqn:E.
  { intros [= <- <- <-] w2. unfold isGenerated. by rewrite E. }
  destruct (gate_select con _ kvDbGate_new w) as [[[[] rows]|e] [g w']]; try done.
  intros [= <- <- <-] w2. unfold isGenerated, set_genCachElem. cbn [genCachElem]. rewrite to_int_small by done.
  assert (H : List.find (fun e : Z * Z * bool => (e.1.1 =? st) && (e.1.2 =? ty))
    (genCachElem d ++ [(st, ty, (0 <? length rows)%nat)]) = Some (st, ty, (0 <? length rows)%nat)).
  { revert E. generalize (genCachElem d). intros l. induction l as [|x l IH]; simpl.
    - by rewrite !Z.eqb_refl.
    - destruct (_ && _); [done|]. apply IH. }
  by rewrite H.
Qed.

End generated.

(** ** Instances *)

(** A server of tables with one session: for each coming program, the error that it
    meets if it meets one, whether the connection has been lost, and the rows of its
    queries. *)
Record table_server := {
  sv_committed : tables stamp_time;
  sv_view : option (tables stamp_time);
  sv_aborts : list (option sql_exn);
  sv_lost : bool;
  sv_rows : list (list string)
}.

Definition with_view (v : option (tables stamp_time)) (w : table_server) : table_server :=
  {| sv_committed := sv_committed w; sv_view := v; sv_aborts := sv_aborts w; sv_lost := sv_lost w; sv_rows := sv_rows w |}.

Definition table_pq : Libpq table_server := {|
  pq_connected _ := true;
  PQreset := with_view None;
  PQexec q w :=
    if String.prefix "START" q then (pg_ok, with_view (Some (sv_committed w)) w)
    else if bool_decide (q = "END"%string)
    then (pg_ok, {| sv_committed := default (sv_committed w) (sv_view w); sv_view := None; sv_aborts := sv_aborts w; sv_lost := sv_lost w; sv_rows := sv_rows w |})
    else if bool_decide (q = "ROLLBACK"%string) then (pg_ok, with_view None w)
    else if String.prefix "SELECT" q || String.prefix "select" q
    then (Some {| pr_status := PGRES_TUPLES_OK; pr_message := ""; pr_sqlstate := None; pr_tuples := sv_rows w |}, w)
    else (pg_ok, w);
  pq_time _ := 0
|}.

Definition table_db : DbServer stamp_time table_server := {|
  run_on A m w :=
    match sv_aborts w with
    | Some e :: a =>
        let drop := match e with SQLNotConnected => true | _ => false end in
        (inr (Sql e), {| sv_committed := sv_committed w; sv_view := if drop then None else sv_view w; sv_aborts := a;
                         sv_lost := drop || sv_lost w; sv_rows := sv_rows w |})
    | _ =>
        let w := {| sv_committed := sv_committed w; sv_view := sv_view w; sv_aborts := tail (sv_aborts w); sv_lost := sv_lost w; sv_rows := sv_rows w |} in
        match m (default (sv_committed w) (sv_view w)) with
        | inl (a, v) => (inl a, with_view (Some v) w)
        | inr e => (inr (Sql (SQLException_ "" true)), w)
        end
    end;
  clock _ := (stamp_of 2024 1 1 7 0 0 : ptime stamp_time)
|}.

Lemma table_exec isolation w :
  pg_exec (PQ := table_pq) true (start_transaction isolation) w = (inl tt, with_view (Some (sv_committed w)) w).
Proof. by destruct isolation. Qed.

#[export] Instance table_pg : PgServer table_pq sv_committed (fun w => is_Some (sv_view w)) (fun w => sv_lost w = true).
Proof.
  split; try done.
  - intros q w H. simpl. destruct (String.prefix "START" q); [done|]. destruct (bool_decide _); [done|].
    destruct (bool_decide _); [done|]. by destruct (_ || _).
  - by intros [].
  - intros [] w; by eexists.
  - intros w H. by destruct H.
Qed.

#[export] Instance table_laws : DbServerLaws (PQ := table_pq) table_db sv_committed sv_view (fun w => sv_lost w = true).
Proof.
  split.
  - apply _.
  - intros i w _. right. by rewrite table_exec.
  - intros w v Hv _. right. cbn. by rewrite Hv.
  - intros A m w H. cbn. destruct (sv_aborts w) as [|[e|] a]; [|by simpl; rewrite H, orb_true_r|]; simpl; by destruct (m _) as [[x v']|e].
  - intros A m w v Hv. cbn. destruct (sv_aborts w) as [|[e|] a]; [|by right|]; rewrite Hv; simpl;
      (destruct (m v) as [[x v']|e]; [|by right]); right; by exists v'.
Qed.

Definition aborts_of (aborts : list bool) : list (option sql_exn) :=
  (fun b : bool => if b then Some (SQLAborted_ "25P02") else None) <$> aborts.

Definition new_server (aborts : list bool) : table_server :=
  {| sv_committed := empty_tables; sv_view := None; sv_aborts := aborts_of aborts; sv_lost := false; sv_rows := [["18700"%string]] |}.

Definition sample_decoder : DecoderBase stamp_time := DecoderBase_new [] [] [] [].

(** The first attempt is aborted, the second one saves the value. *)
Lemma addDataToDbThrow_spec_witness :
  exists d' w', addDataToDbThrow (DT := stamp_text) (PQ := table_pq) (DS := table_db) true 21 (stamp_of 2024 1 1 6 0 0) 18700 501
      [sample_value 211 0] [] "log" DbInsert true false true sample_decoder (new_server [true]) = Some (inl true, (d', w')) /\
    length (workque (sv_committed w')) = 1%nat /\
    exists x now y, perform (DT := stamp_text) x now empty_tables = inl ((true, y), sv_committed w').
Proof.
  destruct (addDataToDbThrow (DT := stamp_text) (PQ := table_pq) (DS := table_db) true 21 (stamp_of 2024 1 1 6 0 0) 18700 501
    [sample_value 211 0] [] "log" DbInsert true false true sample_decoder (new_server [true])) as [[[[]|e] [d' w']]|] eqn:E;
    [|vm_compute in E; discriminate..].
  assert (Hw : sv_lost w' = false /\ length (workque (sv_committed w')) = 1%nat).
  { assert (H : w' = match addDataToDbThrow (DT := stamp_text) (PQ := table_pq) (DS := table_db) true 21 (stamp_of 2024 1 1 6 0 0)
      18700 501 [sample_value 211 0] [] "log" DbInsert true false true sample_decoder (new_server [true]) with
      | Some (_, (_, w)) => w | None => new_server [] end) by (by rewrite E). rewrite H. split; vm_compute; reflexivity. }
  destruct Hw as [Hw H1]. exists d', w'. split; [done|]. split; [exact H1|].
  apply (addDataToDbThrow_spec (PQ := table_pq) sv_committed sv_view (fun w => sv_lost w = true)) in E as [_ [E|(t0 & _ & [(E & _)|H])]];
    [by rewrite Hw in E|by vm_compute in E|].
  destruct H as (x & now & y & t' & _ & H & Hc & _). exists x, now, y. by rewrite Hc.
Defined.

Lemma getQaIdToUse_round_robin_witness :
  exists q', foldl (fun s rand => '(ids, q) ← s; '(i, q) ← getQaIdToUse rand q; Some (ids ++ [i], q))
    (Some ([], QaIdInfo_of 2 [0])) [7; 7; 7; 7] = Some ([0; 1; 2; 0], q').
Proof.
  destruct (getQaIdToUse_round_robin (QaIdInfo_of 2 [0]) [7; 7; 7; 7] ltac:(done) ltac:(done) ltac:(done) ltac:(done))
    as (q' & E & _). exists q'. exact E.
Defined.

Lemma isGenerated_cached_witness :
  exists d1, isGenerated (PQ := table_pq) true 18700 501 sample_decoder (new_server []) = (inl true, (d1, new_server [])) /\
  isGenerated (PQ := table_pq) true 18700 501 d1 (new_server [true]) = (inl true, (d1, new_server [true])).
Proof.
  exists (set_genCachElem [(18700, 501, true)] sample_decoder). split; [by vm_compute|].
  apply (isGenerated_cached (PQ := table_pq) true 18700 501 sample_decoder _ (new_server []) (new_server []) true);
    [done|by vm_compute].
Defined.
