(* ===== verification/Saving.v ===== *)
(** * Saving the data of a message

    The decoders give the data of a station and type to [addDataToDbThrow] of
    [Decoder.v], one time of observation after the other. What one such step does to
    the tables, and a list of them, is stated here for all decoders. *)

From stdpp Require Import pretty.
From S2P Require Import Prelude Orders PTime TimeText DataFlag ControlInfo UseInfo KvData SortedData KvalobsData KvDataContainer Sql Database Observation DataUpdateTransaction Rows Conf StationFilter Scanning Text CommaString OrderedSet Signature ParamList PgConnection Gate Decoder.

#[local] Open Scope Z_scope.

(** [DecoderBase::DecodeResult]; [Error] is [DecodeError] here. *)
Inductive DecodeResult := Ok | NotSaved | Rejected | DecodeError | Redirect.

#[export] Instance DecodeResult_eq_dec : EqDecision DecodeResult.
Proof. solve_decision. Defined.

(** [IdlogHelper::logid]. *)
Definition logid_of (stationid typeId : Z) : string := "n" ++ pretty stationid ++ "-t" ++ pretty typeId.

Section saving.
  Context {PT : PTime} {PC : PCalendar PT} {DT : DbText PT} {BT : BoostText} {TT : PTimeText PT}.
  Context {W : Type} {PQ : Libpq W} {DS : DbServer PT W} (committed : W -> tables PT) (view : W -> option (tables PT))
          (lost : W -> Prop) {DSL : DbServerLaws DS committed view lost}.
  Context (fuel : nat) (stationid typeId : Z) (logid : string) (insertOrUpdate : DBAddType) (tbt pdt : bool).

(** The data of one time. *)
Definition batch : Type := (ptime PT * list (kvData PT) * list (kvTextData PT))%type.

Fixpoint batches (data : DataByObstime (PT := PT)) (textData : TextDataByObstime (PT := PT)) : list batch :=
  match data with
  | [] => (fun tl => (tl.1, [], tl.2)) <$> (textData : list (ptime PT * list (kvTextData PT)))
  | (t, l) :: data => (t, l, default [] (c_find ptime_lt t textData)) :: batches data (c_erase ptime_lt t textData)
  end.

(** The tables before and after the data of one time is saved: a transaction, or
    nothing when the filter of the station and type or the filters of the values
    leave nothing to save. *)
Definition saves_batch (awq : bool) (d : DecoderBase PT) (b : batch) (T T' : tables PT) : Prop :=
  let '(t, l, td) := b in
  exists t0, whole_seconds t = Some t0 /\
  let x0 := transaction_for t0 stationid typeId l td logid insertOrUpdate awq tbt pdt d in
  if saveToDb_ (filters_filter (filters d) stationid typeId) && negb (bool_decide (newData x0 = [] /\ newTextData x0 = []))
  then exists x now y, same_inputs x0 x /\ perform x now T = inl ((true, y), T')
  else T' = T.

Inductive saves (awq : bool) (d : DecoderBase PT) : list batch -> tables PT -> tables PT -> Prop :=
  | saves_none T : saves awq d [] T T
  | saves_more b bs T T1 T2 : saves_batch awq d b T T1 -> saves awq d bs T1 T2 -> saves awq d (b :: bs) T T2.

(** Decoders that treat data alike: what is decoded and published may differ. *)
Definition same_setup (d d' : DecoderBase PT) : Prop :=
  filters d' = filters d /\ qaIdInfo_ d' = qaIdInfo_ d /\ useQaId_ d' = useQaId_ d.

Lemma saves_batch_setup awq d d' b T T' : same_setup d d' -> saves_batch awq d' b T T' -> saves_batch awq d b T T'.
Proof.
  intros (H1 & H2 & H3). destruct b as [[t l] td]. unfold saves_batch, transaction_for, useQaId. by rewrite H1, H2, H3.
Qed.

Lemma saves_setup awq d d' bs T T' : same_setup d d' -> saves awq d' bs T T' -> saves awq d bs T T'.
Proof.
  intros H Hs. induction Hs as [|b bs T T1 T2 Hb Hs IH]; [constructor|].
  econstructor; [by eapply saves_batch_setup|exact IH].
Qed.

(** One time: its data is saved, or nothing is. *)
Lemma add_batch awq d w b r d' w' :
  addDataToDbThrow true fuel b.1.1 stationid typeId b.1.2 b.2 logid insertOrUpdate awq tbt pdt d w = Some (r, (d', w')) ->
  unless_lost lost w w' (same_setup d d' /\
  match r with inl true => saves_batch awq d b (committed w) (committed w') | _ => committed w' = committed w end).
Proof.
  intros E. apply (addDataToDbThrow_spec committed view lost) in E. eapply unless_mono; [exact E|]. clear E. intros E.
  destruct b as [[t l] td]. cbn [fst snd] in *.
  unfold saves_batch. destruct r as [b|e]; [|destruct E as [E ->]; by split].
  destruct E as (t0 & Et & E). set (x0 := transaction_for _ _ _ _ _ _ _ _ _ _ _) in *.
  destruct (saveToDb_ _) eqn:Es; cbn [andb].
  - destruct E as [(E1 & E2 & -> & Ec & ->)|(x & now & y & t' & Hi & E & Ec & ->)]; (split; [done|]).
    + exists t0. rewrite bool_decide_true by done. done.
    + destruct b; [|done]. exists t0. split; [done|]. fold x0. rewrite Ec.
      destruct (bool_decide (newData x0 = [] /\ newTextData x0 = [])) eqn:Eb; [|by exists x, now, y].
      apply bool_decide_eq_true in Eb as [E1 E2]. cbn [negb].
      assert (Hx : newData x = [] /\ newTextData x = []).
      { unfold same_inputs in Hi. split; [change (newData x) with (newData (inputs x))|change (newTextData x) with (newTextData (inputs x))];
          by rewrite Hi. }
      revert E. unfold perform. destruct (is_not_a_date_time _); [done|]. destruct Hx as [-> ->]. by intros [= _ <-].
  - destruct E as (-> & Ec & ->). split.
    + destruct (publish_ _); [|done]. unfold dataToPublish. by destruct (negb _).
    + by exists t0.
Qed.

(** What the two loops do with a list of times. *)
Definition prefix_saved (awq : bool) (d : DecoderBase PT) (bs : list batch) (complete : bool) (T T' : tables PT) : Prop :=
  exists n, saves awq d (take n bs) T T' /\ if complete then n = length bs else (n < length bs)%nat.

Lemma prefix_more awq d d' b bs c T T1 T' : same_setup d d' ->
  saves_batch awq d b T T1 -> prefix_saved awq d' bs c T1 T' -> prefix_saved awq d (b :: bs) c T T'.
Proof.
  intros Hd Hb (n & Hs & Hn). exists (S n). split.
  - cbn [take]. econstructor; [exact Hb|]. by eapply saves_setup.
  - cbn [length]. destruct c; lia.
Qed.

Lemma prefix_stop awq d b bs T : prefix_saved awq d (b :: bs) false T T.
Proof. exists 0%nat. split; [constructor|]. cbn [length]. lia. Qed.

Lemma same_setup_trans d d1 d2 : same_setup d d1 -> same_setup d1 d2 -> same_setup d d2.
Proof. unfold same_setup. intros (-> & -> & ->) (-> & -> & ->). done. Qed.

Lemma saves_app awq d b1 b2 T T1 T2 : saves awq d b1 T T1 -> saves awq d b2 T1 T2 -> saves awq d (b1 ++ b2) T T2.
Proof. intros H H2. induction H as [|b bs T T3 T4 Hb Hs IH]; [done|]. cbn [app]. econstructor; [exact Hb|by apply IH]. Qed.

(** The values and texts of the batches are those of the message. *)
Lemma batches_values data textData :
  batches data textData ≫= (fun b : batch => b.1.2) = (data : list (ptime PT * list (kvData PT))) ≫= snd.
Proof.
  revert textData. induction data as [|[t l] data IH]; intros textData; cbn [batches].
  - induction (textData : list (ptime PT * list (kvTextData PT))) as [|x y IHt]; [done|]. exact IHt.
  - rewrite !bind_cons. cbn [fst snd]. by rewrite IH.
Qed.

Lemma batches_texts data textData :
  batches data textData ≫= (fun b : batch => b.2) ≡ₚ (textData : list (ptime PT * list (kvTextData PT))) ≫= snd.
Proof.
  revert textData. induction data as [|[t l] data IH]; intros textData; cbn [batches].
  - induction (textData : list (ptime PT * list (kvTextData PT))) as [|x y IHt]; [done|].
    cbn [fmap list_fmap]. rewrite !bind_cons. by apply Permutation_app_head.
  - rewrite bind_cons, IH. cbn [snd]. clear. induction textData as [|[k v] td IHt]; [done|].
    cbn [c_find c_erase]. destruct (ptime_lt k t); [|by destruct (ptime_lt t k); rewrite bind_cons].
    rewrite !bind_cons, <- IHt. cbn [snd]. by rewrite Permutation_app_swap_app.
Qed.

End saving.
