(* ===== verification/KlDecoder.v ===== *)
(** * The decoder of kl messages (src/src/lib/decoder/kldecoder/kldecoder.cc)

    A message may hold several observations, each with a line that says what it is
    and lines of data. [GetObsHelper] takes them apart, [decodeObsType] reads the
    first line, [decodeData] of [KlData.v] the others, and [insertDataInDb] gives the
    values to [Decoder.v], one time after the other. Messages for the sender and the
    logs are left out, and with them the functions that only make such texts; the
    comment of a message that is rejected for its data is a parameter. *)

From stdpp Require Import pretty.
From S2P Require Import Prelude Orders PTime TimeText DataFlag ControlInfo UseInfo KvData SortedData KvalobsData KvDataContainer Sql Database Observation DataUpdateTransaction Rows Conf StationFilter Scanning Text CommaString OrderedSet Signature ParamList ResultFilter KlData PgConnection Gate Decoder Saving.

#[local] Open Scope Z_scope.

(** [boost::trim_copy_if(s, is_any_of(set))]. *)
Class BoostTrimIf := { trim_copy_if : bytes -> bytes -> bytes }.

(** ** Texts *)

Definition keyval_trimset : bytes := quotation_mark :: default_trimset.

(** [decodeKeyVal]: the key, the value and whether there is a key. *)
Definition decodeKeyVal (keyval : bytes) : bytes * bytes * bool :=
  let '(key, val) := match break (is_char "="%char) keyval with
                     | None => (keyval, [])
                     | Some (a, _, b) => (a, b)
                     end in
  let key := trimstr key in
  (key, conf_trimstr val keyval_trimset, negb (bool_decide (key = []))).

Definition removeRedirectFromObsType {TI : BoostTrimIf} (obstype : bytes) : bytes :=
  match find_text (to_bytes "redirected") obstype with
  | None => obstype
  | Some (ret, buf) =>
      let buf := match break (is_char "/"%char) buf with Some (_, c, b) => c :: b | None => [] end in
      trim_copy_if (to_bytes " " ++ [char_of 13; char_of 10] ++ to_bytes "/") ret ++ buf
  end.

(** ** [GetObsHelper] *)

Section helper.
  Context {BT : BoostText}.

(** [getLine] trims the lines and steps over the empty ones, so that [in_] is the
    list of the others. *)
Record GetObsHelper := { in_ : list bytes; obstype_ : bytes; nMessages : nat }.

Definition GetObsHelper_new (data obsType_ : bytes) : GetObsHelper :=
  {| in_ := filter (fun l => l <> []) (trim_copy <$> getlines (trim_copy data)); obstype_ := trim_copy obsType_;
     nMessages := 0 |}.

Definition is_obstype (line : bytes) : bool := bool_decide (is_Some (find_text (to_bytes "kldata") line)).

(** [getObsType]: the type of the next observation, and the lines after it. *)
Fixpoint skip_to_obstype (lines : list bytes) : bytes * list bytes :=
  match lines with
  | [] => ([], [])
  | line :: lines => if is_obstype line then (line, lines) else skip_to_obstype lines
  end.

Definition getObsType (h : GetObsHelper) : bytes * GetObsHelper :=
  let '(obstype, lines) := if bool_decide (obstype_ h = []) then skip_to_obstype (in_ h) else (obstype_ h, in_ h) in
  (obstype, {| in_ := lines; obstype_ := []; nMessages := nMessages h |}).

(** The data up to the next type: its lines, that type and the rest. *)
Fixpoint take_data (lines : list bytes) : bytes * bytes * list bytes :=
  match lines with
  | [] => ([], [], [])
  | line :: lines =>
      if is_obstype line then ([], line, lines)
      else let '(buf, next, rest) := take_data lines in (line ++ [char_of 10] ++ buf, next, rest)
  end.

(** [getObs]: the type, the data and whether there is an observation. *)
Definition getObs (h : GetObsHelper) : bytes * bytes * bool * GetObsHelper :=
  let '(obstype, h) := getObsType h in
  if bool_decide (obstype = []) then ([], [], false, h)
  else
    let '(data, next, rest) := take_data (in_ h) in
    let some := negb (bool_decide (data = [])) in
    (obstype, data, some, {| in_ := rest; obstype_ := next; nMessages := nMessages h + if some then 1 else 0 |}).

Definition multiMessage (h : GetObsHelper) : bool := (1 <? nMessages h)%nat.

End helper.

(** ** [KlDecoder] *)

(** [e.mayRecover()]; only the base class is ever thrown with [false]. *)
Definition sql_mayRecover (e : sql_exn) : bool := match e with SQLException_ _ b => b | _ => true end.

Section KlDecoder.
  Context {PT : PTime} {PC : PCalendar PT} {DT : DbText PT} {BT : BoostText} {TT : PTimeText PT} {BF : BoostFloat} {TI : BoostTrimIf}.
  Context {W : Type} {PQ : Libpq W} {DS : DbServer PT W} (con : bool) (fuel : nat).
  Context (to_kvalobs_string : ptime PT -> bytes) (comment_of : reason -> bytes).

Record KlDecoder := {
  base : DecoderBase PT;
  typeID : Z;
  stationID : Z;
  kl_insertOrUpdate : DBAddType;
  receivedTime : ptime PT;
  redirectedFrom : bytes;
  stationidIn : bytes
}.

Definition set_base (b : DecoderBase PT) (k : KlDecoder) : KlDecoder :=
  {| base := b; typeID := typeID k; stationID := stationID k; kl_insertOrUpdate := kl_insertOrUpdate k;
     receivedTime := receivedTime k; redirectedFrom := redirectedFrom k; stationidIn := stationidIn k |}.
Definition set_typeID (z : Z) (k : KlDecoder) : KlDecoder :=
  {| base := base k; typeID := z; stationID := stationID k; kl_insertOrUpdate := kl_insertOrUpdate k;
     receivedTime := receivedTime k; redirectedFrom := redirectedFrom k; stationidIn := stationidIn k |}.
Definition set_station (z : Z) (s : bytes) (k : KlDecoder) : KlDecoder :=
  {| base := base k; typeID := typeID k; stationID := z; kl_insertOrUpdate := kl_insertOrUpdate k;
     receivedTime := receivedTime k; redirectedFrom := redirectedFrom k; stationidIn := s |}.
Definition set_insertOrUpdate (i : DBAddType) (k : KlDecoder) : KlDecoder :=
  {| base := base k; typeID := typeID k; stationID := stationID k; kl_insertOrUpdate := i;
     receivedTime := receivedTime k; redirectedFrom := redirectedFrom k; stationidIn := stationidIn k |}.
Definition set_receivedTime (t : ptime PT) (k : KlDecoder) : KlDecoder :=
  {| base := base k; typeID := typeID k; stationID := stationID k; kl_insertOrUpdate := kl_insertOrUpdate k;
     receivedTime := t; redirectedFrom := redirectedFrom k; stationidIn := stationidIn k |}.
Definition set_redirectedFrom (s : bytes) (k : KlDecoder) : KlDecoder :=
  {| base := base k; typeID := typeID k; stationID := stationID k; kl_insertOrUpdate := kl_insertOrUpdate k;
     receivedTime := receivedTime k; redirectedFrom := s; stationidIn := stationidIn k |}.

(** One key of the type line. *)
Definition station_keys : list string := ["nationalnr"; "stationid"; "wmonr"; "icaoid"; "call_sign"].

Definition decode_key (keyval : bytes) (k : KlDecoder) (w : W) : (KlDecoder + failure) * W :=
  let '(key, val, has_key) := decodeKeyVal keyval in
  let named s := bool_decide (key = to_bytes s) in
  if negb has_key then (inl k, w)
  else if named "add"%string then
    (inl (if bool_decide (val = []) || bool_decide (head val = Some "t"%char) || bool_decide (head val = Some "T"%char)
          then set_insertOrUpdate DbUpdate k else k), w)
  else if bool_decide (val = []) then (inl k, w)
  else if named "received_time"%string then
    match time_from_string_nothrow val with
    | Time t => (inl (set_receivedTime t k), w)
    | Escapes => (inr Std, w)
    end
  else if named "redirected"%string then (inl (set_redirectedFrom val k), w)
  else if named "type"%string then (inl (set_typeID (atoi (of_bytes val)) k), w)
  else if existsb named station_keys then
    match base_getStationId con key val w with
    | (inl z, w) => (inl (set_station (if to_int z <? 0 then INT_MAX else to_int z) (key ++ ["="%char] ++ val) k), w)
    | (inr e, w) => (inr e, w)
    end
  else (inl k, w).

Fixpoint decode_keys (keyvals : list bytes) (k : KlDecoder) (w : W) : (KlDecoder + failure) * W :=
  match keyvals with
  | [] => (inl k, w)
  | keyval :: keyvals =>
      match decode_key keyval k w with (inl k, w) => decode_keys keyvals k w | r => r end
  end.

(** [decodeObsType]. *)
Definition decodeObsType (obstype : bytes) (k : KlDecoder) (w : W) : (KlDecoder + failure) * W :=
  match CommaString_of obstype "/"%char with
  | None => (inr Undefined, w)
  | Some cstr =>
      let k := {| base := base k; typeID := INT_MAX; stationID := INT_MAX; kl_insertOrUpdate := DbInsert;
                  receivedTime := not_a_date_time; redirectedFrom := redirectedFrom k; stationidIn := stationidIn k |} in
      if (cs_size cstr <? 2)%nat then (inl k, w)
      else decode_keys (drop 1 (el_text <$> cs_data cstr)) k w
  end.

(** The constructor. *)
Definition KlDecoder_new (b : DecoderBase PT) (w : W) : (KlDecoder + failure) * W :=
  decodeObsType (obsType b)
    {| base := b; typeID := INT_MAX; stationID := INT_MAX; kl_insertOrUpdate := DbInsert; receivedTime := not_a_date_time;
       redirectedFrom := []; stationidIn := [] |} w.

(** [getSetUsinfo7]: a configuration without a section for the decoder is a null
    pointer, which is used: [None]. *)
Definition decoder_name : bytes := to_bytes "KlDataDecoder".

Definition myConfSection (k : KlDecoder) : option ConfSection :=
  conf ← theKvConf (base k); getSection conf (to_bytes "kvDataInputd." ++ decoder_name).

Definition getSetUsinfo7 (k : KlDecoder) : option bool :=
  conf ← myConfSection k;
  Some match getValue conf (to_bytes "set_useinfo7") with
       | v :: _ => bool_decide (head (valAsString v) = Some "t"%char) || bool_decide (head (valAsString v) = Some "T"%char)
       | [] => false
       end.

(** [rejected]. *)
Definition rejected (msg : bytes) (includeObs : bool) (k : KlDecoder) (w : W) : (DecodeResult + failure) * W :=
  let myObs := obsType (base k) ++ if includeObs then [char_of 10] ++ obs (base k) else [] in
  match putRejectdecodeInDb con to_kvalobs_string myObs decoder_name msg (clock w) w with
  | (inl _, w) => (inl Rejected, w)
  | (inr e, w) => (inr e, w)
  end.

(** ** [insertDataInDb] *)

Abbreviation outcome_of A := (option ((A + failure) * (DecoderBase PT * W))).

Section insert.
  Context (stationid typeId : Z) (logid : string) (insertOrUpdate : DBAddType) (addToWorkQueue : bool).

(** The loop over the times with values: the result when the loop ends early, or
    the texts at other times. *)
Fixpoint save_data (data : DataByObstime (PT := PT)) (textData : TextDataByObstime (PT := PT)) (d : DecoderBase PT) (w : W)
    : outcome_of (DecodeResult + TextDataByObstime (PT := PT)) :=
  match data with
  | [] => Some (inl (inr textData), (d, w))
  | (t, l) :: data =>
      let td := default [] (c_find ptime_lt t textData) in
      match addDataToDbThrow con fuel t stationid typeId l td logid insertOrUpdate addToWorkQueue false true d w with
      | None => None
      | Some (inl true, (d, w)) => save_data data (c_erase ptime_lt t textData) d w
      | Some (inl false, dw) => Some (inl (inl Rejected), dw)
      | Some (inr (Sql e), dw) => Some (inl (inl (if sql_mayRecover e then NotSaved else Rejected)), dw)
      | Some (inr e, dw) => Some (inr e, dw)
      end
  end.

(** The loop over those texts. *)
Fixpoint save_texts (textData : TextDataByObstime (PT := PT)) (d : DecoderBase PT) (w : W) : outcome_of DecodeResult :=
  match textData with
  | [] => Some (inl Ok, (d, w))
  | (t, l) :: textData =>
      match addDataToDb con fuel t stationid typeId [] l logid insertOrUpdate addToWorkQueue false true d w with
      | None => None
      | Some (inl true, (d, w)) => save_texts textData d w
      | Some (inl false, dw) => Some (inl NotSaved, dw)
      | Some (inr e, dw) => Some (inr e, dw)
      end
  end.

End insert.

(** The number of values is never negative, so the test for none never holds. *)
Definition insertDataInDb (theData : KvalobsData PT) (stationid typeId : Z) (logid : string) (insertOrUpdate : DBAddType)
    (d : DecoderBase PT) (w : W) : outcome_of DecodeResult :=
  let '(_, (data, textData)) := getBy theData stationid typeId (clock w) true in
  let awq := addToWokque_ (filters_filter (filters d) stationid typeId) in
  match save_data stationid typeId logid insertOrUpdate awq data textData d w with
  | None => None
  | Some (inl (inl r), dw) => Some (inl r, dw)
  | Some (inl (inr textData), (d, w)) => save_texts stationid typeId logid insertOrUpdate awq textData d w
  | Some (inr e, dw) => Some (inr e, dw)
  end.

(** ** [execute] *)

Definition doExecute (k : KlDecoder) (w : W) : option ((DecodeResult + failure) * (KlDecoder * W)) :=
  match getSetUsinfo7 k with
  | None => Some (inr Undefined, (k, w))
  | Some setUsinfo7 =>
      let typeId := typeID k in
      let stationid := stationID k in
      if stationid =? INT_MAX then
        let msg := to_bytes "Missing or unknown stationid! " ++ stationidIn k ++ to_bytes " typeid: "
                   ++ (if 0 <? typeId then to_bytes (pretty typeId) else to_bytes "<NA>") in
        let '(r, w) := rejected msg false k w in Some (r, (k, w))
      else if (typeId <? 0) || (typeId =? INT_MAX) then
        let '(r, w) := rejected (to_bytes "Format error in type. " ++ stationidIn k ++ to_bytes ".") false k w in
        Some (r, (k, w))
      else
        let k := if is_special (receivedTime k) && setUsinfo7 then set_receivedTime (clock w) k else k in
        let d := set_message (obsType (base k)) (trimstr (obs (base k)) ++ [char_of 10]) (base k) in
        let k := set_base d k in
        match decodeData (paramList d) (typeList d) (obs d) stationid typeId (receivedTime k) with
        | Raise e => Some (inr (match e with undefined_behaviour => Undefined | _ => Std end), (k, w))
        | Bad r => let '(r, w) := rejected (comment_of r) true k w in Some (r, (k, w))
        | Good (kvData, _) =>
            match insertDataInDb kvData stationid typeId (logid_of stationid typeId) (kl_insertOrUpdate k) d w with
            | None => None
            | Some (r, (d, w)) => Some (r, (set_base d k, w))
            end
        end
  end.

(** The loop of [execute]; [ret] has no value before the first observation. [None]
    is the end of the fuel, of this loop or of a transaction. *)
Fixpoint execute_loop (n : nat) (h : GetObsHelper) (error : bool) (ret : option DecodeResult) (k : KlDecoder) (w : W)
    : option ((option DecodeResult + failure) * (GetObsHelper * bool * (KlDecoder * W))) :=
  match n with
  | O => None
  | S n =>
      let '(obstype, data, some, h) := getObs h in
      let k := set_base (set_message obstype data (base k)) k in
      if negb some || error then Some (inl ret, (h, error, (k, w)))
      else
        match decodeObsType obstype k w with
        | (inr e, w) => Some (inr e, (h, error, (k, w)))
        | (inl k, w) =>
            let k := set_base (set_message (removeRedirectFromObsType obstype) (obs (base k)) (base k)) k in
            match doExecute k w with
            | None => None
            | Some (inr e, kw) => Some (inr e, (h, error, kw))
            | Some (inl r, (k, w)) =>
                execute_loop n h (error || bool_decide (r = NotSaved) || bool_decide (r = DecodeError)) (Some r) k w
            end
        end
  end.

(** [execute]: a result without a value is undefined behaviour. *)
Definition execute (k : KlDecoder) (w : W) : option ((DecodeResult + failure) * (KlDecoder * W)) :=
  let h := GetObsHelper_new (obs (base k)) (obsType (base k)) in
  match execute_loop (S (length (in_ h))) h false None k w with
  | None => None
  | Some (inr e, (_, kw)) => Some (inr e, kw)
  | Some (inl ret, (h, error, kw)) =>
      if error || negb (multiMessage h) then
        match ret with Some r => Some (inl r, kw) | None => Some (inr Undefined, kw) end
      else Some (inl Ok, kw)
  end.

End KlDecoder.

Arguments KlDecoder : clear implicits.

(** ** Properties: saving the data of a message *)

Section saving.
  Context {PT : PTime} {PC : PCalendar PT} {DT : DbText PT} {BT : BoostText} {TT : PTimeText PT}.
  Context {W : Type} {PQ : Libpq W} {DS : DbServer PT W} (committed : W -> tables PT) (view : W -> option (tables PT))
          (lost : W -> Prop) {DSL : DbServerLaws DS committed view lost}.
  Context (fuel : nat) (stationid typeId : Z) (logid : string) (insertOrUpdate : DBAddType).

  Local Abbreviation saves := (saves stationid typeId logid insertOrUpdate false true).
  Local Abbreviation prefix_saved := (prefix_saved stationid typeId logid insertOrUpdate false true).

Definition is_ok (r : DecodeResult + failure) : bool := match r with inl Ok => true | _ => false end.

Lemma save_texts_spec awq textData d w r d' w' :
  save_texts true fuel stationid typeId logid insertOrUpdate awq textData d w = Some (r, (d', w')) ->
  unless_lost lost w w' (prefix_saved awq d (batches [] textData) (is_ok r) (committed w) (committed w')).
Proof.
  revert d w. induction textData as [|[t l] textData IH]; intros d w; cbn [save_texts].
  { intros [= <- <- <-]. apply unless_done. exists 0%nat. split; [constructor|done]. }
  unfold addDataToDb. destruct (addDataToDbThrow _ _ _ _ _ _ _ _ _ _ _ _ _ _) as [[r1 [d1 w1]]|] eqn:E; [|done].
  apply (add_batch committed view lost fuel stationid typeId logid insertOrUpdate false true awq d w (t, [], l)) in E.
  destruct r1 as [[]|e].
  - intros H. eapply unless_trans; [exact E|by apply IH|]. intros [Hd E1] H1. by eapply prefix_more.
  - intros [= <- <- <-]. eapply unless_mono; [exact E|]. intros [_ ->]. apply prefix_stop.
  - intros H. assert (is_ok r = false /\ w' = w1) as [-> ->] by (by destruct e; injection H as <- <- <-).
    eapply unless_mono; [exact E|]. intros [_ ->]. apply prefix_stop.
Qed.

Lemma save_data_spec awq data textData d w r d1 w1 :
  save_data true fuel stationid typeId logid insertOrUpdate awq data textData d w = Some (r, (d1, w1)) ->
  unless_lost lost w w1
  match r with
  | inl (inr textData') =>
      same_setup d d1 /\ exists n, saves awq d (take n (batches data textData)) (committed w) (committed w1) /\
        drop n (batches data textData) = batches [] textData'
  | inl (inl r) => r <> Ok /\ prefix_saved awq d (batches data textData) false (committed w) (committed w1)
  | inr _ => prefix_saved awq d (batches data textData) false (committed w) (committed w1)
  end.
Proof.
  revert textData d w. induction data as [|[t l] data IH]; intros textData d w; cbn [save_data].
  { intros [= <- <- <-]. apply unless_done. split; [done|]. exists 0%nat. split; [constructor|done]. }
  destruct (addDataToDbThrow _ _ _ _ _ _ _ _ _ _ _ _ _ _) as [[r2 [d2 w2]]|] eqn:E; [|done].
  apply (add_batch committed view lost fuel stationid typeId logid insertOrUpdate false true awq d w (t, l, default [] (c_find ptime_lt t textData))) in E.
  destruct r2 as [[]|e].
  - intros H. specialize (IH _ _ _ H). eapply unless_trans; [exact E|exact IH|]. clear E IH. intros [Hd E] IH.
    destruct r as [[r|td]|e]; cbn [batches].
    + destruct IH as [Hr IH]. split; [done|]. by eapply prefix_more.
    + destruct IH as (Hd2 & n & Hs & Hn). split; [by eapply same_setup_trans|]. exists (S n). split; [|exact Hn].
      cbn [take]. econstructor; [exact E|]. by eapply saves_setup.
    + by eapply prefix_more.
  - intros [= <- <- <-]. eapply unless_mono; [exact E|]. intros [_ ->]. split; [done|]. apply prefix_stop.
  - intros H. destruct e as [e| | |]; injection H as <- <- <-; cbn [batches]; (eapply unless_mono; [exact E|]); intros [_ ->];
      [split; [by destruct (sql_mayRecover e)|]|..]; apply prefix_stop.
Qed.

Lemma insertDataInDb_prefix theData d w r d' w' :
  insertDataInDb true fuel theData stationid typeId logid insertOrUpdate d w = Some (r, (d', w')) ->
  let '(_, (data, textData)) := getBy theData stationid typeId (clock w) true in
  unless_lost lost w w' (prefix_saved (addToWokque_ (filters_filter (filters d) stationid typeId)) d (batches data textData) (is_ok r)
    (committed w) (committed w')).
Proof.
  unfold insertDataInDb. destruct (getBy theData stationid typeId (clock w) true) as [n [data textData]].
  set (awq := addToWokque_ _). intros E.
  destruct (save_data _ _ _ _ _ _ _ data textData d w) as [[r1 [d1 w1]]|] eqn:E1; [|done].
  apply save_data_spec in E1. destruct r1 as [[r1|td]|e].
  - injection E as <- <- <-. eapply unless_mono; [exact E1|]. intros [Hr H]. by destruct r1.
  - apply save_texts_spec in E. eapply unless_trans; [exact E1|exact E|]. intros (Hd & m & Hs & Hm) (j & Hj & Hl). rewrite <- Hm in Hj, Hl.
    rewrite length_drop in Hl. destruct (decide (m <= length (batches data textData))%nat) as [Hle|Hgt].
    + exists (m + j)%nat. split; [|destruct (is_ok r); lia].
      rewrite <- take_take_drop. by eapply saves_app; [|eapply saves_setup].
    + rewrite drop_ge, take_nil in Hj by lia. inversion Hj; subst. rewrite take_ge in Hs by lia.
      exists (length (batches data textData)). rewrite take_ge by lia. split; [congruence|]. destruct (is_ok r); [done|lia].
  - injection E as <- <- <-. eapply unless_mono; [exact E1|done].
Qed.

(** Saving a message: the times of its values come one after the other, in their
    order, and then those that only have texts. What is saved at the end are the
    first of them, each by one transaction, and all of them exactly when the result
    is [Ok]; the one that failed left no trace. Every value and every text belongs
    to one of them. *)
Theorem insertDataInDb_spec theData d w r d' w' :
  insertDataInDb true fuel theData stationid typeId logid insertOrUpdate d w = Some (r, (d', w')) -> ~ lost w' ->
  let '(_, (data, textData)) := getBy theData stationid typeId (clock w) true in
  let awq := addToWokque_ (filters_filter (filters d) stationid typeId) in
  let bs := batches data textData in
  (exists n, saves awq d (take n bs) (committed w) (committed w') /\
    if is_ok r then n = length bs else (n < length bs)%nat) /\
  bs ≫= (fun b => b.1.2) = (data : list (ptime PT * list (kvData PT))) ≫= snd /\
  bs ≫= (fun b => b.2) ≡ₚ (textData : list (ptime PT * list (kvTextData PT))) ≫= snd.
Proof.
  intros E Hl. apply insertDataInDb_prefix in E. destruct (getBy _ _ _ _ _) as [n [data textData]].
  apply unless_lasts in E as [E _]; [|done]. split_and!; [exact E|apply batches_values|apply batches_texts].
Qed.

End saving.

(** ** Properties: several observations in a message *)

Section messages.
  Context {BT : BoostText} {BTL : BoostTextLaws BT}.

(** The observations that [getObs] gives, until it gives none. *)
Fixpoint all_obs (n : nat) (h : GetObsHelper) : list (bytes * bytes) :=
  match n with
  | O => []
  | S n => let '(obstype, data, some, h) := getObs h in if some : bool then (obstype, data) :: all_obs n h else []
  end.

(** A line without blanks at its ends. *)
Definition trimmed_line (l : bytes) : Prop :=
  l <> [] /\ (forall c, head l = Some c -> is_space c = false) /\ (forall c, last l = Some c -> is_space c = false) /\
  Forall (fun c => c <> char_of 10) l.

(** An observation: its type and the lines of its data. *)
Record obs_text := { ot_type : bytes; ot_lines : list bytes }.

Definition obs_ok (m : obs_text) : Prop :=
  trimmed_line (ot_type m) /\ is_obstype (ot_type m) = true /\
  Forall (fun l => trimmed_line l /\ is_obstype l = false) (ot_lines m).

(** The lines of the first observation and then the others with their types. *)
Definition all_lines (m : obs_text) (ms : list obs_text) : list bytes :=
  ot_lines m ++ (ms ≫= fun m => ot_type m :: ot_lines m).

Definition data_of (m : obs_text) : bytes := concat ((fun l => l ++ [char_of 10]) <$> ot_lines m).

(** The observations before the first one without data. *)
Fixpoint before_empty (ms : list obs_text) : list obs_text :=
  match ms with
  | [] => []
  | m :: ms => if bool_decide (ot_lines m = []) then [] else m :: before_empty ms
  end.

Lemma trim_line l : trimmed_line l -> trim_copy l = l.
Proof.
  intros (Hne & Hh & Hl & _). destruct l as [|c l]; [done|]. specialize (Hh c eq_refl).
  destruct l as [|d l] using rev_ind; [by apply trim_copy_one|]. apply trim_copy_id; [done|].
  apply Hl. by rewrite app_comm_cons, last_snoc.
Qed.

Lemma join_lines_ends ls : ls <> [] -> Forall trimmed_line ls ->
  let t := join [char_of 10] ls in
  t <> [] /\ (forall c, head t = Some c -> is_space c = false) /\ (forall c, last t = Some c -> is_space c = false).
Proof.
  intros Hne Hls. induction Hls as [|l ls (Hl & Hh & Hl2 & Hn) Hls IH]; [done|]. destruct ls as [|l2 ls]; [done|].
  destruct (IH ltac:(done)) as (H1 & H2 & H3).
  change (join [char_of 10] (l :: l2 :: ls)) with (l ++ [char_of 10] ++ join [char_of 10] (l2 :: ls)).
  set (r := join _ _) in *. split_and!.
  - by destruct l.
  - destruct l as [|c l]; [done|]. exact Hh.
  - intros c. destruct r as [|d r] using rev_ind; [done|]. clear IHr.
    rewrite !app_assoc, last_snoc. intros [= ->]. apply H3. by rewrite last_snoc.
Qed.

Lemma trim_text ls : Forall trimmed_line ls -> trim_copy (join [char_of 10] ls) = join [char_of 10] ls.
Proof.
  intros Hls. destruct (decide (ls = [])) as [->|Hne]; [by apply trim_copy_blank|].
  destruct (join_lines_ends ls Hne Hls) as (H1 & H2 & H3). set (t := join _ _) in *.
  destruct t as [|c l]; [done|]. specialize (H2 c eq_refl).
  destruct l as [|d l] using rev_ind; [by apply trim_copy_one|]. apply trim_copy_id; [done|].
  apply H3. by rewrite app_comm_cons, last_snoc.
Qed.

Lemma getlines_last l : l <> [] -> Forall (fun c => c <> char_of 10) l -> getlines l = [l].
Proof.
  intros Hne Hl. induction Hl as [|c l Hc Hl IH]; [done|]. cbn [getlines]. rewrite bool_decide_false by done.
  destruct l as [|d l]; [done|]. by rewrite IH.
Qed.

Lemma getlines_join ls : Forall trimmed_line ls -> getlines (join [char_of 10] ls) = ls.
Proof.
  intros H. induction H as [|l ls (Hl & _ & _ & Hn) Hls IH]; [done|]. destruct ls as [|l2 ls]; [by apply getlines_last|].
  change (join [char_of 10] (l :: l2 :: ls)) with (l ++ char_of 10 :: join [char_of 10] (l2 :: ls)).
  by rewrite getlines_app, IH.
Qed.

Lemma helper_lines ls ty : Forall trimmed_line ls -> trimmed_line ty ->
  GetObsHelper_new (join [char_of 10] ls) ty = {| in_ := ls; obstype_ := ty; nMessages := 0 |}.
Proof.
  intros Hls Hty. unfold GetObsHelper_new. rewrite trim_text, getlines_join, (trim_line ty) by done. f_equal.
  induction Hls as [|l ls Hl Hls IH]; [done|]. cbn [fmap list_fmap]. rewrite trim_line by done.
  rewrite filter_cons_True by apply Hl. by f_equal.
Qed.

Lemma take_data_lines ls rest : Forall (fun l => is_obstype l = false) ls ->
  take_data (ls ++ rest) =
    let '(buf, next, r) := take_data rest in (concat ((fun l => l ++ [char_of 10]) <$> ls) ++ buf, next, r).
Proof.
  intros H. induction H as [|l ls Hl Hls IH]; cbn [app fmap list_fmap concat take_data]; [by destruct (take_data rest) as [[? ?] ?]|].
  rewrite Hl, IH. destruct (take_data rest) as [[buf next] r]. by rewrite <- !app_assoc.
Qed.

Lemma data_empty m : Forall trimmed_line (ot_lines m) -> bool_decide (data_of m = []) = bool_decide (ot_lines m = []).
Proof.
  intros H. apply bool_decide_ext. unfold data_of. destruct (ot_lines m) as [|l ls]; [done|]. split; [|done].
  inversion H as [|? ? [Hl _] _]; subst. by destruct l.
Qed.

Lemma obs_lines m : obs_ok m -> Forall trimmed_line (ot_lines m) /\ Forall (fun l => is_obstype l = false) (ot_lines m).
Proof. intros (_ & _ & H). split; (eapply Forall_impl; [exact H|]); by intros ? []. Qed.

Lemma getObs_step m rest k next r : obs_ok m -> take_data rest = ([], next, r) ->
  getObs {| in_ := ot_lines m ++ rest; obstype_ := ot_type m; nMessages := k |} =
    (ot_type m, data_of m, negb (bool_decide (ot_lines m = [])),
     {| in_ := r; obstype_ := next; nMessages := (k + if negb (bool_decide (ot_lines m = [])) then 1 else 0)%nat |}).
Proof.
  intros Hm Hr. destruct (obs_lines m Hm) as [Hl Hk]. destruct Hm as ((Ht & _) & _).
  unfold getObs, getObsType. cbn [obstype_ in_ nMessages]. rewrite !(bool_decide_false (ot_type m = [])) by done.
  cbn [in_ nMessages]. rewrite take_data_lines, Hr, app_nil_r by done. by rewrite <- data_empty.
Qed.

Lemma all_obs_messages m ms k n : obs_ok m -> Forall obs_ok ms -> (length ms < n)%nat ->
  all_obs n {| in_ := all_lines m ms; obstype_ := ot_type m; nMessages := k |} =
    (fun m => (ot_type m, data_of m)) <$> before_empty (m :: ms).
Proof.
  intros Hm Hms. revert m k n Hm. induction Hms as [|m2 ms Hm2 Hms IH]; intros m k n Hm Hn; (destruct n as [|n]; [simpl in Hn; lia|]);
    unfold all_lines; cbn [all_obs before_empty].
  - rewrite (getObs_step m _ k [] []) by done. destruct (bool_decide _); [done|]. cbn [negb fmap list_fmap]. f_equal.
    by destruct n.
  - assert (Hr : take_data ((m2 :: ms) ≫= (fun m => ot_type m :: ot_lines m)) = ([], ot_type m2, all_lines m2 ms)).
    { rewrite bind_cons. cbn [app take_data]. by destruct Hm2 as (_ & -> & _). }
    rewrite (getObs_step m _ k _ _ Hm Hr). destruct (bool_decide _); [done|]. cbn [negb fmap list_fmap]. f_equal.
    rewrite IH; [done..|simpl in Hn; lia].
Qed.

(** C28: A message of observations, the type of the first given apart: [getObs] gives
    each with its type and its lines, in their order. An observation without data
    ends the message: those after it are lost. *)
Theorem getObs_messages (m : obs_text) (ms : list obs_text) : obs_ok m -> Forall obs_ok ms ->
  all_obs (S (length ms)) (GetObsHelper_new (join [char_of 10] (all_lines m ms)) (ot_type m)) =
    (fun m => (ot_type m, data_of m)) <$> before_empty (m :: ms).
Proof.
  intros Hm Hms. rewrite helper_lines; [apply all_obs_messages; [done..|lia]| |apply Hm].
  unfold all_lines. apply Forall_app. split; [by apply obs_lines|].
  induction Hms as [|m2 ms Hm2 Hms IH]; [constructor|]. rewrite bind_cons. cbn [app]. constructor; [apply Hm2|].
  apply Forall_app. split; [by apply obs_lines|exact IH].
Qed.

End messages.

(** ** Properties: from the message to the tables *)

Lemma trimstr_snoc s c : s <> [] -> unpadded s -> c ∈ default_trimset -> trimstr (s ++ [c]) = s.
Proof.
  intros Hne [Hh Hl] Hc. unfold trimstr, conf_trimstr. rewrite (drop_set_id _ (s ++ [c])).
  - rewrite reverse_snoc. cbn [drop_set]. rewrite bool_decide_true by done.
    rewrite drop_set_id; [apply reverse_involutive|]. intros d. rewrite head_reverse. intros E. by rewrite E in Hl.
  - destruct s as [|d s]; [done|]. intros e [= <-]. exact Hh.
Qed.

Lemma element_texts_unpadded es : Forall element_ok es -> unpadded (join [comma] (element_text <$> es)).
Proof.
  intros H. apply join_unpadded; [|left; by_decision]. apply Forall_fmap. eapply Forall_impl; [exact H|]. apply element_text_unpadded.
Qed.

Lemma column_text_ne c : column_ok c -> element_text (column_element c) <> [].
Proof.
  intros (_ & _ & Hne & _). unfold element_text, column_element. cbn [el_head el_opt].
  destruct (co_code c); [done|]. by destruct (co_name c).
Qed.

Lemma join_texts x l : concat ((fun t => t ++ [char_of 10]) <$> x :: l) = join [char_of 10] (x :: l) ++ [char_of 10].
Proof.
  revert x. induction l as [|y l IH]; intros x; [by cbn; rewrite !app_nil_r|].
  rewrite join_cons, fmap_cons. cbn [concat]. by rewrite IH, <- !app_assoc.
Qed.

Lemma trim_message {PT : PTime} {BT : BoostText} {TT : PTimeText PT} cols (tls : list (ptime PT * data_line)) :
  cols <> [] -> Forall column_ok cols -> Forall line_ok tls ->
  trimstr (message_text cols (snd <$> tls)) ++ [char_of 10] = message_text cols (snd <$> tls).
Proof.
  intros Hne Hc Ht. unfold message_text. rewrite join_texts. f_equal.
  assert (Hl : Forall (fun t => unpadded t /\ t <> []) (header_text cols :: (data_line_text <$> (snd <$> tls)))).
  { constructor.
    - unfold header_text. rewrite list_fmap_compose. split.
      + apply element_texts_unpadded, Forall_fmap. eapply Forall_impl; [exact Hc|]. apply column_element_ok.
      + intros E. apply join_nil in E; [by destruct cols|]. rewrite <- list_fmap_compose. apply Forall_fmap.
        eapply Forall_impl; [exact Hc|]. intros c. apply column_text_ne.
    - rewrite <- list_fmap_compose. apply Forall_fmap. eapply Forall_impl; [exact Ht|]. intros tl (_ & _ & He & Hcell).
      split; [by apply element_texts_unpadded|]. cbn [compose]. unfold data_line_text, line_elements.
      destruct (li_cells tl.2) as [|e es]; [done|]. cbn [fmap list_fmap]. rewrite join_cons. by destruct (element_text _). }
  apply trimstr_snoc; [| |by_decision].
  - intros E. apply join_nil in E; [done|]. eapply Forall_impl; [exact Hl|]. by intros ? [].
  - apply join_unpadded; [|right]; (eapply Forall_impl; [exact Hl|]); by intros ? [].
Qed.

Section execute.
  Context {PT : PTime} {PC : PCalendar PT} {DT : DbText PT} {BT : BoostText} {TT : PTimeText PT} {BF : BoostFloat} {TI : BoostTrimIf}.
  Context {W : Type} {PQ : Libpq W} {DS : DbServer PT W}.
  Context (fuel : nat) (to_kvalobs_string : ptime PT -> bytes) (comment_of : reason -> bytes).

(** The time that the data of an observation is taken to be received. *)
Definition received (k : KlDecoder PT) (setUsinfo7 : bool) (w : W) : ptime PT :=
  if is_special (receivedTime k) && setUsinfo7 then clock w else receivedTime k.

(** C1: From the message to the tables, on a server that keeps the rules of
    transactions and a connection that is not lost before the end. A well-formed
    message (a header of different columns and lines with a time and one cell for each
    column) is executed to its end by a decoder with a configuration, for a known
    station and type. Then the values and texts of its cells are collected, grouped by
    time, and the groups are saved in order, each by one transaction. The result is
    [Ok] when every group was saved; otherwise those before the one that failed were,
    and nothing else of the tables changed. *)
Theorem doExecute_saves (committed : W -> tables PT) (view : W -> option (tables PT)) (lost : W -> Prop)
    {DSL : DbServerLaws DS committed view lost}
    cols tls k w b r k' w' :
  stationID k <> INT_MAX -> 0 <= typeID k < INT_MAX -> getSetUsinfo7 k = Some b ->
  cols <> [] -> Forall column_ok cols -> Forall line_ok tls ->
  NoDup (column_def (paramList (base k)) <$> cols) -> Forall (fun tl => length (li_cells tl.2) = length cols) tls ->
  obs (base k) = message_text cols (snd <$> tls) ->
  doExecute true fuel to_kvalobs_string comment_of k w = Some (r, (k', w')) -> ~ lost w' ->
  let values := concat (line_data (paramList (base k)) (typeList (base k)) (stationID k) (typeID k) (received k b w) cols <$> tls) in
  let '(_, (data, textData)) := getBy (foldl add_value KvalobsData_new values) (stationID k) (typeID k) (clock w) true in
  let bs := batches data textData in
  exists n, saves (stationID k) (typeID k) (logid_of (stationID k) (typeID k)) (kl_insertOrUpdate k) false true
      (addToWokque_ (filters_filter (filters (base k)) (stationID k) (typeID k))) (base k) (take n bs) (committed w) (committed w') /\
    if is_ok r then n = length bs else (n < length bs)%nat.
Proof.
  intros Hs Ht Hb Hne Hc Hl Hn Hlen Ho. unfold doExecute. rewrite Hb.
  destruct (Z.eqb_spec (stationID k) INT_MAX); [done|]. destruct (Z.ltb_spec (typeID k) 0); [lia|].
  destruct (Z.eqb_spec (typeID k) INT_MAX); [lia|]. cbn [orb]. cbv zeta.
  set (k1 := if is_special (receivedTime k) && b then _ else k).
  assert (Hk1 : base k1 = base k /\ receivedTime k1 = received k b w /\ kl_insertOrUpdate k1 = kl_insertOrUpdate k)
    by (unfold k1, received; by destruct (_ && _)).
  destruct Hk1 as (-> & Hr & Hi). cbn [set_base set_message obs paramList typeList receivedTime kl_insertOrUpdate].
  rewrite Ho, trim_message, Hr, Hi by done. unfold decodeData.
  rewrite message_lines, decodeHeader_columns, bool_decide_true by done. rewrite length_fmap.
  destruct (Nat.ltb_spec (length cols) 1) as [Hl1|_]; [destruct cols; simpl in Hl1; [done|lia]|].
  rewrite decode_lines_spec by done.
  assert (Hf : forallb (fun tl : ptime PT * data_line => length (li_cells tl.2) =? length cols)%nat tls = true).
  { apply forallb_forall. intros tl Htl. rewrite Forall_forall in Hlen. apply Nat.eqb_eq, Hlen. by apply list_elem_of_In. }
  rewrite Hf.
  destruct (insertDataInDb _ _ _ _ _ _ _ _ _) as [[r1 [d1 w1]]|] eqn:E; [|done]. intros [= <- <- <-] Hlost.
  apply (insertDataInDb_prefix committed view lost) in E. destruct (getBy _ _ _ _ _) as [m [data textData]].
  apply unless_lasts in E as [E _]; [|done].
  destruct E as (i & Hsv & Hnn). exists i. split; [|exact Hnn]. eapply saves_setup; [|exact Hsv]. done.
Qed.

End execute.

(** ** Properties: ending *)

Section ending.
  Context {PT : PTime} {PC : PCalendar PT} {DT : DbText PT} {BT : BoostText} {TT : PTimeText PT} {BF : BoostFloat} {TI : BoostTrimIf}.
  Context {W : Type} {PQ : Libpq W} {DS : DbServer PT W}.
  Context (to_kvalobs_string : ptime PT -> bytes) (comment_of : reason -> bytes).

Lemma skip_to_obstype_le ls : (length (skip_to_obstype ls).2 <= length ls)%nat.
Proof. induction ls as [|l ls IH]; [done|]. cbn [skip_to_obstype]. destruct (is_obstype l); simpl; lia. Qed.

Lemma take_data_less ls : let '(buf, _, rest) := take_data ls in
  (length rest <= length ls)%nat /\ (buf <> [] -> (length rest < length ls)%nat).
Proof.
  destruct ls as [|l ls]; [done|]. cbn [take_data]. destruct (is_obstype l); [simpl; split; [lia|done]|].
  assert (H : (length (take_data ls).2 <= length ls)%nat).
  { induction ls as [|y ls IH]; [done|]. cbn [take_data]. destruct (is_obstype y); [simpl; lia|].
    destruct (take_data ls) as [[b n] r]. simpl in *. lia. }
  destruct (take_data ls) as [[b n] r]. simpl in *. split; [lia|]. intros _. lia.
Qed.

Lemma getObs_less h t data h' : getObs h = (t, data, true, h') -> (length (in_ h') < length (in_ h))%nat.
Proof.
  unfold getObs, getObsType. destruct (if bool_decide (obstype_ h = []) then _ else _) as [ty ls] eqn:E.
  assert (Hls : (length ls <= length (in_ h))%nat).
  { destruct (bool_decide _); [|by injection E as <- <-]. pose proof (skip_to_obstype_le (in_ h)) as H. by rewrite E in H. }
  destruct (bool_decide (ty = [])); [done|]. cbn [in_ nMessages]. pose proof (take_data_less ls) as H.
  destruct (take_data ls) as [[buf next] rest]. intros [= <- <- Hne <-]. cbn [in_].
  apply negb_true_iff, bool_decide_eq_false in Hne. destruct H as [_ H]. specialize (H Hne). lia.
Qed.

Section budget.
  Context (left_ : W -> nat) {SB : SerializationBudget true (update_transaction (DT := DT)) REPEATABLE_READ left_}.

Lemma save_data_settles st ty logid iou awq data textData d w :
  settles (fun fuel => save_data true fuel st ty logid iou awq data textData d w).
Proof.
  revert textData d w. induction data as [|[t l] data IH]; intros textData d w; [apply settles_some|]. cbn [save_data].
  settle_call (addDataToDbThrow_settles left_ t st ty l (default [] (c_find ptime_lt t textData)) logid iou awq false true d w).
  intros [[[]|[]] [d1 w1]]; [apply IH|apply settles_some..].
Qed.

Lemma save_texts_settles st ty logid iou awq textData d w :
  settles (fun fuel => save_texts true fuel st ty logid iou awq textData d w).
Proof.
  revert d w. induction textData as [|[t l] textData IH]; intros d w; [apply settles_some|]. cbn [save_texts]. unfold addDataToDb.
  settle_call (addDataToDbThrow_settles left_ t st ty [] l logid iou awq false true d w).
  intros [[[]|[]] [d1 w1]]; [apply IH|apply settles_some..].
Qed.

Lemma doExecute_settles k w : settles (fun fuel => doExecute true fuel to_kvalobs_string comment_of k w).
Proof.
  unfold doExecute. destruct (getSetUsinfo7 k) as [b|]; [|apply settles_some].
  destruct (_ =? _); [destruct (rejected _ _ _ _ _ _); apply settles_some|].
  destruct (_ || _); [destruct (rejected _ _ _ _ _ _); apply settles_some|]. cbv zeta.
  destruct (decodeData _ _ _ _ _ _) as [[kv ?]|r|e]; [|destruct (rejected _ _ _ _ _ _); apply settles_some|apply settles_some].
  assert (H : forall st ty logid iou d, settles (fun fuel => insertDataInDb true fuel kv st ty logid iou d w)).
  { intros *. unfold insertDataInDb. destruct (getBy _ _ _ _ _) as [? [data td]].
    settle_call (save_data_settles st ty logid iou (addToWokque_ (filters_filter (filters d) st ty)) data td d w).
    intros [[[r|td']|e] [d1 w1]]; [apply settles_some|apply save_texts_settles|apply settles_some]. }
  match goal with |- settles (fun fuel => match insertDataInDb true fuel kv ?st ?ty ?logid ?iou ?d w with _ => _ end) =>
    settle_call (H st ty logid iou d) end.
  intros [r [d1 w1]]. apply settles_some.
Qed.

Lemma execute_loop_settles n h error ret k w : (length (in_ h) < n)%nat ->
  settles (fun fuel => execute_loop true fuel to_kvalobs_string comment_of n h error ret k w).
Proof.
  revert h error ret k w. induction n as [|n IH]; intros h error ret k w Hn; [lia|]. cbn [execute_loop].
  destruct (getObs h) as [[[t data] some] h1] eqn:E. destruct some; [|apply settles_some]. apply getObs_less in E. cbn [negb orb].
  destruct error; [apply settles_some|]. destruct (decodeObsType _ _ _ _) as [[k1|e] w1]; [|apply settles_some].
  match goal with |- settles (fun fuel => match doExecute true fuel _ _ ?k w1 with _ => _ end) => settle_call (doExecute_settles k w1) end.
  intros [[r|e] [k2 w2]]; [|apply settles_some]. apply IH. lia.
Qed.

(** C18: Executing any message ends, whatever it holds and whatever else the server
    answers, when the serialization errors that a transaction can meet are bounded, by
    a number that each of them lowers: there is a result, and from some fuel on it is
    what the function gives. *)
Theorem execute_terminates k w :
  exists n r, forall fuel, (n <= fuel)%nat -> execute true fuel to_kvalobs_string comment_of k w = Some r.
Proof.
  change (settles (fun fuel => execute true fuel to_kvalobs_string comment_of k w)). unfold execute.
  match goal with |- settles (fun fuel => match execute_loop true fuel _ _ ?n ?h ?e ?r k w with _ => _ end) =>
    settle_call (execute_loop_settles n h e r k w (Nat.lt_succ_diag_r _)) end.
  intros [[ret|e] [[h error] [k1 w1]]]; [|apply settles_some].
  destruct (_ || _); [destruct ret|]; apply settles_some.
Qed.

End budget.

(** What the code leaves undefined: a message without data has no result, and a
    decoder without a configuration of its own uses a null pointer. *)
Theorem execute_no_data k w : in_ (GetObsHelper_new (obs (base k)) (obsType (base k))) = [] ->
  exists k', execute true 21 to_kvalobs_string comment_of k w = Some (inr Undefined, (k', w)).
Proof.
  intros E. unfold execute. rewrite E. cbn [length execute_loop].
  assert (H : exists t dd h', getObs (GetObsHelper_new (obs (base k)) (obsType (base k))) = (t, dd, false, h') /\ nMessages h' = 0%nat).
  { unfold getObs, getObsType. rewrite E.
    destruct (bool_decide (obstype_ _ = [])); [by eexists _, _, _|]. by destruct (bool_decide _); eexists _, _, _. }
  destruct H as (t & dd & h' & -> & Hh). cbn [negb orb]. unfold multiMessage. rewrite Hh. by eexists.
Qed.

Theorem doExecute_no_conf k w : theKvConf (base k) = None ->
  doExecute true 21 to_kvalobs_string comment_of k w = Some (inr Undefined, (k, w)).
Proof. intros E. unfold doExecute, getSetUsinfo7, myConfSection. by rewrite E. Qed.

End ending.

(** ** Instances *)

Definition trim_if : BoostTrimIf := {| trim_copy_if set s := conf_trimstr s set |}.

Definition kl_conf : ConfSection :=
  Section_ [(to_bytes "kvDataInputd", [Section_ [(decoder_name, [Section_ [] []])] []])] [].

Definition sample_kl (o : bytes) : KlDecoder stamp_time :=
  {| base := setKvConf (Some kl_conf) (DecoderBase_new sample_params [] (to_bytes "kldata/nationalnr=18700/type=501") o);
     typeID := 501; stationID := 18700; kl_insertOrUpdate := DbInsert; receivedTime := not_a_date_time;
     redirectedFrom := []; stationidIn := [] |}.

Definition kl_doExecute := doExecute (DT := stamp_text) (BT := boost_text) (BF := digit_float) (PQ := table_pq) (DS := table_db)
  true 21 (fun _ => to_bytes "now") (fun _ => to_bytes "no data").
Definition kl_execute := execute (DT := stamp_text) (BT := boost_text) (BF := digit_float) (TI := trim_if) (PQ := table_pq)
  (DS := table_db) true 21 (fun _ => to_bytes "now") (fun _ => to_bytes "no data").

(** Two times, the second one with a text only: both are saved. *)
Lemma doExecute_saves_witness :
  exists k' w', kl_doExecute (sample_kl (message_text sample_columns (snd <$> sample_lines))) (new_server [true]) =
      Some (inl Ok, (k', w')) /\
    length (workque (sv_committed w')) = 1%nat /\ length (observations (sv_committed w')) = 2%nat /\
    exists bs, length bs = 2%nat /\
      saves 18700 501 "n18700-t501" DbInsert false true true (base (sample_kl (message_text sample_columns (snd <$> sample_lines)))) bs
        empty_tables (sv_committed w').
Proof.
  assert (Hl : Forall (line_ok (BT := boost_text)) sample_lines).
  { repeat constructor; try (by vm_compute); by_decision. }
  pose proof (fun (k' : KlDecoder stamp_time) (w' : table_server) => doExecute_saves (DT := stamp_text) (BT := boost_text) (PQ := table_pq) (DS := table_db) (BF := digit_float) 21 (fun _ => to_bytes "now") (fun _ => to_bytes "no data")
    sv_committed sv_view (fun w => sv_lost w = true) sample_columns sample_lines (sample_kl (message_text sample_columns (snd <$> sample_lines)))
    (new_server [true]) false (inl Ok) k' w' ltac:(done) ltac:(done) ltac:(by vm_compute) ltac:(done) ltac:(by_decision) Hl
    ltac:(by_decision) ltac:(by repeat constructor) eq_refl) as H.
  assert (Hw : match kl_doExecute (sample_kl (message_text sample_columns (snd <$> sample_lines))) (new_server [true]) with
    | Some (inl r, (_, w')) => r = Ok /\ sv_lost w' = false /\ length (workque (sv_committed w')) = 1%nat /\ length (observations (sv_committed w')) = 2%nat
    | _ => False
    end) by (by vm_compute).
  destruct (kl_doExecute _ _) as [[[r|e] [k' w']]|] eqn:E; [|destruct Hw..]. destruct Hw as (-> & Hl' & H1 & H2).
  exists k', w'. split; [exact eq_refl|]. split; [exact H1|]. split; [exact H2|].
  specialize (H k' w' E ltac:(congruence)). clear E. cbv zeta in H.
  match type of H with context [getBy ?a ?b ?c ?d ?e] =>
    assert (Hb : let '(_, (data, td)) := getBy a b c d e in length (batches data td) = 2%nat) by (by vm_compute);
    destruct (getBy a b c d e) as [m [data td]] end.
  destruct H as (n & Hs & Hn). eexists. split; [|exact Hs]. cbn [is_ok] in Hn. rewrite take_ge; [done|lia].
Defined.

Definition sample_msg (ls : list string) : obs_text :=
  {| ot_type := to_bytes "kldata/type=1"; ot_lines := to_bytes <$> ls |}.

Lemma sample_line_ok (l : string) : l ∈ ["TA"; "t,1"]%string -> trimmed_line (to_bytes l) /\ is_obstype (to_bytes l) = false.
Proof.
  rewrite !elem_of_cons, elem_of_nil. intros [->|[->|[]]]; (split; [|by vm_compute]);
    (split; [done|]); (split; [by intros c [= <-]|]); (split; [by intros c [= <-]|by_decision]).
Qed.

Lemma sample_msg_ok ls : Forall (fun l => l ∈ ["TA"; "t,1"]%string) ls -> obs_ok (sample_msg ls).
Proof.
  intros H. split; [|split; [by vm_compute|]].
  - split; [done|]. split; [by intros c [= <-]|]. split; [by intros c [= <-]|by_decision].
  - apply Forall_fmap. eapply Forall_impl; [exact H|]. apply sample_line_ok.
Qed.

(** The third observation is lost because the second one has no data. *)
Lemma getObs_messages_witness :
  all_obs 3 (GetObsHelper_new (BT := boost_text)
    (join [char_of 10] (all_lines (sample_msg ["TA"; "t,1"]) [sample_msg []; sample_msg ["TA"]])) (to_bytes "kldata/type=1")) =
  [(to_bytes "kldata/type=1", data_of (sample_msg ["TA"; "t,1"]))].
Proof.
  refine (getObs_messages (BT := boost_text) (sample_msg ["TA"; "t,1"]) [sample_msg []; sample_msg ["TA"]] _ _).
  - apply sample_msg_ok. by_decision.
  - rewrite !Forall_cons, Forall_nil. split_and!; [..|done]; apply sample_msg_ok; by_decision.
Defined.

(** The server runs out of errors. *)
#[local] Instance table_budget : SerializationBudget (PQ := table_pq) true (update_transaction (DT := stamp_text) (DS := table_db))
  REPEATABLE_READ (fun w => length (sv_aborts w)).
Proof.
  split; [done..|]. intros x w. unfold attempt_transaction. cbn [update_transaction t_run run_on table_db].
  destruct (sv_aborts w) as [|[e|] a]; [| |];
    [destruct (perform _ _ _) as [[[[] y] v]|?]; simpl; lia| |destruct (perform _ _ _) as [[[[] y] v]|?]; simpl; lia].
  simpl. destruct e; simpl; lia.
Qed.

(** A message with a value, and a server with two serialization errors. *)
Definition busy_server : table_server :=
  {| sv_committed := empty_tables; sv_view := None;
     sv_aborts := [Some (SQLSerializeError_ "40001" false); Some (SQLSerializeError_ "40001" false)];
     sv_lost := false; sv_rows := [["18700"%string]] |}.

Lemma execute_terminates_witness :
  exists fuel r, execute (DT := stamp_text) (BT := boost_text) (BF := digit_float) (TI := trim_if) (PQ := table_pq)
    (DS := table_db) true fuel (fun _ => to_bytes "now") (fun _ => to_bytes "no data")
    (sample_kl (message_text sample_columns (snd <$> sample_lines))) busy_server = Some r.
Proof.
  destruct (execute_terminates (DT := stamp_text) (BT := boost_text) (BF := digit_float) (TI := trim_if)
    (PQ := table_pq) (DS := table_db) (fun _ => to_bytes "now") (fun _ => to_bytes "no data") (fun w => length (sv_aborts w))
    (sample_kl (message_text sample_columns (snd <$> sample_lines))) busy_server) as (n & r & H).
  exists n, r. apply H. lia.
Defined.

Lemma execute_no_data_witness : exists k', kl_execute (sample_kl []) (new_server []) = Some (inr Undefined, (k', new_server [])).
Proof.
  unfold kl_execute. refine (execute_no_data (DT := stamp_text) (BT := boost_text) (BF := digit_float) (TI := trim_if) (PQ := table_pq)
    (DS := table_db) (fun _ => to_bytes "now") (fun _ => to_bytes "no data") (sample_kl []) (new_server []) _). by vm_compute.
Defined.
