(* ===== verification/Kv2kv.v ===== *)
(** * The decoder of data from other installations
      (src/src/lib/decoder/kv2kvdecoder/kv2kvDecoder.cc, .h)

    A message is a document of the exchange format, or the older lines. What it
    invalidates is taken from the database, its values are compared with those that
    are stored, and the result is saved one time of observation after the other.
    [XmlReader] is the reading of a document by libxml++. The texts of the errors
    are a parameter, logs are left out, and so is what an exception leaves of the
    member [data], which is not used again. *)

From stdpp Require Import pretty.
From S2P Require Import Prelude Orders PTime TimeText DataFlag ControlInfo UseInfo KvData KvDataOps SortedData KvalobsData KvDataContainer Sql Database Observation DataUpdateTransaction Rows Conf StationFilter Scanning Text CommaString OrderedSet Signature ParamList ResultFilter Xml Serial Formatter PgConnection Gate Decoder Saving.

#[local] Open Scope Z_scope.

(** The calls that reading a text makes, up to its end or to the place where it is
    not well-formed, and whether it is well-formed. *)
Class XmlReader := { xml_read : bytes -> list event * bool }.

(** ** Queries (src/src/lib/kvalobs/kvQueries.cc); a special time is an exception *)

Section queries.
  Context {PT : PTime} {PC : PCalendar PT} {PS : PTimeShow PT}.

Definition selectDataFromType (sid tid : Z) (otime : ptime PT) : option string :=
  t ← to_kvalobs_string otime;
  Some (" where stationid=" ++ pretty sid ++ " and typeid=" ++ pretty tid
        ++ " and obstime='" ++ of_bytes t ++ "' ORDER BY paramid, level, sensor")%string.

Definition selectTextData (sid : Z) (stime etime : ptime PT) : option string :=
  s ← to_kvalobs_string stime; e ← to_kvalobs_string etime;
  Some (" where stationid=" ++ pretty sid ++ " and obstime>='" ++ of_bytes s ++ "'"
        ++ " and obstime<='" ++ of_bytes e ++ "'" ++ " order by obstime,typeid DESC")%string.

Definition selectData (d : kvData PT) : option string :=
  t ← to_kvalobs_string (obstime_ d);
  Some (" where" ++ " stationid=" ++ pretty (stationid_ d) ++ " and " ++ " obstime='" ++ of_bytes t ++ "' and "
        ++ " paramid=" ++ pretty (paramid_ d) ++ " and " ++ " level=" ++ pretty (level_ d) ++ " and "
        ++ " sensor='" ++ pretty (sensor_ d) ++ "' and" ++ " typeid=" ++ pretty (typeid_ d))%string.

(** [selectAllQuery] of kvDbBase.cc. *)
Definition selectAllQuery (table : string) : string := ("select * from " ++ table ++ " ")%string.

End queries.

(** The columns of the views data and text_data (kvalobs_schema.sql). *)
Definition data_columns : list string :=
  ["stationid"; "obstime"; "original"; "paramid"; "tbtime"; "typeid"; "sensor"; "level"; "corrected"; "controlinfo"; "useinfo";
   "cfailed"].
Definition text_data_columns : list string := ["stationid"; "obstime"; "original"; "paramid"; "tbtime"; "typeid"].

(** ** The decoder *)

Section Kv2kv.
  Context {PT : PTime} {PC : PCalendar PT} {PS : PTimeShow PT} {DT : DbText PT} {BT : BoostText} {TT : PTimeText PT}
          {BF : BoostFloat} {SD : StreamDouble} {XR : XmlReader}.
  Context {W : Type} {PQ : Libpq W} {DS : DbServer PT W} (con : bool) (fuel : nat).
  (** The members of an object before its constructor sets them from a row. *)
  Context (raw : kvData PT) (raw_text : kvTextData PT).

Inductive reason :=
  | Cannot_parse
  | No_data_from_database
  | Too_many_rows
  | Lookup_problem (d : kvData PT)
  | Cannot_overwrite_text
  | Not_compatible (l : list (kvData PT * kvData PT))
  | Db_error (stationid typeid_ : Z) (obstime : ptime PT)
  | Not_marked.

(** What leaves a function: [DecoderError], or another exception. *)
Inductive kv_error := DecoderError (res : DecodeResult) (why : reason) | Other (e : failure).

Context (what : reason -> bytes).

Record kv2kvDecoder := {
  base : DecoderBase PT;
  kv_data : KvalobsData PT;
  parseResult_ : DecodeResult;
  parseMessage_ : bytes;
  tbtime : ptime PT;
  checked_ : bool
}.

Definition set_parse (r : DecodeResult) (m : bytes) (k : kv2kvDecoder) : kv2kvDecoder :=
  {| base := base k; kv_data := kv_data k; parseResult_ := r; parseMessage_ := m; tbtime := tbtime k; checked_ := checked_ k |}.
Definition set_kv_base (b : DecoderBase PT) (k : kv2kvDecoder) : kv2kvDecoder :=
  {| base := b; kv_data := kv_data k; parseResult_ := parseResult_ k; parseMessage_ := parseMessage_ k; tbtime := tbtime k;
     checked_ := checked_ k |}.
Definition set_kv_data (d : KvalobsData PT) (k : kv2kvDecoder) : kv2kvDecoder :=
  {| base := base k; kv_data := d; parseResult_ := parseResult_ k; parseMessage_ := parseMessage_ k; tbtime := tbtime k;
     checked_ := checked_ k |}.

(** [setChecked]; [None] is the overrun in [CommaString]. *)
Definition setChecked (d : DecoderBase PT) : option bool :=
  val ← getObsTypeKey (to_bytes "checked") d;
  Some (bool_decide (head val = Some "T"%char) || bool_decide (head val = Some "t"%char)).

(** [parse], with the fallback to the older format. *)
Definition parse_csv (o : bytes) : KvalobsData PT + kv_error :=
  match getKvData o with
  | None => inr (Other Undefined)
  | Some (inl dlist) => inl (foldl (fun k d => insert d k) KvalobsData_new dlist)
  | Some (inr InvalidInput) => inr (DecoderError Rejected Cannot_parse)
  end.

Definition parse_obs (o : bytes) : KvalobsData PT + kv_error :=
  let '(evs, well_formed) := xml_read o in
  match parse evs KvalobsData_new with
  | inl d => if well_formed : bool then inl d else parse_csv o
  | inr stack_underflow => inr (Other Undefined)
  | inr _ => parse_csv o
  end.

(** The constructor; [now] is the clock. *)
Definition kv2kvDecoder_new (b : DecoderBase PT) (now : ptime PT) : kv2kvDecoder + failure :=
  match setChecked b with
  | None => inr Undefined
  | Some c =>
      let k d r m := {| base := b; kv_data := d; parseResult_ := r; parseMessage_ := m; tbtime := now; checked_ := c |} in
      match parse_obs (obs b) with
      | inl d => inl (k d Ok (to_bytes "Ok"))
      | inr (DecoderError _ _) => inl (k KvalobsData_new DecodeError (to_bytes "Could not parse data"))
      | inr (Other e) => inr e
      end
  end.

(** [dbGate.select] for the two tables. *)
Definition select_rows {A} (columns : list string) (table : string) (read : DRow -> A) (error : kv_error) (q : option string) (w : W)
    : (list A + kv_error) * W :=
  match q with
  | None => (inr (Other Std), w)
  | Some q =>
      match gate_select con (selectAllQuery table ++ q)%string kvDbGate_new w with
      | (inl (true, rows), (_, w)) => (inl (read ∘ zip columns <$> rows), w)
      | (inl (false, _), (_, w)) => (inr error, w)
      | (inr e, (_, w)) => (inr (Other e), w)
      end
  end.

Definition select_data (error : kv_error) (q : option string) (w : W) : (list (kvData PT) + kv_error) * W :=
  select_rows data_columns "data" (fun r => kvData_set_row r raw) error q w.
Definition select_text_data (error : kv_error) (q : option string) (w : W) : (list (kvTextData PT) + kv_error) * W :=
  select_rows text_data_columns "text_data" (fun r => kvTextData_set_row r raw_text) error q w.

(** [getDbData]. *)
Definition getDbData (d : kvData PT) (w : W) : (option (kvData PT) + kv_error) * W :=
  match select_data (DecoderError DecodeError (Lookup_problem d)) (selectData d) w with
  | (inl [], w) => (inl None, w)
  | (inl [db], w) => (inl (Some db), w)
  | (inl _, w) => (inr (DecoderError DecodeError Too_many_rows), w)
  | (inr e, w) => (inr e, w)
  end.

(** [invalidatePreviousData]: one row of the database, then all of them, then the
    observations that are invalidated. The set [sentInData] is searched with its
    order, which tells whether an element is equivalent to the row. *)
Definition sent {A} (lt : A -> A -> bool) (l : list A) (x : A) : bool := existsb (fun y => negb (lt x y) && negb (lt y x)) l.

Definition invalidate_row (sentInData : list (kvData PT)) (now : ptime PT) (k : KvalobsData PT) (db : kvData PT) : KvalobsData PT :=
  if eq_sensor 0 (sensor_ db) && (level_ db =? 0) then
    if sent lt_kvData sentInData db then k
    else if overwrite_ k then
      insert (getMissing {| f_stationID_ := stationid_ db; f_typeID_ := typeid_ db; f_obstime_ := obstime_ db;
                            f_sensor_ := sensor_ db; f_level_ := level_ db |} now (paramid_ db) not_a_date_time) k
    else insert (reject db) k
  else k.

Fixpoint invalidatePreviousData (sentInData : list (kvData PT)) (inv : list (Z * Z * ptime PT)) (k : KvalobsData PT) (w : W)
    : (KvalobsData PT + kv_error) * W :=
  match inv with
  | [] => (inl k, w)
  | (station, typeID, obstime) :: inv =>
      match select_data (DecoderError DecodeError No_data_from_database) (selectDataFromType station typeID obstime) w with
      | (inl alreadyInDb, w) => invalidatePreviousData sentInData inv (foldl (invalidate_row sentInData (clock w)) k alreadyInDb) w
      | (inr e, w) => (inr e, w)
      end
  end.

Definition lt_text (a b : kvTextData PT) : bool :=
  if negb (tx_stationid_ a =? tx_stationid_ b) then tx_stationid_ a <? tx_stationid_ b
  else if negb (tx_typeid_ a =? tx_typeid_ b) then tx_typeid_ a <? tx_typeid_ b
  else if negb (bool_decide (tx_obstime_ a = tx_obstime_ b)) then ptime_lt (tx_obstime_ a) (tx_obstime_ b)
  else tx_paramid_ a <? tx_paramid_ b.

Fixpoint invalidate_text_rows (sentInData : list (kvTextData PT)) (tbt : ptime PT) (typeID : Z) (rows : list (kvTextData PT))
    (k : KvalobsData PT) : KvalobsData PT + kv_error :=
  match rows with
  | [] => inl k
  | db :: rows =>
      if (tx_typeid_ db =? typeID) && negb (sent lt_text sentInData db) then
        if overwrite_ k then
          invalidate_text_rows sentInData tbt typeID rows
            (insertText (kvTextData_set (tx_stationid_ db) (tx_obstime_ db) "" (tx_paramid_ db) tbt (tx_typeid_ db)) k)
        else inr (DecoderError Rejected Cannot_overwrite_text)
      else invalidate_text_rows sentInData tbt typeID rows k
  end.

Fixpoint invalidatePreviousTextData (sentInData : list (kvTextData PT)) (tbt : ptime PT) (inv : list (Z * Z * ptime PT))
    (k : KvalobsData PT) (w : W) : (KvalobsData PT + kv_error) * W :=
  match inv with
  | [] => (inl k, w)
  | (station, typeID, obstime) :: inv =>
      match select_text_data (DecoderError DecodeError No_data_from_database) (selectTextData station obstime obstime) w with
      | (inl alreadyInDb, w) =>
          match invalidate_text_rows sentInData tbt typeID alreadyInDb k with
          | inl k => invalidatePreviousTextData sentInData tbt inv k w
          | inr e => (inr e, w)
          end
      | (inr e, w) => (inr e, w)
      end
  end.

Definition invalidatePrevious (tbt : ptime PT) (k : KvalobsData PT) (w : W) : (KvalobsData PT + kv_error) * W :=
  let inv := getInvalidate k in
  if bool_decide (inv = []) then (inl k, w)
  else
    match invalidatePreviousData (kd_getData k [] tbt) inv k w with
    | (inl k, w) => invalidatePreviousTextData (text_data k [] true tbt) tbt inv k w
    | r => r
    end.

(** [verify] and [adapt]. *)
Definition delta : spec_float := Dbl.lit 999 10000.
Definition verify (d db : kvData PT) : bool := negb (Dbl.ltb delta (Dbl.abs (Dbl.sub (original_ db) (original_ d)))).
Definition adapt (d db : kvData PT) : kvData PT :=
  kvData_set (stationid_ d) (obstime_ d) (original_ db) (paramid_ d) (tbtime_ db) (typeid_ d) (sensor_ d) (level_ d)
    (corrected_ d) (controlinfo_ d) (useinfo_ d) (cfailed_ d).

(** The loop of [verifyAndAdapt]: the values, and those that are not compatible with
    their stored ones. *)
Fixpoint adapt_all (overwrite : bool) (out : list (kvData PT)) (w : W)
    : (list (kvData PT) * list (kvData PT * kvData PT) + kv_error) * W :=
  match out with
  | [] => (inl ([], []), w)
  | d :: out =>
      match getDbData d w with
      | (inl dbData, w) =>
          match adapt_all overwrite out w with
          | (inl (ds, errors), w) =>
              match dbData with
              | Some db =>
                  if overwrite then (inl (d :: ds, errors), w)
                  else if verify d db then (inl (adapt d db :: ds, errors), w)
                  else (inl (d :: ds, (d, db) :: errors), w)
              | None => (inl (d :: ds, errors), w)
              end
          | r => r
          end
      | (inr e, w) => (inr e, w)
      end
  end.

Definition verifyAndAdapt (tbt : ptime PT) (k : KvalobsData PT) (w : W) : (KvalobsData PT * list (kvData PT) + kv_error) * W :=
  match invalidatePrevious tbt k w with
  | (inl k, w) =>
      match adapt_all (overwrite_ k) (kd_getData k [] tbt) w with
      | (inl (out, []), w) => (inl (k, out), w)
      | (inl (_, errors), w) => (inr (DecoderError Rejected (Not_compatible errors)), w)
      | (inr e, w) => (inr e, w)
      end
  | (inr e, w) => (inr e, w)
  end.

(** [saveInRejectDecode]: standard exceptions are caught. *)
Definition kv2kv_name : bytes := to_bytes "kv2kvDecoder".

Definition saveInRejectDecode (k : kv2kvDecoder) (w : W) : (unit + failure) * W :=
  match putRejectdecodeInDb con kvalobs_text (obsType (base k) ++ [char_of 10] ++ obs (base k)) kv2kv_name (parseMessage_ k)
          (tbtime k) w with
  | (inl _, w) | (inr (Sql _), w) | (inr Std, w) => (inl tt, w)
  | (inr e, w) => (inr e, w)
  end.

(** ** [save2] *)

Abbreviation outcome A := (option ((A + kv_error) * (DecoderBase PT * W))).

(** The exceptions of one save. *)
Definition db_error (stationid typeid_ : Z) (t : ptime PT) (e : failure) : kv_error :=
  match e with Undefined => Other Undefined | _ => DecoderError DecodeError (Db_error stationid typeid_ t) end.

Fixpoint save2_data (stationid typeid_ : Z) (checked : bool) (data : DataByObstime (PT := PT)) (textData : TextDataByObstime (PT := PT))
    (d : DecoderBase PT) (w : W) : outcome (TextDataByObstime (PT := PT)) :=
  match data with
  | [] => Some (inl textData, (d, w))
  | (t, l) :: data =>
      let td := default [] (c_find ptime_lt t textData) in
      match addDataToDbThrow con fuel t stationid typeid_ l td (logid_of stationid typeid_) DbUpdate (negb checked) checked false d w with
      | None => None
      | Some (inl true, (d, w)) => save2_data stationid typeid_ checked data (c_erase ptime_lt t textData) d w
      | Some (inl false, dw) => Some (inr (DecoderError DecodeError (Db_error stationid typeid_ t)), dw)
      | Some (inr e, dw) => Some (inr (db_error stationid typeid_ t e), dw)
      end
  end.

Fixpoint save2_texts (stationid typeid_ : Z) (checked : bool) (textData : TextDataByObstime (PT := PT)) (d : DecoderBase PT) (w : W)
    : outcome unit :=
  match textData with
  | [] => Some (inl tt, (d, w))
  | (t, l) :: textData =>
      match addDataToDb con fuel t stationid typeid_ [] l (logid_of stationid typeid_) DbUpdate (negb checked) checked false d w with
      | None => None
      | Some (inl true, (d, w)) => save2_texts stationid typeid_ checked textData d w
      | Some (inl false, dw) => Some (inr (DecoderError DecodeError (Db_error stationid typeid_ t)), dw)
      | Some (inr e, dw) => Some (inr (Other e), dw)
      end
  end.

(** The loop over the stations and types; the number that [get] returns is never
    negative. *)
Fixpoint save2_infos (container : KvalobsData PT) (checked : bool) (infos : list (Z * Z)) (d : DecoderBase PT) (w : W) : outcome unit :=
  match infos with
  | [] => Some (inl tt, (d, w))
  | (stationid, typeid_) :: infos =>
      let '(_, (data, textData)) := getBy container stationid typeid_ (clock w) (negb checked) in
      match save2_data stationid typeid_ checked data textData d w with
      | Some (inl textData, (d, w)) =>
          match save2_texts stationid typeid_ checked textData d w with
          | Some (inl tt, (d, w)) => save2_infos container checked infos d w
          | r => r
          end
      | Some (inr e, dw) => Some (inr e, dw)
      | None => None
      end
  end.

Definition save2 (checked : bool) (dl : list (kvData PT)) (tdl : list (kvTextData PT)) (d : DecoderBase PT) (w : W) : outcome unit :=
  let container := KvalobsData_of dl tdl in save2_infos container checked (stationInfos container) d w.

(** [markAsFixed]. *)
Definition fixed_query (r : kvRejectdecode PT) : string :=
  ("update rejectdecode set fixed='true'" ++ uniqueKey (reject_base kvalobs_text (to_bytes (rd_message r)) (to_bytes (rd_decoder r))
     (to_bytes (rd_comment r)) (rd_tbtime r)))%string.

Fixpoint markAsFixed (l : list (kvRejectdecode PT)) (w : W) : (unit + kv_error) * W :=
  match l with
  | [] => (inl tt, w)
  | r :: l =>
      if negb (is_not_a_date_time (rd_tbtime r)) && is_special (rd_tbtime r) then (inr (Other Std), w)
      else match pg_exec con (fixed_query r) w with
           | (inl _, w) => markAsFixed l w
           | (inr (Sql _), w) => (inr (DecoderError DecodeError Not_marked), w)
           | (inr e, w) => (inr (Other e), w)
           end
  end.

(** ** [execute] *)

(** The [try] block. *)
Definition message_lists (k : kv2kvDecoder) (w : W) : (KvalobsData PT * (list (kvData PT) * list (kvTextData PT)) + kv_error) * W :=
  if checked_ k then
    (inl (kv_data k, (data (kv_data k) [] false not_a_date_time, text_data (kv_data k) [] false not_a_date_time)), w)
  else
    match verifyAndAdapt (tbtime k) (kv_data k) w with
    | (inl (kd, dl), w) => (inl (kd, (dl, text_data kd [] true (tbtime k))), w)
    | (inr e, w) => (inr e, w)
    end.

Definition try_execute (k : kv2kvDecoder) (w : W) : option ((unit + kv_error) * (kv2kvDecoder * W)) :=
  match message_lists k w with
  | (inr e, w) => Some (inr e, (k, w))
  | (inl (kd, (dl, tdl)), w) =>
      let k := set_kv_data kd k in
      match save2 (checked_ k) dl tdl (base k) w with
      | None => None
      | Some (inr e, (b, w)) => Some (inr e, (set_kv_base b k, w))
      | Some (inl _, (b, w)) => let '(r, w) := markAsFixed (correctedMessages_ kd) w in Some (r, (set_kv_base b k, w))
      end
  end.

(** [execute(msg)]: the result and the message. *)
Definition execute (k : kv2kvDecoder) (w : W) : option ((DecodeResult * bytes + failure) * (kv2kvDecoder * W)) :=
  let rejected (k : kv2kvDecoder) w :=
    match saveInRejectDecode k w with
    | (inl _, w) => Some (inl (parseResult_ k, parseMessage_ k), (k, w))
    | (inr e, w) => Some (inr e, (k, w))
    end in
  if negb (bool_decide (parseResult_ k = Ok)) then rejected k w
  else
    match try_execute k w with
    | None => None
    | Some (inl _, (k, w)) => Some (inl (parseResult_ k, parseMessage_ k), (k, w))
    | Some (inr (DecoderError res why), (k, w)) => rejected (set_parse res (what why) k) w
    | Some (inr (Other e), kw) => Some (inr e, kw)
    end.

End Kv2kv.

Arguments kv2kvDecoder : clear implicits.
Arguments kv_error : clear implicits.
Arguments reason : clear implicits.

(** ** Properties: what a message saves *)

(** The queries of the decoder and the table of rejected messages do not touch the
    tables of observations. *)
Class SeparateTables {W A : Type} (PQ : Libpq W) (committed : W -> A) := {
  st_select table q w : committed (PQexec (selectAllQuery table ++ q) w).2 = committed w;
  st_reject e w : committed (PQexec (insert_text "rejectdecode" e) w).2 = committed w;
  st_remove e w : committed (PQexec (delete_text "rejectdecode" e) w).2 = committed w;
  st_fixed u w : committed (PQexec ("update rejectdecode set fixed='true'" ++ u) w).2 = committed w
}.

Section saves.
  Context {PT : PTime} {PC : PCalendar PT} {PS : PTimeShow PT} {DT : DbText PT} {BT : BoostText} {TT : PTimeText PT}
          {BF : BoostFloat} {SD : StreamDouble} {XR : XmlReader}.
  Context {W : Type} {PQ : Libpq W} {DS : DbServer PT W} (committed : W -> tables PT) (view : W -> option (tables PT))
          (lost : W -> Prop) {DSL : DbServerLaws DS committed view lost} {SEP : SeparateTables PQ committed}.
  Context (fuel : nat) (raw : kvData PT) (raw_text : kvTextData PT) (what : reason PT -> bytes).

  #[local] Abbreviation in_view := (fun w => is_Some (view w)).
  #[local] Abbreviation keeps := (keeps committed lost).

Lemma select_keeps {A} columns table (read : DRow -> A) error q w :
  keeps w (select_rows true columns table read error q w).2.
Proof.
  unfold select_rows. destruct q as [q|]; [|done]. unfold gate_select. cbn [negb]. destruct (_ <? 0); [done|].
  pose proof (pg_execQuery_keeps committed in_view lost (selectAllQuery table ++ q)%string w (st_select table q w)) as H.
  destruct (pg_execQuery true _ w) as [[[rows|]|[e| | |]] w1]; exact H.
Qed.

Lemma getDbData_keeps d w : keeps w (getDbData true raw d w).2.
Proof.
  unfold getDbData, select_data. pose proof (select_keeps data_columns "data" (fun r => kvData_set_row r raw)
    (DecoderError DecodeError (Lookup_problem d)) (selectData d) w) as H.
  destruct (select_rows _ _ _ _ _ _ w) as [[[|db [|db2 l]]|e] w1]; exact H.
Qed.

(** *** What an invalidation adds to a message

    The rows of an invalidated observation that the server answers with, and that the
    message does not send itself: they come in with the message, rejected, or as
    missing when it overwrites. *)
Definition added_values (overwrite : bool) (now : ptime PT) (sentInData rows : list (kvData PT)) : list (kvData PT) :=
  (fun db => if overwrite
             then getMissing {| f_stationID_ := stationid_ db; f_typeID_ := typeid_ db; f_obstime_ := obstime_ db;
                                f_sensor_ := sensor_ db; f_level_ := level_ db |} now (paramid_ db) not_a_date_time
             else reject db) <$>
  filter (fun db => eq_sensor 0 (sensor_ db) && (level_ db =? 0) && negb (sent lt_kvData sentInData db) = true) rows.

(** Its texts become empty; without overwriting there must be none. *)
Definition added_texts (tbt : ptime PT) (typeID : Z) (sentInData rows : list (kvTextData PT)) : list (kvTextData PT) :=
  (fun db => kvTextData_set (tx_stationid_ db) (tx_obstime_ db) "" (tx_paramid_ db) tbt (tx_typeid_ db)) <$>
  filter (fun db => (tx_typeid_ db =? typeID) && negb (sent lt_text sentInData db) = true) rows.

Definition insert_all (vs : list (kvData PT)) (k : KvalobsData PT) : KvalobsData PT := foldl (fun k d => insert d k) k vs.
Definition insertText_all (ts : list (kvTextData PT)) (k : KvalobsData PT) : KvalobsData PT := foldl (fun k d => insertText d k) k ts.

(** What one invalidated observation adds, with the rows that are asked for while
    [T] is committed. *)
Definition invalidated_values (overwrite : bool) (sentInData : list (kvData PT)) (T : tables PT) (i : Z * Z * ptime PT)
    (vs : list (kvData PT)) : Prop :=
  exists w0 w1 rows, committed w0 = T /\
    select_data true raw (DecoderError DecodeError No_data_from_database) (selectDataFromType i.1.1 i.1.2 i.2) w0 = (inl rows, w1) /\
    vs = added_values overwrite (clock w1) sentInData rows.

Definition invalidated_texts (overwrite : bool) (tbt : ptime PT) (sentInData : list (kvTextData PT)) (T : tables PT)
    (i : Z * Z * ptime PT) (ts : list (kvTextData PT)) : Prop :=
  exists w0 w1 rows, committed w0 = T /\
    select_text_data true raw_text (DecoderError DecodeError No_data_from_database) (selectTextData i.1.1 i.2 i.2) w0 = (inl rows, w1) /\
    ts = added_texts tbt i.1.2 sentInData rows /\ (overwrite = false -> ts = []).

Lemma insert_all_app v1 v2 k : insert_all (v1 ++ v2) k = insert_all v2 (insert_all v1 k).
Proof. apply foldl_app. Qed.

Lemma insertText_all_app v1 v2 k : insertText_all (v1 ++ v2) k = insertText_all v2 (insertText_all v1 k).
Proof. apply foldl_app. Qed.

Lemma insert_all_frame vs k : overwrite_ (insert_all vs k) = overwrite_ k.
Proof. revert k. induction vs as [|v vs IH]; intros k; [done|]. exact (IH (insert v k)). Qed.

Lemma insertText_all_frame ts k : overwrite_ (insertText_all ts k) = overwrite_ k.
Proof. revert k. induction ts as [|t ts IH]; intros k; [done|]. exact (IH (insertText t k)). Qed.

Lemma invalidate_rows_spec s now k rows :
  foldl (invalidate_row s now) k rows = insert_all (added_values (overwrite_ k) now s rows) k.
Proof.
  revert k. induction rows as [|db rows IH]; intros k; [done|]. cbn [foldl]. rewrite IH. unfold added_values.
  rewrite filter_cons. unfold invalidate_row at 1 2. destruct (eq_sensor 0 (sensor_ db) && (level_ db =? 0)); cbn [andb].
  2:{ by rewrite decide_False by done. }
  destruct (sent lt_kvData s db); cbn [negb]; [by rewrite decide_False by done|]. rewrite decide_True by done.
  rewrite fmap_cons. unfold insert_all at 2. cbn [foldl]. by destruct (overwrite_ k) eqn:E; cbn; rewrite ?E.
Qed.

Lemma invalidate_text_rows_spec s tb ty rows k k' : invalidate_text_rows s tb ty rows k = inl k' ->
  k' = insertText_all (added_texts tb ty s rows) k /\ (overwrite_ k = false -> added_texts tb ty s rows = []).
Proof.
  revert k. induction rows as [|db rows IH]; intros k; cbn [invalidate_text_rows]; [by intros [= ->]|].
  unfold added_texts. rewrite filter_cons. destruct (_ && _); [|rewrite decide_False by done; apply IH].
  rewrite decide_True by done. destruct (overwrite_ k) eqn:E; [|done]. intros [-> _]%IH. by split.
Qed.

Lemma invalidatePreviousData_spec s inv k w :
  let '(r, w') := invalidatePreviousData true raw s inv k w in
  unless_lost lost w w' (committed w' = committed w /\
    match r with
    | inl k' => exists vss, Forall2 (invalidated_values (overwrite_ k) s (committed w)) inv vss /\ k' = insert_all (concat vss) k
    | inr _ => True
    end).
Proof.
  revert k w. induction inv as [|[[st ty] ot] inv IH]; intros k w; cbn [invalidatePreviousData].
  { apply unless_done. split; [done|]. by exists []. }
  pose proof (select_keeps data_columns "data" (fun r => kvData_set_row r raw)
    (DecoderError DecodeError No_data_from_database) (selectDataFromType st ty ot) w) as H.
  destruct (select_data _ _ _ _ w) as [[l|e] w1] eqn:E; unfold select_data in E; rewrite E in H; cbn [snd] in H.
  2:{ eapply unless_mono; [exact H|]. by intros ->. }
  specialize (IH (foldl (invalidate_row s (clock w1)) k l) w1). rewrite invalidate_rows_spec in *.
  destruct (invalidatePreviousData _ _ _ _ _ w1) as [r w2]. eapply unless_trans; [exact H|exact IH|]. intros Hc [Hc2 Hr].
  split; [congruence|]. destruct r as [k'|]; [|done]. destruct Hr as (vss & Hv & ->). rewrite insert_all_frame, Hc in Hv.
  eexists (_ :: vss). split; [|cbn [concat]; by rewrite insert_all_app]. constructor; [|exact Hv].
  exists w, w1, l. split; [done|]. by split.
Qed.

Lemma invalidatePreviousTextData_spec s tb inv k w :
  let '(r, w') := invalidatePreviousTextData true raw_text s tb inv k w in
  unless_lost lost w w' (committed w' = committed w /\
    match r with
    | inl k' => exists tss, Forall2 (invalidated_texts (overwrite_ k) tb s (committed w)) inv tss /\ k' = insertText_all (concat tss) k
    | inr _ => True
    end).
Proof.
  revert k w. induction inv as [|[[st ty] ot] inv IH]; intros k w; cbn [invalidatePreviousTextData].
  { apply unless_done. split; [done|]. by exists []. }
  pose proof (select_keeps text_data_columns "text_data" (fun r => kvTextData_set_row r raw_text)
    (DecoderError DecodeError No_data_from_database) (selectTextData st ot ot) w) as H.
  destruct (select_text_data _ _ _ _ w) as [[l|e] w1] eqn:E; unfold select_text_data in E; rewrite E in H; cbn [snd] in H.
  2:{ eapply unless_mono; [exact H|]. by intros ->. }
  destruct (invalidate_text_rows s tb ty l k) as [k1|e] eqn:E1; [|eapply unless_mono; [exact H|]; by intros ->].
  apply invalidate_text_rows_spec in E1 as [-> Ho]. specialize (IH (insertText_all (added_texts tb ty s l) k) w1).
  destruct (invalidatePreviousTextData _ _ _ _ _ _ w1) as [r w2]. eapply unless_trans; [exact H|exact IH|]. intros Hc [Hc2 Hr].
  split; [congruence|]. destruct r as [k'|]; [|done]. destruct Hr as (tss & Hv & ->).
  rewrite insertText_all_frame, Hc in Hv. eexists (_ :: tss). split; [|cbn [concat]; by rewrite insertText_all_app]. constructor; [|exact Hv].
  exists w, w1, l. split; [done|]. by split.
Qed.

(** A message with what its invalidations add. *)
Definition completed (tbt : ptime PT) (T : tables PT) (k kd : KvalobsData PT) : Prop :=
  exists vss tss,
    Forall2 (invalidated_values (overwrite_ k) (kd_getData k [] tbt) T) (getInvalidate k) vss /\
    Forall2 (invalidated_texts (overwrite_ k) tbt (text_data (insert_all (concat vss) k) [] true tbt) T) (getInvalidate k) tss /\
    kd = insertText_all (concat tss) (insert_all (concat vss) k).

Lemma invalidatePrevious_spec tb k w :
  let '(r, w') := invalidatePrevious true raw raw_text tb k w in
  unless_lost lost w w' (committed w' = committed w /\
    match r with inl kd => completed tb (committed w) k kd /\ overwrite_ kd = overwrite_ k | inr _ => True end).
Proof.
  unfold invalidatePrevious. case_bool_decide as Hi.
  { apply unless_done. split; [done|]. split; [|done]. exists [], []. rewrite Hi. by repeat split. }
  pose proof (invalidatePreviousData_spec (kd_getData k [] tb) (getInvalidate k) k w) as H.
  destruct (invalidatePreviousData _ _ _ _ _ w) as [[k1|e] w1]; [|eapply unless_mono; [exact H|]; by intros [-> _]].
  pose proof (invalidatePreviousTextData_spec (text_data k1 [] true tb) tb (getInvalidate k) k1 w1) as H2.
  destruct (invalidatePreviousTextData _ _ _ _ _ _ w1) as [r w2]. eapply unless_trans; [exact H|exact H2|].
  intros (Hc & vss & Hv & ->) [Hc2 Hr]. split; [congruence|]. destruct r as [kd|]; [|done]. destruct Hr as (tss & Ht & ->).
  rewrite insert_all_frame, Hc in Ht. split; [by exists vss, tss|].
  by rewrite insertText_all_frame, insert_all_frame.
Qed.

(** What becomes of a value: it is taken over as it is, or with the original value
    and the time of arrival that are stored. *)
Definition taken_over (overwrite : bool) (T : tables PT) (d0 d : kvData PT) : Prop :=
  exists w0 w1 o, committed w0 = T /\ getDbData true raw d0 w0 = (inl o, w1) /\
    match o with
    | Some db => if overwrite then d = d0 else verify d0 db = true /\ d = adapt d0 db
    | None => d = d0
    end.

Lemma adapt_all_spec ow out w :
  let '(r, w') := adapt_all true raw ow out w in
  unless_lost lost w w' (committed w' = committed w /\
    match r with inl (ds, []) => Forall2 (taken_over ow (committed w)) out ds | _ => True end).
Proof.
  revert w. induction out as [|d out IH]; intros w; cbn [adapt_all]; [by apply unless_done|].
  pose proof (getDbData_keeps d w) as Hk. destruct (getDbData true raw d w) as [[o|e] w1] eqn:Ed; cbn [snd] in Hk.
  2:{ eapply unless_mono; [exact Hk|done]. }
  specialize (IH w1). destruct (adapt_all true raw ow out w1) as [[[ds errors]|e] w2].
  2:{ eapply unless_trans; [exact Hk|exact IH|]. intros Hc [Hc2 _]. split; [congruence|done]. }
  assert (Ht : forall d', match o with Some db => if ow then d' = d else verify d db = true /\ d' = adapt d db | None => d' = d end ->
    taken_over ow (committed w) d d') by (intros d' Hd'; by exists w, w1, o).
  assert (Hu : unless_lost lost w w2 (committed w2 = committed w /\ forall d', taken_over ow (committed w) d d' ->
    match errors with [] => Forall2 (taken_over ow (committed w)) (d :: out) (d' :: ds) | _ => True end)).
  { eapply unless_trans; [exact Hk|exact IH|]. intros Hc [Hc2 Hf]. split; [congruence|]. intros d' Hd'. destruct errors; [|done].
    constructor; [done|]. by rewrite <- Hc. }
  destruct o as [db|]; [destruct ow; [|destruct (verify d db) eqn:Ev]|]; (eapply unless_mono; [exact Hu|]); intros [Hc Hf];
    (split; [exact Hc|]); first [done | apply Hf, Ht; done].
Qed.

(** What is accepted of a message that needs no more checks: all that it holds. Of
    another one: the message with what its invalidations add, its texts as they are
    and each of its values taken over. *)
Definition accepted (k : kv2kvDecoder PT) (T : tables PT) (kd : KvalobsData PT) (dl : list (kvData PT)) (tdl : list (kvTextData PT)) : Prop :=
  if checked_ k then kd = kv_data k /\ dl = data kd [] false not_a_date_time /\ tdl = text_data kd [] false not_a_date_time
  else completed (tbtime k) T (kv_data k) kd /\ tdl = text_data kd [] true (tbtime k) /\
       Forall2 (taken_over (overwrite_ (kv_data k)) T) (kd_getData kd [] (tbtime k)) dl.

Lemma message_lists_spec k w : let '(r, w') := message_lists true raw raw_text k w in
  unless_lost lost w w' (committed w' = committed w /\ match r with inl (kd, (dl, tdl)) => accepted k (committed w) kd dl tdl | inr _ => True end).
Proof.
  unfold message_lists, accepted. destruct (checked_ k); [by apply unless_done|]. unfold verifyAndAdapt.
  pose proof (invalidatePrevious_spec (tbtime k) (kv_data k) w) as H.
  destruct (invalidatePrevious true raw raw_text (tbtime k) (kv_data k) w) as [[kd|e] w1]; [|exact H].
  pose proof (adapt_all_spec (overwrite_ kd) (kd_getData kd [] (tbtime k)) w1) as Hk.
  destruct (adapt_all _ _ _ _ w1) as [[[ds errors]|e] w2].
  - assert (Hu : unless_lost lost w w2 (committed w2 = committed w /\ match errors with
      | [] => completed (tbtime k) (committed w) (kv_data k) kd /\
              Forall2 (taken_over (overwrite_ (kv_data k)) (committed w)) (kd_getData kd [] (tbtime k)) ds
      | _ => True end)).
    { eapply unless_trans; [exact H|exact Hk|]. intros (Hc & Hcm & Ho) [Hc2 Hf]. split; [congruence|]. destruct errors; [|done].
      split; [done|]. by rewrite <- Ho, <- Hc. }
    destruct errors; (eapply unless_mono; [exact Hu|]); [|done]. intros (Hc & Hcm & Hf). by split_and!.
  - eapply unless_trans; [exact H|exact Hk|]. intros [Hc _] [Hc2 _]. split; [congruence|done].
Qed.

(** The groups of values that are saved, with their station and type. *)
Definition group : Type := ((Z * Z) * batch (PT := PT))%type.

Definition saves_one (checked : bool) (d : DecoderBase PT) (x : group) (T T' : tables PT) : Prop :=
  saves_batch x.1.1 x.1.2 (logid_of x.1.1 x.1.2) DbUpdate checked false (negb checked) d x.2 T T'.

Inductive saves_all (checked : bool) (d : DecoderBase PT) : list group -> tables PT -> tables PT -> Prop :=
  | saves_all_none T : saves_all checked d [] T T
  | saves_all_more x xs T T1 T2 : saves_one checked d x T T1 -> saves_all checked d xs T1 T2 -> saves_all checked d (x :: xs) T T2.

Lemma saves_all_nil checked d T T' : saves_all checked d [] T T' -> T' = T.
Proof. by inversion 1. Qed.

(** All of the groups, or only the first of them. *)
Definition some_saved (checked : bool) (d : DecoderBase PT) (xs : list group) (complete : bool) (T T' : tables PT) : Prop :=
  exists n, saves_all checked d (take n xs) T T' /\ if complete then n = length xs else (n < length xs)%nat.

Lemma saves_all_setup checked d d' xs T T' : same_setup d d' -> saves_all checked d' xs T T' -> saves_all checked d xs T T'.
Proof. intros H Hs. induction Hs as [|x xs T T1 T2 Hx Hs IH]; [constructor|]. econstructor; [by eapply saves_batch_setup|exact IH]. Qed.

Lemma some_more checked d d' x xs c T T1 T' : same_setup d d' ->
  saves_one checked d x T T1 -> some_saved checked d' xs c T1 T' -> some_saved checked d (x :: xs) c T T'.
Proof.
  intros Hd Hb (n & Hs & Hn). exists (S n). split; [cbn [take]; econstructor; [exact Hb|by eapply saves_all_setup]|].
  cbn [length]. destruct c; lia.
Qed.

Lemma some_stop checked d x xs T : some_saved checked d (x :: xs) false T T.
Proof. exists 0%nat. split; [constructor|]. cbn [length]. lia. Qed.

Lemma saves_all_app checked d xs ys T T1 T2 : saves_all checked d xs T T1 -> saves_all checked d ys T1 T2 -> saves_all checked d (xs ++ ys) T T2.
Proof. intros H H2. induction H as [|x xs T T3 T4 Hx Hs IH]; [done|]. cbn [app]. econstructor; [exact Hx|by apply IH]. Qed.

Lemma some_app checked d d' xs ys c T T1 T' : same_setup d d' ->
  some_saved checked d xs true T T1 -> some_saved checked d' ys c T1 T' -> some_saved checked d (xs ++ ys) c T T'.
Proof.
  intros Hd (n & Hs & ->) (m & Hs' & Hm). exists (length xs + m)%nat. rewrite take_app_add, length_app. rewrite firstn_all in Hs.
  split; [by eapply saves_all_app, saves_all_setup|]. destruct c; lia.
Qed.

Lemma some_left checked d xs ys T T' : some_saved checked d xs false T T' -> some_saved checked d (xs ++ ys) false T T'.
Proof. intros (n & Hs & Hn). exists n. rewrite take_app_le, length_app by lia. split; [done|lia]. Qed.

Definition is_inl {A B} (r : A + B) : bool := match r with inl _ => true | inr _ => false end.

Lemma save2_texts_spec st ty checked textData d w r d' w' :
  save2_texts true fuel st ty checked textData d w = Some (r, (d', w')) ->
  unless_lost lost w w' (same_setup d d' /\
    some_saved checked d (pair (st, ty) <$> batches [] textData) (is_inl r) (committed w) (committed w')).
Proof.
  revert d w. induction textData as [|[t l] textData IH]; intros d w; cbn [save2_texts].
  { intros [= <- <- <-]. apply unless_done. split; [done|]. exists 0%nat. split; [constructor|done]. }
  unfold addDataToDb. destruct (addDataToDbThrow _ _ _ _ _ _ _ _ _ _ _ _ _ _) as [[r1 [d1 w1]]|] eqn:E; [|done].
  apply (add_batch committed view lost fuel st ty _ _ _ _ _ d w (t, [], l)) in E.
  destruct r1 as [[]|e].
  - intros H%IH. eapply unless_trans; [exact E|exact H|]. intros [Hd E1] [Hd1 H1].
    split; [by eapply same_setup_trans|]. by eapply some_more.
  - intros [= <- <- <-]. eapply unless_mono; [exact E|]. intros [Hd ->]. split; [done|]. apply some_stop.
  - intros H. assert (d' = d1 /\ is_inl r = false /\ w' = w1) as (-> & -> & ->) by (by destruct e; injection H as <- <- <-).
    eapply unless_mono; [exact E|]. intros [Hd ->]. split; [done|]. apply some_stop.
Qed.

Lemma save2_data_spec st ty checked data textData d w r d1 w1 :
  save2_data true fuel st ty checked data textData d w = Some (r, (d1, w1)) ->
  unless_lost lost w w1 (same_setup d d1 /\
  match r with
  | inl textData' => forall c T', some_saved checked d1 (pair (st, ty) <$> batches [] textData') c (committed w1) T' ->
      some_saved checked d (pair (st, ty) <$> batches data textData) c (committed w) T'
  | inr _ => some_saved checked d (pair (st, ty) <$> batches data textData) false (committed w) (committed w1)
  end).
Proof.
  revert textData d w. induction data as [|[t l] data IH]; intros textData d w; cbn [save2_data].
  { intros [= <- <- <-]. apply unless_done. by split. }
  destruct (addDataToDbThrow _ _ _ _ _ _ _ _ _ _ _ _ _ _) as [[r2 [d2 w2]]|] eqn:E; [|done].
  apply (add_batch committed view lost fuel st ty _ _ _ _ _ d w (t, l, default [] (c_find ptime_lt t textData))) in E.
  destruct r2 as [[]|e].
  - intros H%IH. eapply unless_trans; [exact E|exact H|]. clear E H. intros [Hd E] [Hd1 H].
    split; [by eapply same_setup_trans|]. cbn [batches fmap list_fmap].
    destruct r as [td|e]; [intros c T' Hc; eapply some_more; [exact Hd|exact E|by apply H]|by eapply some_more].
  - intros [= <- <- <-]. eapply unless_mono; [exact E|]. intros [Hd ->]. split; [done|]. apply some_stop.
  - intros [= <- <- <-]. eapply unless_mono; [exact E|]. intros [Hd ->]. split; [done|]. apply some_stop.
Qed.

(** The groups of a station and type, whose time of arrival is the clock's when the
    message is not checked. *)
Definition groups_of (container : KvalobsData PT) (checked : bool) (st : Z * Z) (gs : list group) : Prop :=
  exists now, gs = let '(_, (data, textData)) := getBy container st.1 st.2 now (negb checked) in pair st <$> batches data textData.

Lemma save2_infos_spec container checked infos d w r d' w' :
  save2_infos true fuel container checked infos d w = Some (r, (d', w')) ->
  unless_lost lost w w' (same_setup d d' /\ exists gss, Forall2 (groups_of container checked) infos gss /\
    some_saved checked d (concat gss) (is_inl r) (committed w) (committed w')).
Proof.
  revert d w. induction infos as [|[st ty] infos IH]; intros d w; cbn [save2_infos].
  { intros [= <- <- <-]. apply unless_done. split; [done|]. exists []. split; [constructor|]. exists 0%nat. split; [constructor|done]. }
  assert (Hrest : exists gss, Forall2 (groups_of container checked) infos gss).
  { clear. induction infos as [|x infos [gss IH]]; [by exists []|]. eexists (_ :: gss). constructor; [|exact IH].
    by exists not_a_date_time. }
  destruct (getBy container st ty (clock w) (negb checked)) as [m [dt textData]] eqn:Eg.
  assert (Hg : groups_of container checked (st, ty) (pair (st, ty) <$> batches dt textData)).
  { exists (clock w). cbn [fst snd]. by rewrite Eg. }
  destruct (save2_data _ _ _ _ _ _ _ d w) as [[[td|e] [d1 w1]]|] eqn:E1; [| |done]; apply save2_data_spec in E1.
  2:{ intros [= <- <- <-]. eapply unless_mono; [exact E1|]. clear E1. intros [Hd1 E1]. split; [done|].
      destruct Hrest as [gss Hrest]. exists ((pair (st, ty) <$> batches dt textData) :: gss).
      split; [by constructor|]. cbn [concat]. by apply some_left. }
  destruct (save2_texts _ _ _ _ _ td d1 w1) as [[[[]|e] [d2 w2]]|] eqn:E2; [| |done]; apply save2_texts_spec in E2.
  - intros H%IH. assert (E3 := unless_trans lost w w1 w2 _ _ _ E1 E2 (fun x y => conj x y)). eapply unless_trans; [exact E3|exact H|].
    clear E1 E2 E3 H. intros [[Hd1 E1] [Hd2 E2]] [Hd (gss & Hf & Hs)]. apply E1 in E2.
    assert (Hd02 : same_setup d d2) by (by eapply same_setup_trans).
    split; [by eapply same_setup_trans|]. exists ((pair (st, ty) <$> batches dt textData) :: gss). split; [by constructor|].
    cbn [concat]. by eapply some_app.
  - intros [= <- <- <-]. eapply unless_trans; [exact E1|exact E2|]. clear E1 E2. intros [Hd1 E1] [Hd2 E2]. apply E1 in E2.
    split; [by eapply same_setup_trans|]. destruct Hrest as [gss Hrest].
    exists ((pair (st, ty) <$> batches dt textData) :: gss). split; [by constructor|]. cbn [concat]. by apply some_left.
Qed.

Lemma markAsFixed_keeps l w : keeps w (markAsFixed true l w).2.
Proof.
  revert w. induction l as [|r l IH]; intros w; cbn [markAsFixed]; [done|]. destruct (_ && _); [done|].
  pose proof (pg_exec_keeps committed in_view lost (fixed_query r) w (st_fixed (uniqueKey
    (reject_base kvalobs_text (to_bytes (rd_message r)) (to_bytes (rd_decoder r)) (to_bytes (rd_comment r)) (rd_tbtime r))) w)) as H.
  destruct (pg_exec true (fixed_query r) w) as [[[]|[e| | |]] w1]; [etransitivity; [exact H|apply IH]|exact H..].
Qed.

Lemma settle_state aborts all g (r : (unit + failure) * W) : (settle aborts all g r).2.2 = r.2.
Proof. destruct r as [[[]|[e| | |]] w]; cbn [settle snd]; by destruct all. Qed.

(** An insertion into a table that the tables of observations are separate from. *)
Lemma gate_insert_keeps table e replace g w :
  (forall e w, committed (PQexec (insert_text table e) w).2 = committed w) ->
  (forall e w, committed (PQexec (delete_text table e) w).2 = committed w) ->
  keeps w (gate_insert true e table replace g w).2.2.
Proof.
  intros Hi Hd. unfold gate_insert. destruct (negb (exists_ e)); [done|]. destruct (_ <? 0); [done|].
  generalize (set_err NoError g), 2%nat. clear g. intros g n.
  revert g w. induction n as [|n IH]; intros g w; cbn [insert_rounds]; [done|].
  pose proof (pg_exec_keeps committed in_view lost (insert_text table e) w (Hi e w)) as H.
  destruct (pg_exec true (insert_text table e) w) as [r w1]. cbn [snd] in H.
  assert (Hs : keeps w (settle true true g (r, w1)).2.2) by (by rewrite settle_state).
  destruct r as [[]|[[]| | |]]; try exact Hs. destruct replace; [|exact H].
  pose proof (pg_exec_keeps committed in_view lost (delete_text table e) w1 (Hd e w1)) as H2.
  pose proof (settle_state true true g (pg_exec true (delete_text table e) w1)) as H3.
  destruct (settle true true g (pg_exec _ _ _)) as [[[]|f] [g1 w2]]; cbn [snd] in H3; rewrite <- H3 in H2;
    (etransitivity; [exact H|]); [etransitivity; [exact H2|apply IH]|exact H2|exact H2].
Qed.

Lemma putRejectdecode_keeps show message decoder comment tb w :
  keeps w (putRejectdecodeInDb true show message decoder comment tb w).2.
Proof.
  unfold putRejectdecodeInDb. set (e := reject_base _ _ _ _ _). change (tableName e) with "rejectdecode"%string.
  pose proof (gate_insert_keeps "rejectdecode" e true kvDbGate_new w st_reject st_remove) as H.
  by destruct (gate_insert _ _ _ _ _ w) as [r [g w1]].
Qed.

Lemma saveInRejectDecode_keeps k w : keeps w (saveInRejectDecode true k w).2.
Proof.
  unfold saveInRejectDecode. pose proof (putRejectdecode_keeps kvalobs_text (obsType (base k) ++ [char_of 10] ++ obs (base k)) kv2kv_name
    (parseMessage_ k) (tbtime k) w) as H.
  by destruct (putRejectdecodeInDb _ _ _ _ _ _ w) as [[b|[x| | |]] w1].
Qed.

(** The end of a message that is rejected: no value is saved then. *)
Lemma rejected_result k w r k' w' :
  match saveInRejectDecode true k w with
  | (inl _, w) => Some (inl (parseResult_ k, parseMessage_ k), (k, w))
  | (inr e, w) => Some (@inr _ failure e, (k, w))
  end = Some (r, (k', w')) -> keeps w w' /\ match r with inl (res, _) => res = parseResult_ k | inr _ => True end.
Proof.
  intros E. pose proof (saveInRejectDecode_keeps k w) as H. destruct (saveInRejectDecode true k w) as [[[]|e] w1];
    injection E as <- <- <-; by split.
Qed.

(** No [DecoderError] says that all is well. *)
Definition proper (e : kv_error PT) : Prop := forall why, e <> DecoderError Ok why.

Lemma select_proper {A} columns table (read : DRow -> A) error q w e w' : proper error ->
  select_rows true columns table read error q w = (inr e, w') -> proper e.
Proof.
  intros He. unfold select_rows. destruct q as [q|]; [|by intros [= <- _]].
  destruct (gate_select _ _ _ _) as [[[[] rows]|f] [g v2]]; [done|by intros [= <- _]..].
Qed.

Lemma getDbData_proper d w e w' : getDbData true raw d w = (inr e, w') -> proper e.
Proof.
  unfold getDbData, select_data. destruct (select_rows _ _ _ _ _ _ w) as [[[|db [|]]|y] v2] eqn:E; [done..| |]; intros [= <- _]; [done|].
  eapply select_proper; [|exact E]; done.
Qed.

Lemma adapt_proper ow out w e w' : adapt_all true raw ow out w = (inr e, w') -> proper e.
Proof.
  revert w e w'. induction out as [|d out IH]; intros w e w'; cbn [adapt_all]; [done|].
  destruct (getDbData true raw d w) as [[o|y] v2] eqn:E; [|intros [= <- _]; exact (getDbData_proper _ _ _ _ E)].
  destruct (adapt_all true raw ow out v2) as [[[ds errs]|y] v3] eqn:E2; [|intros [= <- _]; exact (IH _ _ _ E2)].
  destruct o as [db|]; [destruct ow; [|destruct (verify d db)]|]; done.
Qed.

Lemma invalidate_proper s inv k w e w' : invalidatePreviousData true raw s inv k w = (inr e, w') -> proper e.
Proof.
  revert k w. induction inv as [|[[st ty] ot] inv IH]; intros k w; cbn [invalidatePreviousData]; [done|]. unfold select_data.
  destruct (select_rows _ _ _ _ _ _ w) as [[l|y] v2] eqn:E; [by apply IH|]. intros [= <- _]. eapply select_proper; [|exact E]; done.
Qed.

Lemma invalidate_text_proper s tb inv k w e w' : invalidatePreviousTextData true raw_text s tb inv k w = (inr e, w') -> proper e.
Proof.
  revert k w. induction inv as [|[[st ty] ot] inv IH]; intros k w; cbn [invalidatePreviousTextData]; [done|]. unfold select_text_data.
  destruct (select_rows _ _ _ _ _ _ w) as [[l|y] v2] eqn:E; [|intros [= <- _]; eapply select_proper; [|exact E]; done].
  destruct (invalidate_text_rows s tb ty l k) as [k1|y] eqn:E2; [by apply IH|]. intros [= <- _]. clear E IH. revert k E2.
  induction l as [|db l IHl]; intros k; cbn [invalidate_text_rows]; [done|]. destruct (_ && _); [|apply IHl].
  destruct (overwrite_ k); [apply IHl|by intros [= <-]].
Qed.

Lemma message_lists_proper k w e w' : message_lists true raw raw_text k w = (inr e, w') -> proper e.
Proof.
  unfold message_lists, verifyAndAdapt. destruct (checked_ k); [done|].
  assert (Hi : forall e w', invalidatePrevious true raw raw_text (tbtime k) (kv_data k) w = (inr e, w') -> proper e).
  { intros e1 w1. unfold invalidatePrevious. case_bool_decide; [done|].
    destruct (invalidatePreviousData _ _ _ _ _ w) as [[kd|y] w2] eqn:E; [apply invalidate_text_proper|].
    intros [= <- _]. exact (invalidate_proper _ _ _ _ _ _ E). }
  destruct (invalidatePrevious _ _ _ _ _ w) as [[kd|y] w1] eqn:E; [|intros [= <- _]; exact (Hi _ _ eq_refl)].
  destruct (adapt_all _ _ _ _ w1) as [[[ds [|e1 l]]|y] w2] eqn:E2; [done|by intros [= <- _]|].
  intros [= <- _]. exact (adapt_proper _ _ _ _ _ E2).
Qed.

Lemma save2_proper container checked infos d w e d' w' :
  save2_infos true fuel container checked infos d w = Some (inr e, (d', w')) -> proper e.
Proof.
  revert d w. induction infos as [|[st ty] infos IH]; intros d w; cbn [save2_infos]; [done|].
  destruct (getBy _ _ _ _ _) as [m [dt td]].
  assert (H1 : forall td d w e d' w', save2_data true fuel st ty checked dt td d w = Some (inr e, (d', w')) -> proper e).
  { induction dt as [|[t l] dt IHd]; intros td1 d1 w1 e1 d2 w2; cbn [save2_data]; [done|].
    destruct (addDataToDbThrow _ _ _ _ _ _ _ _ _ _ _ _ _ _) as [[[[]|f] [d3 w3]]|]; [apply IHd|..|done]; intros [= <- _ _]; [done|].
    by destruct f. }
  assert (H2 : forall td d w e d' w', save2_texts true fuel st ty checked td d w = Some (inr e, (d', w')) -> proper e).
  { induction td0 as [|[t l] td0 IHd]; intros d1 w1 e1 d2 w2; cbn [save2_texts]; [done|].
    destruct (addDataToDb _ _ _ _ _ _ _ _ _ _ _ _ _ _) as [[[[]|f] [d3 w3]]|]; [apply IHd|..|done]; by intros [= <- _ _]. }
  destruct (save2_data _ _ _ _ _ _ _ d w) as [[[td1|e1] [d1 w1]]|] eqn:E1; [|intros [= <- _ _]; exact (H1 _ _ _ _ _ _ E1)|done].
  destruct (save2_texts _ _ _ _ _ td1 d1 w1) as [[[[]|e2] [d2 w2]]|] eqn:E2; [apply IH|intros [= <- _ _]; exact (H2 _ _ _ _ _ _ E2)|done].
Qed.

Lemma markAsFixed_proper l w e w' : markAsFixed true l w = (inr e, w') -> proper e.
Proof.
  revert w. induction l as [|r l IH]; intros w; cbn [markAsFixed]; [done|]. destruct (_ && _); [by intros [= <- _]|].
  destruct (pg_exec _ _ _) as [[[]|[x| | |]] w1]; [apply IH|..]; by intros [= <- _].
Qed.

Definition answers_ok (r : DecodeResult * bytes + failure) : Prop := match r with inl (res, _) => res = Ok | inr _ => False end.

(** C3: What executing a message from another installation does to the tables of
    observations, for a message that could be read and a connection that is not
    lost. Nothing, and then the answer is not [Ok]; or what was accepted of the
    message is saved group by group, in order and each by one transaction, from the
    first group on; all groups when the answer is [Ok], and when an exception leaves
    some of the first. There is a group for each time of each station and type that
    has a value. Accepted is all of a message that needs no more checks. Of another
    one it is, beside what its invalidations add, each value: without a stored one
    as it is; with a stored one as it is when the message overwrites, and else only
    when their originals agree, with the stored original and time of arrival. *)
Theorem kv2kv_execute_saves (k k' : kv2kvDecoder PT) (w w' : W) (r : DecodeResult * bytes + failure) :
  parseResult_ k = Ok -> execute true fuel raw raw_text what k w = Some (r, (k', w')) -> ~ lost w' ->
  (~ answers_ok r /\ committed w' = committed w) \/
  exists kd dl tdl gss n, accepted k (committed w) kd dl tdl /\
    Forall2 (groups_of (KvalobsData_of dl tdl) (checked_ k)) (stationInfos (KvalobsData_of dl tdl)) gss /\
    saves_all (checked_ k) (base k) (take n (concat gss)) (committed w) (committed w') /\
    (answers_ok r -> n = length (concat gss)).
Proof.
  intros Hk E Hl. revert E. unfold execute. rewrite bool_decide_true by done. cbn [negb]. unfold try_execute.
  pose proof (message_lists_spec k w) as Hm. pose proof (message_lists_proper k w) as Hp.
  destruct (message_lists true raw raw_text k w) as [[[kd [dl tdl]]|e] w1].
  2:{ destruct e as [res why|f].
      - intros [Hr E]%rejected_result. left. apply unless_lasts in Hr as [-> Hl1]; [|done].
        apply unless_lasts in Hm as [[Hc _] _]; [|done]. split; [|done]. destruct r as [[res' m]|]; [|by intros []]. cbn in *. subst res'.
        intros ->. by apply (Hp _ _ eq_refl why).
      - intros [= <- <- <-]. left. apply unless_lasts in Hm as [[Hc _] _]; [|done]. split; [by intros []|done]. }
  unfold save2. set (K := KvalobsData_of dl tdl). pose proof (save2_proper K (checked_ k) (stationInfos K) (base k) w1) as Hq.
  cbn [set_kv_data checked_ base] in *.
  destruct (save2_infos true fuel K (checked_ k) (stationInfos K) (base k) w1) as [[r1 [b w2]]|] eqn:Es; [|done].
  apply save2_infos_spec in Es.
  intros E. right. exists kd, dl, tdl.
  assert (Hend : keeps w2 w' /\ (answers_ok r -> is_inl r1 = true)).
  { destruct r1 as [[]|e].
    - pose proof (markAsFixed_keeps (correctedMessages_ kd) w2) as Hf. split; [|done].
      destruct (markAsFixed true (correctedMessages_ kd) w2) as [[[]|[res why|f]] w3]; cbn [snd] in Hf;
        [by injection E as <- <- <-| |by injection E as <- <- <-].
      apply rejected_result in E as [E _]. by etransitivity.
    - destruct e as [res why|f]; [|by injection E as <- <- <-]. apply rejected_result in E as [E Hr]. split; [exact E|].
      destruct r as [[res' m]|]; [|done]. cbn in *. subst res'. intros ->. by destruct (Hq _ _ _ eq_refl why). }
  destruct Hend as [Hk2 Hr]. apply unless_lasts in Hk2 as [Hc2 Hl2]; [|done]. apply unless_lasts in Es as [[_ (gss & Hg & n & Hs & Hn)] Hl1]; [|done].
  apply unless_lasts in Hm as [[Hc Hm] _]; [|done]. exists gss, n. rewrite Hc2. rewrite Hc in Hs. split_and!; [done..|].
  intros Ho. rewrite (Hr Ho) in Hn. exact Hn.
Qed.

End saves.

(** ** Properties: reading a message *)

Section reading.
  Context {PT : PTime} {PL : PTimeLaws PT} {PC : PCalendar PT} {PS : PTimeShow PT} {DT : DbText PT} {BT : BoostText} {BTL : BoostTextLaws BT}
          {TT : PTimeText PT} {BF : BoostFloat} {BS : BoostShow} {SD : StreamDouble} {XR : XmlReader}.

(** A decoder for the document that an object was written as, in any layout,
    starts with that object: its values, its texts at times with values, its
    invalidations, its corrected messages, and whether it overwrites. *)
Theorem kv2kv_reads_document (now0 now : ptime PT) (d : KvalobsData PT) (n : node) (defaultProducer : string) (b : DecoderBase PT)
    (evs : list event) (c : bool) :
  writable d -> time_text_ok (created_of now0 d) -> serialize defaultProducer now0 d = Some n ->
  xml_read (obs b) = (evs, true) -> sax n evs -> setChecked b = Some c ->
  exists kd, kv2kvDecoder_new b now = inl {| base := b; kv_data := kd; parseResult_ := Ok; parseMessage_ := to_bytes "Ok";
                                             tbtime := now; checked_ := c |} /\
    same_object now0 d kd.
Proof.
  intros HW Hc Hn Hx Hev Hb. destruct (read_document now0 d n defaultProducer HW Hc Hn evs Hev) as (kd & E & Hd).
  exists kd. split; [|done]. unfold kv2kvDecoder_new, parse_obs. by rewrite Hb, Hx, E.
Qed.

(** A text that is no document, but the lines that another decoder wrote. *)
Lemma kv2kv_reads_lines (now : ptime PT) (dl : list (kvData PT)) (b : DecoderBase PT) (evs : list event) (c : bool) :
  Forall printable dl -> createString_list dl = Some (obs b) -> xml_read (obs b) = (evs, false) ->
  parse evs KvalobsData_new <> inr stack_underflow -> setChecked b = Some c ->
  kv2kvDecoder_new b now = inl {| base := b; kv_data := KvalobsData_of (shown <$> dl) []; parseResult_ := Ok;
                                  parseMessage_ := to_bytes "Ok"; tbtime := now; checked_ := c |}.
Proof.
  intros Hd Hs Hx Hp Hb.
  assert (E : parse_csv (obs b) = inl (foldl (fun k d => insert d k) KvalobsData_new (shown <$> dl))).
  { destruct (createString_all dl Hd) as (ls & E & Hls & Hl). destruct (getKvData_lines ls dl Hls Hl) as [H _].
    unfold createString_list in Hs. rewrite E in Hs. injection Hs as Hs. unfold parse_csv. by rewrite <- Hs, H. }
  unfold kv2kvDecoder_new, parse_obs. rewrite Hb, Hx.
  destruct (parse evs KvalobsData_new) as [d|[]]; by rewrite ?E.
Qed.

End reading.

(** ** Properties: texts without values, and the end of the loops *)

Section ends.
  Context {PT : PTime} {PL : PTimeLaws PT} {PC : PCalendar PT} {PS : PTimeShow PT} {DT : DbText PT} {BT : BoostText} {TT : PTimeText PT}
          {BF : BoostFloat} {SD : StreamDouble} {XR : XmlReader}.
  Context {W : Type} {PQ : Libpq W} {DS : DbServer PT W}.

(** An object of texts has no values, so no station is visited: nothing is saved. *)
Lemma texts_have_no_station (tdl : list (kvTextData PT)) : Forall (fun x => time_key (tx_obstime_ x)) tdl ->
  stationInfos (KvalobsData_of [] tdl) = [].
Proof.
  intros Ht. set (K := KvalobsData_of [] tdl).
  assert (EK : K = foldl add_item KvalobsData_new (Txt <$> tdl)) by (unfold K, KvalobsData_of; by rewrite foldl_fmap).
  assert (Hl : Forall item_time (Txt <$> tdl)) by (by apply Forall_fmap).
  assert (E : obs_items false not_a_date_time (obs_ K) = []).
  { apply elem_of_nil_inv. intros d Hd. apply obs_items_elem in Hd as (H1 & H2 & H3).
    2:{ rewrite EK. apply add_items_wf; [done|]. apply c_wf_nil. }
    assert (En : omap get_val (Txt <$> tdl) = []) by (by apply omap_nothing).
    rewrite EK, add_items_values in H3; rewrite ?En in *; try done. }
  unfold stationInfos, data. by rewrite E.
Qed.

(** A message with texts and no values is accepted, and none of them is saved. *)
Lemma save2_texts_only (fuel : nat) (checked : bool) (tdl : list (kvTextData PT)) (d : DecoderBase PT) (w : W) :
  Forall (fun x => time_key (tx_obstime_ x)) tdl -> save2 true fuel checked [] tdl d w = Some (inl tt, (d, w)).
Proof. intros Ht. unfold save2. by rewrite texts_have_no_station. Qed.

Context (left_ : W -> nat) {SB : SerializationBudget true (update_transaction (DT := DT)) REPEATABLE_READ left_}.

Lemma save2_data_settles st ty checked dt td d w : settles (fun fuel => save2_data true fuel st ty checked dt td d w).
Proof.
  revert td d w. induction dt as [|[t l] dt IH]; intros td d w; cbn [save2_data]; [apply settles_some|].
  settle_call (addDataToDbThrow_settles left_ t st ty l (default [] (c_find ptime_lt t td)) (logid_of st ty) DbUpdate (negb checked)
    checked false d w). intros [[[]|e] [d1 w1]]; [apply IH|apply settles_some..].
Qed.

Lemma save2_texts_settles st ty checked td d w : settles (fun fuel => save2_texts true fuel st ty checked td d w).
Proof.
  revert d w. induction td as [|[t l] td IH]; intros d w; cbn [save2_texts]; [apply settles_some|]. unfold addDataToDb.
  settle_call (addDataToDbThrow_settles left_ t st ty [] l (logid_of st ty) DbUpdate (negb checked) checked false d w).
  intros [[[]|[]] [d1 w1]]; [apply IH|apply settles_some..].
Qed.

Lemma save2_infos_settles K checked infos d w : settles (fun fuel => save2_infos true fuel K checked infos d w).
Proof.
  revert d w. induction infos as [|[st ty] infos IH]; intros d w; cbn [save2_infos]; [apply settles_some|].
  destruct (getBy _ _ _ _ _) as [m [dt td]]. settle_call (save2_data_settles st ty checked dt td d w).
  intros [[td1|e] [d1 w1]]; [|apply settles_some]. settle_call (save2_texts_settles st ty checked td1 d1 w1).
  intros [[[]|e] [d2 w2]]; [apply IH|apply settles_some].
Qed.

(** Every message is dealt with, when the serialization errors of each transaction
    end. *)
Lemma kv2kv_execute_settles raw raw_text what k w : settles (fun fuel => execute true fuel raw raw_text what k w).
Proof.
  unfold execute, try_execute.
  assert (Hr : forall k w, settles (fun _ => match saveInRejectDecode true k w with
    | (inl _, w) => Some (inl (parseResult_ k, parseMessage_ k), (k, w)) | (inr e, w) => Some (@inr _ failure e, (k, w)) end)).
  { intros k1 w1. destruct (saveInRejectDecode true k1 w1) as [[]]; apply settles_some. }
  destruct (negb _); [apply Hr|]. destruct (message_lists _ _ _ k w) as [[[kd [dl tdl]]|[res why|e]] w1]; [|apply Hr|apply settles_some].
  unfold save2. settle_call (save2_infos_settles (KvalobsData_of dl tdl) (checked_ (set_kv_data kd k)) (stationInfos (KvalobsData_of dl tdl))
    (base (set_kv_data kd k)) w1). intros [[[]|[res why|e]] [b w2]]; [|apply Hr|apply settles_some].
  destruct (markAsFixed true _ w2) as [[[]|[res why|e]] w3]; [apply settles_some|apply Hr|apply settles_some].
Qed.

End ends.

(** ** A concrete run *)

#[export] Instance table_separate : SeparateTables table_pq sv_committed.
Proof. split; done. Qed.

Definition kv_sample (org cor : spec_float) (tb : stamp) : kvData stamp_time :=
  kvData_set (PT := stamp_time) 18700 (stamp_of 2024 1 1 6 0 0) org 211 tb 501 0 0 cor {| ci_base := legal_flags |} {| ui_base := legal_flags |} "".

(** A server with a value, and what it answers when it is asked for it. *)
Definition half (n : Z) : spec_float := Dbl.lit n 2.
Definition stored_server : table_server :=
  match addDataToDbThrow (DT := stamp_text) (PQ := table_pq) (DS := table_db) true 21 (stamp_of 2024 1 1 6 0 0) 18700 501
          [kv_sample (half 25) (half 25) (stamp_of 2024 1 1 6 1 0)] [] "log" DbInsert true true false sample_decoder (new_server []) with
  | Some (_, (_, w)) =>
      {| sv_committed := sv_committed w; sv_view := sv_view w; sv_aborts := sv_aborts w; sv_lost := sv_lost w;
         sv_rows := [["18700"; "2024-01-01 06:00:00"; "12.5"; "211"; "2024-01-01 06:01:00"; "501"; "0"; "0"; "12.5";
                      "1111111111111111"; "1111111111111111"; ""]] |}
  | None => new_server []
  end.

Definition kv_message (org : spec_float) : kv2kvDecoder stamp_time :=
  {| base := sample_decoder; kv_data := KvalobsData_of [kv_sample org (half 27) NaDT] []; parseResult_ := Ok; parseMessage_ := to_bytes "Ok";
     tbtime := stamp_of 2024 1 2 0 0 0; checked_ := false |}.

Definition sample_raw : kvData stamp_time := kvData_clean (NaDT : ptime stamp_time).
Definition sample_raw_text : kvTextData stamp_time := kvTextData_set (PT := stamp_time) 0 NaDT "" 0 NaDT 0.
Definition sample_texts (why : reason stamp_time) : bytes := to_bytes "not saved".

Abbreviation kv_execute k w :=
  (execute (DT := stamp_text) (BT := boost_text) (PQ := table_pq) (DS := table_db) true 21 sample_raw sample_raw_text sample_texts k w).

Definition stored_values (w : table_server) : list (spec_float * spec_float) := (fun r => (d_original r, d_corrected r)) <$> obsdata (sv_committed w).

Lemma kv2kv_execute_saves_witness : exists k' w',
  kv_execute (kv_message (Dbl.lit 1245 100)) stored_server = Some (inl (Ok, to_bytes "Ok"), (k', w')) /\
  stored_values w' = [(half 25, half 27)] /\
  exists gss, concat gss <> [] /\
    saves_all (DT := stamp_text) false sample_decoder (concat gss) (sv_committed stored_server) (sv_committed w').
Proof.
  pose proof (fun k' w' => kv2kv_execute_saves (DT := stamp_text) (BT := boost_text) (PQ := table_pq) (DS := table_db) sv_committed sv_view
    (fun w => sv_lost w = true) 21
    sample_raw sample_raw_text sample_texts (kv_message (Dbl.lit 1245 100)) k' stored_server w' (inl (Ok, to_bytes "Ok")) eq_refl) as H.
  assert (Hw : match kv_execute (kv_message (Dbl.lit 1245 100)) stored_server with
    | Some (inl (r, m), (_, w')) => r = Ok /\ m = to_bytes "Ok" /\ sv_lost w' = false /\ stored_values w' = [(half 25, half 27)]
    | _ => False
    end) by (by vm_compute).
  destruct (execute _ _ _ _ _ _ _) as [[[[r m]|e] [k' w']]|] eqn:E; [|destruct Hw..].
  destruct Hw as (-> & -> & Hl & Hs). exists k', w'. split; [done|]. split; [exact Hs|].
  destruct (H _ _ eq_refl ltac:(congruence)) as [[[] _]|(kd & dl & tdl & gss & n & Ha & Hg & Hsv & Hn)]; [done|]. exists gss.
  rewrite (Hn eq_refl), firstn_all in Hsv. split; [|exact Hsv]. intros E0. rewrite E0 in Hsv. apply saves_all_nil in Hsv.
  assert (Hd : stored_values stored_server <> [(half 25, half 27)]) by by_decision.
  apply Hd. rewrite <- Hs. unfold stored_values. by rewrite Hsv.
Defined.

(** The document of an object, as a reader may meet it: no blanks between elements
    and each text at once. *)
Fixpoint read_node (n : node) : list event :=
  match n with
  | Element name attributes children => Start name attributes :: (children ≫= read_node) ++ [End_ name]
  | Characters_of t => if bool_decide (t = []) then [] else [Characters t]
  end.

Lemma read_node_sax n : sax n (read_node n).
Proof.
  induction n as [name attributes children IH|t] using node_induction; cbn [read_node].
  - constructor. generalize (forallb is_element children) as b. intros b. induction IH as [|n l Hn Hl IHl]; [by constructor|].
    rewrite bind_cons. by apply (sax_cons b n l [] (read_node n)).
  - destruct t as [|c t]; [by apply (sax_text [] []); [|constructor|cbn; lia]|].
    rewrite bool_decide_false by done. apply (sax_text (c :: t) [c :: t]); [by rewrite concat_cons, app_nil_r|by repeat constructor|done].
Qed.

Definition sample_document : list event :=
  from_option read_node [] (serialize (SD := whole_show) "" (At 86400 : ptime stamp_time) sample_object).

Definition sample_reader : XmlReader := {| xml_read _ := (sample_document, true) |}.

Lemma kv2kv_reads_document_witness :
  exists kd, kv2kvDecoder_new (BT := boost_text) (BF := whole_float) (SD := whole_stream) (XR := sample_reader)
      (DecoderBase_new [] [] (to_bytes "kv2kv/checked=true") []) (At 0 : ptime stamp_time) =
    inl {| base := DecoderBase_new [] [] (to_bytes "kv2kv/checked=true") []; kv_data := kd; parseResult_ := Ok;
           parseMessage_ := to_bytes "Ok"; tbtime := At 0; checked_ := true |} /\
    value_at (PT := stamp_time) 18700 501 (At 3600) (At 3720) 0 0 211 (obs_ kd) =
      Some (DataContent_of (sample_value 501 0 211 12 (At 3600) (At 3720))).
Proof.
  destruct (serialize (SD := whole_show) "" (At 86400 : ptime stamp_time) sample_object) as [n|] eqn:En; [|vm_compute in En; discriminate].
  destruct (kv2kv_reads_document (BT := boost_text) (BF := whole_float) (BS := whole_show) (SD := whole_stream) (XR := sample_reader)
    (At 86400 : ptime stamp_time) (At 0) sample_object n "" (DecoderBase_new [] [] (to_bytes "kv2kv/checked=true") []) sample_document true
    sample_writable ltac:(by_decision) En eq_refl ltac:(unfold sample_document; rewrite En; apply read_node_sax) ltac:(by vm_compute))
    as (kd & E & Hd).
  exists kd. split; [exact E|]. destruct Hd as (_ & _ & _ & _ & _ & _ & Hv & _).
  rewrite (Hv 18700 501 (At 3600) (At 3720) 0 0 211) by done. by vm_compute.
Defined.
