(* ===== verification/Lexer.v ===== *)
(** * Regular expressions and scanning by the longest match

    What a scanner that flex makes of a list of rules does: at every place the
    rule with the longest match is taken, among several the first one of the file;
    a character that no rule matches is passed over. [matches] is the language of
    an expression, [longest] finds the longest match with derivatives. *)

From S2P Require Import Prelude Text.

#[local] Open Scope Z_scope.

(** A class of characters: those listed, or those that are not. *)
Inductive class := OneOf (cs : bytes) | NoneOf (cs : bytes).
Definition in_class (k : class) (c : ascii) : bool :=
  match k with OneOf cs => bool_decide (c ∈ cs) | NoneOf cs => bool_decide (c ∉ cs) end.

Inductive re :=
  | Void
  | Eps
  | Chr (k : class)
  | Cat (r1 r2 : re)
  | Alt (r1 r2 : re)
  | Star (r : re).

Inductive matches : re -> bytes -> Prop :=
  | m_eps : matches Eps []
  | m_chr k c : in_class k c = true -> matches (Chr k) [c]
  | m_cat r1 r2 s1 s2 : matches r1 s1 -> matches r2 s2 -> matches (Cat r1 r2) (s1 ++ s2)
  | m_alt1 r1 r2 s : matches r1 s -> matches (Alt r1 r2) s
  | m_alt2 r1 r2 s : matches r2 s -> matches (Alt r1 r2) s
  | m_star0 r : matches (Star r) []
  | m_star r s1 s2 : matches r s1 -> matches (Star r) s2 -> matches (Star r) (s1 ++ s2).

(** The forms of the rule files: a text, [k+], [k{n}]. *)
Definition lit (t : bytes) : re := foldr (fun c r => Cat (Chr (OneOf [c])) r) Eps t.
Definition plus (k : class) : re := Cat (Chr k) (Star (Chr k)).
Definition times (n : nat) (k : class) : re := Nat.iter n (Cat (Chr k)) Eps.

(** ** Derivatives *)

Fixpoint nullable (r : re) : bool :=
  match r with
  | Void | Chr _ => false
  | Eps | Star _ => true
  | Cat r1 r2 => nullable r1 && nullable r2
  | Alt r1 r2 => nullable r1 || nullable r2
  end.

Definition cat (r1 r2 : re) : re :=
  match r1, r2 with
  | Void, _ | _, Void => Void
  | Eps, r => r
  | _, _ => Cat r1 r2
  end.
Definition alt (r1 r2 : re) : re :=
  match r1, r2 with
  | Void, r | r, Void => r
  | _, _ => Alt r1 r2
  end.

Fixpoint deriv (c : ascii) (r : re) : re :=
  match r with
  | Void | Eps => Void
  | Chr k => if in_class k c then Eps else Void
  | Cat r1 r2 => if nullable r1 then alt (cat (deriv c r1) r2) (deriv c r2) else cat (deriv c r1) r2
  | Alt r1 r2 => alt (deriv c r1) (deriv c r2)
  | Star r => cat (deriv c r) (Star r)
  end.

(** The length of the longest prefix of a text that an expression matches. *)
Fixpoint longest (r : re) (s : bytes) : option nat :=
  match r, s with
  | Void, _ => None
  | _, [] => if nullable r then Some O else None
  | _, c :: s =>
      match longest (deriv c r) s with
      | Some n => Some (S n)
      | None => if nullable r then Some O else None
      end
  end.

(** ** Scanning *)

Section scan.
Context {A : Type}.
Implicit Types rules : list (re * A).

(** The action of the rule that is taken, with the length of its match. *)
Fixpoint select rules (s : bytes) : option (A * nat) :=
  match rules with
  | [] => None
  | (r, a) :: rules =>
      match longest r s, select rules s with
      | Some n, Some (b, m) => if (m <=? n)%nat then Some (a, n) else Some (b, m)
      | Some n, None => Some (a, n)
      | None, r => r
      end
  end.

Fixpoint scan (fuel : nat) rules (s : bytes) : list (A * bytes) :=
  match fuel, s with
  | O, _ | _, [] => []
  | S fuel, c :: r =>
      match select rules s with
      | Some (a, S n) => (a, take (S n) s) :: scan fuel rules (drop (S n) s)
      | Some (_, O) | None => scan fuel rules r
      end
  end.
Definition lex rules (s : bytes) : list (A * bytes) := scan (length s) rules s.
End scan.

(** ** The language of an expression *)

Create HintDb regexp.
#[export] Hint Constructors matches : regexp.

Lemma matches_void s : ~ matches Void s.
Proof. inversion 1. Qed.

Lemma matches_eps s : matches Eps s <-> s = [].
Proof. split; [by inversion 1|intros ->; constructor]. Qed.

Lemma matches_chr k s : matches (Chr k) s <-> exists c, s = [c] /\ in_class k c = true.
Proof. split; [inversion 1; eauto|intros (c & -> & H); by constructor]. Qed.

Lemma matches_cat r1 r2 s : matches (Cat r1 r2) s <-> exists s1 s2, s = s1 ++ s2 /\ matches r1 s1 /\ matches r2 s2.
Proof. split; [inversion 1; eauto 6|intros (s1 & s2 & -> & ? & ?); by constructor]. Qed.

Lemma matches_alt r1 r2 s : matches (Alt r1 r2) s <-> matches r1 s \/ matches r2 s.
Proof. split; [inversion 1; auto|intros [?|?]; auto with regexp]. Qed.

Lemma matches_star r s : matches (Star r) s <-> s = [] \/ exists s1 s2, s = s1 ++ s2 /\ matches r s1 /\ matches (Star r) s2.
Proof. split; [inversion 1; eauto 7|intros [->|(s1 & s2 & -> & ? & ?)]; auto with regexp]. Qed.

Lemma matches_star_chr k s : matches (Star (Chr k)) s <-> Forall (fun c => in_class k c = true) s.
Proof.
  split.
  - remember (Star (Chr k)) as r eqn:E. induction 1; simplify_eq; [constructor|].
    apply matches_chr in H as (c & -> & Hc). constructor; auto.
  - induction 1 as [|c s Hc _ IH]; [constructor|]. apply (m_star _ [c]); [by constructor|done].
Qed.

Lemma matches_plus k s : matches (plus k) s <-> s <> [] /\ Forall (fun c => in_class k c = true) s.
Proof.
  unfold plus. rewrite matches_cat. setoid_rewrite matches_chr. setoid_rewrite matches_star_chr. split.
  - intros (s1 & s2 & -> & (c & -> & Hc) & H2). by split; [|constructor].
  - intros [Hne H]. destruct H as [|c s Hc H]; [done|]. exists [c], s. eauto.
Qed.

Lemma matches_lit t s : matches (lit t) s <-> s = t.
Proof.
  revert s. induction t as [|c t IH]; intros s; simpl; [apply matches_eps|]. rewrite matches_cat. split.
  - intros (s1 & s2 & -> & (d & -> & Hd)%matches_chr & ->%IH). simpl in Hd. apply bool_decide_eq_true in Hd.
    by apply list_elem_of_singleton in Hd as ->.
  - intros ->. exists [c], t. split_and!; [done| |by apply IH]. constructor. apply bool_decide_eq_true. by apply list_elem_of_singleton.
Qed.

Lemma matches_times n k s : matches (times n k) s <-> length s = n /\ Forall (fun c => in_class k c = true) s.
Proof.
  revert s. induction n as [|n IH]; intros s; unfold times; simpl; [|fold (times n k)].
  - rewrite matches_eps. split; [by intros ->|by intros [->%nil_length_inv _]].
  - rewrite matches_cat. split.
    + intros (s1 & s2 & -> & (c & -> & Hc)%matches_chr & [Hl H]%IH). split; [simpl; lia|by constructor].
    + intros [Hl H]. destruct H as [|c s Hc H]; [done|]. exists [c], s. split; [done|].
      split; [by constructor|apply IH; by split; [simpl in Hl; lia|]].
Qed.

(** ** Derivatives are residuals *)

Lemma nullable_spec r : nullable r = true <-> matches r [].
Proof.
  induction r; simpl.
  - split; [done|]. by intros ?%matches_void.
  - by rewrite matches_eps.
  - rewrite matches_chr. split; [done|]. by intros (c & ? & _).
  - rewrite andb_true_iff, IHr1, IHr2, matches_cat. split.
    + intros [? ?]. by exists [], [].
    + intros (s1 & s2 & [-> ->]%eq_sym%app_nil & ? & ?). done.
  - by rewrite orb_true_iff, IHr1, IHr2, matches_alt.
  - split; [constructor|done].
Qed.

Lemma matches_cat_smart r1 r2 s : matches (cat r1 r2) s <-> matches (Cat r1 r2) s.
Proof.
  rewrite matches_cat. assert (V : forall r s, matches (Cat Void r) s \/ matches (Cat r Void) s <-> False).
  { intros r s'. split; [|done]. rewrite !matches_cat. intros [(? & ? & _ & H & _)|(? & ? & _ & _ & H)]; by apply matches_void in H. }
  assert (E : forall r, matches r s <-> exists s1 s2, s = s1 ++ s2 /\ matches Eps s1 /\ matches r s2).
  { intros r. setoid_rewrite matches_eps. split; [intros; by exists [], s|by intros (? & ? & -> & -> & ?)]. }
  assert (N : matches Void s <-> exists s1 s2, s = s1 ++ s2 /\ matches Void s1 /\ matches r2 s2).
  { split; [by intros ?%matches_void|]. intros (? & ? & _ & ?%matches_void & _). done. }
  assert (N2 : matches Void s <-> exists s1 s2, s = s1 ++ s2 /\ matches r1 s1 /\ matches Void s2).
  { split; [by intros ?%matches_void|]. intros (? & ? & _ & _ & ?%matches_void). done. }
  destruct r1, r2; simpl; try exact N; try exact N2; try apply E; by rewrite matches_cat.
Qed.

Lemma matches_alt_smart r1 r2 s : matches (alt r1 r2) s <-> matches (Alt r1 r2) s.
Proof.
  rewrite matches_alt. destruct r1, r2; simpl; rewrite ?matches_alt; try done;
    (split; [tauto|intros [?|?]; [|done] || intros [?|?]]); try done; by (exfalso; eapply matches_void).
Qed.

Lemma deriv_spec c r s : matches (deriv c r) s <-> matches r (c :: s).
Proof.
  revert s. induction r; intros s; simpl.
  - split; by intros ?%matches_void.
  - split; [by intros ?%matches_void|by intros ?%matches_eps].
  - rewrite matches_chr. destruct (in_class k c) eqn:E.
    + rewrite matches_eps. split; [intros ->; eauto|]. by intros (d & [= -> ->] & _).
    + split; [by intros ?%matches_void|]. by intros (d & [= -> ->] & ?); congruence.
  - rewrite matches_cat. destruct (nullable r1) eqn:E.
    + rewrite matches_alt_smart, matches_alt, matches_cat_smart, matches_cat. setoid_rewrite IHr1. rewrite IHr2. split.
      * intros [(s1 & s2 & -> & ? & ?)|?]; [by exists (c :: s1), s2|]. exists [], (c :: s). apply nullable_spec in E. done.
      * intros ([|d s1] & s2 & Es & H1 & H2); simpl in Es; simplify_eq; [by right|left; eauto].
    + rewrite matches_cat_smart, matches_cat. setoid_rewrite IHr1. split.
      * intros (s1 & s2 & -> & ? & ?). by exists (c :: s1), s2.
      * intros ([|d s1] & s2 & Es & H1 & H2); simpl in Es; simplify_eq; [|eauto].
        apply nullable_spec in H1. congruence.
  - by rewrite matches_alt_smart, !matches_alt, IHr1, IHr2.
  - rewrite matches_cat_smart, matches_cat. setoid_rewrite IHr. split.
    + intros (s1 & s2 & -> & ? & ?). by apply (m_star r (c :: s1)).
    + remember (Star r) as r' eqn:Er. remember (c :: s) as t eqn:Et. intros H. revert s Et.
      induction H; intros t Et; simplify_eq. destruct s1 as [|d s1]; simpl in Et; simplify_eq; [by apply IHmatches2|].
      by exists s1, s2.
Qed.

(** [longest] gives the longest match, and finds one when there is one. *)
Lemma longest_eq r c s : longest r (c :: s) =
  match longest (deriv c r) s with Some n => Some (S n) | None => if nullable r then Some O else None end.
Proof. destruct r; try done. by destruct s. Qed.

Lemma longest_nil r : longest r [] = if nullable r then Some O else None.
Proof. by destruct r. Qed.

Lemma longest_none r s : longest r s = None -> forall m, ~ matches r (take m s).
Proof.
  revert r. induction s as [|c s IH]; intros r; [rewrite longest_nil|rewrite longest_eq].
  - destruct (nullable r) eqn:E; [done|]. intros _ m H. rewrite take_nil in H. apply nullable_spec in H. congruence.
  - destruct (longest (deriv c r) s) eqn:E; [done|]. destruct (nullable r) eqn:Er; [done|]. intros _ [|m]; simpl.
    + intros H. apply nullable_spec in H. congruence.
    + rewrite <- deriv_spec. by apply IH.
Qed.

Lemma longest_some r s n : longest r s = Some n ->
  (n <= length s)%nat /\ matches r (take n s) /\ forall m, (n < m <= length s)%nat -> ~ matches r (take m s).
Proof.
  revert r n. induction s as [|c s IH]; intros r n.
  - rewrite longest_nil. destruct (nullable r) eqn:E; [|done]. intros [= <-]. simpl. split; [lia|].
    split; [by apply nullable_spec|lia].
  - rewrite longest_eq. destruct (longest (deriv c r) s) as [k|] eqn:E.
    + intros [= <-]. destruct (IH _ _ E) as (Hk & Hm & Hmax). simpl. split; [lia|].
      split; [by apply deriv_spec|]. intros [|m] Hlm; [lia|]. simpl. rewrite <- deriv_spec. apply Hmax. simpl in Hlm. lia.
    + destruct (nullable r) eqn:Er; [|done]. intros [= <-]. split; [lia|]. split; [by apply nullable_spec|].
      intros [|m] Hlm; [lia|]. simpl. rewrite <- deriv_spec. by apply longest_none.
Qed.

Lemma longest_complete r s n : (n <= length s)%nat -> matches r (take n s) -> exists k, longest r s = Some k /\ (n <= k)%nat.
Proof.
  intros Hn Hm. destruct (longest r s) as [k|] eqn:E; [|by apply longest_none with (m := n) in E].
  exists k. split; [done|]. apply longest_some in E as (_ & _ & H). destruct (decide (k < n)%nat) as [?|]; [|lia].
  by destruct (H n ltac:(lia)).
Qed.

(** ** What the scanner takes *)

Section scan_lemmas.
Context {A : Type}.
Implicit Types rules : list (re * A).

Lemma select_some rules s a n : select rules s = Some (a, n) ->
  exists r, (r, a) ∈ rules /\ longest r s = Some n /\
    forall r' a' m, (r', a') ∈ rules -> longest r' s = Some m -> (m <= n)%nat.
Proof.
  revert a n. induction rules as [|[r b] rules IH]; intros a n; simpl; [done|].
  assert (N : forall r' a' m, select rules s = None -> (r', a') ∈ rules -> longest r' s <> Some m).
  { clear. induction rules as [|[r b] rules IH]; simpl; intros r' a' m; [by intros _ ?%not_elem_of_nil|].
    destruct (longest r s) eqn:E; [destruct (select rules s) as [[? ?]|]; [by case_match|done]|].
    intros H [[= -> ->]|Hi]%elem_of_cons; [by rewrite E|by eapply IH]. }
  destruct (longest r s) as [k|] eqn:E; [destruct (select rules s) as [[c m]|] eqn:Es; [destruct (m <=? k)%nat eqn:El|]|].
  - intros [= <- <-]. apply Nat.leb_le in El. exists r. split; [by left|]. split; [done|].
    intros r' a' m' [[= -> ->]|Hi]%elem_of_cons Hl; [by simplify_eq|].
    destruct (IH _ _ eq_refl) as (_ & _ & _ & H). specialize (H _ _ _ Hi Hl). lia.
  - intros [= <- <-]. apply Nat.leb_gt in El. destruct (IH _ _ eq_refl) as (r' & Hi & Hl & H). exists r'.
    split; [by right|]. split; [done|]. intros r'' a'' m' [[= -> ->]|Hi']%elem_of_cons Hl'; [simplify_eq; lia|by eapply H].
  - intros [= <- <-]. exists r. split; [by left|]. split; [done|].
    intros r' a' m' [[= -> ->]|Hi]%elem_of_cons Hl; [by simplify_eq|]. by apply N with (1 := eq_refl) (2 := Hi) in Hl.
  - intros H. destruct (IH _ _ H) as (r' & Hi & Hl & Hm). exists r'. split; [by right|]. split; [done|].
    intros r'' a'' m' [[= -> ->]|Hi']%elem_of_cons Hl'; [congruence|by eapply Hm].
Qed.

Lemma select_ge rules s r a n : (r, a) ∈ rules -> longest r s = Some n -> exists b m, select rules s = Some (b, m) /\ (n <= m)%nat.
Proof.
  intros Hi Hl. destruct (select rules s) as [[b m]|] eqn:E.
  - exists b, m. split; [done|]. destruct (select_some _ _ _ _ E) as (_ & _ & _ & H). by eapply H.
  - exfalso. induction rules as [|[r' b] rules IH]; simpl in *; [by apply not_elem_of_nil in Hi|].
    destruct (longest r' s) eqn:E'; [destruct (select rules s) as [[? ?]|]; [by case_match|done]|].
    apply elem_of_cons in Hi as [[= -> ->]|Hi]; [congruence|by apply IH].
Qed.

(** The rule that is taken: one that matches [n] characters, when no rule matches
    more and no rule before it matches as many. *)
Lemma select_intro rules1 r a rules2 s n :
  (n <= length s)%nat -> matches r (take n s) ->
  Forall (fun ra => forall m, (n < m <= length s)%nat -> ~ matches ra.1 (take m s)) (rules1 ++ (r, a) :: rules2) ->
  Forall (fun ra => ~ matches ra.1 (take n s)) rules1 ->
  select (rules1 ++ (r, a) :: rules2) s = Some (a, n).
Proof.
  intros Hn Hm Hmax. assert (L : forall r' a', (r', a') ∈ rules1 ++ (r, a) :: rules2 -> forall k, longest r' s = Some k -> (k <= n)%nat).
  { intros r' a' Hi k Hk. rewrite Forall_forall in Hmax. apply longest_some in Hk as (? & Hk & _).
    destruct (decide (n < k)%nat); [|lia]. by destruct (Hmax _ Hi k ltac:(lia)). }
  assert (Er : longest r s = Some n).
  { destruct (longest_complete r s n Hn Hm) as (k & Hk & ?). rewrite Hk. f_equal.
    assert (k <= n)%nat; [|lia]. apply (L r a); [set_solver|done]. }
  clear Hmax. intros Hfirst. induction Hfirst as [|[r1 a1] rules1 H1 _ IH]; simpl.
  - rewrite Er. destruct (select rules2 s) as [[b m]|] eqn:E; [|done].
    apply select_some in E as (r' & Hi & Hl & _). assert (m <= n)%nat by (apply (L r' b); [set_solver|done]).
    by rewrite (proj2 (Nat.leb_le m n)).
  - rewrite IH by (intros r' a' Hi; apply L with a'; by right). destruct (longest r1 s) as [k|] eqn:E; [|done].
    assert (k <= n)%nat by (apply (L r1 a1); [left|done]). apply longest_some in E as (? & Hk & _).
    destruct (decide (k = n)) as [->|]; [done|]. by rewrite (proj2 (Nat.leb_gt n k)) by lia.
Qed.

Lemma scan_fuel rules k s : (length s <= k)%nat -> scan k rules s = lex rules s.
Proof.
  unfold lex. revert k. induction s as [s IH] using (induction_ltof1 _ length); intros k Hk. unfold ltof in IH.
  destruct s as [|c s]; [by destruct k|]. destruct k as [|k]; [simpl in Hk; lia|]. simpl in Hk |- *.
  assert (IH' : forall t j, (length t <= length s)%nat -> (length t <= j)%nat -> scan j rules t = scan (length s) rules t).
  { intros t j Ht Hj. rewrite (IH t ltac:(simpl; lia) j Hj), (IH t ltac:(simpl; lia) (length s) Ht). done. }
  destruct (select rules (c :: s)) as [[a [|n]]|]; [apply IH'; lia| |apply IH'; lia].
  f_equal. apply IH'; rewrite length_drop; lia.
Qed.

Lemma lex_select rules s a n : select rules s = Some (a, S n) -> lex rules s = (a, take (S n) s) :: lex rules (drop (S n) s).
Proof.
  intros E. destruct s as [|c s]; [apply select_some in E as (r & _ & Hl & _); apply longest_some in Hl as [? _]; simpl in *; lia|].
  unfold lex at 1. cbn [length scan]. rewrite E. f_equal. simpl. apply scan_fuel. rewrite length_drop. lia.
Qed.

(** With rules that match every single character nothing is passed over. *)
Lemma lex_partition rules s : (forall c, exists r a, (r, a) ∈ rules /\ matches r [c]) -> concat (lex rules s).*2 = s.
Proof.
  intros Hr. induction s as [s IH] using (induction_ltof1 _ length). unfold ltof in IH. destruct s as [|c s]; [done|].
  destruct (Hr c) as (r & a & Hi & Hc). destruct (longest_complete r (c :: s) 1 ltac:(simpl; lia) Hc) as (n & Hn & ?).
  destruct (select_ge rules _ _ _ _ Hi Hn) as (b & [|m] & Hm & ?); [lia|]. rewrite (lex_select _ _ _ _ Hm).
  cbn [fmap list_fmap concat fst snd]. rewrite IH; [apply take_drop|]. simpl. rewrite length_drop. lia.
Qed.
End scan_lemmas.
