(* ===== verification/SynopLexer.v ===== *)
(** * The scanner of synoptic messages
      (src/src/lib/decoder/synopdecoder/synopLexer.ll)

    The rules of the file, in their order, with the call that each makes. The
    texts handed to the calls keep the blanks behind the group. *)

From S2P Require Import Prelude Text Lexer.

#[local] Open Scope Z_scope.

(** The call a rule makes; [skip] is [break]. *)
Inductive call :=
  | skip | sortTrash | fetchSection_ | sortToken_ | setType_ | setText_ | setIceToken_ | setIceText_ | setIcingText_.

#[export] Instance call_eq_dec : EqDecision call.
Proof. solve_decision. Defined.

Definition ws_chars : bytes := [" "%char; char_of 9; char_of 10; char_of 13].
Definition word_class : class := NoneOf ws_chars.
Definition ws_class : class := OneOf ws_chars.
Definition end_class : class := OneOf ["="%char; " "%char].
Definition trash_class : class := OneOf ["/"%char; "X"%char; "x"%char].
Definition value_class : class := OneOf (to_bytes "0123456789/Xx").

Definition word : re := plus word_class.
Definition ws : re := plus ws_class.
Definition end_ : re := plus end_class.
Definition ws_or_end : re := Alt ws end_.
Definition section_ : re := foldr (fun t r => Alt (lit (to_bytes t)) r) Void ["222"; "333"; "444"; "555"; "999"]%string.
Definition ice : re := Alt (lit (to_bytes "ICE")) (lit (to_bytes "ice")).
Definition icing : re := Alt (lit (to_bytes "ICING")) (lit (to_bytes "icing")).
Definition types : re := foldr (fun t r => Alt (lit (to_bytes t)) r) Void ["OOXX"; "AAXX"; "BBXX"]%string.

Definition synop_rules : list (re * call) :=
  [(icing, skip);
   (ice, skip);
   (Chr value_class, skip);
   (ws, skip);
   (end_, skip);
   (Cat (times 5 trash_class) ws_or_end, sortTrash);
   (Cat (lit (to_bytes "222")) (Cat (times 2 value_class) ws_or_end), fetchSection_);
   (Cat section_ ws_or_end, fetchSection_);
   (Cat (times 5 value_class) ws_or_end, sortToken_);
   (Cat types ws, setType_);
   (word, setText_);
   (Cat ice (Cat ws (Cat (times 5 value_class) ws_or_end)), setIceToken_);
   (Cat ice (Cat ws (Cat word ws_or_end)), setIceText_);
   (Cat icing (Cat ws (Cat word ws_or_end)), setIcingText_)].

(** The calls that a message leads to, with their texts. *)
Definition calls (s : bytes) : list (call * bytes) := lex synop_rules s.

Definition sample : bytes := to_bytes "AAXX 24121 01384 11458 83102 10023 333 20011 222// ICE 12345 ICE NIL ///// 555 12=".
Example calls_sample : calls sample =
  (fun '(a, t) => (a, to_bytes t)) <$>
  [(setType_, "AAXX "); (sortToken_, "24121 "); (sortToken_, "01384 "); (sortToken_, "11458 "); (sortToken_, "83102 ");
   (sortToken_, "10023 "); (fetchSection_, "333 "); (sortToken_, "20011 "); (fetchSection_, "222// ");
   (setIceToken_, "ICE 12345 "); (setIceText_, "ICE NIL "); (sortTrash, "///// "); (fetchSection_, "555 "); (setText_, "12=")]%string.
Proof. by_decision. Qed.

(** ** Properties: how a message falls into groups *)

(** What may stand behind a group: one blank and something that is neither a blank
    nor an equals sign, or an equals sign that ends the message. *)
Definition closed (sep : ascii) (rest : bytes) : Prop :=
  (sep = " "%char /\ from_option (fun c => c ∉ "="%char :: ws_chars) True (head rest)) \/ (sep = "="%char /\ rest = []).

Definition solid (t : bytes) : Prop := Forall (fun c => c ∉ "="%char :: ws_chars) t.

Ltac in_chars H := repeat (apply elem_of_cons in H as [H|H]); [subst..|by apply not_elem_of_nil in H].

Lemma class_true cs c : in_class (OneOf cs) c = true <-> c ∈ cs.
Proof. apply bool_decide_eq_true. Qed.

Lemma matches_ws_or_end b : matches ws_or_end b <->
  b <> [] /\ (Forall (fun c => c ∈ ws_chars) b \/ Forall (fun c => c ∈ ["="%char; " "%char]) b).
Proof.
  unfold ws_or_end, ws, end_. rewrite matches_alt, !matches_plus. setoid_rewrite class_true. tauto.
Qed.

Lemma sep_matches sep rest : closed sep rest -> matches ws_or_end [sep].
Proof.
  intros H. apply matches_ws_or_end. split; [done|].
  destruct H as [[-> _]|[-> _]]; [left|right]; constructor; try constructor; set_solver.
Qed.

(** A text without blanks followed by blanks, or by blanks and equals signs. *)
Definition padded (u : bytes) : Prop :=
  exists a b, u = a ++ b /\ Forall (fun c => c ∉ ws_chars) a /\
    (Forall (fun c => c ∈ ws_chars) b \/ Forall (fun c => c ∈ ["="%char; " "%char]) b).

Lemma padded_bound t sep rest m : solid t -> closed sep rest ->
  (length t + 1 < m <= length (t ++ sep :: rest))%nat -> ~ padded (take m (t ++ sep :: rest)).
Proof.
  intros Ht [[-> Hr]|[-> ->]]; [|rewrite length_app; simpl; lia].
  destruct rest as [|c rest]; [rewrite length_app; simpl; lia|]. simpl in Hr. intros Hm (a & b & E & Ha & Hb).
  assert (E' : take m (t ++ " "%char :: c :: rest) = t ++ " "%char :: c :: take (m - length t - 2) rest).
  { rewrite take_app, (take_ge t) by lia. f_equal. by replace (m - length t)%nat with (S (S (m - length t - 2)))%nat at 1 by lia. }
  rewrite E' in E. clear E'. revert E. generalize (take (m - length t - 2) rest) as rest'. clear Hm. intros rest'. revert t Ht. induction Ha as [|d a Hd Ha IH]; intros t Ht E; simpl in E.
  - subst b. assert (H : forall x, x ∈ t ++ " "%char :: c :: rest' -> x ∈ "="%char :: ws_chars).
    { intros x Hx. destruct Hb as [Hb|Hb]; rewrite Forall_forall in Hb; specialize (Hb x Hx); unfold ws_chars; set_solver. }
    apply Hr, H. set_solver.
  - destruct Ht as [|d' t Hd' Ht]; simpl in E; simplify_eq; [by destruct Hd; left|].
    by apply (IH t).
Qed.

Definition begins_with_i (u : bytes) : Prop := exists c u', u = c :: u' /\ c ∈ ["I"%char; "i"%char].

Lemma nonblank_times n k : (forall c, in_class k c = true -> c ∉ ws_chars) ->
  forall u, matches (times n k) u -> Forall (fun c => c ∉ ws_chars) u.
Proof. intros Hk u [_ H]%matches_times. eapply Forall_impl; [exact H|exact Hk]. Qed.

Lemma value_nonblank c : in_class value_class c = true -> c ∉ "="%char :: ws_chars.
Proof. intros H%class_true. unfold ws_chars. intros H2. in_chars H; by (vm_compute in H2; in_chars H2). Qed.

Lemma trash_value c : in_class trash_class c = true -> in_class value_class c = true.
Proof. intros H%class_true. apply class_true. in_chars H; by_decision. Qed.

Lemma padded_end a b : Forall (fun c => c ∉ ws_chars) a -> matches ws_or_end b -> padded (a ++ b).
Proof. intros Ha [_ Hb]%matches_ws_or_end. by exists a, b. Qed.

Lemma nonblank_lit t u : Forall (fun c => c ∉ ws_chars) (to_bytes t) -> matches (lit (to_bytes t)) u -> Forall (fun c => c ∉ ws_chars) u.
Proof. by intros H ->%matches_lit. Qed.

Lemma nonblank_lits ts u : Forall (fun t => Forall (fun c => c ∉ ws_chars) (to_bytes t)) ts ->
  matches (foldr (fun t r => Alt (lit (to_bytes t)) r) Void ts) u -> Forall (fun c => c ∉ ws_chars) u.
Proof.
  induction 1 as [|t ts Ht _ IH]; simpl; [by intros ?%matches_void|]. rewrite matches_alt.
  intros [H|H]; [by eapply nonblank_lit|by apply IH].
Qed.

Lemma ice_begins u : matches ice u -> begins_with_i u.
Proof. unfold ice. rewrite matches_alt, !matches_lit. intros [->| ->]; eexists _, _; (split; [done|set_solver]). Qed.
Lemma icing_begins u : matches icing u -> begins_with_i u.
Proof. unfold icing. rewrite matches_alt, !matches_lit. intros [->| ->]; eexists _, _; (split; [done|set_solver]). Qed.
Lemma begins_app u v : begins_with_i u -> begins_with_i (u ++ v).
Proof. intros (c & u' & -> & H). by exists c, (u' ++ v). Qed.

(** What each rule can match. *)
Lemma rules_padded : Forall (fun ra => forall u, matches ra.1 u -> padded u \/ begins_with_i u) synop_rules.
Proof.
  assert (W : forall u, Forall (fun c => c ∉ ws_chars) u -> padded u) by (intros u H; exists u, []; rewrite app_nil_r; auto).
  assert (B : forall u, matches ws_or_end u -> padded u) by (intros u H; by apply (padded_end [])).
  assert (V : forall c, in_class value_class c = true -> c ∉ ws_chars) by (intros c H%value_nonblank; set_solver).
  assert (T : forall c, in_class trash_class c = true -> c ∉ ws_chars) by (intros c H%trash_value; by apply V).
  repeat apply Forall_cons_2; try apply Forall_nil_2; cbn [fst]; intros u H.
  - right. by apply icing_begins.
  - right. by apply ice_begins.
  - left. apply W. apply matches_chr in H as (c & -> & Hc). by constructor; [apply V|].
  - left. apply B, matches_alt. by left.
  - left. apply B, matches_alt. by right.
  - left. apply matches_cat in H as (a & b & -> & Ha & Hb). apply padded_end; [|done]. by apply (nonblank_times _ _ T) in Ha.
  - left. apply matches_cat in H as (a & ? & -> & Ha & (b & d & -> & Hb & Hd)%matches_cat). rewrite app_assoc.
    apply padded_end; [|done]. apply Forall_app. split; [eapply nonblank_lit; [|exact Ha]; by_decision|by apply (nonblank_times _ _ V) in Hb].
  - left. apply matches_cat in H as (a & b & -> & Ha & Hb). apply padded_end; [|done]. eapply nonblank_lits; [|exact Ha]. by_decision.
  - left. apply matches_cat in H as (a & b & -> & Ha & Hb). apply padded_end; [|done]. by apply (nonblank_times _ _ V) in Ha.
  - left. apply matches_cat in H as (a & b & -> & Ha & Hb). apply padded_end; [eapply nonblank_lits; [|exact Ha]; by_decision|].
    apply matches_alt. by left.
  - left. apply W. apply matches_plus in H as [_ H]. eapply Forall_impl; [exact H|]. intros c Hc. exact (bool_decide_eq_true_1 _ Hc).
  - right. apply matches_cat in H as (a & b & -> & Ha & _). by apply begins_app, ice_begins.
  - right. apply matches_cat in H as (a & b & -> & Ha & _). by apply begins_app, ice_begins.
  - right. apply matches_cat in H as (a & b & -> & Ha & _). by apply begins_app, icing_begins.
Qed.

(** The call for a group that is followed by a separator: the first rule, of those
    that match it with the separator. *)
Lemma call_intro rules1 r a rules2 t sep rest :
  synop_rules = rules1 ++ (r, a) :: rules2 -> solid t -> ~ begins_with_i t -> t <> [] -> closed sep rest ->
  matches r (t ++ [sep]) -> Forall (fun ra => ~ matches ra.1 (t ++ [sep])) rules1 ->
  calls (t ++ sep :: rest) = (a, t ++ [sep]) :: calls rest.
Proof.
  intros Er Ht Hi Hne Hc Hm Hf.
  assert (E : take (length t + 1) (t ++ sep :: rest) = t ++ [sep]).
  { rewrite take_app, take_ge by lia. by replace (length t + 1 - length t)%nat with 1%nat by lia. }
  assert (Ed : drop (length t + 1) (t ++ sep :: rest) = rest).
  { rewrite drop_app, drop_ge by lia. by replace (length t + 1 - length t)%nat with 1%nat by lia. }
  assert (Es : select synop_rules (t ++ sep :: rest) = Some (a, (length t + 1)%nat)).
  { rewrite Er. apply select_intro; rewrite ?E; [rewrite length_app; simpl; lia|done| |done].
    rewrite <- Er. eapply Forall_impl; [exact rules_padded|]. intros [r' a'] H m Hm' Hu. destruct (H _ Hu) as [Hp|Hb].
    - by apply padded_bound in Hp.
    - apply Hi. destruct t as [|c t]; [done|]. destruct Hb as (d & u & Eu & Hd). destruct m as [|m]; [done|].
      simpl in Eu. simplify_eq. by exists d, t. }
  unfold calls. replace (length t + 1)%nat with (S (length t)) in * by lia. rewrite (lex_select _ _ _ _ Es), E, Ed. done.
Qed.

(** The rules that skip do not match a group with its separator. *)
Lemma not_skipped t sep rest : solid t -> ~ begins_with_i t -> t <> [] -> closed sep rest ->
  Forall (fun ra => ~ matches ra.1 (t ++ [sep])) (take 5 synop_rules).
Proof.
  intros Ht Hi Hne Hc. destruct Ht as [|c t Hc' Ht]; [done|].
  assert (Hb : ~ begins_with_i ((c :: t) ++ [sep])).
  { intros (d & u & [= -> _] & Hd). apply Hi. by exists d, t. }
  repeat apply Forall_cons_2; try apply Forall_nil_2; cbn [fst]; intros H.
  - by apply Hb, icing_begins.
  - by apply Hb, ice_begins.
  - apply matches_chr in H as (d & E & _). destruct t; by simplify_eq.
  - apply matches_plus in H as [_ H]. inversion_clear H as [|? ? H1 _]. apply class_true in H1. set_solver.
  - apply matches_plus in H as [_ H]. inversion_clear H as [|? ? H1 _]. apply class_true in H1. unfold ws_chars in Hc'. set_solver.
Qed.

Lemma cat_times n k r t u : length t = n -> matches (Cat (times n k) r) (t ++ u) ->
  Forall (fun c => in_class k c = true) t /\ matches r u.
Proof.
  intros Hl (a & b & E & [Ha Hk]%matches_times & Hb)%matches_cat. apply app_inj_1 in E as [-> ->]; [done|congruence].
Qed.

Definition is_trash (t : bytes) : bool := forallb (in_class trash_class) t.

(** The call for a group of five characters. *)
Definition group_call (t : bytes) : call :=
  if is_trash t then sortTrash else if bool_decide (take 3 t = to_bytes "222") then fetchSection_ else sortToken_.
Definition group_text (t : bytes) : Prop := length t = 5%nat /\ Forall (fun c => in_class value_class c = true) t.

Lemma group_solid t : group_text t -> solid t /\ ~ begins_with_i t /\ t <> [].
Proof.
  intros [Hl Hv]. split_and!; [eapply Forall_impl; [exact Hv|exact value_nonblank]| |by intros ->].
  intros (c & u & -> & Hc). inversion_clear Hv as [|? ? H _]. apply class_true in H. in_chars Hc; by vm_compute in H; in_chars H.
Qed.

Lemma calls_group t sep rest : group_text t -> closed sep rest -> calls (t ++ sep :: rest) = (group_call t, t ++ [sep]) :: calls rest.
Proof.
  intros Hg Hc. destruct (group_solid t Hg) as (Hs & Hi & Hne). destruct Hg as [Hl Hv].
  pose proof (not_skipped t sep rest Hs Hi Hne Hc) as Hskip. pose proof (sep_matches sep rest Hc) as Hsep.
  assert (Htrash : is_trash t = true <-> Forall (fun c => in_class trash_class c = true) t).
  { unfold is_trash. rewrite forallb_forall, Forall_forall. by setoid_rewrite list_elem_of_In. }
  unfold group_call. destruct (is_trash t) eqn:Et; [|case_bool_decide as E2].
  - apply (call_intro (take 5 synop_rules) (Cat (times 5 trash_class) ws_or_end) _ (drop 6 synop_rules)); try done.
    apply m_cat; [apply matches_times; split; [done|by apply Htrash]|done].
  - apply (call_intro (take 6 synop_rules) (Cat (lit (to_bytes "222")) (Cat (times 2 value_class) ws_or_end)) _ (drop 7 synop_rules)); try done.
    + rewrite <- (take_drop 3 t), E2, <- app_assoc. apply m_cat; [by apply matches_lit|]. apply m_cat; [|done].
      apply matches_times. split; [rewrite length_drop; lia|by apply Forall_drop].
    + apply (Forall_app _ (take 5 synop_rules) [_]). split; [done|]. constructor; [|done]. cbn [fst].
      intros [H _]%cat_times; [|done]. apply Htrash in H. congruence.
  - apply (call_intro (take 8 synop_rules) (Cat (times 5 value_class) ws_or_end) _ (drop 9 synop_rules)); try done.
    + apply m_cat; [by apply matches_times|done].
    + apply (Forall_app _ (take 5 synop_rules) [_; _; _]). split; [done|]. repeat constructor; cbn [fst].
      * intros [H _]%cat_times; [|done]. apply Htrash in H. congruence.
      * intros (a & b & E & ->%matches_lit & _)%matches_cat. apply E2. apply (f_equal (take 3)) in E.
        rewrite take_app_le in E by lia. by rewrite E.
      * intros (a & b & E & Ha & [_ Hb]%matches_ws_or_end)%matches_cat.
        assert (length a = 3%nat) as Ha3.
        { unfold section_ in Ha. cbn [foldr] in Ha. rewrite !matches_alt, !matches_lit in Ha.
          by destruct Ha as [->|[->|[->|[->|[->|?%matches_void]]]]]. }
        destruct t as [|c1 [|c2 [|c3 [|c4 t]]]]; try done. destruct a as [|d1 [|d2 [|d3 [|]]]]; try done. simpl in E. simplify_eq.
        repeat apply Forall_cons in Hs as [? Hs]. rename select (c4 ∉ _) into H4. unfold ws_chars in H4.
        destruct Hb as [Hb|Hb]; apply Forall_cons in Hb as [Hb _]; unfold ws_chars in Hb; set_solver.
Qed.

(** The groups that begin a section. *)
Lemma calls_section t sep rest : t ∈ [to_bytes "222"; to_bytes "333"; to_bytes "444"; to_bytes "555"; to_bytes "999"] ->
  closed sep rest -> calls (t ++ sep :: rest) = (fetchSection_, t ++ [sep]) :: calls rest.
Proof.
  intros Ht Hc. assert (Hs : solid t /\ ~ begins_with_i t /\ length t = 3%nat /\ matches section_ t).
  { unfold section_. cbn [foldr]. rewrite !matches_alt, !matches_lit. in_chars Ht; (split_and!; [by_decision| |done|tauto]);
      intros (c & u & [= <- _] & Hc'); revert Hc'; by_decision. }
  destruct Hs as (Hs & Hi & Hl & Hm). assert (Hne : t <> []) by (by intros ->).
  apply (call_intro (take 7 synop_rules) (Cat section_ ws_or_end) _ (drop 8 synop_rules)); try done.
  - apply m_cat; [done|]. by eapply sep_matches.
  - apply (Forall_app _ (take 5 synop_rules) [_; _]). split; [by eapply not_skipped|].
    assert (Hshort : forall a b, t ++ [sep] = a ++ b -> (5 <= length a)%nat -> False).
    { intros a b E Ha. apply (f_equal length) in E. rewrite !length_app, Hl in E. simpl in E. lia. }
    repeat constructor; cbn [fst].
    + intros (a & b & E & [Ha _]%matches_times & _)%matches_cat. by apply (Hshort a b); [|lia].
    + intros (a & ? & E & ->%matches_lit & (b & d & -> & [Hb _]%matches_times & _)%matches_cat)%matches_cat.
      rewrite app_assoc in E. apply (Hshort _ d E). rewrite length_app, Hb. simpl. lia.
Qed.

(** The group that begins a message; only a blank may follow. *)
Lemma calls_type t rest : t ∈ [to_bytes "OOXX"; to_bytes "AAXX"; to_bytes "BBXX"] -> closed " " rest ->
  calls (t ++ " "%char :: rest) = (setType_, t ++ [" "%char]) :: calls rest.
Proof.
  intros Ht Hc. assert (Hs : solid t /\ ~ begins_with_i t /\ length t = 4%nat /\ matches types t /\
    from_option (fun c => in_class value_class c = false) False (head t)).
  { unfold types. cbn [foldr]. rewrite !matches_alt, !matches_lit. in_chars Ht; (split_and!; [by_decision| |done|tauto|done]);
      intros (c & u & [= <- _] & Hc'); revert Hc'; by_decision. }
  destruct Hs as (Hs & Hi & Hl & Hm & Hv). destruct t as [|c t]; [done|]. cbn [head from_option] in Hv.
  assert (Hneg : forall a b, (c :: t) ++ [" "%char] = a ++ b -> a <> [] -> Forall (fun c => in_class value_class c = true) a -> False).
  { intros [|d a] b E Hne Ha; [done|]. simpl in E. simplify_eq. apply Forall_cons in Ha as [Ha _]. by rewrite Hv in Ha. }
  apply (call_intro (take 9 synop_rules) (Cat types ws) _ (drop 10 synop_rules)); try done.
  - apply m_cat; [done|]. apply matches_plus. split; [done|]. constructor; [by_decision|done].
  - apply (Forall_app _ (take 5 synop_rules) [_; _; _; _]). split; [by eapply not_skipped|]. repeat constructor; cbn [fst].
    + intros (a & b & E & [Ha Hf]%matches_times & _)%matches_cat. apply (Hneg a b E); [by intros ->|].
      eapply Forall_impl; [exact Hf|exact trash_value].
    + intros (a & b & E & ->%matches_lit & _)%matches_cat. apply (Hneg _ _ E); [done|by_decision].
    + intros (a & b & E & Ha & _)%matches_cat. unfold section_ in Ha. cbn [foldr] in Ha. rewrite !matches_alt, !matches_lit in Ha.
      destruct Ha as [->|[->|[->|[->|[->|?%matches_void]]]]]; [..|done]; (apply (Hneg _ _ E); [done|by_decision]).
    + intros (a & b & E & [Ha Hf]%matches_times & _)%matches_cat. apply (Hneg a b E); [by intros ->|done].
Qed.

(** Every character of a message belongs to the text of some call. *)
Lemma calls_partition s : concat (calls s).*2 = s.
Proof.
  apply lex_partition. intros c. destruct (decide (c ∈ ws_chars)) as [Hc|Hc].
  - exists ws, skip. split; [set_solver|]. apply matches_plus. split; [done|]. constructor; [by apply class_true|done].
  - exists word, setText_. split; [set_solver|]. apply matches_plus. split; [done|]. constructor; [by apply bool_decide_eq_true|done].
Qed.
