(* ===== verification/Synop.v ===== *)
(** * Synoptic messages (src/src/lib/decoder/synopdecoder/synop.cc, synop.h and
      synopElements.h)

    A message is a sequence of groups of five digits. The scanner
    ([SynopLexer.v]) calls a member of [synop] for each; the class keeps the
    section it is in and the number of the group, and collects the values under the
    numbers of the parameters. [obs] is a map from numbers to values; a text is a
    list of characters; a [float] that holds a small integer is that integer.
    Reading a member that was never set, the unit of the wind of a message without
    a time group, is undefined, and so is what follows: [None]. *)

From S2P Require Import Prelude Codes Text SynopLexer.

#[local] Open Scope Z_scope.

(** The parameters (synopElements.h); 0 is none. *)
Module syn.
Definition LaLaLa : Z := 401.
Definition LoLoLoLo : Z := 402.
Definition ir : Z := 9.
Definition ix : Z := 10.
Definition h : Z := 55.
Definition VV : Z := 273.
Definition N : Z := 15.
Definition dd : Z := 61.
Definition ff : Z := 81.
Definition TTT : Z := 211.
Definition TdTdTd : Z := 217.
Definition PPPP : Z := 178.
Definition P0P0P0P0 : Z := 173.
Definition a : Z := 1.
Definition ppp : Z := 177.
Definition tr : Z := 12.
Definition hhh : Z := 0.
Definition a3 : Z := 0.
Definition ww : Z := 41.
Definition W1 : Z := 42.
Definition W2 : Z := 43.
Definition wawa : Z := 49.
Definition Wa1 : Z := 47.
Definition Wa2 : Z := 48.
Definition Nh : Z := 14.
Definition Cl : Z := 23.
Definition Cm : Z := 24.
Definition Ch : Z := 22.
Definition UUU : Z := 262.
Definition ds : Z := 403.
Definition vs : Z := 404.
Definition TwTwTw : Z := 242.
Definition TbTbTb : Z := 0.
Definition PwaPwa : Z := 154.
Definition HwaHwa : Z := 134.
Definition HwaHwaHwa : Z := 134.
Definition PwPw : Z := 151.
Definition HwHw : Z := 131.
Definition dw1dw1 : Z := 65.
Definition dw2dw2 : Z := 66.
Definition Pw1Pw1 : Z := 152.
Definition Hw1Hw1 : Z := 132.
Definition Pw2Pw2 : Z := 153.
Definition Hw2Hw2 : Z := 133.
Definition Is : Z := 11.
Definition EsEs : Z := 101.
Definition Rs : Z := 17.
Definition Ci : Z := 4.
Definition Si : Z := 20.
Definition Bi : Z := 2.
Definition Di : Z := 6.
Definition Zi : Z := 21.
Definition TxTxTx : Z := 216.
Definition TnTnTn : Z := 214.
Definition E : Z := 129.
Definition jjj : Z := 0.
Definition E_ : Z := 7.
Definition sss : Z := 112.
Definition Ns1 : Z := 25.
Definition Ns2 : Z := 26.
Definition Ns3 : Z := 27.
Definition Ns4 : Z := 28.
Definition C1 : Z := 305.
Definition C2 : Z := 306.
Definition C3 : Z := 307.
Definition C4 : Z := 308.
Definition hshs1 : Z := 301.
Definition hshs2 : Z := 302.
Definition hshs3 : Z := 303.
Definition hshs4 : Z := 304.
Definition ff_911 : Z := 83.
Definition EEE : Z := 103.
Definition ie : Z := 0.
Definition SSS : Z := 122.
Definition FF24 : Z := 0.
Definition N_ : Z := 0.
Definition C_ : Z := 0.
Definition H_H_ : Z := 0.
Definition Ct : Z := 0.
Definition S : Z := 19.
Definition tz : Z := 13.
Definition fxfx : Z := 86.
Definition Tx_Tx_ : Z := 216.
Definition Tn_Tn_ : Z := 214.
Definition TgTgTg : Z := 224.
Definition Rt : Z := 0.
Definition X1wd : Z := 44.
Definition X2wd : Z := 45.
Definition X3wd : Z := 46.
Definition RR24 : Z := 110.
Definition SD : Z := 18.
End syn.

Definition kvalobsTypeID : Z := 1.
Definition shipTypeID : Z := 11.

Inductive windunit := MS | KT | NOWINDUNIT.
Inductive synopTokenType := NORMALTOKEN | ICETEXTTOKEN | ICINGTEXTTOKEN.
Inductive synopSection := S000 | S111 | S222 | S333 | S444 | S555 | S999.
Inductive synopType := SYNOP | SHIP | MOBIL.
Inductive signtype := sn | sw | ss.

#[export] Instance synopTokenType_eq_dec : EqDecision synopTokenType.
Proof. solve_decision. Defined.
#[export] Instance synopSection_eq_dec : EqDecision synopSection.
Proof. solve_decision. Defined.
#[export] Instance synopType_eq_dec : EqDecision synopType.
Proof. solve_decision. Defined.
#[export] Instance windunit_eq_dec : EqDecision windunit.
Proof. solve_decision. Defined.

Definition section_number (s : synopSection) : Z :=
  match s with S000 => 0 | S111 => 1 | S222 => 2 | S333 => 3 | S444 => 4 | S555 => 5 | S999 => 6 end.

Record info := mk_info {
  YY : Z;
  GG : Z;
  IIiii : Z;
  A1BwNb : Z;
  Qc : Z;
  MMM : Z;
  UlaUlo : Z;
  h0h0h0h0 : Z;
  im : Z;
  GGgg : Z;
  callSign : bytes
}.

Definition set_YY (v : Z) (i : info) : info :=
  mk_info v (GG i) (IIiii i) (A1BwNb i) (Qc i) (MMM i) (UlaUlo i) (h0h0h0h0 i) (im i) (GGgg i) (callSign i).
Definition set_GG (v : Z) (i : info) : info :=
  mk_info (YY i) v (IIiii i) (A1BwNb i) (Qc i) (MMM i) (UlaUlo i) (h0h0h0h0 i) (im i) (GGgg i) (callSign i).
Definition set_IIiii (v : Z) (i : info) : info :=
  mk_info (YY i) (GG i) v (A1BwNb i) (Qc i) (MMM i) (UlaUlo i) (h0h0h0h0 i) (im i) (GGgg i) (callSign i).
Definition set_A1BwNb (v : Z) (i : info) : info :=
  mk_info (YY i) (GG i) (IIiii i) v (Qc i) (MMM i) (UlaUlo i) (h0h0h0h0 i) (im i) (GGgg i) (callSign i).
Definition set_Qc (v : Z) (i : info) : info :=
  mk_info (YY i) (GG i) (IIiii i) (A1BwNb i) v (MMM i) (UlaUlo i) (h0h0h0h0 i) (im i) (GGgg i) (callSign i).
Definition set_MMM (v : Z) (i : info) : info :=
  mk_info (YY i) (GG i) (IIiii i) (A1BwNb i) (Qc i) v (UlaUlo i) (h0h0h0h0 i) (im i) (GGgg i) (callSign i).
Definition set_UlaUlo (v : Z) (i : info) : info :=
  mk_info (YY i) (GG i) (IIiii i) (A1BwNb i) (Qc i) (MMM i) v (h0h0h0h0 i) (im i) (GGgg i) (callSign i).
Definition set_h0h0h0h0 (v : Z) (i : info) : info :=
  mk_info (YY i) (GG i) (IIiii i) (A1BwNb i) (Qc i) (MMM i) (UlaUlo i) v (im i) (GGgg i) (callSign i).
Definition set_im (v : Z) (i : info) : info :=
  mk_info (YY i) (GG i) (IIiii i) (A1BwNb i) (Qc i) (MMM i) (UlaUlo i) (h0h0h0h0 i) v (GGgg i) (callSign i).
Definition set_GGgg (v : Z) (i : info) : info :=
  mk_info (YY i) (GG i) (IIiii i) (A1BwNb i) (Qc i) (MMM i) (UlaUlo i) (h0h0h0h0 i) (im i) v (callSign i).
Definition set_callSign (v : bytes) (i : info) : info :=
  mk_info (YY i) (GG i) (IIiii i) (A1BwNb i) (Qc i) (MMM i) (UlaUlo i) (h0h0h0h0 i) (im i) (GGgg i) v.
Definition info_new : info := mk_info 0 0 0 0 0 0 0 0 0 0 [].

Record synop := mk_synop {
  element : Z;
  group : Z;
  clCounter : Z;
  wunit : option windunit;
  type : synopType;
  section : synopSection;
  tokenType : synopTokenType;
  sjj : Z;
  extra333 : bool;
  unrecognised : bytes;
  raw : bytes;
  icetext : bytes;
  icingtext : bytes;
  obs : gmap Z spec_float;
  pinfo : info;
  hshsInMeter : bool
}.

Definition set_element (v : Z) (s : synop) : synop :=
  mk_synop v (group s) (clCounter s) (wunit s) (type s) (section s) (tokenType s) (sjj s) (extra333 s) (unrecognised s) (raw s) (icetext s) (icingtext s) (obs s) (pinfo s) (hshsInMeter s).
Definition set_group (v : Z) (s : synop) : synop :=
  mk_synop (element s) v (clCounter s) (wunit s) (type s) (section s) (tokenType s) (sjj s) (extra333 s) (unrecognised s) (raw s) (icetext s) (icingtext s) (obs s) (pinfo s) (hshsInMeter s).
Definition set_clCounter (v : Z) (s : synop) : synop :=
  mk_synop (element s) (group s) v (wunit s) (type s) (section s) (tokenType s) (sjj s) (extra333 s) (unrecognised s) (raw s) (icetext s) (icingtext s) (obs s) (pinfo s) (hshsInMeter s).
Definition set_wunit (v : option windunit) (s : synop) : synop :=
  mk_synop (element s) (group s) (clCounter s) v (type s) (section s) (tokenType s) (sjj s) (extra333 s) (unrecognised s) (raw s) (icetext s) (icingtext s) (obs s) (pinfo s) (hshsInMeter s).
Definition set_type (v : synopType) (s : synop) : synop :=
  mk_synop (element s) (group s) (clCounter s) (wunit s) v (section s) (tokenType s) (sjj s) (extra333 s) (unrecognised s) (raw s) (icetext s) (icingtext s) (obs s) (pinfo s) (hshsInMeter s).
Definition set_section (v : synopSection) (s : synop) : synop :=
  mk_synop (element s) (group s) (clCounter s) (wunit s) (type s) v (tokenType s) (sjj s) (extra333 s) (unrecognised s) (raw s) (icetext s) (icingtext s) (obs s) (pinfo s) (hshsInMeter s).
Definition set_tokenType (v : synopTokenType) (s : synop) : synop :=
  mk_synop (element s) (group s) (clCounter s) (wunit s) (type s) (section s) v (sjj s) (extra333 s) (unrecognised s) (raw s) (icetext s) (icingtext s) (obs s) (pinfo s) (hshsInMeter s).
Definition set_sjj (v : Z) (s : synop) : synop :=
  mk_synop (element s) (group s) (clCounter s) (wunit s) (type s) (section s) (tokenType s) v (extra333 s) (unrecognised s) (raw s) (icetext s) (icingtext s) (obs s) (pinfo s) (hshsInMeter s).
Definition set_extra333 (v : bool) (s : synop) : synop :=
  mk_synop (element s) (group s) (clCounter s) (wunit s) (type s) (section s) (tokenType s) (sjj s) v (unrecognised s) (raw s) (icetext s) (icingtext s) (obs s) (pinfo s) (hshsInMeter s).
Definition set_unrecognised (v : bytes) (s : synop) : synop :=
  mk_synop (element s) (group s) (clCounter s) (wunit s) (type s) (section s) (tokenType s) (sjj s) (extra333 s) v (raw s) (icetext s) (icingtext s) (obs s) (pinfo s) (hshsInMeter s).
Definition set_raw (v : bytes) (s : synop) : synop :=
  mk_synop (element s) (group s) (clCounter s) (wunit s) (type s) (section s) (tokenType s) (sjj s) (extra333 s) (unrecognised s) v (icetext s) (icingtext s) (obs s) (pinfo s) (hshsInMeter s).
Definition set_icetext (v : bytes) (s : synop) : synop :=
  mk_synop (element s) (group s) (clCounter s) (wunit s) (type s) (section s) (tokenType s) (sjj s) (extra333 s) (unrecognised s) (raw s) v (icingtext s) (obs s) (pinfo s) (hshsInMeter s).
Definition set_icingtext (v : bytes) (s : synop) : synop :=
  mk_synop (element s) (group s) (clCounter s) (wunit s) (type s) (section s) (tokenType s) (sjj s) (extra333 s) (unrecognised s) (raw s) (icetext s) v (obs s) (pinfo s) (hshsInMeter s).
Definition set_obs (v : gmap Z spec_float) (s : synop) : synop :=
  mk_synop (element s) (group s) (clCounter s) (wunit s) (type s) (section s) (tokenType s) (sjj s) (extra333 s) (unrecognised s) (raw s) (icetext s) (icingtext s) v (pinfo s) (hshsInMeter s).
Definition set_pinfo (v : info) (s : synop) : synop :=
  mk_synop (element s) (group s) (clCounter s) (wunit s) (type s) (section s) (tokenType s) (sjj s) (extra333 s) (unrecognised s) (raw s) (icetext s) (icingtext s) (obs s) v (hshsInMeter s).
Definition set_hshsInMeter (v : bool) (s : synop) : synop :=
  mk_synop (element s) (group s) (clCounter s) (wunit s) (type s) (section s) (tokenType s) (sjj s) (extra333 s) (unrecognised s) (raw s) (icetext s) (icingtext s) (obs s) (pinfo s) v.
Definition synop_new (hshsInMeter : bool) : synop :=
  mk_synop 0 (-1) (-1) None SYNOP S000 NORMALTOKEN 0 false [] [] [] [] ∅ info_new hshsInMeter.

Definition set_info (f : info -> info) (s : synop) : synop := set_pinfo (f (pinfo s)) s.
Definition hasUnrecognised (s : synop) : bool := bool_decide (unrecognised s <> []).
Definition typeID (s : synop) : Z := if bool_decide (type s = SHIP) then shipTypeID else kvalobsTypeID.

(** ** Parts of a group *)

Definition undef : Z := -99999.
Definition norway : Z := 1.
Definition zero : Z := 48.

Definition nul : ascii := char_of 0.
Definition char_at (token : bytes) (i : nat) : ascii := nth i token nul.
Definition is_undef_char (c : ascii) : bool := bool_decide (c ∈ to_bytes "/Xx").
Definition token_digit (c : ascii) : Z := if is_undef_char c then undef else char_val c - zero.

(** [readToken(token, a, b)]: with [b] = 0 the character at [a], otherwise the
    number in the [b] characters from [a]. *)
Definition readToken (token : bytes) (a b : nat) : Z :=
  if (b =? 0)%nat then
    if (a =? 0)%nat then token_digit (char_at token 0)
    else if (length token <=? a)%nat then undef
    else token_digit (char_at token a)
  else if (length token <? b + a)%nat then undef
  else
    let buf := take b (drop a token) in
    if existsb is_undef_char buf then undef else to_int (strtol buf).

Definition addError (errType errToken : bytes) (s : synop) : synop :=
  set_unrecognised ((if bool_decide (unrecognised s = []) then [] else unrecognised s ++ to_bytes " | ") ++ errType ++ errToken) s.

Definition errorOrder : bytes := to_bytes "Order: ".
Definition errorToken : bytes := to_bytes "Token: ".
Definition errorCallsign : bytes := to_bytes "Call: ".
Definition errorDouble : bytes := to_bytes "Double: ".
Definition errorSlash : bytes := to_bytes "Slash: ".
Definition errorUnknown : bytes := to_bytes "Unknown: ".

(** ** Values *)

Definition setBuffer (par : Z) (val : spec_float) (s : synop) : synop := set_obs (<[par := val]> (obs s)) s.
Definition setToken (par : Z) (token : bytes) (a b : nat) (s : synop) : synop :=
  setBuffer par (Dbl.of_Z (readToken token a b)) s.

Definition set_extra (par : Z) (val : Z) (s : synop) : synop := if val =? undef then s else setBuffer par (Dbl.of_Z val) s.
Definition setExtraCloudHsToken (par : Z) (token : bytes) (pos len : nat) (s : synop) : synop :=
  let val := readToken token pos len in
  if val =? undef then s
  else if hshsInMeter s then
    let val := hsCode2m val in
    if val =? INT_MAX then addError (errorToken ++ to_bytes " (invalid code)") token s
    else setBuffer par (Dbl.of_Z val) s
  else setBuffer par (Dbl.of_Z val) s.
Definition setExtraCloudClToken (par : Z) (token : bytes) (pos len : nat) (s : synop) : synop :=
  set_extra par (readToken token pos len) s.
Definition setExtraCloudNsToken (par : Z) (token : bytes) (pos len : nat) (s : synop) : synop :=
  set_extra par (readToken token pos len) s.

Definition scale (buf sc : spec_float) : spec_float :=
  if Dbl.ltb (Dbl.of_Z undef) buf then Dbl.mul buf sc else buf.
Definition tenth : spec_float := Dbl.lit 1 10.

Definition setScaledToken (par : Z) (token : bytes) (scl : spec_float) (a b : nat) (s : synop) : synop :=
  setBuffer par (scale (Dbl.of_Z (readToken token a b)) scl) s.

Definition setSnowToken (par : Z) (token : bytes) (a b : nat) (s : synop) : synop :=
  let val := readToken token a b in
  let ival := val in
  let val := if val =? undef then -1 else val in
  let val := if ival =? 997 then 0 else val in
  let val := if ival =? 998 then 0 else val in
  let val := if ival =? 999 then -3 else val in
  setBuffer par (Dbl.of_Z val) s.

Definition setScaledSubstituteToken (par : Z) (token : bytes) (scl : spec_float) (fsub tosub : Z) (a b : nat) (s : synop) : synop :=
  let val := readToken token a b in
  setBuffer par (if val =? fsub then Dbl.of_Z tosub else scale (Dbl.of_Z val) scl) s.

Definition hasobs (par : Z) (s : synop) : bool := bool_decide (is_Some (obs s !! par)).
Definition value (par : Z) (s : synop) : option spec_float := obs s !! par.
(** [int(double)]; the machine gives the smallest [int] for what is none. *)
Definition int_of (d : spec_float) : Z := default INT_MIN (Dbl.to_int d).
Definition value_int (par : Z) (s : synop) : option Z := int_of <$> obs s !! par.

Definition sign (c : ascii) (stype : signtype) : Z :=
  let res := char_val c - zero in
  let plain := if res =? 0 then 1 else -1 in
  match stype with
  | sn => plain
  | sw => if res <? 2 then plain else if res =? 5 then 1 else if res =? 6 then -1 else 1
  | ss => if res <? 2 then plain else if Z.rem res 2 =? 0 then 1 else -1
  end.

Definition checkCountry (s : synop) : Z :=
  let II := if IIiii (pinfo s) =? 0 then 0 else Z.quot (IIiii (pinfo s)) 1000 in
  if negb (II =? 0) then II
  else if (3 <=? length (callSign (pinfo s)))%nat then
    let cs := of_bytes (take 3 (callSign (pinfo s))) in
    if (String.leb "JWA" cs && String.leb cs "JXZ") || (String.leb "LAA" cs && String.leb cs "LNZ")
       || (String.leb "3YA" cs && String.leb cs "3YZ") then 1 else 0
  else 0.

Definition minus_one : spec_float := Dbl.of_Z (-1).
Definition negate (par : Z) (s : synop) : synop :=
  match obs s !! par with Some v => setBuffer par (Dbl.mul v minus_one) s | None => s end.

Definition squareDetection (s : synop) : synop :=
  let s := if 4 <? Qc (pinfo s) then negate syn.LoLoLoLo s else s in
  if (Qc (pinfo s) =? 5) || (Qc (pinfo s) =? 3) then negate syn.LaLaLa s else s.

Definition checkOrder (token : bytes) (s : synop) : synop :=
  let g := readToken token 0 0 in
  let s := if g <? group s then addError errorOrder token s else s in
  let s :=
    if g =? group s then
      if bool_decide (section s = S333) then
        if negb (group s =? 5) && negb (group s =? 8) && negb (group s =? 9) then addError errorDouble token s else s
      else addError errorDouble token s
    else s in
  set_group g s.

(** ** Groups that several sections share *)

Definition setTemperature (token : bytes) (par : Z) (signt : signtype) (s : synop) : synop :=
  let tmp := Dbl.of_Z (readToken token 1 3) in
  let tmp := if Dbl.ltb (Dbl.of_Z undef) tmp then Dbl.mul tmp (Dbl.of_Z (sign (char_at token 0) signt)) else tmp in
  setBuffer par (scale tmp tenth) s.

(** 0.5144: knots to metres per second. *)
Definition knot : spec_float := Dbl.lit 5144 10000.
Definition setWind (par : Z) (token : bytes) (a b : nat) (s : synop) : option synop :=
  match wunit s with
  | None => None
  | Some NOWINDUNIT => Some (addError (to_bytes "windunit: ") token s)
  | Some KT => Some (setBuffer par (Dbl.mul (Dbl.of_Z (readToken token a b)) knot) s)
  | Some MS => Some (setBuffer par (Dbl.of_Z (readToken token a b)) s)
  end.

Definition setPressure (token : bytes) (par : Z) (s : synop) : synop :=
  let tmp := scale (Dbl.of_Z (readToken token 0 4)) tenth in
  setBuffer par (if Dbl.ltb tmp (Dbl.of_Z 500) then Dbl.add tmp (Dbl.of_Z 1000) else tmp) s.

(** The parameter of the amount of precipitation for the code of its period. *)
Definition precipitation_par (tr_ : Z) : Z :=
  match tr_ with
  | 1 => 108 | 2 => 109 | 3 => 109 | 4 => 110 | 5 => 106 | 6 => 106 | 7 => 107 | 8 => 108 | 9 => 109
  | _ => 0
  end.

Definition setPrecipitation (token : bytes) (s : synop) : synop :=
  let tr_ := readToken token 4 0 in
  let s := setBuffer syn.tr (Dbl.of_Z tr_) s in
  let par := precipitation_par tr_ in
  let RRR := readToken token 1 3 in
  let RRR := match value_int syn.ir s with Some ir_ => if ir_ =? 3 then -1 else RRR | None => RRR end in
  let RRR := if RRR =? 0 then -1 else RRR in
  setBuffer par (if 990 <=? RRR then scale (Dbl.of_Z (RRR - 990)) tenth else Dbl.of_Z RRR) s.

Definition addPrecipitation (par : Z) (fRt : spec_float) (s : synop) : synop :=
  match value par s with
  | None => s
  | Some newRRR =>
      if Dbl.ltb newRRR (Dbl.of_Z 0) then s
      else
        let newRRR := Dbl.add newRRR fRt in
        if Dbl.ltb newRRR (Dbl.of_Z 0) then s else setBuffer par newRRR s
  end.

Definition setPrecipitationRt (token : bytes) (s : synop) : synop :=
  let fRt := scale (Dbl.of_Z (readToken token 1 0)) tenth in
  let s := setBuffer syn.Rt fRt s in
  let fRt := if Dbl.ltb (Dbl.lit 4 10) fRt then Dbl.sub fRt (Dbl.of_Z 1) else fRt in
  addPrecipitation 110 fRt (addPrecipitation 109 fRt (addPrecipitation 108 fRt
    (addPrecipitation 107 fRt (addPrecipitation 106 fRt s)))).

(** The metres of a code for visibility. *)
Definition vv_metres (ivv : Z) : Z :=
  if ivv <=? 50 then ivv * 100
  else if (50 <? ivv) && (ivv <=? 55) then undef
  else if (55 <? ivv) && (ivv <=? 80) then (ivv - 50) * 1000
  else if (80 <? ivv) && (ivv <? 90) then (ivv - 74) * 5000
  else match ivv with
       | 90 => 0 | 91 => 50 | 92 => 200 | 93 => 500 | 94 => 1000 | 95 => 2000 | 96 => 4000 | 97 => 10000
       | 98 => 20000 | 99 => 50000
       | _ => undef
       end.
Definition setHorizontalVisibillity (token : bytes) (s : synop) : synop :=
  setBuffer syn.VV (Dbl.of_Z (vv_metres (readToken token 3 2))) s.

(** The height of the cloud base for its code. *)
Definition h_metres (ih : Z) : Z :=
  match ih with
  | 0 => 0 | 1 => 50 | 2 => 100 | 3 => 200 | 4 => 300 | 5 => 600 | 6 => 1000 | 7 => 1500 | 8 => 2000 | 9 => 2500
  | _ => -3
  end.
Definition setCloudBaseHeight (token : bytes) (s : synop) : synop :=
  setBuffer syn.h (Dbl.of_Z (h_metres (readToken token 2 0))) s.

Definition sd_code (EM : Z) : option Z :=
  match EM with
  | 0 => Some 0 | 1 => Some 1 | 2 => Some 3 | 3 => Some 4 | 4 => Some 4 | 5 => Some 1 | 6 => Some 3 | 7 => Some 4
  | 8 => Some 4 | 9 => Some 4
  | _ => None
  end.
Definition setSnowCoverBySoilCondition (s : synop) : synop :=
  match value_int syn.E_ s ≫= sd_code with Some v => setBuffer syn.SD (Dbl.of_Z v) s | None => s end.

(** ** Relative humidity *)

(** [exp] of the mathematical library. *)
Class LibM := { c_exp : spec_float -> spec_float }.

Section parser.
Context {LM : LibM}.

Definition dbl_div : spec_float -> spec_float -> spec_float := SFdiv Dbl.prec Dbl.emax.
Definition svp (tt : spec_float) : spec_float :=
  if Dbl.ltb (Dbl.of_Z 0) tt then
    Dbl.mul (Dbl.lit 610780 100000)
      (c_exp (dbl_div (Dbl.mul (Dbl.lit 1708085 100000) tt) (Dbl.add (Dbl.lit 243175 1000) tt)))
  else
    Dbl.mul (Dbl.lit 610780 100000)
      (c_exp (dbl_div (Dbl.mul (Dbl.lit 1784363 100000) tt) (Dbl.add (Dbl.lit 245425 1000) tt))).

(** [static_cast<int>(rint(x))]: to the nearest, halves to even. *)
Definition rint_to_int (m : spec_float) : Z :=
  match m with
  | S754_zero _ => 0
  | S754_finite s p e =>
      let a := if 0 <=? e then Z.pos p * 2 ^ e
               else
                 let q := Z.pos p / 2 ^ (- e) in
                 let r := Z.pos p mod 2 ^ (- e) in
                 if 2 ^ (- e) <? 2 * r then q + 1
                 else if (2 ^ (- e) =? 2 * r) && Z.odd q then q + 1 else q in
      let v := if s then - a else a in
      if (INT_MIN <=? v) && (v <=? INT_MAX) then v else INT_MIN
  | _ => INT_MIN
  end.

Definition humidity (tt_ td_ : spec_float) : Z :=
  let uu := rint_to_int (dbl_div (Dbl.mul (Dbl.of_Z 100) (svp td_)) (svp tt_)) in
  if 100 <? uu then 100 else uu.
Definition computeUUU (s : synop) : synop :=
  match obs s !! syn.TdTdTd, obs s !! syn.TTT with
  | Some td_, Some tt_ => setBuffer syn.UUU (Dbl.of_Z (humidity tt_ td_)) s
  | _, _ => s
  end.

(** ** Section 0 *)

Definition setYYGGiw (token : bytes) (s : synop) : synop :=
  let s := set_info (set_YY (readToken token 0 2)) s in
  let s := set_info (set_GG (readToken token 2 2)) s in
  let iw := readToken token 4 0 in
  set_wunit (Some (if (iw <? 0) || (4 <? iw) then NOWINDUNIT else if iw <? 3 then MS else KT)) s.

(** [setShipDirectionAndVelocity]: the speed from its code; section 2. *)
Definition code2mps : list Z := [0; 1; 4; 7; 9; 12; 14; 17; 20; 22].
Definition setShipDirectionAndVelocity (token : bytes) (s : synop) : synop :=
  if bool_decide (type s = SHIP) then
    let s := setToken syn.ds token 3 0 s in
    let iVs := readToken token 4 0 in
    if (0 <=? iVs) && (iVs <? 10) then setBuffer syn.vs (Dbl.of_Z (nth (Z.to_nat iVs) code2mps 0)) s else s
  else s.

(** The part of [fetchSection] that enters a section; [sec] is its first digit. *)
Definition enter_section (sec : Z) (token : bytes) (s : synop) : synop :=
  let before := section s in
  let s := if 1 <? sec then set_raw (raw s ++ token) s else s in
  let s := set_group (-1) (set_element 0 s) in
  let s := match sec with
           | 1 => set_section S111 s
           | 2 => setShipDirectionAndVelocity token (set_section S222 s)
           | 3 => set_section S333 s
           | 4 => set_section S444 s
           | 5 => set_section S555 s
           | 9 => set_section S999 s
           | _ => s
           end in
  if section_number (section s) <? section_number before then addError errorOrder token s else s.

(** [fetchSection("111")]. *)
Definition fetchSection_111 (s : synop) : synop :=
  enter_section 1 (to_bytes "111") (set_tokenType NORMALTOKEN s).

Definition sortSynop000Token (token : bytes) (s : synop) : synop :=
  match element s with
  | 1 => setYYGGiw token s
  | 2 => fetchSection_111 (set_info (set_IIiii (readToken token 0 5)) s)
  | _ => s
  end.

Definition sortShipMobil000Token (token : bytes) (s : synop) : synop :=
  match element s with
  | 1 => set_info (set_A1BwNb (readToken token 0 5)) s
  | 2 => setYYGGiw token s
  | 3 => setScaledToken syn.LaLaLa token tenth 2 3 s
  | 4 =>
      let s := set_info (set_Qc (readToken token 0 0)) s in
      let s := setScaledToken syn.LoLoLoLo token tenth 1 4 s in
      let s := squareDetection s in
      if bool_decide (type s = SHIP) then fetchSection_111 s else s
  | 5 => set_info (set_UlaUlo (readToken token 3 2)) (set_info (set_MMM (readToken token 0 3)) s)
  | 6 => fetchSection_111 (set_info (set_im (readToken token 4 0)) (set_info (set_h0h0h0h0 (readToken token 0 4)) s))
  | _ => s
  end.

Definition sort000Token (token : bytes) (s : synop) : synop :=
  if bool_decide (type s = SYNOP) then sortSynop000Token token s else sortShipMobil000Token token s.

(** ** Section 1 *)

Definition sort111_group (token : bytes) (s : synop) : option synop :=
  match group s with
  | 0 => setWind syn.ff token 2 3 s
  | 1 => Some (setTemperature (drop 1 token) syn.TTT sn s)
  | 2 =>
      if bool_decide (char_at token 1 <> "9"%char) then
        Some (computeUUU (setTemperature (drop 1 token) syn.TdTdTd sn s))
      else Some (setToken syn.UUU token 2 3 s)
  | 3 => Some (setPressure (drop 1 token) syn.P0P0P0P0 s)
  | 4 =>
      let tst := readToken (drop 1 token) 0 0 in
      if (tst =? 0) || (tst =? 9) then Some (setPressure (drop 1 token) syn.PPPP s)
      else Some (setToken syn.hhh token 2 3 (setToken syn.a3 token 1 0 s))
  | 5 => Some (setScaledToken syn.ppp token tenth 2 3 (setToken syn.a (drop 1 token) 0 0 s))
  | 6 => Some (setPrecipitation token s)
  | 7 =>
      if bool_decide (value_int syn.ix s = Some 7) then
        Some (setToken syn.Wa2 token 4 0 (setToken syn.Wa1 token 3 0 (setToken syn.wawa token 1 2 s)))
      else Some (setToken syn.W2 token 4 0 (setToken syn.W1 token 3 0 (setToken syn.ww token 1 2 s)))
  | 8 =>
      Some (setToken syn.Ch token 4 0 (setToken syn.Cm token 3 0 (setToken syn.Cl token 2 0 (setToken syn.Nh token 1 0 s))))
  | 9 => Some (set_info (set_GGgg (readToken token 1 4)) s)
  | g => if g =? undef then Some (addError errorSlash token s) else Some s
  end.

Definition sort111Token (token : bytes) (s : synop) : option synop :=
  if 2 <? element s then sort111_group token (checkOrder token s)
  else match element s with
       | 1 =>
           let s := setToken syn.ir token 0 0 s in
           let s := setToken syn.ix token 1 0 s in
           Some (setHorizontalVisibillity token (setCloudBaseHeight token s))
       | 2 =>
           let s := setToken syn.N token 0 0 s in
           let s := setScaledSubstituteToken syn.dd token (Dbl.of_Z 10) 99 (-3) 1 2 s in
           setWind syn.ff token 3 2 s
       | _ => Some s
       end.

(** ** Section 2 *)

Definition half : spec_float := Dbl.lit 5 10.
Definition sort222Token (token : bytes) (s : synop) : synop :=
  let s := checkOrder token s in
  match group s with
  | 0 => setTemperature (drop 1 token) syn.TwTwTw ss s
  | 1 => setScaledToken syn.HwaHwa token half 3 2 (setToken syn.PwaPwa token 1 2 s)
  | 2 => setScaledToken syn.HwHw token half 3 2 (setToken syn.PwPw token 1 2 s)
  | 3 => setScaledToken syn.dw2dw2 token (Dbl.of_Z 10) 3 2 (setScaledToken syn.dw1dw1 token (Dbl.of_Z 10) 1 2 s)
  | 4 => setScaledToken syn.Hw1Hw1 token half 3 2 (setToken syn.Pw1Pw1 token 1 2 s)
  | 5 => setScaledToken syn.Hw2Hw2 token half 3 2 (setToken syn.Pw2Pw2 token 1 2 s)
  | 6 => setToken syn.Rs (drop 4 token) 0 0 (setToken syn.EsEs token 2 2 (setToken syn.Is (drop 1 token) 0 0 s))
  | 7 => setScaledToken syn.HwaHwaHwa token tenth 2 3 s
  | 8 => setTemperature (drop 1 token) syn.TbTbTb sw s
  | _ => s
  end.

(** ** Section 3 *)

Definition setSupplementaryJJ (token : bytes) (s : synop) : synop :=
  let j0 := readToken token 0 0 in
  let j1 := readToken (drop 1 token) 0 0 in
  let j2 := readToken (drop 2 token) 0 0 in
  let j234 := readToken token 2 3 in
  if sjj s =? 0 then
    if j1 <? 3 then setToken syn.ie token 4 1 (setToken syn.EEE token 1 3 s)
    else if j1 =? 5 then
      let s := if j2 <? 3 then setToken syn.SSS token 2 3 s else s in
      set_sjj j234 s
    else s
  else
    let s := if sjj s =? 507 then setToken syn.FF24 token 0 5 s else s in
    set_sjj (if 5 <? j0 then 0 else 1) s.

Definition setSupplementarySP (token : bytes) (s : synop) : option synop :=
  if readToken token 0 2 =? 11 then setWind syn.ff_911 token 2 2 s else Some s.

(** [if (clCounter++ > 3)]: the old value is tested. *)
Definition setExtraClouds (token : bytes) (s : synop) : synop :=
  let before := clCounter s in
  let s := set_clCounter (before + 1) s in
  if 3 <? before then addError (to_bytes "Clouds") token s
  else
    let s := setExtraCloudNsToken (syn.Ns1 + clCounter s) token 1 0 s in
    let s := setExtraCloudClToken (syn.C1 + clCounter s) token 2 0 s in
    setExtraCloudHsToken (syn.hshs1 + clCounter s) token 3 2 s.

Definition sort333_group (token : bytes) (s : synop) : option synop :=
  match group s with
  | 1 => Some (setTemperature (drop 1 token) syn.TxTxTx sn s)
  | 2 => Some (setTemperature (drop 1 token) syn.TnTnTn sn s)
  | 3 =>
      let s := setToken syn.jjj token 2 3 (setToken syn.E token 1 0 s) in
      match value_int syn.E s with
      | Some EValue => if (0 <=? EValue) && (EValue <=? 9) then Some (setBuffer syn.sss (Dbl.of_Z (-1)) s) else Some s
      | None => Some s
      end
  | 4 => Some (setSnowCoverBySoilCondition (setSnowToken syn.sss token 2 3 (setToken syn.E_ token 1 0 s)))
  | 5 => Some (setSupplementaryJJ token s)
  | 6 => if hasobs syn.tr s then Some s else Some (setPrecipitation token s)
  | 7 =>
      let tmp := readToken token 1 4 in
      if tmp =? 9999 then Some (setBuffer syn.RR24 (Dbl.of_Z 0) s)
      else if tmp =? 0 then Some (setBuffer syn.RR24 (Dbl.of_Z (-1)) s)
      else Some (setScaledToken syn.RR24 token tenth 1 4 s)
  | 8 => if readToken token 1 4 =? 0 then Some (set_extra333 true s) else Some (setExtraClouds token s)
  | 9 => setSupplementarySP (drop 1 token) s
  | _ => Some s
  end.

Definition sort333Token (token : bytes) (s : synop) : option synop :=
  if extra333 s then Some s
  else if negb (sjj s =? 0) then Some (setSupplementaryJJ token s)
  else sort333_group token (checkOrder token s).

(** ** Sections 4 and 5 *)

Definition sort444Token (token : bytes) (s : synop) : synop :=
  setToken syn.Ct token 4 0 (setToken syn.H_H_ token 2 2 (setToken syn.C_ token 1 0 (setToken syn.N_ token 0 0 s))).

Definition sort555Token (token : bytes) (s : synop) : option synop :=
  if negb (checkCountry s =? norway) then Some s
  else
    let s := checkOrder token s in
    match group s with
    | 0 => setWind syn.fxfx token 3 2 (setToken syn.tz token 2 0 (setToken syn.S token 1 0 s))
    | 1 => Some (setTemperature (drop 1 token) syn.Tx_Tx_ sn s)
    | 2 => Some (setTemperature (drop 1 token) syn.Tn_Tn_ sn s)
    | 3 => Some (setTemperature (drop 1 token) syn.TgTgTg sn s)
    | 4 =>
        let s := setPrecipitationRt token s in
        Some (setToken syn.X3wd token 4 0 (setToken syn.X2wd token 3 0 (setToken syn.X1wd token 2 0 s)))
    | _ => Some (addError errorUnknown token s)
    end.

(** ** The calls of the scanner *)

Definition sortToken (token : bytes) (trash : bool) (s : synop) : option synop :=
  let s := set_raw (raw s ++ token) s in
  if trash then Some (if bool_decide (section s = S111) then set_element (element s + 1) s else s)
  else
    let s := set_tokenType NORMALTOKEN (set_element (element s + 1) s) in
    if bool_decide (section s = S999) then Some s
    else if (readToken token 0 0 =? undef) && negb (bool_decide (section s = S111)) then Some (addError errorSlash token s)
    else match section s with
         | S000 => Some (sort000Token token s)
         | S111 => sort111Token token s
         | S222 => Some (sort222Token token s)
         | S333 => sort333Token token s
         | S444 => Some (sort444Token token s)
         | S555 => sort555Token token s
         | S999 => Some s
         end.

Definition setType (token : bytes) (s : synop) : synop :=
  let s := set_raw (raw s ++ token) (set_tokenType NORMALTOKEN s) in
  let s := set_type (if bool_decide (char_at token 0 = "A"%char) then SYNOP
                     else if bool_decide (char_at token 0 = "B"%char) then SHIP else MOBIL) s in
  set_element 0 (set_section S000 s).

Definition fetchSection (token : bytes) (s : synop) : option synop :=
  let s := set_tokenType NORMALTOKEN s in
  let sec := readToken token 0 0 in
  if (sec =? 2) && (bool_decide (section s = S000) || (bool_decide (section s = S111) && (element s <? 2)))
  then sortToken token false s
  else Some (enter_section sec token s).

Definition toupper (c : ascii) : ascii :=
  if (97 <=? uchar_val c) && (uchar_val c <=? 122) then char_of (uchar_val c - 32) else c.

Definition setText (token : bytes) (s : synop) : synop :=
  let s := set_raw (raw s ++ token ++ [" "%char]) s in
  if bool_decide (section s = S555) && negb (checkCountry s =? norway) then s
  else match tokenType s with
       | ICETEXTTOKEN => set_icetext (icetext s ++ " "%char :: token) s
       | ICINGTEXTTOKEN => set_icingtext (icingtext s ++ " "%char :: token) s
       | NORMALTOKEN =>
           if bool_decide (section s = S000) && (element s =? 0) && negb (bool_decide (type s = SYNOP)) then
             let s := set_element (element s + 1) s in
             let s := set_info (set_callSign (toupper <$> token)) s in
             if (9 <? length token)%nat || (length token <? 3)%nat then addError errorCallsign token s else s
           else addError errorToken token s
       end.

Definition setIceToken (token : bytes) (s : synop) : synop :=
  let s := set_tokenType NORMALTOKEN (set_raw (raw s ++ token) s) in
  setToken syn.Zi (drop 4 token) 0 0 (setToken syn.Di (drop 3 token) 0 0 (setToken syn.Bi (drop 2 token) 0 0
    (setToken syn.Si (drop 1 token) 0 0 (setToken syn.Ci token 0 0 s)))).

Definition setIceText (stt : synopTokenType) (token : bytes) (s : synop) : synop :=
  let s := set_tokenType stt (set_raw (raw s ++ token) s) in
  if bool_decide (tokenType s = ICETEXTTOKEN) then set_icetext token s else set_icingtext token s.

(** The action of a rule of the scanner. *)
Definition act (c : call) (token : bytes) (s : synop) : option synop :=
  match c with
  | skip => Some s
  | sortTrash => sortToken token true s
  | fetchSection_ => fetchSection token s
  | sortToken_ => sortToken token false s
  | setType_ => Some (setType token s)
  | setText_ => Some (setText token s)
  | setIceToken_ => Some (setIceToken token s)
  | setIceText_ => Some (setIceText ICETEXTTOKEN token s)
  | setIcingText_ => Some (setIceText ICINGTEXTTOKEN token s)
  end.

Fixpoint acts (cs : list (call * bytes)) (s : synop) : option synop :=
  match cs with [] => Some s | (c, t) :: cs => s ← act c t s; acts cs s end.

(** [lexSynop]; the text ends at its first null character. *)
Definition lexSynop (synopStr : bytes) (hshsInMeter : bool) : option synop :=
  acts (calls (before_nul synopStr)) (synop_new hshsInMeter).
End parser.

(** ** Properties: the parameters of a message *)

(** The parameters that a message can give values: those of the table, the
    periods of precipitation, and one cloud layer more than there are parameters. *)
Definition synop_params : list Z :=
  [0; 1; 2; 4; 6; 7; 9; 10; 11; 12; 13; 14; 15; 17; 18; 19; 20; 21; 22; 23; 24; 25; 26; 27; 28; 29; 41; 42; 43; 44; 45; 46;
   47; 48; 49; 55; 61; 65; 66; 81; 83; 86; 101; 103; 106; 107; 108; 109; 110; 112; 122; 129; 131; 132; 133; 134; 151; 152;
   153; 154; 173; 177; 178; 211; 214; 216; 217; 224; 242; 262; 273; 301; 302; 303; 304; 305; 306; 307; 308; 309; 401; 402;
   403; 404].

Definition parsed_ok (s : synop) : Prop :=
  map_Forall (fun par _ => par ∈ synop_params) (obs s) /\ -1 <= clCounter s.

Lemma ok_setBuffer par v s : par ∈ synop_params -> parsed_ok s -> parsed_ok (setBuffer par v s).
Proof. intros Hp [Ho Hc]. split; [|done]. by apply map_Forall_insert_2. Qed.

Lemma ok_keep s s' : obs s' = obs s -> clCounter s' = clCounter s -> parsed_ok s -> parsed_ok s'.
Proof. intros E1 E2. unfold parsed_ok. by rewrite E1, E2. Qed.

(** Strip the setters, each an argument's name, and the tests of a state. *)
Ltac ok_step :=
  match goal with
  | H : parsed_ok ?s |- parsed_ok ?s => exact H
  | |- parsed_ok (setBuffer _ _ _) => apply ok_setBuffer; [by_decision|]
  | |- parsed_ok (if ?b then _ else _) => destruct b
  | |- parsed_ok (match ?x with _ => _ end) => destruct x
  | |- parsed_ok (_ ?s) => apply (ok_keep s); [reflexivity|reflexivity|]
  | |- parsed_ok _ => progress cbv beta zeta
  end.
Ltac ok := repeat ok_step; auto with synop.

Definition option_ok (o : option synop) : Prop := from_option parsed_ok True o.
Ltac ok_option_step :=
  lazymatch goal with
  | |- option_ok (Some ?s) => change (parsed_ok s)
  | |- option_ok (if ?b then _ else _) => destruct b
  | |- option_ok (match ?x with _ => _ end) => destruct x
  end.
Ltac ok_option := repeat ok_option_step; ok.
Create HintDb synop.

Section parameters.
Context {LM : LibM}.

Lemma ok_enter_section sec token s : parsed_ok s -> parsed_ok (enter_section sec token s).
Proof. intros H. unfold enter_section, setShipDirectionAndVelocity, setToken. ok. Qed.
#[local] Hint Resolve ok_enter_section : synop.

Lemma ok_negate par s : par ∈ synop_params -> parsed_ok s -> parsed_ok (negate par s).
Proof. intros Hp H. unfold negate. destruct (obs s !! par); [by apply ok_setBuffer|done]. Qed.

Lemma ok_squareDetection s : parsed_ok s -> parsed_ok (squareDetection s).
Proof. intros H. unfold squareDetection. cbv zeta. repeat case_match; repeat (apply ok_negate; [by_decision|]); done. Qed.
#[local] Hint Resolve ok_squareDetection : synop.

Lemma ok_sort000 token s : parsed_ok s -> parsed_ok (sort000Token token s).
Proof.
  intros H. unfold sort000Token. destruct (bool_decide _).
  - unfold sortSynop000Token, setYYGGiw, fetchSection_111. destruct (element s) as [|[[|[]|]|[|[]|]|]|]; cbv zeta; ok;
      apply ok_enter_section; ok.
  - unfold sortShipMobil000Token, setYYGGiw, fetchSection_111, setScaledToken.
    assert (Hs : parsed_ok (squareDetection (setBuffer syn.LoLoLoLo
      (scale (Dbl.of_Z (readToken token 1 4)) tenth) (set_info (set_Qc (readToken token 0 0)) s)))).
    { apply ok_squareDetection. ok. }
    destruct (element s) as [|[[[]|[]|]|[[]|[]|]|]|]; cbv zeta; ok; auto with synop.
Qed.

Lemma ok_checkOrder token s : parsed_ok s -> parsed_ok (checkOrder token s).
Proof. intros H. unfold checkOrder. cbv zeta. ok. Qed.

Lemma ok_setWind par token a b s : par ∈ synop_params -> parsed_ok s -> option_ok (setWind par token a b s).
Proof. intros Hp H. unfold setWind. destruct (wunit s) as [[]|]; cbn [option_ok from_option]; [by apply ok_setBuffer..| |done]. ok. Qed.

Lemma ok_setPrecipitation token s : parsed_ok s -> parsed_ok (setPrecipitation token s).
Proof.
  intros H. unfold setPrecipitation. cbv zeta. apply ok_setBuffer; [|ok].
  unfold precipitation_par. repeat case_match; by_decision.
Qed.
#[local] Hint Resolve ok_setPrecipitation : synop.

Lemma ok_sort111 token s : parsed_ok s -> option_ok (sort111Token token s).
Proof.
  intros H. unfold sort111Token. destruct (2 <? element s).
  - pose proof (ok_checkOrder token s H) as Hc. revert Hc. generalize (checkOrder token s). clear. intros s H.
    unfold sort111_group, setToken, setTemperature, setPressure, setScaledToken, computeUUU. cbv zeta.
    ok_option; apply ok_setWind; by_decision || done.
  - unfold setToken, setScaledSubstituteToken, setHorizontalVisibillity, setCloudBaseHeight.
    ok_option; apply ok_setWind; [by_decision|ok].
Qed.

Lemma ok_sort222 token s : parsed_ok s -> parsed_ok (sort222Token token s).
Proof.
  intros H. unfold sort222Token. pose proof (ok_checkOrder token s H) as Hc. revert Hc. generalize (checkOrder token s). clear.
  intros s H. unfold setTemperature, setScaledToken, setToken. cbv zeta. repeat case_match; ok.
Qed.

Lemma ok_setExtraClouds token s : parsed_ok s -> parsed_ok (setExtraClouds token s).
Proof.
  intros [Ho Hc]. unfold setExtraClouds, setExtraCloudNsToken, setExtraCloudClToken, setExtraCloudHsToken, set_extra. cbv zeta.
  set (s1 := set_clCounter (clCounter s + 1) s). assert (H : parsed_ok s1) by (split; [done|simpl; lia]).
  destruct (Z.ltb_spec 3 (clCounter s)); [ok|].
  assert (Hr : 0 <= clCounter s1 < 5) by (simpl; lia). clearbody s1. clear -H Hr.
  assert (Hp : forall k, k ∈ [25; 305; 301] -> k + clCounter s1 ∈ synop_params).
  { intros k Hk. revert Hr. generalize (clCounter s1). apply (Z_range_ind _ 5). rewrite Forall_forall. intros c Hc'.
    revert k Hk. apply Forall_forall. revert c Hc'. apply Forall_forall. by_decision. }
  assert (Hi : forall k v s2, k ∈ [25; 305; 301] -> clCounter s2 = clCounter s1 -> parsed_ok s2 ->
    parsed_ok (setBuffer (k + clCounter s2) v s2) /\ clCounter (setBuffer (k + clCounter s2) v s2) = clCounter s1).
  { intros k v s2 Hk E H2. split; [|done]. apply ok_setBuffer; [rewrite E; by apply Hp|done]. }
  set (s2 := if _ =? undef then s1 else _). assert (H2 : parsed_ok s2 /\ clCounter s2 = clCounter s1).
  { unfold s2. destruct (_ =? undef); [done|]. apply Hi; [set_solver|done..]. }
  clearbody s2. set (s3 := if _ =? undef then s2 else _). assert (H3 : parsed_ok s3 /\ clCounter s3 = clCounter s1).
  { unfold s3. destruct (_ =? undef); [done|]. apply Hi; [set_solver|apply H2..]. }
  clearbody s3. destruct H3 as [H3 E3]. destruct (_ =? undef); [done|]. destruct (hshsInMeter s3); [destruct (_ =? INT_MAX)|]; [ok|..];
    (apply Hi; [set_solver|done..]).
Qed.
#[local] Hint Resolve ok_setExtraClouds : synop.

Lemma ok_setSupplementaryJJ token s : parsed_ok s -> parsed_ok (setSupplementaryJJ token s).
Proof. intros H. unfold setSupplementaryJJ, setToken. cbv zeta. ok. Qed.
#[local] Hint Resolve ok_setSupplementaryJJ : synop.

Lemma ok_sort333 token s : parsed_ok s -> option_ok (sort333Token token s).
Proof.
  intros H. unfold sort333Token. destruct (extra333 s); [done|]. destruct (negb _); [by apply ok_setSupplementaryJJ|].
  pose proof (ok_checkOrder token s H) as Hc. revert Hc. generalize (checkOrder token s). clear. intros s H.
  unfold sort333_group, setToken, setTemperature, setScaledToken, setSupplementarySP, setSnowCoverBySoilCondition, setSnowToken.
  cbv zeta. ok_option; apply ok_setWind; by_decision || done.
Qed.

Lemma ok_addPrecipitation par v s : par ∈ synop_params -> parsed_ok s -> parsed_ok (addPrecipitation par v s).
Proof. intros Hp H. unfold addPrecipitation. repeat case_match; try done. by apply ok_setBuffer. Qed.

Lemma ok_sort555 token s : parsed_ok s -> option_ok (sort555Token token s).
Proof.
  intros H. unfold sort555Token. destruct (negb _); [done|].
  pose proof (ok_checkOrder token s H) as Hc. revert Hc. generalize (checkOrder token s). clear. intros s H.
  unfold setToken, setTemperature, setPrecipitationRt. cbv zeta.
  ok_option; try (apply ok_setWind; [by_decision|]); ok; repeat (apply ok_addPrecipitation; [by_decision|]); ok.
Qed.

Lemma ok_sortToken token trash s : parsed_ok s -> option_ok (sortToken token trash s).
Proof.
  intros H. unfold sortToken. cbv zeta. destruct trash; [cbn [option_ok from_option]; ok|].
  set (s1 := set_tokenType _ _). assert (H1 : parsed_ok s1) by (unfold s1; ok). clearbody s1.
  destruct (bool_decide _); [done|]. destruct (_ && _); [cbn [option_ok from_option]; ok|].
  destruct (section s1); [by apply ok_sort000|by apply ok_sort111|by apply ok_sort222|by apply ok_sort333| |by apply ok_sort555|done].
  cbn [option_ok from_option]. unfold sort444Token, setToken. ok.
Qed.

Lemma ok_act c token s : parsed_ok s -> option_ok (act c token s).
Proof.
  intros H. destruct c; cbn [act]; try (by apply ok_sortToken); try done; try (cbn [option_ok from_option]).
  - unfold fetchSection. cbv zeta. destruct (_ && _); [apply ok_sortToken; ok|]. cbn [option_ok from_option]. apply ok_enter_section. ok.
  - unfold setText. cbv zeta. ok.
  - unfold setIceToken, setToken. cbv zeta. ok.
Qed.

(** Whatever the message says, the values found in it are of these parameters. *)
Lemma lexSynop_params text hs s : lexSynop text hs = Some s -> map_Forall (fun par _ => par ∈ synop_params) (obs s).
Proof.
  intros E. enough (H : option_ok (lexSynop text hs)) by (rewrite E in H; apply H). clear E. unfold lexSynop.
  assert (H : parsed_ok (synop_new hs)) by (split; [apply map_Forall_empty|done]). revert H. generalize (synop_new hs).
  induction (calls _) as [|[c t] cs IH]; intros s0 H; [done|]. cbn [acts]. pose proof (ok_act c t s0 H) as Ha.
  destruct (act c t s0) as [s1|]; [by apply IH|done].
Qed.
End parameters.

(** ** Properties: where the code does not do what it means to *)

Section defects.
Context {LM : LibM}.
#[local] Arguments to_bytes _%_string.

(** A fifth layer of clouds is no error, though there are parameters for four: the
    counter is tested before it is raised. Its height becomes the type of the
    first layer. *)
Lemma fifth_layer token s : clCounter s = 3 -> hshsInMeter s = false -> readToken token 3 2 <> undef ->
  unrecognised (setExtraClouds token s) = unrecognised s /\
  obs (setExtraClouds token s) !! syn.C1 = Some (Dbl.of_Z (readToken token 3 2)).
Proof.
  intros Hc Hh Hr. unfold setExtraClouds, setExtraCloudNsToken, setExtraCloudClToken, setExtraCloudHsToken, set_extra. cbv zeta.
  rewrite Hc. cbn [Z.ltb Z.compare]. apply Z.eqb_neq in Hr.
  destruct (readToken token 1 0 =? undef), (readToken token 2 0 =? undef);
    rewrite Hr; cbn [hshsInMeter setBuffer set_obs set_clCounter]; rewrite Hh; (split; [done|]); cbn; by rewrite lookup_insert_eq.
Qed.

Example five_layers : exists s,
  lexSynop (to_bytes "AAXX 24121 01384 11458 83102 333 81234 82345 83345 84456 85567 ") false = Some s /\
  unrecognised s = [] /\ obs s !! syn.C1 = Some (Dbl.of_Z 67).
Proof. eexists. split; [vm_compute; reflexivity|]. split; [done|]. by_decision. Qed.

(** A gust in a message without the group of the time: the unit of the wind is
    read before it is set. *)
Example no_time_group : lexSynop (to_bytes "AAXX 333 91122 ") false = None.
Proof. by_decision. Qed.

(** The five values of the ice group are read from the word ICE, not from the group
    behind it. *)
Example ice_group : exists s, lexSynop (to_bytes "AAXX 24121 01384 11458 83102 ICE 12345 ") false = Some s /\
  unrecognised s = [] /\ (fun par => obs s !! par) <$> [syn.Ci; syn.Si; syn.Bi; syn.Di; syn.Zi] =
    (fun v => Some (Dbl.of_Z v)) <$> [25; 19; 21; -16; 1].
Proof. eexists. split; [vm_compute; reflexivity|]. split; [done|]. by_decision. Qed.

(** The last group of a message counts only when a blank or an equals sign follows. *)
Example last_group : exists s, lexSynop (to_bytes "AAXX 24121 01384 11458 83102") false = Some s /\
  unrecognised s = to_bytes "Token: 83102" /\ obs s !! syn.N = None.
Proof. eexists. split; [vm_compute; reflexivity|]. split; [done|]. by_decision. Qed.

(** A latitude that is not given becomes one of 99999 degrees south of the equator:
    the number for an undefined value changes its sign. *)
Example undefined_latitude : exists s, lexSynop (to_bytes "BBXX LDWR 24121 99/// 50012 ") false = Some s /\
  unrecognised s = [] /\ obs s !! syn.LaLaLa = Some (Dbl.of_Z 99999).
Proof. eexists. split; [vm_compute; reflexivity|]. split; [done|]. by_decision. Qed.

(** A temperature that is not given counts as -99999 when the humidity is
    computed. *)
Lemma humidity_of_undefined s td_ : obs s !! syn.TTT = Some (Dbl.of_Z undef) -> obs s !! syn.TdTdTd = Some td_ ->
  obs (computeUUU s) !! syn.UUU = Some (Dbl.of_Z (humidity (Dbl.of_Z undef) td_)).
Proof. intros Ht Hd. unfold computeUUU. rewrite Hd, Ht. cbn. by rewrite lookup_insert_eq. Qed.
End defects.
