(* ===== verification/SynopReport.v ===== *)
(** * Reports from stations on land

    What the decoder of synoptic messages is for, as a specification: a report of
    the first section, written in the groups of the code and read by
    [lexSynop] ([Synop.v]), gives the values of the report. *)

From S2P Require Import Prelude TimeText Rows Scanning Text Lexer SynopLexer Synop.

#[local] Open Scope Z_scope.

(** ** Numbers in groups *)

(** [z] with [n] digits. *)
Fixpoint digits (n : nat) (z : Z) : bytes :=
  match n with O => [] | S n => digits n (z / 10) ++ [digit (z mod 10)] end.

Lemma digit_props z : 0 <= z < 10 ->
  char_val (digit z) = 48 + z /\ is_undef_char (digit z) = false /\ in_class value_class (digit z) = true /\
  in_class trash_class (digit z) = false.
Proof.
  intros Hz. assert (H : Forall (fun z => char_val (digit z) = 48 + z /\ is_undef_char (digit z) = false /\
    in_class value_class (digit z) = true /\ in_class trash_class (digit z) = false) (seqZ 0 10)) by by_decision.
  rewrite Forall_forall in H. apply H. by apply elem_of_seqZ.
Qed.

Lemma length_digits n z : length (digits n z) = n.
Proof. revert z. induction n as [|n IH]; intros z; [done|]. simpl. rewrite length_app, IH. simpl. lia. Qed.

Lemma digits_all (P : ascii -> Prop) n z : (forall d, 0 <= d < 10 -> P (digit d)) -> Forall P (digits n z).
Proof.
  intros H. revert z. induction n as [|n IH]; intros z; [constructor|]. simpl. apply Forall_app. split; [apply IH|].
  constructor; [|constructor]. apply H. apply Z.mod_pos_bound. lia.
Qed.

Lemma digits_val_digits n z : 0 <= z < 10 ^ Z.of_nat n -> digits_val 0 (digits n z) = z.
Proof.
  revert z. induction n as [|n IH]; intros z Hz; [simpl in Hz |- *; lia|]. cbn [digits].
  rewrite Nat2Z.inj_succ, Z.pow_succ_r in Hz by lia.
  rewrite digits_val_app by (apply digits_all; apply digit_is_digit).
  rewrite IH by (split; [apply Z.div_pos; lia|apply Z.div_lt_upper_bound; lia]).
  rewrite digits_val_step by (apply Z.mod_pos_bound; lia). simpl. pose proof (Z.div_mod z 10 ltac:(lia)). lia.
Qed.

Lemma strtol_digits n z : (n <= 9)%nat -> 0 <= z < 10 ^ Z.of_nat n -> strtol (digits n z) = z.
Proof.
  intros Hn Hz. assert (Hb : 10 ^ Z.of_nat n <= 10 ^ 9) by (apply Z.pow_le_mono_r; lia).
  destruct n as [|n]; [simpl in Hz; unfold strtol; simpl; unfold LONG_MAX; lia|].
  assert (Hd : Forall (fun c => is_digit c = true) (digits (S n) z)) by (apply digits_all; apply digit_is_digit).
  pose proof (digits_val_digits _ _ Hz) as E. destruct (digits (S n) z) as [|c r] eqn:Er; [by apply (f_equal length) in Er; rewrite length_digits in Er|].
  apply Forall_cons in Hd as [Hc _]. destruct (digit_plain c Hc) as (Hs & Hp & _).
  unfold strtol. simpl skip_space. rewrite Hs.
  assert (Hm : digits_val 0 (c :: r) <= LONG_MAX) by (rewrite E; unfold LONG_MAX; lia).
  destruct (decide (c = "-"%char)) as [->|]; [by destruct Hp; by_decision|].
  destruct (decide (c = "+"%char)) as [->|]; [by destruct Hp; by_decision|].
  assert (H : (match c :: r with "-"%char :: r => Z.max LONG_MIN (- digits_val 0 r) | "+"%char :: r => Z.min LONG_MAX (digits_val 0 r)
    | r => Z.min LONG_MAX (digits_val 0 r) end) = Z.min LONG_MAX (digits_val 0 (c :: r))); [|rewrite H, E; rewrite E in Hm; lia].
  destruct c as [[] [] [] [] [] [] [] []]; try reflexivity; done.
Qed.

(** Reading the number that begins behind [pre]. *)
Lemma readToken_number pre n z post : (0 < n <= 9)%nat -> 0 <= z < 10 ^ Z.of_nat n ->
  readToken (pre ++ digits n z ++ post) (length pre) n = z.
Proof.
  intros Hn Hz. unfold readToken. rewrite (proj2 (Nat.eqb_neq n 0)) by lia.
  rewrite (proj2 (Nat.ltb_ge _ _)) by (rewrite !length_app, length_digits; lia).
  rewrite drop_app_length, take_app_le, take_ge by (rewrite length_digits; lia). cbv zeta.
  assert (existsb is_undef_char (digits n z) = false) as ->.
  { apply not_true_iff_false. rewrite existsb_exists. intros (c & Hc & Hu). apply list_elem_of_In in Hc.
    pose proof (digits_all (fun c => is_undef_char c = false) n z ltac:(intros d Hd; apply (digit_props d Hd))) as H.
    rewrite Forall_forall in H. by rewrite (H c Hc) in Hu. }
  rewrite strtol_digits by (done || lia). apply to_int_small. unfold INT_MIN, INT_MAX.
  assert (10 ^ Z.of_nat n <= 10 ^ 9) by (apply Z.pow_le_mono_r; lia). lia.
Qed.

Lemma readToken_digit pre z post : 0 <= z < 10 -> readToken (pre ++ digit z :: post) (length pre) 0 = z.
Proof.
  intros Hz. destruct (digit_props z Hz) as (Hv & Hu & _).
  assert (E : char_at (pre ++ digit z :: post) (length pre) = digit z).
  { unfold char_at. rewrite app_nth2 by lia. by rewrite Nat.sub_diag. }
  unfold readToken. cbn [Nat.eqb]. destruct (length pre =? 0)%nat eqn:E0.
  - apply Nat.eqb_eq in E0. rewrite E0 in E. rewrite E. unfold token_digit. rewrite Hu, Hv. unfold zero. lia.
  - rewrite (proj2 (Nat.leb_gt _ _)) by (rewrite length_app; simpl; lia). rewrite E. unfold token_digit. rewrite Hu, Hv. unfold zero. lia.
Qed.

(** ** Reports *)

(** A group of the first section behind the first two, with what it says: a
    temperature in tenths of a degree, a pressure by its last four digits in tenths
    of a hectopascal, and the codes of the others. *)
Inductive group1 :=
  | Temperature (t : Z)
  | DewPoint (t : Z)
  | StationPressure (p : Z)
  | SeaPressure (p : Z)
  | Tendency (a p : Z)
  | Rain (rrr t : Z)
  | Weather (ww w1 w2 : Z)
  | Clouds (nh cl cm ch : Z).

Definition group_number (g : group1) : Z :=
  match g with
  | Temperature _ => 1 | DewPoint _ => 2 | StationPressure _ => 3 | SeaPressure _ => 4 | Tendency _ _ => 5 | Rain _ _ => 6
  | Weather _ _ _ => 7 | Clouds _ _ _ _ => 8
  end.

Definition signed (t : Z) : bytes := digit (if t <? 0 then 1 else 0) :: digits 3 (Z.abs t).
Definition group_digits (g : group1) : bytes :=
  match g with
  | Temperature t | DewPoint t => signed t
  | StationPressure p | SeaPressure p => digits 4 p
  | Tendency a p => digit a :: digits 3 p
  | Rain rrr t => digits 3 rrr ++ [digit t]
  | Weather ww w1 w2 => digits 2 ww ++ [digit w1; digit w2]
  | Clouds nh cl cm ch => [digit nh; digit cl; digit cm; digit ch]
  end.
Definition group1_text (g : group1) : bytes := digit (group_number g) :: group_digits g.

Definition is_digit_value (z : Z) : bool := (0 <=? z) && (z <? 10).
Definition group_ok (g : group1) : bool :=
  match g with
  | Temperature t | DewPoint t => (-1000 <? t) && (t <? 1000)
  | StationPressure p => (0 <=? p) && (p <? 10000)
  | SeaPressure p => ((0 <=? p) && (p <? 1000)) || ((9000 <=? p) && (p <? 10000))
  | Tendency a p => is_digit_value a && (0 <=? p) && (p <? 1000)
  | Rain rrr t => is_digit_value t && (0 <=? rrr) && (rrr <? 1000)
  | Weather ww w1 w2 => (0 <=? ww) && (ww <? 100) && is_digit_value w1 && is_digit_value w2
  | Clouds nh cl cm ch => is_digit_value nh && is_digit_value cl && is_digit_value cm && is_digit_value ch
  end.

(** A report: the time, the station, the indicators of precipitation and weather,
    the codes of cloud base and visibility, cloud cover, wind, and further groups. *)
Record report := {
  day : Z; hour : Z; wind_unit : Z; station : Z;
  i_R : Z; i_x : Z; cloud_base : Z; visibility : Z;
  cover : Z; direction : Z; speed : Z;
  groups : list group1
}.

Definition report_ok (r : report) : bool :=
  (0 <=? day r) && (day r <? 100) && (0 <=? hour r) && (hour r <? 100) && (0 <=? wind_unit r) && (wind_unit r <=? 4)
  && (0 <=? station r) && (station r <? 100000)
  && is_digit_value (i_R r) && is_digit_value (i_x r) && is_digit_value (cloud_base r)
  && (0 <=? visibility r) && (visibility r <? 100)
  && is_digit_value (cover r) && (0 <=? direction r) && (direction r <? 100) && (0 <=? speed r) && (speed r <? 100)
  && forallb group_ok (groups r).

(** The groups stand in the order of their numbers, each at most once. *)
Fixpoint ascending (k : Z) (gs : list group1) : bool :=
  match gs with [] => true | g :: gs => (k <? group_number g) && ascending (group_number g) gs end.

Definition report_groups (r : report) : list bytes :=
  [digits 2 (day r) ++ digits 2 (hour r) ++ [digit (wind_unit r)];
   digits 5 (station r);
   digit (i_R r) :: digit (i_x r) :: digit (cloud_base r) :: digits 2 (visibility r);
   digit (cover r) :: digits 2 (direction r) ++ digits 2 (speed r)] ++ (group1_text <$> groups r).

(** Blanks between the groups, an equals sign at the end. *)
Definition separator (following : list bytes) : ascii := match following with [] => "="%char | _ => " "%char end.
Fixpoint closed_groups (gs : list bytes) : bytes :=
  match gs with [] => [] | g :: gs => g ++ separator gs :: closed_groups gs end.
Definition report_text (r : report) : bytes := to_bytes "AAXX " ++ closed_groups (report_groups r).

(** ** The values of a report *)

Definition tenths (z : Z) : spec_float := Dbl.mul (Dbl.of_Z z) tenth.
Definition hectopascal (p : Z) : spec_float :=
  if Dbl.ltb (tenths p) (Dbl.of_Z 500) then Dbl.add (tenths p) (Dbl.of_Z 1000) else tenths p.
(** -1 is the code of the climate database for no precipitation. *)
Definition rain_amount (iR rrr : Z) : spec_float :=
  if (iR =? 3) || (rrr =? 0) then Dbl.of_Z (-1) else if 990 <=? rrr then tenths (rrr - 990) else Dbl.of_Z rrr.
Definition wind_speed (unit ff : Z) : spec_float := if unit <? 3 then Dbl.of_Z ff else Dbl.mul (Dbl.of_Z ff) knot.

Section values.
Context {LM : LibM}.

Definition values (iR ix : Z) (m : gmap Z spec_float) (g : group1) : list (Z * spec_float) :=
  match g with
  | Temperature t => [(syn.TTT, tenths t)]
  | DewPoint t => (syn.TdTdTd, tenths t) :: match m !! syn.TTT with
                                            | Some t0 => [(syn.UUU, Dbl.of_Z (humidity t0 (tenths t)))]
                                            | None => []
                                            end
  | StationPressure p => [(syn.P0P0P0P0, hectopascal p)]
  | SeaPressure p => [(syn.PPPP, hectopascal p)]
  | Tendency a p => [(syn.a, Dbl.of_Z a); (syn.ppp, tenths p)]
  | Rain rrr t => [(syn.tr, Dbl.of_Z t); (precipitation_par t, rain_amount iR rrr)]
  | Weather ww w1 w2 =>
      if ix =? 7 then [(syn.wawa, Dbl.of_Z ww); (syn.Wa1, Dbl.of_Z w1); (syn.Wa2, Dbl.of_Z w2)]
      else [(syn.ww, Dbl.of_Z ww); (syn.W1, Dbl.of_Z w1); (syn.W2, Dbl.of_Z w2)]
  | Clouds nh cl cm ch => [(syn.Nh, Dbl.of_Z nh); (syn.Cl, Dbl.of_Z cl); (syn.Cm, Dbl.of_Z cm); (syn.Ch, Dbl.of_Z ch)]
  end.

Definition put (m : gmap Z spec_float) (l : list (Z * spec_float)) : gmap Z spec_float :=
  foldl (fun m pv => <[pv.1 := pv.2]> m) m l.

(** The first two groups. *)
Definition first_values (r : report) : list (Z * spec_float) :=
  [(syn.ir, Dbl.of_Z (i_R r)); (syn.ix, Dbl.of_Z (i_x r)); (syn.h, Dbl.of_Z (h_metres (cloud_base r)));
   (syn.VV, Dbl.of_Z (vv_metres (visibility r)));
   (syn.N, Dbl.of_Z (cover r)); (syn.dd, Dbl.of_Z (if direction r =? 99 then -3 else 10 * direction r));
   (syn.ff, wind_speed (wind_unit r) (speed r))].

Definition report_values (r : report) : gmap Z spec_float :=
  foldl (fun m g => put m (values (i_R r) (i_x r) m g)) (put ∅ (first_values r)) (groups r).
End values.

Definition sample_report : report :=
  {| day := 22; hour := 21; wind_unit := 1; station := 22231; i_R := 2; i_x := 2; cloud_base := 2; visibility := 58;
     cover := 2; direction := 22; speed := 7;
     groups := [Temperature (-23); DewPoint (-41); SeaPressure 132; Rain 5 1; Clouds 7 2 3 4] |}.
Example sample_report_text : report_text sample_report = to_bytes "AAXX 22211 22231 22258 22207 11023 21041 40132 60051 87234=".
Proof. by_decision. Qed.

(** ** Reading a report *)

Section reading.
Context {LM : LibM}.

(** What no group of the first section changes. *)
Record keeps (s s' : synop) : Prop := {
  k_section : section s' = section s;
  k_type : type s' = type s;
  k_wunit : wunit s' = wunit s;
  k_error : unrecognised s' = unrecognised s;
  k_info : pinfo s' = pinfo s;
  k_element : element s' = element s;
  k_group : group s' = group s
}.

Lemma keeps_refl s : keeps s s.
Proof. done. Qed.
Lemma keeps_buffer par v s s' : keeps s s' -> keeps s (setBuffer par v s').
Proof. by intros []. Qed.

(** Reading a part of a group: [pre] stands before it. *)
Lemma read_digit pre z post token n : token = pre ++ digit z :: post -> length pre = n -> is_digit_value z = true ->
  readToken token n 0 = z.
Proof. intros -> <-. unfold is_digit_value. intros H. bool_to_prop. apply readToken_digit. lia. Qed.
Lemma read_number pre n z post token k : token = pre ++ digits n z ++ post -> length pre = k -> (0 < n <= 9)%nat ->
  0 <= z < 10 ^ Z.of_nat n -> readToken token k n = z.
Proof. intros -> <-. apply readToken_number. Qed.

(** A temperature, at the place of its sign. *)
Lemma of_Z_neg z : 0 < z < 1000 -> Dbl.mul (Dbl.of_Z z) (Dbl.of_Z (-1)) = Dbl.of_Z (- z).
Proof.
  intros Hz. assert (H : forall z, 0 <= z < 1000 -> z =? 0 = false -> Dbl.mul (Dbl.of_Z z) (Dbl.of_Z (-1)) = Dbl.of_Z (- z)).
  { refine (Z_range_ind (fun z => z =? 0 = false -> Dbl.mul (Dbl.of_Z z) (Dbl.of_Z (-1)) = Dbl.of_Z (- z)) 1000 _). by_decision. }
  apply H; lia.
Qed.
Lemma of_Z_one z : 0 <= z < 1000 -> Dbl.mul (Dbl.of_Z z) (Dbl.of_Z 1) = Dbl.of_Z z.
Proof. revert z. refine (Z_range_ind (fun z => Dbl.mul (Dbl.of_Z z) (Dbl.of_Z 1) = Dbl.of_Z z) 1000 _). by_decision. Qed.
(** Rounding a number that is not negative gives no negative number and no NaN. *)
Lemma shr_nonneg mrs e n : 0 <= shr_m mrs -> 0 <= shr_m (shr mrs e n).1.
Proof.
  intros H. destruct n as [|p|]; [done| |done]. cbn [shr fst]. revert mrs H.
  assert (H1 : forall mrs, 0 <= shr_m mrs -> 0 <= shr_m (shr_1 mrs)) by (by intros [[|[]|] r t]; simpl; intros ?; lia).
  induction p as [p IH|p IH|]; intros mrs H; cbn [iter_pos]; auto.
Qed.

Lemma of_Z_not_less z : 0 <= z -> Dbl.ltb (Dbl.of_Z undef) (Dbl.of_Z z) = true.
Proof.
  intros Hz. change (Dbl.of_Z undef) with (S754_finite true 6871878954123264 (-36)).
  unfold Dbl.of_Z, binary_normalize. destruct z as [|p|]; [done| |lia].
  unfold binary_round. destruct (shl_align p 0 _) as [mz ez]. unfold binary_round_aux.
  destruct (shr_fexp Dbl.prec Dbl.emax (Z.pos mz) ez loc_Exact) as [mrs' e'] eqn:E'.
  assert (H' : 0 <= shr_m mrs') by (replace mrs' with (shr_fexp Dbl.prec Dbl.emax (Z.pos mz) ez loc_Exact).1 by (by rewrite E');
    by apply shr_nonneg).
  destruct (shr_fexp _ _ (round_nearest_even _ _) _ _) as [mrs'' e''] eqn:E''.
  assert (H'' : 0 <= shr_m mrs'').
  { replace mrs'' with (shr_fexp Dbl.prec Dbl.emax (round_nearest_even (shr_m mrs') (loc_of_shr_record mrs')) e' loc_Exact).1
      by (by rewrite E''). apply shr_nonneg. unfold round_nearest_even. destruct (loc_of_shr_record mrs') as [|[]]; simpl; try lia.
    destruct (Z.even _); lia. }
  by destruct (shr_m mrs'') as [|m|]; [|destruct (e'' <=? _)|].
Qed.

Lemma of_Z_defined z : -1000 < z -> Dbl.ltb (Dbl.of_Z undef) (Dbl.of_Z z) = true.
Proof.
  intros Hz. destruct (Z.le_gt_cases 0 z); [by apply of_Z_not_less|].
  assert (H1 : 0 <= - z < 1000) by lia. rewrite <- (Z.opp_involutive z). revert H1. generalize (- z).
  refine (Z_range_ind (fun z => Dbl.ltb (Dbl.of_Z undef) (Dbl.of_Z (- z)) = true) 1000 _). by_decision.
Qed.

Lemma scale_tenth z : -1000 < z -> scale (Dbl.of_Z z) tenth = tenths z.
Proof. intros Hz. unfold scale. by rewrite of_Z_defined. Qed.

Lemma read_temperature t post par s : -1000 < t < 1000 ->
  setTemperature (signed t ++ post) par sn s = setBuffer par (tenths t) s.
Proof.
  intros Ht. unfold setTemperature. cbv zeta.
  rewrite (read_number [digit (if t <? 0 then 1 else 0)] 3 (Z.abs t) post) by (done || lia || (simpl; lia)).
  rewrite of_Z_defined by lia. unfold signed. cbn [app char_at nth]. unfold sign. destruct (Z.ltb_spec t 0).
  - change (char_val (digit 1) - zero) with 1. cbn [Z.eqb]. rewrite of_Z_neg by lia. rewrite scale_tenth by lia. do 2 f_equal. lia.
  - change (char_val (digit 0) - zero) with 0. cbn [Z.eqb]. rewrite of_Z_one by lia. rewrite scale_tenth by lia. do 2 f_equal. lia.
Qed.

Lemma read_pressure p post par s : 0 <= p < 10000 -> setPressure (digits 4 p ++ post) par s = setBuffer par (hectopascal p) s.
Proof.
  intros Hp. unfold setPressure. cbv zeta. rewrite (read_number [] 4 p post) by (done || lia || (simpl; lia)).
  by rewrite scale_tenth by lia.
Qed.

Lemma int_of_digit z : is_digit_value z = true -> int_of (Dbl.of_Z z) = z.
Proof.
  unfold is_digit_value. intros H. bool_to_prop. assert (Hz : 0 <= z < 10) by lia. clear H H0. revert z Hz.
  refine (Z_range_ind (fun z => int_of (Dbl.of_Z z) = z) 10 _). by_decision.
Qed.

Ltac side := first [reflexivity | done | lia | (simpl; lia) | (unfold is_digit_value; lia) | (cbn [app]; rewrite <- ?app_assoc; reflexivity)].

(** Reading one group. *)
Lemma read_group g sep iR ix s : group_ok g = true -> group s = group_number g ->
  is_digit_value iR = true -> is_digit_value ix = true ->
  obs s !! syn.ir = Some (Dbl.of_Z iR) -> obs s !! syn.ix = Some (Dbl.of_Z ix) ->
  exists s', sort111_group (group1_text g ++ [sep]) s = Some s' /\ keeps s s' /\ obs s' = put (obs s) (values iR ix (obs s) g).
Proof.
  intros Hg En HR Hx Eir Eix. unfold sort111_group. rewrite En. unfold group1_text, is_digit_value in *.
  destruct g; cbn [group_number group_digits group_ok values put foldl fst snd app drop char_at nth] in *; rewrite ?drop_0; bool_to_prop.
  - rewrite read_temperature by lia. by eexists.
  - rewrite bool_decide_true by (unfold signed; destruct (t <? 0); by_decision). rewrite read_temperature by lia. unfold computeUUU.
    cbn [setBuffer set_obs obs]. rewrite lookup_insert_eq, lookup_insert_ne by done.
    destruct (obs s !! syn.TTT); by eexists.
  - rewrite read_pressure by lia. by eexists.
  - rewrite read_pressure by lia.
    assert (Hd : is_digit_value (p / 10 / 10 / 10 mod 10) = true) by (pose proof (Z.mod_pos_bound (p / 10 / 10 / 10) 10); unfold is_digit_value; lia).
    erewrite (read_digit [] (p / 10 / 10 / 10 mod 10) _ (digits 4 p ++ [sep])) by side.
    assert (Hc : (p / 10 / 10 / 10 mod 10 =? 0) || (p / 10 / 10 / 10 mod 10 =? 9) = true).
    { apply orb_true_iff in Hg as [Hg|Hg]; bool_to_prop; Z.to_euclidean_division_equations; lia. }
    rewrite Hc. by eexists.
  - unfold setToken, setScaledToken. rewrite (read_digit [] a (digits 3 p ++ [sep])) by side. rewrite (read_number [digit 5; digit a] 3 p [sep]) by side.
    rewrite scale_tenth by lia. by eexists.
  - unfold setPrecipitation. cbv zeta. rewrite (read_digit (digit 6 :: digits 3 rrr) t [sep]) by side.
    rewrite (read_number [digit 6] 3 rrr ([digit t] ++ [sep])) by side.
    unfold value_int. cbn [setBuffer set_obs obs]. rewrite lookup_insert_ne, Eir by done. cbn [fmap option_fmap option_map].
    rewrite int_of_digit by (unfold is_digit_value; lia). unfold rain_amount.
    eexists. split; [reflexivity|]. split; [done|]. cbn. do 2 f_equal.
    destruct (iR =? 3); [done|]. cbn [orb]. destruct (rrr =? 0); [done|]. destruct (990 <=? rrr) eqn:E9; [|done].
    apply scale_tenth. lia.
  - unfold value_int. rewrite Eix. cbn [fmap option_fmap option_map]. rewrite int_of_digit by (unfold is_digit_value; lia).
    unfold setToken.
    rewrite (read_number [digit 7] 2 ww ([digit w1; digit w2] ++ [sep])) by side.
    rewrite (read_digit (digit 7 :: digits 2 ww) w1 ([digit w2] ++ [sep]) _ 3) by side.
    rewrite (read_digit (digit 7 :: digits 2 ww ++ [digit w1]) w2 [sep] _ 4) by side.
    destruct (Z.eqb_spec ix 7) as [->|Hne]; [rewrite bool_decide_true by done|rewrite bool_decide_false by congruence]; by eexists.
  - unfold setToken.
    rewrite (read_digit [digit 8] nh ([digit cl; digit cm; digit ch] ++ [sep]) _ 1) by side.
    rewrite (read_digit [digit 8; digit nh] cl ([digit cm; digit ch] ++ [sep]) _ 2) by side.
    rewrite (read_digit [digit 8; digit nh; digit cl] cm ([digit ch] ++ [sep]) _ 3) by side.
    rewrite (read_digit [digit 8; digit nh; digit cl; digit cm] ch [sep] _ 4) by side. by eexists.
Qed.

(** ** Reading the groups of a report *)

Definition all_digits (t : bytes) : Prop := length t = 5%nat /\ Forall (fun c => exists d, 0 <= d < 10 /\ c = digit d) t.

Lemma all_digits_text t : all_digits t -> group_text t /\ is_trash t = false.
Proof.
  intros [Hl Ht]. split.
  - split; [done|]. eapply Forall_impl; [exact Ht|]. intros c (d & Hd & ->). apply (digit_props d Hd).
  - destruct t as [|c t]; [done|]. apply Forall_cons in Ht as [(d & Hd & ->) _]. unfold is_trash. cbn [forallb].
    by rewrite (proj2 (proj2 (proj2 (digit_props d Hd)))).
Qed.

(** A group that might begin the second section is sorted all the same when it
    stands among the first groups. *)
Lemma act_group t sep s : all_digits t ->
  take 3 t <> to_bytes "222" \/ section s = S000 \/ (section s = S111 /\ element s < 2) ->
  act (group_call t) (t ++ [sep]) s = sortToken (t ++ [sep]) false s.
Proof.
  intros Ht Hs. destruct (all_digits_text t Ht) as [_ Htr]. unfold group_call. rewrite Htr. case_bool_decide as E; [|done].
  cbn [act]. unfold fetchSection. cbv zeta.
  assert (readToken (t ++ [sep]) 0 0 = 2) as ->.
  { rewrite <- (take_drop 3 t), E. apply (read_digit [] 2 (digit 2 :: digit 2 :: drop 3 t ++ [sep])); try done. }
  cbn [Z.eqb Pos.eqb andb]. destruct Hs as [|[Hs|[Hs He]]]; [done| |]; cbn [section set_tokenType element]; rewrite Hs;
    rewrite ?(bool_decide_true (S000 = S000)), ?(bool_decide_false (S111 = S000)), ?(bool_decide_true (S111 = S111)) by done;
    cbn [orb andb]; [done|]. by rewrite (proj2 (Z.ltb_lt _ _) He).
Qed.

Lemma act_first t sep s : all_digits t -> section s = S000 ->
  act (group_call t) (t ++ [sep]) s =
  Some (sort000Token (t ++ [sep]) (set_tokenType NORMALTOKEN (set_element (element s + 1) (set_raw (raw s ++ t ++ [sep]) s)))).
Proof.
  intros Ht Hs. rewrite act_group by auto. unfold sortToken. cbv zeta. cbn [section set_tokenType set_element set_raw element].
  rewrite Hs. rewrite bool_decide_false by done. destruct Ht as [Hl Ht]. destruct t as [|c t]; [done|].
  apply Forall_cons in Ht as [(d & Hd & ->) _]. rewrite (read_digit [] d (t ++ [sep])); [|done|done|unfold is_digit_value; lia].
  by rewrite (proj2 (Z.eqb_neq d undef)) by (unfold undef; lia).
Qed.

Lemma act_second t sep s : all_digits t -> section s = S111 -> take 3 t <> to_bytes "222" \/ element s < 2 ->
  act (group_call t) (t ++ [sep]) s =
  sort111Token (t ++ [sep]) (set_tokenType NORMALTOKEN (set_element (element s + 1) (set_raw (raw s ++ t ++ [sep]) s))).
Proof.
  intros Ht Hs He. rewrite act_group by tauto. unfold sortToken. cbv zeta. cbn [section set_tokenType set_element set_raw element].
  rewrite Hs. rewrite bool_decide_false, bool_decide_true by done. by rewrite andb_false_r.
Qed.

(** The state behind the groups of the first section. *)
Record reads (r : report) (k : Z) (s : synop) : Prop := {
  rd_section : section s = S111;
  rd_element : 2 <= element s;
  rd_group : group s = k;
  rd_error : unrecognised s = [];
  rd_type : type s = SYNOP;
  rd_info : YY (pinfo s) = day r /\ GG (pinfo s) = hour r /\ IIiii (pinfo s) = station r;
  rd_ir : obs s !! syn.ir = Some (Dbl.of_Z (i_R r));
  rd_ix : obs s !! syn.ix = Some (Dbl.of_Z (i_x r))
}.

Lemma group1_digits g : group_ok g = true -> all_digits (group1_text g) /\ take 3 (group1_text g) <> to_bytes "222".
Proof.
  assert (D : forall n z, Forall (fun c => exists d, 0 <= d < 10 /\ c = digit d) (digits n z)) by (intros; apply digits_all; eauto).
  intros Hg. unfold group1_text, all_digits. split; [split|].
  - destruct g; done.
  - destruct g; cbn [group_ok group_digits group_number] in *; unfold is_digit_value, signed in *; bool_to_prop;
      repeat first [apply D | apply Forall_app; split | apply Forall_cons; split | apply Forall_nil; exact I];
      (eexists; split; [|reflexivity]; first [lia | destruct (t <? 0); lia]).
  - intros E. destruct g; try (apply (f_equal head) in E; vm_compute in E; congruence).
    apply (f_equal (fun l => nth 1 l nul)) in E. unfold group_number, group_digits, signed in E. cbn [take nth] in E.
    destruct (t <? 0); vm_compute in E; congruence.
Qed.

(** The four groups that every report has. *)
Definition unit_of (r : report) : windunit := if wind_unit r <? 3 then MS else KT.

Ltac digit_list D := repeat first [apply D | apply Forall_app; split | apply Forall_cons; split | apply Forall_nil; exact I];
  eexists; (split; [|reflexivity]); lia.

Lemma first_groups_digits r : report_ok r = true -> Forall all_digits (take 4 (report_groups r)).
Proof.
  assert (D : forall n z, Forall (fun c => exists d, 0 <= d < 10 /\ c = digit d) (digits n z)) by (intros; apply digits_all; eauto).
  unfold report_ok, is_digit_value. intros H. bool_to_prop. cbn [report_groups take app].
  repeat apply Forall_cons_2; try apply Forall_nil_2; (split; [done|]); digit_list D.
Qed.

Lemma read_time r e s : report_ok r = true -> section s = S000 -> type s = SYNOP -> element s = 0 ->
  let t := digits 2 (day r) ++ digits 2 (hour r) ++ [digit (wind_unit r)] in
  exists s', act (group_call t) (t ++ [e]) s = Some s' /\ section s' = S000 /\ type s' = SYNOP /\ element s' = 1 /\
    unrecognised s' = unrecognised s /\ obs s' = obs s /\ wunit s' = Some (unit_of r) /\
    YY (pinfo s') = day r /\ GG (pinfo s') = hour r.
Proof.
  intros Hr Hs Ht He t. pose proof (first_groups_digits r Hr) as Hd. apply Forall_cons in Hd as [Hd _].
  unfold t. rewrite act_first by (exact Hd || done). set (s1 := set_tokenType _ _). unfold sort000Token, sortSynop000Token, setYYGGiw.
  change (type s1) with (type s). change (element s1) with (element s + 1). rewrite Ht, He, bool_decide_true by done. change (0 + 1) with 1. cbv iota.
  unfold report_ok, is_digit_value in Hr. bool_to_prop. cbv zeta.
  rewrite (read_number [] 2 (day r) (digits 2 (hour r) ++ [digit (wind_unit r)] ++ [e]) _ 0) by side.
  rewrite (read_number (digits 2 (day r)) 2 (hour r) ([digit (wind_unit r)] ++ [e]) _ 2) by side.
  rewrite (read_digit (digits 2 (day r) ++ digits 2 (hour r)) (wind_unit r) [e] _ 4) by side.
  eexists. split; [reflexivity|]. unfold unit_of.
  rewrite (proj2 (Z.ltb_ge (wind_unit r) 0)), (proj2 (Z.ltb_ge 4 (wind_unit r))) by lia. split_and!; try done. simpl. by rewrite He.
Qed.

Lemma read_station r e s : report_ok r = true -> section s = S000 -> type s = SYNOP -> element s = 1 ->
  exists s', act (group_call (digits 5 (station r))) (digits 5 (station r) ++ [e]) s = Some s' /\ section s' = S111 /\ type s' = SYNOP /\
    element s' = 0 /\ group s' = -1 /\ unrecognised s' = unrecognised s /\ obs s' = obs s /\ wunit s' = wunit s /\
    YY (pinfo s') = YY (pinfo s) /\ GG (pinfo s') = GG (pinfo s) /\ IIiii (pinfo s') = station r.
Proof.
  intros Hr Hs Ht He. pose proof (first_groups_digits r Hr) as Hd. apply Forall_cons in Hd as [_ Hd]. apply Forall_cons in Hd as [Hd _].
  rewrite act_first by (exact Hd || done). set (s1 := set_tokenType _ _). unfold sort000Token, sortSynop000Token.
  change (type s1) with (type s). change (element s1) with (element s + 1). rewrite Ht, He, bool_decide_true by done. change (1 + 1) with 2. cbv iota.
  unfold report_ok, is_digit_value in Hr. bool_to_prop. rewrite (read_number [] 5 (station r) [e] _ 0) by side.
  eexists. split; [reflexivity|]. unfold fetchSection_111, enter_section. cbv zeta.
  cbn [section set_section set_group set_element set_tokenType set_info set_pinfo s1 set_raw]. rewrite Hs. by split_and!.
Qed.

Lemma read_indicators r e s : report_ok r = true -> section s = S111 -> element s = 0 ->
  let t := digit (i_R r) :: digit (i_x r) :: digit (cloud_base r) :: digits 2 (visibility r) in
  exists s', act (group_call t) (t ++ [e]) s = Some s' /\ section s' = S111 /\ type s' = type s /\ element s' = 1 /\
    group s' = group s /\ unrecognised s' = unrecognised s /\ wunit s' = wunit s /\ pinfo s' = pinfo s /\
    obs s' = put (obs s) (take 4 (first_values r)).
Proof.
  intros Hr Hs He t. pose proof (first_groups_digits r Hr) as Hd. apply Forall_cons in Hd as [_ Hd]. apply Forall_cons in Hd as [_ Hd]. apply Forall_cons in Hd as [Hd _].
  unfold t. rewrite act_second by (exact Hd || done || (right; lia)). set (s1 := set_tokenType _ _). unfold sort111Token.
  change (element s1) with (element s + 1). rewrite He. change (0 + 1) with 1. cbn [Z.ltb Z.compare Pos.compare Pos.compare_cont]. cbv zeta.
  unfold report_ok, is_digit_value in Hr. bool_to_prop. unfold setToken, setHorizontalVisibillity, setCloudBaseHeight.
  rewrite (read_digit [] (i_R r) (digit (i_x r) :: digit (cloud_base r) :: digits 2 (visibility r) ++ [e]) _ 0) by side.
  rewrite (read_digit [digit (i_R r)] (i_x r) (digit (cloud_base r) :: digits 2 (visibility r) ++ [e]) _ 1) by side.
  rewrite (read_digit [digit (i_R r); digit (i_x r)] (cloud_base r) (digits 2 (visibility r) ++ [e]) _ 2) by side.
  rewrite (read_number [digit (i_R r); digit (i_x r); digit (cloud_base r)] 2 (visibility r) [e] _ 3) by side.
  eexists. split; [reflexivity|]. split_and!; try done. simpl. by rewrite He.
Qed.

Lemma times_ten z : 0 <= z < 100 -> scale (Dbl.of_Z z) (Dbl.of_Z 10) = Dbl.of_Z (10 * z).
Proof. revert z. refine (Z_range_ind (fun z => scale (Dbl.of_Z z) (Dbl.of_Z 10) = Dbl.of_Z (10 * z)) 100 _). by_decision. Qed.

Lemma read_wind r e s : report_ok r = true -> section s = S111 -> element s = 1 -> wunit s = Some (unit_of r) ->
  let t := digit (cover r) :: digits 2 (direction r) ++ digits 2 (speed r) in
  exists s', act (group_call t) (t ++ [e]) s = Some s' /\ section s' = S111 /\ type s' = type s /\ element s' = 2 /\
    group s' = group s /\ unrecognised s' = unrecognised s /\ pinfo s' = pinfo s /\
    obs s' = put (obs s) (drop 4 (first_values r)).
Proof.
  intros Hr Hs He Hw t. pose proof (first_groups_digits r Hr) as Hd. apply Forall_cons in Hd as [_ Hd]. apply Forall_cons in Hd as [_ Hd]. apply Forall_cons in Hd as [_ Hd]. apply Forall_cons in Hd as [Hd _].
  unfold t. rewrite act_second by (exact Hd || done || (right; lia)). set (s1 := set_tokenType _ _). unfold sort111Token.
  change (element s1) with (element s + 1). rewrite He. change (1 + 1) with 2. cbn [Z.ltb Z.compare Pos.compare Pos.compare_cont]. cbv zeta.
  unfold report_ok, is_digit_value in Hr. bool_to_prop. unfold setToken, setScaledSubstituteToken, setWind. cbv zeta.
  rewrite (read_digit [] (cover r) (digits 2 (direction r) ++ digits 2 (speed r) ++ [e]) _ 0) by side.
  rewrite (read_number [digit (cover r)] 2 (direction r) (digits 2 (speed r) ++ [e]) _ 1) by side.
  rewrite (read_number (digit (cover r) :: digits 2 (direction r)) 2 (speed r) [e] _ 3) by side.
  cbn [wunit setBuffer set_obs]. change (wunit s1) with (wunit s). rewrite Hw. rewrite times_ten by lia.
  unfold unit_of, first_values, wind_speed. cbn [drop put foldl fst snd].
  destruct (wind_unit r <? 3); (eexists; split; [reflexivity|]); (split_and!; try done; simpl; try by rewrite He);
    by destruct (direction r =? 99).
Qed.

Fixpoint closed_calls (gs : list bytes) : list (call * bytes) :=
  match gs with [] => [] | g :: gs => (group_call g, g ++ [separator gs]) :: closed_calls gs end.

Lemma separator_closed gs : Forall all_digits gs -> closed (separator gs) (closed_groups gs).
Proof.
  intros H. destruct H as [|g gs [Hl Hg] _]; [by right|]. left. split; [done|]. destruct g as [|c g]; [done|]. cbn [closed_groups app head from_option].
  apply Forall_cons in Hg as [(d & Hd & ->) _]. apply value_nonblank. apply (digit_props d Hd).
Qed.

Lemma calls_closed gs : Forall all_digits gs -> calls (closed_groups gs) = closed_calls gs.
Proof.
  induction 1 as [|g gs Hg Hgs IH]; [done|]. cbn [closed_groups closed_calls].
  rewrite calls_group; [by rewrite IH|by apply all_digits_text|by apply separator_closed].
Qed.

Lemma forallb_Forall {A} (f : A -> bool) l : forallb f l = true -> Forall (fun x => f x = true) l.
Proof. rewrite forallb_forall, Forall_forall. by setoid_rewrite list_elem_of_In. Qed.

Lemma report_digits r : report_ok r = true -> Forall all_digits (report_groups r).
Proof.
  intros Hr. rewrite <- (take_drop 4 (report_groups r)). apply Forall_app. split; [by apply first_groups_digits|].
  unfold report_groups. cbn [drop app]. rewrite drop_0. unfold report_ok in Hr. apply andb_prop in Hr as [_ Hr].
  apply Forall_fmap. eapply Forall_impl; [exact (forallb_Forall _ _ Hr)|]. intros g Hg. by apply group1_digits.
Qed.

Lemma before_nul_id t : Forall (fun c => c <> nul) t -> before_nul t = t.
Proof.
  unfold before_nul. induction 1 as [|c t Hc _ IH]; [done|]. cbn [span]. unfold is_char at 1. rewrite bool_decide_false by done. cbn [negb].
  destruct (span _ t) as [a b]. simpl in *. by rewrite IH.
Qed.

Lemma report_calls r : report_ok r = true -> calls (before_nul (report_text r)) = (setType_, to_bytes "AAXX ") :: closed_calls (report_groups r).
Proof.
  intros Hr. pose proof (report_digits r Hr) as Hd. assert (before_nul (report_text r) = report_text r) as ->.
  { apply before_nul_id, Forall_app. split; [by_decision|]. revert Hd. clear. induction 1 as [|g gs [_ Hg] _ IH]; [constructor|].
    cbn [closed_groups]. apply Forall_app. split; [|constructor; [by destruct gs|done]].
    eapply Forall_impl; [exact Hg|]. intros c (d & Hd & ->) E. pose proof (proj1 (digit_props d Hd)) as Hv. rewrite E in Hv.
    change (char_val nul) with 0 in Hv. lia. }
  unfold report_text. change (to_bytes "AAXX ") with (to_bytes "AAXX" ++ [" "%char]). rewrite <- app_assoc. cbn [app].
  rewrite calls_type; [by rewrite calls_closed|set_solver|].
  left. split; [done|]. by destruct (separator_closed _ Hd) as [[_ H]|[? ?]].
Qed.

Lemma put_lookup m l par : Forall (fun pv : Z * spec_float => pv.1 <> par) l -> put m l !! par = m !! par.
Proof.
  intros H. revert m. induction H as [|[p v] l Hp _ IH]; intros m; [done|]. cbn [put foldl] in *. unfold put in IH. rewrite IH.
  by rewrite lookup_insert_ne.
Qed.

(** No group changes the two indicators. *)
Lemma values_indicators iR ix m g par : par ∈ [syn.ir; syn.ix] -> Forall (fun pv : Z * spec_float => pv.1 <> par) (values iR ix m g).
Proof.
  intros Hp. assert (H : Forall (fun pv : Z * spec_float => pv.1 ∉ [syn.ir; syn.ix]) (values iR ix m g)).
  { destruct g; cbn [values]; [| | | | | |destruct (ix =? 7)|]; repeat (apply Forall_cons; split); try apply Forall_nil_2; cbn [fst];
      lazymatch goal with |- precipitation_par _ ∉ _ => idtac | |- _ ∉ _ => by_decision | |- _ => idtac end.
    - destruct (m !! syn.TTT); [|by apply Forall_nil]. apply Forall_singleton. cbn [fst]. by_decision.
    - cbn [fst]. unfold precipitation_par. repeat case_match; by_decision. }
  eapply Forall_impl; [exact H|]. intros pv Hn E. apply Hn. rewrite E. exact Hp.
Qed.

(** The groups behind the first four. *)
Lemma read_groups r gs k s : is_digit_value (i_R r) = true -> is_digit_value (i_x r) = true ->
  Forall (fun g => group_ok g = true) gs -> ascending k gs = true -> reads r k s ->
  exists s', acts (closed_calls (group1_text <$> gs)) s = Some s' /\ unrecognised s' = [] /\ pinfo s' = pinfo s /\
    type s' = SYNOP /\ obs s' = foldl (fun m g => put m (values (i_R r) (i_x r) m g)) (obs s) gs.
Proof.
  intros HR Hx Hgs. revert k s. induction Hgs as [|g gs Hg Hgs IH]; intros k s Ha H; [by exists s; destruct H|].
  cbn [fmap list_fmap closed_calls acts ascending] in *. apply andb_prop in Ha as [Hk Ha]. destruct (group1_digits g Hg) as [Hd Hn].
  rewrite act_second; [|done|by apply H|by left]. set (s1 := set_tokenType _ _). unfold sort111Token.
  pose proof (rd_element _ _ _ H) as He. change (element s1) with (element s + 1). destruct (Z.ltb_spec 2 (element s + 1)); [|lia].
  set (e := separator _). assert (Hc : checkOrder (group1_text g ++ [e]) s1 = set_group (group_number g) s1).
  { unfold checkOrder. cbv zeta. rewrite (read_digit [] (group_number g) (group_digits g ++ [e]) _ 0) by (done || by destruct g).
    change (group s1) with (group s). rewrite (rd_group _ _ _ H). apply Z.ltb_lt in Hk.
    destruct (Z.ltb_spec (group_number g) k); [lia|]. change (group s1) with (group s). rewrite (rd_group _ _ _ H).
    by destruct (Z.eqb_spec (group_number g) k); [lia|]. }
  rewrite Hc. destruct (read_group g e (i_R r) (i_x r) (set_group (group_number g) s1)) as (s2 & E & Hkeep & Ho);
    [done..|by apply H|by apply H|]. rewrite E. cbn [mbind option_bind].
  destruct (IH (group_number g) s2 Ha) as (s3 & E3 & He3 & Hi3 & Ht3 & Ho3).
  { destruct H, Hkeep. split; [by rewrite k_section0| |by rewrite k_group0|by rewrite k_error0|by rewrite k_type0|by rewrite k_info0|..].
    - rewrite k_element0. cbn. lia.
    - rewrite Ho, put_lookup by (apply values_indicators; set_solver). done.
    - rewrite Ho, put_lookup by (apply values_indicators; set_solver). done. }
  exists s3. split; [done|]. split_and!; [done| |done|].
  - rewrite Hi3. apply Hkeep.
  - rewrite Ho3, Ho. done.
Qed.

(** The parse of a printed report. *)
Lemma read_report (r : report) (hs : bool) : report_ok r = true -> ascending 0 (groups r) = true ->
  exists s, lexSynop (report_text r) hs = Some s /\ unrecognised s = [] /\ type s = SYNOP /\
    YY (pinfo s) = day r /\ GG (pinfo s) = hour r /\ IIiii (pinfo s) = station r /\ obs s = report_values r.
Proof.
  intros Hr Ha. unfold lexSynop. rewrite report_calls by done. unfold report_groups.
  rewrite <- !app_comm_cons, app_nil_l. cbn [acts closed_calls separator].
  change (act setType_ ?t ?s) with (Some (setType t s)). cbn [mbind option_bind]. set (s0 := setType _ _). destruct (read_time r " " s0 Hr eq_refl eq_refl eq_refl) as (s1 & E1 & Hs1 & Ht1 & He1 & Hu1 & Ho1 & Hw1 & HY1 & HG1).
  rewrite E1. cbn [mbind option_bind].
  destruct (read_station r " " s1 Hr Hs1 Ht1 He1) as (s2 & E2 & Hs2 & Ht2 & He2 & Hg2 & Hu2 & Ho2 & Hw2 & HY2 & HG2 & HI2).
  rewrite E2. cbn [mbind option_bind].
  destruct (read_indicators r " " s2 Hr Hs2 He2) as (s3 & E3 & Hs3 & Ht3 & He3 & Hg3 & Hu3 & Hw3 & Hi3 & Ho3).
  rewrite E3. cbn [mbind option_bind].
  destruct (read_wind r (separator (group1_text <$> groups r)) s3 Hr Hs3 He3 ltac:(congruence)) as (s4 & E4 & Hs4 & Ht4 & He4 & Hg4 & Hu4 & Hi4 & Ho4).
  rewrite E4. cbn [mbind option_bind].
  assert (Hv : obs s4 = put ∅ (first_values r)) by (rewrite Ho4, Ho3, Ho2, Ho1; done).
  destruct (read_groups r (groups r) (-1) s4) as (s5 & E5 & Hu5 & Hi5 & Ht5 & Ho5).
  - unfold report_ok in Hr. by repeat (apply andb_prop in Hr as [Hr ?]).
  - unfold report_ok in Hr. by repeat (apply andb_prop in Hr as [Hr ?]).
  - unfold report_ok in Hr. apply andb_prop in Hr as [_ Hr]. by apply forallb_Forall.
  - destruct (groups r) as [|g gs]; [done|]. simpl in Ha |- *. apply andb_prop in Ha as [_ ->]. by destruct g.
  - split; try congruence; [lia|by rewrite Hu4, Hu3, Hu2, Hu1|split_and!; congruence|..]; rewrite Hv; unfold first_values; cbn [put foldl fst snd];
      rewrite ?lookup_insert_ne by done; by rewrite lookup_insert_eq.
  - exists s5. split; [done|]. split_and!; try congruence.
    + by rewrite Ho5, Hv.
Qed.

(** C6: a report on land of the first section, printed in the groups of the code
    with its further groups in order, is read without an error: the day, the hour
    and the station are those of the report, and the values are its values. This
    holds also where a group looks like the beginning of the second section. *)
Theorem lexSynop_report (r : report) (hs : bool) : report_ok r = true -> ascending 0 (groups r) = true ->
  exists s, lexSynop (report_text r) hs = Some s /\ unrecognised s = [] /\ typeID s = kvalobsTypeID /\
    YY (pinfo s) = day r /\ GG (pinfo s) = hour r /\ IIiii (pinfo s) = station r /\ obs s = report_values r.
Proof.
  intros Hr Ha. destruct (read_report r hs Hr Ha) as (s & E & Hu & Ht & Hv). exists s. split_and!; try apply Hv; try done.
  unfold typeID. rewrite Ht. by rewrite bool_decide_false.
Qed.
End reading.

Lemma lexSynop_report_witness :
  exists s, lexSynop (LM := {| c_exp := fun x => x |}) (to_bytes "AAXX 22211 22231 22258 22207 11023 21041 40132 60051 87234=") false = Some s /\
    unrecognised s = [] /\ obs s !! syn.RR24 = None /\ obs s !! syn.TTT = Some (tenths (-23)).
Proof.
  rewrite <- sample_report_text.
  destruct (lexSynop_report (LM := {| c_exp := fun x => x |}) sample_report false eq_refl eq_refl) as (s & E & Hu & _ & _ & _ & _ & Ho).
  exists s. split; [exact E|]. split; [exact Hu|]. rewrite Ho. split; by_decision.
Defined.
