(* ===== verification/MiTime.v ===== *)
(** * Civil time: [miutil::miTime] of the library puTools

    The library is not part of the repository. [MiTime] lists the operations that
    the decoder of synoptic messages calls, [MiTimeLaws] what it documents of them:
    a defined time is a valid date and time of day, the differences and comparisons
    are those of the seconds between. The calendar is that of [PTime.v]. *)

From S2P Require Import Prelude Orders PTime.

#[local] Open Scope Z_scope.

Class MiTime := {
  miTime : Type;
  mt_none : miTime;
  mt_undef : miTime -> bool;
  mt_make : Z -> Z -> Z -> Z -> Z -> Z -> miTime;
  mt_year : miTime -> Z;
  mt_month : miTime -> Z;
  mt_day : miTime -> Z;
  mt_hour : miTime -> Z;
  mt_min : miTime -> Z;
  mt_sec : miTime -> Z;
  mt_addDay : miTime -> Z -> miTime;
  mt_gt : miTime -> miTime -> bool;
  mt_minDiff : miTime -> miTime -> Z;
  mt_hourDiff : miTime -> miTime -> Z
}.
Arguments miTime : clear implicits.

(** ** The calendar *)

Definition leap (y : Z) : bool := ((y mod 4 =? 0) && negb (y mod 100 =? 0)) || (y mod 400 =? 0).
Definition month_length (y m : Z) : Z :=
  if m =? 2 then if leap y then 29 else 28
  else if (m =? 4) || (m =? 6) || (m =? 9) || (m =? 11) then 30 else 31.
Definition valid_date (y m d : Z) : Prop := 1 <= m <= 12 /\ 1 <= d <= month_length y m.
Definition valid_clock (h mi s : Z) : Prop := 0 <= h < 24 /\ 0 <= mi < 60 /\ 0 <= s < 60.
Definition secs_of (y m d h mi s : Z) : Z := days_from_civil y m d * 86400 + h * 3600 + mi * 60 + s.

Class MiTimeLaws (MT : MiTime) := {
  mt_secs : miTime MT -> Z;
  mt_fields t : mt_undef t = false ->
    valid_date (mt_year t) (mt_month t) (mt_day t) /\ valid_clock (mt_hour t) (mt_min t) (mt_sec t) /\
    mt_secs t = secs_of (mt_year t) (mt_month t) (mt_day t) (mt_hour t) (mt_min t) (mt_sec t);
  mt_make_valid y m d h mi s : valid_date y m d -> valid_clock h mi s ->
    let t := mt_make y m d h mi s in
    mt_undef t = false /\ mt_year t = y /\ mt_month t = m /\ mt_day t = d /\ mt_hour t = h /\ mt_min t = mi /\ mt_sec t = s;
  mt_make_invalid y m d h mi s : ~ (valid_date y m d /\ valid_clock h mi s) -> mt_undef (mt_make y m d h mi s) = true;
  mt_addDay_secs t n : mt_undef t = false -> mt_undef (mt_addDay t n) = false /\ mt_secs (mt_addDay t n) = mt_secs t + 86400 * n;
  mt_gt_secs t u : mt_undef t = false -> mt_undef u = false -> mt_gt t u = (mt_secs u <? mt_secs t)
}.

(** ** Days and months *)

(** The days before a year that begins in March. *)
Definition days_before_year (y : Z) : Z := 365 * y + y / 4 - y / 100 + y / 400 - 719468.

Lemma days_from_civil_year y m d : 1 <= m <= 12 ->
  days_from_civil y m d = days_before_year (if m <=? 2 then y - 1 else y) + (153 * (if m >? 2 then m - 3 else m + 9) + 2) / 5 + d - 1.
Proof.
  intros Hm. unfold days_from_civil, days_before_year. cbv zeta. set (y' := if m <=? 2 then y - 1 else y). clearbody y'.
  set (k := (153 * _ + 2) / 5). clearbody k. Z.to_euclidean_division_equations. lia.
Qed.

Lemma year_length y : days_before_year y - days_before_year (y - 1) = if leap y then 366 else 365.
Proof.
  unfold days_before_year, leap. destruct (Z.eqb_spec (y mod 4) 0), (Z.eqb_spec (y mod 100) 0), (Z.eqb_spec (y mod 400) 0); cbn [andb orb negb];
    Z.to_euclidean_division_equations; lia.
Qed.

(** The month after. *)
Definition next_month (y m : Z) : Z * Z := if m =? 12 then (y + 1, 1) else (y, m + 1).

Lemma month_start y m : 1 <= m <= 12 ->
  days_from_civil (next_month y m).1 (next_month y m).2 1 = days_from_civil y m 1 + month_length y m.
Proof.
  intros Hm. unfold month_length. generalize (year_length y). generalize (leap y). intros l Hy.
  assert (Hc : m = 1 \/ m = 2 \/ m = 3 \/ m = 4 \/ m = 5 \/ m = 6 \/ m = 7 \/ m = 8 \/ m = 9 \/ m = 10 \/ m = 11 \/ m = 12) by lia.
  destruct_or! Hc; subst m; unfold next_month; simpl Z.eqb; cbn [fst snd orb]; rewrite !days_from_civil_year by lia;
    destruct l; simpl in *; rewrite ?Z.add_simpl_r; Z.to_euclidean_division_equations; lia.
Qed.

Lemma days_in_month y m d : days_from_civil y m d = days_from_civil y m 1 + (d - 1).
Proof. unfold days_from_civil. lia. Qed.

Lemma month_length_range y m : 28 <= month_length y m <= 31.
Proof. unfold month_length. repeat case_match; lia. Qed.

(** Months counted from the year 0. *)
Definition month_index (y m : Z) : Z := 12 * y + (m - 1).
Definition start (k : Z) : Z := days_from_civil (k / 12) (k mod 12 + 1) 1.

Lemma start_index y m : 1 <= m <= 12 -> start (month_index y m) = days_from_civil y m 1.
Proof.
  intros Hm. unfold start, month_index. replace ((12 * y + (m - 1)) / 12) with y by (Z.to_euclidean_division_equations; lia).
  replace ((12 * y + (m - 1)) mod 12 + 1) with m by (Z.to_euclidean_division_equations; lia). done.
Qed.

Lemma start_step k : start (k + 1) = start k + month_length (k / 12) (k mod 12 + 1).
Proof.
  pose proof (Z.mod_pos_bound k 12 ltac:(lia)) as Hm. unfold start at 2. rewrite <- month_start by lia.
  rewrite <- start_index by (unfold next_month; case_match; simpl; lia). f_equal. unfold month_index, next_month.
  destruct (Z.eqb_spec (k mod 12 + 1) 12); simpl; Z.to_euclidean_division_equations; lia.
Qed.

Lemma start_monotone n k : start k + 28 * Z.of_nat n <= start (k + Z.of_nat n).
Proof.
  induction n as [|n IH]; [change (Z.of_nat 0) with 0; rewrite (Z.add_0_r k); lia|]. rewrite Nat2Z.inj_succ. unfold Z.succ. rewrite Z.add_assoc, start_step.
  pose proof (month_length_range ((k + Z.of_nat n) / 12) ((k + Z.of_nat n) mod 12 + 1)). lia.
Qed.

Lemma start_length y m : 1 <= m <= 12 -> start (month_index y m + 1) = days_from_civil y m 1 + month_length y m.
Proof.
  intros Hm. rewrite start_step, start_index by done. do 2 f_equal; unfold month_index; Z.to_euclidean_division_equations; lia.
Qed.

Lemma days_lt y m d y' m' d' : valid_date y m d -> valid_date y' m' d' -> month_index y m < month_index y' m' ->
  days_from_civil y m d < days_from_civil y' m' d'.
Proof.
  intros [Hm Hd] [Hm' Hd'] Hlt. rewrite (days_in_month y), (days_in_month y'). pose proof (start_length y m Hm) as Hs.
  pose proof (start_monotone (Z.to_nat (month_index y' m' - (month_index y m + 1))) (month_index y m + 1)) as H.
  rewrite Z2Nat.id in H by lia. replace (month_index y m + 1 + (month_index y' m' - (month_index y m + 1))) with (month_index y' m') in H by lia.
  rewrite (start_index y' m' Hm') in H. lia.
Qed.

(** A day has one date. *)
Lemma days_from_civil_inj y m d y' m' d' : valid_date y m d -> valid_date y' m' d' ->
  days_from_civil y m d = days_from_civil y' m' d' -> y = y' /\ m = m' /\ d = d'.
Proof.
  intros H H' E. destruct (Z.lt_trichotomy (month_index y m) (month_index y' m')) as [Hl|[He|Hl]].
  - apply (days_lt y m d y' m' d' H H') in Hl. lia.
  - destruct H as [Hm _], H' as [Hm' _]. unfold month_index in He. assert (y = y') as -> by lia. assert (m = m') as -> by lia.
    rewrite (days_in_month y' m' d), (days_in_month y' m' d') in E. split_and!; [done..|lia].
  - apply (days_lt y' m' d' y m d H' H) in Hl. lia.
Qed.

(** The time that is a given number of seconds has the fields that give it. *)
Lemma mt_fields_of {MT : MiTime} {ML : MiTimeLaws MT} t y m d h mi s : mt_undef t = false -> valid_date y m d -> valid_clock h mi s ->
  mt_secs t = secs_of y m d h mi s -> mt_year t = y /\ mt_month t = m /\ mt_day t = d /\ mt_hour t = h.
Proof.
  intros Ht Hd Hc E. destruct (mt_fields t Ht) as (Hd' & Hc' & E'). rewrite E' in E. unfold secs_of, valid_clock in *.
  assert (days_from_civil (mt_year t) (mt_month t) (mt_day t) = days_from_civil y m d) as Ed by lia.
  destruct (days_from_civil_inj _ _ _ _ _ _ Hd' Hd Ed) as (? & ? & ?). split_and!; lia.
Qed.

(** ** An implementation: the fields of the time, going from day to day *)

Definition valid_dateb (y m d : Z) : bool := (1 <=? m) && (m <=? 12) && (1 <=? d) && (d <=? month_length y m).
Definition valid_clockb (h mi s : Z) : bool := (0 <=? h) && (h <? 24) && (0 <=? mi) && (mi <? 60) && (0 <=? s) && (s <? 60).

Lemma valid_dateb_spec y m d : valid_dateb y m d = true <-> valid_date y m d.
Proof. unfold valid_dateb, valid_date. lia. Qed.
Lemma valid_clockb_spec h mi s : valid_clockb h mi s = true <-> valid_clock h mi s.
Proof. unfold valid_clockb, valid_clock. lia. Qed.

Record date := { d_year : Z; d_month : Z; d_day : Z; d_valid : valid_dateb d_year d_month d_day = true }.
Record clock_time := { c_hour : Z; c_min : Z; c_sec : Z; c_valid : valid_clockb c_hour c_min c_sec = true }.

Definition make_date (y m d : Z) : option date :=
  match bool_dec (valid_dateb y m d) true with left H => Some {| d_valid := H |} | right _ => None end.
Definition make_clock (h mi s : Z) : option clock_time :=
  match bool_dec (valid_clockb h mi s) true with left H => Some {| c_valid := H |} | right _ => None end.

Definition next_fields (y m d : Z) : Z * Z * Z :=
  if d <? month_length y m then (y, m, d + 1) else (next_month y m, 1).
Definition prev_fields (y m d : Z) : Z * Z * Z :=
  if 1 <? d then (y, m, d - 1)
  else if m =? 1 then (y - 1, 12, 31) else (y, m - 1, month_length y (m - 1)).

Lemma next_fields_spec y m d : valid_date y m d ->
  let '(y', m', d') := next_fields y m d in valid_date y' m' d' /\ days_from_civil y' m' d' = days_from_civil y m d + 1.
Proof.
  intros [Hm Hd]. unfold next_fields. destruct (Z.ltb_spec d (month_length y m)).
  - split; [split; [done|lia]|]. rewrite (days_in_month y m d), (days_in_month y m (d + 1)). lia.
  - pose proof (month_start y m Hm) as Hs. destruct (next_month y m) as [y' m'] eqn:E. cbn [fst snd] in Hs.
    assert (1 <= m' <= 12) by (unfold next_month in E; case_match; simplify_eq; lia).
    pose proof (month_length_range y' m'). split; [split; [done|lia]|]. rewrite Hs, (days_in_month y m d). lia.
Qed.

Lemma prev_fields_spec y m d : valid_date y m d ->
  let '(y', m', d') := prev_fields y m d in valid_date y' m' d' /\ days_from_civil y' m' d' = days_from_civil y m d - 1.
Proof.
  intros [Hm Hd]. unfold prev_fields. destruct (Z.ltb_spec 1 d).
  - split; [split; [done|lia]|]. rewrite (days_in_month y m d), (days_in_month y m (d - 1)). lia.
  - assert (d = 1) as -> by lia. destruct (Z.eqb_spec m 1) as [->|].
    + split; [split; [lia|vm_compute; split; congruence]|]. pose proof (month_start (y - 1) 12 ltac:(lia)) as Hs.
      change (next_month (y - 1) 12) with (y - 1 + 1, 1) in Hs. cbn [fst snd] in Hs. rewrite Z.sub_add in Hs.
      rewrite Hs, days_in_month. change (month_length (y - 1) 12) with 31. lia.
    + pose proof (month_length_range y (m - 1)). split; [split; lia|]. pose proof (month_start y (m - 1) ltac:(lia)) as Hs.
      unfold next_month in Hs. rewrite (proj2 (Z.eqb_neq (m - 1) 12)) in Hs by lia. cbn [fst snd] in Hs. rewrite Z.sub_add in Hs.
      rewrite Hs, days_in_month. lia.
Qed.

Definition step_date (f : Z -> Z -> Z -> Z * Z * Z) (d : date) : date :=
  let '(y, m, n) := f (d_year d) (d_month d) (d_day d) in default d (make_date y m n).
Definition add_days (d : date) (n : Z) : date :=
  if 0 <=? n then Nat.iter (Z.to_nat n) (step_date next_fields) d else Nat.iter (Z.to_nat (- n)) (step_date prev_fields) d.

Definition date_days (d : date) : Z := days_from_civil (d_year d) (d_month d) (d_day d).

Lemma make_date_valid y m d : valid_date y m d -> exists x, make_date y m d = Some x /\ d_year x = y /\ d_month x = m /\ d_day x = d.
Proof.
  intros H%valid_dateb_spec. unfold make_date. destruct (bool_dec _ _) as [Hv|Hv]; [by eexists|done].
Qed.
Lemma make_clock_valid h mi s : valid_clock h mi s -> exists x, make_clock h mi s = Some x /\ c_hour x = h /\ c_min x = mi /\ c_sec x = s.
Proof.
  intros H%valid_clockb_spec. unfold make_clock. destruct (bool_dec _ _) as [Hv|Hv]; [by eexists|done].
Qed.

Lemma step_date_spec f k : (forall y m d, valid_date y m d ->
    let '(y', m', d') := f y m d in valid_date y' m' d' /\ days_from_civil y' m' d' = days_from_civil y m d + k) ->
  forall n d, date_days (Nat.iter n (step_date f) d) = date_days d + k * Z.of_nat n.
Proof.
  intros Hf n d. induction n as [|n IH]; [simpl; lia|]. rewrite Nat.iter_succ. revert IH. generalize (Nat.iter n (step_date f) d).
  intros x IH. unfold date_days at 1, step_date. specialize (Hf (d_year x) (d_month x) (d_day x) (proj1 (valid_dateb_spec _ _ _) (d_valid x))).
  destruct (f _ _ _) as [[y m] e]. destruct Hf as [Hv Hd]. destruct (make_date_valid y m e Hv) as (x' & -> & <- & <- & <-).
  simpl. unfold date_days in *. lia.
Qed.

Lemma add_days_spec d n : date_days (add_days d n) = date_days d + n.
Proof.
  unfold add_days. destruct (Z.leb_spec 0 n).
  - rewrite (step_date_spec _ 1) by exact next_fields_spec. lia.
  - rewrite (step_date_spec _ (-1)) by (intros y m e H1; pose proof (prev_fields_spec y m e H1) as H2;
      destruct (prev_fields y m e) as [[? ?] ?]; by rewrite <- Z.sub_opp_r in H2 || (destruct H2; split; [done|lia])). lia.
Qed.

Definition mi_stamp : Type := option (date * clock_time).
Definition mi_secs (t : mi_stamp) : Z :=
  match t with Some (d, c) => date_days d * 86400 + c_hour c * 3600 + c_min c * 60 + c_sec c | None => 0 end.

#[export] Instance mi_stamp_time : MiTime := {|
  miTime := mi_stamp;
  mt_none := None;
  mt_undef t := match t with Some _ => false | None => true end;
  mt_make y m d h mi s := d ← make_date y m d; c ← make_clock h mi s; Some (d, c);
  mt_year t := match t with Some (d, _) => d_year d | None => 0 end;
  mt_month t := match t with Some (d, _) => d_month d | None => 0 end;
  mt_day t := match t with Some (d, _) => d_day d | None => 0 end;
  mt_hour t := match t with Some (_, c) => c_hour c | None => 0 end;
  mt_min t := match t with Some (_, c) => c_min c | None => 0 end;
  mt_sec t := match t with Some (_, c) => c_sec c | None => 0 end;
  mt_addDay t n := match t with Some (d, c) => Some (add_days d n, c) | None => None end;
  mt_gt t u := mi_secs u <? mi_secs t;
  mt_minDiff t u := Z.quot (mi_secs t - mi_secs u) 60;
  mt_hourDiff t u := Z.quot (mi_secs t - mi_secs u) 3600
|}.

#[export] Instance mi_stamp_laws : MiTimeLaws mi_stamp_time.
Proof.
  refine {| mt_secs := (mi_secs : miTime mi_stamp_time -> Z) |}.
  - intros [[d c]|]; [|done]. intros _. simpl. split; [apply valid_dateb_spec, d_valid|]. split; [apply valid_clockb_spec, c_valid|done].
  - intros y m d h mi s Hd Hc. destruct (make_date_valid y m d Hd) as (x & E & ? & ? & ?).
    destruct (make_clock_valid h mi s Hc) as (z & E' & ? & ? & ?). simpl. rewrite E. simpl. rewrite E'. by split_and!.
  - intros y m d h mi s Hn. simpl. unfold make_date, make_clock. destruct (bool_dec (valid_dateb y m d) true) as [Hd|]; [|done]. simpl.
    destruct (bool_dec (valid_clockb h mi s) true) as [Hc|]; [|done]. destruct Hn.
    split; [by apply valid_dateb_spec|by apply valid_clockb_spec].
  - intros [[d c]|] n; [|done]. intros _. split; [done|]. simpl. rewrite add_days_spec. lia.
  - done.
Defined.
