(* ===== verification/Station.v ===== *)
(** * Stations in the database (src/src/lib/kvalobs/kvStation.cc)

    A station is read from a row of the table station, and written by the text of its
    members. The record is that of [DatabaseAccess.v]. *)

From stdpp Require Import pretty.
From S2P Require Import Prelude Orders PTime TimeText Rows Sql Formatter Serial DatabaseAccess PgConnection Gate.

#[local] Open Scope Z_scope.

(** The values that stand for NULL (kvDbBase.cc); the first is the largest [double]. *)
Definition DBL_NULL : spec_float := S754_finite false 9007199254740991 971.
Definition INT_NULL : Z := INT_MAX.
Definition TEXT_NULL : string := "__:#@#+@##:TEXT_NULL:Qw@$:__".

Section kvStation.
  Context {PT : PTime} {PC : PCalendar PT} {PS : PTimeShow PT} {BT : BoostText} {TT : PTimeText PT} {SD : StreamDouble}.

(** [set(const DRow &)]: every column is trimmed and assigns the member of its name. *)
Definition kvStation_column (name text : string) (s : kvStation PT) : kvStation PT :=
  let buf := of_bytes (trim_copy (to_bytes text)) in
  let col n := bool_decide (name = n) in
  {| st_stationid := if col "stationid" then atoi buf else st_stationid s;
     st_lat := if col "lat" then col_double buf (st_lat s) else st_lat s;
     st_lon := if col "lon" then col_double buf (st_lon s) else st_lon s;
     st_height := if col "height" then col_double buf (st_height s) else st_height s;
     st_maxspeed := if col "maxspeed" then col_double buf (st_maxspeed s) else st_maxspeed s;
     st_name := if col "name" then buf else st_name s;
     st_wmonr := if col "wmonr" then atoi buf else st_wmonr s;
     st_nationalnr := if col "nationalnr" then atoi buf else st_nationalnr s;
     st_ICAOid := if col "icaoid" then if (String.length buf =? 4)%nat then buf else "" else st_ICAOid s;
     st_call_sign := if col "call_sign" then buf else st_call_sign s;
     st_stationstr := if col "stationstr" then buf else st_stationstr s;
     st_environmentid := if col "environmentid" then atoi buf else st_environmentid s;
     st_static := if col "static" then bool_decide (buf = "t"%string) else st_static s;
     st_fromtime := if col "fromtime" then col_time buf (st_fromtime s) else st_fromtime s |}.

Definition kvStation_set_row (r : DRow) (s : kvStation PT) : kvStation PT := row_set kvStation_column r s.

(** [toSend]. *)
Definition send_double (d : spec_float) : bytes := if Dbl.eqb d DBL_NULL then to_bytes "NULL," else stream_double d ++ [","%char].
Definition send_int (show : Z -> bytes) (i : Z) : bytes := if i =? INT_NULL then to_bytes "NULL," else show i ++ [","%char].
Definition send_text (t : string) : bytes := if bool_decide (t = TEXT_NULL) then to_bytes "NULL," else quoted (to_bytes t) ++ [","%char].
Definition plain_int (i : Z) : bytes := to_bytes (pretty i).

Definition station_toSend (s : kvStation PT) : bytes :=
  ["("%char] ++ plain_int (st_stationid s) ++ [","%char]
  ++ send_double (st_lat s) ++ send_double (st_lon s) ++ send_double (st_height s) ++ send_double (st_maxspeed s)
  ++ send_text (st_name s) ++ send_int plain_int (st_wmonr s) ++ send_int plain_int (st_nationalnr s)
  ++ send_text (st_ICAOid s) ++ send_text (st_call_sign s) ++ send_text (st_stationstr s)
  ++ send_int quoted_int (st_environmentid s)
  ++ quoted_int (if st_static s then 1 else 0) ++ [","%char] ++ quoted_time kvalobs_text (st_fromtime s) ++ [")"%char].

Definition station_uniqueKey (s : kvStation PT) : bytes :=
  to_bytes " WHERE  stationid=" ++ plain_int (st_stationid s) ++ to_bytes " AND         fromtime="
  ++ quoted_time kvalobs_text (st_fromtime s).

(** The object of a station that was set. *)
Definition station_base (s : kvStation PT) : kvDbBase :=
  {| toSend := of_bytes (station_toSend s); toUpdate := ""; uniqueKey := of_bytes (station_uniqueKey s); tableName := "station";
     exists_ := true |}.

End kvStation.

(** The columns of the tables station and types (kvalobs_schema.sql); the server gives
    their names in lower case. *)
Definition station_columns : list string :=
  ["stationid"; "lat"; "lon"; "height"; "maxspeed"; "name"; "wmonr"; "nationalnr"; "icaoid"; "call_sign"; "stationstr";
   "environmentid"; "static"; "fromtime"].
Definition types_columns : list string := ["typeid"; "format"; "earlyobs"; "lateobs"; "read"; "obspgm"; "comment"].

(** ** Properties: a row of a station *)

Section row.
  Context {PT : PTime} {BT : BoostText} {TT : PTimeText PT}.

(** What a row says of a station, column by column. *)
Lemma kvStation_row (vs : list string) (s : kvStation PT) (id lat lon height maxspeed name wmonr nationalnr icaoid call str env static from : string) :
  vs = [id; lat; lon; height; maxspeed; name; wmonr; nationalnr; icaoid; call; str; env; static; from] ->
  let trimmed v := of_bytes (trim_copy (to_bytes v)) in
  kvStation_set_row (zip station_columns vs) s =
  {| st_stationid := atoi (trimmed id); st_lat := col_double (trimmed lat) (st_lat s); st_lon := col_double (trimmed lon) (st_lon s);
     st_height := col_double (trimmed height) (st_height s); st_maxspeed := col_double (trimmed maxspeed) (st_maxspeed s);
     st_name := trimmed name; st_wmonr := atoi (trimmed wmonr); st_nationalnr := atoi (trimmed nationalnr);
     st_ICAOid := if (String.length (trimmed icaoid) =? 4)%nat then trimmed icaoid else ""; st_call_sign := trimmed call;
     st_stationstr := trimmed str; st_environmentid := atoi (trimmed env); st_static := bool_decide (trimmed static = "t"%string);
     st_fromtime := col_time (trimmed from) (st_fromtime s) |}.
Proof. intros ->. reflexivity. Qed.

End row.
