(* ===== verification/SynopDecoder.v ===== *)
(** * The values of a synoptic message
      (src/src/lib/decoder/synopdecoder/kvSynopDecoder.cc, kvSynopDecoder.h)

    [kvSynopDecoder] turns a message into values: it reads the message
    ([Synop.v]), finds the time and the station, and keeps the values that are
    defined. One object serves all messages, with the registers of stations in it.
    [miTime] is a parameter ([MiTime.v]). *)

From stdpp Require Import pretty sorting.
From S2P Require Import Prelude Orders PTime TimeText DataFlag ControlInfo UseInfo KvData Rows DatabaseAccess PgConnection Station Lexer SynopLexer Synop SynopReport MiTime.

#[local] Open Scope Z_scope.

Section kvSynopDecoder.
  Context {PT : PTime} {PC : PCalendar PT} {TT : PTimeText PT} {MT : MiTime} {LM : LibM}.

(** ** src/src/lib/miutil/timeconvert.h *)

(** [to_ptime]; [None]: the constructor of the date throws. *)
Definition to_ptime (mt : miTime MT) : option (ptime PT) :=
  if mt_undef mt then Some not_a_date_time
  else pt_make (mt_year mt) (mt_month mt) (mt_day mt) (mt_hour mt) (mt_min mt) (mt_sec mt).
Definition to_miTime (t : ptime PT) : miTime MT :=
  if is_not_a_date_time t then mt_none
  else mt_make (pt_year t) (pt_month t) (pt_day t) (pt_hours t) (pt_minutes t) (pt_seconds t).

(** ** The time of an observation *)

Definition firstDayNextMonth (mi : miTime MT) : miTime MT :=
  let ref := mt_addDay (mt_make (mt_year mi) (mt_month mi) 28 0 0 0) 5 in
  mt_make (mt_year ref) (mt_month ref) 1 0 0 0.
Definition lastDayThisMonth (mi : miTime MT) : miTime MT := mt_addDay (firstDayNextMonth mi) (-1).

Definition createObsTime_at (day hour : Z) (refTime : miTime MT) : miTime MT :=
  let mon := mt_month refTime in
  let yea := mt_year refTime in
  let obsT := mt_make yea mon day hour 0 0 in
  let refT := mt_addDay refTime 10 in
  let lastDay := lastDayThisMonth refTime in
  let obsT :=
    if (mt_day refTime =? mt_day lastDay) && (mt_day obsT =? 1) && (mt_month obsT =? mt_month refTime) then
      let newRef := mt_addDay lastDay 1 in mt_make (mt_year newRef) (mt_month newRef) day hour 0 0
    else obsT in
  if mt_gt obsT refT then
    if mon - 1 <? 1 then mt_make (yea - 1) 12 day hour 0 0 else mt_make yea (mon - 1) day hour 0 0
  else obsT.

(** ** The class *)

Record kvSynopDecoder := mk_kvSynopDecoder {
  sd_obs : synop;
  ref : miTime MT;
  continuous : bool;
  synopRegister : gmap Z Z;
  tempoRegister : gmap string Z;
  shipRegister : gmap string Z;
  needTmp : bool;
  lastTempoIndex : Z;
  tstat : option (kvStation PT);
  early : Z;
  late : Z;
  rejectComment : bytes;
  sd_hshsInMeter : bool;
  msgid : bytes
}.

(** The static object. *)
Definition kvSynopDecoder_new : kvSynopDecoder :=
  mk_kvSynopDecoder (synop_new false) mt_none false ∅ ∅ ∅ false 0 None 0 0 [] false [].

Definition set_sd_obs (o : synop) (k : kvSynopDecoder) : kvSynopDecoder :=
  mk_kvSynopDecoder o (ref k) (continuous k) (synopRegister k) (tempoRegister k) (shipRegister k) (needTmp k)
    (lastTempoIndex k) (tstat k) (early k) (late k) (rejectComment k) (sd_hshsInMeter k) (msgid k).
Definition set_ref (t : miTime MT) (c : bool) (k : kvSynopDecoder) : kvSynopDecoder :=
  mk_kvSynopDecoder (sd_obs k) t c (synopRegister k) (tempoRegister k) (shipRegister k) (needTmp k)
    (lastTempoIndex k) (tstat k) (early k) (late k) (rejectComment k) (sd_hshsInMeter k) (msgid k).
Definition set_registers (syno : gmap Z Z) (tempo ship : gmap string Z) (last : Z) (k : kvSynopDecoder) : kvSynopDecoder :=
  mk_kvSynopDecoder (sd_obs k) (ref k) (continuous k) syno tempo ship (needTmp k)
    last (tstat k) (early k) (late k) (rejectComment k) (sd_hshsInMeter k) (msgid k).
Definition set_limits (e l : Z) (k : kvSynopDecoder) : kvSynopDecoder :=
  mk_kvSynopDecoder (sd_obs k) (ref k) (continuous k) (synopRegister k) (tempoRegister k) (shipRegister k) (needTmp k)
    (lastTempoIndex k) (tstat k) e l (rejectComment k) (sd_hshsInMeter k) (msgid k).
Definition set_tmp (n : bool) (t : option (kvStation PT)) (k : kvSynopDecoder) : kvSynopDecoder :=
  mk_kvSynopDecoder (sd_obs k) (ref k) (continuous k) (synopRegister k) (tempoRegister k) (shipRegister k) n
    (lastTempoIndex k) t (early k) (late k) (rejectComment k) (sd_hshsInMeter k) (msgid k).
Definition set_rejectComment (c : bytes) (k : kvSynopDecoder) : kvSynopDecoder :=
  mk_kvSynopDecoder (sd_obs k) (ref k) (continuous k) (synopRegister k) (tempoRegister k) (shipRegister k) (needTmp k)
    (lastTempoIndex k) (tstat k) (early k) (late k) c (sd_hshsInMeter k) (msgid k).
Definition setHshsInMeter (h : bool) (k : kvSynopDecoder) : kvSynopDecoder :=
  mk_kvSynopDecoder (sd_obs k) (ref k) (continuous k) (synopRegister k) (tempoRegister k) (shipRegister k) (needTmp k)
    (lastTempoIndex k) (tstat k) (early k) (late k) (rejectComment k) h (msgid k).
Definition set_msgid (m : bytes) (k : kvSynopDecoder) : kvSynopDecoder :=
  mk_kvSynopDecoder (sd_obs k) (ref k) (continuous k) (synopRegister k) (tempoRegister k) (shipRegister k) (needTmp k)
    (lastTempoIndex k) (tstat k) (early k) (late k) (rejectComment k) (sd_hshsInMeter k) m.

Definition setReferenceTime (r : miTime MT) (k : kvSynopDecoder) : kvSynopDecoder := set_ref r false k.
Definition autoReferenceTime (now : miTime MT) (k : kvSynopDecoder) : kvSynopDecoder := set_ref now true k.

(** [initialise]: the registers of stations, with the time of the record that each
    number has; the loop over the stations. *)
Definition register_station (now : miTime MT) (s : kvStation PT)
    (regs : gmap Z (miTime MT) * gmap Z Z * gmap string Z) : gmap Z (miTime MT) * gmap Z Z * gmap string Z :=
  let '(fromtimes, syno_reg, ship_reg) := regs in
  let stat := st_stationid s in
  let call := st_call_sign s in
  let syno := st_wmonr s in
  let from := to_miTime (st_fromtime s) in
  if mt_gt from now then regs
  else if match fromtimes !! syno with Some t => mt_gt t from | None => false end then regs
  else
    let fromtimes := if 0 <? syno then <[syno := from]> fromtimes else fromtimes in
    if stat =? 0 then (fromtimes, syno_reg, ship_reg)
    else
      let syno_reg := if negb (syno =? 0) then <[syno := stat]> syno_reg else syno_reg in
      let ship_reg := if bool_decide (call <> ""%string) then <[call := stat]> ship_reg else ship_reg in
      (fromtimes, syno_reg, ship_reg).

Definition initialise (now : miTime MT) (kpos : list (kvStation PT)) (earlyobs lateobs : Z) (k : kvSynopDecoder)
    : bool * kvSynopDecoder :=
  let k := set_limits (earlyobs * -1) lateobs (autoReferenceTime now k) in
  let '(_, syno_reg, ship_reg) := foldl (fun regs s => register_station now s regs) (∅, ∅, ∅) kpos in
  let last := mt_month now * 10000000 + mt_day now * 100000 + mt_hour now * 1000 + mt_min now * 10 in
  (negb (bool_decide (syno_reg = ∅) && bool_decide (ship_reg = ∅)), set_registers syno_reg ∅ ship_reg last k).

Definition createObsTime (now : miTime MT) (k : kvSynopDecoder) : miTime MT * kvSynopDecoder :=
  let k := if continuous k then set_ref now (continuous k) k else k in
  (createObsTime_at (YY (pinfo (sd_obs k))) (GG (pinfo (sd_obs k))) (ref k), k).

(** [temporaryRegister]: a station of its own for an unknown ship. *)
Definition temporary_station (now : ptime PT) (id : Z) (uknown : string) : kvStation PT :=
  {| st_stationid := id; st_lat := DBL_NULL; st_lon := DBL_NULL; st_height := DBL_NULL; st_maxspeed := DBL_NULL; st_name := "";
     st_wmonr := INT_NULL; st_nationalnr := INT_NULL; st_ICAOid := ""; st_call_sign := uknown; st_stationstr := "";
     st_environmentid := 6; st_static := false; st_fromtime := now |}.

Definition temporaryRegister (now : ptime PT) (uknown : string) (k : kvSynopDecoder) : Z * kvSynopDecoder :=
  match tempoRegister k !! uknown with
  | Some id => (id, k)
  | None =>
      let id := lastTempoIndex k + 1 in
      let k := set_registers (synopRegister k) (<[uknown := id]> (tempoRegister k)) (shipRegister k) id k in
      (id, set_tmp true (Some (temporary_station now id uknown)) k)
  end.

Definition findStationid (now : ptime PT) (k : kvSynopDecoder) : Z * kvSynopDecoder :=
  let land := IIiii (pinfo (sd_obs k)) in
  let boat := A1BwNb (pinfo (sd_obs k)) in
  let call := of_bytes (callSign (pinfo (sd_obs k))) in
  let k := set_tmp false (tstat k) (set_msgid [] k) in
  let by_boat k :=
    if negb (boat =? 0) then temporaryRegister now (pretty boat) (set_msgid (to_bytes (pretty boat)) k) else (0, k) in
  if negb (land =? 0) then (default 0 (synopRegister k !! land), set_msgid (to_bytes (pretty land)) k)
  else if bool_decide (call <> ""%string) then
    let k := set_msgid (to_bytes call) k in
    if bool_decide (call <> "SHIP"%string) && bool_decide (call <> "SYNOP"%string) then
      match shipRegister k !! call with
      | Some id => (id, k)
      | None => temporaryRegister now call k
      end
    else by_boat k
  else by_boat k.

Definition checkObservationTime (tbt obt : miTime MT) (k : kvSynopDecoder) : ascii :=
  if negb (continuous k) then char_of 0
  else
    let diff := mt_minDiff tbt obt in
    if diff <? early k then char_of 3
    else if late k <? diff then char_of 4
    else char_of 0.

(** [correct_h_VV_N]: the last value of a parameter counts. *)
Definition last_int (par : Z) (data : list (kvData PT)) : Z :=
  match last (List.filter (fun d => paramid_ d =? par) data) with Some d => int_of (original_ d) | None => INT_MAX end.

(** [data.erase(ith)]: the last value of the parameter 55. *)
Fixpoint erase_last (par : Z) (data : list (kvData PT)) : list (kvData PT) :=
  match data with
  | [] => []
  | d :: data =>
      if (paramid_ d =? par) && negb (existsb (fun d => paramid_ d =? par) data) then data else d :: erase_last par data
  end.
Definition correct_h_VV_N (data : list (kvData PT)) : list (kvData PT) :=
  if (last_int 55 data =? -3) && ((last_int 273 data =? INT_MAX) || (last_int 15 data =? INT_MAX)) then erase_last 55 data else data.

(** [std::map] is passed through in the order of its keys. *)
Definition key_le (a b : Z * spec_float) : Prop := a.1 <= b.1.
#[local] Instance key_le_dec a b : Decision (key_le a b).
Proof. unfold key_le. apply _. Defined.
Definition in_key_order (m : gmap Z spec_float) : list (Z * spec_float) := merge_sort key_le (map_to_list m).

(** The loop of [decode], which uses one value for all of them. *)
Fixpoint make_data (pos : Z) (obt tbt : ptime PT) (typeID : Z) (flag : ascii) (deco : list (Z * spec_float)) (d : kvData PT)
    : list (kvData PT) :=
  match deco with
  | [] => []
  | (par, v) :: deco =>
      if negb (par =? 0) && Dbl.ltb (Dbl.of_Z (-5000)) v then
        let d := kvData_useinfo_nibble (kvData_set_original d pos obt v par tbt typeID 0) 7 flag in
        d :: make_data pos obt tbt typeID flag deco d
      else make_data pos obt tbt typeID flag deco d
  end.

Definition MOBIL_comment : bytes := to_bytes "MOBIL".
Definition unknown_comment : bytes := to_bytes "unknown station/position".

(** [decode]; [now] and [tbt] are the current time in its two forms. The failure is
    undefined behaviour of the parser, or the exception of a time that is none. *)
Definition decode (now : miTime MT) (tbt : ptime PT) (raw_ : bytes) (k : kvSynopDecoder)
    : (bool * list (kvData PT) + failure) * kvSynopDecoder :=
  match lexSynop raw_ (sd_hshsInMeter k) with
  | None => (inr Undefined, k)
  | Some o =>
      let k := set_sd_obs o k in
      if bool_decide (type o = MOBIL) then (inl (false, []), set_rejectComment MOBIL_comment k)
      else if hasUnrecognised o then (inl (false, []), set_rejectComment (unrecognised o) k)
      else
        let '(obt, k) := createObsTime now k in
        let '(pos, k) := findStationid tbt k in
        let typeID := typeID o in
        if pos =? 0 then (inl (false, []), set_rejectComment unknown_comment k)
        else
          let flag := if typeID =? 11 then char_of 0 else checkObservationTime (to_miTime tbt) obt k in
          match to_ptime obt with
          | Some t => (inl (true, correct_h_VV_N (make_data pos t tbt typeID flag (in_key_order (obs o)) (kvData_clean tbt))), k)
          | None =>
              if bool_decide (List.filter (fun pv => negb (pv.1 =? 0) && Dbl.ltb (Dbl.of_Z (-5000)) pv.2) (in_key_order (obs o)) = [])
              then (inl (true, []), k)
              else (inr Std, k)
          end
  end.

End kvSynopDecoder.

Arguments kvSynopDecoder : clear implicits.

(** ** Properties: the time of an observation *)

Section obstime.
  Context {MT : MiTime} {ML : MiTimeLaws MT}.

Lemma next_month_valid y m : 1 <= m <= 12 -> 1 <= (next_month y m).2 <= 12.
Proof. unfold next_month. case_match; simpl; lia. Qed.

(** The first day of a month as a time. *)
Lemma make_first y m d h : valid_date y m d -> 0 <= h < 24 ->
  let t := mt_make y m d h 0 0 in mt_undef t = false /\ mt_year t = y /\ mt_month t = m /\ mt_day t = d /\ mt_hour t = h /\
    mt_min t = 0 /\ mt_sec t = 0 /\ mt_secs t = (days_from_civil y m 1 + (d - 1)) * 86400 + h * 3600.
Proof.
  intros Hd Hh. assert (Hc : valid_clock h 0 0) by (unfold valid_clock; lia).
  destruct (mt_make_valid y m d h 0 0 Hd Hc) as (Hu & Ey & Em & Ed & Eh & Emi & Es).
  split_and!; try done. destruct (mt_fields _ Hu) as (_ & _ & ->). rewrite Ey, Em, Ed, Eh, Emi, Es.
  unfold secs_of. rewrite days_in_month. lia.
Qed.

Lemma firstDayNextMonth_spec mi : mt_undef mi = false ->
  let n := next_month (mt_year mi) (mt_month mi) in firstDayNextMonth mi = mt_make n.1 n.2 1 0 0 0.
Proof.
  intros Hu. destruct (mt_fields _ Hu) as ([Hm _] & _ & _). unfold firstDayNextMonth. cbv zeta.
  pose proof (month_length_range (mt_year mi) (mt_month mi)) as Hl.
  destruct (make_first (mt_year mi) (mt_month mi) 28 0) as (Hr & _ & _ & _ & _ & _ & _ & Es); [split; lia|lia|].
  destruct (mt_addDay_secs _ 5 Hr) as [Ha Ea]. set (n := next_month _ _).
  pose proof (month_start (mt_year mi) (mt_month mi) Hm) as Hs. fold n in Hs.
  assert (Hn : 1 <= n.2 <= 12) by (by apply next_month_valid). pose proof (month_length_range n.1 n.2).
  destruct (mt_fields_of _ n.1 n.2 (33 - month_length (mt_year mi) (mt_month mi)) 0 0 0 Ha) as (-> & -> & _); [split; lia|unfold valid_clock; lia| |done].
  rewrite Ea, Es. unfold secs_of. rewrite (days_in_month n.1), Hs. lia.
Qed.

Lemma lastDayThisMonth_spec mi : mt_undef mi = false ->
  let t := lastDayThisMonth mi in mt_undef t = false /\ mt_day t = month_length (mt_year mi) (mt_month mi) /\
    mt_secs t = (days_from_civil (mt_year mi) (mt_month mi) 1 + month_length (mt_year mi) (mt_month mi) - 1) * 86400.
Proof.
  intros Hu. destruct (mt_fields _ Hu) as ([Hm _] & _ & _). unfold lastDayThisMonth. rewrite firstDayNextMonth_spec by done. cbv zeta.
  pose proof (month_start (mt_year mi) (mt_month mi) Hm) as Hs. set (n := next_month _ _) in *.
  assert (Hn : 1 <= n.2 <= 12) by (by apply next_month_valid).
  pose proof (month_length_range n.1 n.2). destruct (make_first n.1 n.2 1 0) as (Hr & _ & _ & _ & _ & _ & _ & Es); [split; lia|lia|].
  destruct (mt_addDay_secs _ (-1) Hr) as [Ha Ea]. split; [done|]. rewrite Ea, Es, Hs. split; [|lia].
  pose proof (month_length_range (mt_year mi) (mt_month mi)).
  apply (mt_fields_of _ (mt_year mi) (mt_month mi) (month_length (mt_year mi) (mt_month mi)) 0 0 0 Ha); [split; lia|unfold valid_clock; lia|].
  rewrite Ea, Es, Hs. unfold secs_of. rewrite (days_in_month _ _ (month_length _ _)). lia.
Qed.

(** The reference time within its month. *)
Lemma ref_range ref : mt_undef ref = false ->
  let f := days_from_civil (mt_year ref) (mt_month ref) 1 in
  (f + mt_day ref - 1) * 86400 <= mt_secs ref < (f + mt_day ref) * 86400 /\ 1 <= mt_month ref <= 12 /\
  1 <= mt_day ref <= month_length (mt_year ref) (mt_month ref).
Proof.
  intros Hu. destruct (mt_fields _ Hu) as ([Hm Hd] & (Hh & Hmi & Hs) & E). cbv zeta. rewrite E. unfold secs_of.
  rewrite (days_in_month _ _ (mt_day ref)). lia.
Qed.

(** The month before. *)
Definition prev_month (y m : Z) : Z * Z := if m - 1 <? 1 then (y - 1, 12) else (y, m - 1).

Lemma prev_month_start y m : 1 <= m <= 12 ->
  1 <= (prev_month y m).2 <= 12 /\
  days_from_civil y m 1 = days_from_civil (prev_month y m).1 (prev_month y m).2 1 + month_length (prev_month y m).1 (prev_month y m).2.
Proof.
  intros Hm. assert (Hp : 1 <= (prev_month y m).2 <= 12) by (unfold prev_month; case_match; simpl; lia). split; [done|].
  rewrite <- month_start by done. unfold prev_month. destruct (Z.ltb_spec (m - 1) 1); cbn [fst snd]; unfold next_month.
  - assert (m = 1) as -> by lia. cbn. by rewrite Z.sub_add.
  - rewrite (proj2 (Z.eqb_neq (m - 1) 12)) by lia. cbn. by rewrite Z.sub_add.
Qed.

(** The candidates for the time: this month, the next or the one before. *)
Lemma createObsTime_cases day hour ref : mt_undef ref = false ->
  let n := next_month (mt_year ref) (mt_month ref) in let p := prev_month (mt_year ref) (mt_month ref) in
  let obsT := mt_make (mt_year ref) (mt_month ref) day hour 0 0 in
  let obsT' := if (mt_day ref =? month_length (mt_year ref) (mt_month ref)) && (mt_day obsT =? 1) && (mt_month obsT =? mt_month ref)
               then mt_make n.1 n.2 day hour 0 0 else obsT in
  createObsTime_at day hour ref = if mt_gt obsT' (mt_addDay ref 10) then mt_make p.1 p.2 day hour 0 0 else obsT'.
Proof.
  intros Hu. cbv zeta. unfold createObsTime_at. destruct (lastDayThisMonth_spec ref Hu) as (Hl & -> & Es).
  pose proof (ref_range ref Hu) as (_ & Hm & _). destruct (mt_addDay_secs _ 1 Hl) as [Hn En].
  assert (Ef : mt_year (mt_addDay (lastDayThisMonth ref) 1) = (next_month (mt_year ref) (mt_month ref)).1 /\
               mt_month (mt_addDay (lastDayThisMonth ref) 1) = (next_month (mt_year ref) (mt_month ref)).2).
  { pose proof (month_start (mt_year ref) (mt_month ref) Hm) as Hs. set (n := next_month _ _) in *.
    assert (H : 1 <= n.2 <= 12) by (by apply next_month_valid). pose proof (month_length_range n.1 n.2).
    destruct (mt_fields_of _ n.1 n.2 1 0 0 0 Hn) as (-> & -> & _); [split; lia|unfold valid_clock; lia| |done].
    rewrite En, Es. unfold secs_of. rewrite Hs. lia. }
  destruct Ef as [-> ->]. unfold prev_month. by destruct (mt_month ref - 1 <? 1).
Qed.

(** A day and hour of a month are no time, or the time that has them. *)
Lemma make_day y m day hour : 1 <= m <= 12 -> let t := mt_make y m day hour 0 0 in
  mt_undef t = true /\ ~ (1 <= day <= month_length y m /\ 0 <= hour < 24) \/
  (mt_undef t = false /\ 1 <= day <= month_length y m /\ 0 <= hour < 24 /\ mt_month t = m /\ mt_day t = day /\ mt_hour t = hour /\
   mt_min t = 0 /\ mt_sec t = 0 /\ mt_secs t = (days_from_civil y m 1 + (day - 1)) * 86400 + hour * 3600).
Proof.
  intros Hy. cbv zeta. destruct (decide (1 <= day <= month_length y m /\ 0 <= hour < 24)) as [[H1 H2]|Hn].
  - destruct (make_first y m day hour) as (? & ? & ? & ? & ? & ? & ? & ?); [split; lia|done|]. right. split_and!; (done || lia).
  - left. split; [|done]. apply mt_make_invalid. unfold valid_date, valid_clock. lia.
Qed.

(** The time that is made of the day and hour of a report is that day and hour
    of some month, no more than ten days after the reference time and less than 31
    days before it, or no time at all. *)
Theorem createObsTime_window day hour ref : mt_undef ref = false ->
  let t := createObsTime_at day hour ref in
  mt_undef t = true \/
  (mt_day t = day /\ mt_hour t = hour /\ mt_min t = 0 /\ mt_sec t = 0 /\
   mt_secs ref - 31 * 86400 < mt_secs t <= mt_secs ref + 10 * 86400).
Proof.
  intros Hu. rewrite createObsTime_cases by done. cbv zeta.
  pose proof (ref_range ref Hu) as (Hr & Hm & Hd). destruct (mt_addDay_secs ref 10 Hu) as [Ht Et].
  set (obsT := mt_make (mt_year ref) _ _ _ _ _).
  pose proof (prev_month_start (mt_year ref) (mt_month ref) Hm) as [Hp Hps]. set (p := prev_month _ _) in *.
  pose proof (month_start (mt_year ref) (mt_month ref) Hm) as Hs.
  pose proof (next_month_valid (mt_year ref) (mt_month ref) Hm) as Hnv. set (n := next_month _ _) in *.
  pose proof (month_length_range (mt_year ref) (mt_month ref)). pose proof (month_length_range p.1 p.2).
  pose proof (month_length_range n.1 n.2).
  set (later := _ && _ && _).
  assert (Hlater : later = true -> mt_undef obsT = false -> mt_day ref = month_length (mt_year ref) (mt_month ref) /\ day = 1).
  { unfold later. intros [[E1%Z.eqb_eq E2%Z.eqb_eq]%andb_prop _]%andb_prop Hx.
    destruct (make_day (mt_year ref) (mt_month ref) day hour Hm) as [[Hy _]|(_ & _ & _ & _ & Ed & _)]; [fold obsT in Hy; congruence|].
    fold obsT in Ed. split; [done|congruence]. }
  destruct (mt_gt _ _) eqn:Eg.
  - destruct (make_day p.1 p.2 day hour Hp) as [[? _]|(Hup & Hdp & Hh & _ & Ed & Eh & Emi & Es & Ep)]; [by left|right].
    split_and!; try done; rewrite Ep; [|lia].
    destruct (make_day (mt_year ref) (mt_month ref) day hour Hm) as [[_ Hx]|(Hx & _ & _ & _ & _ & _ & _ & _ & Ex)]; [lia|].
    fold obsT in Hx, Ex. destruct later.
    + destruct (Hlater eq_refl Hx) as [E1 ->]. destruct (make_day n.1 n.2 1 hour Hnv) as [[_ Hy]|(Hy & _ & _ & _ & _ & _ & _ & _ & Ey)]; [lia|].
      rewrite (mt_gt_secs _ _ Hy Ht), Et, Ey in Eg. apply Z.ltb_lt in Eg. lia.
    + rewrite (mt_gt_secs _ _ Hx Ht), Et, Ex in Eg. apply Z.ltb_lt in Eg. lia.
  - assert (E1 : later = true -> mt_day ref = month_length (mt_year ref) (mt_month ref))
      by (unfold later; intros [[E1%Z.eqb_eq _]%andb_prop _]%andb_prop; done).
    destruct later; [destruct (make_day n.1 n.2 day hour Hnv) as [[? _]|(Hup & Hdp & Hh & _ & Ed & Eh & Emi & Es & Ep)]
                    |destruct (make_day (mt_year ref) (mt_month ref) day hour Hm) as [[? _]|(Hup & Hdp & Hh & _ & Ed & Eh & Emi & Es & Ep)]];
      try (by left); right; fold obsT in Hup, Ed, Eh, Emi, Es, Ep || idtac;
      rewrite (mt_gt_secs _ _ Hup Ht), Et in Eg; apply Z.ltb_ge in Eg; split_and!; try done; rewrite ?Ep in *; try lia.
Qed.

(** A report that is at most 18 days old, or at most a day ahead, gets the time
    it was made at, provided the month of the reference time has its day. *)
Theorem createObsTime_recovers t ref : mt_undef ref = false -> mt_undef t = false -> mt_min t = 0 -> mt_sec t = 0 ->
  mt_day t <= month_length (mt_year ref) (mt_month ref) ->
  mt_secs ref - 18 * 86400 < mt_secs t <= mt_secs ref + 86400 ->
  let t' := createObsTime_at (mt_day t) (mt_hour t) ref in mt_undef t' = false /\ mt_secs t' = mt_secs t.
Proof.
  intros Hu Hut Hmi Hs Hday Hr. rewrite createObsTime_cases by done. cbv zeta.
  pose proof (ref_range ref Hu) as (Hrr & Hm & Hd). destruct (mt_addDay_secs ref 10 Hu) as [Ht Et].
  destruct (mt_fields t Hut) as ([Htm Htd] & (Hh & _) & Es). rewrite Hmi, Hs in Es. unfold secs_of in Es.
  set (T := days_from_civil (mt_year t) (mt_month t) (mt_day t)) in *. set (f := days_from_civil (mt_year ref) (mt_month ref) 1) in *.
  assert (Hf : forall y m d, valid_date y m d -> T = days_from_civil y m 1 + (d - 1) -> mt_day t = d /\ mt_secs (mt_make y m d (mt_hour t) 0 0) = mt_secs t
            /\ mt_undef (mt_make y m d (mt_hour t) 0 0) = false /\ mt_day (mt_make y m d (mt_hour t) 0 0) = d /\ mt_month (mt_make y m d (mt_hour t) 0 0) = m).
  { intros y m d Hv E. destruct (make_first y m d (mt_hour t) Hv ltac:(lia)) as (? & _ & ? & ? & _ & _ & _ & Ed).
    destruct (mt_fields_of t y m d (mt_hour t) 0 0 Hut Hv ltac:(unfold valid_clock; lia)) as (_ & _ & ? & _).
    { unfold secs_of. rewrite days_in_month. lia. }
    split_and!; try done. lia. }
  pose proof (prev_month_start (mt_year ref) (mt_month ref) Hm) as [Hp Hps]. set (p := prev_month _ _) in *.
  pose proof (month_start (mt_year ref) (mt_month ref) Hm) as Hms. fold f in Hps, Hms.
  pose proof (next_month_valid (mt_year ref) (mt_month ref) Hm) as Hnv. set (n := next_month _ _) in *.
  pose proof (month_length_range (mt_year ref) (mt_month ref)). pose proof (month_length_range p.1 p.2).
  pose proof (month_length_range n.1 n.2). set (len := month_length (mt_year ref) (mt_month ref)) in *.
  destruct (Z.lt_ge_cases T f) as [Hlt|Hge]; [|destruct (Z.lt_ge_cases T (f + len)) as [Hin|Hnext]].
  - destruct (Hf p.1 p.2 (T - (f - month_length p.1 p.2) + 1)) as (Ed & E1 & E2 & _); [split; lia|lia|].
    rewrite <- Ed in E1, E2. destruct (make_day (mt_year ref) (mt_month ref) (mt_day t) (mt_hour t) Hm)
      as [[_ Hx]|(Hx & _ & _ & _ & Exd & _ & _ & _ & Ex)]; [lia|]. fold f in Ex.
    rewrite Exd, (proj2 (Z.eqb_neq (mt_day t) 1)) by lia. rewrite andb_false_r. cbn [andb].
    rewrite (mt_gt_secs _ _ Hx Ht), Et, Ex, (proj2 (Z.ltb_lt _ _)) by lia. done.
  - destruct (Hf (mt_year ref) (mt_month ref) (T - f + 1)) as (Ed & E1 & E2 & E3 & _); [split; lia|lia|].
    rewrite <- Ed in E1, E2, E3. destruct ((mt_day ref =? len) && (mt_day _ =? 1)) eqn:El.
    + apply andb_prop in El as [El1%Z.eqb_eq El2%Z.eqb_eq]. lia.
    + cbn [andb]. rewrite (mt_gt_secs _ _ E2 Ht), Et, E1, (proj2 (Z.ltb_ge _ _)) by lia. done.
  - destruct (Hf n.1 n.2 (T - (f + len) + 1)) as (Ed & E1 & E2 & _); [split; lia|lia|]. rewrite <- Ed in E1, E2.
    assert (El : mt_day ref = len /\ mt_day t = 1) by lia. destruct El as [El1 El2].
    destruct (make_day (mt_year ref) (mt_month ref) (mt_day t) (mt_hour t) Hm) as [[_ Hx]|(Hx & _ & _ & Exm & Exd & _)]; [lia|].
    rewrite Exd, Exm, El1, El2, !Z.eqb_refl. cbn [andb]. rewrite El2 in E1, E2.
    rewrite (mt_gt_secs _ _ E2 Ht), Et, E1, (proj2 (Z.ltb_ge _ _)) by lia. done.
Qed.

(** Where the month of the reference time has no such day, the time that is compared
    is none: on the first of April a report of the 31st. *)
Lemma createObsTime_no_day day hour ref : mt_undef ref = false -> month_length (mt_year ref) (mt_month ref) < day ->
  mt_gt (mt_make (mt_year ref) (mt_month ref) day hour 0 0) (mt_addDay ref 10) = false ->
  mt_day ref < month_length (mt_year ref) (mt_month ref) -> mt_undef (createObsTime_at day hour ref) = true.
Proof.
  intros Hu Hd Hg Hr. rewrite createObsTime_cases by done. cbv zeta. rewrite (proj2 (Z.eqb_neq _ _)) by lia. cbn [andb].
  rewrite Hg. apply mt_make_invalid. unfold valid_date. lia.
Qed.

End obstime.

(** ** Properties: the registers of stations *)

Lemma elem_snoc {A} (x y : A) l : x ∈ l ++ [y] -> x ∈ l \/ x = y.
Proof. set_solver. Qed.


Section registers.
  Context {PT : PTime} {PC : PCalendar PT} {MT : MiTime} {ML : MiTimeLaws MT} (now : miTime MT).

Definition from (s : kvStation PT) : miTime MT := to_miTime (st_fromtime s).
Definition active (s : kvStation PT) : bool := negb (mt_gt (from s) now).

(** The newest of the records of a number, the last one of several. *)
Definition newest (n : Z) (l : list (kvStation PT)) (r : kvStation PT) : Prop :=
  r ∈ l /\ active r = true /\ st_wmonr r = n /\
  forall r', r' ∈ l -> active r' = true -> st_wmonr r' = n -> mt_secs (from r') <= mt_secs (from r).

Definition registered (n : Z) (l : list (kvStation PT)) (regs : gmap Z (miTime MT) * gmap Z Z * gmap string Z) : Prop :=
  match regs.1.1 !! n with
  | Some t => exists r, newest n l r /\ from r = t /\ regs.1.2 !! n = Some (st_stationid r)
  | None => regs.1.2 !! n = None /\ forall r, r ∈ l -> active r = true -> st_wmonr r <> n
  end.

Definition dated (r : kvStation PT) : Prop := mt_undef (from r) = false /\ st_stationid r <> 0.

Lemma register_station_land n l s regs : 0 < n -> Forall dated l -> dated s -> registered n l regs ->
  registered n (l ++ [s]) (register_station now s regs).
Proof.
  intros Hn Hl [Hs Hs0] H. destruct regs as [[F R] S]. unfold register_station. fold (from s).
  assert (Hskip : (forall r, newest n l r -> active s = true -> st_wmonr s = n -> mt_secs (from s) <= mt_secs (from r)) ->
    (F !! n = None -> active s = true -> st_wmonr s <> n) -> registered n (l ++ [s]) (F, R, S)).
  { intros H1 H2. unfold registered in *. cbn [fst snd] in *. destruct (F !! n) as [t|].
    - destruct H as (r & Hr & Ht & E). exists r. split; [|done]. pose proof (H1 r Hr) as H3. destruct Hr as (Hr1 & Hr2 & Hr3 & Hr4).
      split_and!; [set_solver|done..|]. intros r' [Hr'| ->]%elem_snoc; auto.
    - destruct H as [H ?]. split; [done|]. intros r [Hr| ->]%elem_snoc; auto. }
  destruct (mt_gt (from s) now) eqn:Ea.
  { apply Hskip; intros; unfold active in *; rewrite Ea in *; done. }
  destruct (decide (st_wmonr s = n)) as [En|En].
  - rewrite En. assert (Hle : forall r, newest n l r -> mt_gt (from r) (from s) = (mt_secs (from s) <? mt_secs (from r))).
    { intros r (Hr & _). apply mt_gt_secs; [|done]. rewrite Forall_forall in Hl. by apply Hl. }
    destruct (match F !! n with Some t => _ | None => _ end) eqn:Eg.
    + unfold registered in H. cbn [fst snd] in H. destruct (F !! n) as [t|] eqn:EF; [|done].
      apply Hskip; [|done]. intros r Hr _ _. destruct H as (r1 & Hr1 & <- & _). rewrite (Hle _ Hr1) in Eg. apply Z.ltb_lt in Eg.
      destruct Hr as (_ & _ & _ & Hr), Hr1 as (Hm & Ha & Hw & _). specialize (Hr r1 Hm Ha Hw). lia.
    + rewrite (proj2 (Z.ltb_lt 0 n)), (proj2 (Z.eqb_neq _ 0)), (proj2 (Z.eqb_neq n 0)) by (done || lia). cbn [negb].
      unfold registered. cbn [fst snd]. rewrite !lookup_insert_eq. exists s. split; [|done].
      split_and!; [set_solver|unfold active; by rewrite Ea|done|]. intros r' [Hr'| ->]%elem_snoc Ha Hw; [|lia].
      unfold registered in H. cbn [fst snd] in H. destruct (F !! n) as [t|]; [|by destruct H as [_ H]; destruct (H r' Hr' Ha)].
      destruct H as (r & Hr & <- & _). rewrite (Hle _ Hr) in Eg. apply Z.ltb_ge in Eg. destruct Hr as (_ & _ & _ & Hr).
      specialize (Hr r' Hr' Ha Hw). lia.
  - destruct (match F !! st_wmonr s with Some t => _ | None => _ end); [by apply Hskip|]. rewrite (proj2 (Z.eqb_neq _ 0)) by done.
    set (F' := if 0 <? st_wmonr s then _ else F). set (R' := if negb _ then _ else R).
    assert (EF : F' !! n = F !! n) by (unfold F'; case_match; [by apply lookup_insert_ne|done]).
    assert (ER : R' !! n = R !! n) by (unfold R'; case_match; [by apply lookup_insert_ne|done]).
    assert (Hr : registered n (l ++ [s]) (F, R, S)) by (by apply Hskip). unfold registered in *. cbn [fst snd] in *. by rewrite EF, ER.
Qed.

(** The last record of a call sign, which a record without a number decides. *)
Definition call_records (c : string) (l : list (kvStation PT)) : list (kvStation PT) :=
  List.filter (fun r => active r && bool_decide (st_call_sign r = c)) l.

Lemma register_station_ship c l s regs : c <> ""%string -> st_stationid s <> 0 ->
  (st_call_sign s = c -> st_wmonr s <= 0) ->
  (forall n, n <= 0 -> regs.1.1 !! n = None) -> regs.2 !! c = st_stationid <$> last (call_records c l) ->
  let regs' := register_station now s regs in
  (forall n, n <= 0 -> regs'.1.1 !! n = None) /\ regs'.2 !! c = st_stationid <$> last (call_records c (l ++ [s])).
Proof.
  intros Hc Hs0 Hw HF H. destruct regs as [[F R] S]. unfold register_station. fold (from s). cbn [fst snd] in HF, H.
  unfold call_records. rewrite List.filter_app. cbn [List.filter]. fold (call_records c l) in *. unfold active.
  destruct (mt_gt (from s) now) eqn:Ea; cbn [negb andb]; [by rewrite app_nil_r|].
  assert (Hkeep : forall n, n <= 0 -> (if 0 <? st_wmonr s then <[st_wmonr s := from s]> F else F) !! n = None).
  { intros n Hn. destruct (Z.ltb_spec 0 (st_wmonr s)); [rewrite lookup_insert_ne by lia|]; auto. }
  destruct (decide (st_call_sign s = c)) as [En|En].
  - rewrite (HF _ (Hw En)), (proj2 (Z.eqb_neq _ 0)), !bool_decide_true by congruence. cbn [fst snd]. split; [done|].
    by rewrite En, lookup_insert_eq, last_snoc.
  - rewrite (bool_decide_false (st_call_sign s = c)) by done. rewrite app_nil_r. destruct (match F !! _ with Some t => _ | None => _ end); [done|].
    rewrite (proj2 (Z.eqb_neq _ 0)) by done. cbn [fst snd]. split; [done|]. destruct (bool_decide _); [|exact H]. by rewrite lookup_insert_ne.
Qed.

(** The registers after the initialisation: a station number stands for the newest
    of its active records. A call sign of records without a number stands for the
    last of its active records in the list, whatever their times. *)
Theorem initialise_registers (kpos : list (kvStation PT)) (e l : Z) (k : kvSynopDecoder PT MT) : Forall dated kpos ->
  let k' := (initialise now kpos e l k).2 in
  (forall n, 0 < n -> match synopRegister k' !! n with
    | Some id => exists r, newest n kpos r /\ st_stationid r = id
    | None => forall r, r ∈ kpos -> active r = true -> st_wmonr r <> n
    end) /\
  (forall c, c <> ""%string -> Forall (fun r => st_call_sign r = c -> st_wmonr r <= 0) kpos ->
    shipRegister k' !! c = st_stationid <$> last (call_records c kpos)) /\
  tempoRegister k' = ∅ /\ continuous k' = true /\ ref k' = now /\ early k' = e * -1 /\ late k' = l.
Proof.
  intros Hd. unfold initialise. destruct (foldl _ _ _) as [[F R] S] eqn:E. cbn [snd set_registers synopRegister shipRegister tempoRegister
    continuous ref early late set_limits autoReferenceTime set_ref]. split; [|split; [|done]].
  - intros n Hn. assert (H : registered n kpos (F, R, S)).
    { rewrite <- E. clear E. induction kpos as [|s l' IH] using rev_ind; [by split; [|intros ? ?%elem_of_nil]|].
      apply Forall_app in Hd as [Hd [Hs _]%Forall_cons]. rewrite foldl_app. apply register_station_land; auto. }
    unfold registered in H. cbn [fst snd] in H. destruct (F !! n).
    + destruct H as (r & Hr & _ & ->). by exists r.
    + destruct H as [-> H]. exact H.
  - intros c Hc Hf. change S with ((F, R, S).2). rewrite <- E. clear E F R S. enough (H : forall regs, regs = foldl (fun regs s => register_station now s regs) (∅, ∅, ∅) kpos ->
      (forall n, n <= 0 -> regs.1.1 !! n = None) /\ regs.2 !! c = st_stationid <$> last (call_records c kpos)) by (by apply H).
    intros regs ->. induction kpos as [|s l' IH] using rev_ind; [done|]. apply Forall_app in Hd as [Hd [Hs _]%Forall_cons].
    apply Forall_app in Hf as [Hf [Hw _]%Forall_cons]. rewrite foldl_app. destruct (IH Hd Hf) as [H1 H2].
    apply register_station_ship; [done|apply Hs|done..].
Qed.

End registers.

(** ** Properties: the values of a message *)

Section values.
  Context {PT : PTime} {PC : PCalendar PT} {TT : PTimeText PT} {MT : MiTime} {LM : LibM}.

(** Every parameter of the parse once, in increasing order. *)
Lemma in_key_order_spec (m : gmap Z spec_float) :
  in_key_order m ≡ₚ map_to_list m /\ StronglySorted key_le (in_key_order m).
Proof.
  split; [apply merge_sort_Permutation|].
  assert (Transitive key_le) by (intros a b c; unfold key_le; lia). assert (Total key_le) by (intros a b; unfold key_le; lia).
  apply (StronglySorted_merge_sort key_le).
Qed.

(** A value of a message. *)
Definition synop_value (pos : Z) (t tbt : ptime PT) (typ f : Z) (pv : Z * spec_float) : kvData PT :=
  {| stationid_ := pos; obstime_ := t; original_ := pv.2; paramid_ := pv.1; tbtime_ := tbt; typeid_ := typ; sensor_ := 0; level_ := 0;
     corrected_ := pv.2; controlinfo_ := {| ci_base := kvDataFlag_clear |}; useinfo_ := ui_set kvUseInfo_clear 7 f; cfailed_ := "" |}.

(** The values that are defined. *)
Definition kept (m : gmap Z spec_float) : list (Z * spec_float) :=
  List.filter (fun pv => negb (pv.1 =? 0) && Dbl.ltb (Dbl.of_Z (-5000)) pv.2) (in_key_order m).

Lemma make_data_spec pos t tbt typ flag deco d : 0 <= char_val flag < 16 ->
  sensor_ d = 0 -> controlinfo_ d = {| ci_base := kvDataFlag_clear |} -> cfailed_ d = ""%string ->
  ui_set (useinfo_ d) 7 (char_val flag) = ui_set kvUseInfo_clear 7 (char_val flag) ->
  make_data pos t tbt typ flag deco d = synop_value pos t tbt typ (char_val flag) <$>
    List.filter (fun pv => negb (pv.1 =? 0) && Dbl.ltb (Dbl.of_Z (-5000)) pv.2) deco.
Proof.
  intros Hf. revert d. induction deco as [|[par v] deco IH]; intros d Hs Hc Hcf Hu; [done|]. cbn [make_data List.filter fst snd].
  destruct (negb (par =? 0) && _); [|by apply IH]. set (d1 := kvData_useinfo_nibble _ _ _).
  assert (E : d1 = synop_value pos t tbt typ (char_val flag) (par, v)).
  { unfold d1, kvData_useinfo_nibble, with_useinfo, kvData_set_original, synop_value. cbn [stationid_ obstime_ original_ paramid_ tbtime_
      typeid_ sensor_ level_ corrected_ controlinfo_ useinfo_ cfailed_ fst snd]. by rewrite Hs, Hc, Hcf, Hu. }
  rewrite E. cbn [fmap list_fmap]. f_equal. apply IH; [done..|]. unfold synop_value, ui_set. cbn [useinfo_ ui_base]. by rewrite set_set_eq.
Qed.

(** What depends on the codes of cloud base, visibility and cloud cover. *)
Lemma erase_last_absent par data : existsb (fun d : kvData PT => paramid_ d =? par) data = false -> erase_last par data = data.
Proof.
  induction data as [|d data IH]; [done|]. cbn [existsb erase_last]. intros [H1 H2]%orb_false_iff. rewrite H1, IH by done. done.
Qed.

Lemma erase_last_unique par data : NoDup (paramid_ (PT := PT) <$> data) -> erase_last par data = List.filter (fun d => negb (paramid_ d =? par)) data.
Proof.
  induction data as [|d data IH]; [done|]. rewrite fmap_cons. intros [Hd Hn]%NoDup_cons. cbn [erase_last List.filter].
  destruct (Z.eqb_spec (paramid_ d) par) as [E|E]; cbn [andb negb]; [|by rewrite IH].
  assert (Hx : existsb (fun d => paramid_ d =? par) data = false).
  { apply not_true_iff_false. rewrite existsb_exists. intros (x & Hx & Ex%Z.eqb_eq). apply Hd. apply list_elem_of_fmap.
    exists x. split; [congruence|by apply list_elem_of_In]. }
  rewrite Hx. cbn [negb]. rewrite <- (erase_last_absent par data Hx) at 1. by apply IH.
Qed.

Lemma createObsTime_keeps now k : let r := createObsTime now k in
  r.1 = createObsTime_at (YY (pinfo (sd_obs k))) (GG (pinfo (sd_obs k))) (if continuous k then now else ref k) /\
  r.2 = (if continuous k then set_ref now true k else k).
Proof. unfold createObsTime. cbv zeta. destruct (continuous k) eqn:E; [by rewrite ?E|done]. Qed.

(** The flag for an early or late report. *)
Lemma checkObservationTime_range tbt obt (k : kvSynopDecoder PT MT) : 0 <= char_val (checkObservationTime tbt obt k) < 16.
Proof. unfold checkObservationTime. repeat case_match; by vm_compute. Qed.

(** What the decoder makes of a printed report. *)
Lemma decode_values (now : miTime MT) (tbt t : ptime PT) (r : report) (k : kvSynopDecoder PT MT) (pos : Z) :
  report_ok r = true -> ascending 0 (groups r) = true -> station r <> 0 ->
  synopRegister k !! station r = Some pos -> pos <> 0 ->
  let obt := createObsTime_at (day r) (hour r) (if continuous k then now else ref k) in
  to_ptime obt = Some t ->
  exists k', decode now tbt (report_text r) k =
      (inl (true, correct_h_VV_N (synop_value pos t tbt kvalobsTypeID (char_val (checkObservationTime (to_miTime tbt) obt k))
                                  <$> kept (report_values r))), k') /\
    needTmp k' = false /\ synopRegister k' = synopRegister k /\ tempoRegister k' = tempoRegister k /\ shipRegister k' = shipRegister k /\
    lastTempoIndex k' = lastTempoIndex k.
Proof.
  intros Hr Ha Hs Hpos Hp. cbv zeta. intros Ht. unfold decode. destruct (read_report r (sd_hshsInMeter k) Hr Ha) as (s & E & Hu & Hty & HY & HG & HI & Ho).
  rewrite E. rewrite (bool_decide_false (type s = MOBIL)) by congruence. unfold hasUnrecognised. rewrite Hu, bool_decide_false by (intros H; by apply H).
  destruct (createObsTime_keeps now (set_sd_obs s k)) as [E1 E2]. destruct (createObsTime now (set_sd_obs s k)) as [obt k1]. cbn [fst snd] in E1, E2.
  cbn [sd_obs set_sd_obs continuous ref] in E1, E2. rewrite HY, HG in E1.
  set (k0 := set_sd_obs s k) in *.
  assert (Ek : sd_obs k1 = s /\ synopRegister k1 = synopRegister k /\ tempoRegister k1 = tempoRegister k /\ shipRegister k1 = shipRegister k /\
    lastTempoIndex k1 = lastTempoIndex k /\ continuous k1 = continuous k /\ early k1 = early k /\ late k1 = late k)
    by (rewrite E2; destruct (continuous k) eqn:Ec; rewrite <- ?Ec; done).
  destruct Ek as (Ek1 & Ek2 & Ek3 & Ek4 & Ek5 & Ek6 & Ek7 & Ek8).
  unfold findStationid. rewrite Ek1, HI, (proj2 (Z.eqb_neq _ 0)) by done. cbn [negb synopRegister set_tmp set_msgid].
  rewrite Ek2, Hpos. cbn [default from_option Datatypes.id]. unfold typeID. rewrite Hty. rewrite (bool_decide_false (SYNOP = SHIP)) by done.
  rewrite (proj2 (Z.eqb_neq pos 0)) by done. change (kvalobsTypeID =? 11) with false. cbv iota zeta. rewrite E1, Ht.
  assert (Ef : forall m n tm o, checkObservationTime (to_miTime tbt) o (set_msgid m (set_tmp n tm (set_msgid [] k1))) = checkObservationTime (to_miTime tbt) o k).
  { intros. unfold checkObservationTime. cbn [continuous early late set_msgid set_tmp]. by rewrite Ek6, Ek7, Ek8. }
  rewrite Ef. eexists. split; [do 3 f_equal|cbn [needTmp synopRegister tempoRegister shipRegister lastTempoIndex set_msgid set_tmp]; done].
  rewrite make_data_spec by (done || apply checkObservationTime_range). unfold kept. by rewrite Ho.
Qed.

(** From the text to the values: a printed report of a station in the register
    gives its defined values, each parameter once and in order, for the station, at
    the time of the report, with the flag of an early or late report; the height of
    the clouds is left out where the code says that it goes with a missing value. *)
Theorem decode_report (now : miTime MT) (tbt t : ptime PT) (r : report) (k : kvSynopDecoder PT MT) (pos : Z) :
  report_ok r = true -> ascending 0 (groups r) = true -> station r <> 0 ->
  synopRegister k !! station r = Some pos -> pos <> 0 ->
  let obt := createObsTime_at (day r) (hour r) (if continuous k then now else ref k) in
  to_ptime obt = Some t ->
  exists k', decode now tbt (report_text r) k =
      (inl (true, correct_h_VV_N (synop_value pos t tbt kvalobsTypeID (char_val (checkObservationTime (to_miTime tbt) obt k))
                                  <$> kept (report_values r))), k') /\
    needTmp k' = false /\ synopRegister k' = synopRegister k /\ tempoRegister k' = tempoRegister k /\ shipRegister k' = shipRegister k /\
    lastTempoIndex k' = lastTempoIndex k.
Proof. intros Hr Ha Hs Hpos Hp obt Ht. exact (decode_values now tbt t r k pos Hr Ha Hs Hpos Hp Ht). Qed.

End values.

(** ** Properties: stations for unknown ships *)

Section ships.
  Context {PT : PTime} {PC : PCalendar PT} {TT : PTimeText PT} {MT : MiTime} {LM : LibM}.

(** Every unknown ship has a number of its own. *)
Definition tempo_ok (k : kvSynopDecoder PT MT) : Prop :=
  (forall c id, tempoRegister k !! c = Some id -> id <= lastTempoIndex k) /\
  (forall c c' id, tempoRegister k !! c = Some id -> tempoRegister k !! c' = Some id -> c = c').

(** The numbers that are given are kept, and a station to be stored has a new number,
    which is registered. *)
Definition tempo_kept (k k' : kvSynopDecoder PT MT) : Prop :=
  tempoRegister k ⊆ tempoRegister k' /\ lastTempoIndex k <= lastTempoIndex k'.
Definition tempo_step (k k' : kvSynopDecoder PT MT) : Prop :=
  tempo_kept k k' /\
  (needTmp k' = true -> exists s, tstat k' = Some s /\ st_stationid s = lastTempoIndex k' /\ lastTempoIndex k' = lastTempoIndex k + 1 /\
     tempoRegister k !! st_call_sign s = None /\ tempoRegister k' !! st_call_sign s = Some (st_stationid s)).

(** The members that the registers of temporary stations do not see. *)
Definition same_tempo (k k' : kvSynopDecoder PT MT) : Prop :=
  tempoRegister k' = tempoRegister k /\ lastTempoIndex k' = lastTempoIndex k.

Lemma tempo_same_kept k k' : same_tempo k k' -> tempo_ok k -> tempo_ok k' /\ tempo_kept k k'.
Proof. unfold tempo_ok, tempo_kept. intros [-> ->] H. split; [done|]. split; [done|lia]. Qed.
Lemma tempo_same k k' : same_tempo k k' -> needTmp k' = false -> tempo_ok k -> tempo_ok k' /\ tempo_step k k'.
Proof. intros H Hn Hk. destruct (tempo_same_kept k k' H Hk). split; [done|]. split; [done|congruence]. Qed.

Lemma temporaryRegister_step now c k k0 : same_tempo k0 k -> needTmp k = false -> tempo_ok k0 ->
  let r := temporaryRegister now c k in
  tempo_ok r.2 /\ tempo_step k0 r.2 /\ tempoRegister r.2 !! c = Some r.1.
Proof.
  intros [Ht Hl] Hn [H1 H2]. unfold temporaryRegister. destruct (tempoRegister k !! c) as [id|] eqn:E; cbn [fst snd].
  - destruct (tempo_same k0 k) as [? ?]; [done|done|by split|]. split_and!; done.
  - rewrite Ht in E. unfold tempo_ok, tempo_step, tempo_kept. cbn [tempoRegister lastTempoIndex needTmp tstat set_tmp set_registers]. rewrite Ht, Hl. split_and!.
    + intros c' id [[<- <-]|[Hc Hc']]%lookup_insert_Some; [lia|]. specialize (H1 _ _ Hc'). lia.
    + intros c1 c2 id [[<- <-]|[Hc1 E1]]%lookup_insert_Some [[<- E2]|[Hc2 E2]]%lookup_insert_Some; [done| |by specialize (H1 _ _ E1); lia|by eapply H2].
      specialize (H1 _ _ E2). lia.
    + by apply insert_subseteq.
    + lia.
    + intros _. exists (temporary_station now (lastTempoIndex k0 + 1) c). cbn [st_stationid st_call_sign temporary_station].
      split_and!; try done. by rewrite lookup_insert_eq.
    + by rewrite lookup_insert_eq.
Qed.

Lemma findStationid_step now k k0 : same_tempo k0 k -> tempo_ok k0 ->
  let r := findStationid now k in tempo_ok r.2 /\ tempo_step k0 r.2.
Proof.
  intros [Ht Hl] Hok. unfold findStationid. cbv zeta. set (k1 := set_tmp false _ _).
  assert (Hs : forall m, same_tempo k0 (set_msgid m k1)) by done. assert (Hs1 : same_tempo k0 k1) by done.
  assert (Hb : forall k2, same_tempo k0 k2 -> needTmp k2 = false -> forall b,
    let r := if negb (b =? 0) then temporaryRegister now (pretty b) (set_msgid (to_bytes (pretty b)) k2) else (0, k2) in
    tempo_ok r.2 /\ tempo_step k0 r.2).
  { intros k2 [H1 H2] Hn b. cbv zeta. destruct (negb _); [|by apply tempo_same].
    by destruct (temporaryRegister_step now (pretty b) (set_msgid (to_bytes (pretty b)) k2) k0) as (? & ? & _). }
  destruct (negb _); [by apply tempo_same|]. case_bool_decide; [|by apply Hb].
  destruct (_ && _); [|by apply Hb]. destruct (shipRegister _ !! _); [by apply tempo_same|].
  by destruct (temporaryRegister_step now (of_bytes (callSign (pinfo (sd_obs k)))) (set_msgid (to_bytes (of_bytes (callSign (pinfo (sd_obs k))))) k1) k0)
    as (? & ? & _).
Qed.

(** Whatever the message, the unknown ships keep the numbers of their temporary
    stations, and a new one gets a number that no other has. *)
Theorem decode_temporaries (now : miTime MT) (tbt : ptime PT) (text : bytes) (k k' : kvSynopDecoder PT MT) r :
  tempo_ok k -> decode now tbt text k = (r, k') ->
  tempo_ok k' /\ tempo_kept k k' /\ (forall data, r = inl (true, data) -> tempo_step k k').
Proof.
  intros Hok. unfold decode.
  assert (Hrej : forall k1 (r1 : bool * list (kvData PT) + failure), same_tempo k k1 -> (forall data, r1 <> inl (true, data)) ->
    tempo_ok k1 /\ tempo_kept k k1 /\ (forall data : list (kvData PT), r1 = inl (true, data) -> tempo_step k k1)).
  { intros k1 r1 H Hr. destruct (tempo_same_kept k k1 H Hok). split_and!; [done..|]. intros data E. by destruct (Hr data). }
  destruct (lexSynop _ _) as [s|]; [|by intros [= <- <-]; apply Hrej].
  case_bool_decide; [by intros [= <- <-]; apply Hrej|]. destruct (hasUnrecognised s); [by intros [= <- <-]; apply Hrej|].
  destruct (createObsTime_keeps now (set_sd_obs s k)) as [_ E2]. destruct (createObsTime now (set_sd_obs s k)) as [obt k1].
  cbn [snd] in E2. assert (Hs : same_tempo k k1) by (rewrite E2; by destruct (continuous _)).
  destruct (findStationid_step tbt k1 k Hs Hok) as [H1 H2]. destruct (findStationid tbt k1) as [pos k2]. cbn [snd] in H1, H2.
  destruct (pos =? 0); [intros [= <- <-]; split_and!; [exact H1|apply H2|done]|].
  destruct (to_ptime obt); [|case_bool_decide]; intros [= <- <-]; split_and!; (done || apply H2).
Qed.

End ships.

(** ** Concrete runs *)

Definition mt (y m d h mi : Z) : miTime mi_stamp_time := mt_make y m d h mi 0.

Lemma createObsTime_window_witness :
  mt_undef (mt 2024 1 3 12 5) = false /\
  (mt_undef (createObsTime_at 22 21 (mt 2024 1 3 12 5)) = true \/
   (mt_day (createObsTime_at 22 21 (mt 2024 1 3 12 5)) = 22 /\ mt_hour (createObsTime_at 22 21 (mt 2024 1 3 12 5)) = 21 /\
    mt_min (createObsTime_at 22 21 (mt 2024 1 3 12 5)) = 0 /\ mt_sec (createObsTime_at 22 21 (mt 2024 1 3 12 5)) = 0 /\
    mt_secs (mt 2024 1 3 12 5) - 31 * 86400 < mt_secs (createObsTime_at 22 21 (mt 2024 1 3 12 5)) <= mt_secs (mt 2024 1 3 12 5) + 10 * 86400)) /\
  (mt_year (createObsTime_at 22 21 (mt 2024 1 3 12 5)), mt_month (createObsTime_at 22 21 (mt 2024 1 3 12 5))) = (2023, 12).
Proof.
  split; [by_decision|]. split; [exact (createObsTime_window 22 21 (mt 2024 1 3 12 5) eq_refl)|by_decision].
Defined.

Lemma createObsTime_recovers_witness :
  mt_undef (createObsTime_at 31 23 (mt 2024 1 1 0 10)) = false /\
  mt_secs (createObsTime_at 31 23 (mt 2024 1 1 0 10)) = mt_secs (mt 2023 12 31 23 0).
Proof.
  apply (createObsTime_recovers (mt 2023 12 31 23 0) (mt 2024 1 1 0 10)); [done..|by vm_compute|split; by vm_compute].
Defined.

Definition sample_station (id wmo : Z) (call : string) (y : Z) : kvStation stamp_time :=
  {| st_stationid := id; st_lat := DBL_NULL; st_lon := DBL_NULL; st_height := DBL_NULL; st_maxspeed := DBL_NULL; st_name := "";
     st_wmonr := wmo; st_nationalnr := INT_NULL; st_ICAOid := ""; st_call_sign := call; st_stationstr := "";
     st_environmentid := 1; st_static := true; st_fromtime := stamp_of y 1 1 0 0 0 |}.

(** Two records of a station, one of the future, and two of a ship, the older last. *)
Definition sample_stations : list (kvStation stamp_time) :=
  [sample_station 18700 22231 "" 1990; sample_station 18701 22231 "" 2010; sample_station 18702 22231 "" 2030;
   sample_station 76900 0 "LDWR" 2015; sample_station 76901 0 "LDWR" 2000].

Definition sample_initialised : kvSynopDecoder stamp_time mi_stamp_time :=
  (initialise (mt 2024 1 22 21 5) sample_stations 20 30 kvSynopDecoder_new).2.

Lemma initialise_registers_witness :
  (exists r, newest (mt 2024 1 22 21 5) 22231 sample_stations r /\ st_stationid r = 18701) /\
  shipRegister sample_initialised !! "LDWR"%string = Some 76901.
Proof.
  destruct (initialise_registers (mt 2024 1 22 21 5) sample_stations 20 30 kvSynopDecoder_new) as (Hl & Hs & _).
  - repeat constructor; done.
  - split.
    + specialize (Hl 22231 eq_refl). change (initialise _ _ _ _ _).2 with sample_initialised in Hl.
      assert (E : synopRegister sample_initialised !! 22231 = Some 18701) by by_decision. by rewrite E in Hl.
    + etrans; [apply Hs; [done|repeat constructor]|by_decision]. all: try by_decision.
Defined.

Lemma decode_report_witness : exists k',
  decode (LM := {| c_exp := fun x => x |}) (mt 2024 1 22 21 5) (stamp_of 2024 1 22 21 5 0)
    (to_bytes "AAXX 22211 22231 22258 22207 11023 21041 40132 60051 87234=") sample_initialised =
  (inl (true, correct_h_VV_N (synop_value 18701 (stamp_of 2024 1 22 21 0 0) (stamp_of 2024 1 22 21 5 0) 1 0
      <$> kept (report_values (LM := {| c_exp := fun x => x |}) sample_report))), k') /\
  needTmp k' = false.
Proof.
  rewrite <- sample_report_text.
  destruct (decode_report (LM := {| c_exp := fun x => x |}) (mt 2024 1 22 21 5) (stamp_of 2024 1 22 21 5 0 : ptime stamp_time)
    (stamp_of 2024 1 22 21 0 0) sample_report sample_initialised 18701) as (k' & E & Hn & _); [by vm_compute..|].
  exists k'. split; [|exact Hn]. exact E.
Defined.

Lemma decode_temporaries_witness : exists r k',
  decode (LM := {| c_exp := fun x => x |}) (mt 2024 1 22 21 5) (stamp_of 2024 1 22 21 5 0 : ptime stamp_time)
    (to_bytes "BBXX DBLK 22214 99582 10052 41298 62710=") sample_initialised = (r, k') /\
  tempo_ok k' /\ tempo_kept sample_initialised k' /\ tempoRegister k' !! "DBLK"%string = Some 12221051.
Proof.
  destruct (decode (LM := {| c_exp := fun x => x |}) (mt 2024 1 22 21 5) (stamp_of 2024 1 22 21 5 0 : ptime stamp_time)
    (to_bytes "BBXX DBLK 22214 99582 10052 41298 62710=") sample_initialised) as [r k'] eqn:E.
  exists r, k'. split; [done|].
  assert (Ht : tempoRegister k' !! "DBLK"%string = Some 12221051).
  { change k' with (r, k').2. rewrite <- E. by vm_compute. }
  assert (Hok : tempo_ok sample_initialised) by (split; intros c; [intros id|intros c' id]; change (tempoRegister sample_initialised) with (∅ : gmap string Z); by rewrite lookup_empty).
  destruct (decode_temporaries (LM := {| c_exp := fun x => x |}) (mt 2024 1 22 21 5) (stamp_of 2024 1 22 21 5 0 : ptime stamp_time) (to_bytes "BBXX DBLK 22214 99582 10052 41298 62710=")
    sample_initialised k' r Hok E) as (H1 & H2 & _). exact (conj H1 (conj H2 Ht)).
Defined.
