(* ===== verification/SynopExecute.v ===== *)
(** * Executing a synoptic message
      (src/src/lib/decoder/synopdecoder/synopdecoder.cc)

    [SynopDecoder] keeps the object of [SynopDecoder.v] between the messages, fills its
    registers from the database, and saves the values of a message with the base of
    the decoders. The clock of puTools and the text of a database error are
    parameters; log files are left out. *)

From stdpp Require Import pretty.
From S2P Require Import Prelude Orders PTime TimeText DataFlag ControlInfo UseInfo KvData SortedData KvalobsData Sql Database Observation DataUpdateTransaction Rows Conf StationFilter Scanning Text CommaString OrderedSet Signature ParamList Formatter Serial DatabaseAccess PgConnection Gate Decoder Saving KlDecoder Kv2kv Station Lexer SynopLexer Synop SynopReport MiTime SynopDecoder.

#[local] Open Scope Z_scope.

Section SynopDecoder.
  Context {PT : PTime} {PC : PCalendar PT} {PS : PTimeShow PT} {DT : DbText PT} {BT : BoostText} {TT : PTimeText PT}
          {SD : StreamDouble} {MT : MiTime} {LM : LibM}.
  Context {W : Type} {PQ : Libpq W} {DS : DbServer PT W} (con : bool) (fuel : nat).
  (** [miTime::nowTime()], and the members of an object before they are set from a
      row. *)
  Context (nowTime : W -> miTime MT) (raw_station : kvStation PT) (raw_types : kvTypes).
  (** What a rejected message says of an error of the database. *)
  Context (db_text : sql_exn -> bytes).

(** The static members. *)
Record statics := { lastStationCheck : miTime MT; synopDec : kvSynopDecoder PT MT }.
Definition set_synopDec (k : kvSynopDecoder PT MT) (st : statics) : statics :=
  {| lastStationCheck := lastStationCheck st; synopDec := k |}.

(** [getHsInMeter]: a configuration without a section for the decoder is a null
    pointer, which is used: [None]. *)
Definition synop_name : bytes := to_bytes "SynopDecoder".
Definition synop_section (d : DecoderBase PT) : option ConfSection :=
  conf ← theKvConf d; getSection conf (to_bytes "kvDataInputd." ++ synop_name).

Definition getHsInMeter (d : DecoderBase PT) : option bool :=
  conf ← synop_section d;
  Some match getValue conf (to_bytes "hshs_in_meter") with
       | v :: _ => bool_decide (head (valAsString v) = Some "t"%char) || bool_decide (head (valAsString v) = Some "T"%char)
       | [] => false
       end.

(** [gate.select]: the objects of the rows, [None] when it fails. *)
Definition gate_objects {A} (columns : list string) (table : string) (read : DRow -> A) (q : string) (w : W)
    : (option (list A) + failure) * W :=
  match gate_select con (selectAllQuery table ++ q)%string kvDbGate_new w with
  | (inl (true, rows), (_, w)) => (inl (Some (read ∘ zip columns <$> rows)), w)
  | (inl (false, _), (_, w)) => (inl None, w)
  | (inr e, (_, w)) => (inr e, w)
  end.

(** [kvQueries::selectAllStations]. *)
Definition selectAllStations (orderby : string) : string := (" order by " ++ orderby)%string.

Definition initializeKvSynopDecoder (st : statics) (d : DecoderBase PT) (w : W) : (bool + failure) * (statics * W) :=
  match getHsInMeter d with
  | None => (inr Undefined, (st, w))
  | Some hs =>
      let st := set_synopDec (setHshsInMeter hs (synopDec st)) st in
      match gate_objects station_columns "station" (fun r => kvStation_set_row r raw_station) (selectAllStations "stationid") w with
      | (inr e, w) => (inr e, (st, w))
      | (inl None, w) => (inl false, (st, w))
      | (inl (Some stat), w) =>
          let st := {| lastStationCheck := nowTime w; synopDec := synopDec st |} in
          match gate_objects types_columns "types" (fun r => kvTypes_set_row r raw_types) "where typeid=1" w with
          | (inr e, w) => (inr e, (st, w))
          | (inl types, w) =>
              let '(earlyobs, lateobs) := match types with Some (t :: _) => (ty_earlyobs_ t, ty_lateobs_ t) | _ => (20, 30) end in
              let '(b, k) := initialise (nowTime w) stat earlyobs lateobs (synopDec st) in
              (inl b, (set_synopDec k st, w))
          end
      end
  end.

(** [saveData]: the result, whether the message is rejected, and why. A failure of the
    database that may go away leaves the result as it is. *)
Definition saveData (data : list (kvData PT)) (d : DecoderBase PT) (w : W)
    : option ((bool * bool * bytes + failure) * (DecoderBase PT * W)) :=
  match data with
  | [] => Some (inl (true, false, []), (d, w))
  | v :: _ =>
      if existsb (fun v => is_not_a_date_time (obstime_ v) || is_not_a_date_time (tbtime_ v)) data
      then Some (inl (false, true, to_bytes "Missing obsTime or tbtime for observation!"), (d, w))
      else
        match addDataToDbThrow con fuel (obstime_ v) (stationid_ v) (typeid_ v) data [] (logid_of (stationid_ v) (typeid_ v)) DbInsert
                true false true d w with
        | None => None
        | Some (inl true, dw) => Some (inl (true, false, []), dw)
        | Some (inl false, dw) => Some (inl (false, true, to_bytes "Unknown error, but not DB error."), dw)
        | Some (inr (Sql e), dw) => Some (inl (if sql_mayRecover e then (true, false, []) else (false, true, db_text e)), dw)
        | Some (inr e, dw) => Some (inr e, dw)
        end
  end.

(** [tmpStation] and [putkvStationInDb]. *)
Definition tmpStation (k : kvSynopDecoder PT MT) : option (kvStation PT) := if needTmp k then tstat k else None.

Definition putkvStationInDb (s : kvStation PT) (w : W) : (bool + failure) * W :=
  let '(r, (_, w)) := gate_insert con (station_base s) (tableName (station_base s)) true kvDbGate_new w in (r, w).

(** What leaves the [try] block around [saveData]. *)
Definition exception_msg : bytes := to_bytes "EXCEPTION: Can't save data to database!".
Definition caught (e : failure) : DecodeResult * bytes + failure :=
  match e with Sql _ | Std => inl (NotSaved, exception_msg) | e => inr e end.

Abbreviation answer := (option ((DecodeResult * bytes + failure) * (statics * (DecoderBase PT * W)))).

(** The end of a message that was decoded. *)
Definition after_decode (now : ptime PT) (data : list (kvData PT)) (st : statics) (d : DecoderBase PT) (w : W) : answer :=
  match saveData data d w with
  | None => None
  | Some (inr e, dw) => Some (caught e, (st, dw))
  | Some (inl (false, true, why), (d, w)) =>
      match putRejectdecodeInDb con kvalobs_text (Decoder.obs d) (to_bytes "synop") why now w with
      | (inl _, w) => Some (inl (Rejected, why), (st, (d, w)))
      | (inr e, w) => Some (caught e, (st, (d, w)))
      end
  | Some (inl (false, false, _), dw) => Some (inl (NotSaved, to_bytes "Can't save data to database!"), (st, dw))
  | Some (inl (true, _, _), (d, w)) =>
      match tmpStation (synopDec st) with
      | Some s =>
          match putkvStationInDb s w with
          | (inl _, w) => Some (inl (Ok, to_bytes "OK!"), (st, (d, w)))
          | (inr e, w) => Some (inr e, (st, (d, w)))
          end
      | None => Some (inl (Ok, to_bytes "OK!"), (st, (d, w)))
      end
  end.

(** The end of one that was not. *)
Definition after_reject (msg : bytes) (st : statics) (d : DecoderBase PT) (w : W) : answer :=
  let comment := rejectComment (synopDec st) in
  if bool_decide (comment = MOBIL_comment) then Some (inl (Ok, msg), (st, (d, w)))
  else
    let msg := to_bytes "Synop REJECTED: " ++ comment in
    if bool_decide (comment <> unknown_comment) then
      match putRejectdecodeInDb con kvalobs_text (raw (sd_obs (synopDec st))) (to_bytes "synop") comment (clock w) w with
      | (inl _, w) => Some (inl (Rejected, msg), (st, (d, w)))
      | (inr e, w) => Some (inr e, (st, (d, w)))
      end
    else Some (inl (Rejected, msg), (st, (d, w))).

(** [execute]; [msg] is the text that the caller passes, and the result has the text
    that it gets. *)
Definition needs_check (st : statics) (now : ptime PT) : bool :=
  mt_undef (lastStationCheck st) || (3 <? Z.abs (mt_hourDiff (lastStationCheck st) (to_miTime now))).

Definition execute (msg : bytes) (st : statics) (d : DecoderBase PT) (w : W) : answer :=
  if bool_decide (Decoder.obs d = []) then Some (inl (Ok, msg), (st, (d, w)))
  else
    let now := clock w in
    match (if needs_check st now then initializeKvSynopDecoder st d w else (inl true, (st, w))) with
    | (inr e, (st, w)) => Some (inr e, (st, (d, w)))
    | (inl false, (st, w)) => Some (inl (NotSaved, to_bytes "Can't initialize the SynopDecoder!!!"), (st, (d, w)))
    | (inl true, (st, w)) =>
        match decode (nowTime w) (clock w) (Decoder.obs d) (synopDec st) with
        | (inr e, k) => Some (inr e, (set_synopDec k st, (d, w)))
        | (inl (true, data), k) => after_decode now data (set_synopDec k st) d w
        | (inl (false, _), k) => after_reject msg (set_synopDec k st) d w
        end
    end.

End SynopDecoder.

Arguments statics : clear implicits.

(** ** Properties *)

(** The table of stations is not one of those that observations live in. *)
Class SeparateStations {W A : Type} (PQ : Libpq W) (committed : W -> A) := {
  ss_station e w : committed (PQexec (insert_text "station" e) w).2 = committed w;
  ss_remove e w : committed (PQexec (delete_text "station" e) w).2 = committed w
}.

Section executing.
  Context {PT : PTime} {PC : PCalendar PT} {PS : PTimeShow PT} {DT : DbText PT} {BT : BoostText} {TT : PTimeText PT}
          {SD : StreamDouble} {MT : MiTime} {LM : LibM}.
  Context {W : Type} {PQ : Libpq W} {DS : DbServer PT W} (committed : W -> tables PT) (view : W -> option (tables PT))
          (lost : W -> Prop) {DSL : DbServerLaws DS committed view lost} {SEP : SeparateTables PQ committed} {SST : SeparateStations PQ committed}.
  Context (fuel : nat) (nowTime : W -> miTime MT) (raw_station : kvStation PT) (raw_types : kvTypes) (db_text : sql_exn -> bytes).

  #[local] Abbreviation in_view := (fun w => is_Some (view w)).
  #[local] Abbreviation keeps := (PgConnection.keeps committed lost).

Lemma gate_objects_keeps {A} columns table (read : DRow -> A) q w : keeps w (gate_objects true columns table read q w).2.
Proof.
  unfold gate_objects, gate_select. cbn [negb]. destruct (_ <? 0); [done|].
  pose proof (pg_execQuery_keeps committed in_view lost (selectAllQuery table ++ q)%string w (st_select table q w)) as H.
  destruct (pg_execQuery true _ w) as [[[rows|]|[e| | |]] w1]; exact H.
Qed.

Lemma initializeKvSynopDecoder_keeps st d w :
  keeps w (initializeKvSynopDecoder true nowTime raw_station raw_types st d w).2.2.
Proof.
  unfold initializeKvSynopDecoder. destruct (getHsInMeter d) as [hs|]; [|done]. cbv zeta.
  pose proof (gate_objects_keeps station_columns "station" (fun r => kvStation_set_row r raw_station) (selectAllStations "stationid") w) as H.
  destruct (gate_objects _ _ _ _ _ w) as [[[stat|]|e] w1]; [|exact H..].
  pose proof (gate_objects_keeps types_columns "types" (fun r => kvTypes_set_row r raw_types) "where typeid=1" w1) as H2.
  destruct (gate_objects _ _ _ _ _ w1) as [[types|e] w2]; cbn [snd] in *; [|by etransitivity].
  destruct (match types with Some (t :: _) => _ | _ => _ end) as [e l]. destruct (initialise _ _ _ _ _) as [b k]. by etransitivity.
Qed.

(** The registers when a message is decoded: as they are, or filled anew. *)
Definition refreshed (st : statics PT MT) (d : DecoderBase PT) (w : W) : (bool + failure) * (statics PT MT * W) :=
  if needs_check st (clock w) then initializeKvSynopDecoder true nowTime raw_station raw_types st d w else (inl true, (st, w)).

Lemma refreshed_keeps st d w : keeps w (refreshed st d w).2.2.
Proof. unfold refreshed. destruct (needs_check _ _); [apply initializeKvSynopDecoder_keeps|done]. Qed.

Lemma putkvStation_keeps s w : keeps w (putkvStationInDb true s w).2.
Proof.
  unfold putkvStationInDb. change (tableName (station_base s)) with "station"%string.
  pose proof (gate_insert_keeps committed view lost "station" (station_base s) true kvDbGate_new w ss_station ss_remove) as H.
  by destruct (gate_insert _ _ _ _ _ w) as [r [g w1]].
Qed.

(** What becomes of the values of a message: they are saved by one transaction, or a
    failure of the database that may go away has left the tables as they were. *)
Definition saved (d : DecoderBase PT) (data : list (kvData PT)) (T T' : tables PT) : Prop :=
  match data with
  | [] => T' = T
  | v :: _ => saves_batch (stationid_ v) (typeid_ v) (logid_of (stationid_ v) (typeid_ v)) DbInsert false true true d
                (obstime_ v, data, []) T T'
  end.
Definition save_failed (d : DecoderBase PT) (data : list (kvData PT)) (w : W) : Prop :=
  exists v rest e dw, data = v :: rest /\ sql_mayRecover e = true /\
    addDataToDbThrow true fuel (obstime_ v) (stationid_ v) (typeid_ v) data [] (logid_of (stationid_ v) (typeid_ v)) DbInsert true false true d w
      = Some (inr (Sql e), dw).

(** The values are saved, or lost to such a failure when they are given to the
    database at [w]. *)
Definition saved_or_lost (d : DecoderBase PT) (data : list (kvData PT)) (w : W) (T T' : tables PT) : Prop :=
  saved d data T T' \/ save_failed d data w /\ T' = T.

Lemma saveData_spec data d w r d' w' : saveData true fuel db_text data d w = Some (r, (d', w')) ->
  unless_lost lost w w'
  match r with
  | inl (true, _, _) => saved_or_lost d data w (committed w) (committed w')
  | inl (false, rej, _) => rej = true /\ committed w' = committed w
  | inr _ => committed w' = committed w
  end.
Proof.
  unfold saveData. destruct data as [|v rest]; [intros [= <- <- <-]; apply unless_done; by left|].
  destruct (existsb _ _); [by intros [= <- <- <-]; apply unless_done|].
  destruct (addDataToDbThrow _ _ _ _ _ _ _ _ _ _ _ _ _ _) as [[[b|e] [d1 w1]]|] eqn:E; [| |done];
    pose proof (add_batch committed view lost fuel _ _ _ DbInsert false true true d w (obstime_ v, v :: rest, []) _ _ _ E) as H.
  - destruct b; intros [= <- <- <-]; (eapply unless_mono; [exact H|]); intros [_ Hc]; [by left|done].
  - destruct e as [e| | |]; [|by intros [= <- <- <-]; (eapply unless_mono; [exact H|]); intros [_ Hc]..].
    destruct (sql_mayRecover e) eqn:Er; intros [= <- <- <-]; (eapply unless_mono; [exact H|]); intros [_ Hc]; [|done].
    right. split; [|done]. exists v, rest, e, (d1, w1). done.
Qed.

(** The answer, or an exception that leaves. *)
Abbreviation result := (DecodeResult * bytes + failure)%type.
Definition answers_saved (r : result) : Prop := r = inl (Ok, to_bytes "OK!").
Definition answers_ok_not (r : result) : Prop := match r with inl (res, _) => res <> Ok | inr _ => True end.

(** A message that was decoded: it is answered as saved, or not and nothing is
    saved; or its values were dealt with and putting its station in the database
    ended with an exception. *)
Definition after_decoding (st : statics PT MT) (d : DecoderBase PT) (data : list (kvData PT)) (w : W) (T T' : tables PT) (r : result) : Prop :=
  (answers_ok_not r /\ T' = T) \/
  ((answers_saved r \/ exists e s, r = inr e /\ tmpStation (synopDec st) = Some s) /\ saved_or_lost d data w T T').

Lemma after_decode_spec now data st d w r st' d' w' :
  after_decode true fuel db_text now data st d w = Some (r, (st', (d', w'))) ->
  st' = st /\ unless_lost lost w w' (after_decoding st d data w (committed w) (committed w') r).
Proof.
  unfold after_decode, after_decoding. destruct (saveData _ _ _ data d w) as [[[[[[] rej] why]|e] [d1 w1]]|] eqn:E; [| | |done]; apply saveData_spec in E.
  - destruct (tmpStation (synopDec st)) as [s|] eqn:Es.
    2:{ intros [= <- <- <- <-]. split; [done|]. eapply unless_mono; [exact E|]. intros H. right. split; [by left|done]. }
    pose proof (putkvStation_keeps s w1) as Hk.
    destruct (putkvStationInDb true s w1) as [[b|e] w2]; intros [= <- <- <- <-]; (split; [done|]); cbn [snd] in Hk;
      (eapply unless_trans; [exact E|exact Hk|]); intros H ->; right; (split; [|exact H]); [by left|right; by exists e, s].
  - pose proof (putRejectdecode_keeps committed view lost kvalobs_text (Decoder.obs d1) (to_bytes "synop") why now w1) as Hk.
    destruct rej.
    + destruct (putRejectdecodeInDb _ _ _ _ _ _ w1) as [[b|e] w2]; cbn [snd] in Hk; intros [= <- <- <- <-]; (split; [done|]);
        (eapply unless_trans; [exact E|exact Hk|]); intros [_ Hc] Hc2; left; (split; [|congruence]); [done|by destruct e].
    + intros [= <- <- <- <-]. split; [done|]. eapply unless_mono; [exact E|]. by intros [H _].
  - intros [= <- <- <- <-]. split; [done|]. eapply unless_mono; [exact E|]. intros Hc. left. split; [by destruct e|done].
Qed.

Lemma after_reject_spec msg st d w r st' d' w' :
  after_reject true msg st d w = Some (r, (st', (d', w'))) ->
  st' = st /\ keeps w w' /\ (answers_ok_not r \/ r = inl (Ok, msg) /\ rejectComment (synopDec st) = MOBIL_comment).
Proof.
  unfold after_reject. cbv zeta. case_bool_decide as Hm; [intros [= <- <- <- <-]; by split_and!; [..|right]|].
  case_bool_decide; [|intros [= <- <- <- <-]; by split_and!; [..|left]].
  pose proof (putRejectdecode_keeps committed view lost kvalobs_text (raw (sd_obs (synopDec st))) (to_bytes "synop") (rejectComment (synopDec st)) (clock w) w) as Hk.
  destruct (putRejectdecodeInDb _ _ _ _ _ _ w) as [[b|e] w2]; intros [= <- <- <- <-]; by split_and!; [..|left].
Qed.

(** C5: What executing a synoptic message does to the tables of observations, on a
    connection that is not lost, whether it answers or an exception leaves. They stay
    as they were and the answer is not [Ok]; or they stay as they were and the answer
    is [Ok] with the caller's text, for an empty message or one of a mobile station
    that is not wanted; or the message was decoded and it is answered that it was
    saved, and then the values that were decoded are saved by one transaction, or
    were lost to a failure of the database that may go away. The last is also so
    when an exception leaves from putting the station of the message in the
    database, which is done after the values. *)
Theorem synop_execute_saves msg st d w (r : result) st' d' w' :
  execute true fuel nowTime raw_station raw_types db_text msg st d w = Some (r, (st', (d', w'))) -> ~ lost w' ->
  (answers_ok_not r /\ committed w' = committed w) \/
  (r = inl (Ok, msg) /\ committed w' = committed w /\ (Decoder.obs d = [] \/ rejectComment (synopDec st') = MOBIL_comment)) \/
  ((answers_saved r \/ exists e s, r = inr e /\ tmpStation (synopDec st') = Some s) /\
   exists st1 w1 data, refreshed st d w = (inl true, (st1, w1)) /\
     decode (nowTime w1) (clock w1) (Decoder.obs d) (synopDec st1) = (inl (true, data), synopDec st') /\
     committed w1 = committed w /\ saved_or_lost d data w1 (committed w) (committed w')).
Proof.
  unfold execute. case_bool_decide as Ho; [intros [= <- <- <- <-] _; right; left; auto|]. cbv zeta.
  pose proof (refreshed_keeps st d w) as Hk. fold (refreshed st d w).
  destruct (refreshed st d w) as [[[]|e] [st1 w1]] eqn:Er; cbn [snd] in Hk.
  2,3: intros [= <- <- <- <-] Hl; left; apply unless_lasts in Hk as [Hc _]; [by split|done].
  destruct (decode _ _ _ (synopDec st1)) as [[[[] data]|e] k] eqn:Ed.
  - intros E Hl. apply after_decode_spec in E as [-> E]. apply unless_lasts in E as [E Hl1]; [|done]. apply unless_lasts in Hk as [Hc _]; [|done].
    rewrite Hc in E. destruct E as [E|[Hr E]]; [by left|]. right; right. split; [exact Hr|]. by exists st1, w1, data.
  - intros E Hl. apply after_reject_spec in E as (-> & E & Hr). apply unless_lasts in E as [E Hl1]; [|done]. apply unless_lasts in Hk as [Hc _]; [|done].
    rewrite Hc in E. destruct Hr as [Hr|[Hr Hm]]; [by left|]. right; left. by split_and!; [..|right].
  - intros [= <- <- <- <-] Hl. left. apply unless_lasts in Hk as [Hc _]; [|done]. by split.
Qed.

(** C4: From the text of a report to the tables, on a connection that is not lost. A
    report is printed in the groups of the code, its station is one of the registers
    (as they are, or filled anew when they are old), and its time of observation can
    be stored. When it is answered that the report was saved, its values are saved by
    one transaction, or were lost to a failure of the database that may go away; when
    an exception leaves from putting its station in the database, too; otherwise
    nothing is saved and the answer is not [Ok]. *)
Theorem synop_execute_report (r : report) (pos : Z) (t : ptime PT) msg st st1 d w w1 (res : result) st' d' w' :
  report_ok r = true -> ascending 0 (groups r) = true -> station r <> 0 -> Decoder.obs d = report_text r ->
  refreshed st d w = (inl true, (st1, w1)) -> synopRegister (synopDec st1) !! station r = Some pos -> pos <> 0 ->
  let k := synopDec st1 in
  let obt := createObsTime_at (day r) (hour r) (if continuous k then nowTime w1 else ref k) in
  to_ptime obt = Some t ->
  execute true fuel nowTime raw_station raw_types db_text msg st d w = Some (res, (st', (d', w'))) -> ~ lost w' ->
  let data := correct_h_VV_N (synop_value pos t (clock w1) kvalobsTypeID (char_val (checkObservationTime (to_miTime (clock w1)) obt k))
                              <$> kept (report_values r)) in
  (answers_ok_not res /\ committed w' = committed w) \/
  ((answers_saved res \/ exists e s, res = inr e /\ tmpStation (synopDec st') = Some s) /\
   saved_or_lost d data w1 (committed w) (committed w')).
Proof.
  cbv zeta. intros Hr Ha Hs Ho Hn Hpos Hp Ht. pose proof (refreshed_keeps st d w) as Hk.
  unfold execute. rewrite Ho, (bool_decide_false (report_text r = [])) by done. cbv zeta.
  fold (refreshed st d w). rewrite Hn in *. cbn [snd] in Hk.
  destruct (decode_values (nowTime w1) (clock w1) t r (synopDec st1) pos Hr Ha Hs Hpos Hp Ht) as (k' & E & _). rewrite E.
  intros H Hl. apply after_decode_spec in H as [-> H]. apply unless_lasts in H as [H Hl1]; [|done].
  apply unless_lasts in Hk as [Hc _]; [|done]. rewrite Hc in H. exact H.
Qed.

(** Every message is dealt with, when the serialization errors of each transaction
    end. *)
Lemma synop_execute_settles left_ {SB : SerializationBudget true (update_transaction (DT := DT)) REPEATABLE_READ left_} msg st d w :
  settles (fun fuel => execute true fuel nowTime raw_station raw_types db_text msg st d w).
Proof.
  unfold execute. case_bool_decide as Ho; [apply settles_some|]. cbv zeta.
  destruct (if needs_check _ _ then _ else _) as [[[]|e] [st1 w1]]; [|apply settles_some..].
  destruct (decode _ _ _ _) as [[[[] data]|e] k]; [| |apply settles_some].
  - unfold after_decode.
    assert (H : settles (fun fuel => saveData true fuel db_text data d w1)).
    { unfold saveData. destruct data as [|v rest]; [apply settles_some|]. destruct (existsb _ _); [apply settles_some|].
      settle_call (addDataToDbThrow_settles left_ (obstime_ v) (stationid_ v) (typeid_ v) (v :: rest) [] (logid_of (stationid_ v) (typeid_ v))
          DbInsert true false true d w1). intros [[[]|[]] [d1 w2]]; apply settles_some. }
    settle_call H. intros [[[[[] []] why]|e] [d1 w2]]; try apply settles_some.
    1,2: destruct (tmpStation _); [destruct (putkvStationInDb _ _ _) as [[]]|]; apply settles_some.
    destruct (putRejectdecodeInDb _ _ _ _ _ _ _) as [[]]; apply settles_some.
  - unfold after_reject. cbv zeta. case_bool_decide; [apply settles_some|]. case_bool_decide; [|apply settles_some].
    destruct (putRejectdecodeInDb _ _ _ _ _ _ _) as [[]]; apply settles_some.
Qed.

(** A failed initialisation is not repeated for hours when the table of stations was
    empty: the time of the check is set before the result is known. *)
Lemma initialise_without_stations st d w w1 w2 hs types :
  getHsInMeter d = Some hs ->
  gate_objects true station_columns "station" (fun r => kvStation_set_row r raw_station) (selectAllStations "stationid") w = (inl (Some []), w1) ->
  gate_objects true types_columns "types" (fun r => kvTypes_set_row r raw_types) "where typeid=1" w1 = (inl types, w2) ->
  exists k, initializeKvSynopDecoder true nowTime raw_station raw_types st d w =
    (inl false, ({| lastStationCheck := nowTime w1; synopDec := k |}, w2)) /\ synopRegister k = ∅ /\ shipRegister k = ∅.
Proof.
  intros E1 E2 E3. unfold initializeKvSynopDecoder. rewrite E1. cbv zeta. rewrite E2, E3.
  destruct (match types with Some (t :: _) => _ | _ => _ end) as [e l]. eexists. split; [by unfold initialise|done].
Qed.

End executing.

(** ** Concrete runs *)

#[export] Instance table_stations : SeparateStations table_pq sv_committed.
Proof. split; done. Qed.

Definition synop_text : bytes := to_bytes "AAXX 22211 22231 22258 22207 11023 21041 40132 60051 87234=".
Definition synop_message (o : bytes) : DecoderBase stamp_time := DecoderBase_new [] [] (to_bytes "synop") o.
Definition synop_statics : statics stamp_time mi_stamp_time :=
  {| lastStationCheck := mt 2024 1 1 6 0; synopDec := (initialise (mt 2024 1 1 6 0) sample_stations 20 30 kvSynopDecoder_new).2 |}.
Definition sample_raw_types : kvTypes := kvTypes_set 0 "" 0 0 "" "" "".
Definition exp_id : LibM := {| c_exp := fun x => x |}.

Abbreviation synop_execute o w :=
  (execute (DT := stamp_text) (BT := boost_text) (SD := whole_stream) (LM := exp_id) (PQ := table_pq) (DS := table_db) true 21
    (fun _ => mt 2024 1 1 7 0) (sample_station 0 0 "" 2000) sample_raw_types (fun _ => []) [] synop_statics (synop_message o) w).

Lemma synop_execute_report_witness : exists st' d' w',
  synop_execute synop_text (new_server []) = Some (inl (Ok, to_bytes "OK!"), (st', (d', w'))) /\
  length (obsdata (sv_committed w')) = 17%nat /\
  saved (DT := stamp_text) (synop_message synop_text)
    (correct_h_VV_N (synop_value 18701 (stamp_of 2023 12 22 21 0 0) (stamp_of 2024 1 1 7 0 0) 1 4 <$> kept (report_values (LM := exp_id) sample_report)))
    empty_tables (sv_committed w').
Proof.
  assert (H1 : station sample_report <> 0) by done. assert (H2 : 18701 <> 0) by done.
  assert (Ht : Decoder.obs (synop_message synop_text) = report_text sample_report) by (symmetry; exact sample_report_text).
  assert (Hr : synopRegister (synopDec synop_statics) !! 22231 = Some 18701) by (vm_compute; reflexivity).
  assert (Hn : needs_check (PT := stamp_time) synop_statics (clock (DbServer := table_db) (new_server [])) = false) by (vm_compute; reflexivity).
  assert (Ho : to_ptime (PT := stamp_time) (createObsTime_at (day sample_report) (hour sample_report)
    (if continuous (synopDec synop_statics) then mt 2024 1 1 7 0 else ref (synopDec synop_statics))) = Some (stamp_of 2023 12 22 21 0 0)) by (vm_compute; reflexivity).
  assert (Hw : match synop_execute synop_text (new_server []) with
    | Some (inl (r, m), (_, (_, w'))) => r = Ok /\ m = to_bytes "OK!" /\ sv_lost w' = false /\ length (obsdata (sv_committed w')) = 17%nat
    | _ => False
    end) by (vm_compute; split_and!; reflexivity).
  assert (Hn2 : refreshed (PQ := table_pq) (DS := table_db) (fun _ => mt 2024 1 1 7 0) (sample_station 0 0 "" 2000) sample_raw_types
    synop_statics (synop_message synop_text) (new_server []) = (inl true, (synop_statics, new_server []))) by (unfold refreshed; by rewrite Hn).
  pose proof (fun res st' d' w' => synop_execute_report (DT := stamp_text) (BT := boost_text) (SD := whole_stream) (LM := exp_id) (PQ := table_pq)
    (DS := table_db) sv_committed sv_view (fun w => sv_lost w = true) 21 (fun _ => mt 2024 1 1 7 0) (sample_station 0 0 "" 2000) sample_raw_types (fun _ => [])
    sample_report 18701 (stamp_of 2023 12 22 21 0 0) [] synop_statics synop_statics (synop_message synop_text) (new_server []) (new_server []) res st' d' w'
    eq_refl eq_refl H1 Ht Hn2 Hr H2 Ho) as H.
  destruct (execute _ _ _ _ _ _ _ _ _ _) as [[[[r m]|e] [st' [d' w']]]|]; [|destruct Hw..].
  destruct Hw as (-> & -> & Hlost & Hl). exists st', d', w'. split; [done|]. split; [exact Hl|].
  destruct (H _ _ _ _ eq_refl ltac:(congruence)) as [[[] _]|(_ & [Hs|(_ & Hw)])]; [done|exact Hs|].
  rewrite Hw in Hl. discriminate Hl.
Defined.

(** A message of a ship that is not known is saved under a new station. *)
Definition ship_text : bytes := to_bytes "BBXX DBLK 01064 99582 10052 41298 62710 10012=".

Lemma synop_execute_saves_witness : exists st' d' w',
  synop_execute ship_text (new_server []) = Some (inl (Ok, to_bytes "OK!"), (st', (d', w'))) /\
  exists data, data <> [] /\ saved (DT := stamp_text) (synop_message ship_text) data empty_tables (sv_committed w').
Proof.
  assert (Hw : match synop_execute ship_text (new_server []) with
    | Some (inl (r, m), (_, (_, w'))) => r = Ok /\ m = to_bytes "OK!" /\ sv_lost w' = false /\ bool_decide (obsdata (sv_committed w') = []) = false
    | _ => False
    end) by (vm_compute; split_and!; reflexivity).
  pose proof (fun st' d' w' => synop_execute_saves (DT := stamp_text) (BT := boost_text) (SD := whole_stream) (LM := exp_id) (PQ := table_pq)
    (DS := table_db) sv_committed sv_view (fun w => sv_lost w = true) 21 (fun _ => mt 2024 1 1 7 0) (sample_station 0 0 "" 2000) sample_raw_types (fun _ => [])
    [] synop_statics (synop_message ship_text) (new_server []) (inl (Ok, to_bytes "OK!")) st' d' w') as H.
  destruct (execute _ _ _ _ _ _ _ _ _ _) as [[[[r m]|e] [st' [d' w']]]|]; [|destruct Hw..].
  destruct Hw as (-> & -> & Hlost & Hl). exists st', d', w'. split; [reflexivity|].
  assert (Hc : sv_committed w' <> empty_tables) by (intros E; rewrite E in Hl; discriminate Hl).
  destruct (H _ _ _ eq_refl ltac:(congruence)) as [[[] _]|[(E & _)|(_ & st1 & w1 & data & _ & _ & _ & [Hs|(_ & Hn)])]];
    [reflexivity|discriminate E| |by destruct Hc].
  exists data. split; [|exact Hs]. intros ->. by destruct Hc.
Defined.

(** The server aborts every attempt: the answer is that the report was saved. *)
Example synop_values_lost :
  match synop_execute synop_text (new_server (repeat true 22)) with
  | Some (inl (r, m), (_, (_, w'))) => r = Ok /\ m = to_bytes "OK!" /\ obsdata (sv_committed w') = []
  | _ => False
  end.
Proof. vm_compute. split_and!; reflexivity. Qed.
