(* ===== verification/ManagerDb.v ===== *)
(** * kvManagerd: the database of the manager
    (src/src/kvManagerd/KvalobsDatabaseAccess.cpp, DataIdentifier.cpp)

    The statements of the manager as functions on the tables of [Database.v], on
    key_val, and on tables that it only reads. A connection is outside a
    transaction, where a statement takes effect at once, or inside one, which a
    failing statement aborts. [event] says what happens to each statement that is
    sent, [clock] the time then; they stand for the server, its other clients and
    the network. The rows of an [EXCEPT] come in the order of its first operand,
    and [limit1] is the row that a [LIMIT 1] without an order selects. The log is
    left out. *)

From S2P Require Import Prelude Orders PTime TimeText Sql Database DatabaseAccess KvalobsDb Serial.

#[local] Open Scope Z_scope.

(** The exceptions by the [catch] clauses of the manager. [Terminated] is the end
    of the process, by an exception that leaves a destructor. *)
Inductive mexn := SerializeError | SqlError | StdError | Terminated.

#[export] Instance mexn_eq_dec : EqDecision mexn.
Proof. solve_decision. Defined.

(** What happens to a statement: the server executes it; the server refuses it; the
    connection is lost and made again, and the statement is sent on the new one;
    the connection is lost. *)
Inductive event_kind := Served | Refused (serialization : bool) | Reconnected | Disconnected.

(** ** Tables that are only read *)

Record PgmRow {PT : PTime} := {
  pg_stationid : Z; pg_paramid : Z; pg_level : Z; pg_nr_sensor : option Z; pg_typeid : Z;
  pg_kl : list (option bool); pg_fromtime : ptime PT; pg_totime : option (ptime PT)
}.
Arguments PgmRow : clear implicits.

Record TypeRow := { ty_typeid : Z; ty_lateobs : option Z }.

Record DefaultMissing := { dm_paramid : option Z; dm_value : spec_float; dm_controlinfo : string }.

Record ManagerTables {PT : PTime} := {
  pgm : list (PgmRow PT);
  types : list TypeRow;
  params : list Z;
  default_missing : list DefaultMissing
}.
Arguments ManagerTables : clear implicits.

Record KeyVal := { kv_package : string; kv_key : string; kv_val : option string }.

Record DataIdentifier {PT : PTime} := {
  obsid_ : Z; station_ : Z; type_ : Z; di_obstime_ : ptime PT
}.
Arguments DataIdentifier : clear implicits.

Section DataIdentifier.
  Context {PT : PTime}.

(** The columns of a row of observations. *)
Definition DataIdentifier_of_row (r : @ObsRow PT) : DataIdentifier PT :=
  {| obsid_ := Database.o_observationid r; station_ := Database.o_stationid r; type_ := o_typeid r;
     di_obstime_ := Database.o_obstime r |}.

(** [std::numeric_limits<long long>::min()] *)
Definition LLONG_MIN : Z := - 2 ^ 63.

Definition invalid : DataIdentifier PT :=
  {| obsid_ := LLONG_MIN; station_ := 0; type_ := 0; di_obstime_ := not_a_date_time |}.

Definition isValid (di : DataIdentifier PT) : bool := negb (LLONG_MIN =? obsid_ di).

End DataIdentifier.

(** ** Selecting *)

Section select.
  Context {PT : PTime} {PC : PCalendar PT} {PM : PMinutes PT} {DT : DbText PT} {PD : PDbTime PT}.
  Context (cfg : ManagerTables PT).

(** The column [klHH] for the hour of [t], and the interval of a row of obs_pgm. *)
Definition kl_at (t : ptime PT) (r : PgmRow PT) : bool :=
  match pg_kl r !! Z.to_nat (pt_hours t) with Some (Some b) => b | _ => false end.

Definition in_force (t : ptime PT) (r : PgmRow PT) : bool :=
  ptime_lt (pg_fromtime r) t &&
  match pg_totime r with None => true | Some u => ptime_lt t u end.

(** The types to look at, with the time of the observations that are late now. *)
Definition select_late (obstime : ptime PT) : list (Z * ptime PT) :=
  omap (fun r => match ty_lateobs r with
                 | Some l => if l <? 100000
                             then Some (ty_typeid r, pt_trunc_hour (pt_add_minutes (db_time obstime) (- l)))
                             else None
                 | None => None
                 end) (types cfg).

Definition reported (ty : Z) (t : ptime PT) (tb : @tables PT) (st : Z) : bool :=
  existsb (fun o => (Database.o_stationid o =? st) && (o_typeid o =? ty) && bool_decide (Database.o_obstime o = t))
    (observations tb).

Definition expected_stations (ty : Z) (t : ptime PT) : list Z :=
  pg_stationid <$> List.filter (fun r => in_force t r && (pg_typeid r =? ty) && kl_at t r) (pgm cfg).

Definition qFindMissingStations_ (ty : Z) (t : ptime PT) (tb : @tables PT) : list Z :=
  List.filter (fun st => negb (reported ty t tb st)) (remove_dups (expected_stations ty t)).

(** The view default_missing_values. *)
Definition default_missing_values : list (Z * DefaultMissing) :=
  params cfg ≫= fun p => (pair p) <$>
    List.filter (fun m => match dm_paramid m with
                          | Some q => p =? q
                          | None => negb (existsb (fun m => bool_decide (dm_paramid m = Some p)) (default_missing cfg))
                          end) (default_missing cfg).

(** WITH RECURSIVE number_series: from 0, as long as the last is below 10. *)
Definition number_series : list Z := seqZ 0 11.

(** The parameters, sensors and levels of obs_pgm for the observation. *)
Definition expected_elements (di : DataIdentifier PT) (tb : @tables PT) : list (Z * Z * Z) :=
  pgm cfg ≫= fun o => number_series ≫= fun n =>
    (fun _ => (pg_paramid o, n, pg_level o)) <$>
      List.filter (fun obs =>
        (Database.o_observationid obs =? obsid_ di) &&
        (pg_stationid o =? Database.o_stationid obs) && (pg_typeid o =? o_typeid obs) &&
        match pg_nr_sensor o with Some nr => n <? nr | None => false end &&
        in_force (Database.o_obstime obs) o && kl_at (di_obstime_ di) o) (observations tb).

Definition present_elements (di : DataIdentifier PT) (tb : @tables PT) : list (Z * Z * Z) :=
  obsdata tb ≫= fun d =>
    (fun _ => (d_paramid d, d_sensor d, d_level d)) <$>
      List.filter (fun o => (d_observationid d =? Database.o_observationid o) &&
                            (Database.o_observationid o =? obsid_ di)) (observations tb).

Definition missing_elements (di : DataIdentifier PT) (tb : @tables PT) : list (Z * Z * Z) :=
  List.filter (fun e => negb (bool_decide (e ∈ present_elements di tb)))
    (remove_dups (expected_elements di tb)).

(** An integer as CHAR(1): its first character. *)
Definition to_char1 (n : Z) : Z := if n <? 10 then n else n / 10.

Definition missing_row (di : DataIdentifier PT) (e : Z * Z * Z) (m : DefaultMissing) : DataRow :=
  let '(paramid, sensor, level) := e in
  {| d_observationid := obsid_ di; d_original := dm_value m; d_paramid := paramid; d_sensor := to_char1 sensor;
     d_level := level; d_corrected := dm_value m; d_controlinfo := dm_controlinfo m;
     d_useinfo := "0000000000000000"; d_cfailed := "" |}.

(** The rows that the INSERT of [insertMissingDataQuery_] selects. *)
Definition missing_rows (di : DataIdentifier PT) (tb : @tables PT) : list DataRow :=
  missing_elements di tb ≫= fun e =>
    (fun v => missing_row di e v.2) <$> List.filter (fun v => e.1.1 =? v.1) default_missing_values.

(** ** Changing *)

(** All the rows of one INSERT. *)
Fixpoint insert_rows (rows : list DataRow) : @M PT unit :=
  match rows with
  | [] => Database.ret tt
  | r :: rows => Database.bind (insert_obsdata r) (fun _ => insert_rows rows)
  end.

Definition insertMissingDataQuery_ (di : DataIdentifier PT) : @M PT unit := fun tb => insert_rows (missing_rows di tb) tb.

Definition selectWorkQueueQuery_ (di : DataIdentifier PT) (tb : @tables PT) : list Z :=
  w_priority <$> List.filter (fun w => w_observationid w =? obsid_ di) (workque tb).

Definition insertWorkQueueQuery_ (di : DataIdentifier PT) (priority : Z) (now : ptime PT) : @M PT unit :=
  insert_workque {| w_observationid := obsid_ di; w_priority := priority; w_process_start := Some now;
                    w_qa_start := None; w_qa_stop := None; w_service_start := None; w_service_stop := None;
                    w_qa_id := None |}.

Definition restart (now : ptime PT) (w : WorkRow) : WorkRow :=
  {| w_observationid := w_observationid w; w_priority := w_priority w; w_process_start := Some now;
     w_qa_start := None; w_qa_stop := None; w_service_start := None; w_service_stop := None; w_qa_id := w_qa_id w |}.

Definition updateWorkQueueQuery_ (di : DataIdentifier PT) (now : ptime PT) : @M PT unit := fun tb =>
  inl (tt, with_work tb ((fun w => if w_observationid w =? obsid_ di then restart now w else w) <$> workque tb)
                        (workstatistik tb)).

Definition select_unstarted (tb : @tables PT) : list (@ObsRow PT) :=
  observations tb ≫= fun o =>
    (fun _ => o) <$> List.filter (fun q => (Database.o_observationid o =? w_observationid q) &&
                                           bool_decide (w_process_start q = None)) (workque tb).

(** qa_stop<now()-'15 minutes'::interval *)
Definition finished (now : ptime PT) (q : @WorkRow PT) : bool :=
  match w_qa_stop q with Some t => ptime_lt t (pt_add_minutes now (-15)) | None => false end.

Definition delete_statistics (now : ptime PT) : @M PT unit := fun tb =>
  inl (tt, with_work tb (workque tb)
    (List.filter (fun s => negb (existsb (fun q => (w_observationid (s_work s) =? w_observationid q) && finished now q)
                                  (workque tb))) (workstatistik tb))).

Definition insert_statistics (now : ptime PT) : @M PT unit := fun tb =>
  inl (tt, with_work tb (workque tb) (workstatistik tb ++
    (workque tb ≫= fun q => (fun o => {| s_obs := o; s_work := q |}) <$>
       List.filter (fun o => (w_observationid q =? Database.o_observationid o) && finished now q) (observations tb)))).

Definition delete_finished (now : ptime PT) : @M PT unit := fun tb =>
  inl (tt, with_work tb (List.filter (fun q => negb (finished now q)) (workque tb)) (workstatistik tb)).

End select.

(** ** The connection *)

Section Connection.
  Context {PT : PTime}.

Record Db := { db_tables : @tables PT; key_val : list KeyVal }.

(** No transaction; one, with its view and the time it began; one that a failed
    statement has aborted. *)
Inductive Tx := NoTx | Open (w : Db) (started : ptime PT) | Aborted.

Record Conn := { committed : Db; tx : Tx; sent : nat }.

Definition set_tx (x : Tx) (s : Conn) : Conn := {| committed := committed s; tx := x; sent := sent s |}.
Definition next (s : Conn) : Conn := {| committed := committed s; tx := tx s; sent := S (sent s) |}.

Definition Mgr (A : Type) : Type := Conn -> (A + mexn) * Conn.

Definition m_ret {A} (a : A) : Mgr A := fun s => (inl a, s).
Definition m_throw {A} (e : mexn) : Mgr A := fun s => (inr e, s).
Definition m_bind {A B} (m : Mgr A) (k : A -> Mgr B) : Mgr B := fun s =>
  match m s with (inl a, s) => k a s | (inr e, s) => (inr e, s) end.
(** [try { m } catch (e) { h(e) }], [h] for what the clauses list. *)
Definition m_catch {A} (m : Mgr A) (h : mexn -> option (Mgr A)) : Mgr A := fun s =>
  match m s with
  | (inl a, s) => (inl a, s)
  | (inr e, s) => match h e with Some m => m s | None => (inr e, s) end
  end.
(** A loop over a list that collects what its rounds give. *)
Fixpoint m_collect {A B} (l : list A) (m : A -> Mgr (list B)) : Mgr (list B) :=
  match l with
  | [] => m_ret []
  | a :: l => m_bind (m a) (fun r => m_bind (m_collect l m) (fun r' => m_ret (r ++ r')))
  end.

Section statements.
  Context (event : nat -> event_kind) (clock : nat -> ptime PT).

(** Sending a statement. [refused] is what becomes of the transaction when the
    server refuses it. *)
Definition send {A} (refused : Tx -> Tx) (f : Conn -> (A + mexn) * Conn) : Mgr A := fun s =>
  let n := sent s in
  let s := next s in
  match event n with
  | Served => f s
  | Refused ser => (inr (if ser then SerializeError else SqlError), set_tx (refused (tx s)) s)
  | Reconnected => f (set_tx NoTx s)
  | Disconnected => (inr SqlError, set_tx NoTx s)
  end.

Definition abort (x : Tx) : Tx := match x with Open _ _ => Aborted | _ => x end.

(** [exec_], with what the statement does on the tables at the time [now()]. *)
Definition exec_ {A} (q : ptime PT -> Db -> (A * Db) + mexn) : Mgr A :=
  send abort (fun s =>
    match tx s with
    | NoTx => match q (clock (sent s)) (committed s) with
              | inl (a, d) => (inl a, {| committed := d; tx := NoTx; sent := sent s |})
              | inr e => (inr e, s)
              end
    | Open w t => match q t w with
                  | inl (a, w) => (inl a, set_tx (Open w t) s)
                  | inr e => (inr e, set_tx Aborted s)
                  end
    | Aborted => (inr SqlError, s)
    end).

Definition beginTransaction : Mgr unit :=
  send abort (fun s => match tx s with
                       | NoTx => (inl tt, set_tx (Open (committed s) (clock (sent s))) s)
                       | Open _ _ => (inl tt, s)
                       | Aborted => (inr SqlError, s)
                       end).

(** END ends a transaction also when it is aborted, and then undoes it. *)
Definition endTransaction : Mgr unit :=
  send (fun _ => NoTx)
    (fun s => (inl tt, match tx s with
                       | Open w _ => {| committed := w; tx := NoTx; sent := sent s |}
                       | _ => set_tx NoTx s
                       end)).

(** The server does not refuse a ROLLBACK. *)
Definition rollBack : Mgr unit := fun s =>
  match event (sent s) with
  | Disconnected => (inr SqlError, set_tx NoTx (next s))
  | _ => (inl tt, set_tx NoTx (next s))
  end.

(** The scope of a [Transaction]: [body] says whether it has handled it with
    [commit] or [rollback]; if not, the destructor rolls back, and an exception
    there ends the process. *)
Definition with_transaction {A} (body : Mgr (A * bool)) : Mgr A :=
  m_bind beginTransaction (fun _ s =>
    match body s with
    | (inl (a, true), s) => (inl a, s)
    | (inl (a, false), s) =>
        match rollBack s with (inl _, s) => (inl a, s) | (inr _, s) => (inr Terminated, s) end
    | (inr e, s) =>
        match rollBack s with (inl _, s) => (inr e, s) | (inr _, s) => (inr Terminated, s) end
    end).

(** A query, and a change of the tables. *)
Definition select {A} (q : Db -> A) : Mgr A := exec_ (fun _ d => inl (q d, d)).

Definition change {A} (m : ptime PT -> @M PT A) : Mgr A :=
  exec_ (fun now d => match m now (db_tables d) with
                      | inl (a, t) => inl (a, {| db_tables := t; key_val := key_val d |})
                      | inr _ => inr SqlError
                      end).

End statements.
End Connection.

Arguments Db : clear implicits. Arguments Db {PT}.
Arguments Tx : clear implicits. Arguments Tx {PT}.
Arguments Conn : clear implicits. Arguments Conn {PT}.
Arguments Mgr {PT} A.

Declare Scope mgr_scope.
Delimit Scope mgr_scope with mgr.
Notation "x <- m ;; n" := (m_bind m (fun x => n)) (at level 100, m at next level, right associativity) : mgr_scope.
Notation "m ;; n" := (m_bind m (fun _ => n)) (at level 100, right associativity) : mgr_scope.

(** ** [KvalobsDatabaseAccess] *)

Section Access.
  Context {PT : PTime} {PC : PCalendar PT} {PM : PMinutes PT} {DT : DbText PT} {PD : PDbTime PT}
          {BT : BoostText} {TT : PTimeText PT} {PS : PTimeShow PT}.
  Context (cfg : ManagerTables PT) (event : nat -> event_kind) (clock : nat -> ptime PT)
          (limit1 : nat -> list (@ObsRow PT) -> option (@ObsRow PT)).
  #[local] Open Scope mgr_scope.

Definition createObservation_ (stationid ty : Z) (obstime : ptime PT) : Mgr (DataIdentifier PT) :=
  id <- change event clock (fun now => insert_observations stationid ty obstime now) ;;
  m_ret {| obsid_ := id; station_ := stationid; type_ := ty; di_obstime_ := obstime |}.

Definition findAllMissing (obstime : ptime PT) : Mgr (list (DataIdentifier PT)) :=
  match to_kvalobs_string obstime with None => m_throw StdError | Some _ => m_ret tt end ;;
  result <- select event clock (fun _ => select_late cfg obstime) ;;
  m_collect result (fun '(ty, obstime) =>
    missing <- select event clock (fun d => qFindMissingStations_ cfg ty obstime (db_tables d)) ;;
    m_collect missing (fun stationid =>
      di <- createObservation_ stationid ty obstime ;;
      m_ret [di])).

(** The row of key_val that holds the time of the last run. *)
Definition last_run (r : KeyVal) : bool :=
  bool_decide (kv_package r = "kvManagerd"%string) && bool_decide (kv_key r = "LastMissingRun"%string).

(** [ptime(t.date(), hours(t.time_of_day().hours()) + minutes(30))] *)
Definition half_past (t : ptime PT) : ptime PT := pt_add_minutes (pt_trunc_hour t) 30.

(** A null value is the empty text. [second_clock::universal_time()] is the clock
    at the statement. *)
Definition lastFindAllMissingRuntime : Mgr (ptime PT) :=
  r <- select event clock (fun d => List.filter last_run (key_val d)) ;;
  fun s =>
    let fallback := pt_sub_hours (half_past (clock (sent s))) (24 * 7) in
    (inl match r with
         | row :: _ => match time_from_string (to_bytes (default "" (kv_val row))) with
                       | Some last => half_past last
                       | None => fallback
                       end
         | [] => fallback
         end, s).

Definition key_val_delete (d : @Db PT) : @Db PT :=
  {| db_tables := db_tables d; key_val := List.filter (fun r => negb (last_run r)) (key_val d) |}.

Definition key_val_insert (v : string) (d : @Db PT) : (unit * @Db PT) + mexn :=
  if existsb last_run (key_val d) then inr SqlError
  else inl (tt, {| db_tables := db_tables d;
                   key_val := key_val d ++ [{| kv_package := "kvManagerd"; kv_key := "LastMissingRun"; kv_val := Some v |}] |}).

Definition setLastFindAllMissingRuntime (obstime : ptime PT) : Mgr unit :=
  beginTransaction event clock ;;
  exec_ event clock (fun _ d => inl (tt, key_val_delete d)) ;;
  match to_kvalobs_string obstime with
  | None => m_throw StdError
  | Some v => exec_ event clock (fun _ => key_val_insert (of_bytes v)) ;; endTransaction event
  end.

Definition isWholeHour (t : ptime PT) : bool := bool_decide (pt_trunc_hour t = t).

Definition addMissingData (di : DataIdentifier PT) : Mgr unit :=
  (if isWholeHour (di_obstime_ di) then change event clock (fun _ => insertMissingDataQuery_ cfg di) else m_ret tt) ;;
  r <- select event clock (fun d => selectWorkQueueQuery_ di (db_tables d)) ;;
  match r with
  | [] => change event clock (insertWorkQueueQuery_ di 10)
  | _ => change event clock (updateWorkQueueQuery_ di)
  end.

Definition nextDataToProcess : Mgr (DataIdentifier PT) := fun s =>
  (r <- select event clock (fun d => limit1 (sent s) (select_unstarted (db_tables d))) ;;
   match r with
   | Some row => m_ret (DataIdentifier_of_row row)
   | None => m_ret invalid
   end) s.

Definition cleanWorkQueue : Mgr unit :=
  with_transaction event clock (
    change event clock delete_statistics ;;
    change event clock insert_statistics ;;
    change event clock delete_finished ;;
    endTransaction event ;;
    m_catch (exec_ event clock (fun _ d => inl (tt, d))) (fun _ => Some (m_ret tt)) ;;
    m_ret (tt, true)).

End Access.
