(* ===== verification/ManagerFill.v ===== *)
(** * kvManagerd: what the statements of the manager do

    Lemmas and properties of ManagerDb.v: what the big INSERT selects, the moves of
    the work queue, programs inside a transaction, and the creation of missing
    observations. *)

From S2P Require Import Prelude Orders PTime TimeText Sql Database DatabaseAccess KvalobsDb Serial ManagerDb.

#[local] Open Scope Z_scope.

(** ** What the selections hold *)

Section pure.
  Context {PT : PTime} {PC : PCalendar PT} {PM : PMinutes PT} {DT : DbText PT} {PD : PDbTime PT}.
  Context (cfg : ManagerTables PT).

(** The unique columns of param and default_missing, and sensors that CHAR(1) can
    tell apart. *)
Record config_ok : Prop := {
  ok_params : NoDup (params cfg);
  ok_default : NoDup (dm_paramid <$> default_missing cfg);
  ok_sensors : Forall (fun r => match pg_nr_sensor r with Some n => n <= 10 | None => True end) (pgm cfg)
}.


Lemma NoDup_filter' {A} (p : A -> bool) l : NoDup l -> NoDup (List.filter p l).
Proof. rewrite !NoDup_ListNoDup. apply List.NoDup_filter. Qed.

(** What the observation programme expects of an observation. *)
Definition expected (o : @ObsRow PT) (e : Z * Z * Z) : Prop :=
  exists r n nr, r ∈ pgm cfg /\ e = (pg_paramid r, n, pg_level r) /\ pg_nr_sensor r = Some nr /\ 0 <= n <= 10 /\ n < nr /\
    pg_stationid r = Database.o_stationid o /\ pg_typeid r = o_typeid o /\
    in_force (Database.o_obstime o) r = true /\ kl_at (Database.o_obstime o) r = true.

(** The rows of the observation of a key: at most one. *)
Lemma observation_of_id (tb : @tables PT) o o' :
  tables_wf tb -> o ∈ observations tb -> o' ∈ observations tb ->
  Database.o_observationid o = Database.o_observationid o' -> o = o'.
Proof.
  intros Hwf Ho Ho' He. pose proof (wf_ids _ Hwf) as Hnd. unfold obs_ids in Hnd.
  apply list_elem_of_lookup in Ho as [i Hi]. apply list_elem_of_lookup in Ho' as [j Hj].
  assert (i = j) as ->; [|congruence].
  eapply NoDup_lookup; [exact Hnd|rewrite list_lookup_fmap, Hi; reflexivity|rewrite list_lookup_fmap, Hj; simpl; congruence].
Qed.

Lemma expected_elements_spec tb o e : tables_wf tb -> o ∈ observations tb ->
  e ∈ expected_elements cfg (DataIdentifier_of_row o) tb <-> expected o e.
Proof.
  intros Hwf Ho. unfold expected_elements. rewrite list_elem_of_bind. split.
  - intros (r & (n & Hn & Hns)%list_elem_of_bind & Hr).
    apply list_elem_of_fmap in Hn as (o' & -> & [Hin Hc]%elem_of_filter_b).
    apply elem_of_seqZ in Hns. repeat (apply andb_prop in Hc as [Hc ?]). simpl in Hc. apply Z.eqb_eq in Hc.
    rewrite (observation_of_id _ _ _ Hwf Hin Ho Hc) in *.
    destruct (pg_nr_sensor r) as [nr|] eqn:En; [|done]. exists r, n, nr. repeat split; try done; lia.
  - intros (r & n & nr & Hr & -> & Hnr & Hn & Hlt & H1 & H2 & H3 & H4). exists r. split; [|done].
    apply list_elem_of_bind. exists n. split; [|apply elem_of_seqZ; lia].
    apply list_elem_of_fmap. exists o. split; [done|]. apply elem_of_filter_b. split; [done|].
    simpl. rewrite Hnr, H1, H2, H3, H4, !Z.eqb_refl. simpl. rewrite !andb_true_r. apply Z.ltb_lt. exact Hlt.
Qed.

Lemma present_elements_spec tb o p n l : tables_wf tb -> o ∈ observations tb ->
  (p, n, l) ∈ present_elements (DataIdentifier_of_row o) tb <->
  (Database.o_observationid o, p, l, n) ∈ data_key <$> obsdata tb.
Proof.
  intros Hwf Ho. unfold present_elements. rewrite list_elem_of_bind, list_elem_of_fmap. split.
  - intros (d & Hd & Hin). apply list_elem_of_fmap in Hd as (o' & He & [Hin' Hc]%elem_of_filter_b).
    injection He as -> -> ->. apply andb_prop in Hc as [H1%Z.eqb_eq H2%Z.eqb_eq]. simpl in H2.
    exists d. split; [|done]. unfold data_key. congruence.
  - intros (d & He & Hin). unfold data_key in He. injection He as H1 -> -> ->. exists d. split; [|done].
    apply list_elem_of_fmap. exists o. split; [done|]. apply elem_of_filter_b. split; [done|].
    simpl. rewrite H1, !Z.eqb_refl. reflexivity.
Qed.

Lemma missing_elements_spec tb o p n l : tables_wf tb -> o ∈ observations tb ->
  (p, n, l) ∈ missing_elements cfg (DataIdentifier_of_row o) tb <->
  expected o (p, n, l) /\ (Database.o_observationid o, p, l, n) ∉ data_key <$> obsdata tb.
Proof.
  intros Hwf Ho. unfold missing_elements.
  rewrite elem_of_filter_b, elem_of_remove_dups, (expected_elements_spec _ _ _ Hwf Ho), negb_true_iff, bool_decide_eq_false.
  rewrite (present_elements_spec _ _ _ _ _ Hwf Ho). reflexivity.
Qed.

(** The default of a parameter, its own or the general one: at most one. *)
Definition default_of (p : Z) (m : DefaultMissing) : Prop := (p, m) ∈ default_missing_values cfg.

Lemma default_missing_values_spec p m : default_of p m <->
  p ∈ params cfg /\ m ∈ default_missing cfg /\
  (dm_paramid m = Some p \/ dm_paramid m = None /\ forall m', m' ∈ default_missing cfg -> dm_paramid m' <> Some p).
Proof.
  unfold default_of, default_missing_values. rewrite list_elem_of_bind. split.
  - intros (q & Hq & Hin). apply list_elem_of_fmap in Hq as (m' & [= -> ->] & [Hm Hc]%elem_of_filter_b).
    split; [done|]. split; [done|]. destruct (dm_paramid m') as [r|] eqn:E.
    + left. apply Z.eqb_eq in Hc. by subst.
    + right. split; [done|]. intros m2 Hm2 E2. apply negb_true_iff, existsb_false in Hc.
      rewrite Forall_forall in Hc. specialize (Hc m2 Hm2). rewrite E2, bool_decide_true in Hc; done.
  - intros (Hp & Hm & Hc). exists p. split; [|done]. apply list_elem_of_fmap. exists m. split; [done|].
    apply elem_of_filter_b. split; [done|]. destruct Hc as [->|[-> Hc]]; [apply Z.eqb_refl|].
    apply negb_true_iff, existsb_false, Forall_forall. intros m' Hm'. apply bool_decide_eq_false. by apply Hc.
Qed.

Lemma default_unique p m m' : config_ok -> default_of p m -> default_of p m' -> m = m'.
Proof.
  intros [_ Hd _]. rewrite !default_missing_values_spec. intros (_ & Hm & Hc) (_ & Hm' & Hc').
  assert (dm_paramid m = dm_paramid m') as He.
  { destruct Hc as [H|[H Hn]], Hc' as [H'|[H' Hn']]; try congruence; [by destruct (Hn' m Hm)|by destruct (Hn m' Hm')]. }
  apply list_elem_of_lookup in Hm as [i Hi]. apply list_elem_of_lookup in Hm' as [j Hj].
  assert (i = j) as ->; [|congruence].
  eapply NoDup_lookup; [exact Hd|rewrite list_lookup_fmap, Hi; reflexivity|rewrite list_lookup_fmap, Hj; simpl; congruence].
Qed.

Lemma default_values_nodup p : config_ok -> NoDup (List.filter (fun v => p =? v.1) (default_missing_values cfg)).
Proof.
  intros Hok. apply NoDup_filter'. unfold default_missing_values. apply NoDup_bind.
  - intros x1 x2 y _ _ (m1 & -> & _)%list_elem_of_fmap (m2 & [= ->] & _)%list_elem_of_fmap. done.
  - intros x _. apply NoDup_fmap_2; [by intros ? ? [= ->]|]. apply NoDup_filter'.
    eapply NoDup_fmap_1, ok_default, Hok.
  - apply Hok.
Qed.

Lemma missing_rows_spec tb o r : tables_wf tb -> o ∈ observations tb ->
  r ∈ missing_rows cfg (DataIdentifier_of_row o) tb <->
  exists p n l m, expected o (p, n, l) /\ (Database.o_observationid o, p, l, n) ∉ data_key <$> obsdata tb /\
    default_of p m /\ r = missing_row (DataIdentifier_of_row o) (p, n, l) m.
Proof.
  intros Hwf Ho. unfold missing_rows. rewrite list_elem_of_bind. split.
  - intros ([[p n] l] & Hr & Hin). apply list_elem_of_fmap in Hr as ([q m] & -> & [Hv Hc%Z.eqb_eq]%elem_of_filter_b).
    simpl in Hc. subst q. apply missing_elements_spec in Hin as [H1 H2]; [|done|done]. by exists p, n, l, m.
  - intros (p & n & l & m & He & Hk & Hm & ->). exists (p, n, l). split; [|by apply missing_elements_spec].
    apply list_elem_of_fmap. exists (p, m). split; [done|]. apply elem_of_filter_b. split; [exact Hm|]. apply Z.eqb_refl.
Qed.

Lemma expected_sensor o p n l : config_ok -> expected o (p, n, l) -> 0 <= n <= 9.
Proof.
  intros [_ _ Hs] (r & n' & nr & Hr & [= -> -> ->] & Hnr & Hn & Hlt & _). rewrite Forall_forall in Hs.
  specialize (Hs r Hr). rewrite Hnr in Hs. lia.
Qed.

Lemma to_char1_small n : 0 <= n <= 9 -> to_char1 n = n.
Proof. unfold to_char1. intros H. destruct (Z.ltb_spec n 10); lia. Qed.

(** The key of a row that the manager inserts. *)
Lemma missing_row_key o p n l m : 0 <= n <= 9 ->
  data_key (missing_row (DataIdentifier_of_row o) (p, n, l) m) = (Database.o_observationid o, p, l, n).
Proof. intros Hn. unfold data_key. simpl. by rewrite to_char1_small. Qed.

Lemma missing_rows_keys tb o : config_ok -> tables_wf tb -> o ∈ observations tb ->
  NoDup (data_key <$> (obsdata tb ++ missing_rows cfg (DataIdentifier_of_row o) tb)).
Proof.
  intros Hok Hwf Ho. rewrite fmap_app. apply NoDup_app. split; [apply Hwf|]. split.
  - intros k Hk (r & -> & Hr)%list_elem_of_fmap.
    apply missing_rows_spec in Hr as (p & n & l & m & He & Hn & _ & ->); [|done|done].
    rewrite missing_row_key in Hk; [done|]. by eapply expected_sensor.
  - apply NoDup_fmap_2_strong.
    + intros x y Hx Hy.
      apply missing_rows_spec in Hx as (p & n & l & m & He & Hn & Hm & ->); [|done|done].
      apply missing_rows_spec in Hy as (p' & n' & l' & m' & He' & Hn' & Hm' & ->); [|done|done].
      rewrite !missing_row_key by (by eapply expected_sensor). intros [= <- <- <-].
      by rewrite (default_unique _ _ _ Hok Hm Hm').
    + unfold missing_rows. apply NoDup_bind.
      * intros [[p n] l] [[p' n'] l'] y H1 H2.
        apply missing_elements_spec in H1 as [H1 _], H2 as [H2 _]; [|done..].
        intros (v & -> & [Hv _]%elem_of_filter_b)%list_elem_of_fmap (v' & E & _)%list_elem_of_fmap.
        apply (f_equal data_key) in E. rewrite !missing_row_key in E by (by eapply expected_sensor). congruence.
      * intros [[p n] l] _. apply NoDup_fmap_2_strong; [|by apply default_values_nodup].
        intros [q m] [q' m'] [Hv Hc%Z.eqb_eq]%elem_of_filter_b [Hv' Hc'%Z.eqb_eq]%elem_of_filter_b _. simpl in *.
        subst q q'. f_equal. by eapply (default_unique p).
      * apply NoDup_filter', NoDup_remove_dups.
Qed.

(** An INSERT of rows that satisfy the constraints. *)
Lemma insert_rows_ok rows (tb : @tables PT) :
  Forall (fun r => has_observation (d_observationid r) tb = true /\ 0 <= d_sensor r <= 9) rows ->
  NoDup (data_key <$> (obsdata tb ++ rows)) ->
  insert_rows rows tb = inl (tt, with_obsdata (obsdata tb ++ rows) tb).
Proof.
  revert tb. induction rows as [|r rows IH]; intros tb HF Hnd; simpl.
  - rewrite app_nil_r. by destruct tb.
  - apply Forall_cons in HF as [[Ho Hs] HF]. unfold Database.bind, insert_obsdata. rewrite Ho. simpl.
    rewrite (proj2 (existsb_false _ _)), orb_false_r.
    + rewrite (proj2 (negb_false_iff _)) by lia. rewrite IH; simpl.
      * by rewrite <- app_assoc.
      * exact HF.
      * by rewrite <- app_assoc.
    + apply Forall_forall. intros d Hd. rewrite fmap_app in Hnd. apply NoDup_app in Hnd as (_ & Hnd & _).
      apply not_true_iff_false. intros Hc. repeat (apply andb_prop in Hc as [Hc ?%Z.eqb_eq]). apply Z.eqb_eq in Hc.
      apply (Hnd (data_key d)); [by apply list_elem_of_fmap_2|]. simpl. apply elem_of_cons. left. unfold data_key. congruence.
Qed.

(** The tables with the rows of [insertMissingDataQuery_]. *)
Lemma insertMissing_ok tb o : config_ok -> tables_wf tb -> o ∈ observations tb ->
  insertMissingDataQuery_ cfg (DataIdentifier_of_row o) tb =
  inl (tt, with_obsdata (obsdata tb ++ missing_rows cfg (DataIdentifier_of_row o) tb) tb).
Proof.
  intros Hok Hwf Ho. apply insert_rows_ok; [|by apply missing_rows_keys].
  apply Forall_forall. intros r Hr. apply missing_rows_spec in Hr as (p & n & l & m & He & _ & _ & ->); [|done|done].
  pose proof (expected_sensor _ _ _ _ Hok He) as Hn. simpl. rewrite to_char1_small by done. split; [|done].
  apply has_observation_elem. unfold obs_ids. by apply list_elem_of_fmap_2.
Qed.

End pure.

(** ** What the statements on the work queue do *)

Section work.
  Context {PT : PTime} {PM : PMinutes PT}.

Lemma filter_nil {A} (p : A -> bool) l : Forall (fun x => p x = false) l -> List.filter p l = [].
Proof. induction 1 as [|x l Hx _ IH]; simpl; [done|]. by rewrite Hx. Qed.

Lemma filter_id {A} (p : A -> bool) l : Forall (fun x => p x = true) l -> List.filter p l = l.
Proof. induction 1 as [|x l Hx _ IH]; simpl; [done|]. by rewrite Hx, IH. Qed.

Lemma filter_filter {A} (p q : A -> bool) l : (forall x, p x = true -> q x = true) ->
  List.filter p (List.filter q l) = List.filter p l.
Proof.
  intros H. induction l as [|x l IH]; simpl; [done|]. destruct (q x) eqn:Eq; simpl; destruct (p x) eqn:Ep; rewrite ?IH; try done.
  by rewrite (H x Ep) in Eq.
Qed.

(** The only row with a key. *)
Lemma filter_one {A} (key : A -> Z) l x : NoDup (key <$> l) -> x ∈ l -> List.filter (fun y => key y =? key x) l = [x].
Proof.
  induction l as [|y l IH]; simpl; [intros _ ?%elem_of_nil; done|]. intros [Hy Hnd]%NoDup_cons Hx.
  apply elem_of_cons in Hx as [->|Hx].
  - rewrite Z.eqb_refl. f_equal. apply filter_nil, Forall_forall. intros z Hz. apply Z.eqb_neq. intros He.
    apply Hy. rewrite <- He. by apply list_elem_of_fmap_2.
  - destruct (Z.eqb_spec (key y) (key x)) as [He|]; [|by apply IH]. destruct Hy. rewrite He. by apply list_elem_of_fmap_2.
Qed.

(** The element of an observation after [addMissingData]. *)
Definition enqueue (now : ptime PT) (id : Z) (ws : list (@WorkRow PT)) : list (@WorkRow PT) :=
  if existsb (fun w => w_observationid w =? id) ws
  then (fun w => if w_observationid w =? id then restart now w else w) <$> ws
  else ws ++ [{| w_observationid := id; w_priority := 10; w_process_start := Some now; w_qa_start := None; w_qa_stop := None;
                 w_service_start := None; w_service_stop := None; w_qa_id := None |}].

(** The tables after the three statements of [cleanWorkQueue]. *)
Definition cleaned (now : ptime PT) (tb : @tables PT) : @tables PT :=
  with_work tb (List.filter (fun q => negb (finished now q)) (workque tb))
    (List.filter (fun s => negb (existsb (fun q => (w_observationid (s_work s) =? w_observationid q) && finished now q)
                                   (workque tb))) (workstatistik tb) ++
     (workque tb ≫= fun q => (fun o => {| s_obs := o; s_work := q |}) <$>
        List.filter (fun o => (w_observationid q =? Database.o_observationid o) && finished now q) (observations tb))).

Lemma cleaned_statements now (tb : @tables PT) :
  Database.bind (delete_statistics now) (fun _ => Database.bind (insert_statistics now) (fun _ => delete_finished now)) tb
  = inl (tt, cleaned now tb).
Proof. reflexivity. Qed.

(** The statistics of an observation. *)
Definition stats_of (id : Z) (tb : @tables PT) : list (@StatRow PT) :=
  List.filter (fun s => w_observationid (s_work s) =? id) (workstatistik tb).

Lemma join_stats now id (obs : list (@ObsRow PT)) (ws : list (@WorkRow PT)) :
  List.filter (fun s => w_observationid (s_work s) =? id)
    (ws ≫= fun q => (fun o => {| s_obs := o; s_work := q |}) <$>
       List.filter (fun o => (w_observationid q =? Database.o_observationid o) && finished now q) obs)
  = List.filter (fun q => w_observationid q =? id) ws ≫= fun q => (fun o => {| s_obs := o; s_work := q |}) <$>
       List.filter (fun o => (w_observationid q =? Database.o_observationid o) && finished now q) obs.
Proof.
  induction ws as [|q ws IH]; [done|]. rewrite bind_cons, List.filter_app, IH. cbn [List.filter].
  destruct (Z.eqb_spec (w_observationid q) id) as [He|Hne].
  - rewrite bind_cons. f_equal. apply filter_id, Forall_forall. intros s (o & -> & _)%list_elem_of_fmap. simpl. lia.
  - rewrite filter_nil; [done|]. apply Forall_forall. intros s (o & -> & _)%list_elem_of_fmap. simpl. lia.
Qed.

Lemma cleaned_finished now (tb : @tables PT) q : tables_wf tb -> q ∈ workque tb -> finished now q = true ->
  exists o, o ∈ observations tb /\ Database.o_observationid o = w_observationid q /\
    stats_of (w_observationid q) (cleaned now tb) = [{| s_obs := o; s_work := q |}].
Proof.
  intros Hwf Hq Hf. pose proof (wf_work _ Hwf) as Hw. rewrite Forall_forall in Hw.
  destruct (proj1 (list_elem_of_fmap _ _ _) (Hw q Hq)) as (o & Ho & Hin). exists o. repeat split; [done|by symmetry|].
  unfold stats_of, cleaned. simpl. rewrite List.filter_app, join_stats, filter_one; [|apply Hwf|done]. simpl.
  rewrite filter_nil; simpl.
  - rewrite app_nil_r, (filter_ext _ (fun o' => Database.o_observationid o' =? Database.o_observationid o)).
    + rewrite filter_one; [done|apply Hwf|done].
    + intros o'. rewrite Hf, andb_true_r, Ho. apply Z.eqb_sym.
  - apply Forall_forall. intros s [Hs Hn]%elem_of_filter_b. apply Z.eqb_neq. intros He.
    apply negb_true_iff, existsb_false in Hn. rewrite Forall_forall in Hn. specialize (Hn q Hq).
    rewrite Hf, He, Z.eqb_refl in Hn. done.
Qed.

Lemma cleaned_unfinished now (tb : @tables PT) id :
  (forall q, q ∈ workque tb -> w_observationid q = id -> finished now q = false) ->
  stats_of id (cleaned now tb) = stats_of id tb.
Proof.
  intros Hun. unfold stats_of, cleaned. simpl. rewrite List.filter_app, join_stats.
  assert (forall ws : list (@WorkRow PT), (forall q, q ∈ ws -> finished now q = false) ->
    (ws ≫= fun q => (fun o => {| s_obs := o; s_work := q |}) <$>
       List.filter (fun o => (w_observationid q =? Database.o_observationid o) && finished now q) (observations tb)) = []) as ->.
  { induction ws as [|q ws IH]; intros Hws; [done|].
    rewrite bind_cons, IH by (intros; apply Hws; by right). rewrite filter_nil; [done|].
    apply Forall_forall. intros. rewrite (Hws q) by (by left). apply andb_false_r. }
  - rewrite app_nil_r. apply filter_filter. intros s Hs%Z.eqb_eq. apply negb_true_iff, existsb_false, Forall_forall.
    intros q Hq. destruct (Z.eqb_spec (w_observationid (s_work s)) (w_observationid q)) as [He|]; [|done].
    simpl. apply Hun; [done|]. congruence.
  - intros q [Hq He%Z.eqb_eq]%elem_of_filter_b. by apply Hun.
Qed.

Lemma enqueue_keys now id (ws : list (@WorkRow PT)) : NoDup (w_observationid <$> ws) -> NoDup (w_observationid <$> enqueue now id ws).
Proof.
  unfold enqueue. destruct (existsb _ ws) eqn:E.
  - intros H. rewrite <- list_fmap_compose. rewrite (list_fmap_ext _ w_observationid); [done|].
    intros i w _. simpl. by destruct (_ =? _).
  - intros H. rewrite fmap_app. apply NoDup_snoc. split; [done|]. intros (w & He & Hw)%list_elem_of_fmap.
    apply existsb_false in E. rewrite Forall_forall in E. specialize (E w Hw). simpl in He. rewrite <- He in E. lia.
Qed.

Lemma enqueue_ids now id (ws : list (@WorkRow PT)) w : w ∈ enqueue now id ws ->
  w_observationid w = id /\ w_process_start w = Some now /\ w_qa_stop w = None \/ w_observationid w <> id /\ w ∈ ws.
Proof.
  unfold enqueue. destruct (existsb _ ws) eqn:E.
  - intros (v & -> & Hv)%list_elem_of_fmap. destruct (Z.eqb_spec (w_observationid v) id); [left|right]; done.
  - intros [Hw| ->%list_elem_of_singleton]%elem_of_app; [right|by left].
    apply existsb_false in E. rewrite Forall_forall in E. specialize (E w Hw). split; [lia|done].
Qed.

End work.

(** ** Programs on a connection *)

Section connection.
  Context {PT : PTime}.
  Context (event : nat -> event_kind) (clock : nat -> ptime PT).

Lemma exec_open {A} (q : ptime PT -> Db -> (A * Db) + mexn) s w t :
  event (sent s) = Served -> tx s = Open w t ->
  exec_ event clock q s = match q t w with
                          | inl (a, w) => (inl a, set_tx (Open w t) (next s))
                          | inr e => (inr e, set_tx Aborted (next s))
                          end.
Proof. intros He Ht. unfold exec_, send. rewrite He. simpl. by rewrite Ht. Qed.

Lemma exec_auto {A} (q : ptime PT -> Db -> (A * Db) + mexn) s :
  event (sent s) = Served -> tx s = NoTx ->
  exec_ event clock q s = match q (clock (S (sent s))) (committed s) with
                          | inl (a, d) => (inl a, {| committed := d; tx := NoTx; sent := S (sent s) |})
                          | inr e => (inr e, next s)
                          end.
Proof. intros He Ht. unfold exec_, send. rewrite He. simpl. by rewrite Ht. Qed.

Lemma m_bind_inl {A B} (m : Mgr A) (k : A -> Mgr B) s a (s1 : @Conn PT) : m s = (inl a, s1) -> m_bind m k s = k a s1.
Proof. unfold m_bind. by intros ->. Qed.

(** A connection that is not made again under a transaction. *)
Context (steady : forall n, event n <> Reconnected).

(** A program that runs inside a transaction: an answer leaves the transaction open
    on a view related to the one before, an exception leaves none open, and
    neither reaches the committed tables. *)
Definition transactional {A} (m : Mgr A) (f : ptime PT -> Db -> A -> Db -> Prop) : Prop := forall s w t r s',
  tx s = Open w t -> m s = (r, s') ->
  committed s' = committed s /\
  match r with
  | inl a => exists w', tx s' = Open w' t /\ f t w a w'
  | inr _ => match tx s' with Open _ _ => False | _ => True end
  end.

Lemma transactional_ret {A} (a : A) : transactional (m_ret a) (fun _ w b w' => a = b /\ w' = w).
Proof. intros s w t r s' Ht [= <- <-]. split; [done|]. by exists w. Qed.

Lemma transactional_bind {A B} (m : Mgr A) (k : A -> Mgr B) f g :
  transactional m f -> (forall a, transactional (k a) (g a)) ->
  transactional (m_bind m k) (fun t w b w' => exists a w1, f t w a w1 /\ g a t w1 b w').
Proof.
  intros Hm Hk s w t r s' Ht H. unfold m_bind in H. destruct (m s) as [[a|e] s1] eqn:E.
  - destruct (Hm _ _ _ _ _ Ht E) as (Hc & w1 & Ht1 & Hf). destruct (Hk a _ _ _ _ _ Ht1 H) as (Hc' & Hr).
    split; [congruence|]. destruct r as [b|]; [|done]. destruct Hr as (w' & Ht' & Hg). eauto 6.
  - injection H as <- <-. by destruct (Hm _ _ _ _ _ Ht E).
Qed.

Lemma transactional_mono {A} (m : Mgr A) f g : (forall t w a w', f t w a w' -> g t w a w') -> transactional m f -> transactional m g.
Proof.
  intros Hfg Hm s w t r s' Ht H. destruct (Hm _ _ _ _ _ Ht H) as [Hc Hr]. split; [done|].
  destruct r; [|done]. destruct Hr as (w' & ? & ?). eauto.
Qed.

Lemma transactional_exec {A} (q : ptime PT -> Db -> (A * Db) + mexn) :
  transactional (exec_ event clock q) (fun t w a w' => q t w = inl (a, w')).
Proof.
  intros s w t r s' Ht. unfold exec_, send. pose proof (steady (sent s)) as Hs.
  destruct (event (sent s)); [| |done|]; simpl; rewrite ?Ht.
  - destruct (q t w) as [[a w']|e] eqn:E; intros [= <- <-]; split; try done. by exists w'.
  - by intros [= <- <-].
  - by intros [= <- <-].
Qed.

Lemma transactional_select {A} (q : Db -> A) : transactional (select event clock q) (fun _ w a w' => a = q w /\ w' = w).
Proof. eapply transactional_mono, transactional_exec. by intros t w a w' [= <- <-]. Qed.

Lemma transactional_change {A} (m : ptime PT -> @M PT A) :
  transactional (change event clock m)
    (fun t w a w' => m t (db_tables w) = inl (a, db_tables w') /\ key_val w' = key_val w).
Proof.
  eapply transactional_mono, transactional_exec. intros t w a w'. simpl.
  destruct (m t (db_tables w)) as [[b tb]|]; [|done]. by intros [= <- <-].
Qed.

(** What runs after the commit. *)
Definition after_commit (v : Mgr (unit * bool)) : Prop := forall s, tx s = NoTx ->
  exists s', v s = (inl (tt, true), s') /\ committed s' = committed s /\ tx s' = NoTx.

(** A transaction is all or nothing. *)
Lemma with_transaction_atomic (m : Mgr unit) (f : ptime PT -> Db -> unit -> Db -> Prop) (v : Mgr (unit * bool)) s r s' :
  transactional m f -> after_commit v -> tx s = NoTx ->
  with_transaction event clock (m_bind m (fun _ => m_bind (endTransaction event) (fun _ => v))) s = (r, s') ->
  tx s' = NoTx /\
  (r <> inl tt /\ committed s' = committed s \/
   r = inl tt /\ f (clock (S (sent s))) (committed s) tt (committed s')).
Proof.
  intros Hm Hv Ht H. set (body := m_bind m _) in H. unfold with_transaction, m_bind in H.
  assert (Hroll : forall e (s1 : @Conn PT), committed s1 = committed s ->
    (match rollBack event s1 with (inl _, s) => (inr e, s) | (inr _, s) => (inr Terminated, s) end) = (r, s') ->
    tx s' = NoTx /\ (r <> inl tt /\ committed s' = committed s \/
      r = inl tt /\ f (clock (S (sent s))) (committed s) tt (committed s'))).
  { intros e s1 Hc. unfold rollBack. destruct (event (sent s1)); intros [= <- <-]; simpl; (split; [done|left; done]). }
  unfold beginTransaction, send in H. pose proof (steady (sent s)) as Hs.
  destruct (event (sent s)); [| |done|]; simpl in H; rewrite ?Ht in H.
  - set (s0 := set_tx _ (next s)) in H. assert (tx s0 = Open (committed s) (clock (S (sent s)))) as Ht0 by done.
    unfold body, m_bind in H. clear body. destruct (m s0) as [[[]|e] s1] eqn:E.
    + destruct (Hm _ _ _ _ _ Ht0 E) as (Hc & w' & Ht1 & Hf). change (committed s0) with (committed s) in Hc.
      unfold endTransaction, send in H. pose proof (steady (sent s1)) as Hs1.
      destruct (event (sent s1)); [| |done|]; simpl in H; rewrite ?Ht1 in H.
      * match type of H with context [v ?c] => destruct (Hv c) as (s2 & Ev & Hc2 & Ht2); [done|] end.
        rewrite Ev in H. injection H as <- <-. split; [done|]. right. split; [done|]. by rewrite Hc2.
      * eapply Hroll, H. done.
      * eapply Hroll, H. done.
    + destruct (Hm _ _ _ _ _ Ht0 E) as (Hc & _). eapply Hroll, H. done.
  - injection H as <- <-. split; [done|]. left. done.
  - injection H as <- <-. split; [done|]. left. done.
Qed.

Lemma after_commit_ret : after_commit (m_ret (tt, true)).
Proof. intros s Ht. by exists s. Qed.

End connection.

(** ** The operations *)

Section operations.
  Context {PT : PTime} {PC : PCalendar PT} {PM : PMinutes PT} {DT : DbText PT} {PD : PDbTime PT}.
  Context (cfg : ManagerTables PT) (event : nat -> event_kind) (clock : nat -> ptime PT).

(** [addMissingData] on the tables. *)
Definition fill (di : DataIdentifier PT) (now : ptime PT) : @M PT unit :=
  Database.bind (if isWholeHour (di_obstime_ di) then insertMissingDataQuery_ cfg di else Database.ret tt) (fun _ =>
  Database.bind (Database.query (selectWorkQueueQuery_ di)) (fun r =>
  match r with [] => insertWorkQueueQuery_ di 10 now | _ => updateWorkQueueQuery_ di now end)).

Definition fill_rel (di : DataIdentifier PT) (t : ptime PT) (w : Db) (_ : unit) (w' : Db) : Prop :=
  fill di t (db_tables w) = inl (tt, db_tables w') /\ key_val w' = key_val w.

Lemma addMissingData_transactional (steady : forall n, event n <> Reconnected) di :
  transactional (addMissingData cfg event clock di) (fill_rel di).
Proof.
  set (first := if isWholeHour (di_obstime_ di) then insertMissingDataQuery_ cfg di else Database.ret tt).
  set (last (r : list Z) now := match r with [] => insertWorkQueueQuery_ di 10 now | _ => updateWorkQueueQuery_ di now end).
  set (F := fun (t : ptime PT) w (_ : unit) w' => first (db_tables w) = inl (tt, db_tables w') /\ key_val w' = key_val w).
  set (L := fun r (t : ptime PT) w (_ : unit) w' => last r t (db_tables w) = inl (tt, db_tables w') /\ key_val w' = key_val w).
  assert (Hfirst : transactional (if isWholeHour (di_obstime_ di) then change event clock (fun _ => insertMissingDataQuery_ cfg di)
                                  else m_ret tt) F).
  { unfold F, first. destruct (isWholeHour _).
    - eapply transactional_mono, transactional_change; [|done]. by intros t w [] w'.
    - eapply transactional_mono, transactional_ret. by intros t w [] w' [_ ->]. }
  assert (Hlast : forall r, transactional (match r with [] => change event clock (insertWorkQueueQuery_ di 10)
                                           | _ => change event clock (updateWorkQueueQuery_ di) end) (L r)).
  { intros r. unfold L, last. destruct r; (eapply transactional_mono, transactional_change; [|done]; by intros t w [] w'). }
  eapply transactional_mono; cycle 1.
  - apply (transactional_bind _ _ F _ Hfirst (fun _ => transactional_bind _ _ _ L (transactional_select event clock steady _) Hlast)).
  - intros t w a w' (u & w1 & [H1 K1] & r & w2 & [-> ->] & H2 & K2). split; [|congruence].
    unfold fill, Database.bind, Database.query. unfold first in H1. rewrite H1. exact H2.
Qed.

(** The tables after it, where nothing stands in the way. *)
Definition filled (o : @ObsRow PT) (now : ptime PT) (tb : @tables PT) : @tables PT :=
  let rows := if isWholeHour (Database.o_obstime o) then missing_rows cfg (DataIdentifier_of_row o) tb else [] in
  with_work (with_obsdata (obsdata tb ++ rows) tb) (enqueue now (Database.o_observationid o) (workque tb)) (workstatistik tb).

Lemma select_queue_nil (di : DataIdentifier PT) tb :
  selectWorkQueueQuery_ di tb = [] <-> existsb (fun w => w_observationid w =? obsid_ di) (workque tb) = false.
Proof.
  unfold selectWorkQueueQuery_. induction (workque tb) as [|w l IH]; simpl; [done|].
  destruct (w_observationid w =? obsid_ di); simpl; [done|exact IH].
Qed.

Lemma fill_ok o now tb : config_ok cfg -> tables_wf tb -> o ∈ observations tb ->
  fill (DataIdentifier_of_row o) now tb = inl (tt, filled o now tb).
Proof.
  intros Hok Hwf Ho. unfold fill, Database.bind.
  assert ((if isWholeHour (di_obstime_ (DataIdentifier_of_row o)) then insertMissingDataQuery_ cfg (DataIdentifier_of_row o) else Database.ret tt) tb
    = inl (tt, with_obsdata (obsdata tb ++ if isWholeHour (Database.o_obstime o) then missing_rows cfg (DataIdentifier_of_row o) tb else []) tb)) as ->.
  { change (di_obstime_ (DataIdentifier_of_row o)) with (Database.o_obstime o). destruct (isWholeHour _).
    - by apply insertMissing_ok.
    - rewrite app_nil_r. by destruct tb. }
  unfold Database.query. match goal with |- context [selectWorkQueueQuery_ ?d ?t] => pose proof (select_queue_nil d t) as Hq end.
  unfold filled, enqueue. simpl in Hq. destruct (selectWorkQueueQuery_ _ _) as [|z l].
  - rewrite (proj1 Hq eq_refl). unfold insertWorkQueueQuery_, insert_workque. simpl.
    change (has_observation _ (with_obsdata _ _)) with (has_observation (Database.o_observationid o) tb).
    assert (has_observation (Database.o_observationid o) tb = true) as ->
      by (apply has_observation_elem; by apply list_elem_of_fmap_2).
    rewrite (proj1 Hq eq_refl). reflexivity.
  - destruct (existsb _ (workque tb)) eqn:E; [reflexivity|]. discriminate (proj2 Hq eq_refl).
Qed.

Lemma filled_wf o now tb : config_ok cfg -> tables_wf tb -> o ∈ observations tb -> tables_wf (filled o now tb).
Proof.
  intros Hok Hwf Ho. pose proof Hwf as [].
  assert (Hid : Database.o_observationid o ∈ obs_ids tb) by (by apply list_elem_of_fmap_2).
  split; simpl; try done.
  - apply Forall_app. split; [done|]. destruct (isWholeHour _); [|done]. apply Forall_forall. intros r Hr.
    apply missing_rows_spec in Hr as (p & n & l & m & _ & _ & _ & ->); done.
  - destruct (isWholeHour _); [by apply missing_rows_keys|by rewrite app_nil_r].
  - apply Forall_forall. intros w [(-> & _)|[_ Hw]]%enqueue_ids; [done|]. rewrite Forall_forall in wf_work. by apply wf_work.
  - by apply enqueue_keys.
Qed.

(** Every expected element with a default has a value. *)
Definition complete (o : @ObsRow PT) (tb : @tables PT) : Prop := forall p n l m,
  expected cfg o (p, n, l) -> default_of cfg p m -> (Database.o_observationid o, p, l, n) ∈ data_key <$> obsdata tb.

Lemma filled_complete o now tb : config_ok cfg -> tables_wf tb -> o ∈ observations tb ->
  isWholeHour (Database.o_obstime o) = true -> complete o (filled o now tb).
Proof.
  intros Hok Hwf Ho Hh p n l m He Hm. unfold filled. rewrite Hh. simpl. rewrite fmap_app, elem_of_app.
  destruct (decide ((Database.o_observationid o, p, l, n) ∈ data_key <$> obsdata tb)) as [|Hn]; [by left|]. right.
  apply list_elem_of_fmap. exists (missing_row (DataIdentifier_of_row o) (p, n, l) m). split.
  - symmetry. apply missing_row_key. by eapply expected_sensor.
  - apply missing_rows_spec; eauto 8.
Qed.

Lemma complete_missing_rows o tb : tables_wf tb -> o ∈ observations tb -> complete o tb ->
  missing_rows cfg (DataIdentifier_of_row o) tb = [].
Proof.
  intros Hwf Ho Hc. destruct (missing_rows _ _ _) as [|r l] eqn:E; [done|]. exfalso.
  assert (r ∈ missing_rows cfg (DataIdentifier_of_row o) tb) as Hr by (rewrite E; by left).
  apply missing_rows_spec in Hr as (p & n & l' & m & He & Hn & Hm & _); [|done|done]. by eapply Hn, Hc.
Qed.

End operations.

(** ** Creating observations *)

Section find.
  Context {PT : PTime} {PC : PCalendar PT} {PM : PMinutes PT} {DT : DbText PT} {PD : PDbTime PT}
          {BT : BoostText} {TT : PTimeText PT} {PS : PTimeShow PT}.
  Context (cfg : ManagerTables PT) (event : nat -> event_kind) (clock : nat -> ptime PT).
  Context (served : forall n, event n = Served).

(** Observations have been added, and nothing else has changed. *)
Record grown (tb tb' : @tables PT) (new : list (@ObsRow PT)) : Prop := {
  gr_observations : observations tb' = observations tb ++ new;
  gr_obsdata : obsdata tb' = obsdata tb;
  gr_obstextdata : obstextdata tb' = obstextdata tb;
  gr_workque : workque tb' = workque tb;
  gr_workstatistik : workstatistik tb' = workstatistik tb;
  gr_priority : priority tb' = priority tb
}.

Lemma grown_refl tb : grown tb tb [].
Proof. split; rewrite ?app_nil_r; reflexivity. Qed.

Lemma grown_trans tb1 tb2 tb3 n1 n2 : grown tb1 tb2 n1 -> grown tb2 tb3 n2 -> grown tb1 tb3 (n1 ++ n2).
Proof. intros [] []. split; try congruence. rewrite app_assoc. congruence. Qed.

Lemma reported_mono ty t tb tb' new st : grown tb tb' new -> reported ty t tb st = true -> reported ty t tb' st = true.
Proof. intros [H _ _ _ _ _]. unfold reported. rewrite H, existsb_app. intros ->. reflexivity. Qed.

Lemma reported_in ty t (tb : @tables PT) o : o ∈ observations tb -> o_typeid o = ty -> Database.o_obstime o = t ->
  reported ty t tb (Database.o_stationid o) = true.
Proof.
  intros Ho <- <-. unfold reported. apply existsb_exists. exists o. split; [by apply list_elem_of_In|].
  by rewrite !Z.eqb_refl, bool_decide_true.
Qed.

(** The connection after a change of the tables outside a transaction. *)
Definition moved (s s' : Conn) (tb' : @tables PT) : Prop :=
  tx s' = NoTx /\ committed s' = {| db_tables := tb'; key_val := key_val (committed s) |}.

Lemma createObservation_ok st ty t s : tx s = NoTx -> tables_wf (db_tables (committed s)) ->
  reported ty t (db_tables (committed s)) st = false ->
  exists s' o tb', createObservation_ event clock st ty t s = (inl (DataIdentifier_of_row o), s') /\
    moved s s' tb' /\ tables_wf tb' /\ grown (db_tables (committed s)) tb' [o] /\
    Database.o_stationid o = st /\ o_typeid o = ty /\ Database.o_obstime o = t.
Proof.
  intros Ht Hwf Hr. unfold createObservation_, m_bind, change. rewrite exec_auto by done.
  destruct (insert_observations st ty t (clock (S (sent s))) (db_tables (committed s))) as [[id tb']|] eqn:E.
  - pose proof (insert_observations_wf _ _ _ _ _ _ _ Hwf E) as Hwf'. unfold insert_observations in E.
    fold (reported ty t (db_tables (committed s)) st) in E. rewrite Hr in E. injection E as <- <-.
    do 3 eexists. split; [|split; [|split; [exact Hwf'|split; [split; reflexivity|split; [|split]]]]]; done.
  - unfold insert_observations in E. fold (reported ty t (db_tables (committed s)) st) in E. by rewrite Hr in E.
Qed.

(** One type: every station in the list gets its observation. *)
Lemma create_all ty t (l : list Z) s : tx s = NoTx -> tables_wf (db_tables (committed s)) -> NoDup l ->
  Forall (fun st => reported ty t (db_tables (committed s)) st = false) l ->
  exists s' new tb',
    m_collect l (fun st => m_bind (createObservation_ event clock st ty t) (fun di => m_ret [di])) s
      = (inl (DataIdentifier_of_row <$> new), s') /\
    moved s s' tb' /\ tables_wf tb' /\ grown (db_tables (committed s)) tb' new /\
    Database.o_stationid <$> new = l /\ Forall (fun o => o_typeid o = ty /\ Database.o_obstime o = t) new.
Proof.
  revert s. induction l as [|st l IH]; intros s Ht Hwf Hnd HF; simpl.
  - exists s, [], (db_tables (committed s)). split; [done|]. split; [split; [done|by destruct (committed s)]|].
    split; [done|]. split; [apply grown_refl|]. by split.
  - apply NoDup_cons in Hnd as [Hst Hnd]. apply Forall_cons in HF as [Hr HF].
    destruct (createObservation_ok st ty t s Ht Hwf Hr) as (s1 & o & tb1 & E & [Ht1 Hc1] & Hwf1 & Hg1 & H1 & H2 & H3).
    destruct (IH s1) as (s2 & new & tb2 & E2 & [Ht2 Hc2] & Hwf2 & Hg2 & Hl & HF2); rewrite ?Hc1; simpl; try done.
    { eapply Forall_forall. intros x Hx. rewrite Forall_forall in HF. specialize (HF x Hx).
      unfold reported in *. rewrite (gr_observations _ _ _ Hg1), existsb_app, HF. simpl.
      rewrite H1, (proj2 (Z.eqb_neq st x)); [done|]. by intros ->. }
    exists s2, (o :: new), tb2. split; [|split; [|split; [done|split; [|split]]]].
    + rewrite (m_bind_inl _ _ _ [DataIdentifier_of_row o] s1) by (by rewrite (m_bind_inl _ _ _ _ _ E)).
      rewrite (m_bind_inl _ _ _ _ _ E2). reflexivity.
    + split; [done|]. by rewrite Hc2, Hc1.
    + rewrite Hc1 in Hg2. apply (grown_trans _ _ _ [o] new Hg1 Hg2).
    + by rewrite fmap_cons, H1, Hl.
    + by constructor.
Qed.

Lemma missing_none ty t tb : qFindMissingStations_ cfg ty t tb = [] <->
  Forall (fun st => reported ty t tb st = true) (expected_stations cfg ty t).
Proof.
  unfold qFindMissingStations_. rewrite Forall_forall. split.
  - intros H st Hst. destruct (reported ty t tb st) eqn:E; [done|].
    assert (st ∈ List.filter (fun st => negb (reported ty t tb st)) (remove_dups (expected_stations cfg ty t))) as Hin.
    { apply elem_of_filter_b. rewrite elem_of_remove_dups. by rewrite E. }
    rewrite H in Hin. by apply elem_of_nil in Hin.
  - intros H. apply filter_nil, Forall_forall. intros st Hst. rewrite elem_of_remove_dups in Hst. by rewrite (H st Hst).
Qed.

Lemma missing_mono ty t tb tb' new : grown tb tb' new ->
  qFindMissingStations_ cfg ty t tb = [] -> qFindMissingStations_ cfg ty t tb' = [].
Proof.
  rewrite !missing_none. intros Hg H. eapply Forall_impl; [exact H|]. intros st. by eapply reported_mono.
Qed.

(** An observation that the programme expects of a late type. *)
Definition late_observation (late : list (Z * ptime PT)) (o : @ObsRow PT) : Prop :=
  (o_typeid o, Database.o_obstime o) ∈ late /\
  Database.o_stationid o ∈ expected_stations cfg (o_typeid o) (Database.o_obstime o).

(** The loop over the types. *)
Definition find_type (late : Z * ptime PT) : Mgr (list (DataIdentifier PT)) :=
  let '(ty, obstime) := late in
  m_bind (select event clock (fun d => qFindMissingStations_ cfg ty obstime (db_tables d))) (fun missing =>
  m_collect missing (fun st => m_bind (createObservation_ event clock st ty obstime) (fun di => m_ret [di]))).

Lemma find_all (late : list (Z * ptime PT)) s : tx s = NoTx -> tables_wf (db_tables (committed s)) ->
  exists s' new tb', m_collect late find_type s = (inl (DataIdentifier_of_row <$> new), s') /\
    moved s s' tb' /\ tables_wf tb' /\ grown (db_tables (committed s)) tb' new /\
    Forall (late_observation late) new /\ Forall (fun '(ty, t) => qFindMissingStations_ cfg ty t tb' = []) late.
Proof.
  revert s. induction late as [|[ty t] late IH]; intros s Ht Hwf; simpl.
  - exists s, [], (db_tables (committed s)). split; [done|]. split; [split; [done|by destruct (committed s)]|].
    split; [done|]. split; [apply grown_refl|]. by split.
  - set (l := qFindMissingStations_ cfg ty t (db_tables (committed s))).
    set (s0 := {| committed := committed s; tx := NoTx; sent := S (sent s) |}).
    destruct (create_all ty t l s0) as (s1 & new1 & tb1 & E1 & [Ht1 Hc1] & Hwf1 & Hg1 & Hl1 & HF1); try done.
    { apply NoDup_filter', NoDup_remove_dups. }
    { apply Forall_forall. intros st [_ Hst]%elem_of_filter_b. by apply negb_true_iff in Hst. }
    change (committed s0) with (committed s) in *.
    destruct (IH s1) as (s2 & new2 & tb2 & E2 & [Ht2 Hc2] & Hwf2 & Hg2 & HF2 & HM2); rewrite ?Hc1; try done.
    rewrite Hc1 in Hg2. exists s2, (new1 ++ new2), tb2.
    assert (Hm1 : qFindMissingStations_ cfg ty t tb1 = []).
    { apply missing_none, Forall_forall. intros st Hst. destruct (reported ty t (db_tables (committed s)) st) eqn:Er.
      - by eapply reported_mono.
      - assert (st ∈ Database.o_stationid <$> new1) as (o & -> & Ho)%list_elem_of_fmap.
        { rewrite Hl1. apply elem_of_filter_b. rewrite elem_of_remove_dups, Er. done. }
        rewrite Forall_forall in HF1. destruct (HF1 o Ho). apply reported_in; [|done|done].
        rewrite (gr_observations _ _ _ Hg1). apply elem_of_app. by right. }
    split; [|split; [|split; [done|split; [by eapply grown_trans|split]]]].
    + rewrite (m_bind_inl _ _ _ (DataIdentifier_of_row <$> new1) s1).
      * rewrite (m_bind_inl _ _ _ _ _ E2). unfold m_ret. by rewrite fmap_app.
      * rewrite (m_bind_inl _ _ _ l s0); [exact E1|]. unfold select. by rewrite exec_auto.
    + split; [done|]. by rewrite Hc2, Hc1.
    + apply Forall_app. split.
      * apply Forall_forall. intros o Ho. rewrite Forall_forall in HF1. destruct (HF1 o Ho) as [<- <-].
        split; [by left|]. assert (Database.o_stationid o ∈ l) as Hin by (rewrite <- Hl1; by apply list_elem_of_fmap_2).
        apply elem_of_filter_b in Hin as [Hin _]. by rewrite elem_of_remove_dups in Hin.
      * eapply Forall_impl; [exact HF2|]. intros o [H1 H2]. split; [by right|done].
    + constructor; [|done]. by eapply missing_mono.
Qed.

Lemma findAllMissing_ok obstime s : is_special obstime = false -> tx s = NoTx -> tables_wf (db_tables (committed s)) ->
  exists s' new tb', findAllMissing cfg event clock obstime s = (inl (DataIdentifier_of_row <$> new), s') /\
    moved s s' tb' /\ tables_wf tb' /\ grown (db_tables (committed s)) tb' new /\
    Forall (late_observation (select_late cfg obstime)) new /\
    Forall (fun '(ty, t) => qFindMissingStations_ cfg ty t tb' = []) (select_late cfg obstime).
Proof.
  intros Hs Ht Hwf. unfold findAllMissing, to_kvalobs_string. rewrite Hs.
  rewrite (m_bind_inl _ _ _ tt s) by done.
  rewrite (m_bind_inl _ _ _ (select_late cfg obstime) {| committed := committed s; tx := NoTx; sent := S (sent s) |})
    by (unfold select; by rewrite exec_auto).
  by apply (find_all (select_late cfg obstime) {| committed := committed s; tx := NoTx; sent := S (sent s) |}).
Qed.

End find.

(** ** Properties *)

Section theorems.
  Context {PT : PTime} {PC : PCalendar PT} {PM : PMinutes PT} {DT : DbText PT} {PD : PDbTime PT}
          {BT : BoostText} {TT : PTimeText PT} {PS : PTimeShow PT}.
  Context (cfg : ManagerTables PT) (event : nat -> event_kind) (clock : nat -> ptime PT).

(** The statements of [addMissingData] in a transaction where nothing is refused. *)
Lemma addMissingData_open di s w t w' : (forall n, event n = Served) -> tx s = Open w t ->
  fill cfg di t (db_tables w) = inl (tt, w') ->
  exists s', addMissingData cfg event clock di s = (inl tt, s') /\ committed s' = committed s /\
    tx s' = Open {| db_tables := w'; key_val := key_val w |} t.
Proof.
  intros Hsv Ht Hf.
  destruct (addMissingData cfg event clock di s) as [r s'] eqn:E.
  assert (steady : forall n, event n <> Reconnected) by (intros n; by rewrite Hsv).
  destruct (addMissingData_transactional cfg event clock steady di s w t r s' Ht E) as [Hc Hr].
  destruct r as [[]|e].
  - destruct Hr as ([tb kv] & Ht' & H1 & H2). simpl in H1, H2. rewrite Hf in H1. injection H1 as ->. subst kv. eauto.
  - exfalso. unfold fill, Database.bind, Database.query in Hf.
    assert (Hrest : forall (w1 : Db) s1, tx s1 = Open w1 t ->
      match selectWorkQueueQuery_ di (db_tables w1) with
      | [] => insertWorkQueueQuery_ di 10 t | _ => updateWorkQueueQuery_ di t end (db_tables w1) = inl (tt, w') ->
      m_bind (select event clock (fun d => selectWorkQueueQuery_ di (db_tables d))) (fun r =>
        match r with [] => change event clock (insertWorkQueueQuery_ di 10) | _ => change event clock (updateWorkQueueQuery_ di) end) s1
      = (inr e, s') -> False).
    { intros w1 s1 Ht1 Hw1. unfold m_bind, select. rewrite (exec_open _ _ _ _ _ _ (Hsv _) Ht1).
      destruct (selectWorkQueueQuery_ di (db_tables w1)); unfold change;
        rewrite (exec_open event clock _ _ w1 t (Hsv _)) by done; rewrite Hw1; discriminate. }
    unfold addMissingData in E. destruct (isWholeHour (di_obstime_ di)).
    + destruct (insertMissingDataQuery_ cfg di (db_tables w)) as [[[] tb1]|] eqn:E1; [|done].
      rewrite (m_bind_inl _ _ _ tt (set_tx (Open {| db_tables := tb1; key_val := key_val w |} t) (next s))) in E.
      * eapply Hrest, E; [reflexivity|exact Hf].
      * unfold change. rewrite (exec_open _ _ _ _ _ _ (Hsv _) Ht), E1. reflexivity.
    + rewrite (m_bind_inl _ _ _ tt s) in E by done. eapply Hrest, E; [exact Ht|exact Hf].
Qed.

(** C8: [addMissingData] of an observation of the tables, on a server that refuses
    nothing, with a configuration of different parameters, each with at most one
    default, and at most ten sensors for an entry of the observation programme. When
    the time of the observation is a whole hour it adds exactly the missing values: a
    row for each parameter, level and sensor that the programme expects at that time
    and that has no value yet, with the default of its parameter, and the observation
    is then complete. At any other time it adds none. In both cases the element of the
    work queue is started anew, every other table keeps its rows, and the constraints
    of the schema hold. *)
Theorem addMissingData_fills (o : ObsRow) (s : Conn) (w : Db) (t : ptime PT) :
  config_ok cfg -> (forall n, event n = Served) -> tx s = Open w t ->
  tables_wf (db_tables w) -> o ∈ observations (db_tables w) ->
  exists s' tb' rows, addMissingData cfg event clock (DataIdentifier_of_row o) s = (inl tt, s') /\
    committed s' = committed s /\ tx s' = Open {| db_tables := tb'; key_val := key_val w |} t /\
    tables_wf tb' /\
    tb' = with_work (with_obsdata (obsdata (db_tables w) ++ rows) (db_tables w))
            (enqueue t (Database.o_observationid o) (workque (db_tables w))) (workstatistik (db_tables w)) /\
    (forall r, r ∈ rows <->
       isWholeHour (Database.o_obstime o) = true /\
       exists p n l m, expected cfg o (p, n, l) /\
         (Database.o_observationid o, p, l, n) ∉ data_key <$> obsdata (db_tables w) /\
         default_of cfg p m /\ r = missing_row (DataIdentifier_of_row o) (p, n, l) m) /\
    (isWholeHour (Database.o_obstime o) = true -> complete cfg o tb').
Proof.
  intros Hok Hsv Ht Hwf Ho. pose proof (fill_ok cfg o t _ Hok Hwf Ho) as Hf.
  destruct (addMissingData_open _ _ _ _ _ Hsv Ht Hf) as (s' & E & Hc & Ht').
  exists s', (filled cfg o t (db_tables w)).
  exists (if isWholeHour (Database.o_obstime o) then missing_rows cfg (DataIdentifier_of_row o) (db_tables w) else []).
  split; [done|]. split; [done|]. split; [done|]. split; [by apply filled_wf|]. split; [done|]. split.
  - intros r. destruct (isWholeHour _).
    + rewrite (missing_rows_spec _ _ _ _ Hwf Ho). split; [by split|by intros [_ ?]].
    + split; [by intros ?%elem_of_nil|by intros [? _]].
  - intros. by apply filled_complete.
Qed.

(** C23: [findAllMissing] creates an observation for exactly the stations that are
    late: afterwards every station that the observation programme expects at the
    late time of a type has an observation of that type and time; each new
    observation is one that was expected; and the list it gives names the new
    observations, in the order of their creation. No other table changes. *)
Theorem findAllMissing_creates (obstime : ptime PT) (s : Conn) :
  (forall n, event n = Served) -> is_special obstime = false -> tx s = NoTx -> tables_wf (db_tables (committed s)) ->
  exists s' new tb', findAllMissing cfg event clock obstime s = (inl (DataIdentifier_of_row <$> new), s') /\
    moved s s' tb' /\ tables_wf tb' /\ grown (db_tables (committed s)) tb' new /\
    Forall (late_observation cfg (select_late cfg obstime)) new /\
    Forall (fun '(ty, t) => qFindMissingStations_ cfg ty t tb' = []) (select_late cfg obstime).
Proof. intros. by apply findAllMissing_ok. Qed.

Lemma vacuum_after_commit (steady : forall n, event n <> Reconnected) :
  after_commit (m_bind (m_catch (exec_ event clock (fun _ d => inl (tt, d))) (fun _ => Some (m_ret tt))) (fun _ => m_ret (tt, true))).
Proof.
  intros s Ht. unfold m_bind, m_catch, exec_, send. pose proof (steady (sent s)) as Hs.
  destruct (event (sent s)); [| |done|]; simpl; rewrite ?Ht; by eexists.
Qed.

(** The transaction of [cleanWorkQueue]. *)
Lemma clean_transactional (steady : forall n, event n <> Reconnected) :
  transactional (m_bind (change event clock delete_statistics) (fun _ =>
                 m_bind (change event clock insert_statistics) (fun _ => change event clock delete_finished)))
    (fun t w _ w' => db_tables w' = cleaned t (db_tables w) /\ key_val w' = key_val w).
Proof.
  eapply transactional_mono, (transactional_bind _ _ _ _ (transactional_change event clock steady _) (fun _ =>
    transactional_bind _ _ _ _ (transactional_change event clock steady _) (fun _ => transactional_change event clock steady _))).
  intros t w [] w' ([] & w1 & [H1 K1] & [] & w2 & [H2 K2] & H3 & K3). split; [|congruence].
  pose proof (cleaned_statements t (db_tables w)) as H. unfold Database.bind in H. rewrite H1, H2, H3 in H. congruence.
Qed.

Lemma m_bind_assoc {A B C} (m : Mgr A) (k : A -> Mgr B) (h : B -> Mgr C) (s : @Conn PT) :
  m_bind m (fun a => m_bind (k a) h) s = m_bind (m_bind m k) h s.
Proof. unfold m_bind. by destruct (m s) as [[]]. Qed.

Lemma with_transaction_ext {A} (m m' : Mgr (A * bool)) (s : @Conn PT) : (forall s, m s = m' s) ->
  with_transaction event clock m s = with_transaction event clock m' s.
Proof. intros H. unfold with_transaction, m_bind. destruct (beginTransaction _ _ s) as [[] s1]; [|done]. by rewrite H. Qed.

Lemma cleanWorkQueue_atomic s r s' : (forall n, event n <> Reconnected) -> tx s = NoTx ->
  cleanWorkQueue event clock s = (r, s') ->
  tx s' = NoTx /\
  (r <> inl tt /\ committed s' = committed s \/
   r = inl tt /\ committed s' = {| db_tables := cleaned (clock (S (sent s))) (db_tables (committed s)); key_val := key_val (committed s) |}).
Proof.
  intros steady Ht H. unfold cleanWorkQueue in H.
  erewrite with_transaction_ext in H.
  - eapply with_transaction_atomic in H; [|done|by apply clean_transactional|by apply vacuum_after_commit|done].
    destruct H as [H1 [H2|[H2 [H3 H4]]]]; split; [done|by left|done|right]. split; [done|].
    destruct (committed s') as [tb kv]. simpl in H3, H4. by subst.
  - intros s1. rewrite <- m_bind_assoc. unfold m_bind.
    destruct (change event clock delete_statistics s1) as [[[]|] s2]; [|done].
    destruct (change event clock insert_statistics s2) as [[[]|] s3]; [|done]. reflexivity.
Qed.

(** C10: Cleaning the work queue is all or nothing, on tables that keep the
    constraints of the schema and a connection that is not made anew on the way (a
    lost one breaks it). When it succeeds, it moves what was finished fifteen minutes
    before its transaction began: each such element leaves the queue and becomes the
    only statistics of its observation; the rest of the queue, the statistics of every
    other observation and all other tables stay. When it fails, nothing changes. *)
Theorem cleanWorkQueue_moves (s : Conn) r s' :
  (forall n, event n <> Reconnected) -> tx s = NoTx -> tables_wf (db_tables (committed s)) ->
  cleanWorkQueue event clock s = (r, s') ->
  let now := clock (S (sent s)) in
  let T := db_tables (committed s) in
  let T' := db_tables (committed s') in
  tx s' = NoTx /\
  (r <> inl tt /\ committed s' = committed s \/
   r = inl tt /\ key_val (committed s') = key_val (committed s) /\
   T' = with_work T (List.filter (fun q => negb (finished now q)) (workque T)) (workstatistik T') /\
   (forall q, q ∈ workque T -> finished now q = true ->
      exists o, o ∈ observations T /\ Database.o_observationid o = w_observationid q /\
        stats_of (w_observationid q) T' = [{| s_obs := o; s_work := q |}]) /\
   (forall id, (forall q, q ∈ workque T -> w_observationid q = id -> finished now q = false) ->
      stats_of id T' = stats_of id T)).
Proof.
  intros steady Ht Hwf H now T T'. destruct (cleanWorkQueue_atomic _ _ _ steady Ht H) as [Ht' [[Hr Hc]|[Hr Hc]]].
  - split; [done|]. by left.
  - split; [done|]. right. subst T'. rewrite Hc. simpl. repeat split; try done.
    + intros q Hq Hf. by apply cleaned_finished.
    + intros id Hid. by apply cleaned_unfinished.
Qed.

End theorems.

(** ** Concrete instances *)

(** A programme with one parameter of one sensor and one of two, for a type that is
    late after a quarter of an hour, and the defaults of the schema. *)
Definition every_hour : list (option bool) := replicate 24 (Some true).
Definition sample_pgm_row (param : Z) (sensors : Z) : PgmRow stamp_time :=
  {| pg_stationid := 18700; pg_paramid := param; pg_level := 0; pg_nr_sensor := Some sensors; pg_typeid := 501;
     pg_kl := every_hour; pg_fromtime := stamp_of 2020 1 1 0 0 0; pg_totime := None |}.

Definition sample_manager (sensors : Z) : ManagerTables stamp_time :=
  {| pgm := [sample_pgm_row 211 sensors; sample_pgm_row 105 2]; types := [{| ty_typeid := 501; ty_lateobs := Some 15 |}];
     params := [61; 105; 211];
     default_missing := [{| dm_paramid := None; dm_value := Dbl.of_Z (-32767); dm_controlinfo := "0000003000000000" |};
                         {| dm_paramid := Some 105; dm_value := Dbl.of_Z 0; dm_controlinfo := "0000000000000000" |}] |}.

Definition at_hour (h mi : Z) : ptime stamp_time := stamp_of 2024 1 15 h mi 0.
Definition all_served : nat -> event_kind := fun _ => Served.
Definition at_eight : nat -> ptime stamp_time := fun _ => at_hour 8 0.
Definition pick_first (_ : nat) (l : list (@ObsRow stamp_time)) : option (@ObsRow stamp_time) := head l.

Definition sample_observation : @ObsRow stamp_time :=
  {| o_observationid := 1; Database.o_stationid := 18700; o_typeid := 501;
     Database.o_obstime := at_hour 6 0; Database.o_tbtime := at_hour 6 5 |}.
Definition waiting (stop : option stamp) : @WorkRow stamp_time :=
  {| w_observationid := 1; w_priority := 3; w_process_start := None; w_qa_start := None; w_qa_stop := stop;
     w_service_start := None; w_service_stop := None; w_qa_id := None |}.
(** An observation with one of the values of parameter 105 in it, and its element. *)
Definition sample_tables (stop : option stamp) (stats : list (@StatRow stamp_time)) : @tables stamp_time :=
  {| observations := [sample_observation];
     obsdata := [{| d_observationid := 1; d_original := Dbl.of_Z 4; d_paramid := 105; d_sensor := 1; d_level := 0;
                    d_corrected := Dbl.of_Z 4; d_controlinfo := ""; d_useinfo := ""; d_cfailed := "" |}];
     obstextdata := []; workque := [waiting stop]; workstatistik := stats; priority := []; observationid_seq := 1 |}.
Definition sample_db (stop : option stamp) (stats : list (@StatRow stamp_time)) : Db (PT := stamp_time) :=
  {| db_tables := sample_tables stop stats; key_val := [] |}.
Definition conn_of (d : Db (PT := stamp_time)) (x : Tx (PT := stamp_time)) : Conn (PT := stamp_time) :=
  {| committed := d; tx := x; sent := 0 |}.

Lemma sample_manager_ok n : n <= 10 -> config_ok (sample_manager n).
Proof. intros Hn. split; [by_decision|by_decision|]. repeat constructor; simpl; lia. Qed.

Lemma sample_tables_wf stop stats : tables_wf (sample_tables stop stats).
Proof. split; simpl; by_decision. Qed.

Lemma addMissingData_fills_witness : exists s' tb',
  addMissingData (sample_manager 1) all_served at_eight (DataIdentifier_of_row sample_observation)
    (conn_of (sample_db None []) (Open (sample_db None []) (at_hour 8 0))) = (inl tt, s') /\
  tx s' = Open {| db_tables := tb'; key_val := [] |} (at_hour 8 0) /\ complete (sample_manager 1) sample_observation tb'.
Proof.
  destruct (addMissingData_fills (sample_manager 1) all_served at_eight sample_observation
    (conn_of (sample_db None []) (Open (sample_db None []) (at_hour 8 0))) (sample_db None []) (at_hour 8 0))
    as (s' & tb' & rows & H1 & _ & H2 & _ & _ & _ & H3).
  - apply sample_manager_ok. lia.
  - reflexivity.
  - reflexivity.
  - apply sample_tables_wf.
  - by left.
  - exists s', tb'. split; [exact H1|split; [exact H2|apply H3; vm_compute; reflexivity]].
Defined.

(** The two values that were missing, with their defaults. *)
Example missing_sample :
  (fun r => (data_key r, d_original r)) <$> missing_rows (sample_manager 1) (DataIdentifier_of_row sample_observation) (sample_tables None [])
  = [((1, 211, 0, 0), Dbl.of_Z (-32767)); ((1, 105, 0, 0), Dbl.of_Z 0)].
Proof. vm_compute. reflexivity. Qed.

Lemma findAllMissing_creates_witness : exists s' new,
  findAllMissing (sample_manager 1) all_served at_eight (at_hour 7 30) (conn_of (sample_db None []) NoTx)
    = (inl (DataIdentifier_of_row <$> new), s') /\
  Forall (late_observation (sample_manager 1) (select_late (sample_manager 1) (at_hour 7 30))) new.
Proof.
  destruct (findAllMissing_creates (sample_manager 1) all_served at_eight (at_hour 7 30) (conn_of (sample_db None []) NoTx))
    as (s' & new & tb' & H1 & _ & _ & _ & H2 & _).
  - reflexivity.
  - reflexivity.
  - reflexivity.
  - apply sample_tables_wf.
  - exists s', new. split; [exact H1|exact H2].
Defined.

Definition old_stats : list (@StatRow stamp_time) := [{| s_obs := sample_observation; s_work := waiting (Some (at_hour 6 10)) |}].

Lemma cleanWorkQueue_moves_witness : exists r s',
  cleanWorkQueue all_served at_eight (conn_of (sample_db (Some (at_hour 7 30)) old_stats) NoTx) = (r, s') /\
  finished (at_hour 8 0) (waiting (Some (at_hour 7 30))) = true /\ tx s' = NoTx.
Proof.
  destruct (cleanWorkQueue all_served at_eight (conn_of (sample_db (Some (at_hour 7 30)) old_stats) NoTx)) as [r s'] eqn:E.
  exists r, s'. split; [reflexivity|]. split; [vm_compute; reflexivity|].
  refine (proj1 (cleanWorkQueue_moves all_served at_eight _ r s' _ _ _ E)).
  - intros n H. discriminate H.
  - reflexivity.
  - apply sample_tables_wf.
Defined.

(** When the connection is lost and made again before the second statement, the first
    is undone and the others take effect: the observation has its old statistics
    and the new. *)
Definition lost_once (n : nat) : event_kind := if (n =? 2)%nat then Reconnected else Served.

Theorem clean_not_atomic :
  let '(r, s') := cleanWorkQueue lost_once at_eight (conn_of (sample_db (Some (at_hour 7 30)) old_stats) NoTx) in
  r = inl tt /\ length (stats_of 1 (db_tables (committed s'))) = 2%nat.
Proof. vm_compute. by split. Qed.
