(* ===== verification/Manager.v ===== *)
(** * kvManagerd: the tasks (src/src/kvManagerd/MissingRunner.cpp,
    ObservationComplete.cpp, WorkQueueMover.cpp, TimedDatabaseTask.cpp)

    The loops of the manager on its database. [stopped] tells, by the number of
    statements sent, whether the process has been asked to stop. Sleeping and the
    log are left out. The loops of the code have no bound: they take fuel, and
    [None] is its end. *)

From S2P Require Import Prelude Orders PTime TimeText Sql Database DatabaseAccess KvalobsDb Serial Conf ManagerDb ManagerFill.

#[local] Open Scope Z_scope.

Section Manager.
  Context {PT : PTime} {PC : PCalendar PT} {PM : PMinutes PT} {DT : DbText PT} {PD : PDbTime PT}
          {BT : BoostText} {TT : PTimeText PT} {PS : PTimeShow PT}.
  Context (cfg : ManagerTables PT) (event : nat -> event_kind) (clock : nat -> ptime PT)
          (limit1 : nat -> list (@ObsRow PT) -> option (@ObsRow PT)) (stopped : nat -> bool).
  #[local] Open Scope mgr_scope.

(** [ManagerApp::checkForMissisngObs], with the configuration if there is one. *)
Definition checkForMissisngObs (conf : option ConfSection) (defaultValue : bool) : bool :=
  match conf with
  | None => defaultValue
  | Some conf => list_valAsBool (getValue conf (to_bytes "kvManagerd.check_for_missing_obs")) defaultValue 0
  end.

(** ** [ObservationComplete] *)

(** The catch clauses of the loops: every exception, but not the end of the process. *)
Definition caught (e : mexn) : option (@Mgr PT unit) :=
  match e with Terminated => None | _ => Some (m_ret tt) end.

Definition complete_round : @Mgr PT unit :=
  m_catch (with_transaction event clock (fun s =>
    (di <- nextDataToProcess event clock limit1 ;;
     if isValid di then
       addMissingData cfg event clock di ;; endTransaction event ;; m_ret (tt, true)
     else fun s =>
       if negb (stopped (sent s)) then (rollBack event ;; m_ret (tt, true)) s else (inl (tt, false), s)) s))
    caught.

Fixpoint complete_loop (fuel : nat) (s : @Conn PT) : option ((unit + mexn) * @Conn PT) :=
  if stopped (sent s) then Some (inl tt, s)
  else match fuel with
       | O => None
       | S fuel => match complete_round s with
                   | (inl _, s) => complete_loop fuel s
                   | (inr e, s) => Some (inr e, s)
                   end
       end.

(** ** [MissingRunner] *)

Definition add_in_transaction (di : DataIdentifier PT) : @Mgr PT unit :=
  with_transaction event clock (addMissingData cfg event clock di ;; endTransaction event ;; m_ret (tt, true)).

(** [do { ... } while (retry)]. *)
Fixpoint add_one (fuel : nat) (di : DataIdentifier PT) (retry : bool) (s : @Conn PT)
    : option ((unit + mexn) * @Conn PT) :=
  match fuel with
  | O => None
  | S fuel =>
      match add_in_transaction di s with
      | (inl _, s) => Some (inl tt, s)
      | (inr Terminated, s) => Some (inr Terminated, s)
      | (inr SerializeError, s) => add_one fuel di true s
      | (inr _, s) => if retry then add_one fuel di retry s else Some (inl tt, s)
      end
  end.

Fixpoint add_each (fuel : nat) (missing : list (DataIdentifier PT)) (s : @Conn PT)
    : option ((unit + mexn) * @Conn PT) :=
  match missing with
  | [] => Some (inl tt, s)
  | di :: missing =>
      match add_one fuel di false s with
      | Some (inl _, s) => add_each fuel missing s
      | r => r
      end
  end.

Definition addAllMissingData (fuel : nat) (obstime : ptime PT) (s : @Conn PT)
    : option ((unit + mexn) * @Conn PT) :=
  match findAllMissing cfg event clock obstime s with
  | (inl missing, s) => add_each fuel missing s
  | (inr e, s) => Some (inr e, s)
  end.

Definition next_hour (t : ptime PT) : ptime PT := pt_add_minutes t 60.

(** The loop of [run], with the fuel of the inner loops. *)
Fixpoint run_loop (fuel inner : nat) (obstime : ptime PT) (s : @Conn PT)
    : option ((unit + mexn) * @Conn PT) :=
  if ptime_lt obstime (clock (sent s)) && negb (stopped (sent s)) then
    match fuel with
    | O => None
    | S fuel =>
        match addAllMissingData inner obstime s with
        | None => None
        | Some (inl _, s) =>
            match setLastFindAllMissingRuntime event clock obstime s with
            | (inl _, s) => run_loop fuel inner (next_hour obstime) s
            | (inr SerializeError, s) => run_loop fuel inner obstime s
            | (inr e, s) => Some (inr e, s)
            end
        | Some (inr SerializeError, s) => run_loop fuel inner obstime s
        | Some (inr e, s) => Some (inr e, s)
        end
    end
  else Some (inl tt, s).

(** The constructor of [KvalobsDatabaseAccess] makes a connection, its destructor
    gives it up, and an open transaction with it. *)
Definition connect : @Mgr PT unit := fun s =>
  match event (sent s) with
  | Served => (inl tt, set_tx NoTx (next s))
  | _ => (inr StdError, set_tx NoTx (next s))
  end.

(** [nextRunTime], of the time it is: half past the next whole hour that is at
    least half an hour away. *)
Definition missing_nextRunTime (now : ptime PT) : ptime PT :=
  pt_add_minutes (pt_trunc_hour (pt_add_minutes now 30)) 30.

Definition missing_run (checkForMissingObs : bool) (fuel inner : nat) (s : @Conn PT)
    : option ((unit + mexn) * @Conn PT) :=
  if negb checkForMissingObs then Some (inl tt, s)
  else match connect s with
       | (inr e, s) => Some (inr e, s)
       | (inl _, s) =>
           match lastFindAllMissingRuntime event clock s with
           | (inr e, s) => Some (inr e, set_tx NoTx s)
           | (inl t, s) =>
               match run_loop fuel inner (next_hour t) s with
               | Some (r, s) => Some (r, set_tx NoTx s)
               | None => None
               end
           end
       end.

(** ** [WorkQueueMover] *)

Definition mover_nextRunTime (now : ptime PT) : ptime PT := pt_add_minutes now 15.

Definition mover_run (s : @Conn PT) : (unit + mexn) * @Conn PT :=
  match connect s with
  | (inr e, s) => (inr e, s)
  | (inl _, s) => let '(r, s) := cleanWorkQueue event clock s in (r, set_tx NoTx s)
  end.

(** ** [TimedDatabaseTask] *)

(** [operator()], with one [run] of the task. *)
Fixpoint timed_task (fuel : nat) (run : @Conn PT -> option ((unit + mexn) * @Conn PT)) (s : @Conn PT)
    : option ((unit + mexn) * @Conn PT) :=
  if stopped (sent s) then Some (inl tt, s)
  else match fuel with
       | O => None
       | S fuel => match run s with
                   | None => None
                   | Some (inr Terminated, s) => Some (inr Terminated, s)
                   | Some (_, s) => timed_task fuel run s
                   end
       end.

End Manager.

(** ** One attempt *)

Section attempt.
  Context {PT : PTime} {PC : PCalendar PT} {PM : PMinutes PT} {DT : DbText PT} {PD : PDbTime PT}
          {BT : BoostText} {TT : PTimeText PT} {PS : PTimeShow PT}.
  Context (cfg : ManagerTables PT) (event : nat -> event_kind) (clock : nat -> ptime PT).

(** The view of a transaction. *)
Definition view (s : @Conn PT) (w : Db) (t : ptime PT) (c : Db) : Prop := tx s = Open w t /\ committed s = c.

Definition hiccup (e : event_kind) : Prop := e = Served \/ e = Refused true.

(** What a step does when statements are executed or refused for a serialization
    failure: its work, or that failure. It sends something. *)
Definition goes {A} (m : Mgr A) (s : @Conn PT) (w : Db) (t : ptime PT) (c : Db) (a : A) (w' : Db) : Prop :=
  view s w t c ->
  exists s', (sent s <= sent s')%nat /\ committed s' = c /\
    (m s = (inl a, s') /\ view s' w' t c \/ m s = (inr SerializeError, s')) /\
    ((forall n, (sent s <= n)%nat -> event n = Served) -> m s = (inl a, s')).

Lemma goes_ret {A} (a : A) s w t c : goes (m_ret a) s w t c a w.
Proof. intros Hv. exists s. split; [lia|]. split; [apply Hv|]. split; [left|]; done. Qed.

Lemma goes_bind {A B} (m : Mgr A) (k : A -> Mgr B) s w t c a w1 b w2 :
  goes m s w t c a w1 -> (forall s, goes (k a) s w1 t c b w2) -> goes (m_bind m k) s w t c b w2.
Proof.
  intros Hm Hk Hv. destruct (Hm Hv) as (s1 & Hle & Hc & [[E Hv1]|E] & Hs).
  - destruct (Hk s1 Hv1) as (s2 & Hle2 & Hc2 & Hr & Hs2). exists s2.
    rewrite (m_bind_inl _ _ _ _ _ E). split; [lia|]. split; [done|]. split; [done|]. intros H. apply Hs2. intros n Hn. apply H. lia.
  - exists s1. split; [done|]. split; [done|]. split; [right; unfold m_bind; by rewrite E|]. intros H. rewrite (Hs H) in E. done.
Qed.

Lemma goes_exec {A} (q : ptime PT -> Db -> (A * Db) + mexn) s w t c a w' :
  (forall n, hiccup (event n)) -> q t w = inl (a, w') -> goes (exec_ event clock q) s w t c a w'.
Proof.
  intros Hq Hw [Ht Hc]. unfold exec_, send. destruct (Hq (sent s)) as [He|He]; rewrite He; simpl; rewrite ?Ht.
  - rewrite Hw. eexists. split; [|split; [|split; [left; split; [reflexivity|by split]|by intros]]]; simpl; [lia|done].
  - eexists. split; [|split; [|split; [by right|]]]; simpl; [lia|done|]. intros H. rewrite (H _ (le_n _)) in He. done.
Qed.

Lemma fill_goes di s w t c w' : (forall n, hiccup (event n)) -> fill cfg di t (db_tables w) = inl (tt, w') ->
  goes (addMissingData cfg event clock di) s w t c tt {| db_tables := w'; key_val := key_val w |}.
Proof.
  intros Hq Hf. unfold fill, Database.bind, Database.query in Hf. unfold addMissingData.
  destruct ((if isWholeHour (di_obstime_ di) then insertMissingDataQuery_ cfg di else Database.ret tt) (db_tables w))
    as [[[] tb1]|] eqn:E1; [|done].
  apply goes_bind with (a := tt) (w1 := {| db_tables := tb1; key_val := key_val w |}).
  - destruct (isWholeHour _).
    + apply goes_exec; [done|]. by rewrite E1.
    + injection E1 as <-. destruct w. apply goes_ret.
  - intros s1. eapply goes_bind; [by apply goes_exec|]. intros s2. simpl.
    destruct (selectWorkQueueQuery_ di tb1); (apply goes_exec; [done|]; cbn [db_tables key_val]; rewrite Hf; reflexivity).
Qed.

(** A transaction around it: done, or undone and to be tried again. *)
Lemma add_in_transaction_goes di s w' : (forall n, hiccup (event n)) -> tx s = NoTx ->
  fill cfg di (clock (S (sent s))) (db_tables (committed s)) = inl (tt, w') ->
  exists s', (sent s < sent s')%nat /\ tx s' = NoTx /\
    (add_in_transaction cfg event clock di s = (inl tt, s') /\
       committed s' = {| db_tables := w'; key_val := key_val (committed s) |} \/
     add_in_transaction cfg event clock di s = (inr SerializeError, s') /\ committed s' = committed s) /\
    ((forall n, (sent s <= n)%nat -> event n = Served) -> add_in_transaction cfg event clock di s = (inl tt, s')).
Proof.
  intros Hq Ht Hf. set (s0 := set_tx (Open (committed s) (clock (S (sent s)))) (next s)).
  unfold add_in_transaction, with_transaction. set (body := m_bind (addMissingData _ _ _ _) _). unfold m_bind.
  assert (Hb : beginTransaction event clock s = (inl tt, s0) \/
               event (sent s) = Refused true /\ beginTransaction event clock s = (inr SerializeError, set_tx NoTx (next s))).
  { unfold beginTransaction, send. destruct (Hq (sent s)) as [-> | ->]; simpl; rewrite Ht; [by left|by right]. }
  destruct Hb as [-> |[He ->]]; cycle 1.
  { eexists. split; [|split; [|split; [right; split; reflexivity|]]]; simpl; [lia|done|].
    intros H. rewrite (H _ (le_n _)) in He. done. }
  unfold body, m_bind. clear body.
  destruct (fill_goes di s0 (committed s) (clock (S (sent s))) (committed s) w' Hq Hf) as (s1 & Hle & Hc & Hr & Hs); [done|].
  assert (Hroll : forall (s2 : @Conn PT), exists s3, rollBack event s2 = (inl tt, s3) /\ tx s3 = NoTx /\
            committed s3 = committed s2 /\ sent s3 = S (sent s2)).
  { intros s2. unfold rollBack. destruct (Hq (sent s2)) as [->| ->]; by eexists. }
  destruct Hr as [[E [Hv1 Hc1]]|E]; rewrite E.
  - unfold endTransaction, send. destruct (Hq (sent s1)) as [He1|He1]; rewrite He1; simpl; rewrite ?Hv1.
    + eexists. split; [|split; [|split; [left; split; reflexivity|done]]]; simpl; [simpl in Hle; lia|done].
    + destruct (Hroll (set_tx NoTx (next s1))) as (s3 & -> & H1 & H2 & H3). exists s3.
      simpl in *. split; [lia|]. split; [done|]. split; [right; split; [done|congruence]|].
      intros H. rewrite H in He1 by lia. done.
  - destruct (Hroll s1) as (s3 & -> & H1 & H2 & H3). exists s3. simpl in *.
    split; [lia|]. split; [done|]. split; [right; split; [done|congruence]|].
    intros H. rewrite Hs in E; [done|]. intros n Hn. apply H. lia.
Qed.

(** The loop: serialization failures that end at statement [N] are survived. *)
Lemma add_one_goes o s (N : nat) retry fuel : config_ok cfg -> (forall n, hiccup (event n)) ->
  (forall n, (N <= n)%nat -> event n = Served) -> tx s = NoTx -> tables_wf (db_tables (committed s)) ->
  o ∈ observations (db_tables (committed s)) -> (N - sent s < fuel)%nat ->
  exists s' t, add_one cfg event clock fuel (DataIdentifier_of_row o) retry s = Some (inl tt, s') /\ tx s' = NoTx /\
    (sent s < sent s')%nat /\
    committed s' = {| db_tables := filled cfg o t (db_tables (committed s)); key_val := key_val (committed s) |}.
Proof.
  intros Hok Hq HN. revert s retry. induction fuel as [|fuel IH]; intros s retry Ht Hwf Ho Hf; [lia|].
  destruct (add_in_transaction_goes (DataIdentifier_of_row o) s _ Hq Ht (fill_ok cfg o _ _ Hok Hwf Ho))
    as (s1 & Hlt & Ht1 & [[E Hc]|[E Hc]] & Hs); cbn [add_one]; rewrite E.
  - by exists s1, (clock (S (sent s))).
  - destruct (decide (N <= sent s)%nat) as [Hle|Hle].
    + rewrite Hs in E; [done|]. intros n Hn. apply HN. lia.
    + destruct (IH s1 true) as (s2 & t & E2 & Ht2 & Hlt2 & Hc2); rewrite ?Hc; try done; [lia|].
      exists s2, t. rewrite E2, Hc2, Hc. split; [done|]. split; [done|]. split; [lia|done].
Qed.

End attempt.

(** ** The queue *)

Section queue.
  Context {PT : PTime} {PC : PCalendar PT} {PM : PMinutes PT} {DT : DbText PT} {PD : PDbTime PT}
          {BT : BoostText} {TT : PTimeText PT} {PS : PTimeShow PT}.
  Context (cfg : ManagerTables PT) (event : nat -> event_kind) (clock : nat -> ptime PT)
          (limit1 : nat -> list (@ObsRow PT) -> option (@ObsRow PT)) (stopped : nat -> bool).

(** The elements that wait to be processed. *)
Definition pending (tb : @tables PT) : nat :=
  length (List.filter (fun w => bool_decide (w_process_start w = None)) (workque tb)).

(** A [LIMIT 1] gives a row when there is one. *)
Definition limit1_ok : Prop := forall n l, match limit1 n l with Some o => o ∈ l | None => l = [] end.

Lemma select_unstarted_spec (tb : @tables PT) o : o ∈ select_unstarted tb <->
  o ∈ observations tb /\ exists w, w ∈ workque tb /\ w_observationid w = Database.o_observationid o /\ w_process_start w = None.
Proof.
  unfold select_unstarted. rewrite list_elem_of_bind. split.
  - intros (o' & (w & -> & [Hw Hc]%elem_of_filter_b)%list_elem_of_fmap & Ho).
    apply andb_prop in Hc as [H1%Z.eqb_eq H2%bool_decide_eq_true]. split; [done|]. by exists w.
  - intros (Ho & w & Hw & H1 & H2). exists o. split; [|done]. apply list_elem_of_fmap. exists w. split; [done|].
    apply elem_of_filter_b. split; [done|]. by rewrite H1, Z.eqb_refl, bool_decide_true.
Qed.

Lemma select_unstarted_nil (tb : @tables PT) : tables_wf tb -> select_unstarted tb = [] -> pending tb = 0%nat.
Proof.
  intros Hwf H. unfold pending. rewrite filter_nil; [done|]. apply Forall_forall. intros w Hw.
  apply bool_decide_eq_false. intros Hn. pose proof (wf_work _ Hwf) as Hf. rewrite Forall_forall in Hf.
  destruct (proj1 (list_elem_of_fmap _ _ _) (Hf w Hw)) as (o & Ho & Hin).
  assert (o ∈ select_unstarted tb) as Hx by (apply select_unstarted_spec; eauto).
  rewrite H in Hx. by apply elem_of_nil in Hx.
Qed.

Lemma restart_pending now id (ws : list (@WorkRow PT)) w : NoDup (w_observationid <$> ws) ->
  w ∈ ws -> w_observationid w = id -> w_process_start w = None ->
  S (length (List.filter (fun w => bool_decide (w_process_start w = None))
       ((fun w => if w_observationid w =? id then restart now w else w) <$> ws)))
  = length (List.filter (fun w => bool_decide (w_process_start w = None)) ws).
Proof.
  intros Hnd Hw Hid Hn. induction ws as [|v ws IH]; [by apply elem_of_nil in Hw|].
  rewrite fmap_cons in Hnd. rewrite fmap_cons. apply NoDup_cons in Hnd as [Hv Hnd]. apply elem_of_cons in Hw as [<-|Hw]; cbn [List.filter].
  - rewrite Hid, Z.eqb_refl, Hn, (bool_decide_true (None = None)) by done. rewrite bool_decide_false by done. simpl. do 2 f_equal.
    assert ((fun w => if w_observationid w =? id then restart now w else w) <$> ws = ws) as ->; [|done].
    rewrite <- (list_fmap_id ws) at 2. apply list_fmap_ext. intros i u Hu.
    destruct (Z.eqb_spec (w_observationid u) id) as [He|]; [|done]. destruct Hv. rewrite Hid, <- He.
    apply list_elem_of_fmap_2. by eapply list_elem_of_lookup_2.
  - destruct (Z.eqb_spec (w_observationid v) id) as [He|]; [destruct Hv; rewrite He, <- Hid; by apply list_elem_of_fmap_2|].
    destruct (bool_decide _); simpl; by rewrite IH.
Qed.

Lemma filled_pending o now tb : tables_wf tb -> o ∈ select_unstarted tb ->
  S (pending (filled cfg o now tb)) = pending tb.
Proof.
  intros Hwf (Ho & w & Hw & Hid & Hn)%select_unstarted_spec. unfold pending, filled, enqueue. simpl.
  rewrite (proj2 (existsb_exists _ _)); [eapply restart_pending; [apply Hwf|done..]|].
  exists w. split; [by apply list_elem_of_In|]. by apply Z.eqb_eq.
Qed.

(** Values stay, so what is complete stays complete. *)
Definition keeps (tb tb' : @tables PT) : Prop :=
  incl (data_key <$> obsdata tb) (data_key <$> obsdata tb').

Lemma complete_keeps o tb tb' : keeps tb tb' -> complete cfg o tb -> complete cfg o tb'.
Proof. intros Hk Hc p n l m He Hm. apply list_elem_of_In, Hk, list_elem_of_In. by eapply Hc. Qed.

Lemma filled_keeps o now tb : keeps tb (filled cfg o now tb).
Proof. unfold keeps, filled. simpl. rewrite fmap_app. intros k Hk. apply in_or_app. by left. Qed.

Lemma valid_id (tb : @tables PT) o : tables_wf tb -> o ∈ observations tb -> isValid (DataIdentifier_of_row o) = true.
Proof.
  intros Hwf Ho. pose proof (wf_seq _ Hwf) as Hs. rewrite Forall_forall in Hs.
  assert (Database.o_observationid o ∈ obs_ids tb) as Hin by (by apply list_elem_of_fmap_2).
  specialize (Hs _ Hin). unfold isValid. apply negb_true_iff, Z.eqb_neq. assert (LLONG_MIN < 0) by done. cbn [DataIdentifier_of_row obsid_]. lia.
Qed.

(** A round with something to do. *)
Lemma complete_round_some s : config_ok cfg -> (forall n, event n = Served) -> limit1_ok -> tx s = NoTx ->
  tables_wf (db_tables (committed s)) -> select_unstarted (db_tables (committed s)) <> [] ->
  exists s' o t, complete_round cfg event clock limit1 stopped s = (inl tt, s') /\ tx s' = NoTx /\
    o ∈ select_unstarted (db_tables (committed s)) /\
    committed s' = {| db_tables := filled cfg o t (db_tables (committed s)); key_val := key_val (committed s) |}.
Proof.
  intros Hok Hsv Hl Ht Hwf Hne. set (t := clock (S (sent s))). set (s0 := set_tx (Open (committed s) t) (next s)).
  pose proof (Hl (sent s0) (select_unstarted (db_tables (committed s)))) as Hlim.
  destruct (limit1 (sent s0) (select_unstarted (db_tables (committed s)))) as [o|] eqn:El; [|done].
  pose proof (proj1 (proj1 (select_unstarted_spec _ _) Hlim)) as Ho.
  set (s1 := set_tx (Open (committed s) t) (next s0)).
  destruct (addMissingData_open cfg event clock (DataIdentifier_of_row o) s1 (committed s) t _ Hsv eq_refl (fill_ok cfg o t _ Hok Hwf Ho))
    as (s2 & E2 & Hc2 & Ht2).
  exists {| committed := {| db_tables := filled cfg o t (db_tables (committed s)); key_val := key_val (committed s) |};
            tx := NoTx; sent := S (sent s2) |}, o, t.
  split; [|by split].
  assert (Eb : beginTransaction event clock s = (inl tt, s0)).
  { unfold beginTransaction, send. rewrite Hsv. simpl. by rewrite Ht. }
  assert (En : nextDataToProcess event clock limit1 s0 = (inl (DataIdentifier_of_row o), s1)).
  { unfold nextDataToProcess. rewrite (m_bind_inl _ _ _ (Some o) s1); [done|].
    unfold select. rewrite (exec_open _ _ _ _ (committed s) t (Hsv _)) by done. rewrite El. done. }
  unfold complete_round, m_catch, with_transaction. rewrite (m_bind_inl _ _ _ _ _ Eb). cbv beta.
  rewrite (m_bind_inl _ _ _ _ _ En), (valid_id _ _ Hwf Ho), (m_bind_inl _ _ _ _ _ E2).
  unfold m_bind, endTransaction, send. rewrite Hsv. simpl. by rewrite Ht2.
Qed.

Lemma complete_round_none s : (forall n, event n = Served) -> limit1_ok -> tx s = NoTx ->
  select_unstarted (db_tables (committed s)) = [] ->
  exists s', complete_round cfg event clock limit1 stopped s = (inl tt, s') /\ tx s' = NoTx /\ committed s' = committed s.
Proof.
  intros Hsv Hl Ht Hne. set (t := clock (S (sent s))). set (s0 := set_tx (Open (committed s) t) (next s)).
  pose proof (Hl (sent s0) (select_unstarted (db_tables (committed s)))) as Hlim.
  destruct (limit1 (sent s0) (select_unstarted (db_tables (committed s)))) as [o|] eqn:El.
  { rewrite Hne in Hlim. by apply elem_of_nil in Hlim. }
  set (s1 := set_tx (Open (committed s) t) (next s0)).
  assert (Eb : beginTransaction event clock s = (inl tt, s0)).
  { unfold beginTransaction, send. rewrite Hsv. simpl. by rewrite Ht. }
  assert (En : nextDataToProcess event clock limit1 s0 = (inl invalid, s1)).
  { unfold nextDataToProcess. rewrite (m_bind_inl _ _ _ None s1); [done|].
    unfold select. rewrite (exec_open _ _ _ _ (committed s) t (Hsv _)) by done. rewrite El. done. }
  exists (set_tx NoTx (next s1)).
  unfold complete_round, m_catch, with_transaction. rewrite (m_bind_inl _ _ _ _ _ Eb). cbv beta.
  rewrite (m_bind_inl _ _ _ _ _ En). change (isValid invalid) with false. cbv iota beta.
  destruct (negb (stopped (sent s1))).
  - unfold m_bind, rollBack. rewrite Hsv. by split.
  - unfold rollBack. rewrite Hsv. by split.
Qed.

(** [k] rounds. *)
Fixpoint rounds (k : nat) (s : @Conn PT) : @Conn PT :=
  match k with O => s | S k => rounds k (complete_round cfg event clock limit1 stopped s).2 end.

(** C22: The queue is worked off, on a server that refuses nothing and with a
    configuration of different parameters, each with at most one default, and at most
    ten sensors for an entry of the observation programme. As many rounds of
    [ObservationComplete] as there are unprocessed elements leave none, whichever row
    each query picks; the constraints of the schema hold, and every observation with
    an unprocessed element whose time is a whole hour has become complete. Elements at
    other times are passed on without a value being added. *)
Theorem queue_drains (k : nat) (s : Conn) : config_ok cfg -> (forall n, event n = Served) -> limit1_ok ->
  tx s = NoTx -> tables_wf (db_tables (committed s)) -> (pending (db_tables (committed s)) <= k)%nat ->
  let s' := rounds k s in
  tx s' = NoTx /\ pending (db_tables (committed s')) = 0%nat /\ tables_wf (db_tables (committed s')) /\
  forall o, o ∈ select_unstarted (db_tables (committed s)) -> isWholeHour (Database.o_obstime o) = true ->
    complete cfg o (db_tables (committed s')).
Proof.
  intros Hok Hsv Hl. revert s.
  assert (Hkeep : forall k s, tx s = NoTx -> tables_wf (db_tables (committed s)) ->
            keeps (db_tables (committed s)) (db_tables (committed (rounds k s)))).
  { clear k. intros k. induction k as [|k IH]; intros s Ht Hwf; simpl; [by intros x|].
    destruct (select_unstarted (db_tables (committed s))) as [|z zs] eqn:E.
    - destruct (complete_round_none s Hsv Hl Ht E) as (s' & -> & Ht' & Hc). simpl. rewrite <- Hc. apply IH; [done|by rewrite Hc].
    - destruct (complete_round_some s Hok Hsv Hl Ht Hwf) as (s' & o & t & -> & Ht' & Ho & Hc); [by rewrite E|]. simpl.
      eapply incl_tran; [apply (filled_keeps o t)|].
      specialize (IH s' Ht'). rewrite Hc in IH. apply IH. apply filled_wf; [done..|]. by apply select_unstarted_spec in Ho as [? _]. }
  induction k as [|k IH]; intros s Ht Hwf Hp s'.
  - assert (pending (db_tables (committed s)) = 0%nat) as H0 by lia. split; [done|]. split; [done|]. split; [done|].
    intros o (_ & w & Hw & _ & Hn)%select_unstarted_spec _. exfalso. unfold pending in H0. apply length_zero_iff_nil in H0.
    assert (w ∈ List.filter (fun w => bool_decide (w_process_start w = None)) (workque (db_tables (committed s)))) as Hx.
    { apply elem_of_filter_b. by rewrite bool_decide_true. }
    rewrite H0 in Hx. by apply elem_of_nil in Hx.
  - subst s'. simpl. destruct (select_unstarted (db_tables (committed s))) as [|z zs] eqn:E.
    + destruct (complete_round_none s Hsv Hl Ht E) as (s' & -> & Ht' & Hc). simpl.
      destruct (IH s' Ht') as (H1 & H2 & H3 & _); rewrite ?Hc; [done|by rewrite (select_unstarted_nil _ Hwf E); lia|].
      split; [done|]. split; [done|]. split; [done|]. by intros o ?%elem_of_nil.
    + rewrite <- E.
      destruct (complete_round_some s Hok Hsv Hl Ht Hwf) as (s' & o & t & -> & Ht' & Ho & Hc); [by rewrite E|]. simpl.
      pose proof (proj1 (proj1 (select_unstarted_spec _ _) Ho)) as Hin.
      pose proof (filled_wf cfg o t _ Hok Hwf Hin) as Hwf'. pose proof (filled_pending o t _ Hwf Ho) as Hpd.
      destruct (IH s' Ht') as (H1 & H2 & H3 & H4); rewrite ?Hc; [done|simpl; lia|].
      split; [done|]. split; [done|]. split; [done|]. intros o' Ho' Hh.
      specialize (Hkeep k s' Ht'). rewrite Hc in Hkeep, H4. simpl in Hkeep, H4. specialize (Hkeep Hwf').
      destruct (decide (Database.o_observationid o' = Database.o_observationid o)) as [He|Hne].
      * apply select_unstarted_spec in Ho' as [Ho'' _]. rewrite (observation_of_id _ _ _ Hwf Ho'' Hin He) in *.
        eapply complete_keeps; [exact Hkeep|]. by apply filled_complete.
      * apply H4; [|done]. apply select_unstarted_spec in Ho' as (Ho'' & w & Hw & Hid & Hn).
        apply select_unstarted_spec. split; [done|]. exists w. split; [|done]. simpl. unfold enqueue.
        destruct (existsb _ _); [|apply elem_of_app; by left]. apply list_elem_of_fmap. exists w. split; [|done].
        rewrite (proj2 (Z.eqb_neq _ _)); [done|congruence].
Qed.

End queue.

(** ** Catching up *)

Section catching_up.
  Context {PT : PTime} {PC : PCalendar PT} {PM : PMinutes PT} {DT : DbText PT} {PD : PDbTime PT}
          {BT : BoostText} {TT : PTimeText PT} {PS : PTimeShow PT}.
  Context (cfg : ManagerTables PT) (event : nat -> event_kind) (clock : nat -> ptime PT) (stopped : nat -> bool).

(** Observations and values have only been added, and the new observations are
    complete. *)
Record advanced (tb tb' : @tables PT) : Prop := {
  ad_wf : tables_wf tb';
  ad_obs : exists new, observations tb' = observations tb ++ new;
  ad_keeps : keeps tb tb';
  ad_complete : Forall (fun o => o ∈ observations tb \/ complete cfg o tb') (observations tb')
}.

Lemma advanced_refl tb : tables_wf tb -> advanced tb tb.
Proof.
  intros Hwf. split; [done|exists []; by rewrite app_nil_r|unfold keeps; by apply incl_refl|]. apply Forall_forall. by left.
Qed.

Lemma advanced_trans tb1 tb2 tb3 : advanced tb1 tb2 -> advanced tb2 tb3 -> advanced tb1 tb3.
Proof.
  intros [W1 [n1 O1] K1 C1] [W2 [n2 O2] K2 C2]. split; [done| |by eapply incl_tran|].
  - exists (n1 ++ n2). by rewrite O2, O1, app_assoc.
  - eapply Forall_impl; [exact C2|]. simpl. intros o [Ho|]; [|by right].
    rewrite Forall_forall in C1. destruct (C1 o Ho) as [|Hc]; [by left|right]. by eapply complete_keeps.
Qed.

(** Every station that is expected at the late time of a type has its observation. *)
Definition none_missing (obstime : ptime PT) (tb : @tables PT) : Prop :=
  Forall (fun '(ty, t) => qFindMissingStations_ cfg ty t tb = []) (select_late cfg obstime).

Lemma none_missing_advanced obstime tb tb' : advanced tb tb' -> none_missing obstime tb -> none_missing obstime tb'.
Proof.
  intros [_ [new Ho] _ _] H. eapply Forall_impl; [exact H|]. intros [ty t]. rewrite !missing_none. intros Hm.
  eapply Forall_impl; [exact Hm|]. intros st. unfold reported. rewrite Ho, existsb_app. by intros ->.
Qed.

Context (ok : config_ok cfg) (trunc_idem : forall t : ptime PT, pt_trunc_hour (pt_trunc_hour t) = pt_trunc_hour t).
Context (quiet : forall n, hiccup (event n)) (N : nat) (served_from : forall n, (N <= n)%nat -> event n = Served).

(** Filling the observations of a list. *)
Lemma add_each_goes inner (new : list (@ObsRow PT)) s : (N < inner)%nat -> tx s = NoTx ->
  tables_wf (db_tables (committed s)) -> Forall (fun o => o ∈ observations (db_tables (committed s))) new ->
  exists s', add_each cfg event clock inner (DataIdentifier_of_row <$> new) s = Some (inl tt, s') /\ tx s' = NoTx /\
    (sent s <= sent s')%nat /\
    tables_wf (db_tables (committed s')) /\ key_val (committed s') = key_val (committed s) /\
    observations (db_tables (committed s')) = observations (db_tables (committed s)) /\
    keeps (db_tables (committed s)) (db_tables (committed s')) /\
    Forall (fun o => isWholeHour (Database.o_obstime o) = true -> complete cfg o (db_tables (committed s'))) new.
Proof.
  intros Hin. revert s. induction new as [|o new IH]; intros s Ht Hwf HF.
  - exists s. split; [done|]. split; [done|]. split; [lia|]. split; [done|]. split; [done|]. split; [done|].
    split; [|done]. unfold keeps. by apply incl_refl.
  - apply Forall_cons in HF as [Ho HF].
    destruct (add_one_goes cfg event clock o s N false inner ok quiet served_from Ht Hwf Ho) as (s1 & t & E & Ht1 & Hlt & Hc); [lia|].
    destruct (IH s1) as (s2 & E2 & Ht2 & Hle & Hwf2 & Hk2 & Ho2 & Hkp & HF2); rewrite ?Hc; try done.
    { by apply filled_wf. }
    rewrite Hc in Hk2, Ho2, Hkp. simpl in Hk2, Ho2, Hkp.
    exists s2. rewrite fmap_cons. cbn [add_each]. rewrite E. split; [done|]. split; [done|]. split; [lia|]. split; [done|].
    split; [done|]. split; [done|]. split; [eapply incl_tran, Hkp; apply filled_keeps|].
    constructor; [|done]. intros Hh. eapply complete_keeps; [exact Hkp|]. by apply filled_complete.
Qed.

(** The server is behind its trouble when the connection has sent [N] statements. *)
Lemma served_after s : (N <= sent s)%nat -> forall n, (sent s <= n)%nat -> event n = Served.
Proof. intros Hs n Hn. apply served_from. lia. Qed.

Lemma late_whole_hour obstime o : late_observation cfg (select_late cfg obstime) o -> isWholeHour (Database.o_obstime o) = true.
Proof.
  intros [Hin _]. unfold select_late in Hin. apply list_elem_of_omap in Hin as (r & _ & Hr).
  destruct (ty_lateobs r) as [l|]; [|done]. destruct (l <? 100000); [|done]. injection Hr as _ <-.
  unfold isWholeHour. apply bool_decide_true, trunc_idem.
Qed.

End catching_up.

Section hours.
  Context {PT : PTime} {PC : PCalendar PT} {PM : PMinutes PT} {DT : DbText PT} {PD : PDbTime PT}
          {BT : BoostText} {TT : PTimeText PT} {PS : PTimeShow PT}.
  Context (cfg : ManagerTables PT) (event : nat -> event_kind) (clock : nat -> ptime PT) (stopped : nat -> bool).
  Context (ok : config_ok cfg) (trunc_idem : forall t : ptime PT, pt_trunc_hour (pt_trunc_hour t) = pt_trunc_hour t).
  Context (served : forall n, event n = Served).

Lemma served_quiet : forall n, hiccup (event n).
Proof. intros n. left. apply served. Qed.

(** One hour. *)
Lemma addAllMissingData_ok inner obstime s : (0 < inner)%nat -> is_special obstime = false -> tx s = NoTx ->
  tables_wf (db_tables (committed s)) ->
  exists s', addAllMissingData cfg event clock inner obstime s = Some (inl tt, s') /\ tx s' = NoTx /\
    key_val (committed s') = key_val (committed s) /\
    advanced cfg (db_tables (committed s)) (db_tables (committed s')) /\
    none_missing cfg obstime (db_tables (committed s')).
Proof.
  intros Hi Hs Ht Hwf.
  destruct (findAllMissing_ok cfg event clock served obstime s Hs Ht Hwf) as (s1 & new & tb1 & E & [Ht1 Hc1] & Hwf1 & Hg & Hlate & Hm).
  assert (Hnew : Forall (fun o => o ∈ observations (db_tables (committed s1))) new).
  { apply Forall_forall. intros o Ho. rewrite Hc1. simpl. rewrite (gr_observations _ _ _ Hg). apply elem_of_app. by right. }
  destruct (add_each_goes cfg event clock ok served_quiet 0 (fun n _ => served n) inner new s1) as
    (s2 & E2 & Ht2 & _ & Hwf2 & Hk2 & Ho2 & Hkp & HF2); [done|done|by rewrite Hc1|done|].
  exists s2. unfold addAllMissingData. rewrite E, E2. split; [done|]. split; [done|].
  rewrite Hk2, Hc1. split; [done|]. rewrite Hc1 in Ho2, Hkp. simpl in Ho2, Hkp.
  assert (Ha : advanced cfg (db_tables (committed s)) (db_tables (committed s2))).
  { split; [done| | |].
    - exists new. rewrite Ho2. apply Hg.
    - unfold keeps. rewrite <- (gr_obsdata _ _ _ Hg). exact Hkp.
    - rewrite Ho2, (gr_observations _ _ _ Hg). apply Forall_app. split; [apply Forall_forall; by left|].
      apply Forall_forall. intros o Ho. right. rewrite Forall_forall in HF2, Hlate. apply HF2; [done|].
      eapply late_whole_hour; [done|]. by apply Hlate. }
  split; [done|]. eapply Forall_impl; [exact Hm|]. intros [ty t]. rewrite !missing_none. intros H.
  eapply Forall_impl; [exact H|]. intros st. unfold reported. by rewrite Ho2.
Qed.

Lemma setLast_ok obstime s : is_special obstime = false -> tx s = NoTx ->
  exists s', setLastFindAllMissingRuntime event clock obstime s = (inl tt, s') /\ tx s' = NoTx /\
    db_tables (committed s') = db_tables (committed s) /\
    List.filter last_run (key_val (committed s')) =
      [{| kv_package := "kvManagerd"; kv_key := "LastMissingRun"; kv_val := Some (of_bytes (kvalobs_text obstime)) |}] /\
    List.filter (fun r => negb (last_run r)) (key_val (committed s')) =
      List.filter (fun r => negb (last_run r)) (key_val (committed s)).
Proof.
  intros Hs Ht. set (t := clock (S (sent s))). set (s0 := set_tx (Open (committed s) t) (next s)).
  assert (Eb : beginTransaction event clock s = (inl tt, s0)).
  { unfold beginTransaction, send. rewrite served. simpl. by rewrite Ht. }
  set (s1 := set_tx (Open (key_val_delete (committed s)) t) (next s0)).
  assert (E1 : exec_ event clock (fun _ d => inl (tt, key_val_delete d)) s0 = (inl tt, s1)).
  { by rewrite (exec_open _ _ _ _ (committed s) t (served _)). }
  set (row := {| kv_package := "kvManagerd"; kv_key := "LastMissingRun"; kv_val := Some (of_bytes (kvalobs_text obstime)) |}).
  set (d2 := {| db_tables := db_tables (committed s); key_val := List.filter (fun r => negb (last_run r)) (key_val (committed s)) ++ [row] |}).
  set (s2 := set_tx (Open d2 t) (next s1)).
  assert (Hno : List.filter last_run (List.filter (fun r => negb (last_run r)) (key_val (committed s))) = []).
  { apply filter_nil, Forall_forall. intros r [_ Hr]%elem_of_filter_b. by apply negb_true_iff in Hr. }
  assert (E2 : exec_ event clock (fun _ => key_val_insert (of_bytes (kvalobs_text obstime))) s1 = (inl tt, s2)).
  { rewrite (exec_open _ _ _ _ (key_val_delete (committed s)) t (served _)) by done. unfold key_val_insert.
    rewrite (proj2 (existsb_false _ _)); [done|]. simpl. apply Forall_forall. intros r [_ Hr]%elem_of_filter_b.
    by apply negb_true_iff in Hr. }
  exists {| committed := d2; tx := NoTx; sent := S (sent s2) |}. split; [|split; [done|split; [done|]]].
  - unfold setLastFindAllMissingRuntime. rewrite (m_bind_inl _ _ _ _ _ Eb), (m_bind_inl _ _ _ _ _ E1).
    unfold to_kvalobs_string. rewrite Hs, (m_bind_inl _ _ _ _ _ E2). unfold endTransaction, send. by rewrite served.
  - simpl. rewrite !List.filter_app, Hno. split; [done|]. simpl. rewrite app_nil_r. by apply filter_filter.
Qed.

Definition hour (t : ptime PT) (i : nat) : ptime PT := Nat.iter i next_hour t.

Lemma iter_next t i : Nat.iter i next_hour (next_hour t) = next_hour (hour t i).
Proof. unfold hour. induction i as [|i IH]; simpl; [done|]. by rewrite IH. Qed.

(** C7: The search for missing observations catches up and ends. Assume a server that
    refuses nothing; a configuration of different parameters, each with at most one
    default, and at most ten sensors for an entry of the observation programme; hours
    that are no special times; and a program that is not stopped. When [k] hours after
    [obstime] have not been reached by the clock, [k] rounds are enough: the loop of
    [run] ends normally after some [j] of them, at a time that is not past. In every
    hour it went through no station is missing; it created complete observations only
    and lost no value; and key_val holds the last of those hours and, of everything
    else, what it held. *)
Theorem run_catches_up (k : nat) (fuel inner : nat) (obstime : ptime PT) (s : Conn) :
  (k <= fuel)%nat -> (0 < inner)%nat -> (forall i, is_special (hour obstime i) = false) ->
  (forall n, ptime_lt (hour obstime k) (clock n) = false) -> (forall n, stopped n = false) ->
  tx s = NoTx -> tables_wf (db_tables (committed s)) ->
  exists s' j, run_loop cfg event clock stopped fuel inner obstime s = Some (inl tt, s') /\ tx s' = NoTx /\ (j <= k)%nat /\
    ptime_lt (hour obstime j) (clock (sent s')) = false /\
    advanced cfg (db_tables (committed s)) (db_tables (committed s')) /\
    (forall i, (i < j)%nat -> none_missing cfg (hour obstime i) (db_tables (committed s'))) /\
    List.filter last_run (key_val (committed s')) =
      match j with
      | O => List.filter last_run (key_val (committed s))
      | S i => [{| kv_package := "kvManagerd"; kv_key := "LastMissingRun";
                   kv_val := Some (of_bytes (kvalobs_text (hour obstime i))) |}]
      end /\
    List.filter (fun r => negb (last_run r)) (key_val (committed s')) =
      List.filter (fun r => negb (last_run r)) (key_val (committed s)).
Proof.
  intros Hf Hi Hsp Hk Hst. revert fuel obstime s Hf Hsp Hk.
  induction k as [|k IH]; intros fuel obstime s Hf Hsp Hk Ht Hwf;
    destruct (ptime_lt obstime (clock (sent s))) eqn:El.
  1: by rewrite (Hk (sent s) : ptime_lt obstime (clock (sent s)) = false) in El.
  1, 3: exists s, O; split; [destruct fuel; cbn [run_loop]; by rewrite El|];
    (split; [done|]); (split; [lia|]); (split; [done|]); (split; [by apply advanced_refl|]); (split; [by intros i ?%Nat.nlt_0_r|]); done.
  destruct fuel as [|fuel]; [lia|].
  destruct (addAllMissingData_ok inner obstime s Hi (Hsp 0%nat) Ht Hwf) as (s1 & E1 & Ht1 & Hkv1 & Ha1 & Hm1).
  destruct (setLast_ok obstime s1 (Hsp 0%nat) Ht1) as (s2 & E2 & Ht2 & Hdb2 & Hl2 & Hr2).
  destruct (IH fuel (next_hour obstime) s2) as (s3 & j & E3 & Ht3 & Hj & Hc3 & Ha3 & Hm3 & Hl3 & Hr3); try done; [lia|..].
  { intros i. unfold hour. rewrite iter_next. apply (Hsp (S i)). }
  { intros n. unfold hour. rewrite iter_next. apply (Hk n). }
  { rewrite Hdb2. apply Ha1. }
  rewrite Hdb2 in Ha3. unfold hour in Hc3. rewrite iter_next in Hc3.
  exists s3, (S j). cbn [run_loop]. rewrite El, Hst, E1, E2. cbn [andb negb]. split; [done|]. split; [done|]. split; [lia|].
  split; [done|]. split; [by eapply advanced_trans|]. split; [|split].
  - intros [|i] Hij; [by eapply none_missing_advanced|]. change (hour obstime (S i)) with (next_hour (hour obstime i)). rewrite <- iter_next. apply Hm3. lia.
  - rewrite Hl3. destruct j as [|i]; [done|]. unfold hour. by rewrite iter_next.
  - by rewrite Hr3, Hr2, Hkv1.
Qed.

(** C24: A failure of the search in the middle is survived, with a configuration of
    different parameters, each with at most one default, and at most ten sensors for
    an entry of the observation programme. While it adds the missing values of an
    observation, serialization failures that end at some statement, when nothing else
    fails, only delay it: the transaction is repeated until it has added them all,
    once. *)
Theorem add_one_survives (event' : nat -> event_kind) (N fuel : nat) (o : ObsRow) (retry : bool) (s : Conn) :
  (forall n, hiccup (event' n)) -> (forall n, (N <= n)%nat -> event' n = Served) -> (N - sent s < fuel)%nat ->
  tx s = NoTx -> tables_wf (db_tables (committed s)) -> o ∈ observations (db_tables (committed s)) ->
  exists s' t, add_one cfg event' clock fuel (DataIdentifier_of_row o) retry s = Some (inl tt, s') /\ tx s' = NoTx /\
    committed s' = {| db_tables := filled cfg o t (db_tables (committed s)); key_val := key_val (committed s) |}.
Proof.
  intros Hq HN Hf Ht Hwf Ho.
  destruct (add_one_goes cfg event' clock o s N retry fuel ok Hq HN Ht Hwf Ho Hf) as (s' & t & H1 & H2 & _ & H3). eauto.
Qed.

End hours.

(** ** Elements that cannot be filled *)

Section stuck.
  Context {PT : PTime} {PC : PCalendar PT} {PM : PMinutes PT} {DT : DbText PT} {PD : PDbTime PT}
          {BT : BoostText} {TT : PTimeText PT} {PS : PTimeShow PT}.
  Context (cfg : ManagerTables PT) (event : nat -> event_kind) (clock : nat -> ptime PT).

(** The statements of an element violate a constraint, at any time. *)
Definition unfillable (di : DataIdentifier PT) (tb : @tables PT) : Prop := forall t, exists e, fill cfg di t tb = inr e.

Lemma addMissingData_fails di s w t e : (forall n, (sent s <= n)%nat -> event n = Served) -> tx s = Open w t ->
  fill cfg di t (db_tables w) = inr e ->
  exists s', addMissingData cfg event clock di s = (inr SqlError, s') /\ committed s' = committed s /\ (sent s <= sent s')%nat.
Proof.
  intros Hsv Ht Hf. unfold fill, Database.bind, Database.query in Hf. unfold addMissingData.
  assert (Hrest : forall (w1 : Db) s1, tx s1 = Open w1 t -> (sent s <= sent s1)%nat -> committed s1 = committed s ->
    match selectWorkQueueQuery_ di (db_tables w1) with
    | [] => insertWorkQueueQuery_ di 10 t | _ => updateWorkQueueQuery_ di t end (db_tables w1) = inr e ->
    exists s', m_bind (select event clock (fun d => selectWorkQueueQuery_ di (db_tables d))) (fun r =>
        match r with [] => change event clock (insertWorkQueueQuery_ di 10) | _ => change event clock (updateWorkQueueQuery_ di) end) s1
      = (inr SqlError, s') /\ committed s' = committed s /\ (sent s <= sent s')%nat).
  { intros w1 s1 Ht1 Hle Hc1 Hw1. set (s2 := set_tx (Open w1 t) (next s1)).
    rewrite (m_bind_inl _ _ _ (selectWorkQueueQuery_ di (db_tables w1)) s2)
      by (unfold select; rewrite (exec_open _ _ _ _ w1 t); [done|apply Hsv; lia|done]).
    exists (set_tx Aborted (next s2)). split; [|split; [done|simpl; lia]].
    destruct (selectWorkQueueQuery_ di (db_tables w1)); unfold change;
      rewrite (exec_open event clock _ _ w1 t) by (try apply Hsv; simpl; try lia; done); by rewrite Hw1. }
  destruct (isWholeHour (di_obstime_ di)).
  - destruct (insertMissingDataQuery_ cfg di (db_tables w)) as [[[] tb1]|e1] eqn:E1.
    + rewrite (m_bind_inl _ _ _ tt (set_tx (Open {| db_tables := tb1; key_val := key_val w |} t) (next s))).
      * eapply Hrest; [reflexivity|simpl; lia|done|exact Hf].
      * unfold change. rewrite (exec_open _ _ _ _ _ _ (Hsv _ (le_n _)) Ht), E1. reflexivity.
    + exists (set_tx Aborted (next s)). split; [|split; [done|simpl; lia]].
      unfold m_bind, change. rewrite (exec_open _ _ _ _ _ _ (Hsv _ (le_n _)) Ht), E1. reflexivity.
  - rewrite (m_bind_inl _ _ _ tt s) by done. eapply Hrest; [exact Ht|lia|done|exact Hf].
Qed.

Lemma begin_served s : event (sent s) = Served -> tx s = NoTx ->
  beginTransaction event clock s = (inl tt, set_tx (Open (committed s) (clock (S (sent s)))) (next s)).
Proof. intros He Ht. unfold beginTransaction, send. rewrite He. simpl. by rewrite Ht. Qed.

Lemma add_in_transaction_fails di s : (forall n, (sent s <= n)%nat -> event n = Served) -> tx s = NoTx ->
  unfillable di (db_tables (committed s)) ->
  exists s', add_in_transaction cfg event clock di s = (inr SqlError, s') /\ committed s' = committed s /\
    tx s' = NoTx /\ (sent s <= sent s')%nat.
Proof.
  intros Hsv Ht Hu. destruct (Hu (clock (S (sent s)))) as [e He].
  set (s0 := set_tx (Open (committed s) (clock (S (sent s)))) (next s)).
  destruct (addMissingData_fails di s0 (committed s) _ e (fun n Hn => Hsv n (Nat.lt_le_incl _ _ Hn)) eq_refl He) as (s1 & E & Hc & Hle).
  exists (set_tx NoTx (next s1)). unfold add_in_transaction, with_transaction.
  rewrite (m_bind_inl _ _ _ tt s0) by (apply begin_served; [by apply Hsv|done]). unfold m_bind at 1. rewrite E.
  unfold rollBack. simpl in Hle. rewrite Hsv by lia. split; [done|]. split; [done|]. split; [done|]. simpl. lia.
Qed.

(** The loop with [retry] set never ends. *)
Lemma add_one_stuck di fuel s : (forall n, (sent s <= n)%nat -> event n = Served) -> tx s = NoTx ->
  unfillable di (db_tables (committed s)) -> add_one cfg event clock fuel di true s = None.
Proof.
  revert s. induction fuel as [|fuel IH]; intros s Hsv Ht Hu; [done|]. cbn [add_one].
  destruct (add_in_transaction_fails di s Hsv Ht Hu) as (s' & -> & Hc & Ht' & Hle).
  apply IH; [intros n Hn; apply Hsv; lia|done|by rewrite Hc].
Qed.

(** An element that violates a constraint is passed over, with an entry in the log,
    unless a serialization failure came before: [retry] is not reset, so the same
    transaction is repeated for ever. *)
Theorem add_one_livelock di fuel s : event (sent s) = Refused true -> (forall n, (sent s < n)%nat -> event n = Served) ->
  tx s = NoTx -> unfillable di (db_tables (committed s)) -> add_one cfg event clock fuel di false s = None.
Proof.
  intros He Hsv Ht Hu. destruct fuel as [|fuel]; [done|]. cbn [add_one].
  assert (add_in_transaction cfg event clock di s = (inr SerializeError, set_tx NoTx (next s))) as ->.
  { unfold add_in_transaction, with_transaction, m_bind at 1. unfold beginTransaction, send. rewrite He. simpl. by rewrite Ht. }
  apply add_one_stuck; simpl; [intros n Hn; apply Hsv; lia|done|done].
Qed.

(** The same element blocks the queue of [ObservationComplete] when the queries keep
    picking it: no number of rounds changes the tables. *)
Theorem queue_blocked limit1 stopped o k s : (forall n, (sent s <= n)%nat -> event n = Served) -> tx s = NoTx ->
  (forall n, limit1 n (select_unstarted (db_tables (committed s))) = Some o) ->
  isValid (DataIdentifier_of_row o) = true -> unfillable (DataIdentifier_of_row o) (db_tables (committed s)) ->
  committed (rounds cfg event clock limit1 stopped k s) = committed s.
Proof.
  revert s. induction k as [|k IH]; intros s Hsv Ht Hl Hv Hu; simpl; [done|].
  set (t := clock (S (sent s))). set (s0 := set_tx (Open (committed s) t) (next s)). set (s1 := set_tx (Open (committed s) t) (next s0)).
  destruct (Hu t) as [e He].
  destruct (addMissingData_fails (DataIdentifier_of_row o) s1 (committed s) t e) as (s2 & E2 & Hc & Hle); [|done|done|].
  { intros n Hn. apply Hsv. simpl in Hn. lia. }
  assert (En : nextDataToProcess event clock limit1 s0 = (inl (DataIdentifier_of_row o), s1)).
  { unfold nextDataToProcess. rewrite (m_bind_inl _ _ _ (Some o) s1); [done|].
    unfold select. rewrite (exec_open _ _ _ _ (committed s) t) by (try apply Hsv; simpl; try lia; done). by rewrite Hl. }
  assert (complete_round cfg event clock limit1 stopped s = (inl tt, set_tx NoTx (next s2))) as ->.
  { unfold complete_round, m_catch, with_transaction. rewrite (m_bind_inl _ _ _ tt s0) by (apply begin_served; [by apply Hsv|done]).
    cbv beta. rewrite (m_bind_inl _ _ _ _ _ En), Hv. unfold m_bind at 1. rewrite E2. unfold rollBack.
    rewrite Hsv by (simpl in Hle; lia). done. }
  simpl. rewrite IH; simpl; try done; rewrite ?Hc; try done. intros n Hn. apply Hsv. simpl in Hle. lia.
Qed.

End stuck.

(** ** Concrete instances *)

Lemma pick_first_ok : limit1_ok pick_first.
Proof. intros n [|o l]; simpl; [done|by left]. Qed.

Lemma queue_drains_witness :
  pending (sample_tables None []) = 1%nat /\
  pending (db_tables (committed (rounds (sample_manager 1) all_served at_eight pick_first (fun _ => false) 1
    (conn_of (sample_db None []) NoTx)))) = 0%nat.
Proof.
  split; [reflexivity|].
  refine (proj1 (proj2 (queue_drains (sample_manager 1) all_served at_eight pick_first (fun _ => false) 1 _ _ _ _ _ _ _))).
  - apply sample_manager_ok. lia.
  - reflexivity.
  - apply pick_first_ok.
  - reflexivity.
  - apply sample_tables_wf.
  - by_decision.
Defined.

Lemma stamp_trunc_idem (t : stamp) : pt_trunc_hour (PT := stamp_time) (pt_trunc_hour (PT := stamp_time) t) = pt_trunc_hour (PT := stamp_time) t.
Proof.
  destruct t as [| | |z]; simpl; try done. f_equal.
  replace ((z - z mod 3600) mod 3600) with 0; [lia|]. rewrite Zminus_mod_idemp_r, Z.sub_diag. reflexivity.
Qed.

Lemma sample_hours i : hour (PT := stamp_time) (at_hour 6 30) i = At (1705300200 + Z.of_nat i * 3600).
Proof.
  induction i as [|i IH]; [vm_compute; reflexivity|].
  change (hour (at_hour 6 30) (S i)) with (next_hour (hour (PT := stamp_time) (at_hour 6 30) i)). rewrite IH.
  cbn. f_equal. lia.
Qed.

Lemma run_catches_up_witness : exists s' j,
  run_loop (sample_manager 1) all_served at_eight (fun _ => false) 2 1 (at_hour 6 30) (conn_of (sample_db None []) NoTx)
    = Some (inl tt, s') /\ (j <= 2)%nat /\ ptime_lt (hour (PT := stamp_time) (at_hour 6 30) j) (at_hour 8 0) = false.
Proof.
  destruct (run_catches_up (sample_manager 1) all_served at_eight (fun _ => false) (sample_manager_ok 1 ltac:(lia))
    stamp_trunc_idem (fun _ => eq_refl) 2 2 1 (at_hour 6 30) (conn_of (sample_db None []) NoTx)) as (s' & j & H1 & _ & H2 & H3 & _).
  - lia.
  - lia.
  - intros i. rewrite sample_hours. reflexivity.
  - intros n. vm_compute. reflexivity.
  - reflexivity.
  - reflexivity.
  - apply sample_tables_wf.
  - exists s', j. split; [exact H1|split; [exact H2|exact H3]].
Defined.

(** Eleven sensors: the sensors 1 and 10 are the same character. *)
Lemma sample_unfillable : unfillable (sample_manager 11) (DataIdentifier_of_row sample_observation) (sample_tables None []).
Proof. intros t. exists Database.SQLException. vm_compute. reflexivity. Qed.

Example sample_livelock fuel :
  add_one (sample_manager 11) (fun n => if (n =? 0)%nat then Refused true else Served) at_eight fuel
    (DataIdentifier_of_row sample_observation) false (conn_of (sample_db None []) NoTx) = None.
Proof.
  apply add_one_livelock; [done| |done|exact sample_unfillable]. intros [|n] Hn; simpl in *; [lia|done].
Qed.

Example sample_blocked k :
  committed (rounds (sample_manager 11) all_served at_eight pick_first (fun _ => false) k (conn_of (sample_db None []) NoTx))
  = sample_db None [].
Proof. by apply (queue_blocked _ _ _ _ _ sample_observation); [..|exact sample_unfillable]. Qed.

Lemma add_one_survives_witness : exists s' t,
  add_one (sample_manager 1) (fun n => if (n <? 5)%nat then Refused true else Served) at_eight 6
    (DataIdentifier_of_row sample_observation) false (conn_of (sample_db None []) NoTx) = Some (inl tt, s') /\
  committed s' = {| db_tables := filled (sample_manager 1) sample_observation t (sample_tables None []); key_val := [] |}.
Proof.
  destruct (add_one_survives (sample_manager 1) at_eight (sample_manager_ok 1 ltac:(lia))
    (fun n => if (n <? 5)%nat then Refused true else Served) 5 6 sample_observation false (conn_of (sample_db None []) NoTx))
    as (s' & t & H1 & _ & H2).
  - intros n. destruct (n <? 5)%nat; [by right|by left].
  - intros n Hn. destruct (Nat.ltb_spec n 5); [lia|reflexivity].
  - simpl. lia.
  - reflexivity.
  - apply sample_tables_wf.
  - by left.
  - exists s', t. split; [exact H1|exact H2].
Defined.

(** The transaction of a new observation is refused, but not for a serialization
    failure: the observation stays without values, and is not looked at again. *)
Definition refused_third (n : nat) : event_kind := if (n =? 3)%nat then Refused false else Served.

Example created_but_empty :
  match addAllMissingData (sample_manager 1) refused_third at_eight 1 (at_hour 6 30)
          (conn_of {| db_tables := empty_tables; key_val := [] |} NoTx) with
  | Some (inl _, s) =>
      observations (db_tables (committed s)) <> [] /\ obsdata (db_tables (committed s)) = [] /\
      fst (findAllMissing (sample_manager 1) all_served at_eight (at_hour 6 30) s) = inl []
  | _ => False
  end.
Proof. vm_compute. by repeat split. Qed.
