(* ===== verification/ConfTree.v ===== *)
(** * Configuration trees with their marks, and writing them
    (src/src/lib/miconfparser/confsection.cc, valelement.cc, valelement.h)

    The sections and lists of values with what Conf.v leaves out: whether a list was
    written as one, and whether a section is to be ignored. [forget] is the tree
    that Conf.v reads. Here are the functions that build, change and write a
    tree, and the searches through several sections. The name of the file and the
    line of a section, which only messages show, are left out. *)

From stdpp Require Import pretty.
From S2P Require Import Prelude Orders OrderedSet Scanning SortedData Signature TimeText Rows Conf Text.

#[local] Open Scope Z_scope.

(** ** [ValElement] *)

(** [compress]: white space inside becomes blanks, and several blanks one. *)
Definition blank_of (c : ascii) : ascii :=
  if bool_decide (c ∈ [char_of 10; char_of 9; char_of 13]) then " "%char else c.
Fixpoint squeeze (s : bytes) : bytes :=
  match s with
  | c :: r =>
      match r with
      | d :: _ => if bool_decide (c = " "%char) && bool_decide (d = " "%char) then squeeze r else c :: squeeze r
      | [] => [c]
      end
  | [] => []
  end.
Definition compress (s : bytes) : bytes := squeeze (blank_of <$> trimstr s).

Definition ValElement_of (val : bytes) (type : ValType) : ValElement :=
  {| valType_ := type; val_ := compress (trimstr val) |}.
(** [setAsNil] *)
Definition nil_element : ValElement := {| valType_ := NIL; val_ := [] |}.

(** [toString], [None] when it throws. *)
Definition quote : ascii := char_of 34.
Definition backslash_ : ascii := char_of 92.
Definition escape_quotes (s : bytes) : bytes :=
  s ≫= fun c => if bool_decide (c = quote) then [backslash_; quote] else [c].
Definition toString (quoted : bool) (e : ValElement) : option bytes :=
  match valType_ e with
  | UNDEF => None
  | NIL => Some (to_bytes "nil")
  | STRING => Some ([quote] ++ escape_quotes (val_ e) ++ [quote])
  | _ => Some (if quoted then [quote] ++ val_ e ++ [quote] else val_ e)
  end.

(** ** [ValElementList] *)

Record VList := { isList_ : bool; isNil_ : bool; elems : list ValElement }.

Definition VList_new : VList := {| isList_ := false; isNil_ := true; elems := [] |}.
Definition vl_push_back (v : ValElement) (l : VList) : VList :=
  {| isList_ := isList_ l; isNil_ := false;
     elems := match elems l with
              | [] => [v]
              | _ :: r => if isList_ l then elems l ++ [v] else v :: r
              end |}.
Definition vl_push_front (v : ValElement) (l : VList) : VList :=
  {| isList_ := isList_ l; isNil_ := false;
     elems := match elems l with
              | [] => [v]
              | _ :: r => if isList_ l then v :: elems l else v :: r
              end |}.
Definition vl_set_isList (b : bool) (l : VList) : VList :=
  {| isList_ := (1 <? length (elems l))%nat || b; isNil_ := isNil_ l; elems := elems l |}.
Definition vl_isList (l : VList) : bool := (1 <? length (elems l))%nat || isList_ l.

(** ** [ConfSection] *)

Inductive Sect :=
  Sect_ (allowMultipleSections ignore : bool) (sections : list (bytes * list Sect)) (values : list (bytes * VList)).

Definition allowMultipleSections (c : Sect) := match c with Sect_ a _ _ _ => a end.
Definition ignoreThisSection (c : Sect) := match c with Sect_ _ i _ _ => i end.
Definition sections (c : Sect) := match c with Sect_ _ _ s _ => s end.
Definition values (c : Sect) := match c with Sect_ _ _ _ v => v end.

Definition Sect_new (allowMultipleSections_ : bool) : Sect := Sect_ allowMultipleSections_ false [] [].
Definition set_ignore (f : bool) (c : Sect) : Sect := Sect_ (allowMultipleSections c) f (sections c) (values c).

(** The order of the keys of a map. *)
Definition key_lt (a b : bytes) : bool := string_lt (of_bytes a) (of_bytes b).
Definition key_set {A} (k : bytes) (v : A) (m : list (bytes * A)) : list (bytes * A) := c_update key_lt k v (fun _ => v) m.
Definition has_key {A} (k : bytes) (m : list (bytes * A)) : bool := bool_decide (is_Some (map_find k m)).

(** The answers of the functions and the section they leave. *)
Definition addSection (name : bytes) (cs : Sect) (replaceIfExist : bool) (c : Sect) : bool * Sect :=
  let with_list l := Sect_ (allowMultipleSections c) (ignoreThisSection c) (key_set name l (sections c)) (values c) in
  match map_find name (sections c) with
  | Some l =>
      if replaceIfExist then (true, with_list [cs])
      else if allowMultipleSections c then (true, with_list (l ++ [cs]))
      else (false, c)
  | None => (true, with_list [cs])
  end.

Definition with_value (key : bytes) (value : VList) (c : Sect) : Sect :=
  Sect_ (allowMultipleSections c) (ignoreThisSection c) (sections c) (key_set key value (values c)).

Definition addValue (key : bytes) (value : VList) (replaceIfExist : bool) (c : Sect) : bool * Sect :=
  if has_key key (values c) && negb replaceIfExist then (false, c) else (true, with_value key value c).

Definition addValue_one (key : bytes) (value : ValElement) (replaceIfExist : bool) (c : Sect) : bool * Sect :=
  addValue key (vl_push_back value VList_new) replaceIfExist c.

Definition appendValue (key : bytes) (value : ValElement) (c : Sect) : Sect :=
  match map_find key (values c) with
  | Some l => with_value key (vl_push_back value (vl_set_isList true l)) c
  | None => with_value key (vl_push_back value VList_new) c
  end.

(** What Conf.v reads. *)
Fixpoint forget (c : Sect) : ConfSection :=
  match c with
  | Sect_ _ _ s v =>
      Section_ (List.map (fun kl => (kl.1, List.map forget kl.2)) s) (List.map (fun kv => (kv.1, elems kv.2)) v)
  end.

(** The loop of [getAllSection]: [found] are the sections of the last name. *)
Fixpoint walk_all (at_top : bool) (section : Sect) (found : list Sect) (names : list bytes) : list Sect :=
  match names with
  | [] => found
  | name :: rest =>
      if bool_decide (name = []) then (if at_top then [] else found)
      else match map_find name (sections section) with
           | None => []
           | Some [] => walk_all at_top section found rest
           | Some (s :: l) => walk_all false s (s :: l) rest
           end
  end.

Definition getAllSection (c : Sect) (cf_ : bytes) : list Sect :=
  let cs := conf_trimstr cf_ key_trimset in
  if bool_decide (cs = []) then [] else walk_all true c [] (split_dots cs).

(** The loop of [getValueRecursivt], [i] rounds and one: the value and the section
    where it was found, which is outwards from [section]. *)
Fixpoint value_outwards (i : nat) (section key : bytes) (c : ConfSection) : option (ValElementList * bytes) :=
  let myKey := match section with [] => key | _ => section ++ ["."%char] ++ key end in
  match getValue c myKey with
  | v :: l => Some (v :: l, section)
  | [] =>
      match i with
      | O => None
      | S i => value_outwards i (match find_last_of ["."%char] section with Some p => take p section | None => [] end) key c
      end
  end.

Definition count_char (c : ascii) (s : bytes) : nat := length (List.filter (fun d => bool_decide (d = c)) s).

Definition getValueRecursivt (startInSection key : bytes) (defValue : ValElementList) (c : ConfSection)
    : ValElementList * option bytes :=
  let n := count_char "."%char startInSection in
  let n := if negb (n =? 0)%nat || bool_decide (startInSection <> []) then S n else n in
  match value_outwards n startInSection key c with
  | Some (v, section) => (v, Some section)
  | None => (defValue, None)
  end.

(** [deleteAllIgnoredSections]. *)
Fixpoint deleteAllIgnoredSections (c : Sect) : Sect :=
  match c with
  | Sect_ a i s v =>
      Sect_ a i
        (List.filter (fun kl => bool_decide (kl.2 <> []))
           (List.map (fun kl => (kl.1, (fix each (l : list Sect) : list Sect :=
                               match l with
                               | [] => []
                               | c :: l => if ignoreThisSection c then each l else deleteAllIgnoredSections c :: each l
                               end) kl.2)) s)) v
  end.

(** ** Writing *)

Definition newline : bytes := [char_of 10].

Section print.
  (** [listCharLeft] and [listCharRight], which [setListChars] sets. *)
  Context (listCharLeft listCharRight : ascii).

Definition element_text (e : ValElement) : bytes := default [] (toString false e).

Definition list_text (l : VList) : bytes :=
  match elems l with
  | [] => if vl_isList l then [listCharLeft; listCharRight] else if isNil_ l then to_bytes "nil" else []
  | e :: r =>
      match r with
      | _ :: _ => [listCharLeft] ++ join [","%char] (element_text <$> e :: r) ++ [listCharRight]
      | [] => if vl_isList l then [listCharLeft] ++ element_text e ++ [listCharRight] else element_text e
      end
  end.

(** [sectionCount] *)
Definition sectionCount (defined : list (bytes * Z)) (name : bytes) : Z * list (bytes * Z) :=
  match map_find name defined with
  | None => (0, key_set name 0 defined)
  | Some n => (n + 1, key_set name (n + 1) defined)
  end.

Definition hocon : bool := bool_decide ([listCharLeft; listCharRight] = ["["%char; "]"%char]).

Definition rename (allow : bool) (name : bytes) (defined : list (bytes * Z)) : bytes * list (bytes * Z) :=
  if allow && hocon then
    let '(n, defined) := sectionCount defined name in
    (if 0 <? n then name ++ ["_"%char] ++ to_bytes (pretty n) else name, defined)
  else (name, defined).

Definition value_line (space : bytes) (kv : bytes * VList) : bytes := space ++ kv.1 ++ ["="%char] ++ list_text kv.2 ++ newline.

Definition section_text (space name body : bytes) : bytes :=
  space ++ name ++ to_bytes " {" ++ newline ++ body ++ space ++ to_bytes "}" ++ newline.

Fixpoint printImple (nSpace : nat) (pritty : bool) (c : Sect) : bytes :=
  match c with
  | Sect_ allow _ secs vals =>
      let space := replicate (if pritty then nSpace else O) " "%char in
      (vals ≫= value_line space) ++
      (if pritty && bool_decide (secs <> []) then newline else []) ++
      (fix all (secs : list (bytes * list Sect)) (defined : list (bytes * Z)) : bytes :=
         match secs with
         | [] => []
         | (name, l) :: rest =>
             let '(text, defined) :=
               (fix each (l : list Sect) (name : bytes) (defined : list (bytes * Z)) : bytes * list (bytes * Z) :=
                  match l with
                  | [] => ([], defined)
                  | s :: l =>
                      let '(name, defined) := rename allow name defined in
                      let '(text, defined) := each l name defined in
                      (section_text space name (printImple (nSpace + 3) true s) ++ text, defined)
                  end) l name defined in
             text ++ (if pritty && bool_decide (rest <> []) then newline else []) ++ all rest defined
         end) secs []
  end.

Definition print (pritty : bool) (c : Sect) : bytes := printImple 0 pritty c.

End print.

(** ** Lemmas *)

Section induction.
  Context (P : Sect -> Prop).
  Context (H : forall a i s v, Forall (fun kl => Forall P kl.2) s -> P (Sect_ a i s v)).

Fixpoint Sect_induction (c : Sect) : P c :=
  match c with
  | Sect_ a i s v =>
      H a i s v ((fix all (s : list (bytes * list Sect)) : Forall (fun kl => Forall P kl.2) s :=
                    match s with
                    | [] => Forall_nil_2 _
                    | kl :: s =>
                        Forall_cons_2 _ _ _
                          ((fix each (l : list Sect) : Forall P l :=
                              match l with [] => Forall_nil_2 _ | c :: l => Forall_cons_2 _ _ _ (Sect_induction c) (each l) end) kl.2)
                          (all s)
                    end) s)
  end.

End induction.

Lemma map_find_cons {A} k (e : bytes * A) m : map_find k (e :: m) = if bool_decide (e.1 = k) then Some e.2 else map_find k m.
Proof.
  unfold map_find. simpl. destruct (decide (e.1 = k)) as [He|He].
  - rewrite bool_decide_true by done. done.
  - rewrite bool_decide_false by done. by destruct (list_find _ m) as [[i x]|].
Qed.

Lemma map_find_map {A B} (f : A -> B) k m :
  map_find k (List.map (fun kv : bytes * A => (kv.1, f kv.2)) m) = f <$> map_find k m.
Proof.
  induction m as [|[k' v] m IH]; [done|]. cbn [List.map]. rewrite !map_find_cons. cbn [fst snd].
  by case_bool_decide.
Qed.

Lemma sectionList_forget c : sectionList (forget c) = List.map (fun kl => (kl.1, List.map forget kl.2)) (sections c).
Proof. by destruct c. Qed.

(** Both searches through the sections take the same way. *)
Lemma walk_all_walk names : forall (at_top : bool) section found s l,
  (if at_top then found = [] else exists t, found = section :: t) ->
  walk_all at_top section found names = s :: l -> walk at_top (forget section) names = Some (forget s).
Proof.
  induction names as [|name names IH]; intros at_top section found s l Hf H; cbn [walk_all walk] in *.
  - destruct at_top; [by subst|]. destruct Hf as [t ->]. by injection H as <- _.
  - case_bool_decide.
    + destruct at_top; [done|]. destruct Hf as [t ->]. by injection H as <- _.
    + rewrite sectionList_forget, map_find_map. destruct (map_find name (sections section)) as [[|s' l']|]; simpl; [| |done].
      * eapply (IH at_top); [exact Hf|exact H].
      * eapply (IH false); [|exact H]. by exists l'.
Qed.

(** [getSection] finds the first of the sections that [getAllSection] finds. *)
Lemma getAllSection_first c cf s l : getAllSection c cf = s :: l -> getSection (forget c) cf = Some (forget s).
Proof. unfold getAllSection, getSection. case_bool_decide; [done|]. by apply (walk_all_walk _ true). Qed.

(** Sections that are to be ignored, at any depth. *)
Fixpoint ignores (c : Sect) : bool :=
  match c with Sect_ _ _ s _ => existsb (fun kl => existsb (fun s => ignoreThisSection s || ignores s) kl.2) s end.

(** [deleteAllIgnoredSections] leaves none of them, and no name without a section. *)
Lemma deleteAllIgnoredSections_none c :
  ignores (deleteAllIgnoredSections c) = false /\ Forall (fun kl => kl.2 <> []) (sections (deleteAllIgnoredSections c)).
Proof.
  induction c as [a i secs vals IH] using Sect_induction. cbn [deleteAllIgnoredSections ignores sections]. split.
  - apply not_true_is_false. intros (kl & Hin & Hkl)%existsb_exists. apply filter_In in Hin as [Hin _].
    apply in_map_iff in Hin as (kl0 & <- & Hin). apply list_elem_of_In in Hin. rewrite Forall_forall in IH. specialize (IH _ Hin).
    destruct kl0 as [k l]. simpl in *. clear Hin. revert Hkl. induction IH as [|s l Hs _ IHl]; [done|].
    destruct (ignoreThisSection s) eqn:Es; [exact IHl|]. cbn [existsb]. intros [[Hi|Hi]%orb_prop|H]%orb_prop; [| |by apply IHl].
    + destruct s; simpl in *; congruence.
    + destruct Hs. congruence.
  - apply Forall_forall. intros kl Hin%list_elem_of_In%filter_In. destruct Hin as [_ Hd]. by apply bool_decide_eq_true in Hd.
Qed.

(** With the list characters of HOCON the third section of a name gets the name of the
    second. *)
Example third_section :
  let c := Sect_ true false [(to_bytes "a", [Sect_new true; Sect_new true; Sect_new true])] [] in
  print "["%char "]"%char false c
  = to_bytes "a {" ++ newline ++ to_bytes "}" ++ newline ++ to_bytes "a_1 {" ++ newline ++ to_bytes "}" ++ newline ++
    to_bytes "a_1 {" ++ newline ++ to_bytes "}" ++ newline.
Proof. vm_compute. reflexivity. Qed.
