(* ===== verification/ConfParser.v ===== *)
(** * The configuration parser
    (src/src/lib/miconfparser/confparser.cc, confparser.h, ConfParserLexer.ll)

    The parser works on a stack of tokens and a stack of sections, token by token,
    as the scanner gives them. [None] is a step without a defined meaning. The texts
    of errors are left out: a flag says that there was one. The file system and the
    environment are parameters. *)

From S2P Require Import Prelude Orders Scanning SortedData TimeText Rows Conf Text Lexer ConfTree.

#[local] Open Scope Z_scope.

(** ** Tokens *)

Inductive TokenType :=
  | MiTT_ID | MiTT_IGNORE_ID | MiTT_STRING | MiTT_INT | MiTT_FLOAT | MiTT_ALIAS | MiTT_EQUAL | MiTT_OB | MiTT_CB | MiTT_OP | MiTT_CP
  | MiTT_NL | MiTT_COMMA.

#[export] Instance TokenType_eq_dec : EqDecision TokenType.
Proof. solve_decision. Defined.

Record Token := { tt_ : TokenType; tval : bytes }.

Record ConfParser := {
  error_ : bool;
  listContext_ : bool;
  tokenStack_ : list Token;
  stack_ : list Sect;
  p_multiple : bool;
  deleteIgnoredSections : bool
}.

Definition set_error (p : ConfParser) : ConfParser :=
  {| error_ := true; listContext_ := listContext_ p; tokenStack_ := tokenStack_ p; stack_ := stack_ p;
     p_multiple := p_multiple p; deleteIgnoredSections := deleteIgnoredSections p |}.
Definition set_tokens (l : bool) (ts : list Token) (p : ConfParser) : ConfParser :=
  {| error_ := error_ p; listContext_ := l; tokenStack_ := ts; stack_ := stack_ p;
     p_multiple := p_multiple p; deleteIgnoredSections := deleteIgnoredSections p |}.
Definition push_token (t : Token) (p : ConfParser) : ConfParser := set_tokens (listContext_ p) (t :: tokenStack_ p) p.
Definition set_stack (s : list Sect) (p : ConfParser) : ConfParser :=
  {| error_ := error_ p; listContext_ := listContext_ p; tokenStack_ := tokenStack_ p; stack_ := s;
     p_multiple := p_multiple p; deleteIgnoredSections := deleteIgnoredSections p |}.

(** ** The steps *)

(** After a value or a section the stack of tokens is empty or begins with "{". *)
Definition ends_well (ts : list Token) : bool :=
  match ts with [] => true | t :: _ => bool_decide (tt_ t = MiTT_OB) end.

(** Adding a value to the section that is being read. *)
Definition add_to_top (key : bytes) (v : VList) (p : ConfParser) : option ConfParser :=
  match stack_ p with
  | [] => None
  | c :: rest => let '(ok, c) := addValue key v false c in if ok then Some (set_stack (c :: rest) p) else None
  end.

(** The loop of [colapseList]: the name and the list, with the tokens below them;
    [None] is an error. *)
Fixpoint list_loop (ts : list Token) (prevToken : TokenType) (vl : VList) : option (bytes * VList * list Token) :=
  match ts with
  | [] => None
  | t :: ts =>
      let next vl := list_loop ts (tt_ t) vl in
      let empty_string := ValElement_of [] STRING in
      match tt_ t with
      | MiTT_STRING => next (vl_push_front (ValElement_of (tval t) STRING) vl)
      | MiTT_ID =>
          if bool_decide (prevToken = MiTT_EQUAL) then Some (tval t, vl, ts)
          else if bool_decide (tval t = to_bytes "nil") then next (vl_push_front nil_element vl)
          else next (vl_push_front (ValElement_of (tval t) ID) vl)
      | MiTT_INT => next (vl_push_front (ValElement_of (tval t) INT) vl)
      | MiTT_FLOAT => next (vl_push_front (ValElement_of (tval t) FLOAT) vl)
      | MiTT_EQUAL => if bool_decide (prevToken = MiTT_OP) then next vl else None
      | MiTT_COMMA =>
          if bool_decide (prevToken = MiTT_COMMA) || bool_decide (prevToken = MiTT_CP) then next (vl_push_front empty_string vl)
          else next vl
      | MiTT_OP => if bool_decide (prevToken = MiTT_COMMA) then next (vl_push_front empty_string vl) else next vl
      | _ => next vl
      end
  end.

Definition colapseList (p : ConfParser) : ConfParser :=
  match stack_ p with
  | [] => set_error p
  | _ =>
      match list_loop (tokenStack_ p) MiTT_CP (vl_set_isList true VList_new) with
      | None => set_error p
      | Some (name, vl, ts) =>
          match add_to_top name vl p with
          | None => set_error p
          | Some p => let p := set_tokens (listContext_ p) ts p in if ends_well ts then p else set_error p
          end
      end
  end.

(** The value of a token in [colapseKeyVal]. *)
Definition token_value (t : Token) : ValElement :=
  match tt_ t with
  | MiTT_STRING => ValElement_of (tval t) STRING
  | MiTT_ID => if bool_decide (tval t = to_bytes "nil") then nil_element else ValElement_of (tval t) ID
  | MiTT_FLOAT => ValElement_of (tval t) FLOAT
  | _ => ValElement_of (tval t) INT
  end.

Definition colapseKeyVal (t : Token) (p : ConfParser) : ConfParser :=
  match tokenStack_ p with
  | [] => set_error p
  | name :: ts =>
      if bool_decide (tt_ name <> MiTT_ID) then p (* the code clears error_ here *)
      else
        match (if bool_decide (tt_ t = MiTT_NL) then Some p
               else add_to_top (tval name) (vl_push_back (token_value t) VList_new) p) with
        | None => set_error p
        | Some p => let p := set_tokens (listContext_ p) ts p in if ends_well ts then p else set_error p
        end
  end.

Definition colapseSection (p : ConfParser) : option ConfParser :=
  match tokenStack_ p with
  | [] => Some (set_error p)
  | ob :: ts =>
      if bool_decide (tt_ ob <> MiTT_OB) then Some (set_error p)
      else
        match ts with
        | [] => None (* the front of an empty list *)
        | id :: ts =>
            if bool_decide (tt_ id <> MiTT_ID) && bool_decide (tt_ id <> MiTT_IGNORE_ID) then Some (set_error p)
            else
              match stack_ p with
              | sect :: parent :: rest =>
                  let '(ok, parent) := if bool_decide (tt_ id = MiTT_IGNORE_ID) && deleteIgnoredSections p then (true, parent)
                                       else addSection (tval id) sect false parent in
                  if negb ok then Some (set_error p)
                  else
                    let p := set_tokens (listContext_ p) ts (set_stack (parent :: rest) p) in
                    Some (if ends_well ts then p else set_error p)
              | _ => Some (set_error p)
              end
        end
  end.

Definition checkToken (t : Token) (p : ConfParser) : option ConfParser :=
  if error_ p then Some p
  else
    match tokenStack_ p with
    | [] => Some (if bool_decide (tt_ t = MiTT_NL) then p else push_token t p)
    | prevToken :: below =>
        if listContext_ p then
          match tt_ t with
          | MiTT_NL => Some p
          | MiTT_STRING | MiTT_ID | MiTT_INT | MiTT_FLOAT | MiTT_COMMA => Some (push_token t p)
          | MiTT_CP => Some (colapseList (set_tokens false (tokenStack_ p) p))
          | _ => Some (set_error p)
          end
        else if bool_decide (tt_ t = MiTT_OP) then
          if bool_decide (tt_ prevToken = MiTT_EQUAL)
          then Some (set_tokens true ({| tt_ := MiTT_OP; tval := [] |} :: tokenStack_ p) p)
          else Some (set_error p)
        else if bool_decide (tt_ prevToken = MiTT_EQUAL) then
          match tt_ t with
          | MiTT_ID | MiTT_STRING | MiTT_INT | MiTT_FLOAT | MiTT_NL => Some (colapseKeyVal t (set_tokens false below p))
          | _ => Some (set_error p)
          end
        else
          match tt_ t with
          | MiTT_NL => Some p
          | MiTT_EQUAL => Some (push_token {| tt_ := MiTT_EQUAL; tval := [] |} p)
          | MiTT_OB =>
              if bool_decide (tt_ prevToken <> MiTT_ID) && bool_decide (tt_ prevToken <> MiTT_IGNORE_ID) then Some (set_error p)
              else
                let c := set_ignore (bool_decide (tt_ prevToken = MiTT_IGNORE_ID)) (Sect_new (p_multiple p)) in
                Some (push_token t (set_stack (c :: stack_ p) p))
          | MiTT_CB => colapseSection p
          | _ => Some (push_token t p)
          end
    end.

(** ** The scanner *)

Inductive cond := INITIAL | START_STRING | START_COMMENT | START_INCLUDE.

Inductive action :=
  | Eat | Newline | Include | IncludeFile | Comment | CommentEnd | Int | Float | Id | IgnoreId | Alias | StringBegin | String_
  | StringEnd | Char.

#[export] Instance action_eq_dec : EqDecision action.
Proof. solve_decision. Defined.

Definition digit_class : class := OneOf (to_bytes "0123456789").
Definition letters : bytes := to_bytes "_abcdefghijklmnopqrstuvwxyzABCDEFGHIJKLMNOPQRSTUVWXYZ".
Definition id_class : class := OneOf (to_bytes "0123456789-" ++ letters).
Definition id_re : re := Cat (plus (OneOf letters)) (Star (Chr id_class)).
Definition sign_re : re := Alt (Chr (OneOf (to_bytes "-+"))) Eps.
Definition int_re : re := Cat sign_re (plus digit_class).
Definition float_re : re := Cat sign_re (Cat (plus digit_class) (Cat (Chr (OneOf ["."%char])) (Star (Chr digit_class)))).
Definition nl : ascii := char_of 10.
Definition tab : ascii := char_of 9.
Definition cr : ascii := char_of 13.

(** The rules of each start condition, in the order of the file. *)
Definition conf_rules (c : cond) : list (re * action) :=
  match c with
  | INITIAL =>
      [(plus (OneOf [" "%char; cr; tab]), Eat);
       (Chr (OneOf [nl]), Newline);
       (lit (to_bytes "@include"), Include);
       (lit (to_bytes "#"), Comment);
       (int_re, Int);
       (float_re, Float);
       (id_re, Id);
       (Cat (lit (to_bytes "!")) id_re, IgnoreId);
       (Cat (lit (to_bytes "$")) id_re, Alias);
       (Chr (OneOf [quote]), StringBegin);
       (Chr (NoneOf [nl]), Char)]
  | START_INCLUDE => [(plus (OneOf [" "%char; tab]), Eat); (plus (NoneOf [" "%char; cr; tab; nl]), IncludeFile)]
  | START_COMMENT => [(Star (Chr (NoneOf [nl])), Eat); (Chr (OneOf [nl]), CommentEnd)]
  | START_STRING => [(Star (Chr (NoneOf [quote])), String_); (Chr (OneOf [quote]), StringEnd)]
  end.

Section scanner.
  (** [getenv], and the content of the files that can be opened. *)
  Context (getenv : bytes -> option bytes) (open_file : bytes -> option bytes).
  (** The list characters when the parser was made. *)
  Context (sOP sCP : ascii).

Definition charToken (ch : ascii) (p : ConfParser) : option ConfParser :=
  let token ty v := checkToken {| tt_ := ty; tval := v |} p in
  if bool_decide (ch = "="%char) then token MiTT_EQUAL ["="%char]
  else if bool_decide (ch = "}"%char) then token MiTT_CB ["}"%char]
  else if bool_decide (ch = "{"%char) then token MiTT_OB ["{"%char]
  else if bool_decide (ch = ","%char) then token MiTT_COMMA [","%char]
  else if bool_decide (ch = nl) then token MiTT_NL (to_bytes "\n")
  else if bool_decide (ch = sOP) then token MiTT_OP [sOP]
  else if bool_decide (ch = sCP) then token MiTT_CP [sCP]
  else Some (set_error p).

(** The loop of [newStream] that replaces names of the environment. *)
Fixpoint expand (fuel : nat) (file : bytes) : option bytes :=
  match fuel with
  | O => None
  | S fuel =>
      match find_text (to_bytes "${") file with
      | None => Some file
      | Some (before, found) =>
          let after := drop 2 found in
          match find_text (to_bytes "}") after with
          | None => expand fuel (before ++ after)
          | Some (var, rest) =>
              let rest := drop 1 rest in
              let val := if bool_decide (var = []) then [] else default [] (getenv var) in
              expand fuel (before ++ (if bool_decide (val = []) then var else val) ++ rest)
          end
      end
  end.

(** The state of the scanner: the rest of the text, and below it the rests of the
    files that include it. *)
Record Scanner := {
  sc_cond : cond;
  stringContinue : bool;
  sc_text : bytes;
  istStack : list bytes;
  sc_parser : ConfParser
}.

(** The outcome of a step: the scanner, a step without meaning, or the end of the
    fuel of [expand]. *)
Inductive outcome (A : Type) := Done (a : A) | Undefined_ | OutOfFuel.
Arguments Done {A}. Arguments Undefined_ {A}. Arguments OutOfFuel {A}.

Definition with_parser (s : Scanner) (c : cond) (r : option ConfParser) : outcome Scanner :=
  match r with
  | Some p => Done {| sc_cond := c; stringContinue := stringContinue s; sc_text := sc_text s; istStack := istStack s; sc_parser := p |}
  | None => Undefined_
  end.

(** The action of a rule on its text; [sc_text] is what comes behind it. *)
Definition act (fuel : nat) (a : action) (text : bytes) (s : Scanner) : outcome Scanner :=
  let p := sc_parser s in
  let token ty v := with_parser s INITIAL (checkToken {| tt_ := ty; tval := v |} p) in
  let goto c := with_parser s c (Some p) in
  match a with
  | Eat => goto (sc_cond s)
  | Newline => with_parser s INITIAL (charToken nl p)
  | Include => goto START_INCLUDE
  | IncludeFile =>
      match expand fuel text with
      | None => OutOfFuel
      | Some [] => goto INITIAL
      | Some name =>
          match open_file name with
          | None => goto INITIAL
          | Some content =>
              Done {| sc_cond := INITIAL; stringContinue := stringContinue s; sc_text := content;
                      istStack := sc_text s :: istStack s; sc_parser := p |}
          end
      end
  | Comment => goto START_COMMENT
  | CommentEnd => goto INITIAL
  | Int => token MiTT_INT text
  | Float => token MiTT_FLOAT text
  | Id => token MiTT_ID text
  | IgnoreId => token MiTT_IGNORE_ID text
  | Alias => goto INITIAL
  | StringBegin => goto START_STRING
  | String_ =>
      match checkToken {| tt_ := MiTT_STRING; tval := text |} p with
      | Some p => Done {| sc_cond := START_STRING; stringContinue := bool_decide (last text = Some backslash_);
                          sc_text := sc_text s; istStack := istStack s; sc_parser := p |}
      | None => Undefined_
      end
  | StringEnd => goto (if stringContinue s then START_STRING else INITIAL)
  | Char => match text with c :: _ => with_parser s INITIAL (charToken c p) | [] => goto INITIAL end
  end.

Definition with_text (t : bytes) (s : Scanner) : Scanner :=
  {| sc_cond := sc_cond s; stringContinue := stringContinue s; sc_text := t; istStack := istStack s; sc_parser := sc_parser s |}.

(** [ConfParserLexer]: until the end of all files. What no rule matches is passed
    over. *)
Fixpoint scan_conf (fuel : nat) (s : Scanner) : outcome Scanner :=
  match fuel with
  | O => OutOfFuel
  | S fuel' =>
      match sc_text s with
      | [] =>
          match istStack s with
          | [] => Done s
          | t :: rest =>
              scan_conf fuel' {| sc_cond := sc_cond s; stringContinue := stringContinue s; sc_text := t; istStack := rest;
                                 sc_parser := sc_parser s |}
          end
      | c :: rest =>
          match select (conf_rules (sc_cond s)) (sc_text s) with
          | Some (a, S n) =>
              match act fuel' a (take (S n) (sc_text s)) (with_text (drop (S n) (sc_text s)) s) with
              | Done s => scan_conf fuel' s
              | Undefined_ => Undefined_
              | OutOfFuel => OutOfFuel
              end
          | _ => scan_conf fuel' (with_text rest s)
          end
      end
  end.

Definition ConfParser_start (allowMultipleSections_ deleteIgnored : bool) : ConfParser :=
  {| error_ := false; listContext_ := false; tokenStack_ := []; stack_ := [Sect_new allowMultipleSections_];
     p_multiple := allowMultipleSections_; deleteIgnoredSections := deleteIgnored |}.

(** The end of [parse]: the tree, or none after an error. *)
Definition result_of (p : ConfParser) : option Sect :=
  if error_ p then None
  else match tokenStack_ p, stack_ p with [], [c] => Some c | _, _ => None end.

(** [parse(ist)], with the tree and what it leaves to the next call: neither the
    start condition of the scanner nor [stringContinue] is reset. *)
Definition parse (fuel : nat) (allowMultipleSections_ deleteIgnored : bool) (left : cond * bool) (text : bytes)
    : outcome (option Sect * (cond * bool)) :=
  match scan_conf fuel {| sc_cond := left.1; stringContinue := left.2; sc_text := text; istStack := [];
                          sc_parser := ConfParser_start allowMultipleSections_ deleteIgnored |} with
  | Done s => Done (result_of (sc_parser s), (sc_cond s, stringContinue s))
  | Undefined_ => Undefined_
  | OutOfFuel => OutOfFuel
  end.

(** [parse(filename, allowMultipleSections)]: no tree stands for the exception, for a
    file that cannot be opened and for one with an error. *)
Definition parse_file (fuel : nat) (allowMultipleSections_ : bool) (left : cond * bool) (filename : bytes)
    : outcome (option Sect * (cond * bool)) :=
  match open_file filename with
  | None => Done (None, left)
  | Some text => parse fuel allowMultipleSections_ true left text
  end.

End scanner.

Arguments Done {A}. Arguments Undefined_ {A}. Arguments OutOfFuel {A}.

(** ** Examples *)

Definition no_env : bytes -> option bytes := fun _ => None.
Definition parse_after (left : cond * bool) (s : bytes) : outcome (option Sect * (cond * bool)) :=
  parse no_env no_env "("%char ")"%char 1000 false true left s.
Definition parse_bytes (s : bytes) : outcome (option Sect) :=
  match parse_after (INITIAL, false) s with
  | Done (r, _) => Done r
  | Undefined_ => Undefined_
  | OutOfFuel => OutOfFuel
  end.
Definition parse_text (s : string) : outcome (option Sect) := parse_bytes (to_bytes s).

Definition quoted (s : string) : bytes := [quote] ++ to_bytes s ++ [quote].

Definition one (t : ValType) (v : string) : VList :=
  {| isList_ := false; isNil_ := false; elems := [{| valType_ := t; val_ := to_bytes v |}] |}.
Definition tree (values : list (string * VList)) (sections : list (string * list Sect)) : Sect :=
  Sect_ false false ((fun kl => (to_bytes kl.1, kl.2)) <$> sections) ((fun kv => (to_bytes kv.1, kv.2)) <$> values).

Example parse_sample : parse_bytes (to_bytes "b = 12 # a number
a = (x,, 2.5)
s {
  t = " ++ quoted "some  text" ++ to_bytes "
} !u { v = 1 }
")
  = Done (Some (tree [("a", {| isList_ := true; isNil_ := false;
                               elems := [{| valType_ := ID; val_ := to_bytes "x" |}; {| valType_ := STRING; val_ := [] |};
                                         {| valType_ := FLOAT; val_ := to_bytes "2.5" |}] |});
                       ("b", one INT "12")]%string
                     [("s", [tree [("t"%string, one STRING "some text")] []])]%string)).
Proof. vm_compute. reflexivity. Qed.

(** A text that begins with a pair of braces, as JSON does, reads the front of an empty
    list. *)
Example braces_only : parse_text "{}" = Undefined_.
Proof. vm_compute. reflexivity. Qed.

(** A value without a name inside a section is not an error. *)
Example value_without_name : parse_text "a { = 3
}" = Done (Some (tree [] [("a", [tree [] []])]%string)).
Proof. vm_compute. reflexivity. Qed.

(** The end of a comment is not the end of a line: a name with a comment but without a
    value takes the next name as its value. *)
Example comment_after_equal :
  parse_text "a =
c
 {
}" = Done (Some (tree [] [("c", [tree [] []])]%string)) /\
  parse_text "a = # comment
c" = Done (Some (tree [("a"%string, one ID "c")] [])).
Proof. vm_compute. by split. Qed.

(** A text with a quotation mark, as [toString] writes it, is not read back. *)
Example escaped_quote :
  element_text {| valType_ := STRING; val_ := to_bytes "x" ++ [quote] ++ to_bytes "y" |} =
    [quote] ++ to_bytes "x" ++ [backslash_; quote] ++ to_bytes "y" ++ [quote] /\
  parse_bytes (to_bytes "a=" ++ [quote] ++ to_bytes "x" ++ [backslash_; quote] ++ to_bytes "y" ++ [quote] ++ newline) = Done None.
Proof. vm_compute. by split. Qed.

(** An empty text gives no token: its name is passed over, also when the value stands
    on the next line. *)
Example empty_text : parse_bytes (to_bytes "a=" ++ quoted "" ++ newline) = Done (Some (tree [] [])).
Proof. vm_compute. reflexivity. Qed.

(** A text that ends with a comment and without a new line leaves the scanner in the
    comment: the next text that is parsed loses its first line. *)
Example unfinished_comment :
  parse_after (INITIAL, false) (to_bytes "a = 1 # end")
    = Done (Some (tree [("a"%string, one INT "1")] []), (START_COMMENT, false)) /\
  parse_after (START_COMMENT, false) (to_bytes "b = 1" ++ newline ++ to_bytes "c = 2" ++ newline)
    = Done (Some (tree [("c"%string, one INT "2")] []), (INITIAL, false)).
Proof. vm_compute. repeat split. Qed.

(** A name of the environment whose value names it again: the name of an included file
    is expanded for ever. *)
Lemma expand_for_ever fuel : expand (fun _ => Some (to_bytes "${X}")) fuel (to_bytes "${X}") = None.
Proof. induction fuel as [|fuel IH]; [done|]. exact IH. Qed.

(** ** Termination

    Without names of the environment and files to include there are no more rounds
    than characters. *)

Lemma find_text_app t s a b : find_text t s = Some (a, b) -> s = a ++ b /\ is_prefix_of t b = true.
Proof.
  revert a b. induction s as [|c s IH]; intros a b; cbn [find_text]; destruct (is_prefix_of t _) eqn:E; try done.
  - by intros [= <- <-].
  - by intros [= <- <-].
  - destruct (find_text t s) as [[a' b']|]; [|done]. intros [= <- <-]. by destruct (IH a' b' eq_refl) as [-> ?].
Qed.

Lemma expand_total getenv fuel file : (forall v, getenv v = None) -> (length file <= fuel)%nat -> (0 < fuel)%nat ->
  exists name, expand getenv fuel file = Some name.
Proof.
  intros He. revert file. induction fuel as [|fuel IH]; intros file Hl Hf; [lia|]. cbn [expand].
  destruct (find_text (to_bytes "${") file) as [[before found]|] eqn:E; [|by eexists].
  apply find_text_app in E as [-> Hp]. destruct found as [|c1 [|c2 after]]; [done|by apply andb_prop in Hp as [_ ?]|].
  rewrite length_app in Hl. cbn [length] in Hl. change (drop 2 (c1 :: c2 :: after)) with after.
  destruct (find_text (to_bytes "}") after) as [[var rest]|] eqn:E2.
  - apply find_text_app in E2 as [-> _]. rewrite length_app in Hl. rewrite He.
    assert (Hval : (if bool_decide (var = []) then [] else default [] (@None bytes)) = []) by (by case_bool_decide).
    rewrite Hval, bool_decide_true by done. apply IH; [|lia]. rewrite !length_app, length_drop. cbn [length]. lia.
  - apply IH; [|lia]. rewrite length_app. lia.
Qed.

Lemma act_text getenv open_file sOP sCP fuel a text s : (forall v, getenv v = None) -> (forall f, open_file f = None) ->
  (length text <= fuel)%nat -> (0 < fuel)%nat -> istStack s = [] ->
  match act getenv open_file sOP sCP fuel a text s with
  | Done s' => sc_text s' = sc_text s /\ istStack s' = []
  | Undefined_ => True
  | OutOfFuel => False
  end.
Proof.
  intros He Ho Hl Hf Hi.
  assert (Hw : forall c r, match with_parser s c r with
                           | Done s' => sc_text s' = sc_text s /\ istStack s' = []
                           | Undefined_ => True
                           | OutOfFuel => False
                           end) by (intros c [p|]; [by split|done]).
  destruct a; cbn [act]; try apply Hw.
  - destruct (expand_total getenv fuel text He Hl Hf) as [[|c name] ->]; [apply Hw|]. rewrite Ho. apply Hw.
  - destruct (checkToken _ _); [by split|done].
  - destruct text; apply Hw.
Qed.

(** The scanner comes to the end of the text. *)
Lemma scan_total getenv open_file sOP sCP fuel s : (forall v, getenv v = None) -> (forall f, open_file f = None) ->
  istStack s = [] -> (length (sc_text s) < fuel)%nat -> scan_conf getenv open_file sOP sCP fuel s <> OutOfFuel.
Proof.
  intros He Ho. revert s. induction fuel as [|fuel IH]; intros s Hi Hl; [lia|]. cbn [scan_conf].
  destruct (sc_text s) as [|c rest] eqn:E; [by rewrite Hi|]. simpl in Hl.
  assert (Hskip : scan_conf getenv open_file sOP sCP fuel (with_text rest s) <> OutOfFuel) by (apply IH; [done|simpl; lia]).
  destruct (select (conf_rules (sc_cond s)) (c :: rest)) as [[a [|n]]|] eqn:Es; [done| |done].
  assert (Ha := act_text getenv open_file sOP sCP fuel a (take (S n) (c :: rest)) (with_text (drop (S n) (c :: rest)) s) He Ho
                  ltac:(rewrite length_take; simpl; lia) ltac:(lia) Hi).
  destruct (act _ _ _ _ _ _ _ _) as [s'| |]; [|done|done]. destruct Ha as [Ht Hi']. apply IH; [done|].
  rewrite Ht. cbn [with_text sc_text]. rewrite length_drop. simpl. lia.
Qed.

(** The parser gives an answer for every text, whatever the last one has left in the
    scanner. *)
Lemma parse_total getenv open_file sOP sCP fuel allow delete left text :
  (forall v, getenv v = None) -> (forall f, open_file f = None) -> (length text < fuel)%nat ->
  parse getenv open_file sOP sCP fuel allow delete left text <> OutOfFuel.
Proof.
  intros He Ho Hl. unfold parse.
  pose proof (scan_total getenv open_file sOP sCP fuel
    {| sc_cond := left.1; stringContinue := left.2; sc_text := text; istStack := []; sc_parser := ConfParser_start allow delete |}
    He Ho eq_refl Hl) as H.
  by destruct (scan_conf _ _ _ _ _ _).
Qed.
