(* ===== verification/ConfRoundtrip.v ===== *)
(** * A configuration that is written is read back

    The scanner and the parser of ConfParser.v on the texts of [print] in
    ConfTree.v. *)

From S2P Require Import Prelude Orders OrderedSet Scanning SortedData Signature TimeText Rows Conf Text Lexer ConfTree ConfParser.

#[local] Open Scope Z_scope.

(** ** Which rule is taken *)

#[export] Instance class_eq_dec : EqDecision class.
Proof. solve_decision. Defined.
#[export] Instance re_eq_dec : EqDecision re.
Proof. solve_decision. Defined.

(** The rules that can match a text with this first character. *)
Definition live {A} (rules : list (re * A)) (c : ascii) : list (re * A) :=
  List.filter (fun ra => bool_decide (deriv c ra.1 <> Void)) rules.

Lemma longest_void s : longest Void s = None.
Proof. by destruct s. Qed.

Lemma select_live {A} (rules : list (re * A)) c s :
  Forall (fun ra => nullable ra.1 = false) rules -> select rules (c :: s) = select (live rules c) (c :: s).
Proof.
  induction 1 as [|[r a] rules Hr _ IH]; [done|]. cbn [select live List.filter fst]. rewrite IH.
  case_bool_decide as Hd.
  - cbn [select]. reflexivity.
  - simpl in Hr. by rewrite longest_eq, Hd, longest_void, Hr.
Qed.

(** Only characters of a set. *)
Fixpoint re_within (K : bytes) (r : re) : bool :=
  match r with
  | Void | Eps => true
  | Chr (OneOf cs) => bool_decide (Forall (fun c => c ∈ K) cs)
  | Chr (NoneOf _) => false
  | Cat a b | Alt a b => re_within K a && re_within K b
  | Star a => re_within K a
  end.

Lemma matches_within K r t : re_within K r = true -> matches r t -> Forall (fun c => c ∈ K) t.
Proof.
  intros Hk H. induction H as [|k c Hc|r1 r2 s1 s2 _ IH1 _ IH2|r1 r2 s _ IH|r1 r2 s _ IH|r|r s1 s2 _ IH1 _ IH2]; simpl in Hk.
  - constructor.
  - destruct k as [cs|]; [|done]. apply bool_decide_eq_true in Hk. rewrite Forall_forall in Hk.
    constructor; [|constructor]. apply Hk. by apply bool_decide_eq_true in Hc.
  - apply andb_prop in Hk as [H1 H2]. apply Forall_app. auto.
  - apply andb_prop in Hk as [H1 H2]. auto.
  - apply andb_prop in Hk as [H1 H2]. auto.
  - constructor.
  - apply Forall_app. auto.
Qed.

(** What follows does not begin with a character of the set. *)
Definition stops (K : bytes) (rest : bytes) : Prop := from_option (fun c => c ∉ K) True (head rest).

Lemma take_app_within K w rest n : stops K rest -> (n <= length (w ++ rest))%nat ->
  Forall (fun c => c ∈ K) (take n (w ++ rest)) -> (n <= length w)%nat.
Proof.
  intros Hs Hn HF. destruct (decide (n <= length w)%nat) as [|Hgt]; [done|]. exfalso.
  rewrite length_app in Hn. destruct rest as [|c rest]; [simpl in Hn; lia|]. rewrite take_app_ge in HF by lia.
  replace (n - length w)%nat with (S (n - length w - 1)) in HF by lia. simpl in HF.
  apply Forall_app in HF as [_ HF]. apply Forall_cons in HF as [HF _]. by apply Hs.
Qed.

Lemma longest_exact K r w rest : matches r w -> re_within K r = true -> stops K rest ->
  longest r (w ++ rest) = Some (length w).
Proof.
  intros Hm Hk Hs. destruct (longest_complete r (w ++ rest) (length w)) as (n & Hn & Hle).
  - rewrite length_app. lia.
  - by rewrite take_app_length.
  - rewrite Hn. f_equal. apply longest_some in Hn as (Hl & Ht & _).
    pose proof (take_app_within K w rest n Hs Hl (matches_within _ _ _ Hk Ht)). lia.
Qed.

Lemma longest_eps s : longest Eps s = Some O.
Proof. destruct s; simpl; [done|]. by rewrite longest_void. Qed.

Lemma longest_chr k c s : in_class k c = true -> longest (Chr k) (c :: s) = Some 1%nat.
Proof. intros Hc. rewrite longest_eq. simpl. by rewrite Hc, longest_eps. Qed.

(** ** The tokens *)

Definition is_id (w : bytes) : Prop := matches id_re w.
Definition is_int (w : bytes) : Prop := matches int_re w.
Definition is_float (w : bytes) : Prop := matches float_re w.

Definition int_chars : bytes := to_bytes "+-0123456789".
Definition word_chars : bytes := to_bytes "+-.0123456789" ++ letters.

Lemma initial_not_nullable : Forall (fun ra : re * action => nullable ra.1 = false) (conf_rules INITIAL).
Proof. by_decision. Qed.

Lemma live_letter c : c ∈ letters -> live (conf_rules INITIAL) c = [(id_re, Id); (Chr (NoneOf [nl]), Char)].
Proof.
  assert (Forall (fun c => live (conf_rules INITIAL) c = [(id_re, Id); (Chr (NoneOf [nl]), Char)]) letters) as H by by_decision.
  rewrite Forall_forall in H. apply H.
Qed.

Lemma live_number c : c ∈ int_chars ->
  live (conf_rules INITIAL) c = [(int_re, Int); (float_re, Float); (Chr (NoneOf [nl]), Char)].
Proof.
  assert (Forall (fun c => live (conf_rules INITIAL) c = [(int_re, Int); (float_re, Float); (Chr (NoneOf [nl]), Char)]) int_chars)
    as H by by_decision.
  rewrite Forall_forall in H. apply H.
Qed.

Lemma select_char c rest : live (conf_rules INITIAL) c = [(Chr (NoneOf [nl]), Char)] -> c <> nl ->
  select (conf_rules INITIAL) (c :: rest) = Some (Char, 1%nat).
Proof.
  intros Hl Hc. rewrite select_live, Hl by apply initial_not_nullable. cbn [select].
  rewrite longest_chr; [done|]. apply bool_decide_eq_true. by intros ->%list_elem_of_singleton.
Qed.

Lemma first_char r w : nullable r = false -> matches r w -> exists c t, w = c :: t.
Proof.
  intros Hn Hm. destruct w as [|c t]; [|by exists c, t]. apply nullable_spec in Hm. congruence.
Qed.

Lemma not_nl_class c : c <> nl -> in_class (NoneOf [nl]) c = true.
Proof. intros H. apply bool_decide_eq_true. by intros ->%list_elem_of_singleton. Qed.

Lemma stops_sub K K' rest : Forall (fun c => c ∈ K) K' -> stops K rest -> stops K' rest.
Proof. unfold stops. destruct rest as [|c rest]; simpl; [done|]. rewrite Forall_forall. intros H Hc Hk. by apply Hc, H. Qed.

Lemma select_id w rest : is_id w -> stops word_chars rest -> select (conf_rules INITIAL) (w ++ rest) = Some (Id, length w).
Proof.
  intros Hw Hs. pose proof Hw as Hm. unfold is_id, id_re in Hm. apply matches_cat in Hm as (s1 & s2 & -> & Hp & _).
  apply matches_plus in Hp as [Hne HF]. destruct s1 as [|c s1]; [done|]. apply Forall_cons in HF as [Hc _].
  apply bool_decide_eq_true in Hc. set (w := (c :: s1) ++ s2) in *.
  assert (El : longest id_re (w ++ rest) = Some (length w)) by (by apply (longest_exact word_chars); [|vm_compute|]).
  change (w ++ rest) with (c :: (s1 ++ s2) ++ rest) in *.
  rewrite select_live, live_letter by (done || apply initial_not_nullable). cbn [select]. rewrite El.
  rewrite longest_chr; [done|]. apply not_nl_class. intros ->. revert Hc. by_decision.
Qed.

Lemma number_head r w : r = int_re \/ r = float_re -> matches r w -> exists c t, w = c :: t /\ c ∈ int_chars.
Proof.
  intros Hr Hm. destruct (first_char r w) as (c & t & ->); [by destruct Hr as [-> | ->]|done|]. exists c, t. split; [done|].
  assert (matches sign_re [] \/ True) as _ by (by right).
  assert (exists s1 s2 k, c :: t = s1 ++ s2 /\ matches sign_re s1 /\ matches (Cat (plus digit_class) k) s2) as (s1 & s2 & k & E & H1 & H2).
  { destruct Hr as [-> | ->].
    - unfold int_re in Hm. apply matches_cat in Hm as (s1 & s2 & E & H1 & H2). exists s1, s2, Eps. split; [done|]. split; [done|].
      apply matches_cat. exists s2, []. split; [by rewrite app_nil_r|]. split; [done|constructor].
    - unfold float_re in Hm. apply matches_cat in Hm as (s1 & s2 & E & H1 & H2). by exists s1, s2, (Cat (Chr (OneOf ["."%char])) (Star (Chr digit_class))). }
  apply (matches_within int_chars) in H1; [|by vm_compute].
  apply matches_cat in H2 as (t1 & t2 & -> & H2 & _). apply matches_plus in H2 as [Hne H2].
  destruct s1 as [|d s1]; simpl in E.
  - destruct t1 as [|d t1]; [done|]. injection E as -> _. apply Forall_cons in H2 as [H2 _]. apply bool_decide_eq_true in H2.
    revert H2. assert (Forall (fun c => c ∈ int_chars) (to_bytes "0123456789")) as H by by_decision.
    rewrite Forall_forall in H. apply H.
  - injection E as -> _. by apply Forall_cons in H1 as [H1 _].
Qed.

Lemma float_dot t : is_float t -> "."%char ∈ t.
Proof.
  intros H. unfold is_float, float_re in H. apply matches_cat in H as (s1 & s2 & -> & _ & H).
  apply matches_cat in H as (s3 & s4 & -> & _ & H). apply matches_cat in H as (s5 & s6 & -> & H & _).
  apply matches_chr in H as (c & -> & Hc). apply bool_decide_eq_true, list_elem_of_singleton in Hc as ->. set_solver.
Qed.

Lemma int_no_dot t : Forall (fun c => c ∈ int_chars) t -> "."%char ∉ t.
Proof. rewrite Forall_forall. intros H Hd. specialize (H _ Hd). revert H. by_decision. Qed.

Lemma int_char_not_nl c : c ∈ int_chars -> c <> nl.
Proof. intros Hc ->. revert Hc. by_decision. Qed.

Lemma select_int w rest : is_int w -> stops word_chars rest -> select (conf_rules INITIAL) (w ++ rest) = Some (Int, length w).
Proof.
  intros Hw Hs. destruct (number_head int_re w) as (c & t & E & Hc); [by left|done|].
  assert (Hk : Forall (fun c => c ∈ int_chars) w) by (by apply (matches_within int_chars int_re); [vm_compute|]).
  assert (El : longest int_re (w ++ rest) = Some (length w)) by (by apply (longest_exact word_chars); [|vm_compute|]).
  assert (Ef : longest float_re (w ++ rest) = None).
  { destruct (longest float_re (w ++ rest)) as [n|] eqn:En; [|done]. exfalso. apply longest_some in En as (Hn & Hm & _).
    assert (Forall (fun c => c ∈ word_chars) (take n (w ++ rest))) as Hin by (by apply (matches_within word_chars float_re); [vm_compute|]).
    apply (take_app_within _ _ _ _ Hs Hn) in Hin. rewrite take_app_le in Hm by done.
    apply float_dot in Hm. eapply int_no_dot; [|exact Hm]. by apply Forall_take. }
  rewrite E in *. change ((c :: t) ++ rest) with (c :: t ++ rest) in *.
  rewrite select_live, live_number by (done || apply initial_not_nullable). cbn [select]. rewrite El, Ef.
  rewrite longest_chr by (by apply not_nl_class, int_char_not_nl). done.
Qed.

Lemma select_float w rest : is_float w -> stops word_chars rest -> select (conf_rules INITIAL) (w ++ rest) = Some (Float, length w).
Proof.
  intros Hw Hs. destruct (number_head float_re w) as (c & t & E & Hc); [by right|done|].
  assert (El : longest float_re (w ++ rest) = Some (length w)) by (by apply (longest_exact word_chars); [|vm_compute|]).
  assert (Ef : match longest int_re (w ++ rest) with Some n => (n < length w)%nat | None => True end).
  { destruct (longest int_re (w ++ rest)) as [n|] eqn:En; [|done]. apply longest_some in En as (Hn & Hm & _).
    destruct (decide (n < length w)%nat) as [|Hge]; [done|]. exfalso.
    apply (matches_within int_chars) in Hm; [|by vm_compute]. rewrite take_app_ge in Hm by lia.
    apply Forall_app in Hm as [Hm _]. eapply int_no_dot; [exact Hm|]. by apply float_dot. }
  rewrite E in *. change ((c :: t) ++ rest) with (c :: t ++ rest) in *.
  rewrite select_live, live_number by (done || apply initial_not_nullable). cbn [select]. rewrite El.
  rewrite longest_chr by (by apply not_nl_class, int_char_not_nl). cbn [select].
  assert (1 <= length (c :: t))%nat as Hone by (simpl; lia). rewrite (proj2 (Nat.leb_le 1 _) Hone).
  destruct (longest int_re _) as [n|]; [|done]. by rewrite (proj2 (Nat.leb_gt _ _) Ef).
Qed.

(** ** Reading a piece of a text *)

Section reading.
  Context (getenv open_file : bytes -> option bytes) (sOP sCP : ascii).

Definition scanner (c : cond) (b : bool) (text : bytes) (p : ConfParser) : Scanner :=
  {| sc_cond := c; stringContinue := b; sc_text := text; istStack := []; sc_parser := p |}.

(** [n] rounds of the scanner. *)
Inductive rounds_to : nat -> Scanner -> Scanner -> Prop :=
  | rt_refl s : rounds_to 0 s s
  | rt_step n s s1 s2 : (forall f, scan_conf getenv open_file sOP sCP (S f) s = scan_conf getenv open_file sOP sCP f s1) ->
      (length (sc_text s1) < length (sc_text s))%nat -> rounds_to n s1 s2 -> rounds_to (S n) s s2.

Lemma rounds_trans n m s1 s2 s3 : rounds_to n s1 s2 -> rounds_to m s2 s3 -> rounds_to (n + m) s1 s3.
Proof. induction 1 as [|n s s1 s2 Hs Hl _ IH]; intros H; [done|]. simpl. econstructor; eauto. Qed.

Lemma rounds_scan n s s' f : rounds_to n s s' ->
  scan_conf getenv open_file sOP sCP (n + f) s = scan_conf getenv open_file sOP sCP f s'.
Proof. induction 1 as [|n s s1 s2 Hs _ _ IH]; [done|]. change (S n + f)%nat with (S (n + f)). by rewrite Hs. Qed.

Lemma rounds_length n s s' : rounds_to n s s' -> (n + length (sc_text s') <= length (sc_text s))%nat.
Proof. induction 1; lia. Qed.

(** A text that, before what satisfies [ok], takes the parser from one state to
    another, in the initial start condition. *)
Definition reads (ok : bytes -> Prop) (text : bytes) (p p' : ConfParser) : Prop := forall b rest, ok rest ->
  exists n b', rounds_to n (scanner INITIAL b (text ++ rest) p) (scanner INITIAL b' rest p').

Definition anything (rest : bytes) : Prop := True.
Definition no_word (rest : bytes) : Prop := stops word_chars rest.
Definition no_space (rest : bytes) : Prop := stops [" "%char; cr; tab] rest.

Lemma reads_nil ok p : reads ok [] p p.
Proof. intros b rest _. exists 0%nat, b. constructor. Qed.

Lemma reads_app ok1 ok2 t1 t2 p1 p2 p3 : reads ok1 t1 p1 p2 -> reads ok2 t2 p2 p3 ->
  (forall rest, ok2 rest -> ok1 (t2 ++ rest)) -> reads ok2 (t1 ++ t2) p1 p3.
Proof.
  intros H1 H2 Hok b rest Hr. destruct (H1 b (t2 ++ rest) (Hok _ Hr)) as (n & b1 & Hn).
  destruct (H2 b1 rest Hr) as (m & b2 & Hm). exists (n + m)%nat, b2. rewrite <- app_assoc. by eapply rounds_trans.
Qed.

Lemma reads_weaken (ok ok' : bytes -> Prop) t p p' : (forall rest, ok' rest -> ok rest) -> reads ok t p p' -> reads ok' t p p'.
Proof. intros H Hr b rest Ho. by apply Hr, H. Qed.

(** One rule and its action. *)
Lemma one_round c b text rest p a s' : text <> [] ->
  select (conf_rules c) (text ++ rest) = Some (a, length text) ->
  (forall f, act getenv open_file sOP sCP f a text (scanner c b rest p) = Done s') -> sc_text s' = rest ->
  rounds_to 1 (scanner c b (text ++ rest) p) s'.
Proof.
  intros Hne Hsel Hact Ht. destruct text as [|x text]; [done|].
  eapply rt_step; [| |constructor].
  - intros f. cbn [scan_conf sc_text istStack scanner sc_cond]. change ((x :: text) ++ rest) with (x :: text ++ rest) in *.
    cbv zeta. rewrite Hsel. cbn [length].
    change (take (S (length text)) (x :: text ++ rest)) with (take (length (x :: text)) ((x :: text) ++ rest)).
    change (drop (S (length text)) (x :: text ++ rest)) with (drop (length (x :: text)) ((x :: text) ++ rest)).
    rewrite take_app_length, drop_app_length.
    change (with_text rest _) with (scanner c b rest p). by rewrite Hact.
  - simpl. rewrite Ht, length_app. lia.
Qed.

Lemma reads_one ok text p p' a : text <> [] ->
  (forall rest, ok rest -> select (conf_rules INITIAL) (text ++ rest) = Some (a, length text)) ->
  (forall f b rest, act getenv open_file sOP sCP f a text (scanner INITIAL b rest p) = Done (scanner INITIAL b rest p')) ->
  reads ok text p p'.
Proof. intros Hne Hsel Hact b rest Hok. exists 1%nat, b. apply (one_round _ _ _ _ _ a); auto. Qed.

Lemma reads_word text p p' (r : bytes -> Prop) a ty :
  (r = is_id /\ a = Id /\ ty = MiTT_ID) \/ (r = is_int /\ a = Int /\ ty = MiTT_INT) \/ (r = is_float /\ a = Float /\ ty = MiTT_FLOAT) ->
  r text -> checkToken {| tt_ := ty; tval := text |} p = Some p' -> reads no_word text p p'.
Proof.
  intros Hk Hr Hc. apply (reads_one _ _ _ _ a).
  - intros ->. destruct Hk as [(-> & _ & _)|[(-> & _ & _)|(-> & _ & _)]]; by apply nullable_spec in Hr.
  - intros rest Hok. destruct Hk as [(-> & -> & _)|[(-> & -> & _)|(-> & -> & _)]].
    + by apply select_id.
    + by apply select_int.
    + by apply select_float.
  - intros f b rest. destruct Hk as [(_ & -> & ->)|[(_ & -> & ->)|(_ & -> & ->)]]; simpl; by rewrite Hc.
Qed.

Lemma reads_char c p p' : live (conf_rules INITIAL) c = [(Chr (NoneOf [nl]), Char)] -> c <> nl ->
  charToken sOP sCP c p = Some p' -> reads anything [c] p p'.
Proof.
  intros Hl Hn Hc. apply (reads_one _ _ _ _ Char); [done| |].
  - intros rest _. by apply select_char.
  - intros f b rest. simpl. by rewrite Hc.
Qed.

Lemma reads_newline p p' : charToken sOP sCP nl p = Some p' -> reads anything newline p p'.
Proof.
  intros Hc. apply (reads_one _ _ _ _ Newline); [done| |].
  - intros rest _. change (newline ++ rest) with (nl :: rest). rewrite select_live by apply initial_not_nullable.
    replace (live (conf_rules INITIAL) nl) with [(Chr (OneOf [nl]), Newline)] by (vm_compute; reflexivity).
    cbn [select]. by rewrite longest_chr.
  - intros f b rest. simpl. by rewrite Hc.
Qed.

Lemma reads_spaces n p : reads no_space (replicate n " "%char) p p.
Proof.
  destruct n as [|n]; [intros b rest _; exists 0%nat, b; constructor|]. apply (reads_one _ _ _ _ Eat); [done| |done].
  intros rest Hs. set (w := replicate (S n) " "%char).
  assert (Hw : matches (plus (OneOf [" "%char; cr; tab])) w).
  { apply matches_plus. split; [done|]. apply Forall_forall. intros c Hc. apply elem_of_replicate in Hc as [-> _]. by vm_compute. }
  assert (El : longest (plus (OneOf [" "%char; cr; tab])) (w ++ rest) = Some (length w)).
  { apply (longest_exact [" "%char; cr; tab]); [done|by vm_compute|exact Hs]. }
  unfold w in *. cbn [replicate app] in *. rewrite select_live by apply initial_not_nullable.
  replace (live (conf_rules INITIAL) " "%char) with [(plus (OneOf [" "%char; cr; tab]), Eat); (Chr (NoneOf [nl]), Char)] by (vm_compute; reflexivity).
  cbn [select]. rewrite El, longest_chr by (by vm_compute). cbn [length]. done.
Qed.

(** A text between quotation marks. *)
Lemma reads_string v p p' : v <> [] -> quote ∉ v -> last v <> Some backslash_ ->
  checkToken {| tt_ := MiTT_STRING; tval := v |} p = Some p' -> reads anything ([quote] ++ v ++ [quote]) p p'.
Proof.
  intros Hne Hq Hl Hc b rest _. exists (1 + (1 + 1))%nat, false.
  assert (Hv : Forall (fun c => in_class (NoneOf [quote]) c = true) v).
  { apply Forall_forall. intros c Hcv. apply bool_decide_eq_true. by intros ->%list_elem_of_singleton. }
  rewrite <- !app_assoc.
  eapply rounds_trans; [apply (one_round _ _ _ _ _ StringBegin); [done| |intros f; reflexivity|reflexivity]|].
  { change ([quote] ++ v ++ [quote] ++ rest) with (quote :: v ++ [quote] ++ rest). rewrite select_live by apply initial_not_nullable.
    replace (live (conf_rules INITIAL) quote) with [(Chr (OneOf [quote]), StringBegin); (Chr (NoneOf [nl]), Char)] by (vm_compute; reflexivity).
    cbn [select]. by rewrite !longest_chr. }
  assert (Hlong : longest (Star (Chr (NoneOf [quote]))) (v ++ [quote] ++ rest) = Some (length v)).
  { destruct (longest_complete (Star (Chr (NoneOf [quote]))) (v ++ [quote] ++ rest) (length v)) as (n & Hn & Hle).
    - rewrite length_app. lia.
    - rewrite take_app_length. by apply matches_star_chr.
    - rewrite Hn. f_equal. apply longest_some in Hn as (Hlen & Ht & _). destruct (decide (n <= length v)%nat); [lia|].
      exfalso. apply matches_star_chr in Ht. rewrite take_app_ge in Ht by lia.
      replace (n - length v)%nat with (S (n - length v - 1)) in Ht by lia. apply Forall_app in Ht as [_ Ht].
      simpl in Ht. apply Forall_cons in Ht as [Ht _]. revert Ht. by vm_compute. }
  assert (Hsel : select (conf_rules START_STRING) (v ++ [quote] ++ rest) = Some (String_, length v)).
  { cbn [conf_rules select]. rewrite Hlong. destruct v as [|c v]; [done|]. change ((c :: v) ++ [quote] ++ rest) with (c :: v ++ [quote] ++ rest).
    rewrite longest_eq. cbn [deriv]. assert (in_class (OneOf [quote]) c = false) as ->.
    { apply bool_decide_eq_false. intros ->%list_elem_of_singleton. apply Hq. by left. }
    by rewrite longest_void. }
  eapply rounds_trans; [apply (one_round START_STRING b v ([quote] ++ rest) p String_ (scanner START_STRING false ([quote] ++ rest) p'));
                        [done|exact Hsel| |reflexivity]|].
  { intros f. cbn [act scanner sc_parser]. rewrite Hc. by rewrite bool_decide_false. }
  apply (one_round _ _ _ _ _ StringEnd); [done| |intros f; reflexivity|reflexivity].
  cbn [conf_rules select]. change ([quote] ++ rest) with (quote :: rest). rewrite longest_eq. cbn [deriv].
  assert (in_class (NoneOf [quote]) quote = false) as -> by (by vm_compute). cbn [cat]. rewrite longest_void. cbn [nullable].
  by rewrite longest_chr.
Qed.

End reading.

(** ** Trees that can be read back *)

Definition tidy (v : bytes) : Prop := compress (trimstr v) = v.

(** A value whose text is a token with the value. *)
Definition element_ok (e : ValElement) : Prop :=
  match valType_ e with
  | ID => is_id (val_ e) /\ val_ e <> to_bytes "nil"
  | INT => is_int (val_ e)
  | FLOAT => is_float (val_ e)
  | STRING => val_ e <> [] /\ quote ∉ val_ e /\ last (val_ e) <> Some backslash_
  | NIL => val_ e = []
  | UNDEF => False
  end /\ tidy (val_ e).

(** A single value, or a list that was written as one. *)
Definition list_ok (l : VList) : Prop :=
  Forall element_ok (elems l) /\ isNil_ l = bool_decide (elems l = []) /\
  (isList_ l = false -> length (elems l) = 1%nat).

Definition increasing {A} (m : list (bytes * A)) : Prop := StronglySorted (fun a b => key_lt a.1 b.1 = true) m.

(** Names that are identifiers, in the order of a map; sections that are not ignored;
    several sections of one name only when the parser allows them. *)
Inductive writable (allow : bool) : Sect -> Prop :=
  writable_intro secs vals :
    increasing secs -> increasing vals ->
    Forall (fun kv => is_id kv.1 /\ list_ok kv.2) vals ->
    Forall (fun kl => is_id kl.1 /\ kl.2 <> [] /\ (allow = false -> length kl.2 = 1%nat)) secs ->
    Forall (fun kl => Forall (writable allow) kl.2) secs ->
    writable allow (Sect_ allow false secs vals).

(** ** Maps in the order of their keys *)

Lemma key_lt_irrefl k : key_lt k k = false.
Proof. exact (ko_irrefl (KeyOrder := string_key) (of_bytes k)). Qed.

Lemma key_lt_ne a b : key_lt a b = true -> a <> b.
Proof. intros H ->. by rewrite key_lt_irrefl in H. Qed.

Lemma map_find_below {A} k (m : list (bytes * A)) : Forall (fun e => key_lt e.1 k = true) m -> map_find k m = None.
Proof.
  induction 1 as [|e m He _ IH]; [done|]. rewrite map_find_cons, bool_decide_false; [done|]. by apply key_lt_ne.
Qed.

Lemma map_find_end {A} k (v : A) m : Forall (fun e => key_lt e.1 k = true) m -> map_find k (m ++ [(k, v)]) = Some v.
Proof.
  induction 1 as [|e m He _ IH]; simpl app; rewrite map_find_cons.
  - by rewrite bool_decide_true.
  - rewrite bool_decide_false; [done|]. by apply key_lt_ne.
Qed.

Lemma key_set_end {A} k (v : A) m : Forall (fun e => key_lt e.1 k = true) m -> key_set k v m = m ++ [(k, v)].
Proof. unfold key_set. induction 1 as [|[k' v'] m He _ IH]; simpl; [done|]. simpl in He. by rewrite He, IH. Qed.

Lemma key_set_again {A} k (v w : A) m : Forall (fun e => key_lt e.1 k = true) m -> key_set k v (m ++ [(k, w)]) = m ++ [(k, v)].
Proof.
  unfold key_set. induction 1 as [|[k' v'] m He _ IH]; simpl.
  - by rewrite key_lt_irrefl.
  - simpl in He. by rewrite He, IH.
Qed.

Lemma increasing_below {A} (m1 m2 : list (bytes * A)) e : increasing (m1 ++ e :: m2) -> Forall (fun x => key_lt x.1 e.1 = true) m1.
Proof.
  induction m1 as [|x m1 IH]; simpl; [constructor|]. intros H. apply StronglySorted_inv in H as [Hs Hf].
  constructor; [|by apply IH]. rewrite Forall_forall in Hf. apply Hf. set_solver.
Qed.

(** ** The parser *)

Section parser.
  Context (getenv open_file : bytes -> option bytes).

Notation reads := (reads getenv open_file "("%char ")"%char).
Notation charToken := (charToken "("%char ")"%char).

(** Between two lines of a section. *)
Definition at_rest (p : ConfParser) : Prop :=
  error_ p = false /\ listContext_ p = false /\ ends_well (tokenStack_ p) = true.

Lemma at_rest_set_stack s p : at_rest p -> at_rest (set_stack s p).
Proof. done. Qed.

Lemma rest_front p : at_rest p -> tokenStack_ p = [] \/ exists t ts, tokenStack_ p = t :: ts /\ tt_ t = MiTT_OB.
Proof.
  intros (_ & _ & H). destruct (tokenStack_ p) as [|t ts]; [by left|]. right. exists t, ts. split; [done|]. by apply bool_decide_eq_true in H.
Qed.

(** Where every token is pushed. *)
Lemma rest_push t p : at_rest p -> tt_ t = MiTT_ID -> checkToken t p = Some (push_token t p).
Proof.
  intros Hr Ht. pose proof Hr as (He & Hl & _). unfold checkToken. rewrite He.
  destruct (rest_front p Hr) as [->|(o & ts & -> & Ho)]; rewrite ?Ht, ?Ho; [done|]. by rewrite Hl.
Qed.

Lemma rest_newline p : at_rest p -> charToken nl p = Some p.
Proof.
  intros Hr. pose proof Hr as (He & Hl & _). unfold ConfParser.charToken. cbn -[checkToken]. unfold checkToken. rewrite He.
  destruct (rest_front p Hr) as [->|(o & ts & -> & Ho)]; cbn; rewrite ?Ho; [done|]. by rewrite Hl.
Qed.

(** The token of a value, and what it is worth. *)
Definition element_token (e : ValElement) : Token :=
  match valType_ e with
  | ID => {| tt_ := MiTT_ID; tval := val_ e |}
  | INT => {| tt_ := MiTT_INT; tval := val_ e |}
  | FLOAT => {| tt_ := MiTT_FLOAT; tval := val_ e |}
  | NIL => {| tt_ := MiTT_ID; tval := to_bytes "nil" |}
  | _ => {| tt_ := MiTT_STRING; tval := val_ e |}
  end.

Lemma ValElement_of_tidy v t : tidy v -> ValElement_of v t = {| valType_ := t; val_ := v |}.
Proof. unfold ValElement_of, tidy. by intros ->. Qed.

Lemma token_value_element e : element_ok e -> token_value (element_token e) = e.
Proof.
  destruct e as [t v]. unfold element_ok, token_value, element_token. simpl. destruct t; simpl; intros [H Ht]; try done.
  - destruct H as [_ H]. by rewrite bool_decide_false, ValElement_of_tidy.
  - by apply ValElement_of_tidy.
  - by apply ValElement_of_tidy.
  - by apply ValElement_of_tidy.
  - by subst.
Qed.

Lemma escape_plain v : quote ∉ v -> escape_quotes v = v.
Proof.
  unfold escape_quotes. induction v as [|c v IH]; [done|]. intros H. rewrite bind_cons, IH by (intros ?; apply H; by right).
  rewrite bool_decide_false; [done|]. intros ->. apply H. by left.
Qed.

Lemma nil_is_id : is_id (to_bytes "nil").
Proof.
  unfold is_id. destruct (longest id_re (to_bytes "nil")) as [n|] eqn:E; [|by vm_compute in E].
  apply longest_some in E as E'. destruct E' as (_ & H & _). vm_compute in E. injection E as <-. exact H.
Qed.

Lemma reads_element e p p' : element_ok e -> checkToken (element_token e) p = Some p' ->
  reads no_word (element_text e) p p'.
Proof.
  destruct e as [t v]. unfold element_ok, element_token, element_text, toString. simpl. destruct t; simpl; intros [H Ht] Hc; try done.
  - destruct H as [H _]. apply (reads_word _ _ _ _ _ _ _ is_id Id MiTT_ID); [by left|done|done].
  - apply (reads_word _ _ _ _ _ _ _ is_int Int MiTT_INT); [by right; left|done|done].
  - apply (reads_word _ _ _ _ _ _ _ is_float Float MiTT_FLOAT); [by right; right|done|done].
  - destruct H as (H1 & H2 & H3). rewrite escape_plain by done.
    change (quote :: v ++ [quote]) with ([quote] ++ v ++ [quote]).
    eapply reads_weaken; [|by apply reads_string]. done.
  - apply (reads_word _ _ _ _ _ _ _ is_id Id MiTT_ID); [by left|exact nil_is_id|done].
Qed.

Lemma element_token_type e : element_ok e ->
  tt_ (element_token e) ∈ [MiTT_ID; MiTT_INT; MiTT_FLOAT; MiTT_STRING].
Proof. destruct e as [[] v]; unfold element_ok; simpl; intros [H _]; try done; set_solver. Qed.

(** *** One value *)

Definition name_token (k : bytes) : Token := {| tt_ := MiTT_ID; tval := k |}.
Definition equal_token : Token := {| tt_ := MiTT_EQUAL; tval := [] |}.

Lemma equal_after_name k p : error_ p = false -> listContext_ p = false ->
  charToken "="%char (push_token (name_token k) p) = Some (push_token equal_token (push_token (name_token k) p)).
Proof. intros He Hl. unfold ConfParser.charToken. cbn -[checkToken]. unfold checkToken. simpl. by rewrite He, Hl. Qed.

Lemma add_new k vl c rest p : stack_ p = c :: rest -> has_key k (values c) = false ->
  add_to_top k vl p = Some (set_stack (with_value k vl c :: rest) p).
Proof. intros Hs Hk. unfold add_to_top, addValue. by rewrite Hs, Hk. Qed.

Lemma single_value k e c rest p : at_rest p -> stack_ p = c :: rest -> has_key k (values c) = false -> element_ok e ->
  checkToken (element_token e) (push_token equal_token (push_token (name_token k) p)) =
  Some (set_stack (with_value k {| isList_ := false; isNil_ := false; elems := [e] |} c :: rest) p).
Proof.
  intros Hr Hs Hk He. pose proof Hr as (Herr & Hl & Hew). pose proof (element_token_type e He) as Ht.
  unfold checkToken. cbn [error_ push_token set_tokens tokenStack_ listContext_]. rewrite Herr, Hl.
  assert (Hop : bool_decide (tt_ (element_token e) = MiTT_OP) = false).
  { apply bool_decide_eq_false. intros E. rewrite E in Ht. revert Ht. by_decision. }
  rewrite Hop. cbn [equal_token tt_]. rewrite bool_decide_true by done.
  assert (Hnl : bool_decide (tt_ (element_token e) = MiTT_NL) = false).
  { apply bool_decide_eq_false. intros E. rewrite E in Ht. revert Ht. by_decision. }
  assert (Hres : colapseKeyVal (element_token e) (set_tokens false (name_token k :: tokenStack_ p)
                   (set_tokens (listContext_ (push_token (name_token k) p)) (equal_token :: tokenStack_ (push_token (name_token k) p)) (push_token (name_token k) p)))
                 = set_stack (with_value k {| isList_ := false; isNil_ := false; elems := [e] |} c :: rest) p).
  { unfold colapseKeyVal. cbn [tokenStack_ set_tokens name_token tt_]. rewrite bool_decide_false by (intros H; by apply H).
    rewrite Hnl. cbn [tval]. rewrite token_value_element by done.
    rewrite (add_new _ _ c rest) by done. cbn [listContext_ set_tokens set_stack]. rewrite Hew.
    destruct p. simpl in *. subst. reflexivity. }
  apply elem_of_cons in Ht as [Ht|Ht]; [rewrite Ht; by rewrite <- Hres|].
  apply elem_of_cons in Ht as [Ht|Ht]; [rewrite Ht; by rewrite <- Hres|].
  apply elem_of_cons in Ht as [Ht|Ht]; [rewrite Ht; by rewrite <- Hres|].
  apply list_elem_of_singleton in Ht. rewrite Ht. by rewrite <- Hres.
Qed.

(** *** A list *)

Definition comma_token : Token := {| tt_ := MiTT_COMMA; tval := [","%char] |}.
Definition op_token : Token := {| tt_ := MiTT_OP; tval := [] |}.

(** The tokens of the elements, the last one first. *)
Fixpoint list_tokens (es : list ValElement) : list Token :=
  match es with
  | [] => []
  | e :: r => match r with [] => [element_token e] | _ => list_tokens r ++ [comma_token; element_token e] end
  end.

Lemma list_tokens_snoc es e : es <> [] -> list_tokens (es ++ [e]) = element_token e :: comma_token :: list_tokens es.
Proof.
  induction es as [|x es IH]; [done|]. intros _. destruct es as [|y es]; [done|].
  change ((x :: y :: es) ++ [e]) with (x :: (y :: es) ++ [e]).
  change (list_tokens (x :: (y :: es) ++ [e])) with (list_tokens ((y :: es) ++ [e]) ++ [comma_token; element_token x]).
  rewrite IH by done. reflexivity.
Qed.

Lemma list_loop_element e ts prev vl : element_ok e -> prev <> MiTT_EQUAL ->
  list_loop (element_token e :: ts) prev vl = list_loop ts (tt_ (element_token e)) (vl_push_front e vl).
Proof.
  intros He Hp. pose proof (token_value_element e He) as Hv. destruct e as [t v]. unfold element_ok in He.
  cbn [list_loop]. unfold token_value in Hv. destruct t; simpl in *; try (by destruct He); try (by rewrite Hv).
  - rewrite bool_decide_false by done. destruct He as [[_ Hn] _]. rewrite bool_decide_false in Hv |- * by done. by rewrite Hv.
  - rewrite bool_decide_false by done. destruct He as [-> _]. done.
Qed.

Lemma list_loop_elements k ts es prev vl : Forall element_ok es -> es <> [] -> prev = MiTT_CP \/ prev = MiTT_COMMA ->
  isList_ vl = true ->
  list_loop (list_tokens es ++ op_token :: equal_token :: name_token k :: ts) prev vl =
  Some (k, {| isList_ := true; isNil_ := false; elems := es ++ elems vl |}, ts).
Proof.
  revert prev vl. induction es as [|e es IH] using rev_ind; intros prev vl HF Hne Hp Hl; [done|].
  apply Forall_app in HF as [HF He]. apply Forall_cons in He as [He _].
  assert (Hpush : vl_push_front e vl = {| isList_ := true; isNil_ := false; elems := e :: elems vl |}).
  { unfold vl_push_front. rewrite Hl. by destruct (elems vl). }
  pose proof (element_token_type e He) as Ht.
  assert (Hty : tt_ (element_token e) <> MiTT_COMMA /\ tt_ (element_token e) <> MiTT_CP).
  { split; intros E; rewrite E in Ht; revert Ht; by_decision. }
  destruct es as [|x es].
  - cbn [app list_tokens]. rewrite list_loop_element, Hpush by (done || by destruct Hp; subst).
    cbn [list_loop op_token equal_token name_token tt_ tval]. rewrite bool_decide_false by (by destruct Hty).
    rewrite !bool_decide_true by done. done.
  - rewrite list_tokens_snoc by done. cbn [app]. rewrite list_loop_element, Hpush by (done || by destruct Hp; subst).
    cbn [list_loop comma_token tt_]. destruct Hty as [H1 H2]. rewrite !bool_decide_false by done. cbn [orb].
    rewrite IH; [|done|done|by right|done]. simpl elems. by rewrite <- app_assoc.
Qed.

(** In a list the tokens of values and the commas are pushed. *)
Lemma list_push t p : error_ p = false -> listContext_ p = true -> tokenStack_ p <> [] ->
  tt_ t ∈ [MiTT_ID; MiTT_INT; MiTT_FLOAT; MiTT_STRING; MiTT_COMMA] -> checkToken t p = Some (push_token t p).
Proof.
  intros He Hl Hne Ht. unfold checkToken. rewrite He, Hl. destruct (tokenStack_ p) as [|x ts] eqn:E; [done|].
  repeat (apply elem_of_cons in Ht as [Ht|Ht]; [by rewrite Ht|]). by apply not_elem_of_nil in Ht.
Qed.

Definition in_list (ts : list Token) (p : ConfParser) : ConfParser := set_tokens true ts p.

Lemma reads_elements es base p : Forall element_ok es -> es <> [] -> error_ p = false -> base <> [] ->
  reads no_word (join [","%char] (element_text <$> es)) (in_list base p) (in_list (list_tokens es ++ base) p).
Proof.
  intros HF. revert base. induction HF as [|e es He HF IH]; intros base Hne Herr Hb; [done|].
  pose proof (element_token_type e He) as Ht.
  assert (H1 : reads no_word (element_text e) (in_list base p) (in_list (element_token e :: base) p)).
  { apply reads_element; [done|]. rewrite list_push; [done|done|done|done|set_solver]. }
  destruct es as [|x es]; [exact H1|].
  assert (H2 : reads anything [","%char] (in_list (element_token e :: base) p) (in_list (comma_token :: element_token e :: base) p)).
  { apply reads_char; [by vm_compute|by vm_compute|].
    change (charToken ","%char (in_list (element_token e :: base) p)) with (checkToken comma_token (in_list (element_token e :: base) p)).
    rewrite list_push; [done|done|done|done|set_solver]. }
  change (join [","%char] (element_text <$> e :: x :: es)) with
    (element_text e ++ [","%char] ++ join [","%char] (element_text <$> x :: es)).
  eapply reads_app; [exact H1| |intros rest _; change (","%char ∉ word_chars); by_decision].
  eapply reads_app; [exact H2| |done].
  specialize (IH (comma_token :: element_token e :: base)).
  assert (Hlt : list_tokens (e :: x :: es) = list_tokens (x :: es) ++ [comma_token; element_token e]) by done.
  rewrite Hlt, <- app_assoc. by apply IH.
Qed.

Lemma open_list k p : error_ p = false -> listContext_ p = false ->
  charToken "("%char (push_token equal_token (push_token (name_token k) p)) =
  Some (in_list (op_token :: equal_token :: name_token k :: tokenStack_ p) p).
Proof. intros He Hl. unfold ConfParser.charToken. cbn -[checkToken]. unfold checkToken. simpl. by rewrite He, Hl. Qed.

Lemma close_list k vl ts c rest p : error_ p = false -> stack_ p = c :: rest -> has_key k (values c) = false ->
  list_loop (ts ++ op_token :: equal_token :: name_token k :: tokenStack_ p) MiTT_CP (vl_set_isList true VList_new)
    = Some (k, vl, tokenStack_ p) ->
  at_rest p ->
  charToken ")"%char (in_list (ts ++ op_token :: equal_token :: name_token k :: tokenStack_ p) p) =
  Some (set_stack (with_value k vl c :: rest) p).
Proof.
  intros He Hs Hk Hloop Hr. destruct Hr as (_ & Hl & Hew).
  unfold ConfParser.charToken. cbn -[checkToken in_list]. unfold checkToken, in_list. cbn [error_ set_tokens tokenStack_ listContext_].
  rewrite He. destruct (ts ++ _) as [|t0 ts0] eqn:E; [by destruct ts|]. cbn [tt_]. unfold colapseList. cbn [stack_ set_tokens tokenStack_].
  rewrite Hs, Hloop. rewrite (add_new _ _ c rest) by done. cbn [listContext_ set_tokens set_stack]. rewrite Hew.
  destruct p. simpl in *. subst. reflexivity.
Qed.

End parser.

(** *** Lines *)

Section lines.
  Context (getenv open_file : bytes -> option bytes).

Notation reads := (reads getenv open_file "("%char ")"%char).
Notation charToken := (charToken "("%char ")"%char).

Lemma reads_name k p : at_rest p -> is_id k -> reads no_word k p (push_token (name_token k) p).
Proof.
  intros Hr Hk. apply (reads_word _ _ _ _ _ _ _ is_id Id MiTT_ID); [by left|done|]. by apply rest_push.
Qed.

Lemma reads_equal k p : at_rest p ->
  reads anything ["="%char] (push_token (name_token k) p) (push_token equal_token (push_token (name_token k) p)).
Proof.
  intros (He & Hl & _). apply reads_char; [by vm_compute|by vm_compute|]. by apply equal_after_name.
Qed.

Lemma no_word_newline rest : no_word (newline ++ rest).
Proof. change (nl ∉ word_chars). by_decision. Qed.

Lemma no_word_close rest : no_word ([")"%char] ++ rest).
Proof. change (")"%char ∉ word_chars). by_decision. Qed.

(** A list between its characters. *)
Lemma reads_list k vl c rest p text : at_rest p -> stack_ p = c :: rest -> has_key k (values c) = false ->
  vl = {| isList_ := true; isNil_ := bool_decide (elems vl = []); elems := elems vl |} -> Forall element_ok (elems vl) ->
  text = join [","%char] (element_text <$> elems vl) ->
  reads anything (["("%char] ++ text ++ [")"%char]) (push_token equal_token (push_token (name_token k) p))
    (set_stack (with_value k vl c :: rest) p).
Proof.
  intros Hr Hs Hk Hvl HF ->. pose proof Hr as (He & Hl & _).
  set (base := op_token :: equal_token :: name_token k :: tokenStack_ p).
  assert (Ho : reads anything ["("%char] (push_token equal_token (push_token (name_token k) p)) (in_list base p)).
  { apply reads_char; [by vm_compute|by vm_compute|]. by apply open_list. }
  assert (Hc : reads anything [")"%char] (in_list (list_tokens (elems vl) ++ base) p) (set_stack (with_value k vl c :: rest) p)).
  { apply reads_char; [by vm_compute|by vm_compute|]. apply close_list; try done.
    destruct (elems vl) as [|x es] eqn:E.
    - rewrite Hvl, bool_decide_true by done. reflexivity.
    - rewrite list_loop_elements by (done || by left). rewrite Hvl, bool_decide_false by done.
      cbn [elems vl_set_isList VList_new]. by rewrite app_nil_r. }
  eapply reads_app; [exact Ho| |done]. destruct (elems vl) as [|x es] eqn:E; [exact Hc|].
  eapply reads_app; [|exact Hc|intros; apply no_word_close]. apply (reads_elements _ _ (x :: es) base p); done.
Qed.

Lemma reads_value k vl c rest p : at_rest p -> stack_ p = c :: rest -> has_key k (values c) = false -> list_ok vl ->
  reads no_word (list_text "("%char ")"%char vl) (push_token equal_token (push_token (name_token k) p))
    (set_stack (with_value k vl c :: rest) p).
Proof.
  intros Hr Hs Hk (HF & Hn & Hl). destruct vl as [isL isN es]. simpl in HF, Hn, Hl. subst isN.
  assert (Hlist : isL = true -> reads no_word (["("%char] ++ join [","%char] (element_text <$> es) ++ [")"%char])
     (push_token equal_token (push_token (name_token k) p))
     (set_stack (with_value k {| isList_ := isL; isNil_ := bool_decide (es = []); elems := es |} c :: rest) p)).
  { intros ->. apply (reads_weaken _ _ _ _ anything); [done|]. by eapply reads_list. }
  destruct es as [|e [|e' es]].
  - destruct isL; [by apply Hlist|by specialize (Hl eq_refl)].
  - unfold list_text. cbn [elems]. unfold vl_isList. cbn [elems length isList_]. destruct isL; [by apply Hlist|]. cbn [orb Nat.ltb Nat.leb].
    apply Forall_cons in HF as [He _]. apply reads_element; [done|]. by apply single_value.
  - destruct isL; [by apply Hlist|by specialize (Hl eq_refl)].
Qed.

Lemma reads_rest_newline p : at_rest p -> reads anything newline p p.
Proof. intros Hr. by apply reads_newline, rest_newline. Qed.

Lemma no_space_id k rest : is_id k -> no_space (k ++ rest).
Proof.
  intros Hk. unfold is_id, id_re in Hk. apply matches_cat in Hk as (s1 & s2 & -> & Hp & _).
  apply matches_plus in Hp as [Hne HF]. destruct s1 as [|c s1]; [done|]. apply Forall_cons in HF as [Hc _].
  apply bool_decide_eq_true in Hc. change (c ∉ [" "%char; cr; tab]).
  assert (Forall (fun c => c ∉ [" "%char; cr; tab]) letters) as H by by_decision. rewrite Forall_forall in H. by apply H.
Qed.

Lemma reads_value_line n k vl c rest p : at_rest p -> stack_ p = c :: rest -> has_key k (values c) = false ->
  is_id k -> list_ok vl ->
  reads anything (value_line "("%char ")"%char (replicate n " "%char) (k, vl)) p (set_stack (with_value k vl c :: rest) p).
Proof.
  intros Hr Hs Hk Hid Hok. unfold value_line. cbn [fst snd].
  eapply reads_app; [apply reads_spaces| |intros; rewrite <- app_assoc; by apply no_space_id].
  eapply reads_app; [by apply reads_name| |intros; change ("="%char ∉ word_chars); by_decision].
  eapply reads_app; [by apply reads_equal| |done].
  eapply reads_app; [by apply reads_value|by apply reads_rest_newline|]. intros. apply no_word_newline.
Qed.

Lemma reads_values n vals acc a i secs rest p : at_rest p -> stack_ p = Sect_ a i secs acc :: rest ->
  increasing (acc ++ vals) -> Forall (fun kv => is_id kv.1 /\ list_ok kv.2) vals ->
  reads anything (vals ≫= value_line "("%char ")"%char (replicate n " "%char)) p
    (set_stack (Sect_ a i secs (acc ++ vals) :: rest) p).
Proof.
  revert acc p. induction vals as [|[k vl] vals IH]; intros acc p Hr Hs Hinc HF.
  - rewrite app_nil_r, <- Hs. destruct p. apply reads_nil.
  - apply Forall_cons in HF as [[Hid Hok] HF]. pose proof (increasing_below _ _ _ Hinc) as Hb. simpl in Hb.
    rewrite bind_cons. eapply reads_app; [eapply reads_value_line; [done|exact Hs| |done|done]| |done].
    + unfold has_key. simpl. rewrite map_find_below by done. by apply bool_decide_eq_false; intros [? ?].
    + unfold with_value. simpl. rewrite key_set_end by done.
      specialize (IH (acc ++ [(k, vl)]) (set_stack (Sect_ a i secs (acc ++ [(k, vl)]) :: rest) p)).
      rewrite <- app_assoc in IH. apply IH; done.
Qed.

(** *** Sections *)

(** What follows the name of a section: its frame is opened. *)
Definition ob_token : Token := {| tt_ := MiTT_OB; tval := ["{"%char] |}.
Definition opened (name : bytes) (p : ConfParser) : ConfParser :=
  push_token ob_token (set_stack (Sect_new (p_multiple p) :: stack_ p) (push_token (name_token name) p)).

Lemma reads_open name p : at_rest p -> is_id name ->
  reads anything (name ++ to_bytes " {" ++ newline) p (opened name p).
Proof.
  intros Hr Hid. pose proof Hr as (He & Hl & _).
  eapply reads_app; [by apply reads_name| |intros; change (" "%char ∉ word_chars); by_decision].
  change (to_bytes " {" ++ newline) with (replicate 1 " "%char ++ ["{"%char] ++ newline).
  eapply reads_app; [apply reads_spaces| |intros; change ("{"%char ∉ [" "%char; cr; tab]); by_decision].
  eapply reads_app; [apply (reads_char _ _ _ _ "{"%char _ (opened name p)); [by vm_compute|by vm_compute|]| |done].
  - unfold ConfParser.charToken. cbn -[checkToken]. unfold checkToken. simpl. by rewrite He, Hl.
  - by apply reads_rest_newline.
Qed.

(** The closing brace adds the section to the one around it. *)
Lemma close_section name s c c' rest p : at_rest p -> stack_ p = c :: rest -> addSection name s false c = (true, c') ->
  charToken "}"%char (set_stack (s :: c :: rest) (opened name p)) = Some (set_stack (c' :: rest) p).
Proof.
  intros Hr Hs Ha. pose proof Hr as (He & Hl & Hew). unfold ConfParser.charToken. cbn -[checkToken]. unfold checkToken. simpl.
  rewrite He, Hl. unfold colapseSection. simpl. rewrite Ha. simpl. rewrite Hew. destruct p. simpl in *. subst. reflexivity.
Qed.

Lemma reads_section n name body s c c' rest p : at_rest p -> stack_ p = c :: rest -> is_id name ->
  reads anything body (opened name p) (set_stack (s :: c :: rest) (opened name p)) ->
  addSection name s false c = (true, c') ->
  reads anything (section_text (replicate n " "%char) name body) p (set_stack (c' :: rest) p).
Proof.
  intros Hr Hs Hid Hbody Ha. unfold section_text.
  eapply reads_app; [apply reads_spaces| |intros; rewrite <- app_assoc; by apply no_space_id].
  rewrite (app_assoc (to_bytes " {")), (app_assoc name).
  eapply reads_app; [by apply reads_open| |done]. eapply reads_app; [exact Hbody| |done].
  eapply reads_app; [apply reads_spaces| |intros; change ("}"%char ∉ [" "%char; cr; tab]); by_decision].
  eapply reads_app; [apply reads_char; [by vm_compute|by vm_compute|by eapply close_section]| |done].
  by apply reads_rest_newline.
Qed.

(** The text of sections without the renaming of HOCON. *)
Fixpoint sections_text (space : bytes) (nSpace : nat) (pritty : bool) (secs : list (bytes * list Sect)) : bytes :=
  match secs with
  | [] => []
  | (name, l) :: rest =>
      (l ≫= fun s => section_text space name (printImple "("%char ")"%char nSpace true s)) ++
      (if pritty && bool_decide (rest <> []) then newline else []) ++ sections_text space nSpace pritty rest
  end.

Lemma printImple_eq nSpace pritty allow ig secs vals :
  printImple "("%char ")"%char nSpace pritty (Sect_ allow ig secs vals) =
  let space := replicate (if pritty then nSpace else O) " "%char in
  (vals ≫= value_line "("%char ")"%char space) ++ (if pritty && bool_decide (secs <> []) then newline else []) ++
  sections_text space (nSpace + 3) pritty secs.
Proof.
  cbn [printImple]. cbv zeta. f_equal. f_equal. generalize (@nil (bytes * Z)) as d.
  set (space := replicate (if pritty then nSpace else O) " "%char).
  assert (Hren : forall name d, rename "("%char ")"%char allow name d = (name, d)).
  { intros. unfold rename. assert (hocon "("%char ")"%char = false) as -> by (by vm_compute). by rewrite andb_false_r. }
  induction secs as [|[name l] secs IH]; intros d; [done|]. cbn [sections_text].
  assert (Heach : forall d, (fix each (l : list Sect) (name : bytes) (defined : list (bytes * Z)) : bytes * list (bytes * Z) :=
                  match l with
                  | [] => ([], defined)
                  | s :: l =>
                      let '(name, defined) := rename "("%char ")"%char allow name defined in
                      let '(text, defined) := each l name defined in
                      (section_text space name (printImple "("%char ")"%char (nSpace + 3) true s) ++ text, defined)
                  end) l name d = (l ≫= (fun s => section_text space name (printImple "("%char ")"%char (nSpace + 3) true s)), d)).
  { clear d. intros d. induction l as [|s l IHl]; [done|]. rewrite Hren, IHl, bind_cons. reflexivity. }
  rewrite Heach. f_equal. f_equal. apply IH.
Qed.

Lemma reads_blank (b : bool) p : at_rest p -> reads anything (if b then newline else []) p p.
Proof. intros Hr. destruct b; [by apply reads_rest_newline|apply reads_nil]. Qed.

(** The body of a section fills it. *)
Definition fills (allow : bool) (s : Sect) : Prop := forall nSpace pritty p rest, at_rest p ->
  p_multiple p = allow -> stack_ p = Sect_new allow :: rest ->
  reads anything (printImple "("%char ")"%char nSpace pritty s) p (set_stack (s :: rest) p).

Lemma opened_at_rest name p : at_rest p -> at_rest (opened name p).
Proof. intros (He & Hl & _). done. Qed.

(** Several sections of one name: [done] of them are there already. *)
Lemma reads_sections_of n nSpace allow ig vals acc name l done_ rest p :
  at_rest p -> p_multiple p = allow -> is_id name -> Forall (fun e => key_lt e.1 name = true) acc ->
  Forall (fills allow) l -> l <> [] ->
  (done_ <> [] -> allow = true) -> (allow = false -> length l = 1%nat) ->
  stack_ p = Sect_ allow ig (match done_ with [] => acc | _ => acc ++ [(name, done_)] end) vals :: rest ->
  reads anything (l ≫= fun s => section_text (replicate n " "%char) name (printImple "("%char ")"%char nSpace true s)) p
    (set_stack (Sect_ allow ig (acc ++ [(name, done_ ++ l)]) vals :: rest) p).
Proof.
  intros Hr Hm Hid Hb HF. revert done_ p Hr Hm. induction HF as [|s l Hs HF IH]; intros done_ p Hr Hm Hne Hd Hl Hst; [done|].
  rewrite bind_cons.
  assert (Hadd : addSection name s false (Sect_ allow ig (match done_ with [] => acc | _ => acc ++ [(name, done_)] end) vals) =
                 (true, Sect_ allow ig (acc ++ [(name, done_ ++ [s])]) vals)).
  { unfold addSection. cbn [sections allowMultipleSections ignoreThisSection values]. destruct done_ as [|d ds].
    - rewrite map_find_below, key_set_end by done. done.
    - rewrite map_find_end by done. rewrite Hd by done. by rewrite key_set_again. }
  eapply reads_app; [eapply reads_section; [done|exact Hst|done| |exact Hadd]| |done].
  { apply (Hs nSpace true (opened name p)); [by apply opened_at_rest|done|]. simpl. by rewrite Hm, Hst. }
  destruct l as [|s' l].
  - apply reads_nil.
  - assert (allow = true) as ->.
    { destruct allow; [done|]. by specialize (Hl eq_refl). }
    specialize (IH (done_ ++ [s]) (set_stack (Sect_ true ig (acc ++ [(name, done_ ++ [s])]) vals :: rest) p)).
    rewrite <- app_assoc in IH. apply IH; try done. destruct done_; done.
Qed.

Lemma reads_sections n nSpace pritty allow ig vals secs acc rest p :
  at_rest p -> p_multiple p = allow -> increasing (acc ++ secs) ->
  Forall (fun kl => is_id kl.1 /\ kl.2 <> [] /\ (allow = false -> length kl.2 = 1%nat)) secs ->
  Forall (fun kl => Forall (fills allow) kl.2) secs ->
  stack_ p = Sect_ allow ig acc vals :: rest ->
  reads anything (sections_text (replicate n " "%char) nSpace pritty secs) p (set_stack (Sect_ allow ig (acc ++ secs) vals :: rest) p).
Proof.
  revert acc p. induction secs as [|[name l] secs IH]; intros acc p Hr Hm Hinc HF HS Hst.
  - rewrite app_nil_r, <- Hst. destruct p. apply reads_nil.
  - apply Forall_cons in HF as [(Hid & Hne & Hl) HF]. apply Forall_cons in HS as [Hs HS]. simpl in *.
    pose proof (increasing_below _ _ _ Hinc) as Hb. simpl in Hb.
    eapply reads_app; [apply (reads_sections_of n nSpace allow ig vals acc name l []); done| |done].
    eapply reads_app; [by apply reads_blank| |done].
    specialize (IH (acc ++ [(name, l)]) (set_stack (Sect_ allow ig (acc ++ [(name, l)]) vals :: rest) p)).
    rewrite <- app_assoc in IH. by apply IH.
Qed.

Lemma writable_fills allow s : writable allow s -> fills allow s.
Proof.
  induction s as [a i secs vals IH] using Sect_induction. intros Hw. inversion Hw as [secs' vals' Hi1 Hi2 HV HS HW]; subst.
  intros nSpace pritty p rest Hr Hm Hst. rewrite printImple_eq. cbv zeta.
  eapply reads_app; [eapply reads_values; [done|exact Hst|exact Hi2|done]| |done]. simpl app.
  eapply reads_app; [by apply reads_blank| |done].
  change (set_stack (Sect_ a false secs vals :: rest) p)
    with (set_stack (Sect_ a false ([] ++ secs) vals :: rest) (set_stack (Sect_ a false [] vals :: rest) p)).
  apply reads_sections; [done|done|done|done| |done].
  clear -IH HW. induction HW as [|kl secs Hk HW IHW]; [constructor|]. apply Forall_cons in IH as [H1 H2].
  constructor; [|by apply IHW]. clear -Hk H1. induction Hk as [|s l Hs Hk IHk]; [constructor|].
  apply Forall_cons in H1 as [H1 H2]. constructor; [by apply H1|by apply IHk].
Qed.

End lines.

(** C9: A configuration that is written is read back. The text of a tree whose names
    are identifiers, whose values are tokens of their types and whose sections are
    not marked to be ignored is parsed to the same tree, with or without
    indentation, and the scanner is left ready for another text; there are no more
    rounds than characters. Several sections of one name need a parser that allows
    them. *)
Theorem parse_print (getenv open_file : bytes -> option bytes) (allow delete pritty left : bool) (c : Sect) (fuel : nat) :
  writable allow c -> (length (print "("%char ")"%char pritty c) < fuel)%nat ->
  exists b, parse getenv open_file "("%char ")"%char fuel allow delete (INITIAL, left) (print "("%char ")"%char pritty c)
            = Done (Some c, (INITIAL, b)).
Proof.
  intros Hw Hf. set (p := ConfParser_start allow delete).
  destruct (writable_fills getenv open_file allow c Hw 0%nat pritty p [] ltac:(done) ltac:(done) ltac:(done) left [] I) as (n & b & Hn).
  rewrite app_nil_r in Hn. change (printImple "("%char ")"%char 0 pritty c) with (print "("%char ")"%char pritty c) in Hn.
  pose proof (rounds_length _ _ _ _ _ _ _ Hn) as Hlen. cbn [sc_text scanner length] in Hlen.
  exists b. unfold parse.
  change {| sc_cond := (INITIAL, left).1; stringContinue := (INITIAL, left).2; sc_text := print "("%char ")"%char pritty c; istStack := [];
            sc_parser := ConfParser_start allow delete |} with (scanner INITIAL left (print "("%char ")"%char pritty c) p).
  replace fuel with (n + S (fuel - n - 1))%nat by lia. rewrite (rounds_scan _ _ _ _ _ _ _ _ Hn). reflexivity.
Qed.

Definition sample_tree : Sect :=
  tree [("a", {| isList_ := true; isNil_ := false;
                 elems := [{| valType_ := ID; val_ := to_bytes "x" |}; nil_element; {| valType_ := FLOAT; val_ := to_bytes "-2.5" |}] |});
        ("b", one INT "12")]%string
       [("s", [tree [("t"%string, one STRING "some text")] []]); ("u", [tree [] []])]%string.

Lemma is_word_dec r w : longest r w = Some (length w) -> matches r w.
Proof. intros H. apply longest_some in H as (_ & H & _). by rewrite firstn_all in H. Qed.

Lemma sample_tree_writable : writable false sample_tree.
Proof.
  assert (Hone : forall t v, element_ok {| valType_ := t; val_ := to_bytes v |} -> list_ok (one t v)).
  { intros t v H. split; [by constructor|]. by split. }
  assert (Hw : forall r w, longest r w = Some (length w) -> matches r w) by apply is_word_dec.
  constructor; simpl.
  - repeat constructor.
  - repeat constructor.
  - constructor; [|constructor; [|constructor]]; (split; [apply Hw; vm_compute; reflexivity|]).
    + split; [|by split]. repeat constructor; simpl; try done; apply Hw; vm_compute; reflexivity.
    + apply Hone. split; [apply Hw; vm_compute; reflexivity|vm_compute; reflexivity].
  - constructor; [|constructor; [|constructor]]; (split; [apply Hw; vm_compute; reflexivity|done]).
  - constructor; [|constructor; [|constructor]]; (constructor; [|constructor]); constructor; simpl; repeat constructor; simpl;
      try (apply Hw; vm_compute; reflexivity); try done; by_decision.
Qed.

Lemma parse_print_witness : exists b,
  parse no_env no_env "("%char ")"%char 100 false true (INITIAL, true) (print "("%char ")"%char true sample_tree)
  = Done (Some sample_tree, (INITIAL, b)).
Proof.
  refine (parse_print no_env no_env false true true true sample_tree 100 _ _).
  - apply sample_tree_writable.
  - apply Nat.ltb_lt. vm_compute. reflexivity.
Defined.
