(* ===== verification/BlockingQueue.v ===== *)
(** * The queues between threads and the pool of threads
    (src/src/lib/miutil/blockingqueue.h, threadpool.cc)

    A queue is a monitor: its operations hold a mutex and wait for a condition. An
    operation is a function of the queue that says whether the thread waits,
    throws or returns; a thread that waits tries again when it is woken. The pool
    is a step relation over the states of its threads. *)

From S2P Require Import Prelude.

#[local] Open Scope Z_scope.

(** ** [BlockingQueuePtr] *)

Inductive queue_exn := QueueSuspended | QueueTimeout | QueueIllegalState.

(** What an operation does: the thread waits on the condition, an exception leaves it,
    it returns, or it takes the front of an empty queue. *)
Inductive attempt (A : Type) := Waits | Throws (e : queue_exn) | Returns (a : A) | Front_of_empty.
Arguments Waits {A}. Arguments Throws {A}. Arguments Returns {A}. Arguments Front_of_empty {A}.

Section queue.
  Context {T : Type} {TE : EqDecision T}.

Record BlockingQueue := { dataQueue : list T; suspended : bool; maxSize : Z }.

Definition BlockingQueue_of (maxQueSize : Z) : BlockingQueue :=
  {| dataQueue := []; suspended := false; maxSize := maxQueSize |}.

Definition set_data (l : list T) (q : BlockingQueue) : BlockingQueue :=
  {| dataQueue := l; suspended := suspended q; maxSize := maxSize q |}.
Definition size (q : BlockingQueue) : Z := Z.of_nat (length (dataQueue q)).

Definition resize (newSize : Z) (q : BlockingQueue) : BlockingQueue :=
  {| dataQueue := dataQueue q; suspended := suspended q; maxSize := newSize |}.

(** The first element that is the value. *)
Fixpoint erase_first (value : T) (l : list T) : option (list T) :=
  match l with
  | [] => None
  | t :: l => if bool_decide (t = value) then Some l else (t ::.) <$> erase_first value l
  end.
Definition remove (value : T) (q : BlockingQueue) : bool * BlockingQueue :=
  match erase_first value (dataQueue q) with
  | Some l => (true, set_data l q)
  | None => (false, q)
  end.

Definition add (value : T) (q : BlockingQueue) : attempt unit * BlockingQueue :=
  if (size q <? maxSize q) || suspended q then
    if suspended q then (Throws QueueSuspended, q) else (Returns tt, set_data (dataQueue q ++ [value]) q)
  else (Waits, q).

(** [elapsed]: the time of waiting is over. *)
Definition timedAdd (value : T) (throwTimeout elapsed : bool) (q : BlockingQueue) : attempt bool * BlockingQueue :=
  if suspended q then (Throws QueueSuspended, q)
  else if size q <? maxSize q then (Returns true, set_data (dataQueue q ++ [value]) q)
  else if elapsed then (if throwTimeout then Throws QueueTimeout else Returns false, q)
  else (Waits, q).

Definition get (q : BlockingQueue) : attempt T * BlockingQueue :=
  if suspended q then (Throws QueueSuspended, q)
  else match dataQueue q with
       | t :: l => (Returns t, set_data l q)
       | [] => (Waits, q)
       end.

(** [woken]: the thread has waited already; then [suspended] is not looked at. *)
Definition timedGet (throwTimeout woken elapsed : bool) (q : BlockingQueue) : attempt (option T) * BlockingQueue :=
  if negb woken && suspended q then (Throws QueueSuspended, q)
  else match dataQueue q with
       | t :: l => (Returns (Some t), set_data l q)
       | [] =>
           if suspended q then (Front_of_empty, q)
           else if elapsed then (if throwTimeout then Throws QueueTimeout else Returns None, q)
           else (Waits, q)
       end.

Definition tryGet (q : BlockingQueue) : attempt (option T) * BlockingQueue :=
  match dataQueue q with
  | [] => (if suspended q then Throws QueueSuspended else Returns None, q)
  | t :: l => (Returns (Some t), set_data l q)
  end.

Definition getAfterSuspend (q : BlockingQueue) : attempt (option T) * BlockingQueue :=
  if negb (suspended q) then (Throws QueueIllegalState, q)
  else match dataQueue q with
       | [] => (Returns None, q)
       | t :: l => (Returns (Some t), set_data l q)
       end.

Definition suspend (clearQue : bool) (q : BlockingQueue) : BlockingQueue :=
  if suspended q then q
  else {| dataQueue := if clearQue then [] else dataQueue q; suspended := true; maxSize := maxSize q |}.
Definition resume (q : BlockingQueue) : BlockingQueue :=
  if negb (suspended q) then q else {| dataQueue := dataQueue q; suspended := false; maxSize := maxSize q |}.

(** ** [ThreadPool] *)

(** A thread of [runnerProc]: in the loop, where it gets a task or waits for one;
    running a task, from the loop or while it drains the queue; draining; at its end. *)
Inductive worker := Looping | Running (t : T) (drains : bool) | Draining | Ended.

(** The pool, and beside it the tasks that were accepted by [execute], those that were
    started, those that are done, and those that were taken back, each in order. *)
Record ThreadPool := {
  runQueue : BlockingQueue;
  pool : list worker;
  runningCount_ : Z;
  accepted : list T;
  started : list T;
  finished : list T;
  taken_back : list T
}.

(** [init(size)] of a new pool: the threads enter their loop. *)
Definition ThreadPool_init (size_ : nat) : ThreadPool :=
  {| runQueue := BlockingQueue_of (2 * Z.of_nat size_); pool := replicate size_ Looping; runningCount_ := Z.of_nat size_;
     accepted := []; started := []; finished := []; taken_back := [] |}.

Definition set_queue (q : BlockingQueue) (p : ThreadPool) : ThreadPool :=
  {| runQueue := q; pool := pool p; runningCount_ := runningCount_ p; accepted := accepted p; started := started p;
     finished := finished p; taken_back := taken_back p |}.
Definition accept (t : T) (p : ThreadPool) : ThreadPool :=
  {| runQueue := runQueue p; pool := pool p; runningCount_ := runningCount_ p; accepted := accepted p ++ [t];
     started := started p; finished := finished p; taken_back := taken_back p |}.
Definition take_back (t : T) (p : ThreadPool) : ThreadPool :=
  {| runQueue := runQueue p; pool := pool p; runningCount_ := runningCount_ p; accepted := accepted p;
     started := started p; finished := finished p; taken_back := taken_back p ++ [t] |}.
Definition set_worker (i : nat) (w : worker) (p : ThreadPool) : ThreadPool :=
  {| runQueue := runQueue p; pool := <[i := w]> (pool p); runningCount_ := runningCount_ p; accepted := accepted p;
     started := started p; finished := finished p; taken_back := taken_back p |}.
Definition start (t : T) (p : ThreadPool) : ThreadPool :=
  {| runQueue := runQueue p; pool := pool p; runningCount_ := runningCount_ p; accepted := accepted p;
     started := started p ++ [t]; finished := finished p; taken_back := taken_back p |}.
Definition finish (t : T) (p : ThreadPool) : ThreadPool :=
  {| runQueue := runQueue p; pool := pool p; runningCount_ := runningCount_ p; accepted := accepted p;
     started := started p; finished := finished p ++ [t]; taken_back := taken_back p |}.
Definition decRunningCount (p : ThreadPool) : ThreadPool :=
  {| runQueue := runQueue p; pool := pool p;
     runningCount_ := if 0 <? runningCount_ p then runningCount_ p - 1 else runningCount_ p;
     accepted := accepted p; started := started p; finished := finished p; taken_back := taken_back p |}.

(** [isBusy]: "all threads is busy". *)
Definition isBusy (p : ThreadPool) : bool := Z.of_nat (length (pool p)) <=? runningCount_ p.

(** [execute(r, timeout)] and [remove(task)]. *)
Definition execute (t : T) (elapsed : bool) (p : ThreadPool) : attempt bool * ThreadPool :=
  match timedAdd t false elapsed (runQueue p) with
  | (Returns true, q) => (Returns true, accept t (set_queue q p))
  | (r, q) => (r, set_queue q p)
  end.
Definition pool_remove (t : T) (p : ThreadPool) : bool * ThreadPool :=
  match remove t (runQueue p) with
  | (true, q) => (true, take_back t (set_queue q p))
  | (false, q) => (false, p)
  end.
Definition shutdown (p : ThreadPool) : ThreadPool := set_queue (suspend false (runQueue p)) p.

(** A step of the thread [i], [None] when it waits or is at its end. The count is
    raised again when the loop begins anew. *)
Definition worker_step (i : nat) (p : ThreadPool) : option ThreadPool :=
  match pool p !! i with
  | Some Looping =>
      match get (runQueue p) with
      | (Returns t, q) => Some (start t (set_worker i (Running t false) (set_queue q p)))
      | (Throws _, q) => Some (set_worker i Draining p)
      | _ => None
      end
  | Some (Running t drains) => Some (finish t (set_worker i (if drains then Draining else Looping) p))
  | Some Draining =>
      match getAfterSuspend (runQueue p) with
      | (Returns (Some t), q) => Some (start t (set_worker i (Running t true) (set_queue q p)))
      | _ => Some (decRunningCount (set_worker i Ended p))
      end
  | Some Ended | None => None
  end.

Inductive pool_steps : ThreadPool -> ThreadPool -> Prop :=
  | Execute t elapsed p : pool_steps p (execute t elapsed p).2
  | Remove t p : pool_steps p (pool_remove t p).2
  | Shutdown p : pool_steps p (shutdown p)
  | Work i p p' : worker_step i p = Some p' -> pool_steps p p'.

End queue.

Arguments BlockingQueue : clear implicits.
Arguments ThreadPool : clear implicits.
Arguments worker : clear implicits.

(** ** The invariant of the pool *)

Section invariant.
  Context {T : Type} {TE : EqDecision T}.
  Implicit Types (p : ThreadPool T) (w : worker T).

Definition task (w : worker T) : option T := match w with Running t _ => Some t | _ => None end.
Definition executing (p : ThreadPool T) : list T := omap task (pool p).
Definition alive (w : worker T) : bool := match w with Ended => false | _ => true end.
Definition in_loop (w : worker T) : Prop := match w with Looping | Running _ false => True | _ => False end.

Record pool_ok (n : nat) (p : ThreadPool T) : Prop := {
  po_length : length (pool p) = n;
  po_max : maxSize (runQueue p) = 2 * Z.of_nat n;
  po_bound : size (runQueue p) <= maxSize (runQueue p);
  po_count : runningCount_ p = Z.of_nat (length (List.filter alive (pool p)));
  po_started : started p ≡ₚ executing p ++ finished p;
  po_all : accepted p ≡ₚ started p ++ dataQueue (runQueue p) ++ taken_back p;
  po_fifo : (started p ++ dataQueue (runQueue p)) `sublist_of` accepted p;
  po_loop : suspended (runQueue p) = false -> Forall in_loop (pool p);
  po_ended : Ended ∈ pool p -> suspended (runQueue p) = true /\ dataQueue (runQueue p) = []
}.

Inductive reachable (n : nat) : ThreadPool T -> Prop :=
  | reach_init : reachable n (ThreadPool_init n)
  | reach_step p p' : reachable n p -> pool_steps p p' -> reachable n p'.

Lemma omap_insert {A} (f : worker T -> option A) ws i w0 w : ws !! i = Some w0 ->
  omap f (<[i := w]> ws) ++ option_list (f w0) ≡ₚ omap f ws ++ option_list (f w).
Proof.
  revert i. induction ws as [|w1 ws IH]; intros [|i] Hi; simpl in *; [done..| |].
  - injection Hi as ->. destruct (f w), (f w0); simpl; solve_Permutation.
  - specialize (IH i Hi). destruct (f w1); simpl; by rewrite IH.
Qed.

Lemma filter_insert_length (g : worker T -> bool) ws i w0 w : ws !! i = Some w0 ->
  (length (List.filter g (<[i := w]> ws)) + (if g w0 then 1 else 0) =
   length (List.filter g ws) + (if g w then 1 else 0))%nat.
Proof.
  revert i. induction ws as [|w1 ws IH]; intros [|i] Hi; simpl in *; [done..| |].
  - injection Hi as ->. destruct (g w), (g w0); simpl; lia.
  - specialize (IH i Hi). destruct (g w1); simpl; lia.
Qed.

Lemma executing_init n : omap task (replicate n (@Looping T)) = [].
Proof. by induction n. Qed.

Lemma erase_first_some (v : T) l l' : erase_first v l = Some l' -> l ≡ₚ v :: l' /\ l' `sublist_of` l.
Proof.
  revert l'. induction l as [|t l IH]; intros l'; simpl; [done|]. case_bool_decide as E.
  - intros [= <-]. subst. split; [done|]. by apply sublist_cons.
  - destruct (erase_first v l) as [l1|]; [|done]. intros [= <-]. destruct (IH l1 eq_refl) as [HP HS]. split.
    + rewrite HP. solve_Permutation.
    + by apply sublist_skip.
Qed.

Lemma init_ok n : pool_ok n (ThreadPool_init n).
Proof.
  split; simpl; unfold executing, size; simpl; try done; try lia.
  - by rewrite length_replicate.
  - f_equal. clear. induction n as [|n IH]; simpl; [done|]. by rewrite <- IH.
  - by rewrite executing_init.
  - intros _. apply Forall_replicate. exact I.
  - by intros ?%elem_of_replicate_inv.
Qed.

(** A thread that changes its state, with what that does to the tasks. *)
Lemma executing_set i w0 w p : pool p !! i = Some w0 ->
  executing (set_worker i w p) ++ option_list (task w0) ≡ₚ executing p ++ option_list (task w).
Proof. intros Hi. by apply omap_insert. Qed.

Lemma count_set i w0 w p : pool p !! i = Some w0 ->
  (length (List.filter alive (pool (set_worker i w p))) + (if alive w0 then 1 else 0) =
   length (List.filter alive (pool p)) + (if alive w then 1 else 0))%nat.
Proof. intros Hi. by apply filter_insert_length. Qed.

Lemma loop_set i w p : in_loop w -> Forall in_loop (pool p) -> Forall in_loop (pool (set_worker i w p)).
Proof. intros Hw HF. by apply Forall_insert. Qed.

Lemma ended_set i w p : w <> Ended -> Ended ∈ pool (set_worker i w p) -> Ended ∈ pool p.
Proof.
  simpl. intros Hw (j & Hj)%list_elem_of_lookup. destruct (decide (i = j)) as [<-|Hne].
  - apply list_lookup_insert_Some in Hj as [(_ & -> & _)|[? _]]; done.
  - rewrite list_lookup_insert_ne in Hj by done. by apply list_elem_of_lookup_2 in Hj.
Qed.

(** A thread takes the first task of the queue. *)
Lemma take_ok n i w0 w t l p : pool_ok n p -> pool p !! i = Some w0 -> task w0 = None -> w0 <> Ended ->
  task w = Some t -> (in_loop w0 -> in_loop w) -> dataQueue (runQueue p) = t :: l ->
  pool_ok n (start t (set_worker i w (set_queue (set_data l (runQueue p)) p))).
Proof.
  intros H Hi Ht0 Ha Htw Hlw Hq. destruct H as [H1 H2 H3 H4 H5 H6 H7 H8 H9].
  assert (Hw : w <> Ended) by (by intros ->). assert (Hal : alive w = true) by (by destruct w).
  assert (Hal0 : alive w0 = true) by (by destruct w0).
  pose proof (executing_set i w0 w p Hi) as He. rewrite Ht0, Htw in He. simpl in He. rewrite app_nil_r in He.
  pose proof (count_set i w0 w p Hi) as Hc. rewrite Hal, Hal0 in Hc.
  split; simpl.
  - by rewrite length_insert.
  - done.
  - unfold size in *. simpl. rewrite Hq in H3. simpl in H3. lia.
  - simpl in Hc. lia.
  - unfold executing in *. simpl in *. rewrite He, H5. solve_Permutation.
  - rewrite H6, Hq. solve_Permutation.
  - rewrite <- app_assoc. simpl. by rewrite <- Hq.
  - intros Hs. apply Forall_insert; [by apply H8|]. apply Hlw. by apply (Forall_lookup_1 _ _ _ _ (H8 Hs) Hi).
  - intros HE. destruct H9 as [_ H9]; [by apply (ended_set i w)|]. congruence.
Qed.

Lemma idle_ok n i w0 w p : pool_ok n p -> pool p !! i = Some w0 -> task w0 = None -> w0 <> Ended ->
  task w = None -> w <> Ended -> (suspended (runQueue p) = false -> in_loop w) -> pool_ok n (set_worker i w p).
Proof.
  intros H Hi Ht0 Ha Htw Hw Hlw. destruct H as [H1 H2 H3 H4 H5 H6 H7 H8 H9].
  assert (Hal : alive w = true) by (by destruct w). assert (Hal0 : alive w0 = true) by (by destruct w0).
  pose proof (executing_set i w0 w p Hi) as He. rewrite Ht0, Htw in He. simpl in He. rewrite !app_nil_r in He.
  pose proof (count_set i w0 w p Hi) as Hc. rewrite Hal, Hal0 in Hc.
  split; simpl; try done.
  - by rewrite length_insert.
  - simpl in Hc. lia.
  - unfold executing in *. simpl in *. by rewrite He.
  - intros Hs. apply Forall_insert; [by apply H8|by apply Hlw].
  - intros HE. apply H9. by apply (ended_set i w).
Qed.

Lemma finish_ok n i t d p : pool_ok n p -> pool p !! i = Some (Running t d) ->
  pool_ok n (finish t (set_worker i (if d then Draining else Looping) p)).
Proof.
  intros H Hi. destruct H as [H1 H2 H3 H4 H5 H6 H7 H8 H9]. set (w := if d then Draining else Looping).
  assert (Htw : task w = None) by (by destruct d). assert (Hw : w <> Ended) by (by destruct d).
  assert (Hal : alive w = true) by (by destruct d).
  pose proof (executing_set i _ w p Hi) as He. rewrite Htw in He. simpl in He. rewrite app_nil_r in He.
  pose proof (count_set i _ w p Hi) as Hc. rewrite Hal in Hc. simpl in Hc.
  split; simpl; try done.
  - by rewrite length_insert.
  - lia.
  - unfold executing in *. simpl in *. rewrite H5, <- He. solve_Permutation.
  - intros Hs. apply Forall_insert; [by apply H8|]. pose proof (Forall_lookup_1 _ _ _ _ (H8 Hs) Hi) as Hl.
    by destruct d.
  - intros HE. apply H9. by apply (ended_set i w).
Qed.

Lemma end_ok n i p : pool_ok n p -> pool p !! i = Some Draining -> suspended (runQueue p) = true ->
  dataQueue (runQueue p) = [] -> pool_ok n (decRunningCount (set_worker i Ended p)).
Proof.
  intros H Hi Hs Hq. destruct H as [H1 H2 H3 H4 H5 H6 H7 H8 H9].
  pose proof (executing_set i _ Ended p Hi) as He. simpl in He. rewrite !app_nil_r in He.
  pose proof (count_set i _ Ended p Hi) as Hc. simpl in Hc.
  split; simpl; try done.
  - by rewrite length_insert.
  - rewrite H4. destruct (0 <? _) eqn:E; lia.
  - unfold executing in *. simpl in *. by rewrite He.
  - congruence.
Qed.

Lemma worker_ok n i p p' : pool_ok n p -> worker_step i p = Some p' -> pool_ok n p'.
Proof.
  intros H. unfold worker_step. destruct (pool p !! i) as [[|t d| |]|] eqn:Hi; try done.
  - unfold get. destruct (suspended (runQueue p)) eqn:Hs.
    + intros [= <-]. by apply (idle_ok n i Looping); [done..|congruence].
    + destruct (dataQueue (runQueue p)) as [|t l] eqn:Hq; [done|]. intros [= <-]. by eapply (take_ok n i Looping).
  - intros [= <-]. by apply finish_ok.
  - unfold getAfterSuspend. destruct (suspended (runQueue p)) eqn:Hs; simpl.
    + destruct (dataQueue (runQueue p)) as [|t l] eqn:Hq; intros [= <-]; [by apply end_ok|]. by eapply (take_ok n i Draining).
    + pose proof (Forall_lookup_1 _ _ _ _ (po_loop _ _ H Hs) Hi) as Hl. done.
Qed.

Lemma execute_ok n t elapsed p : pool_ok n p -> pool_ok n (execute t elapsed p).2.
Proof.
  intros H. pose proof H as [H1 H2 H3 H4 H5 H6 H7 H8 H9]. unfold execute, timedAdd.
  assert (Hsame : pool_ok n (set_queue (runQueue p) p)) by (by destruct p).
  destruct (suspended (runQueue p)) eqn:Hs; [done|]. destruct (size _ <? _) eqn:Hl; [|by destruct elapsed].
  split; simpl; try done.
  - unfold size in *. simpl. rewrite length_app. simpl. lia.
  - rewrite H6. solve_Permutation.
  - rewrite app_assoc. by apply sublist_app.
  - intros _. by apply H8.
  - intros HE. by destruct (H9 HE).
Qed.

Lemma remove_ok n t p : pool_ok n p -> pool_ok n (pool_remove t p).2.
Proof.
  intros H. pose proof H as [H1 H2 H3 H4 H5 H6 H7 H8 H9]. unfold pool_remove, remove.
  destruct (erase_first t _) as [l|] eqn:E; [|done]. apply erase_first_some in E as [HP HS]. split; simpl; try done.
  - unfold size in *. simpl. rewrite (Permutation_length HP) in H3. simpl in H3. lia.
  - rewrite H6, HP. solve_Permutation.
  - etrans; [|exact H7]. by apply sublist_app.
  - intros HE. destruct (H9 HE) as [Hs Hq]. rewrite Hq in HP. by apply Permutation_nil_l in HP.
Qed.

Lemma shutdown_ok n p : pool_ok n p -> pool_ok n (shutdown p).
Proof.
  intros H. pose proof H as [H1 H2 H3 H4 H5 H6 H7 H8 H9]. unfold shutdown, suspend.
  destruct (suspended (runQueue p)) eqn:Hs; [by destruct p|]. split; simpl; try done.
  intros HE. by destruct (H9 HE).
Qed.

Lemma reachable_ok n p : reachable n p -> pool_ok n p.
Proof.
  induction 1 as [|p p' _ IH Hstep]; [apply init_ok|].
  destruct Hstep; [by apply execute_ok|by apply remove_ok|by apply shutdown_ok|by eapply worker_ok].
Qed.

End invariant.

(** ** What the pool promises *)

Section promises.
  Context {T : Type} {TE : EqDecision T}.
  Implicit Types (p : ThreadPool T).

Lemma length_executing p : (length (executing p) <= length (pool p))%nat.
Proof.
  unfold executing. induction (pool p) as [|w ws IH]; [done|].
  rewrite length_cons. assert (H : omap task (w :: ws) = option_list (task w) ++ omap task ws) by (by destruct w).
  rewrite H, length_app. assert (length (option_list (task w)) <= 1)%nat by (destruct w; simpl; lia). lia.
Qed.

Lemma all_ended_idle p : Forall (fun w => w = Ended) (pool p) -> executing p = [].
Proof. unfold executing. induction 1 as [|w ws -> _ IH]; [done|]. exact IH. Qed.

Lemma all_places n p : reachable n p ->
  accepted p ≡ₚ executing p ++ finished p ++ dataQueue (runQueue p) ++ taken_back p.
Proof. intros H%reachable_ok. by rewrite (po_all _ _ H), (po_started _ _ H), <- !app_assoc. Qed.

Lemma all_done n p : reachable n p -> n <> O -> Forall (fun w => w = Ended) (pool p) ->
  accepted p ≡ₚ finished p ++ taken_back p.
Proof.
  intros Hr Hn HE. rewrite (all_places n p Hr), all_ended_idle by done. apply reachable_ok in Hr. simpl.
  destruct (pool p) as [|w ws] eqn:Ep; [by rewrite <- (po_length _ _ Hr), Ep in Hn|].
  apply Forall_cons in HE as [-> _]. destruct (po_ended _ _ Hr) as [_ ->]; [rewrite Ep; by left|done].
Qed.

(** C37: The pool runs every task that it accepts exactly once, unless the task is taken
    back before: whatever threads do, an accepted task is in one place, in the
    queue, with one thread, done, or taken back; tasks are started in the order in
    which they were accepted; there are never more of them under way than threads,
    nor more waiting than two for each thread; and when all threads have come to
    their end after [shutdown], nothing that was accepted is left undone. *)
Theorem pool_runs_accepted (n : nat) (p : ThreadPool T) : reachable n p ->
  accepted p ≡ₚ executing p ++ finished p ++ dataQueue (runQueue p) ++ taken_back p /\
  started p `sublist_of` accepted p /\
  (length (executing p) <= n)%nat /\ size (runQueue p) <= 2 * Z.of_nat n /\
  (n <> O -> Forall (fun w => w = Ended) (pool p) -> accepted p ≡ₚ finished p ++ taken_back p).
Proof.
  intros Hr. split; [by apply (all_places n)|]. pose proof (reachable_ok _ _ Hr) as H. split; [|split; [|split]].
  - etrans; [|exact (po_fifo _ _ H)]. by apply sublist_inserts_r.
  - rewrite <- (po_length _ _ H). apply length_executing.
  - rewrite <- (po_max _ _ H). apply (po_bound _ _ H).
  - by apply all_done.
Qed.

(** What is left to do once the queue is suspended. *)
Definition weight (w : worker T) : nat := match w with Ended => 0 | Draining => 1 | Looping => 2 | Running _ _ => 3 end.
Definition work_left (p : ThreadPool T) : nat :=
  (sum_list_with weight (pool p) + 3 * length (dataQueue (runQueue p)))%nat.

Lemma weight_set i w0 w p : pool p !! i = Some w0 ->
  (sum_list_with weight (<[i := w]> (pool p)) + weight w0 = sum_list_with weight (pool p) + weight w)%nat.
Proof.
  generalize (pool p) as ws. intros ws. revert i. induction ws as [|w1 ws IH]; intros [|i] Hi; simpl in *; [done..| |].
  - injection Hi as ->. lia.
  - specialize (IH i Hi). lia.
Qed.

Lemma worker_step_left i p p' : suspended (runQueue p) = true -> worker_step i p = Some p' ->
  suspended (runQueue p') = true /\ (work_left p' < work_left p)%nat.
Proof.
  intros Hs. unfold worker_step, work_left. destruct (pool p !! i) as [w0|] eqn:Hi; [|done].
  destruct w0 as [|t d| |]; try done.
  - unfold get. rewrite Hs. intros [= <-]. split; [done|]. pose proof (weight_set i _ Draining p Hi) as Hw. simpl in *. lia.
  - intros [= <-]. split; [done|]. pose proof (weight_set i _ (if d then Draining else Looping) p Hi) as Hw.
    simpl in *. destruct d; simpl in *; lia.
  - unfold getAfterSuspend. rewrite Hs. simpl. destruct (dataQueue (runQueue p)) as [|t l] eqn:Hq; intros [= <-]; (split; [done|]).
    + pose proof (weight_set i _ Ended p Hi) as Hw. simpl in *. rewrite Hq. simpl. lia.
    + pose proof (weight_set i _ (Running t true) p Hi) as Hw. simpl in *. lia.
Qed.

Lemma worker_step_some i w p : suspended (runQueue p) = true -> pool p !! i = Some w -> w <> Ended ->
  worker_step i p <> None.
Proof.
  intros Hs Hi Hw. unfold worker_step. rewrite Hi. destruct w; try done.
  - unfold get. by rewrite Hs.
  - unfold getAfterSuspend. rewrite Hs. simpl. by destruct (dataQueue (runQueue p)).
Qed.

(** Several steps of the threads, in any order. *)
Inductive works : nat -> ThreadPool T -> ThreadPool T -> Prop :=
  | works_0 p : works 0 p p
  | works_S k i p p1 p2 : worker_step i p = Some p1 -> works k p1 p2 -> works (S k) p p2.

Lemma works_reachable n k p p' : works k p p' -> reachable n p -> reachable n p'.
Proof.
  induction 1 as [|k i p p1 p2 Hs _ IH]; [done|]. intros Hr. apply IH. eapply reach_step; [exact Hr|]. by apply (Work i).
Qed.

(** C38: After [shutdown] the pool comes to an end: whatever the order of its threads,
    they take no more steps than there is work left, and where no thread can take
    another step all of them have ended and every accepted task was run once or
    taken back. *)
Theorem pool_shutdown (n k : nat) (p p' : ThreadPool T) : reachable n p -> n <> O ->
  suspended (runQueue p) = true -> works k p p' ->
  (k <= work_left p)%nat /\
  ((forall i, worker_step i p' = None) ->
   Forall (fun w => w = Ended) (pool p') /\ accepted p' ≡ₚ finished p' ++ taken_back p').
Proof.
  intros Hr Hn Hs Hk. assert (H : (k + work_left p' <= work_left p)%nat /\ suspended (runQueue p') = true).
  { clear Hr. induction Hk as [|k i p p1 p2 Hstep _ IH]; [done|].
    destruct (worker_step_left i p p1 Hs Hstep) as [Hs1 Hl]. destruct (IH Hs1). split; [lia|done]. }
  destruct H as [Hl Hs']. split; [lia|]. intros Hstop.
  assert (HE : Forall (fun w => w = Ended) (pool p')).
  { apply Forall_lookup. intros i w Hi. destruct w; try done; by destruct (worker_step_some i _ p' Hs' Hi ltac:(done)). }
  split; [done|]. by apply (all_done n); [eapply works_reachable|done|done].
Qed.

(** [isBusy] counts the threads that wait for a task: until a thread has ended, the
    pool is always busy. *)
Lemma pool_always_busy n p : reachable n p -> suspended (runQueue p) = false -> isBusy p = true.
Proof.
  intros [H1 H2 H3 H4 H5 H6 H7 H8 H9]%reachable_ok Hs. unfold isBusy. rewrite H4. apply Z.leb_le.
  assert (HF := H8 Hs). clear -HF. induction HF as [|w ws Hw _ IH]; simpl; [lia|]. destruct w; simpl in *; try done; lia.
Qed.

End promises.

(** ** Runs of the pool *)

(** A pool of one thread that is asked for three tasks, one of them too many. *)
Definition asked : ThreadPool Z := (execute 3 true (execute 2 false (execute 1 false (ThreadPool_init 1)).2).2).2.

Example asked_waiting : dataQueue (runQueue asked) = [1; 2].
Proof. reflexivity. Qed.

Example asked_third : (execute 3 true asked).1 = Returns false.
Proof. reflexivity. Qed.

Lemma asked_reachable : reachable 1 asked.
Proof. unfold asked. repeat (eapply reach_step; [|apply Execute]). apply reach_init. Qed.

Definition step0 (p : ThreadPool Z) : ThreadPool Z := default p (worker_step 0 p).

Lemma step0_works k p : worker_step 0 p = Some (step0 p) ->
  forall p', works k (step0 p) p' -> works (S k) p p'.
Proof. intros H p' Hk. by eapply works_S. Qed.

Lemma step0_reachable p : worker_step 0 p = Some (step0 p) -> reachable 1 p -> reachable 1 (step0 p).
Proof. intros H Hr. eapply reach_step; [exact Hr|]. by apply (Work 0). Qed.

Definition shut : ThreadPool Z := shutdown (step0 asked).

Lemma shut_reachable : reachable 1 shut.
Proof. eapply reach_step; [|apply Shutdown]. apply step0_reachable; [reflexivity|apply asked_reachable]. Qed.

Definition shut_end : ThreadPool Z := step0 (step0 (step0 (step0 (step0 shut)))).

Lemma shut_works : works 5 shut shut_end.
Proof. repeat (apply step0_works; [reflexivity|]). apply works_0. Qed.

Lemma pool_runs_accepted_witness :
  accepted shut ≡ₚ executing shut ++ finished shut ++ dataQueue (runQueue shut) ++ taken_back shut /\
  executing shut = [1] /\ dataQueue (runQueue shut) = [2].
Proof. split; [|by split]. apply (pool_runs_accepted 1 shut), shut_reachable. Defined.

Lemma pool_shutdown_witness : accepted shut_end ≡ₚ finished shut_end ++ taken_back shut_end /\ finished shut_end = [1; 2].
Proof.
  split; [|reflexivity]. apply (pool_shutdown 1 5 shut shut_end); [apply shut_reachable|done|reflexivity|apply shut_works|].
  intros [|i]; [reflexivity|]. unfold worker_step. by destruct i.
Defined.

(** A thread that waits in [timedGet] when the queue is suspended does not look at
    [suspended]: it takes the front of an empty queue. A thread that comes later is
    told. *)
Example timedGet_suspended_empty :
  timedGet false true false (suspend false (BlockingQueue_of (T := Z) 5)) = (Front_of_empty, suspend false (BlockingQueue_of 5)).
Proof. reflexivity. Qed.

Example timedGet_suspended_later :
  timedGet false false false (suspend false (BlockingQueue_of (T := Z) 5)) = (Throws QueueSuspended, suspend false (BlockingQueue_of 5)).
Proof. reflexivity. Qed.
