(* ===== verification/KafkaThread.v ===== *)
(** * The thread that gives messages to Kafka
      (src/src/lib/kvsubscribe/KafkaProducerThread.cc, KafkaProducer.cpp)

    The thread takes commands from its queue and hands their data to the client
    library, which reports later, in any order, what became of each message; the
    reports come while the thread calls [catchup]. The thread is a step relation
    over its state; what the library does is a choice of the step. *)

From S2P Require Import Prelude BlockingQueue.

#[local] Open Scope Z_scope.

Section KafkaThread.
  Context {C : Type} {CE : EqDecision C} (getData : C -> bytes).

(** Where the thread is: in the loop of [run], in the two loops of [drainQue], at its
    end; or it took the front of an empty queue. *)
Inductive place := Running_ | Draining_ | Catching | Exited | Broken.

(** What the commands are told, in order, and the commands of a send that threw, which
    nobody is told about. *)
Inductive event := OnSend (id : Z) (c : C) | OnSuccess (id : Z) (c : C) | OnError (id : Z) (c : C) | Dropped (c : C).

(** [unreported]: the messages that the library has and has not reported. [offered]: the
    commands that were put in the queue. *)
Record KafkaThread := {
  que : BlockingQueue C;
  messageId : Z;
  waitingAck : list (Z * C);
  unreported : list Z;
  at_ : place;
  offered : list C;
  events : list event
}.

Definition KafkaThread_new (queueSize : Z) : KafkaThread :=
  {| que := BlockingQueue_of queueSize; messageId := 0; waitingAck := []; unreported := []; at_ := Running_; offered := [];
     events := [] |}.

Definition with_que (q : BlockingQueue C) (s : KafkaThread) : KafkaThread :=
  {| que := q; messageId := messageId s; waitingAck := waitingAck s; unreported := unreported s; at_ := at_ s;
     offered := offered s; events := events s |}.
Definition goes (p : place) (s : KafkaThread) : KafkaThread :=
  {| que := que s; messageId := messageId s; waitingAck := waitingAck s; unreported := unreported s; at_ := p;
     offered := offered s; events := events s |}.
Definition tell (l : list event) (s : KafkaThread) : KafkaThread :=
  {| que := que s; messageId := messageId s; waitingAck := waitingAck s; unreported := unreported s; at_ := at_ s;
     offered := offered s; events := events s ++ l |}.

(** [KafkaProducer::send], whose number is used up in any case, and [send] of a command:
    whether it threw. *)
Definition send (accepts : bool) (c : C) (s : KafkaThread) : bool * KafkaThread :=
  if bool_decide (getData c = []) then (false, tell [OnSend 0 c; OnSuccess 0 c] s)
  else
    let id := messageId s in
    if accepts then
      (false, {| que := que s; messageId := id + 1; waitingAck := waitingAck s ++ [(id, c)]; unreported := unreported s ++ [id];
                 at_ := at_ s; offered := offered s; events := events s ++ [OnSend id c] |})
    else
      (true, {| que := que s; messageId := id + 1; waitingAck := waitingAck s; unreported := unreported s; at_ := at_ s;
                offered := offered s; events := events s ++ [Dropped c] |}).

(** [getWaitingMessage]: the command of a number, taken out of the map. *)
Fixpoint getWaitingMessage (id : Z) (l : list (Z * C)) : option (C * list (Z * C)) :=
  match l with
  | [] => None
  | e :: l => if e.1 =? id then Some (e.2, l) else '(c, l) ← getWaitingMessage id l; Some (c, e :: l)
  end.

(** A report of the library, [onSuccess] or [onError]. *)
Definition report (id : Z) (ok : bool) (s : KafkaThread) : KafkaThread :=
  match getWaitingMessage id (waitingAck s) with
  | None => {| que := que s; messageId := messageId s; waitingAck := waitingAck s;
               unreported := List.filter (fun i => negb (i =? id)) (unreported s); at_ := at_ s; offered := offered s; events := events s |}
  | Some (c, l) =>
      {| que := que s; messageId := messageId s; waitingAck := l; unreported := List.filter (fun i => negb (i =? id)) (unreported s);
         at_ := at_ s; offered := offered s; events := events s ++ [if ok then OnSuccess id c else OnError id c] |}
  end.

(** One round of the loop of [run], after the reports. *)
Definition run_round (accepts woken elapsed : bool) (s : KafkaThread) : option KafkaThread :=
  match timedGet false woken elapsed (que s) with
  | (Returns (Some c), q) => Some (send accepts c (with_que q s)).2
  | (Returns None, q) => Some (with_que q s)
  | (Throws QueueSuspended, q) => Some (goes Draining_ (with_que q s))
  | (Throws _, q) => Some (with_que q s)
  | (Front_of_empty, q) => Some (goes Broken (with_que q s))
  | (Waits, _) => None
  end.

(** One round of the first loop of [drainQue]; any exception ends it. *)
Definition drain_round (accepts : bool) (s : KafkaThread) : KafkaThread :=
  if bool_decide (dataQueue (que s) = []) then goes Catching s
  else match getAfterSuspend (que s) with
       | (Returns (Some c), q) => let '(threw, s') := send accepts c (with_que q s) in if threw then goes Catching s' else s'
       | (_, q) => goes Catching (with_que q s)
       end.

Inductive kafka_step : KafkaThread -> KafkaThread -> Prop :=
  | k_offer c elapsed s : kafka_step s
      match timedAdd c true elapsed (que s) with
      | (Returns _, q) =>
          {| que := q; messageId := messageId s; waitingAck := waitingAck s; unreported := unreported s; at_ := at_ s;
             offered := offered s ++ [c]; events := events s |}
      | (_, q) => with_que q s
      end
  | k_suspend s : kafka_step s (with_que (suspend false (que s)) s)
  | k_report id ok s : id ∈ unreported s -> at_ s = Running_ \/ at_ s = Catching -> kafka_step s (report id ok s)
  | k_run accepts woken elapsed s s' : at_ s = Running_ -> run_round accepts woken elapsed s = Some s' -> kafka_step s s'
  | k_drain accepts s : at_ s = Draining_ -> kafka_step s (drain_round accepts s)
  | k_exit s : at_ s = Catching -> waitingAck s = [] -> kafka_step s (goes Exited s).

Inductive kafka_reachable (queueSize : Z) : KafkaThread -> Prop :=
  | k_start : kafka_reachable queueSize (KafkaThread_new queueSize)
  | k_more s s' : kafka_reachable queueSize s -> kafka_step s s' -> kafka_reachable queueSize s'.

(** ** What becomes of the commands *)

(** The commands that were told the end of their message, and those that were dropped. *)
Definition settled (e : event) : option C := match e with OnSuccess _ c | OnError _ c => Some c | _ => None end.
Definition dropped (e : event) : option C := match e with Dropped c => Some c | _ => None end.

Record kafka_ok (s : KafkaThread) : Prop := {
  ko_ids : NoDup (waitingAck s).*1;
  ko_new : Forall (fun i => 0 <= i < messageId s) (waitingAck s).*1;
  ko_unreported : unreported s = (waitingAck s).*1;
  ko_all : offered s ≡ₚ dataQueue (que s) ++ (waitingAck s).*2 ++ omap settled (events s) ++ omap dropped (events s);
  ko_message : 0 <= messageId s;
  ko_place : at_ s <> Running_ -> suspended (que s) = true;
  ko_rest : at_ s = Catching \/ at_ s = Exited -> omap dropped (events s) = [] -> dataQueue (que s) = [];
  ko_exit : at_ s = Exited -> waitingAck s = []
}.

Lemma getWaiting_spec id l c l' : getWaitingMessage id l = Some (c, l') -> l ≡ₚ (id, c) :: l' /\
  (NoDup l.*1 -> l'.*1 = List.filter (fun i => negb (i =? id)) l.*1) /\ l' `sublist_of` l.
Proof.
  revert l'. induction l as [|[i d] l IH]; intros l'; [done|]. cbn [getWaitingMessage fst snd].
  destruct (Z.eqb_spec i id) as [->|Hne].
  - intros [= -> <-]. split; [done|]. split; [|by apply sublist_cons]. rewrite fmap_cons. intros [Hi Hn]%NoDup_cons.
    cbn [List.filter fst]. rewrite Z.eqb_refl. cbn [negb]. clear -Hi. cbn [fst] in Hi. revert Hi. generalize (l.*1). intros k Hi. induction k as [|j k IH]; [done|].
    apply not_elem_of_cons in Hi as [Hj Hi]. cbn [List.filter]. rewrite (proj2 (Z.eqb_neq j id)) by congruence. cbn [negb].
    f_equal. by apply IH.
  - destruct (getWaitingMessage id l) as [[c' l1]|]; simpl; [|done]. intros [= -> <-]. destruct (IH l1 eq_refl) as (H1 & H2 & H3).
    split; [|split; [|by apply sublist_skip]].
    + rewrite H1. apply Permutation_swap.
    + intros [Hi Hn]%NoDup_cons. rewrite (proj2 (Z.eqb_neq i id)) by done. simpl. f_equal. by apply H2.
Qed.

Lemma getWaiting_some id l : id ∈ l.*1 -> exists c l', getWaitingMessage id l = Some (c, l').
Proof.
  induction l as [|[i c] l IH]; [by intros ?%elem_of_nil|]. rewrite fmap_cons. cbn [getWaitingMessage fst snd].
  destruct (Z.eqb_spec i id) as [->|Hne]; [by eexists _, _|]. intros [E|Hin]%elem_of_cons; [by simpl in E|].
  destruct (IH Hin) as (d & l' & ->). by eexists _, _.
Qed.

(** A command leaves the queue and is sent. *)
Lemma send_ok accepts c q s : kafka_ok s -> dataQueue (que s) ≡ₚ c :: dataQueue q -> suspended q = suspended (que s) ->
  at_ s = Running_ \/ at_ s = Draining_ ->
  let s' := (send accepts c (with_que q s)).2 in
  kafka_ok s' /\ at_ s' = at_ s /\ que s' = q /\ ((send accepts c (with_que q s)).1 = true -> omap dropped (events s') <> []).
Proof.
  intros [H1 H2 H3 H4 H5 H6 H7 H8] Hq Hs Hp. unfold send. case_bool_decide as E; [|destruct accepts]; simpl.
  - split; [|done]. split; simpl; try done; try (intros; congruence); [|by rewrite Hs|intuition congruence].
    rewrite !omap_app, H4, Hq. simpl. rewrite app_nil_r. solve_Permutation.
  - split; [|done]. split; simpl; try done; [| | | |lia|by rewrite Hs|intuition congruence|intuition congruence].
    + rewrite fmap_app. apply NoDup_app. split; [done|]. split; [|apply NoDup_singleton].
      intros i Hi ->%list_elem_of_singleton. rewrite Forall_forall in H2. specialize (H2 _ Hi). simpl in H2. lia.
    + rewrite fmap_app. apply Forall_app. split; [|repeat constructor; simpl; lia].
      eapply Forall_impl; [exact H2|]. simpl. lia.
    + by rewrite fmap_app, H3.
    + rewrite !omap_app, H4, Hq, fmap_app. simpl. rewrite !app_nil_r. solve_Permutation.
  - split; [split|split; [done|split; [done|]]]; simpl; try done; try (intros; congruence);
      [| |lia|by rewrite Hs|intuition congruence|intros _; rewrite omap_app; by destruct (omap dropped (events s))].
    + eapply Forall_impl; [exact H2|]. simpl. lia.
    + rewrite !omap_app, H4, Hq. simpl. rewrite app_nil_r. solve_Permutation.
Qed.

Lemma same_ok s q : kafka_ok s -> dataQueue q = dataQueue (que s) -> (suspended (que s) = true -> suspended q = true) -> kafka_ok (with_que q s).
Proof. intros [H1 H2 H3 H4 H5 H6 H7 H8] Hd Hs. split; simpl; rewrite ?Hd; auto. Qed.

Lemma goes_ok p s : kafka_ok s -> suspended (que s) = true -> (p = Catching -> omap dropped (events s) = [] -> dataQueue (que s) = []) ->
  (p = Exited -> at_ s = Catching /\ waitingAck s = []) -> kafka_ok (goes p s).
Proof.
  intros [H1 H2 H3 H4 H5 H6 H7 H8] Hs Hc He. split; simpl; auto.
  - intros [-> | ->] Hd; [by apply Hc|]. destruct (He eq_refl) as [Ha _]. apply H7; [by left|done].
  - intros ->. by apply He.
Qed.

Lemma report_ok id ok s : kafka_ok s -> id ∈ unreported s -> at_ s <> Exited -> kafka_ok (report id ok s).
Proof.
  intros [H1 H2 H3 H4 H5 H6 H7 H8] Hid Hx. rewrite H3 in Hid. destruct (getWaiting_some id _ Hid) as (c & l & E).
  destruct (getWaiting_spec _ _ _ _ E) as (Hp & Hk & Hs). unfold report. rewrite E.
  assert (Hsub : l.*1 `sublist_of` (waitingAck s).*1) by by rewrite Hs.
  split; simpl; auto.
  - by eapply sublist_NoDup.
  - apply Forall_forall. intros i Hi. rewrite Forall_forall in H2. by apply H2, (sublist_subseteq _ _ Hsub).
  - by rewrite Hk, H3.
  - rewrite H4, Hp, !omap_app. simpl. destruct ok; simpl; rewrite app_nil_r; solve_Permutation.
  - intros Hp' Hd. apply H7; [done|]. rewrite omap_app in Hd. by apply app_eq_nil in Hd as [? _].
  - intros ?. done.
Qed.

Lemma run_ok accepts woken elapsed s s' : kafka_ok s -> at_ s = Running_ -> run_round accepts woken elapsed s = Some s' -> kafka_ok s'.
Proof.
  intros H Ha. unfold run_round, timedGet. destruct (negb woken && suspended (que s)) eqn:Ew.
  - intros [= <-]. apply andb_true_iff in Ew as [_ Es]. apply goes_ok; [by apply same_ok|done|done|done].
  - destruct (dataQueue (que s)) as [|c l] eqn:Eq.
    + destruct (suspended (que s)) eqn:Es.
      * intros [= <-]. apply goes_ok; [by apply same_ok|done|done|done].
      * destruct elapsed; [|done]. intros [= <-]. by apply same_ok.
    + intros [= <-]. apply send_ok; [done|by rewrite Eq|done|by left].
Qed.

Lemma drain_ok accepts s : kafka_ok s -> at_ s = Draining_ -> kafka_ok (drain_round accepts s).
Proof.
  intros H Ha. assert (Hs : suspended (que s) = true) by (apply (ko_place _ H); by rewrite Ha).
  unfold drain_round. case_bool_decide as E; [by apply goes_ok|]. unfold getAfterSuspend. rewrite Hs. cbn [negb].
  destruct (dataQueue (que s)) as [|c l] eqn:Eq; [done|].
  destruct (send_ok accepts c (set_data l (que s)) s H) as (H1 & H2 & H3 & H4); [by rewrite Eq|done|by right|].
  destruct (send accepts c _) as [threw s']. simpl in *. destruct threw; [|done].
  apply goes_ok; [done|by rewrite H3|intros _ Hd; by destruct (H4 eq_refl)|done].
Qed.

Lemma kafka_reachable_ok n s : kafka_reachable n s -> kafka_ok s.
Proof.
  induction 1 as [|s s' _ IH Hs]; [split; simpl; try done; constructor|]. destruct Hs as [c elapsed s|s|id ok s Hi Hp|a w e s s' Ha Hr|a s Ha|s Ha Hw].
  - unfold timedAdd. destruct (suspended (que s)) eqn:Es; [by apply same_ok|]. destruct (_ <? _); [|by destruct elapsed; apply same_ok].
    destruct IH as [H1 H2 H3 H4 H5 H6 H7 H8]. assert (Ha : at_ s = Running_).
    { destruct (at_ s); [done|..]; by rewrite H6 in Es. }
    split; simpl; auto; [rewrite H4; solve_Permutation|]. rewrite Ha. by intros [?|?].
  - apply same_ok; [done|unfold suspend; by destruct (suspended (que s))|unfold suspend; by destruct (suspended (que s)) eqn:E].
  - apply report_ok; [done|done|]. destruct Hp as [->| ->]; done.
  - by eapply run_ok.
  - by apply drain_ok.
  - apply goes_ok; [done|apply (ko_place _ IH); by rewrite Ha|done|done].
Qed.

(** C40: No command is forgotten or told twice: a command that was put in the queue is there,
    or the library has its message, each under a number of its own, or it was told
    what became of it, or it was dropped because the library refused it. When the
    thread ends, no message is without a report; and commands are left in the queue
    only when one was refused. *)
Theorem kafka_accounts (n : Z) (s : KafkaThread) : kafka_reachable n s ->
  offered s ≡ₚ dataQueue (que s) ++ (waitingAck s).*2 ++ omap settled (events s) ++ omap dropped (events s) /\
  NoDup (waitingAck s).*1 /\ unreported s = (waitingAck s).*1 /\
  (at_ s = Exited -> waitingAck s = [] /\
     (dataQueue (que s) <> [] -> omap dropped (events s) <> []) /\
     offered s ≡ₚ dataQueue (que s) ++ omap settled (events s) ++ omap dropped (events s)).
Proof.
  intros H%kafka_reachable_ok. split; [apply (ko_all _ H)|]. split; [apply (ko_ids _ H)|]. split; [apply (ko_unreported _ H)|].
  intros Hx. pose proof (ko_exit _ H Hx) as Hw. split; [done|]. split.
  - intros Hq Hd. apply Hq, (ko_rest _ H); [by right|done].
  - rewrite (ko_all _ H), Hw. done.
Qed.

End KafkaThread.

Arguments KafkaThread : clear implicits.

(** ** Runs of the thread *)

Section runs.
Definition data_of (z : Z) : bytes := if z =? 0 then [] else ["x"%char].

(** Two messages are sent and reported; the thread is shut down between two rounds. *)
Definition run1 (accepts woken : bool) (s : KafkaThread Z) : KafkaThread Z := default s (run_round data_of accepts woken false s).
Definition offer (c : Z) (s : KafkaThread Z) : KafkaThread Z :=
  match timedAdd c true false (que s) with
  | (Returns _, q) => {| que := q; messageId := messageId s; waitingAck := waitingAck s; unreported := unreported s; at_ := at_ s;
                         offered := offered s ++ [c]; events := events s |}
  | (_, q) => with_que q s
  end.
Definition stop (s : KafkaThread Z) : KafkaThread Z := with_que (suspend false (que s)) s.

Definition before_drain : KafkaThread Z := run1 true false (stop (offer 8 (offer 7 (run1 true false (offer 5 (KafkaThread_new 9)))))).

(** A refusal while the queue is drained leaves the rest of it: the command 8 is lost. *)
Definition after_refusal : KafkaThread Z :=
  goes Exited (report 0 true (drain_round data_of false before_drain)).
Example refusal_loses : dataQueue (que after_refusal) = [8] /\ omap dropped (events after_refusal) = [7] /\
  omap settled (events after_refusal) = [5].
Proof. by split_and!. Qed.

Lemma reach_run n a w s : kafka_reachable data_of n s -> at_ s = Running_ -> run_round data_of a w false s = Some (run1 a w s) ->
  kafka_reachable data_of n (run1 a w s).
Proof. intros Hr Ha E. eapply k_more; [exact Hr|]. by apply (k_run data_of a w false). Qed.

Lemma reach_offer n c s : kafka_reachable data_of n s -> kafka_reachable data_of n (offer c s).
Proof. intros Hr. eapply k_more; [exact Hr|]. apply (k_offer data_of c false s). Qed.

Lemma kafka_accounts_witness :
  offered after_refusal ≡ₚ dataQueue (que after_refusal) ++ omap settled (events after_refusal) ++ omap dropped (events after_refusal).
Proof.
  apply (kafka_accounts data_of 9 after_refusal); [|reflexivity].
  eapply k_more; [|apply k_exit; reflexivity]. eapply k_more; [|apply k_report; [by left|by right]].
  eapply k_more; [|by apply k_drain]. apply reach_run; [|reflexivity..].
  eapply k_more; [|apply k_suspend]. do 2 apply reach_offer. apply reach_run; [|reflexivity..]. apply reach_offer, k_start.
Defined.

End runs.
