(* ===== verification/DataInput.v ===== *)
(** * kvDataInputd: the server around the decoders (src/src/kvDataInputd/DataSrcApp.cc,
      ConnectionCache.cc, DecodeCommand.cc, src/src/lib/decoder/decoderbase/decodermgr.cc)

    What one request does: it takes a connection, finds a decoder, has a thread of the
    pool run it, follows redirections, publishes what was decoded and gives the
    connection and the decoder back. The members of the application and everything
    outside it are the state; an operation is done, throws, waits for another
    thread, or is undefined. The decoders are shared objects: what one of them does
    is a parameter. *)

From stdpp Require Import pretty.
From S2P Require Import Prelude Orders PTime TimeText DataFlag ControlInfo UseInfo KvData SortedData KvalobsData KvDataContainer Sql Database Rows Conf StationFilter Scanning Text CommaString OrderedSet Signature ParamList PgConnection Gate Decoder Saving BlockingQueue.

#[local] Open Scope Z_scope.

(** ** [ConnectionCache] *)

(** A connection is a number; the map says of each whether it is free. *)
Record ConnectionCache := { connection : list (nat * bool); nFree : Z }.

Definition ConnectionCache_new : ConnectionCache := {| connection := []; nFree := 0 |}.

Definition count_free (l : list (nat * bool)) : Z := Z.of_nat (length (List.filter snd l)).

Fixpoint con_add (c : nat) (l : list (nat * bool)) : list (nat * bool) :=
  match l with
  | [] => [(c, true)]
  | e :: l => if (c <? e.1)%nat then (c, true) :: e :: l else e :: con_add c l
  end.

Definition addConnection (con : nat) (s : ConnectionCache) : ConnectionCache :=
  if bool_decide (con ∈ (connection s).*1) then s
  else let l := con_add con (connection s) in {| connection := l; nFree := count_free l |}.

(** The first free element, marked as in use. *)
Fixpoint take_free (l : list (nat * bool)) : option (nat * list (nat * bool)) :=
  match l with
  | [] => None
  | (c, true) :: l => Some (c, (c, false) :: l)
  | e :: l => '(c, l) ← take_free l; Some (c, e :: l)
  end.

(** [None]: the thread waits. The result may be the null pointer. *)
Definition findFreeConnection (s : ConnectionCache) : option (option nat * ConnectionCache) :=
  if nFree s <=? 0 then None
  else match take_free (connection s) with
       | Some (c, l) => Some (Some c, {| connection := l; nFree := nFree s - 1 |})
       | None => Some (None, {| connection := connection s; nFree := 0 |})
       end.

Fixpoint mark_free (c : nat) (l : list (nat * bool)) : list (nat * bool) :=
  match l with
  | [] => []
  | e :: l => if bool_decide (e.1 = c) then (c, true) :: l else e :: mark_free c l
  end.

Definition freeConnection (con : nat) (s : ConnectionCache) : bool * ConnectionCache :=
  if bool_decide (con ∈ (connection s).*1)
  then (true, {| connection := mark_free con (connection s); nFree := nFree s + 1 |})
  else (false, s).

(** ** [getQaIdInfo] *)

(** [None] is the exception for a number that cannot be read. *)
Fixpoint qa_types (l : ValElementList) (types : list Z) : option (list Z) :=
  match l with
  | [] => Some types
  | e :: l =>
      match valType_ e with
      | INT => t ← to_int <$> valAsInt e; if t =? 0 then Some [0] else qa_types l (types ++ [t])
      | STRING => if bool_decide (valAsString e = ["*"%char]) then Some [0] else qa_types l types
      | _ => qa_types l types
      end
  end.

Definition getQaIdInfo (conf : ConfSection) : option QaIdInfo :=
  let definedTypes := getValue conf (to_bytes "kvDataInputd.assign_qaid.types") in
  let maxQaId := list_valAsInt (getValue conf (to_bytes "kvDataInputd.assign_qaid.max_qaid")) (-1) 0 in
  types ← qa_types definedTypes [];
  Some (if bool_decide (types = []) || (maxQaId <? 0) then QaIdInfo_new else QaIdInfo_of (to_int maxQaId) types).

(** ** The server *)

(** The values of [EResult] and [Result] of SendData.h. *)
Inductive EResult := OK | NODECODER | DECODEERROR | NOTSAVED | ERROR.

#[export] Instance EResult_eq_dec : EqDecision EResult.
Proof. solve_decision. Defined.

Record Answer := { a_res : EResult; a_message : bytes; a_messageId : bytes; a_retry : bool }.
Definition Answer_new : Answer := {| a_res := OK; a_message := []; a_messageId := []; a_retry := false |}.
Definition set_res (r : EResult) (a : Answer) : Answer :=
  {| a_res := r; a_message := a_message a; a_messageId := a_messageId a; a_retry := a_retry a |}.
Definition answer (r : EResult) (m : bytes) (a : Answer) : Answer :=
  {| a_res := r; a_message := m; a_messageId := a_messageId a; a_retry := a_retry a |}.

Inductive ErrCode := TimeOut | NoDecoder | NoDbConnection | NoMem.

(** [boost::regex_match] of a type and the expression for a key, which looks for the last
    slash with the key, an equals sign and a value behind it: the groups 1 and 2, from
    the slash to the end of the value and the value alone. *)
Class BoostRegex := { key_match : bytes -> bytes -> option (bytes * bytes) }.

(** [getMessageId] and [getProducer]: the value, and the text without it. *)
Section keys.
  Context {BT : BoostText} {BR : BoostRegex}.

Definition get_key (key : bytes) (obstype : bytes) : bytes * bytes :=
  match key_match key obstype with
  | None => ([], obstype)
  | Some (g, v) =>
      (trim_copy v, match find_text g obstype with
                    | Some (a, b) => a ++ drop (length g) b
                    | None => obstype
                    end)
  end.
Definition getMessageId := get_key (to_bytes "messageid").
Definition getProducer := get_key (to_bytes "producer").

End keys.

(** What an operation of the server comes to. *)
Inductive outcome (A : Type) := Done (a : A) | Raised (what : bytes) | Blocked | Undef.
Arguments Done {A}. Arguments Raised {A}. Arguments Blocked {A}. Arguments Undef {A}.

(** What becomes of a command in the pool: it runs, the pool does not accept it any
    more, or it is taken back while it waits. *)
Inductive fate := Runs | Refused | Removed.

Section DataInput.
  Context {PT : PTime} {BT : BoostText} {BR : BoostRegex} {W : Type} {PQ : Libpq W}.

(** A decoder: what [DecoderBase] holds of it for the server. [metaconf_] is the text of
    the metadata, when it is set. *)
Record decoder_object := {
  do_decoderId : Z;
  do_connection : nat;
  do_base : DecoderBase PT;
  metaconf_ : bytes;
  serialNumber_ : Z;
  messageId_ : bytes;
  producer_ : bytes
}.

(** What the environment does: the clock, random numbers, files and the signal; whether
    there is memory for a command, and what becomes of it. *)
Class Surroundings := {
  universal_time : W -> Z;
  rand_ : W -> Z;
  read_file : bytes -> W -> option bytes;
  sigTerm : W -> bool;
  command_memory : W -> bool;
  command_fate : W -> fate
}.

(** What running a decoder gives: the result, [None] when an exception leaves it; the
    message; the redirection of the thread, the names of the decoder and of the
    type and the data; and the decoder as it is then. *)
Record Executed := {
  ex_result : option DecodeResult;
  ex_msg : bytes;
  ex_redirect : option (bytes * bytes * bytes);
  ex_base : DecoderBase PT;
  ex_producer : bytes
}.

(** The functions of the shared objects, by the number of the decoder: [factory] makes
    the part of the class itself, [None] is the null pointer; [setKvConf] is known. *)
Class Plugins := {
  factory : Z -> ParamList -> list kvTypes -> bytes -> bytes -> option (DecoderBase PT);
  execute_plugin : decoder_object -> W -> Executed * W
}.

Context {SU : Surroundings} {PL : Plugins}.

(** ** [DecoderMgr] *)

Record DecoderItem := { obsTypes : list bytes; decoderCount : Z; decoderId : Z }.

Definition is_decoder_name_end (c : ascii) : bool := is_char "/"%char c || is_char (char_of 10) c.

(** The name of the decoder, the type without the metadata, and the metadata. *)
Definition split_obsType (obsType_ : bytes) : bytes * bytes * bytes :=
  let decoderName := match break is_decoder_name_end obsType_ with Some (a, _, _) => trimstr a | None => [] end in
  let '(myObsType, metaconf) := match find_text (to_bytes "<?xml") obsType_ with
                                | Some (a, b) => (a, b)
                                | None => (obsType_, [])
                                end in
  (if bool_decide (decoderName = []) then trimstr myObsType else decoderName, myObsType, metaconf).

(** The first item with a type of that name, with its count changed. *)
Fixpoint update_item (p : DecoderItem -> bool) (n : Z) (l : list DecoderItem) : option (DecoderItem * list DecoderItem) :=
  match l with
  | [] => None
  | it :: l =>
      if p it then Some (it, {| obsTypes := obsTypes it; decoderCount := decoderCount it + n; decoderId := decoderId it |} :: l)
      else '(i, l) ← update_item p n l; Some (i, it :: l)
  end.

Definition has_type (name : bytes) (it : DecoderItem) : bool := bool_decide (name ∈ obsTypes it).

Definition findDecoder (theKvConf_ : option ConfSection) (con : nat) (params : ParamList) (typeList_ : list kvTypes)
    (obsType_ obs_ : bytes) (decoders : list DecoderItem) : (decoder_object + bytes) * list DecoderItem :=
  let '(decoderName, myObsType, metaconf) := split_obsType obsType_ in
  match update_item (has_type decoderName) 1 decoders with
  | None => (inr (to_bytes "Unknown observation type <" ++ decoderName ++ to_bytes ">!"), decoders)
  | Some (it, decoders') =>
      match factory (decoderId it) params typeList_ myObsType obs_ with
      | None => (inr (to_bytes "ERROR, Cant create a decoder. (out of memmory?)"), decoders)
      | Some b =>
          (inl {| do_decoderId := decoderId it; do_connection := con; do_base := setKvConf theKvConf_ b;
                  metaconf_ := metaconf; serialNumber_ := 0; messageId_ := []; producer_ := [] |}, decoders')
      end
  end.

Definition has_id (i : Z) (it : DecoderItem) : bool := decoderId it =? i.

Definition releaseDecoder (d : decoder_object) (decoders : list DecoderItem) : list DecoderItem :=
  match update_item (has_id (do_decoderId d)) (-1) decoders with Some (_, l) => l | None => decoders end.

(** ** [DataSrcApp] *)

Record DataSrcApp := {
  conCache : ConnectionCache;
  decoders_ : list DecoderItem;
  theKvConf_ : option ConfSection;
  paramList_ : ParamList;
  typeList_ : list kvTypes;
  nextParamCheckTime : option Z;
  paramFile : bytes;
  defaultParamFile : bytes;
  filters_ : StationFilters;
  qaIdInfo : option QaIdInfo;
  kafka_enable : bool;
  kafkaPubStream : BlockingQueue (KvalobsData PT);
  world : W
}.

Definition upd_app (c : ConnectionCache) (d : list DecoderItem) (p : ParamList) (n : option Z) (q : option QaIdInfo)
    (k : BlockingQueue (KvalobsData PT)) (w : W) (s : DataSrcApp) : DataSrcApp :=
  {| conCache := c; decoders_ := d; theKvConf_ := theKvConf_ s; paramList_ := p; typeList_ := typeList_ s;
     nextParamCheckTime := n; paramFile := paramFile s; defaultParamFile := defaultParamFile s; filters_ := filters_ s;
     qaIdInfo := q; kafka_enable := kafka_enable s; kafkaPubStream := k; world := w |}.
Definition set_cache (c : ConnectionCache) (s : DataSrcApp) : DataSrcApp :=
  upd_app c (decoders_ s) (paramList_ s) (nextParamCheckTime s) (qaIdInfo s) (kafkaPubStream s) (world s) s.
Definition set_decoders (d : list DecoderItem) (s : DataSrcApp) : DataSrcApp :=
  upd_app (conCache s) d (paramList_ s) (nextParamCheckTime s) (qaIdInfo s) (kafkaPubStream s) (world s) s.
Definition set_params (p : ParamList) (n : option Z) (s : DataSrcApp) : DataSrcApp :=
  upd_app (conCache s) (decoders_ s) p n (qaIdInfo s) (kafkaPubStream s) (world s) s.
Definition set_qa (q : option QaIdInfo) (s : DataSrcApp) : DataSrcApp :=
  upd_app (conCache s) (decoders_ s) (paramList_ s) (nextParamCheckTime s) q (kafkaPubStream s) (world s) s.
Definition set_kafka (k : BlockingQueue (KvalobsData PT)) (s : DataSrcApp) : DataSrcApp :=
  upd_app (conCache s) (decoders_ s) (paramList_ s) (nextParamCheckTime s) (qaIdInfo s) k (world s) s.
Definition set_world (w : W) (s : DataSrcApp) : DataSrcApp :=
  upd_app (conCache s) (decoders_ s) (paramList_ s) (nextParamCheckTime s) (qaIdInfo s) (kafkaPubStream s) w s.

Definition SM (A : Type) : Type := DataSrcApp -> outcome A * DataSrcApp.

Definition pure {A} (a : A) : SM A := fun s => (Done a, s).
Definition bind {A B} (m : SM A) (k : A -> SM B) : SM B := fun s =>
  match m s with
  | (Done a, s) => k a s
  | (Raised e, s) => (Raised e, s)
  | (Blocked, s) => (Blocked, s)
  | (Undef, s) => (Undef, s)
  end.
#[local] Notation "x <- m ;; k" := (bind m (fun x => k)) (at level 100, m at next level, right associativity).
#[local] Notation "m ;; k" := (bind m (fun _ => k)) (at level 100, right associativity).
Definition gets {A} (f : DataSrcApp -> A) : SM A := fun s => (Done (f s), s).
Definition modify (f : DataSrcApp -> DataSrcApp) : SM unit := fun s => (Done tt, f s).
Definition raise {A} (e : bytes) : SM A := fun s => (Raised e, s).

Definition take_connection : SM (option nat) := fun s =>
  match findFreeConnection (conCache s) with
  | None => (Blocked, s)
  | Some (c, cache) => (Done c, set_cache cache s)
  end.
Definition give_connection (con : nat) : SM unit := modify (fun s => set_cache (freeConnection con (conCache s)).2 s).

(** [readParamsFromFile]: what is read, or the exception of a text that is no number. *)
Definition read_params (pfile : bytes) : SM (bool * ParamList) := fun s =>
  match readParamsFromFile (read_file pfile (world s)) with
  | inl r => (Done r, s)
  | inr undefined_behaviour => (Undef, s)
  | inr _ => (Raised (to_bytes "bad lexical cast"), s)
  end.

(** The rows of the table of parameters; [None] is the exception for a row that is
    too short. *)
Fixpoint read_rows (rows : list (list string)) (tmpParams newParams : ParamList) : option ParamList :=
  match rows with
  | [] => Some newParams
  | (i :: name :: _) :: rows =>
      match lexical_cast_int (to_bytes i) with
      | Some id_ =>
          let scalar := match findParamInList tmpParams name with Some p => isScalar p | None => id_ <? 1000 end in
          read_rows rows tmpParams (set_insert ParamPredicate (Param_new name id_ scalar) newParams)
      | None => read_rows rows tmpParams newParams
      end
  | [i] :: rows =>
      match lexical_cast_int (to_bytes i) with Some _ => None | None => read_rows rows tmpParams newParams end
  | [] :: _ => None
  end.

Definition param_query : string := "SELECT paramid,name FROM param".

Definition select_params : SM (option (list (list string)) + failure) := fun s =>
  let '(q, w) := pg_execQuery true param_query (world s) in (Done q, set_world w s).

Definition is_due (now : Z) (next : option Z) : bool := match next with Some t => t <=? now | None => true end.

Definition registerParams : SM bool :=
  now <- gets (fun s => universal_time (world s)) ;;
  next <- gets nextParamCheckTime ;;
  if negb (is_due now next) then pure true
  else
    con <- take_connection ;;
    match con with
    | None => pure false
    | Some con =>
        pfile <- gets paramFile ;;
        dfile <- gets defaultParamFile ;;
        r <- read_params pfile ;;
        r <- (if r.1 : bool then pure r else read_params dfile) ;;
        ans <- select_params ;;
        let registered newParams :=
          give_connection con ;;
          old <- gets paramList_ ;;
          modify (set_params (if isParamListsEqual old newParams then old else newParams) (Some (now + 3600))) ;;
          pure true in
        match ans with
        | inl rows =>
            match read_rows (default [] rows) r.2 [] with
            | Some newParams => registered newParams
            | None => give_connection con ;; pure false
            end
        | inr (Sql _) => give_connection con ;; pure false
        | inr Undefined => fun s => (Undef, s)
        | inr _ => give_connection con ;; registered []
        end
    end.

Definition lookup_decoder (con : nat) (obsType_ obs_ : bytes) : SM (decoder_object + bytes) := fun s =>
  let '(d, l) := findDecoder (theKvConf_ s) con (paramList_ s) (typeList_ s) obsType_ obs_ (decoders_ s) in
  (Done d, set_decoders l s).

(** [create]: the decoder of the command, or an error. Without memory for the
    command what it returns has no value. *)
Definition create (obsType_ obs_ : bytes) : SM (decoder_object + ErrCode * bytes) :=
  con <- take_connection ;;
  match con with
  | None => pure (inr (NoDbConnection, to_bytes "SIGNAL: Stopped on signal!"))
  | Some con =>
      registerParams ;;
      dec <- lookup_decoder con obsType_ obs_ ;;
      match dec with
      | inr myErr => give_connection con ;; pure (inr (NoDecoder, myErr))
      | inl dec => fun s =>
          if negb (command_memory (world s)) then (Undef, s)
          else match setQaIdInfo (rand_ (world s)) (qaIdInfo s) (setFilters (filters_ s) (do_base dec)) with
               | None => (Undef, s)
               | Some (b, q) =>
                   (Done (inl {| do_decoderId := do_decoderId dec; do_connection := con; do_base := b;
                                 metaconf_ := metaconf_ dec; serialNumber_ := serialNumber_ dec;
                                 messageId_ := messageId_ dec; producer_ := producer_ dec |}), set_qa q s)
               end
      end
  end.

Definition releaseDecodeCommand (d : decoder_object) : SM unit :=
  give_connection (do_connection d) ;; modify (fun s => set_decoders (releaseDecoder d (decoders_ s)) s).

(** [getDecoder]: the command, or the answer that is given at once. After an exception
    of [create] the code of the error is read without a value. *)
Definition getDecoder (obsType_ obs_ : bytes) (res : Answer) : SM (decoder_object + Answer) := fun s =>
  match create obsType_ obs_ s with
  | (Done (inl d), s) => (Done (inl d), s)
  | (Done (inr (NoDbConnection, m)), s) => (Done (inr (answer NOTSAVED m res)), s)
  | (Done (inr (NoMem, _)), s) => (Done (inr (answer ERROR (to_bytes "Internal server error.") res)), s)
  | (Done (inr (NoDecoder, m)), s) => (Done (inr (answer NODECODER m res)), s)
  | (Done (inr (TimeOut, m)), s) => (Done (inr (answer ERROR m res)), s)
  | (Blocked, s) => (Blocked, s)
  | (Raised _, s) | (Undef, s) => (Undef, s)
  end.

(** [DecodeCommand::run]: the result, the message, the redirection and the decoder. *)
Definition run_command (d : decoder_object) : SM (DecodeResult * bytes * option (bytes * bytes * bytes) * decoder_object) := fun s =>
  let '(e, w) := execute_plugin d (world s) in
  let d := {| do_decoderId := do_decoderId d; do_connection := do_connection d; do_base := ex_base e; metaconf_ := metaconf_ d;
              serialNumber_ := serialNumber_ d; messageId_ := messageId_ d; producer_ := ex_producer e |} in
  (Done match ex_result e with
        | Some Redirect => (Redirect, ex_msg e, ex_redirect e, d)
        | Some r => (r, ex_msg e, None, d)
        | None => (DecodeError, ex_msg e, None, d)
        end, set_world w s).

Definition decodeExecute (d : decoder_object) (res : Answer)
    : SM ((DecodeResult * bytes * option (bytes * bytes * bytes) * decoder_object) + Answer) :=
  f <- gets (fun s => command_fate (world s)) ;;
  match f with
  | Refused =>
      releaseDecodeCommand d ;; pure (inr (answer ERROR (to_bytes "SHUTDOWN: In the proccess of shutdown!") res))
  | Removed =>
      releaseDecodeCommand d ;; pure (inr (answer ERROR (to_bytes "SHUTDOWN: In the proccess of shuting down!") res))
  | Runs => r <- run_command d ;; pure (inl r)
  end.

(** [producer(name)]. *)
Definition set_kd_producer (p : string) (k : KvalobsData PT) : KvalobsData PT :=
  {| overwrite_ := overwrite_ k; obs_ := obs_ k; correctedMessages_ := correctedMessages_ k; created_ := created_ k;
     kd_producer := p; kd_msgid := kd_msgid k |}.

(** [publishData]: what does not fit in the queue within four seconds is lost. *)
Fixpoint post_all (l : list (KvalobsData PT)) (q : BlockingQueue (KvalobsData PT)) : bool * BlockingQueue (KvalobsData PT) :=
  match l with
  | [] => (true, q)
  | d :: l =>
      match timedAdd (set_kd_producer "kvinput" d) true true q with
      | (Returns _, q) => post_all l q
      | (_, q) => (false, (post_all l q).2)
      end
  end.
Definition publishData (l : list (KvalobsData PT)) : SM bool := fun s =>
  if bool_decide (l = []) || negb (kafka_enable s) then (Done true, s)
  else let '(r, q) := post_all l (kafkaPubStream s) in (Done r, set_kafka q s).

Definition too_many (obsType_ : bytes) : bytes := to_bytes "To many redirect: " ++ obsType_.

(** The loop of [newObservation]; [allowed] is how many redirections are still allowed. The
    texts are handed on as C strings. *)
Fixpoint redirect_loop (allowed : nat) (obsType_ data : bytes) (serialNumber : Z) (myProducer : bytes) (res : Answer)
    (producer : bytes) : SM (Answer * bytes) :=
  c <- getDecoder (before_nul obsType_) (before_nul data) res ;;
  match c with
  | inr a => pure (a, producer)
  | inl d =>
      let d := {| do_decoderId := do_decoderId d; do_connection := do_connection d; do_base := do_base d;
                  metaconf_ := metaconf_ d; serialNumber_ := serialNumber; messageId_ := a_messageId res;
                  producer_ := myProducer |} in
      r <- decodeExecute d res ;;
      match r with
      | inr a => pure (a, myProducer)
      | inl (decodeResult, msg, redirected, d) =>
          let finish r m := releaseDecodeCommand d ;; pure (answer r m res, producer_ d) in
          match decodeResult with
          | Redirect =>
              match allowed with
              | O => raise (too_many obsType_)
              | S allowed =>
                  match redirected with
                  | Some (_, redirectedObsType, redirectedData) =>
                      releaseDecodeCommand d ;;
                      redirect_loop allowed (before_nul redirectedObsType) redirectedData serialNumber myProducer res (producer_ d)
                  | None => finish DECODEERROR (to_bytes "Redirected: Missing data.")
                  end
              end
          | Ok => publishData (publishData_ (do_base d)) ;; finish OK msg
          | NotSaved => finish NOTSAVED msg
          | DecodeError =>
              finish (if bool_decide (is_Some (find_text (to_bytes "NODECODER:") msg)) then NODECODER else DECODEERROR) msg
          | Rejected => finish DECODEERROR msg
          end
      end
  end.

(** The answer and what the caller's [producer] is set to. *)
Definition newObservation (obsType_ data_ : bytes) (serialNumber : Z) : SM (Answer * bytes) :=
  let '(myProducer, obsType1) := getProducer (before_nul obsType_) in
  let '(messageId, obsType2) := getMessageId obsType1 in
  redirect_loop 6 obsType2 data_ serialNumber myProducer
    {| a_res := OK; a_message := []; a_messageId := messageId; a_retry := false |} [].

End DataInput.

Arguments decoder_object : clear implicits.
Arguments DataSrcApp : clear implicits.
Arguments Surroundings : clear implicits.
Arguments Plugins : clear implicits.
Arguments Executed : clear implicits.

(** ** Connections *)

Definition cache_ok (s : ConnectionCache) : Prop := nFree s = count_free (connection s) /\ NoDup (connection s).*1.

Lemma take_free_spec l : NoDup l.*1 -> 0 < count_free l ->
  exists c l', take_free l = Some (c, l') /\ l'.*1 = l.*1 /\ count_free l' = count_free l - 1 /\ c ∈ l.*1 /\ mark_free c l' = l.
Proof.
  unfold count_free. induction l as [|[c b] l IH]; [simpl; lia|]. intros [Hc Hl]%NoDup_cons Hn. destruct b; simpl in *.
  - exists c, ((c, false) :: l). split_and!; [done|done|simpl; lia|by left|]. simpl. by rewrite bool_decide_true.
  - destruct (IH Hl Hn) as (c' & l' & E & Hk & Hn' & Hin & Hm). rewrite E. simpl. exists c', ((c, false) :: l').
    split_and!; [done|by rewrite !fmap_cons, Hk|simpl; lia|by right|]. simpl. rewrite bool_decide_false, Hm; [done|].
    intros ->. done.
Qed.

Lemma mark_free_spec c l : NoDup l.*1 -> (c, false) ∈ l ->
  count_free (mark_free c l) = count_free l + 1 /\ (mark_free c l).*1 = l.*1.
Proof.
  unfold count_free. induction l as [|[d b] l IH]; [by intros _ ?%elem_of_nil|]. rewrite fmap_cons. intros [Hd Hl]%NoDup_cons Hin.
  cbn [mark_free fst] in *. case_bool_decide as E.
  - subst d. apply elem_of_cons in Hin as [[= <-]|Hin]; [split; [simpl; lia|done]|].
    destruct Hd. by apply (list_elem_of_fmap_2 fst _ (c, false)).
  - apply elem_of_cons in Hin as [[= -> <-]|Hin]; [done|]. destruct (IH Hl Hin) as [H1 H2].
    split; [destruct b; simpl in *; lia|by rewrite !fmap_cons, H2].
Qed.

(** A connection that is taken and given back leaves the cache as it was. *)
Lemma findFree_spec s : cache_ok s -> 0 < nFree s ->
  exists c s', findFreeConnection s = Some (Some c, s') /\ cache_ok s' /\ nFree s' = nFree s - 1 /\
    (connection s').*1 = (connection s).*1 /\ c ∈ (connection s).*1 /\ freeConnection c s' = (true, s).
Proof.
  intros [Hn Hd] Hf. unfold findFreeConnection. rewrite (proj2 (Z.leb_gt _ _)) by lia.
  destruct (take_free_spec _ Hd ltac:(lia)) as (c & l & E & Hk & Hl & Hin & Hm). rewrite E.
  exists c. eexists. split_and!; [done| |done|done|done|].
  - split; simpl; [lia|]. by rewrite Hk.
  - unfold freeConnection. simpl. rewrite Hk, bool_decide_true by done. rewrite Hm. destruct s; simpl. do 2 f_equal. lia.
Qed.

Lemma findFree_wait s : nFree s <= 0 -> findFreeConnection s = None.
Proof. intros H. unfold findFreeConnection. by rewrite (proj2 (Z.leb_le _ _)). Qed.

Inductive cache_op := Take | Give (c : nat) | New (c : nat).

(** [Give]: only what [findFreeConnection] handed out is given back. *)
Definition cache_step (o : cache_op) (s s' : ConnectionCache) : Prop :=
  match o with
  | Take => exists c, findFreeConnection s = Some (c, s')
  | Give c => (c, false) ∈ connection s /\ s' = (freeConnection c s).2
  | New c => s' = addConnection c s
  end.

Lemma con_add_keys c l : (con_add c l).*1 ≡ₚ c :: l.*1.
Proof. induction l as [|[d b] l IH]; simpl; [done|]. destruct (_ <? _)%nat; simpl; [done|]. rewrite IH. by apply Permutation_swap. Qed.

Lemma cache_step_ok o s s' : cache_ok s -> cache_step o s s' -> cache_ok s'.
Proof.
  intros Hok. pose proof Hok as [Hn Hd]. destruct o as [|c|c]; simpl.
  - intros [c E]. destruct (decide (0 < nFree s)) as [H|H].
    + destruct (findFree_spec s Hok H) as (c' & s1 & E' & H1 & _). rewrite E' in E. by injection E as <- <-.
    + by rewrite findFree_wait in E by lia.
  - intros [Hin ->]. unfold freeConnection. rewrite bool_decide_true by (by apply (list_elem_of_fmap_2 fst _ (c, false))). simpl.
    destruct (mark_free_spec c _ Hd Hin) as [H1 H2]. split; simpl; [lia|by rewrite H2].
  - intros ->. unfold addConnection. case_bool_decide as E; [done|]. split; simpl; [done|]. rewrite con_add_keys. by constructor.
Qed.

(** Giving a connection back twice counts it twice. *)
Example free_twice :
  let s := addConnection 1 (addConnection 0 ConnectionCache_new) in
  forall s', findFreeConnection s = Some (Some 0%nat, s') ->
  nFree (freeConnection 0 (freeConnection 0 s').2).2 = 3.
Proof. cbv zeta. intros s'. vm_compute. by intros [= <-]. Qed.

(** ** The decoder manager *)

Lemma update_item_ids p n l it l' : update_item p n l = Some (it, l') -> decoderId <$> l' = decoderId <$> l.
Proof.
  revert l'. induction l as [|i l IH]; intros l'; simpl; [done|]. destruct (p i); [by intros [= <- <-]|].
  destruct (update_item p n l) as [[i' l1]|]; simpl; [|done]. intros [= -> <-]. by rewrite !fmap_cons, (IH l1).
Qed.

Lemma update_item_in p n l it l' : update_item p n l = Some (it, l') -> it ∈ l /\ p it = true.
Proof.
  revert l'. induction l as [|i l IH]; intros l'; simpl; [done|]. destruct (p i) eqn:E; [intros [= <- <-]; by split; [left|]|].
  destruct (update_item p n l) as [[i' l1]|]; simpl; [|done]. intros [= -> <-]. destruct (IH l1 eq_refl). by split; [right|].
Qed.

(** What [findDecoder] counts up, [releaseDecoder] counts down. *)
Lemma update_item_back p l it l' : NoDup (decoderId <$> l) -> update_item p 1 l = Some (it, l') ->
  exists it', update_item (has_id (decoderId it)) (-1) l' = Some (it', l).
Proof.
  revert l'. induction l as [|i l IH]; intros l'; [done|]. intros [Hi Hl]%NoDup_cons. simpl. destruct (p i) eqn:E.
  - intros [= <- <-]. simpl. unfold has_id at 1. simpl. rewrite Z.eqb_refl. eexists. do 3 f_equal. destruct i; simpl. f_equal. lia.
  - destruct (update_item p 1 l) as [[i' l1]|] eqn:Eu; simpl; [|done]. intros [= -> <-]. destruct (IH l1 Hl eq_refl) as [it' H].
    exists it'. simpl. unfold has_id at 1. destruct (Z.eqb_spec (decoderId i) (decoderId it)) as [Heq|_].
    + destruct Hi. rewrite Heq. by apply list_elem_of_fmap_2, (update_item_in _ _ _ _ _ Eu).
    + rewrite H. done.
Qed.

(** The decoder of a message is made by the first shared object that knows the name
    of its type: the text up to the first slash or line end, or, when that is empty,
    the type without the metadata that follow [<?xml]. The name of an object that
    comes later is never reached; an unknown name is an error that gives it. *)
Theorem findDecoder_first {PT : PTime} {BT : BoostText} {W : Type} {PL : Plugins PT W} (conf : option ConfSection) (con : nat)
    (params : ParamList) (types : list kvTypes) (obsType_ obs_ : bytes) (before after : list DecoderItem) (it : DecoderItem)
    (b : DecoderBase PT) :
  let name := (split_obsType obsType_).1.1 in
  Forall (fun i => name ∉ obsTypes i) before -> name ∈ obsTypes it ->
  factory (decoderId it) params types (split_obsType obsType_).1.2 obs_ = Some b ->
  findDecoder conf con params types obsType_ obs_ (before ++ it :: after) =
    (inl {| do_decoderId := decoderId it; do_connection := con; do_base := setKvConf conf b;
            metaconf_ := (split_obsType obsType_).2; serialNumber_ := 0; messageId_ := []; producer_ := [] |},
     before ++ {| obsTypes := obsTypes it; decoderCount := decoderCount it + 1; decoderId := decoderId it |} :: after).
Proof.
  intros name Hb Hin Hf. unfold findDecoder. subst name. destruct (split_obsType obsType_) as [[name t] m]. simpl in *.
  assert (Hu : update_item (has_type name) 1 (before ++ it :: after) =
    Some (it, before ++ {| obsTypes := obsTypes it; decoderCount := decoderCount it + 1; decoderId := decoderId it |} :: after)).
  { induction Hb as [|i before Hi _ IH]; simpl; unfold has_type at 1.
    - by rewrite bool_decide_true.
    - rewrite bool_decide_false, IH by done. done. }
  by rewrite Hu, Hf.
Qed.

(** ** A request gives back what it takes *)

(** What the server needs of its surroundings: the files of parameters are numbers where
    they have to be, there is memory, and the database says what is wrong. *)
Class SurroundingsLaws {PT : PTime} {BT : BoostText} {W : Type} {PQ : Libpq W} (SU : Surroundings W) : Prop := {
  sl_files f w : exists r, readParamsFromFile (read_file f w) = inl r;
  sl_memory w : command_memory w = true;
  sl_server w : (pg_execQuery true param_query w).1 <> inr Undefined
}.

Section requests.
  Context {PT : PTime} {BT : BoostText} {BR : BoostRegex} {W : Type} {PQ : Libpq W} {SU : Surroundings W} {PL : Plugins PT W}.

#[local] Notation "x <- m ;; k" := (bind m (fun x => k)) (at level 100, m at next level, right associativity).
#[local] Notation "m ;; k" := (bind m (fun _ => k)) (at level 100, right associativity).

Definition qa_ok (q : option QaIdInfo) : Prop := from_option (fun q => qaMaxId_ q <> INT_MAX) True q.

Record calm (s : DataSrcApp PT W) : Prop := {
  calm_cache : cache_ok (conCache s);
  calm_ids : NoDup (decoderId <$> decoders_ s);
  calm_qa : qa_ok (qaIdInfo s)
}.

Definition kafka (s : DataSrcApp PT W) := (kafka_enable s, kafkaPubStream s).

Record same (s s' : DataSrcApp PT W) : Prop := {
  same_cache : conCache s' = conCache s;
  same_decoders : decoders_ s' = decoders_ s;
  same_qa : qa_ok (qaIdInfo s) -> qa_ok (qaIdInfo s')
}.

#[export] Instance same_preorder : PreOrder same.
Proof. split; [by split|]. intros a b c [H1 H2 H3] [H4 H5 H6]. split; [congruence|congruence|auto]. Qed.

Lemma same_calm s s' : same s s' -> calm s -> calm s'.
Proof. intros [H1 H2 H3] [H4 H5 H6]. split; [by rewrite H1|by rewrite H2|auto]. Qed.

(** A connection and a decoder are in use since [s]. *)
Record held (s : DataSrcApp PT W) (d : decoder_object PT) (s' : DataSrcApp PT W) : Prop := {
  held_free : freeConnection (do_connection d) (conCache s') = (true, conCache s);
  held_count : nFree (conCache s') = nFree (conCache s) - 1;
  held_release : releaseDecoder d (decoders_ s') = decoders_ s;
  held_qa : qa_ok (qaIdInfo s) -> qa_ok (qaIdInfo s')
}.

(** [held] looks at the numbers of the decoder and at what the server keeps of it. *)
Lemma held_other s d s1 d' s2 : held s d s1 -> do_decoderId d' = do_decoderId d -> do_connection d' = do_connection d ->
  conCache s2 = conCache s1 -> decoders_ s2 = decoders_ s1 -> qaIdInfo s2 = qaIdInfo s1 -> held s d' s2.
Proof.
  intros [H1 H2 H3 H4] Ei Ec Es Ed Eq. split; rewrite ?Es, ?Ed, ?Eq, ?Ec; try done.
  unfold releaseDecoder in *. by rewrite Ei.
Qed.

Lemma release_held s d s' : held s d s' -> exists s2, releaseDecodeCommand d s' = (Done tt, s2) /\ same s s2 /\ kafka s2 = kafka s' /\ world s2 = world s'.
Proof.
  intros [H1 H2 H3 H4]. unfold releaseDecodeCommand, give_connection, bind, modify. eexists. split; [done|].
  split; [|done]. split; simpl; [by rewrite H1|done|done].
Qed.

Lemma take_spec s : calm s -> 0 < nFree (conCache s) ->
  exists c s', take_connection s = (Done (Some c), s') /\ calm s' /\ nFree (conCache s') = nFree (conCache s) - 1 /\
    freeConnection c (conCache s') = (true, conCache s) /\ s' = set_cache (conCache s') s.
Proof.
  intros [Hc Hi Hq] Hn. destruct (findFree_spec _ Hc Hn) as (c & s1 & E & Hok & Hn' & _ & _ & Hf).
  unfold take_connection. rewrite E. exists c. eexists. split; [done|]. by split_and!.
Qed.

Lemma give_spec c (s' s : DataSrcApp PT W) : freeConnection c (conCache s') = (true, conCache s) ->
  give_connection c s' = (Done tt, set_cache (conCache s) s').
Proof. intros H. unfold give_connection, modify. by rewrite H. Qed.

Lemma query_failure query w e : (pg_execQuery true query w).1 = inr e -> e = Undefined \/ exists x, e = Sql x.
Proof.
  assert (Hs : forall n w' e', (send true n query w').1 = inr e' -> exists x, e' = Sql x).
  { induction n as [|n IH]; intros w' e'; cbn [send]; [done|].
    set (c := if isConnected true w' then _ else _). destruct c as [ok w1].
    destruct ok; cbn [negb]; [|intros [= <-]; by eexists]. destruct (PQexec query w1) as [p w2].
    destruct (_ && _); [apply IH|done]. }
  unfold pg_execQuery. simpl negb. cbv iota. specialize (Hs 2%nat w). destruct (send true 2 query w) as [[[p|]|f] w1].
  - destruct (pr_status p); simpl; try done; intros [= <-]; unfold error_of;
      (destruct (pr_sqlstate p); [|by left]); right; repeat case_match; by eexists.
  - intros [= <-]. right. by eexists.
  - intros [= <-]. right. by apply Hs.
Qed.

Context {SL : SurroundingsLaws SU}.

Lemma read_params_spec f (s : DataSrcApp PT W) : exists r, read_params f s = (Done r, s).
Proof. unfold read_params. destruct (sl_files f (world s)) as [r ->]. by exists r. Qed.

Lemma registerParams_spec s : calm s -> 0 < nFree (conCache s) ->
  exists b s', registerParams s = (Done b, s') /\ same s s' /\ kafka s' = kafka s.
Proof.
  intros Hc Hn. unfold registerParams, gets, bind at 1 2. simpl. destruct (negb _); [by exists true, s|].
  destruct (take_spec s Hc Hn) as (c & s1 & E & _ & _ & Hf & Es). unfold bind at 1. rewrite E. unfold bind at 1 2.
  destruct (read_params_spec (paramFile s1) s1) as [r Er]. unfold bind at 1. rewrite Er.
  assert (Hr : exists r', (if r.1 : bool then pure r else read_params (defaultParamFile s1)) s1 = (Done r', s1)).
  { destruct r.1; [by exists r|apply read_params_spec]. }
  destruct Hr as [r' Hr]. unfold bind at 1. rewrite Hr. unfold select_params, bind at 1.
  pose proof (sl_server (world s1)) as Hs. destruct (pg_execQuery true param_query (world s1)) as [ans w] eqn:Ea. simpl in Hs.
  apply (f_equal fst) in Ea. simpl in Ea.
  assert (Hg : give_connection c (set_world w s1) = (Done tt, set_cache (conCache s) (set_world w s1))) by by apply give_spec.
  assert (Hsame : same s (set_cache (conCache s) (set_world w s1))) by (rewrite Es; by split).
  assert (Hk : kafka (set_cache (conCache s) (set_world w s1)) = kafka s) by (by rewrite Es).
  set (s2 := set_cache (conCache s) (set_world w s1)) in *.
  assert (Hreg : forall p n, same s (set_params p n s2) /\ kafka (set_params p n s2) = kafka s).
  { intros p n. split; [|by rewrite <- Hk]. destruct Hsame. by split. }
  destruct ans as [rows|[e| | |]]; try done.
  - destruct (read_rows _ _ _) as [p|].
    + unfold bind, modify. rewrite Hg. eexists true, _. split; [done|apply Hreg].
    + unfold bind. rewrite Hg. by exists false, s2.
  - unfold bind. rewrite Hg. by exists false, s2.
  - by destruct (query_failure _ _ _ Ea) as [|[? ?]].
  - by destruct (query_failure _ _ _ Ea) as [|[? ?]].
Qed.

Lemma lookup_spec c s s1 ot ob : calm s -> calm s1 -> decoders_ s1 = decoders_ s -> nFree (conCache s1) = nFree (conCache s) - 1 ->
  freeConnection c (conCache s1) = (true, conCache s) ->
  exists r s2, lookup_decoder c ot ob s1 = (Done r, s2) /\ kafka s2 = kafka s1 /\ conCache s2 = conCache s1 /\ world s2 = world s1 /\ qaIdInfo s2 = qaIdInfo s1 /\
    match r with
    | inl d => do_connection d = c /\ releaseDecoder d (decoders_ s2) = decoders_ s
    | inr _ => decoders_ s2 = decoders_ s
    end.
Proof.
  intros Hc Hc1 Hd Hn Hf. unfold lookup_decoder, findDecoder. destruct (split_obsType ot) as [[name t] m].
  destruct (update_item (has_type name) 1 (decoders_ s1)) as [[it l]|] eqn:Eu.
  - destruct (factory _ _ _ _ _) as [b|]; (eexists _, _; split; [done|]; do 4 (split; [done|])); [|done].
    split; [done|]. unfold releaseDecoder. simpl.
    destruct (update_item_back _ _ _ _ (calm_ids _ Hc1) Eu) as [it' ->]. done.
  - eexists _, _. split; [done|]. by do 4 (split; [done|]).
Qed.

Lemma setQa_spec rand q b : qa_ok q -> exists b' q', setQaIdInfo (PT := PT) rand q b = Some (b', q') /\ qa_ok q'.
Proof.
  intros Hq. destruct q as [q|]; simpl in *; [|by eexists _, _]. unfold getQaIdToUse.
  destruct (_ || _); [by eexists _, _|]. rewrite (proj2 (Z.eqb_neq _ _)) by done. destruct (random_ q); by eexists _, _.
Qed.

Lemma create_spec s ot ob : calm s -> 1 < nFree (conCache s) ->
  exists s', kafka s' = kafka s /\
    ((exists m, create ot ob s = (Done (inr (NoDecoder, m)), s') /\ same s s') \/
     (exists d, create ot ob s = (Done (inl d), s') /\ held s d s')).
Proof.
  intros Hc Hn. destruct (take_spec s Hc ltac:(lia)) as (c & s1 & E & Hc1 & Hn1 & Hf & Es).
  destruct (registerParams_spec s1 Hc1 ltac:(lia)) as (b & s2 & Er & Hs2 & Hk2).
  pose proof (same_calm _ _ Hs2 Hc1) as Hc2.
  assert (Hk : kafka s1 = kafka s) by (by rewrite Es). assert (Hd1 : decoders_ s1 = decoders_ s) by (by rewrite Es).
  destruct (lookup_spec c s s2 ot ob Hc Hc2) as (r & s3 & El & Hk3 & Hca3 & Hw3 & Hq3 & Hr3).
  { by rewrite (same_decoders _ _ Hs2). } { by rewrite (same_cache _ _ Hs2). } { by rewrite (same_cache _ _ Hs2). }
  assert (Hf3 : freeConnection c (conCache s3) = (true, conCache s)) by (by rewrite Hca3, (same_cache _ _ Hs2)).
  assert (Hqs : qa_ok (qaIdInfo s3)) by (rewrite Hq3; by apply calm_qa).
  destruct r as [d|m].
  - destruct Hr3 as [Hdc Hrel].
    destruct (setQa_spec (rand_ (world s3)) (qaIdInfo s3) (setFilters (filters_ s3) (do_base d)) Hqs) as (b' & q' & Eq & Hq').
    eexists. split; [|right; eexists; split].
    2: { unfold create, bind at 1. rewrite E. unfold bind at 1. rewrite Er. unfold bind at 1. rewrite El, sl_memory.
         cbn [negb]. rewrite Eq. reflexivity. }
    + transitivity (kafka s3); [done|]. congruence.
    + split; [exact Hf3| |exact Hrel|intros _; exact Hq']. simpl. by rewrite Hca3, (same_cache _ _ Hs2).
  - eexists. split; [|left; eexists; split].
    2: { unfold create, bind at 1. rewrite E. unfold bind at 1. rewrite Er. unfold bind at 1. rewrite El.
         unfold bind. rewrite (give_spec c s3 s Hf3). reflexivity. }
    + transitivity (kafka s3); [done|]. congruence.
    + by split.
Qed.

Lemma getDecoder_spec s ot ob res : calm s -> 1 < nFree (conCache s) ->
  exists s', kafka s' = kafka s /\
    ((exists m, getDecoder ot ob res s = (Done (inr (answer NODECODER m res)), s') /\ same s s') \/
     (exists d, getDecoder ot ob res s = (Done (inl d), s') /\ held s d s')).
Proof.
  intros Hc Hn. destruct (create_spec s ot ob Hc Hn) as (s' & Hk & [(m & E & H)|(d & E & H)]); exists s'; (split; [done|]).
  - left. exists m. unfold getDecoder. by rewrite E.
  - right. exists d. unfold getDecoder. by rewrite E.
Qed.

(** The queue of what is published after a message: what the decoder gives, as far as
    there is room. *)
Definition posted (s : DataSrcApp PT W) (l : list (KvalobsData PT)) : BlockingQueue (KvalobsData PT) :=
  if kafka_enable s then (post_all l (kafkaPubStream s)).2 else kafkaPubStream s.

Lemma publish_spec l s : exists b s', publishData l s = (Done b, s') /\ conCache s' = conCache s /\ decoders_ s' = decoders_ s /\
  qaIdInfo s' = qaIdInfo s /\ kafka_enable s' = kafka_enable s /\ kafkaPubStream s' = posted s l.
Proof.
  unfold publishData, posted. case_bool_decide as E; simpl.
  - subst l. exists true, s. split_and!; try done. by destruct (kafka_enable s).
  - destruct (kafka_enable s) eqn:Ek; simpl; [|exists true, s; split_and!; done].
    destruct (post_all l (kafkaPubStream s)) as [b q]. eexists b, _. by split_and!.
Qed.

Lemma finish_spec s d s1 (a : Answer) (p : bytes) : held s d s1 ->
  exists s2, (releaseDecodeCommand d;; pure (a, p)) s1 = (Done (a, p), s2) /\ same s s2 /\ kafka s2 = kafka s1.
Proof.
  intros Hh. destruct (release_held _ _ _ Hh) as (s2 & E & Hs & Hk & _). exists s2. unfold bind. by rewrite E.
Qed.

Lemma bind_done {A B} (m : SM (PT := PT) (W := W) A) (k : A -> SM B) s a s1 : m s = (Done a, s1) -> bind m k s = k a s1.
Proof. unfold bind. by intros ->. Qed.

(** *** One message *)

Section message.
  Context (n : Z) (mp : bytes) (res : Answer).

(** The decoder of a command as it is sent to the pool, and as it comes back. *)
Definition as_sent (d : decoder_object PT) : decoder_object PT :=
  {| do_decoderId := do_decoderId d; do_connection := do_connection d; do_base := do_base d; metaconf_ := metaconf_ d;
     serialNumber_ := n; messageId_ := a_messageId res; producer_ := mp |}.
Definition returned (d : decoder_object PT) (e : Executed PT) : decoder_object PT :=
  {| do_decoderId := do_decoderId d; do_connection := do_connection d; do_base := ex_base e; metaconf_ := metaconf_ d;
     serialNumber_ := serialNumber_ d; messageId_ := messageId_ d; producer_ := ex_producer e |}.

(** In the state [s] a decoder is found for the type and the data, and a thread of the
    pool runs it: [e] is what it leaves, [d] the decoder and [s2] the server then. *)
Definition ran_on (ot data : bytes) (s : DataSrcApp PT W) (d : decoder_object PT) (e : Executed PT) (s2 : DataSrcApp PT W) : Prop :=
  exists d0 s1 w, getDecoder (before_nul ot) (before_nul data) res s = (Done (inl d0), s1) /\ command_fate (world s1) = Runs /\
    execute_plugin (as_sent d0) (world s1) = (e, w) /\ d = returned (as_sent d0) e /\ s2 = set_world w s1.

(** The message is redirected [k] times in a row, each time by the decoder that ran on it:
    it is now of type [ot'] with [data'], and the server in [s']. *)
Inductive redirections : nat -> bytes -> bytes -> DataSrcApp PT W -> bytes -> bytes -> DataSrcApp PT W -> Prop :=
  | redirected_none ot data s : redirections 0 ot data s ot data s
  | redirected_more k ot data s d e s1 name rt rd s2 ot' data' s' :
      ran_on ot data s d e s1 -> ex_result e = Some Redirect -> ex_redirect e = Some (name, rt, rd) ->
      releaseDecodeCommand d s1 = (Done tt, s2) -> redirections k (before_nul rt) rd s2 ot' data' s' ->
      redirections (S k) ot data s ot' data' s'.

(** What the server says of a message that its decoder ended with [e]. *)
Definition verdict (e : Executed PT) : EResult * bytes :=
  match ex_result e with
  | Some Ok => (OK, ex_msg e)
  | Some NotSaved => (NOTSAVED, ex_msg e)
  | Some Redirect => (DECODEERROR, to_bytes "Redirected: Missing data.")
  | Some Rejected => (DECODEERROR, ex_msg e)
  | Some DecodeError | None =>
      (if bool_decide (is_Some (find_text (to_bytes "NODECODER:") (ex_msg e))) then NODECODER else DECODEERROR, ex_msg e)
  end.

(** How a message that came in [s] ends, when after the redirections it is of type [ot]
    and the server in [s0]; [last] says that no redirection is allowed any more. No
    decoder runs on it; or one does, and the answer is its verdict; or it redirects
    once more. *)
Inductive ends (s : DataSrcApp PT W) (last : Prop) (ot data : bytes) (s0 : DataSrcApp PT W)
    : outcome (Answer * bytes) -> DataSrcApp PT W -> Prop :=
  | ends_unserved r m q s' : (forall d e s1, ~ ran_on ot data s0 d e s1) -> r = NODECODER \/ r = ERROR ->
      same s s' -> kafka s' = kafka s -> ends s last ot data s0 (Done (answer r m res, q)) s'
  | ends_answered d e s1 s' : ran_on ot data s0 d e s1 -> (ex_result e = Some Redirect -> ~ last /\ ex_redirect e = None) ->
      same s s' -> kafka_enable s' = kafka_enable s ->
      kafkaPubStream s' = (if decide (ex_result e = Some Ok) then posted s (publishData_ (ex_base e)) else kafkaPubStream s) ->
      ends s last ot data s0 (Done (answer (verdict e).1 (verdict e).2 res, ex_producer e)) s'
  | ends_too_many d e s1 s' : ran_on ot data s0 d e s1 -> ex_result e = Some Redirect -> last ->
      nFree (conCache s') = nFree (conCache s) - 1 -> kafka s' = kafka s ->
      ends s last ot data s0 (Raised (too_many ot)) s'.

(** One round of the loop, given what the next one does. *)
Definition loop_fine (allowed : nat) : Prop := forall ot data p s, calm s -> 1 < nFree (conCache s) ->
  exists k ot' data' s0 o s', (k <= allowed)%nat /\ redirections k ot data s ot' data' s0 /\
    redirect_loop allowed ot data n mp res p s = (o, s') /\ ends s (k = allowed) ot' data' s0 o s'.

Definition after_command (allowed : nat) (ot : bytes)
    (c : DecodeResult * bytes * option (bytes * bytes * bytes) * decoder_object PT) : SM (PT := PT) (W := W) (Answer * bytes) :=
  let '(decodeResult, msg, redirected, d) := c in
  let finish r m := releaseDecodeCommand d ;; pure (answer r m res, producer_ d) in
  match decodeResult with
  | Redirect =>
      match allowed with
      | O => raise (too_many ot)
      | S allowed =>
          match redirected with
          | Some (_, rt, rd) => releaseDecodeCommand d ;; redirect_loop allowed (before_nul rt) rd n mp res (producer_ d)
          | None => finish DECODEERROR (to_bytes "Redirected: Missing data.")
          end
      end
  | Ok => publishData (publishData_ (do_base d)) ;; finish OK msg
  | NotSaved => finish NOTSAVED msg
  | DecodeError => finish (if bool_decide (is_Some (find_text (to_bytes "NODECODER:") msg)) then NODECODER else DECODEERROR) msg
  | Rejected => finish DECODEERROR msg
  end.

Lemma redirect_loop_round allowed ot data p : redirect_loop allowed ot data n mp res p =
  (c <- getDecoder (before_nul ot) (before_nul data) res ;;
   match c with
   | inr a => pure (a, p)
   | inl d => r <- decodeExecute (as_sent d) res ;; match r with inr a => pure (a, mp) | inl c => after_command allowed ot c end
   end).
Proof. by destruct allowed. Qed.

(** A decoder that does not redirect, or says nothing of where to. *)
Lemma finish_ends allowed s ot data d e s1 s2 r m : ran_on ot data s d e s1 -> held s d s2 ->
  verdict e = (r, m) -> (ex_result e = Some Redirect -> allowed <> 0%nat /\ ex_redirect e = None) ->
  kafka_enable s2 = kafka_enable s ->
  kafkaPubStream s2 = (if decide (ex_result e = Some Ok) then posted s (publishData_ (ex_base e)) else kafkaPubStream s) ->
  exists s', (releaseDecodeCommand d ;; pure (answer r m res, producer_ d)) s2 = (Done (answer r m res, producer_ d), s') /\
    ends s (0%nat = allowed) ot data s (Done (answer r m res, producer_ d)) s'.
Proof.
  intros Hr Hh Hv Hred Hke Hkq. destruct (finish_spec s d s2 (answer r m res) (producer_ d) Hh) as (s' & E & Hs & [= Hk1 Hk2]).
  exists s'. split; [done|]. assert (Hp : producer_ d = ex_producer e) by (destruct Hr as (d0 & s0 & w & _ & _ & _ & -> & _); done).
  rewrite Hp. replace r with (verdict e).1 by (by rewrite Hv). replace m with (verdict e).2 by (by rewrite Hv).
  eapply ends_answered; [exact Hr| |done|congruence|congruence]. intros H. destruct (Hred H). split; [congruence|done].
Qed.

Lemma after_command_fine allowed ot data s d e s1 : (forall k, allowed = S k -> loop_fine k) -> calm s -> 1 < nFree (conCache s) ->
  ran_on ot data s d e s1 -> held s d s1 -> kafka s1 = kafka s ->
  exists k ot' data' s0 o s', (k <= allowed)%nat /\ redirections k ot data s ot' data' s0 /\
    after_command allowed ot (match ex_result e with
                              | Some Redirect => (Redirect, ex_msg e, ex_redirect e, d)
                              | Some r => (r, ex_msg e, None, d)
                              | None => (DecodeError, ex_msg e, None, d)
                              end) s1 = (o, s') /\ ends s (k = allowed) ot' data' s0 o s'.
Proof.
  intros IH Hc Hn Hr Hh Hk. pose proof Hk as [= Hk1 Hk2].
  assert (Hfin : forall r m, verdict e = (r, m) -> ex_result e <> Some Ok ->
    (ex_result e = Some Redirect -> allowed <> 0%nat /\ ex_redirect e = None) ->
    exists k ot' data' s0 o s', (k <= allowed)%nat /\ redirections k ot data s ot' data' s0 /\
      (releaseDecodeCommand d ;; pure (answer r m res, producer_ d)) s1 = (o, s') /\ ends s (k = allowed) ot' data' s0 o s').
  { intros r m Hv Ho Hred. destruct (finish_ends allowed s ot data d e s1 s1 r m) as (s' & E & He); try done.
    - by rewrite decide_False.
    - exists 0%nat, ot, data, s. eexists _, _. split; [lia|]. split; [constructor|]. by split. }
  unfold verdict in Hfin. destruct (ex_result e) as [[]|] eqn:Er; cbn [after_command]; try (by apply Hfin).
  - destruct (publish_spec (publishData_ (do_base d)) s1) as (b & s3 & E3 & Hc3 & Hd3 & Hq3 & Hke3 & Hkq3).
    assert (Hh3 : held s d s3) by (by apply (held_other s d s1)).
    destruct (finish_ends allowed s ot data d e s1 s3 OK (ex_msg e)) as (s' & E & He); try done.
    + unfold verdict. by rewrite Er.
    + by rewrite Er.
    + congruence.
    + rewrite decide_True, Hkq3 by done. unfold posted. rewrite Hk1, Hk2.
      by destruct Hr as (d0 & s0 & w & _ & _ & _ & -> & _).
    + exists 0%nat, ot, data, s. eexists _, _. split; [lia|]. split; [constructor|].
      split; [rewrite (bind_done _ _ _ _ _ E3); exact E|exact He].
  - destruct allowed as [|allowed].
    + exists 0%nat, ot, data, s. eexists _, s1. split; [lia|]. split; [constructor|]. split; [done|].
      eapply ends_too_many; [exact Hr|done|done|by apply (held_count _ _ _ Hh)|done].
    + destruct (ex_redirect e) as [[[dn rt] rd]|] eqn:Ee; [|by apply Hfin].
      destruct (release_held _ _ _ Hh) as (s3 & E & Hs & Hk3 & _).
      destruct (IH allowed eq_refl (before_nul rt) rd (producer_ d) s3) as (k & ot' & data' & s0 & o & s' & Hle & Hred & El & He).
      { by apply (same_calm s). } { by rewrite (same_cache _ _ Hs). }
      exists (S k), ot', data', s0, o, s'. split; [lia|]. split; [by eapply redirected_more|].
      split; [by rewrite (bind_done _ _ _ _ _ E)|].
      assert (Hk0 : kafka s3 = kafka s) by congruence. pose proof Hk0 as [= Hk4 Hk5].
      destruct He as [r m q s' H1 H2 H3 H4|d' e' s4 s' H1 H2 H3 H4 H5|d' e' s4 s' H1 H2 H3 H4 H5].
      * apply ends_unserved; [done|done|by transitivity s3|congruence].
      * eapply ends_answered; [exact H1| |by transitivity s3|congruence|].
        -- intros H. destruct (H2 H). split; [congruence|done].
        -- rewrite H5. unfold posted. by rewrite Hk4, Hk5.
      * eapply ends_too_many; [exact H1|done|congruence|by rewrite H4, (same_cache _ _ Hs)|congruence].
Qed.

Lemma redirect_loop_fine allowed : loop_fine allowed.
Proof.
  induction allowed as [allowed IH] using lt_wf_ind. intros ot data p s Hc Hn. rewrite redirect_loop_round.
  destruct (getDecoder_spec s (before_nul ot) (before_nul data) res Hc Hn) as (s1 & Hk1 & [(m & E & Hs)|(d & E & Hh)]);
    rewrite (bind_done _ _ _ _ _ E).
  - exists 0%nat, ot, data, s. eexists _, _. split; [lia|]. split; [constructor|]. split; [done|].
    apply ends_unserved; [|by left|done|done]. intros d e s2 (d0 & s3 & w & E' & _). congruence.
  - assert (Hh1 : held s (as_sent d) s1) by (by apply (held_other s d s1)).
    destruct (release_held _ _ _ Hh1) as (s2 & Er & Hs2 & Hk2 & _).
    assert (Hd : decodeExecute (as_sent d) res s1 =
      match command_fate (world s1) with
      | Runs => (r <- run_command (as_sent d) ;; pure (inl r)) s1
      | f => (Done (inr (answer ERROR (to_bytes (match f with Refused => "SHUTDOWN: In the proccess of shutdown!"
                                                 | _ => "SHUTDOWN: In the proccess of shuting down!" end)) res)), s2)
      end).
    { unfold decodeExecute, gets, bind at 1. destruct (command_fate (world s1)); [done| |]; by rewrite (bind_done _ _ _ _ _ Er). }
    assert (Hno : command_fate (world s1) <> Runs -> forall d' e s3, ~ ran_on ot data s d' e s3).
    { intros Hf d' e s3 (d0 & s4 & w & E' & Hf' & _). congruence. }
    destruct (command_fate (world s1)) eqn:Ef.
    + destruct (execute_plugin (as_sent d) (world s1)) as [e w] eqn:Ee.
      assert (Hr : ran_on ot data s (returned (as_sent d) e) e (set_world w s1)) by (by exists d, s1, w).
      destruct (after_command_fine allowed ot data s (returned (as_sent d) e) e (set_world w s1))
        as (k & ot' & data' & s0 & o & s' & Hle & Hred & El & He); [intros k ->; apply IH; lia|done..|by apply (held_other s d s1)|done|].
      exists k, ot', data', s0, o, s'. split; [done|]. split; [done|]. split; [|done]. rewrite <- El.
      unfold bind at 1. rewrite Hd. unfold run_command, bind. by rewrite Ee.
    + rewrite (bind_done _ _ _ _ _ Hd). exists 0%nat, ot, data, s. eexists _, _. split; [lia|]. split; [constructor|]. split; [done|].
      apply ends_unserved; [by apply Hno|by right|done|congruence].
    + rewrite (bind_done _ _ _ _ _ Hd). exists 0%nat, ot, data, s. eexists _, _. split; [lia|]. split; [constructor|]. split; [done|].
      apply ends_unserved; [by apply Hno|by right|done|congruence].
Qed.

End message.

(** C34: A request that is alone on the server, when two connections are free and the
    server is in order: its connections are counted right, the numbers of its decoders
    are different and that of the quality control is not the largest integer; its files
    of parameters can be read, it has memory for a command, and the database names its
    errors. Then the message is not left waiting and nothing is undefined. After at
    most six redirections, each by the decoder that ran on the message before, one of
    three things happens. No decoder is found or the pool takes no work: the answer
    is NODECODER or ERROR. A decoder runs on the message: the answer is its verdict, so
    that OK and NOTSAVED are said only when this decoder ended so, and with its
    message; what it decoded is offered to the queue of what is published when the
    answer is OK, and nothing otherwise. In these two cases connections and decoders
    are in use exactly as before. Or the decoder redirects a message that was
    redirected six times already: then an exception leaves, and one connection stays
    in use. *)
Theorem newObservation_answers (obsType_ data_ : bytes) (serialNumber : Z) (s : DataSrcApp PT W) :
  calm s -> 1 < nFree (conCache s) ->
  let '(producer, t1) := getProducer (before_nul obsType_) in
  let '(messageId, t2) := getMessageId t1 in
  let res := {| a_res := OK; a_message := []; a_messageId := messageId; a_retry := false |} in
  exists k ot data s0 o s', (k <= 6)%nat /\ redirections serialNumber producer res k t2 data_ s ot data s0 /\
    newObservation obsType_ data_ serialNumber s = (o, s') /\ ends serialNumber producer res s (k = 6)%nat ot data s0 o s'.
Proof.
  intros Hc Hn. unfold newObservation. destruct (getProducer _) as [mp t1]. destruct (getMessageId t1) as [id t2].
  exact (redirect_loop_fine serialNumber mp _ 6 t2 data_ [] s Hc Hn).
Qed.

(** What is published is lost only for want of room. *)
Lemma post_all_room l (q : BlockingQueue (KvalobsData PT)) : suspended q = false ->
  size q + Z.of_nat (length l) <= maxSize q ->
  post_all l q = (true, set_data (dataQueue q ++ (set_kd_producer "kvinput" <$> l)) q).
Proof.
  revert q. induction l as [|k l IH]; intros q Hs Hn; cbn [post_all].
  - simpl. rewrite app_nil_r. by destruct q.
  - unfold timedAdd. rewrite Hs. cbn [length] in Hn. rewrite (proj2 (Z.ltb_lt _ _)) by lia. rewrite IH; [|done|].
    + simpl. by rewrite <- app_assoc.
    + unfold size in *. simpl. rewrite length_app. simpl. lia.
Qed.

End requests.

(** ** A small server *)

Section small.

(** A clock, a decoder that saves everything and one that redirects to itself. *)
#[local] Instance small_libpq : Libpq Z := {
  pq_connected _ := true; PQreset w := w;
  PQexec _ w := (Some {| pr_status := PGRES_TUPLES_OK; pr_message := ""; pr_sqlstate := None;
                         pr_tuples := [["110"; "RR"]; ["1021"; "TEXT"]; ["x"; "y"]] |}, w);
  pq_time w := w
}.
#[local] Instance small_regex : BoostRegex := { key_match _ _ := None }.
#[local] Instance small_surroundings : Surroundings Z := {
  universal_time w := w; rand_ w := w; read_file _ _ := None; sigTerm _ := false; command_memory _ := true; command_fate _ := Runs
}.
#[local] Instance small_plugins : Plugins stamp_time Z := {
  factory i params types ot ob := Some (DecoderBase_new params types ot ob);
  execute_plugin d w :=
    ({| ex_result := Some (if do_decoderId d =? 0 then Ok else Redirect); ex_msg := to_bytes "done";
        ex_redirect := if do_decoderId d =? 0 then None else Some (to_bytes "loop", to_bytes "loop", []);
        ex_base := do_base d; ex_producer := producer_ d |}, w + 1)
}.

Definition small_cache : ConnectionCache := addConnection 2 (addConnection 1 (addConnection 0 ConnectionCache_new)).
Definition small_server : DataSrcApp stamp_time Z :=
  {| conCache := small_cache;
     decoders_ := [{| obsTypes := [to_bytes "save"]; decoderCount := 0; decoderId := 0 |};
                   {| obsTypes := [to_bytes "loop"; to_bytes "save"]; decoderCount := 0; decoderId := 1 |}];
     theKvConf_ := None; paramList_ := []; typeList_ := []; nextParamCheckTime := None; paramFile := []; defaultParamFile := [];
     filters_ := StationFilters_new; qaIdInfo := Some (QaIdInfo_of 2 [0]); kafka_enable := true;
     kafkaPubStream := BlockingQueue_of 5; world := 0 |}.

#[local] Instance small_laws : SurroundingsLaws small_surroundings.
Proof. split; [by eexists|done|done]. Qed.

Lemma small_calm : calm small_server.
Proof. split; [split; [done|by vm_compute; repeat constructor; set_solver]|by repeat constructor; set_solver|done]. Qed.

Example small_ok : exists s', newObservation (to_bytes "save/x=1") [] 0 small_server =
  (Done ({| a_res := OK; a_message := to_bytes "done"; a_messageId := []; a_retry := false |}, []), s').
Proof. eexists. vm_compute. reflexivity. Qed.

(** Each message that is redirected too often keeps a connection; after three of them
    every request waits for ever. *)
Definition storm (s : DataSrcApp stamp_time Z) := newObservation (to_bytes "loop") [] 0 s.
Example storm_blocks :
  let s3 := (storm (storm (storm small_server).2).2).2 in
  (storm small_server).1 = Raised (too_many (to_bytes "loop")) /\ nFree (conCache s3) = 0 /\
  (newObservation (to_bytes "save") [] 0 s3).1 = Blocked.
Proof. vm_compute. by split_and!. Qed.

Lemma newObservation_answers_witness : exists r q s',
  newObservation (to_bytes "save/x=1") [] 0 small_server = (Done (r, q), s') /\
  conCache s' = conCache small_server /\ decoders_ s' = decoders_ small_server.
Proof.
  pose proof (newObservation_answers (to_bytes "save/x=1") [] 0 small_server small_calm ltac:(done)) as H.
  change (getProducer (before_nul (to_bytes "save/x=1"))) with (@nil ascii, to_bytes "save/x=1") in H. cbn beta iota in H.
  change (getMessageId (to_bytes "save/x=1")) with (@nil ascii, to_bytes "save/x=1") in H. cbn beta iota zeta in H.
  destruct H as (k & ot & data & s0 & o & s' & _ & _ & E & He). revert E.
  destruct He as [r m q s1 _ _ [H1 H2 _] _|d e s1 s2 _ _ [H1 H2 _] _ _|d e s1 s2 _ _ _ _ _]; intros E.
  - eexists _, _, _. split; [exact E|split; [exact H1|exact H2]].
  - eexists _, _, _. split; [exact E|split; [exact H1|exact H2]].
  - apply (f_equal fst) in E. vm_compute in E. discriminate E.
Defined.

(** Six redirections are followed; the seventh is the exception. *)
Example storm_redirections : exists s0 s',
  redirections (W := Z) 0 [] {| a_res := OK; a_message := []; a_messageId := []; a_retry := false |} 6
    (to_bytes "loop") [] small_server (to_bytes "loop") [] s0 /\
  newObservation (to_bytes "loop") [] 0 small_server = (Raised (too_many (to_bytes "loop")), s').
Proof.
  eexists _, _. split; [|vm_compute; reflexivity].
  do 6 (eapply redirected_more; [eexists _, _, _; split_and!; vm_compute; reflexivity|vm_compute; reflexivity..|]).
  apply redirected_none.
Qed.

Lemma findDecoder_first_witness :
  (findDecoder None 0 [] [] (to_bytes "loop/key=val") [] (decoders_ small_server)).2 =
  [{| obsTypes := [to_bytes "save"]; decoderCount := 0; decoderId := 0 |};
   {| obsTypes := [to_bytes "loop"; to_bytes "save"]; decoderCount := 1; decoderId := 1 |}].
Proof.
  change (decoders_ small_server) with
    ([{| obsTypes := [to_bytes "save"]; decoderCount := 0; decoderId := 0 |}] ++
      {| obsTypes := [to_bytes "loop"; to_bytes "save"]; decoderCount := 0; decoderId := 1 |} :: []).
  rewrite (findDecoder_first (PT := stamp_time) _ _ _ _ _ _ _ _ _ (DecoderBase_new [] [] (to_bytes "loop/key=val") []));
    [done| | |done].
  - repeat constructor. vm_compute. set_solver.
  - vm_compute. set_solver.
Defined.

End small.
