(* ===== verification/DataInputHttp.v ===== *)
(** * kvDataInputd: the service over HTTP and its client
      (src/src/kvDataInputd/ObservationHandler.cc, src/src/lib/kvsubscribe/HttpSendData.cc,
      SendDataJsonResult.cc)

    A message is posted as the type of the observation on a line of its own and the
    data behind it; the answer is an object in JSON and a status. The texts of JSON
    and the transport are parameters. *)

From stdpp Require Import pretty.
From S2P Require Import Prelude Orders PTime TimeText KvData KvalobsData Rows Conf StationFilter Scanning Text CommaString Signature ParamList PgConnection Decoder Saving BlockingQueue DataInput.

#[local] Open Scope Z_scope.

(** ** Values of JSON *)

(** [JReal] is a number that is no integer, by its text. *)
Inductive JsonValue :=
  | JNull | JBool (b : bool) | JInt (i : Z) | JReal (x : bytes) | JString (s : bytes) | JArray (l : list JsonValue)
  | JObject (l : list (bytes * JsonValue)).

(** [toStyledString] and [Reader::parse] without comments, [None] is a text that is no
    value; what the library makes of a number that is no integer. *)
Class JsonText := {
  toStyledString : JsonValue -> bytes;
  json_parse : bytes -> option JsonValue;
  real_int : bytes -> option Z;
  real_bool : bytes -> bool;
  real_string : bytes -> bytes
}.

Section conversions.
  Context {JT : JsonText}.

(** [get(key, default)]; [None] is the exception for a value that is no object. *)
Definition json_get (v : JsonValue) (key : bytes) (default : JsonValue) : option JsonValue :=
  match v with
  | JObject l => Some (match map_find key l with Some x => x | None => default end)
  | JNull => Some default
  | _ => None
  end.

(** [asInt], [asBool] and [asString]; [None] is the exception. *)
Definition asInt (v : JsonValue) : option Z :=
  match v with
  | JInt i => if (INT_MIN <=? i) && (i <=? INT_MAX) then Some i else None
  | JNull => Some 0
  | JBool b => Some (if b then 1 else 0)
  | JReal x => real_int x
  | _ => None
  end.
Definition asBool (v : JsonValue) : option bool :=
  match v with
  | JBool b => Some b
  | JNull => Some false
  | JInt i => Some (negb (i =? 0))
  | JReal x => Some (real_bool x)
  | _ => None
  end.
Definition asString (v : JsonValue) : option bytes :=
  match v with
  | JNull => Some []
  | JString s => Some (before_nul s)
  | JBool b => Some (to_bytes (if b then "true" else "false"))
  | JInt i => Some (to_bytes (pretty i))
  | JReal x => Some (real_string x)
  | _ => None
  end.

(** ** SendDataJsonResult.cc *)

Definition EResult_val (r : EResult) : Z :=
  match r with OK => 0 | NODECODER => 1 | DECODEERROR => 2 | NOTSAVED => 3 | ERROR => 4 end.
Definition EResult_of (z : Z) : option EResult :=
  match z with 0 => Some OK | 1 => Some NODECODER | 2 => Some DECODEERROR | 3 => Some NOTSAVED | 4 => Some ERROR | _ => None end.

(** The object as a map, in the order of its keys. *)
Definition decodeResultToJson (r : Answer) : JsonValue :=
  JObject [(to_bytes "message", JString (a_message r));
           (to_bytes "messageid", if bool_decide (a_messageId r = []) then JNull else JString (a_messageId r));
           (to_bytes "res", JInt (EResult_val (a_res r)));
           (to_bytes "retry", JBool (bool_decide (a_res r = NOTSAVED)))].

Definition decodeResultFromJson (jv : JsonValue) : option Answer :=
  res ← json_get jv (to_bytes "res") (JInt (-1)) ≫= asInt;
  r ← EResult_of res;
  messageId ← json_get jv (to_bytes "messageid") JNull;
  message ← json_get jv (to_bytes "message") (JString []) ≫= asString;
  mid ← match messageId with JNull => Some [] | v => asString v end;
  retry ← json_get jv (to_bytes "retry") (JBool false) ≫= asBool;
  Some {| a_res := r; a_message := message; a_messageId := mid; a_retry := retry |}.

Definition decodeResultFromJsonString (result : bytes) : option Answer := json_parse result ≫= decodeResultFromJson.

End conversions.

(** ** ObservationHandler.cc *)

Record http_response := { body : bytes; response_code : Z; content_type : string }.

Definition http_ok : Z := 200.
Definition http_bad_request : Z := 400.
Definition http_internal_server_error : Z := 500.
Definition http_service_unavailable : Z := 503.

(** The type and the data, or the message of the exception. *)
Definition is_blank (c : ascii) : bool := is_any_of default_trimset c.
Definition getObservation (content : bytes) : (bytes * bytes) + bytes :=
  match drop_set default_trimset content with
  | [] => inr (to_bytes "Empty message.")
  | s =>
      match break (is_char (char_of 10)) s with
      | None => inr (to_bytes "Only obstype is given.")
      | Some (obsType, _, obs) => inl (obsType, obs)
      end
  end.

Section Http.
  Context {PT : PTime} {BT : BoostText} {BR : BoostRegex} {W : Type} {PQ : Libpq W} {SU : Surroundings W} {PL : Plugins PT W}.
  Context {JT : JsonText}.

Record ObservationHandler := { app : DataSrcApp PT W; serialNumber : Z; rawQue : BlockingQueue bytes }.

(** [postOnRawQue]: a message that does not fit within four seconds is left out. *)
Definition postOnRawQue (rawData : bytes) (h : ObservationHandler) : ObservationHandler :=
  if bool_decide (rawData = []) || negb (kafka_enable (app h)) then h
  else {| app := app h; serialNumber := serialNumber h; rawQue := (timedAdd rawData true true (rawQue h)).2 |}.

Definition unavailable : http_response :=
  {| body := to_bytes "The service is unavailable."; response_code := http_service_unavailable; content_type := "text/plain" |}.
Definition json_response (r : Answer) (code : Z) : http_response :=
  {| body := toStyledString (decodeResultToJson r); response_code := code; content_type := "application/json" |}.
Definition problems (what : bytes) : http_response :=
  {| body := to_bytes "Problems: " ++ what; response_code := http_internal_server_error; content_type := "application/text" |}.

Definition respond (r : Answer) : http_response :=
  if bool_decide (a_res r = OK) then json_response r http_ok
  else if bool_decide (a_res r = ERROR) && is_prefix_of (to_bytes "SHUTDOWN") (a_message r) then unavailable
  else json_response r http_bad_request.

(** [render_POST]: the response, or a thread that waits, or undefined behaviour. *)
Definition render_POST (content : bytes) (h : ObservationHandler) : outcome http_response * ObservationHandler :=
  if sigTerm (world (app h)) then (Done unavailable, h)
  else
    let serial := serialNumber h in
    let h := {| app := app h; serialNumber := (serial + 1) mod 2 ^ 64; rawQue := rawQue h |} in
    let h := postOnRawQue content h in
    match getObservation content with
    | inr errormsg =>
        (Done (json_response {| a_res := DECODEERROR; a_message := errormsg; a_messageId := []; a_retry := false |} http_bad_request), h)
    | inl (obsType, obs) =>
        let '(r, s) := newObservation obsType obs serial (app h) in
        let h := {| app := s; serialNumber := serialNumber h; rawQue := rawQue h |} in
        (match r with
         | Done (r, _) => Done (respond r)
         | Raised what => Done (problems (before_nul what))
         | Blocked => Blocked
         | Undef => Undef
         end, h)
    end.

(** ** HttpSendData.cc *)

Definition conf_string (l : ValElementList) (defaultVal : bytes) : bytes :=
  match l with v :: _ => valAsString v | [] => defaultVal end.
Definition getHost (conf : ConfSection) : bytes :=
  conf_string (getValue conf (to_bytes "kvDataInputd.http.host")) (to_bytes "localhost") ++ ":"%char ::
  to_bytes (pretty (list_valAsInt (getValue conf (to_bytes "kvDataInputd.http.port")) 8090 0)).
Definition secure (conf : ConfSection) : bool :=
  list_valAsBool (getValue conf (to_bytes "kvDataInputd.http.useHTTPS")) false 0.
Definition createUrl (hostAndPort : bytes) (secure : bool) : bytes :=
  to_bytes (if secure then "https://" else "http://") ++ hostAndPort ++ to_bytes "/v1/observation".
Definition HttpSendData_host (conf : ConfSection) : bytes := createUrl (getHost conf) (secure conf).

(** The text that a client posts. *)
Definition post_text (data obsType : bytes) : bytes := obsType ++ char_of 10 :: data.

(** [newData]: the answer, or the text of [Fatal]; [what] is the text of the exception of
    the reader. The transport answers with the status and the body or throws; there
    is no limit for the time it takes, so it may also wait for ever. *)
Definition fatal (host_ what : bytes) : Answer + bytes := inr (what ++ to_bytes " Url: " ++ host_).
Definition read_answer (what host_ content : bytes) (retCode : Z) : Answer + bytes :=
  match decodeResultFromJsonString content with
  | Some r => inl r
  | None => if retCode =? 200 then fatal host_ what
            else fatal host_ (to_bytes "Http return code: " ++ to_bytes (pretty retCode) ++ to_bytes ".")
  end.
Definition newData (post : bytes -> bytes -> outcome (Z * bytes)) (what host_ data obsType : bytes) : outcome (Answer + bytes) :=
  match post host_ (post_text data obsType) with
  | Done (retCode, content) => Done (read_answer what host_ content retCode)
  | Raised e => Done (fatal host_ e)
  | Blocked => Blocked
  | Undef => Undef
  end.

End Http.

Arguments ObservationHandler : clear implicits.

(** ** What the library of JSON promises *)

(** Characters of ASCII other than the null character. *)
Definition plain_char (c : ascii) : Prop := 0 < uchar_val c < 128.
Definition plain_text (s : bytes) : Prop := Forall plain_char s.

Definition plain_scalar (v : JsonValue) : Prop :=
  match v with JNull | JBool _ => True | JInt i => 0 <= i <= INT_MAX | JString s => plain_text s | _ => False end.

(** An object of plain members is read as it was written, and no value begins with one
    of these letters. *)
Class JsonTextLaws (JT : JsonText) : Prop := {
  jt_object l : NoDup l.*1 -> Forall plain_text l.*1 -> Forall (fun kv => plain_scalar kv.2) l ->
    json_parse (toStyledString (JObject l)) = Some (JObject l);
  jt_letter c s : c = "T"%char \/ c = "P"%char -> json_parse (c :: s) = None
}.

Lemma plain_before_nul s : plain_text s -> before_nul s = s.
Proof.
  unfold before_nul. induction 1 as [|c s Hc _ IH]; [done|]. cbn [span]. unfold is_char at 1.
  rewrite bool_decide_false; [|intros ->; by destruct Hc]. cbn [negb]. destruct (span _ s) as [a b]. simpl in *. by rewrite IH.
Qed.

Lemma EResult_of_val r : EResult_of (EResult_val r) = Some r.
Proof. by destruct r. Qed.

(** An answer as it is read back. *)
Definition seen (r : Answer) : Answer :=
  {| a_res := a_res r; a_message := a_message r; a_messageId := a_messageId r; a_retry := bool_decide (a_res r = NOTSAVED) |}.

Lemma from_to_json {JT : JsonText} r : plain_text (a_message r) -> plain_text (a_messageId r) ->
  decodeResultFromJson (decodeResultToJson r) = Some (seen r).
Proof.
  intros Hm Hi. unfold decodeResultFromJson, decodeResultToJson, json_get.
  set (l := [_; _; _; _]).
  assert (H1 : map_find (to_bytes "res") l = Some (JInt (EResult_val (a_res r)))) by done.
  assert (H2 : map_find (to_bytes "messageid") l = Some (if bool_decide (a_messageId r = []) then JNull else JString (a_messageId r))) by done.
  assert (H3 : map_find (to_bytes "message") l = Some (JString (a_message r))) by done.
  assert (H4 : map_find (to_bytes "retry") l = Some (JBool (bool_decide (a_res r = NOTSAVED)))) by done.
  rewrite H1, H2, H3, H4. cbn [mbind option_bind asString asBool].
  assert (Hr : asInt (JInt (EResult_val (a_res r))) = Some (EResult_val (a_res r))) by by destruct (a_res r).
  rewrite Hr. cbn [mbind option_bind]. rewrite EResult_of_val, plain_before_nul by done. cbn [mbind option_bind]. unfold seen.
  destruct (decide (a_messageId r = [])) as [E|E]; [rewrite (bool_decide_true (a_messageId r = [])) by done; cbn; by rewrite E|].
  rewrite (bool_decide_false (a_messageId r = [])) by done. cbn. by rewrite plain_before_nul.
Qed.

Section promises.
  Context {PT : PTime} {BT : BoostText} {BR : BoostRegex} {W : Type} {PQ : Libpq W} {SU : Surroundings W} {PL : Plugins PT W}.
  Context {JT : JsonText} {JTL : JsonTextLaws JT}.

(** A type that a client may name: one line that does not begin with a blank. *)
Definition line_type (obsType : bytes) : Prop :=
  from_option not_blank False (head obsType) /\ Forall (fun c => c <> char_of 10) obsType.

Lemma getObservation_post obsType data : line_type obsType -> getObservation (post_text data obsType) = inl (obsType, data).
Proof.
  intros [Hh Hl]. unfold getObservation, post_text. destruct obsType as [|c t]; [done|]. simpl in Hh. cbn [Datatypes.app drop_set].
  rewrite bool_decide_false by done. rewrite app_comm_cons, break_app; [done| |by apply bool_decide_true].
  apply Forall_impl with (1 := Hl). intros d Hd. by apply bool_decide_false.
Qed.

Lemma read_json r : plain_text (a_message r) -> plain_text (a_messageId r) ->
  decodeResultFromJsonString (toStyledString (decodeResultToJson r)) = Some (seen r).
Proof.
  intros Hm Hi. unfold decodeResultFromJsonString, decodeResultToJson. rewrite jt_object; [by apply from_to_json| | |].
  - vm_compute. repeat constructor; set_solver.
  - repeat constructor.
  - rewrite !Forall_cons, Forall_nil. simpl. split_and!; try done; [by case_bool_decide|by destruct (a_res r)..].
Qed.

(** A server as the transport of a client, which waits as long as the server does. *)
Definition served (h : ObservationHandler PT W) (url content : bytes) : outcome (Z * bytes) :=
  match (render_POST content h).1 with
  | Done r => Done (response_code r, body r)
  | Raised e => Raised e
  | Blocked => Blocked
  | Undef => Undef
  end.

(** C35: Client and server agree. When the type is one line that does not begin with a
    blank, no signal to end was given, and the message and the id of the answer are
    of characters of ASCII, the type and the data reach the server's [newObservation]
    as they were given, and the client gets the server's answer with its code,
    message and id; the mark to try again is set exactly for NOTSAVED. An answer that
    begins with SHUTDOWN and an exception of the server are never answers for the
    client but its own exception, with the status 503 or 500. While the server waits
    the client waits: it has no limit. *)
Theorem client_server (h : ObservationHandler PT W) (what host_ obsType data : bytes) :
  line_type obsType -> sigTerm (world (app h)) = false ->
  (forall r q s, newObservation obsType data (serialNumber h) (app h) = (Done (r, q), s) ->
     plain_text (a_message r) /\ plain_text (a_messageId r)) ->
  newData (served h) what host_ data obsType =
  match (newObservation obsType data (serialNumber h) (app h)).1 with
  | Done (r, _) =>
      if bool_decide (a_res r = ERROR) && is_prefix_of (to_bytes "SHUTDOWN") (a_message r)
      then Done (fatal host_ (to_bytes "Http return code: 503."))
      else Done (inl {| a_res := a_res r; a_message := a_message r; a_messageId := a_messageId r;
                        a_retry := bool_decide (a_res r = NOTSAVED) |})
  | Raised _ => Done (fatal host_ (to_bytes "Http return code: 500."))
  | Blocked => Blocked
  | Undef => Undef
  end.
Proof.
  intros Ht Hs Hp. unfold newData, served, render_POST. rewrite Hs, getObservation_post by done.
  set (h' := postOnRawQue _ _).
  assert (Ha : app h' = app h) by (unfold h', postOnRawQue; by case_match).
  rewrite Ha. destruct (newObservation obsType data (serialNumber h) (app h)) as [r s] eqn:E.
  destruct r as [[r q]|e| |]; simpl; try done.
  - destruct (Hp _ _ _ eq_refl) as [Hm Hi]. unfold respond. pose proof (read_json r Hm Hi) as Hr. unfold read_answer.
    case_bool_decide as Eo.
    + rewrite (bool_decide_false (a_res r = ERROR)) by congruence. simpl. by rewrite Hr.
    + destruct (bool_decide (a_res r = ERROR) && _) eqn:Ee; simpl; [|by rewrite Hr].
      unfold decodeResultFromJsonString. by rewrite jt_letter by by left.
  - unfold read_answer, decodeResultFromJsonString. by rewrite jt_letter by by right.
Qed.

(** *** The answers to a post *)

(** What a posted text is: blanks, a type on the rest of the line and the data behind it;
    or, without a type, blanks alone or a last line that nothing follows. *)
Definition blank (s : bytes) : Prop := Forall (fun c => c ∈ default_trimset) s.
Definition typed (content obsType obs : bytes) : Prop :=
  exists blanks, blank blanks /\ line_type obsType /\ content = blanks ++ obsType ++ char_of 10 :: obs.
Definition untyped (content : bytes) : Prop :=
  exists blanks rest, blank blanks /\ Forall (fun c => c <> char_of 10) rest /\ content = blanks ++ rest.

Lemma drop_set_split set s : exists b, Forall (fun c => c ∈ set) b /\ s = b ++ drop_set set s /\
  from_option (fun c => c ∉ set) True (head (drop_set set s)).
Proof.
  induction s as [|c s (b & Hb & Hs & Hh)]; [by exists []|]. cbn [drop_set]. case_bool_decide as E.
  - exists (c :: b). split; [by constructor|]. split; [cbn; by rewrite <- Hs|done].
  - by exists [].
Qed.

Lemma drop_set_app set b s : Forall (fun c => c ∈ set) b -> drop_set set (b ++ s) = drop_set set s.
Proof. induction 1 as [|c b Hc _ IH]; [done|]. cbn [Datatypes.app drop_set]. by rewrite bool_decide_true. Qed.

Lemma getObservation_typed content ot ob : typed content ot ob <-> getObservation content = inl (ot, ob).
Proof.
  split.
  - intros (b & Hb & Ht & ->). unfold getObservation. rewrite drop_set_app by done. exact (getObservation_post ot ob Ht).
  - unfold getObservation. destruct (drop_set_split default_trimset content) as (b & Hb & Hs & Hh).
    destruct (drop_set default_trimset content) as [|c s]; [done|].
    destruct (break (is_char (char_of 10)) (c :: s)) as [[[a d] r]|] eqn:E; [|done]. intros [= <- <-].
    destruct (break_some _ _ _ _ _ E) as (Ea & Hn & Hd). apply bool_decide_eq_true in Hd as ->.
    exists b. split; [done|]. split; [|by rewrite Hs, Ea]. split.
    + destruct a as [|c' a]; injection Ea as -> _; [|done]. destruct Hh. by apply (bool_decide_unpack _).
    + eapply Forall_impl; [exact Hn|]. intros d Hd. by apply bool_decide_eq_false in Hd.
Qed.

Lemma getObservation_untyped content : untyped content ->
  (blank content /\ getObservation content = inr (to_bytes "Empty message.")) \/
  (~ blank content /\ getObservation content = inr (to_bytes "Only obstype is given.")).
Proof.
  intros (b & r & Hb & Hr & ->). unfold getObservation. rewrite drop_set_app by done.
  destruct (drop_set_split default_trimset r) as (b' & Hb' & Hs & Hh).
  destruct (drop_set default_trimset r) as [|c s]; [left|right].
  - split; [|done]. rewrite Hs, app_nil_r. by apply Forall_app.
  - rewrite Hs in Hr. apply Forall_app in Hr as [_ Hr]. split.
    + rewrite Hs. intros [_ [_ [Hc _]%Forall_cons]%Forall_app]%Forall_app. done.
    + rewrite break_none; [done|]. eapply Forall_impl; [exact Hr|]. intros d Hd. by apply bool_decide_false.
Qed.

Lemma break_none_inv p s : break p s = None -> no_char p s.
Proof.
  unfold no_char. induction s as [|c s IH]; [constructor|]. cbn [break]. destruct (p c) eqn:E; [done|].
  destruct (break p s) as [[[a d] r]|]; [done|]. intros _. constructor; [done|by apply IH].
Qed.

Lemma is_prefix_of_spec t s : is_prefix_of t s = true <-> exists r, s = t ++ r.
Proof.
  revert s. induction t as [|c t IH]; intros s; cbn [is_prefix_of]; [split; [by exists s|done]|].
  destruct s as [|d s]; [split; [done|by intros (r & ?)]|]. unfold is_char. rewrite andb_true_iff, bool_decide_eq_true, IH.
  split; [intros [-> [r ->]]; by exists r|intros (r & [= -> ->]); split; [done|by exists r]].
Qed.

Lemma getObservation_none content m : getObservation content = inr m -> untyped content.
Proof.
  unfold getObservation. destruct (drop_set_split default_trimset content) as (b & Hb & Hs & Hh).
  destruct (drop_set default_trimset content) as [|c s]; [intros _; by exists b, []|].
  destruct (break (is_char (char_of 10)) (c :: s)) as [[[a d] r]|] eqn:E; [done|]. intros _. exists b, (c :: s).
  split; [done|]. split; [|done]. apply break_none_inv in E. eapply Forall_impl; [exact E|]. intros d Hd. by apply bool_decide_eq_false in Hd.
Qed.

(** What the server makes of the type and the data of a post. *)
Definition outcome_of (content : bytes) (h : ObservationHandler PT W) (o : outcome (Answer * bytes)) : Prop :=
  exists obsType obs s, typed content obsType obs /\ newObservation obsType obs (serialNumber h) (app h) = (o, s).
Definition stopped (a : Answer) : Prop := a_res a = ERROR /\ exists m, a_message a = to_bytes "SHUTDOWN" ++ m.

(** The response to a post, by what was posted and what became of it. *)
Inductive post_response (content : bytes) (h : ObservationHandler PT W) : http_response -> Prop :=
  | post_signal : sigTerm (world (app h)) = true -> post_response content h unavailable
  | post_blank : sigTerm (world (app h)) = false -> blank content -> post_response content h
      (json_response {| a_res := DECODEERROR; a_message := to_bytes "Empty message."; a_messageId := []; a_retry := false |} 400)
  | post_untyped : sigTerm (world (app h)) = false -> untyped content -> ~ blank content -> post_response content h
      (json_response {| a_res := DECODEERROR; a_message := to_bytes "Only obstype is given."; a_messageId := []; a_retry := false |} 400)
  | post_saved a q : sigTerm (world (app h)) = false -> outcome_of content h (Done (a, q)) -> a_res a = OK ->
      post_response content h (json_response a 200)
  | post_stopped a q : sigTerm (world (app h)) = false -> outcome_of content h (Done (a, q)) -> stopped a ->
      post_response content h unavailable
  | post_failed a q : sigTerm (world (app h)) = false -> outcome_of content h (Done (a, q)) -> a_res a <> OK -> ~ stopped a ->
      post_response content h (json_response a 400)
  | post_thrown e : sigTerm (world (app h)) = false -> outcome_of content h (Raised e) -> post_response content h (problems (before_nul e)).

Lemma stopped_spec a : bool_decide (a_res a = ERROR) && is_prefix_of (to_bytes "SHUTDOWN") (a_message a) = true <-> stopped a.
Proof. rewrite andb_true_iff, bool_decide_eq_true, is_prefix_of_spec. done. Qed.

Lemma outcome_unique content h o o' : outcome_of content h o -> outcome_of content h o' -> o = o'.
Proof.
  intros (t & d & s & Ht & E) (t' & d' & s' & Ht' & E'). apply getObservation_typed in Ht, Ht'. congruence.
Qed.

Lemma untyped_outcome content h o : untyped content -> ~ outcome_of content h o.
Proof. intros Hu (t & d & s & Ht%getObservation_typed & _). destruct (getObservation_untyped _ Hu) as [[_ E]|[_ E]]; congruence. Qed.

Lemma blank_untyped content : blank content -> untyped content.
Proof. intros H. exists content, []. split; [done|]. split; [constructor|by rewrite app_nil_r]. Qed.

Lemma post_response_unique content h r r' : post_response content h r -> post_response content h r' -> r = r'.
Proof.
  pose proof (blank_untyped content) as Hb. pose proof (untyped_outcome content h) as Hu.
  intros [] []; try congruence; try done; try (by exfalso; eapply Hu; eauto);
    match goal with H : outcome_of _ _ _, H' : outcome_of _ _ _ |- _ => pose proof (outcome_unique _ _ _ _ H H') end;
    simplify_eq; try done; unfold stopped in *; intuition congruence.
Qed.

(** C39: Which response a post gets, when it gets one (a request may wait for ever): 503
    when the signal to end was given, without looking at the message; else 400 with
    DECODEERROR for a message of blanks and for one without a type; else what the
    server made of the type and the data decides: 200 with the answer when it is OK,
    503 for an ERROR that begins with SHUTDOWN, 400 with the answer for all others,
    and 500 with its text for an exception. These cases exclude each other. Without
    the signal the serial number is used up and the text is offered to the queue of
    raw data, whatever it is; with it nothing is changed. *)
Theorem render_POST_status (content : bytes) (h : ObservationHandler PT W) (r : http_response) (h' : ObservationHandler PT W) :
  render_POST content h = (Done r, h') ->
  (forall r', post_response content h r' <-> r' = r) /\
  (if sigTerm (world (app h)) then h' = h
   else serialNumber h' = (serialNumber h + 1) mod 2 ^ 64 /\ rawQue h' = rawQue (postOnRawQue content h)).
Proof.
  intros E. cut (post_response content h r /\ (if sigTerm (world (app h)) then h' = h
    else serialNumber h' = (serialNumber h + 1) mod 2 ^ 64 /\ rawQue h' = rawQue (postOnRawQue content h))).
  { intros [Hr He]. split; [|done]. intros r'. split; [intros H; by eapply post_response_unique|by intros ->]. }
  revert E. unfold render_POST. destruct (sigTerm _) eqn:Es; [intros [= <- <-]; split; [by apply post_signal|done]|].
  set (h1 := postOnRawQue _ _).
  assert (Ha : app h1 = app h /\ serialNumber h1 = (serialNumber h + 1) mod 2 ^ 64 /\ rawQue h1 = rawQue (postOnRawQue content h)).
  { unfold h1, postOnRawQue. cbn [app]. by destruct (_ || _). }
  destruct Ha as (Ha & Hn & Hq). destruct (getObservation content) as [[ot ob]|e] eqn:Eg.
  - rewrite Ha. destruct (newObservation ot ob (serialNumber h) (app h)) as [o s] eqn:E.
    assert (Ho : outcome_of content h o) by (exists ot, ob, s; by rewrite getObservation_typed).
    destruct o as [[a q]|e| |]; intros [= <- <-]; (split; [|done]); [|by eapply post_thrown]. unfold respond.
    case_bool_decide as Eo; [by eapply post_saved|]. destruct (_ && _) eqn:Ep.
    + eapply post_stopped; [done|exact Ho|by apply stopped_spec].
    + eapply post_failed; [done|exact Ho|done|]. rewrite <- stopped_spec. congruence.
  - intros [= <- <-]. split; [|done]. pose proof (getObservation_none _ _ Eg) as Hu.
    destruct (getObservation_untyped _ Hu) as [[Hb E]|[Hb E]]; rewrite E in Eg; injection Eg as <-; [by apply post_blank|by apply post_untyped].
Qed.

End promises.

(** ** An instance of the laws, and a service *)

Section instance.

(** Texts with a dot before each character and a semicolon at the end. *)
Fixpoint enc_text (s : bytes) : bytes := match s with c :: s => "."%char :: c :: enc_text s | [] => [";"%char] end.
Fixpoint dec_text (s : bytes) : option (bytes * bytes) :=
  match s with
  | c :: s1 =>
      if bool_decide (c = ";"%char) then Some ([], s1)
      else match s1 with
           | d :: s2 => match dec_text s2 with Some (t, r) => Some (d :: t, r) | None => None end
           | [] => None
           end
  | [] => None
  end.

Lemma dec_enc_text s r : dec_text (enc_text s ++ r) = Some (s, r).
Proof. induction s as [|c s IH]; [done|]. simpl. by rewrite IH. Qed.

Definition enc_scalar (v : JsonValue) : bytes :=
  match v with
  | JNull => ["n"%char]
  | JBool b => [if b then "t"%char else "f"%char]
  | JInt i => "i"%char :: enc_text (to_bytes (pretty i))
  | JString s => "s"%char :: enc_text s
  | _ => []
  end.
Definition dec_scalar (s : bytes) : option (JsonValue * bytes) :=
  match s with
  | "n"%char :: r => Some (JNull, r)
  | "t"%char :: r => Some (JBool true, r)
  | "f"%char :: r => Some (JBool false, r)
  | "i"%char :: r => '(t, r) ← dec_text r; i ← lexical_cast_int t; Some (JInt i, r)
  | "s"%char :: r => '(t, r) ← dec_text r; Some (JString t, r)
  | _ => None
  end.

Lemma dec_enc_scalar v r : plain_scalar v -> dec_scalar (enc_scalar v ++ r) = Some (v, r).
Proof.
  destruct v as [|[]|i|x|s|l|l]; try done; intros Hv; cbn [enc_scalar dec_scalar Datatypes.app]; rewrite dec_enc_text; [|done]. cbn [mbind option_bind].
  destruct (digits_plain i Hv) as [-> _]. done.
Qed.

Fixpoint dec_members (n : nat) (s : bytes) : option (list (bytes * JsonValue)) :=
  match n with
  | O => None
  | S n =>
      match s with
      | [] => Some []
      | _ => '(k, s) ← dec_text s; '(v, s) ← dec_scalar s; l ← dec_members n s; Some ((k, v) :: l)
      end
  end.
Fixpoint enc_members (l : list (bytes * JsonValue)) : bytes :=
  match l with kv :: l => enc_text kv.1 ++ enc_scalar kv.2 ++ enc_members l | [] => [] end.

#[local] Instance toy_json : JsonText := {
  toStyledString v := match v with JObject l => "{"%char :: enc_members l | _ => enc_scalar v end;
  json_parse s := match s with "{"%char :: r => JObject <$> dec_members (S (length r)) r | _ => None end;
  real_int _ := None; real_bool _ := false; real_string x := x
}.

Lemma dec_enc_members l n : Forall (fun kv : bytes * JsonValue => plain_scalar kv.2) l -> (length (enc_members l) < n)%nat ->
  dec_members n (enc_members l) = Some l.
Proof.
  intros Hl. revert n. induction Hl as [|[k v] l Hv _ IH]; intros [|n] Hn; try (simpl in Hn; lia); [done|].
  cbn [enc_members fst snd] in *. assert (Hne : exists c t, enc_text k = c :: t) by (destruct k; by eexists _, _). destruct Hne as (c & t & Ek).
  assert (Hd : dec_members (S n) (enc_text k ++ enc_scalar v ++ enc_members l) =
    ('(k, s) ← dec_text (enc_text k ++ enc_scalar v ++ enc_members l); '(v, s) ← dec_scalar s; l ← dec_members n s; Some ((k, v) :: l)))
    by by rewrite Ek.
  rewrite Hd, dec_enc_text. simpl. rewrite dec_enc_scalar by done. simpl. rewrite IH; [done|].
  rewrite !length_app, Ek in Hn. simpl in Hn. lia.
Qed.

#[local] Instance toy_json_laws : JsonTextLaws toy_json.
Proof.
  split.
  - intros l _ _ Hl. change (JObject <$> dec_members (S (length (enc_members l))) (enc_members l) = Some (JObject l)).
    by rewrite dec_enc_members by (done || lia).
  - by intros c s [->| ->].
Qed.

(** The small server of [DataInput.v] behind its service. *)
Definition small_handler : ObservationHandler stamp_time Z :=
  {| app := small_server; serialNumber := 41; rawQue := BlockingQueue_of 5 |}.

#[local] Existing Instances small_libpq small_regex small_surroundings small_plugins.

Lemma client_server_witness :
  newData (served small_handler) [] (createUrl (to_bytes "localhost:8090") false) (to_bytes "the data") (to_bytes "save") =
  Done (inl {| a_res := OK; a_message := to_bytes "done"; a_messageId := []; a_retry := false |}).
Proof.
  rewrite (client_server (JT := toy_json) small_handler); [vm_compute; reflexivity| |reflexivity|].
  - split; [by vm_compute; set_solver|repeat constructor; done].
  - intros r q s E. vm_compute in E. injection E as <- _ _. split; repeat constructor; done.
Defined.

Lemma render_POST_status_witness : serialNumber (render_POST (to_bytes "loop") small_handler).2 = 42 /\
  forall r, post_response (JT := toy_json) (to_bytes "loop") small_handler r -> response_code r = 400.
Proof.
  destruct (render_POST_status (JT := toy_json) (to_bytes "loop") small_handler
    (json_response {| a_res := DECODEERROR; a_message := to_bytes "Only obstype is given."; a_messageId := []; a_retry := false |} 400)
    (render_POST (to_bytes "loop") small_handler).2) as [H1 [H2 _]]; [vm_compute; reflexivity|].
  split; [by rewrite H2|]. intros r Hr%H1. by rewrite Hr.
Defined.

End instance.
