(* ===== verification/DataInputThreads.v ===== *)
(** * kvDataInputd: the threads of the server (src/src/kvDataInputd/DataSrcApp.cc,
      ConnectionCache.cc, kvDataInputd.cc)

    Several requests at a time share the connections and the mutex of the
    application. A request is a thread that goes through the phases of
    [DataSrcApp::create], [decodeExecute] and [releaseDecodeCommand]; each step is
    what it does between two points where it may have to wait, as it turns out:
    exceptions and a query that fails are steps of their own. What [DataInput.v]
    says of one request alone does not hold of several: [registerParams] waits for
    a second connection while it holds the mutex. A message that is redirected is a
    new request of its thread. Left out are the shutdown, a server without memory for
    a command, after which [create] returns what has no value, and exceptions of the
    query that are no [SQLException], which its class does not throw. *)

From S2P Require Import Prelude DataInput.

#[local] Open Scope Z_scope.

(** Where a thread is: without a request; waiting for a connection; with one, waiting
    for the mutex; with the mutex, waiting for a connection to check the parameters;
    reading them; looking for a decoder; without the mutex, about to give the
    connection back as there is no decoder; decoding; without the connection, waiting
    for the mutex to release the decoder. *)
Inductive phase :=
  | Idle | Wanting | Locking (c : nat) | Checking (c : nat) | Reading (c c2 : nat) | Finding (c : nat) | Refusing (c : nat)
  | Decoding (c : nat) | Releasing.

Record threads := {
  phases : list phase;
  cache : ConnectionCache;
  owner : option nat;  (* of the mutex *)
  due : bool;          (* nextParamCheckTime is over *)
  lost : list nat      (* connections that an exception left in use *)
}.

(** [n] threads of the web server, [k] connections; the parameters were read at the
    start. *)
Definition connections (k : nat) : ConnectionCache := foldl (fun s c => addConnection c s) ConnectionCache_new (seq 0 k).
Definition threads_init (n k : nat) : threads :=
  {| phases := replicate n Idle; cache := connections k; owner := None; due := false; lost := [] |}.

Definition go (i : nat) (p : phase) (s : threads) : threads :=
  {| phases := <[i := p]> (phases s); cache := cache s; owner := owner s; due := due s; lost := lost s |}.
Definition with_cache (c : ConnectionCache) (s : threads) : threads :=
  {| phases := phases s; cache := c; owner := owner s; due := due s; lost := lost s |}.
Definition with_owner (o : option nat) (s : threads) : threads :=
  {| phases := phases s; cache := cache s; owner := o; due := due s; lost := lost s |}.
Definition with_due (d : bool) (s : threads) : threads :=
  {| phases := phases s; cache := cache s; owner := owner s; due := d; lost := lost s |}.
Definition lose (cs : list nat) (s : threads) : threads :=
  {| phases := phases s; cache := cache s; owner := owner s; due := due s; lost := cs ++ lost s |}.

(** How a step turns out: as it should; the query for the parameters fails; no decoder
    knows the type; an exception leaves the request, of [readParamsFromFile], of the
    constructor of a decoder or for too many redirections. *)
Inductive turn := Goes | QueryFails | Unknown | Throws.

(** A step of the request of thread [i], [None] when it has to wait, or there is none, or
    it cannot turn out so. An exception gives the mutex back, and nothing else. *)
Definition work_step (t : turn) (i : nat) (s : threads) : option threads :=
  match phases s !! i, t with
  | Some Wanting, Goes =>
      match findFreeConnection (cache s) with
      | Some (Some c, cache') => Some (go i (Locking c) (with_cache cache' s))
      | Some (None, cache') => Some (go i Idle (with_cache cache' s))
      | None => None
      end
  | Some (Locking c), Goes =>
      match owner s with
      | None => Some (go i (if due s then Checking c else Finding c) (with_owner (Some i) s))
      | Some _ => None
      end
  | Some (Checking c), Goes =>
      match findFreeConnection (cache s) with
      | Some (Some c2, cache') => Some (go i (Reading c c2) (with_cache cache' s))
      | Some (None, cache') => Some (go i (Finding c) (with_cache cache' s))
      | None => None
      end
  | Some (Reading c c2), Goes => Some (go i (Finding c) (with_due false (with_cache (freeConnection c2 (cache s)).2 s)))
  | Some (Reading c c2), QueryFails => Some (go i (Finding c) (with_cache (freeConnection c2 (cache s)).2 s))
  | Some (Reading c c2), Throws => Some (go i Idle (with_owner None (lose [c; c2] s)))
  | Some (Finding c), Goes => Some (go i (Decoding c) (with_owner None s))
  | Some (Finding c), Unknown => Some (go i (Refusing c) (with_owner None s))
  | Some (Finding c), Throws => Some (go i Idle (with_owner None (lose [c] s)))
  | Some (Refusing c), Goes => Some (go i Idle (with_cache (freeConnection c (cache s)).2 s))
  | Some (Decoding c), Goes => Some (go i Releasing (with_cache (freeConnection c (cache s)).2 s))
  | Some (Decoding c), Throws => Some (go i Idle (lose [c] s))
  | Some Releasing, Goes => match owner s with None => Some (go i Idle s) | Some _ => None end
  | _, _ => None
  end.

(** A request arrives at a thread without one, an hour passes, or a thread goes on; the
    number is one when the step is an exception. *)
Inductive server_step : nat -> threads -> threads -> Prop :=
  | step_request i s : phases s !! i = Some Idle -> server_step 0 s (go i Wanting s)
  | step_hour s : server_step 0 s (with_due true s)
  | step_work t i s s' : work_step t i s = Some s' -> server_step (match t with Throws => 1 | _ => 0 end) s s'.

(** What [n] threads and [k] connections come to, with [x] exceptions on the way. *)
Inductive server_reachable (n k : nat) : nat -> threads -> Prop :=
  | server_start : server_reachable n k 0 (threads_init n k)
  | server_more x y s s' : server_reachable n k x s -> server_step y s s' -> server_reachable n k (y + x) s'.

(** ** Who holds what *)

Definition holds (p : phase) : list nat :=
  match p with
  | Idle | Wanting | Releasing => []
  | Locking c | Checking c | Finding c | Refusing c | Decoding c => [c]
  | Reading c c2 => [c; c2]
  end.
Definition has_mutex (p : phase) : bool := match p with Checking _ | Reading _ _ | Finding _ => true | _ => false end.

Definition used (l : list (nat * bool)) : list nat := (List.filter (fun e => negb e.2) l).*1.

Record server_ok (n k : nat) (s : threads) : Prop := {
  so_threads : length (phases s) = n;
  so_connections : length (connection (cache s)) = k;
  so_cache : cache_ok (cache s);
  so_used : used (connection (cache s)) ≡ₚ (phases s ≫= holds) ++ lost s;
  so_owner i : owner s = Some i <-> exists p, phases s !! i = Some p /\ has_mutex p = true
}.

Lemma used_count l : Z.of_nat (length (used l)) + count_free l = Z.of_nat (length l).
Proof.
  unfold used, count_free. rewrite length_fmap. induction l as [|[c b] l IH]; [done|]. destruct b; simpl; lia.
Qed.

Lemma bind_insert (f : phase -> list nat) ps i p0 p : ps !! i = Some p0 ->
  (<[i := p]> ps ≫= f) ++ f p0 ≡ₚ (ps ≫= f) ++ f p.
Proof.
  revert i. induction ps as [|q ps IH]; intros [|i] Hi; simpl in *; [done..| |].
  - injection Hi as ->. solve_Permutation.
  - rewrite <- !app_assoc. by rewrite (IH i Hi).
Qed.

Lemma take_free_used l c l' : take_free l = Some (c, l') -> used l' ≡ₚ c :: used l /\ length l' = length l.
Proof.
  revert l'. induction l as [|[d b] l IH]; intros l'; simpl; [done|]. destruct b.
  - intros [= <- <-]. done.
  - destruct (take_free l) as [[c' l1]|]; simpl; [|done]. intros [= -> <-]. destruct (IH l1 eq_refl) as [H1 H2]. unfold used in *.
    simpl. rewrite H1, H2. split; [|done]. apply Permutation_swap.
Qed.

Lemma mark_free_used c l : NoDup l.*1 -> c ∈ used l ->
  used l ≡ₚ c :: used (mark_free c l) /\ length (mark_free c l) = length l /\ (c, false) ∈ l.
Proof.
  unfold used. induction l as [|[d b] l IH]; [by intros _ ?%elem_of_nil|]. rewrite fmap_cons. intros [Hd Hl]%NoDup_cons Hin.
  cbn [mark_free fst] in *. case_bool_decide as E.
  - subst d. destruct b; simpl in *; [|by split_and!; [| |left]]. exfalso. apply Hd.
    apply list_elem_of_fmap in Hin as (e & -> & He). apply list_elem_of_In, filter_In in He as [He _].
    apply list_elem_of_fmap_2. by apply list_elem_of_In.
  - destruct b; simpl in *.
    + destruct (IH Hl Hin) as (H1 & H2 & H3). split_and!; [done|by rewrite H2|by right].
    + apply elem_of_cons in Hin as [->|Hin]; [done|]. destruct (IH Hl Hin) as (H1 & H2 & H3).
      split_and!; [|by rewrite H2|by right]. rewrite H1. apply Permutation_swap.
Qed.

(** ** The invariant *)

Lemma con_add_used c l : used (con_add c l) = used l /\ length (con_add c l) = S (length l).
Proof.
  unfold used. induction l as [|[d b] l [IH1 IH2]]; [done|]. cbn [con_add]. destruct (_ <? _)%nat; [done|].
  cbn [length]. rewrite IH2. split; [|done]. destruct b; simpl; [exact IH1|by f_equal].
Qed.

Lemma connections_ok k : cache_ok (connections k) /\ length (connection (connections k)) = k /\
  used (connection (connections k)) = [] /\ Forall (fun c => c < k)%nat (connection (connections k)).*1.
Proof.
  unfold connections. induction k as [|k (H1 & H2 & H3 & H4)]; [split_and!; [by split; [|constructor]|done|done|constructor]|].
  rewrite seq_S, foldl_app. cbn [foldl Nat.add]. set (s := foldl _ _ _) in *.
  assert (Hn : k ∉ (connection s).*1) by (intros Hin; by apply Nat.lt_irrefl with k, (proj1 (Forall_forall _ _) H4)).
  split; [by apply (cache_step_ok (New k) s)|]. unfold addConnection. rewrite bool_decide_false by done. simpl.
  destruct (con_add_used k (connection s)) as [Hu Hl]. split_and!; [by rewrite Hl, H2|by rewrite Hu|].
  rewrite con_add_keys. constructor; [lia|]. eapply Forall_impl; [exact H4|]. simpl. lia.
Qed.

Lemma findFree_used s : cache_ok s -> nFree s <= 0 /\ findFreeConnection s = None \/
  exists c s', findFreeConnection s = Some (Some c, s') /\ cache_ok s' /\ length (connection s') = length (connection s) /\
    used (connection s') ≡ₚ c :: used (connection s).
Proof.
  intros Hok. destruct (decide (0 < nFree s)) as [H|H]; [|left; split; [lia|by apply findFree_wait; lia]]. right.
  destruct (findFree_spec s Hok H) as (c & s' & E & Hok' & _). exists c, s'. split; [done|]. split; [done|].
  unfold findFreeConnection in E. destruct (_ <=? _); [done|]. destruct (take_free (connection s)) as [[c' l]|] eqn:Et; [|done].
  injection E as <- <-. simpl. by destruct (take_free_used _ _ _ Et).
Qed.

Lemma free_used c s : cache_ok s -> c ∈ used (connection s) ->
  cache_ok (freeConnection c s).2 /\ length (connection (freeConnection c s).2) = length (connection s) /\
  used (connection s) ≡ₚ c :: used (connection (freeConnection c s).2).
Proof.
  intros Hok Hin. destruct (mark_free_used c (connection s) (proj2 Hok) Hin) as (H1 & H2 & H3).
  split; [by apply (cache_step_ok (Give c) s)|]. unfold freeConnection.
  rewrite bool_decide_true by (by apply (list_elem_of_fmap_2 fst _ (c, false))). done.
Qed.

(** One thread goes on; [p0] was its phase, [l] are connections that it loses. *)
Lemma go_ok n k i p0 p s c o d l : server_ok n k s -> phases s !! i = Some p0 -> cache_ok c -> length (connection c) = k ->
  used (connection c) ++ holds p0 ≡ₚ used (connection (cache s)) ++ holds p ++ l ->
  o = (if has_mutex p then Some i else if has_mutex p0 then None else owner s) ->
  (has_mutex p = true -> has_mutex p0 = true \/ owner s = None) ->
  server_ok n k {| phases := <[i := p]> (phases s); cache := c; owner := o; due := d; lost := l ++ lost s |}.
Proof.
  intros [H1 H2 H3 H4 H5] Hi Hc Hk Hu -> Hm. split; simpl; [by rewrite length_insert|done|done| |].
  - apply (Permutation_app_inv_r (holds p0)). rewrite Hu, H4.
    transitivity (((phases s ≫= holds) ++ holds p) ++ l ++ lost s); [solve_Permutation|].
    rewrite <- (bind_insert _ _ _ _ _ Hi). solve_Permutation.
  - intros j. destruct (decide (i = j)) as [<-|Hne].
    + rewrite list_lookup_insert_eq by (by eapply lookup_lt_Some). destruct (has_mutex p) eqn:Ep.
      * split; [|done]. intros _. by exists p.
      * transitivity False; [|split; [done|intros (q & [= <-] & ?); congruence]]. split; [|done].
        destruct (has_mutex p0) eqn:E0; [done|]. intros (q & Hq & Hqm)%H5. congruence.
    + rewrite list_lookup_insert_ne by done. destruct (has_mutex p) eqn:Ep.
      * split; [by intros [= ->]|]. intros Ho%H5. destruct (Hm eq_refl) as [E0|E0]; [|congruence].
        assert (owner s = Some i) by (apply H5; by exists p0). congruence.
      * destruct (has_mutex p0) eqn:E0; [|apply H5]. split; [done|]. intros Ho%H5.
        assert (owner s = Some i) by (apply H5; by exists p0). congruence.
Qed.

Lemma held_used n k i p c s : server_ok n k s -> phases s !! i = Some p -> c ∈ holds p -> c ∈ used (connection (cache s)).
Proof.
  intros H Hi Hc. rewrite (so_used _ _ _ H). apply elem_of_app. left. apply list_elem_of_bind. exists p. split; [done|]. by eapply list_elem_of_lookup_2.
Qed.

(** A thread gives a connection back, or loses what it holds. *)
Lemma give_ok n k i p0 p s c2 o d : server_ok n k s -> phases s !! i = Some p0 -> holds p0 ≡ₚ holds p ++ [c2] ->
  o = (if has_mutex p then Some i else if has_mutex p0 then None else owner s) ->
  (has_mutex p = true -> has_mutex p0 = true \/ owner s = None) ->
  server_ok n k {| phases := <[i := p]> (phases s); cache := (freeConnection c2 (cache s)).2; owner := o; due := d; lost := lost s |}.
Proof.
  intros H Hi Hh Ho Hm. destruct (free_used c2 (cache s) (so_cache _ _ _ H)) as (Hok & Hl & Hu).
  { eapply held_used; [done..|]. rewrite Hh. apply elem_of_app. right. by left. }
  apply (go_ok n k i p0 p s _ _ d []); try done; [by rewrite Hl, (so_connections _ _ _ H)|].
  rewrite Hu, Hh, app_nil_r. solve_Permutation.
Qed.

Lemma lose_ok n k i p0 s d : server_ok n k s -> phases s !! i = Some p0 ->
  server_ok n k {| phases := <[i := Idle]> (phases s); cache := cache s;
                   owner := if has_mutex p0 then None else owner s; due := d; lost := holds p0 ++ lost s |}.
Proof. intros H Hi. by apply (go_ok n k i p0 Idle s); try apply H. Qed.

Lemma work_ok n k t i s s' : server_ok n k s -> work_step t i s = Some s' -> server_ok n k s'.
Proof.
  intros H. pose proof (so_cache _ _ _ H) as Hc. pose proof (so_connections _ _ _ H) as Hk. unfold work_step.
  assert (Hmx : forall p, phases s !! i = Some p -> has_mutex p = true -> owner s = Some i).
  { intros p Hi Hp. apply (so_owner _ _ _ H i). by exists p. }
  destruct (phases s !! i) as [[| |c|c|c c2|c|c|c|]|] eqn:Hi, t; try done;
    try (specialize (Hmx _ eq_refl eq_refl)).
  - destruct (findFree_used _ Hc) as [[_ ->]|(c & c' & -> & Hok & Hl & Hu)]; [done|]. intros [= <-].
    apply (go_ok n k i Wanting _ s _ _ _ []); simpl; try done; try congruence. rewrite Hu. simpl. solve_Permutation.
  - destruct (owner s) eqn:Ho; [done|]. intros [= <-]. by destruct (due s); apply (go_ok n k i (Locking c) _ s _ _ _ []); simpl; auto.
  - destruct (findFree_used _ Hc) as [[_ ->]|(c2 & c' & -> & Hok & Hl & Hu)]; [done|]. intros [= <-].
    apply (go_ok n k i (Checking c) _ s _ _ _ []); simpl; try done; try congruence; try (by left). rewrite Hu. solve_Permutation.
  - intros [= <-]. apply (give_ok n k i (Reading c c2) (Finding c) s); simpl; try done; by left.
  - intros [= <-]. apply (give_ok n k i (Reading c c2) (Finding c) s); simpl; try done; by left.
  - intros [= <-]. by apply (lose_ok n k i (Reading c c2) s).
  - intros [= <-]. by apply (go_ok n k i (Finding c) _ s _ _ _ []).
  - intros [= <-]. by apply (go_ok n k i (Finding c) _ s _ _ _ []).
  - intros [= <-]. by apply (lose_ok n k i (Finding c) s).
  - intros [= <-]. by apply (give_ok n k i (Refusing c) Idle s).
  - intros [= <-]. by apply (give_ok n k i (Decoding c) Releasing s).
  - intros [= <-]. by apply (lose_ok n k i (Decoding c) s).
  - destruct (owner s) eqn:Ho; [done|]. intros [= <-]. by apply (go_ok n k i Releasing _ s _ _ _ []).
Qed.

(** An exception loses at most two connections, and nothing else loses any. *)
Lemma step_lost y s s' : server_step y s s' -> (length (lost s') <= 2 * y + length (lost s))%nat.
Proof.
  intros [i s0 Hi|s0|t i s0 s1 Hw]; simpl; [lia..|]. unfold work_step in Hw.
  destruct (phases s0 !! i) as [[]|], t; try done;
    repeat match type of Hw with context [match ?x with _ => _ end] => destruct x; try done end;
    injection Hw as <-; simpl; lia.
Qed.

Lemma init_server_ok n k : server_ok n k (threads_init n k).
Proof.
  destruct (connections_ok k) as (H1 & H2 & H3 & _). split; simpl; [by rewrite length_replicate|done|done| |].
  - rewrite H3. clear. rewrite app_nil_r. by induction n.
  - intros i. split; [done|]. intros (p & [-> _]%lookup_replicate & ?). done.
Qed.

Lemma server_reachable_ok n k x s : server_reachable n k x s -> server_ok n k s /\ (length (lost s) <= 2 * x)%nat.
Proof.
  induction 1 as [|x y s s' _ [IH Hx] Hs]; [split; [apply init_server_ok|done]|].
  split; [|pose proof (step_lost _ _ _ Hs); lia]. destruct Hs as [i s Hi|s|t i s s' Hw].
  - by apply (go_ok n k i Idle _ s _ _ _ []); try apply IH.
  - destruct IH. by split.
  - by eapply work_ok.
Qed.

(** ** When the server stands still *)

Definition busy (s : threads) : Prop := exists i p, phases s !! i = Some p /\ p <> Idle.
Definition stuck (s : threads) : Prop := forall t i, work_step t i s = None.

Lemma holds_at_most ps m : (forall p, p ∈ ps -> (length (holds p) <= m)%nat) -> (length (ps ≫= holds) <= m * length ps)%nat.
Proof.
  induction ps as [|p ps IH]; intros H; [simpl; lia|]. rewrite bind_cons, length_app. cbn [length].
  assert (length (holds p) <= m)%nat by (apply H; by left).
  assert (length (ps ≫= holds) <= m * length ps)%nat by (apply IH; intros q Hq; apply H; by right). lia.
Qed.

(** The connections that are in use, when none is free. *)
Lemma all_used n k s : server_ok n k s -> nFree (cache s) = 0 -> k = (length (phases s ≫= holds) + length (lost s))%nat.
Proof.
  intros H Hn. pose proof (used_count (connection (cache s))) as Hu.
  rewrite <- (proj1 (so_cache _ _ _ H)), Hn, (so_connections _ _ _ H), (Permutation_length (so_used _ _ _ H)), length_app in Hu. lia.
Qed.

Lemma no_free n k s : server_ok n k s ->
  (match findFreeConnection (cache s) with Some (Some _, _) | Some (None, _) => false | None => true end) = true -> nFree (cache s) = 0.
Proof.
  intros H E. pose proof (so_cache _ _ _ H) as Hc. destruct (findFree_used _ Hc) as [[Hn _]|(c & c' & E' & _)]; [|by rewrite E' in E].
  destruct Hc as [Hc _]. unfold count_free in Hc. lia.
Qed.

(** A stuck thread, by its phase. *)
Lemma stuck_phase n k s i p : server_ok n k s -> stuck s -> phases s !! i = Some p ->
  match p with
  | Idle => True
  | Wanting => nFree (cache s) = 0
  | Locking _ | Releasing => owner s <> None
  | Checking _ => nFree (cache s) = 0 /\ owner s = Some i
  | Reading _ _ | Finding _ | Refusing _ | Decoding _ => False
  end.
Proof.
  intros H Hs Hi. pose proof (Hs Goes i) as E. unfold work_step in E. rewrite Hi in E. destruct p; try done.
  - apply (no_free n k s H). by destruct (findFreeConnection (cache s)) as [[[c'|] ?]|].
  - by destruct (owner s).
  - split; [apply (no_free n k s H); by destruct (findFreeConnection (cache s)) as [[[c'|] ?]|]|].
    apply (so_owner _ _ _ H i). by eexists.
  - by destruct (owner s).
Qed.

(** Nobody has the mutex: then all connections were lost. *)
Lemma stuck_no_owner n k s : server_ok n k s -> stuck s -> busy s -> owner s = None ->
  nFree (cache s) = 0 /\ length (lost s) = k /\ forall j p, phases s !! j = Some p -> p = Idle \/ p = Wanting.
Proof.
  intros H Hs (i0 & p0 & Hi0 & Hp0) Ho.
  assert (Hall : forall j p, phases s !! j = Some p -> p = Idle \/ p = Wanting /\ nFree (cache s) = 0).
  { intros j p Hj. pose proof (stuck_phase _ _ _ _ _ H Hs Hj) as Hp.
    destruct p; try done; auto; [by destruct Hp as [_ Hp]; rewrite Ho in Hp]. }
  assert (Hn : nFree (cache s) = 0) by (by destruct (Hall _ _ Hi0) as [?|[_ ?]]).
  pose proof (all_used _ _ _ H Hn) as Hu. pose proof (holds_at_most (phases s) 0) as Hz. lapply Hz.
  - intros Hz'. split; [done|]. split; [lia|]. intros j p Hj. by destruct (Hall j p Hj) as [?|[? _]]; auto.
  - intros p [j Hj]%list_elem_of_lookup. by destruct (Hall j p Hj) as [->|[-> _]].
Qed.

(** C36: The threads of the server can only stop for one of two reasons. Either exceptions
    have lost all connections, and every request waits for one. Or one thread checks
    the parameters, holding the mutex and a connection, and waits for a second one,
    while every connection is lost or with a thread that waits for the mutex. An
    exception loses at most two connections and nothing else loses any: with more
    connections than threads and twice the exceptions together some request can
    always go on. *)
Theorem server_stuck (n k x : nat) (s : threads) : server_reachable n k x s -> busy s -> stuck s ->
  nFree (cache s) = 0 /\ (length (lost s) <= 2 * x)%nat /\
  ((length (lost s) = k /\ owner s = None /\ forall j p, phases s !! j = Some p -> p = Idle \/ p = Wanting) \/
   ((k <= n + length (lost s))%nat /\
    exists i c, phases s !! i = Some (Checking c) /\ owner s = Some i /\
      forall j p, phases s !! j = Some p -> j <> i -> p = Idle \/ p = Wanting \/ p = Releasing \/ exists c, p = Locking c)).
Proof.
  intros [H Hx]%server_reachable_ok Hb Hs. destruct (owner s) as [i|] eqn:Ho.
  2: { destruct (stuck_no_owner n k s H Hs Hb Ho) as (H1 & H2 & H3). split; [done|]. split; [done|]. by left. }
  destruct (proj1 (so_owner _ _ _ H i) Ho) as (p & Hi & Hm). pose proof (stuck_phase _ _ _ _ _ H Hs Hi) as Hp.
  destruct p as [| | |c| | | | |]; try done. destruct Hp as [Hn _]. split; [done|]. split; [done|]. right. split.
  - pose proof (all_used _ _ _ H Hn) as Hu. pose proof (holds_at_most (phases s) 1) as Hl. rewrite <- (so_threads _ _ _ H).
    lapply Hl; [lia|]. intros p [j Hj]%list_elem_of_lookup. pose proof (stuck_phase _ _ _ _ _ H Hs Hj) as Hp.
    destruct p; simpl; try done; lia.
  - exists i, c. split; [done|]. split; [done|]. intros j p Hj Hne. pose proof (stuck_phase _ _ _ _ _ H Hs Hj) as Hp.
    destruct p; try done; auto; [|destruct Hp as [_ Hp]; congruence]. right; right; right. by eexists.
Qed.

(** ** The server of the program: five threads of the web server and three connections *)

(** The steps of several threads, one after the other. *)
Fixpoint run_threads (l : list (turn * nat)) (s : threads) : threads :=
  match l with
  | [] => s
  | (t, i) :: l => run_threads l (match phases s !! i with
                                  | Some Idle => go i Wanting s
                                  | _ => default s (work_step t i s)
                                  end)
  end.

Definition throws (l : list (turn * nat)) : nat := length (List.filter (fun e => match e.1 with Throws => true | _ => false end) l).

Lemma run_threads_reachable n k x l s : server_reachable n k x s ->
  exists y, (y <= throws l)%nat /\ server_reachable n k (y + x) (run_threads l s).
Proof.
  revert x s. induction l as [|[t i] l IH]; intros x s Hr; [by exists 0%nat|]. cbn [run_threads].
  set (s1 := match phases s !! i with Some Idle => _ | _ => _ end).
  assert (H1 : exists y, (y <= throws [(t, i)])%nat /\ server_reachable n k (y + x) s1).
  { assert (H0 : forall s', work_step t i s = Some s' -> exists y, (y <= throws [(t, i)])%nat /\ server_reachable n k (y + x) s').
    { intros s' Hw. eexists. split; [|eapply server_more; [exact Hr|by eapply step_work]]. by destruct t; unfold throws; simpl; lia. }
    assert (Hd : exists y, (y <= throws [(t, i)])%nat /\ server_reachable n k (y + x) (default s (work_step t i s))).
    { destruct (work_step t i s) eqn:E; [by apply H0|]. exists 0%nat. by split; [lia|]. }
    unfold s1. destruct (phases s !! i) as [[]|] eqn:Hi; try exact Hd.
    exists 0%nat. split; [lia|]. by eapply (server_more _ _ _ 0), step_request. }
  destruct H1 as (y & Hy & H1). destruct (IH _ _ H1) as (z & Hz & H2). exists (z + y)%nat. split.
  - unfold throws in *. change ((t, i) :: l) with ([(t, i)] ++ l). rewrite List.filter_app, length_app. lia.
  - by rewrite <- Nat.add_assoc.
Qed.

(** An hour has passed and three messages arrive: each of them gets a connection before
    the first one locks the mutex. *)
Definition three_messages : threads := run_threads ((fun i => (Goes, i)) <$> [0; 1; 2; 0; 1; 2; 0]%nat) (with_due true (threads_init 5 3)).

(** What does not change any more: the first thread checks the parameters, two wait for
    the mutex, and there is no connection. *)
Definition standstill (s : threads) : Prop :=
  phases s !! 0%nat = Some (Checking 0) /\ phases s !! 1%nat = Some (Locking 1) /\ phases s !! 2%nat = Some (Locking 2) /\
  length (phases s) = 5%nat /\ owner s = Some 0%nat /\ nFree (cache s) = 0 /\
  forall j p, phases s !! j = Some p -> (2 < j)%nat -> p = Idle \/ p = Wanting.

Lemma standstill_stuck s : standstill s -> stuck s.
Proof.
  intros (H0 & H1 & H2 & Hl & Ho & Hn & Hrest) t i. unfold work_step.
  assert (Hf : findFreeConnection (cache s) = None) by (apply findFree_wait; lia).
  destruct i as [|[|[|i]]]; [by rewrite H0, Hf; destruct t|by rewrite H1, Ho; destruct t|by rewrite H2, Ho; destruct t|].
  destruct (phases s !! S (S (S i))) as [p|] eqn:Hp; [|done]. destruct (Hrest (S (S (S i))) p Hp ltac:(lia)) as [->| ->]; [done|].
  rewrite Hf. by destruct t.
Qed.

Lemma standstill_step y s s' : standstill s -> server_step y s s' -> standstill s'.
Proof.
  intros H Hstep. destruct Hstep as [i s Hi|s|t i s s' Hw]; [|exact H|by rewrite (standstill_stuck s H) in Hw].
  destruct H as (H0 & H1 & H2 & Hl & Ho & Hn & Hrest).
  assert (Hi2 : (2 < i)%nat) by (destruct i as [|[|[|i]]]; [congruence..|lia]).
  unfold standstill. simpl. rewrite !list_lookup_insert_ne, length_insert by lia. split_and!; try done.
  intros j p Hj Hj2. destruct (decide (i = j)) as [<-|Hne].
  - rewrite list_lookup_insert_eq in Hj by (by eapply lookup_lt_Some). injection Hj as <-. by right.
  - rewrite list_lookup_insert_ne in Hj by done. by eapply Hrest.
Qed.

Inductive later : threads -> threads -> Prop :=
  | later_now s : later s s
  | later_more y s s1 s' : server_step y s s1 -> later s1 s' -> later s s'.

(** The server stops for ever: with its three connections and five threads, three
    messages that arrive together when the hourly check of the parameters is due can
    bring it to a state that no thread leaves any more, whatever else happens. All
    later requests wait as well. *)
Theorem server_deadlock : exists s, server_reachable 5 3 0 s /\ busy s /\ forall s', later s s' -> stuck s' /\ busy s'.
Proof.
  exists three_messages. assert (H : standstill three_messages).
  { split_and!; try (vm_compute; reflexivity). intros j p Hj Hj2. destruct j as [|[|[|[|[|j]]]]]; try lia; vm_compute in Hj; try done;
      injection Hj as <-; by left. }
  assert (Hb : forall s, standstill s -> busy s) by (intros s Hs; exists 0%nat, (Checking 0); by destruct Hs).
  split; [|split; [by apply Hb|]].
  - destruct (run_threads_reachable 5 3 0 ((fun i => (Goes, i)) <$> [0; 1; 2; 0; 1; 2; 0]%nat) (with_due true (threads_init 5 3)))
      as (y & Hy & Hr); [eapply (server_more _ _ 0 0); [apply server_start|apply step_hour]|].
    replace (y + 0)%nat with 0%nat in Hr by (unfold throws in Hy; simpl in Hy; lia). exact Hr.
  - intros s' Hl. assert (Hs' : standstill s'); [|split; [by apply standstill_stuck|by apply Hb]].
    revert H. induction Hl as [s|y s s1 s' Hst _ IH]; intros H; [done|]. apply IH. by eapply standstill_step.
Qed.

(** Three messages that are redirected too often take the three connections; two requests
    wait then. *)
Definition after_storm : threads :=
  run_threads ([(Goes, 0); (Goes, 0); (Goes, 0); (Goes, 0); (Throws, 0); (Goes, 1); (Goes, 1); (Goes, 1); (Goes, 1); (Throws, 1);
                (Goes, 2); (Goes, 2); (Goes, 2); (Goes, 2); (Throws, 2); (Goes, 3); (Goes, 4)]%nat) (threads_init 5 3).

Lemma server_stuck_witness : nFree (cache after_storm) = 0 /\ (length (lost after_storm) = 3%nat \/ (3 <= 5 + length (lost after_storm))%nat).
Proof.
  destruct (run_threads_reachable 5 3 0 ([(Goes, 0); (Goes, 0); (Goes, 0); (Goes, 0); (Throws, 0); (Goes, 1); (Goes, 1); (Goes, 1);
    (Goes, 1); (Throws, 1); (Goes, 2); (Goes, 2); (Goes, 2); (Goes, 2); (Throws, 2); (Goes, 3); (Goes, 4)]%nat) (threads_init 5 3)
    (server_start 5 3)) as (y & _ & Hr).
  destruct (server_stuck 5 3 (y + 0) after_storm) as (H1 & _ & [(H2 & _)|(H2 & _)]).
  - exact Hr.
  - exists 3%nat, Wanting. by split; [vm_compute|].
  - intros [] [|[|[|[|[|i]]]]]; vm_compute; reflexivity.
  - split; [done|by left].
  - split; [done|by right].
Defined.
