(* ===== verification/Base64.v ===== *)
(** * Binary data as text (src/src/lib/miutil/base64.cc)

    Groups of three bytes are written as four characters, in lines; reading leaves
    out what is no character of the alphabet. Bytes are numbers here. *)

From S2P Require Import Prelude.

#[local] Open Scope Z_scope.

(** ** Writing *)

Definition cb64 : bytes := to_bytes "ABCDEFGHIJKLMNOPQRSTUVWXYZabcdefghijklmnopqrstuvwxyz0123456789+/".
Definition cb64_at (i : Z) : ascii := nth (Z.to_nat i) cb64 (char_of 0).

(** [encodeblock]. *)
Definition encodeblock (a b c : Z) (len : nat) : bytes :=
  [cb64_at (Z.shiftr a 2);
   cb64_at (Z.lor (Z.shiftl (Z.land a 3) 4) (Z.shiftr (Z.land b 240) 4));
   if (1 <? len)%nat then cb64_at (Z.lor (Z.shiftl (Z.land b 15) 2) (Z.shiftr (Z.land c 192) 6)) else "="%char;
   if (2 <? len)%nat then cb64_at (Z.land c 63) else "="%char].

Definition crlf : bytes := [char_of 13; char_of 10].

(** The loop of [encode64]: [blocksout] blocks are on the line. *)
Fixpoint encode_loop (linesize blocksout : Z) (source : list Z) : bytes :=
  let ends := Z.quot linesize 4 <=? blocksout + 1 in
  match source with
  | [] => []
  | [a] => encodeblock a 0 0 1 ++ crlf
  | [a; b] => encodeblock a b 0 2 ++ crlf
  | a :: b :: c :: source =>
      encodeblock a b c 3 ++
      (if ends || bool_decide (source = []) then crlf ++ encode_loop linesize 0 source
       else encode_loop linesize (blocksout + 1) source)
  end.
Definition encode64 (source : list Z) (linesize : Z) : bytes := encode_loop linesize 0 source.

(** ** Reading *)

Definition cd64 : bytes := to_bytes "|$$$}rstuvwxyz{$$$$$$$>?@ABCDEFGHIJKLMNOPQRSTUVW$$$$$$XYZ[\]^_`abcdefghijklmnopq".

(** [decodeblock]: what an [unsigned char] keeps of the shifted values. *)
Definition decodeblock (inb : list Z) : list Z :=
  let at_ i := nth i inb 0 in
  [Z.lor (Z.shiftl (at_ 0%nat) 2) (Z.shiftr (at_ 1%nat) 4) mod 256;
   Z.lor (Z.shiftl (at_ 1%nat) 4) (Z.shiftr (at_ 2%nat) 2) mod 256;
   Z.lor (Z.land (Z.shiftl (at_ 2%nat) 6) 192) (at_ 3%nat) mod 256].

(** The number of a character, counted from 1; 0 for one that is left out. *)
Definition char_number (c : ascii) : Z :=
  let v := uchar_val c in
  if (v <? 43) || (122 <? v) then 0
  else let d := uchar_val (nth (Z.to_nat (v - 43)) cd64 (char_of 0)) in
       if (d =? 0) || (d =? uchar_val "$") then 0 else d - 61.

(** The next number and what follows it. *)
Fixpoint next_number (source : bytes) : Z * bytes :=
  match source with
  | [] => (0, [])
  | c :: source => let v := char_number c in if v =? 0 then next_number source else (v, source)
  end.

(** The inner loop, [k] rounds before its end: the block and its length. A number behind
    which the text ends is not used. *)
Fixpoint read_block (k i len : nat) (inb : list Z) (source : bytes) : nat * list Z * bytes :=
  match k, source with
  | O, _ | _, [] => (len, inb, source)
  | S k, _ =>
      let '(v, rest) := next_number source in
      match rest with
      | [] => read_block k (S i) len (<[i := 0]> inb) rest
      | _ => read_block k (S i) (S len) (if v =? 0 then inb else <[i := v - 1]> inb) rest
      end
  end.

(** The outer loop; every round but one without text takes a character. *)
Fixpoint decode_loop (fuel : nat) (inb : list Z) (source : bytes) : list Z :=
  match fuel, source with
  | O, _ | _, [] => []
  | S fuel, _ =>
      let '(len, inb, rest) := read_block 4 0 0 inb source in
      (if (len =? 0)%nat then [] else take (len - 1) (decodeblock inb)) ++ decode_loop fuel inb rest
  end.

(** [inb]: what the block holds before anything is assigned to it. *)
Definition decode64 (inb : list Z) (source : bytes) : list Z := decode_loop (length source) inb source.

(** ** Lemmas *)

Definition byte (z : Z) : Prop := 0 <= z < 256.

Definition below (n : nat) : list Z := Z.of_nat <$> seq 0 n.

Lemma elem_below n z : 0 <= z < Z.of_nat n -> In z (below n).
Proof.
  intros Hz. unfold below. apply list_elem_of_In, list_elem_of_fmap. exists (Z.to_nat z). split; [lia|]. apply elem_of_seq. lia.
Qed.

(** A property of numbers below [n] and [m] that a computation decides. *)
Lemma all_below n m (p : Z -> Z -> bool) : forallb (fun x => forallb (p x) (below m)) (below n) = true ->
  forall x y, 0 <= x < Z.of_nat n -> 0 <= y < Z.of_nat m -> p x y = true.
Proof.
  intros H x y Hx Hy. rewrite forallb_forall in H. specialize (H x (elem_below n x Hx)). rewrite forallb_forall in H.
  apply H. by apply elem_below.
Qed.

Lemma land_bound x m k : 0 <= k -> m = Z.ones k -> 0 <= Z.land x m < 2 ^ k.
Proof. intros Hk ->. rewrite Z.land_ones by done. apply Z.mod_pos_bound. lia. Qed.

Lemma number_cb64 i : 0 <= i < 64 -> char_number (cb64_at i) = i + 1.
Proof.
  intros Hi. apply Z.eqb_eq. apply (all_below 64 1 (fun x _ => char_number (cb64_at x) =? x + 1) ltac:(vm_compute; reflexivity) i 0); lia.
Qed.

Lemma number_equals : char_number "="%char = 0.
Proof. reflexivity. Qed.

(** The four numbers of a group. *)
Definition n0 (a : Z) : Z := Z.shiftr a 2.
Definition n1 (a b : Z) : Z := Z.lor (Z.shiftl (Z.land a 3) 4) (Z.shiftr (Z.land b 240) 4).
Definition n2 (b c : Z) : Z := Z.lor (Z.shiftl (Z.land b 15) 2) (Z.shiftr (Z.land c 192) 6).
Definition n3 (c : Z) : Z := Z.land c 63.

Lemma n0_range a : byte a -> 0 <= n0 a < 64.
Proof.
  intros Ha. unfold n0. rewrite Z.shiftr_div_pow2 by lia. unfold byte in Ha. split.
  - apply Z.div_pos; lia.
  - apply Z.div_lt_upper_bound; lia.
Qed.

Lemma n3_range c : 0 <= n3 c < 64.
Proof. by apply (land_bound c 63 6). Qed.

Lemma high_bits b : byte b -> 0 <= Z.shiftr (Z.land b 240) 4 < 16 /\ 0 <= Z.shiftr (Z.land b 192) 6 < 4.
Proof.
  intros Hb. pose proof (all_below 256 1 (fun x _ => (Z.shiftr (Z.land x 240) 4 <? 16) && (0 <=? Z.shiftr (Z.land x 240) 4) &&
    (Z.shiftr (Z.land x 192) 6 <? 4) && (0 <=? Z.shiftr (Z.land x 192) 6)) ltac:(vm_compute; reflexivity) b 0) as H.
  unfold byte in Hb. specialize (H ltac:(lia) ltac:(lia)). cbv beta in H. lia.
Qed.

Lemma n1_range a b : byte b -> 0 <= n1 a b < 64.
Proof.
  intros Hb. pose proof (land_bound a 3 2 ltac:(lia) eq_refl) as Ha. destruct (high_bits b Hb) as [Hh _].
  pose proof (all_below 4 16 (fun x y => (Z.lor (Z.shiftl x 4) y <? 64) && (0 <=? Z.lor (Z.shiftl x 4) y)) ltac:(vm_compute; reflexivity)
    _ _ Ha Hh) as H. cbv beta in H. unfold n1. lia.
Qed.

Lemma n2_range b c : byte c -> 0 <= n2 b c < 64.
Proof.
  intros Hc. pose proof (land_bound b 15 4 ltac:(lia) eq_refl) as Hb. destruct (high_bits c Hc) as [_ Hh].
  pose proof (all_below 16 4 (fun x y => (Z.lor (Z.shiftl x 2) y <? 64) && (0 <=? Z.lor (Z.shiftl x 2) y)) ltac:(vm_compute; reflexivity)
    _ _ Hb Hh) as H. cbv beta in H. unfold n2. lia.
Qed.

(** The bytes of a group are put together again, whatever the number after the last one
    that is used. *)
Lemma join0 a b : byte a -> byte b -> Z.lor (Z.shiftl (n0 a) 2) (Z.shiftr (n1 a b) 4) mod 256 = a.
Proof.
  intros Ha Hb. apply Z.eqb_eq. destruct (high_bits b Hb) as [Hh _]. unfold n1.
  apply (all_below 256 16 (fun a y => Z.lor (Z.shiftl (n0 a) 2) (Z.shiftr (Z.lor (Z.shiftl (Z.land a 3) 4) y) 4) mod 256 =? a)
    ltac:(vm_compute; reflexivity)); done.
Qed.

Lemma join1 a b c : byte b -> byte c -> Z.lor (Z.shiftl (n1 a b) 4) (Z.shiftr (n2 b c) 2) mod 256 = b.
Proof.
  intros Hb Hc. apply Z.eqb_eq. destruct (high_bits c Hc) as [_ Hh]. pose proof (land_bound a 3 2 ltac:(lia) eq_refl) as Ha. unfold n1, n2.
  assert (H : forallb (fun b => forallb (fun x => forallb (fun y =>
    Z.lor (Z.shiftl (Z.lor (Z.shiftl x 4) (Z.shiftr (Z.land b 240) 4)) 4) (Z.shiftr (Z.lor (Z.shiftl (Z.land b 15) 2) y) 2) mod 256 =? b)
    (below 4)) (below 4)) (below 256) = true) by (vm_compute; reflexivity).
  rewrite forallb_forall in H. specialize (H b (elem_below 256 b Hb)).
  exact (all_below 4 4 _ H _ _ Ha Hh).
Qed.

Lemma join2 b c : byte c -> Z.lor (Z.land (Z.shiftl (n2 b c) 6) 192) (n3 c) mod 256 = c.
Proof.
  intros Hc. apply Z.eqb_eq. pose proof (land_bound b 15 4 ltac:(lia) eq_refl) as Hb. unfold n2.
  apply (all_below 16 256 (fun x c => Z.lor (Z.land (Z.shiftl (Z.lor (Z.shiftl x 2) (Z.shiftr (Z.land c 192) 6)) 6) 192) (n3 c) mod 256 =? c)
    ltac:(vm_compute; reflexivity)); done.
Qed.

(** ** Reading what was written *)

Lemma next_skip c r : char_number c = 0 -> next_number (c :: r) = next_number r.
Proof. intros H. simpl. by rewrite H. Qed.

Lemma next_hit i r : 0 <= i < 64 -> next_number (cb64_at i :: r) = (i + 1, r).
Proof. intros Hi. cbn [next_number]. rewrite number_cb64 by done. by rewrite (proj2 (Z.eqb_neq _ _)) by lia. Qed.

Lemma read_hit k i len inb n r : 0 <= n < 64 -> r <> [] ->
  read_block (S k) i len inb (cb64_at n :: r) = read_block k (S i) (S len) (<[i := n]> inb) r.
Proof.
  intros Hn Hr. cbn [read_block]. rewrite next_hit by done. destruct r; [done|].
  rewrite (proj2 (Z.eqb_neq _ _)) by lia. by replace (n + 1 - 1) with n by lia.
Qed.

Lemma read_end k i len inb r : next_number r = (0, []) -> r <> [] ->
  read_block (S k) i len inb r = (len, <[i := 0]> inb, []).
Proof. intros Hn Hr. cbn [read_block]. rewrite Hn. destruct r; [done|]. by destruct k. Qed.

Lemma read_crlf inb s : s <> [] -> read_block 4 0 0 inb (crlf ++ s) = read_block 4 0 0 inb s.
Proof.
  intros Hs. assert (E : next_number (crlf ++ s) = next_number s) by done. unfold read_block at 1. fold read_block.
  rewrite E. destruct s; [done|]. reflexivity.
Qed.

Lemma decode_crlf fuel inb s : s <> [] -> decode_loop (S fuel) inb (crlf ++ s) = decode_loop (S fuel) inb s.
Proof.
  intros Hs. assert (H : forall t, t <> [] -> decode_loop (S fuel) inb t =
    let '(len, inb, rest) := read_block 4 0 0 inb t in
    (if (len =? 0)%nat then [] else take (len - 1) (decodeblock inb)) ++ decode_loop fuel inb rest) by by intros [].
  rewrite !H, read_crlf by done. done.
Qed.

(** One round over a block of four characters. *)
Lemma decode_block4 fuel inb a b c r : length inb = 4%nat -> byte a -> byte b -> byte c -> r <> [] ->
  exists inb', length inb' = 4%nat /\ decode_loop (S fuel) inb (encodeblock a b c 3 ++ r) = [a; b; c] ++ decode_loop fuel inb' r.
Proof.
  intros Hl Ha Hb Hc Hr. destruct inb as [|x0 [|x1 [|x2 [|x3 [|]]]]]; try done.
  exists [n0 a; n1 a b; n2 b c; n3 c]. split; [done|].
  assert (E : read_block 4 0 0 [x0; x1; x2; x3] (encodeblock a b c 3 ++ r) = (4%nat, [n0 a; n1 a b; n2 b c; n3 c], r)).
  { change (encodeblock a b c 3 ++ r) with (cb64_at (n0 a) :: cb64_at (n1 a b) :: cb64_at (n2 b c) :: cb64_at (n3 c) :: r).
    rewrite !read_hit; try done; auto using n0_range, n1_range, n2_range, n3_range. }
  assert (H : decode_loop (S fuel) [x0; x1; x2; x3] (encodeblock a b c 3 ++ r) =
    let '(len, inb, rest) := read_block 4 0 0 [x0; x1; x2; x3] (encodeblock a b c 3 ++ r) in
    (if (len =? 0)%nat then [] else take (len - 1) (decodeblock inb)) ++ decode_loop fuel inb rest) by done.
  rewrite H, E. cbn [Nat.eqb take Nat.sub]. unfold decodeblock. cbn [nth take].
  by rewrite join0, join1, join2.
Qed.

Lemma decode_block1 fuel inb a : length inb = 4%nat -> byte a ->
  decode_loop (S fuel) inb (encodeblock a 0 0 1 ++ crlf) = [a].
Proof.
  intros Hl Ha. destruct inb as [|x0 [|x1 [|x2 [|x3 [|]]]]]; try done.
  change (encodeblock a 0 0 1 ++ crlf) with (cb64_at (n0 a) :: cb64_at (n1 a 0) :: "="%char :: "="%char :: crlf).
  cbn [decode_loop]. rewrite !read_hit; try done; auto using n0_range; [|by apply n1_range].
  rewrite read_end by done. cbn [Nat.eqb take Nat.sub]. unfold decodeblock. cbn [nth take insert list_insert].
  rewrite join0 by done. by destruct fuel.
Qed.

Lemma decode_block2 fuel inb a b : length inb = 4%nat -> byte a -> byte b ->
  decode_loop (S fuel) inb (encodeblock a b 0 2 ++ crlf) = [a; b].
Proof.
  intros Hl Ha Hb. destruct inb as [|x0 [|x1 [|x2 [|x3 [|]]]]]; try done.
  change (encodeblock a b 0 2 ++ crlf) with (cb64_at (n0 a) :: cb64_at (n1 a b) :: cb64_at (n2 b 0) :: "="%char :: crlf).
  cbn [decode_loop]. rewrite !read_hit; try done; auto using n0_range, n1_range; [|by apply n2_range].
  rewrite read_end by done. cbn [Nat.eqb take Nat.sub]. unfold decodeblock. cbn [nth take insert list_insert].
  rewrite join0, join1 by done. by destruct fuel.
Qed.

(** The text that follows a block: a new line begins, or not. *)
Lemma decode_encode linesize n : forall source blocksout (newline : bool) fuel inb, (length source <= n)%nat ->
  Forall byte source -> length inb = 4%nat ->
  (length ((if newline then crlf else []) ++ encode_loop linesize blocksout source) <= fuel)%nat ->
  decode_loop fuel inb ((if newline then crlf else []) ++ encode_loop linesize blocksout source) = source.
Proof.
  induction n as [|n IH]; intros source blocksout newline fuel inb Hn Hs Hi Hf.
  { destruct source; [|simpl in Hn; lia]. destruct newline, fuel as [|[|]]; done. }
  destruct source as [|a source]; [destruct newline, fuel as [|[|]]; done|].
  destruct fuel as [|fuel]; [destruct newline, source as [|b [|c source]]; simpl in Hf; lia|].
  assert (Hskip : forall t, t <> [] -> decode_loop (S fuel) inb ((if newline then crlf else []) ++ t) = decode_loop (S fuel) inb t)
    by (intros t Ht; destruct newline; [by apply decode_crlf|done]).
  apply Forall_cons in Hs as [Ha Hs]. destruct source as [|b source].
  { rewrite Hskip by done. by apply decode_block1. }
  apply Forall_cons in Hs as [Hb Hs]. destruct source as [|c source].
  { rewrite Hskip by done. by apply decode_block2. }
  apply Forall_cons in Hs as [Hc Hs].
  set (r := if (Z.quot linesize 4 <=? blocksout + 1) || bool_decide (source = []) then crlf ++ encode_loop linesize 0 source
            else encode_loop linesize (blocksout + 1) source).
  assert (E : encode_loop linesize blocksout (a :: b :: c :: source) = encodeblock a b c 3 ++ r) by done. rewrite E in *.
  assert (Hr : r <> []).
  { unfold r. destruct (Z.quot linesize 4 <=? blocksout + 1); [done|]. case_bool_decide as Es; [done|]. simpl.
    by destruct source as [|? [|? [|? ?]]]. }
  rewrite Hskip by done. destruct (decode_block4 fuel inb a b c r Hi Ha Hb Hc Hr) as (inb' & Hi' & ->). simpl. do 3 f_equal.
  assert (Hlen : (length r <= fuel)%nat) by (destruct newline; rewrite ?length_app in Hf; simpl in Hf; lia). clear E. unfold r in *.
  simpl in Hn. destruct (_ || _); [apply (IH source 0 true)|apply (IH source (blocksout + 1) false)]; try done; lia.
Qed.

(** What [encode64] writes, [decode64] reads back, for any bytes and any length of
    lines, and whatever the reader's block holds at first. *)
Theorem decode64_encode64 (source inb : list Z) (linesize : Z) : Forall byte source -> length inb = 4%nat ->
  decode64 inb (encode64 source linesize) = source.
Proof. intros Hs Hi. by apply (decode_encode linesize (length source) source 0 false). Qed.

(** More rounds than characters change nothing: the text is used up. *)
Lemma next_number_shorter s : (length (next_number s).2 <= length s)%nat /\ (s <> [] -> (length (next_number s).2 < length s)%nat).
Proof.
  induction s as [|c s [IH1 IH2]]; [done|]. cbn [next_number]. destruct (char_number c =? 0); simpl; [|split; intros; lia].
  split; intros; lia.
Qed.

Lemma read_block_shorter k i len inb s : (length (read_block k i len inb s).2 <= length s)%nat.
Proof.
  revert i len inb s. induction k as [|k IH]; intros i len inb s; [by destruct s|]. destruct s as [|c s]; [done|]. cbn [read_block].
  pose proof (proj1 (next_number_shorter (c :: s))) as Hn. destruct (next_number (c :: s)) as [v [|d rest]]; (etrans; [apply IH|]); done.
Qed.

Lemma read_block_strict k i len inb s : s <> [] -> (length (read_block (S k) i len inb s).2 < length s)%nat.
Proof.
  intros Hs. destruct s as [|c s]; [done|]. cbn [read_block]. pose proof (proj2 (next_number_shorter (c :: s)) Hs) as H.
  destruct (next_number (c :: s)) as [v [|d rest]]; (eapply Nat.le_lt_trans; [apply read_block_shorter|exact H]).
Qed.

Lemma decode_loop_fuel n m inb s : (length s <= n)%nat -> (length s <= m)%nat -> decode_loop n inb s = decode_loop m inb s.
Proof.
  revert m inb s. induction n as [|n IH]; intros m inb s Hn Hm; [destruct s; [by destruct m|simpl in Hn; lia]|].
  destruct s as [|c s]; [by destruct m|]. destruct m as [|m]; [simpl in Hm; lia|]. cbn [decode_loop].
  assert (Hr : (length (read_block 4 0 0 inb (c :: s)).2 < length (c :: s))%nat)
    by by apply (read_block_strict 3).
  destruct (read_block 4 0 0 inb (c :: s)) as [[l b] r]. simpl in *. f_equal. apply IH; lia.
Qed.

(** A text without a line end loses its last byte: the number of its last character is
    not used. *)
Example decode64_no_line_end : decode64 [0; 0; 0; 0] (to_bytes "QUJD") = [65; 66].
Proof. reflexivity. Qed.

Lemma decode64_encode64_witness : decode64 [7; 7; 7; 7] (encode64 [65; 66; 67; 255; 0] 4) = [65; 66; 67; 255; 0].
Proof. apply decode64_encode64; [repeat constructor; lia|done]. Defined.

Example encode64_ABCD : encode64 [65; 66; 67; 68] 72 = to_bytes "QUJDRA==" ++ crlf.
Proof. reflexivity. Qed.
